(* ===== verification/_CoqProject ===== *)
-Q . S2P
Prelude.v
Rte.v
VirtioRing.v
Dma.v
VirtioNetDesc.v
Neon.v
VirtioNetDeq.v
VirtioNetEnq.v
VirtioNetExt.v
FeatureArc.v
PortGroup.v
PortqGroup.v
Pem.v
VirtioDev.v
Octep.v
Mbox.v
Workers.v
FlowAcl.v
FlowParser.v
FlowProfile.v
FlowMatch.v
FlowSafe.v
FlowApi.v
CtrlDma.v
VirtioNetdev.v
VirtioCq.v
