(* ===== verification/Prelude.v ===== *)
(** * A verification library for DAO (Data Accelerator Offload)

    DAO is a set of C libraries for Marvell OCTEON DPUs. The DPU presents
    virtio devices to a host; a host driver configures them through registers
    in a PCI BAR that the DPU polls, packets go through packed virtio rings
    that the DPU reads and writes by DMA, and applications process them in
    graphs of nodes, with flow rules, on worker cores that a control core can
    stop.

    ** Parts and files

    - [Prelude]: machine integers with their wrap-around written out, the
      outcomes of C code ([cres]: a result, a failed RTE_VERIFY, or an access
      or operation C leaves undefined), array access, scanning loops, the
      tactics [word], [case_bool], [reflect_bool], the databases [dao] and
      [daorw], and lemmas the other files share.
    - [Rte]: what the code uses of DPDK, as type classes with the documented
      behaviour as laws, and reference instances of them.
    - [VirtioRing] (lib/virtio/virtio_dev_priv.h): offsets into a packed ring
      with a wrap bit. They refine a counter that never wraps.
    - [Dma] (lib/common/dma.c, dao_dma.h): DMA channels. Enqueued segments are
      submitted exactly once and in order, an operation is reported complete
      when it is, the stores attached to a completion happen once, and a loop
      that waits for completions ends exactly when the device has reported
      them.
    - [VirtioNetDesc] (lib/virtio_net/virtio_net_priv.h and the service
      functions of virtio_netdev.c): fetching descriptors into the shadow ring
      and writing completions back. The two fetches refine a copy of the
      fetched descriptors; completions are written for exactly the completed
      descriptors, in order, and never overrun the ring.
    - [Neon]: the vector registers and intrinsics of [arm_neon.h] that the
      packet paths use, as functions on lanes.
    - [VirtioNetDeq] (lib/virtio_net/virtio_net_deq.c): receiving packets from
      the host, over [Dma] and the shadow ring of [VirtioNetDesc], in a vector
      and a scalar loop each. Copies are started once and in order, and the
      packets handed out are exactly the complete ones; the vector loop
      exchanges checksum requests, and two rings a host can write make the
      code fault or hang.
    - [VirtioNetEnq] (lib/virtio_net/virtio_net_enq.c): sending packets to the
      host. Each packet accepted is copied once and in order with its header
      in front, whichever loop handles it; a packet of several segments or
      longer than a buffer is spread over descriptors without loss, or stores
      past the arrays of the channel when they have no room for it.
    - [VirtioNetExt] (lib/virtio_net/virtio_net_deq_ext.c,
      virtio_net_enq_ext.c): both directions on buffers of the application.
      Copies are started once and in order, and a buffer is handed out when its
      copy is done; a descriptor longer than a buffer is copied wrongly.
    - [FeatureArc] (lib/featurearc): features of a graph arc. Adding respects
      the order constraints, enabling links the enabled features of an index in
      order, and a packet that is steered visits exactly those; disabling works
      at the ends of the list and fails in the middle.
    - [PortGroup], [PortqGroup] (lib/portgroup): groups of ports and of port
      queues, their iteration, and what happens on creation and deletion.
    - [Pem] (lib/pem/pem.c): the registry of polled register regions, one pass
      of the poll thread over them, and the BAR windows of the devices. The
      class [PemWorld] is what the poll thread needs of the world; clients
      instantiate it.
    - [VirtioDev] (lib/virtio/virtio_dev.c): the common configuration registers
      of a device. [VirtioEnv] is the class of the callbacks of a device type.
      The state is the device, the shadow of its registers and the environment;
      the handlers and [dao_virtio_common_cfg_cb] are functions on it.
      [poll_is_sweep] shows that a check of the region by the poll thread of
      [Pem] is one [sweep] over the eight register words. On sweeps: feature
      negotiation, the delays of DRIVER_OK and of queue_enable, reset.
    - [Octep] (kmod/vdpa/octeon_ep/octep_vdpa_hw.c): the host driver's register
      accesses as programs that interleave with any number of sweeps of the
      device before each access. For every schedule that gives the device
      enough polls during a wait ([fair]), reading and writing features,
      setting a queue's size and resetting reach the device as meant.
    - [Mbox] (lib/virtio/virtio_mbox.c, octep_vdpa_hw.c): the mailbox for the
      state of the queues on both sides, the device access by access with any
      number of its steps before each access of the host. The result of a
      request is given exactly by the steps of the device, with the two races
      of the protocol: the header in two writes, and the response bit before
      the signature.
    - [Workers] (lib/workers): the registry of cores, and the barrier as a step
      relation over the atomic accesses of the control core and the workers.
      The barrier stops all workers whenever it is taken; when it can be taken
      is characterised exactly, and includes a deadlock.
    - [FlowAcl] (lib/flow/flow_acl.c): the ACL table of a port over DPDK's ACL
      library ([RteAcl]). Adding and deleting rules preserve the invariant that
      relates the free list of action cells, the list of rules and the context;
      the effect of a burst lookup is given exactly, and what a rule matches is
      reduced to bytes under a mask.
    - [FlowParser], [FlowProfile] (lib/flow/flow_parser.c, default_profile.c
      and ovs_profile.c): the parser that turns a list of pattern items into the data
      and mask of a rule, layer by layer, and the two profiles with their
      extraction tables and key generation. [FlowMatch]: with the OVS profile,
      the rule compiled from a pattern matches the key of a packet exactly when
      the headers of the packet agree with the items, within the scope of the
      profile ([in_scope]), and rules outside it match other packets.
      [FlowSafe]: a pattern whose items point to the bytes the parser takes
      them to have does not make it fault, and three kinds of items that do not
      make it leave its buffers.
    - [FlowApi] (lib/flow/dao_flow.c, flow_hw_offload.c): the flows of a port,
      over [FlowAcl], the parser and the rules of the network driver
      ([RteFlow]). A created flow marks exactly the packets it describes, it is
      offloaded once, and destroying it restores the port but for three blocks
      of memory that are never freed; with an allocator that gives no more than
      it is asked for, creating it with hardware offload stores past an array;
      aging counts a rule twice.
    - [CtrlDma]: the DMA of the control path, two channels between the memory
      of the DPU and the memory of the host that complete copies in order, and
      the waits with a timeout around them.
    - [VirtioNetdev] (lib/virtio_net/virtio_netdev.c): the callbacks of a
      virtio-net device for status, queues and features, and its control
      commands. Setting DRIVER_OK selects the packet functions by exactly the
      negotiated features, enabling a queue sets it up and gives out the
      interrupts again, a reset removes all, and the hash reports are those of
      the virtio standard but for three kinds of packets.
    - [VirtioCq] (lib/virtio/virtio_dev.c, virtio_netdev.c): the control queue
      over [CtrlDma] and [VirtioNetdev]. A notification makes the device run
      the command the driver put in front of the end of the ring, and
      acknowledge it.

    ** Conventions

    Structures are records and their pointers are addresses into finite maps
    where sharing matters (regions, rules, memory words of the rings), C arrays
    are lists accessed with [cget] and [cset], which fail outside the array,
    and loops are fixpoints. A DPDK or kernel function is an operation of a
    class or an argument; log output, spinlocks and memory barriers are left
    out.

    ** Fuel

    Every loop that is not structural has fuel, and the theorems show that it
    is enough: [FETCH_FUEL] is [DAO_DMA_MAX_POINTER] = 15, the number of cells
    of the segment arrays, of which a fetch needs at most two; steering has 66
    steps for at most 64 features; the loops over port groups get the size of
    the table; the bit loops of [Pem] get 63 and 64 steps for a 64-bit word,
    [check_words] the number of words of the region; [self_loop] and
    [init_loop] of [Workers] get the number of cores, [link_free] of [FlowAcl]
    the number of cells. A wait of [CtrlDma] polls [VIRTIO_DMA_TMO_MS] = 3000
    times, as the code does; the loops over queues of [VirtioNetdev] get the
    number of queues. In [VirtioNetDeq], [VirtioNetEnq] and [VirtioNetExt] the
    vector loops get a quarter of the count and the scalar ones the rest;
    [SEG_FUEL] is 16, as each turn fills one of the 15 cells of a channel; the
    searches for the end of a packet return [None] without fuel, and the size
    of the ring is enough when a descriptor ends a packet. The loops of
    [FlowParser] over VLAN tags, MPLS labels and IPv6 extensions get the length
    of the pattern, and the count of the nibbles of a 32-bit word 32 steps. A
    sweep has 8 words. The reads of a wait in [Mbox] are an argument, since the
    code bounds them by time.

    ** What is not modelled

    The PCI capabilities in virtio_dev.c, the configuration space written by
    dao_virtio_netdev_init, the start and the end of the flow library with the
    memory all ports share, the debug output of lib/flow, netlink, pal, vfio
    and sdp (system and device I/O), small helpers of lib/common, and the
    applications. Reordering of memory accesses is not modelled: where cores
    interleave, accesses are atomic and happen one at a time. In [FlowAcl] the
    parsed flow and the key of a packet are arguments, which [FlowApi] fills in.

    ** Plan

    What could follow: the dynamic strings and the representor messages of the
    OVS offload application. *)
From stdpp Require Import base option list numbers gmap strings relations.

Local Open Scope Z_scope.

(** ** Machine integers

    A C unsigned integer of width [w] is a [Z]; every C conversion to such a
    type is written out with one of the functions below. *)

Definition u8 (x : Z) : Z := x mod 0x100.
Definition u16 (x : Z) : Z := x mod 0x10000.
Definition u32 (x : Z) : Z := x mod 0x100000000.
Definition u64 (x : Z) : Z := x mod 0x10000000000000000.

(** Conversion to [int32_t] / [int]: two's complement. *)
Definition i32 (x : Z) : Z :=
  let r := u32 x in if r <? 0x80000000 then r else r - 0x100000000.

Definition is_u8 (x : Z) : Prop := 0 <= x < 0x100.
Definition is_u16 (x : Z) : Prop := 0 <= x < 0x10000.
Definition is_u32 (x : Z) : Prop := 0 <= x < 0x100000000.
Definition is_u64 (x : Z) : Prop := 0 <= x < 0x10000000000000000.

(** The errno values the code returns (Linux). *)
Definition ENOENT : Z := 2.
Definition EIO : Z := 5.
Definition ENOMEM : Z := 12.
Definition EFAULT : Z := 14.
Definition EINVAL : Z := 22.
Definition ENOSPC : Z := 28.

(** C booleans as integers. *)
Definition b2z (b : bool) : Z := if b then 1 else 0.

(** ** Outcomes of C code

    A C function either returns, or stops in [rte_panic] (a failed
    [RTE_VERIFY] or [assert]), or performs an access or an operation that C
    leaves undefined (an index outside an array, an invalid pointer, a shift
    by the width or more). *)
Inductive cres (A : Type) : Type :=
  | Ret (a : A)
  | Panic
  | Fault.
Arguments Ret {_} _.
Arguments Panic {_}.
Arguments Fault {_}.

#[global] Instance cres_mret : MRet cres := fun A a => Ret a.
#[global] Instance cres_mbind : MBind cres := fun A B f m =>
  match m with Ret a => f a | Panic => Panic | Fault => Fault end.

(** [RTE_VERIFY(b)] *)
Definition verify (b : bool) : cres unit := if b then Ret tt else Panic.

(** [l[i]] and [l[i] = x] on a C array with as many cells as [l]. *)
Definition cget {A} (l : list A) (i : Z) : cres A :=
  if i <? 0 then Fault
  else match l !! Z.to_nat i with Some x => Ret x | None => Fault end.

Definition cset {A} (l : list A) (i : Z) (x : A) : cres (list A) :=
  if (0 <=? i) && (i <? Z.of_nat (length l))
  then Ret (<[Z.to_nat i := x]> l) else Fault.

(** ** Scanning loops

    [for (i = i0; i < max && !stop(l[i]); i++) ;] *)
Fixpoint scan {A} (stop : A -> bool) (l : list A) (max : Z) (fuel : nat) (i : Z)
  : cres Z :=
  if max <=? i then Ret i
  else
    match cget l i with
    | Ret x =>
        if stop x then Ret i
        else match fuel with
             | O => Fault
             | S fuel => scan stop l max fuel (i + 1)
             end
    | Panic => Panic
    | Fault => Fault
    end.

(** ** Automation *)

Create HintDb dao discriminated.
Create Rewrite HintDb daorw.

(** Linear arithmetic with the width conversions unfolded. *)
Ltac word :=
  unfold is_u8, is_u16, is_u32, is_u64, u8, u16, u32, u64 in *;
  Z.div_mod_to_equations; lia.

(** Case analysis on the boolean comparison that blocks a goal or a
    hypothesis, turned into the proposition it decides. *)
Ltac case_bool :=
  match goal with
  | |- context [if ?b then _ else _] => destruct b eqn:?
  | H : context [if ?b then _ else _] |- _ => destruct b eqn:?
  end.

Ltac reflect_bool :=
  repeat match goal with
  | H : (_ && _)%bool = true |- _ => apply andb_true_iff in H as [? ?]
  | H : (_ || _)%bool = false |- _ => apply orb_false_iff in H as [? ?]
  | H : (_ <? _) = true |- _ => apply Z.ltb_lt in H
  | H : (_ <? _) = false |- _ => apply Z.ltb_ge in H
  | H : (_ <=? _) = true |- _ => apply Z.leb_le in H
  | H : (_ <=? _) = false |- _ => apply Z.leb_gt in H
  | H : (_ =? _) = true |- _ => apply Z.eqb_eq in H
  | H : (_ =? _) = false |- _ => apply Z.eqb_neq in H
  | H : negb _ = true |- _ => apply negb_true_iff in H
  | H : negb _ = false |- _ => apply negb_false_iff in H
  end.

(** ** Generic lemmas *)

Lemma u16_id x : is_u16 x -> u16 x = x.
Proof. intros; word. Qed.
Lemma u32_id x : is_u32 x -> u32 x = x.
Proof. intros; word. Qed.
Lemma u64_id x : is_u64 x -> u64 x = x.
Proof. intros; word. Qed.
Lemma u8_id x : is_u8 x -> u8 x = x.
Proof. intros; word. Qed.
Lemma u8_bound x : is_u8 (u8 x).
Proof. word. Qed.
Lemma u16_bound x : is_u16 (u16 x).
Proof. word. Qed.
Lemma u32_bound x : is_u32 (u32 x).
Proof. word. Qed.
Lemma u64_bound x : is_u64 (u64 x).
Proof. word. Qed.
Lemma u16_u16 x : u16 (u16 x) = u16 x.
Proof. word. Qed.

#[export] Hint Resolve u8_bound u16_bound u32_bound u64_bound : dao.
#[export] Hint Rewrite u16_u16 : daorw.
#[export] Hint Rewrite u8_id u16_id u32_id u64_id using word : daorw.

(** The low bits of a word, as a [land] and as a remainder. *)
Lemma land_ones_mod x n : 0 <= n -> Z.land x (Z.ones n) = x mod 2 ^ n.
Proof. intros. by rewrite Z.land_ones. Qed.

Lemma testbit_small x n i : 0 <= x < 2 ^ n -> n <= i -> Z.testbit x i = false.
Proof.
  intros [Hx0 Hx] Hi.
  destruct (decide (0 <= n)) as [Hn|Hn].
  - rewrite <- (Z.mod_small x (2 ^ n)) by lia.
    apply Z.mod_pow2_bits_high. lia.
  - rewrite Z.pow_neg_r in Hx by lia. lia.
Qed.

Lemma testbit_pow2 n i : 0 <= n -> Z.testbit (2 ^ n) i = bool_decide (n = i).
Proof.
  intros Hn. destruct (decide (n = i)) as [->|Hne].
  - rewrite Z.pow2_bits_true, bool_decide_true by done. done.
  - rewrite Z.pow2_bits_false, bool_decide_false by done. done.
Qed.

Lemma cget_Ret {A} (l : list A) i x :
  cget l i = Ret x <-> 0 <= i /\ l !! Z.to_nat i = Some x.
Proof.
  unfold cget. case_bool; reflect_bool.
  - split; [done|]. intros [? _]. lia.
  - destruct (l !! Z.to_nat i); split; [|intros [??]| |intros [??]]; naive_solver.
Qed.

Lemma cget_in_range {A} (l : list A) i :
  0 <= i < Z.of_nat (length l) -> exists x, cget l i = Ret x.
Proof.
  intros Hi. destruct (lookup_lt_is_Some_2 l (Z.to_nat i)) as [x Hx]; [lia|].
  exists x. apply cget_Ret. split; [lia|done].
Qed.

Lemma cget_lookup {A} (l : list A) i :
  0 <= i < Z.of_nat (length l) -> exists x, cget l i = Ret x /\ l !! Z.to_nat i = Some x.
Proof. intros Hi. destruct (cget_in_range l i Hi) as [x Hx]. exists x. split; [done|]. by apply cget_Ret in Hx as [_ ?]. Qed.

Lemma cget_out {A} (l : list A) i :
  i < 0 \/ Z.of_nat (length l) <= i -> cget l i = Fault.
Proof.
  unfold cget. intros Hi. case_bool; [done|]. reflect_bool.
  rewrite lookup_ge_None_2 by lia. done.
Qed.

Lemma cset_in_range {A} (l : list A) i x :
  0 <= i < Z.of_nat (length l) -> cset l i x = Ret (<[Z.to_nat i := x]> l).
Proof.
  intros Hi. unfold cset.
  rewrite (proj2 (Z.leb_le _ _)), (proj2 (Z.ltb_lt _ _)) by lia. done.
Qed.

Lemma cset_out {A} (l : list A) i x : i < 0 \/ Z.of_nat (length l) <= i -> cset l i x = Fault.
Proof. unfold cset. intros Hi. destruct (_ && _) eqn:E; [|done]. reflect_bool. lia. Qed.

Lemma cset_Ret {A} (l l' : list A) i x :
  cset l i x = Ret l' ->
  0 <= i < Z.of_nat (length l) /\ l' = <[Z.to_nat i := x]> l.
Proof.
  unfold cset. case_bool; [|done]. reflect_bool. intros [= <-]. split; [lia|done].
Qed.

Lemma bind_Ret {A B} (m : cres A) (f : A -> cres B) b :
  m ≫= f = Ret b <-> exists a, m = Ret a /\ f a = Ret b.
Proof.
  destruct m as [a| |]; cbn; split.
  - intros <-. by exists a.
  - by intros (a' & [= <-] & ?).
  - done.
  - by intros (a' & ? & ?).
  - done.
  - by intros (a' & ? & ?).
Qed.

(** The scan stops at the first cell at or after [i] that satisfies [stop],
    or at [max]; it never leaves the array. *)
Lemma scan_spec {A} (stop : A -> bool) l max : forall fuel i,
  0 <= i -> max <= Z.of_nat (length l) -> max - i <= Z.of_nat fuel ->
  exists j, scan stop l max fuel i = Ret j /\ i <= j /\ (j <= max \/ j = i) /\
    (forall k x, i <= k < j -> l !! Z.to_nat k = Some x -> stop x = false) /\
    (j < max -> exists x, l !! Z.to_nat j = Some x /\ stop x = true).
Proof.
  induction fuel as [|fuel IH]; intros i Hi Hlen Hfuel; cbn.
  - rewrite (proj2 (Z.leb_le _ _)) by lia. exists i. repeat split; try lia.
  - destruct (max <=? i) eqn:E; reflect_bool.
    { exists i. repeat split; try lia. }
    destruct (cget_in_range l i) as [x Hx]; [lia|]. rewrite Hx.
    apply cget_Ret in Hx as [_ Hx]. destruct (stop x) eqn:Hs.
    { exists i. repeat split; try lia. eauto. }
    destruct (IH (i + 1)) as (j & Hj & Hij & Hjm & Hbefore & Hat); [lia..|].
    exists j. split; [done|]. split; [lia|]. split; [lia|]. split; [|done].
    intros k y Hk Hy. destruct (decide (k = i)) as [->|]; [congruence|].
    apply (Hbefore k y); [lia|done].
Qed.

(** Filters that keep nothing, and filters that agree on a list. *)
Lemma filter_none {A} (P : A -> Prop) `{!forall x, Decision (P x)} (l : list A) :
  Forall (fun x => ~ P x) l -> filter P l = [].
Proof. induction 1 as [|x l Hx _ IH]; [done|]. by rewrite filter_cons_False. Qed.

Lemma filter_all {A} (P : A -> Prop) `{!forall x, Decision (P x)} (l : list A) :
  Forall P l -> filter P l = l.
Proof. induction 1 as [|x l Hx _ IH]; [done|]. by rewrite filter_cons_True, IH. Qed.

Lemma filter_ext_in {A} (P Q : A -> Prop) `{!forall x, Decision (P x), !forall x, Decision (Q x)} (l : list A) :
  (forall x, x ∈ l -> P x <-> Q x) -> filter P l = filter Q l.
Proof.
  induction l as [|x l IH]; intros Hpq; [done|]. rewrite !filter_cons, IH by (intros; apply Hpq; by right).
  pose proof (Hpq x (list_elem_of_here _ _)). repeat case_decide; tauto.
Qed.
