(* ===== verification/Rte.v ===== *)
(** * What the code relies on of DPDK

    DPDK is not part of the repository. Its bit macros are written with their
    documented values; every DPDK function the modelled code calls is an
    operation of one of the classes below, with its documented behaviour as
    the laws of the class. Each class has a reference instance, so that the
    theorems proved against it can be evaluated on concrete inputs. *)
From stdpp Require Import base option list numbers strings gmap fin_sets.
From stdpp Require Import infinite.
From S2P Require Import Prelude.

Local Open Scope Z_scope.

(** [RTE_BIT64(nr)]: the 64-bit word with bit [nr] set, for [nr < 64]. *)
Definition RTE_BIT64 (nr : Z) : Z := u64 (Z.shiftl 1 nr).

Definition RTE_MAX (a b : Z) : Z := Z.max a b.
Definition RTE_MIN (a b : Z) : Z := Z.min a b.

(** ** rte_bitops.h *)

(** [rte_fls_u64(x)]: one more than the index of the most significant set
    bit, 0 for 0. [rte_ctz64(x)] (and [__builtin_ctzll]): the index of the
    least significant set bit of a nonzero word. [rte_popcount64]: the number
    of set bits. *)
Class RteBitops := {
  rte_fls_u64 : Z -> Z;
  rte_ctz64 : Z -> Z;
  rte_popcount64 : Z -> Z;
}.

Class RteBitopsLaws (B : RteBitops) : Prop := {
  fls_zero : rte_fls_u64 0 = 0;
  fls_pos x : is_u64 x -> x <> 0 ->
    1 <= rte_fls_u64 x <= 64 /\
    Z.testbit x (rte_fls_u64 x - 1) = true /\
    (forall i, rte_fls_u64 x <= i -> Z.testbit x i = false);
  ctz_pos x : is_u64 x -> x <> 0 ->
    0 <= rte_ctz64 x < 64 /\
    Z.testbit x (rte_ctz64 x) = true /\
    (forall i, 0 <= i < rte_ctz64 x -> Z.testbit x i = false);
  popcount_spec x : is_u64 x ->
    rte_popcount64 x =
    Z.of_nat (length (filter (fun i : nat => Z.testbit x (Z.of_nat i) = true) (seq 0 64)));
}.

(** [rte_bsf64_safe(v, &pos)]: 0 for 0, else 1 with [pos] the index of the
    least significant set bit; [None] stands for the 0 return. *)
Definition rte_bsf64_safe `{RteBitops} (v : Z) : option Z :=
  if v =? 0 then None else Some (rte_ctz64 v).

(** A reference implementation: a search over the bit positions. *)
Fixpoint ctz_from (x : Z) (fuel : nat) (i : Z) : Z :=
  match fuel with
  | O => i
  | S fuel => if Z.testbit x i then i else ctz_from x fuel (i + 1)
  end.

#[export] Instance ref_bitops : RteBitops := {
  rte_fls_u64 x := if x =? 0 then 0 else Z.log2 x + 1;
  rte_ctz64 x := ctz_from x 63 0;
  rte_popcount64 x :=
    Z.of_nat (length (filter (fun i : nat => Z.testbit x (Z.of_nat i) = true) (seq 0 64)));
}.

Lemma ctz_from_spec x : forall fuel i,
  0 <= i -> (exists j, i <= j <= i + Z.of_nat fuel /\ Z.testbit x j = true) ->
  i <= ctz_from x fuel i <= i + Z.of_nat fuel /\
  Z.testbit x (ctz_from x fuel i) = true /\
  (forall k, i <= k < ctz_from x fuel i -> Z.testbit x k = false).
Proof.
  induction fuel as [|fuel IH]; intros i Hi (j & Hj & Hbit); cbn.
  - assert (j = i) as -> by lia. repeat split; try lia. done.
  - destruct (Z.testbit x i) eqn:E; [repeat split; try lia; done|].
    destruct (IH (i + 1)) as (Hr & Hb & Hlow); [lia| |].
    + exists j. split; [|done]. assert (j <> i) by congruence. lia.
    + split; [lia|]. split; [done|]. intros k Hk.
      destruct (decide (k = i)) as [->|]; [done|]. apply Hlow. lia.
Qed.

Lemma u64_pow2 x : is_u64 x <-> 0 <= x < 2 ^ 64.
Proof. unfold is_u64. change (2 ^ 64) with 0x10000000000000000. done. Qed.

#[export] Instance ref_bitops_laws : RteBitopsLaws ref_bitops.
Proof.
  split.
  - done.
  - intros x Hx Hne. cbn. rewrite (proj2 (Z.eqb_neq _ _)) by done.
    assert (0 < x) by (unfold is_u64 in Hx; lia).
    pose proof (Z.log2_nonneg x). rewrite Z.add_simpl_r.
    assert (Z.log2 x < 64).
    { apply Z.log2_lt_pow2; [done|]. by destruct (proj1 (u64_pow2 x) Hx). }
    repeat split; [lia|lia|by apply Z.bit_log2|].
    intros i Hi. apply Z.bits_above_log2; lia.
  - intros x Hx Hne. cbn -[ctz_from].
    assert (0 < x) by (unfold is_u64 in Hx; lia).
    pose proof (Z.log2_nonneg x).
    assert (Z.log2 x < 64).
    { apply Z.log2_lt_pow2; [done|]. by destruct (proj1 (u64_pow2 x) Hx). }
    destruct (ctz_from_spec x 63 0) as (Hr & Hb & Hlow); [done| |].
    + exists (Z.log2 x). split; [lia|by apply Z.bit_log2].
    + repeat split; [lia|lia|done|]. intros. by apply Hlow.
  - done.
Qed.

(** ** Bits of words built with [RTE_BIT64] *)

Lemma RTE_BIT64_pow2 n : 0 <= n < 64 -> RTE_BIT64 n = 2 ^ n.
Proof.
  intros Hn. unfold RTE_BIT64. rewrite Z.shiftl_1_l.
  apply u64_id. apply u64_pow2. split; [lia|]. apply Z.pow_lt_mono_r; lia.
Qed.

Lemma u64_testbit x i : Z.testbit (u64 x) i = (i <? 64) && Z.testbit x i.
Proof.
  unfold u64. change 0x10000000000000000 with (2 ^ 64).
  destruct (i <? 64) eqn:E; reflect_bool; cbn.
  - destruct (decide (0 <= i)); [|by rewrite !Z.testbit_neg_r by lia].
    by rewrite Z.mod_pow2_bits_low.
  - by rewrite Z.mod_pow2_bits_high by lia.
Qed.

Lemma testbit_RTE_BIT64 n i :
  0 <= n < 64 -> Z.testbit (RTE_BIT64 n) i = bool_decide (n = i).
Proof. intros. rewrite RTE_BIT64_pow2 by done. apply testbit_pow2. lia. Qed.

(** [w & RTE_BIT64(n)] is nonzero exactly when bit [n] of [w] is set. *)
Lemma land_RTE_BIT64 w n :
  0 <= n < 64 -> (Z.land w (RTE_BIT64 n) =? 0) = negb (Z.testbit w n).
Proof.
  intros Hn. destruct (Z.testbit w n) eqn:E; cbn.
  - apply Z.eqb_neq. intros H0.
    assert (Z.testbit (Z.land w (RTE_BIT64 n)) n = true) as Ht.
    { rewrite Z.land_spec, E, testbit_RTE_BIT64, bool_decide_true by done. done. }
    rewrite H0, Z.bits_0 in Ht. done.
  - apply Z.eqb_eq. apply Z.bits_inj'. intros i Hi.
    rewrite Z.land_spec, testbit_RTE_BIT64, Z.bits_0 by done.
    destruct (decide (n = i)) as [->|].
    + by rewrite E.
    + rewrite bool_decide_false by done. by rewrite andb_false_r.
Qed.

(** ** rte_dmadev.h *)

(** [struct rte_dma_sge] *)
Record rte_dma_sge := { sge_addr : Z; sge_length : Z }.

(** A scatter-gather copy as it was handed to a virtual DMA channel. *)
Record dma_op := {
  op_src : list rte_dma_sge;
  op_dst : list rte_dma_sge;
  op_flags : Z;
}.

(** The calls, on a device state [D]. [rte_dma_copy_sg] returns the index of
    the operation or a negative error; [rte_dma_completed] returns how many
    operations completed and the error flag it stores. *)
Class RteDma (D : Type) := {
  rte_dma_is_valid : Z -> D -> bool;
  rte_dma_copy_sg : Z -> Z -> list rte_dma_sge -> list rte_dma_sge -> Z -> Z -> Z ->
    D -> Z * D;
  rte_dma_submit : Z -> Z -> D -> D;
  rte_dma_completed : Z -> Z -> Z -> D -> (Z * bool) * D;
}.

(** The operations a channel has accepted so far, and how many of them the
    last doorbell ([rte_dma_submit]) covered. A copy that returns an error
    enqueues nothing; a copy that succeeds enqueues its first [nb_src] and
    [nb_dst] elements; a submit rings the doorbell for everything enqueued. *)
Class RteDmaLaws (D : Type) `{RteDma D} := {
  dma_accepted : D -> Z -> Z -> list dma_op;
  dma_rung : D -> Z -> Z -> nat;
  copy_sg_accepted dev vc src dst ns nd fl d rc d' :
    rte_dma_copy_sg dev vc src dst ns nd fl d = (rc, d') ->
    (forall dev' vc', dma_accepted d' dev' vc' =
      if (0 <=? rc) && (dev' =? dev) && (vc' =? vc)
      then dma_accepted d dev' vc' ++
        [{| op_src := take (Z.to_nat ns) src; op_dst := take (Z.to_nat nd) dst;
            op_flags := fl |}]
      else dma_accepted d dev' vc') /\
    (forall dev' vc', dma_rung d' dev' vc' = dma_rung d dev' vc');
  submit_accepted dev vc d dev' vc' :
    dma_accepted (rte_dma_submit dev vc d) dev' vc' = dma_accepted d dev' vc';
  submit_rung dev vc d dev' vc' :
    dma_rung (rte_dma_submit dev vc d) dev' vc' =
    if (dev' =? dev) && (vc' =? vc) then length (dma_accepted d dev vc)
    else dma_rung d dev' vc';
  completed_bound dev vc nb d n e d' :
    0 <= nb -> rte_dma_completed dev vc nb d = ((n, e), d') -> 0 <= n <= nb;
}.

(** A reference device: it records what it accepts, refuses every copy when
    [ref_full] is set, and reports the completion counts it was given. *)
Record ref_dma := {
  ref_full : bool;
  ref_log : list (Z * Z * dma_op);
  ref_bells : list (Z * Z * nat);
  ref_compl : list (Z * bool);
}.

Definition ref_ops (d : ref_dma) (dev vc : Z) : list dma_op :=
  snd <$> filter (fun e => e.1.1 = dev /\ e.1.2 = vc) (ref_log d).

#[export] Instance ref_dma_ops : RteDma ref_dma := {
  rte_dma_is_valid dev d := 0 <=? dev;
  rte_dma_copy_sg dev vc src dst ns nd fl d :=
    if ref_full d then (- ENOSPC, d)
    else (Z.of_nat (length (ref_ops d dev vc)),
      {| ref_full := ref_full d;
         ref_log := ref_log d ++ [(dev, vc, {| op_src := take (Z.to_nat ns) src;
           op_dst := take (Z.to_nat nd) dst; op_flags := fl |})];
         ref_bells := ref_bells d; ref_compl := ref_compl d |});
  rte_dma_submit dev vc d :=
    {| ref_full := ref_full d; ref_log := ref_log d;
       ref_bells := (dev, vc, length (ref_ops d dev vc)) :: ref_bells d;
       ref_compl := ref_compl d |};
  rte_dma_completed dev vc nb d :=
    match ref_compl d with
    | [] => ((0, false), d)
    | (n, e) :: rest =>
        ((Z.max 0 (Z.min n nb), e),
         {| ref_full := ref_full d; ref_log := ref_log d; ref_bells := ref_bells d;
            ref_compl := rest |})
    end;
}.

Fixpoint ref_rung (bells : list (Z * Z * nat)) (dev vc : Z) : nat :=
  match bells with
  | [] => 0
  | (dev', vc', n) :: bells =>
      if (dev =? dev') && (vc =? vc') then n else ref_rung bells dev vc
  end.

#[export] Instance ref_dma_laws : RteDmaLaws ref_dma.
Proof.
  refine {| dma_accepted := ref_ops; dma_rung d := ref_rung (ref_bells d) |}.
  - intros dev vc src dst ns nd fl d rc d'. cbn. destruct (ref_full d); intros [= <- <-].
    + split; done.
    + rewrite (proj2 (Z.leb_le _ _)) by lia. split; [|done]. intros dev' vc'.
      unfold ref_ops. cbn [ref_log]. rewrite filter_app, fmap_app. cbn [andb].
      destruct (Z.eqb_spec dev' dev), (Z.eqb_spec vc' vc); cbn [andb]; subst.
      1: by rewrite (filter_cons_True _ _ []).
      all: rewrite (filter_cons_False _ _ []) by (cbn; intros [? ?]; done);
        by rewrite app_nil_r.
  - done.
  - done.
  - intros dev vc nb d n e d' Hnb. cbn. destruct (ref_compl d) as [|[m b] rest];
      intros [= <- <- <-]; lia.
Defined.

(** ** rte_graph.h and the heap *)

(** [struct rte_node_register] *)
Record rte_node_register := { node_name : string; node_id : Z }.

Definition RTE_NODE_ID_INVALID : Z := 0xFFFFFFFF.
Definition RTE_EDGE_ID_INVALID : Z := 0xFFFF.
Definition RTE_GRAPH_NAMESIZE : nat := 64.

(** The node registry and the heap, in one environment [E].
    [rte_node_edge_get] stands for both forms of the call: the names of the
    next nodes, of which the form with a null buffer returns the size in
    bytes. [rte_node_edge_update id RTE_EDGE_ID_INVALID names] appends edges.
    [malloc] returns [None] for a null pointer. *)
Class RteGraph (E : Type) := {
  rte_node_id_to_name : Z -> E -> option string;
  rte_node_edge_get : Z -> E -> list string;
  rte_node_edge_count : Z -> E -> Z;
  rte_node_edge_update : Z -> Z -> list string -> E -> Z * E;
  malloc : Z -> E -> option Z * E;
  free : Z -> E -> E;
}.

Class RteGraphLaws (E : Type) `{RteGraph E} := {
  live : E -> gset Z;
  edge_count_spec id e : rte_node_edge_count id e = Z.of_nat (length (rte_node_edge_get id e));
  edge_append_spec id name e rc e' :
    rte_node_edge_update id RTE_EDGE_ID_INVALID [name] e = (rc, e') ->
    (forall id', rte_node_edge_get id' e' =
       if bool_decide (rc <> RTE_EDGE_ID_INVALID /\ id' = id)
       then rte_node_edge_get id' e ++ [name] else rte_node_edge_get id' e) /\
    (forall id', rte_node_id_to_name id' e' = rte_node_id_to_name id' e) /\ live e' = live e;
  malloc_spec n e o e' :
    malloc n e = (o, e') ->
    (forall id, rte_node_edge_get id e' = rte_node_edge_get id e) /\
    (forall id, rte_node_id_to_name id e' = rte_node_id_to_name id e) /\
    match o with
    | Some p => p ∉ live e /\ live e' = {[p]} ∪ live e
    | None => live e' = live e
    end;
  free_spec p e :
    (forall id, rte_node_edge_get id (free p e) = rte_node_edge_get id e) /\
    (forall id, rte_node_id_to_name id (free p e) = rte_node_id_to_name id e) /\
    live (free p e) = live e ∖ {[p]};
}.

(** A reference environment: nodes with their names and edges, the live
    blocks, and how many more allocations succeed. *)
Record ref_graph := {
  rg_names : gmap Z string;
  rg_edges : gmap Z (list string);
  rg_live : gset Z;
  rg_budget : nat;
}.

Definition rg_get (id : Z) (e : ref_graph) : list string := default [] (rg_edges e !! id).

#[export] Instance ref_graph_ops : RteGraph ref_graph := {
  rte_node_id_to_name id e := rg_names e !! id;
  rte_node_edge_get := rg_get;
  rte_node_edge_count id e := Z.of_nat (length (rg_get id e));
  rte_node_edge_update id _ names e :=
    (0, {| rg_names := rg_names e; rg_edges := <[id := rg_get id e ++ names]> (rg_edges e);
           rg_live := rg_live e; rg_budget := rg_budget e |});
  malloc _ e :=
    match rg_budget e with
    | O => (None, e)
    | S k => (Some (fresh (rg_live e)),
              {| rg_names := rg_names e; rg_edges := rg_edges e;
                 rg_live := {[fresh (rg_live e)]} ∪ rg_live e; rg_budget := k |})
    end;
  free p e := {| rg_names := rg_names e; rg_edges := rg_edges e;
                 rg_live := rg_live e ∖ {[p]}; rg_budget := rg_budget e |};
}.

#[export] Instance ref_graph_laws : RteGraphLaws ref_graph.
Proof.
  refine {| live := rg_live |}.
  - done.
  - intros id name e rc e'. cbn. intros [= <- <-]. split; [|done]. intros id'. unfold rg_get at 1. cbn.
    destruct (decide (id' = id)) as [->|].
    + rewrite lookup_insert_eq, bool_decide_true by done. done.
    + rewrite lookup_insert_ne, bool_decide_false by (done || intros [_ ?]; done). done.
  - intros n e o e'. cbn. destruct (rg_budget e) as [|k]; intros [= <- <-].
    + done.
    + split; [done|]. split; [done|]. split; [apply is_fresh|done].
  - done.
Defined.
