(* ===== verification/VirtioRing.v ===== *)
(** * Packed virtqueue offsets (lib/virtio/virtio_dev_priv.h)

    A descriptor offset is a 16-bit word: bits 0..14 hold the position in a
    ring of [q_sz] descriptors (a power of two), bit 15 the wrap counter. This
    file models the offset arithmetic and proves that it implements a plain
    counter of descriptors. *)
From stdpp Require Import base option list numbers.
From S2P Require Import Prelude Rte.

Local Open Scope Z_scope.

Definition DESC_ENTRY_SZ : Z := 16.

Definition DESC_SZ (x : Z) : Z :=
  u64 (Z.land (u64 x) (u64 (Z.lnot (RTE_BIT64 15))) * DESC_ENTRY_SZ).

Definition DESC_PTR_OFF (b i o : Z) : Z := u64 (b + DESC_SZ i + o).

Definition DESC_OFF (i : Z) : Z := Z.land (u16 i) (u64 (Z.lnot (RTE_BIT64 15))).

Definition desc_off_add (a b q_sz : Z) : Z :=
  let sum := u16 (a + b) in
  let mask := u16 (Z.land (u64 (Z.lnot (q_sz - 1))) (u64 (Z.lnot (RTE_BIT64 15)))) in
  let sum := u16 (sum + mask) in
  u16 (Z.land sum (Z.lnot mask)).

Definition desc_off_diff_no_wrap (a b q_sz : Z) : Z :=
  if Z.land a (RTE_BIT64 15) =? Z.land b (RTE_BIT64 15)
  then u16 (a - b)
  else u16 (u64 (q_sz - Z.land b (u64 (RTE_BIT64 15 - 1)))).

Definition desc_off_diff (a b q_sz : Z) : Z :=
  if Z.land a (RTE_BIT64 15) =? Z.land b (RTE_BIT64 15)
  then u16 (u64 (DESC_OFF a - DESC_OFF b))
  else u16 (u64 (q_sz - Z.land b (u64 (RTE_BIT64 15 - 1)) + DESC_OFF a)).

(** ** The abstract ring position

    Counting descriptors from the first one of the first lap, descriptor [n]
    sits at position [n mod q_sz] of lap [n / q_sz]; the wrap bit is the parity
    of the lap. *)
Definition ring_enc (q_sz n : Z) : Z := n mod q_sz + 0x8000 * ((n / q_sz) mod 2).

(** The ring sizes the offset format can express. *)
Definition ring_size (q_sz : Z) : Prop := exists k, 0 <= k <= 15 /\ q_sz = 2 ^ k.

(** ** Refinement lemmas *)

(** Masking out bits [k..14] keeps the position in a ring of [2^k] and the
    wrap bit. *)
Lemma land_lnot_mask s k : 0 <= k <= 15 ->
  Z.land s (Z.lnot (2 ^ 15 - 2 ^ k)) = s mod 2 ^ k + 2 ^ 15 * (s / 2 ^ 15).
Proof.
  intros Hk.
  assert (2 ^ 15 - 2 ^ k = Z.shiftl (Z.ones (15 - k)) k) as ->.
  { rewrite Z.shiftl_mul_pow2, Z.ones_equiv by lia.
    unfold Z.pred. rewrite Z.mul_add_distr_r, <- Z.pow_add_r by lia.
    replace (15 - k + k) with 15 by lia. lia. }
  rewrite <- Z.land_ones, <- Z.shiftr_div_pow2, (Z.mul_comm (2 ^ 15)),
    <- Z.shiftl_mul_pow2 by lia.
  assert (Z.land (Z.land s (Z.ones k)) (Z.shiftl (Z.shiftr s 15) 15) = 0) as Hd.
  { apply Z.bits_inj'. intros i Hi.
    rewrite !Z.land_spec, Z.shiftl_spec, Z.testbit_ones, Z.bits_0 by lia.
    destruct (Z.ltb_spec i k); [|by rewrite !andb_false_r].
    rewrite (Z.testbit_neg_r _ (i - 15)) by lia. by rewrite andb_false_r. }
  rewrite Z.add_nocarry_lxor, Z.lxor_lor by done.
  apply Z.bits_inj'. intros i Hi.
  rewrite Z.lor_spec, !Z.land_spec, Z.lnot_spec, !Z.shiftl_spec, !Z.testbit_ones by lia.
  destruct (decide (i < 15)).
  - rewrite (Z.testbit_neg_r (Z.shiftr s 15)), orb_false_r by lia. f_equal.
    destruct (Z.leb_spec 0 (i - k)), (Z.ltb_spec (i - k) (15 - k)), (Z.leb_spec 0 i),
      (Z.ltb_spec i k); try lia; done.
  - rewrite Z.shiftr_spec by lia. replace (i - 15 + 15) with i by lia.
    destruct (Z.leb_spec 0 (i - k)), (Z.ltb_spec (i - k) (15 - k)), (Z.leb_spec 0 i),
      (Z.ltb_spec i k); try lia; cbn; by destruct (Z.testbit s i).
Qed.

Lemma ring_mask k : 0 <= k <= 15 ->
  u16 (Z.land (u64 (Z.lnot (2 ^ k - 1))) (u64 (Z.lnot (RTE_BIT64 15)))) = 2 ^ 15 - 2 ^ k.
Proof.
  intros Hk.
  assert (k = 0 \/ k = 1 \/ k = 2 \/ k = 3 \/ k = 4 \/ k = 5 \/ k = 6 \/ k = 7 \/
    k = 8 \/ k = 9 \/ k = 10 \/ k = 11 \/ k = 12 \/ k = 13 \/ k = 14 \/ k = 15)
    as Hc by lia.
  by repeat (destruct Hc as [->|Hc]); [..|subst k].
Qed.

(** The arithmetic of one step, on the position [o] and the lap [l]. *)
Lemma enc_split q o l : 0 < q -> 0 <= o < q -> ring_enc q (o + q * l) = o + 0x8000 * (l mod 2).
Proof.
  intros. unfold ring_enc. rewrite (Z.mul_comm q), Z.mod_add, Z.div_add by lia.
  rewrite Z.mod_small, Z.div_small by lia. f_equal.
Qed.

Lemma ring_size_bounds q : ring_size q -> 1 <= q <= 0x8000 /\ exists m, 0x8000 = q * m.
Proof.
  intros (k & Hk & ->). split.
  - pose proof (Z.pow_le_mono_r 2 k 15). pose proof (Z.pow_pos_nonneg 2 k).
    change 0x8000 with (2 ^ 15). lia.
  - exists (2 ^ (15 - k)). rewrite <- Z.pow_add_r by lia.
    replace (k + (15 - k)) with 15 by lia. done.
Qed.

Lemma ring_pos q n : 0 < q -> n = n mod q + q * (n / q) /\ 0 <= n mod q < q.
Proof. intros. pose proof (Z.div_mod n q). pose proof (Z.mod_pos_bound n q). lia. Qed.

Lemma desc_off_add_enc q n k :
  ring_size q -> 0 <= n -> 0 <= k <= q ->
  desc_off_add (ring_enc q n) k q = ring_enc q (n + k).
Proof.
  intros Hq Hn Hk. destruct (ring_size_bounds q Hq) as [Hqb [m Hm]].
  destruct (ring_pos q n) as [Hdec Ho]; [lia|].
  unfold desc_off_add. destruct Hq as (j & Hj & Hqj). subst q.
  rewrite ring_mask, land_lnot_mask by done. change (2 ^ 15) with 0x8000.
  set (q := 2 ^ j) in *. set (o := n mod q) in *. set (l := n / q) in *. rewrite Hdec.
  rewrite enc_split by lia. clearbody q o l. clear Hdec Hn n.
  assert (l mod 2 = 0 \/ l mod 2 = 1) as Hl by word.
  destruct (decide (o + k < q)) as [Hlt|Hge].
  - replace (o + q * l + k) with ((o + k) + q * l) by lia. rewrite enc_split by lia.
    assert (u16 (u16 (o + 0x8000 * (l mod 2) + k) + (0x8000 - q)) =
            o + k + 0x8000 * (l mod 2) + 0x8000 - q) as -> by (destruct Hl; word).
    assert ((o + k + 0x8000 * (l mod 2) + 0x8000 - q) mod q = o + k) as ->.
    { rewrite Hm. replace (_ - q) with ((o + k) + (m * (l mod 2) + m - 1) * q) by ring.
      rewrite Z.mod_add, Z.mod_small by lia. done. }
    destruct Hl; word.
  - replace (o + q * l + k) with ((o + k - q) + q * (l + 1)) by lia.
    rewrite enc_split by lia.
    assert (u16 (u16 (o + 0x8000 * (l mod 2) + k) + (0x8000 - q)) =
            o + k - q + 0x8000 * ((l + 1) mod 2)) as -> by (destruct Hl; word).
    assert ((o + k - q + 0x8000 * ((l + 1) mod 2)) mod q = (o + k - q) mod q) as ->.
    { rewrite Hm. replace (_ + _ * ((l + 1) mod 2)) with ((o + k - q) + (m * ((l + 1) mod 2)) * q) by ring.
      rewrite Z.mod_add by lia. done. }
    destruct (decide (o + k - q < q)); [|lia].
    rewrite (Z.mod_small (o + k - q)) by lia. destruct Hl; word.
Qed.

Lemma land_pow2 x k : 0 <= k -> Z.land x (2 ^ k) = 2 ^ k * ((x / 2 ^ k) mod 2).
Proof.
  intros Hk. rewrite <- Z.testbit_spec' by done.
  destruct (Z.testbit x k) eqn:E; cbn; rewrite ?Z.mul_1_r, ?Z.mul_0_r;
    apply Z.bits_inj'; intros i Hi; rewrite Z.land_spec, testbit_pow2, ?Z.bits_0 by done;
    case_bool_decide; subst; rewrite ?E, ?andb_true_r, ?andb_false_r; done.
Qed.

Lemma enc_wrap q n : ring_size q ->
  Z.land (ring_enc q n) (RTE_BIT64 15) = 0x8000 * ((n / q) mod 2).
Proof.
  intros Hq. destruct (ring_size_bounds q Hq) as [Hqb _].
  rewrite RTE_BIT64_pow2, land_pow2 by lia. change (2 ^ 15) with 0x8000. f_equal.
  unfold ring_enc. pose proof (Z.mod_pos_bound n q). word.
Qed.

Lemma enc_off q n : ring_size q -> Z.land (ring_enc q n) (u64 (RTE_BIT64 15 - 1)) = n mod q.
Proof.
  intros Hq. destruct (ring_size_bounds q Hq) as [Hqb _].
  change (u64 (RTE_BIT64 15 - 1)) with (Z.ones 15).
  rewrite Z.land_ones by lia. change (2 ^ 15) with 0x8000.
  unfold ring_enc. pose proof (Z.mod_pos_bound n q). word.
Qed.

Lemma enc_u16 q n : ring_size q -> is_u16 (ring_enc q n).
Proof.
  intros Hq. destruct (ring_size_bounds q Hq) as [Hqb _].
  unfold ring_enc. pose proof (Z.mod_pos_bound n q). word.
Qed.

Lemma land_not_bit15 x : is_u16 x -> Z.land x (u64 (Z.lnot (RTE_BIT64 15))) = x mod 0x8000.
Proof.
  intros Hx. change 0x8000 with (2 ^ 15). rewrite <- Z.land_ones by lia.
  apply Z.bits_inj'. intros i Hi.
  rewrite !Z.land_spec, u64_testbit, Z.lnot_spec, testbit_RTE_BIT64, Z.testbit_ones by lia.
  destruct (decide (i < 16)).
  - f_equal. case_bool_decide; destruct (Z.ltb_spec i 64), (Z.leb_spec 0 i),
      (Z.ltb_spec i 15); try lia; done.
  - rewrite (testbit_small x 16 i) by (change (2 ^ 16) with 0x10000; unfold is_u16 in *; lia).
    done.
Qed.

Lemma DESC_OFF_enc q n : ring_size q -> DESC_OFF (ring_enc q n) = n mod q.
Proof.
  intros Hq. destruct (ring_size_bounds q Hq) as [Hqb _]. pose proof (enc_u16 q n Hq).
  unfold DESC_OFF. rewrite u16_id, land_not_bit15 by done.
  unfold ring_enc. pose proof (Z.mod_pos_bound n q). word.
Qed.

Lemma DESC_SZ_enc q n : ring_size q -> DESC_SZ (ring_enc q n) = DESC_ENTRY_SZ * (n mod q).
Proof.
  intros Hq. destruct (ring_size_bounds q Hq) as [Hqb _]. pose proof (enc_u16 q n Hq).
  unfold DESC_SZ. rewrite (u64_id (ring_enc q n)) by word. rewrite land_not_bit15 by done.
  unfold DESC_ENTRY_SZ, ring_enc. pose proof (Z.mod_pos_bound n q). word.
Qed.

(** Two positions at most a ring apart have the same wrap bit exactly when
    they are in the same lap. *)
Lemma ring_lap q m n : 0 < q -> m <= n <= m + q ->
  n / q = m / q /\ n - m = n mod q - m mod q \/
  n / q = m / q + 1 /\ n - m = q + n mod q - m mod q.
Proof.
  intros Hq Hmn. destruct (ring_pos q m) as [Hm Hm']; [done|].
  destruct (ring_pos q n) as [Hn Hn']; [done|].
  assert (n / q - m / q = 0 \/ n / q - m / q = 1) as [|] by nia; [left|right]; nia.
Qed.

Lemma desc_off_diff_enc q m n : ring_size q -> m <= n <= m + q ->
  desc_off_diff (ring_enc q n) (ring_enc q m) q = n - m.
Proof.
  intros Hq Hmn. destruct (ring_size_bounds q Hq) as [Hqb _].
  unfold desc_off_diff. rewrite !enc_wrap, enc_off, !DESC_OFF_enc by done.
  pose proof (Z.mod_pos_bound n q). pose proof (Z.mod_pos_bound m q).
  destruct (ring_lap q m n) as [[-> ?]|[-> ?]]; [lia|done|..].
  - rewrite Z.eqb_refl. word.
  - rewrite (proj2 (Z.eqb_neq _ _)) by word. word.
Qed.

Lemma desc_off_diff_no_wrap_enc q m n : ring_size q -> m <= n <= m + q ->
  desc_off_diff_no_wrap (ring_enc q n) (ring_enc q m) q = Z.min (n - m) (q - m mod q).
Proof.
  intros Hq Hmn. destruct (ring_size_bounds q Hq) as [Hqb _].
  unfold desc_off_diff_no_wrap. rewrite !enc_wrap, enc_off by done.
  pose proof (Z.mod_pos_bound n q). pose proof (Z.mod_pos_bound m q).
  destruct (ring_lap q m n) as [[Hl ?]|[-> ?]]; [lia|done|..].
  - rewrite Hl, Z.eqb_refl. unfold ring_enc. rewrite Hl. word.
  - rewrite (proj2 (Z.eqb_neq _ _)) by word. word.
Qed.

#[export] Hint Resolve enc_u16 : dao.
#[export] Hint Rewrite enc_wrap enc_off DESC_OFF_enc DESC_SZ_enc
  desc_off_add_enc desc_off_diff_enc desc_off_diff_no_wrap_enc
  using (solve [done | lia]) : daorw.

(** The address of a field of descriptor [n], when the ring does not reach the
    end of the address space. *)
Lemma DESC_PTR_OFF_enc q n b o : ring_size q -> 0 <= b -> 0 <= o < DESC_ENTRY_SZ ->
  b + DESC_ENTRY_SZ * q <= 0x10000000000000000 ->
  DESC_PTR_OFF b (ring_enc q n) o = b + DESC_ENTRY_SZ * (n mod q) + o.
Proof.
  intros Hq Hb Ho Hend. destruct (ring_size_bounds q Hq) as [Hqb _].
  unfold DESC_PTR_OFF. rewrite DESC_SZ_enc by done.
  pose proof (Z.mod_pos_bound n q). unfold DESC_ENTRY_SZ in *. word.
Qed.

(** ** Properties *)

(** C1. The offset arithmetic implements a counter of descriptors: for every
    ring size the format can express, advancing the offset of descriptor [m]
    by up to a whole ring gives the offset of descriptor [m + k] (with the
    wrap bit of its lap), and the two subtractions recover [k] and the part of
    [k] that lies before the end of the ring. *)
Theorem ring_offsets_refine_counter (q m k : Z) :
  ring_size q -> 0 <= m -> 0 <= k <= q ->
  let a := ring_enc q m in
  let b := desc_off_add a k q in
  b = ring_enc q (m + k) /\
  desc_off_diff b a q = k /\
  desc_off_diff_no_wrap b a q = Z.min k (q - m mod q) /\
  DESC_OFF b = (m + k) mod q /\ is_u16 b.
Proof.
  intros Hq Hm Hk. cbv zeta. autorewrite with daorw.
  split_and!; try (done || lia). by apply enc_u16.
Qed.

Lemma ring_offsets_refine_counter_witness :
  desc_off_add (ring_enc 8 6) 5 8 = ring_enc 8 11 /\
  desc_off_diff (desc_off_add (ring_enc 8 6) 5 8) (ring_enc 8 6) 8 = 5 /\
  desc_off_diff_no_wrap (desc_off_add (ring_enc 8 6) 5 8) (ring_enc 8 6) 8 = 2.
Proof.
  assert (ring_size 8) as Hq by (exists 3; lia).
  destruct (ring_offsets_refine_counter 8 6 5 Hq) as (H1 & H2 & H3 & _); [lia|lia|].
  split; [exact H1|]. split; [exact H2|]. rewrite H3. reflexivity.
Defined.

(** Descriptor addresses stay inside the ring and do not overlap: the
    16-byte entry that [DESC_PTR_OFF] computes for any offset lies within the
    [q_sz] entries at the ring's base, and two offsets address the same entry
    only when they have the same position, whatever their wrap bits. *)
Theorem desc_ptr_in_ring (q b m n : Z) :
  ring_size q -> 0 <= b -> b + DESC_ENTRY_SZ * q <= 0x10000000000000000 ->
  b <= DESC_PTR_OFF b (ring_enc q n) 0 /\
  DESC_PTR_OFF b (ring_enc q n) 0 + DESC_ENTRY_SZ <= b + DESC_ENTRY_SZ * q /\
  DESC_PTR_OFF b (ring_enc q n) 8 = DESC_PTR_OFF b (ring_enc q n) 0 + 8 /\
  (m mod q <> n mod q ->
   DESC_PTR_OFF b (ring_enc q m) 0 + DESC_ENTRY_SZ <= DESC_PTR_OFF b (ring_enc q n) 0 \/
   DESC_PTR_OFF b (ring_enc q n) 0 + DESC_ENTRY_SZ <= DESC_PTR_OFF b (ring_enc q m) 0) /\
  (DESC_PTR_OFF b (ring_enc q m) 0 = DESC_PTR_OFF b (ring_enc q n) 0 ->
   DESC_OFF (ring_enc q m) = DESC_OFF (ring_enc q n)).
Proof.
  intros Hq Hb Hend. destruct (ring_size_bounds q Hq) as [Hqb _].
  rewrite !DESC_PTR_OFF_enc, !DESC_OFF_enc by (unfold DESC_ENTRY_SZ; done || lia).
  pose proof (Z.mod_pos_bound n q). pose proof (Z.mod_pos_bound m q).
  unfold DESC_ENTRY_SZ in *. repeat split; lia.
Qed.

Lemma desc_ptr_in_ring_witness :
  0x1000 <= DESC_PTR_OFF 0x1000 (ring_enc 256 511) 0 /\
  DESC_PTR_OFF 0x1000 (ring_enc 256 511) 0 + DESC_ENTRY_SZ <= 0x1000 + DESC_ENTRY_SZ * 256.
Proof.
  assert (ring_size 256) as Hq by (exists 8; lia).
  destruct (desc_ptr_in_ring 256 0x1000 3 511 Hq) as (H1 & H2 & _);
    [lia|unfold DESC_ENTRY_SZ; lia|]. split; [exact H1|exact H2].
Defined.
