(* ===== verification/Dma.v ===== *)
(** * DMA channels (lib/common/dao_dma.h, lib/common/dma.c)

    A worker collects source and destination pointers in a channel state
    until [flush_thr] of them are pending, hands them to the DMA device as one
    operation, and polls for completions; each operation may carry metadata,
    stores to perform when it completes. This file models the channel state,
    every operation on it, and the per-lcore tables of channels. *)
From stdpp Require Import base option list numbers gmap.
From S2P Require Import Prelude Rte.

Local Open Scope Z_scope.

Definition DAO_DMA_MAX_POINTER : Z := 15.
Definition DAO_DMA_MAX_POINTER_THR_DFLT : Z := 8.
Definition DAO_DMA_MAX_VCHAN_PER_LCORE : Z := 128.
Definition DAO_DMA_MAX_INFLIGHT_MDATA : Z := 4096.

(** [struct dao_dma_cmpl_mdata]: parallel arrays of [DAO_DMA_MAX_POINTER]
    cells, pointers to [uint16_t] as addresses. *)
Record dao_dma_cmpl_mdata := {
  md_pend_ptr : list Z;
  md_pend_val : list Z;
  md_val : list Z;
  md_ptr : list Z;
  md_cnt : Z;
}.

(** [struct dao_dma_vchan_state] *)
Record dao_dma_vchan_state := {
  tail : Z;
  head : Z;
  devid : Z;
  vchan : Z;
  src_i : Z;
  dst_i : Z;
  flush_thr : Z;
  auto_free : Z;
  pend_ops : Z;
  src : list rte_dma_sge;
  dst : list rte_dma_sge;
  ptrs : Z;
  ops : Z;
  dbells : Z;
  dma_enq_errs : Z;
  dma_compl_errs : Z;
  mdata : list dao_dma_cmpl_mdata;
}.

(** Field updates. *)
Definition set_pending (v : dao_dma_vchan_state) (s d : list rte_dma_sge) (si di : Z) :=
  {| tail := tail v; head := head v; devid := devid v; vchan := vchan v;
     src_i := si; dst_i := di; flush_thr := flush_thr v; auto_free := auto_free v;
     pend_ops := pend_ops v; src := s; dst := d; ptrs := ptrs v; ops := ops v;
     dbells := dbells v; dma_enq_errs := dma_enq_errs v;
     dma_compl_errs := dma_compl_errs v; mdata := mdata v |}.

Definition set_queued (v : dao_dma_vchan_state) (t p : Z) :=
  {| tail := t; head := head v; devid := devid v; vchan := vchan v;
     src_i := src_i v; dst_i := dst_i v; flush_thr := flush_thr v;
     auto_free := auto_free v; pend_ops := p; src := src v; dst := dst v;
     ptrs := ptrs v; ops := ops v; dbells := dbells v;
     dma_enq_errs := dma_enq_errs v; dma_compl_errs := dma_compl_errs v;
     mdata := mdata v |}.

Definition set_stats (v : dao_dma_vchan_state) (p o b e : Z) :=
  {| tail := tail v; head := head v; devid := devid v; vchan := vchan v;
     src_i := src_i v; dst_i := dst_i v; flush_thr := flush_thr v;
     auto_free := auto_free v; pend_ops := pend_ops v; src := src v; dst := dst v;
     ptrs := p; ops := o; dbells := b; dma_enq_errs := e;
     dma_compl_errs := dma_compl_errs v; mdata := mdata v |}.

Definition set_compl (v : dao_dma_vchan_state) (h ce : Z) (md : list dao_dma_cmpl_mdata) :=
  {| tail := tail v; head := h; devid := devid v; vchan := vchan v;
     src_i := src_i v; dst_i := dst_i v; flush_thr := flush_thr v;
     auto_free := auto_free v; pend_ops := pend_ops v; src := src v; dst := dst v;
     ptrs := ptrs v; ops := ops v; dbells := dbells v;
     dma_enq_errs := dma_enq_errs v; dma_compl_errs := ce; mdata := md |}.

Definition set_conf (v : dao_dma_vchan_state) (dev vc thr af : Z) :=
  {| tail := tail v; head := head v; devid := dev; vchan := vc;
     src_i := src_i v; dst_i := dst_i v; flush_thr := thr;
     auto_free := af; pend_ops := pend_ops v; src := src v; dst := dst v;
     ptrs := ptrs v; ops := ops v; dbells := dbells v;
     dma_enq_errs := dma_enq_errs v; dma_compl_errs := dma_compl_errs v;
     mdata := mdata v |}.

(** What [rte_zmalloc] leaves in a channel. *)
Definition sge0 : rte_dma_sge := {| sge_addr := 0; sge_length := 0 |}.

Definition mdata0 : dao_dma_cmpl_mdata :=
  let z := replicate (Z.to_nat DAO_DMA_MAX_POINTER) 0 in
  {| md_pend_ptr := z; md_pend_val := z; md_val := z; md_ptr := z; md_cnt := 0 |}.

Definition vchan_state0 : dao_dma_vchan_state :=
  {| tail := 0; head := 0; devid := 0; vchan := 0; src_i := 0; dst_i := 0;
     flush_thr := 0; auto_free := 0; pend_ops := 0;
     src := replicate (Z.to_nat DAO_DMA_MAX_POINTER) sge0;
     dst := replicate (Z.to_nat DAO_DMA_MAX_POINTER) sge0;
     ptrs := 0; ops := 0; dbells := 0; dma_enq_errs := 0; dma_compl_errs := 0;
     mdata := replicate (Z.to_nat DAO_DMA_MAX_INFLIGHT_MDATA) mdata0 |}.

(** ** Channel operations (dao_dma.h) *)

Definition dao_dma_op_status (v : dao_dma_vchan_state) (op_idx : Z) : bool :=
  if negb (src_i v =? 0) && (tail v =? op_idx) then false
  else if head v <=? tail v then (op_idx <? head v) || (tail v <=? op_idx)
  else (op_idx <? head v) && (tail v <=? op_idx).

Definition dao_dma_avail (v : dao_dma_vchan_state) : Z := u16 (flush_thr v - src_i v).

Definition dao_dma_enq_x1 (v : dao_dma_vchan_state) (s slen d dlen : Z)
  : cres dao_dma_vchan_state :=
  dsts ← cset (dst v) (dst_i v) {| sge_addr := d; sge_length := dlen |};
  srcs ← cset (src v) (src_i v) {| sge_addr := s; sge_length := slen |};
  Ret (set_pending v srcs dsts (u16 (src_i v + 1)) (u16 (dst_i v + 1))).

Definition dao_dma_enq_dst_x1 (v : dao_dma_vchan_state) (d dlen : Z)
  : cres dao_dma_vchan_state :=
  dsts ← cset (dst v) (dst_i v) {| sge_addr := d; sge_length := dlen |};
  Ret (set_pending v (src v) dsts (src_i v) (u16 (dst_i v + 1))).

Definition dao_dma_enq_src_x1 (v : dao_dma_vchan_state) (s slen : Z)
  : cres dao_dma_vchan_state :=
  srcs ← cset (src v) (src_i v) {| sge_addr := s; sge_length := slen |};
  Ret (set_pending v srcs (dst v) (u16 (src_i v + 1)) (dst_i v)).

(** [while (i < 4 && src_avail > 0)] of [dao_dma_enq_x4]: store [vsrc[i]] and
    [vdst[i]] at the moving pointers, as positions [si] and [di] in the arrays. *)
Fixpoint enq_x4_loop (fuel : nat) (srcs dsts vsrc vdst : list rte_dma_sge)
    (si di i src_avail : Z) : cres (list rte_dma_sge * list rte_dma_sge * Z) :=
  if (i <? 4) && (0 <? src_avail) then
    match fuel with
    | O => Fault
    | S fuel =>
        s ← cget vsrc i;
        d ← cget vdst i;
        srcs ← cset srcs si s;
        dsts ← cset dsts di d;
        enq_x4_loop fuel srcs dsts vsrc vdst (si + 1) (di + 1) (i + 1) (src_avail - 1)
    end
  else Ret (srcs, dsts, i).

Section dma_device.
(** The build option [DAO_DMA_STATS]. *)
Context (DAO_DMA_STATS : bool).
Context {D : Type} `{RteDma D}.

Definition dao_dma_has_stats_feature : bool := DAO_DMA_STATS.

Definition dao_dma_flush (v : dao_dma_vchan_state) (avail : Z) (d : D)
  : bool * dao_dma_vchan_state * D :=
  let avail := u8 avail in
  let src_avail := flush_thr v - src_i v in
  let dst_avail := flush_thr v - dst_i v in
  let flags := u64 (Z.shiftl (auto_free v) 3) in
  if ((avail <=? src_avail) || (src_i v =? 0)) &&
     ((avail <=? dst_avail) || (dst_i v =? 0))
  then (true, v, d)
  else
    let '(rc, d) := rte_dma_copy_sg (devid v) (vchan v) (src v) (dst v)
                      (src_i v) (dst_i v) flags d in
    if rc <? 0 then
      let v := if dao_dma_has_stats_feature
               then set_stats v (ptrs v) (ops v) (dbells v) (u64 (dma_enq_errs v + 1))
               else v in
      (false, v, d)
    else
      let v := set_queued v (u16 (tail v + 1)) (u16 (pend_ops v + 1)) in
      let v := if dao_dma_has_stats_feature
               then set_stats v (u64 (ptrs v + src_i v)) (u64 (ops v + 1)) (dbells v)
                      (dma_enq_errs v)
               else v in
      (true, set_pending v (src v) (dst v) 0 0, d).

Definition dao_dma_enq_x4 (v : dao_dma_vchan_state) (vsrc vdst : list rte_dma_sge) (d : D)
  : cres (Z * dao_dma_vchan_state * D) :=
  let src_avail := flush_thr v - src_i v in
  if 4 <=? src_avail then
    '(srcs, dsts, _) ← enq_x4_loop 4 (src v) (dst v) vsrc vdst (src_i v) (dst_i v) 0 4;
    Ret (4, set_pending v srcs dsts (u16 (src_i v + 4)) (u16 (dst_i v + 4)), d)
  else
    '(srcs, dsts, i) ← enq_x4_loop 4 (src v) (dst v) vsrc vdst (src_i v) (dst_i v) 0 src_avail;
    let v := set_pending v srcs dsts (u16 (src_i v + i)) (u16 (dst_i v + i)) in
    let '(_, v, d) := dao_dma_flush v 4 d in
    let src_avail := flush_thr v - src_i v in
    '(srcs, dsts, j) ← enq_x4_loop 4 (src v) (dst v) vsrc vdst (src_i v) (dst_i v) i src_avail;
    Ret (u16 j, set_pending v srcs dsts (u16 (src_i v + (j - i))) (u16 (dst_i v + (j - i))), d).

Definition dao_dma_check_compl (v : dao_dma_vchan_state) (d : D) : dao_dma_vchan_state * D :=
  let '((n, has_err), d) := rte_dma_completed (devid v) (vchan v) 128 d in
  let cmpl := u16 n in
  if has_err
  then (set_compl v (u16 (head v + u16 (cmpl + 1))) (u64 (dma_compl_errs v + 1)) (mdata v), d)
  else (set_compl v (u16 (head v + cmpl)) (dma_compl_errs v) (mdata v), d).
End dma_device.

(** ** Completion metadata

    The [uint16_t] cells the metadata points to live in a store; a store or
    load through a pointer to no cell is a fault. *)
Notation store := (gmap Z Z).

Definition mload (m : store) (p : Z) : cres Z :=
  match m !! p with Some x => Ret x | None => Fault end.

Definition mstore (m : store) (p x : Z) : cres store :=
  match m !! p with Some _ => Ret (<[p := x]> m) | None => Fault end.

(** [for (j = 0; j < cnt; j++)]: the stores of one completed operation. *)
Fixpoint apply_mdata (fuel : nat) (md : dao_dma_cmpl_mdata) (j : Z) (m : store) : cres store :=
  if j <? md_cnt md then
    match fuel with
    | O => Fault
    | S fuel =>
        p ← cget (md_ptr md) j;
        x ← cget (md_val md) j;
        m ← mstore m p x;
        pp ← cget (md_pend_ptr md) j;
        pv ← cget (md_pend_val md) j;
        cur ← mload m pp;
        m ← mstore m pp (u16 (cur - pv));
        apply_mdata fuel md (j + 1) m
    end
  else Ret m.

Definition clear_cnt (md : dao_dma_cmpl_mdata) : dao_dma_cmpl_mdata :=
  {| md_pend_ptr := md_pend_ptr md; md_pend_val := md_pend_val md;
     md_val := md_val md; md_ptr := md_ptr md; md_cnt := 0 |}.

(** [for (i = head; i < head + cmpl; i++)]: complete [n] operations from
    operation number [i]. *)
Fixpoint complete_mdata (n : nat) (mds : list dao_dma_cmpl_mdata) (i : Z) (m : store)
  : cres (list dao_dma_cmpl_mdata * store) :=
  match n with
  | O => Ret (mds, m)
  | S n =>
      let idx := i mod DAO_DMA_MAX_INFLIGHT_MDATA in
      md ← cget mds idx;
      m ← apply_mdata (Z.to_nat (md_cnt md)) md 0 m;
      mds ← cset mds idx (clear_cnt md);
      complete_mdata n mds (i + 1) m
  end.

Definition dao_dma_check_meta_compl {D} `{RteDma D} (v : dao_dma_vchan_state) (d : D) (m : store)
  : cres (dao_dma_vchan_state * D * store) :=
  let '((n, has_err), d) := rte_dma_completed (devid v) (vchan v) 128 d in
  let errs := if has_err then u64 (dma_compl_errs v + 1) else dma_compl_errs v in
  let cmpl := if has_err then u32 (n + 1) else u32 n in
  '(mds, m) ← complete_mdata (Z.to_nat cmpl) (mdata v) (head v) m;
  Ret (set_compl v (u16 (head v + cmpl)) errs mds, d, m).

Definition dao_dma_update_cmpl_meta (v : dao_dma_vchan_state)
    (ptr val pend_ptr pend_val tl : Z) : cres dao_dma_vchan_state :=
  let idx := tl mod DAO_DMA_MAX_INFLIGHT_MDATA in
  md ← cget (mdata v) idx;
  let j := md_cnt md in
  ptrs ← cset (md_ptr md) j ptr;
  vals ← cset (md_val md) j val;
  pptrs ← cset (md_pend_ptr md) j pend_ptr;
  pvals ← cset (md_pend_val md) j pend_val;
  mds ← cset (mdata v) idx
    {| md_pend_ptr := pptrs; md_pend_val := pvals; md_val := vals; md_ptr := ptrs;
       md_cnt := u16 (j + 1) |};
  Ret (set_compl v (head v) (dma_compl_errs v) mds).

(** ** Per-lcore channel tables (dma.c) *)

(** [struct dao_dma_vchan_info] *)
Record dao_dma_vchan_info := {
  nb_dev2mem : Z;
  nb_mem2dev : Z;
  dev2mem : list dao_dma_vchan_state;
  mem2dev : list dao_dma_vchan_state;
}.

Definition vchan_info0 : dao_dma_vchan_info :=
  let l := replicate (Z.to_nat DAO_DMA_MAX_VCHAN_PER_LCORE) vchan_state0 in
  {| nb_dev2mem := 0; nb_mem2dev := 0; dev2mem := l; mem2dev := l |}.

(** The globals of dma.c. The per-lcore variable [dao_dma_vchan_info] of lcore
    [l] and the cell [vchan_info_p[l]] always point to the same object, which
    is the entry of [l] in [vchan_info_p] here; no entry is a null pointer. *)
Record dma_globals := {
  vchan_info_p : gmap Z dao_dma_vchan_info;
  dma_ctrl_dev2mem_id : Z;
  dma_ctrl_mem2dev_id : Z;
}.

Definition dma_globals0 : dma_globals :=
  {| vchan_info_p := ∅; dma_ctrl_dev2mem_id := -1; dma_ctrl_mem2dev_id := -1 |}.

Definition put_info (g : dma_globals) (lcore : Z) (i : dao_dma_vchan_info) : dma_globals :=
  {| vchan_info_p := <[lcore := i]> (vchan_info_p g);
     dma_ctrl_dev2mem_id := dma_ctrl_dev2mem_id g;
     dma_ctrl_mem2dev_id := dma_ctrl_mem2dev_id g |}.

(** [for (i = 0; i < nb_vchans; i++)]: name the channels of a device. *)
Fixpoint assign_vchans (n : nat) (l : list dao_dma_vchan_state) (vchan_idx dev thr i : Z)
  : cres (list dao_dma_vchan_state) :=
  match n with
  | O => Ret l
  | S n =>
      v ← cget l (vchan_idx + i);
      l ← cset l (vchan_idx + i) (set_conf v dev (u8 i) (u8 thr) (auto_free v));
      assign_vchans n l vchan_idx dev thr (i + 1)
  end.

(** The checks and the allocation both setters start with: [inl] is the early
    return, [inr] the table to extend and the threshold in force. [mem_ok]:
    [rte_zmalloc] succeeds. *)
Definition lcore_set_prologue {D} `{RteDma D} (lcore dma_devid thr : Z) (mem_ok : bool)
    (d : D) (g : dma_globals) : Z + (dao_dma_vchan_info * Z * dma_globals) :=
  if negb (rte_dma_is_valid dma_devid d) then inl (-1)
  else
    let thr := if thr =? 0 then DAO_DMA_MAX_POINTER_THR_DFLT else thr in
    if DAO_DMA_MAX_POINTER <? thr then inl (-1)
    else
      match vchan_info_p g !! lcore with
      | Some info => inr (info, thr, g)
      | None =>
          if mem_ok then inr (vchan_info0, thr, put_info g lcore vchan_info0)
          else inl (- ENOMEM)
      end.

Definition dao_dma_lcore_dev2mem_set {D} `{RteDma D} (lcore dma_devid nb_vchans thr : Z)
    (mem_ok : bool) (d : D) (g : dma_globals) : cres (Z * dma_globals) :=
  match lcore_set_prologue lcore dma_devid thr mem_ok d g with
  | inl rc => Ret (rc, g)
  | inr (info, thr, g) =>
      let vchan_idx := nb_dev2mem info in
      if DAO_DMA_MAX_VCHAN_PER_LCORE <=? vchan_idx + nb_vchans then Ret (-1, g)
      else
        l ← assign_vchans (Z.to_nat nb_vchans) (dev2mem info) vchan_idx dma_devid thr 0;
        Ret (0, put_info g lcore
          {| nb_dev2mem := u16 (nb_dev2mem info + nb_vchans);
             nb_mem2dev := nb_mem2dev info; dev2mem := l; mem2dev := mem2dev info |})
  end.

Definition dao_dma_lcore_mem2dev_set {D} `{RteDma D} (lcore dma_devid nb_vchans thr : Z)
    (mem_ok : bool) (d : D) (g : dma_globals) : cres (Z * dma_globals) :=
  match lcore_set_prologue lcore dma_devid thr mem_ok d g with
  | inl rc => Ret (rc, g)
  | inr (info, thr, g) =>
      let vchan_idx := nb_mem2dev info in
      if DAO_DMA_MAX_VCHAN_PER_LCORE <=? vchan_idx + nb_vchans then Ret (-1, g)
      else
        l ← assign_vchans (Z.to_nat nb_vchans) (mem2dev info) vchan_idx dma_devid thr 0;
        Ret (0, put_info g lcore
          {| nb_dev2mem := nb_dev2mem info;
             nb_mem2dev := u16 (nb_mem2dev info + nb_vchans);
             dev2mem := dev2mem info; mem2dev := l |})
  end.

Definition dao_dma_lcore_mem2dev_autofree_set (lcore mem2dev_id vc : Z) (enable : bool)
    (g : dma_globals) : cres (Z * dma_globals) :=
  match vchan_info_p g !! lcore with
  | None => Ret (- ENOMEM, g)
  | Some info =>
      let hit v := (devid v =? mem2dev_id) && (vchan v =? vc) in
      i ← scan hit (mem2dev info) (nb_mem2dev info) (Z.to_nat (nb_mem2dev info)) 0;
      if i =? nb_mem2dev info then Ret (- ENOENT, g)
      else
        v ← cget (mem2dev info) i;
        l ← cset (mem2dev info) i
          (set_conf v (devid v) (vchan v) (flush_thr v) (b2z enable));
        Ret (0, put_info g lcore
          {| nb_dev2mem := nb_dev2mem info; nb_mem2dev := nb_mem2dev info;
             dev2mem := dev2mem info; mem2dev := l |})
  end.

Definition dao_dma_ctrl_dev_set (dev2mem_id mem2dev_devid : Z) (g : dma_globals)
  : Z * dma_globals :=
  (0, {| vchan_info_p := vchan_info_p g; dma_ctrl_dev2mem_id := dev2mem_id;
         dma_ctrl_mem2dev_id := mem2dev_devid |}).

Definition dao_dma_ctrl_dev2mem (g : dma_globals) : Z := dma_ctrl_dev2mem_id g.
Definition dao_dma_ctrl_mem2dev (g : dma_globals) : Z := dma_ctrl_mem2dev_id g.

(** [struct dao_dma_vchan_stats] and [struct dao_dma_stats]; the arrays are
    kept to the entries that were filled in, the rest is zero. *)
Record dao_dma_vchan_stats := {
  st_ptrs : Z; st_ops : Z; st_dbells : Z; st_enq_errs : Z;
}.

Record dao_dma_stats := {
  st_nb_dev2mem : Z;
  st_nb_mem2dev : Z;
  st_dev2mem : list dao_dma_vchan_stats;
  st_mem2dev : list dao_dma_vchan_stats;
}.

Definition stats0 : dao_dma_stats :=
  {| st_nb_dev2mem := 0; st_nb_mem2dev := 0; st_dev2mem := []; st_mem2dev := [] |}.

Definition vchan_stats (v : dao_dma_vchan_state) : dao_dma_vchan_stats :=
  {| st_ptrs := ptrs v; st_ops := ops v; st_dbells := dbells v;
     st_enq_errs := dma_enq_errs v |}.

Definition dao_dma_stats_get (DAO_DMA_STATS : bool) (RTE_MAX_LCORE lcore_id : Z) (g : dma_globals)
  : Z * dao_dma_stats :=
  if negb (dao_dma_has_stats_feature DAO_DMA_STATS) then (0, stats0)
  else if RTE_MAX_LCORE <=? lcore_id then (- ENOENT, stats0)
  else
    match vchan_info_p g !! lcore_id with
    | None => (- ENOENT, stats0)
    | Some info =>
        (0, {| st_nb_dev2mem := nb_dev2mem info; st_nb_mem2dev := nb_mem2dev info;
               st_dev2mem := vchan_stats <$> take (Z.to_nat (nb_dev2mem info)) (dev2mem info);
               st_mem2dev := vchan_stats <$> take (Z.to_nat (nb_mem2dev info)) (mem2dev info) |})
    end.

Section dma_submit.
Context (DAO_DMA_STATS : bool).
Context {D : Type} `{RteDma D}.

(** The body of the two loops of [dao_dma_flush_submit]. *)
Definition flush_submit_one (v : dao_dma_vchan_state) (d : D) : dao_dma_vchan_state * D :=
  let '(_, v, d) := dao_dma_flush DAO_DMA_STATS v DAO_DMA_MAX_POINTER d in
  if pend_ops v =? 0 then (v, d)
  else
    let d := rte_dma_submit (devid v) (vchan v) d in
    let v := set_queued v (tail v) 0 in
    if dao_dma_has_stats_feature DAO_DMA_STATS
    then (set_stats v (ptrs v) (ops v) (u64 (dbells v + 1)) (dma_enq_errs v), d)
    else (v, d).

Fixpoint flush_submit_vchans (n : nat) (l : list dao_dma_vchan_state) (d : D)
  : cres (list dao_dma_vchan_state * D) :=
  match n, l with
  | O, _ => Ret (l, d)
  | S n, v :: l =>
      let '(v, d) := flush_submit_one v d in
      '(l, d) ← flush_submit_vchans n l d;
      Ret (v :: l, d)
  | S _, [] => Fault
  end.

Definition dao_dma_flush_submit (lcore : Z) (g : dma_globals) (d : D)
  : cres (Z * dma_globals * D) :=
  match vchan_info_p g !! lcore with
  | None => Fault
  | Some info =>
      '(l1, d) ← flush_submit_vchans (Z.to_nat (nb_dev2mem info)) (dev2mem info) d;
      '(l2, d) ← flush_submit_vchans (Z.to_nat (nb_mem2dev info)) (mem2dev info) d;
      Ret (0, put_info g lcore
        {| nb_dev2mem := nb_dev2mem info; nb_mem2dev := nb_mem2dev info;
           dev2mem := l1; mem2dev := l2 |}, d)
  end.

(** [while (head != tail) dao_dma_check_compl(...)], at most [fuel] polls. *)
Fixpoint compl_drain (fuel : nat) (v : dao_dma_vchan_state) (d : D)
  : option (dao_dma_vchan_state * D) :=
  if head v =? tail v then Some (v, d)
  else match fuel with
       | O => None
       | S fuel => let '(v, d) := dao_dma_check_compl v d in compl_drain fuel v d
       end.
End dma_submit.

Section dma_compl_wait.
Context {D : Type} `{RteDma D}.
(** The lcore layout of the EAL. *)
Context (RTE_MAX_LCORE : nat) (rte_lcore_is_enabled : Z -> bool) (rte_get_main_lcore : Z).

(** The body of the lcore loop for an lcore with channels. [None]: a channel
    was still busy after [fuel] polls. *)
Definition compl_wait_lcore (fuel : nat) (vc : Z) (info : dao_dma_vchan_info) (d : D)
  : cres (option (dao_dma_vchan_info * D)) :=
  v1 ← cget (dev2mem info) vc;
  v2 ← cget (mem2dev info) vc;
  match compl_drain fuel v1 d with
  | None => Ret None
  | Some (v1, d) =>
      match compl_drain fuel v2 d with
      | None => Ret None
      | Some (v2, d) =>
          l1 ← cset (dev2mem info) vc v1;
          l2 ← cset (mem2dev info) vc v2;
          Ret (Some ({| nb_dev2mem := nb_dev2mem info; nb_mem2dev := nb_mem2dev info;
                        dev2mem := l1; mem2dev := l2 |}, d))
      end
  end.

Fixpoint compl_wait_from (n : nat) (fuel : nat) (vc lcore : Z) (g : dma_globals) (d : D)
  : cres (option (dma_globals * D)) :=
  match n with
  | O => Ret (Some (g, d))
  | S n =>
      if negb (rte_lcore_is_enabled lcore) || (lcore =? rte_get_main_lcore)
      then compl_wait_from n fuel vc (lcore + 1) g d
      else
        match vchan_info_p g !! lcore with
        | None => compl_wait_from n fuel vc (lcore + 1) g d
        | Some info =>
            r ← compl_wait_lcore fuel vc info d;
            match r with
            | None => Ret None
            | Some (info, d) =>
                compl_wait_from n fuel vc (lcore + 1) (put_info g lcore info) d
            end
        end
  end.

Definition dao_dma_compl_wait (fuel : nat) (vc : Z) (g : dma_globals) (d : D)
  : cres (option (dma_globals * D)) :=
  compl_wait_from RTE_MAX_LCORE fuel vc 0 g d.
End dma_compl_wait.

(** ** Invariant *)

Definition mdata_wf (md : dao_dma_cmpl_mdata) : Prop :=
  length (md_ptr md) = 15%nat /\ length (md_val md) = 15%nat /\
  length (md_pend_ptr md) = 15%nat /\ length (md_pend_val md) = 15%nat /\
  0 <= md_cnt md <= DAO_DMA_MAX_POINTER.

Record vchan_wf (v : dao_dma_vchan_state) : Prop := {
  wf_src_len : length (src v) = 15%nat;
  wf_dst_len : length (dst v) = 15%nat;
  wf_src_i : 0 <= src_i v <= DAO_DMA_MAX_POINTER;
  wf_dst_i : 0 <= dst_i v <= DAO_DMA_MAX_POINTER;
  wf_flush_thr : 0 <= flush_thr v <= DAO_DMA_MAX_POINTER;
  wf_head : is_u16 (head v);
  wf_tail : is_u16 (tail v);
  wf_pend : is_u16 (pend_ops v);
  wf_mdata_len : length (mdata v) = 4096%nat;
  wf_mdata : Forall mdata_wf (mdata v);
}.

(** The pointers pending in the channel. *)
Definition pending_src (v : dao_dma_vchan_state) := take (Z.to_nat (src_i v)) (src v).
Definition pending_dst (v : dao_dma_vchan_state) := take (Z.to_nat (dst_i v)) (dst v).

(** ** Lemmas on the enqueue operations *)

Lemma take_insert_snoc {A} (l : list A) (n : nat) x :
  (n < length l)%nat -> take (S n) (<[n := x]> l) = take n l ++ [x].
Proof.
  intros Hn. erewrite take_S_r by (by apply list_lookup_insert_eq).
  by rewrite take_insert_ge by lia.
Qed.

(** Storing [k] elements of [vsrc] from [i] at position [si]. *)
Lemma enq_x4_loop_spec vsrc vdst : length vsrc = 4%nat -> length vdst = 4%nat ->
  forall fuel srcs dsts si di i avail,
  0 <= i <= 4 -> 0 <= si -> 0 <= di ->
  let k := Z.max 0 (Z.min (4 - i) avail) in
  k <= Z.of_nat fuel ->
  si + k <= Z.of_nat (length srcs) -> di + k <= Z.of_nat (length dsts) ->
  exists srcs' dsts',
    enq_x4_loop fuel srcs dsts vsrc vdst si di i avail = Ret (srcs', dsts', i + k) /\
    length srcs' = length srcs /\ length dsts' = length dsts /\
    take (Z.to_nat (si + k)) srcs' =
      take (Z.to_nat si) srcs ++ take (Z.to_nat k) (drop (Z.to_nat i) vsrc) /\
    take (Z.to_nat (di + k)) dsts' =
      take (Z.to_nat di) dsts ++ take (Z.to_nat k) (drop (Z.to_nat i) vdst).
Proof.
  intros Hls Hld. induction fuel as [|fuel IH]; intros srcs dsts si di i avail Hi Hsi Hdi k Hk Hs Hd.
  - cbn. assert ((i <? 4) && (0 <? avail) = false) as -> by (apply andb_false_iff; lia).
    assert (k = 0) as -> by lia. exists srcs, dsts. rewrite !Z.add_0_r, !app_nil_r. done.
  - cbn. destruct ((i <? 4) && (0 <? avail)) eqn:E.
    2:{ apply andb_false_iff in E. assert (k = 0) as -> by lia.
        exists srcs, dsts. rewrite !Z.add_0_r, !app_nil_r. done. }
    reflect_bool.
    destruct (cget_in_range vsrc i) as [s Es]; [lia|].
    destruct (cget_in_range vdst i) as [d Ed]; [lia|].
    rewrite Es, Ed. cbn. rewrite !cset_in_range by lia. cbn.
    apply cget_Ret in Es as [_ Es]. apply cget_Ret in Ed as [_ Ed].
    destruct (IH (<[Z.to_nat si:=s]> srcs) (<[Z.to_nat di:=d]> dsts) (si + 1) (di + 1) (i + 1)
      (avail - 1)) as (srcs' & dsts' & Hr & L1 & L2 & T1 & T2); rewrite ?length_insert; [lia..|].
    exists srcs', dsts'. rewrite !length_insert in L1, L2. rewrite Hr.
    assert (Z.to_nat k = S (Z.to_nat (Z.max 0 (Z.min (4 - (i + 1)) (avail - 1))))) as Hk' by lia.
    split; [do 2 f_equal; lia|]. do 2 (split; [done|]).
    replace (si + 1 + _) with (si + k) in T1 by lia.
    replace (di + 1 + _) with (di + k) in T2 by lia.
    rewrite T1, T2, Hk'.
    replace (Z.to_nat (si + 1)) with (S (Z.to_nat si)) by lia.
    replace (Z.to_nat (di + 1)) with (S (Z.to_nat di)) by lia.
    replace (Z.to_nat (i + 1)) with (S (Z.to_nat i)) by lia.
    rewrite !take_insert_snoc by lia.
    rewrite (drop_S _ _ _ Es), (drop_S _ _ _ Ed). by rewrite <- !app_assoc.
Qed.

Section dma_streams.
Context (DAO_DMA_STATS : bool).
Context {D : Type} `{RteDmaLaws D}.

(** Everything a channel was given so far, in order: what the device
    accepted followed by what is still pending. *)
Definition src_stream (d : D) (v : dao_dma_vchan_state) : list rte_dma_sge :=
  concat (op_src <$> dma_accepted d (devid v) (vchan v)) ++ pending_src v.
Definition dst_stream (d : D) (v : dao_dma_vchan_state) : list rte_dma_sge :=
  concat (op_dst <$> dma_accepted d (devid v) (vchan v)) ++ pending_dst v.

(** A flush keeps the channel well formed and its streams; when it reports
    success there is room for [avail] more pointers under the threshold, or
    nothing is pending. *)
Lemma flush_spec v avail d b v' d' :
  vchan_wf v -> dao_dma_flush DAO_DMA_STATS v avail d = (b, v', d') ->
  vchan_wf v' /\
  src_stream d' v' = src_stream d v /\ dst_stream d' v' = dst_stream d v /\
  (devid v' = devid v /\ vchan v' = vchan v /\ flush_thr v' = flush_thr v /\
   mdata v' = mdata v /\ head v' = head v) /\
  (src_i v' = src_i v /\ dst_i v' = dst_i v \/ b = true /\ src_i v' = 0 /\ dst_i v' = 0) /\
  (b = true -> (src_i v' = 0 \/ src_i v' + u8 avail <= flush_thr v) /\
               (dst_i v' = 0 \/ dst_i v' + u8 avail <= flush_thr v)).
Proof.
  intros Hwf. unfold dao_dma_flush.
  destruct (_ && _) eqn:E.
  { intros [= <- <- <-]. reflect_bool. apply orb_true_iff in H1, H2.
    split_and!; try done; [by left|]. lia. }
  destruct (rte_dma_copy_sg _ _ _ _ _ _ _ _) as [rc d1] eqn:Ec.
  apply copy_sg_accepted in Ec as [Hacc _].
  specialize (Hacc (devid v) (vchan v)). rewrite !Z.eqb_refl, !andb_true_r in Hacc.
  destruct Hwf. destruct (rc <? 0) eqn:Erc; reflect_bool.
  - rewrite (proj2 (Z.leb_gt 0 rc)) in Hacc by lia.
    destruct (dao_dma_has_stats_feature _); intros [= <- <- <-];
      unfold src_stream, dst_stream; cbn; rewrite Hacc; split_and!; try done; by left.
  - rewrite (proj2 (Z.leb_le 0 rc)) in Hacc by lia.
    destruct (dao_dma_has_stats_feature _); intros [= <- <- <-];
      unfold src_stream, dst_stream, pending_src, pending_dst; cbn;
      rewrite Hacc, !fmap_app, !concat_app; cbn; rewrite !app_nil_r;
      split_and!; try done; try (by right); try (by split; left);
      (split; cbn; auto with dao; unfold DAO_DMA_MAX_POINTER in *; lia).
Qed.

(** A flush fails only when the device refuses the copy. *)
Lemma flush_false v avail d v' d' :
  dao_dma_flush DAO_DMA_STATS v avail d = (false, v', d') ->
  exists flags, (rte_dma_copy_sg (devid v) (vchan v) (src v) (dst v) (src_i v) (dst_i v)
    flags d).1 < 0.
Proof.
  unfold dao_dma_flush. destruct (_ && _); [done|].
  destruct (rte_dma_copy_sg _ _ _ _ _ _ _ _) as [rc d1] eqn:Ec.
  destruct (rc <? 0) eqn:E; [|done]. reflect_bool. intros _. eexists. by rewrite Ec.
Qed.

(** A flush that does something submits what is pending as operation number
    [tail]; otherwise the positions stay. *)
Lemma flush_tail v avail d b v' d' :
  dao_dma_flush DAO_DMA_STATS v avail d = (b, v', d') ->
  src_i v' = src_i v /\ dst_i v' = dst_i v /\ tail v' = tail v \/
  src_i v' = 0 /\ dst_i v' = 0 /\ tail v' = u16 (tail v + 1).
Proof.
  unfold dao_dma_flush. destruct (_ && _); [intros [= <- <- <-]; by left|].
  destruct (rte_dma_copy_sg _ _ _ _ _ _ _ _) as [rc d1].
  destruct (rc <? 0), (dao_dma_has_stats_feature _); intros [= <- <- <-]; (by left) || (by right).
Qed.

(** States of the device in which it accepts every copy. *)
Definition willing (R : D -> Prop) : Prop := forall dev vc s1 d1 n1 n2 fl d, R d ->
  0 <= (rte_dma_copy_sg dev vc s1 d1 n1 n2 fl d).1 /\ R (rte_dma_copy_sg dev vc s1 d1 n1 n2 fl d).2.

Lemma flush_willing R v avail d b v' d' : willing R -> R d ->
  dao_dma_flush DAO_DMA_STATS v avail d = (b, v', d') -> b = true /\ R d'.
Proof.
  intros Hw Hd. unfold dao_dma_flush. destruct (_ && _); [by intros [= <- <- <-]|].
  specialize (Hw (devid v) (vchan v) (src v) (dst v) (src_i v) (dst_i v) (u64 (Z.shiftl (auto_free v) 3)) d Hd).
  destruct (rte_dma_copy_sg _ _ _ _ _ _ _ _) as [rc d1]. cbn in Hw. destruct Hw.
  rewrite (proj2 (Z.ltb_ge _ _)) by lia. by intros [= <- <- <-].
Qed.
End dma_streams.

(** One pointer pair: it goes to the end of both pending lists. *)
Lemma enq_x1_spec v s sl d dl :
  vchan_wf v -> src_i v < DAO_DMA_MAX_POINTER -> dst_i v < DAO_DMA_MAX_POINTER ->
  exists v', dao_dma_enq_x1 v s sl d dl = Ret v' /\ vchan_wf v' /\
    src_i v' = src_i v + 1 /\ dst_i v' = dst_i v + 1 /\
    pending_src v' = pending_src v ++ [{| sge_addr := s; sge_length := sl |}] /\
    pending_dst v' = pending_dst v ++ [{| sge_addr := d; sge_length := dl |}] /\
    (devid v' = devid v /\ vchan v' = vchan v /\ flush_thr v' = flush_thr v /\
     mdata v' = mdata v /\ head v' = head v /\ tail v' = tail v).
Proof.
  intros [] Hs Hd. unfold DAO_DMA_MAX_POINTER in *.
  unfold dao_dma_enq_x1. rewrite !cset_in_range by lia. cbn.
  eexists. split; [done|]. unfold pending_src, pending_dst. cbn.
  rewrite !u16_id by word.
  replace (Z.to_nat (src_i v + 1)) with (S (Z.to_nat (src_i v))) by lia.
  replace (Z.to_nat (dst_i v + 1)) with (S (Z.to_nat (dst_i v))) by lia.
  rewrite !take_insert_snoc by lia. split_and!; try done.
  split; cbn; rewrite ?length_insert, ?u16_id by word;
    unfold DAO_DMA_MAX_POINTER; try done; lia.
Qed.

(** Storing up to [avail] of the remaining pointers of an [x4] enqueue. *)
Lemma enq_x4_append v vsrc vdst i avail k :
  vchan_wf v -> src_i v = dst_i v -> length vsrc = 4%nat -> length vdst = 4%nat ->
  0 <= i <= 4 -> k = Z.max 0 (Z.min (4 - i) avail) ->
  src_i v + k <= DAO_DMA_MAX_POINTER ->
  exists srcs dsts,
    enq_x4_loop 4 (src v) (dst v) vsrc vdst (src_i v) (dst_i v) i avail
      = Ret (srcs, dsts, i + k) /\
    let v' := set_pending v srcs dsts (u16 (src_i v + k)) (u16 (dst_i v + k)) in
    vchan_wf v' /\ src_i v' = src_i v + k /\ dst_i v' = src_i v + k /\
    pending_src v' = pending_src v ++ take (Z.to_nat k) (drop (Z.to_nat i) vsrc) /\
    pending_dst v' = pending_dst v ++ take (Z.to_nat k) (drop (Z.to_nat i) vdst).
Proof.
  intros [] Heq Hls Hld Hi Hk Hmax. unfold DAO_DMA_MAX_POINTER in *.
  destruct (enq_x4_loop_spec vsrc vdst Hls Hld 4 (src v) (dst v) (src_i v) (dst_i v) i avail)
    as (s' & d' & Hr & L1 & L2 & T1 & T2); [lia..|].
  rewrite <- Hk in Hr, T1, T2.
  exists s', d'. split; [done|]. unfold pending_src, pending_dst. cbn.
  rewrite !u16_id by word. rewrite T1, T2.
  split_and!; try done; try lia.
  split; cbn; rewrite ?L1, ?L2, ?u16_id by word; unfold DAO_DMA_MAX_POINTER; try done; lia.
Qed.

(** The state [rte_zmalloc] leaves is well formed, and configuring a channel
    with a legal threshold keeps it so. *)
Lemma vchan_state0_wf : vchan_wf vchan_state0.
Proof.
  split; unfold vchan_state0; cbn [src dst src_i dst_i flush_thr head tail pend_ops mdata];
    rewrite ?length_replicate; try done.
  apply Forall_replicate. by unfold mdata_wf; cbn.
Qed.

Lemma set_conf_wf v dev vc thr af :
  vchan_wf v -> 0 <= thr <= DAO_DMA_MAX_POINTER -> vchan_wf (set_conf v dev vc thr af).
Proof. intros [] ?. by split. Qed.

#[export] Hint Resolve vchan_state0_wf set_conf_wf : dao.

Section dma_doorbell.
Context (DAO_DMA_STATS : bool).
Context {D : Type} `{RteDmaLaws D}.

(** Every accepted operation the doorbell has not covered is counted in
    [pend_ops]. *)
Definition bell_ok (d : D) (v : dao_dma_vchan_state) : Prop :=
  Z.of_nat (length (dma_accepted d (devid v) (vchan v))) =
  Z.of_nat (dma_rung d (devid v) (vchan v)) + pend_ops v.

(** Calls for one channel leave the others alone. *)
Definition same_elsewhere (dev vc : Z) (d d' : D) : Prop :=
  forall dev' vc', (dev', vc') <> (dev, vc) ->
    dma_accepted d' dev' vc' = dma_accepted d dev' vc' /\
    dma_rung d' dev' vc' = dma_rung d dev' vc'.

(** A flush accounts for the operation it enqueues. *)
Lemma flush_bell v avail d b v' d' :
  vchan_wf v -> pend_ops v < 0xFFFF ->
  dao_dma_flush DAO_DMA_STATS v avail d = (b, v', d') ->
  (bell_ok d v -> bell_ok d' v') /\ same_elsewhere (devid v) (vchan v) d d' /\
  pend_ops v' <= pend_ops v + 1.
Proof.
  intros [] Hp. unfold dao_dma_flush, bell_ok, same_elsewhere.
  destruct (_ && _); [intros [= <- <- <-]; split_and!; [done..|lia]|].
  destruct (rte_dma_copy_sg _ _ _ _ _ _ _ _) as [rc d1] eqn:Ec.
  apply copy_sg_accepted in Ec as [Hacc Hrung].
  assert (forall dev' vc', (dev', vc') <> (devid v, vchan v) ->
    dma_accepted d1 dev' vc' = dma_accepted d dev' vc' /\
    dma_rung d1 dev' vc' = dma_rung d dev' vc') as Helse.
  { intros dev' vc' Hne. split; [|apply Hrung]. rewrite Hacc.
    destruct (Z.eqb_spec dev' (devid v)), (Z.eqb_spec vc' (vchan v)); subst;
      rewrite ?andb_false_r; done. }
  specialize (Hacc (devid v) (vchan v)). rewrite !Z.eqb_refl, !andb_true_r in Hacc.
  destruct (rc <? 0) eqn:Erc; reflect_bool.
  - rewrite (proj2 (Z.leb_gt 0 rc)) in Hacc by lia.
    destruct (dao_dma_has_stats_feature _); intros [= <- <- <-]; cbn;
      rewrite Hacc, Hrung; split_and!; try done; lia.
  - rewrite (proj2 (Z.leb_le 0 rc)) in Hacc by lia.
    destruct (dao_dma_has_stats_feature _); intros [= <- <- <-]; cbn;
      rewrite Hacc, Hrung, length_app, u16_id by word; cbn; split_and!; try done; lia.
Qed.

(** The device refused, in some state, the copy of what is pending. *)
Definition refused (v : dao_dma_vchan_state) : Prop :=
  exists fl d, (rte_dma_copy_sg (devid v) (vchan v) (src v) (dst v) (src_i v) (dst_i v)
    fl d).1 < 0.

(** What the loops of [dao_dma_flush_submit] do to one channel. *)
Definition drained (v : dao_dma_vchan_state) (d d' : D) (v' : dao_dma_vchan_state) : Prop :=
  vchan_wf v' /\
  (src_i v' = 0 /\ dst_i v' = 0 \/ src_i v' = src_i v /\ dst_i v' = dst_i v /\ refused v) /\
  pend_ops v' = 0 /\
  devid v' = devid v /\ vchan v' = vchan v /\
  src_stream d' v' = src_stream d v /\ dst_stream d' v' = dst_stream d v /\
  dma_rung d' (devid v) (vchan v) = length (dma_accepted d' (devid v) (vchan v)).

Lemma flush_submit_one_spec v d v' d' :
  vchan_wf v -> pend_ops v < 0xFFFF -> bell_ok d v ->
  flush_submit_one DAO_DMA_STATS v d = (v', d') ->
  drained v d d' v' /\ same_elsewhere (devid v) (vchan v) d d'.
Proof.
  intros Hwf Hp Hb. unfold flush_submit_one.
  destruct (dao_dma_flush _ v _ d) as [[b v1] d1] eqn:Ef.
  pose proof (flush_spec _ _ _ _ _ _ _ Hwf Ef)
    as (Hwf1 & S1 & S2 & (Hdev & Hvc & Ht & _) & Hidx & Hroom). change (u8 DAO_DMA_MAX_POINTER) with 15 in Hroom.
  pose proof (flush_bell _ _ _ _ _ _ Hwf Hp Ef) as (Hb1 & Helse & _).
  specialize (Hb1 Hb). unfold bell_ok in Hb1.
  assert (src_i v1 = 0 /\ dst_i v1 = 0 \/
          src_i v1 = src_i v /\ dst_i v1 = dst_i v /\ refused v) as Hout.
  { pose proof (wf_flush_thr _ Hwf). pose proof (wf_src_i _ Hwf1). pose proof (wf_dst_i _ Hwf1).
    unfold DAO_DMA_MAX_POINTER in *. destruct b; [left; lia|].
    apply flush_false in Ef as [fl Hneg]. right. split_and!; [lia..|]. by exists fl, d. }
  unfold drained, src_stream, dst_stream, pending_src, pending_dst in *.
  rewrite Hdev, Hvc in *. pose proof Hwf1 as [].
  destruct (pend_ops v1 =? 0) eqn:E; reflect_bool; [intros [= <- <-]|].
  - split; [|done]. rewrite Hdev, Hvc in *. split_and!; try done; lia.
  - assert (same_elsewhere (devid v) (vchan v) d (rte_dma_submit (devid v) (vchan v) d1)).
    { intros dev' vc' Hne. destruct (Helse dev' vc' Hne) as [E1 E2].
      rewrite submit_accepted, submit_rung, E1, E2. split; [done|].
      destruct (Z.eqb_spec dev' (devid v)), (Z.eqb_spec vc' (vchan v)); subst; done. }
    destruct (dao_dma_has_stats_feature _); intros [= <- <-]; (split; [|done]); cbn;
      rewrite Hdev, Hvc, ?submit_accepted, ?submit_rung, !Z.eqb_refl in *;
      cbn in *; rewrite S1, S2; (split_and!; try done; by split).
Qed.
End dma_doorbell.

Section dma_submit_all.
Context (DAO_DMA_STATS : bool).
Context {D : Type} `{RteDmaLaws D}.

Definition chan_id (v : dao_dma_vchan_state) : Z * Z := (devid v, vchan v).

(** A channel that can be flushed: well formed, its doorbell accounted for. *)
Definition flushable (d : D) (v : dao_dma_vchan_state) : Prop :=
  vchan_wf v /\ pend_ops v < 0xFFFF /\ bell_ok d v.

Definition same_on (ids : list (Z * Z)) (d d' : D) : Prop :=
  forall dev vc, (dev, vc) ∈ ids ->
    dma_accepted d' dev vc = dma_accepted d dev vc /\ dma_rung d' dev vc = dma_rung d dev vc.

Lemma same_elsewhere_on dev vc d d' ids :
  same_elsewhere dev vc d d' -> (dev, vc) ∉ ids -> same_on ids d d'.
Proof. intros Hs Hn dev' vc' Hin. apply Hs. intros [= -> ->]. done. Qed.

Lemma drained_same v d d1 d' v' : same_on [chan_id v] d d1 -> drained v d1 d' v' -> drained v d d' v'.
Proof.
  intros Hs. destruct (Hs (devid v) (vchan v)) as [E _]; [by apply list_elem_of_singleton|].
  unfold drained, src_stream, dst_stream. by rewrite E.
Qed.

Lemma drained_same' v d d1 d' v' : same_on [chan_id v] d1 d' -> drained v d d1 v' -> drained v d d' v'.
Proof.
  intros Hs. destruct (Hs (devid v) (vchan v)) as [E1 E2]; [by apply list_elem_of_singleton|].
  unfold drained, src_stream, dst_stream.
  intros (?&?&?& Hd & Hv &?&?&?). rewrite Hd, Hv in *. rewrite E1, E2. done.
Qed.

Lemma flushable_same d d' v : same_on [chan_id v] d d' -> flushable d v -> flushable d' v.
Proof.
  intros Hs (?&?&Hb). destruct (Hs (devid v) (vchan v)) as [E1 E2]; [by apply list_elem_of_singleton|].
  split_and!; try done. unfold bell_ok in *. by rewrite E1, E2.
Qed.

Lemma same_on_sub ids ids' d d' : ids' ⊆ ids -> same_on ids d d' -> same_on ids' d d'.
Proof. intros Hsub Hs dev vc Hin. apply Hs. by apply Hsub. Qed.

Lemma drained_all_same l l' d d1 d' : same_on (chan_id <$> l) d d1 ->
  Forall2 (fun v v' => drained v d1 d' v') l l' -> Forall2 (fun v v' => drained v d d' v') l l'.
Proof.
  intros Hs Hall. induction Hall as [|v v' l l' Hv Hall IH]; constructor.
  - apply (drained_same _ _ d1); [|done]. eapply same_on_sub; [|done]. cbn. set_solver.
  - apply IH. eapply same_on_sub; [|done]. cbn. set_solver.
Qed.

Lemma drained_all_same' l l' d d1 d' : same_on (chan_id <$> l) d1 d' ->
  Forall2 (fun v v' => drained v d d1 v') l l' -> Forall2 (fun v v' => drained v d d' v') l l'.
Proof.
  intros Hs Hall. induction Hall as [|v v' l l' Hv Hall IH]; constructor.
  - apply (drained_same' _ _ d1); [|done]. eapply same_on_sub; [|done]. cbn. set_solver.
  - apply IH. eapply same_on_sub; [|done]. cbn. set_solver.
Qed.

Lemma flush_submit_vchans_spec : forall n l d,
  (n <= length l)%nat -> NoDup (chan_id <$> take n l) -> Forall (flushable d) (take n l) ->
  exists l' d', flush_submit_vchans DAO_DMA_STATS n l d = Ret (l', d') /\
    length l' = length l /\
    Forall2 (fun v v' => drained v d d' v') (take n l) (take n l') /\
    (forall ids, (forall c, c ∈ chan_id <$> take n l -> c ∉ ids) -> same_on ids d d').
Proof.
  induction n as [|n IH]; intros l d Hn Hnd Hf.
  { by exists l, d. }
  destruct l as [|v l]; [cbn in Hn; lia|]. cbn in *.
  apply NoDup_cons in Hnd as [Hfresh Hnd]. apply Forall_cons in Hf as [(Hwf & Hp & Hb) Hf].
  destruct (flush_submit_one _ v d) as [v1 d1] eqn:E1.
  destruct (flush_submit_one_spec _ _ _ _ _ Hwf Hp Hb E1) as [Hdr Helse].
  assert (same_on (chan_id <$> take n l) d d1) as Hs1 by (by eapply same_elsewhere_on).
  destruct (IH l d1) as (l' & d' & Hr & Hlen & Hall & Hframe); [lia|done|..].
  { apply Forall_forall. intros w Hw. rewrite Forall_forall in Hf.
    apply (flushable_same d); [|by apply Hf].
    apply (same_on_sub (chan_id <$> take n l)); [|done].
    intros c ->%list_elem_of_singleton. by apply list_elem_of_fmap_2. }
  rewrite Hr. exists (v1 :: l'), d'. cbn. split_and!; [done|by rewrite Hlen|..].
  - constructor.
    + apply (drained_same' _ _ d1); [|done]. apply Hframe.
      intros c Hc ->%list_elem_of_singleton. done.
    + by eapply drained_all_same.
  - intros ids Hids dev vc Hin. destruct (Hframe ids) with dev vc as [F1 F2]; [|done|].
    { intros c Hc. apply Hids. by right. }
    assert ((dev, vc) <> (devid v, vchan v)) as Hne.
    { intros [= -> ->]. apply (Hids (chan_id v)); [by left|done]. }
    destruct (Helse dev vc Hne) as [G1 G2]. by rewrite F1, F2.
Qed.
End dma_submit_all.

(** ** Completion metadata lemmas *)

Lemma mdata_at v i : vchan_wf v -> 0 <= i ->
  exists md, cget (mdata v) (i mod DAO_DMA_MAX_INFLIGHT_MDATA) = Ret md /\ mdata_wf md /\
    mdata v !! Z.to_nat (i mod DAO_DMA_MAX_INFLIGHT_MDATA) = Some md.
Proof.
  intros Hwf Hi. pose proof (Z.mod_pos_bound i DAO_DMA_MAX_INFLIGHT_MDATA ltac:(done)).
  unfold DAO_DMA_MAX_INFLIGHT_MDATA in *.
  destruct (cget_in_range (mdata v) (i mod 4096)) as [md Hmd]; [rewrite wf_mdata_len by done; lia|].
  exists md. split; [done|]. apply cget_Ret in Hmd as [_ Hmd]. split; [|done].
  pose proof (wf_mdata v Hwf) as Hall. rewrite Forall_lookup in Hall. by eapply Hall.
Qed.

(** The entry a metadata update writes. *)
Definition mdata_push (md : dao_dma_cmpl_mdata) (ptr val pend_ptr pend_val : Z) :=
  let j := Z.to_nat (md_cnt md) in
  {| md_pend_ptr := <[j := pend_ptr]> (md_pend_ptr md);
     md_pend_val := <[j := pend_val]> (md_pend_val md);
     md_val := <[j := val]> (md_val md); md_ptr := <[j := ptr]> (md_ptr md);
     md_cnt := md_cnt md + 1 |}.

Lemma update_cmpl_meta_spec v ptr val pptr pval tl md :
  vchan_wf v -> 0 <= tl ->
  mdata v !! Z.to_nat (tl mod DAO_DMA_MAX_INFLIGHT_MDATA) = Some md ->
  md_cnt md < DAO_DMA_MAX_POINTER ->
  dao_dma_update_cmpl_meta v ptr val pptr pval tl =
    Ret (set_compl v (head v) (dma_compl_errs v)
      (<[Z.to_nat (tl mod DAO_DMA_MAX_INFLIGHT_MDATA) := mdata_push md ptr val pptr pval]> (mdata v))).
Proof.
  intros Hwf Htl Hmd Hcnt. destruct (mdata_at v tl Hwf Htl) as (md' & Hget & Hmdwf & Hmd').
  assert (md' = md) as -> by congruence. destruct Hmdwf as (L1 & L2 & L3 & L4 & Hc).
  unfold dao_dma_update_cmpl_meta. rewrite Hget. cbn.
  unfold DAO_DMA_MAX_POINTER in *.
  rewrite !cset_in_range by lia. cbn.
  pose proof (Z.mod_pos_bound tl DAO_DMA_MAX_INFLIGHT_MDATA ltac:(done)).
  rewrite cset_in_range by (rewrite wf_mdata_len by done; unfold DAO_DMA_MAX_INFLIGHT_MDATA in *; lia).
  cbn. rewrite u16_id by word. done.
Qed.

Lemma mdata_push_wf md ptr val pptr pval :
  mdata_wf md -> md_cnt md < DAO_DMA_MAX_POINTER -> mdata_wf (mdata_push md ptr val pptr pval).
Proof.
  intros (L1 & L2 & L3 & L4 & Hc) Hlt. unfold mdata_wf, mdata_push. cbn.
  rewrite !length_insert. split_and!; done || lia.
Qed.

Lemma set_mdata_wf v h e mds : vchan_wf v -> is_u16 h -> length mds = 4096%nat ->
  Forall mdata_wf mds -> vchan_wf (set_compl v h e mds).
Proof. intros [] ???. by split. Qed.

(** One record of an entry: [*ptr = val; *pend_ptr -= pend_val]. *)
Record cmpl_rec := { r_ptr : Z; r_val : Z; r_pend_ptr : Z; r_pend_val : Z }.

Definition mk_rec (a b : Z * Z) : cmpl_rec :=
  {| r_ptr := a.1; r_val := a.2; r_pend_ptr := b.1; r_pend_val := b.2 |}.

Definition md_records (md : dao_dma_cmpl_mdata) : list cmpl_rec :=
  take (Z.to_nat (md_cnt md))
    (zip_with mk_rec (zip (md_ptr md) (md_val md)) (zip (md_pend_ptr md) (md_pend_val md))).

(** The records of operation number [i]. *)
Definition op_records (mds : list dao_dma_cmpl_mdata) (i : Z) : list cmpl_rec :=
  match mds !! Z.to_nat (i mod DAO_DMA_MAX_INFLIGHT_MDATA) with
  | Some md => md_records md
  | None => []
  end.

(** What the records do, one after the other. *)
Fixpoint apply_recs (rs : list cmpl_rec) (m : store) : cres store :=
  match rs with
  | [] => Ret m
  | r :: rs =>
      m ← mstore m (r_ptr r) (r_val r);
      cur ← mload m (r_pend_ptr r);
      m ← mstore m (r_pend_ptr r) (u16 (cur - r_pend_val r));
      apply_recs rs m
  end.

Lemma apply_recs_app rs1 rs2 : forall m,
  apply_recs (rs1 ++ rs2) m = apply_recs rs1 m ≫= apply_recs rs2.
Proof.
  induction rs1 as [|r rs1 IH]; intros m; [done|]. cbn.
  destruct (mstore m _ _) as [m1| |]; [|done..]. cbn.
  destruct (mload m1 _); [|done..]. cbn. destruct (mstore m1 _ _); [|done..]. apply IH.
Qed.

(** An entry's cells at a position in use. *)
Lemma md_cells md j : mdata_wf md -> 0 <= j < md_cnt md ->
  exists r, md_records md !! Z.to_nat j = Some r /\
    cget (md_ptr md) j = Ret (r_ptr r) /\ cget (md_val md) j = Ret (r_val r) /\
    cget (md_pend_ptr md) j = Ret (r_pend_ptr r) /\ cget (md_pend_val md) j = Ret (r_pend_val r).
Proof.
  intros (L1 & L2 & L3 & L4 & Hc) Hj. unfold DAO_DMA_MAX_POINTER in *.
  destruct (cget_in_range (md_ptr md) j) as [a Ha]; [lia|].
  destruct (cget_in_range (md_val md) j) as [b Hb]; [lia|].
  destruct (cget_in_range (md_pend_ptr md) j) as [c Hcc]; [lia|].
  destruct (cget_in_range (md_pend_val md) j) as [e He]; [lia|].
  exists (mk_rec (a, b) (c, e)). split; [|done]. unfold md_records.
  apply cget_Ret in Ha as [_ Ha], Hb as [_ Hb], Hcc as [_ Hcc], He as [_ He].
  rewrite lookup_take_lt by lia. rewrite lookup_zip_with.
  rewrite !lookup_zip_with, Ha, Hb, Hcc, He. done.
Qed.

Lemma apply_mdata_records md : mdata_wf md -> forall fuel j m,
  0 <= j -> md_cnt md - j <= Z.of_nat fuel ->
  apply_mdata fuel md j m = apply_recs (drop (Z.to_nat j) (md_records md)) m.
Proof.
  intros Hwf. assert (length (md_records md) = Z.to_nat (md_cnt md)) as Hlen.
  { destruct Hwf as (L1 & L2 & L3 & L4 & Hc). unfold md_records, DAO_DMA_MAX_POINTER in *.
    rewrite length_take, length_zip_with, !length_zip_with. lia. }
  induction fuel as [|fuel IH]; intros j m Hj Hfuel; cbn.
  - rewrite (proj2 (Z.ltb_ge _ _)) by lia. by rewrite drop_ge by lia.
  - destruct (Z.ltb_spec j (md_cnt md)); [|by rewrite drop_ge by lia].
    destruct (md_cells md j Hwf) as (r & Hr & -> & -> & -> & ->); [lia|].
    erewrite drop_S by done. cbn. destruct (mstore m _ _) as [m1| |]; [|done..]. cbn.
    destruct (mload m1 _) as [cur| |]; [|done..]. cbn.
    destruct (mstore m1 _ _) as [m2| |]; [|done..]. cbn.
    rewrite IH by lia. by replace (Z.to_nat (j + 1)) with (S (Z.to_nat j)) by lia.
Qed.

Lemma md_records_push md ptr val pptr pval : mdata_wf md -> md_cnt md < DAO_DMA_MAX_POINTER ->
  md_records (mdata_push md ptr val pptr pval) =
  md_records md ++ [{| r_ptr := ptr; r_val := val; r_pend_ptr := pptr; r_pend_val := pval |}].
Proof.
  intros (L1 & L2 & L3 & L4 & Hc) Hlt. unfold md_records, mdata_push, DAO_DMA_MAX_POINTER in *. cbn.
  replace (Z.to_nat (md_cnt md + 1)) with (S (Z.to_nat (md_cnt md))) by lia.
  rewrite <- !insert_zip_with. rewrite take_insert_snoc; [done|].
  rewrite length_zip_with, !length_zip_with. lia.
Qed.

Lemma clear_cnt_wf md : mdata_wf md -> mdata_wf (clear_cnt md).
Proof. intros (?&?&?&?&?). by unfold mdata_wf, clear_cnt. Qed.

Lemma op_slot_ne i k : 0 <= i -> 0 <= k -> i mod DAO_DMA_MAX_INFLIGHT_MDATA <> k mod DAO_DMA_MAX_INFLIGHT_MDATA ->
  Z.to_nat (i mod DAO_DMA_MAX_INFLIGHT_MDATA) <> Z.to_nat (k mod DAO_DMA_MAX_INFLIGHT_MDATA).
Proof.
  intros. pose proof (Z.mod_pos_bound i DAO_DMA_MAX_INFLIGHT_MDATA ltac:(done)).
  pose proof (Z.mod_pos_bound k DAO_DMA_MAX_INFLIGHT_MDATA ltac:(done)). lia.
Qed.

(** The entries after [n] operations from number [i] completed. *)
Fixpoint clear_ops (n : nat) (mds : list dao_dma_cmpl_mdata) (i : Z) : list dao_dma_cmpl_mdata :=
  match n with
  | O => mds
  | S n => clear_ops n (alter clear_cnt (Z.to_nat (i mod DAO_DMA_MAX_INFLIGHT_MDATA)) mds) (i + 1)
  end.

Lemma clear_one_wf mds k : Forall mdata_wf mds -> Forall mdata_wf (alter clear_cnt k mds).
Proof. intros H. apply Forall_alter; [done|]. intros. by apply clear_cnt_wf. Qed.

Lemma clear_one_records mds i k : 0 <= i -> 0 <= k ->
  op_records (alter clear_cnt (Z.to_nat (i mod DAO_DMA_MAX_INFLIGHT_MDATA)) mds) k =
  if bool_decide ((k - i) mod DAO_DMA_MAX_INFLIGHT_MDATA = 0) then [] else op_records mds k.
Proof.
  intros Hi Hk. unfold op_records. case_bool_decide as Hz.
  - assert (k mod DAO_DMA_MAX_INFLIGHT_MDATA = i mod DAO_DMA_MAX_INFLIGHT_MDATA) as ->
      by (unfold DAO_DMA_MAX_INFLIGHT_MDATA in *; word).
    rewrite list_lookup_alter_eq. by destruct (mds !! _).
  - rewrite list_lookup_alter_ne; [done|]. apply op_slot_ne; [done..|].
    unfold DAO_DMA_MAX_INFLIGHT_MDATA in *. word.
Qed.

Lemma clear_ops_spec : forall n mds i, 0 <= i -> Forall mdata_wf mds ->
  length (clear_ops n mds i) = length mds /\ Forall mdata_wf (clear_ops n mds i) /\
  (Z.of_nat n <= DAO_DMA_MAX_INFLIGHT_MDATA -> forall k, 0 <= k ->
   op_records (clear_ops n mds i) k =
   if bool_decide ((k - i) mod DAO_DMA_MAX_INFLIGHT_MDATA < Z.of_nat n) then []
   else op_records mds k).
Proof.
  induction n as [|n IH]; intros mds i Hi Hall; cbn [clear_ops].
  - split_and!; [done..|]. intros _ k Hk. rewrite bool_decide_false; [done|].
    pose proof (Z.mod_pos_bound (k - i) DAO_DMA_MAX_INFLIGHT_MDATA ltac:(done)). lia.
  - destruct (IH (alter clear_cnt (Z.to_nat (i mod DAO_DMA_MAX_INFLIGHT_MDATA)) mds) (i + 1))
      as (L & W & R); [lia|by apply clear_one_wf|].
    split; [by rewrite L, length_alter|]. split; [done|]. intros Hn k Hk.
    rewrite R, clear_one_records by (done || lia).
    unfold DAO_DMA_MAX_INFLIGHT_MDATA in *.
    repeat case_bool_decide; try done; exfalso; word.
Qed.

(** Completing [n] operations applies their records in order and empties
    their entries. *)
Lemma complete_mdata_records : forall n mds i m,
  0 <= i -> Z.of_nat n <= DAO_DMA_MAX_INFLIGHT_MDATA -> length mds = 4096%nat -> Forall mdata_wf mds ->
  complete_mdata n mds i m =
    (m' ← apply_recs (concat (op_records mds <$> seqZ i (Z.of_nat n))) m;
     Ret (clear_ops n mds i, m')).
Proof.
  induction n as [|n IH]; intros mds i m Hi Hn Hlen Hall; [done|].
  set (idx := Z.to_nat (i mod DAO_DMA_MAX_INFLIGHT_MDATA)).
  assert (0 <= i mod DAO_DMA_MAX_INFLIGHT_MDATA < 4096) as Hb by (by apply Z.mod_pos_bound).
  destruct (lookup_lt_is_Some_2 mds idx) as [md Hmd]; [lia|].
  assert (mdata_wf md) as Hmdwf by (rewrite Forall_lookup in Hall; by eapply Hall).
  cbn [complete_mdata clear_ops]. rewrite (proj2 (cget_Ret mds _ md)) by (split; [lia|done]).
  rewrite seqZ_cons by lia. cbn [fmap list_fmap concat]. rewrite apply_recs_app.
  assert (op_records mds i = md_records md) as -> by (unfold op_records; fold idx; by rewrite Hmd).
  cbn [mbind cres_mbind].
  rewrite apply_mdata_records, drop_0 by (done || lia).
  destruct (apply_recs (md_records md) m) as [m1| |]; [|done..]. cbn [mbind cres_mbind].
  rewrite cset_in_range by lia. cbn [mbind cres_mbind]. fold idx.
  assert (<[idx := clear_cnt md]> mds = alter clear_cnt idx mds) as ->.
  { apply list_eq. intros k. destruct (decide (idx = k)) as [<-|].
    - rewrite list_lookup_insert_eq, list_lookup_alter_eq by lia. by rewrite Hmd.
    - by rewrite list_lookup_insert_ne, list_lookup_alter_ne. }
  rewrite IH by (lia || by rewrite ?length_alter || by apply clear_one_wf).
  replace (Z.pred (Z.of_nat (S n))) with (Z.of_nat n) by lia.
  replace (op_records (alter clear_cnt idx mds) <$> seqZ (i + 1) (Z.of_nat n))
    with (op_records mds <$> seqZ (Z.succ i) (Z.of_nat n)); [done|].
  apply list_fmap_ext. intros j k Hk. apply lookup_seqZ in Hk as [-> Hj].
  unfold idx. rewrite clear_one_records, bool_decide_false; [done| |lia..].
  unfold DAO_DMA_MAX_INFLIGHT_MDATA in *. word.
Qed.

Lemma update_meta_appends v ptr val pptr pval tl md :
  vchan_wf v -> 0 <= tl ->
  mdata v !! Z.to_nat (tl mod DAO_DMA_MAX_INFLIGHT_MDATA) = Some md ->
  md_cnt md < DAO_DMA_MAX_POINTER ->
  exists v', dao_dma_update_cmpl_meta v ptr val pptr pval tl = Ret v' /\ vchan_wf v' /\
    v' = set_compl v (head v) (dma_compl_errs v) (mdata v') /\
    forall k, 0 <= k -> op_records (mdata v') k =
      op_records (mdata v) k ++
      if bool_decide (k mod DAO_DMA_MAX_INFLIGHT_MDATA = tl mod DAO_DMA_MAX_INFLIGHT_MDATA)
      then [{| r_ptr := ptr; r_val := val; r_pend_ptr := pptr; r_pend_val := pval |}] else [].
Proof.
  intros Hwf Htl Hmd Hcnt. pose proof (wf_mdata v Hwf) as Hall. pose proof Hwf as [].
  assert (mdata_wf md) as Hmdwf by (rewrite Forall_lookup in Hall; by eapply Hall).
  eexists. split; [by apply update_cmpl_meta_spec|]. split.
  { apply set_mdata_wf; [done..|by rewrite length_insert|].
    apply Forall_insert; [done|]. by apply mdata_push_wf. }
  split; [done|]. intros k Hk. unfold op_records. cbn -[insert]. case_bool_decide as Hkt.
  - rewrite Hkt, list_lookup_insert_eq, Hmd, md_records_push; [done..|].
    by apply lookup_lt_Some in Hmd.
  - rewrite list_lookup_insert_ne by (apply op_slot_ne; done). by rewrite app_nil_r.
Qed.


(** Polling for completions. *)
Lemma check_meta_compl_spec {D : Type} `{RteDma D} v n (err : bool) (d d' : D) (m : store) :
  vchan_wf v -> 0 <= n <= 128 ->
  rte_dma_completed (devid v) (vchan v) 128 d = ((n, err), d') ->
  let n' := if err then n + 1 else n in
  exists v2, dao_dma_check_meta_compl v d m =
      (m' ← apply_recs (concat (op_records (mdata v) <$> seqZ (head v) n')) m; Ret (v2, d', m')) /\
    vchan_wf v2 /\ head v2 = u16 (head v + n') /\ tail v2 = tail v /\
    forall k, 0 <= k -> op_records (mdata v2) k =
      if bool_decide ((k - head v) mod DAO_DMA_MAX_INFLIGHT_MDATA < n') then []
      else op_records (mdata v) k.
Proof.
  intros Hwf Hn Hcompl n'. pose proof Hwf as [].
  assert (0 <= n' <= 129) as Hn' by (subst n'; destruct err; lia).
  destruct (clear_ops_spec (Z.to_nat n') (mdata v) (head v)) as (L & W & R); [word|done|].
  eexists. unfold dao_dma_check_meta_compl. rewrite Hcompl.
  assert ((if err then u32 (n + 1) else u32 n) = n') as -> by (subst n'; destruct err; word).
  rewrite complete_mdata_records by (done || unfold DAO_DMA_MAX_INFLIGHT_MDATA; word).
  rewrite Z2Nat.id by lia. split.
  { by destruct (apply_recs _ m). }
  split; [apply set_mdata_wf; auto with dao; by rewrite L|]. split; [done|]. split; [done|].
  intros k Hk. cbn. rewrite R by (done || unfold DAO_DMA_MAX_INFLIGHT_MDATA; lia).
  by rewrite Z2Nat.id by lia.
Qed.

(** ** Channel tables *)

Definition table_ok (info : dao_dma_vchan_info) : Prop :=
  length (dev2mem info) = 128%nat /\ length (mem2dev info) = 128%nat /\
  0 <= nb_dev2mem info < DAO_DMA_MAX_VCHAN_PER_LCORE /\
  0 <= nb_mem2dev info < DAO_DMA_MAX_VCHAN_PER_LCORE /\
  Forall vchan_wf (dev2mem info) /\ Forall vchan_wf (mem2dev info).

(** Naming [n] channels from cell [vchan_idx + i] on. *)
Lemma assign_vchans_spec dev thr idx : 0 <= idx -> forall n l i,
  0 <= i -> idx + i + Z.of_nat n <= Z.of_nat (length l) ->
  exists l', assign_vchans n l idx dev thr i = Ret l' /\ length l' = length l /\
    forall k, l' !! k =
      if bool_decide (idx + i <= Z.of_nat k < idx + i + Z.of_nat n)
      then (fun v => set_conf v dev (u8 (Z.of_nat k - idx)) (u8 thr) (auto_free v)) <$> l !! k
      else l !! k.
Proof.
  intros Hidx. induction n as [|n IH]; intros l i Hi Hlen; cbn.
  { exists l. split_and!; try done. intros k. rewrite bool_decide_false by lia. done. }
  destruct (cget_in_range l (idx + i)) as [v Hv]; [lia|]. rewrite Hv. cbn.
  rewrite cset_in_range by lia. cbn. apply cget_Ret in Hv as [_ Hv].
  set (l1 := <[Z.to_nat (idx + i) := set_conf v dev (u8 i) (u8 thr) (auto_free v)]> l).
  destruct (IH l1 (i + 1)) as (l' & Hr & Hl & Hk); [lia|unfold l1; rewrite length_insert; lia|].
  exists l'. split; [done|]. unfold l1 in Hl. rewrite length_insert in Hl. split; [done|].
  intros k. rewrite Hk. unfold l1. destruct (decide (k = Z.to_nat (idx + i))) as [->|Hne].
  - rewrite bool_decide_false, bool_decide_true by lia.
    rewrite list_lookup_insert_eq by lia. rewrite Hv. cbn. by replace (_ - idx) with i by lia.
  - rewrite list_lookup_insert_ne by done. case_bool_decide.
    + rewrite bool_decide_true by lia. done.
    + rewrite bool_decide_false by lia. done.
Qed.

Lemma assign_vchans_wf l l' dev thr idx n :
  (forall k, l' !! k =
      if bool_decide (idx + 0 <= Z.of_nat k < idx + 0 + Z.of_nat n)
      then (fun v => set_conf v dev (u8 (Z.of_nat k - idx)) (u8 thr) (auto_free v)) <$> l !! k
      else l !! k) ->
  0 <= thr <= DAO_DMA_MAX_POINTER -> Forall vchan_wf l -> Forall vchan_wf l'.
Proof.
  intros Hk Hthr Hall. rewrite Forall_lookup in *. intros k v. rewrite Hk.
  case_bool_decide; [|by apply Hall].
  intros (w & Hw & ->)%fmap_Some. apply set_conf_wf; [by eapply Hall|].
  unfold DAO_DMA_MAX_POINTER in *. rewrite u8_id by word. done.
Qed.

(** [dao_dma_enq_x4], across the flush it may perform. *)
Lemma enq_x4_spec (stats : bool) {D : Type} `{RteDmaLaws D}
    (v : dao_dma_vchan_state) (vsrc vdst : list rte_dma_sge) (d : D) :
  vchan_wf v -> src_i v = dst_i v -> src_i v <= flush_thr v ->
  length vsrc = 4%nat -> length vdst = 4%nat ->
  exists r v' d', dao_dma_enq_x4 stats v vsrc vdst d = Ret (r, v', d') /\
    0 <= r <= 4 /\
    src_stream d' v' = src_stream d v ++ take (Z.to_nat r) vsrc /\
    dst_stream d' v' = dst_stream d v ++ take (Z.to_nat r) vdst /\
    vchan_wf v' /\ src_i v' = dst_i v' /\ src_i v' <= flush_thr v' /\
    (flush_thr v' = flush_thr v /\ mdata v' = mdata v /\ head v' = head v) /\
    (1 <= flush_thr v -> 0 < src_i v') /\
    ((forall dev vc s1 d1 n1 n2 fl, 0 <= (rte_dma_copy_sg dev vc s1 d1 n1 n2 fl d).1) ->
     4 <= flush_thr v -> r = 4) /\
    (forall R, willing R -> R d -> R d').
Proof.
  intros Hwf Heq Hthr Hls Hld. pose proof (wf_flush_thr v Hwf). pose proof (wf_src_i v Hwf).
  unfold dao_dma_enq_x4. destruct (4 <=? flush_thr v - src_i v) eqn:E; reflect_bool.
  - destruct (enq_x4_append v vsrc vdst 0 4 4) as (s1 & d1 & Hr & Hwf1 & Hs1 & Hd1 & P1 & P2);
      [done || lia..|].
    rewrite Hr. cbn -[set_pending]. do 3 eexists. split; [done|].
    unfold src_stream, dst_stream. rewrite P1, P2, Hs1, Hd1, !app_assoc.
    split_and!; try done; cbn; lia.
  - set (i := Z.max 0 (flush_thr v - src_i v)).
    destruct (enq_x4_append v vsrc vdst 0 (flush_thr v - src_i v) i)
      as (s1 & d1 & Hr & Hwf1 & Hs1 & Hd1 & P1 & P2); [done || lia..|].
    rewrite Z.add_0_l in Hr. rewrite Hr. cbn -[dao_dma_flush set_pending enq_x4_loop].
    set (v1 := set_pending v s1 d1 _ _) in *.
    assert (src_stream d v1 = src_stream d v ++ take (Z.to_nat i) vsrc /\
            dst_stream d v1 = dst_stream d v ++ take (Z.to_nat i) vdst) as [S1 S2].
    { unfold src_stream, dst_stream. by rewrite P1, P2, !app_assoc. }
    assert (flush_thr v1 = flush_thr v /\ mdata v1 = mdata v /\ head v1 = head v) as (Ht1 & Hm1 & Hh1) by done.
    clearbody v1.
    destruct (dao_dma_flush stats v1 4 d) as [[b v2] d2] eqn:Ef.
    pose proof (flush_spec stats v1 4 d b v2 d2 Hwf1 Ef)
      as (Hwf2 & F1 & F2 & (_ & _ & Ht2 & Hm2 & Hh2) & Hidx & Hroom). change (u8 4) with 4 in Hroom.
    set (j := Z.max 0 (Z.min (4 - i) (flush_thr v2 - src_i v2))).
    destruct (enq_x4_append v2 vsrc vdst i (flush_thr v2 - src_i v2) j)
      as (s3 & d3 & Hr3 & Hwf3 & Hs3 & Hd3 & P3 & P4); [done || lia..|].
    rewrite Hr3. cbn -[set_pending enq_x4_loop]. replace (i + j - i) with j by lia.
    do 3 eexists. split; [done|]. rewrite u16_id by word.
    unfold src_stream, dst_stream in *. rewrite P3, P4, !app_assoc. cbn [devid vchan set_pending].
    rewrite F1, F2, S1, S2, <- !app_assoc, !take_take_drop.
    replace (Z.to_nat i + Z.to_nat j)%nat with (Z.to_nat (i + j)) by lia.
    rewrite Hs3, Hd3. cbn [flush_thr mdata head set_pending].
    split_and!; try (done || lia || congruence).
    + intros Hacc H4. destruct b; [lia|]. apply flush_false in Ef as [fl Hneg].
      pose proof (Hacc (devid v1) (vchan v1) (src v1) (dst v1) (src_i v1) (dst_i v1) fl). lia.
    + intros R HR Hd. by destruct (flush_willing stats R v1 4 d b v2 d2 HR Hd Ef).
Qed.

(** With room for all four there is no flush. *)
Lemma enq_x4_fits (stats : bool) {D : Type} `{RteDma D} (v : dao_dma_vchan_state) (vsrc vdst : list rte_dma_sge) (d : D) :
  vchan_wf v -> src_i v = dst_i v -> length vsrc = 4%nat -> length vdst = 4%nat -> src_i v + 4 <= flush_thr v ->
  exists v', dao_dma_enq_x4 stats v vsrc vdst d = Ret (4, v', d) /\ src_i v' = src_i v + 4.
Proof.
  intros Hwf Heq Hls Hld Hthr. pose proof (wf_flush_thr v Hwf). unfold dao_dma_enq_x4. rewrite (proj2 (Z.leb_le 4 _)) by lia.
  destruct (enq_x4_append v vsrc vdst 0 4 4) as (s1 & d1 & Hr & _ & Hs1 & _); [done || lia..|].
  rewrite Hr. cbn -[set_pending]. eexists. split; [done|]. exact Hs1.
Qed.

(** ** Properties *)

(** [dao_dma_enq_x4] neither loses, duplicates nor reorders pointers: on a
    channel whose two pending lists are in step, it always returns, reports a
    count [r <= 4], and extends what the channel was given (operations the
    device accepted, then the pending pointers) by exactly the first [r] of
    the four pairs, across the flush it may perform; and if the device accepts
    the copy and the threshold allows four pointers, [r] is 4. *)
Theorem enq_x4_conserves (stats : bool) {D : Type} `{RteDmaLaws D}
    (v : dao_dma_vchan_state) (vsrc vdst : list rte_dma_sge) (d : D) :
  vchan_wf v -> src_i v = dst_i v -> src_i v <= flush_thr v ->
  length vsrc = 4%nat -> length vdst = 4%nat ->
  exists r v' d', dao_dma_enq_x4 stats v vsrc vdst d = Ret (r, v', d') /\
    0 <= r <= 4 /\
    src_stream d' v' = src_stream d v ++ take (Z.to_nat r) vsrc /\
    dst_stream d' v' = dst_stream d v ++ take (Z.to_nat r) vdst /\
    vchan_wf v' /\ src_i v' = dst_i v' /\ src_i v' <= flush_thr v' /\
    ((forall dev vc s1 d1 n1 n2 fl, 0 <= (rte_dma_copy_sg dev vc s1 d1 n1 n2 fl d).1) ->
     4 <= flush_thr v -> r = 4).
Proof.
  intros Hwf Heq Hthr Hls Hld.
  destruct (enq_x4_spec stats v vsrc vdst d Hwf Heq Hthr Hls Hld)
    as (r & v' & d' & E & Hr & S1 & S2 & W & Hi & Ht & _ & _ & H4 & _).
  by exists r, v', d'.
Qed.

Definition wit_dma : ref_dma :=
  {| ref_full := false; ref_log := []; ref_bells := []; ref_compl := [] |}.

Definition wit_sge (a : Z) : rte_dma_sge := {| sge_addr := a; sge_length := 64 |}.

(** A channel with threshold 8 and six pointer pairs pending. *)
Definition wit_vchan : dao_dma_vchan_state :=
  set_pending (set_conf vchan_state0 1 0 8 0)
    (replicate 15 (wit_sge 1)) (replicate 15 (wit_sge 2)) 6 6.

Lemma wit_vchan_wf : vchan_wf wit_vchan.
Proof.
  pose proof (set_conf_wf vchan_state0 1 0 8 0 vchan_state0_wf) as [];
    [unfold DAO_DMA_MAX_POINTER; lia|].
  split; try done; unfold DAO_DMA_MAX_POINTER; cbn; lia.
Qed.

Lemma enq_x4_conserves_witness :
  exists r v' d', dao_dma_enq_x4 true wit_vchan (wit_sge <$> [10; 11; 12; 13])
      (wit_sge <$> [20; 21; 22; 23]) wit_dma = Ret (r, v', d') /\ r = 4 /\
    src_stream d' v' = src_stream wit_dma wit_vchan ++ (wit_sge <$> [10; 11; 12; 13]).
Proof.
  destruct (enq_x4_conserves true wit_vchan (wit_sge <$> [10; 11; 12; 13])
    (wit_sge <$> [20; 21; 22; 23]) wit_dma wit_vchan_wf eq_refl)
    as (r & v' & d' & Hr & _ & Hs & _ & _ & _ & _ & H4); [cbn; lia|done|done|].
  assert (r = 4) as -> by (apply H4; cbn; intros; lia).
  exists 4, v', d'. split; [exact Hr|]. split; [reflexivity|exact Hs].
Defined.

(** Operation status across index wrap-around: with [head] and [tail] the
    low 16 bits of the numbers of completed and of submitted operations, and
    fewer than 65536 operations in flight, the status of any of the last 65536
    operation numbers is "complete" exactly when the operation has completed,
    or when it is the next one to be submitted and no pointer is pending. *)
Theorem dma_op_status_complete (v : dao_dma_vchan_state) (H T n : Z) :
  head v = u16 H -> tail v = u16 T -> 0 <= T - H < 0x10000 -> T - 0x10000 < n <= T ->
  dao_dma_op_status v (u16 n) = true <-> n < H \/ (n = T /\ src_i v = 0).
Proof.
  intros Hh Ht Hfl Hn. unfold dao_dma_op_status. rewrite Hh, Ht.
  assert (u16 T = u16 n <-> n = T) as Hidx by (split; [word|by intros ->]).
  destruct (Z.eqb_spec (src_i v) 0) as [Hs|Hs], (Z.eqb_spec (u16 T) (u16 n)) as [Hi|Hi];
    cbn [negb andb];
    try (split; [done|]; rewrite Hidx in Hi; lia);
    (destruct (Z.leb_spec (u16 H) (u16 T)), (Z.ltb_spec (u16 n) (u16 H)),
       (Z.leb_spec (u16 T) (u16 n)); cbn; split; intros; try done; word).
Qed.

Lemma dma_op_status_complete_witness :
  dao_dma_op_status (set_compl (set_queued vchan_state0 2 0) 65534 0 []) 65533 = true /\
  dao_dma_op_status (set_compl (set_queued vchan_state0 2 0) 65534 0 []) 1 = false.
Proof.
  split.
  - change 65533 with (u16 65533).
    apply (dma_op_status_complete _ 65534 65538 65533); [reflexivity|reflexivity|lia|lia|lia].
  - change 1 with (u16 65537). apply not_true_is_false.
    rewrite (dma_op_status_complete _ 65534 65538 65537); [lia|reflexivity|reflexivity|lia|lia].
Defined.

(** [dao_dma_flush_submit] leaves nothing behind: on an lcore whose channels
    are distinct it returns 0 with no operation left without a doorbell, no
    pointer pending on a channel unless the device refused its copy (and then
    the pointers are kept), and what every channel was given unchanged and in
    order. *)
Theorem flush_submit_drains (stats : bool) {D : Type} `{RteDmaLaws D}
    (lcore : Z) (g : dma_globals) (d : D) (info : dao_dma_vchan_info) :
  vchan_info_p g !! lcore = Some info ->
  let n1 := Z.to_nat (nb_dev2mem info) in
  let n2 := Z.to_nat (nb_mem2dev info) in
  let used := take n1 (dev2mem info) ++ take n2 (mem2dev info) in
  (n1 <= length (dev2mem info))%nat -> (n2 <= length (mem2dev info))%nat ->
  NoDup (chan_id <$> used) -> Forall (flushable d) used ->
  exists g' d' info', dao_dma_flush_submit stats lcore g d = Ret (0, g', d') /\
    vchan_info_p g' !! lcore = Some info' /\
    Forall2 (fun v v' => drained v d d' v') used
      (take n1 (dev2mem info') ++ take n2 (mem2dev info')).
Proof.
  intros Hi n1 n2 used Hn1 Hn2 Hnd Hf. unfold dao_dma_flush_submit. rewrite Hi.
  unfold used in *. rewrite fmap_app in Hnd. apply NoDup_app in Hnd as (Hnd1 & Hdis & Hnd2).
  apply Forall_app in Hf as [Hf1 Hf2].
  destruct (flush_submit_vchans_spec stats n1 (dev2mem info) d)
    as (l1 & d1 & Hr1 & _ & Hall1 & Hfr1); [done..|].
  assert (same_on (chan_id <$> take n2 (mem2dev info)) d d1) as Hs by (apply Hfr1; exact Hdis).
  destruct (flush_submit_vchans_spec stats n2 (mem2dev info) d1)
    as (l2 & d2 & Hr2 & _ & Hall2 & Hfr2); [done|done|..].
  { rewrite Forall_forall in Hf2 |- *. intros v Hv. apply (flushable_same d); [|by apply Hf2].
    eapply same_on_sub; [|exact Hs]. intros c ->%list_elem_of_singleton.
    by apply list_elem_of_fmap_2. }
  unfold n1, n2 in *. rewrite Hr1. cbn -[flush_submit_vchans]. rewrite Hr2. cbn.
  do 3 eexists. split; [done|]. split; [apply lookup_insert_eq|]. cbn.
  apply Forall2_app; [|by eapply drained_all_same].
  eapply drained_all_same'; [|done]. apply Hfr2. intros c Hc Hc'. by apply (Hdis c).
Qed.

Lemma flush_submit_drains_witness :
  exists g' d' info',
    dao_dma_flush_submit true 3 (put_info dma_globals0 3
      {| nb_dev2mem := 1; nb_mem2dev := 0; dev2mem := [wit_vchan]; mem2dev := [] |}) wit_dma
      = Ret (0, g', d') /\
    vchan_info_p g' !! 3 = Some info' /\
    Forall2 (fun v v' => drained v wit_dma d' v') [wit_vchan] (take 1 (dev2mem info') ++ []).
Proof.
  apply (flush_submit_drains true 3 _ wit_dma
    {| nb_dev2mem := 1; nb_mem2dev := 0; dev2mem := [wit_vchan]; mem2dev := [] |}).
  - apply lookup_insert_eq.
  - cbn. lia.
  - cbn. lia.
  - apply NoDup_singleton.
  - apply Forall_singleton. split; [exact wit_vchan_wf|]. split; [cbn; lia|reflexivity].
Defined.

(** C33. A completion performs the stores its operations recorded. Recording
    ([ptr], [val], [pend_ptr], [pend_val]) for operation [tl] appends one
    record to that operation's entry and to no other. Polling a device that
    reports [n] completions performs the records of operations [head] to
    [head + n - 1] (one operation more when the device reports an error), in
    order - each stores [val] through [ptr] and subtracts [pend_val] modulo
    2^16 through [pend_ptr] - advances [head] past these operations, and
    empties their entries and no others, which is the state recording starts
    from; it fails only when a recorded pointer points to no cell. *)
Theorem meta_completion_stores {D : Type} `{RteDma D} (v : dao_dma_vchan_state)
    (n : Z) (err : bool) (d d' : D) (m : store) :
  vchan_wf v -> 0 <= n <= 128 ->
  rte_dma_completed (devid v) (vchan v) 128 d = ((n, err), d') ->
  let n' := if err then n + 1 else n in
  let done_ops := seqZ (head v) n' in
  (forall tl md ptr val pptr pval, 0 <= tl ->
     mdata v !! Z.to_nat (tl mod DAO_DMA_MAX_INFLIGHT_MDATA) = Some md ->
     md_cnt md < DAO_DMA_MAX_POINTER ->
     exists v1, dao_dma_update_cmpl_meta v ptr val pptr pval tl = Ret v1 /\ vchan_wf v1 /\
       forall k, 0 <= k -> op_records (mdata v1) k =
         op_records (mdata v) k ++
         if bool_decide (k mod DAO_DMA_MAX_INFLIGHT_MDATA = tl mod DAO_DMA_MAX_INFLIGHT_MDATA)
         then [{| r_ptr := ptr; r_val := val; r_pend_ptr := pptr; r_pend_val := pval |}]
         else []) /\
  exists v2, dao_dma_check_meta_compl v d m =
      (m' ← apply_recs (concat (op_records (mdata v) <$> done_ops)) m; Ret (v2, d', m')) /\
    vchan_wf v2 /\ head v2 = u16 (head v + n') /\ tail v2 = tail v /\
    forall k, 0 <= k -> op_records (mdata v2) k =
      if bool_decide ((k - head v) mod DAO_DMA_MAX_INFLIGHT_MDATA < n') then []
      else op_records (mdata v) k.
Proof.
  intros Hwf Hn Hcompl n' done_ops. split.
  { intros tl md ptr val pptr pval Htl Hmd Hcnt.
    destruct (update_meta_appends v ptr val pptr pval tl md) as (v1 & E & W & _ & R); [done..|].
    exists v1. done. }
  by apply check_meta_compl_spec.
Qed.

Lemma meta_completion_stores_witness :
  exists v1 v2, dao_dma_update_cmpl_meta vchan_state0 0x100 7 0x102 3 0 = Ret v1 /\
    dao_dma_check_meta_compl v1
      {| ref_full := false; ref_log := []; ref_bells := []; ref_compl := [(1, false)] |}
      (<[0x100 := 0]> {[0x102 := 5]}) =
    Ret (v2, wit_dma, <[0x102 := 2]> (<[0x100 := 7]> (<[0x100 := 0]> {[0x102 := 5]}))) /\
    head v2 = 1.
Proof.
  set (d := {| ref_full := false; ref_log := []; ref_bells := []; ref_compl := [(1, false)] |}).
  destruct (meta_completion_stores vchan_state0 1 false d wit_dma ∅ vchan_state0_wf)
    as [Hup _]; [lia|reflexivity|].
  destruct (Hup 0 mdata0 0x100 7 0x102 3) as (v1 & E1 & W1 & R1);
    [lia|reflexivity|unfold DAO_DMA_MAX_POINTER; cbn; lia|].
  assert (v1 = match dao_dma_update_cmpl_meta vchan_state0 0x100 7 0x102 3 0 with
               | Ret x => x | _ => v1 end) as Hv1 by (by rewrite E1).
  destruct (meta_completion_stores v1 1 false d wit_dma (<[0x100 := 0]> {[0x102 := 5]}) W1)
    as [_ (v2 & E2 & _ & H2 & _)]; [lia|rewrite Hv1; reflexivity|].
  exists v1, v2. split; [exact E1|].
  assert (head v1 = 0) as Hh by (rewrite Hv1; reflexivity).
  rewrite Hh in *. split; [|exact H2]. rewrite E2.
  change (op_records (mdata v1) <$> seqZ 0 1)
    with [op_records (mdata v1) 0].
  rewrite (R1 0) by lia. reflexivity.
Defined.

(** Assigning a device to an lcore extends its table: with a valid device,
    a legal threshold (0 selects the default of 8) and room for the channels,
    [dao_dma_lcore_dev2mem_set] returns 0, keeps every channel the lcore
    already had, and gives the next [nb_vchans] cells the device, the channel
    numbers 0, 1, ... and the threshold, all of them well formed. *)
Theorem lcore_dev2mem_set_extends {D : Type} `{RteDma D}
    (lcore dev nb thr : Z) (mem_ok : bool) (d : D) (g : dma_globals) (info : dao_dma_vchan_info) :
  rte_dma_is_valid dev d = true -> 0 <= thr <= DAO_DMA_MAX_POINTER -> 0 <= nb ->
  vchan_info_p g !! lcore = Some info -> table_ok info ->
  nb_dev2mem info + nb < DAO_DMA_MAX_VCHAN_PER_LCORE ->
  exists info', dao_dma_lcore_dev2mem_set lcore dev nb thr mem_ok d g =
      Ret (0, put_info g lcore info') /\
    table_ok info' /\ nb_dev2mem info' = nb_dev2mem info + nb /\
    nb_mem2dev info' = nb_mem2dev info /\ mem2dev info' = mem2dev info /\
    take (Z.to_nat (nb_dev2mem info)) (dev2mem info') =
      take (Z.to_nat (nb_dev2mem info)) (dev2mem info) /\
    (forall i, 0 <= i < nb -> exists v,
       dev2mem info' !! Z.to_nat (nb_dev2mem info + i) = Some v /\
       devid v = dev /\ vchan v = i /\
       flush_thr v = if thr =? 0 then DAO_DMA_MAX_POINTER_THR_DFLT else thr).
Proof.
  intros Hval Hthr Hnb Hi (L1 & L2 & B1 & B2 & W1 & W2) Hroom.
  unfold dao_dma_lcore_dev2mem_set, lcore_set_prologue. rewrite Hval, Hi. cbn [negb].
  set (t := if thr =? 0 then _ else thr).
  assert (0 <= t <= DAO_DMA_MAX_POINTER) as Ht.
  { unfold t, DAO_DMA_MAX_POINTER_THR_DFLT, DAO_DMA_MAX_POINTER in *. destruct (thr =? 0); lia. }
  rewrite (proj2 (Z.ltb_ge _ _)) by lia. rewrite (proj2 (Z.leb_gt _ _)) by lia.
  unfold DAO_DMA_MAX_VCHAN_PER_LCORE in *.
  destruct (assign_vchans_spec dev t (nb_dev2mem info) ltac:(lia) (Z.to_nat nb) (dev2mem info) 0)
    as (l' & Hr & Hl & Hk); [lia|lia|].
  rewrite Hr. cbn. eexists. split; [done|]. cbn. rewrite u16_id by word.
  split_and!; try done.
  - split_and!; cbn; unfold DAO_DMA_MAX_VCHAN_PER_LCORE; rewrite ?u16_id by word;
      try (done || lia). by eapply assign_vchans_wf.
  - apply list_eq. intros k. destruct (decide (k < Z.to_nat (nb_dev2mem info))%nat).
    + rewrite !lookup_take_lt by done. rewrite Hk, bool_decide_false by lia. done.
    + rewrite !lookup_take_ge by lia. done.
  - intros i Hi'. rewrite Hk, bool_decide_true by lia.
    destruct (lookup_lt_is_Some_2 (dev2mem info) (Z.to_nat (nb_dev2mem info + i))) as [v ->]; [lia|].
    eexists. split; [done|]. cbn. unfold DAO_DMA_MAX_POINTER in *.
    replace (_ - nb_dev2mem info) with i by lia. rewrite !u8_id by word. done.
Qed.

Lemma lcore_dev2mem_set_extends_witness :
  exists info', dao_dma_lcore_dev2mem_set 3 5 2 0 true wit_dma
      (put_info dma_globals0 3 vchan_info0) =
      Ret (0, put_info (put_info dma_globals0 3 vchan_info0) 3 info') /\
    nb_dev2mem info' = 2.
Proof.
  destruct (lcore_dev2mem_set_extends 3 5 2 0 true wit_dma (put_info dma_globals0 3 vchan_info0)
    vchan_info0) as (info' & H1 & _ & H2 & _).
  - reflexivity.
  - unfold DAO_DMA_MAX_POINTER. lia.
  - lia.
  - apply lookup_insert_eq.
  - split_and!; try done; apply Forall_replicate; exact vchan_state0_wf.
  - cbn. unfold DAO_DMA_MAX_VCHAN_PER_LCORE. lia.
  - exists info'. split; [exact H1|exact H2].
Defined.

(** ** Waiting for completions *)
Section draining.
Context {D : Type} `{RteDma D} (dev vc : Z).

(** The answer of a poll: the operations it reports, a failed one included,
    whether one failed, and the device after it. *)
Definition poll_count (d : D) : Z := let '((n, err), _) := rte_dma_completed dev vc 128 d in n + b2z err.
Definition poll_failed (d : D) : bool := (rte_dma_completed dev vc 128 d).1.2.
Definition polled (d : D) : D := (rte_dma_completed dev vc 128 d).2.

(** The operations and failures that [k] polls report. *)
Fixpoint reported (k : nat) (d : D) : Z :=
  match k with O => 0 | S k => poll_count d + reported k (polled d) end.
Fixpoint failures (k : nat) (d : D) : nat :=
  match k with O => 0%nat | S k => (Nat.b2n (poll_failed d) + failures k (polled d))%nat end.

(** A poll reports no negative number, and the polls never go past the [lag]
    operations that are outstanding. *)
Definition reports_upto (lag : Z) (d : D) : Prop :=
  (forall d', 0 <= (rte_dma_completed dev vc 128 d').1.1) /\ forall k, reported k d < lag -> reported (S k) d <= lag.

Lemma reports_upto_step lag d : 0 < lag -> reports_upto lag d ->
  0 <= poll_count d <= lag /\ reports_upto (lag - poll_count d) (polled d).
Proof.
  intros Hl [Hn Hk]. pose proof (Hk 0%nat Hl) as H0. cbn in H0. split.
  - unfold poll_count in *. specialize (Hn d). destruct (rte_dma_completed _ _ _ d) as [[n err] d']. cbn in *. destruct err; cbn in *; lia.
  - split; [done|]. intros k Hr. specialize (Hk (S k)). cbn [reported] in *. lia.
Qed.

(** One poll of the loop. *)
Lemma check_compl_step v d : vchan_wf v -> devid v = dev -> vchan v = vc -> 0 < u16 (tail v - head v) ->
  reports_upto (u16 (tail v - head v)) d ->
  exists v', dao_dma_check_compl v d = (v', polled d) /\ vchan_wf v' /\ devid v' = dev /\ vchan v' = vc /\ tail v' = tail v /\
    u16 (tail v' - head v') = u16 (tail v - head v) - poll_count d /\
    dma_compl_errs v' = Nat.iter (Nat.b2n (poll_failed d)) (fun e => u64 (e + 1)) (dma_compl_errs v).
Proof.
  intros Hwf Hdev Hvc Hl Hr. pose proof (proj1 Hr d) as Hn0. apply reports_upto_step in Hr as [Hc _]; [|done]. pose proof Hwf as [].
  unfold dao_dma_check_compl, poll_count, poll_failed, polled in *. rewrite Hdev, Hvc.
  destruct (rte_dma_completed dev vc 128 d) as [[n err] d']. cbn [fst snd] in *.
  destruct err; cbn [b2z Nat.b2n] in *; eexists; (split; [reflexivity|]); cbn; (split; [by apply set_mdata_wf; auto with dao|]); (split_and!; [done..| |done]); word.
Qed.

Lemma compl_drain_spec : forall fuel v d, vchan_wf v -> devid v = dev -> vchan v = vc ->
  let lag := u16 (tail v - head v) in reports_upto lag d ->
  match compl_drain fuel v d with
  | None => forall k, (k <= fuel)%nat -> reported k d < lag
  | Some (v', d') => exists k, (k <= fuel)%nat /\ reported k d = lag /\ (forall j, (j < k)%nat -> reported j d < lag) /\
      d' = Nat.iter k polled d /\ head v' = tail v /\ tail v' = tail v /\
      dma_compl_errs v' = Nat.iter (failures k d) (fun e => u64 (e + 1)) (dma_compl_errs v)
  end.
Proof.
  induction fuel as [|fuel IH]; intros v d Hwf Hdev Hvc lag Hr; pose proof Hwf as []; cbn [compl_drain];
    (destruct (Z.eqb_spec (head v) (tail v)) as [Heq|Hne];
     [exists 0%nat; cbn; split_and!; try done; try (intros; lia); unfold lag; word|]); assert (0 < lag) as Hl by (unfold lag; word).
  { intros k Hk. replace k with 0%nat by lia. done. }
  destruct (check_compl_step v d Hwf Hdev Hvc Hl Hr) as (v1 & -> & Hwf1 & Hd1 & Hv1 & Ht1 & Hlag & He1).
  apply reports_upto_step in Hr as [_ Hr]; [|done]. fold lag in Hlag, Hr. rewrite <- Hlag in Hr. specialize (IH v1 (polled d) Hwf1 Hd1 Hv1 Hr).
  cbn zeta in IH. rewrite Hlag in IH. destruct (compl_drain fuel v1 (polled d)) as [[v' d']|].
  - destruct IH as (k & Hk & Hrk & Hlt & -> & Hh & Ht & He). exists (S k). cbn [reported failures]. rewrite Nat.iter_succ_r, Nat.add_comm, Nat.iter_add, <- He1.
    split_and!; try (done || lia || congruence). intros j Hj. destruct j as [|j]; [done|]. cbn [reported]. specialize (Hlt j). lia.
  - intros k Hk. destruct k as [|k]; [done|]. cbn [reported]. specialize (IH k). lia.
Qed.

(** When [n] polls in a row always report something, [n * lag] polls are enough. *)
Lemma fair_reports n lag d : 0 <= lag -> (forall k, reported k d < lag -> reported k d < reported (n + k) d) ->
  ~ (forall k, (k <= n * Z.to_nat lag)%nat -> reported k d < lag).
Proof.
  intros Hl Hf Hall. assert (forall i, (i <= Z.to_nat lag)%nat -> Z.of_nat i <= reported (n * i) d) as Hi.
  { induction i as [|i IH]; intros Hi; [rewrite Nat.mul_0_r; cbn; lia|]. assert (n * i <= n * Z.to_nat lag)%nat by (apply Nat.mul_le_mono_l; lia).
    specialize (Hf (n * i)%nat (Hall _ ltac:(done))). replace (n * S i)%nat with (n + n * i)%nat by lia. specialize (IH ltac:(lia)). lia. }
  specialize (Hi (Z.to_nat lag) ltac:(lia)). specialize (Hall _ (le_n _)). lia.
Qed.
End draining.

(** C35. Waiting for completions. The polling loop of [dao_dma_compl_wait] for
    one channel, with [lag] operations between head and tail, on a device whose
    polls may report nothing, several operations or a failed one, but never
    more than are outstanding. With a bound on the polls the loop is still
    waiting only if all the polls together reported fewer than [lag]
    operations; otherwise it stops after the first poll at which they reported
    all, with head and tail equal, also when the indices wrap, and each failure
    counted. On a device that reports something at least once in every [n]
    polls, [n * lag] polls are enough. *)
Theorem compl_drain_terminates {D : Type} `{RteDma D} (v : dao_dma_vchan_state) (d : D) :
  let lag := u16 (tail v - head v) in let dev := devid v in let vc := vchan v in
  vchan_wf v -> reports_upto dev vc lag d ->
  (forall fuel, match compl_drain fuel v d with
   | None => forall k, (k <= fuel)%nat -> reported dev vc k d < lag
   | Some (v', d') => exists k, (k <= fuel)%nat /\ reported dev vc k d = lag /\ (forall j, (j < k)%nat -> reported dev vc j d < lag) /\
       d' = Nat.iter k (polled dev vc) d /\ head v' = tail v /\ tail v' = tail v /\
       dma_compl_errs v' = Nat.iter (failures dev vc k d) (fun e => u64 (e + 1)) (dma_compl_errs v)
   end) /\
  (forall n, (forall k, reported dev vc k d < lag -> reported dev vc k d < reported dev vc (n + k) d) ->
   is_Some (compl_drain (n * Z.to_nat lag) v d)).
Proof.
  intros lag dev vc Hwf Hr. pose proof (fun fuel => compl_drain_spec dev vc fuel v d Hwf eq_refl eq_refl Hr) as Hs. split; [exact Hs|].
  intros n Hf. specialize (Hs (n * Z.to_nat lag)%nat). destruct (compl_drain _ v d) as [[v' d']|]; [by eexists|]. cbn zeta in Hs.
  destruct (fair_reports dev vc n lag d) in Hs; [unfold lag; word|done|exact Hs].
Qed.

(** A device that does nothing at every other poll and reports one operation
    at the others, every third of which failed; its state is the number of
    polls it owes. *)
Definition slow_dma : RteDma Z := {|
  rte_dma_is_valid _ _ := true;
  rte_dma_copy_sg _ _ _ _ _ _ _ n := (0, n + 2);
  rte_dma_submit _ _ n := n;
  rte_dma_completed _ _ _ n :=
    if n <=? 0 then ((0, false), n) else if n mod 2 =? 0 then ((0, false), n - 1) else if n mod 3 =? 0 then ((0, true), n - 1) else ((1, false), n - 1);
|}.

Lemma slow_count n : @poll_count Z slow_dma 0 0 n = if n <=? 0 then 0 else n mod 2.
Proof.
  unfold poll_count. cbn. destruct (Z.leb_spec n 0); [done|]. destruct (Z.eqb_spec (n mod 2) 0) as [->|]; [done|].
  pose proof (Z.mod_pos_bound n 2 ltac:(lia)). destruct (n mod 3 =? 0); cbn; lia.
Qed.

Lemma slow_next n : @polled Z slow_dma 0 0 n = if n <=? 0 then n else n - 1.
Proof. unfold polled. cbn. repeat destruct (_ =? _); by destruct (n <=? 0). Qed.

Lemma slow_reported k : forall n, 0 <= n -> @reported Z slow_dma 0 0 k n = (n + 1) / 2 - (Z.max 0 (n - Z.of_nat k) + 1) / 2.
Proof.
  induction k as [|k IH]; intros n Hn; cbn [reported]; [rewrite Z.sub_0_r, Z.max_r by lia; lia|].
  rewrite slow_count, slow_next. destruct (Z.leb_spec n 0); rewrite IH by lia; Z.to_euclidean_division_equations; lia.
Qed.

Lemma compl_drain_terminates_witness :
  let v := set_compl (set_queued vchan_state0 2 0) 65533 0 (mdata vchan_state0) in
  exists v' d', @compl_drain Z slow_dma 10 v 10 = Some (v', d') /\ head v' = 2 /\ dma_compl_errs v' = 2 /\
    @compl_drain Z slow_dma 5 v 10 = None.
Proof.
  intros v. destruct (@compl_drain_terminates Z slow_dma v 10) as [Hs Hf].
  - destruct vchan_state0_wf. split; try done; cbn; word.
  - split.
    + intros n. cbn. destruct (n <=? 0), (n mod 2 =? 0), (n mod 3 =? 0); cbn; lia.
    + intros k. change (u16 _) with 5. change (devid v) with 0. change (vchan v) with 0. rewrite !slow_reported by lia. Z.to_euclidean_division_equations; lia.
  - destruct (Hf 2%nat) as [[v' d'] E].
    { intros k. change (u16 _) with 5. change (devid v) with 0. change (vchan v) with 0. rewrite !slow_reported by lia. Z.to_euclidean_division_equations; lia. }
    exists v', d'. split; [exact E|]. specialize (Hs 10%nat). change (2 * Z.to_nat (u16 (tail v - head v)))%nat with 10%nat in E. rewrite E in Hs.
    destruct Hs as (k & _ & _ & _ & _ & Hh & _). split; [exact Hh|].
    assert (option_map (fun r => dma_compl_errs r.1) (@compl_drain Z slow_dma 10 v 10) = Some 2) as He by (vm_compute; reflexivity).
    rewrite E in He. injection He as He. split; [exact He|]. vm_compute. reflexivity.
Defined.
