(* ===== verification/VirtioNetDesc.v ===== *)
(** * Descriptor management of virtio-net queues
    (lib/virtio_net/virtio_net_priv.h, virtio_net_desc_manage of
    lib/virtio_net/virtio_netdev.c)

    The service core copies new descriptors from the host's rings into shadow
    rings, and writes used descriptors back, through DMA channels. The
    [uint16_t] cells the DMA metadata points to ([sd_desc_off] and
    [pend_sd_desc] of a queue) live in a store shared with Dma.v; the shadow
    rings' 64-bit words live in a second store. *)
From stdpp Require Import base option list numbers gmap.
From S2P Require Import Prelude Rte VirtioRing Dma.

Local Open Scope Z_scope.

(** [VIRTIO_NET_DESC_MANAGE_*] *)
Definition MANAGE_NOINORDER : Z := RTE_BIT64 0.
Definition MANAGE_MSEG : Z := RTE_BIT64 1.
Definition MANAGE_EXTBUF : Z := RTE_BIT64 2.

Definition has_flag (flags f : Z) : bool := negb (Z.land flags f =? 0).

(** The fields of [struct virtio_net_queue] the service core uses.
    [q_sd_desc_off_p] and [q_pend_sd_desc_p] are the addresses of the fields
    [sd_desc_off] and [pend_sd_desc]; [mbuf_arr] and [extbuf_arr] are one
    field, as in the source's union. *)
Record virtio_net_queue := {
  q_desc_base : Z;
  q_notify_addr : Z;
  q_sz : Z;
  q_netdev_id : Z;
  q_auto_free : Z;
  q_mp : Z;
  q_mbuf_arr : list Z;
  q_sd_desc_base : Z;
  q_sd_desc_off_p : Z;
  q_pend_sd_desc_p : Z;
  q_pend_sd_desc_idx : Z;
  q_pend_compl_idx : Z;
  q_pend_compl : Z;
  q_compl_off : Z;
  q_last_off : Z;
  q_sd_mbuf_off : Z;
  q_cb_notify_addr : Z;
  q_cb_intr_addr : Z;
}.

Definition set_bufs (q : virtio_net_queue) (arr : list Z) :=
  {| q_desc_base := q_desc_base q; q_notify_addr := q_notify_addr q; q_sz := q_sz q;
     q_netdev_id := q_netdev_id q; q_auto_free := q_auto_free q; q_mp := q_mp q;
     q_mbuf_arr := arr; q_sd_desc_base := q_sd_desc_base q;
     q_sd_desc_off_p := q_sd_desc_off_p q; q_pend_sd_desc_p := q_pend_sd_desc_p q;
     q_pend_sd_desc_idx := q_pend_sd_desc_idx q; q_pend_compl_idx := q_pend_compl_idx q;
     q_pend_compl := q_pend_compl q; q_compl_off := q_compl_off q;
     q_last_off := q_last_off q; q_sd_mbuf_off := q_sd_mbuf_off q;
     q_cb_notify_addr := q_cb_notify_addr q; q_cb_intr_addr := q_cb_intr_addr q |}.

Definition set_service (q : virtio_net_queue) (sd_idx compl_idx pend off : Z) :=
  {| q_desc_base := q_desc_base q; q_notify_addr := q_notify_addr q; q_sz := q_sz q;
     q_netdev_id := q_netdev_id q; q_auto_free := q_auto_free q; q_mp := q_mp q;
     q_mbuf_arr := q_mbuf_arr q; q_sd_desc_base := q_sd_desc_base q;
     q_sd_desc_off_p := q_sd_desc_off_p q; q_pend_sd_desc_p := q_pend_sd_desc_p q;
     q_pend_sd_desc_idx := sd_idx; q_pend_compl_idx := compl_idx;
     q_pend_compl := pend; q_compl_off := off;
     q_last_off := q_last_off q; q_sd_mbuf_off := q_sd_mbuf_off q;
     q_cb_notify_addr := q_cb_notify_addr q; q_cb_intr_addr := q_cb_intr_addr q |}.

(** ** Buffers of a ring segment *)

(** [&arr[off]] written with or read for a bulk call. *)
Definition write_seg (arr : list Z) (off : Z) (l : list Z) : cres (list Z) :=
  if (0 <=? off) && (off + Z.of_nat (length l) <=? Z.of_nat (length arr))
  then Ret (list_inserts (Z.to_nat off) l arr) else Fault.

Definition read_seg (arr : list Z) (off n : Z) : cres (list Z) :=
  if (0 <=? off) && (0 <=? n) && (off + n <=? Z.of_nat (length arr))
  then Ret (take (Z.to_nat n) (drop (Z.to_nat off) arr)) else Fault.

(** The part of [num] entries from [off] that lies before the ring's end. *)
Definition first_part (off q_sz num : Z) : Z := if q_sz <? off + num then q_sz - off else num.

(** Allocation of the buffers of [nb] entries, at most two bulk calls; [get]
    is the bulk allocator, [None] its failure. *)
Definition alloc_bulk {P} (get : Z -> P -> option (list Z) * P)
    (arr : list Z) (off q_sz nb : Z) (p : P) : cres (Z * list Z * P) :=
  let cnt := u16 (first_part off q_sz nb) in
  match get cnt p with
  | (None, p) => Ret (0, arr, p)
  | (Some l, p) =>
      arr ← write_seg arr off l;
      let off := u16 (Z.land (off + cnt) (q_sz - 1)) in
      let cnt := u16 (nb - cnt) in
      if cnt =? 0 then Ret (nb, arr, p)
      else match get cnt p with
           | (None, p) => Ret (u16 (nb - cnt), arr, p)
           | (Some l, p) => arr ← write_seg arr off l; Ret (nb, arr, p)
           end
  end.

(** The buffer allocators outside the library: [rte_mempool_get_bulk] on a
    pool, and the application's [extbuf_get] callback. *)
Class BufAlloc (P : Type) := {
  rte_mempool_get_bulk : Z -> Z -> P -> option (list Z) * P;
  extbuf_get : Z -> Z -> P -> option (list Z) * P;
}.

Definition alloc_extbufs {P} `{BufAlloc P} (q : virtio_net_queue) (off q_sz num : Z) (p : P) :=
  alloc_bulk (extbuf_get (u8 (q_netdev_id q))) (q_mbuf_arr q) off q_sz num p.

Definition alloc_mbufs {P} `{BufAlloc P} (mbuf_arr : list Z) (mp off q_sz nb_mbufs : Z) (p : P) :=
  alloc_bulk (rte_mempool_get_bulk mp) mbuf_arr off q_sz nb_mbufs p.

(** Calls that give buffers back. *)
Inductive free_call :=
  | mempool_put_bulk (mp : Z) (l : list Z)
  | pktmbuf_free_bulk (l : list Z)
  | extbuf_put (netdev_id : Z) (l : list Z).

Definition free_extbufs (q : virtio_net_queue) (off q_sz num : Z) : cres (list free_call) :=
  let id := u8 (q_netdev_id q) in
  let cnt := u16 (first_part off q_sz num) in
  l1 ← read_seg (q_mbuf_arr q) off cnt;
  let off := u16 (Z.land (off + cnt) (q_sz - 1)) in
  let cnt := u16 (num - cnt) in
  if cnt =? 0 then Ret [extbuf_put id l1]
  else l2 ← read_seg (q_mbuf_arr q) off cnt; Ret [extbuf_put id l1; extbuf_put id l2].

Section free.
(** [mbuf->pool]; [None] for a pointer that is not an mbuf. *)
Context (mbuf_pool : Z -> option Z).

(** [for (i = 0; i < count; i += 4)] of [free_mseg_mbufs]: groups of four are
    put back in bulk until a null pointer shows up. Returns the calls and the
    position reached. *)
Fixpoint put_fours (n : nat) (mp : Z) (arr : list Z) (off : Z) : cres (list free_call * Z) :=
  match n with
  | O => Ret ([], off)
  | S n =>
      g ← read_seg arr off 4;
      if existsb (fun b => b =? 0) g then Ret ([], off)
      else
        '(calls, off) ← put_fours n mp arr (off + 4);
        Ret (mempool_put_bulk mp g :: calls, off)
  end.

(** One of the two halves of [free_mseg_mbufs]: [cnt] entries from [off]. *)
Definition free_mseg_half (mp : Z) (arr : list Z) (off cnt : Z) : cres (list free_call) :=
  '(calls, off') ← put_fours (Z.to_nat (cnt / 4)) mp arr off;
  rest ← read_seg arr off' (cnt - (off' - off));
  Ret (calls ++ [pktmbuf_free_bulk rest]).

Definition first_pool (arr : list Z) (off : Z) : cres Z :=
  b ← cget arr off; match mbuf_pool b with Some mp => Ret mp | None => Fault end.

Definition free_mseg_mbufs (arr : list Z) (off q_sz nb_mbufs : Z) : cres (list free_call) :=
  mp ← first_pool arr off;
  let cnt := u16 (first_part off q_sz nb_mbufs) in
  calls ← free_mseg_half mp arr off cnt;
  let off := u16 (Z.land (off + cnt) (q_sz - 1)) in
  let cnt := u16 (nb_mbufs - cnt) in
  if cnt =? 0 then Ret calls
  else calls' ← free_mseg_half mp arr off cnt; Ret (calls ++ calls').

Definition free_mbufs (arr : list Z) (off q_sz nb_mbufs flags : Z) : cres (list free_call) :=
  if has_flag flags MANAGE_MSEG then free_mseg_mbufs arr off q_sz nb_mbufs
  else
    mp ← first_pool arr off;
    let cnt := u16 (first_part off q_sz nb_mbufs) in
    l1 ← read_seg arr off cnt;
    let off := u16 (Z.land (off + cnt) (q_sz - 1)) in
    let cnt := u16 (nb_mbufs - cnt) in
    if cnt =? 0 then Ret [mempool_put_bulk mp l1]
    else l2 ← read_seg arr off cnt; Ret [mempool_put_bulk mp l1; mempool_put_bulk mp l2].
End free.

(** ** Fetching descriptors *)

(** The [do ... while (nb_desc)] loop that splits [nb_desc] descriptors from
    position [off] into copies that do not cross the ring's end. Returns the
    source and destination elements and the number of descriptors. *)
Fixpoint fetch_loop (fuel : nat) (desc_base sd_desc_base q_sz off nb_desc : Z)
  : cres (list rte_dma_sge * list rte_dma_sge * Z) :=
  match fuel with
  | O => Fault
  | S fuel =>
      let i := first_part off q_sz nb_desc in
      let s := {| sge_addr := DESC_PTR_OFF desc_base off 0; sge_length := u32 (Z.shiftl i 4) |} in
      let d := {| sge_addr := DESC_PTR_OFF sd_desc_base off 0; sge_length := u32 (Z.shiftl i 4) |} in
      let off := u16 (Z.land (off + i) (q_sz - 1)) in
      let nb_desc := nb_desc - i in
      if nb_desc =? 0 then Ret ([s], [d], i)
      else
        '(ss, ds, n) ← fetch_loop fuel desc_base sd_desc_base q_sz off nb_desc;
        Ret (s :: ss, d :: ds, i + n)
  end.

(** Each iteration stores one element of [src] and [dst], arrays of
    [DAO_DMA_MAX_POINTER] cells: one more iteration leaves them. *)
Definition FETCH_FUEL : nat := Z.to_nat DAO_DMA_MAX_POINTER.

(** The record the fetches hand to the DMA metadata, once the loop has run. *)
Definition fetch_finish (q : virtio_net_queue) (dev2mem : dao_dma_vchan_state) (m : store)
    (desc_count : Z) : cres (dao_dma_vchan_state * store) :=
  sd_desc_off ← mload m (q_sd_desc_off_p q);
  pend ← mload m (q_pend_sd_desc_p q);
  let sd_desc_val := desc_off_add sd_desc_off (u16 (desc_count + pend)) (q_sz q) in
  m ← mstore m (q_pend_sd_desc_p q) (u16 (pend + desc_count));
  dev2mem ← dao_dma_update_cmpl_meta dev2mem (q_sd_desc_off_p q) sd_desc_val
    (q_pend_sd_desc_p q) (u16 desc_count) (tail dev2mem);
  Ret (dev2mem, m).

Record fetched (P : Type) := {
  f_src : list rte_dma_sge;
  f_dst : list rte_dma_sge;
  f_q : virtio_net_queue;
  f_dev2mem : dao_dma_vchan_state;
  f_store : store;
  f_pool : P;
}.
Arguments f_src {_}. Arguments f_dst {_}. Arguments f_q {_}.
Arguments f_dev2mem {_}. Arguments f_store {_}. Arguments f_pool {_}.
Arguments Build_fetched {_}.

Section fetch.
(** The 32-bit notification words the host writes. *)
Context (notify : Z -> Z).
Context {P : Type} `{BufAlloc P}.

Definition fetch_deq_desc_prep (q : virtio_net_queue) (dev2mem : dao_dma_vchan_state)
    (m : store) (p : P) (flags : Z) : cres (fetched P) :=
  let nothing := Build_fetched [] [] q dev2mem m p in
  pend_sd_desc ← mload m (q_pend_sd_desc_p q);
  sd_desc_off ← mload m (q_sd_desc_off_p q);
  let next_off := Z.land (Z.shiftr (notify (q_notify_addr q)) 16) 0xFFFF in
  if next_off =? sd_desc_off then Ret nothing
  else
    let nb_desc := desc_off_diff next_off sd_desc_off (q_sz q) - pend_sd_desc in
    if nb_desc =? 0 then Ret nothing
    else
      let off := desc_off_add sd_desc_off pend_sd_desc (q_sz q) in
      let off := u16 (DESC_OFF off) in
      '(nb_desc, arr, p) ←
        (if has_flag flags MANAGE_EXTBUF
         then alloc_extbufs q off (q_sz q) (u16 nb_desc) p
         else alloc_mbufs (q_mbuf_arr q) (q_mp q) off (q_sz q) (u16 nb_desc) p);
      let q := set_bufs q arr in
      if nb_desc =? 0 then Ret (Build_fetched [] [] q dev2mem m p)
      else
        '(ss, ds, desc_count) ←
          fetch_loop FETCH_FUEL (q_desc_base q) (q_sd_desc_base q) (q_sz q) off nb_desc;
        '(dev2mem, m) ← fetch_finish q dev2mem m desc_count;
        Ret (Build_fetched ss ds q dev2mem m p).

Definition fetch_enq_desc_prep (q : virtio_net_queue) (dev2mem : dao_dma_vchan_state)
    (m : store) (p : P) : cres (fetched P) :=
  let nothing := Build_fetched [] [] q dev2mem m p in
  pend_sd_desc ← mload m (q_pend_sd_desc_p q);
  sd_desc_off ← mload m (q_sd_desc_off_p q);
  let next_off := Z.land (Z.shiftr (notify (q_notify_addr q)) 16) 0xFFFF in
  if next_off =? sd_desc_off then Ret nothing
  else
    let nb_desc := desc_off_diff next_off sd_desc_off (q_sz q) - pend_sd_desc in
    if nb_desc =? 0 then Ret nothing
    else
      let off := desc_off_add sd_desc_off pend_sd_desc (q_sz q) in
      let off := u16 (DESC_OFF off) in
      '(ss, ds, desc_count) ←
        fetch_loop FETCH_FUEL (q_desc_base q) (q_sd_desc_base q) (q_sz q) off nb_desc;
      let q := set_service q (tail dev2mem) (q_pend_compl_idx q) (q_pend_compl q) (q_compl_off q) in
      '(dev2mem, m) ← fetch_finish q dev2mem m desc_count;
      Ret (Build_fetched ss ds q dev2mem m p).
End fetch.

(** ** Marking descriptors used *)

Definition ring_copy (q : virtio_net_queue) (start n : Z) (mem2dev : dao_dma_vchan_state) :=
  dao_dma_enq_x1 mem2dev
    (DESC_PTR_OFF (q_sd_desc_base q) (DESC_OFF start) 0) (u32 (DESC_ENTRY_SZ * n))
    (DESC_PTR_OFF (q_desc_base q) (DESC_OFF start) 0) (u32 (DESC_ENTRY_SZ * n)).

(** The copies that write descriptors [start .. end) back, one or two. *)
Definition ring_write_back (q : virtio_net_queue) (mem2dev : dao_dma_vchan_state) (start end_ : Z)
  : cres dao_dma_vchan_state :=
  let pend := desc_off_diff_no_wrap end_ start (q_sz q) in
  mem2dev ← ring_copy q start pend mem2dev;
  let start := desc_off_add start pend (q_sz q) in
  let pend := u16 (end_ - start) in
  if pend =? 0 then Ret mem2dev else ring_copy q start pend mem2dev.

Definition mark_deq_compl_no_inorder (q : virtio_net_queue) (mem2dev : dao_dma_vchan_state)
    (start nb_desc : Z) : cres dao_dma_vchan_state :=
  let end_ := desc_off_add start nb_desc (q_sz q) in
  ring_write_back q mem2dev start end_.

(** [w] holds the 64-bit words of the shadow ring by address. *)
Definition mark_deq_compl (q : virtio_net_queue) (mem2dev : dao_dma_vchan_state)
    (start nb_desc flags : Z) (w : store) : cres (dao_dma_vchan_state * store) :=
  if has_flag flags MANAGE_NOINORDER then
    v ← mark_deq_compl_no_inorder q mem2dev start nb_desc; Ret (v, w)
  else
    let end_ := desc_off_add start (u16 (nb_desc - 1)) (q_sz q) in
    last ← mload w (DESC_PTR_OFF (q_sd_desc_base q) end_ 8);
    let last_id := Z.land (Z.shiftr last 32) 0xFFFF in
    cur ← mload w (DESC_PTR_OFF (q_sd_desc_base q) start 8);
    let first := Z.land cur (u64 (Z.lnot 0xFFFF00000000)) in
    let used := Z.land (Z.shiftr first 55) 1 in
    let first := Z.land first (u64 (Z.lnot (RTE_BIT64 63))) in
    w ← mstore w (DESC_PTR_OFF (q_sd_desc_base q) start 8)
      (Z.lor (Z.lor first (u64 (Z.shiftl used 63))) (u64 (Z.shiftl last_id 32)));
    v ← dao_dma_enq_x1 mem2dev (DESC_PTR_OFF (q_sd_desc_base q) start 8) 8
      (DESC_PTR_OFF (q_desc_base q) start 8) 8;
    Ret (v, w).

Definition mark_enq_compl (mbuf_pool : Z -> option Z) (q : virtio_net_queue)
    (mem2dev : dao_dma_vchan_state) (start end_ flags : Z)
  : cres (dao_dma_vchan_state * list free_call) :=
  calls ←
    (if q_auto_free q =? 0 then
       let num := desc_off_diff end_ start (q_sz q) in
       if has_flag flags MANAGE_EXTBUF
       then free_extbufs q (u16 (DESC_OFF start)) (q_sz q) num
       else free_mbufs mbuf_pool (q_mbuf_arr q) (u16 (DESC_OFF start)) (q_sz q) num flags
     else Ret []);
  v ← ring_write_back q mem2dev start end_;
  Ret (v, calls).

(** ** virtio_net_desc_manage *)

(** What the service core works on: the queues of one device, the two channels
    [vchan_info->dev2mem[dma_vchan]] and [vchan_info->mem2dev[dma_vchan]], the
    stores, the buffer allocator, the calls that gave buffers back, the stores
    that raise host interrupts, and the DMA device. *)
Record manage_state (D P : Type) := {
  ms_qs : list (option virtio_net_queue);
  ms_dev2mem : dao_dma_vchan_state;
  ms_mem2dev : dao_dma_vchan_state;
  ms_store : store;
  ms_words : store;
  ms_pool : P;
  ms_frees : list free_call;
  ms_intr : list (Z * Z);
  ms_dev : D;
}.
Arguments ms_qs {_ _}. Arguments ms_dev2mem {_ _}. Arguments ms_mem2dev {_ _}.
Arguments ms_store {_ _}. Arguments ms_words {_ _}. Arguments ms_pool {_ _}.
Arguments ms_frees {_ _}. Arguments ms_intr {_ _}. Arguments ms_dev {_ _}.
Arguments Build_manage_state {_ _}.

(** [src[j]], [dst[j]] written from [dao_dma_sge_src/dst(v)] on, and the two
    indices advanced. *)
Definition place_sges (v : dao_dma_vchan_state) (ss ds : list rte_dma_sge)
  : cres dao_dma_vchan_state :=
  let n := Z.of_nat (length ss) in
  if (src_i v + n <=? Z.of_nat (length (src v))) && (dst_i v + n <=? Z.of_nat (length (dst v)))
  then Ret (set_pending v (list_inserts (Z.to_nat (src_i v)) ss (src v))
              (list_inserts (Z.to_nat (dst_i v)) ds (dst v))
              (u16 (src_i v + n)) (u16 (dst_i v + n)))
  else Fault.

(** [netdev->qs[i]], dereferenced. *)
Definition qget (qs : list (option virtio_net_queue)) (i : Z) : cres virtio_net_queue :=
  o ← cget qs i; match o with Some q => Ret q | None => Fault end.

Section desc_manage.
Context (DAO_DMA_STATS : bool) (notify : Z -> Z) (mbuf_pool : Z -> option Z).
Context {D P : Type} `{RteDma D} `{BufAlloc P}.

Notation mstate := (manage_state D P).

Definition ms_flush_dev2mem (s : mstate) : bool * mstate :=
  let '(b, v, d) := dao_dma_flush DAO_DMA_STATS (ms_dev2mem s) DAO_DMA_MAX_POINTER (ms_dev s) in
  (b, Build_manage_state (ms_qs s) v (ms_mem2dev s) (ms_store s) (ms_words s) (ms_pool s)
        (ms_frees s) (ms_intr s) d).

Definition ms_flush_mem2dev (s : mstate) (avail : Z) : bool * mstate :=
  let '(b, v, d) := dao_dma_flush DAO_DMA_STATS (ms_mem2dev s) avail (ms_dev s) in
  (b, Build_manage_state (ms_qs s) (ms_dev2mem s) v (ms_store s) (ms_words s) (ms_pool s)
        (ms_frees s) (ms_intr s) d).

(** Store the outcome of a fetch for queue [i]. *)
Definition ms_fetched (s : mstate) (i : Z) (f : fetched P) : cres mstate :=
  v ← place_sges (f_dev2mem f) (f_src f) (f_dst f);
  qs ← cset (ms_qs s) i (Some (f_q f));
  Ret (Build_manage_state qs v (ms_mem2dev s) (f_store f) (ms_words s) (f_pool f)
         (ms_frees s) (ms_intr s) (ms_dev s)).

(** The first loop: fetch descriptors of both queues of each pair. *)
Fixpoint manage_fetch (n : nat) (i flags : Z) (s : mstate) : cres mstate :=
  match n with
  | O => Ret s
  | S n =>
      let '(ok, s) := ms_flush_dev2mem s in
      if negb ok then Ret s
      else
        q ← qget (ms_qs s) (i * 2);
        f ← fetch_enq_desc_prep notify q (ms_dev2mem s) (ms_store s) (ms_pool s);
        s ← ms_fetched s (i * 2) f;
        let '(ok, s) := ms_flush_dev2mem s in
        if negb ok then Ret s
        else
          q ← qget (ms_qs s) (i * 2 + 1);
          f ← fetch_deq_desc_prep notify q (ms_dev2mem s) (ms_store s) (ms_pool s) flags;
          s ← ms_fetched s (i * 2 + 1) f;
          manage_fetch n (i + 1) flags s
  end.

(** The second loop: write used descriptors of the host's Tx queues back. *)
Fixpoint manage_deq_compl (n : nat) (i flags : Z) (s : mstate) : cres mstate :=
  match n with
  | O => Ret s
  | S n =>
      q ← qget (ms_qs s) (i * 2 + 1);
      let off := q_last_off q in
      let compl_off := q_compl_off q in
      if compl_off =? off then manage_deq_compl n (i + 1) flags s
      else
        let '(ok, s) := ms_flush_mem2dev s 1 in
        if negb ok then Ret s
        else
          let nb_desc := desc_off_diff off compl_off (q_sz q) in
          '(v, w) ← mark_deq_compl q (ms_mem2dev s) compl_off nb_desc flags (ms_words s);
          qs ← cset (ms_qs s) (i * 2 + 1)
            (Some (set_service q (q_pend_sd_desc_idx q) (q_pend_compl_idx q) (q_pend_compl q) off));
          manage_deq_compl n (i + 1) flags
            (Build_manage_state qs (ms_dev2mem s) v (ms_store s) w (ms_pool s)
               (ms_frees s) (ms_intr s) (ms_dev s))
  end.

(** The third loop: interrupts and used descriptors of the host's Rx queues. *)
Fixpoint manage_enq_compl (n : nat) (i flags : Z) (s : mstate) : cres mstate :=
  match n with
  | O => Ret s
  | S n =>
      q ← qget (ms_qs s) (i * 2);
      let raise := negb (q_cb_intr_addr q =? 0) && negb (q_pend_compl q =? 0) &&
                   dao_dma_op_status (ms_mem2dev s) (q_pend_compl_idx q) in
      let intr := if raise
                  then ms_intr s ++ [(q_cb_notify_addr q, 1); (q_cb_intr_addr q, Z.shiftl 1 59)]
                  else ms_intr s in
      let q := if raise
               then set_service q (q_pend_sd_desc_idx q) (q_pend_compl_idx q) 0 (q_compl_off q)
               else q in
      qs ← cset (ms_qs s) (i * 2) (Some q);
      let s := Build_manage_state qs (ms_dev2mem s) (ms_mem2dev s) (ms_store s) (ms_words s)
                 (ms_pool s) (ms_frees s) intr (ms_dev s) in
      let off := q_sd_mbuf_off q in
      let compl_off := q_compl_off q in
      if compl_off =? off then manage_enq_compl n (i + 1) flags s
      else
        let '(ok, s) := ms_flush_mem2dev s 2 in
        if negb ok then Ret s
        else
          '(v, calls) ← mark_enq_compl mbuf_pool q (ms_mem2dev s) compl_off off flags;
          qs ← cset (ms_qs s) (i * 2)
            (Some (set_service q (q_pend_sd_desc_idx q) (tail v) 1 off));
          manage_enq_compl n (i + 1) flags
            (Build_manage_state qs (ms_dev2mem s) v (ms_store s) (ms_words s) (ms_pool s)
               (ms_frees s ++ calls) (ms_intr s) (ms_dev s))
  end.

Definition virtio_net_desc_manage (qp_count flags : Z) (s : mstate) : cres (Z * mstate) :=
  o ← cget (ms_qs s) (qp_count * 2 - 1);
  match o with
  | None => Ret (0, s)
  | Some _ =>
      _ ← qget (ms_qs s) 0;
      '(v1, d, m) ← dao_dma_check_meta_compl (ms_dev2mem s) (ms_dev s) (ms_store s);
      '(v2, d, m) ← dao_dma_check_meta_compl (ms_mem2dev s) d m;
      let s := Build_manage_state (ms_qs s) v1 v2 m (ms_words s) (ms_pool s)
                 (ms_frees s) (ms_intr s) d in
      s ← manage_fetch (Z.to_nat qp_count) 0 flags s;
      s ← manage_deq_compl (Z.to_nat qp_count) 0 flags s;
      s ← manage_enq_compl (Z.to_nat qp_count) 0 flags s;
      Ret (0, s)
  end.
End desc_manage.

(** ** What a list of copies covers *)

(** The 16-byte entries an element covers, by address. *)
Definition sge_entries (s : rte_dma_sge) : list Z :=
  (fun i => sge_addr s + DESC_ENTRY_SZ * i) <$> seqZ 0 (sge_length s / DESC_ENTRY_SZ).

(** The entries of descriptors [m .. n) of a ring of [q] entries at [base]. *)
Definition ring_entries (q base m n : Z) : list Z :=
  (fun c => base + DESC_ENTRY_SZ * (c mod q)) <$> seqZ m (n - m).

(** The ring of [q] entries at [base] lies in the address space. *)
Definition ring_fits (q base : Z) : Prop :=
  0 <= base /\ base + DESC_ENTRY_SZ * q <= 0x10000000000000000.

Lemma entries_contig q base m k : 0 < q -> 0 <= k -> m mod q + k <= q ->
  sge_entries {| sge_addr := base + DESC_ENTRY_SZ * (m mod q); sge_length := DESC_ENTRY_SZ * k |} =
  ring_entries q base m (m + k).
Proof.
  intros Hq Hk Hend. unfold sge_entries, ring_entries. cbn.
  rewrite (Z.mul_comm DESC_ENTRY_SZ k), Z.div_mul by done.
  replace (m + k - m) with k by lia. replace (seqZ m k) with (seqZ (m + 0) k) by (f_equal; lia).
  rewrite <- fmap_add_seqZ, <- list_fmap_compose. apply list_fmap_ext.
  intros i c Hc. apply lookup_seqZ in Hc as [-> Hi]. cbn.
  replace ((m + (0 + Z.of_nat i)) mod q) with (m mod q + Z.of_nat i); [unfold DESC_ENTRY_SZ; lia|].
  rewrite <- Zplus_mod_idemp_l, (Z.mod_small (_ + _)); [lia|].
  pose proof (Z.mod_pos_bound m q). lia.
Qed.

Lemma ring_entries_app q base l m n : l <= m <= n ->
  ring_entries q base l n = ring_entries q base l m ++ ring_entries q base m n.
Proof.
  intros H. unfold ring_entries. rewrite <- fmap_app. f_equal.
  replace (n - l) with ((m - l) + (n - m)) by lia.
  rewrite seqZ_app by lia. do 2 f_equal. lia.
Qed.

(** The position after the part of [m .. n) that lies before the ring's end. *)
Lemma ring_split q m n : 0 < q -> m <= n <= m + q ->
  let k := Z.min (n - m) (q - m mod q) in
  0 <= k /\ m mod q + k <= q /\ (m < n -> 0 < k) /\
  (m + k = n \/ (m + k) mod q = 0 /\ 0 < n - (m + k) < q).
Proof.
  intros Hq Hmn k. pose proof (Z.mod_pos_bound m q Hq).
  split; [lia|]. split; [lia|]. split; [lia|].
  destruct (decide (n - m <= q - m mod q)); [left; lia|right].
  assert (k = q - m mod q) as -> by lia. split; [|lia].
  rewrite <- Zplus_mod_idemp_l. replace (m mod q + (q - m mod q)) with (1 * q) by lia.
  apply Z.mod_mul. lia.
Qed.

Lemma off_enc q c : ring_size q -> ring_enc q (c mod q) = c mod q.
Proof.
  intros Hq. destruct (ring_size_bounds q Hq) as [Hqb _]. unfold ring_enc.
  rewrite Zmod_mod. rewrite (Z.div_small (c mod q)) by (apply Z.mod_pos_bound; lia).
  rewrite Zmod_0_l. lia.
Qed.

Lemma off_addr q base c : ring_size q -> ring_fits q base ->
  DESC_PTR_OFF base (c mod q) 0 = base + DESC_ENTRY_SZ * (c mod q).
Proof.
  intros Hq [Hb He]. rewrite <- (off_enc q c) at 1 by done.
  rewrite DESC_PTR_OFF_enc by (done || unfold DESC_ENTRY_SZ; lia). rewrite Zmod_mod. lia.
Qed.

Lemma len_entry k : 0 <= k <= 0x8000 -> u32 (Z.shiftl k 4) = DESC_ENTRY_SZ * k.
Proof. intros. rewrite Z.shiftl_mul_pow2 by lia. unfold DESC_ENTRY_SZ. change (2 ^ 4) with 16. word. Qed.

Lemma first_part_min off q num : first_part off q num = Z.min num (q - off).
Proof. unfold first_part. case_bool; reflect_bool; lia. Qed.

Lemma land_ring q x : ring_size q -> Z.land x (q - 1) = x mod q.
Proof. intros (k & Hk & ->). rewrite <- Z.land_ones, Z.ones_equiv by lia. done. Qed.

(** An element of [k] descriptors at position [o] covers the descriptors from
    any [c] at that position. *)
Lemma copy_entries q b c o k : ring_size q -> ring_fits q b -> c mod q = o ->
  0 <= k -> o + k <= q ->
  sge_entries {| sge_addr := DESC_PTR_OFF b o 0; sge_length := DESC_ENTRY_SZ * k |} =
  ring_entries q b c (c + k).
Proof.
  intros Hq Hb <- Hk Hend. destruct (ring_size_bounds q Hq).
  rewrite off_addr by done. apply entries_contig; lia.
Qed.

(** ** Fetching *)

Lemma fetch_loop_spec q db sb m n fuel :
  ring_size q -> ring_fits q db -> ring_fits q sb -> 0 <= m -> m < n <= m + q ->
  exists ss ds, fetch_loop (S (S fuel)) db sb q (m mod q) (n - m) = Ret (ss, ds, n - m) /\
    (length ss <= 2)%nat /\ length ds = length ss /\
    sge_length <$> ss = sge_length <$> ds /\
    concat (sge_entries <$> ss) = ring_entries q db m n /\
    concat (sge_entries <$> ds) = ring_entries q sb m n.
Proof.
  intros Hq Hdb Hsb Hm Hmn. destruct (ring_size_bounds q Hq) as [Hqb _].
  pose proof (Z.mod_pos_bound m q ltac:(lia)) as Hpos.
  destruct (ring_split q m n) as (Hk0 & Hk1 & Hk2 & Hk3); [lia..|].
  set (k := Z.min (n - m) (q - m mod q)) in *.
  assert (forall b, ring_fits q b -> sge_entries {| sge_addr := DESC_PTR_OFF b (m mod q) 0;
    sge_length := u32 (Z.shiftl k 4) |} = ring_entries q b m (m + k)) as H1.
  { intros b Hb. rewrite len_entry, (copy_entries q b m) by (done || lia). done. }
  remember (S fuel) as f1 eqn:Hf1. cbn. rewrite first_part_min. fold k.
  destruct Hk3 as [Hk3|(Hz & Hlt)].
  - rewrite (proj2 (Z.eqb_eq _ 0)) by lia. eexists _, _.
    assert (k = n - m) as Hkn by lia. rewrite Hkn in *.
    split; [done|]. cbn. rewrite !app_nil_r, !H1 by done.
    split_and!; try done; try lia; f_equal; lia.
  - destruct (Z.eqb_spec (n - m - k) 0) as [Hz0|Hnz]; [lia|].
    subst f1. cbn. rewrite first_part_min.
    rewrite (land_ring q) by done.
    replace ((m mod q + k) mod q) with ((m + k) mod q) by (by rewrite Zplus_mod_idemp_l).
    rewrite Hz. change (u16 0) with 0.
    rewrite Z.min_l by lia. rewrite Z.sub_diag, Z.eqb_refl. cbn.
    replace (k + (n - m - k)) with (n - m) by lia.
    eexists _, _. split; [done|]. cbn. rewrite !app_nil_r, !H1 by done.
    assert (forall b, ring_fits q b -> sge_entries {| sge_addr := DESC_PTR_OFF b 0 0;
      sge_length := u32 (Z.shiftl (n - m - k) 4) |} = ring_entries q b (m + k) n) as H2.
    { intros b Hb. rewrite len_entry, (copy_entries q b (m + k)) by (done || lia). f_equal; lia. }
    rewrite !H2 by done. split_and!; try done; try lia; symmetry; apply ring_entries_app; lia.
Qed.

Lemma enc_inj q m n : ring_size q -> m <= n <= m + q -> ring_enc q n = ring_enc q m -> n = m.
Proof.
  intros Hq Hmn He. pose proof (desc_off_diff_enc q m n Hq Hmn) as H1.
  destruct (ring_size_bounds q Hq).
  pose proof (desc_off_diff_enc q m m Hq ltac:(lia)) as H2. rewrite He in H1. lia.
Qed.

(** The records of queue [q] among the pending ones, in the order they will
    complete: each moves the shadow offset forward by the descriptors it
    covers. Records of other queues use other cells. *)
Definition owned (q : virtio_net_queue) (r : cmpl_rec) : bool := r_ptr r =? q_sd_desc_off_p q.

Fixpoint fetch_chain (q : virtio_net_queue) (S : Z) (rs : list cmpl_rec) : Prop :=
  match rs with
  | [] => True
  | r :: rs =>
      if owned q r then
        r_pend_ptr r = q_pend_sd_desc_p q /\ 0 <= r_pend_val r /\
        r_val r = ring_enc (q_sz q) (S + r_pend_val r) /\ fetch_chain q (S + r_pend_val r) rs
      else
        r_ptr r <> q_pend_sd_desc_p q /\ r_pend_ptr r <> q_sd_desc_off_p q /\
        r_pend_ptr r <> q_pend_sd_desc_p q /\ fetch_chain q S rs
  end.

(** The descriptor count once the records have completed. *)
Fixpoint fetched_to (q : virtio_net_queue) (S : Z) (rs : list cmpl_rec) : Z :=
  match rs with
  | [] => S
  | r :: rs => fetched_to q (if owned q r then S + r_pend_val r else S) rs
  end.

(** The shadow ring holds the descriptors before number [S], and copies of
    the descriptors up to [fetched_to q S rs] are on their way. *)
Record shadow_inv (q : virtio_net_queue) (m : store) (S : Z) (rs : list cmpl_rec) : Prop := {
  si_size : ring_size (q_sz q);
  si_pos : 0 <= S;
  si_ptrs : q_sd_desc_off_p q <> q_pend_sd_desc_p q;
  si_off : m !! q_sd_desc_off_p q = Some (ring_enc (q_sz q) S);
  si_pend : m !! q_pend_sd_desc_p q = Some (fetched_to q S rs - S);
  si_chain : fetch_chain q S rs;
  si_bound : fetched_to q S rs <= S + q_sz q;
}.

Lemma fetched_to_app q rs1 rs2 : forall S,
  fetched_to q S (rs1 ++ rs2) = fetched_to q (fetched_to q S rs1) rs2.
Proof. induction rs1; intros S; cbn; [done|]. by case_match. Qed.

Lemma fetched_to_mono q : forall rs S, fetch_chain q S rs -> S <= fetched_to q S rs.
Proof.
  induction rs as [|r rs IH]; intros S; cbn; [lia|].
  destruct (owned q r); [intros (_ & ? & _ & H%IH); lia|intros (_ & _ & _ & H%IH); lia].
Qed.

Lemma fetch_chain_app q rs1 rs2 : forall S,
  fetch_chain q S (rs1 ++ rs2) <-> fetch_chain q S rs1 /\ fetch_chain q (fetched_to q S rs1) rs2.
Proof. induction rs1 as [|r rs1 IH]; intros S; cbn; [tauto|]. destruct (owned q r); rewrite IH; tauto. Qed.

Lemma mstore_Ret (m : store) p x : is_Some (m !! p) -> mstore m p x = Ret (<[p := x]> m).
Proof. intros [y Hy]. unfold mstore. by rewrite Hy. Qed.

(** One record completes. *)
Lemma apply_rec_inv q m S r rs :
  shadow_inv q m S (r :: rs) -> is_Some (m !! r_ptr r) -> is_Some (m !! r_pend_ptr r) ->
  exists m', apply_recs [r] m = Ret m' /\ dom m' = dom m /\
    shadow_inv q m' (if owned q r then S + r_pend_val r else S) rs.
Proof.
  intros [Hs Hp Hne Ho Hpe Hc Hb] [x Hx] [y Hy]. destruct (ring_size_bounds _ Hs) as [Hqb _].
  cbn [apply_recs]. rewrite (mstore_Ret m) by eauto. cbn [mbind cres_mbind].
  assert (is_Some ((<[r_ptr r := r_val r]> m : store) !! r_pend_ptr r)) as [z Hz].
  { destruct (decide (r_ptr r = r_pend_ptr r)) as [->|];
      [rewrite lookup_insert_eq|rewrite lookup_insert_ne by done]; eauto. }
  unfold mload. rewrite Hz. cbn [mbind cres_mbind].
  rewrite mstore_Ret by eauto. cbn [mbind cres_mbind].
  eexists. split; [done|]. split.
  { rewrite !dom_insert_lookup_L by eauto. done. }
  cbn in Hc, Hb, Hpe. unfold owned in *. destruct (Z.eqb_spec (r_ptr r) (q_sd_desc_off_p q)) as [He|He].
  - destruct Hc as (Hpp & Hv0 & Hv & Hc). rewrite He, Hpp in *.
    rewrite lookup_insert_ne in Hz by done. simplify_eq.
    pose proof (fetched_to_mono q rs _ Hc).
    split; try done; try lia.
    + rewrite lookup_insert_ne by done. rewrite lookup_insert_eq. by rewrite Hv.
    + rewrite lookup_insert_eq. f_equal. word.
  - destruct Hc as (H1 & H2 & H3 & Hc). split; try done; by rewrite !lookup_insert_ne.
Qed.

Lemma apply_recs_inv q rs2 : forall rs1 m S,
  shadow_inv q m S (rs1 ++ rs2) ->
  Forall (fun r => is_Some (m !! r_ptr r) /\ is_Some (m !! r_pend_ptr r)) rs1 ->
  exists m', apply_recs rs1 m = Ret m' /\ dom m' = dom m /\ shadow_inv q m' (fetched_to q S rs1) rs2.
Proof.
  induction rs1 as [|r rs1 IH]; intros m S Hinv Hall; [by exists m|].
  inversion_clear Hall as [|? ? [Hp1 Hp2] Hall'].
  destruct (apply_rec_inv q m S r (rs1 ++ rs2)) as (m1 & E1 & D1 & I1); [done..|].
  destruct (IH m1 _ I1) as (m2 & E2 & D2 & I2).
  { eapply Forall_impl; [done|]. cbn. intros r'. by rewrite <- !elem_of_dom, D1. }
  exists m2. change (r :: rs1) with ([r] ++ rs1). rewrite apply_recs_app, E1. split; [done|].
  split; [congruence|done].
Qed.

(** Recording a fetch of descriptors [F .. N). *)
Lemma fetch_finish_spec q v m S rs N md :
  shadow_inv q m S rs -> fetched_to q S rs <= N <= S + q_sz q ->
  vchan_wf v -> mdata v !! Z.to_nat (tail v mod DAO_DMA_MAX_INFLIGHT_MDATA) = Some md ->
  md_cnt md < DAO_DMA_MAX_POINTER ->
  exists v' m' r, fetch_finish q v m (N - fetched_to q S rs) = Ret (v', m') /\
    vchan_wf v' /\ v' = set_compl v (head v) (dma_compl_errs v) (mdata v') /\ dom m' = dom m /\
    shadow_inv q m' S (rs ++ [r]) /\ fetched_to q S (rs ++ [r]) = N /\
    (forall k, 0 <= k -> op_records (mdata v') k = op_records (mdata v) k ++
       if bool_decide (k mod DAO_DMA_MAX_INFLIGHT_MDATA = tail v mod DAO_DMA_MAX_INFLIGHT_MDATA)
       then [r] else []).
Proof.
  intros Hinv HN Hwf Hmd Hcnt. pose proof Hinv as [Hs Hp Hne Ho Hpe Hc Hb].
  destruct (ring_size_bounds _ Hs) as [Hqb _]. set (F := fetched_to q S rs) in *.
  assert (S <= F) as HSF by (by apply fetched_to_mono).
  unfold fetch_finish, mload. rewrite Ho, Hpe. cbn [mbind cres_mbind].
  rewrite mstore_Ret by eauto. cbn [mbind cres_mbind].
  replace (u16 (N - F + (F - S))) with (N - S) by word.
  replace (u16 (F - S + (N - F))) with (N - S) by word.
  rewrite (u16_id (N - F)) by word. rewrite desc_off_add_enc by (done || lia).
  replace (S + (N - S)) with N by lia.
  destruct (update_meta_appends v (q_sd_desc_off_p q) (ring_enc (q_sz q) N)
    (q_pend_sd_desc_p q) (N - F) (tail v) md) as (v' & E & W & V & R); [done|..].
  { pose proof (wf_tail v Hwf). word. } 1,2: done.
  rewrite E. cbn [mbind cres_mbind]. eexists _, _, _. split; [done|]. split; [done|].
  split; [done|]. split; [by rewrite dom_insert_lookup_L by eauto|]. 
  assert (fetched_to q S (rs ++ [{| r_ptr := q_sd_desc_off_p q; r_val := ring_enc (q_sz q) N;
    r_pend_ptr := q_pend_sd_desc_p q; r_pend_val := N - F |}]) = N) as HN'.
  { rewrite fetched_to_app. cbn. unfold owned. cbn. rewrite Z.eqb_refl. fold F. lia. }
  split; [|done]. split; try done; rewrite ?HN'; try lia.
  - by rewrite lookup_insert_ne.
  - by rewrite lookup_insert_eq.
  - apply fetch_chain_app. split; [done|]. cbn. unfold owned. cbn. rewrite Z.eqb_refl. fold F.
    split_and!; try done; try lia. f_equal. lia.
Qed.

(** The guard both fetches start with, on a host that has posted [N]
    descriptors. *)
Lemma fetch_guard q m S rs N off :
  shadow_inv q m S rs -> off = ring_enc (q_sz q) N -> fetched_to q S rs <= N <= S + q_sz q ->
  let F := fetched_to q S rs in
  (F = N -> (off =? ring_enc (q_sz q) S) = true \/
            (off =? ring_enc (q_sz q) S) = false /\
            desc_off_diff off (ring_enc (q_sz q) S) (q_sz q) - (F - S) = 0) /\
  (F < N -> (off =? ring_enc (q_sz q) S) = false) /\
  desc_off_diff off (ring_enc (q_sz q) S) (q_sz q) - (F - S) = N - F /\
  u16 (DESC_OFF (desc_off_add (ring_enc (q_sz q) S) (F - S) (q_sz q))) = F mod q_sz q.
Proof.
  intros [Hs Hp Hne Ho Hpe Hc Hb] -> HN F. destruct (ring_size_bounds _ Hs) as [Hqb _].
  assert (S <= F) as HSF by (by apply fetched_to_mono).
  rewrite desc_off_diff_enc by (done || lia). split_and!.
  - intros HF. destruct (ring_enc (q_sz q) N =? ring_enc (q_sz q) S); [by left|right; split; [done|lia]].
  - intros HF. apply Z.eqb_neq. intros He. apply enc_inj in He; [lia|done|lia].
  - lia.
  - rewrite desc_off_add_enc, DESC_OFF_enc by (done || lia). replace (S + (F - S)) with F by lia.
    pose proof (Z.mod_pos_bound F (q_sz q)). word.
Qed.

Lemma ring_entries_nil q b n : ring_entries q b n n = [].
Proof. unfold ring_entries. by rewrite Z.sub_diag. Qed.

(** What a fetch of [F .. N) leaves behind. *)
Record fetch_ok {P} (q : virtio_net_queue) (v : dao_dma_vchan_state) (m : store) (S : Z)
    (rs new : list cmpl_rec) (N : Z) (f : fetched P) : Prop := {
  fo_src : concat (sge_entries <$> f_src f) =
    ring_entries (q_sz q) (q_desc_base q) (fetched_to q S rs) N;
  fo_dst : concat (sge_entries <$> f_dst f) =
    ring_entries (q_sz q) (q_sd_desc_base q) (fetched_to q S rs) N;
  fo_pairs : sge_length <$> f_src f = sge_length <$> f_dst f;
  fo_two : (length (f_src f) <= 2)%nat;
  fo_wf : vchan_wf (f_dev2mem f);
  fo_chan : f_dev2mem f = set_compl v (head v) (dma_compl_errs v) (mdata (f_dev2mem f));
  fo_dom : dom (f_store f) = dom m;
  fo_inv : shadow_inv (f_q f) (f_store f) S (rs ++ new);
  fo_to : fetched_to (f_q f) S (rs ++ new) = N;
  fo_recs : forall k, 0 <= k -> op_records (mdata (f_dev2mem f)) k = op_records (mdata v) k ++
    if bool_decide (k mod DAO_DMA_MAX_INFLIGHT_MDATA = tail v mod DAO_DMA_MAX_INFLIGHT_MDATA)
    then new else [];
}.

Lemma fetch_nothing_ok {P} q v m S rs (p : P) :
  shadow_inv q m S rs -> vchan_wf v ->
  fetch_ok q v m S rs [] (fetched_to q S rs) (Build_fetched [] [] q v m p).
Proof.
  intros Hinv Hwf. split; cbn; rewrite ?ring_entries_nil, ?app_nil_r; try done; try lia.
  - by destruct v.
  - intros. by case_bool_decide; rewrite app_nil_r.
Qed.

(** The invariant is about four fields of the queue. *)
Lemma shadow_inv_fields q q' m S rs :
  q_sz q' = q_sz q -> q_sd_desc_off_p q' = q_sd_desc_off_p q ->
  q_pend_sd_desc_p q' = q_pend_sd_desc_p q -> shadow_inv q m S rs ->
  shadow_inv q' m S rs /\ fetched_to q' S rs = fetched_to q S rs.
Proof.
  intros E1 E2 E3 [Hs Hp Hne Ho Hpe Hc Hb].
  assert (forall rs S, fetched_to q' S rs = fetched_to q S rs) as Ht.
  { induction rs0 as [|r rs0 IH]; intros S0; cbn; [done|]. unfold owned. by rewrite E2, IH. }
  assert (forall rs S, fetch_chain q S rs -> fetch_chain q' S rs) as Hch.
  { induction rs0 as [|r rs0 IH]; intros S0; cbn; [done|]. unfold owned. rewrite E1, E2, E3.
    destruct (_ =? _); intuition auto. }
  split; [|done]. split; rewrite ?E1, ?E2, ?E3, ?Ht; auto.
Qed.

(** The fetch for the host's Rx queue. *)
Lemma fetch_enq_ok notify {P} q v m (p : P) S rs N md :
  shadow_inv q m S rs -> fetched_to q S rs <= N <= S + q_sz q ->
  Z.land (Z.shiftr (notify (q_notify_addr q)) 16) 0xFFFF = ring_enc (q_sz q) N ->
  ring_fits (q_sz q) (q_desc_base q) -> ring_fits (q_sz q) (q_sd_desc_base q) ->
  vchan_wf v -> mdata v !! Z.to_nat (tail v mod DAO_DMA_MAX_INFLIGHT_MDATA) = Some md ->
  md_cnt md < DAO_DMA_MAX_POINTER ->
  exists f new, fetch_enq_desc_prep notify q v m p = Ret f /\ fetch_ok q v m S rs new N f.
Proof.
  intros Hinv HN Hnot Hdb Hsb Hwf Hmd Hcnt. pose proof Hinv as [Hs Hp Hne Ho Hpe Hc Hb].
  destruct (fetch_guard q m S rs N _ Hinv Hnot HN) as (G0 & G1 & G2 & G3).
  unfold fetch_enq_desc_prep, mload. rewrite Ho, Hpe. cbn [mbind cres_mbind].
  set (F := fetched_to q S rs) in *. destruct (decide (F = N)) as [HF|HF].
  - assert (forall f : fetched P, fetch_ok q v m S rs [] F f -> fetch_ok q v m S rs [] N f) as Hcast.
    { intros f. by rewrite HF. }
    exists (Build_fetched [] [] q v m p), [].
    split; [|apply Hcast; by apply fetch_nothing_ok].
    destruct (G0 HF) as [->|[-> ->]]; done.
  - rewrite G1, G2, G3, (proj2 (Z.eqb_neq _ 0)) by lia.
    assert (S <= F) as HSF by (by apply fetched_to_mono).
    destruct (fetch_loop_spec (q_sz q) (q_desc_base q) (q_sd_desc_base q) F N 13)
      as (ss & ds & E & L1 & L2 & L3 & C1 & C2); [done..|lia|lia|].
    change FETCH_FUEL with 15%nat. rewrite E. cbn [mbind cres_mbind].
    set (q' := set_service q _ _ _ _).
    destruct (shadow_inv_fields q q' m S rs) as [Hinv' HF']; [done..|].
    destruct (fetch_finish_spec q' v m S rs N md) as (v' & m' & r & E2 & W & V & D & I & T & R);
      [done|by rewrite HF'|done..|].
    rewrite HF' in E2. fold F in E2. rewrite E2. cbn [mbind cres_mbind].
    exists (Build_fetched ss ds q' v' m' p), [r]. split; [done|].
    split; cbn; done.
Qed.

(** ** Buffers *)

(** The buffers of descriptors [m .. n). *)
Definition ring_slots (q : Z) (arr : list Z) (m n : Z) : list Z :=
  (fun c => arr !!! Z.to_nat (c mod q)) <$> seqZ m (n - m).

Lemma ring_slots_app q arr l m n : l <= m <= n ->
  ring_slots q arr l n = ring_slots q arr l m ++ ring_slots q arr m n.
Proof.
  intros H. unfold ring_slots. rewrite <- fmap_app. f_equal.
  replace (n - l) with ((m - l) + (n - m)) by lia.
  rewrite seqZ_app by lia. do 2 f_equal. lia.
Qed.

Lemma seg_slots q arr c k : 0 < q -> q <= Z.of_nat (length arr) -> 0 <= k -> c mod q + k <= q ->
  take (Z.to_nat k) (drop (Z.to_nat (c mod q)) arr) = ring_slots q arr c (c + k).
Proof.
  intros Hq Hlen Hk Hend. pose proof (Z.mod_pos_bound c q Hq). apply list_eq. intros i.
  unfold ring_slots. replace (c + k - c) with k by lia. rewrite list_lookup_fmap.
  destruct (decide (i < Z.to_nat k)%nat).
  - rewrite lookup_take_lt, lookup_drop by lia. rewrite (proj2 (lookup_seqZ _ _ _ (c + Z.of_nat i))) by lia.
    cbn. rewrite <- Zplus_mod_idemp_l, (Z.mod_small (_ + _)) by lia.
    replace (Z.to_nat (c mod q + Z.of_nat i)) with (Z.to_nat (c mod q) + i)%nat by lia.
    destruct (lookup_lt_is_Some_2 arr (Z.to_nat (c mod q) + i)%nat) as [x Hx]; [lia|].
    rewrite (list_lookup_total_correct _ _ x) by done. done.
  - rewrite lookup_take_ge by lia. rewrite lookup_seqZ_ge by lia. done.
Qed.

Lemma read_slots q arr c k : 0 < q -> q <= Z.of_nat (length arr) -> 0 <= k -> c mod q + k <= q ->
  read_seg arr (c mod q) k = Ret (ring_slots q arr c (c + k)).
Proof.
  intros. pose proof (Z.mod_pos_bound c q ltac:(done)). unfold read_seg.
  rewrite !(proj2 (Z.leb_le _ _)) by lia. cbn. by rewrite seg_slots.
Qed.

(** Writing a segment replaces the buffers of its descriptors and no other. *)
Lemma write_slots q arr c l : 0 < q -> q <= Z.of_nat (length arr) -> c mod q + Z.of_nat (length l) <= q ->
  exists arr', write_seg arr (c mod q) l = Ret arr' /\ length arr' = length arr /\
    ring_slots q arr' c (c + Z.of_nat (length l)) = l /\
    (forall i, ~ c mod q <= Z.of_nat i < c mod q + Z.of_nat (length l) -> arr' !! i = arr !! i).
Proof.
  intros Hq Hlen Hend. pose proof (Z.mod_pos_bound c q ltac:(done)). unfold write_seg.
  rewrite !(proj2 (Z.leb_le _ _)) by lia. cbn. eexists. split; [done|].
  rewrite length_inserts. split; [done|]. split.
  - rewrite <- seg_slots by (rewrite ?length_inserts; lia). rewrite Nat2Z.id.
    apply list_eq. intros i. destruct (decide (i < length l)%nat).
    + rewrite lookup_take_lt, lookup_drop by done. rewrite list_lookup_inserts by lia.
      f_equal. lia.
    + rewrite lookup_take_ge by lia. by rewrite lookup_ge_None_2 by lia.
  - intros i Hi. destruct (decide (Z.of_nat i < c mod q)).
    + by rewrite list_lookup_inserts_lt by lia.
    + by rewrite list_lookup_inserts_ge by lia.
Qed.

(** The documented behaviour of the allocators: a bulk call gives all the
    buffers it was asked for or none. [allocated] is the sequence of buffers
    given out so far. *)
Class BufAllocLaws (P : Type) `{BufAlloc P} := {
  allocated : P -> list Z;
  mempool_get_law mp n p o p' : 0 <= n -> rte_mempool_get_bulk mp n p = (o, p') ->
    match o with
    | Some l => Z.of_nat (length l) = n /\ allocated p' = allocated p ++ l
    | None => allocated p' = allocated p
    end;
  extbuf_get_law id n p o p' : 0 <= n -> extbuf_get id n p = (o, p') ->
    match o with
    | Some l => Z.of_nat (length l) = n /\ allocated p' = allocated p ++ l
    | None => allocated p' = allocated p
    end;
}.

(** Allocation for [nb] descriptors from number [c]: every buffer taken from
    the allocator is in the slot of its descriptor, other slots keep theirs,
    and fewer than [nb] means that a bulk call failed. *)
Lemma alloc_bulk_spec {P} (get : Z -> P -> option (list Z) * P) (log : P -> list Z)
    (arr : list Z) (c q nb : Z) (p : P) :
  (forall n p o p', 0 <= n -> get n p = (o, p') ->
     match o with
     | Some l => Z.of_nat (length l) = n /\ log p' = log p ++ l
     | None => log p' = log p
     end) ->
  ring_size q -> q <= Z.of_nat (length arr) -> 0 < nb <= q ->
  exists nb' arr' p', alloc_bulk get arr (c mod q) q nb p = Ret (nb', arr', p') /\
    0 <= nb' <= nb /\ length arr' = length arr /\
    log p' = log p ++ ring_slots q arr' c (c + nb') /\
    (forall i, (forall k, c <= k < c + nb' -> k mod q <> Z.of_nat i) -> arr' !! i = arr !! i) /\
    (nb' < nb -> exists n p1 p2, get n p1 = (None, p2)).
Proof.
  intros Hget Hq Hlen Hnb. destruct (ring_size_bounds q Hq) as [Hqb _].
  pose proof (Z.mod_pos_bound c q ltac:(lia)) as Hpos.
  destruct (ring_split q c (c + nb)) as (Hk0 & Hk1 & Hk2 & Hk3); [lia..|].
  unfold alloc_bulk. rewrite first_part_min. replace (c + nb - c) with nb in * by lia.
  set (k := Z.min nb (q - c mod q)) in *. rewrite (u16_id k) by word.
  destruct (get k p) as [[l|] p1] eqn:E1; pose proof (Hget _ _ _ _ Hk0 E1) as L1; cbn in L1.
  2:{ exists 0, arr, p1. split; [done|]. rewrite Z.add_0_r. unfold ring_slots at 1.
      rewrite Z.sub_diag. cbn. rewrite app_nil_r. split_and!; try done; try lia. eauto. }
  destruct L1 as [Ll L1].
  destruct (write_slots q arr c l) as (arr1 & W1 & Len1 & S1 & O1); [lia..|].
  rewrite W1. cbn [mbind cres_mbind]. rewrite Ll in S1.
  assert (forall i, (forall j, c <= j < c + k -> j mod q <> Z.of_nat i) -> arr1 !! i = arr !! i) as O1'.
  { intros i Hi. apply O1. rewrite Ll. intros Hin. apply (Hi (c + (Z.of_nat i - c mod q))); [lia|].
    rewrite <- Zplus_mod_idemp_l, (Z.mod_small (_ + _)) by lia. lia. }
  rewrite (u16_id (nb - k)) by word. destruct (Z.eqb_spec (nb - k) 0) as [Hz|Hnz].
  { exists nb, arr1, p1. split; [done|]. replace nb with k by lia. rewrite S1.
    split_and!; try done; lia. }
  destruct Hk3 as [?|[Hk3 Hk4]]; [lia|]. rewrite land_ring by done.
  replace ((c mod q + k) mod q) with 0 by (rewrite Zplus_mod_idemp_l; done).
  change (u16 0) with 0. rewrite <- Hk3. assert (0 <= nb - k) as Hnk by lia.
  destruct (get (nb - k) p1) as [[l2|] p2] eqn:E2;
    pose proof (Hget _ _ _ _ Hnk E2) as L2; cbn in L2.
  - destruct L2 as [Ll2 L2].
    destruct (write_slots q arr1 (c + k) l2) as (arr2 & W2 & Len2 & S2 & O2); [lia..|].
    rewrite W2. cbn [mbind cres_mbind]. exists nb, arr2, p2. split; [done|].
    rewrite Ll2 in S2. replace (c + k + (nb - k)) with (c + nb) in S2 by lia.
    split_and!; try done; try lia.
    + rewrite L2, L1, <- app_assoc, (ring_slots_app q arr2 c (c + k)), S2 by lia.
      do 2 f_equal. rewrite <- S1. unfold ring_slots. apply list_fmap_ext.
      intros i x Hx. apply lookup_seqZ in Hx as [-> Hi]. rewrite !list_lookup_total_alt.
      rewrite O2; [done|]. rewrite Ll2, Hk3.
      rewrite <- Zplus_mod_idemp_l, (Z.mod_small (_ + _)) by lia. lia.
    + intros i Hi. rewrite O2, O1'; [done|intros j Hj; apply Hi; lia|].
      rewrite Ll2, Hk3. intros Hin. apply (Hi (c + k + Z.of_nat i)); [lia|].
      rewrite <- Zplus_mod_idemp_l, Hk3, (Z.mod_small (_ + _)) by lia. lia.
  - exists (u16 (nb - (nb - k))), arr1, p2. split; [done|].
    replace (u16 (nb - (nb - k))) with k by word.
    rewrite S1, L2. split_and!; try done; try lia. eauto.
Qed.

(** Whichever allocator the flags select. *)
Lemma fetch_alloc_spec {P} `{BufAllocLaws P} q c nb flags (p : P) :
  ring_size (q_sz q) -> q_sz q <= Z.of_nat (length (q_mbuf_arr q)) -> 0 < nb <= q_sz q ->
  exists nb' arr' p', (if has_flag flags MANAGE_EXTBUF
      then alloc_extbufs q (c mod q_sz q) (q_sz q) nb p
      else alloc_mbufs (q_mbuf_arr q) (q_mp q) (c mod q_sz q) (q_sz q) nb p) =
      Ret (nb', arr', p') /\
    0 <= nb' <= nb /\ length arr' = length (q_mbuf_arr q) /\
    allocated p' = allocated p ++ ring_slots (q_sz q) arr' c (c + nb') /\
    (forall i, (forall k, c <= k < c + nb' -> k mod q_sz q <> Z.of_nat i) ->
       arr' !! i = q_mbuf_arr q !! i) /\
    (nb' < nb -> exists n p1 p2, rte_mempool_get_bulk (q_mp q) n p1 = (None, p2) \/
       extbuf_get (u8 (q_netdev_id q)) n p1 = (None, p2)).
Proof.
  intros Hs Harr Hnb. destruct (has_flag flags MANAGE_EXTBUF); unfold alloc_extbufs, alloc_mbufs.
  - edestruct (alloc_bulk_spec (extbuf_get (u8 (q_netdev_id q))) allocated
      (q_mbuf_arr q) c (q_sz q) nb p) as (nb' & a & p' & ? & ? & ? & ? & ? & Hf);
      [intros; by eapply extbuf_get_law|done..|].
    exists nb', a, p'. split_and!; try done; try lia.
    intros Hlt. destruct (Hf Hlt) as (n & p1 & p2 & ?). exists n, p1, p2. by right.
  - edestruct (alloc_bulk_spec (rte_mempool_get_bulk (q_mp q)) allocated
      (q_mbuf_arr q) c (q_sz q) nb p) as (nb' & a & p' & ? & ? & ? & ? & ? & Hf);
      [intros; by eapply mempool_get_law|done..|].
    exists nb', a, p'. split_and!; try done; try lia.
    intros Hlt. destruct (Hf Hlt) as (n & p1 & p2 & ?). exists n, p1, p2. by left.
Qed.

(** The fetch for the host's Tx queue. *)
Lemma fetch_deq_ok notify {P} `{BufAllocLaws P} q v m (p : P) flags S rs N md :
  shadow_inv q m S rs -> fetched_to q S rs <= N <= S + q_sz q ->
  Z.land (Z.shiftr (notify (q_notify_addr q)) 16) 0xFFFF = ring_enc (q_sz q) N ->
  ring_fits (q_sz q) (q_desc_base q) -> ring_fits (q_sz q) (q_sd_desc_base q) ->
  q_sz q <= Z.of_nat (length (q_mbuf_arr q)) ->
  vchan_wf v -> mdata v !! Z.to_nat (tail v mod DAO_DMA_MAX_INFLIGHT_MDATA) = Some md ->
  md_cnt md < DAO_DMA_MAX_POINTER ->
  exists f new N', fetch_deq_desc_prep notify q v m p flags = Ret f /\
    fetched_to q S rs <= N' <= N /\ fetch_ok q v m S rs new N' f /\
    length (q_mbuf_arr (f_q f)) = length (q_mbuf_arr q) /\
    allocated (f_pool f) =
      allocated p ++ ring_slots (q_sz q) (q_mbuf_arr (f_q f)) (fetched_to q S rs) N' /\
    (forall i, (forall k, fetched_to q S rs <= k < N' -> k mod q_sz q <> Z.of_nat i) ->
       q_mbuf_arr (f_q f) !! i = q_mbuf_arr q !! i) /\
    (N' < N -> exists n p1 p2, rte_mempool_get_bulk (q_mp q) n p1 = (None, p2) \/
                               extbuf_get (u8 (q_netdev_id q)) n p1 = (None, p2)).
Proof.
  intros Hinv HN Hnot Hdb Hsb Harr Hwf Hmd Hcnt. pose proof Hinv as [Hs Hp Hne Ho Hpe Hc Hb].
  destruct (ring_size_bounds _ Hs) as [Hqb _].
  destruct (fetch_guard q m S rs N _ Hinv Hnot HN) as (G0 & G1 & G2 & G3).
  unfold fetch_deq_desc_prep, mload. rewrite Ho, Hpe. cbn [mbind cres_mbind].
  set (F := fetched_to q S rs) in *.
  assert (S <= F) as HSF by (by apply fetched_to_mono).
  assert (forall a, ring_slots (q_sz q) a F F = []) as Hnil
    by (intros; unfold ring_slots; by rewrite Z.sub_diag).
  destruct (decide (F = N)) as [HF|HF].
  - exists (Build_fetched [] [] q v m p), [], F.
    split; [destruct (G0 HF) as [->|[-> ->]]; done|]. split; [lia|].
    split; [by apply fetch_nothing_ok|]. cbn. rewrite Hnil, app_nil_r. split_and!; try done. lia.
  - rewrite G1, G2, G3, (proj2 (Z.eqb_neq _ 0)) by lia. rewrite (u16_id (N - F)) by word.
    destruct (fetch_alloc_spec q F (N - F) flags p) as
      (nb & arr' & p' & -> & Hnb & Hl & Hlog & Hoth & Hfail); [done..|lia|].
    cbn [mbind cres_mbind]. set (q' := set_bufs q arr').
    destruct (shadow_inv_fields q q' m S rs) as [Hinv' HF']; [done..|]. fold F in HF'.
    destruct (Z.eqb_spec nb 0) as [->|Hnz].
    { rewrite Z.add_0_r in *. exists (Build_fetched [] [] q' v m p'), [], F.
      split; [done|]. split; [lia|]. split.
      { pose proof (fetch_nothing_ok q' v m S rs p' Hinv' Hwf) as Hok. rewrite HF' in Hok.
        destruct Hok; split; cbn in *; try done; by rewrite ring_entries_nil. }
      cbn. split_and!; try done. intros ?. apply Hfail. lia. }
    destruct (fetch_loop_spec (q_sz q) (q_desc_base q) (q_sd_desc_base q) F (F + nb) 13)
      as (ss & ds & E & L1 & L2 & L3 & C1 & C2); [done..|lia|lia|].
    replace (F + nb - F) with nb in E by lia.
    change FETCH_FUEL with 15%nat. cbn [q_sz q_desc_base q_sd_desc_base q' set_bufs].
    rewrite E. cbn [mbind cres_mbind].
    destruct (fetch_finish_spec q' v m S rs (F + nb) md) as (v' & m' & r & E2 & W & V & D & I & T & R);
      [done|rewrite HF'; cbn; lia|done..|].
    rewrite HF' in E2. replace (F + nb - F) with nb in E2 by lia.
    fold q'. rewrite E2. cbn [mbind cres_mbind].
    exists (Build_fetched ss ds q' v' m' p'), [r], (F + nb). split; [done|]. split; [lia|].
    split; [by split; cbn|]. cbn. split_and!; try done. intros ?. apply Hfail. lia.
Qed.

(** ** Writing back *)

(** One copy of [k] descriptors from number [c]. *)
Lemma ring_copy_spec q v c k :
  ring_size (q_sz q) -> ring_fits (q_sz q) (q_desc_base q) -> ring_fits (q_sz q) (q_sd_desc_base q) ->
  vchan_wf v -> 0 <= k -> c mod q_sz q + k <= q_sz q ->
  src_i v < DAO_DMA_MAX_POINTER -> dst_i v < DAO_DMA_MAX_POINTER ->
  exists v' s d, ring_copy q (ring_enc (q_sz q) c) k v = Ret v' /\ vchan_wf v' /\
    src_i v' = src_i v + 1 /\ dst_i v' = dst_i v + 1 /\
    pending_src v' = pending_src v ++ [s] /\ pending_dst v' = pending_dst v ++ [d] /\
    sge_length s = sge_length d /\
    sge_entries s = ring_entries (q_sz q) (q_sd_desc_base q) c (c + k) /\
    sge_entries d = ring_entries (q_sz q) (q_desc_base q) c (c + k) /\
    tail v' = tail v /\ head v' = head v /\ mdata v' = mdata v.
Proof.
  intros Hq Hdb Hsb Hwf Hk Hend Hs Hd. destruct (ring_size_bounds _ Hq) as [Hqb _].
  pose proof (Z.mod_pos_bound c (q_sz q) ltac:(lia)).
  unfold ring_copy. rewrite DESC_OFF_enc by done.
  rewrite (u32_id (DESC_ENTRY_SZ * k)) by (unfold DESC_ENTRY_SZ; word).
  edestruct enq_x1_spec as (v' & E & W & I1 & I2 & P1 & P2 & K); [done..|].
  destruct K as (_ & _ & _ & K1 & K2 & K3).
  eexists v', _, _. split; [exact E|]. do 3 (split; [done|]). split; [exact P1|]. split; [exact P2|].
  split; [done|]. by rewrite !(copy_entries (q_sz q) _ c) by done.
Qed.

(** The pieces of [m .. n): one, or two when the range passes the ring's end. *)
Definition ring_pieces (q m n : Z) : Z := if bool_decide (m mod q + (n - m) <= q) then 1 else 2.

(** What is left after the ring's end, as the code computes it. *)
Lemma ring_rest_diff q c n : ring_size q -> c mod q = 0 -> 0 < n - c < q ->
  u16 (ring_enc q n - ring_enc q c) = n - c.
Proof.
  intros Hq Hz Hn. destruct (ring_size_bounds _ Hq) as [Hqb _].
  destruct (ring_lap q c n) as [[E ?]|[E ?]]; [lia|lia|..].
  - unfold ring_enc. rewrite E. word.
  - pose proof (Z.mod_pos_bound n q ltac:(lia)). lia.
Qed.

Lemma ring_write_back_spec q v m n :
  ring_size (q_sz q) -> ring_fits (q_sz q) (q_desc_base q) -> ring_fits (q_sz q) (q_sd_desc_base q) ->
  vchan_wf v -> src_i v = dst_i v -> 0 <= m -> m < n <= m + q_sz q ->
  src_i v + ring_pieces (q_sz q) m n <= DAO_DMA_MAX_POINTER ->
  exists v' ss ds, ring_write_back q v (ring_enc (q_sz q) m) (ring_enc (q_sz q) n) = Ret v' /\
    vchan_wf v' /\ src_i v' = src_i v + ring_pieces (q_sz q) m n /\ src_i v' = dst_i v' /\
    pending_src v' = pending_src v ++ ss /\ pending_dst v' = pending_dst v ++ ds /\
    sge_length <$> ss = sge_length <$> ds /\
    concat (sge_entries <$> ss) = ring_entries (q_sz q) (q_sd_desc_base q) m n /\
    concat (sge_entries <$> ds) = ring_entries (q_sz q) (q_desc_base q) m n /\
    tail v' = tail v /\ head v' = head v /\ mdata v' = mdata v.
Proof.
  intros Hq Hdb Hsb Hwf Hsd Hm Hmn Hroom. destruct (ring_size_bounds _ Hq) as [Hqb _].
  pose proof (Z.mod_pos_bound m (q_sz q) ltac:(lia)).
  destruct (ring_split (q_sz q) m n) as (Hk0 & Hk1 & Hk2 & Hk3); [lia..|].
  unfold ring_write_back. rewrite desc_off_diff_no_wrap_enc by (done || lia).
  set (k := Z.min (n - m) (q_sz q - m mod q_sz q)) in *.
  assert (src_i v < DAO_DMA_MAX_POINTER) by (unfold ring_pieces in Hroom; case_bool_decide; lia).
  destruct (ring_copy_spec q v m k) as (v1 & s1 & d1 & E1 & W1 & A1 & B1 & P1 & Q1 & L1 & C1 & D1 & T1);
    [done..|lia|].
  rewrite E1. cbn [mbind cres_mbind]. rewrite desc_off_add_enc by (done || lia).
  destruct Hk3 as [Hk3|[Hz Hk3]].
  - rewrite Hk3, Z.sub_diag. change (u16 0) with 0. cbn [Z.eqb].
    exists v1, [s1], [d1]. split; [done|]. cbn. rewrite !app_nil_r, C1, D1, Hk3.
    unfold ring_pieces. rewrite bool_decide_true by lia.
    split_and!; try done; try lia; [by rewrite L1|tauto..].
  - assert (u16 (ring_enc (q_sz q) n - ring_enc (q_sz q) (m + k)) = n - (m + k)) as ->.
    { by apply ring_rest_diff; lia || done. }
    rewrite (proj2 (Z.eqb_neq _ 0)) by lia.
    unfold ring_pieces in *. rewrite bool_decide_false in * by lia.
    destruct (ring_copy_spec q v1 (m + k) (n - (m + k)))
      as (v2 & s2 & d2 & E2 & W2 & A2 & B2 & P2 & Q2 & L2 & C2 & D2 & T2); [done..|lia|lia|lia|lia|].
    rewrite E2. exists v2, [s1; s2], [d1; d2]. split; [done|]. cbn.
    rewrite !app_nil_r, C1, D1, C2, D2, P2, Q2, P1, Q1, <- !app_assoc.
    replace (m + k + (n - (m + k))) with n by lia.
    rewrite <- !ring_entries_app by lia. destruct T1 as (?&?&?), T2 as (?&?&?).
    split_and!; try done; try lia; try congruence.
Qed.

(** ** Giving buffers back *)

Definition freed (c : free_call) : list Z :=
  match c with
  | mempool_put_bulk _ l | pktmbuf_free_bulk l | extbuf_put _ l => l
  end.

(** Bulk puts go to pool [mp]. *)
Definition to_pool (mp : Z) (c : free_call) : Prop :=
  match c with mempool_put_bulk p _ => p = mp | _ => True end.

(** The two parts the free routines handle. *)
Lemma free_parts q m n : ring_size q -> 0 <= m -> m < n <= m + q ->
  exists k, u16 (first_part (m mod q) q (n - m)) = k /\ 0 < k /\ m mod q + k <= q /\
    u16 (Z.land (m mod q + k) (q - 1)) = (m + k) mod q /\ u16 (n - m - k) = n - (m + k) /\
    0 <= n - (m + k) /\ (m + k) mod q + (n - (m + k)) <= q.
Proof.
  intros Hq Hm Hmn. destruct (ring_size_bounds q Hq) as [Hqb _].
  pose proof (Z.mod_pos_bound m q ltac:(lia)).
  destruct (ring_split q m n) as (Hk0 & Hk1 & Hk2 & Hk3); [lia..|].
  rewrite first_part_min. set (k := Z.min (n - m) (q - m mod q)) in *.
  exists k. rewrite land_ring, Zplus_mod_idemp_l by done.
  pose proof (Z.mod_pos_bound (m + k) q ltac:(lia)). split_and!; try word; try lia.
Qed.

Lemma take_drop_split (l : list Z) (o a b : nat) :
  take (a + b) (drop o l) = take a (drop o l) ++ take b (drop (o + a) l).
Proof. by rewrite <- take_take_drop, drop_drop. Qed.

Lemma put_fours_spec mp arr : forall n off, 0 <= off -> off + 4 * Z.of_nat n <= Z.of_nat (length arr) ->
  exists calls off', put_fours n mp arr off = Ret (calls, off') /\
    off <= off' <= off + 4 * Z.of_nat n /\
    concat (freed <$> calls) = take (Z.to_nat (off' - off)) (drop (Z.to_nat off) arr) /\
    Forall (to_pool mp) calls.
Proof.
  induction n as [|n IH]; intros off Ho Hend; cbn.
  - exists [], off. rewrite Z.sub_diag. split_and!; try done; lia.
  - unfold read_seg. rewrite !(proj2 (Z.leb_le _ _)) by lia. cbn [andb mbind cres_mbind].
    destruct (existsb _ _).
    + exists [], off. rewrite Z.sub_diag. split_and!; try done; lia.
    + destruct (IH (off + 4)) as (calls & off' & E & Hb & Hc & Hp); [lia..|].
      rewrite E. cbn [mbind cres_mbind]. eexists _, off'. split; [done|]. split; [lia|].
      split; [|by constructor]. cbn [fmap list_fmap concat freed]. rewrite Hc.
      replace (Z.to_nat (off' - off)) with (Z.to_nat 4 + Z.to_nat (off' - (off + 4)))%nat by lia.
      rewrite take_drop_split. do 3 f_equal. lia.
Qed.

Lemma free_mseg_half_spec mp arr off cnt : 0 <= off -> 0 <= cnt -> off + cnt <= Z.of_nat (length arr) ->
  exists calls, free_mseg_half mp arr off cnt = Ret calls /\
    concat (freed <$> calls) = take (Z.to_nat cnt) (drop (Z.to_nat off) arr) /\
    Forall (to_pool mp) calls.
Proof.
  intros Ho Hc Hend. unfold free_mseg_half.
  assert (4 * Z.of_nat (Z.to_nat (cnt / 4)) <= cnt) by word.
  destruct (put_fours_spec mp arr (Z.to_nat (cnt / 4)) off) as (calls & off' & E & Hb & Hcat & Hp); [lia..|].
  rewrite E. cbn [mbind cres_mbind]. unfold read_seg. rewrite !(proj2 (Z.leb_le _ _)) by lia.
  cbn [andb mbind cres_mbind]. eexists. split; [done|].
  split; [|apply Forall_app; by repeat constructor]. rewrite fmap_app, concat_app. cbn. rewrite app_nil_r, Hcat.
  replace (Z.to_nat cnt) with (Z.to_nat (off' - off) + Z.to_nat (cnt - (off' - off)))%nat by lia.
  rewrite take_drop_split. do 3 f_equal. lia.
Qed.

Lemma free_mseg_slots mp q arr c k : 0 < q -> q <= Z.of_nat (length arr) -> 0 <= k -> c mod q + k <= q ->
  exists calls, free_mseg_half mp arr (c mod q) k = Ret calls /\
    concat (freed <$> calls) = ring_slots q arr c (c + k) /\ Forall (to_pool mp) calls.
Proof.
  intros. pose proof (Z.mod_pos_bound c q ltac:(lia)).
  destruct (free_mseg_half_spec mp arr (c mod q) k) as (calls & E & Hc & Hp); [lia..|].
  exists calls. by rewrite <- seg_slots.
Qed.

Lemma free_extbufs_spec vq m n :
  ring_size (q_sz vq) -> q_sz vq <= Z.of_nat (length (q_mbuf_arr vq)) -> 0 <= m -> m < n <= m + q_sz vq ->
  exists calls, free_extbufs vq (m mod q_sz vq) (q_sz vq) (n - m) = Ret calls /\
    concat (freed <$> calls) = ring_slots (q_sz vq) (q_mbuf_arr vq) m n /\
    forall mp, Forall (to_pool mp) calls.
Proof.
  intros Hq Hl Hm Hmn. destruct (ring_size_bounds _ Hq) as [Hqb _].
  destruct (free_parts (q_sz vq) m n) as (k & E1 & Hk & Hk1 & E2 & E3 & H0 & Hk2); [done..|].
  unfold free_extbufs. cbv zeta. rewrite E1, E2, E3, (read_slots _ _ m) by lia. cbn [mbind cres_mbind].
  destruct (Z.eqb_spec (n - (m + k)) 0).
  - eexists. split; [done|]. cbn. rewrite app_nil_r.
    split; [f_equal; lia|by repeat constructor].
  - rewrite read_slots by lia. cbn [mbind cres_mbind]. eexists. split; [done|]. cbn.
    rewrite app_nil_r. replace (m + k + (n - (m + k))) with n by lia.
    split; [symmetry; apply ring_slots_app; lia|by repeat constructor].
Qed.

Lemma free_mbufs_spec mbuf_pool q arr m n flags mp :
  ring_size q -> q <= Z.of_nat (length arr) -> 0 <= m -> m < n <= m + q ->
  first_pool mbuf_pool arr (m mod q) = Ret mp ->
  exists calls, free_mbufs mbuf_pool arr (m mod q) q (n - m) flags = Ret calls /\
    concat (freed <$> calls) = ring_slots q arr m n /\
    Forall (to_pool mp) calls.
Proof.
  intros Hq Hl Hm Hmn Hp. destruct (ring_size_bounds _ Hq) as [Hqb _].
  destruct (free_parts q m n) as (k & E1 & Hk & Hk1 & E2 & E3 & H0 & Hk2); [done..|].
  assert (m + k + (n - (m + k)) = n) as En by lia.
  unfold free_mbufs, free_mseg_mbufs. cbv zeta. rewrite Hp. cbn [mbind cres_mbind]. rewrite E1.
  destruct (has_flag flags MANAGE_MSEG).
  - destruct (free_mseg_slots mp q arr m k) as (c1 & F1 & C1 & D1); [lia..|].
    rewrite F1. cbn [mbind cres_mbind]. rewrite E2, E3.
    destruct (Z.eqb_spec (n - (m + k)) 0).
    + exists c1. split; [done|]. split; [|done]. rewrite C1. f_equal. lia.
    + destruct (free_mseg_slots mp q arr (m + k) (n - (m + k))) as (c2 & F2 & C2 & D2); [lia..|].
      rewrite F2. eexists. split; [done|]. rewrite fmap_app, concat_app, C1, C2, En.
      split; [symmetry; apply ring_slots_app; lia|by apply Forall_app].
  - rewrite E2, E3, (read_slots _ _ m) by lia. cbn [mbind cres_mbind].
    destruct (Z.eqb_spec (n - (m + k)) 0).
    + eexists. split; [done|]. cbn. rewrite app_nil_r. split; [f_equal; lia|by repeat constructor].
    + rewrite read_slots by lia. cbn [mbind cres_mbind]. eexists. split; [done|]. cbn.
      rewrite app_nil_r, En. split; [symmetry; apply ring_slots_app; lia|by repeat constructor].
Qed.

(** When the copies of a fetch and everything before them have completed, the
    shadow ring holds all descriptors up to [N]. *)
Lemma fetch_completes {P D} `{RteDma D} q v m S rs new N (f : fetched P) v1 n (d d' : D) :
  fetch_ok q v m S rs new N f ->
  vchan_wf v1 -> mdata v1 = mdata (f_dev2mem f) ->
  0 <= n <= 128 -> rte_dma_completed (devid v1) (vchan v1) 128 d = ((n, false), d') ->
  concat (op_records (mdata v1) <$> seqZ (head v1) n) = rs ++ new ->
  Forall (fun r => is_Some (m !! r_ptr r) /\ is_Some (m !! r_pend_ptr r)) (rs ++ new) ->
  exists v2 m2, dao_dma_check_meta_compl v1 d (f_store f) = Ret (v2, d', m2) /\
    vchan_wf v2 /\ shadow_inv (f_q f) m2 N [].
Proof.
  intros Hok Hwf Hmd Hn Hcompl Hrecs Hall.
  destruct (check_meta_compl_spec v1 n false d d' (f_store f)) as (v2 & E & W & _); [done..|].
  rewrite Hrecs in E.
  destruct (apply_recs_inv (f_q f) [] (rs ++ new) (f_store f) S) as (m2 & E2 & D2 & I2).
  { rewrite app_nil_r. by destruct Hok. }
  { eapply Forall_impl; [done|]. cbn. intros r. by rewrite <- !elem_of_dom, (fo_dom _ _ _ _ _ _ _ _ Hok). }
  rewrite E2 in E. exists v2, m2. rewrite (fo_to _ _ _ _ _ _ _ _ Hok) in I2. done.
Qed.

(** Bits of the word [mark_deq_compl] writes. *)
Lemma inorder_word cur last i : is_u64 cur -> is_u64 last -> 0 <= i ->
  Z.testbit
    (Z.lor (Z.lor (Z.land (Z.land cur (u64 (Z.lnot 0xFFFF00000000))) (u64 (Z.lnot (RTE_BIT64 63))))
              (u64 (Z.shiftl (Z.land (Z.shiftr (Z.land cur (u64 (Z.lnot 0xFFFF00000000))) 55) 1) 63)))
       (u64 (Z.shiftl (Z.land (Z.shiftr last 32) 0xFFFF) 32))) i =
  if (32 <=? i) && (i <? 48) then Z.testbit last i
  else if i =? 63 then Z.testbit cur 55 else Z.testbit cur i.
Proof.
  intros Hc Hl Hi.
  change 0xFFFF00000000 with (Z.shiftl (Z.ones 16) 32). change 0xFFFF with (Z.ones 16).
  change 1 with (Z.ones 1).
  rewrite !Z.lor_spec, !Z.land_spec, !u64_testbit, !Z.lnot_spec, testbit_RTE_BIT64 by lia.
  rewrite !Z.shiftl_spec by lia. 
  assert (64 <= i -> Z.testbit cur i = false /\ Z.testbit last i = false) as Hhigh.
  { intros. apply u64_pow2 in Hc, Hl. split; by apply (testbit_small _ 64). }
  rewrite !Z.land_spec, !Z.testbit_ones by lia.
  destruct (decide (64 <= i)) as [Hge|Hlt].
  { destruct (Hhigh Hge) as [-> ->]. rewrite (proj2 (Z.ltb_ge i 64)) by lia. cbn.
    destruct (Z.leb_spec 32 i), (Z.ltb_spec i 48), (Z.eqb_spec i 63); try lia; done. }
  rewrite (proj2 (Z.ltb_lt i 64)) by lia.
  destruct (decide (i = 63)) as [->|H63].
  { rewrite !Z.shiftr_spec by lia. 
    rewrite bool_decide_true by done.
    change (63 - 63 + 55) with 55. rewrite (Z.land_spec cur).
    change (Z.testbit (u64 (Z.lnot (Z.shiftl (Z.ones 16) 32))) 55) with true.
    change ((0 <=? 63 - 32) && (63 - 32 <? 16)) with false.
    change ((0 <=? 63 - 63) && (63 - 63 <? 1)) with true.
    change ((32 <=? 63) && (63 <? 48)) with false. cbn [andb negb Z.eqb Pos.eqb].
    rewrite ?andb_false_r, ?andb_true_r, ?orb_false_r. done. }
  rewrite (bool_decide_false (63 = i)) by lia. rewrite (proj2 (Z.eqb_neq i 63)) by lia.
  rewrite (proj2 (Z.leb_gt 0 (i - 63))) by lia. cbn [andb negb].
  rewrite !andb_false_r, orb_false_r. 
  destruct (Z.leb_spec 32 i), (Z.ltb_spec i 48); cbn [andb].
  all: destruct (Z.leb_spec 0 (i - 32)), (Z.ltb_spec (i - 32) 16); try lia; cbn [andb negb].
  all: rewrite ?andb_false_r, ?andb_true_r, ?orb_false_r; try done.
  rewrite Z.shiftr_spec by lia. cbn. f_equal. lia.
Qed.

(** Without room for its pieces a write-back stores outside the arrays. *)
Lemma ring_write_back_overrun q v m n :
  ring_size (q_sz q) -> ring_fits (q_sz q) (q_desc_base q) -> ring_fits (q_sz q) (q_sd_desc_base q) ->
  vchan_wf v -> src_i v = dst_i v -> 0 <= m -> m < n <= m + q_sz q ->
  DAO_DMA_MAX_POINTER < src_i v + ring_pieces (q_sz q) m n ->
  ring_write_back q v (ring_enc (q_sz q) m) (ring_enc (q_sz q) n) = Fault.
Proof.
  intros Hq Hdb Hsb Hwf Hsd Hm Hmn Hroom. destruct (ring_size_bounds _ Hq) as [Hqb _].
  assert (forall v c k, vchan_wf v -> DAO_DMA_MAX_POINTER <= dst_i v ->
    ring_copy q (ring_enc (q_sz q) c) k v = Fault) as Hfull.
  { intros v0 c k [] Hge. unfold ring_copy, dao_dma_enq_x1, cset, DAO_DMA_MAX_POINTER in *.
    rewrite (proj2 (Z.ltb_ge (dst_i v0) _)) by lia. by rewrite andb_false_r. }
  destruct (ring_split (q_sz q) m n) as (Hk0 & Hk1 & Hk2 & Hk3); [lia..|].
  unfold ring_write_back. rewrite desc_off_diff_no_wrap_enc by (done || lia).
  set (k := Z.min (n - m) (q_sz q - m mod q_sz q)) in *.
  destruct (decide (DAO_DMA_MAX_POINTER <= dst_i v)); [by rewrite Hfull|].
  destruct (ring_copy_spec q v m k) as (v1 & s1 & d1 & E1 & W1 & _ & B1 & _); [done || lia..|].
  rewrite E1. cbn [mbind cres_mbind]. rewrite desc_off_add_enc by (done || lia).
  unfold ring_pieces in Hroom. case_bool_decide; [lia|]. destruct Hk3 as [?|[Hz Hk3]]; [lia|].
  rewrite ring_rest_diff, (proj2 (Z.eqb_neq _ 0)) by (done || lia). apply Hfull; [done|lia].
Qed.

(** ** Properties *)

(** C9. Fetching for the host's Rx queue refines the descriptor counter. On a
    queue whose shadow ring holds the descriptors before number [S], with
    copies up to [F = fetched_to q S rs] on their way, and a host that has
    posted up to number [N], the fetch produces at most two copies that cover
    exactly the entries of descriptors [F .. N) in order, from the host's ring
    to the same positions of the shadow ring, and records one completion that
    brings the invariant to [N]; with nothing new it produces nothing. When
    the device then reports the operations that carry these records, the
    shadow offset is that of descriptor [N] and nothing is pending. *)
Theorem enq_fetch_refines (notify : Z -> Z) {P D : Type} `{RteDma D} (q : virtio_net_queue)
    (v : dao_dma_vchan_state) (m : store) (p : P) (S : Z) (rs : list cmpl_rec) (N : Z)
    (md : dao_dma_cmpl_mdata) :
  shadow_inv q m S rs -> fetched_to q S rs <= N <= S + q_sz q ->
  Z.land (Z.shiftr (notify (q_notify_addr q)) 16) 0xFFFF = ring_enc (q_sz q) N ->
  ring_fits (q_sz q) (q_desc_base q) -> ring_fits (q_sz q) (q_sd_desc_base q) ->
  vchan_wf v -> mdata v !! Z.to_nat (tail v mod DAO_DMA_MAX_INFLIGHT_MDATA) = Some md ->
  md_cnt md < DAO_DMA_MAX_POINTER ->
  exists f new, fetch_enq_desc_prep notify q v m p = Ret f /\ fetch_ok q v m S rs new N f /\
    forall v1 n (d d' : D), vchan_wf v1 -> mdata v1 = mdata (f_dev2mem f) -> 0 <= n <= 128 ->
      rte_dma_completed (devid v1) (vchan v1) 128 d = ((n, false), d') ->
      concat (op_records (mdata v1) <$> seqZ (head v1) n) = rs ++ new ->
      Forall (fun r => is_Some (m !! r_ptr r) /\ is_Some (m !! r_pend_ptr r)) (rs ++ new) ->
      exists v2 m2, dao_dma_check_meta_compl v1 d (f_store f) = Ret (v2, d', m2) /\
        vchan_wf v2 /\ m2 !! q_sd_desc_off_p (f_q f) = Some (ring_enc (q_sz (f_q f)) N) /\
        m2 !! q_pend_sd_desc_p (f_q f) = Some 0.
Proof.
  intros Hinv HN Hnot Hdb Hsb Hwf Hmd Hcnt.
  destruct (fetch_enq_ok notify q v m p S rs N md) as (f & new & E & Hok); [done..|].
  exists f, new. split; [done|]. split; [done|]. intros v1 n d d' W1 M1 Hn Hc Hr Hall.
  destruct (fetch_completes q v m S rs new N f v1 n d d') as (v2 & m2 & E2 & W2 & [_ _ _ I1 I2 _ _]);
    [done..|]. exists v2, m2. cbn in I2. rewrite Z.sub_diag in I2. done.
Qed.

Definition wit_q : virtio_net_queue :=
  {| q_desc_base := 0x10000; q_notify_addr := 0x40; q_sz := 8; q_netdev_id := 1; q_auto_free := 0;
     q_mp := 77; q_mbuf_arr := [100; 101; 102; 103; 104; 105; 106; 107]; q_sd_desc_base := 0x20000;
     q_sd_desc_off_p := 0x100; q_pend_sd_desc_p := 0x102; q_pend_sd_desc_idx := 0;
     q_pend_compl_idx := 0; q_pend_compl := 0; q_compl_off := 0; q_last_off := 0;
     q_sd_mbuf_off := 0; q_cb_notify_addr := 0; q_cb_intr_addr := 0 |}.

Definition wit_store : store := <[0x100 := 6]> (<[0x102 := 0]> ∅).

Lemma wit_ring : ring_size 8.
Proof. exists 3. lia. Qed.

Lemma wit_fits b : 0 <= b <= 0x100000 -> ring_fits 8 b.
Proof. intros. unfold ring_fits, DESC_ENTRY_SZ. lia. Qed.

Lemma wit_shadow : shadow_inv wit_q wit_store 6 [].
Proof. split; try done. exact wit_ring. Qed.

Lemma enq_fetch_refines_witness :
  exists f new, fetch_enq_desc_prep (fun _ => 0x80030000) wit_q vchan_state0 wit_store tt = Ret f /\
    fetch_ok wit_q vchan_state0 wit_store 6 [] new 11 f /\ length (f_src f) = 2%nat.
Proof.
  destruct (@enq_fetch_refines (fun _ => 0x80030000) unit ref_dma _ wit_q vchan_state0 wit_store tt
    6 [] 11 mdata0) as (f & new & E & Hok & _).
  - exact wit_shadow.
  - cbn. lia.
  - reflexivity.
  - apply wit_fits. cbn. lia.
  - apply wit_fits. cbn. lia.
  - exact vchan_state0_wf.
  - reflexivity.
  - unfold DAO_DMA_MAX_POINTER. cbn. lia.
  - exists f, new. split; [exact E|]. split; [exact Hok|].
    assert (length (f_src f) = match fetch_enq_desc_prep (fun _ => 0x80030000) wit_q vchan_state0
      wit_store tt with Ret f => length (f_src f) | _ => 0%nat end) as -> by (by rewrite E).
    vm_compute. reflexivity.
Defined.

(** C10. Fetching for the host's Tx queue refines the descriptor counter and
    leaks no buffer. It allocates buffers for the new descriptors [F .. N)
    first; when a bulk allocation fails it fetches only up to some [N' <= N].
    The copies cover exactly the entries of [F .. N'), the buffers the
    allocator gave out are, in order, those stored in the slots of
    descriptors [F .. N') and in no other slot, and completing the pending
    records brings the shadow offset to descriptor [N']. *)
Theorem deq_fetch_refines (notify : Z -> Z) {P D : Type} `{BufAllocLaws P} `{RteDma D}
    (q : virtio_net_queue) (v : dao_dma_vchan_state) (m : store) (p : P) (flags S : Z)
    (rs : list cmpl_rec) (N : Z) (md : dao_dma_cmpl_mdata) :
  shadow_inv q m S rs -> fetched_to q S rs <= N <= S + q_sz q ->
  Z.land (Z.shiftr (notify (q_notify_addr q)) 16) 0xFFFF = ring_enc (q_sz q) N ->
  ring_fits (q_sz q) (q_desc_base q) -> ring_fits (q_sz q) (q_sd_desc_base q) ->
  q_sz q <= Z.of_nat (length (q_mbuf_arr q)) ->
  vchan_wf v -> mdata v !! Z.to_nat (tail v mod DAO_DMA_MAX_INFLIGHT_MDATA) = Some md ->
  md_cnt md < DAO_DMA_MAX_POINTER ->
  let F := fetched_to q S rs in
  exists f new N', fetch_deq_desc_prep notify q v m p flags = Ret f /\
    F <= N' <= N /\ fetch_ok q v m S rs new N' f /\
    (N' < N -> exists n p1 p2, rte_mempool_get_bulk (q_mp q) n p1 = (None, p2) \/
                               extbuf_get (u8 (q_netdev_id q)) n p1 = (None, p2)) /\
    allocated (f_pool f) = allocated p ++ ring_slots (q_sz q) (q_mbuf_arr (f_q f)) F N' /\
    (forall i, (forall k, F <= k < N' -> k mod q_sz q <> Z.of_nat i) ->
       q_mbuf_arr (f_q f) !! i = q_mbuf_arr q !! i) /\
    forall v1 n (d d' : D), vchan_wf v1 -> mdata v1 = mdata (f_dev2mem f) -> 0 <= n <= 128 ->
      rte_dma_completed (devid v1) (vchan v1) 128 d = ((n, false), d') ->
      concat (op_records (mdata v1) <$> seqZ (head v1) n) = rs ++ new ->
      Forall (fun r => is_Some (m !! r_ptr r) /\ is_Some (m !! r_pend_ptr r)) (rs ++ new) ->
      exists v2 m2, dao_dma_check_meta_compl v1 d (f_store f) = Ret (v2, d', m2) /\
        vchan_wf v2 /\ m2 !! q_sd_desc_off_p (f_q f) = Some (ring_enc (q_sz (f_q f)) N') /\
        m2 !! q_pend_sd_desc_p (f_q f) = Some 0.
Proof.
  intros Hinv HN Hnot Hdb Hsb Harr Hwf Hmd Hcnt F.
  destruct (fetch_deq_ok notify q v m p flags S rs N md)
    as (f & new & N' & E & HN' & Hok & _ & Hlog & Hoth & Hfail); [done..|].
  exists f, new, N'. split_and!; try done; try lia. intros v1 n d d' W1 M1 Hn Hc Hr Hall.
  destruct (fetch_completes q v m S rs new N' f v1 n d d') as (v2 & m2 & E2 & W2 & [_ _ _ I1 I2 _ _]);
    [done..|]. exists v2, m2. cbn in I2. rewrite Z.sub_diag in I2. done.
Qed.

(** An allocator that hands out the numbers 500, 501, ...; its state is what
    it has given out and the calls it will still serve. *)
#[export] Instance wit_alloc : BufAlloc (list Z * nat) :=
  let get n p := match p with
                 | (l, O) => (None, (l, O))
                 | (l, S k) => let new := (fun i => 500 + i) <$> seqZ (Z.of_nat (length l)) n in
                               (Some new, (l ++ new, k))
                 end in
  {| rte_mempool_get_bulk _ := get; extbuf_get _ := get |}.

#[export] Instance wit_alloc_laws : BufAllocLaws (list Z * nat).
Proof.
  refine {| allocated p := p.1 |}; intros ? n [l [|k]] o p' Hn; cbn; intros [= <- <-]; cbn;
    [done|split; [rewrite length_fmap, length_seqZ; lia|done]|
     done|split; [rewrite length_fmap, length_seqZ; lia|done]].
Defined.

(** The allocator serves one bulk call, so that the fetch of a range that
    passes the ring's end stops there. *)
Lemma deq_fetch_refines_witness :
  exists f new N', fetch_deq_desc_prep (fun _ => 0x80030000) wit_q vchan_state0 wit_store
      ([], 1%nat) 0 = Ret f /\ 6 <= N' <= 11 /\
    fetch_ok wit_q vchan_state0 wit_store 6 [] new N' f /\ allocated (f_pool f) = [500; 501].
Proof.
  destruct (@deq_fetch_refines (fun _ => 0x80030000) (list Z * nat) ref_dma _ _ _ wit_q
    vchan_state0 wit_store ([], 1%nat) 0 6 [] 11 mdata0)
    as (f & new & N' & E & HN & Hok & _ & Hlog & _).
  - exact wit_shadow.
  - cbn. lia.
  - reflexivity.
  - apply wit_fits. cbn. lia.
  - apply wit_fits. cbn. lia.
  - cbn. lia.
  - exact vchan_state0_wf.
  - reflexivity.
  - unfold DAO_DMA_MAX_POINTER. cbn. lia.
  - exists f, new, N'. split; [exact E|]. split; [exact HN|]. split; [exact Hok|].
    assert (allocated (f_pool f) = match fetch_deq_desc_prep (fun _ => 0x80030000) wit_q vchan_state0
      wit_store ([], 1%nat) 0 with Ret f => allocated (f_pool f) | _ => [] end) as -> by (by rewrite E).
    vm_compute. reflexivity.
Defined.

(** Marking Rx descriptors used writes back and frees exactly the used
    range. For descriptors [m .. n) of a queue, with room for its pieces in
    the channel, [mark_enq_compl] appends one copy, or two when the range
    passes the ring's end, that cover exactly the entries of these descriptors
    in order, from the shadow ring to the same positions of the host's ring;
    and, unless the channel frees buffers itself, it gives back exactly the
    buffers of these descriptors, each once and in order, in every buffer mode
    (external, multi-segment and plain mbufs), bulk puts going to the pool of
    the first buffer. *)
Theorem mark_enq_compl_exact (mbuf_pool : Z -> option Z) (q : virtio_net_queue)
    (v : dao_dma_vchan_state) (m n flags mp : Z) :
  ring_size (q_sz q) -> ring_fits (q_sz q) (q_desc_base q) -> ring_fits (q_sz q) (q_sd_desc_base q) ->
  q_sz q <= Z.of_nat (length (q_mbuf_arr q)) ->
  vchan_wf v -> src_i v = dst_i v -> 0 <= m -> m < n <= m + q_sz q ->
  src_i v + ring_pieces (q_sz q) m n <= DAO_DMA_MAX_POINTER ->
  first_pool mbuf_pool (q_mbuf_arr q) (m mod q_sz q) = Ret mp ->
  exists v' calls ss ds,
    mark_enq_compl mbuf_pool q v (ring_enc (q_sz q) m) (ring_enc (q_sz q) n) flags = Ret (v', calls) /\
    vchan_wf v' /\ tail v' = tail v /\
    pending_src v' = pending_src v ++ ss /\ pending_dst v' = pending_dst v ++ ds /\
    sge_length <$> ss = sge_length <$> ds /\
    concat (sge_entries <$> ss) = ring_entries (q_sz q) (q_sd_desc_base q) m n /\
    concat (sge_entries <$> ds) = ring_entries (q_sz q) (q_desc_base q) m n /\
    concat (freed <$> calls) =
      (if q_auto_free q =? 0 then ring_slots (q_sz q) (q_mbuf_arr q) m n else []) /\
    Forall (to_pool mp) calls.
Proof.
  intros Hq Hdb Hsb Harr Hwf Hsd Hm Hmn Hroom Hmp. destruct (ring_size_bounds _ Hq) as [Hqb _].
  destruct (ring_write_back_spec q v m n) as (v' & ss & ds & E & W & _ & _ & P1 & P2 & L & C1 & C2 & T & _);
    [done..|].
  pose proof (Z.mod_pos_bound m (q_sz q) ltac:(lia)).
  unfold mark_enq_compl. rewrite desc_off_diff_enc, DESC_OFF_enc by (done || lia).
  rewrite (u16_id (m mod _)) by word.
  destruct (q_auto_free q =? 0).
  - destruct (has_flag flags MANAGE_EXTBUF) eqn:Ef.
    + destruct (free_extbufs_spec q m n) as (calls & Ec & Hc & Hp); [done..|].
      rewrite Ec. cbn [mbind cres_mbind]. rewrite E. cbn [mbind cres_mbind].
      exists v', calls, ss, ds. split_and!; done.
    + destruct (free_mbufs_spec mbuf_pool (q_sz q) (q_mbuf_arr q) m n flags mp)
        as (calls & Ec & Hc & Hp); [done..|].
      rewrite Ec. cbn [mbind cres_mbind]. rewrite E. cbn [mbind cres_mbind].
      exists v', calls, ss, ds. split_and!; done.
  - cbn [mbind cres_mbind]. rewrite E. cbn [mbind cres_mbind].
    exists v', [], ss, ds. split_and!; done.
Qed.

Lemma mark_enq_compl_exact_witness :
  exists v' calls, mark_enq_compl (fun _ => Some 7) wit_q vchan_state0 (ring_enc 8 6) (ring_enc 8 11) 2 =
      Ret (v', calls) /\ concat (freed <$> calls) = [106; 107; 100; 101; 102].
Proof.
  destruct (mark_enq_compl_exact (fun _ => Some 7) wit_q vchan_state0 6 11 2 7)
    as (v' & calls & ss & ds & E & _ & _ & _ & _ & _ & _ & _ & Hf & _).
  - exact wit_ring.
  - apply wit_fits. cbn. lia.
  - apply wit_fits. cbn. lia.
  - cbn. lia.
  - exact vchan_state0_wf.
  - reflexivity.
  - lia.
  - cbn. lia.
  - unfold DAO_DMA_MAX_POINTER. vm_compute. discriminate.
  - reflexivity.
  - exists v', calls. split; [exact E|]. rewrite Hf. reflexivity.
Defined.

(** C30. Marking Tx descriptors used in order overwrites one word. For the
    [nb] descriptors from number [m], without [MANAGE_NOINORDER], only the
    second word of the first descriptor changes: its buffer id (bits 32..47)
    becomes that of the last descriptor, its used flag (bit 63) takes the
    value of its available flag (bit 55), every other bit stays; and one copy
    of these 8 bytes to the host's descriptor is appended. *)
Theorem mark_deq_compl_in_order (q : virtio_net_queue) (v : dao_dma_vchan_state) (m nb flags : Z)
    (w : store) (cur last : Z) :
  ring_size (q_sz q) -> ring_fits (q_sz q) (q_desc_base q) -> ring_fits (q_sz q) (q_sd_desc_base q) ->
  vchan_wf v -> src_i v < DAO_DMA_MAX_POINTER -> dst_i v < DAO_DMA_MAX_POINTER ->
  0 <= m -> 1 <= nb <= q_sz q -> has_flag flags MANAGE_NOINORDER = false ->
  let sd c := q_sd_desc_base q + DESC_ENTRY_SZ * (c mod q_sz q) + 8 in
  w !! sd m = Some cur -> w !! sd (m + nb - 1) = Some last -> is_u64 cur -> is_u64 last ->
  exists v' word, mark_deq_compl q v (ring_enc (q_sz q) m) nb flags w = Ret (v', <[sd m := word]> w) /\
    (forall i, 0 <= i -> Z.testbit word i =
       if (32 <=? i) && (i <? 48) then Z.testbit last i
       else if i =? 63 then Z.testbit cur 55 else Z.testbit cur i) /\
    vchan_wf v' /\
    pending_src v' = pending_src v ++ [{| sge_addr := sd m; sge_length := 8 |}] /\
    pending_dst v' = pending_dst v ++
      [{| sge_addr := q_desc_base q + DESC_ENTRY_SZ * (m mod q_sz q) + 8; sge_length := 8 |}].
Proof.
  intros Hq [Hd0 Hd1] [Hs0 Hs1] Hwf Hsi Hdi Hm Hnb Hfl sd Hcur Hlast Hc64 Hl64.
  destruct (ring_size_bounds _ Hq) as [Hqb _]. unfold mark_deq_compl. rewrite Hfl.
  rewrite (u16_id (nb - 1)) by word. rewrite desc_off_add_enc by (done || lia).
  rewrite !(DESC_PTR_OFF_enc (q_sz q)) by (done || unfold DESC_ENTRY_SZ; lia).
  replace (m + (nb - 1)) with (m + nb - 1) by lia. fold (sd (m + nb - 1)) (sd m).
  unfold mload. rewrite Hlast, Hcur. cbn [mbind cres_mbind]. rewrite mstore_Ret by eauto.
  cbn [mbind cres_mbind].
  edestruct (enq_x1_spec v (sd m) 8 (q_desc_base q + DESC_ENTRY_SZ * (m mod q_sz q) + 8) 8)
    as (v' & -> & W & _ & _ & P1 & P2 & _); [done..|].
  cbn [mbind cres_mbind]. eexists v', _. split; [done|]. split; [|done].
  intros i Hi. by apply inorder_word.
Qed.

Lemma mark_deq_compl_in_order_witness :
  exists v' word, mark_deq_compl wit_q vchan_state0 (ring_enc 8 6) 3 0
      (<[0x20068 := 0x0080000100000040]> (<[0x20008 := 0x0080000700000040]> ∅)) =
      Ret (v', <[0x20068 := word]> (<[0x20068 := 0x0080000100000040]>
        (<[0x20008 := 0x0080000700000040]> ∅))) /\
    Z.testbit word 63 = true /\ Z.testbit word 33 = true.
Proof.
  destruct (mark_deq_compl_in_order wit_q vchan_state0 6 3 0
    (<[0x20068 := 0x0080000100000040]> (<[0x20008 := 0x0080000700000040]> ∅))
    0x0080000100000040 0x0080000700000040) as (v' & word & E & Hb & _).
  - exact wit_ring.
  - apply wit_fits. cbn. lia.
  - apply wit_fits. cbn. lia.
  - exact vchan_state0_wf.
  - unfold DAO_DMA_MAX_POINTER. cbn. lia.
  - unfold DAO_DMA_MAX_POINTER. cbn. lia.
  - lia.
  - cbn. lia.
  - reflexivity.
  - reflexivity.
  - reflexivity.
  - unfold is_u64. lia.
  - unfold is_u64. lia.
  - exists v', word. split; [exact E|]. rewrite !Hb by lia. split; reflexivity.
Defined.

(** C38. The room [mark_deq_compl] needs, and the room its caller checks. With
    [MANAGE_NOINORDER] a range that passes the ring's end takes two pointer
    pairs: the write-back succeeds exactly when the arrays of
    [DAO_DMA_MAX_POINTER] cells have room for its pieces, and stores outside
    them otherwise. The check that precedes it in [virtio_net_desc_manage],
    [dao_dma_flush(mem2dev, 1)], accepts a channel with threshold 15 and 14
    pending pointers as it is, where such a range does not fit. *)
Theorem deq_compl_room {D : Type} `{RteDma D} (stats : bool) (q : virtio_net_queue)
    (v : dao_dma_vchan_state) (m n flags : Z) (w : store) (d : D) :
  ring_size (q_sz q) -> ring_fits (q_sz q) (q_desc_base q) -> ring_fits (q_sz q) (q_sd_desc_base q) ->
  vchan_wf v -> src_i v = dst_i v -> 0 <= m -> m < n <= m + q_sz q ->
  has_flag flags MANAGE_NOINORDER = true ->
  let r := mark_deq_compl q v (ring_enc (q_sz q) m) (n - m) flags w in
  (src_i v + ring_pieces (q_sz q) m n <= DAO_DMA_MAX_POINTER <-> exists v', r = Ret (v', w)) /\
  (DAO_DMA_MAX_POINTER < src_i v + ring_pieces (q_sz q) m n <-> r = Fault) /\
  (flush_thr v = 15 -> src_i v = 14 -> dao_dma_flush stats v 1 d = (true, v, d)).
Proof.
  intros Hq Hdb Hsb Hwf Hsd Hm Hmn Hfl r. destruct (ring_size_bounds _ Hq) as [Hqb _].
  assert (r = (v' ← ring_write_back q v (ring_enc (q_sz q) m) (ring_enc (q_sz q) n); Ret (v', w))) as Hr.
  { unfold r, mark_deq_compl, mark_deq_compl_no_inorder. rewrite Hfl.
    rewrite desc_off_add_enc by (done || lia). by replace (m + (n - m)) with n by lia. }
  assert (src_i v + ring_pieces (q_sz q) m n <= DAO_DMA_MAX_POINTER -> exists v', r = Ret (v', w)) as Hok.
  { intros Hroom. destruct (ring_write_back_spec q v m n) as (v' & ss & ds & E & _); [done..|].
    exists v'. rewrite Hr, E. done. }
  assert (DAO_DMA_MAX_POINTER < src_i v + ring_pieces (q_sz q) m n -> r = Fault) as Hbad.
  { intros Hroom. rewrite Hr. by rewrite ring_write_back_overrun. }
  split_and!.
  - split; [done|]. intros [v' E]. destruct (decide (DAO_DMA_MAX_POINTER < src_i v + ring_pieces (q_sz q) m n));
      [rewrite Hbad in E by done; done|lia].
  - split; [done|]. intros E. destruct (decide (DAO_DMA_MAX_POINTER < src_i v + ring_pieces (q_sz q) m n));
      [done|]. destruct Hok as [v' E']; [lia|]. congruence.
  - intros Ht Hs. unfold dao_dma_flush. rewrite <- Hsd, Ht, Hs. done.
Qed.

Lemma deq_compl_room_witness :
  let v := set_conf (set_pending vchan_state0 (src vchan_state0) (dst vchan_state0) 14 14) 0 0 15 0 in
  dao_dma_flush false v 1 wit_dma = (true, v, wit_dma) /\
  mark_deq_compl wit_q v (ring_enc 8 6) 5 1 ∅ = Fault.
Proof.
  intros v.
  destruct (deq_compl_room false wit_q v 6 11 1 ∅ wit_dma) as (_ & H1 & H2).
  - exact wit_ring.
  - apply wit_fits. cbn. lia.
  - apply wit_fits. cbn. lia.
  - destruct vchan_state0_wf. split; try done; cbn; unfold DAO_DMA_MAX_POINTER; lia.
  - reflexivity.
  - lia.
  - cbn. lia.
  - reflexivity.
  - split; [apply H2; reflexivity|]. apply H1. reflexivity.
Defined.
