(* ===== verification/Neon.v ===== *)
(** * Vectors of the ARM Advanced SIMD unit

    The packet paths work on four packets at a time with the intrinsics of
    [arm_neon.h]. A 128-bit vector is kept by its lanes, of 64, 32 or 8 bits;
    the code passes vectors of one shape where another is expected, which
    reads the same bits in the other shape: [as_u32], [as_u64], [as_u8]. An
    intrinsic is a function on lanes with its documented meaning. *)
From stdpp Require Import base option list numbers.
From S2P Require Import Prelude.

Local Open Scope Z_scope.

(** [uint64x2_t], [uint32x4_t] and [uint8x16_t] *)
Record u64x2 := V2 { q0 : Z; q1 : Z }.
Record u32x4 := V4 { s0 : Z; s1 : Z; s2 : Z; s3 : Z }.
Definition u8x16 := list Z.

(** The same bits in another shape; lane 0 holds the low bits. *)
Definition as_u32 (v : u64x2) : u32x4 :=
  V4 (u32 (q0 v)) (Z.shiftr (q0 v) 32) (u32 (q1 v)) (Z.shiftr (q1 v) 32).

Definition as_u64 (v : u32x4) : u64x2 :=
  V2 (Z.lor (s0 v) (Z.shiftl (s1 v) 32)) (Z.lor (s2 v) (Z.shiftl (s3 v) 32)).

(** The [n] bytes of a word, low byte first, and back. *)
Fixpoint le_bytes (n : nat) (x : Z) : list Z :=
  match n with O => [] | S n => u8 x :: le_bytes n (Z.shiftr x 8) end.

Fixpoint of_le (l : list Z) : Z :=
  match l with [] => 0 | b :: l => b + 0x100 * of_le l end.

Definition u64_as_u8 (v : u64x2) : u8x16 := le_bytes 8 (q0 v) ++ le_bytes 8 (q1 v).
Definition u32_as_u8 (v : u32x4) : u8x16 :=
  le_bytes 4 (s0 v) ++ le_bytes 4 (s1 v) ++ le_bytes 4 (s2 v) ++ le_bytes 4 (s3 v).
Definition u8_as_u32 (b : u8x16) : u32x4 :=
  V4 (of_le (take 4 b)) (of_le (take 4 (drop 4 b))) (of_le (take 4 (drop 8 b))) (of_le (take 4 (drop 12 b))).

(** ** Lane-wise operations *)
Definition map2_64 (f : Z -> Z -> Z) (a b : u64x2) : u64x2 := V2 (f (q0 a) (q0 b)) (f (q1 a) (q1 b)).
Definition map2_32 (f : Z -> Z -> Z) (a b : u32x4) : u32x4 :=
  V4 (f (s0 a) (s0 b)) (f (s1 a) (s1 b)) (f (s2 a) (s2 b)) (f (s3 a) (s3 b)).

Definition vdupq_n_u64 (x : Z) : u64x2 := V2 x x.
Definition vdupq_n_u32 (x : Z) : u32x4 := V4 x x x x.
Definition vaddq_u64 : u64x2 -> u64x2 -> u64x2 := map2_64 (fun x y => u64 (x + y)).
Definition vsubq_u64 : u64x2 -> u64x2 -> u64x2 := map2_64 (fun x y => u64 (x - y)).
Definition vandq_u64 : u64x2 -> u64x2 -> u64x2 := map2_64 Z.land.
Definition vorrq_u64 : u64x2 -> u64x2 -> u64x2 := map2_64 Z.lor.
Definition vshlq_n_u64 (a : u64x2) (n : Z) : u64x2 := V2 (u64 (Z.shiftl (q0 a) n)) (u64 (Z.shiftl (q1 a) n)).
Definition vshrq_n_u64 (a : u64x2) (n : Z) : u64x2 := V2 (Z.shiftr (q0 a) n) (Z.shiftr (q1 a) n).
Definition vsubq_u32 : u32x4 -> u32x4 -> u32x4 := map2_32 (fun x y => u32 (x - y)).
Definition vandq_u32 : u32x4 -> u32x4 -> u32x4 := map2_32 Z.land.
Definition vorrq_u32 : u32x4 -> u32x4 -> u32x4 := map2_32 Z.lor.
Definition vminq_u32 : u32x4 -> u32x4 -> u32x4 := map2_32 Z.min.
Definition vshrq_n_u32 (a : u32x4) (n : Z) : u32x4 :=
  V4 (Z.shiftr (s0 a) n) (Z.shiftr (s1 a) n) (Z.shiftr (s2 a) n) (Z.shiftr (s3 a) n).

(** A comparison sets all bits of a lane, or none. *)
Definition all32 (b : bool) : Z := if b then 0xFFFFFFFF else 0.
Definition all64 (b : bool) : Z := if b then 0xFFFFFFFFFFFFFFFF else 0.
Definition vcgtq_u32 : u32x4 -> u32x4 -> u32x4 := map2_32 (fun x y => all32 (y <? x)).
Definition vcltq_u32 : u32x4 -> u32x4 -> u32x4 := map2_32 (fun x y => all32 (x <? y)).
Definition vceqzq_u64 (a : u64x2) : u64x2 := V2 (all64 (q0 a =? 0)) (all64 (q1 a =? 0)).

(** ** Permutations *)
Definition vzip1q_u64 (a b : u64x2) : u64x2 := V2 (q0 a) (q0 b).
Definition vzip2q_u64 (a b : u64x2) : u64x2 := V2 (q1 a) (q1 b).
Definition vpaddq_u64 (a b : u64x2) : u64x2 := V2 (u64 (q0 a + q1 a)) (u64 (q0 b + q1 b)).
Definition vzip1q_u32 (a b : u32x4) : u32x4 := V4 (s0 a) (s0 b) (s1 a) (s1 b).
Definition vzip2q_u32 (a b : u32x4) : u32x4 := V4 (s2 a) (s2 b) (s3 a) (s3 b).
Definition vtrn1q_u32 (a b : u32x4) : u32x4 := V4 (s0 a) (s0 b) (s2 a) (s2 b).
Definition vtrn2q_u32 (a b : u32x4) : u32x4 := V4 (s1 a) (s1 b) (s3 a) (s3 b).
Definition vuzp1q_u32 (a b : u32x4) : u32x4 := V4 (s0 a) (s2 a) (s0 b) (s2 b).

(** Table lookup: an index outside the table of 16 bytes gives 0. *)
Definition vqtbl1q_u8 (t idx : u8x16) : u8x16 := (fun i => nth (Z.to_nat i) t 0) <$> idx.

(** ** Lemmas *)

Lemma u32_land x : u32 x = Z.land x 0xFFFFFFFF.
Proof. change 0xFFFFFFFF with (Z.ones 32). by rewrite Z.land_ones. Qed.

Lemma as_u32_of_u32s a b c d : is_u32 a -> is_u32 c ->
  as_u64 (V4 a b c d) = V2 (a + 0x100000000 * b) (c + 0x100000000 * d).
Proof.
  assert (forall x y, is_u32 x -> Z.lor x (Z.shiftl y 32) = x + 0x100000000 * y) as H.
  { intros x y Hx. rewrite Z.shiftl_mul_pow2 by lia. change (2 ^ 32) with 0x100000000.
    rewrite <- Z.lxor_lor, <- Z.add_nocarry_lxor; [lia|..].
    all: apply Z.bits_inj'; intros i Hi; rewrite Z.land_spec, Z.bits_0;
      change 0x100000000 with (2 ^ 32); destruct (decide (i < 32));
      [rewrite (Z.mul_pow2_bits_low y) by lia; apply andb_false_r
      |rewrite (testbit_small x 32) by (done || lia); done]. }
  intros. unfold as_u64. cbn. by rewrite !H.
Qed.

(** A word of 64 bits by its halves. *)
Lemma u64_halves x : x = u32 x + 0x100000000 * Z.shiftr x 32.
Proof. rewrite Z.shiftr_div_pow2 by lia. change (2 ^ 32) with 0x100000000. word. Qed.

(** A comparison as a condition. *)
Lemma all32_true b : (all32 b =? 0) = negb b.
Proof. by destruct b. Qed.
Lemma all64_true b : (all64 b =? 0) = negb b.
Proof. by destruct b. Qed.
#[export] Hint Rewrite all32_true all64_true : daorw.
