(* ===== verification/VirtioNetDeq.v ===== *)
(** * Receiving packets from the host (lib/virtio_net/virtio_net_deq.c)

    A worker core starts a DMA copy for each descriptor the service core put
    into the shadow ring of a host Tx queue, into the buffer allocated for it,
    and hands out the buffers whose copies are complete as packets. Both steps
    have a loop over four descriptors at a time in vector registers and a loop
    over single ones. The cells the DMA metadata points to ([sd_desc_off],
    [sd_mbuf_off] and [pend_sd_mbuf] of a queue) live in a store, the 64-bit
    words of the shadow ring in a second one, and the headers of the buffers
    in a map from addresses. *)
From stdpp Require Import base option list numbers gmap functions.
From S2P Require Import Prelude Rte VirtioRing Dma VirtioNetDesc Neon.

Local Open Scope Z_scope.

(** [VIRTIO_NET_DEQ_OFFLOAD_*] *)
Definition DEQ_CHECKSUM : Z := RTE_BIT64 0.
Definition DEQ_NOINOR : Z := RTE_BIT64 1.
Definition DEQ_GSO : Z := RTE_BIT64 2.

Definition VRING_DESC_F_NEXT : Z := 1.
Definition RTE_PKTMBUF_HEADROOM : Z := 128.

(** ** Buffers

    The fields of [struct rte_mbuf] the code uses. [rearm_data] is the 64-bit
    word of [data_off], [refcnt], [nb_segs] and [port]; [tx_offload] the word
    of the bit fields [l2_len] (7 bits), [l3_len] (9), [l4_len] (8) and
    [tso_segsz] (16). A null pointer is 0. *)
Record rte_mbuf := {
  data_off : Z;
  refcnt : Z;
  nb_segs : Z;
  port : Z;
  ol_flags : Z;
  packet_type : Z;
  pkt_len : Z;
  data_len : Z;
  vlan_tci : Z;
  hash_rss : Z;
  next : Z;
  tx_offload : Z;
}.

(** The store of [rearm_data]. *)
Definition set_rearm (x : Z) (m : rte_mbuf) : rte_mbuf :=
  {| data_off := u16 x; refcnt := u16 (Z.shiftr x 16); nb_segs := u16 (Z.shiftr x 32);
     port := u16 (Z.shiftr x 48); ol_flags := ol_flags m; packet_type := packet_type m;
     pkt_len := pkt_len m; data_len := data_len m; vlan_tci := vlan_tci m; hash_rss := hash_rss m;
     next := next m; tx_offload := tx_offload m |}.

(** The store of 16 bytes at [rx_descriptor_fields1]. *)
Definition set_rx_fields (b : u8x16) (m : rte_mbuf) : rte_mbuf :=
  {| data_off := data_off m; refcnt := refcnt m; nb_segs := nb_segs m; port := port m;
     ol_flags := ol_flags m; packet_type := of_le (take 4 b); pkt_len := of_le (take 4 (drop 4 b));
     data_len := of_le (take 2 (drop 8 b)); vlan_tci := of_le (take 2 (drop 10 b));
     hash_rss := of_le (take 4 (drop 12 b)); next := next m; tx_offload := tx_offload m |}.

Definition set_ol (f : Z) (m : rte_mbuf) : rte_mbuf :=
  {| data_off := data_off m; refcnt := refcnt m; nb_segs := nb_segs m; port := port m;
     ol_flags := f; packet_type := packet_type m; pkt_len := pkt_len m; data_len := data_len m;
     vlan_tci := vlan_tci m; hash_rss := hash_rss m; next := next m; tx_offload := tx_offload m |}.

Definition set_next (p : Z) (m : rte_mbuf) : rte_mbuf :=
  {| data_off := data_off m; refcnt := refcnt m; nb_segs := nb_segs m; port := port m;
     ol_flags := ol_flags m; packet_type := packet_type m; pkt_len := pkt_len m; data_len := data_len m;
     vlan_tci := vlan_tci m; hash_rss := hash_rss m; next := p; tx_offload := tx_offload m |}.

Definition set_lens (segs pl dl : Z) (m : rte_mbuf) : rte_mbuf :=
  {| data_off := data_off m; refcnt := refcnt m; nb_segs := u16 segs; port := port m;
     ol_flags := ol_flags m; packet_type := packet_type m; pkt_len := u32 pl; data_len := u16 dl;
     vlan_tci := vlan_tci m; hash_rss := hash_rss m; next := next m; tx_offload := tx_offload m |}.

Definition set_tx (t : Z) (m : rte_mbuf) : rte_mbuf :=
  {| data_off := data_off m; refcnt := refcnt m; nb_segs := nb_segs m; port := port m;
     ol_flags := ol_flags m; packet_type := packet_type m; pkt_len := pkt_len m; data_len := data_len m;
     vlan_tci := vlan_tci m; hash_rss := hash_rss m; next := next m; tx_offload := t |}.

(** Assignment to the bit field of [w] bits at bit [o] of a word. *)
Definition set_bits (o w x word : Z) : Z :=
  Z.lor (Z.land word (Z.lnot (Z.shiftl (Z.ones w) o))) (Z.shiftl (x mod 2 ^ w) o).

Definition get_bits (o w word : Z) : Z := Z.shiftr word o mod 2 ^ w.

Definition l2_len (m : rte_mbuf) : Z := get_bits 0 7 (tx_offload m).
Definition l3_len (m : rte_mbuf) : Z := get_bits 7 9 (tx_offload m).

(** [const uint64_t rearm_data] of both functions: one reference, one
    segment. *)
Definition rearm_data : Z := Z.lor 0x100010000 RTE_PKTMBUF_HEADROOM.

(** ** State *)

(** The fields of [struct virtio_net_queue] the worker uses and does not
    change, the pointers to its fields in the store, and [last_off]. *)
Record worker_queue := {
  wq_sd_desc_base : Z;
  wq_sz : Z;
  wq_data_off : Z;
  wq_buf_len : Z;
  wq_hdr_sz : Z;
  wq_mp : Z;
  wq_mbuf_arr : list Z;
  wq_sd_desc_off_p : Z;
  wq_sd_mbuf_off_p : Z;
  wq_pend_sd_mbuf_p : Z;
  wq_last_off : Z;
}.

Definition set_last_off (x : Z) (q : worker_queue) : worker_queue :=
  {| wq_sd_desc_base := wq_sd_desc_base q; wq_sz := wq_sz q; wq_data_off := wq_data_off q;
     wq_buf_len := wq_buf_len q; wq_hdr_sz := wq_hdr_sz q; wq_mp := wq_mp q;
     wq_mbuf_arr := wq_mbuf_arr q; wq_sd_desc_off_p := wq_sd_desc_off_p q;
     wq_sd_mbuf_off_p := wq_sd_mbuf_off_p q; wq_pend_sd_mbuf_p := wq_pend_sd_mbuf_p q;
     wq_last_off := x |}.

Notation mbufs := (gmap Z rte_mbuf).

(** What the worker changes: the cells, the words of the shadow ring, the
    headers of the buffers, the pool, the channel and the DMA device. *)
Record wstate (D P : Type) := {
  w_cells : store;
  w_words : store;
  w_mbufs : mbufs;
  w_pool : P;
  w_chan : dao_dma_vchan_state;
  w_dev : D;
}.
Arguments w_cells {_ _}. Arguments w_words {_ _}. Arguments w_mbufs {_ _}.
Arguments w_pool {_ _}. Arguments w_chan {_ _}. Arguments w_dev {_ _}.
Arguments Build_wstate {_ _}.

Definition put_cells {D P} (m : store) (s : wstate D P) :=
  Build_wstate m (w_words s) (w_mbufs s) (w_pool s) (w_chan s) (w_dev s).
Definition put_words {D P} (w : store) (s : wstate D P) :=
  Build_wstate (w_cells s) w (w_mbufs s) (w_pool s) (w_chan s) (w_dev s).
Definition put_mbufs {D P} (b : mbufs) (s : wstate D P) :=
  Build_wstate (w_cells s) (w_words s) b (w_pool s) (w_chan s) (w_dev s).
Definition put_pool {D P} (p : P) (s : wstate D P) :=
  Build_wstate (w_cells s) (w_words s) (w_mbufs s) p (w_chan s) (w_dev s).
Definition put_dma {D P} (v : dao_dma_vchan_state) (d : D) (s : wstate D P) :=
  Build_wstate (w_cells s) (w_words s) (w_mbufs s) (w_pool s) v d.

(** [*p] for a buffer pointer, and an update of its fields. *)
Definition mbuf_at (b : mbufs) (p : Z) : cres rte_mbuf :=
  match b !! p with Some m => Ret m | None => Fault end.

Definition mbuf_upd (p : Z) (f : rte_mbuf -> rte_mbuf) (b : mbufs) : cres mbufs :=
  m ← mbuf_at b p; Ret (<[p := f m]> b).

(** [vld1q_u64] of a descriptor of the shadow ring, [vst1q_u64] to one, and
    [vld1q_u64] of two buffer pointers. *)
Definition ld_desc (w : store) (base off : Z) : cres u64x2 :=
  a ← mload w (DESC_PTR_OFF base off 0);
  b ← mload w (DESC_PTR_OFF base off 8);
  Ret (V2 a b).

Definition st_desc (w : store) (base off : Z) (x : u64x2) : cres store :=
  w ← mstore w (DESC_PTR_OFF base off 0) (q0 x);
  mstore w (DESC_PTR_OFF base off 8) (q1 x).

Definition ld_ptrs (arr : list Z) (off : Z) : cres u64x2 :=
  a ← cget arr off; b ← cget arr (off + 1); Ret (V2 a b).

(** An element of [vsrc] or [vdst] as the DMA element it is stored as. *)
Definition as_sge (x : u64x2) : rte_dma_sge := {| sge_addr := q0 x; sge_length := u32 (q1 x) |}.

Definition F_AVAIL : Z := RTE_BIT64 55.
Definition F_USED : Z := RTE_BIT64 63.

(** ** fetch_host_data: vector loop *)

(** The byte selection that makes [rx_descriptor_fields1] of a descriptor:
    the low 16 bits of its length for [pkt_len] and [data_len], zero for the
    rest. *)
Definition shuf_msk : u8x16 :=
  [0xFF; 0xFF; 0xFF; 0xFF; 8; 9; 0xFF; 0xFF; 8; 9; 0xFF; 0xFF; 0xFF; 0xFF; 0xFF; 0xFF].

(** What the vector loop stores into one buffer. *)
Definition fetched_mbuf (hdr_sz : Z) (f : u8x16) (m : rte_mbuf) : rte_mbuf :=
  set_ol 0 (set_next 0 (set_ol 0 (set_rearm (u64 (rearm_data + hdr_sz)) (set_rx_fields f m)))).

(** The state of the variables the loops of [fetch_host_data] share; [used]
    is always [i]. [mbuf1] is [None] while it has no value. *)
Record fetch_vars := { fv_i : Z; fv_off : Z; fv_last_idx : Z; fv_mbuf1 : option Z }.

Section fetch_host.
Context (DAO_DMA_STATS : bool).
Context {D P : Type} `{RteDma D} `{BufAlloc P}.
Notation st := (wstate D P).

(** [if (flags & VIRTIO_NET_DEQ_OFFLOAD_NOINOR)] of the vector loop: copy the
    AVAIL bits of four descriptors to USED. Gives the four descriptors the
    code goes on with. *)
Definition mark_used_x4 (base off : Z) (desc0 desc1 desc2 desc3 : u64x2) (w : store)
  : cres (u64x2 * u64x2 * u64x2 * u64x2 * store) :=
  let buf01 := vzip1q_u64 desc0 desc1 in
  let buf23 := vzip1q_u64 desc2 desc3 in
  let flags01 := vzip2q_u64 desc0 desc1 in
  let flags23 := vzip2q_u64 desc2 desc3 in
  let xflags := vdupq_n_u64 (u64 (Z.lnot F_USED)) in
  let xflags2 := vdupq_n_u64 F_AVAIL in
  let flags01 := vandq_u64 flags01 xflags in
  let flags23 := vandq_u64 flags23 xflags in
  let xtmp0 := vshlq_n_u64 (vandq_u64 flags01 xflags2) 8 in
  let xtmp1 := vshlq_n_u64 (vandq_u64 flags23 xflags2) 8 in
  let flags01 := vorrq_u64 flags01 xtmp0 in
  let flags23 := vorrq_u64 flags23 xtmp1 in
  let desc0 := vzip1q_u64 buf01 flags01 in
  let desc1 := vzip2q_u64 buf01 flags01 in
  let desc2 := vzip1q_u64 buf23 flags23 in
  let desc3 := vzip2q_u64 buf23 flags23 in
  w ← st_desc w base off desc0;
  w ← st_desc w base (off + 1) desc1;
  w ← st_desc w base (off + 2) desc2;
  w ← st_desc w base (off + 3) desc3;
  Ret (desc0, desc1, desc2, desc3, w).

(** [nb_enq]: how many elements four descriptors need at least, two for one
    longer than a buffer. *)
Definition x4_elements (len01 len23 : u64x2) (buf_len : Z) : Z :=
  let vbuf_len := V4 buf_len 0 buf_len 0 in
  let xlen := vcgtq_u32 (as_u32 len01) vbuf_len in
  let ylen := vcgtq_u32 (as_u32 len23) vbuf_len in
  let xlen := vuzp1q_u32 xlen ylen in
  let n x := if x =? 0 then 1 else 2 in
  n (s0 xlen) + n (s1 xlen) + n (s2 xlen) + n (s3 xlen).

(** One turn of [for (i = 0; i < count; )]; [None] is a [break] before
    anything was done, otherwise the number of descriptors taken. *)
Definition fetch_x4 (q : worker_queue) (flags off : Z) (s : st) : cres (option (Z * Z * st)) :=
  if wq_sz q <=? off + 3 then Ret None
  else
    let base := wq_sd_desc_base q in
    desc0 ← ld_desc (w_words s) base off;
    desc1 ← ld_desc (w_words s) base (off + 1);
    desc2 ← ld_desc (w_words s) base (off + 2);
    desc3 ← ld_desc (w_words s) base (off + 3);
    let buf01 := vzip1q_u64 desc0 desc1 in
    let buf23 := vzip1q_u64 desc2 desc3 in
    let len01 := vzip2q_u64 desc0 desc1 in
    let len23 := vzip2q_u64 desc2 desc3 in
    if 4 <? x4_elements len01 len23 (wq_buf_len q) then Ret None
    else
      mbuf01 ← ld_ptrs (wq_mbuf_arr q) off;
      mbuf23 ← ld_ptrs (wq_mbuf_arr q) (off + 2);
      '(desc0, desc1, desc2, desc3, w) ←
        (if has_flag flags DEQ_NOINOR then mark_used_x4 base off desc0 desc1 desc2 desc3 (w_words s)
         else Ret (desc0, desc1, desc2, desc3, w_words s));
      let vbuf_len := V4 (wq_buf_len q) 0 (wq_buf_len q) 0 in
      let len01 := as_u64 (vminq_u32 (as_u32 len01) vbuf_len) in
      let len23 := as_u64 (vminq_u32 (as_u32 len23) vbuf_len) in
      let vsrc := [vzip1q_u64 buf01 len01; vzip2q_u64 buf01 len01;
                   vzip1q_u64 buf23 len23; vzip2q_u64 buf23 len23] in
      let doff := vdupq_n_u64 (wq_data_off q) in
      let data01 := vaddq_u64 mbuf01 doff in
      let data23 := vaddq_u64 mbuf23 doff in
      let vdst := [vzip1q_u64 data01 len01; vzip2q_u64 data01 len01;
                   vzip1q_u64 data23 len23; vzip2q_u64 data23 len23] in
      let hoff := V2 0 (wq_hdr_sz q) in
      let f d := vqtbl1q_u8 (u64_as_u8 (vsubq_u64 d hoff)) shuf_msk in
      let fill := fun d => fetched_mbuf (wq_hdr_sz q) (f d) in
      b ← mbuf_upd (q0 mbuf01) (fill desc0) (w_mbufs s);
      b ← mbuf_upd (q1 mbuf01) (fill desc1) b;
      b ← mbuf_upd (q0 mbuf23) (fill desc2) b;
      b ← mbuf_upd (q1 mbuf23) (fill desc3) b;
      '(nb_enq, v, d) ← dao_dma_enq_x4 DAO_DMA_STATS (w_chan s) (as_sge <$> vsrc) (as_sge <$> vdst) (w_dev s);
      Ret (Some (nb_enq, q1 mbuf01, put_dma v d (put_mbufs b (put_words w s)))).

(** The loop: [n] turns are left. *)
Fixpoint fetch_x4_loop (n : nat) (q : worker_queue) (flags : Z) (fv : fetch_vars) (s : st)
  : cres (fetch_vars * st) :=
  match n with
  | O => Ret (fv, s)
  | S n =>
      o ← fetch_x4 q flags (fv_off fv) s;
      match o with
      | None => Ret (fv, s)
      | Some (nb_enq, mbuf1, s) =>
          let fv := {| fv_i := fv_i fv + nb_enq;
                       fv_off := u16 (Z.land (fv_off fv + nb_enq) (wq_sz q - 1));
                       fv_last_idx := tail (w_chan s); fv_mbuf1 := Some mbuf1 |} in
          if negb (nb_enq =? 4) then Ret (fv, s) else fetch_x4_loop n q flags fv s
      end
  end.

(** ** fetch_host_data: scalar loop *)

(** [rte_mempool_get(q->mp, &mbuf1)]; the return value is not looked at, and a
    failure leaves [mbuf1] as it is. *)
Definition get_mbuf1 (q : worker_queue) (mbuf1 : option Z) (p : P) : option Z * P :=
  match rte_mempool_get_bulk (wq_mp q) 1 p with
  | (Some l, p) => (l !! 0%nat, p)
  | (None, p) => (mbuf1, p)
  end.

(** [while (pend)]: buffers for the rest of a descriptor longer than one.
    Each turn fills a cell of [dst], an array of [DAO_DMA_MAX_POINTER] cells. *)
Fixpoint fetch_segs (fuel : nat) (q : worker_queue) (mbuf0 mbuf pend : Z) (mbuf1 : option Z) (s : st)
  : cres (option Z * st) :=
  if pend =? 0 then Ret (mbuf1, s)
  else
    match fuel with
    | O => Fault
    | S fuel =>
        let '(mbuf1, p) := get_mbuf1 q mbuf1 (w_pool s) in
        match mbuf1 with
        | None => Fault
        | Some m1 =>
            b ← mbuf_upd m1 (set_rearm rearm_data) (w_mbufs s);
            let dlen := if wq_buf_len q <? pend then wq_buf_len q else pend in
            b ← mbuf_upd mbuf (set_next m1) b;
            b ← mbuf_upd m1 (fun m => set_ol 0 (set_next 0 (set_lens (nb_segs m) (pkt_len m) dlen m))) b;
            b ← mbuf_upd mbuf0 (fun m => set_lens (nb_segs m + 1) (pkt_len m) (data_len m) m) b;
            v ← dao_dma_enq_dst_x1 (w_chan s) (u64 (m1 + wq_data_off q)) dlen;
            fetch_segs fuel q mbuf0 m1 (pend - dlen) (Some m1)
              (put_dma v (w_dev s) (put_pool p (put_mbufs b s)))
        end
    end.

Definition SEG_FUEL : nat := Z.to_nat (DAO_DMA_MAX_POINTER + 1).

(** The body of [while (i < nb_mbufs)] up to the flush. *)
Definition fetch_x1 (q : worker_queue) (flags off : Z) (mbuf1 : option Z) (s : st)
  : cres (Z * option Z * st) :=
  let base := wq_sd_desc_base q in
  mbuf ← cget (wq_mbuf_arr q) off;
  d_flags ← mload (w_words s) (DESC_PTR_OFF base off 8);
  let slen := Z.land d_flags (u64 (RTE_BIT64 32 - 1)) in
  w ← (if has_flag flags DEQ_NOINOR then
         let avail := b2z (negb (Z.land d_flags F_AVAIL =? 0)) in
         let d := Z.land d_flags (u64 (Z.lnot (Z.lor F_AVAIL F_USED))) in
         mstore (w_words s) (DESC_PTR_OFF base off 8)
           (Z.lor (Z.lor (u64 (Z.shiftl avail 55)) (u64 (Z.shiftl avail 63))) d)
       else Ret (w_words s));
  let pend := if wq_buf_len q <? slen then u32 (slen - wq_buf_len q) else 0 in
  let dlen := if wq_buf_len q <? slen then wq_buf_len q else slen in
  addr ← mload w (DESC_PTR_OFF base off 0);
  v ← dao_dma_enq_x1 (w_chan s) addr slen (u64 (mbuf + wq_data_off q)) dlen;
  b ← mbuf_upd mbuf (fun m =>
        set_ol 0 (set_next 0 (set_lens (nb_segs (set_rearm (u64 (rearm_data + wq_hdr_sz q)) m))
          (slen - wq_hdr_sz q) (dlen - wq_hdr_sz q)
          (set_rearm (u64 (rearm_data + wq_hdr_sz q)) m)))) (w_mbufs s);
  '(mbuf1, s) ← fetch_segs SEG_FUEL q mbuf mbuf pend mbuf1 (put_dma v (w_dev s) (put_mbufs b (put_words w s)));
  Ret (mbuf, mbuf1, s).

Definition ws_flush (avail : Z) (s : st) : bool * st :=
  let '(ok, v, d) := dao_dma_flush DAO_DMA_STATS (w_chan s) avail (w_dev s) in (ok, put_dma v d s).

(** The loop: [n = nb_mbufs - i] turns are left. *)
Fixpoint fetch_x1_loop (n : nat) (q : worker_queue) (flags : Z) (fv : fetch_vars) (s : st)
  : cres (fetch_vars * st) :=
  match n with
  | O => Ret (fv, s)
  | S n =>
      '(mbuf0, mbuf1, s) ← fetch_x1 q flags (fv_off fv) (fv_mbuf1 fv) s;
      let fv := {| fv_i := fv_i fv + 1; fv_off := u16 (Z.land (fv_off fv + 1) (wq_sz q - 1));
                   fv_last_idx := tail (w_chan s); fv_mbuf1 := mbuf1 |} in
      m0 ← mbuf_at (w_mbufs s) mbuf0;
      let '(ok, s) := ws_flush (nb_segs m0) s in
      if negb ok then Ret (fv, s) else fetch_x1_loop n q flags fv s
  end.

(** [exit:] *)
Definition fetch_exit (q : worker_queue) (fv : fetch_vars) (s : st) : cres st :=
  let used := u16 (fv_i fv) in
  if used =? 0 then Ret s
  else
    off ← mload (w_cells s) (wq_sd_mbuf_off_p q);
    pend ← mload (w_cells s) (wq_pend_sd_mbuf_p q);
    let mbuf_off := desc_off_add off (u16 (used + pend)) (wq_sz q) in
    m ← mstore (w_cells s) (wq_pend_sd_mbuf_p q) (u16 (pend + used));
    v ← dao_dma_update_cmpl_meta (w_chan s) (wq_sd_mbuf_off_p q) mbuf_off (wq_pend_sd_mbuf_p q) used
          (fv_last_idx fv);
    Ret (put_dma v (w_dev s) (put_cells m s)).

Definition fetch_host_data (q : worker_queue) (hint flags : Z) (s : st) : cres (Z * st) :=
  sd_mbuf_off ← mload (w_cells s) (wq_sd_mbuf_off_p q);
  sd_desc_off ← mload (w_cells s) (wq_sd_desc_off_p q);
  if sd_desc_off =? sd_mbuf_off then Ret (sd_mbuf_off, s)
  else
    pend ← mload (w_cells s) (wq_pend_sd_mbuf_p q);
    let nb := u32 (desc_off_diff sd_desc_off sd_mbuf_off (wq_sz q) - pend) in
    if nb =? 0 then Ret (sd_mbuf_off, s)
    else
      let nb := RTE_MIN nb hint in
      let off := desc_off_add sd_mbuf_off pend (wq_sz q) in
      let off := u16 (DESC_OFF off) in
      let '(ok, s) := ws_flush 1 s in
      if negb ok then Ret (sd_mbuf_off, s)
      else
        '(fv, s) ← fetch_x4_loop (Z.to_nat (nb / 4)) q flags
                     {| fv_i := 0; fv_off := off; fv_last_idx := 0; fv_mbuf1 := None |} s;
        let '(ok, s) := ws_flush 1 s in
        if negb ok then s ← fetch_exit q fv s; Ret (sd_mbuf_off, s)
        else
          '(fv, s) ← fetch_x1_loop (Z.to_nat (nb - fv_i fv)) q flags fv s;
          s ← fetch_exit q fv s;
          Ret (sd_mbuf_off, s).
End fetch_host.

(** ** post_process_pkts *)

(** The flags of [rte_mbuf.h] that request checksums and segmentation. *)
Definition RTE_MBUF_F_TX_TCP_SEG : Z := RTE_BIT64 50.
Definition RTE_MBUF_F_TX_TCP_CKSUM : Z := RTE_BIT64 52.
Definition RTE_MBUF_F_TX_UDP_CKSUM : Z := Z.lor (RTE_BIT64 52) (RTE_BIT64 53).
Definition RTE_MBUF_F_TX_IP_CKSUM : Z := RTE_BIT64 54.
Definition RTE_MBUF_F_TX_IPV4 : Z := RTE_BIT64 55.
Definition RTE_MBUF_F_TX_IPV6 : Z := RTE_BIT64 56.

Definition TX_OFFLOAD_SHIFT : Z := 52.
Definition TX_IPV4_UDP_OFFLOAD : Z :=
  Z.lor (Z.lor RTE_MBUF_F_TX_IP_CKSUM RTE_MBUF_F_TX_IPV4) RTE_MBUF_F_TX_UDP_CKSUM.
Definition TX_IPV4_TCP_OFFLOAD : Z :=
  Z.lor (Z.lor RTE_MBUF_F_TX_IP_CKSUM RTE_MBUF_F_TX_IPV4) RTE_MBUF_F_TX_TCP_CKSUM.
Definition TX_IPV4_TCP_GSO_OFFLOAD : Z :=
  Z.lor (Z.lor (Z.lor RTE_MBUF_F_TX_IP_CKSUM RTE_MBUF_F_TX_IPV4) RTE_MBUF_F_TX_TCP_CKSUM) RTE_MBUF_F_TX_TCP_SEG.
Definition TX_IPV6_TCP_GSO_OFFLOAD : Z :=
  Z.lor (Z.lor (Z.lor RTE_MBUF_F_TX_IP_CKSUM RTE_MBUF_F_TX_IPV6) RTE_MBUF_F_TX_TCP_CKSUM) RTE_MBUF_F_TX_TCP_SEG.

(** [const uint8x16_t tbl] *)
Definition olflags_tbl : u8x16 :=
  [0; 0; 0; 0; 0; Z.shiftr TX_IPV4_UDP_OFFLOAD TX_OFFLOAD_SHIFT; 0; 0; 0; 0;
   0; 0; 0; 0; 0; Z.shiftr TX_IPV4_TCP_OFFLOAD TX_OFFLOAD_SHIFT].

Definition VIRTIO_NET_HDR_GSO_NONE : Z := 0.
Definition VIRTIO_NET_HDR_GSO_TCPV4 : Z := 1.
Definition VIRTIO_NET_HDR_GSO_TCPV6 : Z := 4.

(** Running a computation that may not end: [None] when its fuel ran out. *)
Definition obind {A B} (m : cres (option A)) (f : A -> cres (option B)) : cres (option B) :=
  o ← m; match o with Some a => f a | None => Ret None end.
Notation "x '⇐' m ; k" := (obind m (fun x => k)) (at level 20, m at level 100, k at level 200, only parsing).

Section post_process.
(** The 32-bit words of the packet data, by address. *)
Context (mem32 : Z -> Z).

(** [struct virtio_net_hdr] at an address, as the vector the code loads. *)
Definition ld_hdr (a : Z) : u32x4 := V4 (mem32 a) (mem32 (a + 4)) (mem32 (a + 8)) (mem32 (a + 12)).

Definition hdr_gso_type (a : Z) : Z := u8 (Z.shiftr (mem32 a) 8).
Definition hdr_hdr_len (a : Z) : Z := Z.shiftr (mem32 a) 16.
Definition hdr_gso_size (a : Z) : Z := u16 (mem32 (a + 4)).
Definition hdr_csum_start (a : Z) : Z := Z.shiftr (mem32 (a + 4)) 16.
Definition hdr_csum_offset (a : Z) : Z := u16 (mem32 (a + 8)).

(** The part of the vector loop between the test for segmentation and
    [skip_csum]: [ol_flags] and [tx_offload] of four packets. *)
Definition csum_x4 (hdr0 hdr1 hdr2 hdr3 : u32x4) : u32x4 * u32x4 :=
  let d0 := vtrn1q_u32 hdr0 hdr1 in
  let d1 := vtrn1q_u32 hdr2 hdr3 in
  let csum_off := vzip2q_u32 d0 d1 in
  let csum_off := vandq_u32 csum_off (vdupq_n_u32 0xFFFF) in
  let csum_off := vsubq_u32 csum_off (vdupq_n_u32 1) in
  let olflags := u8_as_u32 (vqtbl1q_u8 olflags_tbl (u32_as_u8 csum_off)) in
  let d0 := vtrn2q_u32 hdr0 hdr1 in
  let d1 := vtrn2q_u32 hdr2 hdr3 in
  let tx_offload := vzip1q_u32 d0 d1 in
  let tx_offload := vshrq_n_u32 tx_offload 16 in
  let tx_offload := vsubq_u32 tx_offload (vdupq_n_u32 20) in
  let len_mask := vcltq_u32 tx_offload (vdupq_n_u32 0x3F) in
  let tx_offload := vandq_u32 tx_offload len_mask in
  let tx_offload := vorrq_u32 tx_offload (vdupq_n_u32 0xA00) in
  (olflags, tx_offload).

Definition set_csum (ol tx : Z) (m : rte_mbuf) : rte_mbuf :=
  set_tx tx (set_ol (u64 (Z.shiftl ol TX_OFFLOAD_SHIFT)) m).

(** One turn of the vector loop, [None] for a [break]. *)
Definition post_x4 (q : worker_queue) (flags last_off : Z) (w : store) (b : mbufs)
  : cres (option (list Z * mbufs)) :=
  if wq_sz q <=? last_off + 3 then Ret None
  else
    let base := wq_sd_desc_base q in
    desc0 ← ld_desc w base last_off;
    desc1 ← ld_desc w base (last_off + 1);
    desc2 ← ld_desc w base (last_off + 2);
    desc3 ← ld_desc w base (last_off + 3);
    let flags01 := vzip2q_u64 desc0 desc1 in
    let flags23 := vzip2q_u64 desc2 desc3 in
    let flags01 := as_u64 (vtrn2q_u32 (as_u32 flags01) (as_u32 flags23)) in
    let flags01 := vandq_u64 flags01 (vdupq_n_u64 0x0001000000010000) in
    let flags01 := vceqzq_u64 flags01 in
    if (q0 flags01 =? 0) || (q1 flags01 =? 0) then Ret None
    else
      mbuf01 ← ld_ptrs (wq_mbuf_arr q) last_off;
      mbuf23 ← ld_ptrs (wq_mbuf_arr q) (last_off + 2);
      let out := [q0 mbuf01; q1 mbuf01; q0 mbuf23; q1 mbuf23] in
      if negb (has_flag flags DEQ_CHECKSUM) then Ret (Some (out, b))
      else
        let doff := vdupq_n_u64 (wq_data_off q) in
        let hdr01 := vaddq_u64 mbuf01 doff in
        let hdr23 := vaddq_u64 mbuf23 doff in
        let hdr0 := ld_hdr (q0 hdr01) in
        let hdr1 := ld_hdr (q1 hdr01) in
        let hdr2 := ld_hdr (q0 hdr23) in
        let hdr3 := ld_hdr (q1 hdr23) in
        let gso h := negb (Z.land (s0 h) 0xFF00 =? 0) in
        if has_flag flags DEQ_GSO && (gso hdr0 || gso hdr1 || gso hdr2 || gso hdr3) then Ret None
        else
          let '(olflags, tx_offload) := csum_x4 hdr0 hdr1 hdr2 hdr3 in
          b ← mbuf_upd (q0 mbuf01) (set_csum (s0 olflags) (s0 tx_offload)) b;
          b ← mbuf_upd (q1 mbuf01) (set_csum (s1 olflags) (s1 tx_offload)) b;
          b ← mbuf_upd (q0 mbuf23) (set_csum (s2 olflags) (s2 tx_offload)) b;
          b ← mbuf_upd (q1 mbuf23) (set_csum (s3 olflags) (s3 tx_offload)) b;
          Ret (Some (out, b)).

Fixpoint post_x4_loop (n : nat) (q : worker_queue) (flags i last_off : Z) (out : list Z) (w : store) (b : mbufs)
  : cres (Z * Z * list Z * mbufs) :=
  match n with
  | O => Ret (i, last_off, out, b)
  | S n =>
      o ← post_x4 q flags last_off w b;
      match o with
      | None => Ret (i, last_off, out, b)
      | Some (l, b) =>
          post_x4_loop n q flags (i + 4) (u16 (Z.land (last_off + 4) (wq_sz q - 1))) (out ++ l) w b
      end
  end.

(** [VRING_DESC_F_NEXT] of the flags of a descriptor. *)
Definition desc_next (w : store) (base off : Z) : cres Z :=
  x ← mload w (DESC_PTR_OFF base off 8); Ret (Z.land (Z.shiftr x 48) VRING_DESC_F_NEXT).

(** [while (dflags)]: the descriptors of a packet after its first. *)
Fixpoint count_segs (fuel : nat) (q : worker_queue) (w : store) (off dflags segs : Z) : cres (option Z) :=
  if dflags =? 0 then Ret (Some segs)
  else
    match fuel with
    | O => Ret None
    | S fuel =>
        let off := u16 (Z.land (off + 1) (wq_sz q - 1)) in
        dflags ← desc_next w (wq_sd_desc_base q) off;
        count_segs fuel q w off dflags (u16 (segs + 1))
    end.

(** [while (mbuf1->next) mbuf1 = mbuf1->next;] *)
Fixpoint last_seg (fuel : nat) (b : mbufs) (mbuf1 : Z) : cres (option Z) :=
  m ← mbuf_at b mbuf1;
  if next m =? 0 then Ret (Some mbuf1)
  else match fuel with O => Ret None | S fuel => last_seg fuel b (next m) end.

(** [while (segs)]: append the buffer of the next descriptor to the packet. *)
Fixpoint chain_segs (n fuel : nat) (q : worker_queue) (mbuf0 mbuf1 last_off : Z) (b : mbufs)
  : cres (option (Z * mbufs)) :=
  match n with
  | O => Ret (Some (last_off, b))
  | S n =>
      mbuf1 ⇐ last_seg fuel b mbuf1;
      let last_off := u16 (Z.land (last_off + 1) (wq_sz q - 1)) in
      mbuf2 ← cget (wq_mbuf_arr q) last_off;
      b ← mbuf_upd mbuf1 (set_next mbuf2) b;
      b ← mbuf_upd mbuf2 (fun m => set_lens (nb_segs m) (pkt_len m + wq_hdr_sz q) (data_len m + wq_hdr_sz q) m) b;
      m2 ← mbuf_at b mbuf2;
      b ← mbuf_upd mbuf0 (fun m => set_lens (nb_segs m + nb_segs m2) (pkt_len m + pkt_len m2) (data_len m) m) b;
      b ← mbuf_upd mbuf2 (set_rearm rearm_data) b;
      chain_segs n fuel q mbuf0 mbuf2 last_off b
  end.

(** [if (flags & VIRTIO_NET_DEQ_OFFLOAD_CHECKSUM)] of the scalar loop: the
    request of the header at [a]. *)
Definition csum_x1 (flags a : Z) (m : rte_mbuf) : rte_mbuf :=
  let csum_start := hdr_csum_start a in
  let csum_offset := hdr_csum_offset a in
  if (csum_start =? 0) || (csum_offset =? 0) then m
  else
    let ol := if csum_offset =? 6 then TX_IPV4_UDP_OFFLOAD else TX_IPV4_TCP_OFFLOAD in
    let gso := has_flag flags DEQ_GSO && negb (hdr_gso_type a =? VIRTIO_NET_HDR_GSO_NONE) in
    let tx := if gso then set_bits 16 8 (hdr_hdr_len a - csum_start) (set_bits 24 16 (hdr_gso_size a) (tx_offload m))
              else tx_offload m in
    let '(ol, l3) :=
      if gso && (hdr_gso_type a =? VIRTIO_NET_HDR_GSO_TCPV4) then (TX_IPV4_TCP_GSO_OFFLOAD, 20)
      else if gso && (hdr_gso_type a =? VIRTIO_NET_HDR_GSO_TCPV6) then (TX_IPV6_TCP_GSO_OFFLOAD, 40)
      else (ol, 20) in
    set_ol (Z.lor (ol_flags m) ol) (set_tx (set_bits 0 7 (csum_start - l3) (set_bits 7 9 l3 tx)) m).

(** [while (i < total_mbufs)]; every turn takes a descriptor, so [n] turns do
    when [n] is at least [total - i]. *)
Fixpoint post_x1_loop (n fuel : nat) (q : worker_queue) (flags total i last_off : Z) (out : list Z)
    (w : store) (b : mbufs) : cres (option (Z * list Z * mbufs)) :=
  if total <=? i then Ret (Some (i, out, b))
  else
    match n with
    | O => Ret None
    | S n =>
        mbuf0 ← cget (wq_mbuf_arr q) last_off;
        dflags ← desc_next w (wq_sd_desc_base q) last_off;
        segs ⇐ count_segs fuel q w last_off dflags 0;
        if total <=? i + segs then Ret (Some (i, out, b))
        else
          r ⇐ chain_segs (Z.to_nat segs) fuel q mbuf0 mbuf0 last_off b;
          let '(last_off, b) := r in
          b ← (if has_flag flags DEQ_CHECKSUM
               then mbuf_upd mbuf0 (csum_x1 flags (u64 (mbuf0 + wq_data_off q))) b else Ret b);
          post_x1_loop n fuel q flags total (i + segs + 1) (u16 (Z.land (last_off + 1) (wq_sz q - 1)))
            (out ++ [mbuf0]) w b
    end.

(** Gives [*nb_mbufs], the number of descriptors consumed, the packets stored
    to [d_mbufs], and the buffers. *)
Definition post_process_pkts (fuel : nat) (q : worker_queue) (total flags : Z) (w : store) (b : mbufs)
  : cres (option (Z * list Z * mbufs)) :=
  '(i, last_off, out, b) ←
    post_x4_loop (Z.to_nat (total / 4)) q flags 0 (u16 (DESC_OFF (wq_last_off q))) [] w b;
  post_x1_loop (Z.to_nat (total - i)) fuel q flags total i last_off out w b.

(** ** virtio_net_deq *)
Section deq.
Context (DAO_DMA_STATS : bool).
Context {D P : Type} `{RteDma D} `{BufAlloc P}.

(** Gives the packets, as many as the return value says. *)
Definition virtio_net_deq (fuel : nat) (q : worker_queue) (nb_mbufs flags : Z) (s : wstate D P)
  : cres (option (list Z * worker_queue * wstate D P)) :=
  '(v, d, m) ← dao_dma_check_meta_compl (w_chan s) (w_dev s) (w_cells s);
  '(sd_mbuf_off, s) ← fetch_host_data DAO_DMA_STATS q 128 flags (put_dma v d (put_cells m s));
  let nb_avail := u16 (desc_off_diff sd_mbuf_off (wq_last_off q) (wq_sz q)) in
  if nb_avail =? 0 then Ret (Some ([], q, s))
  else
    r ⇐ post_process_pkts fuel q (RTE_MIN nb_mbufs nb_avail) flags (w_words s) (w_mbufs s);
    let '(count, out, b) := r in
    Ret (Some (out, set_last_off (desc_off_add (wq_last_off q) count (wq_sz q)) q, put_mbufs b s)).
End deq.
End post_process.

(** ** virtio_net_flush_deq: the queue goes away *)
Definition virtio_net_flush_deq (q : worker_queue) (m : store) : cres (list free_call * store) :=
  pend ← mload m (wq_pend_sd_mbuf_p q);
  sd_mbuf_off ← mload m (wq_sd_mbuf_off_p q);
  sd_desc_off ← mload m (wq_sd_desc_off_p q);
  if (pend =? 0) || (sd_desc_off =? sd_mbuf_off) then Ret ([], m)
  else
    let sd_mbuf_off := desc_off_add sd_mbuf_off pend (wq_sz q) in
    m ← mstore m (wq_sd_mbuf_off_p q) sd_mbuf_off;
    m ← mstore m (wq_pend_sd_mbuf_p q) 0;
    let nb_avail := desc_off_diff_no_wrap sd_mbuf_off (wq_last_off q) (wq_sz q) in
    if nb_avail =? 0 then Ret ([], m)
    else
      l1 ← read_seg (wq_mbuf_arr q) (DESC_OFF (wq_last_off q)) nb_avail;
      let last_off := desc_off_add (wq_last_off q) nb_avail (wq_sz q) in
      let nb_avail := u32 (sd_mbuf_off - last_off) in
      if nb_avail =? 0 then Ret ([pktmbuf_free_bulk l1], m)
      else
        l2 ← read_seg (wq_mbuf_arr q) (DESC_OFF last_off) nb_avail;
        Ret ([pktmbuf_free_bulk l1; pktmbuf_free_bulk l2], m).

(** ** Words of descriptors *)

(** The length of a descriptor, and the word with USED made equal to AVAIL. *)
Definition desc_len (x : Z) : Z := Z.land x 0xFFFFFFFF.
Definition used_word (x : Z) : Z :=
  Z.lor (Z.land x (u64 (Z.lnot F_USED))) (u64 (Z.shiftl (Z.land (Z.land x (u64 (Z.lnot F_USED))) F_AVAIL) 8)).

Lemma used_word_spec x i : is_u64 x -> 0 <= i ->
  Z.testbit (used_word x) i = if i =? 63 then Z.testbit x 55 else Z.testbit x i.
Proof.
  intros Hx Hi. unfold used_word, F_USED, F_AVAIL.
  rewrite Z.lor_spec, !Z.land_spec, !u64_testbit, Z.lnot_spec, testbit_RTE_BIT64 by lia.
  rewrite Z.shiftl_spec by done.
  destruct (Z.eqb_spec i 63) as [->|Hne].
  - rewrite bool_decide_true by done. rewrite Z.land_spec, Z.land_spec, testbit_RTE_BIT64, u64_testbit by lia.
    rewrite Z.lnot_spec, testbit_RTE_BIT64 by lia. cbn. by rewrite !andb_true_r, andb_false_r.
  - rewrite (bool_decide_false (63 = i)) by lia. cbn.
    destruct (decide (i < 64)).
    + rewrite (proj2 (Z.ltb_lt i 64)) by done. cbn. rewrite andb_true_r.
      destruct (decide (i < 8)); [rewrite (Z.testbit_neg_r _ (i - 8)) by lia; apply orb_false_r|].
      rewrite !Z.land_spec, testbit_RTE_BIT64, bool_decide_false by lia. by rewrite andb_false_r, orb_false_r.
    + rewrite (proj2 (Z.ltb_ge i 64)) by lia. cbn. rewrite andb_false_r, orb_false_r.
      symmetry. apply (testbit_small x 64); [by apply u64_pow2|lia].
Qed.

Lemma used_word_u64 x : is_u64 x -> is_u64 (used_word x).
Proof.
  intros Hx. apply u64_pow2. split.
  - apply Z.lor_nonneg. split; [apply Z.land_nonneg; left; unfold is_u64 in Hx; lia|].
    pose proof (u64_bound (Z.shiftl (Z.land (Z.land x (u64 (Z.lnot F_USED))) F_AVAIL) 8)) as Hb. unfold is_u64 in Hb. lia.
  - assert (used_word x = used_word x mod 2 ^ 64) as ->; [|by apply Z.mod_pos_bound].
    apply Z.bits_inj'. intros i Hi. destruct (decide (i < 64)).
    + by rewrite Z.mod_pow2_bits_low.
    + rewrite Z.mod_pow2_bits_high by lia. rewrite used_word_spec by done.
      rewrite (proj2 (Z.eqb_neq i 63)) by lia. apply (testbit_small x 64); [by apply u64_pow2|lia].
Qed.

(** The scalar loop computes the same word. *)
Lemma used_word_scalar x : is_u64 x ->
  Z.lor (Z.lor (u64 (Z.shiftl (b2z (negb (Z.land x F_AVAIL =? 0))) 55))
               (u64 (Z.shiftl (b2z (negb (Z.land x F_AVAIL =? 0))) 63)))
    (Z.land x (u64 (Z.lnot (Z.lor F_AVAIL F_USED)))) = used_word x.
Proof.
  intros Hx. apply Z.bits_inj'. intros i Hi. rewrite used_word_spec by done.
  unfold F_AVAIL, F_USED. rewrite (land_RTE_BIT64 x 55), negb_involutive by lia.
  rewrite !Z.lor_spec, Z.land_spec, !u64_testbit, Z.lnot_spec, Z.lor_spec, !testbit_RTE_BIT64 by lia.
  destruct (Z.testbit x 55) eqn:E55; cbn [b2z].
  - rewrite !Z.shiftl_1_l, !testbit_pow2 by lia. repeat case_bool_decide; subst; try lia.
    + by rewrite E55.
    + done.
    + cbn. rewrite !andb_false_r. cbn.
      rewrite (proj2 (Z.eqb_neq i 63)) by lia. destruct (i <? 64) eqn:E; [by rewrite andb_true_r|].
      reflect_bool. symmetry. rewrite andb_false_r. apply (testbit_small x 64); [by apply u64_pow2|lia].
  - rewrite !Z.shiftl_0_l, Z.bits_0. repeat case_bool_decide; subst; try lia.
    + by rewrite E55.
    + by rewrite !andb_false_r.
    + cbn. rewrite andb_false_r. cbn.
      rewrite (proj2 (Z.eqb_neq i 63)) by lia. destruct (i <? 64) eqn:E; [by rewrite andb_true_r|].
      reflect_bool. symmetry. rewrite andb_false_r. apply (testbit_small x 64); [by apply u64_pow2|lia].
Qed.

Lemma used_word_len x : is_u64 x -> desc_len (used_word x) = desc_len x.
Proof.
  intros Hx. unfold desc_len. apply Z.bits_inj'. intros i Hi. rewrite !Z.land_spec, used_word_spec by done.
  destruct (Z.eqb_spec i 63) as [->|]; [|done]. change (Z.testbit 0xFFFFFFFF 63) with false. by rewrite !andb_false_r.
Qed.

Lemma used_word_idem x : is_u64 x -> used_word (used_word x) = used_word x.
Proof.
  intros Hx. apply Z.bits_inj'. intros i Hi. rewrite used_word_spec by (done || by apply used_word_u64).
  destruct (Z.eqb_spec i 63) as [->|]; [|done]. by rewrite !used_word_spec.
Qed.

Lemma desc_len_u32 x : desc_len x = u32 x.
Proof. unfold desc_len. by rewrite u32_land. Qed.

Lemma mload_ret (m : store) p x : m !! p = Some x -> mload m p = Ret x.
Proof. intros E. unfold mload. by rewrite E. Qed.

Lemma mstore_ret (m : store) p x y : m !! p = Some x -> mstore m p y = Ret (<[p := y]> m).
Proof. intros E. unfold mstore. by rewrite E. Qed.

(** ** The ring of a queue

    Positions are counted without wrapping: descriptor [c] is at position
    [c mod wq_sz q]. *)
Definition desc_pos (q : worker_queue) (c : Z) : Z := wq_sd_desc_base q + DESC_ENTRY_SZ * (c mod wq_sz q).
Definition ring_buf (q : worker_queue) (c : Z) : Z := wq_mbuf_arr q !!! Z.to_nat (c mod wq_sz q).

(** The descriptors [from <= c < to] of the shadow ring are [addr c], [x c]. *)
Definition ring_at (q : worker_queue) (from to : Z) (addr x : Z -> Z) (w : store) : Prop :=
  forall c, from <= c < to ->
    w !! desc_pos q c = Some (addr c) /\ w !! (desc_pos q c + 8) = Some (x c).

(** A queue whose ring and array of buffers exist. *)
Record queue_ok (q : worker_queue) : Prop := {
  qo_size : ring_size (wq_sz q);
  qo_fits : ring_fits (wq_sz q) (wq_sd_desc_base q);
  qo_arr : wq_sz q <= Z.of_nat (length (wq_mbuf_arr q));
  qo_buf_len : 0 <= wq_buf_len q < 0x10000;
  qo_hdr : 0 <= wq_hdr_sz q < 0x100;
}.

Section ring.
Context (q : worker_queue) (Hq : queue_ok q).

Lemma wq_sz_bounds : 1 <= wq_sz q <= 0x8000.
Proof. by destruct (ring_size_bounds _ (qo_size q Hq)). Qed.

Lemma pos_ptr c o : 0 <= o < DESC_ENTRY_SZ -> DESC_PTR_OFF (wq_sd_desc_base q) (c mod wq_sz q) o = desc_pos q c + o.
Proof.
  intros Ho. destruct (qo_fits q Hq) as [Hb He]. rewrite <- (off_enc (wq_sz q) c) at 1 by apply Hq.
  rewrite DESC_PTR_OFF_enc by (apply Hq || done). by rewrite Zmod_mod.
Qed.

Lemma pos_step c j : 0 <= j -> c mod wq_sz q + j < wq_sz q -> c mod wq_sz q + j = (c + j) mod wq_sz q.
Proof.
  intros Hj Hlt. pose proof wq_sz_bounds. pose proof (Z.mod_pos_bound c (wq_sz q) ltac:(lia)).
  rewrite <- Zplus_mod_idemp_l. rewrite (Z.mod_small (_ + j)); lia.
Qed.

Lemma pos_wrap c j : 0 <= j <= 0x1000 -> u16 (Z.land (c mod wq_sz q + j) (wq_sz q - 1)) = (c + j) mod wq_sz q.
Proof.
  intros Hj. pose proof wq_sz_bounds. rewrite land_ring by apply Hq. rewrite Zplus_mod_idemp_l.
  pose proof (Z.mod_pos_bound (c + j) (wq_sz q) ltac:(lia)). apply u16_id. word.
Qed.

Lemma pos_inj from c c' o o' : from <= c < from + wq_sz q -> from <= c' < from + wq_sz q ->
  0 <= o < DESC_ENTRY_SZ -> 0 <= o' < DESC_ENTRY_SZ -> desc_pos q c + o = desc_pos q c' + o' -> c = c' /\ o = o'.
Proof.
  intros Hc Hc' Ho Ho' He. pose proof wq_sz_bounds. unfold desc_pos, DESC_ENTRY_SZ in *.
  assert (c mod wq_sz q = c' mod wq_sz q /\ o = o') as [Hm Hoo] by lia. split; [|done].
  pose proof (Z.div_mod c (wq_sz q) ltac:(lia)) as E1. pose proof (Z.div_mod c' (wq_sz q) ltac:(lia)) as E2.
  assert (c / wq_sz q = c' / wq_sz q) as E3; [|rewrite E3, Hm in E1; lia].
  assert (- wq_sz q < wq_sz q * (c / wq_sz q - c' / wq_sz q) < wq_sz q) by lia.
  assert (-1 < c / wq_sz q - c' / wq_sz q < 1); [nia|lia].
Qed.

Lemma get_buf c : cget (wq_mbuf_arr q) (c mod wq_sz q) = Ret (ring_buf q c).
Proof.
  pose proof wq_sz_bounds. pose proof (Z.mod_pos_bound c (wq_sz q) ltac:(lia)). pose proof (qo_arr q Hq).
  apply cget_Ret. split; [lia|]. apply list_lookup_lookup_total_lt. lia.
Qed.

Lemma ld_ring from to addr x w c : ring_at q from to addr x w -> from <= c < to ->
  ld_desc w (wq_sd_desc_base q) (c mod wq_sz q) = Ret (V2 (addr c) (x c)).
Proof.
  intros Hr Hc. destruct (Hr c Hc) as [Ha Hx]. unfold ld_desc, mload.
  rewrite !pos_ptr by done. by rewrite Z.add_0_r, Ha, Hx.
Qed.

Lemma st_meta from to addr x w c y : ring_at q from to addr x w -> to <= from + wq_sz q -> from <= c < to ->
  exists w', mstore w (desc_pos q c + 8) y = Ret w' /\ ring_at q from to addr (<[c := y]> x) w' /\
    (forall p, p <> desc_pos q c + 8 -> w' !! p = w !! p).
Proof.
  intros Hr Hlen Hc. destruct (Hr c Hc) as [_ Hx]. unfold mstore. rewrite Hx. eexists. split; [done|].
  split; [|by intros p Hp; rewrite lookup_insert_ne]. intros c' Hc'. destruct (Hr c' Hc') as [Ha' Hx']. split.
  - rewrite lookup_insert_ne; [done|]. intros He.
    destruct (pos_inj from c c' 8 0) as [? ?]; (unfold DESC_ENTRY_SZ; lia) || done.
  - destruct (decide (c = c')) as [->|Hne].
    + by rewrite lookup_insert_eq, fn_lookup_insert.
    + rewrite lookup_insert_ne, fn_lookup_insert_ne by (done || intros He;
        destruct (pos_inj from c c' 8 8) as [? ?]; (unfold DESC_ENTRY_SZ; lia) || done). done.
Qed.

Lemma st_ring from to addr x w c y : ring_at q from to addr x w -> to <= from + wq_sz q -> from <= c < to ->
  exists w', st_desc w (wq_sd_desc_base q) (c mod wq_sz q) (V2 (addr c) y) = Ret w' /\
    ring_at q from to addr (<[c := y]> x) w' /\ (forall p, p <> desc_pos q c + 8 -> w' !! p = w !! p).
Proof.
  intros Hr Hlen Hc. unfold st_desc. rewrite !pos_ptr by done. cbn [q0 q1]. rewrite Z.add_0_r.
  destruct (Hr c Hc) as [Ha _].
  assert (mstore w (desc_pos q c) (addr c) = Ret w) as -> by (unfold mstore; by rewrite Ha, insert_id).
  by apply st_meta.
Qed.
End ring.

(** ** Fetching

    A buffer set up for the data of a descriptor with word [x]: one segment
    that starts behind the virtio header. *)
Record filled (q : worker_queue) (x : Z) (m : rte_mbuf) : Prop := {
  fl_data_off : data_off m = RTE_PKTMBUF_HEADROOM + wq_hdr_sz q;
  fl_refcnt : refcnt m = 1;
  fl_nb_segs : nb_segs m = 1;
  fl_ol_flags : ol_flags m = 0;
  fl_next : next m = 0;
  fl_pkt_len : pkt_len m = desc_len x - wq_hdr_sz q;
  fl_data_len : data_len m = desc_len x - wq_hdr_sz q;
}.

Lemma rearm_fields hdr m : 0 <= hdr < 0x100 ->
  data_off (set_rearm (u64 (rearm_data + hdr)) m) = RTE_PKTMBUF_HEADROOM + hdr /\
  refcnt (set_rearm (u64 (rearm_data + hdr)) m) = 1 /\ nb_segs (set_rearm (u64 (rearm_data + hdr)) m) = 1.
Proof.
  intros Hh. cbn. rewrite !Z.shiftr_div_pow2 by lia. change (2 ^ 16) with 0x10000. change (2 ^ 32) with 0x100000000.
  change rearm_data with 0x100010080. unfold RTE_PKTMBUF_HEADROOM. split_and!; word.
Qed.

(** The lengths the vector loop stores are the low 16 bits. *)
Lemma x4_lengths a x hdr m : is_u64 x -> 0 <= hdr < 0x100 ->
  let f := vqtbl1q_u8 (u64_as_u8 (vsubq_u64 (V2 a x) (V2 0 hdr))) shuf_msk in
  pkt_len (set_rx_fields f m) = u16 (x - hdr) /\ data_len (set_rx_fields f m) = u16 (x - hdr).
Proof.
  intros Hx Hh f. unfold f, vsubq_u64, map2_64, set_rx_fields, u64_as_u8, vqtbl1q_u8. cbn -[Z.shiftr u8 u16 u64 Z.mul].
  change (Z.to_nat 255) with 255%nat. change (Z.to_nat 8) with 8%nat. change (Z.to_nat 9) with 9%nat.
  cbn -[Z.shiftr u8 u16 u64 Z.mul]. rewrite Z.shiftr_div_pow2 by lia. change (2 ^ 8) with 0x100.
  split; word.
Qed.

Lemma x4_filled q a x m : 0 <= wq_hdr_sz q < 0x100 -> is_u64 x ->
  wq_hdr_sz q <= desc_len x < 0x10000 ->
  filled q x (fetched_mbuf (wq_hdr_sz q)
    (vqtbl1q_u8 (u64_as_u8 (vsubq_u64 (V2 a x) (V2 0 (wq_hdr_sz q)))) shuf_msk) m).
Proof.
  intros Hh Hx Hl. destruct (x4_lengths a x (wq_hdr_sz q) m Hx Hh) as [E1 E2].
  destruct (rearm_fields (wq_hdr_sz q) (set_rx_fields (vqtbl1q_u8 (u64_as_u8 (vsubq_u64 (V2 a x) (V2 0 (wq_hdr_sz q)))) shuf_msk) m) Hh)
    as (R1 & R2 & R3).
  assert (u16 (x - wq_hdr_sz q) = desc_len x - wq_hdr_sz q) as E by (rewrite desc_len_u32 in *; word).
  split; try done.
  - etransitivity; [exact E1|done].
  - etransitivity; [exact E2|done].
Qed.

Lemma x1_filled q x dlen m : 0 <= wq_hdr_sz q < 0x100 -> dlen = desc_len x ->
  wq_hdr_sz q <= desc_len x < 0x10000 ->
  filled q x (set_ol 0 (set_next 0 (set_lens (nb_segs (set_rearm (u64 (rearm_data + wq_hdr_sz q)) m))
          (desc_len x - wq_hdr_sz q) (dlen - wq_hdr_sz q)
          (set_rearm (u64 (rearm_data + wq_hdr_sz q)) m)))).
Proof.
  intros Hh -> Hl. destruct (rearm_fields (wq_hdr_sz q) m Hh) as (R1 & R2 & R3). split; try done.
  - change (u16 (nb_segs (set_rearm (u64 (rearm_data + wq_hdr_sz q)) m)) = 1). by rewrite R3.
  - cbn. word.
  - cbn. word.
Qed.

(** The last element given to the channel is pending for operation [idx], or
    was submitted with it. *)
Definition last_in (idx : Z) (v : dao_dma_vchan_state) : Prop :=
  0 < src_i v /\ tail v = idx \/ src_i v = 0 /\ tail v = u16 (idx + 1).

Lemma flush_last_in (stats : bool) {D : Type} `{RteDma D} v avail d b v' d' idx : src_i v = dst_i v ->
  dao_dma_flush stats v avail d = (b, v', d') -> last_in idx v -> last_in idx v'.
Proof.
  intros Hsy Ef Hl. apply flush_tail in Ef as Hft. destruct Hft as [(E1 & _ & E3)|(E1 & _ & E3)].
  - unfold last_in. by rewrite E1, E3.
  - destruct Hl as [[Hpos <-]|[Hz E]]; [by right|].
    unfold dao_dma_flush in Ef. rewrite <- Hsy, Hz in Ef. cbn in Ef. rewrite !orb_true_r in Ef. cbn in Ef.
    injection Ef as <- <- <-. by right.
Qed.

Section fetching.
Context (stats : bool) {D P : Type} `{RteDmaLaws D} `{BufAlloc P}.
Context (q : worker_queue) (Hq : queue_ok q) (flags from to : Z) (addr meta : Z -> Z).

(** What a fetch does to the word of a descriptor. *)
Definition fetched_word (x : Z) : Z := if has_flag flags DEQ_NOINOR then used_word x else x.

(** The descriptors [from <= c < to] are complete, each fits one buffer and
    holds a header, and their buffers are distinct. *)
Record fetchable : Prop := {
  fb_range : from <= to <= from + wq_sz q;
  fb_addr c : from <= c < to -> is_u64 (addr c);
  fb_meta c : from <= c < to -> is_u64 (meta c);
  fb_len c : from <= c < to -> wq_hdr_sz q <= desc_len (meta c) <= wq_buf_len q;
  fb_distinct c c' : from <= c < to -> from <= c' < to -> ring_buf q c = ring_buf q c' -> c = c';
}.
Context (Hf : fetchable).

Definition src_elem (c : Z) : rte_dma_sge := {| sge_addr := addr c; sge_length := desc_len (meta c) |}.
Definition dst_elem (c : Z) : rte_dma_sge :=
  {| sge_addr := u64 (ring_buf q c + wq_data_off q); sge_length := desc_len (meta c) |}.

(** [k] descriptors have been taken since state [s0]. *)
Record fetching (s0 : wstate D P) (k : Z) (s : wstate D P) : Prop := {
  fi_k : 0 <= k <= to - from;
  fi_cells : w_cells s = w_cells s0;
  fi_pool : w_pool s = w_pool s0;
  fi_words : exists x, ring_at q from to addr x (w_words s) /\
    (forall c, from <= c < to -> x c = meta c \/ x c = fetched_word (meta c)) /\
    (forall c, from <= c < from + k -> x c = fetched_word (meta c));
  fi_words_out p : (forall c, from <= c < to -> p <> desc_pos q c + 8) -> w_words s !! p = w_words s0 !! p;
  fi_bufs_out p : (forall c, from <= c < to -> p <> ring_buf q c) -> w_mbufs s !! p = w_mbufs s0 !! p;
  fi_bufs c : from <= c < to -> is_Some (w_mbufs s !! ring_buf q c);
  fi_done c : from <= c < from + k -> exists m, w_mbufs s !! ring_buf q c = Some m /\ filled q (meta c) m;
  fi_src : src_stream (w_dev s) (w_chan s) = src_stream (w_dev s0) (w_chan s0) ++ (src_elem <$> seqZ from k);
  fi_dst : dst_stream (w_dev s) (w_chan s) = dst_stream (w_dev s0) (w_chan s0) ++ (dst_elem <$> seqZ from k);
  fi_wf : vchan_wf (w_chan s);
  fi_sync : src_i (w_chan s) = dst_i (w_chan s) /\ src_i (w_chan s) <= flush_thr (w_chan s);
  fi_frame : flush_thr (w_chan s) = flush_thr (w_chan s0) /\ mdata (w_chan s) = mdata (w_chan s0) /\
    head (w_chan s) = head (w_chan s0);
}.

Lemma fetched_word_cases x c : from <= c < to -> x = meta c \/ x = fetched_word (meta c) ->
  is_u64 x /\ desc_len x = desc_len (meta c) /\ fetched_word x = fetched_word (meta c).
Proof.
  intros Hc Hx. pose proof (fb_meta Hf c Hc) as Hm. unfold fetched_word in *.
  destruct (has_flag flags DEQ_NOINOR), Hx as [->| ->];
    rewrite ?used_word_idem, ?used_word_len by done; auto using used_word_u64.
Qed.

(** An update of the buffer of [c] leaves the buffers of other descriptors. *)
Lemma upd_buf (b : mbufs) c f m : b !! ring_buf q c = Some m ->
  mbuf_upd (ring_buf q c) f b = Ret (<[ring_buf q c := f m]> b).
Proof. intros Hb. unfold mbuf_upd, mbuf_at. by rewrite Hb. Qed.

Lemma other_buf (b : mbufs) c c' m : from <= c < to -> from <= c' < to -> c' <> c ->
  <[ring_buf q c := m]> b !! ring_buf q c' = b !! ring_buf q c'.
Proof. intros Hc Hc' Hne. apply lookup_insert_ne. intros He. by apply Hne, (fb_distinct Hf). Qed.

(** *** The vector loop *)

(** The lanes of [mark_used_x4]. *)
Lemma mark_used_x4_lanes base off a0 a1 a2 a3 x0 x1 x2 x3 w :
  mark_used_x4 base off (V2 a0 x0) (V2 a1 x1) (V2 a2 x2) (V2 a3 x3) w =
  (w ← st_desc w base off (V2 a0 (used_word x0));
   w ← st_desc w base (off + 1) (V2 a1 (used_word x1));
   w ← st_desc w base (off + 2) (V2 a2 (used_word x2));
   w ← st_desc w base (off + 3) (V2 a3 (used_word x3));
   Ret (V2 a0 (used_word x0), V2 a1 (used_word x1), V2 a2 (used_word x2), V2 a3 (used_word x3), w)).
Proof. reflexivity. Qed.

Lemma mark_x4 x w c : ring_at q from to addr x w -> from <= c -> c + 4 <= to -> c mod wq_sz q + 3 < wq_sz q ->
  exists w' x', (if has_flag flags DEQ_NOINOR
     then mark_used_x4 (wq_sd_desc_base q) (c mod wq_sz q) (V2 (addr c) (x c)) (V2 (addr (c + 1)) (x (c + 1)))
            (V2 (addr (c + 2)) (x (c + 2))) (V2 (addr (c + 3)) (x (c + 3))) w
     else Ret (V2 (addr c) (x c), V2 (addr (c + 1)) (x (c + 1)), V2 (addr (c + 2)) (x (c + 2)),
               V2 (addr (c + 3)) (x (c + 3)), w)) =
    Ret (V2 (addr c) (fetched_word (x c)), V2 (addr (c + 1)) (fetched_word (x (c + 1))),
         V2 (addr (c + 2)) (fetched_word (x (c + 2))), V2 (addr (c + 3)) (fetched_word (x (c + 3))), w') /\
    ring_at q from to addr x' w' /\
    (forall c', x' c' = if bool_decide (c <= c' < c + 4) then fetched_word (x c') else x c') /\
    (forall p, (forall c', from <= c' < to -> p <> desc_pos q c' + 8) -> w' !! p = w !! p).
Proof.
  intros Hr Hlo Hhi Hend. pose proof (fb_range Hf). unfold fetched_word. destruct (has_flag flags DEQ_NOINOR).
  2:{ exists w, x. split_and!; [done..| |done]. intros c'. by case_bool_decide. }
  destruct (st_ring q Hq from to addr x w c (used_word (x c))) as (w1 & E1 & R1 & O1); [done|lia..|].
  destruct (st_ring q Hq _ _ _ _ _ (c + 1) (used_word (x (c + 1))) R1) as (w2 & E2 & R2 & O2); [lia..|].
  destruct (st_ring q Hq _ _ _ _ _ (c + 2) (used_word (x (c + 2))) R2) as (w3 & E3 & R3 & O3); [lia..|].
  destruct (st_ring q Hq _ _ _ _ _ (c + 3) (used_word (x (c + 3))) R3) as (w4 & E4 & R4 & O4); [lia..|].
  rewrite <- (pos_step q Hq c) in E2, E3, E4 by lia.
  exists w4. eexists. split; [|split; [exact R4|split]].
  - rewrite mark_used_x4_lanes, E1. cbn [mbind cres_mbind]. rewrite E2. cbn [mbind cres_mbind].
    rewrite E3. cbn [mbind cres_mbind]. by rewrite E4.
  - intros c'. case_bool_decide.
    + assert (c' = c \/ c' = c + 1 \/ c' = c + 2 \/ c' = c + 3) as [->|[->|[->| ->]]] by lia;
        repeat (rewrite fn_lookup_insert || rewrite fn_lookup_insert_ne by lia); done.
    + by rewrite !fn_lookup_insert_ne by lia.
  - intros p Hp. rewrite O4, O3, O2, O1; [done|apply Hp; lia..].
Qed.

Lemma x4_elements_fit a b c d n : u32 a <= n -> u32 b <= n -> u32 c <= n -> u32 d <= n ->
  x4_elements (V2 a b) (V2 c d) n = 4.
Proof.
  intros. unfold x4_elements, vcgtq_u32, vuzp1q_u32, map2_32, as_u32. cbn [s0 s1 s2 s3 q0 q1].
  rewrite !(proj2 (Z.ltb_ge _ _)) by done. done.
Qed.

(** Lengths that fit are taken over without the flags. *)

(** Lengths that fit are taken over, without the flags. *)
Lemma x4_len a b n : is_u64 a -> is_u64 b -> desc_len a <= n -> desc_len b <= n ->
  as_u64 (vminq_u32 (as_u32 (V2 a b)) (V4 n 0 n 0)) = V2 (desc_len a) (desc_len b).
Proof.
  rewrite !desc_len_u32. intros Ha Hb Hla Hlb. unfold vminq_u32, map2_32, as_u32. cbn [s0 s1 s2 s3 q0 q1].
  assert (forall y, is_u64 y -> 0 <= Z.shiftr y 32) as Hs.
  { intros y Hy. apply Z.shiftr_nonneg. unfold is_u64 in Hy. lia. }
  rewrite (Z.min_l (u32 a)), (Z.min_l (u32 b)) by done.
  rewrite (Z.min_r (Z.shiftr a 32)), (Z.min_r (Z.shiftr b 32)) by (by apply Hs).
  rewrite as_u32_of_u32s by auto with dao. f_equal; lia.
Qed.

Lemma fill_x4 (b : mbufs) c f0 f1 f2 f3 : from <= c -> c + 4 <= to ->
  (forall c', from <= c' < to -> is_Some (b !! ring_buf q c')) ->
  exists b1 b2 b3 b4, mbuf_upd (ring_buf q c) f0 b = Ret b1 /\ mbuf_upd (ring_buf q (c + 1)) f1 b1 = Ret b2 /\
    mbuf_upd (ring_buf q (c + 2)) f2 b2 = Ret b3 /\ mbuf_upd (ring_buf q (c + 3)) f3 b3 = Ret b4 /\
    (forall c', from <= c' < to -> is_Some (b4 !! ring_buf q c')) /\
    (forall c', from <= c' < to -> ~ c <= c' < c + 4 -> b4 !! ring_buf q c' = b !! ring_buf q c') /\
    (forall p, (forall c', from <= c' < to -> p <> ring_buf q c') -> b4 !! p = b !! p) /\
    (exists m, b4 !! ring_buf q c = Some (f0 m)) /\ (exists m, b4 !! ring_buf q (c + 1) = Some (f1 m)) /\
    (exists m, b4 !! ring_buf q (c + 2) = Some (f2 m)) /\ (exists m, b4 !! ring_buf q (c + 3) = Some (f3 m)).
Proof.
  intros Hlo Hhi Hb.
  destruct (Hb c) as [m0 G0]; [lia|]. destruct (Hb (c + 1)) as [m1 G1]; [lia|].
  destruct (Hb (c + 2)) as [m2 G2]; [lia|]. destruct (Hb (c + 3)) as [m3 G3]; [lia|].
  exists (<[ring_buf q c := f0 m0]> b). eexists. eexists. eexists.
  split; [by apply upd_buf|].
  split; [apply (upd_buf _ (c + 1) _ m1); rewrite other_buf by lia; done|].
  split; [apply (upd_buf _ (c + 2) _ m2); rewrite !other_buf by lia; done|].
  split; [apply (upd_buf _ (c + 3) _ m3); rewrite !other_buf by lia; done|].
  split_and!.
  - intros c' Hc'. destruct (Hb c' Hc') as [m Hm].
    repeat (apply lookup_insert_is_Some'; right). by rewrite Hm.
  - intros c' Hc' Hn. by rewrite !other_buf by lia.
  - intros p Hp. rewrite !lookup_insert_ne by (apply not_eq_sym, Hp; lia). done.
  - exists m0. rewrite !other_buf by lia. by rewrite lookup_insert_eq.
  - exists m1. rewrite !other_buf by lia. by rewrite lookup_insert_eq.
  - exists m2. rewrite !other_buf by lia. by rewrite lookup_insert_eq.
  - exists m3. by rewrite lookup_insert_eq.
Qed.

Lemma take_x4 {A} (g : Z -> A) c r : 0 <= r <= 4 ->
  take (Z.to_nat r) (g <$> [c; c + 1; c + 2; c + 3]) = g <$> seqZ c r.
Proof.
  intros Hr. rewrite <- fmap_take. f_equal. replace [c; c + 1; c + 2; c + 3] with (seqZ c 4).
  - rewrite <- (Z2Nat.id r) at 2 by lia. unfold seqZ. rewrite <- fmap_take, take_seq, Nat2Z.id. do 2 f_equal. lia.
  - change (seqZ c 4) with [0 + c; 1 + c; 2 + c; 3 + c]. by rewrite Z.add_0_l, !(Z.add_comm _ c).
Qed.

Lemma as_sge_elem a x : as_sge (V2 a (desc_len x)) = {| sge_addr := a; sge_length := desc_len x |}.
Proof. unfold as_sge. cbn. rewrite desc_len_u32. f_equal. word. Qed.

(** The buffer of descriptor [c] after a turn of the vector loop. *)
Lemma x4_filled_word c a m : from <= c < to ->
  filled q (meta c) (fetched_mbuf (wq_hdr_sz q)
    (vqtbl1q_u8 (u64_as_u8 (vsubq_u64 (V2 a (fetched_word (meta c))) (V2 0 (wq_hdr_sz q)))) shuf_msk) m).
Proof.
  intros Hc. destruct (fetched_word_cases (fetched_word (meta c)) c) as (Hu & Hl & _); [done|by right|].
  pose proof (fb_len Hf c Hc). pose proof (qo_buf_len q Hq).
  destruct (x4_filled q a (fetched_word (meta c)) m) as [? ? ? ? ? Hp Hd]; [apply Hq|done|lia|].
  rewrite Hl in Hp, Hd. by split.
Qed.

(** Taking [r] more descriptors at once, of [n] whose words and buffers were
    prepared. *)
Lemma fetching_extend n s0 k s r w b v d x x' :
  fetching s0 k s -> 0 <= r <= n -> k + n <= to - from ->
  (forall c, from <= c < to -> x c = meta c \/ x c = fetched_word (meta c)) ->
  (forall c, from <= c < from + k -> x c = fetched_word (meta c)) ->
  ring_at q from to addr x' w ->
  (forall c, x' c = if bool_decide (from + k <= c < from + k + n) then fetched_word (x c) else x c) ->
  (forall c, from <= c < to -> is_Some (b !! ring_buf q c)) ->
  (forall c, from <= c < to -> ~ from + k <= c < from + k + n -> b !! ring_buf q c = w_mbufs s !! ring_buf q c) ->
  (forall c, from + k <= c < from + k + n -> exists m, b !! ring_buf q c = Some m /\ filled q (meta c) m) ->
  (forall p, (forall c, from <= c < to -> p <> desc_pos q c + 8) -> w !! p = w_words s !! p) ->
  (forall p, (forall c, from <= c < to -> p <> ring_buf q c) -> b !! p = w_mbufs s !! p) ->
  src_stream d v = src_stream (w_dev s) (w_chan s) ++ (src_elem <$> seqZ (from + k) r) ->
  dst_stream d v = dst_stream (w_dev s) (w_chan s) ++ (dst_elem <$> seqZ (from + k) r) ->
  vchan_wf v -> src_i v = dst_i v -> src_i v <= flush_thr v ->
  (flush_thr v = flush_thr (w_chan s) /\ mdata v = mdata (w_chan s) /\ head v = head (w_chan s)) ->
  fetching s0 (k + r) (put_dma v d (put_mbufs b (put_words w s))).
Proof.
  intros [Hk Hc Hp _ Hwo Hbo Hb Hd Hs1 Hs2 Hwf Hsy Hfr] Hr Hroom Hx1 Hx2 Hr' Hx' Hb1 Hb2 Hb3 Ho1 Ho2 Hs Hds Hw Hsd Hst Hfr'.
  split; cbn [w_cells w_words w_mbufs w_pool w_chan w_dev put_dma put_mbufs put_words]; try done.
  - lia.
  - exists x'. split; [done|]. split; intros c Hcr; rewrite Hx'; case_bool_decide as Hin.
    + right. destruct (fetched_word_cases (x c) c) as (_ & _ & E); [done|by apply Hx1|done].
    + by apply Hx1.
    + destruct (fetched_word_cases (x c) c) as (_ & _ & E); [lia|apply Hx1; lia|done].
    + apply Hx2. lia.
  - intros p Hpo. rewrite Ho1 by done. by apply Hwo.
  - intros p Hpo. rewrite Ho2 by done. by apply Hbo.
  - intros c Hcr. destruct (decide (c < from + k)).
    + rewrite Hb2 by lia. apply Hd. lia.
    + apply Hb3. lia.
  - rewrite Hs, Hs1, <- app_assoc, <- fmap_app. by rewrite seqZ_app by lia.
  - rewrite Hds, Hs2, <- app_assoc, <- fmap_app. by rewrite seqZ_app by lia.
  - destruct Hfr as (? & ? & ?), Hfr' as (? & ? & ?). split_and!; congruence.
Qed.

Lemma fetch_x4_step s0 k s : fetching s0 k s -> 1 <= flush_thr (w_chan s0) -> k + 4 <= to - from ->
  fetch_x4 stats q flags ((from + k) mod wq_sz q) s = Ret None \/
  exists r m1 s', fetch_x4 stats q flags ((from + k) mod wq_sz q) s = Ret (Some (r, m1, s')) /\
    0 <= r <= 4 /\ fetching s0 (k + r) s' /\ 0 < src_i (w_chan s') /\
    (forall R, willing R -> R (w_dev s) -> R (w_dev s')).
Proof.
  intros Hfi Hthr Hroom. set (c := from + k). pose proof (fi_k _ _ _ Hfi) as Hk.
  unfold fetch_x4. destruct (wq_sz q <=? c mod wq_sz q + 3) eqn:Eend; [by left|]. reflect_bool. right.
  destruct (fi_words _ _ _ Hfi) as (x & Hr & Hx1 & Hx2).
  assert (forall j, 0 <= j < 4 -> is_u64 (x (c + j)) /\ desc_len (x (c + j)) = desc_len (meta (c + j)) /\
    fetched_word (x (c + j)) = fetched_word (meta (c + j)) /\ wq_hdr_sz q <= desc_len (meta (c + j)) <= wq_buf_len q) as Hw.
  { intros j Hj. destruct (fetched_word_cases (x (c + j)) (c + j)) as (? & ? & ?); [lia|apply Hx1; lia|].
    split_and!; try done; apply (fb_len Hf); lia. }
  destruct (Hw 0) as (U0 & L0 & M0 & B0); [lia|]. rewrite Z.add_0_r in *.
  destruct (Hw 1) as (U1 & L1 & M1 & B1); [lia|]. destruct (Hw 2) as (U2 & L2 & M2 & B2); [lia|].
  destruct (Hw 3) as (U3 & L3 & M3 & B3); [lia|].
  rewrite !(pos_step q Hq c) by lia.
  rewrite !(ld_ring q Hq from to addr x (w_words s)) by (done || lia). cbn [mbind cres_mbind].
  unfold vzip1q_u64, vzip2q_u64. cbn [q0 q1].
  rewrite (x4_elements_fit (x c) (x (c + 1)) (x (c + 2)) (x (c + 3))) by (rewrite <- desc_len_u32; lia).
  cbn [Z.ltb Z.compare Pos.compare Pos.compare_cont].
  assert (ld_ptrs (wq_mbuf_arr q) (c mod wq_sz q) = Ret (V2 (ring_buf q c) (ring_buf q (c + 1)))) as ->.
  { unfold ld_ptrs. rewrite (pos_step q Hq c) by lia. by rewrite !(get_buf q Hq). }
  assert (ld_ptrs (wq_mbuf_arr q) ((c + 2) mod wq_sz q) = Ret (V2 (ring_buf q (c + 2)) (ring_buf q (c + 3)))) as ->.
  { unfold ld_ptrs. rewrite <- (pos_step q Hq c) by lia. rewrite <- Z.add_assoc, !(pos_step q Hq c) by lia.
    by rewrite !(get_buf q Hq). }
  cbn [mbind cres_mbind].
  destruct (mark_x4 x (w_words s) c) as (w & x' & Em & Hr' & Hx' & Ho1); [done|lia..|].
  rewrite Em. cbn [mbind cres_mbind q0 q1]. rewrite M0, M1, M2, M3.
  rewrite !x4_len by (done || lia). rewrite L0, L1, L2, L3.
  match goal with |- context [mbuf_upd (ring_buf q c) ?f0 _] => set (g0 := f0) end.
  match goal with |- context [mbuf_upd (ring_buf q (c + 1)) ?f0 _] => set (g1 := f0) end.
  match goal with |- context [mbuf_upd (ring_buf q (c + 2)) ?f0 _] => set (g2 := f0) end.
  match goal with |- context [mbuf_upd (ring_buf q (c + 3)) ?f0 _] => set (g3 := f0) end.
  destruct (fill_x4 (w_mbufs s) c g0 g1 g2 g3) as (b1 & b2 & b3 & b4 & -> & E2 & E3 & E4 & Hb1 & Hb2 & Ho2 & (m0 & G0) & (m1 & G1) & (m2 & G2) & (m3 & G3));
    [lia..|apply Hfi|].
  cbn [mbind cres_mbind]. rewrite E2. cbn [mbind cres_mbind]. rewrite E3. cbn [mbind cres_mbind].
  rewrite E4. cbn [mbind cres_mbind].
  match goal with |- context [dao_dma_enq_x4 _ _ ?a ?b _] =>
    replace a with (src_elem <$> [c; c + 1; c + 2; c + 3]) by
      (unfold vaddq_u64, map2_64, vdupq_n_u64; cbn [fmap list_fmap q0 q1]; by rewrite !as_sge_elem);
    replace b with (dst_elem <$> [c; c + 1; c + 2; c + 3]) by
      (unfold vaddq_u64, map2_64, vdupq_n_u64; cbn [fmap list_fmap q0 q1]; by rewrite !as_sge_elem) end.
  destruct (enq_x4_spec stats (w_chan s) (src_elem <$> [c; c + 1; c + 2; c + 3]) (dst_elem <$> [c; c + 1; c + 2; c + 3]) (w_dev s))
    as (r & v & d & -> & Hr4 & S1 & S2 & Hwf & Hsd & Hst & Hfr & Hpos & _ & HR); [apply Hfi..|done|done|].
  rewrite !take_x4 in S1, S2 by done. cbn [mbind cres_mbind].
  exists r, (ring_buf q (c + 1)). eexists. split; [done|]. split; [done|].
  split; [|split; [apply Hpos; rewrite (proj1 (fi_frame _ _ _ Hfi)); done|done]].
  apply (fetching_extend 4 s0 k s r w b4 v d x x'); try done.
  intros c' Hc'. assert (c' = c \/ c' = c + 1 \/ c' = c + 2 \/ c' = c + 3) as [->|[->|[->| ->]]] by lia.
  all: eexists; split; [eassumption|]; apply x4_filled_word; lia.
Qed.

(** The variables of the loops after [k] descriptors. *)
Definition vars_at (k : Z) (fv : fetch_vars) (s : wstate D P) : Prop :=
  fv_i fv = k /\ fv_off fv = (from + k) mod wq_sz q /\
  (0 < k -> last_in (fv_last_idx fv) (w_chan s) /\ 0 <= fv_last_idx fv).

Lemma fetch_x4_loop_spec s0 : 1 <= flush_thr (w_chan s0) -> forall n k s fv,
  fetching s0 k s -> vars_at k fv s -> k + 4 * Z.of_nat n <= to - from ->
  exists fv' s' k', fetch_x4_loop stats n q flags fv s = Ret (fv', s') /\
    k <= k' <= k + 4 * Z.of_nat n /\ fetching s0 k' s' /\ vars_at k' fv' s' /\
    (forall R, willing R -> R (w_dev s) -> R (w_dev s')).
Proof.
  intros Hthr. induction n as [|n IH]; intros k s fv Hfi Hv Hroom; cbn [fetch_x4_loop].
  { exists fv, s, k. split; [done|]. split; [lia|done]. }
  destruct Hv as (Hi & Ho & Hl). rewrite Ho.
  destruct (fetch_x4_step s0 k s Hfi Hthr) as [->|(r & m1 & s1 & -> & Hr & Hfi1 & Hpos & HR)]; [lia|..];
    cbn [mbind cres_mbind].
  { exists fv, s, k. split; [done|]. split; [lia|]. split; [done|]. by split. }
  set (fv1 := Build_fetch_vars _ _ _ _).
  assert (vars_at (k + r) fv1 s1) as Hv1.
  { split_and!; [cbn; lia|cbn; rewrite pos_wrap by (done || lia); f_equal; lia|]. intros _. cbn.
    split; [by left|]. pose proof (wf_tail _ (fi_wf _ _ _ Hfi1)) as Ht. unfold is_u16 in Ht. lia. }
  destruct (Z.eqb_spec r 4) as [->|Hne]; cbn [negb].
  - destruct (IH (k + 4) s1 fv1 Hfi1 Hv1) as (fv2 & s2 & k2 & E & Hk2 & Hfi2 & Hv2 & HR2); [lia|].
    exists fv2, s2, k2. split; [done|]. split; [lia|]. split; [done|]. split; [done|].
    intros R Hw HRd. apply HR2; [done|by apply HR].
  - exists fv1, s1, (k + r). split; [done|]. split; [lia|done].
Qed.

(** *** The scalar loop *)

Lemma flush_step s0 k s avail b s' : fetching s0 k s -> ws_flush stats avail s = (b, s') ->
  fetching s0 k s' /\
  (b = true -> src_i (w_chan s') = 0 \/ src_i (w_chan s') + u8 avail <= flush_thr (w_chan s0)) /\
  (forall idx, last_in idx (w_chan s) -> last_in idx (w_chan s')) /\
  (forall R, willing R -> R (w_dev s) -> b = true /\ R (w_dev s')).
Proof.
  intros [Hk Hc Hp Hw Hwo Hbo Hb Hd Hs1 Hs2 Hwf [Hsy Hst] Hfr]. unfold ws_flush.
  destruct (dao_dma_flush stats (w_chan s) avail (w_dev s)) as [[b1 v1] d1] eqn:Ef. intros [= <- <-].
  destruct (flush_spec stats _ _ _ _ _ _ Hwf Ef) as (Hwf1 & S1 & S2 & (_ & _ & T1 & M1 & HH1) & Hi & Hroom).
  pose proof (wf_flush_thr _ Hwf). destruct Hfr as (Ht & Hm & Hh). split_and!.
  - split; cbn [w_cells w_words w_mbufs w_pool w_chan w_dev put_dma]; try done.
    + congruence.
    + congruence.
    + rewrite T1. lia.
    + split_and!; congruence.
  - intros ->. rewrite <- Ht. by apply Hroom.
  - intros idx Hl. cbn. by apply (flush_last_in stats (w_chan s) avail (w_dev s) b1 v1 d1 idx).
  - intros R HR HRd. by apply (flush_willing stats R _ _ _ _ _ _ HR HRd Ef).
Qed.

Lemma fetch_x1_step s0 k s mb : fetching s0 k s -> k + 1 <= to - from ->
  src_i (w_chan s) + 1 <= flush_thr (w_chan s0) ->
  exists s', fetch_x1 q flags ((from + k) mod wq_sz q) mb s = Ret (ring_buf q (from + k), mb, s') /\
    fetching s0 (k + 1) s' /\ 0 < src_i (w_chan s') /\ w_dev s' = w_dev s.
Proof.
  intros Hfi Hroom Hthr. set (c := from + k). pose proof (fi_k _ _ _ Hfi) as Hk.
  pose proof (fi_wf _ _ _ Hfi) as Hwf. pose proof (wf_flush_thr _ Hwf). pose proof (wf_src_i _ Hwf).
  destruct (fi_sync _ _ _ Hfi) as [Hsy Hst]. pose proof (fi_frame _ _ _ Hfi) as Hfr.
  destruct (fi_words _ _ _ Hfi) as (x & Hr & Hx1 & Hx2).
  destruct (fetched_word_cases (x c) c) as (Hu & Hl & Hm); [lia|apply Hx1; lia|].
  pose proof (fb_len Hf c ltac:(lia)) as Hlen. pose proof (qo_buf_len q Hq).
  destruct (Hr c) as [Ha Hx]; [lia|]. destruct (fi_bufs _ _ _ Hfi c) as [m0 Hm0]; [lia|].
  unfold fetch_x1. rewrite (get_buf q Hq). cbn [mbind cres_mbind]. rewrite !(pos_ptr q Hq) by done.
  rewrite (mload_ret _ _ _ Hx). cbn [mbind cres_mbind].
  change (Z.land (x c) (u64 (RTE_BIT64 32 - 1))) with (desc_len (x c)). rewrite used_word_scalar by done.
  assert (exists w x', (if has_flag flags DEQ_NOINOR then mstore (w_words s) (desc_pos q c + 8) (used_word (x c))
      else Ret (w_words s)) = Ret w /\ ring_at q from to addr x' w /\
      (forall c', x' c' = if bool_decide (c <= c' < c + 1) then fetched_word (x c') else x c') /\
      (forall p, (forall c', from <= c' < to -> p <> desc_pos q c' + 8) -> w !! p = w_words s !! p)) as (w & x' & -> & Hr' & Hx' & Ho1).
  { unfold fetched_word. destruct (has_flag flags DEQ_NOINOR).
    - pose proof (fb_range Hf).
      destruct (st_meta q Hq from to addr x (w_words s) c (used_word (x c))) as (w & -> & Hr' & Ho); [done|lia..|].
      exists w. eexists. split_and!; [done..| |intros p Hp; apply Ho, Hp; lia]. intros c'. case_bool_decide.
      + assert (c' = c) as -> by lia. by rewrite fn_lookup_insert.
      + by rewrite fn_lookup_insert_ne by lia.
    - exists (w_words s), x. split_and!; [done..| |done]. intros c'. by case_bool_decide. }
  cbn [mbind cres_mbind]. destruct (Hr' c) as [Ha' _]; [lia|]. rewrite Z.add_0_r, (mload_ret _ _ _ Ha'). cbn [mbind cres_mbind].
  rewrite Hl. rewrite !(proj2 (Z.ltb_ge _ _)) by lia.
  destruct (enq_x1_spec (w_chan s) (addr c) (desc_len (meta c)) (u64 (ring_buf q c + wq_data_off q)) (desc_len (meta c)))
    as (v & -> & Hwf' & Hs & Hd & P1 & P2 & (D1 & D2 & T1 & M1 & HH1 & Ht)); [done|lia..|].
  cbn [mbind cres_mbind]. rewrite (upd_buf _ c _ m0) by done. cbn [mbind cres_mbind].
  eexists. split; [done|]. split; [|split; [cbn; lia|done]].
  apply (fetching_extend 1 s0 k s 1 w _ v (w_dev s) x x'); try done; try lia.
  - intros c' Hc'. destruct (decide (c' = c)) as [->|]; [by rewrite lookup_insert_eq|].
    rewrite other_buf by lia. by apply Hfi.
  - intros c' Hc' Hn. by rewrite other_buf by lia.
  - intros c' Hc'. assert (c' = c) as -> by lia. rewrite lookup_insert_eq. eexists. split; [done|].
    apply x1_filled; [apply Hq|done|lia].
  - intros p Hp. by rewrite lookup_insert_ne by (apply not_eq_sym, Hp; lia).
  - unfold src_stream. rewrite P1, D1, D2, app_assoc. done.
  - unfold dst_stream. rewrite P2, D1, D2, app_assoc. done.
Qed.

Lemma fetch_x1_loop_spec s0 : 1 <= flush_thr (w_chan s0) -> forall n k s fv,
  fetching s0 k s -> vars_at k fv s -> k + Z.of_nat n <= to - from ->
  src_i (w_chan s) = 0 \/ src_i (w_chan s) + 1 <= flush_thr (w_chan s0) ->
  exists fv' s' k', fetch_x1_loop stats n q flags fv s = Ret (fv', s') /\
    k <= k' <= k + Z.of_nat n /\ fetching s0 k' s' /\ vars_at k' fv' s' /\
    (forall R, willing R -> R (w_dev s) -> k' = k + Z.of_nat n).
Proof.
  intros Hthr. induction n as [|n IH]; intros k s fv Hfi Hv Hroom Hfree; cbn [fetch_x1_loop].
  { exists fv, s, k. split; [done|]. split; [lia|]. split; [done|]. split; [done|]. intros. lia. }
  destruct Hv as (Hi & Ho & Hl). rewrite Ho. pose proof (fi_k _ _ _ Hfi).
  destruct (fetch_x1_step s0 k s (fv_mbuf1 fv) Hfi) as (s1 & -> & Hfi1 & Hpos & Hdev); [lia|lia|].
  cbn [mbind cres_mbind]. destruct (fi_done _ _ _ Hfi1 (from + k)) as (m0 & Hm0 & Hfl); [lia|].
  unfold mbuf_at. rewrite Hm0. cbn [mbind cres_mbind]. rewrite (fl_nb_segs _ _ _ Hfl).
  destruct (ws_flush stats 1 s1) as [b s2] eqn:Ef.
  destruct (flush_step s0 (k + 1) s1 1 b s2 Hfi1 Ef) as (Hfi2 & Hb & Hl2 & HR2).
  set (fv1 := Build_fetch_vars _ _ _ _).
  assert (vars_at (k + 1) fv1 s2) as Hv1.
  { split_and!; [cbn; lia|cbn; rewrite pos_wrap by (done || lia); f_equal; lia|]. intros _. cbn.
    split; [apply Hl2; by left|]. pose proof (wf_tail _ (fi_wf _ _ _ Hfi1)) as Ht. unfold is_u16 in Ht. lia. }
  destruct b; cbn [negb].
  - destruct (IH (k + 1) s2 fv1 Hfi2 Hv1) as (fv2 & s3 & k2 & E & Hk2 & Hfi3 & Hv2 & HR3); [lia|by apply Hb|].
    exists fv2, s3, k2. split; [done|]. split; [lia|]. split; [done|]. split; [done|].
    intros R HR HRd. rewrite (HR3 R HR); [lia|]. apply HR2; [done|]. by rewrite Hdev.
  - exists fv1, s2, (k + 1). split; [done|]. split; [lia|]. split; [done|]. split; [done|].
    intros R HR HRd. destruct (HR2 R HR) as [? _]; [by rewrite Hdev|done].
Qed.

(** *** The whole function

    [M] descriptors have been copied, [pend] more are in flight, and the ring
    holds descriptors up to [to]. *)
Record queue_at (M pend : Z) (m : store) : Prop := {
  qa_pos : 0 <= M /\ 0 <= pend /\ from = M + pend /\ to <= M + wq_sz q;
  qa_mbuf : m !! wq_sd_mbuf_off_p q = Some (ring_enc (wq_sz q) M);
  qa_pend : m !! wq_pend_sd_mbuf_p q = Some pend;
  qa_desc : m !! wq_sd_desc_off_p q = Some (ring_enc (wq_sz q) to);
}.

(** The state after [k] descriptors were taken in [s1] and the completion
    was attached to operation [idx]. *)
Definition fetch_result (pend k : Z) (s1 s' : wstate D P) : Prop :=
  if bool_decide (k = 0) then s' = s1
  else exists idx v, last_in idx (w_chan s1) /\ 0 <= idx /\
    dao_dma_update_cmpl_meta (w_chan s1) (wq_sd_mbuf_off_p q) (ring_enc (wq_sz q) (from + k))
      (wq_pend_sd_mbuf_p q) k idx = Ret v /\
    s' = put_dma v (w_dev s1) (put_cells (<[wq_pend_sd_mbuf_p q := pend + k]> (w_cells s1)) s1).

Lemma meta_room v idx : vchan_wf v -> 0 <= idx -> Forall (fun md => md_cnt md < DAO_DMA_MAX_POINTER) (mdata v) ->
  exists md, mdata v !! Z.to_nat (idx mod DAO_DMA_MAX_INFLIGHT_MDATA) = Some md /\ md_cnt md < DAO_DMA_MAX_POINTER.
Proof.
  intros Hwf Hi Hall. destruct (mdata_at v idx Hwf Hi) as (md & _ & _ & Hmd). exists md. split; [done|].
  by apply (Forall_lookup_1 _ _ _ _ Hall Hmd).
Qed.

Lemma fetch_exit_spec M pend k fv s s1 : queue_at M pend (w_cells s) -> fetching s k s1 -> vars_at k fv s1 ->
  Forall (fun md => md_cnt md < DAO_DMA_MAX_POINTER) (mdata (w_chan s)) ->
  exists s', fetch_exit q fv s1 = Ret s' /\ fetch_result pend k s1 s'.
Proof.
  intros [(HM & Hp & Hfrom & Hto) Qm Qp Qd] Hfi (Hi & _ & Hl) Hall. pose proof (fi_k _ _ _ Hfi) as Hk.
  pose proof (wq_sz_bounds q Hq). unfold fetch_exit, fetch_result.
  rewrite Hi, (u16_id k) by word. destruct (Z.eqb_spec k 0) as [->|Hne].
  { exists s1. by rewrite bool_decide_true. }
  rewrite bool_decide_false by done. destruct Hl as [Hl Hidx]; [lia|].
  rewrite (fi_cells _ _ _ Hfi). rewrite (mload_ret _ _ _ Qm), (mload_ret _ _ _ Qp). cbn [mbind cres_mbind].
  rewrite (mstore_ret _ _ _ _ Qp). cbn [mbind cres_mbind]. rewrite !u16_id by word.
  rewrite desc_off_add_enc by (apply Hq || lia). replace (M + (k + pend)) with (from + k) by lia.
  pose proof (fi_wf _ _ _ Hfi) as Hwf. rewrite <- (proj1 (proj2 (fi_frame _ _ _ Hfi))) in Hall.
  destruct (meta_room _ _ Hwf Hidx Hall) as (md & Hmd & Hcnt).
  rewrite (update_cmpl_meta_spec _ _ _ _ _ _ md) by done. cbn [mbind cres_mbind].
  eexists. split; [done|]. exists (fv_last_idx fv). eexists. split; [done|]. split; [done|].
  split; [by apply update_cmpl_meta_spec|]. done.
Qed.

Lemma fetch_host_ok M pend hint s : queue_at M pend (w_cells s) -> 0 <= hint < 0x10000 ->
  ring_at q from to addr meta (w_words s) -> (forall c, from <= c < to -> is_Some (w_mbufs s !! ring_buf q c)) ->
  vchan_wf (w_chan s) -> src_i (w_chan s) = dst_i (w_chan s) -> src_i (w_chan s) <= flush_thr (w_chan s) ->
  1 <= flush_thr (w_chan s) -> Forall (fun md => md_cnt md < DAO_DMA_MAX_POINTER) (mdata (w_chan s)) ->
  exists k s1 s', fetch_host_data stats q hint flags s = Ret (ring_enc (wq_sz q) M, s') /\
    k <= hint /\ fetching s k s1 /\ fetch_result pend k s1 s' /\
    (forall R, willing R -> R (w_dev s) -> k = Z.min (to - from) hint).
Proof.
  intros Hqa Hhint Hr Hb Hwf Hsy Hst Hthr Hall. destruct Hqa as [(HM & Hp & Hfrom & Hto) Qm Qp Qd] eqn:Eqa.
  pose proof (wq_sz_bounds q Hq). pose proof (fb_range Hf). pose proof (qo_size q Hq) as Hsz.
  assert (fetching s 0 s) as Hfi0.
  { split; cbn; rewrite ?app_nil_r; try done; try lia. exists meta. split_and!; [done|by left|lia]. }
  unfold fetch_host_data. rewrite (mload_ret _ _ _ Qm), (mload_ret _ _ _ Qd). cbn [mbind cres_mbind].
  assert (forall s', fetching s 0 s' -> (to - from = 0 \/ forall R, willing R -> R (w_dev s) -> False) ->
    exists k s1 s'', Ret (ring_enc (wq_sz q) M, s') = Ret (ring_enc (wq_sz q) M, s'') /\
    k <= hint /\ fetching s k s1 /\ fetch_result pend k s1 s'' /\
    (forall R, willing R -> R (w_dev s) -> k = Z.min (to - from) hint)) as Hnone.
  { intros s' Hfi Hor. exists 0, s', s'. split_and!; try done; try lia.
    intros R HR HRd. destruct Hor as [->|Hno]; [lia|]. by destruct (Hno R HR). }
  destruct (Z.eqb_spec (ring_enc (wq_sz q) to) (ring_enc (wq_sz q) M)) as [He|He].
  { apply enc_inj in He; [|done|lia]. apply Hnone; [done|]. left. lia. }
  rewrite (mload_ret _ _ _ Qp). cbn [mbind cres_mbind]. rewrite desc_off_diff_enc by (done || lia).
  replace (to - M - pend) with (to - from) by lia. rewrite u32_id by word.
  destruct (Z.eqb_spec (to - from) 0) as [Hz|Hz]; [by apply Hnone; [|left]|].
  rewrite desc_off_add_enc, DESC_OFF_enc, <- Hfrom by (done || lia).
  rewrite u16_id by (pose proof (Z.mod_pos_bound from (wq_sz q)); word).
  destruct (ws_flush stats 1 s) as [b s1] eqn:Ef. destruct (flush_step s 0 s 1 b s1 Hfi0 Ef) as (Hfi1 & _ & _ & HR1).
  destruct b; cbn [negb].
  2:{ apply Hnone; [done|]. right. intros R HR HRd. by destruct (HR1 R HR HRd). }
  unfold RTE_MIN. set (nb := Z.min (to - from) hint). set (fv0 := Build_fetch_vars _ _ _ _).
  assert (vars_at 0 fv0 s1) as Hv0 by (split_and!; [done|cbn; by rewrite Z.add_0_r|lia]).
  destruct (fetch_x4_loop_spec s Hthr (Z.to_nat (nb / 4)) 0 s1 fv0 Hfi1 Hv0) as (fv2 & s2 & k2 & -> & Hk2 & Hfi2 & Hv2 & HR2);
    [subst nb; word|]. cbn [mbind cres_mbind].
  destruct (ws_flush stats 1 s2) as [b s3] eqn:Ef3. destruct (flush_step s k2 s2 1 b s3 Hfi2 Ef3) as (Hfi3 & Hb3 & Hl3 & HR3).
  assert (vars_at k2 fv2 s3) as Hv3.
  { destruct Hv2 as (? & ? & Hl). split_and!; [done..|]. intros Hpos. destruct (Hl Hpos). split; [by apply Hl3|done]. }
  assert (k2 <= nb) by (subst nb; word).
  destruct b; cbn [negb].
  - rewrite (proj1 Hv3).
    destruct (fetch_x1_loop_spec s Hthr (Z.to_nat (nb - k2)) k2 s3 fv2 Hfi3 Hv3) as (fv4 & s4 & k4 & -> & Hk4 & Hfi4 & Hv4 & HR4);
      [lia|by apply Hb3|]. cbn [mbind cres_mbind].
    destruct (fetch_exit_spec M pend k4 fv4 s s4 Hqa Hfi4 Hv4 Hall) as (s5 & -> & Hres). cbn [mbind cres_mbind].
    exists k4, s4, s5. split_and!; try done; [lia|].
    intros R HR HRd. rewrite (HR4 R HR); [lia|]. apply HR3; [done|]. apply HR2; [done|]. by apply HR1.
  - destruct (fetch_exit_spec M pend k2 fv2 s s3 Hqa Hfi3 Hv3 Hall) as (s5 & -> & Hres). cbn [mbind cres_mbind].
    exists k2, s3, s5. split_and!; try done; [lia|].
    intros R HR HRd. destruct (HR3 R HR) as [? _]; [|done]. apply HR2; [done|]. by apply HR1.
Qed.
End fetching.

(** ** Packets of descriptors

    A packet is a run of descriptors in which all but the last have the NEXT
    flag. [split_pkts] gives the lengths of the complete packets in a list of
    NEXT flags, [spans] the first descriptor and length of each. *)
Fixpoint split_pkts (acc : nat) (l : list bool) : list nat :=
  match l with
  | [] => []
  | true :: l => split_pkts (S acc) l
  | false :: l => S acc :: split_pkts O l
  end.

Fixpoint spans (c : Z) (lens : list nat) : list (Z * Z) :=
  match lens with
  | [] => []
  | n :: l => (c, Z.of_nat n) :: spans (c + Z.of_nat n) l
  end.

Lemma split_run acc n l : split_pkts acc (replicate n true ++ false :: l) = (S (acc + n))%nat :: split_pkts O l.
Proof.
  revert acc. induction n as [|n IH]; intros acc; cbn; [by rewrite Nat.add_0_r|]. rewrite IH. do 2 f_equal. lia.
Qed.

Lemma split_all_next acc n : split_pkts acc (replicate n true) = [].
Proof. revert acc. induction n as [|n IH]; intros acc; [done|]. apply IH. Qed.

Lemma split_app acc l1 l2 : (acc + length l1 = sum_list (split_pkts acc l1))%nat ->
  split_pkts acc (l1 ++ l2) = split_pkts acc l1 ++ split_pkts O l2.
Proof.
  revert acc. induction l1 as [|[] l1 IH]; intros acc; cbn.
  - intros E. by assert (acc = O) as -> by lia.
  - intros E. apply IH. lia.
  - intros E. f_equal. apply IH. lia.
Qed.

Lemma spans_app c l1 l2 : spans c (l1 ++ l2) = spans c l1 ++ spans (c + Z.of_nat (sum_list l1)) l2.
Proof.
  revert c. induction l1 as [|n l1 IH]; intros c; cbn; [by rewrite Z.add_0_r|].
  rewrite IH. do 3 f_equal. lia.
Qed.

(** A packet in the buffers of descriptors [c .. c + n): a chain that holds
    the data of the descriptors without the virtio header. *)
Definition sum_len (len : Z -> Z) (c n : Z) : Z := foldr (fun c s => len c + s) 0 (seqZ c n).

Record packet (q : worker_queue) (len : Z -> Z) (b : mbufs) (c n : Z) : Prop := {
  pk_head : exists m, b !! ring_buf q c = Some m /\ nb_segs m = n /\
    pkt_len m = sum_len len c n - wq_hdr_sz q;
  pk_seg j : 0 <= j < n -> exists m, b !! ring_buf q (c + j) = Some m /\
    next m = (if bool_decide (j = n - 1) then 0 else ring_buf q (c + j + 1)) /\
    data_off m = RTE_PKTMBUF_HEADROOM + (if bool_decide (j = 0) then wq_hdr_sz q else 0) /\
    data_len m = len (c + j) - (if bool_decide (j = 0) then wq_hdr_sz q else 0) /\ refcnt m = 1;
}.

Lemma sum_len_snoc len c n : 0 <= n -> sum_len len c (n + 1) = sum_len len c n + len (c + n).
Proof.
  intros Hn. unfold sum_len. rewrite seqZ_app by lia. rewrite foldr_app.
  change (seqZ (c + n) 1) with [0 + (c + n)]. rewrite Z.add_0_l. cbn. rewrite Z.add_0_r.
  induction (seqZ c n) as [|y l IH]; cbn; [lia|]. rewrite IH. lia.
Qed.

Lemma sum_len_bound len c n B : 0 <= n -> (forall j, 0 <= j < n -> 0 <= len (c + j) <= B) ->
  0 <= sum_len len c n <= n * B.
Proof.
  intros Hn. pattern n. apply natlike_ind; [done| |done]. clear n Hn. intros n Hn IH Hl.
  rewrite <- Z.add_1_r, sum_len_snoc by done. specialize (Hl n ltac:(lia)) as Hln.
  assert (0 <= sum_len len c n <= n * B) by (apply IH; intros j Hj; apply Hl; lia). lia.
Qed.

Section packets.
Context (q : worker_queue) (Hq : queue_ok q) (lo hi : Z) (meta : Z -> Z).

(** The descriptors [lo <= c < hi] have distinct buffers and hold a header. *)
Record received : Prop := {
  rc_range : lo <= hi <= lo + wq_sz q;
  rc_len c : lo <= c < hi -> wq_hdr_sz q <= desc_len (meta c) < 0x10000;
  rc_distinct c c' : lo <= c < hi -> lo <= c' < hi -> ring_buf q c = ring_buf q c' -> c = c';
}.
Context (Hrc : received).

Notation len := (fun c => desc_len (meta c)).

(** [b'] differs from [b] only in the buffers of descriptors [from .. to). *)
Definition same_but (from to : Z) (b b' : mbufs) : Prop :=
  forall c, lo <= c < hi -> ~ from <= c < to -> b' !! ring_buf q c = b !! ring_buf q c.

Lemma same_but_trans from to to' b1 b2 b3 : to <= to' ->
  same_but from to b1 b2 -> same_but from to' b2 b3 -> same_but from to' b1 b3.
Proof. intros Hle H1 H2 c Hc Hn. rewrite H2 by lia. apply H1; lia. Qed.

Lemma buf_ne c c' : lo <= c < hi -> lo <= c' < hi -> c <> c' -> ring_buf q c <> ring_buf q c'.
Proof. intros Hc Hc' Hne E. by apply Hne, (rc_distinct Hrc). Qed.

(** A buffer that was just filled is a packet of one segment. *)
Lemma packet_one b c m : lo <= c < hi -> b !! ring_buf q c = Some m -> filled q (meta c) m -> packet q len b c 1.
Proof.
  intros Hc Hm []. split.
  - exists m. split_and!; [done..|]. unfold sum_len. change (seqZ c 1) with [0 + c]. rewrite Z.add_0_l. cbn. lia.
  - intros j Hj. assert (j = 0) as -> by lia. exists m. rewrite Z.add_0_r. by split_and!.
Qed.

(** A turn of the chaining loop, on the buffers: [m0] is the head, [m1] the
    last segment and [m2] the one to append. *)
Lemma chain_turn b c n m0 m1 m2 : lo <= c -> 1 <= n -> c + n < hi ->
  b !! ring_buf q c = Some m0 -> b !! ring_buf q (c + n - 1) = Some m1 -> b !! ring_buf q (c + n) = Some m2 ->
  next m1 = 0 ->
  let h := wq_hdr_sz q in
  let m2' := set_lens (nb_segs m2) (pkt_len m2 + h) (data_len m2 + h) m2 in
  let m0' := if bool_decide (n = 1) then set_next (ring_buf q (c + n)) m0 else m0 in
  exists b', (forall k fuel, chain_segs (S k) fuel q (ring_buf q c) (ring_buf q (c + n - 1)) ((c + n - 1) mod wq_sz q) b =
      chain_segs k fuel q (ring_buf q c) (ring_buf q (c + n)) ((c + n) mod wq_sz q) b') /\
    forall c', lo <= c' < hi -> b' !! ring_buf q c' =
      if bool_decide (c' = c + n) then Some (set_rearm rearm_data m2')
      else if bool_decide (c' = c) then
        Some (set_lens (nb_segs m0' + nb_segs m2') (pkt_len m0' + pkt_len m2') (data_len m0') m0')
      else if bool_decide (c' = c + n - 1) then Some (set_next (ring_buf q (c + n)) m1)
      else b !! ring_buf q c'.
Proof.
  intros Hlo Hn Hhi H0 H1 H2 Hnx h m2' m0'.
  assert (ring_buf q (c + n) <> ring_buf q (c + n - 1)) as N1 by (apply buf_ne; lia).
  assert (ring_buf q (c + n) <> ring_buf q c) as N2 by (apply buf_ne; lia).
  set (b1 := <[ring_buf q (c + n - 1) := set_next (ring_buf q (c + n)) m1]> b).
  set (b2 := <[ring_buf q (c + n) := m2']> b1).
  assert (b2 !! ring_buf q c = Some m0') as E0.
  { unfold b2, b1, m0'. rewrite lookup_insert_ne by done. case_bool_decide as Hn1.
    - subst n. replace (c + 1 - 1) with c in * by lia. rewrite lookup_insert_eq. by simplify_eq.
    - rewrite lookup_insert_ne; [done|]. apply buf_ne; lia. }
  exists (<[ring_buf q (c + n) := set_rearm rearm_data m2']>
      (<[ring_buf q c := set_lens (nb_segs m0' + nb_segs m2') (pkt_len m0' + pkt_len m2') (data_len m0') m0']> b2)).
  split.
  - intros k fuel. cbn [chain_segs]. destruct fuel; cbn [last_seg]; unfold mbuf_at at 1; rewrite H1; cbn [mbind cres_mbind];
      rewrite Hnx; cbn [Z.eqb obind mbind cres_mbind].
    all: rewrite pos_wrap by (done || lia); replace (c + n - 1 + 1) with (c + n) by lia; rewrite (get_buf q Hq);
      cbn [mbind cres_mbind]; unfold mbuf_upd, mbuf_at.
    all: rewrite H1; cbn [mbind cres_mbind]; fold b1;
      assert (b1 !! ring_buf q (c + n) = Some m2) as -> by (unfold b1; by rewrite lookup_insert_ne);
      cbn [mbind cres_mbind]; fold h m2' b2; assert (b2 !! ring_buf q (c + n) = Some m2') as -> by apply lookup_insert_eq;
      cbn [mbind cres_mbind]; rewrite E0; cbn [mbind cres_mbind]; rewrite lookup_insert_ne by done;
      assert (b2 !! ring_buf q (c + n) = Some m2') as -> by apply lookup_insert_eq; done.
  - intros c' Hc'. unfold b2, b1. repeat case_bool_decide; subst.
    + by rewrite lookup_insert_eq.
    + rewrite lookup_insert_ne, lookup_insert_eq by done. done.
    + do 3 (rewrite lookup_insert_ne by (apply buf_ne; lia)). by rewrite lookup_insert_eq.
    + by rewrite !lookup_insert_ne by (apply buf_ne; lia).
Qed.

Lemma rearm_default m : data_off (set_rearm rearm_data m) = RTE_PKTMBUF_HEADROOM /\ refcnt (set_rearm rearm_data m) = 1.
Proof. done. Qed.

Lemma chain_grow b c n m2 : lo <= c -> 1 <= n -> c + n < hi -> packet q len b c n ->
  b !! ring_buf q (c + n) = Some m2 -> filled q (meta (c + n)) m2 ->
  exists b', (forall k fuel, chain_segs (S k) fuel q (ring_buf q c) (ring_buf q (c + n - 1)) ((c + n - 1) mod wq_sz q) b =
      chain_segs k fuel q (ring_buf q c) (ring_buf q (c + n)) ((c + n) mod wq_sz q) b') /\
    packet q len b' c (n + 1) /\ same_but c (c + n + 1) b b'.
Proof.
  intros Hlo Hn Hhi [(m0 & H0 & Hs0 & Hp0) Hseg] H2 Hfl.
  destruct (Hseg (n - 1)) as (m1 & H1 & Hnx & _); [lia|]. rewrite bool_decide_true in Hnx by done.
  destruct (Hseg 0) as (m0' & H0' & Hnx0 & Hdo0 & Hdl0 & Hrf0); [lia|]. rewrite Z.add_0_r in H0', Hdl0.
  rewrite bool_decide_true in Hdo0, Hdl0 by done.
  assert (m0' = m0) as -> by congruence. cbv beta in *.
  replace (c + (n - 1)) with (c + n - 1) in H1 by lia.
  destruct (chain_turn b c n m0 m1 m2 Hlo Hn Hhi H0 H1 H2 Hnx) as (b' & Estep & Hb').
  exists b'. split; [done|]. destruct Hfl as [F1 F2 F3 F4 F5 F6 F7].
  pose proof (rc_range Hrc). pose proof (wq_sz_bounds q Hq). pose proof (qo_hdr q Hq).
  pose proof (rc_len Hrc (c + n) ltac:(lia)) as Hl2. pose proof (rc_len Hrc c ltac:(lia)) as Hl0.
  assert (0 <= sum_len len c (n) <= n * 0xFFFF) as Hsum.
  { apply sum_len_bound; [lia|]. intros j Hj. pose proof (rc_len Hrc (c + j) ltac:(lia)). lia. }
  assert (wq_hdr_sz q <= sum_len len c (n)).
  { replace (n) with (1 + (n - 1)) by lia. unfold sum_len. rewrite seqZ_app by lia.
    change (seqZ c 1) with [0 + c]. rewrite Z.add_0_l. cbn.
    destruct (sum_len_bound len (c + 1) (n - 1) 0xFFFF) as [Hr _]; [lia| |unfold sum_len in Hr; lia].
    intros j Hj. pose proof (rc_len Hrc (c + 1 + j) ltac:(lia)). lia. }
  split; [split|].
  - rewrite Hb', bool_decide_false, bool_decide_true by lia. eexists. split; [done|]. cbn.
    split; [case_bool_decide; cbn; rewrite F3, Hs0; word|]. rewrite sum_len_snoc by lia.
    case_bool_decide; cbn; rewrite Hp0, F6; word.
  - intros j Hj. rewrite Hb' by lia. destruct (decide (j = n)) as [->|Hjn].
    { rewrite !(bool_decide_true (_ = _)), !(bool_decide_false (n = 0)) by lia. rewrite ?(bool_decide_true (n = n + 1 - 1)) by lia. eexists. split; [done|].
      destruct (rearm_default (set_lens (nb_segs m2) (pkt_len m2 + wq_hdr_sz q) (data_len m2 + wq_hdr_sz q) m2)) as [R1 R2].
      split; [cbn; done|]. split; [rewrite R1; lia|]. split; [cbn; rewrite F7; word|done]. }
    rewrite (bool_decide_false (c + j = c + n)), (bool_decide_false (j = n + 1 - 1)) by lia.
    destruct (decide (j = 0)) as [->|Hj0].
    { rewrite !Z.add_0_r, (bool_decide_true (c = c)), !(bool_decide_true (0 = 0)) by lia. eexists. split; [done|].
      split; [|split; [by case_bool_decide|split; [cbn; case_bool_decide; cbn; rewrite Hdl0; word|by case_bool_decide]]].
      cbn. case_bool_decide as H1n; cbn; [by rewrite H1n|]. rewrite Hnx0, bool_decide_false by lia. by rewrite Z.add_0_r. }
    rewrite (bool_decide_false (c + j = c)), !(bool_decide_false (j = 0)) by lia.
    destruct (Hseg j) as (mj & Hmj & Hnj & Hdj & Hlj & Hrj); [lia|]. rewrite !(bool_decide_false (j = 0)) in Hdj, Hlj by lia.
    destruct (decide (j = n - 1)) as [Hlast|Hlast].
    + rewrite bool_decide_true by lia. replace (c + j) with (c + n - 1) in * by lia. assert (mj = m1) as -> by congruence. eexists. split; [done|].
      split_and!; [cbn; f_equal; lia|done..].
    + rewrite bool_decide_false by lia. exists mj. rewrite Hnj, bool_decide_false by lia. by split_and!.
  - intros c' Hc' Hout. rewrite Hb' by done. by rewrite !bool_decide_false by lia.
Qed.

Lemma chain_segs_spec c fuel : lo <= c -> forall k n b, 1 <= n -> c + n + Z.of_nat k <= hi -> packet q len b c n ->
  (forall c', c + n <= c' < c + n + Z.of_nat k -> exists m, b !! ring_buf q c' = Some m /\ filled q (meta c') m) ->
  exists b', chain_segs k fuel q (ring_buf q c) (ring_buf q (c + n - 1)) ((c + n - 1) mod wq_sz q) b =
      Ret (Some ((c + n + Z.of_nat k - 1) mod wq_sz q, b')) /\
    packet q len b' c (n + Z.of_nat k) /\ same_but c (c + n + Z.of_nat k) b b'.
Proof.
  intros Hlo. induction k as [|k IH]; intros n b Hn Hhi Hp Hfl.
  { exists b. rewrite !Z.add_0_r. by split_and!. }
  destruct (Hfl (c + n)) as (m2 & H2 & Hf2); [lia|].
  destruct (chain_grow b c n m2) as (b1 & E1 & Hp1 & Hs1); [done|lia|lia|done..|].
  destruct (IH (n + 1) b1) as (b2 & E2 & Hp2 & Hs2); [lia|lia|done| |].
  { intros c' Hc'. rewrite Hs1 by lia. apply Hfl. lia. }
  exists b2. rewrite E1. replace (c + (n + 1) - 1) with (c + n) in E2 by lia. rewrite E2.
  replace (c + (n + 1) + Z.of_nat k) with (c + n + Z.of_nat (S k)) in * by lia.
  replace (n + 1 + Z.of_nat k) with (n + Z.of_nat (S k)) in * by lia.
  split; [done|]. split; [done|]. eapply same_but_trans; [|done..]. lia.
Qed.

(** *** Scanning for the end of a packet *)
Context (w : store) (x : Z -> Z).

(** The words of all descriptors of the ring, and their NEXT flags. *)
Definition ring_full : Prop := forall c, is_u64 (x c) /\
  is_Some (w !! desc_pos q c) /\ w !! (desc_pos q c + 8) = Some (x c).
Context (Hfull : ring_full).

Definition has_next (c : Z) : bool := Z.testbit (x c) 48.

Lemma desc_next_spec c : desc_next w (wq_sd_desc_base q) (c mod wq_sz q) = Ret (b2z (has_next c)).
Proof.
  destruct (Hfull c) as (_ & _ & Hx). unfold desc_next. rewrite (pos_ptr q Hq) by done.
  rewrite (mload_ret _ _ _ Hx). cbn [mbind cres_mbind]. f_equal. unfold VRING_DESC_F_NEXT, has_next.
  change 1 with (Z.ones 1). rewrite Z.land_ones by done. change (2 ^ 1) with 2.
  rewrite <- Z.bit0_mod, Z.shiftr_spec by done. change (0 + 48) with 48. by destruct (Z.testbit (x c) 48).
Qed.

Lemma count_segs_spec : forall n fuel c segs, (n <= fuel)%nat -> 0 <= segs -> segs + Z.of_nat n < 0x10000 ->
  (forall j, 0 <= j < Z.of_nat n -> has_next (c + j) = true) -> has_next (c + Z.of_nat n) = false ->
  count_segs fuel q w (c mod wq_sz q) (b2z (has_next c)) segs = Ret (Some (segs + Z.of_nat n)).
Proof.
  induction n as [|n IH]; intros fuel c segs Hfu Hs Hmax Hnx Hend.
  - rewrite Z.add_0_r in *. rewrite Hend. by destruct fuel.
  - destruct fuel as [|fuel]; [lia|]. pose proof (Hnx 0 ltac:(lia)) as H0. rewrite Z.add_0_r in H0. rewrite H0.
    cbn [count_segs b2z Z.eqb]. rewrite pos_wrap, desc_next_spec by (done || lia). cbn [mbind cres_mbind].
    rewrite (IH fuel (c + 1) (u16 (segs + 1))); [|lia|word|word| |].
    + do 2 f_equal. word.
    + intros j Hj. rewrite <- Z.add_assoc. apply Hnx. lia.
    + rewrite <- Z.add_assoc. by replace (1 + Z.of_nat n) with (Z.of_nat (S n)) by lia.
Qed.

Lemma has_next_ring c j : has_next (c + wq_sz q * j) = has_next c.
Proof.
  unfold has_next. rewrite (Z.mul_comm (wq_sz q)). destruct (Hfull (c + j * wq_sz q)) as (_ & _ & H1), (Hfull c) as (_ & _ & H2).
  unfold desc_pos in *. rewrite Z_mod_plus_full in H1. congruence.
Qed.

(** A ring that is not all NEXT has an end of packet from everywhere. *)
Lemma packet_end e c : has_next e = false ->
  exists n, Z.of_nat n < wq_sz q /\ (forall j, 0 <= j < Z.of_nat n -> has_next (c + j) = true) /\
    has_next (c + Z.of_nat n) = false.
Proof.
  intros He. pose proof (wq_sz_bounds q Hq).
  assert (forall k, (exists n, (n < k)%nat /\ (forall j, 0 <= j < Z.of_nat n -> has_next (c + j) = true) /\
      has_next (c + Z.of_nat n) = false) \/ forall j, 0 <= j < Z.of_nat k -> has_next (c + j) = true) as Hsearch.
  { induction k as [|k [(n & Hn & Hr)|IH]]; [right; lia|left; exists n; split; [lia|done]|].
    destruct (has_next (c + Z.of_nat k)) eqn:E.
    - right. intros j Hj. destruct (decide (j = Z.of_nat k)) as [->|]; [done|]. apply IH. lia.
    - left. exists k. split; [lia|done]. }
  destruct (Hsearch (Z.to_nat (wq_sz q))) as [(n & Hn & Hr)|Hall]; [exists n; split; [lia|done]|].
  exfalso. pose proof (Z.mod_pos_bound (e - c) (wq_sz q) ltac:(lia)) as Hb.
  specialize (Hall ((e - c) mod wq_sz q) ltac:(lia)). pose proof (Z.div_mod (e - c) (wq_sz q) ltac:(lia)) as Hd.
  replace (c + (e - c) mod wq_sz q) with (e + wq_sz q * (- ((e - c) / wq_sz q))) in Hall by lia.
  rewrite has_next_ring in Hall. congruence.
Qed.

(** *** Packets in the buffers *)

Lemma spans_range lens : forall a c n, (c, n) ∈ spans a lens -> Forall (fun k => (1 <= k)%nat) lens ->
  a <= c /\ 1 <= n /\ c + n <= a + Z.of_nat (sum_list lens).
Proof.
  induction lens as [|k lens IH]; intros a c n Hin Hall; cbn in Hin; [by apply elem_of_nil in Hin|].
  apply list.Forall_cons in Hall as [Hk Hall]. apply elem_of_cons in Hin as [[= -> ->]|Hin]; cbn; [lia|].
  destruct (IH _ _ _ Hin Hall). lia.
Qed.

Lemma split_pos acc l : Forall (fun k => (1 <= k)%nat) (split_pkts acc l).
Proof. revert acc. induction l as [|[] l IH]; intros acc; cbn; [done..|]. constructor; [lia|done]. Qed.

Lemma packet_same from to b b' c n : packet q len b c n -> same_but from to b b' -> lo <= c -> 1 <= n ->
  c + n <= hi -> c + n <= from \/ to <= c -> packet q len b' c n.
Proof.
  intros [Hh Hs] Hsame Hlo Hn Hhi Hout. split.
  - destruct Hh as (m & Hm & Hr). exists m. rewrite Hsame by lia. done.
  - intros j Hj. destruct (Hs j Hj) as (m & Hm & Hr). exists m. rewrite Hsame by lia. done.
Qed.

(** Updates that leave the fields a packet is made of. *)
Definition inert (f : rte_mbuf -> rte_mbuf) : Prop := forall m,
  nb_segs (f m) = nb_segs m /\ pkt_len (f m) = pkt_len m /\ next (f m) = next m /\
  data_off (f m) = data_off m /\ data_len (f m) = data_len m /\ refcnt (f m) = refcnt m.

Lemma packet_inert b c n p m f : packet q len b c n -> b !! p = Some m -> inert f ->
  packet q len (<[p := f m]> b) c n.
Proof.
  intros [Hh Hs] Hp Hf. destruct (Hf m) as (F1 & F2 & F3 & F4 & F5 & F6).
  assert (forall k mk, b !! k = Some mk -> exists mk', <[p := f m]> b !! k = Some mk' /\
    nb_segs mk' = nb_segs mk /\ pkt_len mk' = pkt_len mk /\ next mk' = next mk /\
    data_off mk' = data_off mk /\ data_len mk' = data_len mk /\ refcnt mk' = refcnt mk) as Hk.
  { intros k mk Hmk. destruct (decide (p = k)) as [->|Hne].
    - rewrite lookup_insert_eq. exists (f m). simplify_eq. by split_and!.
    - rewrite lookup_insert_ne by done. exists mk. by split_and!. }
  split.
  - destruct Hh as (mh & Hm & E1 & E2). destruct (Hk _ _ Hm) as (mh' & Hm' & G1 & G2 & _).
    exists mh'. split_and!; congruence.
  - intros j Hj. destruct (Hs j Hj) as (mj & Hm & E1 & E2 & E3 & E4).
    destruct (Hk _ _ Hm) as (mj' & Hm' & _ & _ & G3 & G4 & G5 & G6). exists mj'. split_and!; congruence.
Qed.

(** [i] descriptors have been made packets, with the heads [out]. *)
Definition pkts_to (i : Z) : list nat := split_pkts O (has_next <$> seqZ lo i).

Record posted (i : Z) (out : list Z) (b : mbufs) : Prop := {
  po_i : 0 <= i <= hi - lo;
  po_sum : Z.of_nat (sum_list (pkts_to i)) = i;
  po_pkts c n : (c, n) ∈ spans lo (pkts_to i) -> packet q len b c n;
  po_out : out = (fun s => ring_buf q s.1) <$> spans lo (pkts_to i);
  po_rest c : lo + i <= c < hi -> exists m, b !! ring_buf q c = Some m /\ filled q (meta c) m;
  po_bufs c : lo <= c < hi -> is_Some (b !! ring_buf q c);
}.

Lemma next_all c n : (forall j, 0 <= j < n -> has_next (c + j) = true) ->
  has_next <$> seqZ c n = replicate (Z.to_nat n) true.
Proof.
  intros Hnx. apply list_eq. intros k. rewrite list_lookup_fmap. destruct (decide (Z.of_nat k < n)).
  - rewrite (proj2 (lookup_seqZ _ _ _ (c + Z.of_nat k))) by lia. cbn [fmap option_fmap option_map].
    rewrite Hnx by lia. symmetry. apply lookup_replicate. split; [done|lia].
  - rewrite lookup_seqZ_ge by lia. symmetry. apply lookup_replicate_None. lia.
Qed.

Lemma next_run i n : 0 <= i -> 1 <= n -> (forall j, 0 <= j < n - 1 -> has_next (lo + i + j) = true) ->
  has_next (lo + i + (n - 1)) = false ->
  has_next <$> seqZ lo (i + n) = (has_next <$> seqZ lo i) ++ (replicate (Z.to_nat (n - 1)) true ++ [false]).
Proof.
  intros Hi Hn Hnx Hend. rewrite seqZ_app, fmap_app by lia. f_equal.
  replace n with ((n - 1) + 1) at 1 by lia. rewrite seqZ_app, fmap_app by lia. f_equal.
  - by apply next_all.
  - change (seqZ (lo + i + (n - 1)) 1) with [0 + (lo + i + (n - 1))]. rewrite Z.add_0_l.
    cbn [fmap list_fmap]. by rewrite Hend.
Qed.

Lemma pkts_to_snoc i n : 0 <= i -> 1 <= n -> Z.of_nat (sum_list (pkts_to i)) = i ->
  (forall j, 0 <= j < n - 1 -> has_next (lo + i + j) = true) -> has_next (lo + i + (n - 1)) = false ->
  pkts_to (i + n) = pkts_to i ++ [Z.to_nat n].
Proof.
  intros Hi Hn Hsum Hnx Hend. unfold pkts_to. rewrite next_run by done.
  rewrite split_app by (rewrite length_fmap, length_seqZ; unfold pkts_to in Hsum; lia).
  f_equal. rewrite split_run. cbn. do 2 f_equal. lia.
Qed.

(** An open packet at the end does not count. *)
Lemma pkts_to_open i n : 0 <= i -> 0 <= n -> Z.of_nat (sum_list (pkts_to i)) = i ->
  (forall j, 0 <= j < n -> has_next (lo + i + j) = true) -> pkts_to (i + n) = pkts_to i.
Proof.
  intros Hi Hn Hsum Hnx. unfold pkts_to in *. rewrite seqZ_app, fmap_app by lia.
  rewrite split_app by (rewrite length_fmap, length_seqZ; lia).
  by rewrite (next_all (lo + i)), split_all_next, app_nil_r.
Qed.

Lemma posted_extend i out b b' n : posted i out b -> 1 <= n -> i + n <= hi - lo ->
  (forall j, 0 <= j < n - 1 -> has_next (lo + i + j) = true) -> has_next (lo + i + (n - 1)) = false ->
  packet q len b' (lo + i) n -> same_but (lo + i) (lo + i + n) b b' ->
  posted (i + n) (out ++ [ring_buf q (lo + i)]) b'.
Proof.
  intros [Hi Hsum Hp Hout Hrest Hbufs] Hn Hroom Hnx Hend Hpk Hsame.
  assert (pkts_to (i + n) = pkts_to i ++ [Z.to_nat n]) as Et by (apply pkts_to_snoc; [lia|done..]).
  split.
  - lia.
  - rewrite Et, sum_list_with_app. cbn. lia.
  - intros c k. rewrite Et, spans_app, elem_of_app, Hsum. intros [Hin|Hin].
    + destruct (spans_range _ _ _ _ Hin (split_pos _ _)) as (H1 & H2 & H3). fold (pkts_to i) in H3.
      apply (packet_same (lo + i) (lo + i + n) b); [by apply Hp|done|lia..].
    + cbn in Hin. apply list_elem_of_singleton in Hin as [= -> ->]. by rewrite Z2Nat.id by lia.
  - by rewrite Et, spans_app, fmap_app, Hsum, Hout.
  - intros c Hc. rewrite Hsame by lia. apply Hrest. lia.
  - intros c Hc. destruct (decide (lo + i <= c < lo + i + n)); [|rewrite Hsame by lia; by apply Hbufs].
    destruct (pk_seg _ _ _ _ _ Hpk (c - (lo + i))) as (m & Hm & _); [lia|].
    replace (lo + i + (c - (lo + i))) with c in Hm by lia. by rewrite Hm.
Qed.

Lemma posted_inert i out b c m f : posted i out b -> lo <= c < lo + i -> b !! ring_buf q c = Some m -> inert f ->
  posted i out (<[ring_buf q c := f m]> b).
Proof.
  intros [Hi Hsum Hp Hout Hrest Hbufs] Hc Hm Hf. split; try done.
  - intros c' n Hin. apply packet_inert; [by apply Hp|done..].
  - intros c' Hc'. rewrite lookup_insert_ne by (apply buf_ne; lia). by apply Hrest.
  - intros c' Hc'. apply lookup_insert_is_Some'. right. by apply Hbufs.
Qed.

(** *** The vector loop *)

Lemma lanes_no_next y z : is_u64 y -> is_u64 z ->
  (Z.land (Z.lor (Z.shiftr y 32) (Z.shiftl (Z.shiftr z 32) 32)) 0x0001000000010000 =? 0) = true ->
  Z.testbit y 48 = false /\ Z.testbit z 48 = false.
Proof.
  intros Hy Hz E. apply Z.eqb_eq in E. split.
  - assert (Z.testbit 0 16 = Z.testbit y 48) as <-; [|done]. rewrite <- E.
    rewrite Z.land_spec, Z.lor_spec, Z.shiftr_spec, Z.shiftl_spec, (Z.testbit_neg_r _ (16 - 32)) by lia.
    change (Z.testbit 0x0001000000010000 16) with true. by rewrite orb_false_r, andb_true_r.
  - assert (Z.testbit 0 48 = Z.testbit z 48) as <-; [|done]. rewrite <- E.
    rewrite Z.land_spec, Z.lor_spec, Z.shiftr_spec, Z.shiftl_spec, Z.shiftr_spec by lia.
    change (Z.testbit 0x0001000000010000 48) with true.
    rewrite (testbit_small y 64) by ((by apply u64_pow2) || lia). by rewrite andb_true_r.
Qed.

Lemma x4_no_next x0 x1 x2 x3 : is_u64 x0 -> is_u64 x1 -> is_u64 x2 -> is_u64 x3 ->
  let f := vceqzq_u64 (vandq_u64 (as_u64 (vtrn2q_u32 (as_u32 (V2 x0 x1)) (as_u32 (V2 x2 x3))))
             (vdupq_n_u64 0x0001000000010000)) in
  (q0 f =? 0) || (q1 f =? 0) = false ->
  Z.testbit x0 48 = false /\ Z.testbit x1 48 = false /\ Z.testbit x2 48 = false /\ Z.testbit x3 48 = false.
Proof.
  intros U0 U1 U2 U3 f. unfold f, vceqzq_u64, vandq_u64, map2_64, as_u64, vtrn2q_u32, as_u32, vdupq_n_u64.
  cbn [q0 q1 s0 s1 s2 s3]. rewrite !all64_true. intros E. apply orb_false_iff in E as [E1 E2].
  apply negb_false_iff in E1, E2. apply lanes_no_next in E1 as [-> ->]; [|done..].
  by apply lanes_no_next in E2 as [-> ->].
Qed.

Lemma set_csum_inert ol tx : inert (set_csum ol tx).
Proof. done. Qed.

Lemma csum_x1_inert mem32 flags a : inert (csum_x1 mem32 flags a).
Proof.
  intros m. unfold csum_x1. destruct (_ || _); [done|].
  repeat match goal with |- context [if ?b then _ else _] => destruct b end; done.
Qed.

(** Four packets of one descriptor. *)
Lemma posted_four i out b : posted i out b -> i + 4 <= hi - lo ->
  (forall j, 0 <= j < 4 -> has_next (lo + i + j) = false) ->
  posted (i + 4) (out ++ [ring_buf q (lo + i); ring_buf q (lo + i + 1); ring_buf q (lo + i + 2); ring_buf q (lo + i + 3)]) b.
Proof.
  assert (forall i out, posted i out b -> i + 1 <= hi - lo -> has_next (lo + i) = false ->
    posted (i + 1) (out ++ [ring_buf q (lo + i)]) b) as Hone.
  { intros i' out' Hpo Hroom Hnx. destruct (po_i _ _ _ Hpo). destruct (po_rest _ _ _ Hpo (lo + i')) as (m & Hm & Hfl); [lia|].
    apply (posted_extend i' out' b b 1); [done|lia|lia|lia| |by apply (packet_one b _ m); [lia|..]|done].
    by replace (lo + i' + (1 - 1)) with (lo + i') by lia. }
  intros Hpo Hroom Hnx. destruct (po_i _ _ _ Hpo).
  pose proof (Hnx 0 ltac:(lia)) as N0. rewrite Z.add_0_r in N0.
  apply Hone in Hpo; [|lia|done]. pose proof (Hnx 1 ltac:(lia)) as N1. rewrite <- Z.add_assoc in N1.
  apply Hone in Hpo; [|lia|done]. pose proof (Hnx 2 ltac:(lia)) as N2. rewrite <- Z.add_assoc in N2.
  replace (i + 1 + 1) with (i + 2) in Hpo by lia. apply Hone in Hpo; [|lia|done].
  pose proof (Hnx 3 ltac:(lia)) as N3. rewrite <- Z.add_assoc in N3.
  replace (i + 2 + 1) with (i + 3) in Hpo by lia. apply Hone in Hpo; [|lia|done].
  replace (i + 3 + 1) with (i + 4) in Hpo by lia. rewrite <- !app_assoc in Hpo. cbn in Hpo.
  by rewrite <- !(Z.add_assoc lo).
Qed.

Context (mem32 : Z -> Z) (flags : Z).

Lemma ld_full c : exists a, ld_desc w (wq_sd_desc_base q) (c mod wq_sz q) = Ret (V2 a (x c)).
Proof.
  destruct (Hfull c) as (_ & [a Ha] & Hx). exists a. unfold ld_desc. rewrite !(pos_ptr q Hq) by done.
  by rewrite Z.add_0_r, (mload_ret _ _ _ Ha), (mload_ret _ _ _ Hx).
Qed.

Lemma posted_upd i out b c f : posted i out b -> lo <= c < lo + i -> inert f ->
  exists b', mbuf_upd (ring_buf q c) f b = Ret b' /\ posted i out b'.
Proof.
  intros Hpo Hc Hf. destruct (po_i _ _ _ Hpo). destruct (po_bufs _ _ _ Hpo c) as [m Hm]; [lia|].
  exists (<[ring_buf q c := f m]> b). split; [|by apply posted_inert].
  unfold mbuf_upd, mbuf_at. by rewrite Hm.
Qed.

Lemma post_x4_step i out b : posted i out b -> i + 4 <= hi - lo ->
  post_x4 mem32 q flags ((lo + i) mod wq_sz q) w b = Ret None \/
  exists l b', post_x4 mem32 q flags ((lo + i) mod wq_sz q) w b = Ret (Some (l, b')) /\ posted (i + 4) (out ++ l) b'.
Proof.
  intros Hpo Hroom. set (c := lo + i). destruct (po_i _ _ _ Hpo).
  unfold post_x4. destruct (wq_sz q <=? c mod wq_sz q + 3) eqn:Eend; [by left|]. reflect_bool.
  rewrite !(pos_step q Hq c) by lia.
  destruct (ld_full c) as [a0 ->], (ld_full (c + 1)) as [a1 ->], (ld_full (c + 2)) as [a2 ->], (ld_full (c + 3)) as [a3 ->].
  cbn [mbind cres_mbind]. unfold vzip1q_u64, vzip2q_u64. cbn [q0 q1].
  destruct (_ || _) eqn:Enx; [by left|].
  apply x4_no_next in Enx as (N0 & N1 & N2 & N3); [|apply Hfull..].
  assert (posted (i + 4) (out ++ [ring_buf q c; ring_buf q (c + 1); ring_buf q (c + 2); ring_buf q (c + 3)]) b) as Hpo4.
  { apply posted_four; [done|lia|]. intros j Hj. unfold has_next.
    assert (j = 0 \/ j = 1 \/ j = 2 \/ j = 3) as [->|[->|[->| ->]]] by lia; [by rewrite Z.add_0_r|done..]. }
  assert (ld_ptrs (wq_mbuf_arr q) (c mod wq_sz q) = Ret (V2 (ring_buf q c) (ring_buf q (c + 1)))) as ->.
  { unfold ld_ptrs. rewrite (pos_step q Hq c) by lia. by rewrite !(get_buf q Hq). }
  assert (ld_ptrs (wq_mbuf_arr q) ((c + 2) mod wq_sz q) = Ret (V2 (ring_buf q (c + 2)) (ring_buf q (c + 3)))) as ->.
  { unfold ld_ptrs. rewrite <- (pos_step q Hq c) by lia. rewrite <- Z.add_assoc, !(pos_step q Hq c) by lia.
    by rewrite !(get_buf q Hq). }
  cbn [mbind cres_mbind q0 q1]. destruct (has_flag flags DEQ_CHECKSUM); cbn [negb].
  2:{ right. eexists. eexists. by split. }
  destruct (_ && _); [by left|]. destruct (csum_x4 _ _ _ _) as [ol tx].
  destruct (posted_upd _ _ _ c (set_csum (s0 ol) (s0 tx)) Hpo4) as (b1 & -> & P1); [lia|done|]. cbn [mbind cres_mbind].
  destruct (posted_upd _ _ _ (c + 1) (set_csum (s1 ol) (s1 tx)) P1) as (b2 & -> & P2); [lia|done|]. cbn [mbind cres_mbind].
  destruct (posted_upd _ _ _ (c + 2) (set_csum (s2 ol) (s2 tx)) P2) as (b3 & -> & P3); [lia|done|]. cbn [mbind cres_mbind].
  destruct (posted_upd _ _ _ (c + 3) (set_csum (s3 ol) (s3 tx)) P3) as (b4 & -> & P4); [lia|done|]. cbn [mbind cres_mbind].
  right. eexists. eexists. by split.
Qed.

Lemma post_x4_loop_spec : forall n i out b, posted i out b -> i + 4 * Z.of_nat n <= hi - lo ->
  exists i' out' b', post_x4_loop mem32 n q flags i ((lo + i) mod wq_sz q) out w b =
    Ret (i', (lo + i') mod wq_sz q, out', b') /\ i <= i' /\ posted i' out' b'.
Proof.
  induction n as [|n IH]; intros i out b Hpo Hroom; cbn [post_x4_loop].
  { exists i, out, b. split; [done|]. split; [lia|done]. }
  destruct (post_x4_step i out b Hpo) as [->|(l & b1 & -> & Hpo1)]; [lia|..]; cbn [mbind cres_mbind].
  { exists i, out, b. split; [done|]. split; [lia|done]. }
  rewrite pos_wrap by (done || lia). rewrite <- Z.add_assoc.
  destruct (IH (i + 4) (out ++ l) b1 Hpo1) as (i2 & out2 & b2 & E & Hi & Hpo2); [lia|].
  exists i2, out2, b2. split; [done|]. split; [lia|done].
Qed.

(** *** The scalar loop *)
Lemma post_x1_loop_spec e fuel : has_next e = false -> wq_sz q <= Z.of_nat fuel -> forall n i out b,
  posted i out b -> hi - lo - i <= Z.of_nat n ->
  exists i' out' b', post_x1_loop mem32 n fuel q flags (hi - lo) i ((lo + i) mod wq_sz q) out w b =
      Ret (Some (i', out', b')) /\ posted i' out' b' /\ pkts_to (hi - lo) = pkts_to i'.
Proof.
  intros He Hfuel. pose proof (wq_sz_bounds q Hq). pose proof (rc_range Hrc).
  induction n as [|n IH]; intros i out b Hpo Hn; pose proof (po_i _ _ _ Hpo) as Hi.
  { exists i, out, b. cbn [post_x1_loop]. rewrite (proj2 (Z.leb_le _ _)) by lia. replace i with (hi - lo) in * by lia.
    by split_and!. }
  cbn [post_x1_loop]. destruct (hi - lo <=? i) eqn:Eend; reflect_bool.
  { exists i, out, b. replace i with (hi - lo) in * by lia. by split_and!. }
  rewrite (get_buf q Hq), desc_next_spec. cbn [mbind cres_mbind].
  destruct (packet_end e (lo + i) He) as (k & Hk & Hnx & Hend).
  rewrite (count_segs_spec k) by (done || lia). cbn [obind mbind cres_mbind]. rewrite Z.add_0_l.
  destruct (hi - lo <=? i + Z.of_nat k) eqn:Eroom; reflect_bool.
  { exists i, out, b. split; [done|]. split; [done|]. replace (hi - lo) with (i + (hi - lo - i)) by lia.
    apply pkts_to_open; [lia|lia|apply Hpo|]. intros j Hj. apply Hnx. lia. }
  destruct (po_rest _ _ _ Hpo (lo + i)) as (m & Hm & Hfl); [lia|].
  destruct (chain_segs_spec (lo + i) fuel ltac:(lia) k 1 b) as (b1 & E1 & Hp1 & Hs1); [lia|lia|by apply (packet_one b _ m); [lia|..]| |].
  { intros c' Hc'. apply (po_rest _ _ _ Hpo). lia. }
  rewrite Nat2Z.id. replace (lo + i + 1 - 1) with (lo + i) in E1 by lia. rewrite E1. cbn [obind mbind cres_mbind].
  assert (posted (i + (1 + Z.of_nat k)) (out ++ [ring_buf q (lo + i)]) b1) as Hpo1.
  { apply (posted_extend i out b b1); [done|lia|lia| | |done|by rewrite Z.add_assoc].
    - intros j Hj. apply Hnx. lia.
    - by replace (lo + i + (1 + Z.of_nat k - 1)) with (lo + i + Z.of_nat k) by lia. }
  replace (i + (1 + Z.of_nat k)) with (i + Z.of_nat k + 1) in Hpo1 by lia.
  assert (exists b2, (if has_flag flags DEQ_CHECKSUM
      then mbuf_upd (ring_buf q (lo + i)) (csum_x1 mem32 flags (u64 (ring_buf q (lo + i) + wq_data_off q))) b1
      else Ret b1) = Ret b2 /\ posted (i + Z.of_nat k + 1) (out ++ [ring_buf q (lo + i)]) b2) as (b2 & -> & Hpo2).
  { destruct (has_flag flags DEQ_CHECKSUM); [|by exists b1]. apply posted_upd; [done|lia|apply csum_x1_inert]. }
  cbn [mbind cres_mbind]. rewrite pos_wrap by (done || lia).
  replace (lo + i + 1 + Z.of_nat k - 1 + 1) with (lo + (i + Z.of_nat k + 1)) by lia.
  apply (IH (i + Z.of_nat k + 1)); [done|lia].
Qed.

Lemma post_process_ok e fuel b : has_next e = false -> wq_sz q <= Z.of_nat fuel ->
  wq_last_off q = ring_enc (wq_sz q) lo ->
  (forall c, lo <= c < hi -> exists m, b !! ring_buf q c = Some m /\ filled q (meta c) m) ->
  let lens := pkts_to (hi - lo) in
  exists b', post_process_pkts mem32 fuel q (hi - lo) flags w b =
      Ret (Some (Z.of_nat (sum_list lens), (fun s => ring_buf q s.1) <$> spans lo lens, b')) /\
    (forall c n, (c, n) ∈ spans lo lens -> packet q len b' c n) /\
    Z.of_nat (sum_list lens) <= hi - lo /\
    (forall c, lo + Z.of_nat (sum_list lens) <= c < hi -> exists m, b' !! ring_buf q c = Some m /\ filled q (meta c) m).
Proof.
  intros He Hfuel Hlast Hb lens. pose proof (rc_range Hrc). pose proof (wq_sz_bounds q Hq).
  assert (posted 0 [] b) as Hpo0.
  { split; [lia|done|intros c n Hin; by apply elem_of_nil in Hin|done|intros c Hc; apply Hb; lia|].
    intros c Hc. destruct (Hb c Hc) as (m & Hm & _). by rewrite Hm. }
  unfold post_process_pkts. rewrite Hlast, DESC_OFF_enc by apply Hq.
  rewrite u16_id by (pose proof (Z.mod_pos_bound lo (wq_sz q)); word).
  replace (lo mod wq_sz q) with ((lo + 0) mod wq_sz q) by (by rewrite Z.add_0_r).
  destruct (post_x4_loop_spec (Z.to_nat ((hi - lo) / 4)) 0 [] b Hpo0) as (i & out & b1 & -> & Hi & Hpo1); [word|].
  cbn [mbind cres_mbind].
  destruct (post_x1_loop_spec e fuel He Hfuel (Z.to_nat (hi - lo - i)) i out b1 Hpo1) as (i' & out' & b' & -> & Hpo & El); [lia|].
  exists b'. subst lens. rewrite El. destruct Hpo as [Hi' Hsum Hp Hout Hrest _]. rewrite Hsum, Hout.
  split; [done|]. split; [done|]. split; [lia|done].
Qed.
End packets.

(** ** The words of the ring after a fetch *)
Lemma ring_after_fetch {D P} `{RteDmaLaws D} (q : worker_queue) (flags from to : Z) (addr x : Z -> Z)
    (s0 s1 : wstate D P) (k : Z) : queue_ok q -> fetchable q from to addr x ->
  fetching q flags from to addr x s0 k s1 -> ring_full q (w_words s0) x -> ring_at q from to addr x (w_words s0) ->
  exists x', ring_full q (w_words s1) x' /\ forall c, has_next x' c = has_next x c.
Proof.
  intros Hq Hf Hfi Hfull Hr0. pose proof (wq_sz_bounds q Hq). pose proof (fb_range _ _ _ _ _ Hf).
  destruct (fi_words _ _ _ _ _ _ _ _ _ Hfi) as (y & Hr & Hy & _).
  assert (forall c, exists z, is_u64 z /\ is_Some (w_words s1 !! desc_pos q c) /\
    w_words s1 !! (desc_pos q c + 8) = Some z /\ Z.testbit z 48 = Z.testbit (x c) 48) as Hz.
  { intros c. destruct (Hfull c) as (Hu & Ha & Hx). set (c0 := from + (c - from) mod wq_sz q).
    assert (desc_pos q c0 = desc_pos q c) as Ep.
    { unfold desc_pos, c0. do 2 f_equal. rewrite Zplus_mod_idemp_r. f_equal. lia. }
    pose proof (Z.mod_pos_bound (c - from) (wq_sz q) ltac:(lia)).
    destruct (decide (c0 < to)) as [Hin|Hout].
    - destruct (Hr c0) as [Ha' Hx']; [lia|]. rewrite Ep in Ha', Hx'. exists (y c0).
      destruct (Hfull c0) as (Hu0 & _ & Hx0). rewrite Ep, Hx in Hx0. injection Hx0 as Hx0.
      split_and!; [|by rewrite Ha'|done|];
        destruct (Hy c0) as [->| ->]; try lia; unfold fetched_word; try (destruct (has_flag _ _)); rewrite ?Hx0; try done.
      + by apply used_word_u64.
      + by rewrite used_word_spec by done.
    - assert (forall o c', o = 0 \/ o = 8 -> from <= c' < to -> desc_pos q c + o <> desc_pos q c' + 8) as Hne.
      { intros o c' Ho Hc' He. rewrite <- Ep in He.
        destruct (pos_inj q Hq from c0 c' o 8) as [-> _]; (unfold DESC_ENTRY_SZ; lia) || done. }
      exists (x c). split; [done|]. split; [|split; [|done]].
      + rewrite <- (Z.add_0_r (desc_pos q c)). rewrite (fi_words_out _ _ _ _ _ _ _ _ _ Hfi), Z.add_0_r; [done|].
        intros c' Hc'. apply Hne; [by left|done].
      + rewrite (fi_words_out _ _ _ _ _ _ _ _ _ Hfi); [done|]. intros c' Hc'. apply Hne; [by right|done]. }
  exists (fun c => default 0 (w_words s1 !! (desc_pos q c + 8))). split.
  - intros c. destruct (Hz c) as (z & Hu & Ha & Hw & _). rewrite Hw. by split_and!.
  - intros c. destruct (Hz c) as (z & _ & _ & Hw & Hb). unfold has_next. by rewrite Hw.
Qed.

(** A channel in step, with room for a completion record everywhere. *)
Record chan_ok (v : dao_dma_vchan_state) : Prop := {
  ck_wf : vchan_wf v;
  ck_sync : src_i v = dst_i v;
  ck_thr : src_i v <= flush_thr v;
  ck_one : 1 <= flush_thr v;
  ck_meta : Forall (fun md => md_cnt md < DAO_DMA_MAX_POINTER) (mdata v);
}.

(** What a fetch of [k] descriptors leaves. *)
Record fetch_post {D P} `{RteDmaLaws D} (q : worker_queue) (flags M pend : Z) (addr x : Z -> Z) (k : Z)
    (s s' : wstate D P) : Prop := {
  fp_src : src_stream (w_dev s') (w_chan s') =
    src_stream (w_dev s) (w_chan s) ++ (src_elem addr x <$> seqZ (M + pend) k);
  fp_dst : dst_stream (w_dev s') (w_chan s') =
    dst_stream (w_dev s) (w_chan s) ++ (dst_elem q x <$> seqZ (M + pend) k);
  fp_bufs c : M + pend <= c < M + pend + k -> exists m, w_mbufs s' !! ring_buf q c = Some m /\ filled q (x c) m;
  fp_words c : M + pend <= c < M + pend + k -> w_words s' !! (desc_pos q c + 8) = Some (fetched_word flags (x c));
  fp_cells : w_cells s' = if bool_decide (k = 0) then w_cells s
                          else <[wq_pend_sd_mbuf_p q := pend + k]> (w_cells s);
  fp_record : 0 < k -> exists idx, last_in idx (w_chan s') /\
    op_records (mdata (w_chan s')) idx = op_records (mdata (w_chan s)) idx ++
      [{| r_ptr := wq_sd_mbuf_off_p q; r_val := ring_enc (wq_sz q) (M + pend + k);
          r_pend_ptr := wq_pend_sd_mbuf_p q; r_pend_val := k |}];
}.

Lemma fetch_result_post {D P} `{RteDmaLaws D} (q : worker_queue) (flags M pend to : Z) (addr x : Z -> Z) (k : Z)
    (s s1 s' : wstate D P) : chan_ok (w_chan s) ->
  fetching q flags (M + pend) to addr x s k s1 -> fetch_result q (M + pend) pend k s1 s' ->
  fetch_post q flags M pend addr x k s s' /\ w_mbufs s' = w_mbufs s1 /\ w_words s' = w_words s1.
Proof.
  intros Hck [Hk Hc _ Hw _ _ _ Hd Hs1 Hs2 Hwf _ (_ & Hmd & _)]. destruct Hw as (y & Hr & _ & Hy).
  unfold fetch_result. case_bool_decide as Hz.
  { intros ->. split; [|done]. split; try done; try lia. by rewrite bool_decide_true. }
  intros (idx & v & Hl & Hidx & Ev & ->). pose proof (ck_meta _ Hck) as Hall. rewrite <- Hmd in Hall.
  destruct (meta_room _ _ Hwf Hidx Hall) as (md & Hmd' & Hcnt).
  destruct (update_meta_appends _ (wq_sd_mbuf_off_p q) (ring_enc (wq_sz q) (M + pend + k)) (wq_pend_sd_mbuf_p q) k
    idx md Hwf Hidx Hmd' Hcnt) as (v' & Ev' & _ & Ek & Hrec).
  assert (v' = v) as -> by congruence. split; [|done]. cbn. rewrite Ek. split; cbn.
  - exact Hs1.
  - exact Hs2.
  - done.
  - intros c Hcr. rewrite <- Hy by done. apply Hr. lia.
  - by rewrite bool_decide_false, Hc.
  - intros _. exists idx. split; [done|]. rewrite Hrec, Hmd by done. by rewrite bool_decide_true.
Qed.

(** ** Checksum requests

    One lane of [csum_x4]. *)
Definition lane_ol (h : u32x4) : Z :=
  of_le (vqtbl1q_u8 olflags_tbl (le_bytes 4 (u32 (Z.land (s2 h) 0xFFFF - 1)))).
Definition lane_tx (h : u32x4) : Z :=
  let t := u32 (Z.shiftr (s1 h) 16 - 20) in Z.lor (Z.land t (all32 (t <? 0x3F))) 0xA00.

Lemma csum_x4_lanes h0 h1 h2 h3 : csum_x4 h0 h1 h2 h3 =
  (V4 (lane_ol h0) (lane_ol h2) (lane_ol h1) (lane_ol h3), V4 (lane_tx h0) (lane_tx h2) (lane_tx h1) (lane_tx h3)).
Proof. reflexivity. Qed.

(** A request for the checksum of UDP or TCP over an IPv4 header of 20 bytes
    behind at most 62 bytes. *)
Record csum_request (mem32 : Z -> Z) (a : Z) : Prop := {
  cr_start : 20 <= hdr_csum_start mem32 a <= 82;
  cr_offset : hdr_csum_offset mem32 a = 6 \/ hdr_csum_offset mem32 a = 16;
}.

Lemma lane_ol_scalar mem32 a : csum_request mem32 a ->
  u64 (Z.shiftl (lane_ol (ld_hdr mem32 a)) TX_OFFLOAD_SHIFT) =
  if hdr_csum_offset mem32 a =? 6 then TX_IPV4_UDP_OFFLOAD else TX_IPV4_TCP_OFFLOAD.
Proof.
  intros [_ Ho]. unfold lane_ol. cbn [s2 ld_hdr].
  assert (Z.land (mem32 (a + 8)) 0xFFFF = hdr_csum_offset mem32 a) as ->.
  { change 0xFFFF with (Z.ones 16). by rewrite Z.land_ones. }
  by destruct Ho as [-> | ->].
Qed.

Lemma lane_tx_scalar mem32 a : csum_request mem32 a ->
  lane_tx (ld_hdr mem32 a) = set_bits 0 7 (hdr_csum_start mem32 a - 20) (set_bits 7 9 20 0).
Proof.
  intros [Hs _]. unfold lane_tx. cbn [s1 ld_hdr]. fold (hdr_csum_start mem32 a). rewrite u32_id by word.
  rewrite (proj2 (Z.ltb_lt _ _)) by lia. cbn [all32].
  assert (forallb (fun t => Z.lor (Z.land t 0xFFFFFFFF) 0xA00 =? set_bits 0 7 t (set_bits 7 9 20 0)) (seqZ 0 63) = true) as Hall
    by (by vm_compute).
  rewrite forallb_forall in Hall. apply Z.eqb_eq, Hall, list_elem_of_In, elem_of_seqZ. lia.
Qed.

Lemma csum_lane_scalar mem32 flags a m : csum_request mem32 a -> has_flag flags DEQ_GSO = false ->
  ol_flags m = 0 -> tx_offload m = 0 ->
  set_csum (lane_ol (ld_hdr mem32 a)) (lane_tx (ld_hdr mem32 a)) m = csum_x1 mem32 flags a m.
Proof.
  intros Hc Hg Hol Htx. unfold set_csum, csum_x1. rewrite lane_ol_scalar, lane_tx_scalar, Hg, Hol, Htx by done. destruct Hc as [Hs Ho].
  rewrite (proj2 (Z.eqb_neq (hdr_csum_start mem32 a) 0)), (proj2 (Z.eqb_neq (hdr_csum_offset mem32 a) 0)) by lia.
  cbn [orb andb]. rewrite Z.lor_0_l. by destruct m.
Qed.

(** ** Descriptors the parser of the ring cannot handle *)

Lemma fetch_segs_overrun {D P} `{RteDma D} `{BufAlloc P} q mbuf0 : 0 <= wq_buf_len q ->
  forall fuel mbuf pend mbuf1 (s : wstate D P),
  length (dst (w_chan s)) = 15%nat -> 0 <= dst_i (w_chan s) <= 15 -> wq_buf_len q * (15 - dst_i (w_chan s)) < pend ->
  fetch_segs fuel q mbuf0 mbuf pend mbuf1 s = Fault.
Proof.
  intros Hbl. induction fuel as [|fuel IH]; intros mbuf pend mbuf1 s Hlen Hi Hp; cbn [fetch_segs];
    rewrite (proj2 (Z.eqb_neq pend 0)) by nia; [done|].
  destruct (get_mbuf1 q mbuf1 (w_pool s)) as [[m1|] p]; [|done].
  assert (forall p f (b : mbufs), (exists b', mbuf_upd p f b = Ret b') \/ mbuf_upd p f b = Fault) as Hupd.
  { intros p' f b. unfold mbuf_upd, mbuf_at. destruct (b !! p'); [left; by eexists|by right]. }
  do 4 (match goal with |- context [mbuf_upd ?a ?f ?b] =>
    destruct (Hupd a f b) as [[? ->]| ->]; cbn [mbind cres_mbind]; [|done] end).
  unfold dao_dma_enq_dst_x1. destruct (decide (dst_i (w_chan s) = 15)) as [E15|Hne].
  { by rewrite cset_out by lia. }
  rewrite cset_in_range by lia. cbn [mbind cres_mbind]. apply IH; cbn [w_chan put_dma dst dst_i set_pending].
  - by rewrite length_insert.
  - rewrite u16_id by word. lia.
  - rewrite u16_id by word. destruct (_ <? _) eqn:E; reflect_bool; nia.
Qed.

Lemma fetch_x1_overrun {D P} `{RteDma D} `{BufAlloc P} q flags c mbuf1 x (s : wstate D P) :
  queue_ok q -> vchan_wf (w_chan s) -> w_words s !! (desc_pos q c + 8) = Some x ->
  DAO_DMA_MAX_POINTER * wq_buf_len q < desc_len x ->
  fetch_x1 q flags (c mod wq_sz q) mbuf1 s = Fault.
Proof.
  intros Hq Hwf Hx Hlen. pose proof (qo_buf_len q Hq). unfold DAO_DMA_MAX_POINTER in *.
  assert (0 <= desc_len x < 0x100000000) as Hb by (rewrite desc_len_u32; word).
  unfold fetch_x1. generalize SEG_FUEL as fuel. intros fuel. rewrite (get_buf q Hq), !(pos_ptr q Hq) by done. cbn [mbind cres_mbind].
  rewrite (mload_ret _ _ _ Hx). cbn [mbind cres_mbind].
  change (Z.land x (u64 (RTE_BIT64 32 - 1))) with (desc_len x).
  match goal with |- context [if has_flag flags DEQ_NOINOR then ?A else ?B] =>
    assert (exists w, (if has_flag flags DEQ_NOINOR then A else B) = Ret w) as [w ->] end.
  { destruct (has_flag flags DEQ_NOINOR); [|by eexists]. rewrite (mstore_ret _ _ _ _ Hx). by eexists. }
  cbn [mbind cres_mbind]. unfold mload. destruct (w !! _); cbn [mbind cres_mbind]; [|done].
  rewrite !(proj2 (Z.ltb_lt _ _)) by lia.
  destruct Hwf. unfold dao_dma_enq_x1, DAO_DMA_MAX_POINTER in *.
  destruct (decide (dst_i (w_chan s) = 15)); [by rewrite (cset_out (dst (w_chan s))) by lia|].
  rewrite (cset_in_range (dst (w_chan s))) by lia. cbn [mbind cres_mbind].
  destruct (decide (src_i (w_chan s) = 15)); [by rewrite (cset_out (src (w_chan s))) by lia|].
  rewrite (cset_in_range (src (w_chan s))) by lia. cbn [mbind cres_mbind].
  unfold mbuf_upd, mbuf_at. destruct (w_mbufs s !! _); cbn [mbind cres_mbind]; [|done].
  rewrite fetch_segs_overrun; [done|lia|..]; cbn [w_chan put_dma dst dst_i set_pending].
  - by rewrite length_insert.
  - rewrite u16_id by word. lia.
  - rewrite u16_id by word. rewrite u32_id by word. nia.
Qed.

Lemma count_segs_endless q w x : queue_ok q -> ring_full q w x -> (forall c, has_next x c = true) ->
  forall fuel c segs, count_segs fuel q w (c mod wq_sz q) 1 segs = Ret None.
Proof.
  intros Hq Hfull Hall. induction fuel as [|fuel IH]; intros c segs; cbn [count_segs Z.eqb]; [done|].
  rewrite pos_wrap by (done || lia). rewrite (desc_next_spec q Hq w x) by done. cbn [mbind cres_mbind].
  rewrite Hall. apply IH.
Qed.

Lemma post_x4_next mem32 q flags w x b c : queue_ok q -> ring_full q w x -> has_next x c = true ->
  post_x4 mem32 q flags (c mod wq_sz q) w b = Ret None.
Proof.
  intros Hq Hfull Hnx. unfold post_x4. destruct (wq_sz q <=? _) eqn:Eend; [done|]. reflect_bool.
  rewrite !(pos_step q Hq c) by lia.
  destruct (ld_full q Hq w x Hfull c) as [a0 ->], (ld_full q Hq w x Hfull (c + 1)) as [a1 ->],
    (ld_full q Hq w x Hfull (c + 2)) as [a2 ->], (ld_full q Hq w x Hfull (c + 3)) as [a3 ->].
  cbn [mbind cres_mbind]. unfold vzip1q_u64, vzip2q_u64. cbn [q0 q1].
  destruct (_ || _) eqn:Enx; [done|]. apply x4_no_next in Enx as (N0 & _); [|apply Hfull..].
  unfold has_next in Hnx. congruence.
Qed.

(** Within a lap offsets differ as the positions do. *)
Lemma enc_rest q c n : ring_size q -> c mod q = 0 -> 0 < n - c < q -> ring_enc q n - ring_enc q c = n - c.
Proof.
  intros Hq Hz Hn. destruct (ring_size_bounds _ Hq) as [Hqb _].
  destruct (ring_lap q c n) as [[E ?]|[E ?]]; [lia|lia|..].
  - unfold ring_enc. rewrite E. lia.
  - pose proof (Z.mod_pos_bound n q ltac:(lia)). lia.
Qed.

(** ** Properties *)



(** *** Witnesses

    A ring of 8 descriptors; descriptor 6 continues in 7. Two descriptors have
    arrived, from 6 on, and the ring holds five more. *)
Definition wit_wq : worker_queue :=
  {| wq_sd_desc_base := 0x1000; wq_sz := 8; wq_data_off := 0x100; wq_buf_len := 2048; wq_hdr_sz := 12;
     wq_mp := 1; wq_mbuf_arr := (fun i => 0x8000 + 0x1000 * i) <$> seqZ 0 8; wq_sd_desc_off_p := 10;
     wq_sd_mbuf_off_p := 11; wq_pend_sd_mbuf_p := 12; wq_last_off := ring_enc 8 6 |}.

Definition wit_addr (c : Z) : Z := 0x500000 + 0x1000 * (c mod 8).
Definition wit_x (c : Z) : Z := if c mod 8 =? 6 then 0x0081000000000064 else 0x0080000000000040.
Definition wit_mbuf (c : Z) : rte_mbuf :=
  {| data_off := 140; refcnt := 1; nb_segs := 1; port := 0; ol_flags := 0; packet_type := 0;
     pkt_len := desc_len (wit_x c) - 12; data_len := desc_len (wit_x c) - 12; vlan_tci := 0; hash_rss := 0;
     next := 0; tx_offload := 0 |}.

Definition wit_words : store := list_to_map (concat ((fun c => [(0x1000 + 16 * c, wit_addr c); (0x1008 + 16 * c, wit_x c)]) <$> seqZ 0 8)).
Definition wit_bufs : mbufs := list_to_map ((fun c => (0x8000 + 0x1000 * c, wit_mbuf c)) <$> seqZ 0 8).
Definition wit_cells : store := <[10 := ring_enc 8 13]> (<[11 := ring_enc 8 8]> (<[12 := 0]> ∅)).
Definition wit_chan : dao_dma_vchan_state := set_conf vchan_state0 0 0 8 0.
Definition wit_ws : wstate ref_dma (list Z * nat) := Build_wstate wit_cells wit_words wit_bufs ([], 0%nat) wit_chan wit_dma.

Lemma wit_pos c : c mod 8 = 0 \/ c mod 8 = 1 \/ c mod 8 = 2 \/ c mod 8 = 3 \/ c mod 8 = 4 \/ c mod 8 = 5 \/ c mod 8 = 6 \/ c mod 8 = 7.
Proof. word. Qed.

Lemma wit_buf_at c : ring_buf wit_wq c = 0x8000 + 0x1000 * (c mod 8).
Proof. unfold ring_buf. cbn [wq_sz wit_wq]. by destruct (wit_pos c) as [->|[->|[->|[->|[->|[->|[->| ->]]]]]]]. Qed.

Lemma wit_mbuf_at c : w_mbufs wit_ws !! ring_buf wit_wq c = Some (wit_mbuf c).
Proof.
  rewrite wit_buf_at. unfold wit_mbuf, wit_x.
  by destruct (wit_pos c) as [->|[->|[->|[->|[->|[->|[->| ->]]]]]]].
Qed.

Lemma wit_filled c : filled wit_wq (wit_x c) (wit_mbuf c).
Proof. by split. Qed.

Lemma wit_len c : 12 <= desc_len (wit_x c) <= 2048.
Proof. unfold wit_x. by destruct (_ =? _). Qed.

Lemma wit_full : ring_full wit_wq (w_words wit_ws) wit_x.
Proof.
  intros c. unfold desc_pos, wit_x. cbn [wq_sz wq_sd_desc_base wit_wq].
  destruct (wit_pos c) as [->|[->|[->|[->|[->|[->|[->| ->]]]]]]]; split_and!; (done || by eexists).
Qed.

Lemma wit_ring_at from to : ring_at wit_wq from to wit_addr wit_x (w_words wit_ws).
Proof.
  intros c _. split; [|apply wit_full]. unfold desc_pos, wit_addr. cbn [wq_sz wq_sd_desc_base wit_wq].
  by destruct (wit_pos c) as [->|[->|[->|[->|[->|[->|[->| ->]]]]]]].
Qed.

Lemma wit_queue_ok : queue_ok wit_wq.
Proof. split; [exact wit_ring|apply (wit_fits 0x1000); lia|by vm_compute|cbn; lia..]. Qed.

Lemma wit_distinct lo c c' : lo <= c < lo + 8 -> lo <= c' < lo + 8 -> ring_buf wit_wq c = ring_buf wit_wq c' -> c = c'.
Proof.
  rewrite !wit_buf_at. intros Hc Hc' E. assert (c mod 8 = c' mod 8) as Em by lia. clear E.
  Z.div_mod_to_equations. lia.
Qed.

Lemma wit_chan_ok : chan_ok wit_chan.
Proof.
  split; try (cbn; lia).
  - apply set_conf_wf; [apply vchan_state0_wf|unfold DAO_DMA_MAX_POINTER; lia].
  - apply Forall_replicate. done.
Qed.

Lemma wit_fetchable : fetchable wit_wq (8 + 0) 13 wit_addr wit_x.
Proof.
  split; cbn [wq_sz wq_hdr_sz wq_buf_len wit_wq].
  - lia.
  - intros c _. unfold wit_addr. word.
  - intros c _. apply wit_full.
  - intros c _. apply wit_len.
  - intros c c' Hc Hc'. apply (wit_distinct 8); lia.
Qed.

Lemma wit_queue_at : queue_at wit_wq (8 + 0) 13 8 0 wit_cells.
Proof. by split. Qed.



(** C32. The vector loop computes the checksum requests of its four packets as
    the scalar loop would, for UDP and TCP over IPv4 without options and
    without segmentation, but stores the request of the second packet in the
    third and that of the third in the second. *)
Theorem csum_x4_swaps (mem32 : Z -> Z) (flags a0 a1 a2 a3 : Z) (m : rte_mbuf) :
  csum_request mem32 a0 -> csum_request mem32 a1 -> csum_request mem32 a2 -> csum_request mem32 a3 ->
  has_flag flags DEQ_GSO = false -> ol_flags m = 0 -> tx_offload m = 0 ->
  let '(ol, tx) := csum_x4 (ld_hdr mem32 a0) (ld_hdr mem32 a1) (ld_hdr mem32 a2) (ld_hdr mem32 a3) in
  set_csum (s0 ol) (s0 tx) m = csum_x1 mem32 flags a0 m /\
  set_csum (s1 ol) (s1 tx) m = csum_x1 mem32 flags a2 m /\
  set_csum (s2 ol) (s2 tx) m = csum_x1 mem32 flags a1 m /\
  set_csum (s3 ol) (s3 tx) m = csum_x1 mem32 flags a3 m.
Proof. intros. rewrite csum_x4_lanes. cbn [s0 s1 s2 s3]. split_and!; by apply csum_lane_scalar. Qed.

(** Headers of a UDP packet, then two TCP packets, then a UDP packet. *)
Definition wit_hdrs (a : Z) : Z :=
  if a mod 16 =? 4 then Z.shiftl 34 16 else if a mod 16 =? 8 then (if (a =? 8) || (a =? 56) then 6 else 16) else 0.

Lemma csum_x4_swaps_witness :
  let '(ol, tx) := csum_x4 (ld_hdr wit_hdrs 0) (ld_hdr wit_hdrs 48) (ld_hdr wit_hdrs 16) (ld_hdr wit_hdrs 32) in
  ol_flags (set_csum (s1 ol) (s1 tx) (wit_mbuf 0)) = TX_IPV4_TCP_OFFLOAD /\
  ol_flags (csum_x1 wit_hdrs 1 48 (wit_mbuf 0)) = TX_IPV4_UDP_OFFLOAD.
Proof.
  pose proof (csum_x4_swaps wit_hdrs 1 0 48 16 32 (wit_mbuf 0)) as H.
  destruct (csum_x4 _ _ _ _) as [ol tx]. destruct H as (_ & -> & _).
  all: first [by split; [vm_compute; split; discriminate|by (left + right)]|done].
Defined.

(** A descriptor longer than fifteen buffers, whose length the host
    writes, makes the scalar loop store past the array of destinations of the
    channel, whatever is pending and whether or not buffers can be
    allocated. *)
Theorem long_descriptor_faults {D P : Type} `{RteDma D} `{BufAlloc P} (q : worker_queue) (flags c x : Z)
    (mbuf1 : option Z) (s : wstate D P) :
  queue_ok q -> vchan_wf (w_chan s) -> w_words s !! (desc_pos q c + 8) = Some x ->
  DAO_DMA_MAX_POINTER * wq_buf_len q < desc_len x ->
  fetch_x1 q flags (c mod wq_sz q) mbuf1 s = Fault.
Proof. apply fetch_x1_overrun. Qed.

(** A ring in which every descriptor has the NEXT flag keeps the worker in
    the search for the end of the packet forever, for every number of
    descriptors that arrived. *)
Theorem all_next_hangs (mem32 : Z -> Z) (fuel : nat) (q : worker_queue) (total flags L : Z) (x : Z -> Z)
    (w : store) (b : mbufs) :
  queue_ok q -> ring_full q w x -> (forall c, has_next x c = true) ->
  wq_last_off q = ring_enc (wq_sz q) L -> 1 <= total ->
  post_process_pkts mem32 fuel q total flags w b = Ret None.
Proof.
  intros Hq Hfull Hall Hlast Ht. pose proof (wq_sz_bounds q Hq). unfold post_process_pkts.
  rewrite Hlast, DESC_OFF_enc by apply Hq. rewrite u16_id by (pose proof (Z.mod_pos_bound L (wq_sz q)); word).
  assert (post_x4_loop mem32 (Z.to_nat (total / 4)) q flags 0 (L mod wq_sz q) [] w b = Ret (0, L mod wq_sz q, [], b)) as ->.
  { destruct (Z.to_nat (total / 4)); [done|]. cbn [post_x4_loop]. by rewrite (post_x4_next mem32 q flags w x). }
  cbn [mbind cres_mbind]. destruct (Z.to_nat (total - 0)) as [|n] eqn:En; [lia|]. cbn [post_x1_loop].
  rewrite (proj2 (Z.leb_gt total 0)) by lia. rewrite (get_buf q Hq), (desc_next_spec q Hq w x), Hall by done.
  cbn [mbind cres_mbind b2z]. by rewrite (count_segs_endless q w x).
Qed.

Lemma long_descriptor_faults_witness :
  fetch_x1 wit_wq 0 (3 mod 8) None (put_words (<[0x1038 := 0x0080000000008000]> wit_words) wit_ws) = Fault.
Proof.
  apply (long_descriptor_faults wit_wq 0 3 0x0080000000008000 None).
  - exact wit_queue_ok.
  - apply wit_chan_ok.
  - reflexivity.
  - reflexivity.
Defined.

(** The ring with NEXT in every descriptor. *)
Definition wit_next_words : store :=
  list_to_map (concat ((fun c => [(0x1000 + 16 * c, 0); (0x1008 + 16 * c, 0x0081000000000064)]) <$> seqZ 0 8)).

Lemma all_next_hangs_witness :
  post_process_pkts (fun _ => 0) 1000 wit_wq 2 0 wit_next_words wit_bufs = Ret None.
Proof.
  apply (all_next_hangs (fun _ => 0) 1000 wit_wq 2 0 6 (fun _ => 0x0081000000000064)).
  - exact wit_queue_ok.
  - intros c. unfold desc_pos. cbn [wq_sz wq_sd_desc_base wit_wq].
    destruct (wit_pos c) as [->|[->|[->|[->|[->|[->|[->| ->]]]]]]]; split_and!; (done || by eexists).
  - reflexivity.
  - reflexivity.
  - lia.
Defined.

(** When a queue goes away while copies are in flight,
    [virtio_net_flush_deq] gives back exactly the buffers of the descriptors
    that arrived or are in flight and were not handed out, in order and each
    once; when no copy is in flight it gives back none, and the buffers that
    arrived are lost. *)
Theorem flush_deq_frees (q : worker_queue) (m : store) (L M pend to : Z) :
  queue_ok q -> queue_at q (M + pend) to M pend m -> M + pend <= to ->
  wq_last_off q = ring_enc (wq_sz q) L -> 0 <= L <= M -> M + pend <= L + wq_sz q ->
  (pend = 0 -> virtio_net_flush_deq q m = Ret ([], m)) /\
  (0 < pend -> exists calls m', virtio_net_flush_deq q m = Ret (calls, m') /\
     concat (freed <$> calls) = ring_slots (wq_sz q) (wq_mbuf_arr q) L (M + pend)).
Proof.
  intros Hq [(HM & Hp & _ & Hto) Qm Qp Qd] Hin Hlast HL Hroom. pose proof (wq_sz_bounds q Hq).
  pose proof (qo_size q Hq) as Hsz. pose proof (qo_arr q Hq) as Harr.
  unfold virtio_net_flush_deq. rewrite (mload_ret _ _ _ Qp), (mload_ret _ _ _ Qm), (mload_ret _ _ _ Qd).
  cbn [mbind cres_mbind]. split; [by intros ->|]. intros Hpos.
  rewrite (proj2 (Z.eqb_neq pend 0)) by lia. cbn [orb].
  destruct (Z.eqb_spec (ring_enc (wq_sz q) to) (ring_enc (wq_sz q) M)) as [He|_].
  { apply enc_inj in He; [lia|done|lia]. }
  rewrite (mstore_ret _ _ _ _ Qm). cbn [mbind cres_mbind].
  assert (exists y, <[wq_sd_mbuf_off_p q := desc_off_add (ring_enc (wq_sz q) M) pend (wq_sz q)]> m !! wq_pend_sd_mbuf_p q = Some y)
    as [y Hy]. { destruct (decide (wq_sd_mbuf_off_p q = wq_pend_sd_mbuf_p q)) as [->|]; eexists;
      [by rewrite lookup_insert_eq|by rewrite lookup_insert_ne]. }
  rewrite (mstore_ret _ _ _ _ Hy). cbn [mbind cres_mbind]. rewrite desc_off_add_enc, Hlast by (done || lia).
  rewrite desc_off_diff_no_wrap_enc by (done || lia).
  destruct (ring_split (wq_sz q) L (M + pend)) as (Hk0 & Hk1 & Hk2 & Hk3); [lia|lia|].
  set (k := Z.min (M + pend - L) (wq_sz q - L mod wq_sz q)) in *. specialize (Hk2 ltac:(lia)).
  rewrite (proj2 (Z.eqb_neq k 0)) by lia. rewrite DESC_OFF_enc, read_slots by (done || lia). cbn [mbind cres_mbind].
  rewrite desc_off_add_enc by (done || lia). destruct Hk3 as [E|[Hz Hrest]].
  - rewrite E, Z.sub_diag. cbn. do 2 eexists. split; [done|]. cbn. by rewrite app_nil_r.
  - rewrite enc_rest by done. rewrite u32_id by word. rewrite (proj2 (Z.eqb_neq _ 0)) by lia.
    rewrite DESC_OFF_enc, read_slots by (done || lia). cbn [mbind cres_mbind].
    do 2 eexists. split; [done|]. cbn. rewrite app_nil_r. rewrite <- ring_slots_app by lia. f_equal. lia.
Qed.

Lemma flush_deq_frees_witness :
  exists calls m', virtio_net_flush_deq wit_wq (<[11 := ring_enc 8 7]> (<[12 := 3]> wit_cells)) = Ret (calls, m') /\
    concat (freed <$> calls) = [0xE000; 0xF000; 0x8000; 0x9000].
Proof.
  destruct (flush_deq_frees wit_wq (<[11 := ring_enc 8 7]> (<[12 := 3]> wit_cells)) 6 7 3 13) as [_ H].
  - exact wit_queue_ok.
  - by split.
  - lia.
  - reflexivity.
  - lia.
  - cbn. lia.
  - apply H. lia.
Defined.
