(* ===== verification/VirtioNetEnq.v ===== *)
(** * Sending packets to the host (lib/virtio_net/virtio_net_enq.c)

    A worker core puts a virtio header in front of each packet and starts the
    DMA copies into the buffers of the descriptors the service core put into
    the shadow ring of a host Rx queue. There is a loop over four packets at a
    time in vector registers and a loop over single ones, which also handles
    packets of several segments and packets that take several descriptors. *)
From stdpp Require Import base option list numbers gmap functions.
From S2P Require Import Prelude Rte VirtioRing Dma VirtioNetDesc Neon VirtioNetDeq.

Local Open Scope Z_scope.

(** [VIRTIO_NET_ENQ_OFFLOAD_*] *)
Definition ENQ_NOFF : Z := RTE_BIT64 0.
Definition ENQ_CHECKSUM : Z := RTE_BIT64 1.
Definition ENQ_MSEG : Z := RTE_BIT64 2.
Definition ENQ_HASH_REPORT : Z := RTE_BIT64 3.

Definition VIRTIO_NET_HDR_F_DATA_VALID : Z := 2.
Definition UINT16_MAX : Z := 0xFFFF.

(** Of [rte_mbuf.h] and [rte_mbuf_ptype.h]. *)
Definition RTE_MBUF_F_RX_L4_CKSUM_BAD : Z := RTE_BIT64 3.
Definition RTE_MBUF_F_RX_IP_CKSUM_BAD : Z := RTE_BIT64 4.
Definition RTE_PTYPE_L3_MASK : Z := 0xf0.
Definition RTE_PTYPE_L4_MASK : Z := 0xf00.

(** ** Packet memory

    Bytes by address; a store of [n] bytes, low byte first. *)
Definition st_le (n : nat) (a x : Z) (mem : Z -> Z) : Z -> Z :=
  fun p => if (a <=? p) && (p <? a + Z.of_nat n) then u8 (Z.shiftr x (8 * (p - a))) else mem p.

(** ** State *)
Record estate (D : Type) := {
  e_cells : store;
  e_words : store;
  e_mbufs : mbufs;
  e_arr : list Z;
  e_mem : Z -> Z;
  e_chan : dao_dma_vchan_state;
  e_dev : D;
}.
Arguments e_cells {_}. Arguments e_words {_}. Arguments e_mbufs {_}. Arguments e_arr {_}.
Arguments e_mem {_}. Arguments e_chan {_}. Arguments e_dev {_}. Arguments Build_estate {_}.

Definition eput_ring {D} (w : store) (arr : list Z) (s : estate D) :=
  Build_estate (e_cells s) w (e_mbufs s) arr (e_mem s) (e_chan s) (e_dev s).
Definition eput_mbufs {D} (b : mbufs) (s : estate D) :=
  Build_estate (e_cells s) (e_words s) b (e_arr s) (e_mem s) (e_chan s) (e_dev s).
Definition eput_mem {D} (mem : Z -> Z) (s : estate D) :=
  Build_estate (e_cells s) (e_words s) (e_mbufs s) (e_arr s) mem (e_chan s) (e_dev s).
Definition eput_dma {D} (v : dao_dma_vchan_state) (d : D) (s : estate D) :=
  Build_estate (e_cells s) (e_words s) (e_mbufs s) (e_arr s) (e_mem s) v d.
Definition eput_cells {D} (m : store) (s : estate D) :=
  Build_estate m (e_words s) (e_mbufs s) (e_arr s) (e_mem s) (e_chan s) (e_dev s).

Definition mbuf_pkt_type_to_virtio_hash_report (hash_report : list Z) (packet_type : Z) : cres Z :=
  r ← cget hash_report (Z.shiftr (Z.land packet_type (Z.lor RTE_PTYPE_L3_MASK RTE_PTYPE_L4_MASK)) 4);
  Ret (u16 r).

(** The word of a used descriptor: USED as AVAIL, and the length. *)
Definition used_len_word (d_flags len : Z) : Z :=
  let d_flags := Z.land d_flags 0xFFFFFFFF00000000 in
  let avail := b2z (negb (Z.land d_flags F_AVAIL =? 0)) in
  let d_flags := Z.land d_flags (u64 (Z.lnot (Z.lor F_AVAIL F_USED))) in
  Z.lor (Z.lor (Z.lor (u64 (Z.shiftl avail 55)) (u64 (Z.shiftl avail 63))) d_flags)
    (Z.land len (u64 (RTE_BIT64 32 - 1))).

Section enq.
Context (DAO_DMA_STATS : bool).
Context {D : Type} `{RteDma D}.
(** [buf_addr] of a buffer and [q->hash_report], which nothing here changes. *)
Context (buf_addr : Z -> Z) (hash_report : list Z).
Notation st := (estate D).

(** [rte_pktmbuf_mtod_offset(m, t, o)] *)
Definition mtod (p : Z) (m : rte_mbuf) (o : Z) : Z := u64 (buf_addr p + data_off m + o).

(** ** The vector loop *)

(** [ol_flags] of four packets: DATA_VALID where no bad checksum is set. *)
Definition olflag_tbl : u8x16 := [2; 0; 0; 0; 0; 0; 0; 0; 2; 0; 0; 0; 0; 0; 0; 0].

Definition valid_x4 (len_olflags0 len_olflags1 len_olflags2 len_olflags3 : u64x2) : u32x4 :=
  let xflags01 := vzip1q_u64 len_olflags0 len_olflags1 in
  let xflags23 := vzip1q_u64 len_olflags2 len_olflags3 in
  let ol_flags := vuzp1q_u32 (as_u32 xflags01) (as_u32 xflags23) in
  let ol_flags := (fun b => Z.shiftr b 3) <$> u32_as_u8 ol_flags in
  let flag_mask := vdupq_n_u32 0xF in
  let ol_flags := vandq_u32 (u8_as_u32 ol_flags) flag_mask in
  let ol_flags := vqtbl1q_u8 olflag_tbl (u32_as_u8 ol_flags) in
  vandq_u32 (u8_as_u32 ol_flags) flag_mask.

(** Hash value and report of four packets, a 64-bit word each. The loads take
    four words from [hash.rss] on; the transposition drops all but the first. *)
Definition ld_rss (m : rte_mbuf) : u32x4 := V4 (hash_rss m) 0 0 0.

Definition hash_x4 (m0 m1 m2 m3 : rte_mbuf) : cres (u64x2 * u64x2) :=
  r0 ← mbuf_pkt_type_to_virtio_hash_report hash_report (packet_type m0);
  r1 ← mbuf_pkt_type_to_virtio_hash_report hash_report (packet_type m1);
  r2 ← mbuf_pkt_type_to_virtio_hash_report hash_report (packet_type m2);
  r3 ← mbuf_pkt_type_to_virtio_hash_report hash_report (packet_type m3);
  let h0213 := V4 r0 r2 r1 r3 in
  let d01 := vzip1q_u64 (as_u64 (ld_rss m0)) (as_u64 (ld_rss m1)) in
  let d23 := vzip1q_u64 (as_u64 (ld_rss m2)) (as_u64 (ld_rss m3)) in
  let rss0213 := vtrn1q_u32 (as_u32 d01) (as_u32 d23) in
  let h0213 := vandq_u32 (vcgtq_u32 rss0213 (vdupq_n_u32 0)) h0213 in
  Ret (as_u64 (vtrn1q_u32 rss0213 h0213), as_u64 (vtrn2q_u32 rss0213 h0213)).

(** [vld1q_u64(mbuf + 3)]: [ol_flags], then [packet_type] and [pkt_len]. *)
Definition ld_len_olflags (m : rte_mbuf) : u64x2 :=
  V2 (ol_flags m) (Z.lor (packet_type m) (Z.shiftl (pkt_len m) 32)).

(** The header of one packet as the vector loop writes it, at [data]. *)
Definition st_hdr_x4 (flags data valid hash : Z) (mem : Z -> Z) : Z -> Z :=
  let mem := st_le 8 data (if has_flag flags ENQ_CHECKSUM then valid else 0) mem in
  let mem := if has_flag flags ENQ_HASH_REPORT then st_le 8 (data + 12) hash mem else mem in
  st_le 4 (data + 8) 0x10000 mem.

(** One turn; [None] is a [break]. *)
Definition enq_x4 (q : worker_queue) (flags off : Z) (l : list Z) (i : Z) (s : st) : cres (option (Z * st)) :=
  if wq_sz q <=? off + 3 then Ret None
  else
    mbuf0 ← cget l i; mbuf1 ← cget l (i + 1); mbuf2 ← cget l (i + 2); mbuf3 ← cget l (i + 3);
    m0 ← mbuf_at (e_mbufs s) mbuf0; m1 ← mbuf_at (e_mbufs s) mbuf1;
    m2 ← mbuf_at (e_mbufs s) mbuf2; m3 ← mbuf_at (e_mbufs s) mbuf3;
    if has_flag flags ENQ_MSEG && (4 <? u16 (nb_segs m0 + nb_segs m1 + nb_segs m2 + nb_segs m3)) then Ret None
    else
      let dataoff_iova0 := V2 (buf_addr mbuf0) (data_off m0) in
      let dataoff_iova1 := V2 (buf_addr mbuf1) (data_off m1) in
      let dataoff_iova2 := V2 (buf_addr mbuf2) (data_off m2) in
      let dataoff_iova3 := V2 (buf_addr mbuf3) (data_off m3) in
      let net_hdr_off := vdupq_n_u64 (wq_hdr_sz q) in
      let len01 := vzip2q_u64 (ld_len_olflags m0) (ld_len_olflags m1) in
      let len23 := vzip2q_u64 (ld_len_olflags m2) (ld_len_olflags m3) in
      let len01 := vaddq_u64 (vshrq_n_u64 len01 32) net_hdr_off in
      let len23 := vaddq_u64 (vshrq_n_u64 len23 32) net_hdr_off in
      let base := wq_sd_desc_base q in
      desc0 ← ld_desc (e_words s) base off;
      desc1 ← ld_desc (e_words s) base (off + 1);
      desc2 ← ld_desc (e_words s) base (off + 2);
      desc3 ← ld_desc (e_words s) base (off + 3);
      let flags01 := vzip2q_u64 desc0 desc1 in
      let flags23 := vzip2q_u64 desc2 desc3 in
      let xlen := vuzp1q_u32 (vcgtq_u32 (as_u32 len01) (as_u32 flags01)) (vcgtq_u32 (as_u32 len23) (as_u32 flags23)) in
      let n x := if x =? 0 then 1 else 2 in
      if has_flag flags ENQ_MSEG && (4 <? n (s0 xlen) + n (s1 xlen) + n (s2 xlen) + n (s3 xlen)) then Ret None
      else
        let mbuf01 := vsubq_u64 (vpaddq_u64 dataoff_iova0 dataoff_iova1) net_hdr_off in
        let mbuf23 := vsubq_u64 (vpaddq_u64 dataoff_iova2 dataoff_iova3) net_hdr_off in
        let valid := valid_x4 (ld_len_olflags m0) (ld_len_olflags m1) (ld_len_olflags m2) (ld_len_olflags m3) in
        '(h01, h23) ← (if has_flag flags ENQ_HASH_REPORT then hash_x4 m0 m1 m2 m3 else Ret (V2 0 0, V2 0 0));
        let mem := st_hdr_x4 flags (q0 mbuf01) (s0 valid) (q0 h01) (e_mem s) in
        let mem := st_hdr_x4 flags (q1 mbuf01) (s1 valid) (q1 h01) mem in
        let mem := st_hdr_x4 flags (q0 mbuf23) (s2 valid) (q0 h23) mem in
        let mem := st_hdr_x4 flags (q1 mbuf23) (s3 valid) (q1 h23) mem in
        let len01 := as_u64 (vminq_u32 (as_u32 len01) (as_u32 flags01)) in
        let len23 := as_u64 (vminq_u32 (as_u32 len23) (as_u32 flags23)) in
        let buf01 := vzip1q_u64 desc0 desc1 in
        let buf23 := vzip1q_u64 desc2 desc3 in
        let xflags := vdupq_n_u64 (u64 (Z.lnot (Z.lor F_USED (RTE_BIT64 32 - 1)))) in
        let xflags2 := vdupq_n_u64 F_AVAIL in
        let flags01 := vandq_u64 flags01 xflags in
        let flags23 := vandq_u64 flags23 xflags in
        let xtmp0 := vshlq_n_u64 (vandq_u64 flags01 xflags2) 8 in
        let xtmp1 := vshlq_n_u64 (vandq_u64 flags23 xflags2) 8 in
        let flags01 := vorrq_u64 (vorrq_u64 flags01 xtmp0) len01 in
        let flags23 := vorrq_u64 (vorrq_u64 flags23 xtmp1) len23 in
        let vdst := [vzip1q_u64 buf01 len01; vzip2q_u64 buf01 len01; vzip1q_u64 buf23 len23; vzip2q_u64 buf23 len23] in
        let vsrc := [vzip1q_u64 mbuf01 len01; vzip2q_u64 mbuf01 len01; vzip1q_u64 mbuf23 len23; vzip2q_u64 mbuf23 len23] in
        arr ← cset (e_arr s) off mbuf0;
        arr ← cset arr (off + 1) mbuf1;
        arr ← cset arr (off + 2) mbuf2;
        arr ← cset arr (off + 3) mbuf3;
        w ← st_desc (e_words s) base off (vzip1q_u64 buf01 flags01);
        w ← st_desc w base (off + 1) (vzip2q_u64 buf01 flags01);
        w ← st_desc w base (off + 2) (vzip1q_u64 buf23 flags23);
        w ← st_desc w base (off + 3) (vzip2q_u64 buf23 flags23);
        '(nb_enq, v, d) ← dao_dma_enq_x4 DAO_DMA_STATS (e_chan s) (as_sge <$> vsrc) (as_sge <$> vdst) (e_dev s);
        Ret (Some (nb_enq, eput_dma v d (eput_mem mem (eput_ring w arr s)))).

(** The variables the two loops share; [avail_sd] and [avail_mbuf] are set and
    used for packets of several segments only. *)
Record enq_vars := { ev_i : Z; ev_off : Z; ev_used : Z; ev_last_idx : Z; ev_avail_sd : Z; ev_avail_mbuf : Z }.

Fixpoint enq_x4_turns (n : nat) (q : worker_queue) (flags : Z) (l : list Z) (ev : enq_vars) (s : st)
  : cres (enq_vars * st) :=
  match n with
  | O => Ret (ev, s)
  | S n =>
      o ← enq_x4 q flags (ev_off ev) l (ev_i ev) s;
      match o with
      | None => Ret (ev, s)
      | Some (nb_enq, s) =>
          let ev := {| ev_i := u16 (ev_i ev + nb_enq); ev_off := u16 (Z.land (ev_off ev + nb_enq) (wq_sz q - 1));
                       ev_used := u16 (ev_i ev + nb_enq); ev_last_idx := tail (e_chan s);
                       ev_avail_sd := ev_avail_sd ev; ev_avail_mbuf := ev_avail_mbuf ev |} in
          if negb (nb_enq =? 4) then Ret (ev, s) else enq_x4_turns n q flags l ev s
      end
  end.

(** ** Packets that take several descriptors *)

(** [while (dlen < slen && avail_sd)]: [avail] turns are possible. *)
Fixpoint calc_enq (avail : nat) (q : worker_queue) (w : store) (off slen nb_enq dlen : Z) : cres (Z * Z) :=
  if dlen <? slen then
    match avail with
    | O => Ret (nb_enq, dlen)
    | S avail =>
        d_flags ← mload w (DESC_PTR_OFF (wq_sd_desc_base q) off 8);
        calc_enq avail q w (u16 (Z.land (off + 1) (wq_sz q - 1))) slen (u16 (nb_enq + 1))
          (u32 (dlen + Z.land d_flags (u64 (RTE_BIT64 32 - 1))))
    end
  else Ret (nb_enq, dlen).

Definition calculate_nb_enq (q : worker_queue) (w : store) (off slen avail_sd : Z) : cres Z :=
  '(nb_enq, dlen) ← calc_enq (Z.to_nat avail_sd) q w off slen 0 0;
  Ret (if slen <=? dlen then nb_enq else UINT16_MAX).

(** [for (cnt = 0; cnt < nb_enq; cnt++)] of [process_mseg_pkts_enq]. *)
Fixpoint mseg_dsts (n : nat) (q : worker_queue) (flags off slen : Z) (s : st) : cres (Z * st) :=
  match n with
  | O => Ret (off, s)
  | S n =>
      let base := wq_sd_desc_base q in
      d_flags ← mload (e_words s) (DESC_PTR_OFF base off 8);
      let buf_len := Z.land d_flags (u64 (RTE_BIT64 32 - 1)) in
      let slen := if has_flag flags ENQ_NOFF then (if slen =? 0 then 1 else slen) else slen in
      let dlen := if buf_len <? slen then buf_len else slen in
      w ← mstore (e_words s) (DESC_PTR_OFF base off 8) (used_len_word d_flags dlen);
      addr ← mload w (DESC_PTR_OFF base off 0);
      v ← dao_dma_enq_dst_x1 (e_chan s) addr dlen;
      let off := u16 (Z.land (off + 1) (wq_sz q - 1)) in
      arr ← cset (e_arr s) off 0;
      mseg_dsts n q flags off (u32 (slen - dlen)) (eput_dma v (e_dev s) (eput_ring w arr s))
  end.

(** [while (mbuf)]: the sources of the segments after the first. Each turn
    fills a cell of [src], an array of [DAO_DMA_MAX_POINTER] cells. *)
Fixpoint mseg_srcs (fuel : nat) (q : worker_queue) (flags moff mbuf : Z) (s : st) : cres st :=
  if mbuf =? 0 then Ret s
  else
    match fuel with
    | O => Fault
    | S fuel =>
        m ← mbuf_at (e_mbufs s) mbuf;
        v ← dao_dma_enq_src_x1 (e_chan s) (mtod mbuf m 0) (data_len m);
        let moff' := if has_flag flags ENQ_NOFF then u16 (Z.land (moff + 1) (wq_sz q - 1)) else moff in
        arr ← (if has_flag flags ENQ_NOFF then cset (e_arr s) moff' mbuf else Ret (e_arr s));
        b ← mbuf_upd mbuf (fun m => set_lens 1 (pkt_len m) (data_len m) (set_next 0 m)) (e_mbufs s);
        mseg_srcs fuel q flags moff' (next m) (eput_dma v (e_dev s) (eput_mbufs b (eput_ring (e_words s) arr s)))
    end.

Definition process_mseg_pkts_enq (q : worker_queue) (mbuf qoff nb_enq extra_desc flags : Z) (s : st) : cres (Z * st) :=
  m ← mbuf_at (e_mbufs s) mbuf;
  let slen := u32 (pkt_len m + wq_hdr_sz q) in
  let slen := if has_flag flags ENQ_NOFF then u32 (slen - extra_desc) else slen in
  arr ← cset (e_arr s) qoff mbuf;
  '(off, s) ← mseg_dsts (Z.to_nat nb_enq) q flags qoff slen (eput_ring (e_words s) arr s);
  v ← dao_dma_enq_src_x1 (e_chan s) (mtod mbuf m (- wq_hdr_sz q)) (u32 (data_len m + wq_hdr_sz q));
  b ← mbuf_upd mbuf (fun m => set_lens 1 (pkt_len m) (data_len m) (set_next 0 m)) (e_mbufs s);
  s ← mseg_srcs SEG_FUEL q flags qoff (next m) (eput_dma v (e_dev s) (eput_mbufs b s));
  Ret (off, s).

(** ** The scalar loop *)

(** The header of a packet as the scalar loop writes it, up to
    [num_buffers]; [hdr_len] and the padding are not written. *)
Definition st_hdr_x1 (flags hdr : Z) (m : rte_mbuf) (mem : Z -> Z) : cres (Z -> Z) :=
  let mem := st_le 1 hdr 0 mem in
  let mem := st_le 1 (hdr + 1) 0 mem in
  let mem := st_le 2 (hdr + 4) 0 mem in
  let mem := st_le 2 (hdr + 6) 0 mem in
  let mem := st_le 2 (hdr + 8) 0 mem in
  let good := (Z.land (ol_flags m) RTE_MBUF_F_RX_IP_CKSUM_BAD =? 0) && (Z.land (ol_flags m) RTE_MBUF_F_RX_L4_CKSUM_BAD =? 0) in
  let mem := if has_flag flags ENQ_CHECKSUM
             then (if good then st_le 1 hdr VIRTIO_NET_HDR_F_DATA_VALID mem else mem)
             else st_le 1 hdr 0 mem in
  if has_flag flags ENQ_HASH_REPORT then
    hash_rpt ← mbuf_pkt_type_to_virtio_hash_report hash_report (packet_type m);
    let mem := st_le 4 (hdr + 12) (hash_rss m) mem in
    Ret (st_le 2 (hdr + 16) (if hash_rss m =? 0 then 0 else hash_rpt) mem)
  else Ret mem.

Definition es_flush (avail : Z) (s : st) : bool * st :=
  let '(ok, v, d) := dao_dma_flush DAO_DMA_STATS (e_chan s) avail (e_dev s) in (ok, eput_dma v d s).

(** The part for packets of several segments or descriptors: [inl] is
    [goto exit]. *)
Definition enq_mseg (q : worker_queue) (flags mbuf0 hdr buf_len len : Z) (m : rte_mbuf) (ev : enq_vars) (s : st)
  : cres ((enq_vars * st) + (enq_vars * Z * st)) :=
  nb_enq ← (if len <=? buf_len then Ret 1
            else calculate_nb_enq q (e_words s) (ev_off ev) len (ev_avail_sd ev));
  let extra_desc := if has_flag flags ENQ_NOFF
                    then (if nb_enq <? nb_segs m then u16 (nb_segs m - nb_enq) else 0) else 0 in
  let nb_enq := u16 (nb_enq + extra_desc) in
  let set_idx ev s := {| ev_i := ev_i ev; ev_off := ev_off ev; ev_used := ev_used ev; ev_last_idx := tail (e_chan s);
                         ev_avail_sd := ev_avail_sd ev; ev_avail_mbuf := ev_avail_mbuf ev |} in
  let ev := set_idx ev s in
  let '(ok, s) := es_flush nb_enq s in
  if negb ok || (ev_avail_sd ev <? nb_enq) || (ev_avail_mbuf ev <? nb_enq) || (nb_enq =? UINT16_MAX) then Ret (inl (ev, s))
  else
    let s := eput_mem (st_le 2 (hdr + 10) nb_enq (e_mem s)) s in
    '(off, s) ← process_mseg_pkts_enq q mbuf0 (ev_off ev) nb_enq extra_desc flags s;
    Ret (inr ({| ev_i := ev_i ev; ev_off := off; ev_used := ev_used ev; ev_last_idx := ev_last_idx ev;
                 ev_avail_sd := u16 (ev_avail_sd ev - nb_enq); ev_avail_mbuf := u16 (ev_avail_mbuf ev - nb_enq) |},
              nb_enq, s)).

(** One turn up to the flush. *)
Definition enq_x1 (q : worker_queue) (flags : Z) (l : list Z) (ev : enq_vars) (s : st)
  : cres ((enq_vars * st) + (enq_vars * Z * st)) :=
  mbuf0 ← cget l (ev_i ev);
  m ← mbuf_at (e_mbufs s) mbuf0;
  let hdr := mtod mbuf0 m (- wq_hdr_sz q) in
  mem ← st_hdr_x1 flags hdr m (e_mem s);
  let s := eput_mem mem s in
  let base := wq_sd_desc_base q in
  d_flags ← mload (e_words s) (DESC_PTR_OFF base (ev_off ev) 8);
  let buf_len := Z.land d_flags (u64 (RTE_BIT64 32 - 1)) in
  let len := u32 (pkt_len m + wq_hdr_sz q) in
  if has_flag flags ENQ_MSEG then enq_mseg q flags mbuf0 hdr buf_len len m ev s
  else
    let s := eput_mem (st_le 2 (hdr + 10) 1 (e_mem s)) s in
    let len := if buf_len <? len then buf_len else len in
    w ← mstore (e_words s) (DESC_PTR_OFF base (ev_off ev) 8) (used_len_word d_flags len);
    arr ← cset (e_arr s) (ev_off ev) mbuf0;
    addr ← mload w (DESC_PTR_OFF base (ev_off ev) 0);
    v ← dao_dma_enq_x1 (e_chan s) hdr len addr len;
    Ret (inr ({| ev_i := ev_i ev; ev_off := u16 (Z.land (ev_off ev + 1) (wq_sz q - 1)); ev_used := ev_used ev;
                 ev_last_idx := ev_last_idx ev; ev_avail_sd := ev_avail_sd ev; ev_avail_mbuf := ev_avail_mbuf ev |},
              1, eput_dma v (e_dev s) (eput_ring w arr s))).

(** [while (i < nb_mbufs)]: [n] turns are left. *)
Fixpoint enq_x1_loop (n : nat) (q : worker_queue) (flags : Z) (l : list Z) (ev : enq_vars) (s : st) : cres (enq_vars * st) :=
  match n with
  | O => Ret (ev, s)
  | S n =>
      r ← enq_x1 q flags l ev s;
      match r with
      | inl (ev, s) => Ret (ev, s)
      | inr (ev, num_buffers, s) =>
          let ev := {| ev_i := u16 (ev_i ev + 1); ev_off := ev_off ev; ev_used := u16 (ev_used ev + num_buffers);
                       ev_last_idx := tail (e_chan s); ev_avail_sd := ev_avail_sd ev; ev_avail_mbuf := ev_avail_mbuf ev |} in
          let '(ok, s) := es_flush 1 s in
          if negb ok then Ret (ev, s) else enq_x1_loop n q flags l ev s
      end
  end.

(** [exit:] *)
Definition enq_exit (q : worker_queue) (ev : enq_vars) (s : st) : cres (worker_queue * st) :=
  if ev_used ev =? 0 then Ret (q, s)
  else
    let off := desc_off_add (wq_last_off q) (ev_used ev) (wq_sz q) in
    pend ← mload (e_cells s) (wq_pend_sd_mbuf_p q);
    m ← mstore (e_cells s) (wq_pend_sd_mbuf_p q) (u16 (pend + ev_used ev));
    v ← dao_dma_update_cmpl_meta (e_chan s) (wq_sd_mbuf_off_p q) off (wq_pend_sd_mbuf_p q) (ev_used ev) (ev_last_idx ev);
    Ret (set_last_off off q, eput_dma v (e_dev s) (eput_cells m s)).

Definition push_enq_data (q : worker_queue) (l : list Z) (nb_mbufs flags : Z) (s : st) : cres (Z * worker_queue * st) :=
  let '(ok, s) := es_flush 1 s in
  if negb ok then Ret (0, q, s)
  else
    '(avail_sd, avail_mbuf) ←
      (if has_flag flags ENQ_MSEG then
         sd_off ← mload (e_cells s) (wq_sd_desc_off_p q);
         pend ← mload (e_cells s) (wq_pend_sd_mbuf_p q);
         Ret (u16 (desc_off_diff sd_off (wq_last_off q) (wq_sz q)), u16 (wq_sz q - pend))
       else Ret (0, 0));
    let ev := {| ev_i := 0; ev_off := u16 (DESC_OFF (wq_last_off q)); ev_used := 0; ev_last_idx := 0;
                 ev_avail_sd := avail_sd; ev_avail_mbuf := avail_mbuf |} in
    '(ev, s) ← enq_x4_turns (Z.to_nat (nb_mbufs / 4)) q flags l ev s;
    '(ev, s) ← enq_x1_loop (Z.to_nat (nb_mbufs - ev_i ev)) q flags l ev s;
    '(q, s) ← enq_exit q ev s;
    Ret (ev_i ev, q, s).

(** ** virtio_net_enq *)
Definition virtio_net_enq (q : worker_queue) (l : list Z) (nb_mbufs flags : Z) (s : st) : cres (Z * worker_queue * st) :=
  '(v, d, m) ← dao_dma_check_meta_compl (e_chan s) (e_dev s) (e_cells s);
  let s := eput_dma v d (eput_cells m s) in
  sd_desc_off ← mload (e_cells s) (wq_sd_desc_off_p q);
  pend ← mload (e_cells s) (wq_pend_sd_mbuf_p q);
  let count := u16 (desc_off_diff sd_desc_off (wq_last_off q) (wq_sz q)) in
  let count := RTE_MIN count nb_mbufs in
  let count := u16 (RTE_MIN count (wq_sz q - pend)) in
  if count =? 0 then Ret (0, q, s) else push_enq_data q l count flags s.
End enq.

(** ** virtio_net_flush_enq: the queue goes away *)
Definition virtio_net_flush_enq (q : worker_queue) (auto_free : Z) (arr : list Z) (m : store) : cres (list free_call * store) :=
  sd_mbuf_off ← mload m (wq_sd_mbuf_off_p q);
  let last_off := wq_last_off q in
  if negb (auto_free =? 0) || (sd_mbuf_off =? last_off) then Ret ([], m)
  else
    let pend := desc_off_diff_no_wrap last_off sd_mbuf_off (wq_sz q) in
    l1 ← read_seg arr (DESC_OFF sd_mbuf_off) pend;
    let off := desc_off_add sd_mbuf_off pend (wq_sz q) in
    let pend := u16 (last_off - off) in
    l2 ← (if pend =? 0 then Ret [] else read_seg arr (DESC_OFF off) pend);
    let off := if pend =? 0 then off else desc_off_add off pend (wq_sz q) in
    m ← mstore m (wq_sd_mbuf_off_p q) off;
    m ← mstore m (wq_pend_sd_mbuf_p q) 0;
    Ret (pktmbuf_free_bulk l1 :: (if pend =? 0 then [] else [pktmbuf_free_bulk l2]), m).

(** ** Lengths and words *)

(** The number of bytes copied for a packet of [plen] bytes with its header
    into a descriptor with word [x]. *)
Definition copy_len (hdr_sz plen x : Z) : Z := Z.min (plen + hdr_sz) (desc_len x).

Lemma land_u64 x y : is_u64 x -> is_u64 (Z.land x y).
Proof.
  intros Hx. apply u64_pow2.
  assert (Z.land x y = Z.land x y mod 2 ^ 64) as ->; [|by apply Z.mod_pos_bound].
  apply Z.bits_inj'. intros i Hi. destruct (decide (i < 64)); [by rewrite Z.mod_pow2_bits_low|].
  rewrite Z.mod_pow2_bits_high, Z.land_spec, (testbit_small x 64) by ((by apply u64_pow2) || lia). done.
Qed.

Lemma used_len_word_spec x len i : is_u64 x -> is_u32 len -> 0 <= i ->
  Z.testbit (used_len_word x len) i =
  if i <? 32 then Z.testbit len i else if i =? 63 then Z.testbit x 55 else Z.testbit x i.
Proof.
  intros Hx Hl Hi. unfold used_len_word.
  assert (is_u64 (Z.land x 0xFFFFFFFF00000000)) as Hu by (by apply land_u64).
  rewrite Z.lor_spec, used_word_scalar, used_word_spec by done. change (u64 (RTE_BIT64 32 - 1)) with (Z.ones 32).
  rewrite !Z.land_spec, Z.testbit_ones_nonneg by lia.
  assert (forall j, 0 <= j -> Z.testbit 0xFFFFFFFF00000000 j = (32 <=? j) && (j <? 64)) as Hm.
  { intros j Hj. change 0xFFFFFFFF00000000 with (Z.shiftl (Z.ones 32) 32). rewrite Z.shiftl_spec by done.
    destruct (Z.leb_spec 32 j); cbn [andb]; [|by apply Z.testbit_neg_r; lia].
    rewrite Z.testbit_ones_nonneg by lia. destruct (Z.ltb_spec j 64), (Z.ltb_spec (j - 32) 32); lia || done. }
  rewrite !Hm by lia. destruct (Z.ltb_spec i 32); destruct (Z.eqb_spec i 63) as [->|]; try lia.
  - rewrite (proj2 (Z.leb_gt 32 i)) by lia. cbn. by rewrite andb_false_r, andb_true_r.
  - cbn. by rewrite andb_false_r, orb_false_r, andb_true_r.
  - rewrite (proj2 (Z.leb_le 32 i)) by lia. rewrite andb_false_r, orb_false_r. cbn.
    destruct (Z.ltb_spec i 64); [by rewrite andb_true_r|]. rewrite andb_false_r. symmetry.
    apply (testbit_small x 64); [by apply u64_pow2|lia].
Qed.

Lemma used_len_word_u64 x len : is_u64 x -> is_u32 len -> is_u64 (used_len_word x len).
Proof.
  intros Hx Hl. apply u64_pow2.
  assert (used_len_word x len = used_len_word x len mod 2 ^ 64) as ->; [|by apply Z.mod_pos_bound].
  apply Z.bits_inj'. intros i Hi. destruct (decide (i < 64)); [by rewrite Z.mod_pow2_bits_low|].
  rewrite Z.mod_pow2_bits_high, used_len_word_spec by (done || lia).
  rewrite (proj2 (Z.ltb_ge i 32)), (proj2 (Z.eqb_neq i 63)) by lia. apply (testbit_small x 64); [by apply u64_pow2|lia].
Qed.

Lemma used_len_word_len x len : is_u64 x -> is_u32 len -> desc_len (used_len_word x len) = len.
Proof.
  intros Hx Hl. unfold desc_len. change 0xFFFFFFFF with (Z.ones 32). apply Z.bits_inj'. intros i Hi.
  rewrite Z.land_spec, used_len_word_spec, Z.testbit_ones_nonneg by (done || lia).
  destruct (Z.ltb_spec i 32); [apply andb_true_r|]. rewrite andb_false_r. symmetry.
  apply (testbit_small len 32); [unfold is_u32 in Hl; lia|lia].
Qed.

Lemma used_len_word_idem x len : is_u64 x -> is_u32 len ->
  used_len_word (used_len_word x len) len = used_len_word x len.
Proof.
  intros Hx Hl. pose proof (used_len_word_u64 x len Hx Hl). apply Z.bits_inj'. intros i Hi.
  rewrite (used_len_word_spec (used_len_word x len)), !used_len_word_spec by (done || lia).
  by destruct (i <? 32), (i =? 63).
Qed.

(** The vector loop computes the same word. *)
Lemma used_len_word_vector x len : is_u64 x -> is_u32 len ->
  let f := Z.land x (u64 (Z.lnot (Z.lor F_USED (RTE_BIT64 32 - 1)))) in
  Z.lor (Z.lor f (u64 (Z.shiftl (Z.land f F_AVAIL) 8))) len = used_len_word x len.
Proof.
  intros Hx Hl f. apply Z.bits_inj'. intros i Hi. rewrite used_len_word_spec by done.
  assert (forall j, 0 <= j -> Z.testbit f j = Z.testbit x j && (32 <=? j) && negb (j =? 63)) as Hf.
  { intros j Hj. unfold f, F_USED. rewrite Z.land_spec, u64_testbit, Z.lnot_spec, Z.lor_spec, testbit_RTE_BIT64 by lia.
    change (RTE_BIT64 32 - 1) with (Z.ones 32). rewrite Z.testbit_ones_nonneg by lia.
    destruct (decide (j < 64)).
    - rewrite (proj2 (Z.ltb_lt j 64)) by lia. destruct (Z.eqb_spec j 63) as [->|].
      + rewrite bool_decide_true by done. by rewrite !andb_false_r.
      + rewrite bool_decide_false by lia. cbn [orb negb andb]. rewrite andb_true_r.
        destruct (Z.ltb_spec j 32), (Z.leb_spec 32 j); lia || done.
    - rewrite (testbit_small x 64) by ((by apply u64_pow2) || lia). done. }
  rewrite !Z.lor_spec, u64_testbit, Hf, Z.shiftl_spec by lia.
  assert (32 <= i -> Z.testbit len i = false) as Hlen by (intros; apply (testbit_small len 32); [unfold is_u32 in Hl; lia|lia]).
  assert (Z.testbit (Z.land f F_AVAIL) (i - 8) = (i =? 63) && Z.testbit x 55) as ->.
  { destruct (decide (i < 8)); [rewrite Z.testbit_neg_r, (proj2 (Z.eqb_neq i 63)) by lia; done|].
    unfold F_AVAIL. rewrite Z.land_spec, Hf, testbit_RTE_BIT64 by lia. destruct (Z.eqb_spec i 63) as [->|].
    - cbn. by rewrite !andb_true_r.
    - rewrite bool_decide_false by lia. by rewrite andb_false_r. }
  destruct (Z.ltb_spec i 32).
  - rewrite (proj2 (Z.leb_gt 32 i)), (proj2 (Z.eqb_neq i 63)) by lia. cbn. by rewrite !andb_false_r.
  - rewrite Hlen, orb_false_r, (proj2 (Z.leb_le 32 i)) by done. destruct (Z.eqb_spec i 63) as [->|]; cbn.
    + by rewrite andb_false_r.
    + by rewrite andb_false_r, orb_false_r, !andb_true_r.
Qed.

(** ** Headers *)

Lemma st_le_hit n a x mem p : a <= p < a + Z.of_nat n -> st_le n a x mem p = u8 (Z.shiftr x (8 * (p - a))).
Proof. intros Hp. unfold st_le. rewrite (proj2 (Z.leb_le a p)), (proj2 (Z.ltb_lt p _)) by lia. done. Qed.

Lemma st_le_miss n a x mem p : p < a \/ a + Z.of_nat n <= p -> st_le n a x mem p = mem p.
Proof.
  intros Hp. unfold st_le. destruct (Z.leb_spec a p), (Z.ltb_spec p (a + Z.of_nat n)); cbn; lia || done.
Qed.

(** The checksums of a packet are not known to be bad. *)
Definition csum_good (m : rte_mbuf) : bool := negb (Z.testbit (ol_flags m) 4) && negb (Z.testbit (ol_flags m) 3).

(** The report for a packet: none without a hash value. *)
Definition hash_rpt (hash_report : list Z) (m : rte_mbuf) (r : Z) : Prop :=
  exists r0, mbuf_pkt_type_to_virtio_hash_report hash_report (packet_type m) = Ret r0 /\
    r = if hash_rss m =? 0 then 0 else r0.

(** The bytes of a header that are written: with a hash report, all of it. *)
Definition hdr_span (flags : Z) : Z := if has_flag flags ENQ_HASH_REPORT then 20 else 12.

(** The virtio header in memory at [h] for a packet in one buffer. *)
Record hdr_ok (hash_report : list Z) (flags : Z) (m : rte_mbuf) (mem : Z -> Z) (h : Z) : Prop := {
  ho_flags : mem h = if has_flag flags ENQ_CHECKSUM && csum_good m then VIRTIO_NET_HDR_F_DATA_VALID else 0;
  ho_gso : mem (h + 1) = 0;
  ho_zero p : h + 4 <= p < h + 10 -> mem p = 0;
  ho_num : mem (h + 10) = 1 /\ mem (h + 11) = 0;
  ho_hash : has_flag flags ENQ_HASH_REPORT = true -> exists r, hash_rpt hash_report m r /\
    (forall j, 0 <= j < 4 -> mem (h + 12 + j) = u8 (Z.shiftr (hash_rss m) (8 * j))) /\
    mem (h + 16) = u8 r /\ mem (h + 17) = u8 (Z.shiftr r 8);
}.

Lemma hdr_ok_ext hr flags m mem mem' h : (forall p, h <= p < h + hdr_span flags -> mem' p = mem p) ->
  hdr_ok hr flags m mem h -> hdr_ok hr flags m mem' h.
Proof.
  intros He [H1 H2 H3 [H4 H5] H6]. assert (12 <= hdr_span flags) by (unfold hdr_span; destruct (has_flag flags ENQ_HASH_REPORT); lia). split.
  - by rewrite He by lia.
  - by rewrite He by lia.
  - intros p Hp. rewrite He by lia. by apply H3.
  - by rewrite !He by lia.
  - intros Hh. assert (hdr_span flags = 20) as Hs by (unfold hdr_span; by rewrite Hh). rewrite Hs in He. destruct (H6 Hh) as (r & Hr & Hv & Ha & Hb). exists r. split; [done|].
    split; [|by rewrite !He by lia]. intros j Hj. rewrite He by lia. by apply Hv.
Qed.

(** What the loops read of a packet. *)
Record sendable (hash_report : list Z) (hdr_sz : Z) (m : rte_mbuf) : Prop := {
  sd_ol : is_u64 (ol_flags m) /\ Z.testbit (ol_flags m) 5 = false;
  sd_ptype : is_u32 (packet_type m);
  sd_len : 0 <= pkt_len m /\ is_u32 (pkt_len m + hdr_sz);
  sd_rss : is_u32 (hash_rss m);
  sd_report : exists r, mbuf_pkt_type_to_virtio_hash_report hash_report (packet_type m) = Ret r;
}.

Lemma report_u16 hr pt r : mbuf_pkt_type_to_virtio_hash_report hr pt = Ret r -> is_u16 r.
Proof.
  unfold mbuf_pkt_type_to_virtio_hash_report. destruct (cget hr _); cbn; [|done..]. intros [= <-]. auto with dao.
Qed.

Lemma st_hdr_x1_ok hr flags h m mem hdr_sz : sendable hr hdr_sz m ->
  exists mem1, st_hdr_x1 hr flags h m mem = Ret mem1 /\
    hdr_ok hr flags m (st_le 2 (h + 10) 1 mem1) h /\
    forall p, p < h \/ h + hdr_span flags <= p -> st_le 2 (h + 10) 1 mem1 p = mem p.
Proof.
  intros [_ _ _ Hrss [r Hr]]. unfold st_hdr_x1.
  set (base := st_le 2 (h + 8) 0 (st_le 2 (h + 6) 0 (st_le 2 (h + 4) 0 (st_le 1 (h + 1) 0 (st_le 1 h 0 mem))))).
  unfold RTE_MBUF_F_RX_IP_CKSUM_BAD, RTE_MBUF_F_RX_L4_CKSUM_BAD. rewrite !land_RTE_BIT64 by lia. fold (csum_good m).
  set (mem1 := if has_flag flags ENQ_CHECKSUM then if csum_good m then st_le 1 h VIRTIO_NET_HDR_F_DATA_VALID base else base
               else st_le 1 h 0 base).
  assert (mem1 h = if has_flag flags ENQ_CHECKSUM && csum_good m then VIRTIO_NET_HDR_F_DATA_VALID else 0) as M0.
  { unfold mem1. destruct (has_flag flags ENQ_CHECKSUM), (csum_good m); cbn [andb];
      rewrite ?st_le_hit, ?Z.sub_diag by lia; try done.
    unfold base. do 4 rewrite st_le_miss by lia. by rewrite st_le_hit, Z.sub_diag by lia. }
  assert (forall p, p <> h -> mem1 p = base p) as M1.
  { intros p Hp. unfold mem1. destruct (has_flag flags ENQ_CHECKSUM), (csum_good m); first [done | apply st_le_miss; lia]. }
  assert (mem1 (h + 1) = 0) as M2.
  { rewrite M1 by lia. unfold base. do 3 rewrite st_le_miss by lia. by rewrite st_le_hit, Z.shiftr_0_l by lia. }
  assert (forall p, h + 4 <= p < h + 10 -> mem1 p = 0) as M3.
  { intros p Hp. rewrite M1 by lia. unfold base. destruct (decide (h + 8 <= p)).
    { rewrite st_le_hit by lia. by rewrite Z.shiftr_0_l. }
    rewrite st_le_miss by lia. destruct (decide (h + 6 <= p)).
    { rewrite st_le_hit by lia. by rewrite Z.shiftr_0_l. }
    rewrite st_le_miss, st_le_hit by lia. by rewrite Z.shiftr_0_l. }
  assert (forall p, p < h \/ h + 12 <= p -> mem1 p = mem p) as M4.
  { intros p Hp. rewrite M1 by lia. unfold base. by do 5 rewrite st_le_miss by lia. }
  clearbody mem1. unfold hdr_span. destruct (has_flag flags ENQ_HASH_REPORT) eqn:Eh.
  - rewrite Hr. cbn [mbind cres_mbind]. eexists. split; [done|].
    assert (forall q, q < h + 10 -> st_le 2 (h + 10) 1 (st_le 2 (h + 16) (if hash_rss m =? 0 then 0 else r) (st_le 4 (h + 12) (hash_rss m) mem1)) q = mem1 q) as E
      by (intros p Hp; by do 3 rewrite st_le_miss by lia).
    split; [|intros p Hp; do 3 rewrite st_le_miss by lia; by apply M4; lia].
    split; rewrite ?E by lia; try done.
    + intros p Hp. rewrite E by lia. by apply M3.
    + rewrite !st_le_hit by lia. replace (8 * (h + 10 - (h + 10))) with 0 by lia. by replace (8 * (h + 11 - (h + 10))) with 8 by lia.
    + intros _. exists (if hash_rss m =? 0 then 0 else r). split; [by exists r|]. split; [|split].
      * intros j Hj. do 2 rewrite st_le_miss by lia. rewrite st_le_hit by lia. do 3 f_equal. lia.
      * rewrite st_le_miss, st_le_hit by lia. by replace (8 * (h + 16 - (h + 16))) with 0 by lia.
      * rewrite st_le_miss, st_le_hit by lia. by replace (8 * (h + 17 - (h + 16))) with 8 by lia.
  - exists mem1. split; [done|]. split; [|intros p Hp; rewrite st_le_miss by lia; by apply M4; lia].
    split; rewrite ?st_le_miss by lia; try done.
    + intros p Hp. rewrite st_le_miss by lia. by apply M3.
    + rewrite !st_le_hit by lia. replace (8 * (h + 10 - (h + 10))) with 0 by lia. by replace (8 * (h + 11 - (h + 10))) with 8 by lia.
    + by rewrite Eh.
Qed.

(** *** Headers of the vector loop *)

(** One lane of [valid_x4]. *)
Definition valid_lane (ol : Z) : Z :=
  let b := (fun b => Z.shiftr b 3) <$> le_bytes 4 (u32 ol) in
  Z.land (of_le (vqtbl1q_u8 olflag_tbl (le_bytes 4 (Z.land (of_le b) 0xF)))) 0xF.

Lemma valid_x4_lanes m0 m1 m2 m3 :
  valid_x4 (ld_len_olflags m0) (ld_len_olflags m1) (ld_len_olflags m2) (ld_len_olflags m3) =
  V4 (valid_lane (ol_flags m0)) (valid_lane (ol_flags m1)) (valid_lane (ol_flags m2)) (valid_lane (ol_flags m3)).
Proof. reflexivity. Qed.

Lemma land_15 x : Z.land x 0xF = x mod 16.
Proof. change 0xF with (Z.ones 4). by rewrite Z.land_ones. Qed.

Lemma valid_lane_spec ol : valid_lane ol =
  if negb (Z.testbit ol 3) && negb (Z.testbit ol 4) && negb (Z.testbit ol 5) then 2 else 0.
Proof.
  unfold valid_lane. cbn [le_bytes fmap list_fmap of_le]. rewrite (land_15 (_ + _)).
  set (y := Z.shiftr ol 3 mod 16).
  assert ((Z.shiftr (u8 (u32 ol)) 3 + 0x100 * (Z.shiftr (u8 (Z.shiftr (u32 ol) 8)) 3 + 0x100 *
    (Z.shiftr (u8 (Z.shiftr (Z.shiftr (u32 ol) 8) 8)) 3 + 0x100 *
    (Z.shiftr (u8 (Z.shiftr (Z.shiftr (Z.shiftr (u32 ol) 8) 8) 8)) 3 + 0x100 * 0)))) mod 16 = y) as ->.
  { generalize (Z.shiftr (u8 (Z.shiftr (Z.shiftr (u32 ol) 8) 8)) 3 + 0x100 *
      (Z.shiftr (u8 (Z.shiftr (Z.shiftr (Z.shiftr (u32 ol) 8) 8) 8)) 3 + 0x100 * 0)).
    generalize (Z.shiftr (u8 (Z.shiftr (u32 ol) 8)) 3). intros a b. subst y.
    rewrite !Z.shiftr_div_pow2 by lia. change (2 ^ 3) with 8. word. }
  assert (forall i, 0 <= i < 4 -> Z.testbit ol (i + 3) = Z.testbit y i) as Hb.
  { intros i Hi. subst y. change 16 with (2 ^ 4). by rewrite Z.mod_pow2_bits_low, Z.shiftr_spec by lia. }
  pose proof (Hb 0 ltac:(lia)) as B0. pose proof (Hb 1 ltac:(lia)) as B1. pose proof (Hb 2 ltac:(lia)) as B2.
  change (0 + 3) with 3 in B0. change (1 + 3) with 4 in B1. change (2 + 3) with 5 in B2. rewrite B0, B1, B2. assert (0 <= y < 16) as Hy by (subst y; by apply Z.mod_pos_bound).
  clearbody y. clear Hb B0 B1 B2.
  assert (In y (seqZ 0 16)) as Hin by (apply list_elem_of_In, elem_of_seqZ; lia). cbn in Hin.
  repeat destruct Hin as [<-|Hin]; try reflexivity. done.
Qed.

Lemma valid_lane_good m : Z.testbit (ol_flags m) 5 = false ->
  valid_lane (ol_flags m) = if csum_good m then VIRTIO_NET_HDR_F_DATA_VALID else 0.
Proof.
  intros H5. rewrite valid_lane_spec, H5. unfold csum_good.
  by destruct (Z.testbit (ol_flags m) 3), (Z.testbit (ol_flags m) 4).
Qed.

(** The hash word of a packet: the report above the value. *)
Definition hash_word (rss r : Z) : Z := Z.lor rss (Z.shiftl (Z.land (all32 (0 <? rss)) r) 32).

Lemma hash_x4_lanes hr m0 m1 m2 m3 r0 r1 r2 r3 :
  mbuf_pkt_type_to_virtio_hash_report hr (packet_type m0) = Ret r0 ->
  mbuf_pkt_type_to_virtio_hash_report hr (packet_type m1) = Ret r1 ->
  mbuf_pkt_type_to_virtio_hash_report hr (packet_type m2) = Ret r2 ->
  mbuf_pkt_type_to_virtio_hash_report hr (packet_type m3) = Ret r3 ->
  is_u32 (hash_rss m0) -> is_u32 (hash_rss m1) -> is_u32 (hash_rss m2) -> is_u32 (hash_rss m3) ->
  hash_x4 hr m0 m1 m2 m3 =
  Ret (V2 (hash_word (hash_rss m0) r0) (hash_word (hash_rss m1) r1),
       V2 (hash_word (hash_rss m2) r2) (hash_word (hash_rss m3) r3)).
Proof.
  intros E0 E1 E2 E3 H0 H1 H2 H3. unfold hash_x4. rewrite E0. cbn [mbind cres_mbind]. rewrite E1. cbn [mbind cres_mbind].
  rewrite E2. cbn [mbind cres_mbind]. rewrite E3. cbn [mbind cres_mbind].
  unfold ld_rss, vzip1q_u64, vtrn1q_u32, vtrn2q_u32, vandq_u32, vcgtq_u32, map2_32, as_u64, as_u32, hash_word.
  cbn [s0 s1 s2 s3 q0 q1 vdupq_n_u32]. rewrite !Z.shiftl_0_l, !Z.lor_0_r, !u32_id by done. done.
Qed.

Lemma hash_word_bytes rss r j : is_u32 rss -> is_u16 r -> 0 <= j < 4 ->
  u8 (Z.shiftr (hash_word rss r) (8 * j)) = u8 (Z.shiftr rss (8 * j)).
Proof.
  intros Hrss Hr Hj. change (u8 ?x) with (x mod 2 ^ 8). apply Z.bits_inj'. intros i Hi.
  destruct (decide (i < 8)); [|by rewrite !Z.mod_pow2_bits_high by lia].
  rewrite !Z.mod_pow2_bits_low, !Z.shiftr_spec by lia. unfold hash_word.
  rewrite Z.lor_spec, Z.shiftl_spec_low by lia. apply orb_false_r.
Qed.

Lemma hash_word_report rss r j : is_u32 rss -> is_u16 r -> 0 <= j ->
  Z.shiftr (hash_word rss r) (32 + j) = Z.shiftr (if rss =? 0 then 0 else r) j.
Proof.
  intros Hrss Hr Hj. rewrite <- Z.shiftr_shiftr by lia. f_equal. unfold hash_word.
  rewrite Z.shiftr_lor, Z.shiftr_shiftl_l, Z.shiftl_0_r by lia.
  replace (Z.shiftr rss 32) with 0 by (rewrite Z.shiftr_div_pow2 by lia; change (2 ^ 32) with 0x100000000; word).
  rewrite Z.lor_0_l. unfold all32. destruct (Z.eqb_spec rss 0), (Z.ltb_spec 0 rss); try (unfold is_u32 in *; lia).
  - done.
  - rewrite Z.land_comm, <- u32_land. apply u32_id. word.
Qed.

Lemma st_hdr_x4_ok hr flags h m mem hdr_sz r : sendable hr hdr_sz m ->
  mbuf_pkt_type_to_virtio_hash_report hr (packet_type m) = Ret r ->
  let mem' := st_hdr_x4 flags h (valid_lane (ol_flags m)) (hash_word (hash_rss m) r) mem in
  hdr_ok hr flags m mem' h /\ forall p, p < h \/ h + hdr_span flags <= p -> mem' p = mem p.
Proof.
  intros [[_ H5] _ _ Hrss _] Hr mem'. pose proof (report_u16 _ _ _ Hr) as Hr16. unfold mem', st_hdr_x4, hdr_span.
  rewrite (valid_lane_good m H5).
  set (v := if has_flag flags ENQ_CHECKSUM then if csum_good m then VIRTIO_NET_HDR_F_DATA_VALID else 0 else 0).
  assert (v = if has_flag flags ENQ_CHECKSUM && csum_good m then VIRTIO_NET_HDR_F_DATA_VALID else 0) as Hv
    by (unfold v; by destruct (has_flag flags ENQ_CHECKSUM), (csum_good m)).
  assert (v = 0 \/ v = 2) as Hv2 by (unfold v; destruct (has_flag flags ENQ_CHECKSUM), (csum_good m); auto).
  clearbody v. set (w := st_le 8 h v mem).
  set (w1 := if has_flag flags ENQ_HASH_REPORT then st_le 8 (h + 12) (hash_word (hash_rss m) r) w else w).
  assert (forall p, p < h + 12 -> w1 p = w p) as E1.
  { intros p Hp. unfold w1. destruct (has_flag flags ENQ_HASH_REPORT); [apply st_le_miss; lia|done]. }
  split; [split|].
  - rewrite st_le_miss, E1 by lia. unfold w. rewrite st_le_hit by lia. rewrite Z.sub_diag, <- Hv.
    destruct Hv2 as [->| ->]; done.
  - rewrite st_le_miss, E1 by lia. unfold w. rewrite st_le_hit by lia. replace (8 * (h + 1 - h)) with 8 by lia.
    destruct Hv2 as [->| ->]; done.
  - intros p Hp. destruct (decide (h + 8 <= p)).
    + rewrite st_le_hit by lia. assert (p = h + 8 \/ p = h + 9) as [->| ->] by lia.
      * by replace (8 * (h + 8 - (h + 8))) with 0 by lia.
      * by replace (8 * (h + 9 - (h + 8))) with 8 by lia.
    + rewrite st_le_miss, E1 by lia. unfold w. rewrite st_le_hit by lia.
      replace (Z.shiftr v (8 * (p - h))) with 0; [done|]. rewrite Z.shiftr_div_pow2 by lia. symmetry. apply Z.div_small.
      assert (2 ^ 8 <= 2 ^ (8 * (p - h))) by (apply Z.pow_le_mono_r; lia). lia.
  - rewrite !st_le_hit by lia. replace (8 * (h + 10 - (h + 8))) with 16 by lia. by replace (8 * (h + 11 - (h + 8))) with 24 by lia.
  - intros Eh. unfold w1. rewrite Eh. exists (if hash_rss m =? 0 then 0 else r). split; [by exists r|]. split; [|split].
    + intros j Hj. rewrite st_le_miss, st_le_hit by lia. replace (h + 12 + j - (h + 12)) with j by lia. by apply hash_word_bytes.
    + rewrite st_le_miss, st_le_hit by lia. replace (8 * (h + 16 - (h + 12))) with (32 + 0) by lia.
      by rewrite hash_word_report by (done || lia).
    + rewrite st_le_miss, st_le_hit by lia. replace (8 * (h + 17 - (h + 12))) with (32 + 8) by lia.
      by rewrite hash_word_report by (done || lia).
  - intros p Hp. unfold w1. destruct (has_flag flags ENQ_HASH_REPORT); unfold w; repeat rewrite st_le_miss by lia; done.
Qed.

(** The slot of descriptor [c] in the array of buffers. *)
Definition slot (q : worker_queue) (c : Z) : nat := Z.to_nat (c mod wq_sz q).

Lemma slot_inj_range q : queue_ok q -> forall from n c c', 0 <= n <= wq_sz q ->
  from <= c < from + n -> from <= c' < from + n -> slot q c = slot q c' -> c = c'.
Proof.
  intros Hq from n c c' Hn Hc Hc' He. pose proof (wq_sz_bounds q Hq). unfold slot in He.
  pose proof (Z.mod_pos_bound c (wq_sz q) ltac:(lia)). pose proof (Z.mod_pos_bound c' (wq_sz q) ltac:(lia)).
  destruct (pos_inj q Hq from c c' 0 0); [unfold desc_pos, DESC_ENTRY_SZ; lia..|done].
Qed.

(** ** Sending packets of one buffer each

    [n] packets [pp], with the fields [pm], go into the descriptors from
    [from] on, which are [addr] and [meta]. *)
Section sending.
Context (stats : bool) {D : Type} `{RteDmaLaws D} (buf_addr : Z -> Z) (hr : list Z).
Context (q : worker_queue) (Hq : queue_ok q) (flags from n : Z) (addr meta : Z -> Z).
Context (l : list Z) (bufs : mbufs) (pp : Z -> Z) (pm : Z -> rte_mbuf).

(** Where the header of packet [i] goes, the length copied into descriptor
    [c] and the word it is given. *)
Definition hdr_at (i : Z) : Z := buf_addr (pp i) + data_off (pm i) - wq_hdr_sz q.
Definition clen (c : Z) : Z := copy_len (wq_hdr_sz q) (pkt_len (pm (c - from))) (meta c).
Definition sent_word (c : Z) : Z := used_len_word (meta c) (clen c).

(** The packets can be sent: their headers have room of their own. *)
Record sends : Prop := {
  sn_range : 0 <= n <= wq_sz q;
  sn_list i : 0 <= i < n -> l !! Z.to_nat i = Some (pp i);
  sn_bufs i : 0 <= i < n -> bufs !! pp i = Some (pm i);
  sn_pkt i : 0 <= i < n -> sendable hr (wq_hdr_sz q) (pm i);
  sn_hdr i : 0 <= i < n -> 0 <= buf_addr (pp i) /\ 0 <= data_off (pm i) /\ 0 <= hdr_at i /\
    is_u64 (buf_addr (pp i) + data_off (pm i));
  sn_disjoint i j : 0 <= i < n -> 0 <= j < n -> i <> j ->
    hdr_at i + hdr_span flags <= hdr_at j \/ hdr_at j + hdr_span flags <= hdr_at i;
  sn_meta c : from <= c < from + n -> is_u64 (meta c);
  sn_single : has_flag flags ENQ_MSEG = false;
}.
Context (Hs : sends).

(** *** Headers, words and array slots written up to packet [j] *)
Definition hdrs_to (mem0 : Z -> Z) (j : Z) (mem : Z -> Z) : Prop :=
  (forall i, 0 <= i < j -> hdr_ok hr flags (pm i) mem (hdr_at i)) /\
  (forall p, (forall i, 0 <= i < n -> p < hdr_at i \/ hdr_at i + hdr_span flags <= p) -> mem p = mem0 p).

Definition words_to (w0 : store) (j : Z) (w : store) : Prop :=
  (exists x, ring_at q from (from + n) addr x w /\
    (forall c, from <= c < from + n -> x c = meta c \/ x c = sent_word c) /\
    (forall c, from <= c < from + j -> x c = sent_word c)) /\
  (forall p, (forall c, from <= c < from + n -> p <> desc_pos q c + 8) -> w !! p = w0 !! p).

Definition arr_to (arr0 : list Z) (j : Z) (arr : list Z) : Prop :=
  length arr = length arr0 /\
  (forall c, from <= c < from + j -> arr !! slot q c = Some (pp (c - from))) /\
  (forall k, (forall c, from <= c < from + n -> k <> slot q c) -> arr !! k = arr0 !! k).

Lemma hdrs_step mem0 j mem mem' : hdrs_to mem0 j mem -> 0 <= j < n -> hdr_ok hr flags (pm j) mem' (hdr_at j) ->
  (forall p, p < hdr_at j \/ hdr_at j + hdr_span flags <= p -> mem' p = mem p) -> hdrs_to mem0 (j + 1) mem'.
Proof.
  intros [K1 K2] Hj Hok Hout. split.
  - intros i Hi. destruct (decide (i = j)) as [->|]; [done|]. apply (hdr_ok_ext _ _ _ mem); [|apply K1; lia].
    intros p Hp. apply Hout. destruct (sn_disjoint Hs i j); lia.
  - intros p Hp. rewrite Hout; [by apply K2|by apply Hp].
Qed.

Lemma clen_u32 c : from <= c < from + n -> is_u32 (clen c).
Proof.
  intros Hc. unfold clen, copy_len. rewrite desc_len_u32. destruct (sd_len _ _ _ (sn_pkt Hs (c - from) ltac:(lia))).
  pose proof (qo_hdr q Hq). word.
Qed.

(** Writing a word again, after a turn whose copies were not all taken. *)
Lemma sent_cases x c : from <= c < from + n -> x = meta c \/ x = sent_word c ->
  is_u64 x /\ copy_len (wq_hdr_sz q) (pkt_len (pm (c - from))) x = clen c /\ used_len_word x (clen c) = sent_word c.
Proof.
  intros Hc Hx. pose proof (sn_meta Hs c Hc) as Hm. pose proof (clen_u32 c Hc) as Hl. unfold sent_word in *.
  destruct Hx as [->| ->]; [done|]. split_and!.
  - by apply used_len_word_u64.
  - unfold copy_len. rewrite used_len_word_len by done. unfold clen, copy_len. lia.
  - by apply used_len_word_idem.
Qed.

Lemma words_weaken w0 j j' w : words_to w0 j w -> j' <= j -> words_to w0 j' w.
Proof. intros [(x & Hr & K1 & K2) Ho] Hj. split; [|done]. exists x. split_and!; [done..|]. intros c Hc. apply K2. lia. Qed.

Lemma words_upd w0 j w w' : words_to w0 j w -> 0 <= j < n ->
  (exists x, ring_at q from (from + n) addr x w /\
    (forall c, from <= c < from + n -> x c = meta c \/ x c = sent_word c) /\
    (forall c, from <= c < from + j -> x c = sent_word c) /\
    ring_at q from (from + n) addr (<[from + j := sent_word (from + j)]> x) w') ->
  (forall p, p <> desc_pos q (from + j) + 8 -> w' !! p = w !! p) -> words_to w0 (j + 1) w'.
Proof.
  intros [_ Ho] Hj (x & Hr & K1 & K2 & Hr') Hout. split.
  - eexists. split; [done|]. split; intros c Hc; destruct (decide (c = from + j)) as [->|].
    1,3: rewrite fn_lookup_insert; auto.
    + rewrite fn_lookup_insert_ne by lia. by apply K1.
    + rewrite fn_lookup_insert_ne by lia. apply K2. lia.
  - intros p Hp. rewrite Hout; [by apply Ho|apply Hp; lia].
Qed.

(** The word of descriptor [from + j] is stored, alone or with its address. *)
Lemma words_step w0 j w : words_to w0 j w -> 0 <= j < n ->
  exists w', mstore w (desc_pos q (from + j) + 8) (sent_word (from + j)) = Ret w' /\ words_to w0 (j + 1) w'.
Proof.
  intros Hw Hj. pose proof (sn_range Hs). destruct (proj1 Hw) as (x & Hr & K1 & K2).
  destruct (st_meta q Hq from (from + n) addr x w (from + j) (sent_word (from + j)) Hr) as (w' & E & Hr' & Ho); [lia..|].
  exists w'. split; [done|]. apply (words_upd w0 j w); try done. by exists x.
Qed.

Lemma words_step_x4 w0 j w : words_to w0 j w -> 0 <= j < n ->
  exists w', st_desc w (wq_sd_desc_base q) ((from + j) mod wq_sz q) (V2 (addr (from + j)) (sent_word (from + j))) = Ret w' /\
    words_to w0 (j + 1) w'.
Proof.
  intros Hw Hj. pose proof (sn_range Hs). destruct (proj1 Hw) as (x & Hr & K1 & K2).
  destruct (st_ring q Hq from (from + n) addr x w (from + j) (sent_word (from + j)) Hr) as (w' & E & Hr' & Ho); [lia..|].
  exists w'. split; [done|]. apply (words_upd w0 j w); try done. by exists x.
Qed.

Lemma slot_inj c c' : from <= c < from + n -> from <= c' < from + n -> slot q c = slot q c' -> c = c'.
Proof. apply (slot_inj_range q Hq), (sn_range Hs). Qed.

Lemma arr_step arr0 j arr : arr_to arr0 j arr -> wq_sz q <= Z.of_nat (length arr0) -> 0 <= j < n ->
  exists arr', cset arr ((from + j) mod wq_sz q) (pp j) = Ret arr' /\ arr_to arr0 (j + 1) arr'.
Proof.
  intros (Hl & K1 & K2) Hlen Hj. pose proof (sn_range Hs). pose proof (wq_sz_bounds q Hq).
  pose proof (Z.mod_pos_bound (from + j) (wq_sz q) ltac:(lia)).
  rewrite cset_in_range by lia. eexists. split; [done|]. fold (slot q (from + j)). split_and!.
  - by rewrite length_insert.
  - intros c Hc. destruct (decide (c = from + j)) as [->|].
    + replace (from + j - from) with j by lia. apply list_lookup_insert_eq. unfold slot. lia.
    + rewrite list_lookup_insert_ne; [apply K1; lia|]. intros He. apply slot_inj in He; lia.
  - intros k Hk. rewrite list_lookup_insert_ne; [by apply K2|]. intros He. symmetry in He. revert He. apply Hk. lia.
Qed.

Definition esrc (c : Z) : rte_dma_sge := {| sge_addr := hdr_at (c - from); sge_length := clen c |}.
Definition edst (c : Z) : rte_dma_sge := {| sge_addr := addr c; sge_length := clen c |}.

(** [k] packets have been sent since state [s0]. *)
Record sending (s0 : estate D) (k : Z) (s : estate D) : Prop := {
  se_k : 0 <= k <= n;
  se_cells : e_cells s = e_cells s0;
  se_bufs : e_mbufs s = bufs;
  se_hdrs : hdrs_to (e_mem s0) k (e_mem s);
  se_words : words_to (e_words s0) k (e_words s);
  se_arr : arr_to (e_arr s0) k (e_arr s);
  se_src : src_stream (e_dev s) (e_chan s) = src_stream (e_dev s0) (e_chan s0) ++ (esrc <$> seqZ from k);
  se_dst : dst_stream (e_dev s) (e_chan s) = dst_stream (e_dev s0) (e_chan s0) ++ (edst <$> seqZ from k);
  se_wf : vchan_wf (e_chan s);
  se_sync : src_i (e_chan s) = dst_i (e_chan s);
  se_frame : flush_thr (e_chan s) = flush_thr (e_chan s0) /\ mdata (e_chan s) = mdata (e_chan s0) /\
    head (e_chan s) = head (e_chan s0);
}.

Lemma sending_extend r s0 k s mem w arr v d :
  sending s0 k s -> 0 <= r -> k + r <= n ->
  hdrs_to (e_mem s0) (k + r) mem -> words_to (e_words s0) (k + r) w -> arr_to (e_arr s0) (k + r) arr ->
  src_stream d v = src_stream (e_dev s) (e_chan s) ++ (esrc <$> seqZ (from + k) r) ->
  dst_stream d v = dst_stream (e_dev s) (e_chan s) ++ (edst <$> seqZ (from + k) r) ->
  vchan_wf v -> src_i v = dst_i v ->
  (flush_thr v = flush_thr (e_chan s) /\ mdata v = mdata (e_chan s) /\ head v = head (e_chan s)) ->
  sending s0 (k + r) (eput_dma v d (eput_mem mem (eput_ring w arr s))).
Proof.
  intros [Hk Hc Hb _ _ _ Hs1 Hs2 _ _ Hfr] Hr Hroom Hm Hw Ha Es Ed Hwf Hsy Hfr'.
  split; cbn [e_cells e_words e_mbufs e_arr e_mem e_chan e_dev eput_dma eput_mem eput_ring]; try done.
  - lia.
  - rewrite Es, Hs1, <- app_assoc, <- fmap_app. by rewrite seqZ_app by lia.
  - rewrite Ed, Hs2, <- app_assoc, <- fmap_app. by rewrite seqZ_app by lia.
  - destruct Hfr as (? & ? & ?), Hfr' as (? & ? & ?). split_and!; congruence.
Qed.

Lemma pkt_get i : 0 <= i < n -> cget l i = Ret (pp i).
Proof. intros Hi. apply cget_Ret. split; [lia|by apply (sn_list Hs)]. Qed.

Lemma pkt_at i : 0 <= i < n -> mbuf_at bufs (pp i) = Ret (pm i).
Proof. intros Hi. unfold mbuf_at. by rewrite (sn_bufs Hs). Qed.

(** The address of a header, from both loops. *)
Lemma hdr_scalar i : 0 <= i < n -> mtod buf_addr (pp i) (pm i) (- wq_hdr_sz q) = hdr_at i.
Proof.
  intros Hi. destruct (sn_hdr Hs i Hi) as (? & ? & ? & ?). pose proof (qo_hdr q Hq). unfold mtod, hdr_at in *.
  rewrite u64_id by word. lia.
Qed.

Lemma hdr_vector i : 0 <= i < n -> u64 (u64 (buf_addr (pp i) + data_off (pm i)) - wq_hdr_sz q) = hdr_at i.
Proof.
  intros Hi. destruct (sn_hdr Hs i Hi) as (? & ? & ? & ?). pose proof (qo_hdr q Hq). unfold hdr_at in *.
  rewrite !u64_id by word. done.
Qed.

(** *** The scalar loop *)

(** A turn up to the DMA elements. *)
Lemma enq_x1_upto s0 k s ev : sending s0 k s -> k + 1 <= n ->
  wq_sz q <= Z.of_nat (length (e_arr s0)) -> ev_i ev = k -> ev_off ev = (from + k) mod wq_sz q ->
  exists mem w arr, enq_x1 stats buf_addr hr q flags l ev s =
      (v ← dao_dma_enq_x1 (e_chan s) (hdr_at k) (clen (from + k)) (addr (from + k)) (clen (from + k));
       Ret (inr ({| ev_i := k; ev_off := (from + (k + 1)) mod wq_sz q; ev_used := ev_used ev; ev_last_idx := ev_last_idx ev;
                    ev_avail_sd := ev_avail_sd ev; ev_avail_mbuf := ev_avail_mbuf ev |}, 1,
                 eput_dma v (e_dev s) (eput_mem mem (eput_ring w arr s))))) /\
    hdrs_to (e_mem s0) (k + 1) mem /\ words_to (e_words s0) (k + 1) w /\ arr_to (e_arr s0) (k + 1) arr.
Proof.
  intros Hse Hroom Harr Hi Ho. pose proof (se_k _ _ _ Hse) as Hk. unfold enq_x1. rewrite Hi, Ho.
  rewrite pkt_get by lia. cbn [mbind cres_mbind]. rewrite (se_bufs _ _ _ Hse), pkt_at by lia. cbn [mbind cres_mbind].
  rewrite hdr_scalar by lia. pose proof (sn_pkt Hs k ltac:(lia)) as Hp. destruct (sd_len _ _ _ Hp) as [Hp0 Hp1].
  destruct (st_hdr_x1_ok hr flags (hdr_at k) (pm k) (e_mem s) _ Hp) as (mem1 & -> & Hok & Hout). cbn [mbind cres_mbind].
  rewrite !(pos_ptr q Hq) by done. destruct (proj1 (se_words _ _ _ Hse)) as (x & Hr & K1 & _).
  destruct (Hr (from + k)) as [Ha Hx]; [lia|]. cbn [e_words eput_mem].
  rewrite (mload_ret _ _ _ Hx). cbn [mbind cres_mbind]. rewrite (sn_single Hs).
  change (Z.land (x (from + k)) (u64 (RTE_BIT64 32 - 1))) with (desc_len (x (from + k))). rewrite (u32_id (_ + _)) by done.
  destruct (sent_cases (x (from + k)) (from + k)) as (Hu & Hcl & Hsw); [lia|apply K1; lia|].
  replace (from + k - from) with k in Hcl by lia.
  assert ((if desc_len (x (from + k)) <? pkt_len (pm k) + wq_hdr_sz q then desc_len (x (from + k))
           else pkt_len (pm k) + wq_hdr_sz q) = clen (from + k)) as ->.
  { rewrite <- Hcl. unfold copy_len. destruct (Z.ltb_spec (desc_len (x (from + k))) (pkt_len (pm k) + wq_hdr_sz q)); lia. }
  rewrite Hsw. destruct (words_step _ _ _ (se_words _ _ _ Hse)) as (w & Ew & Hw); [lia|].
  cbn [e_words eput_mem e_arr e_mem]. rewrite Ew. cbn [mbind cres_mbind].
  destruct (arr_step _ _ _ (se_arr _ _ _ Hse) Harr) as (arr & Ea & Har); [lia|]. rewrite Ea. cbn [mbind cres_mbind].
  destruct (proj1 Hw) as (x' & Hr' & _). destruct (Hr' (from + k)) as [Ha' _]; [lia|].
  rewrite Z.add_0_r, (mload_ret _ _ _ Ha'). cbn [mbind cres_mbind e_chan eput_mem]. rewrite (pos_wrap q Hq) by lia.
  replace (from + k + 1) with (from + (k + 1)) by lia.
  exists (st_le 2 (hdr_at k + 10) 1 mem1), w, arr. split; [done|]. split; [|done].
  by apply (hdrs_step _ _ (e_mem s)); [apply Hse|lia| |].
Qed.

Lemma enq_x1_step s0 k s ev : sending s0 k s -> k + 1 <= n -> src_i (e_chan s) < DAO_DMA_MAX_POINTER ->
  wq_sz q <= Z.of_nat (length (e_arr s0)) -> ev_i ev = k -> ev_off ev = (from + k) mod wq_sz q ->
  exists s', enq_x1 stats buf_addr hr q flags l ev s =
      Ret (inr ({| ev_i := k; ev_off := (from + (k + 1)) mod wq_sz q; ev_used := ev_used ev; ev_last_idx := ev_last_idx ev;
                   ev_avail_sd := ev_avail_sd ev; ev_avail_mbuf := ev_avail_mbuf ev |}, 1, s')) /\
    sending s0 (k + 1) s' /\ src_i (e_chan s') = src_i (e_chan s) + 1 /\ e_dev s' = e_dev s.
Proof.
  intros Hse Hroom Hfree Harr Hi Ho. pose proof (se_k _ _ _ Hse) as Hk.
  destruct (enq_x1_upto s0 k s ev Hse Hroom Harr Hi Ho) as (mem & w & arr & -> & Hm & Hw & Ha).
  destruct (enq_x1_spec (e_chan s) (hdr_at k) (clen (from + k)) (addr (from + k)) (clen (from + k)))
    as (v & -> & Hwf & Hs' & Hd' & P1 & P2 & (D1 & D2 & T1 & M1 & HH1 & Ht)); [apply Hse|done|by rewrite <- (se_sync _ _ _ Hse)|].
  cbn [mbind cres_mbind]. eexists. split; [done|]. split; [|done]. apply sending_extend; try done; try lia.
  - unfold src_stream. rewrite P1, D1, D2, app_assoc. change (esrc <$> seqZ (from + k) 1) with [esrc (from + k)].
    unfold esrc. by replace (from + k - from) with k by lia.
  - unfold dst_stream. rewrite P2, D1, D2, app_assoc. done.
  - rewrite Hs', Hd'. by rewrite (se_sync _ _ _ Hse).
Qed.

(** With every element of the channel in use, the turn writes behind them. *)
Lemma enq_x1_overrun s0 k s ev : sending s0 k s -> k + 1 <= n -> src_i (e_chan s) = DAO_DMA_MAX_POINTER ->
  wq_sz q <= Z.of_nat (length (e_arr s0)) -> ev_i ev = k -> ev_off ev = (from + k) mod wq_sz q ->
  enq_x1 stats buf_addr hr q flags l ev s = Fault.
Proof.
  intros Hse Hroom Hfull Harr Hi Ho. destruct (enq_x1_upto s0 k s ev Hse Hroom Harr Hi Ho) as (mem & w & arr & -> & _).
  pose proof (wf_dst_len _ (se_wf _ _ _ Hse)) as Hlen. unfold dao_dma_enq_x1.
  rewrite (cset_out (dst (e_chan s))); [done|right; rewrite Hlen, <- (se_sync _ _ _ Hse), Hfull; unfold DAO_DMA_MAX_POINTER; lia].
Qed.

(** *** The vector loop *)

Lemma ptype_len pt pl : is_u32 pt -> 0 <= pl -> Z.shiftr (Z.lor pt (Z.shiftl pl 32)) 32 = pl.
Proof.
  intros Hp Hl. rewrite Z.shiftr_lor, Z.shiftr_shiftl_l, Z.shiftl_0_r by lia.
  replace (Z.shiftr pt 32) with 0 by (rewrite Z.shiftr_div_pow2 by lia; change (2 ^ 32) with 0x100000000; word). done.
Qed.

Lemma x4_min a b x y : is_u32 a -> is_u32 b -> is_u64 x -> is_u64 y ->
  as_u64 (vminq_u32 (as_u32 (V2 a b)) (as_u32 (V2 x y))) = V2 (Z.min a (desc_len x)) (Z.min b (desc_len y)).
Proof.
  intros Ha Hb Hx Hy. unfold vminq_u32, map2_32, as_u32. cbn [s0 s1 s2 s3 q0 q1]. rewrite !desc_len_u32, !(u32_id a), !(u32_id b) by done.
  assert (forall z, is_u64 z -> 0 <= Z.shiftr z 32) as Hz by (intros z Hz; apply Z.shiftr_nonneg; unfold is_u64 in Hz; lia).
  assert (forall z, is_u32 z -> Z.shiftr z 32 = 0) as Hz0 by (intros z Hz'; rewrite Z.shiftr_div_pow2 by lia; change (2 ^ 32) with 0x100000000; word).
  rewrite (Hz0 a), (Hz0 b) by done. rewrite !(Z.min_l 0) by auto. unfold as_u64. cbn [s0 s1 s2 s3].
  by rewrite Z.shiftl_0_l, !Z.lor_0_r.
Qed.

Lemma as_sge_u32 a x : is_u32 x -> as_sge (V2 a x) = {| sge_addr := a; sge_length := x |}.
Proof. intros Hx. unfold as_sge. cbn. by rewrite u32_id. Qed.

(** The lengths of two packets with their headers. *)
Lemma x4_pkt_len i j : 0 <= i < n -> 0 <= j < n ->
  vaddq_u64 (vshrq_n_u64 (vzip2q_u64 (ld_len_olflags (pm i)) (ld_len_olflags (pm j))) 32) (vdupq_n_u64 (wq_hdr_sz q)) =
  V2 (pkt_len (pm i) + wq_hdr_sz q) (pkt_len (pm j) + wq_hdr_sz q).
Proof.
  intros Hi Hj. destruct (sn_pkt Hs i Hi) as [_ P1 [P2 P3] _ _], (sn_pkt Hs j Hj) as [_ Q1 [Q2 Q3] _ _].
  unfold vaddq_u64, vshrq_n_u64, vzip2q_u64, map2_64, ld_len_olflags, vdupq_n_u64. cbn [q0 q1].
  rewrite !ptype_len by done. by rewrite !u64_id by (unfold is_u32, is_u64 in *; lia).
Qed.

Lemma x4_hdrs i j : 0 <= i < n -> 0 <= j < n ->
  vsubq_u64 (vpaddq_u64 (V2 (buf_addr (pp i)) (data_off (pm i))) (V2 (buf_addr (pp j)) (data_off (pm j)))) (vdupq_n_u64 (wq_hdr_sz q)) =
  V2 (hdr_at i) (hdr_at j).
Proof. intros Hi Hj. unfold vsubq_u64, vpaddq_u64, map2_64, vdupq_n_u64. cbn [q0 q1]. by rewrite !hdr_vector. Qed.

(** The used words of two descriptors. *)
Lemma x4_words c c' x : from <= c < from + n -> from <= c' < from + n ->
  x c = meta c \/ x c = sent_word c -> x c' = meta c' \/ x c' = sent_word c' ->
  let f := vandq_u64 (V2 (x c) (x c')) (vdupq_n_u64 (u64 (Z.lnot (Z.lor F_USED (RTE_BIT64 32 - 1))))) in
  vorrq_u64 (vorrq_u64 f (vshlq_n_u64 (vandq_u64 f (vdupq_n_u64 F_AVAIL)) 8)) (V2 (clen c) (clen c')) =
  V2 (sent_word c) (sent_word c').
Proof.
  intros Hc Hc' K1 K2. destruct (sent_cases _ c Hc K1) as (U1 & _ & <-), (sent_cases _ c' Hc' K2) as (U2 & _ & <-).
  unfold vorrq_u64, vandq_u64, vshlq_n_u64, map2_64, vdupq_n_u64. cbn [q0 q1].
  rewrite <- !used_len_word_vector by (done || by apply clen_u32). done.
Qed.

(** Four headers, words or slots in a row. *)
Lemma hdrs_x4 mem0 k mem r : hdrs_to mem0 k mem -> 0 <= k -> k + 4 <= n ->
  (forall j, 0 <= j < 4 -> mbuf_pkt_type_to_virtio_hash_report hr (packet_type (pm (k + j))) = Ret (r j)) ->
  let st j := st_hdr_x4 flags (hdr_at (k + j)) (valid_lane (ol_flags (pm (k + j)))) (hash_word (hash_rss (pm (k + j))) (r j)) in
  hdrs_to mem0 (k + 4) (st 3 (st 2 (st 1 (st 0 mem)))).
Proof.
  intros Hm Hk Hn Hr st.
  assert (forall j mem, 0 <= j < 4 -> hdrs_to mem0 (k + j) mem -> hdrs_to mem0 (k + j + 1) (st j mem)) as Hstep.
  { intros j mem' Hj Hh. destruct (st_hdr_x4_ok hr flags (hdr_at (k + j)) (pm (k + j)) mem' (wq_hdr_sz q) (r j)) as [Hok Hout].
    - apply (sn_pkt Hs). lia.
    - by apply Hr.
    - apply (hdrs_step _ _ mem'); [done|lia|done|done]. }
  replace (k + 4) with (k + 3 + 1) by lia. apply Hstep; [lia|]. replace (k + 3) with (k + 2 + 1) by lia. apply Hstep; [lia|].
  replace (k + 2) with (k + 1 + 1) by lia. apply Hstep; [lia|]. replace (k + 1) with (k + 0 + 1) by lia. apply Hstep; [lia|].
  by rewrite Z.add_0_r.
Qed.

Lemma words_x4 w0 k w : words_to w0 k w -> 0 <= k -> k + 4 <= n -> (from + k) mod wq_sz q + 3 < wq_sz q ->
  let off := (from + k) mod wq_sz q in let v c := V2 (addr c) (sent_word c) in let c := from + k in
  exists w1 w2 w3 w4, st_desc w (wq_sd_desc_base q) off (v c) = Ret w1 /\
    st_desc w1 (wq_sd_desc_base q) (off + 1) (v (c + 1)) = Ret w2 /\
    st_desc w2 (wq_sd_desc_base q) (off + 2) (v (c + 2)) = Ret w3 /\
    st_desc w3 (wq_sd_desc_base q) (off + 3) (v (c + 3)) = Ret w4 /\ words_to w0 (k + 4) w4.
Proof.
  intros Hw Hk Hn Hend off v c. subst off v c. cbn beta. rewrite !(pos_step q Hq (from + k)) by lia. rewrite <- !Z.add_assoc.
  destruct (words_step_x4 w0 k w Hw) as (w1 & E1 & W1); [lia|].
  destruct (words_step_x4 w0 (k + 1) w1 W1) as (w2 & E2 & W2); [lia|].
  destruct (words_step_x4 w0 (k + 2) w2) as (w3 & E3 & W3); [by replace (k + 2) with (k + 1 + 1) by lia|lia|].
  destruct (words_step_x4 w0 (k + 3) w3) as (w4 & E4 & W4); [by replace (k + 3) with (k + 2 + 1) by lia|lia|].
  exists w1, w2, w3, w4. split_and!; try done. by replace (k + 4) with (k + 3 + 1) by lia.
Qed.

Lemma arr_x4 arr0 k arr : arr_to arr0 k arr -> wq_sz q <= Z.of_nat (length arr0) -> 0 <= k -> k + 4 <= n ->
  (from + k) mod wq_sz q + 3 < wq_sz q -> let off := (from + k) mod wq_sz q in
  exists a1 a2 a3 a4, cset arr off (pp k) = Ret a1 /\ cset a1 (off + 1) (pp (k + 1)) = Ret a2 /\
    cset a2 (off + 2) (pp (k + 2)) = Ret a3 /\ cset a3 (off + 3) (pp (k + 3)) = Ret a4 /\ arr_to arr0 (k + 4) a4.
Proof.
  intros Ha Hlen Hk Hn Hend off. subst off. rewrite !(pos_step q Hq (from + k)) by lia. rewrite <- !Z.add_assoc.
  destruct (arr_step arr0 k arr Ha Hlen) as (a1 & E1 & A1); [lia|].
  destruct (arr_step arr0 (k + 1) a1 A1 Hlen) as (a2 & E2 & A2); [lia|].
  destruct (arr_step arr0 (k + 2) a2) as (a3 & E3 & A3); [by replace (k + 2) with (k + 1 + 1) by lia|done|lia|].
  destruct (arr_step arr0 (k + 3) a3) as (a4 & E4 & A4); [by replace (k + 3) with (k + 2 + 1) by lia|done|lia|].
  exists a1, a2, a3, a4. split_and!; try done. by replace (k + 4) with (k + 3 + 1) by lia.
Qed.

Lemma hdrs_weaken mem0 j j' mem : hdrs_to mem0 j mem -> j' <= j -> hdrs_to mem0 j' mem.
Proof. intros [K1 K2] Hj. split; [|done]. intros i Hi. apply K1. lia. Qed.

Lemma arr_weaken arr0 j j' arr : arr_to arr0 j arr -> j' <= j -> arr_to arr0 j' arr.
Proof. intros (K1 & K2 & K3) Hj. split_and!; [done| |done]. intros c Hc. apply K2. lia. Qed.

(** The hash words of four packets, as far as the headers take them. *)
Lemma hash_words k : 0 <= k -> k + 4 <= n ->
  exists r h01 h23, (forall j, 0 <= j < 4 -> mbuf_pkt_type_to_virtio_hash_report hr (packet_type (pm (k + j))) = Ret (r j)) /\
    (if has_flag flags ENQ_HASH_REPORT then hash_x4 hr (pm k) (pm (k + 1)) (pm (k + 2)) (pm (k + 3)) else Ret (V2 0 0, V2 0 0)) =
      Ret (h01, h23) /\
    (forall j y h v mem, (j, y) ∈ [(0, q0 h01); (1, q1 h01); (2, q0 h23); (3, q1 h23)] ->
      st_hdr_x4 flags h v y mem = st_hdr_x4 flags h v (hash_word (hash_rss (pm (k + j))) (r j)) mem).
Proof.
  intros Hk Hn.
  assert (forall j, 0 <= j < 4 -> is_u32 (hash_rss (pm (k + j))) /\
    exists r, mbuf_pkt_type_to_virtio_hash_report hr (packet_type (pm (k + j))) = Ret r) as Hp.
  { intros j Hj. by destruct (sn_pkt Hs (k + j)) as [_ _ _ ? ?]; [lia|]. }
  destruct (Hp 0) as (U0 & r0 & E0); [lia|]. destruct (Hp 1) as (U1 & r1 & E1); [lia|].
  destruct (Hp 2) as (U2 & r2 & E2); [lia|]. destruct (Hp 3) as (U3 & r3 & E3); [lia|].
  exists (fun j => if j =? 0 then r0 else if j =? 1 then r1 else if j =? 2 then r2 else r3).
  assert (forall j, 0 <= j < 4 -> j = 0 \/ j = 1 \/ j = 2 \/ j = 3) as Hc by lia.
  assert (forall j, 0 <= j < 4 -> mbuf_pkt_type_to_virtio_hash_report hr (packet_type (pm (k + j))) =
    Ret (if j =? 0 then r0 else if j =? 1 then r1 else if j =? 2 then r2 else r3)) as Hr.
  { intros j Hj. by destruct (Hc j Hj) as [->|[->|[->| ->]]]. }
  rewrite Z.add_0_r in *. destruct (has_flag flags ENQ_HASH_REPORT) eqn:Eh.
  - rewrite (hash_x4_lanes hr _ _ _ _ r0 r1 r2 r3) by done. do 2 eexists. split; [done|]. split; [done|].
    intros j y h v mem Hin. cbn [q0 q1] in Hin.
    repeat (apply elem_of_cons in Hin as [[= -> ->]|Hin]; [by rewrite ?Z.add_0_r|]). by apply elem_of_nil in Hin.
  - do 2 eexists. split; [done|]. split; [done|]. intros. unfold st_hdr_x4. by rewrite Eh.
Qed.

Lemma enq_x4_step s0 k s : sending s0 k s -> 1 <= flush_thr (e_chan s0) -> k + 4 <= n ->
  src_i (e_chan s) <= flush_thr (e_chan s0) -> wq_sz q <= Z.of_nat (length (e_arr s0)) ->
  enq_x4 stats buf_addr hr q flags ((from + k) mod wq_sz q) l k s = Ret None /\ wq_sz q <= (from + k) mod wq_sz q + 3 \/
  exists r s', enq_x4 stats buf_addr hr q flags ((from + k) mod wq_sz q) l k s = Ret (Some (r, s')) /\
    0 <= r <= 4 /\ sending s0 (k + r) s' /\ 0 < src_i (e_chan s') <= flush_thr (e_chan s0) /\
    (src_i (e_chan s) + 4 <= flush_thr (e_chan s0) -> r = 4 /\ src_i (e_chan s') = src_i (e_chan s) + 4) /\
    (forall R, willing R -> R (e_dev s) -> R (e_dev s')).
Proof.
  intros Hse Hthr Hroom Hfree Harr. pose proof (se_k _ _ _ Hse) as Hk. set (c := from + k). pose proof (se_frame _ _ _ Hse) as Hfr.
  unfold enq_x4. destruct (wq_sz q <=? c mod wq_sz q + 3) eqn:Eend; [reflect_bool; by left|]. reflect_bool. right.
  assert ((from + k) mod wq_sz q + 3 < wq_sz q) as Hend by (fold c; lia).
  rewrite !pkt_get by lia. cbn [mbind cres_mbind]. rewrite (se_bufs _ _ _ Hse), !pkt_at by lia. cbn [mbind cres_mbind].
  rewrite (sn_single Hs). cbn [andb]. rewrite !x4_pkt_len, !x4_hdrs by lia.
  destruct (proj1 (se_words _ _ _ Hse)) as (x & Hr & K1 & _).
  rewrite !(pos_step q Hq c) by lia. rewrite !(ld_ring q Hq from (from + n) addr x) by (done || lia). cbn [mbind cres_mbind].
  rewrite <- !(pos_step q Hq c) by lia.
  rewrite valid_x4_lanes. destruct (hash_words k) as (r & h01 & h23 & Hrp & -> & Hst); [lia..|]. cbn [mbind cres_mbind].
  cbn [Neon.s0 s1 s2 s3]. unfold vzip1q_u64, vzip2q_u64. cbn [q0 q1].
  assert (forall j, 0 <= j < 4 -> x (c + j) = meta (c + j) \/ x (c + j) = sent_word (c + j)) as Kx by (intros; apply K1; lia).
  assert (forall j, 0 <= j < 4 -> is_u64 (x (c + j)) /\
    Z.min (pkt_len (pm (k + j)) + wq_hdr_sz q) (desc_len (x (c + j))) = clen (c + j)) as Hx.
  { intros j Hj. destruct (sent_cases (x (c + j)) (c + j)) as (Hu & Hl & _); [lia|by apply Kx|]. split; [done|].
    unfold copy_len in Hl. by replace (c + j - from) with (k + j) in Hl by lia. }
  assert (forall j, 0 <= j < 4 -> is_u32 (pkt_len (pm (k + j)) + wq_hdr_sz q)) as Hpl.
  { intros j Hj. apply (sd_len hr), (sn_pkt Hs). lia. }
  assert (forall j, 0 <= j < 4 -> is_u32 (clen (c + j))) as Hcl by (intros; apply clen_u32; lia).
  destruct (Hx 0) as [U0 L0]; [lia|]. destruct (Hx 1) as [U1 L1]; [lia|]. destruct (Hx 2) as [U2 L2]; [lia|].
  destruct (Hx 3) as [U3 L3]; [lia|]. pose proof (Hpl 0 ltac:(lia)) as B0. pose proof (Hcl 0 ltac:(lia)) as C0.
  pose proof (Kx 0 ltac:(lia)) as X0. rewrite (Z.add_0_r c) in U0, L0, C0, X0. rewrite (Z.add_0_r k) in L0, B0.
  rewrite !x4_min by (done || apply Hpl; lia). rewrite L0, L1, L2, L3.
  pose proof (x4_words c (c + 1) x ltac:(lia) ltac:(lia) X0 (Kx 1 ltac:(lia))) as W01.
  pose proof (x4_words (c + 2) (c + 3) x ltac:(lia) ltac:(lia) (Kx 2 ltac:(lia)) (Kx 3 ltac:(lia))) as W23.
  cbn zeta in W01, W23. rewrite W01, W23. cbn [q0 q1]. clear W01 W23.
  destruct (arr_x4 _ _ _ (se_arr _ _ _ Hse) Harr) as (a1 & a2 & a3 & a4 & E1 & E2 & E3 & E4 & Ha); [lia..|].
  fold c in E1, E2, E3, E4. rewrite E1. cbn [mbind cres_mbind]. rewrite E2. cbn [mbind cres_mbind]. rewrite E3. cbn [mbind cres_mbind]. rewrite E4. cbn [mbind cres_mbind].
  destruct (words_x4 _ _ _ (se_words _ _ _ Hse)) as (w1 & w2 & w3 & w4 & F1 & F2 & F3 & F4 & Hw); [lia..|].
  fold c in F1, F2, F3, F4. rewrite F1. cbn [mbind cres_mbind]. rewrite F2. cbn [mbind cres_mbind]. rewrite F3. cbn [mbind cres_mbind]. rewrite F4. cbn [mbind cres_mbind].
  match goal with |- context [dao_dma_enq_x4 _ _ ?a ?b _] =>
    replace a with (esrc <$> [c; c + 1; c + 2; c + 3]);
    [replace b with (edst <$> [c; c + 1; c + 2; c + 3]) by
      (cbn [fmap list_fmap]; by rewrite !as_sge_u32 by (done || apply Hcl; lia))
    |cbn [fmap list_fmap]; rewrite !as_sge_u32 by (done || apply Hcl; lia)] end.
  2:{ unfold esrc. by replace (c - from) with k by lia; replace (c + 1 - from) with (k + 1) by lia;
      replace (c + 2 - from) with (k + 2) by lia; replace (c + 3 - from) with (k + 3) by lia. }
  destruct (enq_x4_spec stats (e_chan s) (esrc <$> [c; c + 1; c + 2; c + 3]) (edst <$> [c; c + 1; c + 2; c + 3]) (e_dev s))
    as (r' & v & d & Ee & Hr4 & S1 & S2 & Hwf & Hsd & Hst' & Hfr' & Hpos & _ & HR); [apply Hse|apply Hse|lia|done|done|].
  rewrite !take_x4 in S1, S2 by done. rewrite Ee. cbn [mbind cres_mbind]. exists r'. eexists. split; [done|]. split; [done|].
  split; [|split; [split; [apply Hpos; lia|cbn; lia]|split; [|done]]].
  2:{ intros Hfits. destruct (enq_x4_fits stats (e_chan s) (esrc <$> [c; c + 1; c + 2; c + 3])
        (edst <$> [c; c + 1; c + 2; c + 3]) (e_dev s)) as (v' & Ef & Hf'); [apply Hse|apply Hse|done|done|lia|].
      rewrite Ef in Ee. by injection Ee as <- <- <-. }
  apply sending_extend; try done; try lia.
  - apply (hdrs_weaken _ (k + 4)); [|lia]. rewrite (Hst 0 (q0 h01)), (Hst 1 (q1 h01)), (Hst 2 (q0 h23)), (Hst 3 (q1 h23)) by (apply list_elem_of_In; cbn; auto).
    pose proof (hdrs_x4 _ _ _ _ (se_hdrs _ _ _ Hse) (proj1 Hk) Hroom Hrp) as Hh. cbn beta zeta in Hh.
    rewrite (Z.add_0_r k) in *. exact Hh.
  - by apply (words_weaken _ (k + 4)); [|lia].
  - by apply (arr_weaken _ (k + 4)); [|lia].
Qed.


(** The variables of the loops after [k] packets. *)
Definition evars_at (k : Z) (ev : enq_vars) (s : estate D) : Prop :=
  ev_i ev = k /\ ev_used ev = k /\ ev_off ev = (from + k) mod wq_sz q /\
  (0 < k -> last_in (ev_last_idx ev) (e_chan s) /\ 0 <= ev_last_idx ev).

Lemma enq_x4_turns_spec s0 : 1 <= flush_thr (e_chan s0) -> wq_sz q <= Z.of_nat (length (e_arr s0)) -> forall t k s ev,
  sending s0 k s -> evars_at k ev s -> src_i (e_chan s) <= flush_thr (e_chan s0) -> k + 4 * Z.of_nat t <= n ->
  exists ev' s' k', enq_x4_turns stats buf_addr hr t q flags l ev s = Ret (ev', s') /\
    k <= k' <= k + 4 * Z.of_nat t /\ sending s0 k' s' /\ evars_at k' ev' s' /\
    src_i (e_chan s') <= flush_thr (e_chan s0) /\
    (forall R, willing R -> R (e_dev s) -> R (e_dev s')).
Proof.
  intros Hthr Harr. pose proof (sn_range Hs). pose proof (wq_sz_bounds q Hq).
  induction t as [|t IH]; intros k s ev Hse Hv Hfree Hroom; cbn [enq_x4_turns].
  { exists ev, s, k. split; [done|]. split; [lia|done]. }
  destruct Hv as (Hi & Hu & Ho & Hl). rewrite Ho, Hi. pose proof (se_k _ _ _ Hse).
  destruct (enq_x4_step s0 k s Hse Hthr) as [[-> _]|(r & s1 & -> & Hr & Hse1 & Hpos & _ & HR)]; [lia|done|done|..];
    cbn [mbind cres_mbind].
  { exists ev, s, k. split; [done|]. split; [lia|]. split; [done|]. by split. }
  rewrite (u16_id (k + r)) by word. set (ev1 := Build_enq_vars _ _ _ _ _ _).
  assert (evars_at (k + r) ev1 s1) as Hv1.
  { split_and!; [done..|cbn; rewrite (pos_wrap q Hq) by lia; f_equal; lia|]. intros _. cbn.
    split; [left; split; [lia|done]|]. pose proof (wf_tail _ (se_wf _ _ _ Hse1)) as Ht. unfold is_u16 in Ht. lia. }
  destruct (Z.eqb_spec r 4) as [->|Hne]; cbn [negb].
  - destruct (IH (k + 4) s1 ev1 Hse1 Hv1) as (ev2 & s2 & k2 & E & Hk2 & Hse2 & Hv2 & Hf2 & HR2); [lia..|].
    exists ev2, s2, k2. split; [done|]. split; [lia|]. split_and!; try done.
    intros R Hw HRd. apply HR2; [done|by apply HR].
  - exists ev1, s1, (k + r). split; [done|]. split; [lia|]. split_and!; [done..|lia|done].
Qed.

Lemma es_flush_step s0 k s avail b s' : sending s0 k s -> es_flush stats avail s = (b, s') ->
  sending s0 k s' /\ src_i (e_chan s') <= src_i (e_chan s) /\
  (b = true -> src_i (e_chan s') = 0 \/ src_i (e_chan s') + u8 avail <= flush_thr (e_chan s0)) /\
  (forall idx, last_in idx (e_chan s) -> last_in idx (e_chan s')) /\
  (forall R, willing R -> R (e_dev s) -> b = true /\ R (e_dev s')).
Proof.
  intros [Hk Hc Hb Hm Hw Ha S1 S2 Hwf Hsy Hfr]. unfold es_flush.
  destruct (dao_dma_flush stats (e_chan s) avail (e_dev s)) as [[b1 v1] d1] eqn:Ef. intros [= <- <-].
  destruct (flush_spec stats _ _ _ _ _ _ Hwf Ef) as (Hwf1 & F1 & F2 & (_ & _ & T1 & M1 & HH1) & Hi & Hroom).
  pose proof (wf_src_i _ Hwf). destruct Hfr as (Ht & Hmd & Hh). split_and!.
  - split; cbn [e_cells e_words e_mbufs e_arr e_mem e_chan e_dev eput_dma]; try done; try congruence.
    + lia.
    + split_and!; congruence.
  - cbn. lia.
  - intros ->. rewrite <- Ht. by apply Hroom.
  - intros idx Hl. cbn. by apply (flush_last_in stats (e_chan s) avail (e_dev s) b1 v1 d1 idx).
  - intros R HR HRd. by apply (flush_willing stats R _ _ _ _ _ _ HR HRd Ef).
Qed.

Lemma enq_x1_loop_spec s0 : 1 <= flush_thr (e_chan s0) < DAO_DMA_MAX_POINTER -> wq_sz q <= Z.of_nat (length (e_arr s0)) ->
  forall t k s ev, sending s0 k s -> evars_at k ev s -> src_i (e_chan s) <= flush_thr (e_chan s0) -> k + Z.of_nat t <= n ->
  exists ev' s' k', enq_x1_loop stats buf_addr hr t q flags l ev s = Ret (ev', s') /\
    k <= k' <= k + Z.of_nat t /\ sending s0 k' s' /\ evars_at k' ev' s' /\
    (forall R, willing R -> R (e_dev s) -> k' = k + Z.of_nat t).
Proof.
  intros Hthr Harr. pose proof (sn_range Hs). pose proof (wq_sz_bounds q Hq).
  induction t as [|t IH]; intros k s ev Hse Hv Hfree Hroom; cbn [enq_x1_loop].
  { exists ev, s, k. split; [done|]. split; [lia|]. split; [done|]. split; [done|]. intros. lia. }
  destruct Hv as (Hi & Hu & Ho & Hl). pose proof (se_k _ _ _ Hse).
  destruct (enq_x1_step s0 k s ev Hse) as (s1 & -> & Hse1 & Hsrc & Hdev); [lia|lia|done|done|done|].
  cbn [mbind cres_mbind ev_i ev_off ev_used ev_last_idx ev_avail_sd ev_avail_mbuf]. rewrite Hu, (u16_id (k + 1)) by word.
  destruct (es_flush stats 1 s1) as [b s2] eqn:Ef.
  destruct (es_flush_step s0 (k + 1) s1 1 b s2 Hse1 Ef) as (Hse2 & _ & Hb & Hl2 & HR2).
  pose proof (wf_src_i _ (se_wf _ _ _ Hse)).
  set (ev1 := Build_enq_vars _ _ _ _ _ _).
  assert (evars_at (k + 1) ev1 s2) as Hv1.
  { split_and!; [done..|]. intros _. cbn. split; [apply Hl2; left; split; [lia|done]|].
    pose proof (wf_tail _ (se_wf _ _ _ Hse1)) as Ht. unfold is_u16 in Ht. lia. }
  destruct b; cbn [negb].
  - destruct (IH (k + 1) s2 ev1 Hse2 Hv1) as (ev2 & s3 & k2 & E & Hk2 & Hse3 & Hv2 & HR3); [change (u8 1) with 1 in Hb; destruct (Hb eq_refl); lia|lia|].
    exists ev2, s3, k2. split; [done|]. split; [lia|]. split; [done|]. split; [done|].
    intros R HR HRd. rewrite (HR3 R HR); [lia|]. apply HR2; [done|]. by rewrite Hdev.
  - exists ev1, s2, (k + 1). split; [done|]. split; [lia|]. split; [done|]. split; [done|].
    intros R HR HRd. destruct (HR2 R HR) as [? _]; [by rewrite Hdev|done].
Qed.
End sending.

(** ** virtio_net_enq

    The ring holds free descriptors from [L] to [to], and the buffers of
    [pend] descriptors are still being copied. *)
Record send_queue (q : worker_queue) (L to pend : Z) (m : store) : Prop := {
  eq_pos : 0 <= L <= to /\ to <= L + wq_sz q /\ 0 <= pend <= wq_sz q;
  eq_last : wq_last_off q = ring_enc (wq_sz q) L;
  eq_desc : m !! wq_sd_desc_off_p q = Some (ring_enc (wq_sz q) to);
  eq_pend : m !! wq_pend_sd_mbuf_p q = Some pend;
}.

(** How many of [nb] packets can be sent. *)
Definition send_count (q : worker_queue) (L to pend nb : Z) : Z := Z.min (Z.min (to - L) nb) (wq_sz q - pend).

(** A channel in step, whose threshold leaves an element free. *)
Record send_chan (v : dao_dma_vchan_state) : Prop := {
  sc_wf : vchan_wf v;
  sc_sync : src_i v = dst_i v;
  sc_thr : 1 <= flush_thr v < DAO_DMA_MAX_POINTER;
  sc_meta : Forall (fun md => md_cnt md < DAO_DMA_MAX_POINTER) (mdata v);
}.

(** What sending [k] packets leaves. *)
Record enq_post {D} `{RteDmaLaws D} (buf_addr : Z -> Z) (hr : list Z) (q : worker_queue) (flags L n pend : Z)
    (addr meta : Z -> Z) (pp : Z -> Z) (pm : Z -> rte_mbuf) (k : Z) (s s' : estate D) : Prop := {
  ep_src : src_stream (e_dev s') (e_chan s') =
    src_stream (e_dev s) (e_chan s) ++ (esrc buf_addr q L meta pp pm <$> seqZ L k);
  ep_dst : dst_stream (e_dev s') (e_chan s') =
    dst_stream (e_dev s) (e_chan s) ++ (edst q L addr meta pm <$> seqZ L k);
  ep_bufs : e_mbufs s' = e_mbufs s;
  ep_hdrs : hdrs_to buf_addr hr q flags n pp pm (e_mem s) k (e_mem s');
  ep_words : words_to q L n addr meta pm (e_words s) k (e_words s');
  ep_arr : arr_to q L n pp (e_arr s) k (e_arr s');
  ep_cells : e_cells s' = if bool_decide (k = 0) then e_cells s
                          else <[wq_pend_sd_mbuf_p q := pend + k]> (e_cells s);
  ep_record : 0 < k -> exists idx, last_in idx (e_chan s') /\
    op_records (mdata (e_chan s')) idx = op_records (mdata (e_chan s)) idx ++
      [{| r_ptr := wq_sd_mbuf_off_p q; r_val := ring_enc (wq_sz q) (L + k);
          r_pend_ptr := wq_pend_sd_mbuf_p q; r_pend_val := k |}];
}.

Section send.
Context (stats : bool) {D : Type} `{RteDmaLaws D} (buf_addr : Z -> Z) (hr : list Z).
Context (q : worker_queue) (Hq : queue_ok q) (flags L n to pend : Z) (addr meta : Z -> Z).
Context (l : list Z) (pp : Z -> Z) (pm : Z -> rte_mbuf).

Lemma enq_exit_spec s s1 k ev : send_queue q L to pend (e_cells s) -> send_chan (e_chan s) ->
  k <= wq_sz q - pend -> sending buf_addr hr q flags L n addr meta (e_mbufs s) pp pm s k s1 -> evars_at q L k ev s1 ->
  exists s', enq_exit q ev s1 = Ret (set_last_off (ring_enc (wq_sz q) (L + k)) q, s') /\
    enq_post buf_addr hr q flags L n pend addr meta pp pm k s s'.
Proof.
  intros [(HL & Hto & Hp) Qo Qd Qp] [_ _ _ Hall] Hkp Hse (_ & Hu & _ & Hl).
  destruct Hse as [Hk Hc Hb Hh Hw Ha S1 S2 Hwf _ (_ & Hmd & _)]. pose proof (wq_sz_bounds q Hq). unfold enq_exit.
  rewrite Hu. destruct (Z.eqb_spec k 0) as [->|Hne].
  { exists s1. rewrite Z.add_0_r, <- Qo. split; [by destruct q|]. split; try done; lia. }
  destruct Hl as [Hl Hidx]; [lia|]. rewrite Hc, (mload_ret _ _ _ Qp). cbn [mbind cres_mbind].
  rewrite (mstore_ret _ _ _ _ Qp). cbn [mbind cres_mbind]. rewrite u16_id by word.
  rewrite Qo, desc_off_add_enc by (apply Hq || lia). rewrite <- Hmd in Hall.
  destruct (meta_room _ _ Hwf Hidx Hall) as (md & Hmd' & Hcnt).
  destruct (update_meta_appends _ (wq_sd_mbuf_off_p q) (ring_enc (wq_sz q) (L + k)) (wq_pend_sd_mbuf_p q) k
    (ev_last_idx ev) md Hwf Hidx Hmd' Hcnt) as (v & -> & _ & Ek & Hrec). cbn [mbind cres_mbind].
  eexists. split; [done|]. rewrite Ek. split; cbn; try done.
  - by rewrite bool_decide_false.
  - intros _. exists (ev_last_idx ev). split; [done|]. rewrite Hrec, Hmd by done. by rewrite bool_decide_true.
Qed.

Lemma sending_start s : sends buf_addr hr q flags L n meta l (e_mbufs s) pp pm ->
  ring_at q L (L + n) addr meta (e_words s) -> vchan_wf (e_chan s) -> src_i (e_chan s) = dst_i (e_chan s) ->
  sending buf_addr hr q flags L n addr meta (e_mbufs s) pp pm s 0 s.
Proof.
  intros Hs Hr Hwf Hsy. pose proof (sn_range _ _ _ _ _ _ _ _ _ _ _ Hs).
  split; cbn; rewrite ?app_nil_r; try done; try lia.
  - split; [intros; lia|done].
  - split; [|done]. exists meta. split_and!; [done|by left|lia].
  - split_and!; [done|lia|done].
Qed.

Lemma push_enq_ok s : 1 <= n -> n <= wq_sz q - pend -> send_queue q L to pend (e_cells s) -> send_chan (e_chan s) ->
  sends buf_addr hr q flags L n meta l (e_mbufs s) pp pm -> ring_at q L (L + n) addr meta (e_words s) ->
  wq_sz q <= Z.of_nat (length (e_arr s)) ->
  exists k s', push_enq_data stats buf_addr hr q l n flags s = Ret (k, set_last_off (ring_enc (wq_sz q) (L + k)) q, s') /\
    0 <= k <= n /\ enq_post buf_addr hr q flags L n pend addr meta pp pm k s s' /\
    (forall R, willing R -> R (e_dev s) -> k = n).
Proof.
  intros Hn Hnp Hsq Hsc Hs Hr Harr. pose proof (sending_start s Hs Hr (sc_wf _ Hsc) (sc_sync _ Hsc)) as Hse0.
  pose proof (wq_sz_bounds q Hq). destruct (eq_pos _ _ _ _ _ Hsq) as (HL & Hto & Hp). pose proof (sc_thr _ Hsc) as Hthr.
  unfold push_enq_data. destruct (es_flush stats 1 s) as [b s1] eqn:Ef.
  destruct (es_flush_step stats _ _ _ _ _ _ _ _ _ _ _ s 0 s 1 b s1 Hse0 Ef) as (Hse1 & _ & Hb & _ & HR1).
  destruct b; cbn [negb].
  2:{ destruct (enq_exit_spec s s1 0 (Build_enq_vars 0 ((L + 0) mod wq_sz q) 0 0 0 0) Hsq Hsc) as (s' & E & Hpost);
        [lia|done|by split_and!|]. injection E as E <-. exists 0, s1. rewrite <- E. split; [done|]. split; [lia|].
      split; [done|]. intros R HR HRd. by destruct (HR1 R HR HRd). }
  rewrite (sn_single _ _ _ _ _ _ _ _ _ _ _ Hs). cbn [mbind cres_mbind].
  rewrite (eq_last _ _ _ _ _ Hsq), DESC_OFF_enc by apply Hq.
  rewrite u16_id by (pose proof (Z.mod_pos_bound L (wq_sz q)); word).
  set (ev0 := Build_enq_vars _ _ _ _ _ _).
  assert (evars_at q L 0 ev0 s1) as Hv0 by (split_and!; [done..|cbn; by rewrite Z.add_0_r|lia]).
  destruct (enq_x4_turns_spec stats buf_addr hr q Hq flags L n addr meta l (e_mbufs s) pp pm Hs s (proj1 Hthr) Harr
    (Z.to_nat (n / 4)) 0 s1 ev0 Hse1 Hv0) as (ev2 & s2 & k2 & -> & Hk2 & Hse2 & Hv2 & Hf2 & HR2);
    [change (u8 1) with 1 in Hb; destruct (Hb eq_refl); lia|word|]. cbn [mbind cres_mbind]. rewrite (proj1 Hv2).
  assert (k2 <= n) by word.
  destruct (enq_x1_loop_spec stats buf_addr hr q Hq flags L n addr meta l (e_mbufs s) pp pm Hs s Hthr Harr
    (Z.to_nat (n - k2)) k2 s2 ev2 Hse2 Hv2 Hf2) as (ev3 & s3 & k3 & -> & Hk3 & Hse3 & Hv3 & HR3); [lia|].
  cbn [mbind cres_mbind]. destruct (enq_exit_spec s s3 k3 ev3 Hsq Hsc) as (s' & -> & Hpost); [lia|done|done|].
  cbn [mbind cres_mbind]. rewrite (proj1 Hv3). exists k3, s'. split; [done|]. split; [lia|]. split; [done|].
  intros R HR HRd. rewrite (HR3 R HR); [lia|]. apply HR2; [done|]. by apply HR1.
Qed.
End send.

(** ** Lengths of a packet that takes several descriptors *)

(** The total length of the [m] descriptors from [c] on, and the share of
    [slen] bytes each of them takes. *)
Definition total (x : Z -> Z) (c : Z) (m : nat) : Z := foldr (fun c s => desc_len (x c) + s) 0 (seqZ c (Z.of_nat m)).

Fixpoint shares (x : Z -> Z) (m : nat) (c slen : Z) : list Z :=
  match m with
  | O => []
  | S m => let d := Z.min slen (desc_len (x c)) in d :: shares x m (c + 1) (slen - d)
  end.

Lemma total_S x c m : total x c (S m) = desc_len (x c) + total x (c + 1) m.
Proof. unfold total. rewrite seqZ_cons by lia. cbn. do 3 f_equal; lia. Qed.

Lemma desc_len_bounds y : 0 <= desc_len y < 0x100000000.
Proof. rewrite desc_len_u32. word. Qed.

Lemma desc_total_nonneg x m : forall c, 0 <= total x c m.
Proof. induction m as [|m IH]; intros c; [done|]. rewrite total_S. pose proof (desc_len_bounds (x c)). specialize (IH (c + 1)). lia. Qed.

Lemma shares_sum x m : forall c slen, 0 <= slen <= total x c m -> foldr Z.add 0 (shares x m c slen) = slen.
Proof.
  induction m as [|m IH]; intros c slen Hs; cbn [shares foldr].
  { change (total x c 0) with 0 in Hs. lia. }
  rewrite total_S in Hs. pose proof (desc_len_bounds (x c)). pose proof (desc_total_nonneg x m (c + 1)). rewrite IH; lia.
Qed.

Section several.
Context (q : worker_queue) (Hq : queue_ok q) (from to : Z) (addr : Z -> Z).

(** [calculate_nb_enq] counts descriptors until they hold the packet. *)
Lemma calc_enq_spec x w slen : ring_at q from to addr x w -> slen <= 0x7FFFFFFF ->
  (forall c, from <= c < to -> desc_len (x c) <= 0x7FFFFFFF) -> forall avail c nb dlen, from <= c -> c + Z.of_nat avail <= to ->
  0 <= dlen <= 0xFFFFFFFF -> 0 <= nb -> nb + Z.of_nat avail < 0x10000 ->
  exists m, (m <= avail)%nat /\ calc_enq avail q w (c mod wq_sz q) slen nb dlen = Ret (nb + Z.of_nat m, dlen + total x c m) /\
    dlen + total x c m <= 0xFFFFFFFF /\
    (slen <= dlen + total x c m \/ m = avail) /\ (forall k, (k < m)%nat -> dlen + total x c k < slen).
Proof.
  intros Hr Hsl Hlen. induction avail as [|avail IH]; intros c nb dlen Hc Ht Hd Hnb Hmax; cbn [calc_enq].
  { exists O. change (total x c 0) with 0. rewrite !Z.add_0_r. split; [lia|]. destruct (dlen <? slen); split_and!; (done || lia). }
  destruct (Z.ltb_spec dlen slen).
  - destruct (Hr c) as [_ Hx]; [lia|]. rewrite (pos_ptr q Hq) by done. rewrite (mload_ret _ _ _ Hx). cbn [mbind cres_mbind].
    change (Z.land (x c) (u64 (RTE_BIT64 32 - 1))) with (desc_len (x c)). pose proof (desc_len_bounds (x c)).
    specialize (Hlen c ltac:(lia)) as Hl. rewrite (pos_wrap q Hq), (u16_id (nb + 1)), (u32_id (dlen + _)) by word.
    destruct (IH (c + 1) (nb + 1) (dlen + desc_len (x c))) as (m & Hm & E & Hb & Hor & Hlt); [lia..|].
    exists (S m). rewrite E, total_S. split; [lia|]. split; [do 2 f_equal; lia|]. split; [lia|]. split.
    + destruct Hor; [left; lia|right; lia].
    + intros k Hk. destruct k as [|k]; [change (total x c 0) with 0; lia|]. rewrite total_S. specialize (Hlt k). lia.
  - exists O. change (total x c 0) with 0. rewrite !Z.add_0_r. split_and!; (done || lia || (left; lia)).
Qed.

Lemma calculate_spec x w slen c avail : ring_at q from to addr x w -> 0 <= slen <= 0x7FFFFFFF ->
  (forall c, from <= c < to -> desc_len (x c) <= 0x7FFFFFFF) -> from <= c -> 0 <= avail < 0xFFFF -> c + avail <= to ->
  calculate_nb_enq q w (c mod wq_sz q) slen avail = Ret UINT16_MAX /\ total x c (Z.to_nat avail) < slen \/
  exists m, calculate_nb_enq q w (c mod wq_sz q) slen avail = Ret (Z.of_nat m) /\ Z.of_nat m <= avail /\
    slen <= total x c m /\ (forall k, (k < m)%nat -> total x c k < slen).
Proof.
  intros Hr Hs Hlen Hc Ha Ht. unfold calculate_nb_enq.
  destruct (calc_enq_spec x w slen Hr) with (avail := Z.to_nat avail) (c := c) (nb := 0) (dlen := 0) as (m & Hm & -> & _ & Hor & Hlt);
    [lia|done|lia..|]. cbn [mbind cres_mbind]. rewrite !Z.add_0_l in *. destruct (Z.leb_spec slen (total x c m)).
  - right. exists m. split; [done|]. split; [lia|]. split; [done|]. intros k Hk. by apply Hlt.
  - left. split; [done|]. destruct Hor as [|<-]; lia.
Qed.
End several.

(** The elements and words for [slen] bytes in the [m] descriptors from [c]. *)
Fixpoint dst_parts (addr x : Z -> Z) (m : nat) (c slen : Z) : list rte_dma_sge :=
  match m with
  | O => []
  | S m => let d := Z.min slen (desc_len (x c)) in
           {| sge_addr := addr c; sge_length := d |} :: dst_parts addr x m (c + 1) (slen - d)
  end.

Lemma dst_parts_lengths addr x m : forall c slen, sge_length <$> dst_parts addr x m c slen = shares x m c slen.
Proof. induction m as [|m IH]; intros c slen; cbn; [done|]. by rewrite IH. Qed.

Lemma dst_parts_ext addr x x' m : forall c slen, (forall j, c <= j < c + Z.of_nat m -> x j = x' j) ->
  dst_parts addr x m c slen = dst_parts addr x' m c slen.
Proof.
  induction m as [|m IH]; intros c slen He; cbn [dst_parts]; [done|]. rewrite (He c) by lia. f_equal. apply IH.
  intros j Hj. apply He. lia.
Qed.

Lemma dst_parts_nth addr x m : forall c slen j, (j < m)%nat -> exists d,
  dst_parts addr x m c slen !! j = Some {| sge_addr := addr (c + Z.of_nat j); sge_length := d |} /\
  d <= desc_len (x (c + Z.of_nat j)).
Proof.
  induction m as [|m IH]; intros c slen j Hj; [lia|]. cbn [dst_parts]. destruct j as [|j].
  - exists (Z.min slen (desc_len (x c))). rewrite Z.add_0_r. split; [done|lia].
  - destruct (IH (c + 1) (slen - Z.min slen (desc_len (x c))) j) as (d & E & Hd); [lia|]. exists d.
    replace (c + Z.of_nat (S j)) with (c + 1 + Z.of_nat j) by lia. by split.
Qed.

Lemma enq_dst_spec v d dl : vchan_wf v -> dst_i v < DAO_DMA_MAX_POINTER ->
  exists v', dao_dma_enq_dst_x1 v d dl = Ret v' /\ vchan_wf v' /\ dst_i v' = dst_i v + 1 /\
    pending_dst v' = pending_dst v ++ [{| sge_addr := d; sge_length := dl |}] /\ pending_src v' = pending_src v /\
    src_i v' = src_i v /\ devid v' = devid v /\ vchan v' = vchan v.
Proof.
  intros [] Hd. unfold DAO_DMA_MAX_POINTER in *. unfold dao_dma_enq_dst_x1. rewrite cset_in_range by lia. cbn.
  eexists. split; [done|]. unfold pending_src, pending_dst. cbn. rewrite u16_id by word.
  replace (Z.to_nat (dst_i v + 1)) with (S (Z.to_nat (dst_i v))) by lia. rewrite take_insert_snoc by lia.
  split; [|done]. split; cbn; rewrite ?length_insert, ?u16_id by word; unfold DAO_DMA_MAX_POINTER; try done; lia.
Qed.

Lemma enq_src_spec v a sl : vchan_wf v -> src_i v < DAO_DMA_MAX_POINTER ->
  exists v', dao_dma_enq_src_x1 v a sl = Ret v' /\ vchan_wf v' /\ src_i v' = src_i v + 1 /\
    pending_src v' = pending_src v ++ [{| sge_addr := a; sge_length := sl |}] /\ pending_dst v' = pending_dst v /\
    devid v' = devid v /\ vchan v' = vchan v.
Proof.
  intros [] Hd. unfold DAO_DMA_MAX_POINTER in *. unfold dao_dma_enq_src_x1. rewrite cset_in_range by lia. cbn.
  eexists. split; [done|]. unfold pending_src, pending_dst. cbn. rewrite u16_id by word.
  replace (Z.to_nat (src_i v + 1)) with (S (Z.to_nat (src_i v))) by lia. rewrite take_insert_snoc by lia.
  split; [|done]. split; cbn; rewrite ?length_insert, ?u16_id by word; unfold DAO_DMA_MAX_POINTER; try done; lia.
Qed.

(** With the array full the element goes behind it. *)
Lemma enq_dst_full v d dl : vchan_wf v -> DAO_DMA_MAX_POINTER <= dst_i v -> dao_dma_enq_dst_x1 v d dl = Fault.
Proof. intros [] Hd. unfold DAO_DMA_MAX_POINTER in *. unfold dao_dma_enq_dst_x1. by rewrite cset_out by lia. Qed.

Lemma enq_src_full v a sl : vchan_wf v -> DAO_DMA_MAX_POINTER <= src_i v -> dao_dma_enq_src_x1 v a sl = Fault.
Proof. intros [] Hd. unfold DAO_DMA_MAX_POINTER in *. unfold dao_dma_enq_src_x1. by rewrite cset_out by lia. Qed.

Section parts.
Context {D : Type} `{RteDma D} (q : worker_queue) (Hq : queue_ok q) (flags from to : Z) (addr : Z -> Z).
Context (Hnoff : has_flag flags ENQ_NOFF = false) (Hto : to <= from + wq_sz q).

(** The loop over the destinations of one packet. *)
Lemma mseg_dsts_spec : forall m c slen x (s : estate D), ring_at q from to addr x (e_words s) ->
  (forall c, from <= c < to -> is_u64 (x c)) -> from <= c -> c + Z.of_nat m <= to -> is_u32 slen ->
  vchan_wf (e_chan s) -> dst_i (e_chan s) + Z.of_nat m <= DAO_DMA_MAX_POINTER -> wq_sz q <= Z.of_nat (length (e_arr s)) ->
  exists s' x', mseg_dsts m q flags (c mod wq_sz q) slen s = Ret ((c + Z.of_nat m) mod wq_sz q, s') /\
    pending_dst (e_chan s') = pending_dst (e_chan s) ++ dst_parts addr x m c slen /\
    pending_src (e_chan s') = pending_src (e_chan s) /\ e_dev s' = e_dev s /\
    ring_at q from to addr x' (e_words s') /\
    (forall j d, shares x m c slen !! j = Some d -> x' (c + Z.of_nat j) = used_len_word (x (c + Z.of_nat j)) d) /\
    (forall c', c' < c \/ c + Z.of_nat m <= c' -> x' c' = x c') /\
    (vchan_wf (e_chan s') /\ src_i (e_chan s') = src_i (e_chan s) /\ devid (e_chan s') = devid (e_chan s) /\
     vchan (e_chan s') = vchan (e_chan s) /\ e_mbufs s' = e_mbufs s /\ e_mem s' = e_mem s).
Proof.
  induction m as [|m IH]; intros c slen x s Hr Hu Hc Ht Hs Hwf Hroom Harr; cbn [mseg_dsts].
  { exists s, x. rewrite Z.add_0_r, app_nil_r. split_and!; try done. }
  destruct (Hr c) as [Ha Hx]; [lia|]. rewrite !(pos_ptr q Hq) by done. rewrite (mload_ret _ _ _ Hx). cbn [mbind cres_mbind].
  change (Z.land (x c) (u64 (RTE_BIT64 32 - 1))) with (desc_len (x c)). rewrite Hnoff.
  set (d := Z.min slen (desc_len (x c))). pose proof (desc_len_bounds (x c)).
  assert ((if desc_len (x c) <? slen then desc_len (x c) else slen) = d) as ->
    by (unfold d; destruct (Z.ltb_spec (desc_len (x c)) slen); lia).
  destruct (st_meta q Hq from to addr x (e_words s) c (used_len_word (x c) d) Hr) as (w & -> & Hr' & _); [lia..|].
  cbn [mbind cres_mbind]. destruct (Hr' c) as [Ha' _]; [lia|]. rewrite Z.add_0_r, (mload_ret _ _ _ Ha'). cbn [mbind cres_mbind].
  destruct (enq_dst_spec (e_chan s) (addr c) d) as (v & -> & Hwf' & Hd & P1 & P2 & P3 & P4 & P5); [done|lia|]. cbn [mbind cres_mbind].
  rewrite (pos_wrap q Hq) by lia. pose proof (wq_sz_bounds q Hq). pose proof (Z.mod_pos_bound (c + 1) (wq_sz q) ltac:(lia)).
  rewrite cset_in_range by lia. cbn [mbind cres_mbind]. rewrite (u32_id (slen - d)) by (unfold is_u32 in *; lia).
  set (s1 := eput_dma v _ _).
  assert (is_u32 d) by (unfold d, is_u32 in *; lia).
  destruct (IH (c + 1) (slen - d) (<[c := used_len_word (x c) d]> x) s1) as (s' & x' & E & Q1 & Q2 & Q3 & Q4 & Q5 & Q6 & Q7 & Q8 & Q9 & Q10 & Q11 & Q12); try done.
  - intros c' Hc'. destruct (decide (c' = c)) as [->|]; [rewrite fn_lookup_insert; by apply used_len_word_u64; [apply Hu|]|].
    rewrite fn_lookup_insert_ne by done. by apply Hu.
  - lia.
  - lia.
  - unfold is_u32 in *. lia.
  - cbn. lia.
  - cbn. by rewrite length_insert.
  - exists s', x'. rewrite E. split; [do 3 f_equal; lia|]. rewrite Q1, Q2. cbn [e_chan s1 eput_dma]. rewrite P1, P2, <- app_assoc.
    rewrite (dst_parts_ext addr _ x) by (intros j Hj; by rewrite fn_lookup_insert_ne by lia).
    split_and!; try done.
    + intros j d' Hj. destruct j as [|j].
      * injection Hj as <-. rewrite Z.add_0_r, Q6, fn_lookup_insert by lia. done.
      * rewrite <- (dst_parts_lengths addr) in Hj. cbn in Hj. fold d in Hj.
        rewrite (dst_parts_lengths addr) in Hj. replace (c + Z.of_nat (S j)) with (c + 1 + Z.of_nat j) by lia.
        rewrite Q5 with (d := d'); [by rewrite fn_lookup_insert_ne by lia|].
        rewrite <- (dst_parts_lengths addr), (dst_parts_ext addr _ x), dst_parts_lengths; [done|].
        intros k Hk. by rewrite fn_lookup_insert_ne by lia.
    + intros c' Hc'. rewrite Q6 by lia. by rewrite fn_lookup_insert_ne by lia.
    + by rewrite Q8.
    + by rewrite Q9.
    + by rewrite Q10.
Qed.

(** More destinations than the array of the channel has room for. *)
Lemma mseg_dsts_overruns : forall m c slen x (s : estate D), ring_at q from to addr x (e_words s) ->
  from <= c -> c + Z.of_nat m <= to -> vchan_wf (e_chan s) -> DAO_DMA_MAX_POINTER < dst_i (e_chan s) + Z.of_nat m ->
  wq_sz q <= Z.of_nat (length (e_arr s)) -> mseg_dsts m q flags (c mod wq_sz q) slen s = Fault.
Proof.
  induction m as [|m IH]; intros c slen x s Hr Hc Ht Hwf Hroom Harr; cbn [mseg_dsts]; [pose proof (wf_dst_i _ Hwf); lia|].
  destruct (Hr c) as [Ha Hx]; [lia|]. rewrite !(pos_ptr q Hq) by done. rewrite (mload_ret _ _ _ Hx). cbn [mbind cres_mbind].
  set (d := if _ <? _ then _ else _).
  destruct (st_meta q Hq from to addr x (e_words s) c (used_len_word (x c) d) Hr) as (w & -> & Hr' & _); [lia..|].
  cbn [mbind cres_mbind]. destruct (Hr' c) as [Ha' _]; [lia|]. rewrite Z.add_0_r, (mload_ret _ _ _ Ha'). cbn [mbind cres_mbind].
  destruct (decide (dst_i (e_chan s) < DAO_DMA_MAX_POINTER)) as [Hlt|Hge]; [|rewrite enq_dst_full by (done || lia); done].
  destruct (enq_dst_spec (e_chan s) (addr c) d) as (v & -> & Hwf' & Hd & _); [done|lia|]. cbn [mbind cres_mbind].
  rewrite (pos_wrap q Hq) by lia. pose proof (wq_sz_bounds q Hq). pose proof (Z.mod_pos_bound (c + 1) (wq_sz q) ltac:(lia)).
  rewrite cset_in_range by lia. cbn [mbind cres_mbind]. eapply IH; [exact Hr'|lia|lia|done|cbn; lia|cbn; by rewrite length_insert].
Qed.
End parts.

(** The segments from the buffer at [p] on, with their addresses. *)
Fixpoint chain (b : mbufs) (p : Z) (segs : list (Z * rte_mbuf)) : Prop :=
  match segs with
  | [] => p = 0
  | (a, m) :: segs => p = a /\ a <> 0 /\ b !! a = Some m /\ chain b (next m) segs
  end.

(** A segment taken off its packet. *)
Definition single (m : rte_mbuf) : rte_mbuf := set_lens 1 (pkt_len m) (data_len m) (set_next 0 m).

Definition seg_srcs (buf_addr : Z -> Z) (segs : list (Z * rte_mbuf)) : list rte_dma_sge :=
  (fun '(a, m) => {| sge_addr := mtod buf_addr a m 0; sge_length := data_len m |}) <$> segs.

Lemma chain_insert b p segs a m : chain b p segs -> a ∉ segs.*1 -> chain (<[a := m]> b) p segs.
Proof.
  revert p. induction segs as [|[a' m'] segs IH]; intros p; cbn; [done|]. intros (-> & Ha & Hb & Hc) Hn.
  apply not_elem_of_cons in Hn as [Hne Hn]. split_and!; try done; [by rewrite lookup_insert_ne|by apply IH].
Qed.

Section srcs.
Context {D : Type} `{RteDma D} (buf_addr : Z -> Z) (q : worker_queue) (flags : Z).
Context (Hnoff : has_flag flags ENQ_NOFF = false).

(** The loop over the sources after the first. *)
Lemma mseg_srcs_spec moff : forall segs fuel p (s : estate D), chain (e_mbufs s) p segs -> NoDup segs.*1 -> (length segs <= fuel)%nat ->
  vchan_wf (e_chan s) -> src_i (e_chan s) + Z.of_nat (length segs) <= DAO_DMA_MAX_POINTER ->
  exists s', mseg_srcs buf_addr fuel q flags moff p s = Ret s' /\
    pending_src (e_chan s') = pending_src (e_chan s) ++ seg_srcs buf_addr segs /\
    pending_dst (e_chan s') = pending_dst (e_chan s) /\ e_dev s' = e_dev s /\
    devid (e_chan s') = devid (e_chan s) /\ vchan (e_chan s') = vchan (e_chan s) /\
    e_words s' = e_words s /\ e_mem s' = e_mem s /\ (forall a m, (a, m) ∈ segs -> e_mbufs s' !! a = Some (single m)) /\
    (forall a, a ∉ segs.*1 -> e_mbufs s' !! a = e_mbufs s !! a).
Proof.
  induction segs as [|[a m] segs IH]; intros fuel p s; cbn [chain].
  - intros -> _ _ _ _. exists s. rewrite app_nil_r. split; [by destruct fuel|]. split_and!; try done. intros a m Ha. by apply not_elem_of_nil in Ha.
  - intros (-> & Ha & Hb & Hc) Hnd Hf Hwf Hroom. cbn [length] in *. destruct fuel as [|fuel]; [lia|]. cbn [mseg_srcs].
    rewrite (proj2 (Z.eqb_neq _ _) Ha). unfold mbuf_upd, mbuf_at. rewrite Hb. cbn [mbind cres_mbind].
    destruct (enq_src_spec (e_chan s) (mtod buf_addr a m 0) (data_len m)) as (v & -> & Hwf' & Hi & P1 & P2 & P3 & P4); [done|lia|].
    cbn [mbind cres_mbind]. rewrite Hnoff. cbn [mbind cres_mbind].
    change (set_lens 1 (pkt_len (set_next 0 m)) (data_len (set_next 0 m)) (set_next 0 m)) with (single m).
    rewrite fmap_cons in Hnd. apply list.NoDup_cons in Hnd as [Hn Hnd].
    edestruct (IH fuel (next m)) as (s' & -> & Q1 & Q2 & Q3 & Q4 & Q5 & Q6 & Q7 & Q8 & Q9); cycle -1.
    + exists s'. split; [done|]. rewrite Q1, Q2, Q3, Q4, Q5, Q6, Q7. cbn. rewrite P1, P2, P3, P4, <- app_assoc. split_and!; try done.
      * intros a' m' Ha'. apply elem_of_cons in Ha' as [[= -> ->]|Ha']; [|by apply Q8]. rewrite Q9 by done. cbn. by rewrite lookup_insert_eq.
      * intros a' Ha'. apply not_elem_of_cons in Ha' as [Hne Ha']. rewrite Q9 by done. cbn. by rewrite lookup_insert_ne.
    + cbn. by apply chain_insert.
    + done.
    + lia.
    + done.
    + cbn. lia.
Qed.

(** More segments than the array of the channel has room for. *)
Lemma mseg_srcs_overruns moff : forall segs fuel p (s : estate D), chain (e_mbufs s) p segs -> NoDup segs.*1 ->
  vchan_wf (e_chan s) -> DAO_DMA_MAX_POINTER < src_i (e_chan s) + Z.of_nat (length segs) ->
  mseg_srcs buf_addr fuel q flags moff p s = Fault.
Proof.
  induction segs as [|[a m] segs IH]; intros fuel p s; cbn [chain length].
  - intros _ _ Hwf Hroom. pose proof (wf_src_i _ Hwf). lia.
  - intros (-> & Ha & Hb & Hc) Hnd Hwf Hroom. destruct fuel as [|fuel]; cbn [mseg_srcs]; rewrite (proj2 (Z.eqb_neq _ _) Ha); [done|].
    unfold mbuf_upd, mbuf_at. rewrite Hb. cbn [mbind cres_mbind].
    destruct (decide (src_i (e_chan s) < DAO_DMA_MAX_POINTER)) as [Hlt|Hge]; [|rewrite enq_src_full by (done || lia); done].
    destruct (enq_src_spec (e_chan s) (mtod buf_addr a m 0) (data_len m)) as (v & -> & Hwf' & Hi & _); [done|lia|].
    cbn [mbind cres_mbind]. rewrite Hnoff. cbn [mbind cres_mbind].
    rewrite fmap_cons in Hnd. apply list.NoDup_cons in Hnd as [Hn Hnd]. apply IH; [cbn; by apply chain_insert|done|done|cbn; lia].
Qed.
End srcs.

Lemma shares_length x m : forall c slen, length (shares x m c slen) = m.
Proof. induction m as [|m IH]; intros c slen; cbn; [done|]. by rewrite IH. Qed.

Section calls.
Context (stats : bool) {D : Type} `{RteDmaLaws D} (buf_addr : Z -> Z) (hr : list Z).
Context (q : worker_queue) (Hq : queue_ok q).

(** [virtio_net_enq] up to the copies. *)
Lemma enq_polls L to pend nb l flags (s : estate D) v d m :
  dao_dma_check_meta_compl (e_chan s) (e_dev s) (e_cells s) = Ret (v, d, m) -> send_queue q L to pend m -> 0 <= nb ->
  let n := send_count q L to pend nb in let s1 := eput_dma v d (eput_cells m s) in
  virtio_net_enq stats buf_addr hr q l nb flags s =
    if n =? 0 then Ret (0, q, s1) else push_enq_data stats buf_addr hr q l n flags s1.
Proof.
  intros Epoll [(HL & Hto & Hp) Qo Qd Qp] Hnb n s1. pose proof (wq_sz_bounds q Hq). unfold virtio_net_enq. rewrite Epoll.
  cbn [mbind cres_mbind]. fold s1. change (e_cells s1) with m. rewrite (mload_ret _ _ _ Qd). cbn [mbind cres_mbind].
  rewrite (mload_ret _ _ _ Qp). cbn [mbind cres_mbind]. rewrite Qo, desc_off_diff_enc by (apply Hq || lia).
  rewrite (u16_id (to - L)) by word. unfold RTE_MIN. fold (send_count q L to pend nb). fold n.
  rewrite (u16_id n) by (unfold n, send_count; word). done.
Qed.

Lemma push_overruns flags L n to pend addr meta l pp pm (s : estate D) :
  send_queue q L to pend (e_cells s) -> sends buf_addr hr q flags L n meta l (e_mbufs s) pp pm ->
  ring_at q L (L + n) addr meta (e_words s) -> wq_sz q <= Z.of_nat (length (e_arr s)) ->
  vchan_wf (e_chan s) -> src_i (e_chan s) = dst_i (e_chan s) -> flush_thr (e_chan s) = DAO_DMA_MAX_POINTER ->
  src_i (e_chan s) = DAO_DMA_MAX_POINTER - 4 -> 4 < n < 8 -> L mod wq_sz q + 3 < wq_sz q ->
  push_enq_data stats buf_addr hr q l n flags s = Fault.
Proof.
  intros Hsq Hs Hr Harr Hwf Hsy Hthr Hsrc Hn Hend.
  assert (sending buf_addr hr q flags L n addr meta (e_mbufs s) pp pm s 0 s) as Hse0 by (by apply (sending_start _ _ _ _ _ _ _ _ l)).
  pose proof (wq_sz_bounds q Hq). unfold push_enq_data.
  assert (es_flush stats 1 s = (true, s)) as ->.
  { unfold es_flush, dao_dma_flush. rewrite <- Hsy, Hsrc, Hthr. by destruct s. }
  cbn [negb]. rewrite (sn_single _ _ _ _ _ _ _ _ _ _ _ Hs). cbn [mbind cres_mbind].
  rewrite (eq_last _ _ _ _ _ Hsq), DESC_OFF_enc by apply Hq.
  rewrite u16_id by (pose proof (Z.mod_pos_bound L (wq_sz q)); word).
  replace (Z.to_nat (n / 4)) with 1%nat by word. cbn [enq_x4_turns ev_off ev_i].
  destruct (enq_x4_step stats buf_addr hr q Hq flags L n addr meta l (e_mbufs s) pp pm Hs s 0 s Hse0) as
    [[_ Hno]|(r & s1 & E & _ & Hse & _ & Hfull & _)]; [rewrite ?Hthr, ?Hsrc; unfold DAO_DMA_MAX_POINTER; lia..|done| |].
  { rewrite Z.add_0_r in Hno. lia. }
  destruct Hfull as [-> Hfull]; [rewrite Hthr, Hsrc; unfold DAO_DMA_MAX_POINTER; lia|].
  rewrite Z.add_0_r in E. rewrite E. cbn [mbind cres_mbind Z.eqb Pos.eqb negb ev_i].
  change (u16 (0 + 4)) with 4. replace (Z.to_nat (n - 4)) with (S (Z.to_nat (n - 5))) by lia. cbn [enq_x1_loop].
  rewrite (enq_x1_overrun stats buf_addr hr q Hq flags L n addr meta l (e_mbufs s) pp pm Hs s 4 s1); try done.
  - lia.
  - rewrite Hfull, Hsrc. done.
  - cbn. by rewrite (pos_wrap q Hq) by lia.
Qed.
End calls.

(** ** Properties *)

(** C5. [virtio_net_enq] starts exactly one copy for each packet it accepts,
    in order, into the free descriptors from where the last call stopped,
    whether in its vector or its scalar loop: the channel is given the packet
    with its header and the buffer of the descriptor, both with the length
    that fits the buffer; the header says whether the checksum is known to be
    good, the hash value and its report, and one buffer; no other byte of
    packet memory changes; the descriptor is marked used with the copied
    length; the packet is kept in the slot of its descriptor; and one
    completion record that moves [sd_mbuf_off] behind the last of them is
    attached to the operation that holds the last copy. It accepts as many
    packets as there are descriptors and slots unless the device refuses a
    copy. For packets of one segment without [ENQ_MSEG] and without a bad outer
    checksum, and a threshold below the size of a channel. *)
Theorem enq_starts_copies (stats : bool) {D : Type} `{RteDmaLaws D} (buf_addr : Z -> Z) (hr : list Z) (q : worker_queue)
    (flags nb L to pend : Z) (addr meta : Z -> Z) (l : list Z) (pp : Z -> Z) (pm : Z -> rte_mbuf) (s : estate D) v d m :
  let n := send_count q L to pend nb in
  dao_dma_check_meta_compl (e_chan s) (e_dev s) (e_cells s) = Ret (v, d, m) ->
  queue_ok q -> send_queue q L to pend m -> send_chan v -> 0 <= nb ->
  sends buf_addr hr q flags L n meta l (e_mbufs s) pp pm -> ring_at q L (L + n) addr meta (e_words s) ->
  wq_sz q <= Z.of_nat (length (e_arr s)) ->
  exists k s', virtio_net_enq stats buf_addr hr q l nb flags s = Ret (k, set_last_off (ring_enc (wq_sz q) (L + k)) q, s') /\
    0 <= k <= n /\
    enq_post buf_addr hr q flags L n pend addr meta pp pm k (eput_dma v d (eput_cells m s)) s' /\
    (forall R, willing R -> R d -> k = n).
Proof.
  intros n Epoll Hq Hsq Hsc Hnb Hs Hr Harr. set (s1 := eput_dma v d (eput_cells m s)).
  rewrite (enq_polls stats buf_addr hr q Hq L to pend nb l flags s v d m Epoll Hsq Hnb). fold n s1. pose proof (sn_range _ _ _ _ _ _ _ _ _ _ _ Hs).
  destruct (Z.eqb_spec n 0) as [Hz|Hz].
  - destruct (enq_exit_spec buf_addr hr q Hq flags L n to pend addr meta pp pm s1 s1 0
      (Build_enq_vars 0 ((L + 0) mod wq_sz q) 0 0 0 0)) as (s' & E & Hpost); try done.
    + destruct (eq_pos _ _ _ _ _ Hsq). lia.
    + apply (sending_start buf_addr hr q flags L n addr meta l); (done || apply Hsc).
    + injection E as E <-. exists 0, s1. rewrite <- E. split; [done|]. split; [lia|]. split; [done|]. by intros.
  - apply (push_enq_ok stats buf_addr hr q Hq flags L n to pend addr meta l pp pm s1); try done; unfold n, send_count in *; lia.
Qed.

(** C40. With the largest threshold a channel can be given, the scalar loop
    writes behind the channel's array of elements: the vector loop may fill
    the channel to the threshold without a flush, and the scalar loop starts
    without checking for room. *)
Theorem enq_overruns_channel (stats : bool) {D : Type} `{RteDmaLaws D} (buf_addr : Z -> Z) (hr : list Z) (q : worker_queue)
    (flags nb L to pend : Z) (addr meta : Z -> Z) (l : list Z) (pp : Z -> Z) (pm : Z -> rte_mbuf) (s : estate D) v d m :
  let n := send_count q L to pend nb in
  dao_dma_check_meta_compl (e_chan s) (e_dev s) (e_cells s) = Ret (v, d, m) ->
  queue_ok q -> send_queue q L to pend m -> 0 <= nb ->
  sends buf_addr hr q flags L n meta l (e_mbufs s) pp pm -> ring_at q L (L + n) addr meta (e_words s) ->
  wq_sz q <= Z.of_nat (length (e_arr s)) ->
  vchan_wf v -> src_i v = dst_i v -> flush_thr v = DAO_DMA_MAX_POINTER -> src_i v = DAO_DMA_MAX_POINTER - 4 ->
  4 < n < 8 -> L mod wq_sz q + 3 < wq_sz q ->
  virtio_net_enq stats buf_addr hr q l nb flags s = Fault.
Proof.
  intros n Epoll Hq Hsq Hnb Hs Hr Harr Hwf Hsy Hthr Hsrc Hn Hend. set (s1 := eput_dma v d (eput_cells m s)).
  rewrite (enq_polls stats buf_addr hr q Hq L to pend nb l flags s v d m Epoll Hsq Hnb). fold n s1.
  rewrite (proj2 (Z.eqb_neq n 0)) by lia.
  by apply (push_overruns stats buf_addr hr q Hq flags L n to pend addr meta l pp pm s1).
Qed.

(** Only the channel and the device changed, and the elements given to them
    so far are the same. *)
Definition flushed {D : Type} `{RteDmaLaws D} (s s' : estate D) : Prop :=
  exists v d, s' = eput_dma v d s /\ vchan_wf v /\ devid v = devid (e_chan s) /\ vchan v = vchan (e_chan s) /\
    src_stream d v = src_stream (e_dev s) (e_chan s) /\ dst_stream d v = dst_stream (e_dev s) (e_chan s).

(** A packet of several segments; the length of the first says that of all. *)
Record mseg_packet (q : worker_queue) (b : mbufs) (p : Z) (m : rte_mbuf) (segs : list (Z * rte_mbuf)) : Prop := {
  mp_chain : chain b p ((p, m) :: segs);
  mp_nodup : NoDup (p :: segs.*1);
  mp_len : pkt_len m = data_len m + foldr Z.add 0 (data_len <$> segs.*2);
  mp_data : 0 <= data_len m /\ Forall (fun m => 0 <= data_len m) segs.*2;
  mp_small : 0 < pkt_len m + wq_hdr_sz q <= 0x7FFFFFFF;
}.

(** The packet is on its way: [nb] descriptors from [L] on and all its
    segments. *)
Record mseg_sent {D : Type} `{RteDmaLaws D} (buf_addr : Z -> Z) (q : worker_queue) (L to : Z) (addr x : Z -> Z) (hdr p : Z) (m : rte_mbuf)
    (segs : list (Z * rte_mbuf)) (nb : nat) (ev : enq_vars) (s : estate D) (ev' : enq_vars) (s' : estate D) : Prop := {
  mt_off : ev_off ev' = (L + Z.of_nat nb) mod wq_sz q;
  mt_avail : ev_avail_sd ev' = ev_avail_sd ev - Z.of_nat nb /\ ev_avail_mbuf ev' = ev_avail_mbuf ev - Z.of_nat nb;
  mt_num_buffers : e_mem s' = st_le 2 (hdr + 10) (Z.of_nat nb) (e_mem s);
  mt_srcs : src_stream (e_dev s') (e_chan s') = src_stream (e_dev s) (e_chan s) ++
    {| sge_addr := mtod buf_addr p m (- wq_hdr_sz q); sge_length := data_len m + wq_hdr_sz q |} :: seg_srcs buf_addr segs;
  mt_dsts : exists els x', dst_stream (e_dev s') (e_chan s') = dst_stream (e_dev s) (e_chan s) ++ els /\ length els = nb /\
    foldr Z.add 0 (sge_length <$> els) = data_len m + wq_hdr_sz q + foldr Z.add 0 (sge_length <$> seg_srcs buf_addr segs) /\
    ring_at q L to addr x' (e_words s') /\
    (forall j e, els !! j = Some e -> sge_addr e = addr (L + Z.of_nat j) /\ sge_length e <= desc_len (x (L + Z.of_nat j)) /\
      x' (L + Z.of_nat j) = used_len_word (x (L + Z.of_nat j)) (sge_length e)) /\
    (forall c, L + Z.of_nat nb <= c -> x' c = x c);
  mt_mbufs : forall a m', (a, m') ∈ (p, m) :: segs -> e_mbufs s' !! a = Some (single m');
}.

Definition with_idx (idx : Z) (ev : enq_vars) : enq_vars :=
  {| ev_i := ev_i ev; ev_off := ev_off ev; ev_used := ev_used ev; ev_last_idx := idx;
     ev_avail_sd := ev_avail_sd ev; ev_avail_mbuf := ev_avail_mbuf ev |}.

Lemma es_flush_flushed (stats : bool) {D : Type} `{RteDmaLaws D} avail (s s1 : estate D) ok :
  vchan_wf (e_chan s) -> es_flush stats avail s = (ok, s1) -> flushed s s1.
Proof.
  intros Hwf. unfold es_flush. destruct (dao_dma_flush stats (e_chan s) avail (e_dev s)) as [[b v] d] eqn:Ef. intros [= <- <-].
  destruct (flush_spec stats _ _ _ _ _ _ Hwf Ef) as (Hwf1 & F1 & F2 & (E1 & E2 & _) & _). by exists v, d.
Qed.

Lemma seg_srcs_sum buf_addr segs : foldr Z.add 0 (sge_length <$> seg_srcs buf_addr segs) = foldr Z.add 0 (data_len <$> segs.*2).
Proof. induction segs as [|[a m] segs IH]; [done|]. unfold seg_srcs in *. cbn. f_equal. exact IH. Qed.

Lemma sum_nonneg (l : list Z) : Forall (fun x => 0 <= x) l -> 0 <= foldr Z.add 0 l.
Proof. induction 1; cbn; lia. Qed.

(** The second half of [process_mseg_pkts_enq]: the sources. *)
Lemma mseg_pkt_srcs {D : Type} `{RteDma D} buf_addr q flags off p m segs fuel (s : estate D) :
  has_flag flags ENQ_NOFF = false -> chain (e_mbufs s) p ((p, m) :: segs) -> NoDup (p :: segs.*1) -> is_u32 (data_len m + wq_hdr_sz q) ->
  vchan_wf (e_chan s) -> (15 <= fuel)%nat ->
  let run := (v ← dao_dma_enq_src_x1 (e_chan s) (mtod buf_addr p m (- wq_hdr_sz q)) (u32 (data_len m + wq_hdr_sz q));
    b ← mbuf_upd p (fun m => set_lens 1 (pkt_len m) (data_len m) (set_next 0 m)) (e_mbufs s);
    mseg_srcs buf_addr fuel q flags off (next m) (eput_dma v (e_dev s) (eput_mbufs b s))) in
  if src_i (e_chan s) + 1 + Z.of_nat (length segs) <=? DAO_DMA_MAX_POINTER
  then exists s', run = Ret s' /\
    pending_src (e_chan s') = pending_src (e_chan s) ++
      {| sge_addr := mtod buf_addr p m (- wq_hdr_sz q); sge_length := data_len m + wq_hdr_sz q |} :: seg_srcs buf_addr segs /\
    pending_dst (e_chan s') = pending_dst (e_chan s) /\
    e_dev s' = e_dev s /\ devid (e_chan s') = devid (e_chan s) /\ vchan (e_chan s') = vchan (e_chan s) /\ e_mem s' = e_mem s /\
    e_words s' = e_words s /\ (forall a m', (a, m') ∈ (p, m) :: segs -> e_mbufs s' !! a = Some (single m'))
  else run = Fault.
Proof.
  intros Hnoff (_ & _ & Hb & Hc) Hnd Hl Hwf Hf run. unfold run. rewrite u32_id by done.
  destruct (decide (src_i (e_chan s) < DAO_DMA_MAX_POINTER)) as [Hs|Hs].
  2:{ rewrite (proj2 (Z.leb_gt _ _)) by lia. by rewrite enq_src_full by (done || lia). }
  destruct (enq_src_spec (e_chan s) (mtod buf_addr p m (- wq_hdr_sz q)) (data_len m + wq_hdr_sz q)) as (v & -> & Hwf3 & Hi3 & R1 & R2 & R3 & R4);
    [done|lia|]. cbn [mbind cres_mbind]. unfold mbuf_upd, mbuf_at. rewrite Hb. cbn [mbind cres_mbind].
  apply list.NoDup_cons in Hnd as [Hn Hnd].
  assert (chain (<[p := single m]> (e_mbufs s)) (next m) segs) as Hc' by (by apply chain_insert).
  destruct (Z.leb_spec (src_i (e_chan s) + 1 + Z.of_nat (length segs)) DAO_DMA_MAX_POINTER).
  2:{ apply (mseg_srcs_overruns buf_addr q flags Hnoff off segs fuel); [exact Hc'|done|done|cbn; lia]. }
  edestruct (mseg_srcs_spec buf_addr q flags Hnoff off segs fuel (next m) (eput_dma v (e_dev s) (eput_mbufs (<[p := single m]> (e_mbufs s)) s))) as (s' & E & Q1 & Q2 & Q3 & Q4 & Q5 & Q6 & Q7 & Q8 & Q9); cycle -1.
  - exists s'. split; [exact E|]. cbn [e_chan e_dev e_words e_mem eput_dma eput_mbufs] in *.
    rewrite Q1, Q2, Q4, Q5, R1, R2, R3, R4, <- app_assoc. split_and!; try done.
    intros a m' Ha. apply elem_of_cons in Ha as [[= -> ->]|Ha]; [|by apply Q8]. rewrite Q9 by done. apply lookup_insert_eq.
  - exact Hc'.
  - done.
  - unfold DAO_DMA_MAX_POINTER in *. pose proof (wf_src_i _ Hwf). lia.
  - done.
  - cbn. lia.
Qed.

(** [process_mseg_pkts_enq] by its halves. *)
Lemma process_mseg_halves {D : Type} `{RteDma D} buf_addr q flags off p m nb (s : estate D) :
  has_flag flags ENQ_NOFF = false -> e_mbufs s !! p = Some m -> 0 <= off < Z.of_nat (length (e_arr s)) -> is_u32 (pkt_len m + wq_hdr_sz q) ->
  process_mseg_pkts_enq buf_addr q p off (Z.of_nat nb) 0 flags s =
  ('(off', s) ← mseg_dsts nb q flags off (pkt_len m + wq_hdr_sz q) (eput_ring (e_words s) (<[Z.to_nat off := p]> (e_arr s)) s);
   s ← (v ← dao_dma_enq_src_x1 (e_chan s) (mtod buf_addr p m (- wq_hdr_sz q)) (u32 (data_len m + wq_hdr_sz q));
        b ← mbuf_upd p (fun m => set_lens 1 (pkt_len m) (data_len m) (set_next 0 m)) (e_mbufs s);
        mseg_srcs buf_addr SEG_FUEL q flags off (next m) (eput_dma v (e_dev s) (eput_mbufs b s)));
   Ret (off', s)).
Proof.
  intros Hnoff Hb Ho Hu. unfold process_mseg_pkts_enq. generalize SEG_FUEL. intros fuel. assert (mbuf_at (e_mbufs s) p = Ret m) as -> by (unfold mbuf_at; by rewrite Hb).
  cbn [mbind cres_mbind]. rewrite Hnoff, cset_in_range, (u32_id (pkt_len m + _)), Nat2Z.id by done. cbn [mbind cres_mbind].
  destruct (mseg_dsts _ _ _ _ _ _) as [[off' s']| |]; cbn [mbind cres_mbind]; [|done..].
  destruct (dao_dma_enq_src_x1 _ _ _) as [v| |]; cbn [mbind cres_mbind]; [|done..].
  destruct (mbuf_upd _ _ _) as [b| |]; cbn [mbind cres_mbind]; done.
Qed.

(** The packet is spread over [nb] descriptors when the arrays have room. *)
Lemma mseg_pkts_spec {D : Type} `{RteDmaLaws D} buf_addr q flags L to addr x p m segs nb (s : estate D) :
  queue_ok q -> has_flag flags ENQ_NOFF = false -> to <= L + wq_sz q -> ring_at q L to addr x (e_words s) ->
  (forall c, L <= c < to -> is_u64 (x c)) -> mseg_packet q (e_mbufs s) p m segs -> vchan_wf (e_chan s) ->
  wq_sz q <= Z.of_nat (length (e_arr s)) -> L + Z.of_nat nb <= to -> pkt_len m + wq_hdr_sz q <= total x L nb ->
  let run := process_mseg_pkts_enq buf_addr q p (L mod wq_sz q) (Z.of_nat nb) 0 flags s in
  if (dst_i (e_chan s) + Z.of_nat nb <=? DAO_DMA_MAX_POINTER) && (src_i (e_chan s) + 1 + Z.of_nat (length segs) <=? DAO_DMA_MAX_POINTER)
  then exists s' x', run = Ret ((L + Z.of_nat nb) mod wq_sz q, s') /\
    pending_src (e_chan s') = pending_src (e_chan s) ++
      {| sge_addr := mtod buf_addr p m (- wq_hdr_sz q); sge_length := data_len m + wq_hdr_sz q |} :: seg_srcs buf_addr segs /\
    pending_dst (e_chan s') = pending_dst (e_chan s) ++ dst_parts addr x nb L (pkt_len m + wq_hdr_sz q) /\
    e_dev s' = e_dev s /\ devid (e_chan s') = devid (e_chan s) /\ vchan (e_chan s') = vchan (e_chan s) /\ e_mem s' = e_mem s /\
    ring_at q L to addr x' (e_words s') /\
    (forall j d, shares x nb L (pkt_len m + wq_hdr_sz q) !! j = Some d -> x' (L + Z.of_nat j) = used_len_word (x (L + Z.of_nat j)) d) /\
    (forall c, L + Z.of_nat nb <= c -> x' c = x c) /\
    (forall a m', (a, m') ∈ (p, m) :: segs -> e_mbufs s' !! a = Some (single m'))
  else run = Fault.
Proof.
  intros Hq Hnoff Hto Hr Hx [Hc Hnd Hpl Hdl Hsm] Hwf Harr Hlt Htot run. pose proof Hc as (_ & _ & Hb & _).
  pose proof (wq_sz_bounds q Hq). pose proof (Z.mod_pos_bound L (wq_sz q) ltac:(lia)). pose proof (qo_hdr q Hq).
  assert (0 <= foldr Z.add 0 (data_len <$> segs.*2)) by (apply sum_nonneg, Forall_fmap, Hdl).
  assert (is_u32 (pkt_len m + wq_hdr_sz q) /\ is_u32 (data_len m + wq_hdr_sz q)) as [Hu1 Hu2] by (unfold is_u32; lia).
  unfold run. rewrite (process_mseg_halves buf_addr q flags (L mod wq_sz q) p m nb s Hnoff Hb) by (done || lia). set (s1 := eput_ring _ _ s).
  assert (wq_sz q <= Z.of_nat (length (e_arr s1))) by (cbn; by rewrite length_insert).
  destruct (Z.leb_spec (dst_i (e_chan s) + Z.of_nat nb) DAO_DMA_MAX_POINTER); cbn [andb].
  2:{ rewrite (mseg_dsts_overruns q Hq flags L to addr Hto nb L _ x s1); (done || lia). }
  destruct (mseg_dsts_spec q Hq flags L to addr Hnoff Hto nb L (pkt_len m + wq_hdr_sz q) x s1)
    as (s2 & x' & -> & P1 & P2 & P3 & Hr' & Hw & Ho & Hwf2 & Hi2 & D2 & V2 & B2 & M2); try done.
  cbn [mbind cres_mbind]. change (chain (e_mbufs s1) p ((p, m) :: segs)) in Hc. rewrite <- B2 in Hc.
  pose proof (mseg_pkt_srcs buf_addr q flags (L mod wq_sz q) p m segs SEG_FUEL s2 Hnoff Hc Hnd Hu2 Hwf2 ltac:(apply Nat.leb_le; reflexivity)) as Hs.
  cbn zeta in Hs. rewrite Hi2 in Hs. change (e_chan s1) with (e_chan s) in *. destruct (_ <=? _).
  - destruct Hs as (s' & E & Q1 & Q2 & Q3 & Q4 & Q5 & Q6 & Q7 & Q8). exists s', x'.
    split; [by rewrite E|]. rewrite Q1, Q2, Q3, Q4, Q5, Q6, Q7, P1, P2, P3, D2, V2, M2. split_and!; try done. intros c Hc'. apply Ho. lia.
  - by rewrite Hs.
Qed.


(** When the queue goes away, [virtio_net_flush_enq] frees the packets in
    the slots from the last completed one to the last one sent, each once and
    in order, and none of them stays pending; when the hardware frees packets
    it frees none. *)
Theorem flush_enq_frees (q : worker_queue) (auto_free : Z) (arr : list Z) (m : store) (M L pend : Z) :
  queue_ok q -> wq_sz q <= Z.of_nat (length arr) -> wq_last_off q = ring_enc (wq_sz q) L -> 0 <= M <= L -> L <= M + wq_sz q ->
  wq_sd_mbuf_off_p q <> wq_pend_sd_mbuf_p q ->
  m !! wq_sd_mbuf_off_p q = Some (ring_enc (wq_sz q) M) -> m !! wq_pend_sd_mbuf_p q = Some pend ->
  exists calls m', virtio_net_flush_enq q auto_free arr m = Ret (calls, m') /\
    (auto_free <> 0 -> calls = [] /\ m' = m) /\
    (auto_free = 0 -> concat (freed <$> calls) = ring_slots (wq_sz q) arr M L /\
       m' !! wq_sd_mbuf_off_p q = Some (ring_enc (wq_sz q) L) /\ (M < L -> m' !! wq_pend_sd_mbuf_p q = Some 0)).
Proof.
  intros Hq Harr Hlast HM Hroom Hne Qm Qp. pose proof (wq_sz_bounds q Hq). pose proof (qo_size q Hq) as Hsz.
  unfold virtio_net_flush_enq. rewrite (mload_ret _ _ _ Qm), Hlast. cbn [mbind cres_mbind].
  destruct (Z.eqb_spec auto_free 0) as [->|Hf]; cbn [negb orb].
  2:{ exists [], m. split; [done|]. by split. }
  destruct (Z.eqb_spec (ring_enc (wq_sz q) M) (ring_enc (wq_sz q) L)) as [He|He].
  { symmetry in He. apply enc_inj in He; [|done|lia]. subst L. exists [], m. split; [done|]. split; [done|]. intros _.
    split; [|split; [done|lia]]. unfold ring_slots. by rewrite Z.sub_diag. }
  assert (M < L) as HML by (destruct (decide (M = L)) as [->|]; [done|lia]).
  rewrite desc_off_diff_no_wrap_enc by (done || lia).
  destruct (ring_split (wq_sz q) M L) as (Hk0 & Hk1 & Hk2 & Hk3); [lia|lia|].
  set (k := Z.min (L - M) (wq_sz q - M mod wq_sz q)) in *. specialize (Hk2 ltac:(lia)).
  rewrite DESC_OFF_enc, read_slots by (done || lia). cbn [mbind cres_mbind]. rewrite desc_off_add_enc by (done || lia).
  assert (forall y calls, concat (freed <$> calls) = ring_slots (wq_sz q) arr M L -> y = ring_enc (wq_sz q) L ->
    exists calls0 m', (m0 ← mstore m (wq_sd_mbuf_off_p q) y; m1 ← mstore m0 (wq_pend_sd_mbuf_p q) 0; Ret (calls, m1)) = Ret (calls0, m') /\
    (0 <> 0 -> calls0 = [] /\ m' = m) /\ (0 = 0 -> concat (freed <$> calls0) = ring_slots (wq_sz q) arr M L /\
       m' !! wq_sd_mbuf_off_p q = Some (ring_enc (wq_sz q) L) /\ (M < L -> m' !! wq_pend_sd_mbuf_p q = Some 0))) as Hend.
  { intros y calls Hc ->. rewrite (mstore_ret _ _ _ _ Qm). cbn [mbind cres_mbind].
    rewrite (mstore_ret _ _ pend) by (by rewrite lookup_insert_ne). cbn [mbind cres_mbind]. do 2 eexists. split; [done|].
    split; [done|]. intros _. split; [done|]. rewrite lookup_insert_ne, !lookup_insert_eq by done. by split. }
  destruct Hk3 as [E|[Hz Hrest]].
  - rewrite E, Z.sub_diag. change (u16 0) with 0. cbn [Z.eqb mbind cres_mbind]. apply Hend; [|done].
    cbn. by rewrite app_nil_r.
  - rewrite enc_rest by (done || lia). rewrite (u16_id (L - (M + k))) by word. rewrite (proj2 (Z.eqb_neq (L - (M + k)) 0)) by lia.
    rewrite DESC_OFF_enc, read_slots by (done || lia). cbn [mbind cres_mbind]. apply Hend.
    + cbn. rewrite app_nil_r, <- ring_slots_app by lia. f_equal. lia.
    + rewrite desc_off_add_enc by (done || lia). f_equal. lia.
Qed.

(** *** Witnesses

    A queue of 8 descriptors of 64 bytes (one of 100) and packets of 40
    bytes. *)
Definition swit_q : worker_queue := set_last_off (ring_enc 8 8) wit_wq.
Definition swit_pp (i : Z) : Z := 0x20000 + 0x1000 * i.
Definition swit_pkt (len : Z) : rte_mbuf :=
  {| data_off := 140; refcnt := 1; nb_segs := 1; port := 0; ol_flags := RTE_MBUF_F_RX_L4_CKSUM_BAD; packet_type := 0x110;
     pkt_len := len; data_len := len; vlan_tci := 0; hash_rss := 77; next := 0; tx_offload := 0 |}.
Definition swit_bufs : mbufs := list_to_map ((fun i => (swit_pp i, swit_pkt 40)) <$> seqZ 0 8).
Definition swit_cells (to : Z) : store := <[10 := ring_enc 8 to]> (<[11 := ring_enc 8 8]> (<[12 := 0]> ∅)).
Definition swit_st (to : Z) (b : mbufs) (v : dao_dma_vchan_state) : estate ref_dma :=
  Build_estate (swit_cells to) wit_words b (replicate 8 0) (fun _ => 0) v wit_dma.
Definition swit_addr (p : Z) : Z := p + 128.
Definition swit_hr : list Z := replicate 256 5.

Lemma swit_queue_ok : queue_ok swit_q.
Proof. destruct wit_queue_ok. by split. Qed.

Lemma swit_sends flags n : 0 <= n <= 8 -> has_flag flags ENQ_MSEG = false -> has_flag flags ENQ_HASH_REPORT = false ->
  sends swit_addr swit_hr swit_q flags 8 n wit_x (swit_pp <$> seqZ 0 n) swit_bufs swit_pp (fun _ => swit_pkt 40).
Proof.
  intros Hn Hf Hh. assert (forall i, 0 <= i < n -> i = 0 \/ i = 1 \/ i = 2 \/ i = 3 \/ i = 4 \/ i = 5 \/ i = 6 \/ i = 7) as Hc by lia.
  split; unfold hdr_span, hdr_at, swit_addr, swit_pp; rewrite ?Hh; cbn [wq_hdr_sz wq_sz swit_q set_last_off wit_wq data_off swit_pkt]; try done.
  - intros i Hi. rewrite list_lookup_fmap, lookup_seqZ_lt by lia. cbn. f_equal. lia.
  - intros i Hi. by destruct (Hc i Hi) as [->|[->|[->|[->|[->|[->|[->| ->]]]]]]].
  - intros i _. split; try (vm_compute; (done || by split || by exists 5)).
  - intros i Hi. unfold is_u64. lia.
  - intros i j Hi Hj Hne. lia.
  - intros c _. apply wit_full.
Qed.

Lemma swit_send_chan : send_chan (set_compl wit_chan 0 0 (mdata wit_chan)).
Proof. destruct wit_chan_ok. by split. Qed.

Lemma enq_starts_copies_witness :
  exists k s', virtio_net_enq false swit_addr swit_hr swit_q (swit_pp <$> seqZ 0 6) 6 2 (swit_st 14 swit_bufs wit_chan) =
      Ret (k, set_last_off (ring_enc 8 (8 + k)) swit_q, s') /\ 0 <= k <= 6 /\
    enq_post swit_addr swit_hr swit_q 2 8 6 0 wit_addr wit_x swit_pp (fun _ => swit_pkt 40) k
      (eput_dma (set_compl wit_chan 0 0 (mdata wit_chan)) wit_dma (eput_cells (swit_cells 14) (swit_st 14 swit_bufs wit_chan))) s'.
Proof.
  destruct (enq_starts_copies false swit_addr swit_hr swit_q 2 6 8 14 0 wit_addr wit_x (swit_pp <$> seqZ 0 6) swit_pp
    (fun _ => swit_pkt 40) (swit_st 14 swit_bufs wit_chan) (set_compl wit_chan 0 0 (mdata wit_chan)) wit_dma (swit_cells 14))
    as (k & s' & E & Hk & Hp & _).
  - reflexivity.
  - exact swit_queue_ok.
  - split; (done || (cbn; lia)).
  - exact swit_send_chan.
  - lia.
  - apply (swit_sends 2 6); (lia || done).
  - apply (wit_ring_at 8 14).
  - cbn. lia.
  - exists k, s'. split; [exact E|]. split; [exact Hk|exact Hp].
Defined.

Definition swit_full_chan : dao_dma_vchan_state :=
  set_pending (set_conf vchan_state0 0 0 15 0) (replicate 15 (wit_sge 0)) (replicate 15 (wit_sge 0)) 11 11.

Lemma enq_overruns_channel_witness :
  virtio_net_enq false swit_addr swit_hr swit_q (swit_pp <$> seqZ 0 5) 5 2 (swit_st 13 swit_bufs swit_full_chan) = Fault.
Proof.
  apply (enq_overruns_channel false swit_addr swit_hr swit_q 2 5 8 13 0 wit_addr wit_x (swit_pp <$> seqZ 0 5) swit_pp
    (fun _ => swit_pkt 40) (swit_st 13 swit_bufs swit_full_chan) (set_compl swit_full_chan 0 0 (mdata swit_full_chan)) wit_dma (swit_cells 13)).
  - reflexivity.
  - exact swit_queue_ok.
  - split; (done || (cbn; lia)).
  - lia.
  - apply (swit_sends 2 5); (lia || done).
  - apply (wit_ring_at 8 13).
  - cbn. lia.
  - destruct (set_conf_wf vchan_state0 0 0 15 0) as []; [apply vchan_state0_wf|unfold DAO_DMA_MAX_POINTER; lia|]. by split.
  - reflexivity.
  - reflexivity.
  - reflexivity.
  - split; reflexivity.
  - reflexivity.
Defined.

(** A packet of 110 bytes in two segments takes two buffers of 64 bytes. *)
Definition swit_seg (pl dl nx : Z) : rte_mbuf := set_next nx (set_lens 2 pl dl (swit_pkt 40)).
Definition swit_chain : mbufs := <[swit_pp 0 := swit_seg 110 90 (swit_pp 1)]> (<[swit_pp 1 := swit_seg 20 20 0]> ∅).
Definition swit_ev : enq_vars := Build_enq_vars 0 0 0 0 6 8.


Lemma flush_enq_frees_witness :
  exists calls m', virtio_net_flush_enq (set_last_off (ring_enc 8 10) wit_wq) 0 (seqZ 100 8) (<[11 := ring_enc 8 6]> (<[12 := 4]> ∅)) =
    Ret (calls, m') /\ concat (freed <$> calls) = [106; 107; 100; 101].
Proof.
  destruct (flush_enq_frees (set_last_off (ring_enc 8 10) wit_wq) 0 (seqZ 100 8) (<[11 := ring_enc 8 6]> (<[12 := 4]> ∅)) 6 10 4)
    as (calls & m' & E & _ & Hf).
  - destruct wit_queue_ok. by split.
  - by vm_compute.
  - reflexivity.
  - lia.
  - cbn. lia.
  - discriminate.
  - reflexivity.
  - reflexivity.
  - exists calls, m'. split; [exact E|]. by apply Hf.
Defined.

(** The count and the new [last_off] of a call that returns. *)
Definition sent_result {D} (r : cres (Z * worker_queue * estate D)) : option (Z * Z) :=
  match r with Ret (k, q, _) => Some (k, wq_last_off q) | _ => None end.

(** With [ENQ_MSEG] more descriptors may be used than are free: the vector
    loop does not count the ones it uses. Of a ring with five free
    descriptors, from 8 to 13, four packets that fit and one of 100 bytes take
    six, and [last_off] passes [sd_desc_off]. *)
Theorem mseg_uses_busy_descriptor :
  sent_result (virtio_net_enq false swit_addr swit_hr swit_q (swit_pp <$> seqZ 0 5) 5 ENQ_MSEG
      (swit_st 13 (<[swit_pp 4 := swit_pkt 100]> swit_bufs) wit_chan)) = Some (5, ring_enc 8 14).
Proof. vm_compute. reflexivity. Qed.
