(* ===== verification/VirtioNetExt.v ===== *)
(** * Packet paths on buffers of the application
      (lib/virtio_net/virtio_net_deq_ext.c and virtio_net_enq_ext.c)

    Instead of packet buffers of a pool, a queue may hold buffers the
    application allocates and frees with callbacks. A buffer starts with two
    words that describe its data, and the virtio header the data follows; the
    application reads and writes the header itself. Copies are tracked by the
    index of the last operation of a burst instead of completion records. *)
From stdpp Require Import base option list numbers gmap functions.
From S2P Require Import Prelude Rte VirtioRing Dma VirtioNetDesc Neon VirtioNetDeq VirtioNetEnq.

Local Open Scope Z_scope.

(** [struct dao_virtio_net_hdr]: [desc_data] and, of [hdr], [num_buffers]. *)
Record extbuf := { desc_data0 : Z; desc_data1 : Z; num_buffers : Z }.
Notation extbufs := (gmap Z extbuf).

(** [&buf->hdr] *)
Definition buf_hdr (buf : Z) : Z := u64 (buf + 16).

Definition ext_at (b : extbufs) (p : Z) : cres extbuf :=
  match b !! p with Some x => Ret x | None => Fault end.

Definition ext_upd (p : Z) (f : extbuf -> extbuf) (b : extbufs) : cres extbufs :=
  x ← ext_at b p; Ret (<[p := f x]> b).

Definition set_desc (d0 d1 : Z) (x : extbuf) : extbuf :=
  {| desc_data0 := d0; desc_data1 := d1; num_buffers := num_buffers x |}.
Definition set_desc0 (d0 : Z) (x : extbuf) : extbuf := set_desc d0 (desc_data1 x) x.

(** What the worker changes; [x_idx] is [pend_sd_mbuf_idx]. *)
Record xstate (D P : Type) := {
  x_cells : store;
  x_idx : Z;
  x_words : store;
  x_bufs : extbufs;
  x_arr : list Z;
  x_pool : P;
  x_chan : dao_dma_vchan_state;
  x_dev : D;
}.
Arguments x_cells {_ _}. Arguments x_idx {_ _}. Arguments x_words {_ _}. Arguments x_bufs {_ _}.
Arguments x_arr {_ _}. Arguments x_pool {_ _}. Arguments x_chan {_ _}. Arguments x_dev {_ _}.
Arguments Build_xstate {_ _}.

Definition xput_cells {D P} (m : store) (i : Z) (s : xstate D P) :=
  Build_xstate m i (x_words s) (x_bufs s) (x_arr s) (x_pool s) (x_chan s) (x_dev s).
Definition xput_ring {D P} (w : store) (arr : list Z) (s : xstate D P) :=
  Build_xstate (x_cells s) (x_idx s) w (x_bufs s) arr (x_pool s) (x_chan s) (x_dev s).
Definition xput_bufs {D P} (b : extbufs) (p : P) (s : xstate D P) :=
  Build_xstate (x_cells s) (x_idx s) (x_words s) b (x_arr s) p (x_chan s) (x_dev s).
Definition xput_dma {D P} (v : dao_dma_vchan_state) (d : D) (s : xstate D P) :=
  Build_xstate (x_cells s) (x_idx s) (x_words s) (x_bufs s) (x_arr s) (x_pool s) v d.

Section ext.
Context (DAO_DMA_STATS : bool).
Context {D P : Type} `{RteDma D} `{BufAlloc P}.
(** [q->netdev_id] *)
Context (netdev_id : Z).
Notation st := (xstate D P).

Definition xs_flush (avail : Z) (s : st) : bool * st :=
  let '(ok, v, d) := dao_dma_flush DAO_DMA_STATS (x_chan s) avail (x_dev s) in (ok, xput_dma v d s).

(** ** virtio_net_deq_ext *)

(** [user_cbs.extbuf_get(netdev_id, &n_buf, 1)]; the return value is not
    looked at, and a failure leaves [n_buf] as it is. *)
Definition get_n_buf (n_buf : option Z) (p : P) : option Z * P :=
  match extbuf_get netdev_id 1 p with
  | (Some l, p) => (l !! 0%nat, p)
  | (None, p) => (n_buf, p)
  end.

(** [while (pend)] *)
Fixpoint ext_segs (fuel : nat) (q : worker_queue) (buf pend : Z) (n_buf : option Z) (s : st) : cres (option Z * st) :=
  if pend =? 0 then Ret (n_buf, s)
  else
    match fuel with
    | O => Fault
    | S fuel =>
        let '(n_buf, p) := get_n_buf n_buf (x_pool s) in
        match n_buf with
        | None => Fault
        | Some n =>
            let dlen := if wq_buf_len q <? pend then wq_buf_len q else pend in
            b ← ext_upd n (set_desc 0 dlen) (x_bufs s);
            b ← ext_upd buf (set_desc0 n) b;
            v ← dao_dma_enq_dst_x1 (x_chan s) (buf_hdr n) dlen;
            ext_segs fuel q n (pend - dlen) (Some n) (xput_dma v (x_dev s) (xput_bufs b p s))
        end
    end.

(** [src[0]] and [dst[0]] of [dao_dma_sge_src] and [dao_dma_sge_dst]: the
    first free elements, which are filled before they are counted. *)
Definition sge_fill (v : dao_dma_vchan_state) (saddr slen daddr dlen : Z) : cres dao_dma_vchan_state :=
  srcs ← cset (src v) (src_i v) {| sge_addr := saddr; sge_length := slen |};
  dsts ← cset (dst v) (dst_i v) {| sge_addr := daddr; sge_length := dlen |};
  Ret (set_pending v srcs dsts (src_i v) (dst_i v)).

Definition sge_count (v : dao_dma_vchan_state) : dao_dma_vchan_state :=
  set_pending v (src v) (dst v) (u16 (src_i v + 1)) (u16 (dst_i v + 1)).

(** The body of [while (i < nb_bufs)] up to the flush. *)
Definition ext_fetch_x1 (q : worker_queue) (flags off : Z) (n_buf : option Z) (s : st) : cres (option Z * st) :=
  buf ← cget (x_arr s) off;
  let base := wq_sd_desc_base q in
  d_flags ← mload (x_words s) (DESC_PTR_OFF base off 8);
  let slen := Z.land d_flags (u64 (RTE_BIT64 32 - 1)) in
  let avail := b2z (negb (Z.land d_flags F_AVAIL =? 0)) in
  let d_flags := if has_flag flags DEQ_NOINOR
                 then Z.land d_flags (u64 (Z.lnot (Z.lor F_AVAIL F_USED))) else d_flags in
  w ← (if has_flag flags DEQ_NOINOR
       then mstore (x_words s) (DESC_PTR_OFF base off 8)
              (Z.lor (Z.lor (u64 (Z.shiftl avail 55)) (u64 (Z.shiftl avail 63))) d_flags)
       else Ret (x_words s));
  let long := wq_buf_len q <? slen in
  let pend := if long then slen - wq_buf_len q else 0 in
  let dlen := if long then wq_buf_len q else slen in
  addr ← mload w (DESC_PTR_OFF base off 0);
  v ← sge_fill (x_chan s) addr slen (buf_hdr buf) dlen;
  b ← ext_upd buf (set_desc 0 (Z.lor dlen (Z.land d_flags 0xFFFF000000000000))) (x_bufs s);
  '(n_buf, s) ← ext_segs SEG_FUEL q buf pend n_buf
                  (xput_dma v (x_dev s) (xput_bufs b (x_pool s) (xput_ring w (x_arr s) s)));
  Ret (n_buf, xput_dma (sge_count (x_chan s)) (x_dev s) s).

(** [i], [off], [last_idx] and [n_buf] *)
Record xfetch_vars := { xf_i : Z; xf_off : Z; xf_last_idx : Z; xf_n_buf : option Z }.

Fixpoint ext_fetch_loop (n : nat) (q : worker_queue) (flags : Z) (fv : xfetch_vars) (s : st) : cres (xfetch_vars * st) :=
  match n with
  | O => Ret (fv, s)
  | S n =>
      '(n_buf, s) ← ext_fetch_x1 q flags (xf_off fv) (xf_n_buf fv) s;
      let fv := {| xf_i := xf_i fv + 1; xf_off := u16 (Z.land (xf_off fv + 1) (wq_sz q - 1));
                   xf_last_idx := tail (x_chan s); xf_n_buf := n_buf |} in
      let '(ok, s) := xs_flush 1 s in
      if negb ok then Ret (fv, s) else ext_fetch_loop n q flags fv s
  end.

(** [exit:] *)
Definition ext_fetch_exit (q : worker_queue) (fv : xfetch_vars) (s : st) : cres st :=
  let used := u16 (xf_i fv) in
  if used =? 0 then Ret s
  else
    m ← mstore (x_cells s) (wq_pend_sd_mbuf_p q) used;
    Ret (xput_cells m (u16 (xf_last_idx fv)) s).

Definition ext_fetch_host_data (q : worker_queue) (hint flags : Z) (s : st) : cres (Z * st) :=
  pend ← mload (x_cells s) (wq_pend_sd_mbuf_p q);
  sd_mbuf_off ← mload (x_cells s) (wq_sd_mbuf_off_p q);
  let compl := negb (pend =? 0) && dao_dma_op_status (x_chan s) (x_idx s) in
  let sd_mbuf_off := if compl then desc_off_add sd_mbuf_off pend (wq_sz q) else sd_mbuf_off in
  m ← (if compl
       then m ← mstore (x_cells s) (wq_sd_mbuf_off_p q) sd_mbuf_off; mstore m (wq_pend_sd_mbuf_p q) 0
       else Ret (x_cells s));
  let pend := if compl then 0 else pend in
  let s := xput_cells m (x_idx s) s in
  sd_desc_off ← mload (x_cells s) (wq_sd_desc_off_p q);
  if negb (pend =? 0) || (sd_desc_off =? sd_mbuf_off) then Ret (sd_mbuf_off, s)
  else
    let nb_bufs := RTE_MIN (desc_off_diff sd_desc_off sd_mbuf_off (wq_sz q)) hint in
    let '(ok, s) := xs_flush 1 s in
    if negb ok then Ret (sd_mbuf_off, s)
    else
      let fv := {| xf_i := 0; xf_off := u16 (DESC_OFF sd_mbuf_off); xf_last_idx := 0; xf_n_buf := None |} in
      '(fv, s) ← ext_fetch_loop (Z.to_nat nb_bufs) q flags fv s;
      s ← ext_fetch_exit q fv s;
      Ret (sd_mbuf_off, s).

Definition virtio_net_deq_ext (q : worker_queue) (nb_bufs flags : Z) (s : st) : cres (list Z * worker_queue * st) :=
  let '(v, d) := dao_dma_check_compl (x_chan s) (x_dev s) in
  '(sd_mbuf_off, s) ← ext_fetch_host_data q 256 flags (xput_dma v d s);
  let nb_avail := u16 (desc_off_diff_no_wrap sd_mbuf_off (wq_last_off q) (wq_sz q)) in
  if nb_avail =? 0 then Ret ([], q, s)
  else
    let nb_bufs := u16 (RTE_MIN nb_bufs nb_avail) in
    vbufs ← read_seg (x_arr s) (DESC_OFF (wq_last_off q)) nb_bufs;
    Ret (vbufs, set_last_off (desc_off_add (wq_last_off q) nb_bufs (wq_sz q)) q, s).

(** ** virtio_net_enq_ext *)

(** [int16_t] *)
Definition i16 (x : Z) : Z := let r := u16 x in if r <? 0x8000 then r else r - 0x10000.

(** The body of [while (i < nb_bufs)] up to the flush. *)
Definition ext_enq_x1 (q : worker_queue) (l : list Z) (i off : Z) (s : st) : cres (Z * st) :=
  dhdr ← cget l i;
  x ← ext_at (x_bufs s) dhdr;
  let data_off := i16 (Z.land (desc_data0 x) 0xFFFF) in
  let base := wq_sd_desc_base q in
  d_flags ← mload (x_words s) (DESC_PTR_OFF base off 8);
  let buf_len := Z.land d_flags (u64 (RTE_BIT64 32 - 1)) in
  let len := Z.land (desc_data1 x) 0xFFFFFFFF in
  let len := if buf_len <? len then buf_len else len in
  w ← mstore (x_words s) (DESC_PTR_OFF base off 8) (used_len_word d_flags len);
  arr ← cset (x_arr s) off (u64 (dhdr + data_off));
  addr ← mload w (DESC_PTR_OFF base off 0);
  v ← dao_dma_enq_x1 (x_chan s) (buf_hdr dhdr) len addr len;
  Ret (num_buffers x, xput_dma v (x_dev s) (xput_ring w arr s)).

(** [i], [off], [used] and [last_idx] *)
Record xenq_vars := { xe_i : Z; xe_off : Z; xe_used : Z; xe_last_idx : Z }.

Fixpoint ext_enq_loop (n : nat) (q : worker_queue) (l : list Z) (ev : xenq_vars) (s : st) : cres (xenq_vars * st) :=
  match n with
  | O => Ret (ev, s)
  | S n =>
      '(num, s) ← ext_enq_x1 q l (xe_i ev) (xe_off ev) s;
      let ev := {| xe_i := u16 (xe_i ev + 1); xe_off := u16 (Z.land (xe_off ev + 1) (wq_sz q - 1));
                   xe_used := u16 (xe_used ev + num); xe_last_idx := tail (x_chan s) |} in
      let '(ok, s) := xs_flush 1 s in
      if negb ok then Ret (ev, s) else ext_enq_loop n q l ev s
  end.

Definition push_enq_ext_data (q : worker_queue) (l : list Z) (nb_bufs : Z) (s : st) : cres (Z * worker_queue * st) :=
  let '(ok, s) := xs_flush 1 s in
  if negb ok then Ret (0, q, s)
  else
    '(ev, s) ← ext_enq_loop (Z.to_nat nb_bufs) q l
                 {| xe_i := 0; xe_off := u16 (DESC_OFF (wq_last_off q)); xe_used := 0; xe_last_idx := 0 |} s;
    if xe_used ev =? 0 then Ret (xe_i ev, q, s)
    else
      pend ← mload (x_cells s) (wq_pend_sd_mbuf_p q);
      m ← mstore (x_cells s) (wq_pend_sd_mbuf_p q) (u16 (pend + xe_used ev));
      Ret (xe_i ev, set_last_off (desc_off_add (wq_last_off q) (xe_used ev) (wq_sz q)) q,
           xput_cells m (xe_last_idx ev) s).

Definition process_enq_compl (q : worker_queue) (s : st) : cres st :=
  sd_mbuf_off ← mload (x_cells s) (wq_sd_mbuf_off_p q);
  if negb (sd_mbuf_off =? wq_last_off q) && dao_dma_op_status (x_chan s) (x_idx s) then
    m ← mstore (x_cells s) (wq_sd_mbuf_off_p q) (wq_last_off q);
    m ← mstore m (wq_pend_sd_mbuf_p q) 0;
    Ret (xput_cells m (x_idx s) s)
  else Ret s.

Definition virtio_net_enq_ext (q : worker_queue) (l : list Z) (nb_bufs : Z) (s : st) : cres (Z * worker_queue * st) :=
  let '(v, d) := dao_dma_check_compl (x_chan s) (x_dev s) in
  s ← process_enq_compl q (xput_dma v d s);
  sd_desc_off ← mload (x_cells s) (wq_sd_desc_off_p q);
  pend ← mload (x_cells s) (wq_pend_sd_mbuf_p q);
  let count := u16 (desc_off_diff sd_desc_off (wq_last_off q) (wq_sz q)) in
  let count := RTE_MIN count nb_bufs in
  let count := u16 (RTE_MIN count (wq_sz q - pend)) in
  if count =? 0 then Ret (0, q, s) else push_enq_ext_data q l count s.

(** ** The queue goes away *)
Definition virtio_net_flush_deq_ext (q : worker_queue) (arr : list Z) (m : store) : cres (list free_call * store) :=
  pend ← mload m (wq_pend_sd_mbuf_p q);
  sd_mbuf_off ← mload m (wq_sd_mbuf_off_p q);
  sd_desc_off ← mload m (wq_sd_desc_off_p q);
  if (pend =? 0) || (sd_desc_off =? sd_mbuf_off) then Ret ([], m)
  else
    let sd_mbuf_off := desc_off_add sd_mbuf_off pend (wq_sz q) in
    m ← mstore m (wq_sd_mbuf_off_p q) sd_mbuf_off;
    m ← mstore m (wq_pend_sd_mbuf_p q) 0;
    let nb_avail := desc_off_diff_no_wrap sd_mbuf_off (wq_last_off q) (wq_sz q) in
    if nb_avail =? 0 then Ret ([], m)
    else
      l1 ← read_seg arr (DESC_OFF (wq_last_off q)) nb_avail;
      let last_off := desc_off_add (wq_last_off q) nb_avail (wq_sz q) in
      let nb_avail := u32 (sd_mbuf_off - last_off) in
      if nb_avail =? 0 then Ret ([extbuf_put netdev_id l1], m)
      else
        l2 ← read_seg arr (DESC_OFF last_off) nb_avail;
        Ret ([extbuf_put netdev_id l1; extbuf_put netdev_id l2], m).

Definition virtio_net_flush_enq_ext (q : worker_queue) (auto_free : Z) (arr : list Z) (m : store) : cres (list free_call * store) :=
  sd_mbuf_off ← mload m (wq_sd_mbuf_off_p q);
  let last_off := wq_last_off q in
  if negb (auto_free =? 0) || (sd_mbuf_off =? last_off) then Ret ([], m)
  else
    let pend := desc_off_diff_no_wrap last_off sd_mbuf_off (wq_sz q) in
    l1 ← read_seg arr (DESC_OFF sd_mbuf_off) pend;
    let off := desc_off_add sd_mbuf_off pend (wq_sz q) in
    let pend := u16 (last_off - off) in
    l2 ← (if pend =? 0 then Ret [] else read_seg arr (DESC_OFF off) pend);
    let off := if pend =? 0 then off else desc_off_add off pend (wq_sz q) in
    m ← mstore m (wq_sd_mbuf_off_p q) off;
    m ← mstore m (wq_pend_sd_mbuf_p q) 0;
    Ret (extbuf_put netdev_id l1 :: (if pend =? 0 then [] else [extbuf_put netdev_id l2]), m).
End ext.

(** ** Elements filled before they are counted *)

Lemma sge_fill_count v s sl d dl : vchan_wf v -> src_i v < DAO_DMA_MAX_POINTER -> dst_i v < DAO_DMA_MAX_POINTER ->
  exists v1, sge_fill v s sl d dl = Ret v1 /\ dao_dma_enq_x1 v s sl d dl = Ret (sge_count v1).
Proof.
  intros [] Hs Hd. unfold DAO_DMA_MAX_POINTER in *. unfold sge_fill, dao_dma_enq_x1. rewrite !cset_in_range by lia.
  cbn. eexists. done.
Qed.

(** ** Receiving into buffers of the application *)

(** The second word of a buffer with the data of a descriptor with word [x]:
    the length, and the flags and id of the descriptor. *)
Definition ext_word (flags x : Z) : Z :=
  Z.lor (desc_len x) (Z.land (if has_flag flags DEQ_NOINOR
                              then Z.land x (u64 (Z.lnot (Z.lor F_AVAIL F_USED))) else x) 0xFFFF000000000000).

Lemma ext_segs_none {D P} `{RteDma D} `{BufAlloc P} id fuel q buf nb (s : xstate D P) :
  ext_segs id fuel q buf 0 nb s = Ret (nb, s).
Proof. by destruct fuel. Qed.

Lemma seqZ_snoc_fmap {A} (f : Z -> A) a k : 0 <= k -> f <$> seqZ a (k + 1) = (f <$> seqZ a k) ++ [f (a + k)].
Proof. intros Hk. by rewrite seqZ_app, fmap_app by lia. Qed.

Section xfetching.
Context (stats : bool) {D P : Type} `{RteDmaLaws D} `{BufAlloc P} (netdev_id : Z).
Context (q : worker_queue) (Hq : queue_ok q) (flags from to : Z) (addr meta : Z -> Z).

(** The descriptors [from <= c < to] are complete and each fits its buffer. *)
Record xfetchable : Prop := {
  xf_range : from <= to <= from + wq_sz q;
  xf_meta c : from <= c < to -> is_u64 (meta c);
  xf_len c : from <= c < to -> desc_len (meta c) <= wq_buf_len q;
  xf_distinct c c' : from <= c < to -> from <= c' < to -> ring_buf q c = ring_buf q c' -> c = c';
}.
Context (Hf : xfetchable).

Definition xdst (c : Z) : rte_dma_sge := {| sge_addr := buf_hdr (ring_buf q c); sge_length := desc_len (meta c) |}.

(** The words with the first [k] descriptors taken. *)
Definition taken (k c : Z) : Z := if bool_decide (c < from + k) then fetched_word flags (meta c) else meta c.

(** [k] descriptors have been taken since state [s0]. *)
Record xfetching (s0 : xstate D P) (k : Z) (s : xstate D P) : Prop := {
  xi_k : 0 <= k <= to - from;
  xi_cells : x_cells s = x_cells s0 /\ x_idx s = x_idx s0 /\ x_arr s = x_arr s0 /\ x_pool s = x_pool s0;
  xi_words : ring_at q from to addr (taken k) (x_words s);
  xi_words_out p : (forall c, from <= c < to -> p <> desc_pos q c + 8) -> x_words s !! p = x_words s0 !! p;
  xi_bufs c : from <= c < from + k -> x_bufs s !! ring_buf q c = set_desc 0 (ext_word flags (meta c)) <$> x_bufs s0 !! ring_buf q c;
  xi_bufs_out p : (forall c, from <= c < from + k -> p <> ring_buf q c) -> x_bufs s !! p = x_bufs s0 !! p;
  xi_src : src_stream (x_dev s) (x_chan s) = src_stream (x_dev s0) (x_chan s0) ++ (src_elem addr meta <$> seqZ from k);
  xi_dst : dst_stream (x_dev s) (x_chan s) = dst_stream (x_dev s0) (x_chan s0) ++ (xdst <$> seqZ from k);
  xi_wf : vchan_wf (x_chan s);
  xi_sync : src_i (x_chan s) = dst_i (x_chan s);
  xi_thr : flush_thr (x_chan s) = flush_thr (x_chan s0);
}.

Lemma xs_flush_step s0 k s avail b s' : xfetching s0 k s -> xs_flush stats avail s = (b, s') ->
  xfetching s0 k s' /\
  (b = true -> src_i (x_chan s') = 0 \/ src_i (x_chan s') + u8 avail <= flush_thr (x_chan s0)) /\
  (forall idx, last_in idx (x_chan s) -> last_in idx (x_chan s')) /\
  (forall R, willing R -> R (x_dev s) -> b = true /\ R (x_dev s')).
Proof.
  intros [Hk Hc Hw Hwo Hb Hbo S1 S2 Hwf Hsy Ht]. unfold xs_flush.
  destruct (dao_dma_flush stats (x_chan s) avail (x_dev s)) as [[b1 v1] d1] eqn:Ef. intros [= <- <-].
  destruct (flush_spec stats _ _ _ _ _ _ Hwf Ef) as (Hwf1 & F1 & F2 & (_ & _ & T1 & _ & _) & Hi & Hroom). split_and!.
  - split; cbn [x_cells x_idx x_words x_bufs x_arr x_pool x_chan x_dev xput_dma]; try done; try congruence. lia.
  - intros ->. rewrite <- Ht. by apply Hroom.
  - intros idx Hl. cbn. by apply (flush_last_in stats (x_chan s) avail (x_dev s) b1 v1 d1 idx).
  - intros R HR HRd. by apply (flush_willing stats R _ _ _ _ _ _ HR HRd Ef).
Qed.

(** [d_flags] after the mark. *)
Definition kept_flags (x : Z) : Z :=
  if has_flag flags DEQ_NOINOR then Z.land x (u64 (Z.lnot (Z.lor F_AVAIL F_USED))) else x.

Lemma ext_mark w0 k : ring_at q from to addr (taken k) w0 -> 0 <= k < to - from ->
  let x := meta (from + k) in let a := b2z (negb (Z.land x F_AVAIL =? 0)) in
  exists w, (if has_flag flags DEQ_NOINOR
     then mstore w0 (desc_pos q (from + k) + 8) (Z.lor (Z.lor (u64 (Z.shiftl a 55)) (u64 (Z.shiftl a 63))) (kept_flags x))
     else Ret w0) = Ret w /\
    ring_at q from to addr (taken (k + 1)) w /\ (forall p, p <> desc_pos q (from + k) + 8 -> w !! p = w0 !! p).
Proof.
  intros Hr Hk x a. subst x a. pose proof (xf_range Hf). pose proof (xf_meta Hf (from + k) ltac:(lia)) as Hu.
  assert (forall w x, ring_at q from to addr x w -> (forall c, from <= c < to -> x c = taken (k + 1) c) ->
    ring_at q from to addr (taken (k + 1)) w) as Hext.
  { intros w x Hx He c Hc. destruct (Hx c Hc) as [Ha Hb]. by rewrite <- He. }
  assert (forall c, c <> from + k -> taken (k + 1) c = taken k c) as Hne.
  { intros c Hc. unfold taken. destruct (bool_decide_reflect (c < from + (k + 1))), (bool_decide_reflect (c < from + k)); lia || done. }
  assert (taken (k + 1) (from + k) = fetched_word flags (meta (from + k))) as He.
  { unfold taken. by rewrite bool_decide_true by lia. }
  assert (taken k (from + k) = meta (from + k)) as He0 by (unfold taken; by rewrite bool_decide_false by lia).
  unfold fetched_word in He. unfold kept_flags. destruct (has_flag flags DEQ_NOINOR).
  1: rewrite used_word_scalar by done.
  - destruct (st_meta q Hq from to addr (taken k) w0 (from + k) (used_word (meta (from + k))) Hr) as (w & E & Hr' & Ho); [lia..|].
    exists w. split; [done|]. split; [|done]. apply (Hext w _ Hr'). intros c Hc.
    destruct (decide (c = from + k)) as [->|]; [by rewrite fn_lookup_insert|]. rewrite fn_lookup_insert_ne by done. by rewrite Hne.
  - exists w0. split; [done|]. split; [|done]. apply (Hext w0 _ Hr). intros c Hc.
    destruct (decide (c = from + k)) as [->|]; [congruence|]. by rewrite Hne.
Qed.

Lemma ext_fetch_x1_step s0 k s nb : xfetching s0 k s -> k + 1 <= to - from -> x_arr s0 = wq_mbuf_arr q ->
  is_Some (x_bufs s0 !! ring_buf q (from + k)) -> src_i (x_chan s) < DAO_DMA_MAX_POINTER ->
  exists s', ext_fetch_x1 netdev_id q flags ((from + k) mod wq_sz q) nb s = Ret (nb, s') /\
    xfetching s0 (k + 1) s' /\ src_i (x_chan s') = src_i (x_chan s) + 1 /\ x_dev s' = x_dev s.
Proof.
  intros [Hk Hc Hw Hwo Hb Hbo S1 S2 Hwf Hsy Ht] Hroom Harr Hbuf Hfree. destruct Hc as (C1 & C2 & C3 & C4).
  set (c := from + k) in *. assert (from <= c < to) as Hcr by lia.
  assert (taken k c = meta c) as He0 by (unfold taken; by rewrite bool_decide_false by lia).
  destruct (Hw c Hcr) as [Ha Hx]. rewrite He0 in Hx. pose proof (xf_meta Hf c Hcr) as Hu. pose proof (xf_len Hf c Hcr) as Hlen.
  unfold ext_fetch_x1. rewrite C3, Harr, (get_buf q Hq). cbn [mbind cres_mbind]. rewrite !(pos_ptr q Hq) by done.
  rewrite (mload_ret _ _ _ Hx). cbn [mbind cres_mbind].
  change (Z.land (meta c) (u64 (RTE_BIT64 32 - 1))) with (desc_len (meta c)).
  destruct (ext_mark (x_words s) k Hw) as (w & Em & Hr' & Ho); [lia|]. fold c in Em, Ho.
  unfold kept_flags in Em. rewrite Em.
  cbn [mbind cres_mbind]. destruct (Hr' c Hcr) as [Ha' _]. rewrite Z.add_0_r, (mload_ret _ _ _ Ha'). cbn [mbind cres_mbind].
  rewrite !(proj2 (Z.ltb_ge (wq_buf_len q) _)) by done.
  destruct (sge_fill_count (x_chan s) (addr c) (desc_len (meta c)) (buf_hdr (ring_buf q c)) (desc_len (meta c)) Hwf) as (v1 & -> & E1);
    [done|by rewrite <- Hsy|]. cbn [mbind cres_mbind].
  assert (forall c', from <= c' < from + k -> ring_buf q c' <> ring_buf q c) as Hother.
  { intros c' Hc' He. apply (xf_distinct Hf) in He; lia. }
  destruct Hbuf as [b0 Hb0]. assert (x_bufs s !! ring_buf q c = Some b0) as Hb1.
  { rewrite Hbo; [done|]. intros c' Hc' He. by apply (Hother c' Hc'). }
  unfold ext_upd, ext_at. rewrite Hb1. cbn [mbind cres_mbind]. rewrite ext_segs_none. cbn [mbind cres_mbind].
  destruct (enq_x1_spec (x_chan s) (addr c) (desc_len (meta c)) (buf_hdr (ring_buf q c)) (desc_len (meta c)))
    as (v & E & Hwf' & Hs' & Hd' & P1 & P2 & (D1 & D2 & T1 & _ & _ & _)); [done|done|by rewrite <- Hsy|].
  rewrite E1 in E. injection E as <-. eexists. split; [done|]. split; [|by split].
  split; cbn [x_cells x_idx x_words x_bufs x_arr x_pool x_chan x_dev xput_dma xput_bufs xput_ring]; try done; try congruence.
  - lia.
  - intros p Hp. rewrite Ho by (apply Hp; lia). by apply Hwo.
  - intros c' Hc'. destruct (decide (c' = c)) as [->|].
    + by rewrite lookup_insert_eq, Hb0.
    + rewrite lookup_insert_ne by (apply not_eq_sym, Hother; lia). apply Hb. lia.
  - intros p Hp. rewrite lookup_insert_ne by (apply not_eq_sym, Hp; lia). apply Hbo. intros c' Hc'. apply Hp. lia.
  - unfold src_stream in *. rewrite P1, D1, D2, app_assoc, S1, <- app_assoc. f_equal. rewrite seqZ_snoc_fmap by lia. done.
  - unfold dst_stream in *. rewrite P2, D1, D2, app_assoc, S2, <- app_assoc. f_equal. rewrite seqZ_snoc_fmap by lia. done.
Qed.

(** The variables of the loop after [k] descriptors. *)
Definition xvars_at (k : Z) (fv : xfetch_vars) (s : xstate D P) : Prop :=
  xf_i fv = k /\ xf_off fv = (from + k) mod wq_sz q /\
  (0 < k -> last_in (xf_last_idx fv) (x_chan s) /\ is_u16 (xf_last_idx fv)).

Lemma ext_fetch_loop_spec s0 : 1 <= flush_thr (x_chan s0) -> x_arr s0 = wq_mbuf_arr q ->
  (forall c, from <= c < to -> is_Some (x_bufs s0 !! ring_buf q c)) ->
  forall n k s fv, xfetching s0 k s -> xvars_at k fv s -> k + Z.of_nat n <= to - from ->
  src_i (x_chan s) = 0 \/ src_i (x_chan s) + 1 <= flush_thr (x_chan s0) ->
  exists fv' s' k', ext_fetch_loop stats netdev_id n q flags fv s = Ret (fv', s') /\
    k <= k' <= k + Z.of_nat n /\ xfetching s0 k' s' /\ xvars_at k' fv' s' /\
    (forall R, willing R -> R (x_dev s) -> k' = k + Z.of_nat n).
Proof.
  intros Hthr Harr Hbuf. induction n as [|n IH]; intros k s fv Hfi Hv Hroom Hfree; cbn [ext_fetch_loop].
  { exists fv, s, k. split; [done|]. split; [lia|]. split; [done|]. split; [done|]. intros. lia. }
  destruct Hv as (Hi & Ho & Hl). rewrite Ho. pose proof (xi_k _ _ _ Hfi). pose proof (wf_flush_thr _ (xi_wf _ _ _ Hfi)).
  rewrite (xi_thr _ _ _ Hfi) in *. pose proof (wf_src_i _ (xi_wf _ _ _ Hfi)).
  destruct (ext_fetch_x1_step s0 k s (xf_n_buf fv) Hfi) as (s1 & -> & Hfi1 & Hsrc & Hdev);
    [lia|done|apply Hbuf; lia|unfold DAO_DMA_MAX_POINTER in *; lia|].
  cbn [mbind cres_mbind]. destruct (xs_flush stats 1 s1) as [b s2] eqn:Ef.
  destruct (xs_flush_step s0 (k + 1) s1 1 b s2 Hfi1 Ef) as (Hfi2 & Hb & Hl2 & HR2).
  set (fv1 := Build_xfetch_vars _ _ _ _).
  assert (xvars_at (k + 1) fv1 s2) as Hv1.
  { split_and!; [cbn; lia|cbn; rewrite (pos_wrap q Hq) by lia; f_equal; lia|]. intros _. cbn.
    split; [apply Hl2; left; split; [lia|done]|]. apply (wf_tail _ (xi_wf _ _ _ Hfi1)). }
  destruct b; cbn [negb].
  - destruct (IH (k + 1) s2 fv1 Hfi2 Hv1) as (fv2 & s3 & k2 & E & Hk2 & Hfi3 & Hv2 & HR3); [lia|by apply Hb|].
    exists fv2, s3, k2. split; [done|]. split; [lia|]. split; [done|]. split; [done|].
    intros R HR HRd. rewrite (HR3 R HR); [lia|]. apply HR2; [done|]. by rewrite Hdev.
  - exists fv1, s2, (k + 1). split; [done|]. split; [lia|]. split; [done|]. split; [done|].
    intros R HR HRd. destruct (HR2 R HR) as [? _]; [by rewrite Hdev|done].
Qed.
End xfetching.

(** What a fetch of [k] descriptors from [M] on leaves; none is in flight
    before it. *)
Record xfetch_post {D P} `{RteDmaLaws D} (q : worker_queue) (flags M to : Z) (addr x : Z -> Z) (k : Z)
    (s s' : xstate D P) : Prop := {
  xp_src : src_stream (x_dev s') (x_chan s') = src_stream (x_dev s) (x_chan s) ++ (src_elem addr x <$> seqZ M k);
  xp_dst : dst_stream (x_dev s') (x_chan s') = dst_stream (x_dev s) (x_chan s) ++ (xdst q x <$> seqZ M k);
  xp_arr : x_arr s' = x_arr s /\ x_pool s' = x_pool s;
  xp_bufs c : M <= c < M + k -> x_bufs s' !! ring_buf q c = set_desc 0 (ext_word flags (x c)) <$> x_bufs s !! ring_buf q c;
  xp_bufs_out p : (forall c, M <= c < M + k -> p <> ring_buf q c) -> x_bufs s' !! p = x_bufs s !! p;
  xp_words c : M <= c < M + k -> x_words s' !! (desc_pos q c + 8) = Some (fetched_word flags (x c));
  xp_off : x_cells s' !! wq_sd_mbuf_off_p q = Some (ring_enc (wq_sz q) M);
  xp_pend : x_cells s' !! wq_pend_sd_mbuf_p q = Some k;
  xp_idx : 0 < k -> last_in (x_idx s') (x_chan s');
}.

(** [M] descriptors have been copied, [pend] more are in flight, and the ring
    holds descriptors up to [to]. *)
Record xqueue_at (q : worker_queue) (M pend to : Z) (m : store) : Prop := {
  xq_pos : 0 <= M /\ 0 <= pend /\ M + pend <= to /\ to <= M + wq_sz q;
  xq_ptrs : wq_sd_mbuf_off_p q <> wq_pend_sd_mbuf_p q /\ wq_sd_mbuf_off_p q <> wq_sd_desc_off_p q /\
    wq_pend_sd_mbuf_p q <> wq_sd_desc_off_p q;
  xq_mbuf : m !! wq_sd_mbuf_off_p q = Some (ring_enc (wq_sz q) M);
  xq_pend : m !! wq_pend_sd_mbuf_p q = Some pend;
  xq_desc : m !! wq_sd_desc_off_p q = Some (ring_enc (wq_sz q) to);
}.

Section xdeq.
Context (stats : bool) {D P : Type} `{RteDmaLaws D} `{BufAlloc P} (netdev_id : Z).
Context (q : worker_queue) (Hq : queue_ok q) (flags : Z) (addr meta : Z -> Z).

(** With nothing in flight. *)
Lemma ext_fetch_start M to hint s : xqueue_at q M 0 to (x_cells s) -> xfetchable q M to meta -> 0 <= hint < 0x10000 ->
  ring_at q M to addr meta (x_words s) -> (forall c, M <= c < to -> is_Some (x_bufs s !! ring_buf q c)) ->
  x_arr s = wq_mbuf_arr q -> vchan_wf (x_chan s) -> src_i (x_chan s) = dst_i (x_chan s) -> 1 <= flush_thr (x_chan s) ->
  exists k s', ext_fetch_host_data stats netdev_id q hint flags s = Ret (ring_enc (wq_sz q) M, s') /\
    0 <= k <= Z.min (to - M) hint /\ xfetch_post q flags M to addr meta k s s' /\
    (forall R, willing R -> R (x_dev s) -> k = Z.min (to - M) hint).
Proof.
  intros [(HM & _ & Hle & Hto) (Q1 & Q2 & Q3) Qm Qp Qd] Hf Hhint Hr Hb Harr Hwf Hsy Hthr.
  pose proof (wq_sz_bounds q Hq). pose proof (qo_size q Hq) as Hsz.
  assert (xfetching q flags M to addr meta s 0 s) as Hfi0.
  { split; cbn; rewrite ?app_nil_r; try done; try lia. intros c Hc. unfold taken. rewrite bool_decide_false by lia. by apply Hr. }
  assert (forall s', xfetching q flags M to addr meta s 0 s' -> xfetch_post q flags M to addr meta 0 s s') as Hnone.
  { intros s' [_ (C1 & C2 & C3 & C4) _ _ _ Hbo S1 S2 _ _ _]. split; cbn; try done; try lia; try congruence. }
  unfold ext_fetch_host_data. rewrite (mload_ret _ _ _ Qp). cbn [mbind cres_mbind]. rewrite (mload_ret _ _ _ Qm).
  cbn [mbind cres_mbind Z.eqb negb andb orb]. replace (xput_cells (x_cells s) (x_idx s) s) with s by (by destruct s).
  rewrite (mload_ret _ _ _ Qd). cbn [mbind cres_mbind].
  destruct (Z.eqb_spec (ring_enc (wq_sz q) to) (ring_enc (wq_sz q) M)) as [He|He].
  { apply enc_inj in He; [|done|lia]. exists 0, s. split; [done|]. split; [lia|]. split; [by apply Hnone|]. intros. lia. }
  rewrite desc_off_diff_enc by (done || lia). destruct (xs_flush stats 1 s) as [b s1] eqn:Ef.
  destruct (xs_flush_step stats q flags M to addr meta s 0 s 1 b s1 Hfi0 Ef) as (Hfi1 & Hb1 & _ & HR1).
  destruct b; cbn [negb].
  2:{ exists 0, s1. split; [done|]. split; [lia|]. split; [by apply Hnone|]. intros R HR HRd. by destruct (HR1 R HR HRd). }
  rewrite DESC_OFF_enc by done. rewrite u16_id by (pose proof (Z.mod_pos_bound M (wq_sz q)); word).
  unfold RTE_MIN. set (nb := Z.min (to - M) hint). set (fv0 := Build_xfetch_vars _ _ _ _).
  assert (xvars_at q M 0 fv0 s1) as Hv0 by (split_and!; [done|cbn; by rewrite Z.add_0_r|lia]).
  destruct (ext_fetch_loop_spec stats netdev_id q Hq flags M to addr meta Hf s Hthr Harr Hb (Z.to_nat nb) 0 s1 fv0 Hfi1 Hv0)
    as (fv2 & s2 & k & -> & Hk & Hfi2 & (Hi & _ & Hl) & HR2); [lia|by apply Hb1|]. cbn [mbind cres_mbind].
  pose proof Hfi2 as [Hk2 (C1 & C2 & C3 & C4) Hw _ Hbf Hbo S1 S2 Hwf2 _ _].
  unfold ext_fetch_exit. rewrite Hi, (u16_id k) by word. destruct (Z.eqb_spec k 0) as [->|Hne].
  { cbn [mbind cres_mbind]. exists 0, s2. split; [done|]. split; [lia|]. split; [by apply Hnone|].
    intros R HR HRd. rewrite (HR2 R HR); [lia|by apply HR1]. }
  rewrite C1, (mstore_ret _ _ _ _ Qp). cbn [mbind cres_mbind]. destruct Hl as [Hl Hu]; [lia|]. rewrite (u16_id (xf_last_idx fv2)) by done.
  exists k. eexists. split; [done|]. split; [lia|].
  split; [|intros R HR HRd; rewrite (HR2 R HR); [lia|by apply HR1]].
  split; cbn; try done.
  - intros c Hc. destruct (Hw c) as [_ Hx]; [lia|]. unfold taken in Hx. by rewrite bool_decide_true in Hx by lia.
  - by rewrite lookup_insert_ne.
  - by rewrite lookup_insert_eq.
Qed.

(** Copies in flight that are done are accounted for first; while they are
    not, nothing is started. *)
Lemma ext_fetch_done M pend to hint s : xqueue_at q M pend to (x_cells s) -> 0 < pend ->
  dao_dma_op_status (x_chan s) (x_idx s) = true ->
  let m := <[wq_pend_sd_mbuf_p q := 0]> (<[wq_sd_mbuf_off_p q := ring_enc (wq_sz q) (M + pend)]> (x_cells s)) in
  ext_fetch_host_data stats netdev_id q hint flags s =
    ext_fetch_host_data stats netdev_id q hint flags (xput_cells m (x_idx s) s) /\
  xqueue_at q (M + pend) 0 to m.
Proof.
  intros [(HM & Hp & Hle & Hto) (Q1 & Q2 & Q3) Qm Qp Qd] Hpos Hst m. pose proof (wq_sz_bounds q Hq).
  assert (xqueue_at q (M + pend) 0 to m) as Hqa.
  { split; [lia|done|..]; unfold m; repeat (rewrite lookup_insert_eq || rewrite lookup_insert_ne by done); done. }
  split; [|done]. pose proof Hqa as [_ _ Qm' Qp' Qd'].
  unfold ext_fetch_host_data at 1. rewrite (mload_ret _ _ _ Qp). cbn [mbind cres_mbind]. rewrite (mload_ret _ _ _ Qm).
  cbn [mbind cres_mbind]. rewrite (proj2 (Z.eqb_neq pend 0)), Hst by lia. cbn [negb andb].
  rewrite desc_off_add_enc by (apply Hq || lia). rewrite (mstore_ret _ _ _ _ Qm). cbn [mbind cres_mbind].
  rewrite (mstore_ret _ _ pend) by (by rewrite lookup_insert_ne). fold m. cbn [mbind cres_mbind x_cells xput_cells].
  unfold ext_fetch_host_data. cbn [x_cells x_idx x_chan xput_cells]. rewrite (mload_ret _ _ _ Qp'). cbn [mbind cres_mbind].
  rewrite (mload_ret _ _ _ Qm'). cbn [mbind cres_mbind Z.eqb negb andb]. done.
Qed.

Lemma ext_fetch_waits M pend to hint s : xqueue_at q M pend to (x_cells s) -> 0 < pend ->
  dao_dma_op_status (x_chan s) (x_idx s) = false ->
  ext_fetch_host_data stats netdev_id q hint flags s = Ret (ring_enc (wq_sz q) M, s).
Proof.
  intros [_ _ Qm Qp Qd] Hpos Hst. unfold ext_fetch_host_data. rewrite (mload_ret _ _ _ Qp). cbn [mbind cres_mbind].
  rewrite (mload_ret _ _ _ Qm). cbn [mbind cres_mbind]. rewrite Hst, andb_false_r. cbn [mbind cres_mbind x_cells xput_cells].
  rewrite (mload_ret _ _ _ Qd). cbn [mbind cres_mbind]. rewrite (proj2 (Z.eqb_neq pend 0)) by lia. cbn [negb orb].
  by destruct s.
Qed.
End xdeq.

(** A burst of descriptors longer than one buffer. *)
Lemma ext_segs_one {D P} `{RteDma D} `{BufAlloc P} id fuel q buf pend nb n b0 b1 p (s : xstate D P) :
  0 < pend <= wq_buf_len q -> extbuf_get id 1 (x_pool s) = (Some [n], p) -> n <> buf ->
  x_bufs s !! n = Some b1 -> x_bufs s !! buf = Some b0 -> vchan_wf (x_chan s) -> dst_i (x_chan s) < DAO_DMA_MAX_POINTER ->
  exists v b, ext_segs id (S fuel) q buf pend nb s = Ret (Some n, xput_dma v (x_dev s) (xput_bufs b p s)) /\
    dao_dma_enq_dst_x1 (x_chan s) (buf_hdr n) pend = Ret v.
Proof.
  intros Hp Hget Hne Hn Hb Hwf Hd. destruct (enq_dst_spec (x_chan s) (buf_hdr n) pend Hwf Hd) as (v & E & _).
  cbn [ext_segs]. rewrite (proj2 (Z.eqb_neq pend 0)) by lia.
  unfold get_n_buf. rewrite Hget. cbn [lookup list_lookup]. rewrite (proj2 (Z.ltb_ge (wq_buf_len q) pend)) by lia.
  unfold ext_upd, ext_at. rewrite Hn. cbn [mbind cres_mbind]. rewrite lookup_insert_ne, Hb by done. cbn [mbind cres_mbind].
  rewrite E. cbn [mbind cres_mbind]. rewrite Z.sub_diag, ext_segs_none. by do 2 eexists.
Qed.

(** ** Sending buffers of the application *)

Section xsending.
Context (stats : bool) {D P : Type} `{RteDmaLaws D}.
Context (q : worker_queue) (Hq : queue_ok q) (from n : Z) (addr meta : Z -> Z).
Context (l : list Z) (bufs : extbufs) (pp : Z -> Z) (px : Z -> extbuf).

(** The length copied into descriptor [c] and the word it is given. *)
Definition xlen (c : Z) : Z := Z.min (desc_len (desc_data1 (px (c - from)))) (desc_len (meta c)).
Definition xword (c : Z) : Z := used_len_word (meta c) (xlen c).
Definition xsrc (c : Z) : rte_dma_sge := {| sge_addr := buf_hdr (pp (c - from)); sge_length := xlen c |}.
Definition xdsc (c : Z) : rte_dma_sge := {| sge_addr := addr c; sge_length := xlen c |}.
Definition xslot (c : Z) : Z := u64 (pp (c - from) + i16 (Z.land (desc_data0 (px (c - from))) 0xFFFF)).
Definition xsent (k c : Z) : Z := if bool_decide (c < from + k) then xword c else meta c.

(** The buffers can be sent: each says that it is a packet. *)
Record xsends : Prop := {
  xn_range : 0 <= n <= wq_sz q;
  xn_list i : 0 <= i < n -> l !! Z.to_nat i = Some (pp i);
  xn_bufs i : 0 <= i < n -> bufs !! pp i = Some (px i) /\ num_buffers (px i) = 1;
  xn_meta c : from <= c < from + n -> is_u64 (meta c);
}.
Context (Hs : xsends).

Record xsending (s0 : xstate D P) (k : Z) (s : xstate D P) : Prop := {
  xs_k : 0 <= k <= n;
  xs_same : x_cells s = x_cells s0 /\ x_idx s = x_idx s0 /\ x_bufs s = x_bufs s0 /\ x_pool s = x_pool s0;
  xs_words : ring_at q from (from + n) addr (xsent k) (x_words s);
  xs_words_out p : (forall c, from <= c < from + n -> p <> desc_pos q c + 8) -> x_words s !! p = x_words s0 !! p;
  xs_len : length (x_arr s) = length (x_arr s0);
  xs_arr c : from <= c < from + k -> x_arr s !! slot q c = Some (xslot c);
  xs_arr_out j : (forall c, from <= c < from + k -> j <> slot q c) -> x_arr s !! j = x_arr s0 !! j;
  xs_src : src_stream (x_dev s) (x_chan s) = src_stream (x_dev s0) (x_chan s0) ++ (xsrc <$> seqZ from k);
  xs_dst : dst_stream (x_dev s) (x_chan s) = dst_stream (x_dev s0) (x_chan s0) ++ (xdsc <$> seqZ from k);
  xs_wf : vchan_wf (x_chan s);
  xs_sync : src_i (x_chan s) = dst_i (x_chan s);
  xs_thr : flush_thr (x_chan s) = flush_thr (x_chan s0);
}.

Lemma xs_flush_send s0 k s avail b s' : xsending s0 k s -> xs_flush stats avail s = (b, s') ->
  xsending s0 k s' /\
  (b = true -> src_i (x_chan s') = 0 \/ src_i (x_chan s') + u8 avail <= flush_thr (x_chan s0)) /\
  (forall idx, last_in idx (x_chan s) -> last_in idx (x_chan s')) /\
  (forall R, willing R -> R (x_dev s) -> b = true /\ R (x_dev s')).
Proof.
  intros [Hk Hc Hw Hwo Hl Ha Hao S1 S2 Hwf Hsy Ht]. unfold xs_flush.
  destruct (dao_dma_flush stats (x_chan s) avail (x_dev s)) as [[b1 v1] d1] eqn:Ef. intros [= <- <-].
  destruct (flush_spec stats _ _ _ _ _ _ Hwf Ef) as (Hwf1 & F1 & F2 & (_ & _ & T1 & _ & _) & Hi & Hroom). split_and!.
  - split; cbn [x_cells x_idx x_words x_bufs x_arr x_pool x_chan x_dev xput_dma]; try done; try congruence. lia.
  - intros ->. rewrite <- Ht. by apply Hroom.
  - intros idx Hli. cbn. by apply (flush_last_in stats (x_chan s) avail (x_dev s) b1 v1 d1 idx).
  - intros R HR HRd. by apply (flush_willing stats R _ _ _ _ _ _ HR HRd Ef).
Qed.

Lemma xs_slot_inj c c' : from <= c < from + n -> from <= c' < from + n -> slot q c = slot q c' -> c = c'.
Proof. apply (slot_inj_range q Hq). apply Hs. Qed.

Lemma xlen_u32 c : from <= c < from + n -> is_u32 (xlen c).
Proof. intros Hc. unfold xlen, is_u32. pose proof (desc_len_bounds (meta c)). pose proof (desc_len_bounds (desc_data1 (px (c - from)))). lia. Qed.

Lemma ext_enq_x1_step s0 k s : xsending s0 k s -> k + 1 <= n -> x_bufs s0 = bufs ->
  wq_sz q <= Z.of_nat (length (x_arr s0)) -> src_i (x_chan s) < DAO_DMA_MAX_POINTER ->
  exists s', ext_enq_x1 q l k ((from + k) mod wq_sz q) s = Ret (1, s') /\
    xsending s0 (k + 1) s' /\ src_i (x_chan s') = src_i (x_chan s) + 1 /\ x_dev s' = x_dev s.
Proof.
  intros [Hk Hc Hw Hwo Hl Ha Hao S1 S2 Hwf Hsy Ht] Hroom Hbufs Harr Hfree. destruct Hc as (C1 & C2 & C3 & C4).
  set (c := from + k) in *. assert (from <= c < from + n) as Hcr by lia. pose proof (xn_range Hs). pose proof (wq_sz_bounds q Hq).
  assert (c - from = k) as Hck by lia. destruct (xn_bufs Hs k) as [Hb Hnum]; [lia|].
  assert (xsent k c = meta c) as He0 by (unfold xsent; by rewrite bool_decide_false by lia).
  destruct (Hw c Hcr) as [Had Hx]. rewrite He0 in Hx. pose proof (xn_meta Hs c Hcr) as Hu.
  unfold ext_enq_x1. rewrite (proj2 (cget_Ret l k (pp k))) by (split; [lia|apply (xn_list Hs); lia]). cbn [mbind cres_mbind].
  unfold ext_at. rewrite C3, Hbufs, Hb. cbn [mbind cres_mbind]. rewrite !(pos_ptr q Hq) by done.
  rewrite (mload_ret _ _ _ Hx). cbn [mbind cres_mbind].
  change (Z.land (meta c) (u64 (RTE_BIT64 32 - 1))) with (desc_len (meta c)).
  change (Z.land (desc_data1 (px k)) 0xFFFFFFFF) with (desc_len (desc_data1 (px k))).
  assert ((if desc_len (meta c) <? desc_len (desc_data1 (px k)) then desc_len (meta c) else desc_len (desc_data1 (px k))) = xlen c) as ->.
  { unfold xlen. rewrite Hck. destruct (Z.ltb_spec (desc_len (meta c)) (desc_len (desc_data1 (px k)))); lia. }
  fold (xword c). destruct (st_meta q Hq from (from + n) addr (xsent k) (x_words s) c (xword c) Hw) as (w & -> & Hr' & Ho); [lia..|].
  cbn [mbind cres_mbind]. pose proof (Z.mod_pos_bound c (wq_sz q) ltac:(lia)). rewrite cset_in_range by lia. cbn [mbind cres_mbind].
  destruct (Hr' c Hcr) as [Ha' _]. rewrite Z.add_0_r, (mload_ret _ _ _ Ha'). cbn [mbind cres_mbind].
  destruct (enq_x1_spec (x_chan s) (buf_hdr (pp k)) (xlen c) (addr c) (xlen c))
    as (v & -> & Hwf' & Hs' & Hd' & P1 & P2 & (D1 & D2 & T1 & _ & _ & _)); [done|done|by rewrite <- Hsy|].
  cbn [mbind cres_mbind]. rewrite Hnum. eexists. split; [done|]. split; [|by split].
  assert (u64 (pp k + i16 (Z.land (desc_data0 (px k)) 0xFFFF)) = xslot c) as -> by (unfold xslot; by rewrite Hck).
  fold (slot q c).
  split; cbn [x_cells x_idx x_words x_bufs x_arr x_pool x_chan x_dev xput_dma xput_ring]; try done; try congruence.
  - lia.
  - intros c' Hc'. destruct (Hr' c' Hc') as [Ha1 Hx1]. split; [done|]. rewrite Hx1. f_equal. unfold xsent.
    destruct (decide (c' = c)) as [->|].
    + rewrite fn_lookup_insert. by rewrite bool_decide_true by lia.
    + rewrite fn_lookup_insert_ne by done.
      destruct (bool_decide_reflect (c' < from + k)), (bool_decide_reflect (c' < from + (k + 1))); lia || done.
  - intros p Hp. rewrite Ho by (apply Hp; lia). by apply Hwo.
  - by rewrite length_insert.
  - intros c' Hc'. destruct (decide (c' = c)) as [->|].
    + apply list_lookup_insert_eq. unfold slot. lia.
    + rewrite list_lookup_insert_ne; [apply Ha; lia|]. intros He. apply xs_slot_inj in He; lia.
  - intros j Hj. rewrite list_lookup_insert_ne; [apply Hao; intros c' Hc'; apply Hj; lia|]. apply not_eq_sym, Hj. lia.
  - unfold src_stream in *. rewrite P1, D1, D2, app_assoc, S1, <- app_assoc. f_equal. rewrite seqZ_snoc_fmap by lia.
    fold c. unfold xsrc at 3. by rewrite Hck.
  - unfold dst_stream in *. rewrite P2, D1, D2, app_assoc, S2, <- app_assoc. f_equal. rewrite seqZ_snoc_fmap by lia. done.
Qed.

Definition xevars_at (k : Z) (ev : xenq_vars) (s : xstate D P) : Prop :=
  xe_i ev = k /\ xe_used ev = k /\ xe_off ev = (from + k) mod wq_sz q /\ (0 < k -> last_in (xe_last_idx ev) (x_chan s)).

Lemma ext_enq_loop_spec s0 : 1 <= flush_thr (x_chan s0) -> x_bufs s0 = bufs -> wq_sz q <= Z.of_nat (length (x_arr s0)) ->
  forall t k s ev, xsending s0 k s -> xevars_at k ev s -> k + Z.of_nat t <= n ->
  src_i (x_chan s) = 0 \/ src_i (x_chan s) + 1 <= flush_thr (x_chan s0) ->
  exists ev' s' k', ext_enq_loop stats t q l ev s = Ret (ev', s') /\
    k <= k' <= k + Z.of_nat t /\ xsending s0 k' s' /\ xevars_at k' ev' s' /\
    (forall R, willing R -> R (x_dev s) -> k' = k + Z.of_nat t).
Proof.
  intros Hthr Hbufs Harr. pose proof (xn_range Hs). pose proof (wq_sz_bounds q Hq).
  induction t as [|t IH]; intros k s ev Hse Hv Hroom Hfree; cbn [ext_enq_loop].
  { exists ev, s, k. split; [done|]. split; [lia|]. split; [done|]. split; [done|]. intros. lia. }
  destruct Hv as (Hi & Hu & Ho & Hl). rewrite Ho, Hi. pose proof (xs_k _ _ _ Hse). pose proof (wf_flush_thr _ (xs_wf _ _ _ Hse)).
  rewrite (xs_thr _ _ _ Hse) in *. pose proof (wf_src_i _ (xs_wf _ _ _ Hse)).
  destruct (ext_enq_x1_step s0 k s Hse) as (s1 & -> & Hse1 & Hsrc & Hdev); [lia|done|done|unfold DAO_DMA_MAX_POINTER in *; lia|].
  cbn [mbind cres_mbind]. rewrite Hu, (u16_id (k + 1)) by word. destruct (xs_flush stats 1 s1) as [b s2] eqn:Ef.
  destruct (xs_flush_send s0 (k + 1) s1 1 b s2 Hse1 Ef) as (Hse2 & Hb & Hl2 & HR2).
  set (ev1 := Build_xenq_vars _ _ _ _).
  assert (xevars_at (k + 1) ev1 s2) as Hv1.
  { split_and!; [done..|cbn; rewrite (pos_wrap q Hq) by lia; f_equal; lia|]. intros _. cbn. apply Hl2. left. split; [lia|done]. }
  destruct b; cbn [negb].
  - destruct (IH (k + 1) s2 ev1 Hse2 Hv1) as (ev2 & s3 & k2 & E & Hk2 & Hse3 & Hv2 & HR3); [lia|by apply Hb|].
    exists ev2, s3, k2. split; [done|]. split; [lia|]. split; [done|]. split; [done|].
    intros R HR HRd. rewrite (HR3 R HR); [lia|]. apply HR2; [done|]. by rewrite Hdev.
  - exists ev1, s2, (k + 1). split; [done|]. split; [lia|]. split; [done|]. split; [done|].
    intros R HR HRd. destruct (HR2 R HR) as [? _]; [by rewrite Hdev|done].
Qed.
End xsending.

(** What sending [k] buffers leaves. *)
Record xenq_post {D P} `{RteDmaLaws D} (q : worker_queue) (L n pend : Z) (addr meta : Z -> Z) (pp : Z -> Z) (px : Z -> extbuf)
    (k : Z) (s s' : xstate D P) : Prop := {
  xo_src : src_stream (x_dev s') (x_chan s') = src_stream (x_dev s) (x_chan s) ++ (xsrc L meta pp px <$> seqZ L k);
  xo_dst : dst_stream (x_dev s') (x_chan s') = dst_stream (x_dev s) (x_chan s) ++ (xdsc L addr meta px <$> seqZ L k);
  xo_bufs : x_bufs s' = x_bufs s;
  xo_words : ring_at q L (L + n) addr (xsent L meta px k) (x_words s');
  xo_arr c : L <= c < L + k -> x_arr s' !! slot q c = Some (xslot L pp px c);
  xo_arr_out j : (forall c, L <= c < L + k -> j <> slot q c) -> x_arr s' !! j = x_arr s !! j;
  xo_pend : x_cells s' = if bool_decide (k = 0) then x_cells s else <[wq_pend_sd_mbuf_p q := pend + k]> (x_cells s);
  xo_idx : 0 < k -> last_in (x_idx s') (x_chan s');
}.

Section xenq.
Context (stats : bool) {D P : Type} `{RteDmaLaws D}.
Context (q : worker_queue) (Hq : queue_ok q).

Lemma push_ext_ok L n to pend addr meta l pp px (s : xstate D P) :
  1 <= n <= wq_sz q - pend -> send_queue q L to pend (x_cells s) -> xsends q L n meta l (x_bufs s) pp px ->
  ring_at q L (L + n) addr meta (x_words s) -> wq_sz q <= Z.of_nat (length (x_arr s)) ->
  vchan_wf (x_chan s) -> src_i (x_chan s) = dst_i (x_chan s) -> 1 <= flush_thr (x_chan s) ->
  exists k s', push_enq_ext_data stats q l n s = Ret (k, set_last_off (ring_enc (wq_sz q) (L + k)) q, s') /\
    0 <= k <= n /\ xenq_post q L n pend addr meta pp px k s s' /\ (forall R, willing R -> R (x_dev s) -> k = n).
Proof.
  intros Hn [(HL & Hto & Hp) Qo Qd Qp] Hs Hr Harr Hwf Hsy Hthr. pose proof (wq_sz_bounds q Hq).
  assert (xsending q L n addr meta pp px s 0 s) as Hse0.
  { split; cbn; rewrite ?app_nil_r; try done; try lia. intros c Hc. unfold xsent. rewrite bool_decide_false by lia. by apply Hr. }
  assert (forall s', xsending q L n addr meta pp px s 0 s' -> xenq_post q L n pend addr meta pp px 0 s s') as Hnone.
  { intros s' [_ (C1 & C2 & C3 & C4) Hw _ _ _ Hao S1 S2 _ _ _]. split; cbn; try done; lia. }
  assert (set_last_off (ring_enc (wq_sz q) (L + 0)) q = q) as E0 by (rewrite Z.add_0_r, <- Qo; by destruct q).
  unfold push_enq_ext_data. destruct (xs_flush stats 1 s) as [b s1] eqn:Ef.
  destruct (xs_flush_send stats q L n addr meta pp px s 0 s 1 b s1 Hse0 Ef) as (Hse1 & Hb1 & _ & HR1). destruct b; cbn [negb].
  2:{ exists 0, s1. rewrite E0. split; [done|]. split; [lia|]. split; [by apply Hnone|]. intros R HR HRd. by destruct (HR1 R HR HRd). }
  rewrite Qo, DESC_OFF_enc by apply Hq. rewrite u16_id by (pose proof (Z.mod_pos_bound L (wq_sz q)); word).
  set (ev0 := Build_xenq_vars _ _ _ _).
  assert (xevars_at q L 0 ev0 s1) as Hv0 by (split_and!; [done..|cbn; by rewrite Z.add_0_r|lia]).
  destruct (ext_enq_loop_spec stats q Hq L n addr meta l (x_bufs s) pp px Hs s Hthr eq_refl Harr (Z.to_nat n) 0 s1 ev0 Hse1 Hv0)
    as (ev2 & s2 & k & -> & Hk & Hse2 & (Hi & Hu & _ & Hl) & HR2); [lia|by apply Hb1|]. cbn [mbind cres_mbind].
  rewrite Hu, Hi. pose proof Hse2 as [_ (C1 & C2 & C3 & C4) Hw _ _ Ha Hao S1 S2 _ _ _].
  destruct (Z.eqb_spec k 0) as [->|Hne].
  { exists 0, s2. rewrite E0. split; [done|]. split; [lia|]. split; [by apply Hnone|].
    intros R HR HRd. rewrite (HR2 R HR); [lia|by apply HR1]. }
  rewrite C1, (mload_ret _ _ _ Qp). cbn [mbind cres_mbind]. rewrite (mstore_ret _ _ _ _ Qp). cbn [mbind cres_mbind].
  rewrite desc_off_add_enc, (u16_id (pend + k)) by (apply Hq || lia || word).
  exists k. eexists. split; [done|]. split; [lia|]. split; [|intros R HR HRd; rewrite (HR2 R HR); [lia|by apply HR1]].
  split; cbn; try done. by rewrite bool_decide_false.
Qed.
End xenq.

Lemma SEG_FUEL_S : exists f, SEG_FUEL = S f.
Proof. by exists 15%nat. Qed.

(** The channel after the elements of a descriptor of two buffers. *)
Lemma ext_long_channel v v1 sa sl da dl na nl stale : vchan_wf v -> src_i v < DAO_DMA_MAX_POINTER ->
  dst_i v + 1 < DAO_DMA_MAX_POINTER -> dst v !! Z.to_nat (dst_i v + 1) = Some stale -> sge_fill v sa sl da dl = Ret v1 ->
  exists v2, dao_dma_enq_dst_x1 v1 na nl = Ret v2 /\ vchan_wf v1 /\ dst_i v1 = dst_i v /\
    pending_src (sge_count v2) = pending_src v ++ [{| sge_addr := sa; sge_length := sl |}] /\
    pending_dst (sge_count v2) = pending_dst v ++ [{| sge_addr := na; sge_length := nl |}; stale].
Proof.
  intros Hwf Hs Hd Hst E. pose proof Hwf as []. unfold DAO_DMA_MAX_POINTER in *. unfold sge_fill in E.
  rewrite !cset_in_range in E by lia. cbn in E. injection E as <-. unfold dao_dma_enq_dst_x1. cbn.
  rewrite cset_in_range by (rewrite length_insert; lia). cbn. eexists. split; [done|].
  split; [split; cbn; rewrite ?length_insert; unfold DAO_DMA_MAX_POINTER; try done; lia|]. split; [done|].
  unfold pending_src, pending_dst. cbn. rewrite !u16_id by word.
  replace (Z.to_nat (src_i v + 1)) with (S (Z.to_nat (src_i v))) by lia. rewrite take_insert_snoc by lia. split; [done|].
  rewrite list_insert_insert_eq. replace (Z.to_nat (dst_i v + 1 + 1)) with (S (S (Z.to_nat (dst_i v)))) by lia.
  replace (Z.to_nat (dst_i v + 1)) with (S (Z.to_nat (dst_i v))) in Hst by lia.
  rewrite (take_S_r _ _ stale) by (rewrite list_lookup_insert_ne by lia; done). rewrite take_insert_snoc by lia. by rewrite <- app_assoc.
Qed.

(** The fetch in all cases. *)
Lemma ext_fetch_result (stats : bool) {D P : Type} `{RteDmaLaws D} `{BufAlloc P} (id : Z) (q : worker_queue) (Hq : queue_ok q)
    (flags : Z) (addr x : Z -> Z) (M pend to : Z) (s : xstate D P) :
  let busy := bool_decide (0 < pend) && negb (dao_dma_op_status (x_chan s) (x_idx s)) in
  let M' := if busy then M else M + pend in
  xqueue_at q M pend to (x_cells s) -> xfetchable q M' to x -> ring_at q M' to addr x (x_words s) ->
  (forall c, M' <= c < to -> is_Some (x_bufs s !! ring_buf q c)) ->
  x_arr s = wq_mbuf_arr q -> vchan_wf (x_chan s) -> src_i (x_chan s) = dst_i (x_chan s) -> 1 <= flush_thr (x_chan s) ->
  exists s', ext_fetch_host_data stats id q 256 flags s = Ret (ring_enc (wq_sz q) M', s') /\ x_arr s' = wq_mbuf_arr q /\
    if busy then s' = s
    else exists k, 0 <= k <= Z.min (to - M') 256 /\ xfetch_post q flags M' to addr x k s s' /\
      (forall R, willing R -> R (x_dev s) -> k = Z.min (to - M') 256).
Proof.
  intros busy M' Hqa Hf Hr Hb Harr Hwf Hsy Hthr. destruct (xq_pos _ _ _ _ _ Hqa) as (HM & Hp & Hle & Hto).
  destruct (decide (0 < pend)) as [Hpos|Hnp].
  - unfold M', busy in *. rewrite (bool_decide_true (0 < pend)) in * by done. destruct (dao_dma_op_status (x_chan s) (x_idx s)) eqn:Est; cbn [andb negb] in *.
    + destruct (ext_fetch_done stats id q Hq flags M pend to 256 s Hqa Hpos Est) as [-> Hqa'].
      match goal with |- context [ext_fetch_host_data _ _ _ _ _ ?s1] => set (s1' := s1) end.
      destruct (ext_fetch_start stats id q Hq flags addr x (M + pend) to 256 s1' Hqa' Hf) as (k & s' & E & Hk & Hpost & HR); try done.
      exists s'. split; [done|]. destruct Hpost as [S1 S2 [A1 A2] B1 B2 W C1 C2 C3]. split; [by rewrite A1|].
      exists k. split; [done|]. split; [by split|done].
    + exists s. split; [by apply (ext_fetch_waits stats id q flags M pend to 256)|done].
  - assert (pend = 0) as -> by lia. unfold M', busy in *. rewrite (bool_decide_false (0 < 0)) in * by lia. cbn [andb] in *. rewrite Z.add_0_r in *.
    destruct (ext_fetch_start stats id q Hq flags addr x M to 256 s Hqa Hf) as (k & s' & E & Hk & Hpost & HR); try done.
    exists s'. split; [done|]. pose proof Hpost as [S1 S2 [A1 A2] B1 B2 W C1 C2 C3]. split; [by rewrite A1|]. by exists k.
Qed.

(** A queue goes away as it does without buffers of the application, except
    for the call that gives buffers back. *)
Definition as_extbuf (id : Z) (r : list free_call * store) : cres (list free_call * store) :=
  Ret ((fun c => extbuf_put id (freed c)) <$> r.1, r.2).

Lemma flush_deq_ext_same id q m : virtio_net_flush_deq_ext id q (wq_mbuf_arr q) m =
  virtio_net_flush_deq q m ≫= as_extbuf id.
Proof.
  unfold virtio_net_flush_deq_ext, virtio_net_flush_deq.
  repeat (match goal with
    | |- context [mload ?m ?p ≫= _] => destruct (mload m p); cbn [mbind cres_mbind]; [|done..]
    | |- context [mstore ?m ?p ?x ≫= _] => destruct (mstore m p x); cbn [mbind cres_mbind]; [|done..]
    | |- context [read_seg ?a ?o ?n ≫= _] => destruct (read_seg a o n); cbn [mbind cres_mbind]; [|done..]
    | |- context [if ?b then _ else _] => destruct b; [done|]
    end). done.
Qed.

Lemma flush_enq_ext_same id q auto_free arr m : virtio_net_flush_enq_ext id q auto_free arr m =
  virtio_net_flush_enq q auto_free arr m ≫= as_extbuf id.
Proof.
  unfold virtio_net_flush_enq_ext, virtio_net_flush_enq.
  destruct (mload m (wq_sd_mbuf_off_p q)) as [off| |]; cbn [mbind cres_mbind]; [|done..].
  destruct (negb (auto_free =? 0) || (off =? wq_last_off q)); [done|].
  destruct (read_seg arr (DESC_OFF off) _) as [l1| |]; cbn [mbind cres_mbind]; [|done..].
  destruct (u16 (wq_last_off q - _) =? 0); cbn [mbind cres_mbind].
  all: repeat (match goal with
    | |- context [mstore ?m ?p ?x ≫= _] => destruct (mstore m p x); cbn [mbind cres_mbind]; [|done..]
    | |- context [read_seg ?a ?o ?n ≫= _] => destruct (read_seg a o n); cbn [mbind cres_mbind]; [|done..]
    end); done.
Qed.

(** ** Properties *)

(** C8. [virtio_net_deq_ext] hands out the buffers whose data has arrived, in
    order and up to the end of the ring, and goes on with the next
    descriptors: while the copies of the last call are in flight it starts
    none; once they are done they count as arrived, and a copy is started for
    each further descriptor up to 256, unless the device refuses one, into the
    buffer behind its two words, which get the length and the flags. For
    descriptors that fit one buffer. *)
Theorem deq_ext_delivers (stats : bool) {D P : Type} `{RteDmaLaws D} `{BufAlloc P} (id : Z) (q : worker_queue)
    (flags nb L M pend to : Z) (addr x : Z -> Z) (s : xstate D P) v d :
  dao_dma_check_compl (x_chan s) (x_dev s) = (v, d) -> queue_ok q -> xqueue_at q M pend to (x_cells s) ->
  wq_last_off q = ring_enc (wq_sz q) L -> 0 <= L <= M -> to <= L + wq_sz q -> 0 <= nb < 0x10000 ->
  let busy := bool_decide (0 < pend) && negb (dao_dma_op_status v (x_idx s)) in
  let M' := if busy then M else M + pend in
  xfetchable q M' to x -> ring_at q M' to addr x (x_words s) -> (forall c, M' <= c < to -> is_Some (x_bufs s !! ring_buf q c)) ->
  x_arr s = wq_mbuf_arr q -> vchan_wf v -> src_i v = dst_i v -> 1 <= flush_thr v ->
  let n := Z.min nb (Z.min (M' - L) (wq_sz q - L mod wq_sz q)) in
  exists s', virtio_net_deq_ext stats id q nb flags s =
      Ret (ring_slots (wq_sz q) (wq_mbuf_arr q) L (L + n), set_last_off (ring_enc (wq_sz q) (L + n)) q, s') /\
    if busy then s' = xput_dma v d s
    else exists k, 0 <= k <= Z.min (to - M') 256 /\ xfetch_post q flags M' to addr x k (xput_dma v d s) s' /\
      (forall R, willing R -> R d -> k = Z.min (to - M') 256).
Proof.
  intros Epoll Hq Hqa Hlast HL HtoL Hnb busy M' Hf Hr Hb Harr Hwf Hsy Hthr n. set (s1 := xput_dma v d s).
  destruct (xq_pos _ _ _ _ _ Hqa) as (HM & Hp & Hle & Hto). pose proof (wq_sz_bounds q Hq). pose proof (qo_size q Hq) as Hsz.
  assert (exists s', ext_fetch_host_data stats id q 256 flags s1 = Ret (ring_enc (wq_sz q) M', s') /\ x_arr s' = wq_mbuf_arr q /\
    if busy then s' = s1
    else exists k, 0 <= k <= Z.min (to - M') 256 /\ xfetch_post q flags M' to addr x k s1 s' /\
      (forall R, willing R -> R d -> k = Z.min (to - M') 256)) as (s' & E & Ha & Hres).
  { apply (ext_fetch_result stats id q Hq flags addr x M pend to s1); done. }
  exists s'. split; [|done]. unfold virtio_net_deq_ext. rewrite Epoll. fold s1. rewrite E. cbn [mbind cres_mbind].
  assert (L <= M' <= L + wq_sz q) as HM' by (unfold M'; destruct busy; lia).
  rewrite Hlast, desc_off_diff_no_wrap_enc by (done || lia). pose proof (Z.mod_pos_bound L (wq_sz q) ltac:(lia)).
  set (k := Z.min (M' - L) (wq_sz q - L mod wq_sz q)) in *. rewrite (u16_id k) by word.
  destruct (Z.eqb_spec k 0) as [Hz|Hz].
  - replace n with 0 by lia. rewrite Z.add_0_r, <- Hlast. unfold ring_slots. rewrite Z.sub_diag. by destruct q.
  - unfold RTE_MIN. fold n. rewrite (u16_id n) by word. rewrite DESC_OFF_enc, Ha, read_slots by (done || lia || apply Hq).
    cbn [mbind cres_mbind]. by rewrite desc_off_add_enc by (done || lia).
Qed.

(** C39. [virtio_net_enq_ext] starts exactly one copy for each buffer it
    accepts, in order, into the free descriptors from where the last call
    stopped, with the length that fits both, marks the descriptors used with
    that length, and keeps the buffer, moved by the offset it asks for, in the
    slot of its descriptor; once the copies of the calls before are done their
    slots count as free. It accepts as many buffers as there are descriptors
    and slots unless the device refuses a copy. For buffers that say they are
    one packet. *)
Theorem enq_ext_starts_copies (stats : bool) {D P : Type} `{RteDmaLaws D} (q : worker_queue) (nb L M pend to : Z)
    (addr meta : Z -> Z) (l : list Z) (pp : Z -> Z) (px : Z -> extbuf) (s : xstate D P) v d :
  dao_dma_check_compl (x_chan s) (x_dev s) = (v, d) -> queue_ok q -> send_queue q L to pend (x_cells s) ->
  x_cells s !! wq_sd_mbuf_off_p q = Some (ring_enc (wq_sz q) M) -> 0 <= M <= L -> L <= M + wq_sz q ->
  wq_sd_mbuf_off_p q <> wq_pend_sd_mbuf_p q -> wq_sd_mbuf_off_p q <> wq_sd_desc_off_p q -> wq_pend_sd_mbuf_p q <> wq_sd_desc_off_p q ->
  0 <= nb ->
  let compl := bool_decide (M < L) && dao_dma_op_status v (x_idx s) in
  let m := if compl then <[wq_pend_sd_mbuf_p q := 0]> (<[wq_sd_mbuf_off_p q := ring_enc (wq_sz q) L]> (x_cells s)) else x_cells s in
  let pend' := if compl then 0 else pend in let n := send_count q L to pend' nb in
  xsends q L n meta l (x_bufs s) pp px -> ring_at q L (L + n) addr meta (x_words s) ->
  wq_sz q <= Z.of_nat (length (x_arr s)) -> vchan_wf v -> src_i v = dst_i v -> 1 <= flush_thr v ->
  exists k s', virtio_net_enq_ext stats q l nb s = Ret (k, set_last_off (ring_enc (wq_sz q) (L + k)) q, s') /\
    0 <= k <= n /\ xenq_post q L n pend' addr meta pp px k (xput_cells m (x_idx s) (xput_dma v d s)) s' /\
    (forall R, willing R -> R d -> k = n).
Proof.
  intros Epoll Hq Hsq Qm HM HLM P1 P2 P3 Hnb compl m pend' n Hs Hr Harr Hwf Hsy Hthr.
  set (s1 := xput_cells m (x_idx s) (xput_dma v d s)). pose proof (wq_sz_bounds q Hq). pose proof (qo_size q Hq) as Hsz.
  pose proof Hsq as [(HL & Hto & Hp) Qo Qd Qp].
  assert (send_queue q L to pend' m) as Hsq'.
  { unfold m, pend'. destruct compl; [|done]. split; [lia|done|..];
      repeat (rewrite lookup_insert_eq || rewrite lookup_insert_ne by done); done. }
  unfold virtio_net_enq_ext. rewrite Epoll.
  assert (process_enq_compl q (xput_dma v d s) = Ret s1) as ->.
  { unfold process_enq_compl. cbn [x_cells x_chan x_idx xput_dma]. rewrite (mload_ret _ _ _ Qm). cbn [mbind cres_mbind]. rewrite Qo.
    assert (negb (ring_enc (wq_sz q) M =? ring_enc (wq_sz q) L) = bool_decide (M < L)) as ->.
    { destruct (Z.eqb_spec (ring_enc (wq_sz q) M) (ring_enc (wq_sz q) L)) as [He|He]; cbn.
      - symmetry in He. apply enc_inj in He; [|done|lia]. by rewrite bool_decide_false by lia.
      - rewrite bool_decide_true; [done|]. destruct (decide (M = L)) as [->|]; [done|lia]. }
    fold compl. unfold s1, m. destruct compl; [|by destruct s].
    rewrite (mstore_ret _ _ _ _ Qm). cbn [mbind cres_mbind]. rewrite (mstore_ret _ _ pend) by (by rewrite lookup_insert_ne). done. }
  cbn [mbind cres_mbind]. change (x_cells s1) with m. pose proof Hsq' as [(_ & _ & Hp') _ Qd' Qp'].
  rewrite (mload_ret _ _ _ Qd'). cbn [mbind cres_mbind]. rewrite (mload_ret _ _ _ Qp'). cbn [mbind cres_mbind].
  rewrite Qo, desc_off_diff_enc, (u16_id (to - L)) by (done || lia || word). unfold RTE_MIN. fold (send_count q L to pend' nb). fold n.
  rewrite (u16_id n) by (unfold n, send_count; word). pose proof (xn_range _ _ _ _ _ _ _ _ Hs). destruct (Z.eqb_spec n 0) as [Hz|Hz].
  - exists 0, s1. rewrite Z.add_0_r, <- Qo. split; [by destruct q|]. split; [lia|]. split; [|intros; lia].
    split; cbn; rewrite ?app_nil_r; try done; try lia. intros c Hc. lia.
  - apply (push_ext_ok stats q Hq L n to pend' addr meta l pp px s1); try done. unfold n, send_count in *. lia.
Qed.

(** A descriptor longer than its buffer is copied wrongly: the
    destination for the buffer of the descriptor is filled in but counted only
    after those of the further buffers, which overwrite it; the channel is
    given the second buffer and an element left from an operation before, and
    nothing is copied into the first. *)
Theorem ext_long_descriptor {D P : Type} `{RteDma D} `{BufAlloc P} (id : Z) (q : worker_queue) (flags c n p0 : Z)
    (nb : option Z) (addr x : Z -> Z) (b0 b1 : extbuf) (p : P) (stale : rte_dma_sge) (s : xstate D P) :
  queue_ok q -> has_flag flags DEQ_NOINOR = false -> ring_at q c (c + 1) addr x (x_words s) ->
  wq_buf_len q < desc_len (x c) <= 2 * wq_buf_len q -> x_arr s !! Z.to_nat (c mod wq_sz q) = Some p0 ->
  extbuf_get id 1 (x_pool s) = (Some [n], p) -> n <> p0 -> x_bufs s !! p0 = Some b0 -> x_bufs s !! n = Some b1 ->
  vchan_wf (x_chan s) -> src_i (x_chan s) < DAO_DMA_MAX_POINTER -> dst_i (x_chan s) + 1 < DAO_DMA_MAX_POINTER ->
  dst (x_chan s) !! Z.to_nat (dst_i (x_chan s) + 1) = Some stale ->
  exists s', ext_fetch_x1 id q flags (c mod wq_sz q) nb s = Ret (Some n, s') /\
    pending_src (x_chan s') = pending_src (x_chan s) ++ [{| sge_addr := addr c; sge_length := desc_len (x c) |}] /\
    pending_dst (x_chan s') = pending_dst (x_chan s) ++
      [{| sge_addr := buf_hdr n; sge_length := desc_len (x c) - wq_buf_len q |}; stale].
Proof.
  intros Hq Hfl Hr Hlen Harr Hget Hne Hb0 Hb1 Hwf Hs Hd Hst. pose proof (wq_sz_bounds q Hq).
  pose proof (Z.mod_pos_bound c (wq_sz q) ltac:(lia)). destruct (Hr c) as [Ha Hx]; [lia|].
  unfold ext_fetch_x1. destruct SEG_FUEL_S as [fuel ->]. rewrite (proj2 (cget_Ret (x_arr s) (c mod wq_sz q) p0)) by (split; [lia|done]). cbn [mbind cres_mbind].
  rewrite !(pos_ptr q Hq) by done. rewrite (mload_ret _ _ _ Hx). cbn [mbind cres_mbind]. rewrite Hfl.
  change (Z.land (x c) (u64 (RTE_BIT64 32 - 1))) with (desc_len (x c)). cbn [mbind cres_mbind].
  rewrite Z.add_0_r, (mload_ret _ _ _ Ha). cbn [mbind cres_mbind]. rewrite !(proj2 (Z.ltb_lt (wq_buf_len q) _)) by lia.
  destruct (sge_fill_count (x_chan s) (addr c) (desc_len (x c)) (buf_hdr p0) (wq_buf_len q) Hwf) as (v1 & E1 & E2); [done|lia|].
  rewrite E1. cbn [mbind cres_mbind]. unfold ext_upd at 1, ext_at at 1. rewrite Hb0. cbn [mbind cres_mbind].
  set (s1 := xput_dma v1 _ _).
  destruct (ext_long_channel (x_chan s) v1 (addr c) (desc_len (x c)) (buf_hdr p0) (wq_buf_len q) (buf_hdr n) (desc_len (x c) - wq_buf_len q) stale)
    as (v2 & E3 & Hwf1 & Hd1 & Q1 & Q2); [done|done|done|done|done|].
  destruct (ext_segs_one id fuel q p0 (desc_len (x c) - wq_buf_len q) nb n
    (set_desc 0 (Z.lor (wq_buf_len q) (Z.land (x c) 0xFFFF000000000000)) b0) b1 p s1) as (v & b & -> & Ev);
    [lia|done|done|cbn; by rewrite lookup_insert_ne|cbn; by rewrite lookup_insert_eq|done|cbn; lia|].
  change (x_chan s1) with v1 in Ev. assert (v = v2) as -> by congruence. cbn [mbind cres_mbind].
  eexists. split; [done|]. by split.
Qed.

(** *** Witnesses

    The ring of 8 descriptors of the packet paths; two copies, from
    descriptor 6 on, are done. *)
Definition xwit_buf : extbuf := {| desc_data0 := 0; desc_data1 := 40; num_buffers := 1 |}.
Definition xwit_bufs : extbufs :=
  list_to_map ((500, xwit_buf) :: ((fun c => (0x8000 + 0x1000 * c, xwit_buf)) <$> seqZ 0 8) ++ ((fun i => (swit_pp i, xwit_buf)) <$> seqZ 0 8)).
Definition xwit_st (m w : store) (p : list Z * nat) : xstate ref_dma (list Z * nat) :=
  Build_xstate m 0 w xwit_bufs (wq_mbuf_arr wit_wq) p wit_chan wit_dma.
Definition xwit_cells : store := <[10 := ring_enc 8 13]> (<[11 := ring_enc 8 6]> (<[12 := 2]> ∅)).

Lemma xwit_fetchable : xfetchable wit_wq 8 13 wit_x.
Proof.
  split; cbn [wq_sz wq_buf_len wit_wq].
  - lia.
  - intros c _. apply wit_full.
  - intros c _. apply wit_len.
  - intros c c' Hc Hc'. apply (wit_distinct 8); lia.
Qed.

Lemma xwit_buf_at c : xwit_bufs !! ring_buf wit_wq c = Some xwit_buf.
Proof. rewrite wit_buf_at. by destruct (wit_pos c) as [->|[->|[->|[->|[->|[->|[->| ->]]]]]]]. Qed.

Lemma deq_ext_delivers_witness :
  exists s', virtio_net_deq_ext false 3 wit_wq 4 2 (xwit_st xwit_cells wit_words ([], 0%nat)) =
    Ret ([0xE000; 0xF000], set_last_off (ring_enc 8 8) wit_wq, s').
Proof.
  destruct (deq_ext_delivers false 3 wit_wq 2 4 6 6 2 13 wit_addr wit_x (xwit_st xwit_cells wit_words ([], 0%nat))
    (set_compl wit_chan 0 0 (mdata wit_chan)) wit_dma) as (s' & E & _).
  - reflexivity.
  - exact wit_queue_ok.
  - by split.
  - reflexivity.
  - lia.
  - cbn. lia.
  - lia.
  - exact xwit_fetchable.
  - apply (wit_ring_at 8 13).
  - intros c _. exists xwit_buf. apply xwit_buf_at.
  - reflexivity.
  - apply wit_chan_ok.
  - reflexivity.
  - cbn. lia.
  - exists s'. exact E.
Defined.

Lemma enq_ext_starts_copies_witness :
  exists k s', virtio_net_enq_ext false swit_q (swit_pp <$> seqZ 0 6) 6 (xwit_st (swit_cells 14) wit_words ([], 0%nat)) =
      Ret (k, set_last_off (ring_enc 8 (8 + k)) swit_q, s') /\ 0 <= k <= 6.
Proof.
  destruct (enq_ext_starts_copies false swit_q 6 8 8 0 14 wit_addr wit_x (swit_pp <$> seqZ 0 6) swit_pp (fun _ => xwit_buf)
    (xwit_st (swit_cells 14) wit_words ([], 0%nat)) (set_compl wit_chan 0 0 (mdata wit_chan)) wit_dma) as (k & s' & E & Hk & _).
  - reflexivity.
  - exact swit_queue_ok.
  - split; (done || (cbn; lia)).
  - reflexivity.
  - lia.
  - cbn. lia.
  - discriminate.
  - discriminate.
  - discriminate.
  - lia.
  - split; cbn [wq_sz swit_q set_last_off wit_wq].
    + vm_compute. done.
    + intros i Hi. rewrite list_lookup_fmap, lookup_seqZ_lt; [cbn; f_equal; unfold swit_pp; lia|]. change (0 <= i < 6) in Hi. lia.
    + intros i Hi. change (0 <= i < 6) in Hi.
      assert (i = 0 \/ i = 1 \/ i = 2 \/ i = 3 \/ i = 4 \/ i = 5) as [->|[->|[->|[->|[->| ->]]]]] by lia; done.
    + intros c _. apply wit_full.
  - apply (wit_ring_at 8 14).
  - by vm_compute.
  - apply wit_chan_ok.
  - reflexivity.
  - cbn. lia.
  - exists k, s'. split; [exact E|exact Hk].
Defined.

Definition xwit_long : store := <[0x1000 := 0x500000]> (<[0x1008 := 3000]> ∅).

Lemma ext_long_descriptor_witness :
  exists s', ext_fetch_x1 3 wit_wq 0 0 None (xwit_st xwit_cells xwit_long ([], 1%nat)) = Ret (Some 500, s') /\
    pending_dst (x_chan s') = [{| sge_addr := 516; sge_length := 952 |}; {| sge_addr := 0; sge_length := 0 |}].
Proof.
  destruct (ext_long_descriptor 3 wit_wq 0 0 500 0x8000 None (fun _ => 0x500000) (fun _ => 3000) xwit_buf xwit_buf ([500], 0%nat)
    {| sge_addr := 0; sge_length := 0 |} (xwit_st xwit_cells xwit_long ([], 1%nat))) as (s' & E & _ & Hd).
  - exact wit_queue_ok.
  - reflexivity.
  - intros c Hc. assert (c = 0) as -> by lia. done.
  - vm_compute. split; [reflexivity|discriminate].
  - reflexivity.
  - reflexivity.
  - discriminate.
  - reflexivity.
  - reflexivity.
  - apply wit_chan_ok.
  - reflexivity.
  - reflexivity.
  - reflexivity.
  - exists s'. split; [exact E|exact Hd].
Defined.
