(* ===== verification/FeatureArc.v ===== *)
(** * Feature arcs (lib/featurearc)

    A feature arc is an ordered list of feature nodes; features are enabled
    per interface index, and packets are steered from the arc's start node
    through the enabled features in order. This file models the control path
    (feature_arc.c) and the fast path (dao_graph_feature_arc_worker.h) on the
    node registry of Rte.v. *)
From stdpp Require Import base option list numbers gmap strings fin_sets.
From Stdlib Require String.
From S2P Require Import Prelude Rte.

Local Open Scope Z_scope.

Definition DAO_GRAPH_FEATURE_ARC_INITIALIZER : Z := 0xFFFFFFFFFFFFFFFF.
Definition DAO_GRAPH_FEATURE_INVALID_VALUE : Z := 255.
Definition DAO_GRAPH_FEATURE_MAX_PER_ARC : Z := 64.
Definition DAO_GRAPH_FEATURE_ARC_NAMELEN : nat := 64.
Definition DAO_GRAPH_FEATURE_ARC_MAX : Z := 32.

(** [struct dao_graph_feature_node_list]; [fi_ptr] is its address. *)
Record dao_graph_feature_node_list := {
  fi_ptr : Z;
  fi_node : rte_node_register;
  fi_ref_count : Z;
  fi_arc : Z;
  fi_edge : Z;
}.

(** [struct dao_graph_feature_data] *)
Record dao_graph_feature_data := {
  fd_data : Z;
  fd_index : Z;
  fd_edge_this : Z;
  fd_edge_next : Z;
  fd_node_info : Z;
}.

(** [struct dao_graph_feature], the fields the library uses. *)
Record dao_graph_feature := {
  f_num_enabled : Z;
  f_data : list dao_graph_feature_data;
}.

(** [struct dao_graph_feature_arc] *)
Record dao_graph_feature_arc := {
  a_features : list dao_graph_feature_node_list;
  a_name : string;
  a_index : Z;
  a_main : Z;
  a_start : rte_node_register;
  a_max_features : Z;
  a_max_indexes : Z;
  a_runtime : Z;
  a_by_index : list dao_graph_feature;
  a_mask : list Z;
}.

(** [dao_graph_feature_arc_main_t]; [am_ptr] is its address. *)
Record feature_arc_main := {
  am_ptr : Z;
  am_num : Z;
  am_max : Z;
  am_arcs : list Z;
}.

(** The library's global, the arc objects by address, and the environment. *)
Record fa_state (E : Type) := {
  fs_main : option feature_arc_main;
  fs_arcs : gmap Z dao_graph_feature_arc;
  fs_env : E;
}.
Arguments fs_main {_}. Arguments fs_arcs {_}. Arguments fs_env {_}.
Arguments Build_fa_state {_}.

Definition with_env {E} (s : fa_state E) (e : E) : fa_state E :=
  Build_fa_state (fs_main s) (fs_arcs s) e.

Definition with_arc {E} (s : fa_state E) (p : Z) (a : dao_graph_feature_arc) : fa_state E :=
  Build_fa_state (fs_main s) (<[p := a]> (fs_arcs s)) (fs_env s).

(** Field updates of an arc. *)
Definition set_features (a : dao_graph_feature_arc) (l : list dao_graph_feature_node_list) :=
  {| a_features := l; a_name := a_name a; a_index := a_index a; a_main := a_main a;
     a_start := a_start a; a_max_features := a_max_features a; a_max_indexes := a_max_indexes a;
     a_runtime := a_runtime a; a_by_index := a_by_index a; a_mask := a_mask a |}.

Definition set_runtime (a : dao_graph_feature_arc) (rt : Z) (by_index : list dao_graph_feature)
    (mask : list Z) :=
  {| a_features := a_features a; a_name := a_name a; a_index := a_index a; a_main := a_main a;
     a_start := a_start a; a_max_features := a_max_features a; a_max_indexes := a_max_indexes a;
     a_runtime := rt; a_by_index := by_index; a_mask := mask |}.

(** [dao_graph_feature_arc_get(_dfl)], dereferenced. *)
Definition dao_graph_feature_arc_get {E} (s : fa_state E) (dfl : Z) : cres dao_graph_feature_arc :=
  match fs_arcs s !! dfl with Some a => Ret a | None => Fault end.

(** [strncmp(a, b, n) == 0] and [strstr(h, n) != NULL]. *)
Definition strncmp_eq (n : nat) (a b : string) : bool :=
  bool_decide (String.substring 0 n a = String.substring 0 n b).

Definition strstr (h n : string) : bool :=
  match String.index 0 n h with Some _ => true | None => false end.

(** ** Fast path accessors (dao_graph_feature_arc_worker.h) *)

Definition dao_graph_feature_get (a : dao_graph_feature_arc) (index : Z) : cres dao_graph_feature :=
  cget (a_by_index a) index.

Definition dao_graph_feature_data_get (df : dao_graph_feature) (feature_index : Z)
  : cres dao_graph_feature_data := cget (f_data df) (u8 feature_index).

(** [__bsf64_safe]: [None] for the return value 0, else the stored position. *)
Definition bsf64_safe `{RteBitops} (v : Z) : option Z :=
  if v =? 0 then None else Some (u8 (rte_ctz64 v)).

Definition dao_graph_feature_arc_has_first_feature `{RteBitops} (a : dao_graph_feature_arc)
    (index : Z) : cres (option Z) :=
  mask ← cget (a_mask a) index; Ret (bsf64_safe mask).

Definition dao_graph_feature_arc_has_next_feature `{RteBitops} (a : dao_graph_feature_arc)
    (index feature : Z) : cres (option Z) :=
  if 64 <=? feature + 1 then Fault
  else
    let bitmask := u64 (Z.shiftl 0xFFFFFFFFFFFFFFFF (feature + 1)) in
    mask ← cget (a_mask a) index;
    Ret (bsf64_safe (Z.land mask bitmask)).

Definition dao_graph_feature_arc_has_feature `{RteBitops} (a : dao_graph_feature_arc)
    (index feature : Z) : cres (option Z) :=
  mask ← cget (a_mask a) index;
  if mask =? 0 then Ret None
  else if feature =? DAO_GRAPH_FEATURE_INVALID_VALUE
  then dao_graph_feature_arc_has_first_feature a index
  else dao_graph_feature_arc_has_next_feature a index feature.

Definition dao_graph_feature_arc_num_enabled_features (a : dao_graph_feature_arc) : Z := a_runtime a.

(** Both return the edge and the application's data. *)
Definition dao_graph_feature_arc_first_feature_data_get (a : dao_graph_feature_arc)
    (feature index : Z) : cres (Z * Z) :=
  df ← dao_graph_feature_get a index;
  dfd ← dao_graph_feature_data_get df feature;
  Ret (fd_edge_this dfd, fd_data dfd).

Definition dao_graph_feature_arc_next_feature_data_get (a : dao_graph_feature_arc)
    (feature index : Z) : cres (Z * Z) :=
  df ← dao_graph_feature_get a index;
  dfd ← dao_graph_feature_data_get df feature;
  Ret (fd_edge_next dfd, fd_data dfd).

Definition dao_graph_feature_arc_feature_data_get (a : dao_graph_feature_arc)
    (feature index : Z) : cres (Z * Z) :=
  if feature =? DAO_GRAPH_FEATURE_INVALID_VALUE
  then dao_graph_feature_arc_first_feature_data_get a feature index
  else dao_graph_feature_arc_next_feature_data_get a feature index.

(** ** Control path (feature_arc.c) *)

Section control.
Context {E : Type} `{RteGraph E}.

(** [STAILQ_FOREACH] of [feature_lookup]: the feature found, if any, and the
    slot reached. *)
Fixpoint feature_scan (dfl : Z) (feat_name : string) (l : list dao_graph_feature_node_list)
    (slot : Z) (e : E) : cres (option dao_graph_feature_node_list * Z) :=
  match l with
  | [] => Ret (None, slot)
  | finfo :: l =>
      _ ← verify (fi_arc finfo =? dfl);
      match rte_node_id_to_name (node_id (fi_node finfo)) e with
      | None => Fault
      | Some name =>
          if strncmp_eq RTE_GRAPH_NAMESIZE name feat_name then Ret (Some finfo, slot)
          else feature_scan dfl feat_name l (u32 (slot + 1)) e
      end
  end.

(** A null [feat_name] is [None]. *)
Definition feature_lookup (dfl : Z) (a : dao_graph_feature_arc) (feat_name : option string) (e : E)
  : cres (option dao_graph_feature_node_list * Z) :=
  match feat_name with
  | None => Ret (None, 0)
  | Some name => feature_scan dfl name (a_features a) 0 e
  end.

Definition feature_arc_lookup (dfl : Z) (s : fa_state E) : bool :=
  match fs_main s with
  | None => false
  | Some dm =>
      existsb (fun h => negb (h =? DAO_GRAPH_FEATURE_ARC_INITIALIZER) && (h =? dfl)) (am_arcs dm)
  end.

(** [for (i = 0; i < count; i++)] of [get_existing_edge]. *)
Fixpoint edge_scan (child : string) (next_edges : list string) (i : Z) : option Z :=
  match next_edges with
  | [] => None
  | name :: rest => if strstr child name then Some (u16 i) else edge_scan child rest (i + 1)
  end.

(** The edge found, [None] for the return value -1. *)
Definition get_existing_edge (parent_node child_node : rte_node_register) (e : E) : option Z * E :=
  let next := rte_node_edge_get (node_id parent_node) e in
  match malloc (8 * Z.of_nat (length next)) e with
  | (None, e) => (None, e)
  | (Some p, e) =>
      let next_edges := rte_node_edge_get (node_id parent_node) e in
      (edge_scan (node_name child_node) next_edges 0, free p e)
  end.

(** The edge of the connection, [None] for the return value -1. *)
Definition connect_graph_nodes (parent_node child_node : rte_node_register) (e : E)
  : option Z * E :=
  match get_existing_edge parent_node child_node e with
  | (Some edge, e) => (Some edge, e)
  | (None, e) =>
      let '(rc, e) := rte_node_edge_update (node_id parent_node) RTE_EDGE_ID_INVALID
                        [node_name child_node] e in
      if rc =? RTE_EDGE_ID_INVALID then (None, e)
      else (Some (u16 (rte_node_edge_count (node_id parent_node) e - 1)), e)
  end.

(** [feature_arc_init(&__feature_arc_main, max)]: the block's size is 8 bytes
    and 8 per handle. *)
Definition feature_arc_init (max_feature_arcs : Z) (s : fa_state E) : Z * fa_state E :=
  match malloc (8 + 8 * max_feature_arcs) (fs_env s) with
  | (None, e) => (-1, with_env s e)
  | (Some p, e) =>
      (0, Build_fa_state
            (Some {| am_ptr := p; am_num := 0; am_max := max_feature_arcs;
                     am_arcs := replicate (Z.to_nat max_feature_arcs)
                                  DAO_GRAPH_FEATURE_ARC_INITIALIZER |})
            (fs_arcs s) e)
  end.

Definition dao_graph_feature_arc_init (max_feature_arcs : Z) (s : fa_state E) : Z * fa_state E :=
  if max_feature_arcs =? 0 then (-1, s)
  else match fs_main s with
       | Some _ => (-1, s)
       | None => feature_arc_init (u32 max_feature_arcs) s
       end.

(** [for (j = 0; j < max_features; j++)]: mark the slots of one index unused. *)
Definition init_slots (max_features : Z) (df : dao_graph_feature) : dao_graph_feature :=
  {| f_num_enabled := f_num_enabled df;
     f_data := imap (fun j dfd =>
       if Z.of_nat j <? max_features then
         {| fd_data := fd_data dfd; fd_index := DAO_GRAPH_FEATURE_INVALID_VALUE;
            fd_edge_this := fd_edge_this dfd; fd_edge_next := fd_edge_next dfd;
            fd_node_info := fd_node_info dfd |}
       else dfd) (f_data df) |}.

Definition arc_slot_free (h : Z) : bool := h =? DAO_GRAPH_FEATURE_ARC_INITIALIZER.

(** The allocation, initialisation and registration of an arc, at the free
    cell [arc_index] of the table. [junk i] is what the block for
    [features_by_index] holds at index [i] after the [memset], which clears
    one byte per index ([sizeof(dao_graph_feature_t)]) of the elements of
    [struct dao_graph_feature]; nothing is assumed of it. A negative
    [max_indexes] makes the sizes exceed the address space, and the allocation
    fails. *)
Definition arc_alloc (junk : nat -> dao_graph_feature) (name : string) (max_features max_indexes : Z)
    (start_node : rte_node_register) (dfm : feature_arc_main) (arc_index : Z) (s : fa_state E)
  : cres (Z * option Z * fa_state E) :=
  if max_indexes <? 0 then Ret (-1, None, s)
  else
    let '(o, e) := malloc (192 + 8 * max_indexes) (fs_env s) in
    match o with
    | None => Ret (-1, None, with_env s e)
    | Some p =>
        let '(o, e) := malloc (2112 * max_indexes) e in
        match o with
        | None => Ret (- ENOMEM, None, with_env s (free p e))
        | Some _ =>
            let n := Z.to_nat max_indexes in
            let a := {| a_features := [];
                        a_name := String.substring 0 (DAO_GRAPH_FEATURE_ARC_NAMELEN - 1) name;
                        a_index := arc_index; a_main := am_ptr dfm;
                        a_start := start_node; a_max_features := max_features;
                        a_max_indexes := max_indexes; a_runtime := 0;
                        a_by_index := (fun i => init_slots max_features (junk i)) <$> seq 0 n;
                        a_mask := replicate n 0 |} in
            arcs ← cset (am_arcs dfm) arc_index p;
            let dfm := {| am_ptr := am_ptr dfm; am_num := u32 (am_num dfm + 1);
                          am_max := am_max dfm; am_arcs := arcs |} in
            Ret (0, Some p, Build_fa_state (Some dfm) (<[p := a]> (fs_arcs s)) e)
        end
    end.

(** Returns also the handle stored through [_dfl]. *)
Definition dao_graph_feature_arc_create (junk : nat -> dao_graph_feature)
    (feature_arc_name : option string) (max_features max_indexes : Z)
    (start_node : option rte_node_register) (s : fa_state E) : cres (Z * option Z * fa_state E) :=
  if max_features <? 1 then Ret (-1, None, s)
  else
    match start_node, feature_arc_name with
    | Some start_node, Some name =>
        if DAO_GRAPH_FEATURE_MAX_PER_ARC <? max_features then Ret (-1, None, s)
        else
          let '(rc, s) := match fs_main s with
                          | Some _ => (0, s)
                          | None => dao_graph_feature_arc_init DAO_GRAPH_FEATURE_ARC_MAX s
                          end in
          if rc <? 0 then Ret (-1, None, s)
          else
            match fs_main s with
            | None => Fault
            | Some dfm =>
                if u32 (am_max dfm - 1) <? am_num dfm then Ret (-1, None, s)
                else
                  arc_index ← scan arc_slot_free (am_arcs dfm) (am_max dfm)
                                (Z.to_nat (am_max dfm)) 0;
                  if am_max dfm <=? arc_index then Ret (-1, None, s)
                  else
                    h ← cget (am_arcs dfm) arc_index;
                    _ ← verify (h =? DAO_GRAPH_FEATURE_ARC_INITIALIZER);
                    arc_alloc junk name max_features max_indexes start_node dfm arc_index s
            end
    | _, _ => Ret (-1, None, s)
    end.

(** The first loop of [dao_graph_feature_add], up to [before_feature]. *)
Fixpoint connect_before (finfo : rte_node_register) (before : string)
    (l : list dao_graph_feature_node_list) (add_flag : bool) (e : E) : E :=
  match l with
  | [] => e
  | temp :: l =>
      let '(add_flag, e) :=
        if strncmp_eq RTE_GRAPH_NAMESIZE (node_name (fi_node temp)) before
        then let '(o, e) := connect_graph_nodes finfo (fi_node temp) e in
             (match o with Some _ => false | None => add_flag end, e)
        else (add_flag, e) in
      let e := if add_flag then snd (connect_graph_nodes (fi_node temp) finfo e) else e in
      connect_before finfo before l add_flag e
  end.

(** The second loop, from [after_feature] on. *)
Fixpoint connect_after (finfo : rte_node_register) (after : string)
    (l : list dao_graph_feature_node_list) (add_flag : bool) (e : E) : E :=
  match l with
  | [] => e
  | temp :: l =>
      let e := if add_flag then snd (connect_graph_nodes finfo (fi_node temp) e) else e in
      let '(add_flag, e) :=
        if strncmp_eq RTE_GRAPH_NAMESIZE (node_name (fi_node temp)) after
        then let '(o, e) := connect_graph_nodes (fi_node temp) finfo e in
             (match o with Some _ => true | None => add_flag end, e)
        else (add_flag, e) in
      connect_after finfo after l add_flag e
  end.

(** [STAILQ_INSERT_AFTER] the element at [p], and the insertion in front of
    the element at [p] that the third loop performs; an element not in the
    list leaves the list as it is. *)
Fixpoint insert_after (p : Z) (x : dao_graph_feature_node_list) (l : list dao_graph_feature_node_list) :=
  match l with
  | [] => []
  | y :: l => if fi_ptr y =? p then y :: x :: l else y :: insert_after p x l
  end.

Fixpoint insert_before (p : Z) (x : dao_graph_feature_node_list) (l : list dao_graph_feature_node_list) :=
  match l with
  | [] => []
  | y :: l => if fi_ptr y =? p then x :: y :: l else y :: insert_before p x l
  end.

(** A lookup of an optional constraint: [inl] when the constraint names no
    feature, [inr None] without a constraint. *)
Definition constraint_lookup (dfl : Z) (a : dao_graph_feature_arc) (c : option (Z * string)) (e : E)
  : cres (unit + option dao_graph_feature_node_list) :=
  match c with
  | None => Ret (inr None)
  | Some (_, name) =>
      '(o, _) ← feature_lookup dfl a (Some name) e;
      Ret (match o with Some f => inr (Some f) | None => inl tt end)
  end.

(** The part of [dao_graph_feature_add] after the new object [finfo] is
    allocated: the edges the constraints ask for, and the insertion. *)
Definition add_constrained (dfl : Z) (a : dao_graph_feature_arc) (finfo : dao_graph_feature_node_list)
    (after_feature before_feature : option (Z * string)) (e : E) (s : fa_state E)
  : cres (Z * fa_state E) :=
  bo ← constraint_lookup dfl a before_feature e;
  match bo with
  | inl _ => Ret (-1, with_env s (free (fi_ptr finfo) e))
  | inr before_finfo =>
      let e := match before_feature with
               | Some (_, b) => connect_before (fi_node finfo) b (a_features a) true e
               | None => e
               end in
      ao ← constraint_lookup dfl a after_feature e;
      match ao with
      | inl _ => Ret (-1, with_env s (free (fi_ptr finfo) e))
      | inr (Some after_finfo) =>
          let e := match after_feature with
                   | Some (_, b) => connect_after (fi_node finfo) b (a_features a) false e
                   | None => e
                   end in
          let l := insert_after (fi_ptr after_finfo) finfo (a_features a) in
          Ret (0, with_arc (with_env s e) dfl (set_features a l))
      | inr None =>
          let l := match before_finfo with
                   | Some b => insert_before (fi_ptr b) finfo (a_features a)
                   | None => a_features a ++ [finfo]
                   end in
          Ret (0, with_arc (with_env s e) dfl (set_features a l))
      end
  end.

(** [after_feature] and [before_feature] carry their address, which the code
    compares. *)
Definition dao_graph_feature_add (dfl : Z) (feature_node : option rte_node_register)
    (after_feature before_feature : option (Z * string)) (s : fa_state E)
  : cres (Z * fa_state E) :=
  a ← dao_graph_feature_arc_get s dfl;
  _ ← verify (match fs_main s with Some dm => am_ptr dm =? a_main a | None => a_main a =? 0 end);
  if negb (feature_arc_lookup dfl s) then Ret (-1, s)
  else if negb (a_runtime a =? 0) then Ret (-1, s)
  else if match after_feature, before_feature with
          | Some (p, _), Some (p', _) => p =? p'
          | _, _ => false
          end then Ret (-1, s)
  else match feature_node with
  | None => Ret (-1, s)
  | Some feature_node =>
      if node_id feature_node =? RTE_NODE_ID_INVALID then Ret (-1, s)
      else
        '(found, slot) ← feature_lookup dfl a (Some (node_name feature_node)) (fs_env s);
        match found with
        | Some _ => Ret (-1, s)
        | None =>
            if DAO_GRAPH_FEATURE_MAX_PER_ARC <=? slot then Ret (-1, s)
            else if strstr (node_name feature_node) (node_name (a_start a)) then Ret (-1, s)
            else
              match connect_graph_nodes (a_start a) feature_node (fs_env s) with
              | (None, e) => Ret (-1, with_env s e)
              | (Some edge, e) =>
                  match malloc 64 e with
                  | (None, e) => Ret (-1, with_env s e)
                  | (Some p, e) =>
                      let finfo := {| fi_ptr := p; fi_node := feature_node; fi_ref_count := 0;
                                      fi_arc := dfl; fi_edge := edge |} in
                      add_constrained dfl a finfo after_feature before_feature e s
                  end
              end
        end
  end.

Definition dao_graph_feature_destroy (dfl : Z) (feature_name : option string) : Z := 0.

Definition dao_graph_feature_validate (dfl index : Z) (feature_name : option string)
    (is_enable : bool) (s : fa_state E) : cres Z :=
  a ← dao_graph_feature_arc_get s dfl;
  if negb (match fs_main s with Some dm => am_ptr dm =? a_main a | None => a_main a =? 0 end)
  then Ret (- EINVAL)
  else if a_max_indexes a <=? index then Ret (-1)
  else
    '(found, slot) ← feature_lookup dfl a feature_name (fs_env s);
    match found with
    | None => Ret (- EINVAL)
    | Some _ =>
        if a_max_features a <=? slot then Ret (- EINVAL)
        else
          df ← dao_graph_feature_get a index;
          if is_enable && (a_max_features a <=? f_num_enabled df) then Ret (- EINVAL)
          else
            dfd ← dao_graph_feature_data_get df slot;
            mask ← cget (a_mask a) index;
            let enabled := negb (Z.land mask (RTE_BIT64 slot) =? 0) in
            if is_enable && enabled then Ret (-1)
            else if negb is_enable && negb enabled then Ret (-1)
            else
              let unused := fd_index dfd =? DAO_GRAPH_FEATURE_INVALID_VALUE in
              if is_enable && negb unused then Ret (-1)
              else if negb is_enable && unused then Ret (-1)
              else Ret 0
    end.

(** [dfd->node_info->feature_node]: the feature at an address. *)
Definition node_of (a : dao_graph_feature_arc) (p : Z) : cres rte_node_register :=
  match List.find (fun f => fi_ptr f =? p) (a_features a) with
  | Some f => Ret (fi_node f)
  | None => Fault
  end.

(** Store [dfd] at slot [i] of [df]. *)
Definition put_dfd (df : dao_graph_feature) (i : Z) (dfd : dao_graph_feature_data)
  : cres dao_graph_feature :=
  l ← cset (f_data df) (u8 i) dfd; Ret {| f_num_enabled := f_num_enabled df; f_data := l |}.

Definition set_edge_next (dfd : dao_graph_feature_data) (edge : Z) :=
  {| fd_data := fd_data dfd; fd_index := fd_index dfd; fd_edge_this := fd_edge_this dfd;
     fd_edge_next := edge; fd_node_info := fd_node_info dfd |}.

Definition set_index (dfd : dao_graph_feature_data) (i : Z) :=
  {| fd_data := fd_data dfd; fd_index := i; fd_edge_this := fd_edge_this dfd;
     fd_edge_next := fd_edge_next dfd; fd_node_info := fd_node_info dfd |}.

(** The arc with the object of [index] replaced. *)
Definition put_df (a : dao_graph_feature_arc) (index : Z) (df : dao_graph_feature)
  : cres dao_graph_feature_arc :=
  l ← cset (a_by_index a) index df; Ret (set_runtime a (a_runtime a) l (a_mask a)).

(** [finfo->ref_count] changed by [d]. *)
Definition add_ref (a : dao_graph_feature_arc) (p d : Z) : dao_graph_feature_arc :=
  set_features a ((fun f => if fi_ptr f =? p
    then {| fi_ptr := fi_ptr f; fi_node := fi_node f; fi_ref_count := i32 (fi_ref_count f + d);
            fi_arc := fi_arc f; fi_edge := fi_edge f |} else f) <$> a_features a).

Definition lower_mask (slot : Z) : Z := if slot =? 0 then 0 else u64 (RTE_BIT64 slot - 1).
Definition upper_mask (slot : Z) : Z :=
  Z.land (u64 (Z.lnot (RTE_BIT64 slot))) (u64 (Z.lnot (lower_mask slot))).

Context `{RteBitops}.

(** The block of [dao_graph_feature_enable] that links the previous enabled
    feature, the most significant bit of [lower], to [finfo]; [false] for its
    early return. *)
Definition link_prev (a : dao_graph_feature_arc) (finfo : dao_graph_feature_node_list) (lower : Z)
    (df : dao_graph_feature) (e : E) : cres (bool * dao_graph_feature * E) :=
  let prev_feature := rte_fls_u64 lower in
  if prev_feature =? 0 then Ret (true, df, e)
  else
    let prev_feature := prev_feature - 1 in
    prev_dfd ← dao_graph_feature_data_get df prev_feature;
    prev_node ← node_of a (fd_node_info prev_dfd);
    _ ← verify (negb (fd_index prev_dfd =? DAO_GRAPH_FEATURE_INVALID_VALUE));
    match get_existing_edge prev_node (fi_node finfo) e with
    | (None, e) => Ret (false, df, e)
    | (Some edge, e) =>
        df ← put_dfd df prev_feature (set_edge_next prev_dfd edge); Ret (true, df, e)
    end.

(** The block that links [finfo], at [slot], to the next enabled feature, the
    least significant bit of [upper]. *)
Definition link_next (a : dao_graph_feature_arc) (finfo : dao_graph_feature_node_list)
    (slot upper : Z) (df : dao_graph_feature) (e : E) : cres (bool * dao_graph_feature * E) :=
  match rte_bsf64_safe upper with
  | None => Ret (true, df, e)
  | Some next_feature =>
      next_dfd ← dao_graph_feature_data_get df next_feature;
      next_node ← node_of a (fd_node_info next_dfd);
      _ ← verify (negb (fd_index next_dfd =? DAO_GRAPH_FEATURE_INVALID_VALUE));
      match get_existing_edge (fi_node finfo) next_node e with
      | (None, e) => Ret (false, df, e)
      | (Some edge, e) =>
          dfd ← dao_graph_feature_data_get df slot;
          df ← put_dfd df slot (set_edge_next dfd edge); Ret (true, df, e)
      end
  end.

(** What [dao_graph_feature_enable] does once both links are in place. *)
Definition enable_commit (dfl index slot original_mask : Z) (finfo : dao_graph_feature_node_list)
    (a : dao_graph_feature_arc) (df : dao_graph_feature) (e : E) (s : fa_state E)
  : cres (Z * fa_state E) :=
  dfd ← dao_graph_feature_data_get df slot;
  df ← put_dfd df slot (set_index dfd slot);
  let df := {| f_num_enabled := u32 (f_num_enabled df + 1); f_data := f_data df |} in
  a ← put_df a index df;
  let a := add_ref a (fi_ptr finfo) 1 in
  let mask := Z.lor original_mask (RTE_BIT64 slot) in
  masks ← cset (a_mask a) index mask;
  let a := set_runtime a (i32 (a_runtime a + 1)) (a_by_index a) masks in
  _ ← verify (negb (Z.land mask (RTE_BIT64 slot) =? 0));
  Ret (0, with_arc (with_env s e) dfl a).

Definition dao_graph_feature_enable (dfl index : Z) (feature_name : option string) (data : Z)
    (s : fa_state E) : cres (Z * fa_state E) :=
  rc ← dao_graph_feature_validate dfl index feature_name true s;
  if negb (rc =? 0) then Ret (-1, s)
  else
    a ← dao_graph_feature_arc_get s dfl;
    '(found, slot) ← feature_lookup dfl a feature_name (fs_env s);
    match found with
    | None => Ret (-1, s)
    | Some finfo =>
        df ← dao_graph_feature_get a index;
        let dfd := {| fd_data := data; fd_index := DAO_GRAPH_FEATURE_INVALID_VALUE;
                      fd_edge_this := fi_edge finfo;
                      fd_edge_next := DAO_GRAPH_FEATURE_INVALID_VALUE;
                      fd_node_info := fi_ptr finfo |} in
        df ← put_dfd df slot dfd;
        _ ← verify (slot =? u8 slot);
        original_mask ← cget (a_mask a) index;
        let upper := Z.land (upper_mask slot) original_mask in
        let lower := Z.land (lower_mask slot) original_mask in
        '(ok, df, e) ← link_prev a finfo lower df (fs_env s);
        if negb ok then a ← put_df a index df; Ret (-1, with_arc (with_env s e) dfl a)
        else
          '(ok, df, e) ← link_next a finfo slot upper df e;
          if negb ok then a ← put_df a index df; Ret (-1, with_arc (with_env s e) dfl a)
          else enable_commit dfl index slot original_mask finfo a df e s
    end.

(** The block of [dao_graph_feature_disable] that redirects the previous
    enabled feature; the result is [rc] after the inner block, [None] when
    that block is not entered. *)
Definition unlink_prev (a : dao_graph_feature_arc) (lower upper : Z) (df : dao_graph_feature) (e : E)
  : cres (option Z * dao_graph_feature * E) :=
  let prev_feature := rte_fls_u64 lower in
  if prev_feature =? 0 then Ret (None, df, e)
  else
    let prev_feature := prev_feature - 1 in
    prev_dfd ← dao_graph_feature_data_get df prev_feature;
    let prev_dfd := set_edge_next prev_dfd DAO_GRAPH_FEATURE_INVALID_VALUE in
    df ← put_dfd df prev_feature prev_dfd;
    match rte_bsf64_safe upper with
    | None => Ret (None, df, e)
    | Some next_feature =>
        next_dfd ← dao_graph_feature_data_get df next_feature;
        prev_node ← node_of a (fd_node_info prev_dfd);
        next_node ← node_of a (fd_node_info next_dfd);
        match get_existing_edge prev_node next_node e with
        | (None, e) => Ret (Some (-1), df, e)
        | (Some edge, e) =>
            df ← put_dfd df prev_feature (set_edge_next prev_dfd edge);
            Ret (Some 0, df, e)
        end
    end.

Definition dao_graph_feature_disable (dfl index : Z) (feature_name : option string)
    (s : fa_state E) : cres (Z * fa_state E) :=
  rc ← dao_graph_feature_validate dfl index feature_name false s;
  if negb (rc =? 0) then Ret (-1, s)
  else
    a ← dao_graph_feature_arc_get s dfl;
    '(found, slot) ← feature_lookup dfl a feature_name (fs_env s);
    match found with
    | None => Ret (-1, s)
    | Some finfo =>
        df ← dao_graph_feature_get a index;
        _ ← verify (slot =? u8 slot);
        original_mask ← cget (a_mask a) index;
        let upper := Z.land (upper_mask slot) original_mask in
        let lower := Z.land (lower_mask slot) original_mask in
        '(rc, df, e) ← unlink_prev a lower upper df (fs_env s);
        if match rc with Some rc => rc <? 9 | None => false end
        then a ← put_df a index df; Ret (-1, with_arc (with_env s e) dfl a)
        else
          dfd ← dao_graph_feature_data_get df slot;
          df ← put_dfd df slot
            {| fd_data := fd_data dfd; fd_index := DAO_GRAPH_FEATURE_INVALID_VALUE;
               fd_edge_this := DAO_GRAPH_FEATURE_INVALID_VALUE;
               fd_edge_next := DAO_GRAPH_FEATURE_INVALID_VALUE;
               fd_node_info := fd_node_info dfd |};
          let df := {| f_num_enabled := u32 (f_num_enabled df + 1); f_data := f_data df |} in
          a ← put_df a index df;
          let a := add_ref a (fi_ptr finfo) (-1) in
          masks ← cset (a_mask a) index (Z.land original_mask (u64 (Z.lnot (RTE_BIT64 slot))));
          Ret (0, with_arc (with_env s e) dfl (set_runtime a (a_runtime a) (a_by_index a) masks))
    end.

Definition dao_graph_feature_arc_destroy (epg : Z) : Z := 0.

Definition dao_graph_feature_arc_cleanup (s : fa_state E) : Z :=
  match fs_main s with None => -1 | Some _ => 0 end.

(** [for (iter = 0; iter < max_feature_arcs; iter++)] of the lookup by name. *)
Fixpoint arc_by_name (arc_name : string) (handles : list Z) (s : fa_state E) : cres (option Z) :=
  match handles with
  | [] => Ret None
  | h :: handles =>
      if h =? DAO_GRAPH_FEATURE_ARC_INITIALIZER then arc_by_name arc_name handles s
      else
        a ← dao_graph_feature_arc_get s h;
        if strstr arc_name (a_name a) then Ret (Some h) else arc_by_name arc_name handles s
  end.

(** The handle stored through [_dfl], [None] for the return value -1. *)
Definition dao_graph_feature_arc_lookup_by_name (arc_name : string) (s : fa_state E)
  : cres (option Z) :=
  match fs_main s with
  | None => Ret None
  | Some dm => arc_by_name arc_name (am_arcs dm) s
  end.
End control.

(** ** Enabled slots *)

(** [t] is the first enabled slot after [s]. *)
Definition next_enabled (mask s t : Z) : Prop :=
  s < t /\ Z.testbit mask t = true /\ forall i, s < i < t -> Z.testbit mask i = false.

Lemma next_enabled_fun mask s t t' : next_enabled mask s t -> next_enabled mask s t' -> t = t'.
Proof.
  intros (H1 & H2 & H3) (H4 & H5 & H6).
  destruct (Z.lt_trichotomy t t') as [?|[?|?]]; [|done|].
  - rewrite H6 in H2 by lia. done.
  - rewrite H3 in H5 by lia. done.
Qed.

Lemma testbit_lower_mask k i : 0 <= k < 64 -> Z.testbit (lower_mask k) i = (0 <=? i) && (i <? k).
Proof.
  intros Hk. unfold lower_mask. destruct (Z.eqb_spec k 0) as [->|].
  - rewrite Z.bits_0. destruct (Z.leb_spec 0 i), (Z.ltb_spec i 0); try lia; done.
  - rewrite RTE_BIT64_pow2 by lia. replace (2 ^ k - 1) with (Z.ones k) by (rewrite Z.ones_equiv; lia).
    rewrite u64_testbit, Z.testbit_ones by lia.
    destruct (Z.ltb_spec i 64), (Z.leb_spec 0 i), (Z.ltb_spec i k); try lia; done.
Qed.

Lemma testbit_upper_mask k i : 0 <= k < 64 -> Z.testbit (upper_mask k) i = (k <? i) && (i <? 64).
Proof.
  intros Hk. unfold upper_mask. destruct (decide (0 <= i)).
  - rewrite Z.land_spec, !u64_testbit, !Z.lnot_spec, testbit_lower_mask, testbit_RTE_BIT64 by lia.
    case_bool_decide; destruct (Z.ltb_spec i 64), (Z.leb_spec 0 i), (Z.ltb_spec i k), (Z.ltb_spec k i);
      try lia; done.
  - rewrite Z.testbit_neg_r by lia. destruct (Z.ltb_spec k i); [lia|done].
Qed.

Lemma u64_land_r x y : is_u64 x -> 0 <= y -> is_u64 (Z.land y x).
Proof.
  intros Hx Hy. apply u64_pow2. apply (proj1 (u64_pow2 x)) in Hx.
  assert (0 <= Z.land y x) by (apply Z.land_nonneg; lia). split; [lia|].
  destruct (decide (Z.land y x = 0)) as [->|n]; [done|].
  apply Z.log2_lt_pow2; [lia|]. pose proof (Z.log2_land y x Hy ltac:(lia)).
  assert (x <> 0) by (intros ->; by rewrite Z.land_0_r in n).
  assert (Z.log2 x < 64) by (apply Z.log2_lt_pow2; lia). lia.
Qed.

Lemma testbit_nonzero x : is_u64 x -> x <> 0 -> exists i, 0 <= i < 64 /\ Z.testbit x i = true.
Proof.
  intros Hx Hne. exists (Z.log2 x). unfold is_u64 in Hx. pose proof (proj1 (u64_pow2 x) Hx) as Hx'.
  pose proof (Z.log2_nonneg x). split; [split; [lia|apply Z.log2_lt_pow2; lia]|].
  apply Z.bit_log2. lia.
Qed.

(** The neighbours the code finds for slot [k]. *)
Lemma prev_slot_spec {B : RteBitops} `{!RteBitopsLaws B} mask k : is_u64 mask -> 0 <= k < 64 ->
  let p := rte_fls_u64 (Z.land (lower_mask k) mask) in
  (p = 0 /\ (forall i, i < k -> Z.testbit mask i = false)) \/
  (p <> 0 /\ 0 <= p - 1 < k /\ Z.testbit mask (p - 1) = true /\
   (forall i, p - 1 < i < k -> Z.testbit mask i = false)).
Proof.
  intros Hm Hk p. set (x := Z.land (lower_mask k) mask) in *.
  assert (forall i, Z.testbit x i = (0 <=? i) && (i <? k) && Z.testbit mask i) as Hx.
  { intros i. unfold x. by rewrite Z.land_spec, testbit_lower_mask. }
  assert (is_u64 x) as Hx64.
  { apply u64_land_r; [done|]. unfold lower_mask. destruct (k =? 0); [lia|].
    pose proof (u64_bound (RTE_BIT64 k - 1)) as Hb. unfold is_u64 in Hb. lia. }
  destruct (decide (x = 0)) as [Hz|Hz].
  - left. unfold p. rewrite Hz. split; [apply fls_zero|]. intros i Hi.
    destruct (decide (0 <= i)); [|by rewrite Z.testbit_neg_r by lia].
    specialize (Hx i). rewrite Hz, Z.bits_0 in Hx.
    rewrite (proj2 (Z.leb_le 0 i)), (proj2 (Z.ltb_lt i k)) in Hx by lia. done.
  - right. destruct (fls_pos x Hx64 Hz) as (Hp & Hbit & Hhigh). fold p in Hp, Hbit, Hhigh.
    rewrite Hx in Hbit. reflect_bool. split_and!; try done; try lia. intros i Hi.
    specialize (Hx i). rewrite Hhigh in Hx by lia.
    rewrite (proj2 (Z.leb_le 0 i)), (proj2 (Z.ltb_lt i k)) in Hx by lia. done.
Qed.

Lemma next_slot_spec {B : RteBitops} `{!RteBitopsLaws B} mask k : is_u64 mask -> 0 <= k < 64 ->
  match rte_bsf64_safe (Z.land (upper_mask k) mask) with
  | None => forall i, k < i -> Z.testbit mask i = false
  | Some t => t < 64 /\ next_enabled mask k t
  end.
Proof.
  intros Hm Hk. set (x := Z.land (upper_mask k) mask).
  assert (forall i, Z.testbit x i = (k <? i) && Z.testbit mask i) as Hx.
  { intros i. unfold x. rewrite Z.land_spec, testbit_upper_mask by done.
    destruct (Z.ltb_spec i 64); [by rewrite andb_true_r|].
    rewrite (testbit_small mask 64 i) by (apply (proj1 (u64_pow2 mask)) in Hm; lia). by rewrite !andb_false_r. }
  assert (is_u64 x) as Hx64.
  { apply u64_land_r; [done|]. unfold upper_mask. apply Z.land_nonneg. left.
    pose proof (u64_bound (Z.lnot (RTE_BIT64 k))) as Hb. unfold is_u64 in Hb. lia. }
  unfold rte_bsf64_safe. destruct (Z.eqb_spec x 0) as [Hz|Hz].
  - intros i Hi. specialize (Hx i). rewrite Hz, Z.bits_0, (proj2 (Z.ltb_lt k i)) in Hx by lia. done.
  - destruct (ctz_pos x Hx64 Hz) as (Hp & Hbit & Hlow). rewrite Hx in Hbit. reflect_bool.
    split; [lia|]. split_and!; try done. intros i Hi. specialize (Hx i).
    rewrite Hlow, (proj2 (Z.ltb_lt k i)) in Hx by lia. done.
Qed.

(** ** The fast path *)

Lemma bsf64_safe_spec {B : RteBitops} `{!RteBitopsLaws B} x : is_u64 x ->
  match bsf64_safe x with
  | None => forall i, Z.testbit x i = false
  | Some t => 0 <= t < 64 /\ Z.testbit x t = true /\ forall i, i < t -> Z.testbit x i = false
  end.
Proof.
  intros Hx. unfold bsf64_safe. destruct (Z.eqb_spec x 0) as [->|Hz].
  - intros i. apply Z.bits_0.
  - destruct (ctz_pos x Hx Hz) as (Hp & Hbit & Hlow). rewrite u8_id by (unfold is_u8; lia).
    split_and!; try done; try lia. intros i Hi.
    destruct (decide (0 <= i)); [apply Hlow; lia|by rewrite Z.testbit_neg_r by lia].
Qed.

Lemma has_next_spec {B : RteBitops} `{!RteBitopsLaws B} a index mask s :
  cget (a_mask a) index = Ret mask -> is_u64 mask -> 0 <= s < 63 ->
  exists o, dao_graph_feature_arc_has_next_feature a index s = Ret o /\
    match o with
    | None => forall i, s < i -> Z.testbit mask i = false
    | Some t => t < 64 /\ next_enabled mask s t
    end.
Proof.
  intros Hmask Hm Hs. unfold dao_graph_feature_arc_has_next_feature.
  rewrite (proj2 (Z.leb_gt _ _)) by lia. rewrite Hmask. cbn [mbind cres_mbind].
  set (x := Z.land mask _).
  assert (forall i, 0 <= i -> Z.testbit x i = Z.testbit mask i && (s <? i)) as Hx.
  { intros i Hi. unfold x. rewrite Z.land_spec, u64_testbit, Z.shiftl_spec by lia.
    change 0xFFFFFFFFFFFFFFFF with (Z.ones 64). rewrite Z.testbit_ones by lia.
    destruct (Z.ltb_spec i 64).
    - destruct (Z.leb_spec 0 (i - (s + 1))), (Z.ltb_spec (i - (s + 1)) 64), (Z.ltb_spec s i);
        try lia; done.
    - rewrite (testbit_small mask 64 i) by (apply (proj1 (u64_pow2 mask)) in Hm; lia). done. }
  assert (is_u64 x) as Hx64.
  { unfold x. rewrite Z.land_comm. apply u64_land_r; [done|].
    pose proof (u64_bound (Z.shiftl 0xFFFFFFFFFFFFFFFF (s + 1))) as Hb. unfold is_u64 in Hb. lia. }
  eexists. split; [done|]. pose proof (bsf64_safe_spec x Hx64) as Hsp.
  destruct (bsf64_safe x) as [t|].
  - destruct Hsp as (Ht & Hbit & Hlow). rewrite Hx in Hbit by lia. reflect_bool.
    split; [lia|]. split_and!; try done. intros i Hi.
    specialize (Hlow i ltac:(lia)). rewrite Hx, (proj2 (Z.ltb_lt s i)), andb_true_r in Hlow by lia. done.
  - intros i Hi. destruct (decide (0 <= i)); [|by rewrite Z.testbit_neg_r by lia].
    specialize (Hsp i). rewrite Hx, (proj2 (Z.ltb_lt s i)), andb_true_r in Hsp by lia. done.
Qed.

(** The features a packet visits when each one passes it on: [has_feature]
    from the start node, then from every feature to the next. *)
Fixpoint steer `{RteBitops} (fuel : nat) (a : dao_graph_feature_arc) (index feature : Z)
  : cres (list Z) :=
  match fuel with
  | O => Ret []
  | S fuel =>
      o ← dao_graph_feature_arc_has_feature a index feature;
      match o with
      | None => Ret []
      | Some t => l ← steer fuel a index t; Ret (t :: l)
      end
  end.

(** The enabled slots after [s], in order. *)
Definition slots_after (mask s : Z) : list Z :=
  filter (fun i => Z.testbit mask i = true) (seqZ (s + 1) (63 - s)).

Lemma slots_none mask m n : (forall i, m <= i < m + n -> Z.testbit mask i = false) ->
  filter (fun i => Z.testbit mask i = true) (seqZ m n) = [].
Proof.
  intros Hf. destruct (filter _ (seqZ m n)) as [|i l] eqn:E; [done|].
  assert (i ∈ filter (fun i => Z.testbit mask i = true) (seqZ m n)) as [Hb Hi]%list_elem_of_filter
    by (rewrite E; apply list_elem_of_here).
  apply elem_of_seqZ in Hi. rewrite Hf in Hb by lia. done.
Qed.

Lemma slots_after_next mask s t : -1 <= s -> t < 64 -> next_enabled mask s t ->
  slots_after mask s = t :: slots_after mask t.
Proof.
  intros Hs Ht (H1 & H2 & H3). unfold slots_after.
  replace (63 - s) with ((t - s - 1) + (1 + (63 - t))) by lia.
  rewrite seqZ_app by lia. rewrite (seqZ_app _ 1) by lia. rewrite !filter_app.
  rewrite slots_none by (intros; apply H3; lia). cbn [app].
  replace (s + 1 + (t - s - 1)) with t by lia.
  rewrite (seqZ_cons t 1) by lia. change (seqZ (Z.succ t) (Z.pred 1)) with (@nil Z).
  rewrite (filter_cons_True _ _ []) by done. done.
Qed.

(** From an enabled slot the walk goes on through the enabled slots after it;
    at slot 63 the next mask is computed by a shift of 64. *)
Lemma steer_next {B : RteBitops} `{!RteBitopsLaws B} a index mask :
  cget (a_mask a) index = Ret mask -> is_u64 mask ->
  forall fuel s, 0 <= s < 64 -> 65 - s <= Z.of_nat fuel -> Z.testbit mask s = true ->
  steer fuel a index s = if Z.testbit mask 63 then Fault else Ret (slots_after mask s).
Proof.
  intros Hmask Hm. induction fuel as [|fuel IH]; intros s Hs Hf Hbit; [lia|]. cbn [steer].
  unfold dao_graph_feature_arc_has_feature. rewrite Hmask. cbn [mbind cres_mbind].
  destruct (Z.eqb_spec mask 0) as [->|_]; [by rewrite Z.bits_0 in Hbit|].
  unfold DAO_GRAPH_FEATURE_INVALID_VALUE. rewrite (proj2 (Z.eqb_neq s 255)) by lia.
  destruct (decide (s = 63)) as [->|Hs63]; [by rewrite Hbit|].
  destruct (has_next_spec a index mask s) as (o & -> & Ho); [done|done|lia|]. cbn [mbind cres_mbind].
  destruct o as [t|].
  - destruct Ho as [Ht Hn]. rewrite (slots_after_next mask s t) by (done || lia).
    destruct Hn as (? & Htb & _). rewrite IH by (done || lia). by destruct (Z.testbit mask 63).
  - rewrite Ho by lia. unfold slots_after. rewrite slots_none by (intros; apply Ho; lia). done.
Qed.

(** ** The state of an index *)

(** The edge from the node of feature [f] to the node of feature [g], as
    [get_existing_edge] finds it. *)
Definition edge_between {E} `{RteGraph E} (e : E) (f g : dao_graph_feature_node_list) : option Z :=
  edge_scan (node_name (fi_node g)) (rte_node_edge_get (node_id (fi_node f)) e) 0.

(** Slot [s] holds the data of feature [f], enabled: its start edge, and the
    edge to the next enabled feature, or no edge after the last one. *)
Record slot_enabled {E} `{RteGraph E} (e : E) (l : list dao_graph_feature_node_list) (mask s : Z)
    (dfd : dao_graph_feature_data) (f : dao_graph_feature_node_list) : Prop := {
  se_index : fd_index dfd = s;
  se_info : fd_node_info dfd = fi_ptr f;
  se_this : fd_edge_this dfd = fi_edge f;
  se_next : forall t g, next_enabled mask s t -> l !! Z.to_nat t = Some g ->
    edge_between e f g = Some (fd_edge_next dfd);
  se_last : (forall i, s < i -> Z.testbit mask i = false) ->
    fd_edge_next dfd = DAO_GRAPH_FEATURE_INVALID_VALUE;
}.

(** The data of an index describes the set [mask] of enabled slots. *)
Record index_ok {E} `{RteGraph E} (e : E) (l : list dao_graph_feature_node_list) (mask : Z)
    (data : list dao_graph_feature_data) : Prop := {
  io_mask : is_u64 mask;
  io_len : length data = 64%nat;
  io_bits : forall s, Z.testbit mask s = true -> s < Z.of_nat (length l);
  io_unused : forall s dfd, 0 <= s < Z.of_nat (length l) -> Z.testbit mask s = false ->
    data !! Z.to_nat s = Some dfd -> fd_index dfd = DAO_GRAPH_FEATURE_INVALID_VALUE;
  io_used : forall s, 0 <= s -> Z.testbit mask s = true -> exists dfd f,
    data !! Z.to_nat s = Some dfd /\ l !! Z.to_nat s = Some f /\ slot_enabled e l mask s dfd f;
}.

Section links.
Context {E : Type} `{RteGraphLaws E} {B : RteBitops} `{!RteBitopsLaws B}.

(** Environments with the same nodes and edges. *)
Definition same_graph (e e' : E) : Prop :=
  (forall id, rte_node_edge_get id e' = rte_node_edge_get id e) /\
  (forall id, rte_node_id_to_name id e' = rte_node_id_to_name id e).

#[global] Instance same_graph_preorder : PreOrder same_graph.
Proof.
  split; [done|]. intros e1 e2 e3 [H1 H2] [H3 H4].
  split; intros id; [by rewrite H3|by rewrite H4].
Qed.

(** [get_existing_edge] changes no edge; it finds the edge there is, unless
    the buffer for the names cannot be allocated. *)
Lemma get_existing_edge_spec p c e o e' :
  get_existing_edge p c e = (o, e') ->
  same_graph e e' /\ live e' = live e /\
  (o = edge_scan (node_name c) (rte_node_edge_get (node_id p) e) 0 \/
   o = None /\ exists n e1, malloc n e = (None, e1)).
Proof.
  unfold get_existing_edge. destruct (malloc _ e) as [[q|] e1] eqn:Em;
    pose proof (malloc_spec _ _ _ _ Em) as (M1 & M2 & M3); intros [= <- <-].
  - destruct (free_spec q e1) as (F1 & F2 & F3). split_and!.
    + split; intros id; [by rewrite F1, M1|by rewrite F2, M2].
    + destruct M3 as [Hq Hl]. rewrite F3, Hl. set_solver.
    + left. by rewrite M1.
  - split_and!; [by split|done|]. right. eauto.
Qed.

Lemma edge_between_same e e' f g : same_graph e e' -> edge_between e' f g = edge_between e f g.
Proof. intros [H1 _]. unfold edge_between. by rewrite H1. Qed.

Lemma index_ok_same e e' l mask data : same_graph e e' -> index_ok e l mask data -> index_ok e' l mask data.
Proof.
  intros Hs []. split; try done. intros s Hs0 Hb. destruct (io_used0 s Hs0 Hb) as (dfd & f & H1 & H2 & []).
  exists dfd, f. split_and!; try done. split; try done. intros. rewrite (edge_between_same e) by done. eauto.
Qed.

Lemma data_get df s dfd : 0 <= s < 256 -> f_data df !! Z.to_nat s = Some dfd ->
  dao_graph_feature_data_get df s = Ret dfd.
Proof.
  intros Hs Hd. unfold dao_graph_feature_data_get. rewrite u8_id by (unfold is_u8; lia).
  apply cget_Ret. split; [lia|done].
Qed.

Lemma put_dfd_spec df s dfd : length (f_data df) = 64%nat -> 0 <= s < 64 ->
  put_dfd df s dfd =
    Ret {| f_num_enabled := f_num_enabled df; f_data := <[Z.to_nat s := dfd]> (f_data df) |}.
Proof.
  intros Hl Hs. unfold put_dfd. rewrite u8_id by (unfold is_u8; lia).
  rewrite cset_in_range by lia. done.
Qed.

(** The node a slot's data points to. *)
Lemma node_of_slot a s f : NoDup (fi_ptr <$> a_features a) ->
  a_features a !! s = Some f -> node_of a (fi_ptr f) = Ret (fi_node f).
Proof.
  intros Hnd Hs. unfold node_of.
  destruct (List.find _ (a_features a)) as [g|] eqn:Ef.
  - apply find_some in Ef as [Hin Heq]. apply Z.eqb_eq in Heq.
    apply list_elem_of_In, list_elem_of_lookup in Hin as [i Hi].
    assert (i = s) as ->.
    { eapply (NoDup_lookup (fi_ptr <$> a_features a)); [done|by rewrite list_lookup_fmap, Hi|].
      rewrite list_lookup_fmap, Hs. cbn. by rewrite Heq. }
    congruence.
  - eapply find_none in Ef; [|apply list_elem_of_In; by eapply list_elem_of_lookup_2].
    cbn in Ef. by rewrite Z.eqb_refl in Ef.
Qed.
End links.

(** [p] is the last enabled slot before [k]. *)
Definition prev_enabled (mask p k : Z) : Prop :=
  0 <= p < k /\ Z.testbit mask p = true /\ forall i, p < i < k -> Z.testbit mask i = false.

Lemma testbit_set mask k i : 0 <= k < 64 ->
  Z.testbit (Z.lor mask (RTE_BIT64 k)) i = Z.testbit mask i || bool_decide (k = i).
Proof. intros. by rewrite Z.lor_spec, testbit_RTE_BIT64. Qed.

Lemma u64_set mask k : is_u64 mask -> 0 <= k < 64 -> is_u64 (Z.lor mask (RTE_BIT64 k)).
Proof.
  intros Hm Hk. pose proof (u64_bound (Z.shiftl 1 k)) as Hb. fold (RTE_BIT64 k) in Hb.
  assert (0 <= Z.lor mask (RTE_BIT64 k)) by (apply Z.lor_nonneg; unfold is_u64 in *; lia).
  replace (Z.lor mask (RTE_BIT64 k)) with (u64 (Z.lor mask (RTE_BIT64 k))); [auto with dao|].
  apply Z.bits_inj'. intros i Hi. rewrite u64_testbit. destruct (Z.ltb_spec i 64); [done|].
  rewrite Z.lor_spec, !(testbit_small _ 64) by (lia || by apply u64_pow2). done.
Qed.

(** Enabling slot [k] between its neighbours [p] (if any) and [t] (if any):
    the neighbours of every other enabled slot stay. *)
Lemma next_enabled_set mask k s t : 0 <= k < 64 -> Z.testbit mask k = false -> s <> k ->
  Z.testbit mask s = true -> 0 <= s ->
  next_enabled (Z.lor mask (RTE_BIT64 k)) s t ->
  (t = k /\ prev_enabled mask s k) \/ (t <> k /\ ~ prev_enabled mask s k /\ next_enabled mask s t).
Proof.
  intros Hk Hbit Hne Hs H0 (H1 & H2 & H3). rewrite testbit_set in H2 by done.
  assert (forall i, s < i < t -> Z.testbit mask i = false /\ i <> k) as Hbetween.
  { intros i Hi. specialize (H3 i Hi). rewrite testbit_set in H3 by done.
    apply orb_false_iff in H3 as [? Hd]. case_bool_decide; [done|]. split; [done|lia]. }
  destruct (decide (t = k)) as [->|Htk].
  - left. split; [done|]. split_and!; try done; try lia. intros i Hi. by apply Hbetween.
  - right. rewrite bool_decide_false, orb_false_r in H2 by lia. split; [done|].
    assert (next_enabled mask s t) as Hn by (split_and!; try done; intros i Hi; by apply Hbetween).
    split; [|done]. intros (Hp1 & _ & Hp3). destruct (Z.lt_total t k) as [Hlt|[?|Hgt]]; [|done|].
    + rewrite Hp3 in H2 by lia. done.
    + destruct (Hbetween k) as [_ ?]; [lia|done].
Qed.

Lemma next_enabled_set_k mask k t : 0 <= k < 64 ->
  next_enabled (Z.lor mask (RTE_BIT64 k)) k t <-> next_enabled mask k t.
Proof.
  intros Hk. unfold next_enabled.
  assert (forall i, k < i -> Z.testbit (Z.lor mask (RTE_BIT64 k)) i = Z.testbit mask i) as Hi.
  { intros i Hi. rewrite testbit_set, bool_decide_false, orb_false_r by lia. done. }
  split; intros (H1 & H2 & H3); (split; [done|]; split; [by rewrite ?Hi in *|]);
    intros i Hik; specialize (H3 i Hik); rewrite Hi in *; (done || lia).
Qed.

(** The edges after slot [k] was linked in: [data'] differs from [data] at [k]
    and at the previous enabled slot only. *)
Definition relinked {E} `{RteGraph E} (e : E) (l : list dao_graph_feature_node_list) (mask k : Z)
    (f : dao_graph_feature_node_list) (data data' : list dao_graph_feature_data) : Prop :=
  ((forall i, i < k -> Z.testbit mask i = false) /\
   forall s, s <> Z.to_nat k -> data' !! s = data !! s) \/
  (exists p dfd g edge, prev_enabled mask p k /\ data !! Z.to_nat p = Some dfd /\
     l !! Z.to_nat p = Some g /\ edge_between e g f = Some edge /\
     data' !! Z.to_nat p = Some (set_edge_next dfd edge) /\
     forall s, s <> Z.to_nat k -> s <> Z.to_nat p -> data' !! s = data !! s).

Lemma prev_enabled_fun mask p p' k : prev_enabled mask p k -> prev_enabled mask p' k -> p = p'.
Proof.
  intros (H1 & H2 & H3) (H4 & H5 & H6).
  destruct (Z.lt_trichotomy p p') as [?|[?|?]]; [|done|].
  - rewrite H3 in H5 by lia. done.
  - rewrite H6 in H2 by lia. done.
Qed.

Lemma enable_index_ok {E} `{RteGraph E} (e : E) l mask k f data data' dfd :
  index_ok e l mask data -> length data' = 64%nat -> 0 <= k < 64 -> Z.testbit mask k = false ->
  l !! Z.to_nat k = Some f -> relinked e l mask k f data data' ->
  data' !! Z.to_nat k = Some dfd -> slot_enabled e l mask k dfd f ->
  index_ok e l (Z.lor mask (RTE_BIT64 k)) data'.
Proof.
  intros [Im Il Ib Iu Ie] Hlen Hk Hbit Hf Hrel Hd Hse.
  assert (k < Z.of_nat (length l)) as Hkl by (apply lookup_lt_Some in Hf; lia).
  split; [by apply u64_set|done|..].
  - intros s. rewrite testbit_set by done. intros [?|?]%orb_true_iff; [auto|].
    case_bool_decide; [lia|done].
  - intros s d Hs. rewrite testbit_set by done. intros [Hsb Hsk]%orb_false_iff Hds.
    case_bool_decide; [done|]. destruct Hrel as [[_ Hr]|(p & dp & g & ed & Hp & _ & _ & _ & _ & Hr)].
    + rewrite Hr in Hds by lia. eauto.
    + destruct (decide (s = p)) as [->|]; [destruct Hp as (_ & ? & _); congruence|].
      destruct Hp as (? & _ & _). rewrite Hr in Hds by lia. eauto.
  - intros s Hs0 Hsb. rewrite testbit_set in Hsb by done.
    destruct (decide (s = k)) as [->|Hsk].
    { exists dfd, f. split_and!; try done. destruct Hse. split; try done.
      + intros t g Ht. apply (proj1 (next_enabled_set_k mask k t Hk)) in Ht. eauto.
      + intros Hnone. apply se_last0. intros i Hi. specialize (Hnone i Hi).
        rewrite testbit_set in Hnone by done. by apply orb_false_iff in Hnone as [? _]. }
    rewrite bool_decide_false, orb_false_r in Hsb by lia.
    destruct (Ie s Hs0 Hsb) as (d & g & Hd' & Hg & [S1 S2 S3 S4 S5]).
    assert (forall i, Z.testbit (Z.lor mask (RTE_BIT64 k)) i = false -> Z.testbit mask i = false) as Hsub.
    { intros i. rewrite testbit_set by done. by intros [? _]%orb_false_iff. }
    assert (data' !! Z.to_nat s = Some d -> ~ prev_enabled mask s k -> exists d' g',
      data' !! Z.to_nat s = Some d' /\ l !! Z.to_nat s = Some g' /\
      slot_enabled e l (Z.lor mask (RTE_BIT64 k)) s d' g') as Hkeep.
    { intros Hsame Hnp. exists d, g. split_and!; try done. split; try done; [|auto].
      intros t g' Ht Hg'. destruct (next_enabled_set mask k s t) as [[_ ?]|(_ & _ & ?)]; eauto; done. }
    destruct Hrel as [[Hno Hr]|(p & dp & g' & ed & Hp & Hdp & Hg' & Hed & Hp' & Hr)].
    + apply Hkeep; [rewrite Hr by lia; done|]. intros (? & ? & _). rewrite Hno in Hsb by lia. done.
    + destruct (decide (s = p)) as [->|Hsp].
      * exists (set_edge_next dp ed), g. simplify_eq. split_and!; try done. split; try done.
        -- intros t g0 Ht Hg0. destruct (next_enabled_set mask k _ t Hk Hbit Hsk Hsb Hs0 Ht) as [[-> _]|(_ & Hno & _)]; [|by destruct Hno].
           cbn. by simplify_eq.
        -- intros Hnone. destruct Hp as (? & _). specialize (Hnone k ltac:(lia)).
           rewrite testbit_set, bool_decide_true, orb_true_r in Hnone by done. done.
      * apply Hkeep; [rewrite Hr by (destruct Hp as (? & _); lia); done|].
        intros Hp2. apply Hsp. by eapply prev_enabled_fun.
Qed.

Section enable.
Context {E : Type} `{RteGraphLaws E} {B : RteBitops} `{!RteBitopsLaws B}.

(** No edge from [g] to [f] can be found: there is none, or there is no
    memory for the search. *)
Definition no_edge (e : E) (g f : dao_graph_feature_node_list) : Prop :=
  edge_between e g f = None \/ exists n e0 e1, same_graph e e0 /\ malloc n e0 = (None, e1).

Lemma link_prev_spec a f mask k data df (e : E) :
  index_ok e (a_features a) mask data -> NoDup (fi_ptr <$> a_features a) -> 0 <= k < 64 ->
  Z.of_nat (length (a_features a)) <= 64 ->
  length (f_data df) = 64%nat -> (forall s, s <> Z.to_nat k -> f_data df !! s = data !! s) ->
  exists ok df' e', link_prev a f (Z.land (lower_mask k) mask) df e = Ret (ok, df', e') /\
    same_graph e e' /\ live e' = live e /\ f_num_enabled df' = f_num_enabled df /\
    length (f_data df') = 64%nat /\
    (forall s, (Z.to_nat k <= s)%nat -> f_data df' !! s = f_data df !! s) /\
    if ok then relinked e (a_features a) mask k f data (f_data df')
    else df' = df /\ exists p g, prev_enabled mask p k /\ a_features a !! Z.to_nat p = Some g /\ no_edge e g f.
Proof.
  intros Hok Hnd Hk Hl64 Hlen Hsame. pose proof Hok as [Im Il Ib Iu Ie].
  unfold link_prev. destruct (prev_slot_spec mask k) as [[-> Hno]|(Hp0 & Hp & Hbit & Hbet)]; [done..| |].
  - exists true, df, e. cbn. split_and!; try done. left. done.
  - rewrite (proj2 (Z.eqb_neq _ 0)) by done. set (p := rte_fls_u64 _ - 1) in *.
    destruct (Ie p) as (dfd & g & Hd & Hg & []); [lia|done|].
    rewrite (data_get df p dfd) by (lia || by rewrite Hsame by lia). cbn [mbind cres_mbind].
    rewrite se_info0, (node_of_slot a (Z.to_nat p) g) by done. cbn [mbind cres_mbind].
    rewrite se_index0. unfold DAO_GRAPH_FEATURE_INVALID_VALUE.
    rewrite (proj2 (Z.eqb_neq p 255)) by lia. cbn [negb verify mbind cres_mbind].
    destruct (get_existing_edge _ _ e) as [o e'] eqn:Eg.
    apply get_existing_edge_spec in Eg as (Hg1 & Hl & Ho).
    destruct o as [edge|].
    + rewrite put_dfd_spec by (done || lia). cbn [mbind cres_mbind].
      eexists true, _, e'. split; [done|]. cbn. rewrite length_insert. split_and!; try done.
      { intros s Hs. by rewrite list_lookup_insert_ne by lia. }
      right. exists p, dfd, g, edge. split; [by split|]. split_and!; try done.
      * destruct Ho as [Ho|[? _]]; [|done]. by rewrite Ho.
      * rewrite list_lookup_insert_eq by lia. done.
      * intros s Hs1 Hs2. rewrite list_lookup_insert_ne by lia. by apply Hsame.
    + exists false, df, e'. split_and!; try done. exists p, g. split; [by split|]. split; [done|].
      destruct Ho as [Ho|[_ (n & e1 & Hm)]]; [left; done|right; exists n, e, e1; done].
Qed.

Lemma link_next_spec a f mask k data dfd df (e : E) :
  index_ok e (a_features a) mask data -> NoDup (fi_ptr <$> a_features a) -> 0 <= k < 64 ->
  Z.of_nat (length (a_features a)) <= 64 ->
  length (f_data df) = 64%nat -> (forall s, (Z.to_nat k < s)%nat -> f_data df !! s = data !! s) ->
  f_data df !! Z.to_nat k = Some dfd -> fd_edge_next dfd = DAO_GRAPH_FEATURE_INVALID_VALUE ->
  exists ok df' e', link_next a f k (Z.land (upper_mask k) mask) df e = Ret (ok, df', e') /\
    same_graph e e' /\ live e' = live e /\ f_num_enabled df' = f_num_enabled df /\
    length (f_data df') = 64%nat /\ (forall s, s <> Z.to_nat k -> f_data df' !! s = f_data df !! s) /\
    if ok then exists edge, f_data df' !! Z.to_nat k = Some (set_edge_next dfd edge) /\
      (forall t g, next_enabled mask k t -> a_features a !! Z.to_nat t = Some g -> edge_between e f g = Some edge) /\
      ((forall i, k < i -> Z.testbit mask i = false) -> edge = DAO_GRAPH_FEATURE_INVALID_VALUE)
    else df' = df /\ exists t g, next_enabled mask k t /\ a_features a !! Z.to_nat t = Some g /\ no_edge e f g.
Proof.
  intros Hok Hnd Hk Hl64 Hlen Hsame Hdk Hinv. pose proof Hok as [Im Il Ib Iu Ie].
  unfold link_next. pose proof (next_slot_spec mask k Im Hk) as Hn.
  destruct (rte_bsf64_safe _) as [t|].
  - destruct Hn as [Ht Hnext]. pose proof Hnext as (Hkt & Hbit & _).
    destruct (Ie t) as (dt & g & Hd & Hg & []); [lia|done|].
    rewrite (data_get df t dt) by (lia || by rewrite Hsame by lia). cbn [mbind cres_mbind].
    rewrite se_info0, (node_of_slot a (Z.to_nat t) g) by done. cbn [mbind cres_mbind].
    rewrite se_index0. unfold DAO_GRAPH_FEATURE_INVALID_VALUE.
    rewrite (proj2 (Z.eqb_neq t 255)) by lia. cbn [negb verify mbind cres_mbind].
    destruct (get_existing_edge _ _ e) as [o e'] eqn:Eg.
    apply get_existing_edge_spec in Eg as (Hg1 & Hl & Ho).
    destruct o as [edge|].
    + rewrite (data_get df k dfd) by (lia || done). cbn [mbind cres_mbind].
      rewrite put_dfd_spec by (done || lia). cbn [mbind cres_mbind].
      eexists true, _, e'. split; [done|]. cbn. rewrite length_insert. split_and!; try done.
      { intros s Hs. by rewrite list_lookup_insert_ne by lia. }
      exists edge. split; [rewrite list_lookup_insert_eq by lia; done|]. split.
      * intros t' g' Ht' Hg'. rewrite (next_enabled_fun mask k t' t) in Hg' by done. simplify_eq.
        destruct Ho as [Ho|[? _]]; [|done]. by rewrite Ho.
      * intros Hnone. rewrite Hnone in Hbit by lia. done.
    + exists false, df, e'. split_and!; try done. exists t, g. split; [done|]. split; [done|].
      destruct Ho as [Ho|[_ (n & e1 & Hm)]]; [left; done|right; exists n, e, e1; done].
  - exists true, df, e. split_and!; try done. exists DAO_GRAPH_FEATURE_INVALID_VALUE.
    split_and!; try done.
    + rewrite Hdk. f_equal. destruct dfd. cbn in Hinv. by subst.
    + intros t g (Ht & Hb & _). rewrite Hn in Hb by done. done.
Qed.
End enable.

(** ** Lookup *)

Lemma feature_scan_found {E} `{RteGraph E} dfl name (e : E) : forall l slot f k,
  0 <= slot -> slot + Z.of_nat (length l) < 0x100000000 ->
  feature_scan dfl name l slot e = Ret (Some f, k) ->
  slot <= k /\ l !! Z.to_nat (k - slot) = Some f.
Proof.
  induction l as [|g l IH]; intros slot f k Hs Hlen; cbn; [done|].
  cbn [length] in Hlen. destruct (fi_arc g =? dfl); [|done]. cbn [verify mbind cres_mbind].
  destruct (rte_node_id_to_name _ e) as [n|]; [|done].
  destruct (strncmp_eq _ _ _).
  - intros [= <- <-]. rewrite Z.sub_diag. done.
  - rewrite u32_id by (unfold is_u32; lia). intros Hr. apply IH in Hr as [Hle Hl]; [|lia|lia].
    split; [lia|]. replace (Z.to_nat (k - slot)) with (S (Z.to_nat (k - (slot + 1)))) by lia. done.
Qed.

Lemma feature_lookup_found {E} `{RteGraph E} dfl a name (e : E) f k :
  Z.of_nat (length (a_features a)) <= 64 ->
  feature_lookup dfl a name e = Ret (Some f, k) ->
  0 <= k < 64 /\ a_features a !! Z.to_nat k = Some f.
Proof.
  intros Hl. destruct name as [n|]; [|done]. cbn. intros Hr.
  apply feature_scan_found in Hr as [Hk Hf]; [|lia|lia]. rewrite Z.sub_0_r in Hf.
  split; [|done]. apply lookup_lt_Some in Hf. lia.
Qed.

(** What is known of features by pointer, node and edge stays known when only
    reference counts change. *)
Lemma index_ok_fmap {E} `{RteGraph E} (e : E) h l mask data :
  (forall f, fi_ptr (h f) = fi_ptr f /\ fi_node (h f) = fi_node f /\ fi_edge (h f) = fi_edge f) ->
  index_ok e l mask data -> index_ok e (h <$> l) mask data.
Proof.
  intros Hh [Im Il Ib Iu Ie]. split; try done; rewrite ?length_fmap; try done.
  intros s Hs Hb. destruct (Ie s Hs Hb) as (d & f & Hd & Hf & [S1 S2 S3 S4 S5]).
  destruct (Hh f) as (h1 & h2 & h3). exists d, (h f). rewrite list_lookup_fmap, Hf.
  split_and!; try done. split; try congruence; [|done].
  intros t g Ht. rewrite list_lookup_fmap. intros (g0 & Hg0 & ->)%fmap_Some.
  specialize (S4 t g0 Ht Hg0). destruct (Hh g0) as (_ & h4 & _).
  unfold edge_between in *. by rewrite h2, h4.
Qed.

(** What an index needs before a feature is enabled or disabled on it. *)
Record arc_ready {E} `{RteGraph E} (s : fa_state E) (dfl : Z) (a : dao_graph_feature_arc)
    (index mask : Z) (df : dao_graph_feature) : Prop := {
  ar_arc : fs_arcs s !! dfl = Some a;
  ar_main : exists dm, fs_main s = Some dm /\ am_ptr dm = a_main a;
  ar_index : 0 <= index < a_max_indexes a;
  ar_df : a_by_index a !! Z.to_nat index = Some df;
  ar_mask : a_mask a !! Z.to_nat index = Some mask;
  ar_ptrs : NoDup (fi_ptr <$> a_features a);
  ar_len : Z.of_nat (length (a_features a)) <= 64;
  ar_max : a_max_features a <= 64;
  ar_ok : index_ok (fs_env s) (a_features a) mask (f_data df);
}.

(** The validation of a request: it accepts exactly the features that are
    added, fit, and are not (enable) or are (disable) enabled. *)
Lemma validate_ready {E} `{RteGraph E} (s : fa_state E) dfl a index mask df name f k (en : bool) :
  arc_ready s dfl a index mask df -> feature_lookup dfl a name (fs_env s) = Ret (Some f, k) ->
  k < a_max_features a -> (en = true -> f_num_enabled df < a_max_features a) ->
  Z.testbit mask k = negb en ->
  dao_graph_feature_validate dfl index name en s = Ret 0.
Proof.
  intros [Ha (dm & Hdm & Hp) Hi Hdf Hmask Hnd Hlen Hmax Hok] Hf Hk Hn Hbit.
  destruct (feature_lookup_found _ _ _ _ _ _ Hlen Hf) as [Hk64 Hfk].
  unfold dao_graph_feature_validate, dao_graph_feature_arc_get. rewrite Ha. cbn [mbind cres_mbind].
  rewrite Hdm, Hp, Z.eqb_refl. cbn [negb]. rewrite (proj2 (Z.leb_gt _ _)) by lia.
  rewrite Hf. cbn [mbind cres_mbind]. rewrite (proj2 (Z.leb_gt _ k)) by lia.
  unfold dao_graph_feature_get. rewrite (proj2 (cget_Ret _ _ df)) by (split; [lia|done]).
  cbn [mbind cres_mbind].
  replace (en && (a_max_features a <=? f_num_enabled df)) with false.
  2:{ destruct en; [|done]. rewrite (proj2 (Z.leb_gt _ _)) by auto. done. }
  destruct Hok as [Im Il Ib Iu Ie].
  destruct (lookup_lt_is_Some_2 (f_data df) (Z.to_nat k)) as [dfd Hd]; [lia|].
  rewrite (data_get df k dfd) by (done || lia). cbn [mbind cres_mbind].
  rewrite (proj2 (cget_Ret _ _ mask)) by (split; [lia|done]). cbn [mbind cres_mbind].
  rewrite land_RTE_BIT64, negb_involutive by lia. rewrite Hbit.
  destruct en; cbn [andb negb].
  - rewrite (Iu k dfd) by (done || apply lookup_lt_Some in Hfk; lia). done.
  - destruct (Ie k) as (d' & f' & Hd' & _ & []); [lia|done|].
    assert (d' = dfd) as -> by congruence. rewrite se_index0.
    unfold DAO_GRAPH_FEATURE_INVALID_VALUE. rewrite (proj2 (Z.eqb_neq k 255)) by lia. done.
Qed.

(** ** Disabling *)

Lemma testbit_clear mask k i : is_u64 mask -> 0 <= k < 64 ->
  Z.testbit (Z.land mask (u64 (Z.lnot (RTE_BIT64 k)))) i = Z.testbit mask i && negb (bool_decide (k = i)).
Proof.
  intros Hm Hk. destruct (decide (0 <= i)) as [Hi|]; [|by rewrite !Z.testbit_neg_r by lia].
  rewrite Z.land_spec, u64_testbit, Z.lnot_spec, testbit_RTE_BIT64 by done.
  destruct (Z.ltb_spec i 64); [done|].
  rewrite (testbit_small mask 64 i) by (apply (proj1 (u64_pow2 mask)) in Hm; lia). done.
Qed.

Lemma u64_clear mask k : is_u64 mask -> is_u64 (Z.land mask (u64 (Z.lnot (RTE_BIT64 k)))).
Proof.
  intros Hm. rewrite Z.land_comm. apply u64_land_r; [done|].
  pose proof (u64_bound (Z.lnot (RTE_BIT64 k))) as Hb. unfold is_u64 in Hb. lia.
Qed.

(** Clearing slot [k], the first or the last enabled one. *)
Lemma disable_index_ok {E} `{RteGraph E} (e : E) l mask k data data' dfd :
  index_ok e l mask data -> length data' = 64%nat -> 0 <= k < 64 -> Z.testbit mask k = true ->
  data' !! Z.to_nat k = Some dfd -> fd_index dfd = DAO_GRAPH_FEATURE_INVALID_VALUE ->
  ((forall i, i < k -> Z.testbit mask i = false) /\
   (forall s, s <> Z.to_nat k -> data' !! s = data !! s) \/
   exists p dp, prev_enabled mask p k /\ (forall i, k < i -> Z.testbit mask i = false) /\
     data !! Z.to_nat p = Some dp /\
     data' !! Z.to_nat p = Some (set_edge_next dp DAO_GRAPH_FEATURE_INVALID_VALUE) /\
     forall s, s <> Z.to_nat k -> s <> Z.to_nat p -> data' !! s = data !! s) ->
  index_ok e l (Z.land mask (u64 (Z.lnot (RTE_BIT64 k)))) data'.
Proof.
  intros [Im Il Ib Iu Ie] Hlen Hk Hbit Hd Hdi Hcase.
  split; [by apply u64_clear|done|..].
  - intros s. rewrite testbit_clear by done. intros [? _]%andb_true_iff. auto.
  - intros s d Hs. rewrite testbit_clear by done. destruct (decide (s = k)) as [->|Hsk].
    { intros _ ?. by simplify_eq. }
    rewrite bool_decide_false, andb_true_r by done. intros Hsb Hds.
    destruct Hcase as [[_ Hr]|(p & dp & Hp & _ & _ & _ & Hr)].
    + rewrite Hr in Hds by lia. eauto.
    + destruct (decide (s = p)) as [->|]; [destruct Hp as (_ & ? & _); congruence|].
      destruct Hp as (? & _ & _). rewrite Hr in Hds by lia. eauto.
  - intros s Hs0. rewrite testbit_clear by done. intros [Hsb Hsk]%andb_true_iff.
    case_bool_decide; [done|]. destruct (Ie s Hs0 Hsb) as (d & g & Hd' & Hg & [S1 S2 S3 S4 S5]).
    assert (forall t, next_enabled (Z.land mask (u64 (Z.lnot (RTE_BIT64 k)))) s t ->
      ~ s < k < t -> next_enabled mask s t) as Hnext.
    { intros t (Ht1 & Ht2 & Ht3) Hnk. rewrite testbit_clear in Ht2 by done.
      apply andb_true_iff in Ht2 as [Ht2 _]. split_and!; try done. intros i Hi.
      specialize (Ht3 i Hi). rewrite testbit_clear, bool_decide_false, andb_true_r in Ht3 by (done || lia).
      done. }
    destruct Hcase as [[Hno Hr]|(p & dp & Hp & Hlast & Hdp & Hp' & Hr)].
    + assert (k < s) by (destruct (Z.lt_total s k) as [Hlt|[?|?]]; [rewrite Hno in Hsb by lia|..]; done).
      exists d, g. rewrite Hr by lia. split_and!; try done. split; try done.
      * intros t g' Ht. apply S4. apply Hnext; [done|lia].
      * intros Hnone. apply S5. intros i Hi. specialize (Hnone i Hi).
        rewrite testbit_clear, bool_decide_false, andb_true_r in Hnone by (done || lia). done.
    + assert (s < k) by (destruct (Z.lt_total s k) as [?|[?|Hlt]]; [done..|rewrite Hlast in Hsb by lia; done]).
      assert (forall t, next_enabled (Z.land mask (u64 (Z.lnot (RTE_BIT64 k)))) s t -> t < k) as Htk.
      { intros t (_ & Ht & _). rewrite testbit_clear in Ht by done.
        apply andb_true_iff in Ht as [Ht Hne]. case_bool_decide; [done|].
        destruct (Z.lt_total t k) as [?|[?|Hlt]]; [done..|rewrite Hlast in Ht by lia; done]. }
      destruct (decide (s = p)) as [->|Hsp].
      * exists (set_edge_next dp DAO_GRAPH_FEATURE_INVALID_VALUE), g. simplify_eq.
        split_and!; try done. split; try done. intros t g' Ht. exfalso.
        pose proof (Htk t Ht). destruct Ht as (? & Ht & _). destruct Hp as (_ & _ & Hp).
        rewrite testbit_clear in Ht by done. rewrite Hp in Ht by lia. done.
      * exists d, g. rewrite Hr by (destruct Hp as (? & _); lia). split_and!; try done. split; try done.
        -- intros t g' Ht. apply S4. apply Hnext; [done|]. pose proof (Htk t Ht). lia.
        -- intros Hnone. exfalso. destruct Hp as (Hp1 & Hp2 & Hp3).
           assert (s < p).
           { destruct (Z.lt_total s p) as [?|[?|?]]; [done..|]. rewrite Hp3 in Hsb by lia. done. }
           specialize (Hnone p ltac:(lia)).
           rewrite testbit_clear, Hp2, bool_decide_false in Hnone by (done || lia). done.
Qed.

(** ** The whole operations *)

Lemma cset_lookup {A} (l : list A) i x y : 0 <= i -> l !! Z.to_nat i = Some y ->
  cset l i x = Ret (<[Z.to_nat i := x]> l).
Proof. intros Hi Hl. apply lookup_lt_Some in Hl. apply cset_in_range. lia. Qed.

Lemma enable_commit_spec {E} `{RteGraph E} (s : fa_state E) dfl a index mask df df0 k f dfd (e : E) :
  0 <= index -> a_by_index a !! Z.to_nat index = Some df0 -> a_mask a !! Z.to_nat index = Some mask ->
  0 <= k < 64 -> length (f_data df) = 64%nat -> f_data df !! Z.to_nat k = Some dfd ->
  exists s' a', enable_commit dfl index k mask f a df e s = Ret (0, s') /\
    fs_arcs s' !! dfl = Some a' /\ fs_env s' = e /\
    (exists h, (forall f, fi_ptr (h f) = fi_ptr f /\ fi_node (h f) = fi_node f /\ fi_edge (h f) = fi_edge f) /\
       a_features a' = h <$> a_features a) /\
    a_by_index a' = <[Z.to_nat index := {| f_num_enabled := u32 (f_num_enabled df + 1);
      f_data := <[Z.to_nat k := set_index dfd k]> (f_data df) |}]> (a_by_index a) /\
    a_mask a' = <[Z.to_nat index := Z.lor mask (RTE_BIT64 k)]> (a_mask a).
Proof.
  intros Hi Hdf Hmask Hk Hlen Hd. unfold enable_commit.
  rewrite (data_get df k dfd) by (done || lia). cbn [mbind cres_mbind].
  rewrite put_dfd_spec by done. cbn [mbind cres_mbind]. unfold put_df.
  erewrite cset_lookup by done. cbn [mbind cres_mbind]. cbn [a_mask add_ref set_features set_runtime].
  erewrite cset_lookup by done. cbn [mbind cres_mbind].
  rewrite land_RTE_BIT64, testbit_set, bool_decide_true, orb_true_r by done.
  cbn [negb verify mbind cres_mbind]. eexists _, _. split; [done|].
  split; [cbn; apply lookup_insert_eq|]. split; [done|]. split; [|done].
  eexists. split; [|reflexivity]. intros g. cbn. by destruct (_ =? _).
Qed.

(** The state after an operation gave up on the links. *)
Lemma put_df_spec a index df df0 : 0 <= index -> a_by_index a !! Z.to_nat index = Some df0 ->
  put_df a index df = Ret (set_runtime a (a_runtime a) (<[Z.to_nat index := df]> (a_by_index a)) (a_mask a)).
Proof. intros. unfold put_df. by erewrite cset_lookup. Qed.

(** What [dao_graph_feature_enable] first stores in the slot. *)
Definition fresh_dfd (f : dao_graph_feature_node_list) (data : Z) : dao_graph_feature_data :=
  {| fd_data := data; fd_index := DAO_GRAPH_FEATURE_INVALID_VALUE; fd_edge_this := fi_edge f;
     fd_edge_next := DAO_GRAPH_FEATURE_INVALID_VALUE; fd_node_info := fi_ptr f |}.

Definition fresh_df (df : dao_graph_feature) (k : Z) (dfd : dao_graph_feature_data) : dao_graph_feature :=
  {| f_num_enabled := f_num_enabled df; f_data := <[Z.to_nat k := dfd]> (f_data df) |}.

(** Past its checks, enabling is linking and committing. *)
Lemma enable_unfold {E} `{RteGraph E} {B : RteBitops} (s : fa_state E) dfl a index mask df name f k data :
  arc_ready s dfl a index mask df ->
  feature_lookup dfl a name (fs_env s) = Ret (Some f, k) ->
  k < a_max_features a -> f_num_enabled df < a_max_features a -> Z.testbit mask k = false ->
  dao_graph_feature_enable dfl index name data s =
    ('(ok, df, e) ← link_prev a f (Z.land (lower_mask k) mask) (fresh_df df k (fresh_dfd f data)) (fs_env s);
     if negb ok then a ← put_df a index df; Ret (-1, with_arc (with_env s e) dfl a)
     else
       '(ok, df, e) ← link_next a f k (Z.land (upper_mask k) mask) df e;
       if negb ok then a ← put_df a index df; Ret (-1, with_arc (with_env s e) dfl a)
       else enable_commit dfl index k mask f a df e s).
Proof.
  intros Hready Hf Hk Hn Hbit.
  pose proof Hready as [Ha Hmain Hi Hdf Hmask Hnd Hlen Hmax [Im Il Ib Iu Ie]].
  destruct (feature_lookup_found _ _ _ _ _ _ Hlen Hf) as [Hk64 Hfk].
  unfold dao_graph_feature_enable.
  rewrite (validate_ready s dfl a index mask df name f k true) by (done || auto).
  cbn [mbind cres_mbind Z.eqb negb]. unfold dao_graph_feature_arc_get. rewrite Ha. cbn [mbind cres_mbind].
  rewrite Hf. cbn [mbind cres_mbind]. unfold dao_graph_feature_get.
  rewrite (proj2 (cget_Ret _ _ df)) by (split; [lia|done]). cbn [mbind cres_mbind].
  rewrite put_dfd_spec by done. cbn [mbind cres_mbind].
  rewrite u8_id, Z.eqb_refl by (unfold is_u8; lia). cbn [verify mbind cres_mbind].
  rewrite (proj2 (cget_Ret _ _ mask)) by (split; [lia|done]). done.
Qed.

(** The data after both links and the commit. *)
Lemma enable_result_ok {E} `{RteGraph E} (e : E) l mask k f data edge dfs dfs2 dfs3 :
  index_ok e l mask dfs -> 0 <= k < 64 -> Z.testbit mask k = false -> l !! Z.to_nat k = Some f ->
  relinked e l mask k f dfs dfs2 -> length dfs3 = 64%nat ->
  (forall j, j <> Z.to_nat k -> dfs3 !! j = dfs2 !! j) ->
  (forall t g, next_enabled mask k t -> l !! Z.to_nat t = Some g -> edge_between e f g = Some edge) ->
  ((forall i, k < i -> Z.testbit mask i = false) -> edge = DAO_GRAPH_FEATURE_INVALID_VALUE) ->
  index_ok e l (Z.lor mask (RTE_BIT64 k))
    (<[Z.to_nat k := set_index (set_edge_next (fresh_dfd f data) edge) k]> dfs3).
Proof.
  intros Hok Hk Hbit Hf Hrel Hlen Hsame Hnext Hlast.
  eapply (enable_index_ok e l mask k f dfs); try done.
  - by rewrite length_insert.
  - destruct Hrel as [[Hno Hr]|(p & dp & g & ed & (Hp1 & Hp2 & Hp3) & H1 & H2 & H3 & H4 & H5)]; [left|right].
    + split; [done|]. intros j Hj. rewrite list_lookup_insert_ne, Hsame by done. by apply Hr.
    + exists p, dp, g, ed. split_and!; try done.
      * by rewrite list_lookup_insert_ne, Hsame by lia.
      * intros j Hj Hjp. rewrite list_lookup_insert_ne, Hsame by done. by apply H5.
  - apply list_lookup_insert_eq. lia.
  - by split.
Qed.

Lemma no_edge_same {E} `{RteGraphLaws E} (e e' : E) f g : same_graph e e' -> no_edge e' f g -> no_edge e f g.
Proof.
  intros Hs [Hn|(n & e0 & e1 & Hs' & Hm)].
  - left. by rewrite (edge_between_same e) in Hn.
  - right. exists n, e0, e1. split; [by etrans|done].
Qed.

(** Past its checks, disabling is unlinking and clearing. *)
Lemma disable_unfold {E} `{RteGraph E} {B : RteBitops} (s : fa_state E) dfl a index mask df name f k :
  arc_ready s dfl a index mask df ->
  feature_lookup dfl a name (fs_env s) = Ret (Some f, k) ->
  k < a_max_features a -> Z.testbit mask k = true ->
  dao_graph_feature_disable dfl index name s =
    ('(rc, df, e) ← unlink_prev a (Z.land (lower_mask k) mask) (Z.land (upper_mask k) mask) df (fs_env s);
     if match rc with Some rc => rc <? 9 | None => false end
     then a ← put_df a index df; Ret (-1, with_arc (with_env s e) dfl a)
     else
       dfd ← dao_graph_feature_data_get df k;
       df ← put_dfd df k
         {| fd_data := fd_data dfd; fd_index := DAO_GRAPH_FEATURE_INVALID_VALUE;
            fd_edge_this := DAO_GRAPH_FEATURE_INVALID_VALUE;
            fd_edge_next := DAO_GRAPH_FEATURE_INVALID_VALUE;
            fd_node_info := fd_node_info dfd |};
       let df := {| f_num_enabled := u32 (f_num_enabled df + 1); f_data := f_data df |} in
       a ← put_df a index df;
       let a := add_ref a (fi_ptr f) (-1) in
       masks ← cset (a_mask a) index (Z.land mask (u64 (Z.lnot (RTE_BIT64 k))));
       Ret (0, with_arc (with_env s e) dfl (set_runtime a (a_runtime a) (a_by_index a) masks))).
Proof.
  intros Hready Hf Hk Hbit.
  pose proof Hready as [Ha Hmain Hi Hdf Hmask Hnd Hlen Hmax [Im Il Ib Iu Ie]].
  destruct (feature_lookup_found _ _ _ _ _ _ Hlen Hf) as [Hk64 Hfk].
  unfold dao_graph_feature_disable.
  rewrite (validate_ready s dfl a index mask df name f k false) by done.
  cbn [mbind cres_mbind Z.eqb negb]. unfold dao_graph_feature_arc_get. rewrite Ha. cbn [mbind cres_mbind].
  rewrite Hf. cbn [mbind cres_mbind]. unfold dao_graph_feature_get.
  rewrite (proj2 (cget_Ret _ _ df)) by (split; [lia|done]). cbn [mbind cres_mbind].
  rewrite u8_id, Z.eqb_refl by (unfold is_u8; lia). cbn [verify mbind cres_mbind].
  rewrite (proj2 (cget_Ret _ _ mask)) by (split; [lia|done]). done.
Qed.

(** Unlinking the first or the last enabled slot. *)
Lemma unlink_end_spec {E} `{RteGraphLaws E} {B : RteBitops} `{!RteBitopsLaws B} a mask k df (e : E) :
  index_ok e (a_features a) mask (f_data df) -> Z.of_nat (length (a_features a)) <= 64 -> 0 <= k < 64 ->
  (forall i, i < k -> Z.testbit mask i = false) \/ (forall i, k < i -> Z.testbit mask i = false) ->
  exists df', unlink_prev a (Z.land (lower_mask k) mask) (Z.land (upper_mask k) mask) df e = Ret (None, df', e) /\
    f_num_enabled df' = f_num_enabled df /\ length (f_data df') = 64%nat /\
    ((forall i, i < k -> Z.testbit mask i = false) /\
     (forall s, s <> Z.to_nat k -> f_data df' !! s = f_data df !! s) \/
     exists p dp, prev_enabled mask p k /\ (forall i, k < i -> Z.testbit mask i = false) /\
       f_data df !! Z.to_nat p = Some dp /\
       f_data df' !! Z.to_nat p = Some (set_edge_next dp DAO_GRAPH_FEATURE_INVALID_VALUE) /\
       forall s, s <> Z.to_nat k -> s <> Z.to_nat p -> f_data df' !! s = f_data df !! s).
Proof.
  intros [Im Il Ib Iu Ie] Hl64 Hk Hend. unfold unlink_prev.
  destruct (prev_slot_spec mask k) as [[-> Hno]|(Hp0 & Hp & Hbit & Hbet)]; [done..| |].
  - exists df. cbn. split_and!; try done. by left.
  - rewrite (proj2 (Z.eqb_neq _ 0)) by done. set (p := rte_fls_u64 _ - 1) in *.
    assert (forall i, k < i -> Z.testbit mask i = false) as Hlast.
    { destruct Hend as [Hno|?]; [rewrite Hno in Hbit by lia; done|done]. }
    destruct (Ie p) as (dfd & g & Hd & Hg & []); [lia|done|].
    rewrite (data_get df p dfd) by (done || lia). cbn [mbind cres_mbind].
    rewrite put_dfd_spec by (done || lia). cbn [mbind cres_mbind].
    pose proof (next_slot_spec mask k Im Hk) as Hn. destruct (rte_bsf64_safe _) as [t|].
    { destruct Hn as (_ & ? & Hb & _). rewrite Hlast in Hb by done. done. }
    eexists. split; [done|]. cbn. rewrite length_insert. split_and!; try done.
    right. exists p, dfd. split; [by split|]. split_and!; try done.
    + apply list_lookup_insert_eq. lia.
    + intros j _ Hj. by rewrite list_lookup_insert_ne.
Qed.

(** Between two enabled slots the inner block is entered, and its result is
    below 9 on both branches. *)
Lemma unlink_middle_spec {E} `{RteGraphLaws E} {B : RteBitops} `{!RteBitopsLaws B}
    a mask k p t gp gt df (e : E) :
  index_ok e (a_features a) mask (f_data df) -> NoDup (fi_ptr <$> a_features a) ->
  Z.of_nat (length (a_features a)) <= 64 -> 0 <= k < 64 ->
  prev_enabled mask p k -> next_enabled mask k t ->
  a_features a !! Z.to_nat p = Some gp -> a_features a !! Z.to_nat t = Some gt ->
  exists rc df' e', unlink_prev a (Z.land (lower_mask k) mask) (Z.land (upper_mask k) mask) df e =
      Ret (rc, df', e') /\ match rc with Some rc => rc <? 9 | None => false end = true /\
    exists dfd, f_data df' !! Z.to_nat p = Some dfd /\
      (fd_edge_next dfd = DAO_GRAPH_FEATURE_INVALID_VALUE /\ no_edge e gp gt \/
       edge_between e gp gt = Some (fd_edge_next dfd)).
Proof.
  intros [Im Il Ib Iu Ie] Hnd Hl64 Hk Hp Ht Hgp Hgt. unfold unlink_prev.
  destruct (prev_slot_spec mask k) as [[_ Hno]|(Hp0 & Hp1 & Hp2 & Hp3)]; [done..| |].
  { destruct Hp as (? & Hb & _). rewrite Hno in Hb by lia. done. }
  rewrite (proj2 (Z.eqb_neq _ 0)) by done.
  rewrite (prev_enabled_fun mask _ p k ltac:(by split) Hp). destruct Hp as (Hpk & Hpb & _).
  destruct (Ie p) as (dp & g & Hdp & Hg & [_ Sp _ _ _]); [lia|done|]. simplify_eq.
  rewrite (data_get df p dp) by (done || lia). cbn [mbind cres_mbind].
  rewrite put_dfd_spec by (done || lia). cbn [mbind cres_mbind].
  pose proof (next_slot_spec mask k Im Hk) as Hn. destruct (rte_bsf64_safe _) as [t'|].
  2:{ destruct Ht as (? & Hb & _). rewrite Hn in Hb by done. done. }
  destruct Hn as [Ht64 Hn]. assert (t' = t) as -> by (by eapply next_enabled_fun). destruct Ht as (Hkt & Htb & _).
  destruct (Ie t) as (dt & g & Hdt & Hg' & [_ St _ _ _]); [lia|done|]. simplify_eq.
  erewrite (data_get _ t); [|lia|cbn; rewrite list_lookup_insert_ne by lia; exact Hdt]. cbn [mbind cres_mbind].
  cbn [fd_node_info set_edge_next]. rewrite Sp, St.
  rewrite (node_of_slot a (Z.to_nat p) gp), (node_of_slot a (Z.to_nat t) gt) by done. cbn [mbind cres_mbind].
  destruct (get_existing_edge _ _ e) as [o e'] eqn:Eg.
  apply get_existing_edge_spec in Eg as (_ & _ & Ho). destruct o as [edge|].
  - rewrite put_dfd_spec by (cbn; rewrite ?length_insert; done || lia). cbn [mbind cres_mbind].
    eexists _, _, e'. split; [done|]. split; [done|]. eexists. split.
    { cbn. apply list_lookup_insert_eq. rewrite length_insert. lia. }
    right. destruct Ho as [Ho|[? _]]; [|done]. cbn. by rewrite Ho.
  - eexists _, _, e'. split; [done|]. split; [done|]. eexists.
    split; [cbn; apply list_lookup_insert_eq; lia|]. left. split; [done|].
    destruct Ho as [Ho|[_ (n & e1 & Hm)]]; [left; done|right; exists n, e, e1; done].
Qed.

(** ** Adding features *)

Section add.
Context {E : Type} `{RteGraphLaws E}.

(** [e'] has the names and edges of [e], and possibly more edges at the end. *)
Definition graph_grows (e e' : E) : Prop :=
  (forall id, exists new, rte_node_edge_get id e' = rte_node_edge_get id e ++ new) /\
  (forall id, rte_node_id_to_name id e' = rte_node_id_to_name id e).

#[global] Instance graph_grows_preorder : PreOrder graph_grows.
Proof.
  split.
  - intros e. split; [|done]. intros id. exists []. by rewrite app_nil_r.
  - intros e1 e2 e3 [H1 H2] [H3 H4]. split; intros id.
    + destruct (H1 id) as [n1 E1], (H3 id) as [n2 E2]. exists (n1 ++ n2). by rewrite E2, E1, app_assoc.
    + by rewrite H4.
Qed.

Lemma same_graph_grows e e' : same_graph e e' -> graph_grows e e'.
Proof. intros [H1 H2]. split; [|done]. intros id. exists []. by rewrite H1, app_nil_r. Qed.

Lemma edge_scan_found child names : forall i edge, 0 <= i -> i + Z.of_nat (length names) < 0x10000 ->
  edge_scan child names i = Some edge ->
  i <= edge /\ exists nm, names !! Z.to_nat (edge - i) = Some nm /\ strstr child nm = true.
Proof.
  induction names as [|nm names IH]; intros i edge Hi Hl; cbn; [done|]. cbn [length] in Hl.
  destruct (strstr child nm) eqn:Es.
  - intros [= <-]. rewrite u16_id by (unfold is_u16; lia). rewrite Z.sub_diag. split; [lia|]. by exists nm.
  - intros Hr. apply IH in Hr as (Hle & nm' & Hn & Hs); [|lia|lia]. split; [lia|]. exists nm'.
    replace (Z.to_nat (edge - i)) with (S (Z.to_nat (edge - (i + 1)))) by lia. done.
Qed.

Lemma strstr_refl s : strstr s s = true.
Proof.
  unfold strstr. assert (String.prefix s s = true) as Hp.
  { induction s as [|c s IH]; cbn; [done|]. by destruct (Ascii.ascii_dec c c). }
  destruct s as [|c s]; [done|]. cbn -[String.prefix]. by rewrite Hp.
Qed.

(** Connecting two nodes only adds edges, and the edge it returns carries a
    name that the child's name contains. *)
Lemma connect_spec p c (e : E) o e' :
  connect_graph_nodes p c e = (o, e') ->
  graph_grows e e' /\ live e' = live e /\
  (forall edge, Z.of_nat (length (rte_node_edge_get (node_id p) e)) < 0xFFFF -> o = Some edge -> 0 <= edge /\ exists nm,
     rte_node_edge_get (node_id p) e' !! Z.to_nat edge = Some nm /\ strstr (node_name c) nm = true).
Proof.
  unfold connect_graph_nodes. intros Hc.
  destruct (get_existing_edge p c e) as [[edge|] e1] eqn:Eg;
    apply get_existing_edge_spec in Eg as (Hs & Hl & Ho).
  - simplify_eq. split; [by apply same_graph_grows|]. split; [done|]. intros edge' Hlen [= ->].
    destruct Ho as [Ho|[? _]]; [|done]. symmetry in Ho.
    apply edge_scan_found in Ho as (Hle & nm & Hn & Hst); [|lia|lia].
    split; [done|]. exists nm. rewrite Z.sub_0_r in Hn. by rewrite (proj1 Hs).
  - destruct (rte_node_edge_update _ _ _ e1) as [rc e2] eqn:Eu.
    apply edge_append_spec in Eu as (U1 & U2 & U3).
    assert (graph_grows e1 e2) as Hg.
    { split; [|done]. intros id. rewrite U1. case_bool_decide; [by eexists|exists []; by rewrite app_nil_r]. }
    assert (graph_grows e e2) as Hg' by (etrans; [by apply same_graph_grows|done]).
    destruct (Z.eqb_spec rc RTE_EDGE_ID_INVALID) as [Hrc|Hrc]; simplify_eq;
      (split; [done|]; split; [congruence|]); [done|].
    intros edge Hlen [= <-]. rewrite edge_count_spec. rewrite !U1, bool_decide_true by done.
    rewrite length_app. cbn [length]. rewrite (proj1 Hs).
    rewrite u16_id by (unfold is_u16; lia). split; [lia|]. exists (node_name c).
    split; [|apply strstr_refl]. rewrite lookup_app_r by lia.
    replace (_ - _)%nat with 0%nat by lia. done.
Qed.

Lemma connect_before_grows n b : forall l fl (e : E),
  graph_grows e (connect_before n b l fl e) /\ live (connect_before n b l fl e) = live e.
Proof.
  induction l as [|g l IH]; intros fl e; cbn [connect_before]; [done|].
  set (X := if strncmp_eq _ _ _ then _ else _).
  assert (graph_grows e X.2 /\ live X.2 = live e) as [H1 L1].
  { unfold X. destruct (strncmp_eq _ _ _); [|done].
    destruct (connect_graph_nodes n (fi_node g) e) as [o e1] eqn:Ec. by apply connect_spec in Ec as (? & ? & _). }
  destruct X as [fl1 e1]. cbn in H1, L1.
  assert (graph_grows e1 (if fl1 then (connect_graph_nodes (fi_node g) n e1).2 else e1) /\
    live (if fl1 then (connect_graph_nodes (fi_node g) n e1).2 else e1) = live e1) as [H2 L2].
  { destruct fl1; [|done]. destruct (connect_graph_nodes _ _ e1) as [o e2] eqn:Ec.
    by apply connect_spec in Ec as (? & ? & _). }
  destruct (IH fl1 (if fl1 then (connect_graph_nodes (fi_node g) n e1).2 else e1)) as [H3 L3].
  split; [by do 2 (etrans; [done|])|congruence].
Qed.

Lemma connect_after_grows n b : forall l fl (e : E),
  graph_grows e (connect_after n b l fl e) /\ live (connect_after n b l fl e) = live e.
Proof.
  induction l as [|g l IH]; intros fl e; cbn [connect_after]; [done|].
  set (e1 := if fl then (connect_graph_nodes n (fi_node g) e).2 else e).
  assert (graph_grows e e1 /\ live e1 = live e) as [H1 L1].
  { unfold e1. destruct fl; [|done]. destruct (connect_graph_nodes _ _ e) as [o e2] eqn:Ec.
    by apply connect_spec in Ec as (? & ? & _). }
  set (X := if strncmp_eq _ _ _ then _ else _).
  assert (graph_grows e1 X.2 /\ live X.2 = live e1) as [H2 L2].
  { unfold X. destruct (strncmp_eq _ _ _); [|done].
    destruct (connect_graph_nodes (fi_node g) n e1) as [o e2] eqn:Ec. by apply connect_spec in Ec as (? & ? & _). }
  destruct X as [fl1 e2]. cbn in H2, L2. destruct (IH fl1 e2) as [H3 L3].
  split; [by do 2 (etrans; [done|])|congruence].
Qed.

(** The name of a feature, as lookups compare it. *)
Definition short_name (f : dao_graph_feature_node_list) : string :=
  String.substring 0 RTE_GRAPH_NAMESIZE (node_name (fi_node f)).

(** An arc's feature list: features of this arc, registered under their
    names, at distinct live addresses and with distinct names. *)
Record features_wf (e : E) (dfl : Z) (l : list dao_graph_feature_node_list) : Prop := {
  fw_arc : Forall (fun f => fi_arc f = dfl) l;
  fw_name : Forall (fun f => rte_node_id_to_name (node_id (fi_node f)) e = Some (node_name (fi_node f))) l;
  fw_live : Forall (fun f => fi_ptr f ∈ live e) l;
  fw_ptrs : NoDup (fi_ptr <$> l);
  fw_names : NoDup (short_name <$> l);
  fw_len : Z.of_nat (length l) <= 64;
}.

(** A lookup in a well-formed list finds the feature of that name, or none has it. *)
Lemma feature_scan_wf e dfl name : forall l slot,
  Forall (fun f => fi_arc f = dfl) l ->
  Forall (fun f => rte_node_id_to_name (node_id (fi_node f)) e = Some (node_name (fi_node f))) l ->
  0 <= slot -> slot + Z.of_nat (length l) < 0x100000000 ->
  let nm := String.substring 0 RTE_GRAPH_NAMESIZE name in
  (exists l1 f l2, l = l1 ++ f :: l2 /\ short_name f = nm /\
     feature_scan dfl name l slot e = Ret (Some f, slot + Z.of_nat (length l1))) \/
  ((nm ∉ (short_name <$> l)) /\ feature_scan dfl name l slot e = Ret (None, slot + Z.of_nat (length l))).
Proof.
  induction l as [|g l IH]; intros slot Ha Hn Hs Hlen nm; cbn.
  - right. split; [apply not_elem_of_nil|]. by rewrite Z.add_0_r.
  - apply Forall_cons in Ha as [-> Ha], Hn as [Hg Hn]. rewrite Z.eqb_refl, Hg.
    cbn [verify mbind cres_mbind]. unfold strncmp_eq. case_bool_decide as Heq.
    + left. exists [], g, l. split; [done|]. split; [done|]. cbn. by rewrite Z.add_0_r.
    + cbn [length] in Hlen. rewrite u32_id by (unfold is_u32; lia).
      destruct (IH (slot + 1)) as [(l1 & f & l2 & -> & Hf & Hr)|[Hno Hr]]; [done..|lia|lia| |].
      * left. exists (g :: l1), f, l2. split; [done|]. split; [done|]. rewrite Hr. cbn [length].
        do 2 f_equal. lia.
      * right. split; [|rewrite Hr; do 2 f_equal; lia].
        apply not_elem_of_cons. split; [|done]. intros ?. by apply Heq.
Qed.

Lemma insert_after_app x l1 g l2 : NoDup (fi_ptr <$> l1 ++ g :: l2) ->
  insert_after (fi_ptr g) x (l1 ++ g :: l2) = l1 ++ g :: x :: l2.
Proof.
  induction l1 as [|y l1 IH]; cbn; intros Hnd.
  - by rewrite Z.eqb_refl.
  - apply NoDup_cons in Hnd as [Hy Hnd]. rewrite (proj2 (Z.eqb_neq _ _)), IH by done || (
      intros Heq; apply Hy; rewrite Heq, fmap_app; apply elem_of_app; right; apply list_elem_of_here).
    done.
Qed.

Lemma insert_before_app x l1 g l2 : NoDup (fi_ptr <$> l1 ++ g :: l2) ->
  insert_before (fi_ptr g) x (l1 ++ g :: l2) = l1 ++ x :: g :: l2.
Proof.
  induction l1 as [|y l1 IH]; cbn; intros Hnd.
  - by rewrite Z.eqb_refl.
  - apply NoDup_cons in Hnd as [Hy Hnd]. rewrite (proj2 (Z.eqb_neq _ _)), IH by done || (
      intros Heq; apply Hy; rewrite Heq, fmap_app; apply elem_of_app; right; apply list_elem_of_here).
    done.
Qed.
End add.

Section add_theorem.
Context {E : Type} `{RteGraphLaws E}.

Lemma features_wf_grows (e e' : E) dfl l :
  graph_grows e e' -> live e ⊆ live e' -> features_wf e dfl l -> features_wf e' dfl l.
Proof.
  intros [_ Hn] Hl [W1 W2 W3 W4 W5 W6]. split; try done.
  - eapply Forall_impl; [exact W2|]. intros f Hf. cbn. by rewrite Hn.
  - eapply Forall_impl; [exact W3|]. intros f Hf. by apply Hl.
Qed.

Lemma features_wf_insert (e : E) dfl l1 l2 f :
  features_wf e dfl (l1 ++ l2) -> fi_arc f = dfl ->
  rte_node_id_to_name (node_id (fi_node f)) e = Some (node_name (fi_node f)) ->
  fi_ptr f ∈ live e -> fi_ptr f ∉ (fi_ptr <$> l1 ++ l2) -> short_name f ∉ (short_name <$> l1 ++ l2) ->
  Z.of_nat (length (l1 ++ l2)) < 64 -> features_wf e dfl (l1 ++ f :: l2).
Proof.
  intros [] Ha Hn Hl Hp Hs Hlen.
  assert (l1 ++ f :: l2 ≡ₚ f :: (l1 ++ l2)) as Hperm by (symmetry; apply Permutation_middle).
  split; rewrite ?Hperm; cbn; try (by constructor).
  lia.
Qed.

Lemma constraint_lookup_wf (e : E) dfl a c : features_wf e dfl (a_features a) ->
  match c with
  | None => constraint_lookup dfl a c e = Ret (inr None)
  | Some (_, name) =>
      (exists l1 g l2, a_features a = l1 ++ g :: l2 /\
         short_name g = String.substring 0 RTE_GRAPH_NAMESIZE name /\
         constraint_lookup dfl a c e = Ret (inr (Some g))) \/
      constraint_lookup dfl a c e = Ret (inl tt)
  end.
Proof.
  intros []. destruct c as [[ptr name]|]; [|done]. cbn.
  destruct (feature_scan_wf e dfl name (a_features a) 0) as [(l1 & g & l2 & Hl & Hg & ->)|[_ ->]];
    [done..|lia| |by right].
  left. exists l1, g, l2. done.
Qed.

(** The place the constraints ask for, between [l1] and [l2]. *)
Definition placed (after before : option (Z * string)) (l1 l2 : list dao_graph_feature_node_list) : Prop :=
  match after with
  | Some (_, x) => exists l0 g, l1 = l0 ++ [g] /\ short_name g = String.substring 0 RTE_GRAPH_NAMESIZE x
  | None =>
      match before with
      | Some (_, y) => exists g l3, l2 = g :: l3 /\ short_name g = String.substring 0 RTE_GRAPH_NAMESIZE y
      | None => l2 = []
      end
  end.

(** The new object [f] for node [n] is in the list at its place, the list is
    well formed, and the edge [f] records leaves the start node. *)
Definition added (e : E) (dfl : Z) (a : dao_graph_feature_arc) (n : rte_node_register)
    (after before : option (Z * string)) (l : list dao_graph_feature_node_list) : Prop :=
  exists f l1 l2, l = l1 ++ f :: l2 /\ a_features a = l1 ++ l2 /\ fi_node f = n /\ features_wf e dfl l /\
    (exists nm, rte_node_edge_get (node_id (a_start a)) e !! Z.to_nat (fi_edge f) = Some nm /\
       strstr (node_name n) nm = true) /\ placed after before l1 l2.

(** The outcomes of a call in state [s]: failure leaves the arcs alone. *)
Definition add_outcome (s : fa_state E) (dfl : Z) (a : dao_graph_feature_arc) (n : rte_node_register)
    (after before : option (Z * string)) (r : cres (Z * fa_state E)) : Prop :=
  exists rc s', r = Ret (rc, s') /\ graph_grows (fs_env s) (fs_env s') /\
    (rc = -1 /\ fs_arcs s' = fs_arcs s \/
     rc = 0 /\ exists l, fs_arcs s' = <[dfl := set_features a l]> (fs_arcs s) /\
       added (fs_env s') dfl a n after before l).

Lemma add_fails s dfl a n after before (e : E) : graph_grows (fs_env s) e ->
  add_outcome s dfl a n after before (Ret (-1, with_env s e)).
Proof. intros He. exists (-1), (with_env s e). split; [done|]. split; [done|]. by left. Qed.

(** A new object, allocated since [e0], that fits into the list. *)
Record new_feature (e0 e : E) (dfl : Z) (a : dao_graph_feature_arc) (f : dao_graph_feature_node_list) : Prop := {
  nf_wf : features_wf e0 dfl (a_features a);
  nf_grows : graph_grows e0 e;
  nf_live : live e = {[fi_ptr f]} ∪ live e0;
  nf_fresh : fi_ptr f ∉ live e0;
  nf_arc : fi_arc f = dfl;
  nf_name : rte_node_id_to_name (node_id (fi_node f)) e0 = Some (node_name (fi_node f));
  nf_new : short_name f ∉ (short_name <$> a_features a);
  nf_len : Z.of_nat (length (a_features a)) < 64;
  nf_edge : exists nm, rte_node_edge_get (node_id (a_start a)) e !! Z.to_nat (fi_edge f) = Some nm /\
    strstr (node_name (fi_node f)) nm = true;
}.

Lemma new_feature_grows e0 e e' dfl a f : graph_grows e e' -> live e' = live e ->
  new_feature e0 e dfl a f -> new_feature e0 e' dfl a f.
Proof.
  intros Hg Hl []. split; try done; [by etrans|congruence|].
  destruct nf_edge0 as (nm & He & Hs). exists nm. split; [|done].
  destruct (proj1 Hg (node_id (a_start a))) as [new ->]. by apply lookup_app_l_Some.
Qed.

Lemma new_feature_old e0 e dfl a f : new_feature e0 e dfl a f -> features_wf e dfl (a_features a).
Proof. intros []. eapply features_wf_grows; [done| |done]. rewrite nf_live0. set_solver. Qed.

Lemma added_intro e0 e dfl a after before f l1 l2 : new_feature e0 e dfl a f ->
  a_features a = l1 ++ l2 -> placed after before l1 l2 ->
  added e dfl a (fi_node f) after before (l1 ++ f :: l2).
Proof.
  intros Hnew Hsplit Hpos. pose proof (new_feature_old _ _ _ _ _ Hnew) as Hwf. destruct Hnew.
  exists f, l1, l2. do 3 (split; [done|]). split; [|done].
  rewrite Hsplit in *. apply features_wf_insert; try done.
  - by rewrite (proj2 nf_grows0).
  - rewrite nf_live0. set_solver.
  - intros (g & Heq & Hin)%list_elem_of_fmap. destruct nf_wf0 as [_ _ Hlv _ _ _].
    rewrite Forall_forall in Hlv. apply Hlv in Hin. congruence.
Qed.

(** The three places. *)
Lemma added_after e0 e dfl a ap x before f l1 g l2 : new_feature e0 e dfl a f ->
  a_features a = l1 ++ g :: l2 -> short_name g = String.substring 0 RTE_GRAPH_NAMESIZE x ->
  added e dfl a (fi_node f) (Some (ap, x)) before (insert_after (fi_ptr g) f (a_features a)).
Proof.
  intros Hnew Hl Hg. rewrite Hl, insert_after_app by (rewrite <- Hl; apply Hnew).
  change (l1 ++ g :: f :: l2) with (l1 ++ [g] ++ f :: l2). rewrite app_assoc.
  eapply added_intro; [done|by rewrite Hl, <- app_assoc|]. cbn. eauto.
Qed.

Lemma added_before e0 e dfl a bp y f l1 g l2 : new_feature e0 e dfl a f ->
  a_features a = l1 ++ g :: l2 -> short_name g = String.substring 0 RTE_GRAPH_NAMESIZE y ->
  added e dfl a (fi_node f) None (Some (bp, y)) (insert_before (fi_ptr g) f (a_features a)).
Proof.
  intros Hnew Hl Hg. rewrite Hl, insert_before_app by (rewrite <- Hl; apply Hnew).
  eapply added_intro; [done|done|]. cbn. eauto.
Qed.

Lemma added_last e0 e dfl a f : new_feature e0 e dfl a f ->
  added e dfl a (fi_node f) None None (a_features a ++ [f]).
Proof. intros Hnew. eapply added_intro; [done|by rewrite app_nil_r|done]. Qed.

Lemma add_constrained_spec s dfl a f after before (e : E) :
  new_feature (fs_env s) e dfl a f ->
  add_outcome s dfl a (fi_node f) after before (add_constrained dfl a f after before e s).
Proof.
  intros Hnew. unfold add_constrained.
  assert (forall e', graph_grows e e' -> add_outcome s dfl a (fi_node f) after before
    (Ret (-1, with_env s (free (fi_ptr f) e')))) as Hfree.
  { intros e' He. apply add_fails. destruct (free_spec (fi_ptr f) e') as (F1 & F2 & _).
    etrans; [apply Hnew|]. etrans; [done|]. by apply same_graph_grows. }
  assert (forall l e', new_feature (fs_env s) e' dfl a f -> added e' dfl a (fi_node f) after before l ->
    add_outcome s dfl a (fi_node f) after before (Ret (0, with_arc (with_env s e') dfl (set_features a l)))) as Hdone.
  { intros l e' Hn' Hadd. eexists _, _. split; [done|]. split; [apply Hn'|]. right. split; [done|]. by exists l. }
  pose proof (nf_wf _ _ _ _ _ Hnew) as [_ _ _ Hnd _ _].
  pose proof (constraint_lookup_wf e dfl a before (new_feature_old _ _ _ _ _ Hnew)) as Hb.
  set (e3 := match before with Some (_, b) => connect_before (fi_node f) b (a_features a) true e | None => e end).
  assert (graph_grows e e3 /\ live e3 = live e) as [G3 L3].
  { unfold e3. destruct before as [[? ?]|]; [apply connect_before_grows|done]. }
  assert (new_feature (fs_env s) e3 dfl a f) as Hnew3 by (by eapply new_feature_grows).
  pose proof (constraint_lookup_wf e3 dfl a after (new_feature_old _ _ _ _ _ Hnew3)) as Hc.
  destruct before as [[bp y]|]; [destruct Hb as [(b1 & gb & b2 & Hb1 & Hb2 & ->)| ->]|rewrite Hb];
    cbn [mbind cres_mbind]; [|by apply Hfree|]; fold e3;
    (destruct after as [[ap x]|];
      [destruct Hc as [(l1 & g & l2 & Hl1 & Hg & ->)| ->]|rewrite Hc]); cbn [mbind cres_mbind];
    try (by apply Hfree).
  all: apply Hdone; try done.
  all: try (eapply new_feature_grows; [apply connect_after_grows..|done]).
  all: try (eapply added_after; [eapply new_feature_grows; [apply connect_after_grows..|done]|done..]).
  - by eapply added_before.
  - by eapply added_last.
Qed.

End add_theorem.

(** ** Properties *)

(** C11. Enabling a feature links it between its enabled neighbours. On an
    index whose data describes the enabled set [mask] - every enabled slot
    knows its edge from the start node and the edge to the next enabled
    feature's node - enabling an added feature that is not yet enabled either
    returns 0, and then the data describes [mask] with the feature's slot
    added, with the application's data in that slot; or it returns -1, which
    happens only when no edge to or from a neighbour can be found, and then
    the enabled set is unchanged. Other indexes and the node graph do not
    change. *)
Theorem feature_enable_links {E} `{RteGraphLaws E} {B : RteBitops} `{!RteBitopsLaws B}
    (s : fa_state E) (dfl : Z) (a : dao_graph_feature_arc) (index mask : Z) (df : dao_graph_feature)
    (name : option string) (f : dao_graph_feature_node_list) (k data : Z) :
  arc_ready s dfl a index mask df ->
  feature_lookup dfl a name (fs_env s) = Ret (Some f, k) ->
  k < a_max_features a -> f_num_enabled df < a_max_features a -> Z.testbit mask k = false ->
  exists rc s' a', dao_graph_feature_enable dfl index name data s = Ret (rc, s') /\
    fs_arcs s' !! dfl = Some a' /\ same_graph (fs_env s) (fs_env s') /\
    (forall j, j <> Z.to_nat index ->
       a_by_index a' !! j = a_by_index a !! j /\ a_mask a' !! j = a_mask a !! j) /\
    (rc = 0 /\ (exists df' dfd,
       a_mask a' !! Z.to_nat index = Some (Z.lor mask (RTE_BIT64 k)) /\
       a_by_index a' !! Z.to_nat index = Some df' /\
       index_ok (fs_env s') (a_features a') (Z.lor mask (RTE_BIT64 k)) (f_data df') /\
       f_data df' !! Z.to_nat k = Some dfd /\ fd_data dfd = data) \/
     rc = -1 /\ a_mask a' = a_mask a /\ a_features a' = a_features a /\
       ((exists p g, prev_enabled mask p k /\ a_features a !! Z.to_nat p = Some g /\ no_edge (fs_env s) g f) \/
        (exists t g, next_enabled mask k t /\ a_features a !! Z.to_nat t = Some g /\ no_edge (fs_env s) f g))).
Proof.
  intros Hready Hf Hk Hn Hbit.
  pose proof Hready as [Ha Hmain Hi Hdf Hmask Hnd Hlen Hmax Hok].
  destruct (feature_lookup_found _ _ _ _ _ _ Hlen Hf) as [Hk64 Hfk].
  rewrite (enable_unfold s dfl a index mask df name f k data) by done.
  pose proof (io_len _ _ _ _ Hok) as Il.
  destruct (link_prev_spec a f mask k (f_data df) (fresh_df df k (fresh_dfd f data)) (fs_env s))
    as (ok & df2 & e2 & -> & G2 & _ & N2 & L2 & K2 & C2); try done.
  { cbn. by rewrite length_insert. } { intros j Hj. cbn. by rewrite list_lookup_insert_ne. }
  cbn [mbind cres_mbind]. destruct ok; cbn [negb].
  2:{ destruct C2 as [-> C2]. erewrite put_df_spec by (done || lia). cbn [mbind cres_mbind].
      eexists _, _, _. split; [done|]. split; [cbn; apply lookup_insert_eq|]. split; [done|].
      split; [intros j Hj; cbn; by rewrite list_lookup_insert_ne|right; split_and!; try done; left; done]. }
  destruct (link_next_spec a f mask k (f_data df) (fresh_dfd f data) df2 e2)
    as (ok & df3 & e3 & -> & G3 & _ & N3 & L3 & K3 & C3); try done.
  { by eapply index_ok_same. }
  { intros j Hj. rewrite K2 by lia. cbn. by rewrite list_lookup_insert_ne by lia. }
  { rewrite K2 by lia. cbn. apply list_lookup_insert_eq. lia. }
  cbn [mbind cres_mbind]. destruct ok; cbn [negb].
  2:{ destruct C3 as [-> (t & g & C3 & C4 & C5)]. erewrite put_df_spec by (done || lia). cbn [mbind cres_mbind].
      eexists _, _, _. split; [done|]. split; [cbn; apply lookup_insert_eq|].
      split; [cbn; by etrans|]. split; [intros j Hj; cbn; by rewrite list_lookup_insert_ne|].
      right; split_and!; try done; right. exists t, g. split_and!; try done. by eapply no_edge_same. }
  destruct C3 as (edge & Hk3 & C3 & C4).
  destruct (enable_commit_spec s dfl a index mask df3 df k f (set_edge_next (fresh_dfd f data) edge) e3)
    as (s' & a' & -> & Ha' & <- & (h & Hh & Hl) & Hby & Hms); [done || lia..|].
  exists 0, s', a'. split; [done|]. split; [done|]. split; [by etrans|].
  split; [intros j Hj; rewrite Hby, Hms; by rewrite !list_lookup_insert_ne|].
  left. split; [done|]. eexists _, _. rewrite Hms, Hby.
  split; [apply list_lookup_insert_eq; by eapply lookup_lt_Some|].
  split; [apply list_lookup_insert_eq; by eapply lookup_lt_Some|]. cbn -[insert].
  split; [|split; [apply list_lookup_insert_eq; lia|done]].
  rewrite Hl. apply index_ok_fmap; [done|]. apply (index_ok_same (fs_env s)); [by etrans|].
  eapply enable_result_ok; try done. intros t g Ht Hg.
  rewrite <- (edge_between_same (fs_env s) e2) by done. by apply (C3 t).
Qed.

(** Disabling the first or the last enabled feature of an index unlinks
    it: the call returns 0, the slot is cleared from the enabled set, and the
    index data describes the remaining set - the feature before it, if any, no
    longer has a next edge. The number of enabled features of the index is
    incremented by the call, not decremented. Other indexes do not change. *)
Theorem feature_disable_end {E} `{RteGraphLaws E} {B : RteBitops} `{!RteBitopsLaws B}
    (s : fa_state E) (dfl : Z) (a : dao_graph_feature_arc) (index mask : Z) (df : dao_graph_feature)
    (name : option string) (f : dao_graph_feature_node_list) (k : Z) :
  arc_ready s dfl a index mask df ->
  feature_lookup dfl a name (fs_env s) = Ret (Some f, k) ->
  k < a_max_features a -> Z.testbit mask k = true ->
  (forall i, i < k -> Z.testbit mask i = false) \/ (forall i, k < i -> Z.testbit mask i = false) ->
  let mask' := Z.land mask (u64 (Z.lnot (RTE_BIT64 k))) in
  exists s' a' df', dao_graph_feature_disable dfl index name s = Ret (0, s') /\
    fs_arcs s' !! dfl = Some a' /\ fs_env s' = fs_env s /\
    a_mask a' = <[Z.to_nat index := mask']> (a_mask a) /\
    a_by_index a' = <[Z.to_nat index := df']> (a_by_index a) /\
    index_ok (fs_env s') (a_features a') mask' (f_data df') /\
    f_num_enabled df' = u32 (f_num_enabled df + 1).
Proof.
  intros Hready Hf Hk Hbit Hend mask'.
  pose proof Hready as [Ha Hmain Hi Hdf Hmask Hnd Hlen Hmax Hok].
  destruct (feature_lookup_found _ _ _ _ _ _ Hlen Hf) as [Hk64 Hfk].
  rewrite (disable_unfold s dfl a index mask df name f k) by done.
  destruct (unlink_end_spec a mask k df (fs_env s)) as (df1 & -> & N1 & L1 & C1); [done..|].
  cbn [mbind cres_mbind].
  destruct (lookup_lt_is_Some_2 (f_data df1) (Z.to_nat k)) as [dfd Hd]; [lia|].
  rewrite (data_get df1 k dfd) by (done || lia). cbn [mbind cres_mbind].
  rewrite put_dfd_spec by done. cbn [mbind cres_mbind].
  erewrite put_df_spec by (done || lia). cbn [mbind cres_mbind]. cbn [a_mask add_ref set_features set_runtime].
  erewrite cset_lookup by (done || lia). cbn [mbind cres_mbind].
  eexists _, _, _. split; [done|]. split; [cbn; apply lookup_insert_eq|]. split; [done|].
  split; [done|]. split; [done|]. split; [|cbn; by rewrite N1]. cbn -[insert].
  apply index_ok_fmap; [intros g; by destruct (_ =? _)|].
  eapply (disable_index_ok _ _ _ _ (f_data df)); try done.
  - by rewrite length_insert.
  - apply list_lookup_insert_eq. lia.
  - done.
  - destruct C1 as [[Hno Hr]|(p & dp & Hp & Hlast & H1 & H2 & H3)]; [left|right].
    + split; [done|]. intros j Hj. by rewrite list_lookup_insert_ne, Hr by done.
    + exists p, dp. pose proof Hp as (? & _). split_and!; try done.
      * by rewrite list_lookup_insert_ne by lia.
      * intros j Hj Hjp. rewrite list_lookup_insert_ne by done. by apply H3.
Qed.

(** Disabling a feature between two enabled ones never succeeds. With
    enabled neighbours [p] and [t], [dao_graph_feature_disable] returns -1
    whether or not the edge from [p] to [t] exists, and leaves the feature
    enabled; but it has already redirected [p] to [t] (or to no edge), past
    the feature that stays enabled. *)
Theorem feature_disable_middle_fails {E} `{RteGraphLaws E} {B : RteBitops} `{!RteBitopsLaws B}
    (s : fa_state E) (dfl : Z) (a : dao_graph_feature_arc) (index mask : Z) (df : dao_graph_feature)
    (name : option string) (f gp gt : dao_graph_feature_node_list) (k p t : Z) :
  arc_ready s dfl a index mask df ->
  feature_lookup dfl a name (fs_env s) = Ret (Some f, k) ->
  k < a_max_features a -> Z.testbit mask k = true ->
  prev_enabled mask p k -> next_enabled mask k t ->
  a_features a !! Z.to_nat p = Some gp -> a_features a !! Z.to_nat t = Some gt ->
  exists s' a' df' dfd, dao_graph_feature_disable dfl index name s = Ret (-1, s') /\
    fs_arcs s' !! dfl = Some a' /\ a_mask a' = a_mask a /\
    a_by_index a' = <[Z.to_nat index := df']> (a_by_index a) /\
    f_data df' !! Z.to_nat p = Some dfd /\
    (fd_edge_next dfd = DAO_GRAPH_FEATURE_INVALID_VALUE /\ no_edge (fs_env s) gp gt \/
     edge_between (fs_env s) gp gt = Some (fd_edge_next dfd)).
Proof.
  intros Hready Hf Hk Hbit Hp Ht Hgp Hgt.
  pose proof Hready as [Ha Hmain Hi Hdf Hmask Hnd Hlen Hmax Hok].
  destruct (feature_lookup_found _ _ _ _ _ _ Hlen Hf) as [Hk64 Hfk].
  rewrite (disable_unfold s dfl a index mask df name f k) by done.
  destruct (unlink_middle_spec a mask k p t gp gt df (fs_env s)) as (rc & df1 & e1 & -> & Hrc & dfd & H1 & H2);
    [done..|].
  cbn [mbind cres_mbind]. rewrite Hrc. erewrite put_df_spec by (done || lia). cbn [mbind cres_mbind].
  eexists _, _, df1, dfd. split; [done|]. split; [cbn; apply lookup_insert_eq|]. done.
Qed.

(** C12. The fast path visits exactly the enabled features, in order. Starting
    at the start node, [dao_graph_feature_arc_has_feature] called with each
    feature it returned yields the enabled slots of the index in increasing
    order and then stops, for every enabled set that does not contain slot 63.
    From slot 63, which an arc of 64 features has, the code shifts by 64, which
    C leaves undefined. *)
Theorem steer_visits_enabled {B : RteBitops} `{!RteBitopsLaws B} (a : dao_graph_feature_arc)
    (index mask : Z) :
  cget (a_mask a) index = Ret mask -> is_u64 mask ->
  steer 66 a index DAO_GRAPH_FEATURE_INVALID_VALUE =
    if Z.testbit mask 63 then Fault
    else Ret (filter (fun i => Z.testbit mask i = true) (seqZ 0 64)).
Proof.
  intros Hmask Hm. change 66%nat with (S 65). generalize (Nat.le_refl 65). generalize 65%nat at 2 3.
  intros n Hn. cbn [steer]. unfold dao_graph_feature_arc_has_feature. rewrite Hmask.
  cbn [mbind cres_mbind]. destruct (Z.eqb_spec mask 0) as [->|Hne].
  { rewrite Z.bits_0. rewrite slots_none by (intros; apply Z.bits_0). done. }
  rewrite Z.eqb_refl. unfold dao_graph_feature_arc_has_first_feature. rewrite Hmask. cbn [mbind cres_mbind].
  pose proof (bsf64_safe_spec mask Hm) as Hsp. destruct (bsf64_safe mask) as [t|].
  - destruct Hsp as (Ht & Hb & Hlow). rewrite (steer_next a index mask) by (done || lia).
    change (filter _ (seqZ 0 64)) with (slots_after mask (-1)).
    rewrite (slots_after_next mask (-1) t); [by destruct (Z.testbit mask 63)|lia|lia|].
    split_and!; [lia|done|]. intros i Hi. apply Hlow. lia.
  - destruct (testbit_nonzero mask Hm Hne) as (i & _ & Hi). by rewrite Hsp in Hi.
Qed.

(** Adding a feature keeps the arc's order. On a well-formed arc, adding
    a registered node either returns -1 and leaves every arc as it is, or
    returns 0 and inserts one new feature for that node: directly after
    [after_feature] when that is given, else directly before [before_feature]
    when that is given, else at the end. The features already there keep their
    order, names and addresses stay distinct, at most 64 features are in the
    arc, and the new feature's recorded edge leaves the start node. The node
    graph only gains edges. *)
Theorem feature_add_ordered {E} `{RteGraphLaws E} (s : fa_state E) (dfl : Z) (a : dao_graph_feature_arc)
    (n : rte_node_register) (after before : option (Z * string)) :
  fs_arcs s !! dfl = Some a -> features_wf (fs_env s) dfl (a_features a) ->
  (exists dm, fs_main s = Some dm /\ am_ptr dm = a_main a) ->
  rte_node_id_to_name (node_id n) (fs_env s) = Some (node_name n) ->
  Z.of_nat (length (rte_node_edge_get (node_id (a_start a)) (fs_env s))) < 0xFFFF ->
  exists rc s', dao_graph_feature_add dfl (Some n) after before s = Ret (rc, s') /\
    graph_grows (fs_env s) (fs_env s') /\
    (rc = -1 /\ fs_arcs s' = fs_arcs s \/
     rc = 0 /\ exists l, fs_arcs s' = <[dfl := set_features a l]> (fs_arcs s) /\
       added (fs_env s') dfl a n after before l).
Proof.
  intros Ha Hwf (dm & Hdm & Hp) Hname Hlen. pose proof Hwf as [W1 W2 W3 W4 W5 W6].
  fold (add_outcome s dfl a n after before (dao_graph_feature_add dfl (Some n) after before s)).
  unfold dao_graph_feature_add, dao_graph_feature_arc_get. rewrite Ha. cbn [mbind cres_mbind].
  rewrite Hdm, Hp, Z.eqb_refl. cbn [verify mbind cres_mbind].
  assert (add_outcome s dfl a n after before (Ret (-1, s))) as Hfail.
  { pose proof (add_fails s dfl a n after before (fs_env s) ltac:(done)) as Hf. by destruct s. }
  destruct (negb (feature_arc_lookup dfl s)); [done|].
  destruct (negb (a_runtime a =? 0)); [done|].
  match goal with |- add_outcome _ _ _ _ _ _ (if ?b then _ else _) => destruct b; [done|] end.
  destruct (node_id n =? RTE_NODE_ID_INVALID); [done|]. cbn [feature_lookup].
  destruct (feature_scan_wf (fs_env s) dfl (node_name n) (a_features a) 0)
    as [(l1 & g & l2 & _ & _ & ->)|[Hnew ->]]; [done..|lia|done|].
  cbn [mbind cres_mbind]. unfold DAO_GRAPH_FEATURE_MAX_PER_ARC.
  destruct (Z.leb_spec 64 (0 + Z.of_nat (length (a_features a)))) as [|Hl64]; [done|].
  destruct (strstr (node_name n) _); [done|].
  destruct (connect_graph_nodes (a_start a) n (fs_env s)) as [[edge|] e1] eqn:Ec;
    apply connect_spec in Ec as (G1 & L1 & Hedge); [|by apply add_fails].
  destruct (malloc 64 e1) as [[p|] e2] eqn:Em; apply malloc_spec in Em as (M1 & M2 & M3);
    (assert (graph_grows (fs_env s) e2) as G2 by (etrans; [done|by apply same_graph_grows]));
    [|by apply add_fails].
  destruct M3 as [Hpn HL2], (Hedge edge Hlen eq_refl) as (_ & nm & Hnm & Hst).
  change n with (fi_node {| fi_ptr := p; fi_node := n; fi_ref_count := 0; fi_arc := dfl; fi_edge := edge |}) at 1.
  apply add_constrained_spec. split; cbn; try done; [congruence|congruence|].
  exists nm. by rewrite M1.
Qed.

(** ** Witnesses

    Three features alpha, beta and gamma at slots 0, 1 and 2 of the arc at
    address 200, with all edges between them. *)
Definition wit_node (id : Z) (name : string) : rte_node_register := {| node_name := name; node_id := id |}.

Definition wit_graph : ref_graph :=
  {| rg_names := <[0 := "start"%string]> (<[1 := "alpha"%string]> (<[2 := "beta"%string]>
       (<[3 := "gamma"%string]> (<[4 := "delta"%string]> ∅))));
     rg_edges := <[0 := ["alpha"; "beta"; "gamma"]%string]> (<[1 := ["beta"; "gamma"]%string]>
       (<[2 := ["gamma"]%string]> ∅));
     rg_live := {[100; 101; 102]}; rg_budget := 50 |}.

Definition wit_feature (p id : Z) (name : string) (edge : Z) : dao_graph_feature_node_list :=
  {| fi_ptr := p; fi_node := wit_node id name; fi_ref_count := 1; fi_arc := 200; fi_edge := edge |}.

Definition wit_features : list dao_graph_feature_node_list :=
  [wit_feature 100 1 "alpha" 0; wit_feature 101 2 "beta" 1; wit_feature 102 3 "gamma" 2].

Definition wit_dfd (i this next info : Z) : dao_graph_feature_data :=
  {| fd_data := 10 + i; fd_index := i; fd_edge_this := this; fd_edge_next := next; fd_node_info := info |}.

Definition wit_df (l : list dao_graph_feature_data) : dao_graph_feature :=
  {| f_num_enabled := 2; f_data := l ++ replicate (64 - length l) (wit_dfd 255 0 0 0) |}.

Definition wit_arc (rt mask : Z) (l : list dao_graph_feature_data) : dao_graph_feature_arc :=
  {| a_features := wit_features; a_name := "arc"; a_index := 0; a_main := 7;
     a_start := wit_node 0 "start"; a_max_features := 8; a_max_indexes := 1; a_runtime := rt;
     a_by_index := [wit_df l]; a_mask := [mask] |}.

Definition wit_state (a : dao_graph_feature_arc) : fa_state ref_graph :=
  Build_fa_state (Some {| am_ptr := 7; am_num := 1; am_max := 2; am_arcs := [200; DAO_GRAPH_FEATURE_ARC_INITIALIZER] |})
    {[200 := a]} wit_graph.

(** alpha and gamma enabled. *)
Definition wit_ag : list dao_graph_feature_data :=
  [wit_dfd 0 0 1 100; wit_dfd 255 0 0 0; wit_dfd 2 2 255 102].
(** All three enabled. *)
Definition wit_abg : list dao_graph_feature_data :=
  [wit_dfd 0 0 0 100; wit_dfd 1 1 0 101; wit_dfd 2 2 255 102].

Lemma small_bits mask s : 0 <= mask < 8 -> Z.testbit mask s = true -> s = 0 \/ s = 1 \/ s = 2.
Proof.
  intros Hm Hb. destruct (decide (0 <= s)); [|by rewrite Z.testbit_neg_r in Hb by lia].
  destruct (decide (3 <= s)); [by rewrite (testbit_small mask 3 s) in Hb by (done || lia)|lia].
Qed.

Lemma wit_ready rt mask l : (mask = 5 /\ l = wit_ag) \/ (mask = 7 /\ l = wit_abg) ->
  arc_ready (wit_state (wit_arc rt mask l)) 200 (wit_arc rt mask l) 0 mask (wit_df l).
Proof.
  intros Hcase. split.
  - reflexivity.
  - by eexists.
  - cbn. lia.
  - reflexivity.
  - reflexivity.
  - cbn. repeat constructor; set_solver.
  - cbn. lia.
  - cbn. lia.
  - split.
    + unfold is_u64. lia.
    + by destruct Hcase as [[-> ->]|[-> ->]].
    + intros s Hb. apply small_bits in Hb; [cbn; lia|lia].
    + cbn. intros s d Hs Hb Hd. assert (s = 0 \/ s = 1 \/ s = 2) as Hc by lia.
      destruct Hcase as [[-> ->]|[-> ->]]; destruct Hc as [->|[->| ->]]; try done; by injection Hd as <-.
    + intros s Hs Hb.
      assert (s = 0 \/ s = 1 \/ s = 2) as Hc by (apply small_bits in Hb; lia).
      destruct Hcase as [[-> ->]|[-> ->]]; destruct Hc as [->|[->| ->]]; try done;
        eexists _, _; (split; [reflexivity|]); (split; [reflexivity|]); split; try done;
        try (intros t g (Ht & Htb & Hbet) Hg; apply small_bits in Htb as Hc; [|lia];
          destruct Hc as [->|[->| ->]]; try lia; try discriminate;
          try (injection Hg as <-; reflexivity); specialize (Hbet 1 ltac:(lia)); discriminate);
        intros Hlast; try (specialize (Hlast 2 ltac:(lia)); discriminate).
Qed.

Lemma feature_enable_links_witness :
  exists rc s' a', dao_graph_feature_enable 200 0 (Some "beta"%string) 42 (wit_state (wit_arc 2 5 wit_ag)) =
      Ret (rc, s') /\ fs_arcs s' !! 200 = Some a' /\ a_mask a' !! 0%nat = Some 7.
Proof.
  destruct (feature_enable_links (wit_state (wit_arc 2 5 wit_ag)) 200 (wit_arc 2 5 wit_ag) 0 5
    (wit_df wit_ag) (Some "beta"%string) (wit_feature 101 2 "beta" 1) 1 42)
    as (rc & s' & a' & H1 & H2 & _ & _ & H3).
  - apply wit_ready. left. split; reflexivity.
  - reflexivity.
  - cbn. lia.
  - cbn. lia.
  - reflexivity.
  - exists rc, s', a'. split; [exact H1|]. split; [exact H2|].
    destruct H3 as [[_ (df' & dfd & H3 & _)]|[H3 _]].
    + exact H3.
    + exfalso. rewrite H3 in H1. revert H1. vm_compute. discriminate.
Defined.

Lemma feature_disable_end_witness :
  exists s' a' df', dao_graph_feature_disable 200 0 (Some "gamma"%string) (wit_state (wit_arc 2 5 wit_ag)) =
      Ret (0, s') /\ fs_arcs s' !! 200 = Some a' /\ a_by_index a' = [df'] /\ f_num_enabled df' = 3.
Proof.
  destruct (feature_disable_end (wit_state (wit_arc 2 5 wit_ag)) 200 (wit_arc 2 5 wit_ag) 0 5
    (wit_df wit_ag) (Some "gamma"%string) (wit_feature 102 3 "gamma" 2) 2)
    as (s' & a' & df' & H1 & H2 & _ & _ & H3 & _ & H4).
  - apply wit_ready. left. split; reflexivity.
  - reflexivity.
  - cbn. lia.
  - reflexivity.
  - right. intros i Hi. apply (testbit_small 5 3 i); lia.
  - exists s', a', df'. split; [exact H1|]. split; [exact H2|]. split; [exact H3|exact H4].
Defined.

Lemma feature_disable_middle_fails_witness :
  exists s' a', dao_graph_feature_disable 200 0 (Some "beta"%string) (wit_state (wit_arc 3 7 wit_abg)) =
      Ret (-1, s') /\ fs_arcs s' !! 200 = Some a' /\ a_mask a' = [7].
Proof.
  destruct (feature_disable_middle_fails (wit_state (wit_arc 3 7 wit_abg)) 200 (wit_arc 3 7 wit_abg) 0 7
    (wit_df wit_abg) (Some "beta"%string) (wit_feature 101 2 "beta" 1) (wit_feature 100 1 "alpha" 0)
    (wit_feature 102 3 "gamma" 2) 1 0 2) as (s' & a' & df' & dfd & H1 & H2 & H3 & _).
  - apply wit_ready. right. split; reflexivity.
  - reflexivity.
  - cbn. lia.
  - reflexivity.
  - split; [lia|]. split; [reflexivity|]. intros i Hi. lia.
  - split; [lia|]. split; [reflexivity|]. intros i Hi. lia.
  - reflexivity.
  - reflexivity.
  - exists s', a'. split; [exact H1|]. split; [exact H2|exact H3].
Defined.

Lemma steer_visits_enabled_witness :
  steer 66 (wit_arc 2 5 wit_ag) 0 DAO_GRAPH_FEATURE_INVALID_VALUE = Ret [0; 2].
Proof.
  rewrite (steer_visits_enabled (wit_arc 2 5 wit_ag) 0 5).
  - vm_compute. reflexivity.
  - reflexivity.
  - unfold is_u64. lia.
Defined.

Lemma feature_add_ordered_witness :
  exists rc s' l, dao_graph_feature_add 200 (Some (wit_node 4 "delta")) (Some (900, "alpha"%string)) None
      (wit_state (wit_arc 0 0 [])) = Ret (rc, s') /\
    added (fs_env s') 200 (wit_arc 0 0 []) (wit_node 4 "delta") (Some (900, "alpha"%string)) None l.
Proof.
  destruct (feature_add_ordered (wit_state (wit_arc 0 0 [])) 200 (wit_arc 0 0 []) (wit_node 4 "delta")
    (Some (900, "alpha"%string)) None) as (rc & s' & H1 & _ & H2).
  - reflexivity.
  - split; cbn; try (by repeat constructor); try lia; repeat constructor; set_solver.
  - eexists. split; reflexivity.
  - reflexivity.
  - vm_compute. reflexivity.
  - destruct H2 as [[H2 _]|[_ (l & _ & H2)]].
    + exfalso. rewrite H2 in H1. revert H1. vm_compute. discriminate.
    + exists rc, s', l. split; [exact H1|exact H2].
Defined.

(** ** Creating arcs *)

(** The table of arcs has as many cells as it says. *)
Definition main_wf {E} (s : fa_state E) : Prop :=
  match fs_main s with
  | None => True
  | Some dm => 0 < am_max dm < 0x100000000 /\ Z.of_nat (length (am_arcs dm)) = am_max dm
  end.

Lemma arc_init_wf {E} `{RteGraphLaws E} n (s : fa_state E) rc s' :
  0 < n < 0x100000000 -> dao_graph_feature_arc_init n s = (rc, s') ->
  fs_main s = None -> fs_arcs s' = fs_arcs s /\ main_wf s' /\ live (fs_env s) ⊆ live (fs_env s') /\
    (rc = 0 /\ is_Some (fs_main s') \/ rc = -1).
Proof.
  intros Hn. unfold dao_graph_feature_arc_init, main_wf.
  rewrite (proj2 (Z.eqb_neq n 0)), u32_id by (unfold is_u32; lia). intros Hi Hm. rewrite Hm in Hi.
  unfold feature_arc_init in Hi. destruct (malloc _ _) as [[p|] e] eqn:Em;
    apply malloc_spec in Em as (_ & _ & Hl); simplify_eq; cbn.
  - destruct Hl as [_ ->]. rewrite length_replicate. split_and!; try done; try lia; [set_solver|]. left. eauto.
  - rewrite Hm, Hl. split_and!; try done. by right.
Qed.

(** The data a new arc starts with. *)
Lemma new_arc_index_ok {E} `{RteGraph E} (e : E) df mf : length (f_data df) = 64%nat ->
  index_ok e [] 0 (f_data (init_slots mf df)).
Proof.
  intros Hl. split.
  - unfold is_u64. lia.
  - cbn. by rewrite length_imap.
  - intros s Hs. by rewrite Z.bits_0 in Hs.
  - intros s d Hs. cbn in Hs. lia.
  - intros s _ Hs. by rewrite Z.bits_0 in Hs.
Qed.

(** The first free cell of the table, as [create] finds it. *)
Lemma arc_slot_scan l max : Z.of_nat (length l) = max ->
  exists j, scan arc_slot_free l max (Z.to_nat max) 0 = Ret j /\ 0 <= j /\
    (j < max -> l !! Z.to_nat j = Some DAO_GRAPH_FEATURE_ARC_INITIALIZER).
Proof.
  intros Hl. destruct (scan_spec arc_slot_free l max (Z.to_nat max) 0) as (j & Hj & H0 & _ & _ & Hat); [lia..|].
  exists j. split_and!; try done. intros Hlt. destruct (Hat Hlt) as (x & Hx & Hfree).
  unfold arc_slot_free in Hfree. apply Z.eqb_eq in Hfree. by subst.
Qed.

(** A new arc at [p], ready on every index with nothing enabled. *)
Definition arc_created {E} `{RteGraphLaws E} (junk : nat -> dao_graph_feature) (max_features max_indexes : Z)
    (start : rte_node_register) (s s' : fa_state E) (p : Z) : Prop :=
  exists a, fs_arcs s' = <[p := a]> (fs_arcs s) /\ (p ∉ live (fs_env s)) /\
    a_start a = start /\ a_max_features a = max_features /\ a_runtime a = 0 /\
    features_wf (fs_env s') p (a_features a) /\ main_wf s' /\
    (exists dm, fs_main s' = Some dm /\ p ∈ am_arcs dm) /\
    forall index, 0 <= index < max_indexes -> exists df, arc_ready s' p a index 0 df /\
      f_num_enabled df = f_num_enabled (junk (Z.to_nat index)).

Lemma arc_alloc_spec {E} `{RteGraphLaws E} junk name mf mi start dm j (s : fa_state E) :
  (forall i, length (f_data (junk i)) = 64%nat) -> mf <= 64 ->
  0 < am_max dm < 0x100000000 -> Z.of_nat (length (am_arcs dm)) = am_max dm -> 0 <= j < am_max dm ->
  exists rc h s', arc_alloc junk name mf mi start dm j s = Ret (rc, h, s') /\
    (rc = 0 /\ (exists p, h = Some p /\ arc_created junk mf mi start s s' p) \/
     rc < 0 /\ h = None /\ fs_arcs s' = fs_arcs s).
Proof.
  intros Hj64 Hmf Hmax Hlen Hj. unfold arc_alloc. destruct (Z.ltb_spec mi 0).
  { eexists _, _, _. split; [done|]. right. done. }
  destruct (malloc _ (fs_env s)) as [[p|] e1] eqn:E1; apply malloc_spec in E1 as (_ & _ & M1).
  2:{ eexists _, _, _. split; [done|]. right. done. }
  destruct (malloc _ e1) as [[p2|] e2] eqn:E2; apply malloc_spec in E2 as (_ & _ & M2).
  2:{ eexists _, _, _. split; [done|]. right. done. }
  rewrite cset_in_range by lia. cbn [mbind cres_mbind]. eexists _, _, _. split; [done|].
  left. split; [done|]. exists p. split; [done|]. destruct M1 as [Hp M1].
  eexists. split; [done|]. split; [done|]. cbn -[insert].
  split; [done|]. split; [done|]. split; [done|]. split; [by repeat constructor|].
  split; [split; [done|]; cbn; by rewrite length_insert|].
  split.
  { eexists. split; [done|]. cbn. eapply list_elem_of_lookup_2, list_lookup_insert_eq. lia. }
  intros index Hi. exists (init_slots mf (junk (Z.to_nat index))). split; [split|]; cbn -[insert]; try done.
  - apply lookup_insert_eq.
  - by eexists.
  - rewrite list_lookup_fmap, lookup_seq_lt by lia. done.
  - by rewrite lookup_replicate_2 by lia.
  - by apply NoDup_nil.
  - by apply new_arc_index_ok.
Qed.

(** A new arc starts ready. With a legal number of features,
    [dao_graph_feature_arc_create] (which sets the library up if that has not
    happened) either fails with a negative value and no handle, leaving every
    arc as it is, or returns 0 and the handle of a new arc, registered in the
    table, with an empty feature list, on every index of which nothing is
    enabled and the data satisfies the invariant that enabling relies on. The
    count of enabled features of an index, on which enabling also depends, is
    what the allocated memory happened to hold. *)
Theorem arc_create_ready {E} `{RteGraphLaws E} (junk : nat -> dao_graph_feature) (name : string)
    (max_features max_indexes : Z) (start : rte_node_register) (s : fa_state E) :
  (forall i, length (f_data (junk i)) = 64%nat) -> main_wf s ->
  1 <= max_features <= DAO_GRAPH_FEATURE_MAX_PER_ARC ->
  exists rc h s' s0, dao_graph_feature_arc_create junk (Some name) max_features max_indexes (Some start) s =
      Ret (rc, h, s') /\
    fs_arcs s0 = fs_arcs s /\ live (fs_env s) ⊆ live (fs_env s0) /\
    (rc = 0 /\ (exists p, h = Some p /\ arc_created junk max_features max_indexes start s0 s' p) \/
     rc < 0 /\ h = None /\ fs_arcs s' = fs_arcs s).
Proof.
  intros Hjunk Hwf Hmf. unfold dao_graph_feature_arc_create, DAO_GRAPH_FEATURE_MAX_PER_ARC in *.
  rewrite (proj2 (Z.ltb_ge max_features 1)), (proj2 (Z.ltb_ge 64 max_features)) by lia.
  set (X := match fs_main s with Some _ => _ | None => _ end).
  assert (exists rc s1, X = (rc, s1) /\ fs_arcs s1 = fs_arcs s /\ main_wf s1 /\ live (fs_env s) ⊆ live (fs_env s1) /\
    (rc = 0 /\ is_Some (fs_main s1) \/ rc = -1)) as (rc & s1 & -> & Ha & Hwf1 & Hl & Hrc).
  { unfold X. destruct (fs_main s) as [dm|] eqn:Em.
    - exists 0, s. split_and!; try done. left. eauto.
    - destruct (dao_graph_feature_arc_init DAO_GRAPH_FEATURE_ARC_MAX s) as [rc s1] eqn:Ei.
      exists rc, s1. split; [done|]. eapply arc_init_wf; [|done..]. unfold DAO_GRAPH_FEATURE_ARC_MAX. lia. }
  assert (forall s' : fa_state E, fs_arcs s' = fs_arcs s -> exists rc h s'0 s0, Ret (-1, None, s') = Ret (rc, h, s'0) /\
    fs_arcs s0 = fs_arcs s /\ live (fs_env s) ⊆ live (fs_env s0) /\
    (rc = 0 /\ (exists p, h = Some p /\ arc_created junk max_features max_indexes start s0 s'0 p) \/
     rc < 0 /\ h = None /\ fs_arcs s'0 = fs_arcs s)) as Hfail.
  { intros s' Hs'. exists (-1), None, s', s. split_and!; try done. by right. }
  destruct Hrc as [[-> [dm Hdm]]| ->]; [|by apply Hfail]. cbn [Z.ltb Z.compare].
  rewrite Hdm. unfold main_wf in Hwf1. rewrite Hdm in Hwf1. destruct Hwf1 as [Hmax Hlen].
  destruct (u32 (am_max dm - 1) <? am_num dm); [by apply Hfail|].
  destruct (arc_slot_scan (am_arcs dm) (am_max dm) Hlen) as (j & -> & Hj & Hat). cbn [mbind cres_mbind].
  destruct (Z.leb_spec (am_max dm) j); [by apply Hfail|].
  rewrite (proj2 (cget_Ret _ _ DAO_GRAPH_FEATURE_ARC_INITIALIZER)) by (split; [lia|by apply Hat]).
  cbn [mbind cres_mbind]. rewrite Z.eqb_refl. cbn [verify mbind cres_mbind].
  destruct (arc_alloc_spec junk name max_features max_indexes start dm j s1)
    as (rc & h & s' & -> & Hout); [done || lia..|].
  exists rc, h, s', s1. split_and!; try done. by rewrite <- Ha.
Qed.

Lemma arc_create_ready_witness :
  exists rc h s', dao_graph_feature_arc_create (fun _ => wit_df []) (Some "arc"%string) 8 3
      (Some (wit_node 0 "start")) (Build_fa_state None ∅ wit_graph) = Ret (rc, h, s') /\ rc = 0.
Proof.
  destruct (arc_create_ready (fun _ => wit_df []) "arc" 8 3 (wit_node 0 "start")
    (Build_fa_state None ∅ wit_graph)) as (rc & h & s' & s0 & H1 & _ & _ & H2).
  - reflexivity.
  - exact I.
  - unfold DAO_GRAPH_FEATURE_MAX_PER_ARC. lia.
  - exists rc, h, s'. split; [exact H1|]. destruct H2 as [[H2 _]|(H2 & H3 & _)]; [exact H2|].
    exfalso. rewrite H3 in H1. revert H1. vm_compute. discriminate.
Defined.
