(* ===== verification/PortGroup.v ===== *)
(** * Port groups (lib/portgroup/port_group.c)

    A port group is an array of port identifiers in which
    [DAO_PORT_INVALID_VALUE] marks a free cell; groups live in a table of
    pointers in which [PORT_GROUP_INITIALIZER] marks a free cell. *)
From stdpp Require Import base option list numbers strings.
From Stdlib Require String.
From S2P Require Import Prelude.

Local Open Scope Z_scope.

(** ** Arrays with free cells *)

Section cells.
Context {A : Type} (free : A -> bool).

(** The positions in use at or after [i]. *)
Definition used_at (l : list A) (k : Z) : bool :=
  match l !! Z.to_nat k with Some x => negb (free x) | None => false end.

Definition used_from (l : list A) (i : Z) : list Z :=
  filter (fun k => used_at l k = true) (seqZ i (Z.of_nat (length l) - i)).

(** How many cells are in use. *)
Definition used_count (l : list A) : Z := Z.of_nat (length (filter (fun x => free x = false) l)).

(** A cell in use stops the search for the next one. *)
Definition in_use (x : A) : bool := negb (free x).
End cells.

(** ** State *)

Definition DAO_PORT_GROUP_MAX : Z := 8.
Definition DAO_PORT_GROUP_NAMELEN : nat := 64.
Definition DAO_PORT_INVALID_VALUE : Z := 0xFFFFFFFFFFFFFFFF.

(** [port_group_t]. The back pointer to the table is not a field: it is set
    once, to the only table there is. *)
Record port_group := {
  pg_name : string;
  pg_index : Z;
  pg_max : Z;
  pg_num : Z;
  pg_ports : list Z;
}.

(** [port_group_main_t]; a cell that holds [PORT_GROUP_INITIALIZER] is [None]. *)
Record port_group_main := {
  pm_num : Z;
  pm_max : Z;
  pm_groups : list (option port_group);
}.

(** [__port_group_main] *)
Notation pg_state := (option port_group_main).

Definition put_group (pm : port_group_main) (epg : Z) (o : option port_group) : cres pg_state :=
  l ← cset (pm_groups pm) epg o;
  Ret (Some {| pm_num := pm_num pm; pm_max := pm_max pm; pm_groups := l |}).

Definition port_free (p : Z) : bool := p =? DAO_PORT_INVALID_VALUE.

(** ** Operations *)

Definition port_group_get (pm : port_group_main) (epg : Z) : cres (option port_group) :=
  _ ← verify (epg <? pm_max pm); cget (pm_groups pm) epg.

(** The group's object behind a pointer: [PORT_GROUP_INITIALIZER] is no object. *)
Definition pg_deref (o : option port_group) : cres port_group :=
  match o with Some pg => Ret pg | None => Fault end.

Definition port_group_check_sanity (epg : Z) (s : pg_state) : cres Z :=
  match s with
  | None => Ret (-1)
  | Some pm =>
      if pm_max pm <=? epg then Ret (-1)
      else if pm_num pm <=? epg then Ret (-1)
      else
        o ← port_group_get pm epg;
        _ ← pg_deref o;
        Ret 0
  end.

(** The prologue of the operations on a group: its object, [None] when the
    sanity check fails. *)
Definition sane_group (epg : Z) (s : pg_state) : cres (option (port_group_main * port_group)) :=
  rc ← port_group_check_sanity epg s;
  if rc <? 0 then Ret None
  else match s with
       | None => Fault
       | Some pm => o ← port_group_get pm epg; pg ← pg_deref o; Ret (Some (pm, pg))
       end.

Definition port_group_main_init (num_port_groups : Z) (mem_ok : bool) (s : pg_state) : Z * pg_state :=
  if mem_ok then
    (0, Some {| pm_num := 0; pm_max := num_port_groups;
                pm_groups := replicate (Z.to_nat num_port_groups) None |})
  else (-1, s).

Definition dao_port_group_main_init (num_port_groups : Z) (mem_ok : bool) (s : pg_state)
  : Z * pg_state :=
  if num_port_groups =? 0 then (-1, s)
  else match s with
       | Some _ => (-1, s)
       | None => port_group_main_init num_port_groups mem_ok s
       end.

(** [mem_ok] says which of the three allocations succeed; the result carries
    the handle stored through [epg]. *)
Definition dao_port_group_create (group_name : option string) (max_num_ports : Z)
    (mem_ok : bool * bool * bool) (s : pg_state) : cres (Z * option Z * pg_state) :=
  let '(ok_main, ok_group, ok_ports) := mem_ok in
  if max_num_ports <? 1 then Ret (-1, None, s)
  else
    let '(rc, s) := match s with
                    | None => dao_port_group_main_init DAO_PORT_GROUP_MAX ok_main s
                    | Some _ => (0, s)
                    end in
    if rc <? 0 then Ret (-1, None, s)
    else match s with
    | None => Fault
    | Some pm =>
        if pm_num pm =? u32 (pm_max pm - 1) then Ret (-1, None, s)
        else if negb (ok_group && ok_ports) then Ret (-1, None, s)
        else
          let pg := {| pg_name := match group_name with
                                  | Some n => String.substring 0 (DAO_PORT_GROUP_NAMELEN - 1) n
                                  | None => ""%string
                                  end;
                       pg_index := pm_num pm; pg_max := max_num_ports; pg_num := 0;
                       pg_ports := replicate (Z.to_nat max_num_ports) DAO_PORT_INVALID_VALUE |} in
          l ← cset (pm_groups pm) (pg_index pg) (Some pg);
          Ret (0, Some (pg_index pg),
               Some {| pm_num := u32 (pm_num pm + 1); pm_max := pm_max pm; pm_groups := l |})
    end.

(** Returns also the index stored through [returned_index]. *)
Definition dao_port_group_port_add (epg port : Z) (s : pg_state) : cres (Z * option Z * pg_state) :=
  o ← sane_group epg s;
  match o with
  | None => Ret (-1, None, s)
  | Some (pm, pg) =>
      if u32 (pg_max pg - 1) <? pg_num pg then Ret (-1, None, s)
      else
        iter ← scan port_free (pg_ports pg) (pg_max pg) (Z.to_nat (pg_max pg)) 0;
        if pg_max pg <=? iter then Ret (-1, None, s)
        else
          ports ← cset (pg_ports pg) iter port;
          s ← put_group pm epg
            (Some {| pg_name := pg_name pg; pg_index := pg_index pg; pg_max := pg_max pg;
                     pg_num := u32 (pg_num pg + 1); pg_ports := ports |});
          Ret (0, Some (i32 iter), s)
  end.

(** The port stored through [port], [None] for the return value -1. *)
Definition dao_port_group_port_get (epg port_index : Z) (s : pg_state) : cres (option Z) :=
  if port_index <? 0 then Ret None
  else
    o ← sane_group epg s;
    match o with
    | None => Ret None
    | Some (_, pg) =>
        p ← cget (pg_ports pg) port_index;
        if p =? DAO_PORT_INVALID_VALUE then Ret None else Ret (Some p)
    end.

(** The return value and what is stored through [port], if anything. An
    index of [INT32_MAX] makes the increment overflow. *)
Definition dao_port_group_port_get_next (epg port_index : Z) (s : pg_state) : cres (Z * option Z) :=
  if port_index <? -1 then Ret (-1, Some DAO_PORT_INVALID_VALUE)
  else
    o ← sane_group epg s;
    match o with
    | None => Ret (-1, Some DAO_PORT_INVALID_VALUE)
    | Some (_, pg) =>
        if port_index =? 0x7FFFFFFF then Fault
        else
          iter ← scan (in_use port_free) (pg_ports pg) (pg_max pg) (Z.to_nat (pg_max pg)) (port_index + 1);
          if pg_max pg <=? iter then Ret (-1, None)
          else
            r ← dao_port_group_port_get epg iter s;
            match r with
            | None => Ret (-1, Some DAO_PORT_INVALID_VALUE)
            | Some p => Ret (iter, Some p)
            end
    end.

(** The number stored through [num_ports], [None] for the return value -1. *)
Definition dao_port_group_port_get_num (epg : Z) (s : pg_state) : cres (option Z) :=
  o ← sane_group epg s;
  match o with None => Ret None | Some (_, pg) => Ret (Some (pg_num pg)) end.

Definition dao_port_group_port_delete (epg port_index : Z) (s : pg_state) : cres (Z * pg_state) :=
  o ← sane_group epg s;
  match o with
  | None => Ret (-1, s)
  | Some (pm, pg) =>
      if port_index <? 0 then Ret (-1, s)
      else if pg_num pg <=? port_index then Ret (-1, s)
      else
        ports ← cset (pg_ports pg) port_index DAO_PORT_INVALID_VALUE;
        s ← put_group pm epg
          (Some {| pg_name := pg_name pg; pg_index := pg_index pg; pg_max := pg_max pg;
                   pg_num := u32 (pg_num pg - 1); pg_ports := ports |});
        Ret (0, s)
  end.

Definition dao_port_group_destroy (epg : Z) (s : pg_state) : cres (Z * pg_state) :=
  o ← sane_group epg s;
  match o with
  | None => Ret (-1, s)
  | Some (pm, pg) => s ← put_group pm (pg_index pg) None; Ret (0, s)
  end.

(** [strncmp(a, b, DAO_PORT_GROUP_NAMELEN) == 0] *)
Definition name_matches (a b : string) : bool :=
  bool_decide (String.substring 0 DAO_PORT_GROUP_NAMELEN a = String.substring 0 DAO_PORT_GROUP_NAMELEN b).

(** [for (iter = 0; iter < max_port_groups_supported; iter++)] *)
Fixpoint group_by_name (name : string) (l : list (option port_group)) (iter : Z) : option Z :=
  match l with
  | [] => None
  | None :: l => group_by_name name l (iter + 1)
  | Some pg :: l =>
      if name_matches (pg_name pg) name then Some (u32 iter) else group_by_name name l (iter + 1)
  end.

(** The handle stored through [_dpg], [None] for the return value -1. *)
Definition dao_port_group_get_by_name (name : option string) (s : pg_state) : option Z :=
  match s, name with
  | Some pm, Some name => group_by_name name (pm_groups pm) 0
  | _, _ => None
  end.

(** [DAO_PORT_GROUP_FOREACH_PORT]: the indexes and ports the loop body sees.
    [port] is the loop variable. *)
Fixpoint foreach_port (fuel : nat) (epg index port : Z) (s : pg_state) : cres (list (Z * Z)) :=
  '(index, w) ← dao_port_group_port_get_next epg index s;
  let port := match w with Some p => p | None => port end in
  if (-1 <? index) && negb (port =? DAO_PORT_INVALID_VALUE) then
    match fuel with
    | O => Fault
    | S fuel => l ← foreach_port fuel epg index port s; Ret ((index, port) :: l)
    end
  else Ret [].

(** ** Lemmas on arrays with free cells *)

Section cells_lemmas.
Context {A : Type} (free : A -> bool).

Lemma used_from_next (l : list A) i j : 0 <= i -> i <= j ->
  (forall k x, i <= k < j -> l !! Z.to_nat k = Some x -> in_use free x = false) ->
  (j < Z.of_nat (length l) -> exists x, l !! Z.to_nat j = Some x /\ in_use free x = true) ->
  used_from free l i = if j <? Z.of_nat (length l) then j :: used_from free l (j + 1) else [].
Proof.
  intros Hi Hij Hbefore Hat.
  assert (forall a n, i <= a -> a + n <= j -> filter (fun k => used_at free l k = true) (seqZ a n) = []) as Hnone.
  { intros a n Ha Hn. destruct (filter _ (seqZ a n)) as [|k r] eqn:E; [done|].
    assert (k ∈ filter (fun k => used_at free l k = true) (seqZ a n)) as [Hu Hk]%list_elem_of_filter
      by (rewrite E; apply list_elem_of_here).
    apply elem_of_seqZ in Hk. unfold used_at in Hu. destruct (l !! Z.to_nat k) as [x|] eqn:Ek; [|done].
    assert (in_use free x = false) as Hx by (apply (Hbefore k x); [lia|done]). unfold in_use in Hx. congruence. }
  unfold used_from. destruct (Z.ltb_spec j (Z.of_nat (length l))) as [Hj|Hj].
  - destruct (Hat Hj) as (x & Hx & Hu).
    replace (Z.of_nat (length l) - i) with ((j - i) + (1 + (Z.of_nat (length l) - (j + 1)))) by lia.
    rewrite seqZ_app, (seqZ_app _ 1) by lia. rewrite !filter_app, Hnone by lia. cbn [app].
    replace (i + (j - i)) with j by lia. rewrite (seqZ_cons j 1) by lia.
    change (seqZ (Z.succ j) (Z.pred 1)) with (@nil Z).
    rewrite (filter_cons_True _ _ []) by (unfold used_at; rewrite Hx; done). done.
  - destruct (decide (i <= Z.of_nat (length l))).
    + apply Hnone; lia.
    + rewrite seqZ_nil by lia. done.
Qed.

Lemma used_count_insert (l : list A) i x y : l !! i = Some x ->
  used_count free (<[i := y]> l) = used_count free l - b2z (negb (free x)) + b2z (negb (free y)).
Proof.
  intros Hx. unfold used_count. rewrite insert_take_drop by (by eapply lookup_lt_Some).
  rewrite <- (take_drop_middle l i x Hx) at 3. rewrite !filter_app, !length_app, !filter_cons.
  repeat case_decide; destruct (free x), (free y); cbn in *; try done; lia.
Qed.

Lemma used_count_replicate n x : free x = true -> used_count free (replicate n x) = 0.
Proof.
  intros Hx. unfold used_count. induction n as [|n IH]; [done|].
  change (replicate (S n) x) with (x :: replicate n x).
  rewrite filter_cons_False by congruence. done.
Qed.

Lemma used_count_bounds (l : list A) : 0 <= used_count free l <= Z.of_nat (length l).
Proof. unfold used_count. pose proof (length_filter (fun x => free x = false) l). lia. Qed.

Lemma used_count_all (l : list A) : Forall (fun x => free x = false) l ->
  used_count free l = Z.of_nat (length l).
Proof.
  unfold used_count. induction 1 as [|x l Hx Hl IH]; [done|].
  rewrite filter_cons_True by done. cbn [length]. lia.
Qed.
End cells_lemmas.

(** ** Invariant *)

Record group_wf (pg : port_group) : Prop := {
  gw_max : 1 <= pg_max pg < 0x7FFFFFFF;
  gw_len : Z.of_nat (length (pg_ports pg)) = pg_max pg;
  gw_num : pg_num pg = used_count port_free (pg_ports pg);
}.

Lemma port_not_free p : p <> DAO_PORT_INVALID_VALUE -> port_free p = false.
Proof. intros. by apply Z.eqb_neq. Qed.

(** Handle [epg] names the group [pg] of the table [pm]. *)
Definition group_at (pm : port_group_main) (epg : Z) (pg : port_group) : Prop :=
  0 <= epg < pm_num pm /\ pm_num pm <= pm_max pm /\ pm_groups pm !! Z.to_nat epg = Some (Some pg).

Lemma sane_group_at pm epg pg : group_at pm epg pg -> sane_group epg (Some pm) = Ret (Some (pm, pg)).
Proof.
  intros (H1 & H2 & H3). unfold sane_group, port_group_check_sanity.
  rewrite (proj2 (Z.leb_gt (pm_max pm) epg)), (proj2 (Z.leb_gt (pm_num pm) epg)) by lia.
  unfold port_group_get. rewrite (proj2 (Z.ltb_lt epg (pm_max pm))) by lia. cbn [verify mbind cres_mbind].
  rewrite (proj2 (cget_Ret _ _ (Some pg))) by (split; [lia|done]). done.
Qed.

Lemma put_group_at pm epg pg o : group_at pm epg pg ->
  put_group pm epg o = Ret (Some {| pm_num := pm_num pm; pm_max := pm_max pm;
    pm_groups := <[Z.to_nat epg := o]> (pm_groups pm) |}).
Proof.
  intros (H1 & H2 & H3). unfold put_group. apply lookup_lt_Some in H3.
  rewrite cset_in_range by lia. done.
Qed.

Lemma group_at_put pm epg pg pg' : group_at pm epg pg ->
  group_at {| pm_num := pm_num pm; pm_max := pm_max pm; pm_groups := <[Z.to_nat epg := Some pg']> (pm_groups pm) |} epg pg'.
Proof.
  intros (H1 & H2 & H3). split; [done|]. split; [done|]. cbn. apply list_lookup_insert_eq.
  by eapply lookup_lt_Some.
Qed.

(** Reading a port of a group. *)
Lemma port_get_at pm epg pg i p : group_at pm epg pg -> 0 <= i -> pg_ports pg !! Z.to_nat i = Some p ->
  dao_port_group_port_get epg i (Some pm) = Ret (if port_free p then None else Some p).
Proof.
  intros Hg Hi Hp. unfold dao_port_group_port_get. rewrite (proj2 (Z.ltb_ge i 0)) by lia.
  rewrite (sane_group_at pm epg pg) by done. cbn [mbind cres_mbind].
  rewrite (proj2 (cget_Ret _ _ p)) by (split; [lia|done]). cbn [mbind cres_mbind].
  unfold port_free. by destruct (_ =? _).
Qed.

(** The next port in use. *)
Lemma port_get_next_at pm epg pg i : group_at pm epg pg -> group_wf pg -> -1 <= i < pg_max pg ->
  exists j, i < j /\
    used_from port_free (pg_ports pg) (i + 1) =
      (if j <? pg_max pg then j :: used_from port_free (pg_ports pg) (j + 1) else []) /\
    if j <? pg_max pg
    then exists p, pg_ports pg !! Z.to_nat j = Some p /\ port_free p = false /\
           dao_port_group_port_get_next epg i (Some pm) = Ret (j, Some p)
    else dao_port_group_port_get_next epg i (Some pm) = Ret (-1, None).
Proof.
  intros Hg [Hmax Hlen Hnum] Hi. unfold dao_port_group_port_get_next.
  rewrite (proj2 (Z.ltb_ge i (-1))) by lia. rewrite (sane_group_at pm epg pg) by done.
  cbn [mbind cres_mbind]. rewrite (proj2 (Z.eqb_neq i _)) by lia.
  destruct (scan_spec (in_use port_free) (pg_ports pg) (pg_max pg) (Z.to_nat (pg_max pg)) (i + 1))
    as (j & -> & Hj & Hjm & Hbefore & Hat); [lia..|]. cbn [mbind cres_mbind].
  exists j. split; [lia|]. rewrite <- Hlen in Hat |- *. split; [apply used_from_next; (done || lia)|].
  destruct (Z.ltb_spec j (Z.of_nat (length (pg_ports pg)))) as [Hlt|Hge].
  - rewrite (proj2 (Z.leb_gt _ j)) by lia. destruct (Hat Hlt) as (p & Hp & Hu).
    unfold in_use in Hu. apply negb_true_iff in Hu.
    rewrite (port_get_at pm epg pg j p), Hu by (done || lia). cbn [mbind cres_mbind]. by exists p.
  - by rewrite (proj2 (Z.leb_le _ j)) by lia.
Qed.

(** ** Properties *)

(** Adding a port stores it at the first free index. On a group whose
    count is the number of its used cells, adding a port either finds every
    cell used and returns -1, or returns 0 and the smallest free index: a get
    there returns the port, gets at every other index return what they
    returned before, other groups do not change, and the count is again the
    number of used cells. *)
Theorem port_add_first_free (pm : port_group_main) (epg port : Z) (pg : port_group) :
  group_at pm epg pg -> group_wf pg -> port <> DAO_PORT_INVALID_VALUE ->
  (used_count port_free (pg_ports pg) = pg_max pg /\
   dao_port_group_port_add epg port (Some pm) = Ret (-1, None, Some pm)) \/
  exists i pm' pg', dao_port_group_port_add epg port (Some pm) = Ret (0, Some i, Some pm') /\
    0 <= i < pg_max pg /\
    (forall k, 0 <= k < i -> exists p, dao_port_group_port_get epg k (Some pm) = Ret (Some p)) /\
    dao_port_group_port_get epg i (Some pm) = Ret None /\
    dao_port_group_port_get epg i (Some pm') = Ret (Some port) /\
    (forall k, 0 <= k < pg_max pg -> k <> i ->
       dao_port_group_port_get epg k (Some pm') = dao_port_group_port_get epg k (Some pm)) /\
    group_at pm' epg pg' /\ group_wf pg' /\
    (forall e, e <> Z.to_nat epg -> pm_groups pm' !! e = pm_groups pm !! e).
Proof.
  intros Hg Hwf Hport. pose proof Hwf as [Hmax Hlen Hnum].
  pose proof (used_count_bounds port_free (pg_ports pg)) as Hb.
  unfold dao_port_group_port_add. rewrite (sane_group_at pm epg pg) by done. cbn [mbind cres_mbind].
  rewrite u32_id by (unfold is_u32; lia).
  destruct (Z.ltb_spec (pg_max pg - 1) (pg_num pg)); [left; split; [lia|done]|right].
  destruct (scan_spec port_free (pg_ports pg) (pg_max pg) (Z.to_nat (pg_max pg)) 0)
    as (i & -> & Hi & Him & Hbefore & Hat); [lia..|]. cbn [mbind cres_mbind].
  assert (i < pg_max pg) as Hlt.
  { destruct (decide (i < pg_max pg)); [done|]. exfalso.
    assert (used_count port_free (pg_ports pg) = pg_max pg); [|lia].
    rewrite <- Hlen. apply used_count_all, Forall_lookup. intros k x Hx. pose proof (lookup_lt_Some _ _ _ Hx).
    apply (Hbefore (Z.of_nat k) x); [lia|by rewrite Nat2Z.id]. }
  destruct (Hat Hlt) as (x & Hx & Hfree). rewrite (proj2 (Z.leb_gt _ _)) by lia.
  rewrite cset_in_range by lia. cbn [mbind cres_mbind].
  rewrite (put_group_at pm epg pg) by done. cbn [mbind cres_mbind].
  set (pg' := {| pg_name := _; pg_index := _; pg_max := _; pg_num := _; pg_ports := _ |}).
  pose proof (group_at_put pm epg pg pg' Hg) as Hg'.
  assert (i32 i = i) as -> by (unfold i32; rewrite u32_id by (unfold is_u32; lia);
    rewrite (proj2 (Z.ltb_lt i _)) by lia; done).
  eexists i, _, pg'. split; [done|]. split; [lia|]. split_and!.
  - intros k Hk. destruct (lookup_lt_is_Some_2 (pg_ports pg) (Z.to_nat k)) as [p Hp]; [lia|].
    rewrite (port_get_at pm epg pg k p) by (done || lia). rewrite (Hbefore k p) by (done || lia). by exists p.
  - rewrite (port_get_at pm epg pg i x) by (done || lia). by rewrite Hfree.
  - rewrite (port_get_at _ epg pg' i port) by (done || lia || cbn; apply list_lookup_insert_eq; lia).
    by rewrite port_not_free.
  - intros k Hk Hki. destruct (lookup_lt_is_Some_2 (pg_ports pg) (Z.to_nat k)) as [p Hp]; [lia|].
    rewrite (port_get_at pm epg pg k p) by (done || lia).
    by rewrite (port_get_at _ epg pg' k p) by (done || lia || cbn; by rewrite list_lookup_insert_ne by lia).
  - done.
  - split; cbn; [done|by rewrite length_insert|]. rewrite (used_count_insert port_free _ _ x) by done.
    rewrite Hfree, (port_not_free port) by done. cbn.
    rewrite u32_id by (unfold is_u32; lia). lia.
  - intros e He. cbn. by rewrite list_lookup_insert_ne.
Qed.

(** [DAO_PORT_GROUP_FOREACH_PORT] visits every port of a group once, in
    index order, each with the index it is stored at, and then stops. *)
Theorem foreach_port_visits (pm : port_group_main) (epg : Z) (pg : port_group) (port0 : Z) :
  group_at pm epg pg -> group_wf pg ->
  foreach_port (S (length (pg_ports pg))) epg (-1) port0 (Some pm) =
    Ret ((fun i => (i, pg_ports pg !!! Z.to_nat i)) <$> used_from port_free (pg_ports pg) 0).
Proof.
  intros Hg Hwf. pose proof Hwf as [Hmax Hlen _].
  assert (forall fuel i p, port_free p = false \/ i = -1 -> -1 <= i < pg_max pg -> pg_max pg - i <= Z.of_nat fuel ->
    foreach_port fuel epg i p (Some pm) =
      Ret ((fun i => (i, pg_ports pg !!! Z.to_nat i)) <$> used_from port_free (pg_ports pg) (i + 1))) as Hgo.
  { induction fuel as [|fuel IH]; intros i p Hp Hi Hf; [lia|]. cbn [foreach_port].
    destruct (port_get_next_at pm epg pg i) as (j & Hj & -> & Hnext); [done..|].
    destruct (Z.ltb_spec j (pg_max pg)).
    - destruct Hnext as (q & Hq & Hfree & ->). cbn [mbind cres_mbind].
      rewrite (proj2 (Z.ltb_lt (-1) j)) by lia. change (q =? DAO_PORT_INVALID_VALUE) with (port_free q).
      rewrite Hfree. cbn [negb andb]. rewrite IH by (lia || by left). cbn [mbind cres_mbind fmap list_fmap].
      by rewrite (list_lookup_total_correct _ _ q).
    - rewrite Hnext. done. }
  rewrite Hgo by (by right || lia). done.
Qed.

(** Deleting is by position against the count, not by occupancy. With
    [n] ports in a group, a delete at index [i] returns 0 exactly when
    [0 <= i < n]; it then frees that cell and decrements the count, which is
    the number of used cells again only when the cell was in use. A port
    stored at an index of [n] or more (which other deletes leave behind)
    cannot be deleted: the call returns -1 and the port stays. *)
Theorem port_delete_by_count (pm : port_group_main) (epg i : Z) (pg : port_group) :
  group_at pm epg pg -> group_wf pg ->
  exists rc pm', dao_port_group_port_delete epg i (Some pm) = Ret (rc, Some pm') /\
    (rc = 0 <-> 0 <= i < pg_num pg) /\
    (rc = 0 -> dao_port_group_port_get epg i (Some pm') = Ret None /\
       exists pg', group_at pm' epg pg' /\ pg_num pg' = pg_num pg - 1 /\
         (group_wf pg' <-> exists p, dao_port_group_port_get epg i (Some pm) = Ret (Some p)) /\
         forall k, 0 <= k < pg_max pg -> k <> i ->
           dao_port_group_port_get epg k (Some pm') = dao_port_group_port_get epg k (Some pm)) /\
    (rc <> 0 -> pm' = pm).
Proof.
  intros Hg Hwf. pose proof Hwf as [Hmax Hlen Hnum].
  pose proof (used_count_bounds port_free (pg_ports pg)) as Hb.
  unfold dao_port_group_port_delete. rewrite (sane_group_at pm epg pg) by done. cbn [mbind cres_mbind].
  destruct (Z.ltb_spec i 0); [exists (-1), pm; split_and!; try done; lia|].
  destruct (Z.leb_spec (pg_num pg) i); [exists (-1), pm; split_and!; try done; lia|].
  rewrite cset_in_range by lia. cbn [mbind cres_mbind].
  rewrite (put_group_at pm epg pg) by done. cbn [mbind cres_mbind].
  set (pg' := {| pg_name := _; pg_index := _; pg_max := _; pg_num := _; pg_ports := _ |}).
  pose proof (group_at_put pm epg pg pg' Hg) as Hg'.
  destruct (lookup_lt_is_Some_2 (pg_ports pg) (Z.to_nat i)) as [x Hx]; [lia|].
  eexists 0, _. split; [done|]. split; [split; [lia|done]|]. split; [|done]. intros _. split.
  { rewrite (port_get_at _ epg pg' i DAO_PORT_INVALID_VALUE); [done..|].
    cbn. apply list_lookup_insert_eq. lia. }
  exists pg'. split; [done|]. split; [cbn; rewrite u32_id by (unfold is_u32; lia); done|]. split.
  - rewrite (port_get_at pm epg pg i x) by done.
    pose proof (used_count_insert port_free (pg_ports pg) _ x DAO_PORT_INVALID_VALUE Hx) as Hc.
    change (port_free DAO_PORT_INVALID_VALUE) with true in Hc. split.
    + intros [_ _ Hn]. cbn in Hn. rewrite u32_id, Hc in Hn by (unfold is_u32; lia).
      destruct (port_free x); [cbn in Hn; lia|by exists x].
    + intros [p Hp]. destruct (port_free x); [done|]. split; cbn; [done|by rewrite length_insert|].
      rewrite u32_id, Hc by (unfold is_u32; lia). cbn. lia.
  - intros k Hk Hki. destruct (lookup_lt_is_Some_2 (pg_ports pg) (Z.to_nat k)) as [p Hp]; [lia|].
    rewrite (port_get_at pm epg pg k p) by (done || lia).
    by rewrite (port_get_at _ epg pg' k p) by (done || lia || cbn; by rewrite list_lookup_insert_ne by lia).
Qed.

(** The table: cells below the count were given out in order (a destroyed
    group's cell is free again), the others are free. *)
Record table_wf (pm : port_group_main) : Prop := {
  tw_max : 1 <= pm_max pm < 0x100000000;
  tw_len : Z.of_nat (length (pm_groups pm)) = pm_max pm;
  tw_num : 0 <= pm_num pm < pm_max pm;
  tw_groups : forall e pg, pm_groups pm !! e = Some (Some pg) ->
    Z.of_nat e < pm_num pm /\ pg_index pg = Z.of_nat e /\ group_wf pg;
}.

(** Creating a group gives out the next handle. With all allocations
    succeeding, [dao_port_group_create] in a well-formed table returns 0 and
    the number of groups created so far as the handle of a new, empty,
    well-formed group, keeps every other group, and keeps the table well
    formed; when one cell of the table is left it refuses, so a table of 8
    holds 7 groups. Cells of destroyed groups are not used again. *)
Theorem group_create_next (pm : port_group_main) (name : option string) (n : Z) (ok : bool) :
  table_wf pm -> 1 <= n < 0x7FFFFFFF ->
  exists rc h pm', dao_port_group_create name n (ok, true, true) (Some pm) = Ret (rc, h, Some pm') /\
    (pm_num pm = pm_max pm - 1 /\ rc = -1 /\ h = None /\ pm' = pm \/
     pm_num pm < pm_max pm - 1 /\ rc = 0 /\ h = Some (pm_num pm) /\ table_wf pm' /\
     (exists pg, group_at pm' (pm_num pm) pg /\ group_wf pg /\ pg_max pg = n /\
        used_from port_free (pg_ports pg) 0 = []) /\
     pm_num pm' = pm_num pm + 1 /\
     forall e, e <> Z.to_nat (pm_num pm) -> pm_groups pm' !! e = pm_groups pm !! e).
Proof.
  intros [Hmax Hlen Hnum Hgr] Hn. unfold dao_port_group_create.
  rewrite (proj2 (Z.ltb_ge n 1)) by lia. cbn [Z.ltb Z.compare].
  rewrite u32_id by (unfold is_u32; lia).
  destruct (Z.eqb_spec (pm_num pm) (pm_max pm - 1)) as [Heq|Hne].
  { eexists _, _, pm. split; [done|]. left. done. }
  cbn [andb negb]. set (pg := {| pg_name := _; pg_index := _; pg_max := _; pg_num := _; pg_ports := _ |}).
  cbn [pg_index pg]. rewrite cset_in_range by lia. cbn [mbind cres_mbind].
  rewrite u32_id by (unfold is_u32; lia). eexists _, _, _. split; [done|]. right.
  assert (group_wf pg) as Hwf.
  { split; cbn; [done|rewrite length_replicate; lia|]. by rewrite used_count_replicate. }
  assert (<[Z.to_nat (pm_num pm) := Some pg]> (pm_groups pm) !! Z.to_nat (pm_num pm) = Some (Some pg)) as Hat
    by (apply list_lookup_insert_eq; lia).
  split; [lia|]. split; [done|]. split; [done|]. split; [|split].
  - split; cbn; [done|by rewrite length_insert|lia|]. intros e pg0 He.
    destruct (decide (e = Z.to_nat (pm_num pm))) as [->|].
    + rewrite Hat in He. injection He as <-. cbn. split; [lia|]. split; [lia|done].
    + rewrite list_lookup_insert_ne in He by done. destruct (Hgr e pg0 He) as (? & ? & ?). split; [lia|done].
  - exists pg. split; [split; [cbn; lia|]; split; [cbn; lia|done]|]. split; [done|]. split; [done|].
    rewrite (used_from_next port_free _ 0 n); [..|cbn; rewrite length_replicate; lia]; try lia.
    + by rewrite (proj2 (Z.ltb_ge n _)) by (cbn; rewrite length_replicate; lia).
    + intros k x Hk Hx. cbn in Hx. apply lookup_replicate in Hx as [-> _]. done.
  - split; [done|]. intros e He. cbn. by rewrite list_lookup_insert_ne.
Qed.

(** A destroyed group's handle is poison. After [dao_port_group_destroy]
    of a group, the handle still passes the range checks, and every operation
    on it, destroying it again included, dereferences the marker
    [PORT_GROUP_INITIALIZER]; other groups are not affected. *)
Theorem group_destroy_dangling (pm : port_group_main) (epg : Z) (pg : port_group) :
  table_wf pm -> group_at pm epg pg ->
  exists pm', dao_port_group_destroy epg (Some pm) = Ret (0, Some pm') /\
    (forall port, dao_port_group_port_add epg port (Some pm') = Fault) /\
    (forall i, 0 <= i -> dao_port_group_port_get epg i (Some pm') = Fault) /\
    (forall i, -1 <= i -> dao_port_group_port_get_next epg i (Some pm') = Fault) /\
    (forall i, dao_port_group_port_delete epg i (Some pm') = Fault) /\
    dao_port_group_port_get_num epg (Some pm') = Fault /\
    dao_port_group_destroy epg (Some pm') = Fault /\
    forall e, e <> Z.to_nat epg -> pm_groups pm' !! e = pm_groups pm !! e.
Proof.
  intros Hwf Hg. pose proof Hg as (H1 & H2 & H3). destruct (tw_groups pm Hwf _ _ H3) as (_ & Hidx & _).
  rewrite Z2Nat.id in Hidx by lia.
  unfold dao_port_group_destroy at 1. rewrite (sane_group_at pm epg pg) by done. cbn [mbind cres_mbind].
  rewrite Hidx, (put_group_at pm epg pg) by done. cbn [mbind cres_mbind].
  set (pm' := {| pm_num := _; pm_max := _; pm_groups := _ |}).
  assert (sane_group epg (Some pm') = Fault) as Hbad.
  { unfold sane_group, port_group_check_sanity, pm'. cbn -[insert].
    rewrite (proj2 (Z.leb_gt (pm_max pm) epg)), (proj2 (Z.leb_gt (pm_num pm) epg)) by lia.
    unfold port_group_get. cbn -[insert]. rewrite (proj2 (Z.ltb_lt epg (pm_max pm))) by lia.
    cbn [verify mbind cres_mbind]. rewrite (proj2 (cget_Ret _ _ None)); [done|].
    split; [lia|]. apply list_lookup_insert_eq. by eapply lookup_lt_Some. }
  exists pm'. split; [done|]. split_and!.
  - intros port. unfold dao_port_group_port_add. by rewrite Hbad.
  - intros i Hi. unfold dao_port_group_port_get. by rewrite (proj2 (Z.ltb_ge i 0)), Hbad by lia.
  - intros i Hi. unfold dao_port_group_port_get_next. by rewrite (proj2 (Z.ltb_ge i (-1))), Hbad by lia.
  - intros i. unfold dao_port_group_port_delete. by rewrite Hbad.
  - unfold dao_port_group_port_get_num. by rewrite Hbad.
  - unfold dao_port_group_destroy. by rewrite Hbad.
  - intros e He. cbn. by rewrite list_lookup_insert_ne.
Qed.

(** ** Witnesses *)

(** A group of 4 cells with ports at 0 and 2. *)
Definition wit_pg : port_group :=
  {| pg_name := "g"; pg_index := 0; pg_max := 4; pg_num := 2;
     pg_ports := [11; DAO_PORT_INVALID_VALUE; 13; DAO_PORT_INVALID_VALUE] |}.

Definition wit_pm : port_group_main :=
  {| pm_num := 1; pm_max := 8; pm_groups := Some wit_pg :: replicate 7 None |}.

Lemma wit_at : group_at wit_pm 0 wit_pg.
Proof. split; [cbn; lia|]. split; [cbn; lia|reflexivity]. Qed.

Lemma wit_wf : group_wf wit_pg.
Proof. split; [cbn; lia|reflexivity|reflexivity]. Qed.

Lemma wit_table : table_wf wit_pm.
Proof.
  split; [cbn; lia|reflexivity|cbn; lia|]. intros e pg. destruct e as [|e].
  - intros [= <-]. split; [cbn; lia|]. split; [reflexivity|exact wit_wf].
  - cbn [pm_groups wit_pm]. intros He. change (replicate 7 None !! e = Some (Some pg)) in He.
    by apply lookup_replicate in He as [? _].
Qed.

Lemma port_add_first_free_witness :
  exists pm', dao_port_group_port_add 0 99 (Some wit_pm) = Ret (0, Some 1, Some pm') /\
    dao_port_group_port_get 0 1 (Some pm') = Ret (Some 99).
Proof.
  destruct (port_add_first_free wit_pm 0 99 wit_pg wit_at wit_wf)
    as [[H1 _]|(i & pm' & pg' & H1 & _ & _ & _ & H2 & _)].
  - unfold DAO_PORT_INVALID_VALUE. lia.
  - exfalso. revert H1. vm_compute. discriminate.
  - assert (i = 1) as -> by (revert H1; vm_compute; intros [= <- _]; reflexivity).
    exists pm'. split; [exact H1|exact H2].
Defined.

Lemma foreach_port_visits_witness :
  foreach_port 5 0 (-1) 0 (Some wit_pm) = Ret [(0, 11); (2, 13)].
Proof. exact (foreach_port_visits wit_pm 0 wit_pg 0 wit_at wit_wf). Defined.

(** The port at index 2 of a group of two ports cannot be deleted. *)
Lemma port_delete_by_count_witness :
  exists rc, dao_port_group_port_delete 0 2 (Some wit_pm) = Ret (rc, Some wit_pm) /\ rc <> 0.
Proof.
  destruct (port_delete_by_count wit_pm 0 2 wit_pg wit_at wit_wf) as (rc & pm' & H1 & H2 & _ & H3).
  assert (rc <> 0) as Hrc by (intros Hz; apply H2 in Hz; cbn in Hz; lia).
  exists rc. rewrite (H3 Hrc) in H1. split; [exact H1|exact Hrc].
Defined.

Lemma group_create_next_witness :
  exists rc h pm', dao_port_group_create None 16 (true, true, true) (Some wit_pm) =
    Ret (rc, h, Some pm') /\ h = Some 1.
Proof.
  destruct (group_create_next wit_pm None 16 true wit_table) as (rc & h & pm' & H1 & [(H2 & _)|(_ & _ & H2 & _)]).
  - lia.
  - exfalso. revert H2. cbn. lia.
  - exists rc, h, pm'. split; [exact H1|exact H2].
Defined.

Lemma group_destroy_dangling_witness :
  exists pm', dao_port_group_destroy 0 (Some wit_pm) = Ret (0, Some pm') /\
    dao_port_group_port_get_num 0 (Some pm') = Fault.
Proof.
  destruct (group_destroy_dangling wit_pm 0 wit_pg wit_table wit_at)
    as (pm' & H1 & _ & _ & _ & _ & H2 & _).
  exists pm'. split; [exact H1|exact H2].
Defined.
