(* ===== verification/PortqGroup.v ===== *)
(** * Port queue groups (lib/portgroup/portq_group.c, dao_portq_group_worker.h)

    A portq group holds one list of (port, receive queue) pairs per core; a
    cell whose port is [DAO_PORTQ_INVALID_VALUE] is free. Workers iterate over
    the list of their core. *)
From stdpp Require Import base option list numbers strings.
From Stdlib Require String.
From S2P Require Import Prelude PortGroup.

Local Open Scope Z_scope.

Definition DAO_PORTQ_GROUP_MAX : Z := 8.
Definition DAO_PORTQ_GROUP_NAMELEN : nat := 64.
Definition DAO_PORTQ_INVALID_VALUE : Z := 0xFFFFFFFE.

(** [dao_portq_t] *)
Record dao_portq := { rq_id : Z; port_id : Z }.

(** [dao_portq_list_t] *)
Record dao_portq_list := {
  ql_num : Z;
  ql_max : Z;
  ql_portqs : list dao_portq;
}.

(** [struct dao_portq_group]; [qg_lists] are the per-core lists, which the
    code lays out one after the other, [per_core_portq_list_size] bytes each. *)
Record dao_portq_group := {
  qg_name : string;
  qg_cores : Z;
  qg_index : Z;
  qg_lists : list dao_portq_list;
}.

(** [dao_portq_group_main_t]; [None] is [DAO_PORTQ_GROUP_INVALID_VALUE]. *)
Record dao_portq_group_main := {
  qm_num : Z;
  qm_max : Z;
  qm_groups : list (option dao_portq_group);
}.

(** [__portq_group_main] *)
Notation qg_state := (option dao_portq_group_main).

Definition portq_free (p : dao_portq) : bool := port_id p =? DAO_PORTQ_INVALID_VALUE.

Definition cell_free {A} (o : option A) : bool := match o with None => true | Some _ => false end.

(** ** Accessors (dao_portq_group_worker.h) *)

(** The group's object, dereferenced: a null table or a free cell is no object. *)
Definition dao_portq_group_get (epg : Z) (s : qg_state) : cres dao_portq_group :=
  match s with
  | None => Fault
  | Some pm =>
      _ ← verify (epg <? qm_max pm);
      o ← cget (qm_groups pm) epg;
      match o with Some g => Ret g | None => Fault end
  end.

Definition portq_group_list_get' (g : dao_portq_group) (core_id : Z) : cres dao_portq_list :=
  _ ← verify (core_id <? qg_cores g); cget (qg_lists g) core_id.

Definition dao_portq_group_list_get (epg core_id : Z) (s : qg_state) : cres dao_portq_list :=
  g ← dao_portq_group_get epg s; portq_group_list_get' g core_id.

(** The return value and the pair behind the pointer stored through [portq].
    An index of [INT32_MAX] makes the increment overflow. *)
Definition dao_portq_group_portq_get_next (epg core_id index : Z) (s : qg_state)
  : cres (Z * option dao_portq) :=
  if index =? 0x7FFFFFFF then Fault
  else
    let iter := index + 1 in
    epl ← dao_portq_group_list_get epg core_id s;
    if iter <? 0 then Ret (-1, None)
    else
      iter ← scan (in_use portq_free) (ql_portqs epl) (ql_max epl) (Z.to_nat (ql_max epl)) iter;
      if iter <? ql_max epl then p ← cget (ql_portqs epl) iter; Ret (iter, Some p)
      else Ret (-1, None).

(** [DAO_PORTQ_GROUP_FOREACH_CORE]: the indexes and pairs the loop body sees;
    the loop variable [portq] holds [cur] before the first store. *)
Fixpoint foreach_portq (fuel : nat) (epg core_id index : Z) (cur : option dao_portq) (s : qg_state)
  : cres (list (Z * dao_portq)) :=
  '(i, w) ← dao_portq_group_portq_get_next epg core_id index s;
  let cur := match w with Some p => Some p | None => cur end in
  if -1 <? i then
    match cur with
    | None => Fault
    | Some p =>
        if portq_free p then Ret []
        else match fuel with
             | O => Fault
             | S fuel => l ← foreach_portq fuel epg core_id i cur s; Ret ((i, p) :: l)
             end
    end
  else Ret [].

(** ** Control path (portq_group.c) *)

Definition portq_group_check_sanity (epg : Z) (s : qg_state) : cres Z :=
  match s with
  | None => Ret (-1)
  | Some pm =>
      if qm_max pm <=? epg then Ret (-1)
      else if qm_num pm <=? epg then Ret (-1)
      else _ ← dao_portq_group_get epg s; Ret 0
  end.

Definition portq_group_main_init (num_portq_groups : Z) (mem_ok : bool) (s : qg_state) : Z * qg_state :=
  if mem_ok then
    (0, Some {| qm_num := 0; qm_max := num_portq_groups;
                qm_groups := replicate (Z.to_nat num_portq_groups) None |})
  else (-1, s).

Definition dao_portq_group_init (num_portq_groups : Z) (mem_ok : bool) (s : qg_state) : Z * qg_state :=
  if num_portq_groups =? 0 then (-1, s)
  else match s with
       | Some _ => (-1, s)
       | None => portq_group_main_init num_portq_groups mem_ok s
       end.

(** What [memset] and the loop over the cores leave in a list: [rq_id] is 0. *)
Definition portq_list0 (num_portqs : Z) : dao_portq_list :=
  {| ql_num := 0; ql_max := num_portqs;
     ql_portqs := replicate (Z.to_nat num_portqs) {| rq_id := 0; port_id := DAO_PORTQ_INVALID_VALUE |} |}.

(** [mem_ok]: the allocations of the table and of the group succeed. *)
Definition dao_portq_group_create (portq_name : option string) (num_cores num_portqs : Z)
    (mem_ok : bool * bool) (s : qg_state) : cres (Z * option Z * qg_state) :=
  if num_cores <? 1 then Ret (-1, None, s)
  else if num_portqs <? 1 then Ret (-1, None, s)
  else
    let '(rc, s) := match s with
                    | None => dao_portq_group_init DAO_PORTQ_GROUP_MAX (fst mem_ok) s
                    | Some _ => (0, s)
                    end in
    if rc <? 0 then Ret (-1, None, s)
    else match s with
    | None => Fault
    | Some epm =>
        if u32 (qm_max epm - 1) <? qm_num epm then Ret (-1, None, s)
        else if negb (snd mem_ok) then Ret (-1, None, s)
        else
          iter ← scan cell_free (qm_groups epm) (qm_max epm) (Z.to_nat (qm_max epm)) 0;
          cell ← cget (qm_groups epm) iter;
          _ ← verify (cell_free cell);
          let epg := {| qg_name := match portq_name with
                                   | Some n => String.substring 0 (DAO_PORTQ_GROUP_NAMELEN - 1) n
                                   | None => ""%string
                                   end;
                        qg_cores := num_cores; qg_index := iter;
                        qg_lists := replicate (Z.to_nat num_cores) (portq_list0 num_portqs) |} in
          l ← cset (qm_groups epm) iter (Some epg);
          Ret (0, Some iter,
               Some {| qm_num := u32 (qm_num epm + 1); qm_max := qm_max epm; qm_groups := l |})
    end.

(** A list with the cell [iter] filled. *)
Definition list_add (epl : dao_portq_list) (iter : Z) (portq : dao_portq) : cres dao_portq_list :=
  l ← cset (ql_portqs epl) iter portq;
  Ret {| ql_num := u32 (ql_num epl + 1); ql_max := ql_max epl; ql_portqs := l |}.

(** A null [portq] is [None]; the result carries the index stored through
    [returned_index]. *)
Definition dao_portq_group_portq_add (epg core_id : Z) (portq : option dao_portq) (s : qg_state)
  : cres (Z * option Z * qg_state) :=
  match portq with
  | None => Ret (-1, None, s)
  | Some portq =>
      rc ← portq_group_check_sanity epg s;
      if rc <? 0 then Ret (-1, None, s)
      else
        g ← dao_portq_group_get epg s;
        if qg_cores g <=? core_id then Ret (-1, None, s)
        else
          epl ← portq_group_list_get' g core_id;
          if u32 (ql_max epl - 1) <? ql_num epl then Ret (-1, None, s)
          else
            iter ← scan portq_free (ql_portqs epl) (ql_max epl) (Z.to_nat (ql_max epl)) 0;
            if ql_max epl <=? iter then Ret (-1, None, s)
            else
              epl ← list_add epl iter portq;
              lists ← cset (qg_lists g) core_id epl;
              match s with
              | None => Fault
              | Some pm =>
                  l ← cset (qm_groups pm) epg
                    (Some {| qg_name := qg_name g; qg_cores := qg_cores g; qg_index := qg_index g;
                             qg_lists := lists |});
                  Ret (0, Some (i32 iter),
                       Some {| qm_num := qm_num pm; qm_max := qm_max pm; qm_groups := l |})
              end
  end.

(** [for (iter = 0; iter < max_portq_groups_supported; iter++)] *)
Fixpoint portq_group_by_name (name : string) (l : list (option dao_portq_group)) (iter : Z) : option Z :=
  match l with
  | [] => None
  | None :: l => portq_group_by_name name l (iter + 1)
  | Some g :: l =>
      if bool_decide (String.substring 0 DAO_PORTQ_GROUP_NAMELEN (qg_name g) =
                      String.substring 0 DAO_PORTQ_GROUP_NAMELEN name)
      then Some (u32 iter) else portq_group_by_name name l (iter + 1)
  end.

(** The handle stored through [_dpg], [None] for the return value -1. *)
Definition dao_portq_group_get_by_name (name : option string) (s : qg_state) : option Z :=
  match s, name with
  | Some pm, Some name => portq_group_by_name name (qm_groups pm) 0
  | _, _ => None
  end.

(** ** Invariant *)

Record plist_wf (epl : dao_portq_list) : Prop := {
  pw_max : 1 <= ql_max epl < 0x7FFFFFFF;
  pw_len : Z.of_nat (length (ql_portqs epl)) = ql_max epl;
  pw_num : ql_num epl = used_count portq_free (ql_portqs epl);
}.

Record pgroup_wf (g : dao_portq_group) : Prop := {
  gg_cores : 1 <= qg_cores g < 0x100000000;
  gg_len : Z.of_nat (length (qg_lists g)) = qg_cores g;
  gg_lists : Forall plist_wf (qg_lists g);
}.

(** The table: handles are given out in order and never taken back, so the
    cells below the count hold the groups and the others are free. *)
Record ptable_wf (pm : dao_portq_group_main) : Prop := {
  pt_max : 1 <= qm_max pm < 0x100000000;
  pt_len : Z.of_nat (length (qm_groups pm)) = qm_max pm;
  pt_num : 0 <= qm_num pm <= qm_max pm;
  pt_used : forall e, Z.of_nat e < qm_num pm -> exists g, qm_groups pm !! e = Some (Some g);
  pt_dense : forall e g, qm_groups pm !! e = Some (Some g) -> Z.of_nat e < qm_num pm /\ pgroup_wf g;
}.

(** The list of core [core] of group [epg]. *)
Definition list_at (pm : dao_portq_group_main) (epg core : Z) (g : dao_portq_group) (epl : dao_portq_list) : Prop :=
  0 <= epg < qm_num pm /\ qm_groups pm !! Z.to_nat epg = Some (Some g) /\
  0 <= core < qg_cores g /\ qg_lists g !! Z.to_nat core = Some epl.

Lemma group_get_at pm epg g : 0 <= epg < qm_max pm -> qm_groups pm !! Z.to_nat epg = Some (Some g) ->
  dao_portq_group_get epg (Some pm) = Ret g.
Proof.
  intros He Hg. unfold dao_portq_group_get. rewrite (proj2 (Z.ltb_lt epg _)) by lia.
  cbn [verify mbind cres_mbind]. rewrite (proj2 (cget_Ret _ _ (Some g))) by (split; [lia|done]). done.
Qed.

Lemma list_get_at g core epl : 0 <= core < qg_cores g -> qg_lists g !! Z.to_nat core = Some epl ->
  portq_group_list_get' g core = Ret epl.
Proof.
  intros Hc Hl. unfold portq_group_list_get'. rewrite (proj2 (Z.ltb_lt core _)) by lia.
  cbn [verify mbind cres_mbind]. apply cget_Ret. split; [lia|done].
Qed.

Lemma list_at_wf pm epg core g epl : ptable_wf pm -> list_at pm epg core g epl ->
  pgroup_wf g /\ plist_wf epl /\ 0 <= epg < qm_max pm.
Proof.
  intros Hwf (He & Hg & Hc & Hl). destruct (pt_dense pm Hwf _ _ Hg) as [_ Hgw].
  split; [done|]. split; [|pose proof (pt_num pm Hwf); lia].
  eapply Forall_lookup_1; [apply gg_lists, Hgw|done].
Qed.

Lemma portq_list_get_at pm epg core g epl : ptable_wf pm -> list_at pm epg core g epl ->
  dao_portq_group_list_get epg core (Some pm) = Ret epl.
Proof.
  intros Hwf Hat. destruct (list_at_wf _ _ _ _ _ Hwf Hat) as (_ & _ & He).
  destruct Hat as (_ & Hg & Hc & Hl). unfold dao_portq_group_list_get.
  rewrite (group_get_at pm epg g) by done. by apply list_get_at.
Qed.

Lemma portq_sane_at pm epg core g epl : ptable_wf pm -> list_at pm epg core g epl ->
  portq_group_check_sanity epg (Some pm) = Ret 0.
Proof.
  intros Hwf Hat. destruct (list_at_wf _ _ _ _ _ Hwf Hat) as (_ & _ & He).
  destruct Hat as (? & Hg & Hc & Hl). unfold portq_group_check_sanity.
  rewrite (proj2 (Z.leb_gt (qm_max pm) epg)), (proj2 (Z.leb_gt (qm_num pm) epg)) by lia.
  by rewrite (group_get_at pm epg g) by done.
Qed.

(** The table with the list of one core of one group replaced. *)
Definition put_list (pm : dao_portq_group_main) (epg core : Z) (g : dao_portq_group) (epl : dao_portq_list)
  : dao_portq_group_main :=
  {| qm_num := qm_num pm; qm_max := qm_max pm;
     qm_groups := <[Z.to_nat epg := Some {| qg_name := qg_name g; qg_cores := qg_cores g;
       qg_index := qg_index g; qg_lists := <[Z.to_nat core := epl]> (qg_lists g) |}]> (qm_groups pm) |}.

Lemma put_list_wf pm epg core g epl epl' : ptable_wf pm -> list_at pm epg core g epl -> plist_wf epl' ->
  ptable_wf (put_list pm epg core g epl').
Proof.
  intros Hwf Hat Hw. destruct (list_at_wf _ _ _ _ _ Hwf Hat) as ([Hco Hlen Hls] & _ & He).
  destruct Hwf as [H1 H2 H3 H4 H5]. destruct Hat as (H6 & H7 & H8 & H9).
  pose proof (lookup_lt_Some _ _ _ H7). split; cbn; [done|by rewrite length_insert|done|..].
  - intros e Hlt. destruct (decide (e = Z.to_nat epg)) as [->|].
    + rewrite list_lookup_insert_eq by done. eauto.
    + rewrite list_lookup_insert_ne by done. by apply H4.
  - intros e g0. destruct (decide (e = Z.to_nat epg)) as [->|].
    + rewrite list_lookup_insert_eq by done. intros [= <-]. split; [lia|]. split; cbn; [done|by rewrite length_insert|].
      by apply Forall_insert.
    + rewrite list_lookup_insert_ne by done. by apply H5.
Qed.

Lemma put_list_at pm epg core g epl epl' : list_at pm epg core g epl ->
  exists g', list_at (put_list pm epg core g epl') epg core g' epl'.
Proof.
  intros (H6 & H7 & H8 & H9). pose proof (lookup_lt_Some _ _ _ H7). pose proof (lookup_lt_Some _ _ _ H9).
  eexists. split; [done|]. split; [by apply list_lookup_insert_eq|]. split; [done|]. by apply list_lookup_insert_eq.
Qed.

Lemma put_list_other pm epg core g epl epl' e c : list_at pm epg core g epl -> 0 <= e -> 0 <= c ->
  (e, c) <> (epg, core) ->
  dao_portq_group_list_get e c (Some (put_list pm epg core g epl')) = dao_portq_group_list_get e c (Some pm).
Proof.
  intros (H6 & H7 & H8 & H9) He Hc Hne. unfold dao_portq_group_list_get, dao_portq_group_get. cbn.
  destruct (e <? qm_max pm); [|done]. cbn. unfold cget. destruct (e <? 0); [done|].
  destruct (decide (e = epg)) as [->|].
  - rewrite list_lookup_insert_eq by (by eapply lookup_lt_Some). rewrite H7. cbn.
    unfold portq_group_list_get'. cbn. destruct (c <? qg_cores g); [|done]. cbn.
    unfold cget. destruct (c <? 0); [done|]. rewrite list_lookup_insert_ne; [done|].
    intros ?. assert (c = core) by lia. congruence.
  - rewrite list_lookup_insert_ne by lia. done.
Qed.

(** The first free cell of a list that is not full. *)
Lemma portq_scan_free epl : plist_wf epl -> ql_num epl < ql_max epl ->
  exists i x, scan portq_free (ql_portqs epl) (ql_max epl) (Z.to_nat (ql_max epl)) 0 = Ret i /\
    0 <= i < ql_max epl /\ ql_portqs epl !! Z.to_nat i = Some x /\ portq_free x = true /\
    forall k p, 0 <= k < i -> ql_portqs epl !! Z.to_nat k = Some p -> portq_free p = false.
Proof.
  intros [Hmax Hlen Hnum] Hlt.
  destruct (scan_spec portq_free (ql_portqs epl) (ql_max epl) (Z.to_nat (ql_max epl)) 0)
    as (i & Hs & Hi & Him & Hbefore & Hat); [lia..|].
  assert (i < ql_max epl) as Hlt'.
  { destruct (decide (i < ql_max epl)); [done|]. exfalso.
    assert (used_count portq_free (ql_portqs epl) = ql_max epl); [|lia].
    rewrite <- Hlen. apply used_count_all, Forall_lookup. intros k x Hx. pose proof (lookup_lt_Some _ _ _ Hx).
    apply (Hbefore (Z.of_nat k) x); [lia|by rewrite Nat2Z.id]. }
  destruct (Hat Hlt') as (x & Hx & Hfree). exists i, x. done.
Qed.

Lemma list_add_wf epl i x pq : plist_wf epl -> 0 <= i < ql_max epl -> ql_portqs epl !! Z.to_nat i = Some x ->
  portq_free x = true -> portq_free pq = false ->
  exists epl', list_add epl i pq = Ret epl' /\ plist_wf epl' /\ ql_num epl' = ql_num epl + 1 /\
    ql_max epl' = ql_max epl /\ ql_portqs epl' = <[Z.to_nat i := pq]> (ql_portqs epl).
Proof.
  intros [Hmax Hlen Hnum] Hi Hx Hfx Hfp. pose proof (used_count_bounds portq_free (ql_portqs epl)).
  unfold list_add. rewrite cset_in_range by lia. cbn [mbind cres_mbind].
  rewrite u32_id by (unfold is_u32; lia). eexists. split; [done|]. split_and!; try done.
  split; cbn; [done|by rewrite length_insert|].
  rewrite (used_count_insert portq_free _ _ x) by done. rewrite Hfx, Hfp. cbn. lia.
Qed.

(** Adding a queue to a core. Unless the core's list is full, in which
    case it returns -1 and changes nothing, [dao_portq_group_portq_add] stores
    the pair in the first free cell of the list of that core and returns its
    index; the list of every other core of the group, and of every other
    group, reads as before, and the table stays well formed. *)
Theorem portq_add_first_free (pm : dao_portq_group_main) (epg core : Z) (g : dao_portq_group)
    (epl : dao_portq_list) (pq : dao_portq) :
  ptable_wf pm -> list_at pm epg core g epl -> port_id pq <> DAO_PORTQ_INVALID_VALUE ->
  ql_num epl = ql_max epl /\
    dao_portq_group_portq_add epg core (Some pq) (Some pm) = Ret (-1, None, Some pm) \/
  exists i pm' epl',
    dao_portq_group_portq_add epg core (Some pq) (Some pm) = Ret (0, Some i, Some pm') /\
    ptable_wf pm' /\ 0 <= i < ql_max epl /\
    (exists x, ql_portqs epl !! Z.to_nat i = Some x /\ portq_free x = true) /\
    (forall k p, 0 <= k < i -> ql_portqs epl !! Z.to_nat k = Some p -> portq_free p = false) /\
    dao_portq_group_list_get epg core (Some pm') = Ret epl' /\
    ql_num epl' = ql_num epl + 1 /\ ql_portqs epl' = <[Z.to_nat i := pq]> (ql_portqs epl) /\
    forall e c, 0 <= e -> 0 <= c -> (e, c) <> (epg, core) ->
      dao_portq_group_list_get e c (Some pm') = dao_portq_group_list_get e c (Some pm).
Proof.
  intros Hwf Hat Hpq. destruct (list_at_wf _ _ _ _ _ Hwf Hat) as ([Hco Hlen _] & Hw & He).
  pose proof Hw as [Hmax Hl Hnum]. pose proof (used_count_bounds portq_free (ql_portqs epl)).
  pose proof Hat as (_ & Hg & Hc & Hle). pose proof (pt_len pm Hwf) as Hpl.
  unfold dao_portq_group_portq_add. rewrite (portq_sane_at pm epg core g epl) by done. cbn [mbind cres_mbind].
  change (0 <? 0) with false. cbn [negb].
  rewrite (group_get_at pm epg g) by done. cbn [mbind cres_mbind].
  rewrite (proj2 (Z.leb_gt _ core)) by lia. rewrite (list_get_at g core epl) by done. cbn [mbind cres_mbind].
  rewrite u32_id by (unfold is_u32; lia).
  destruct (Z.ltb_spec (ql_max epl - 1) (ql_num epl)); [left; split; [lia|done]|right].
  destruct (portq_scan_free epl Hw) as (i & x & -> & Hi & Hx & Hfx & Hbefore); [lia|]. cbn [mbind cres_mbind].
  rewrite (proj2 (Z.leb_gt _ i)) by lia.
  destruct (list_add_wf epl i x pq) as (epl' & -> & Hw' & Hn' & _ & Hq');
    [done..|by apply Z.eqb_neq|]. cbn [mbind cres_mbind].
  rewrite cset_in_range by lia. cbn [mbind cres_mbind].
  rewrite cset_in_range by lia. cbn [mbind cres_mbind].
  assert (i32 i = i) as -> by (unfold i32; rewrite u32_id by (unfold is_u32; lia);
    rewrite (proj2 (Z.ltb_lt i _)) by lia; done).
  pose proof (put_list_wf pm epg core g epl epl' Hwf Hat Hw') as Hwf'.
  destruct (put_list_at pm epg core g epl epl' Hat) as (g' & Hat').
  exists i, (put_list pm epg core g epl'), epl'. split; [done|]. split_and!; try done; try lia.
  - eauto.
  - by apply (portq_list_get_at _ _ _ g').
  - intros e c ? ? ?. by apply (put_list_other _ _ _ _ epl).
Qed.

(** The next pair in use. *)
Lemma portq_get_next_at pm epg core g epl i : ptable_wf pm -> list_at pm epg core g epl ->
  -1 <= i < ql_max epl ->
  exists j, i < j /\
    used_from portq_free (ql_portqs epl) (i + 1) =
      (if j <? ql_max epl then j :: used_from portq_free (ql_portqs epl) (j + 1) else []) /\
    if j <? ql_max epl
    then exists p, ql_portqs epl !! Z.to_nat j = Some p /\ portq_free p = false /\
           dao_portq_group_portq_get_next epg core i (Some pm) = Ret (j, Some p)
    else dao_portq_group_portq_get_next epg core i (Some pm) = Ret (-1, None).
Proof.
  intros Hwf Hat Hi. destruct (list_at_wf _ _ _ _ _ Hwf Hat) as (_ & [Hmax Hlen _] & _).
  unfold dao_portq_group_portq_get_next. rewrite (proj2 (Z.eqb_neq i _)) by lia.
  rewrite (portq_list_get_at pm epg core g epl) by done. cbn [mbind cres_mbind].
  rewrite (proj2 (Z.ltb_ge (i + 1) 0)) by lia.
  destruct (scan_spec (in_use portq_free) (ql_portqs epl) (ql_max epl) (Z.to_nat (ql_max epl)) (i + 1))
    as (j & -> & Hij & Hjm & Hbefore & Hj); [lia..|]. cbn [mbind cres_mbind].
  exists j. split; [lia|]. split.
  { rewrite <- Hlen in Hj |- *. apply used_from_next; (done || lia). }
  destruct (Z.ltb_spec j (ql_max epl)) as [Hlt|]; [|done].
  destruct (Hj Hlt) as (p & Hp & Hu). exists p. split; [done|]. split; [by apply negb_true_iff|].
  rewrite (proj2 (cget_Ret _ _ p)) by (split; [lia|done]). done.
Qed.

(** [DAO_PORTQ_GROUP_FOREACH_CORE] visits every pair of the list of a
    core once, in index order, each with its index, and then stops; the loop
    reads its variable only after a store to it. *)
Theorem foreach_portq_visits (pm : dao_portq_group_main) (epg core : Z) (g : dao_portq_group)
    (epl : dao_portq_list) :
  ptable_wf pm -> list_at pm epg core g epl ->
  exists l, foreach_portq (S (length (ql_portqs epl))) epg core (-1) None (Some pm) = Ret l /\
    l.*1 = used_from portq_free (ql_portqs epl) 0 /\
    Forall (fun ip => ql_portqs epl !! Z.to_nat (fst ip) = Some (snd ip)) l.
Proof.
  intros Hwf Hat. destruct (list_at_wf _ _ _ _ _ Hwf Hat) as (_ & [Hmax Hlen _] & _).
  assert (forall fuel i cur, -1 <= i < ql_max epl -> ql_max epl - i <= Z.of_nat fuel ->
    exists l, foreach_portq fuel epg core i cur (Some pm) = Ret l /\
      l.*1 = used_from portq_free (ql_portqs epl) (i + 1) /\
      Forall (fun ip => ql_portqs epl !! Z.to_nat (fst ip) = Some (snd ip)) l) as Hgo.
  { induction fuel as [|fuel IH]; intros i cur Hi Hf; [lia|]. cbn [foreach_portq].
    destruct (portq_get_next_at pm epg core g epl i) as (j & Hj & -> & Hnext); [done..|].
    destruct (Z.ltb_spec j (ql_max epl)).
    - destruct Hnext as (q & Hq & Hfree & ->). cbn [mbind cres_mbind].
      rewrite (proj2 (Z.ltb_lt (-1) j)) by lia. rewrite Hfree.
      destruct (IH j (Some q)) as (l & -> & Hl & Hall); [lia..|].
      exists ((j, q) :: l). split; [done|]. split; [cbn; by rewrite Hl|]. by constructor.
    - rewrite Hnext. exists []. done. }
  apply (Hgo _ (-1)); lia.
Qed.

(** Creating a portq group. With the allocation succeeding,
    [dao_portq_group_create] in a well-formed table that is not full returns 0
    and the number of groups so far as the handle; every core of the new
    group has an empty list of the requested size, the other groups are kept
    and the table stays well formed; the [RTE_VERIFY] on the free cell cannot
    fire. A full table is refused without a change. *)
Theorem portq_group_create_next (pm : dao_portq_group_main) (name : option string) (cores n : Z) (ok : bool) :
  ptable_wf pm -> 1 <= cores < 0x100000000 -> 1 <= n < 0x7FFFFFFF ->
  exists rc h pm', dao_portq_group_create name cores n (ok, true) (Some pm) = Ret (rc, h, Some pm') /\
    (qm_num pm = qm_max pm /\ rc = -1 /\ h = None /\ pm' = pm \/
     qm_num pm < qm_max pm /\ rc = 0 /\ h = Some (qm_num pm) /\ ptable_wf pm' /\
     qm_num pm' = qm_num pm + 1 /\
     (forall c, 0 <= c < cores -> exists epl,
        dao_portq_group_list_get (qm_num pm) c (Some pm') = Ret epl /\ ql_max epl = n /\
        used_from portq_free (ql_portqs epl) 0 = []) /\
     forall e, e <> Z.to_nat (qm_num pm) -> qm_groups pm' !! e = qm_groups pm !! e).
Proof.
  intros Hwf Hc Hn. pose proof Hwf as [Hmax Hlen Hnum Hused Hdense]. unfold dao_portq_group_create.
  rewrite (proj2 (Z.ltb_ge cores 1)), (proj2 (Z.ltb_ge n 1)) by lia. cbn [Z.ltb Z.compare snd].
  rewrite u32_id by (unfold is_u32; lia).
  destruct (Z.ltb_spec (qm_max pm - 1) (qm_num pm)).
  { eexists _, _, pm. split; [done|]. left. split; [lia|done]. }
  cbn [negb].
  destruct (scan_spec (@cell_free dao_portq_group) (qm_groups pm) (qm_max pm) (Z.to_nat (qm_max pm)) 0)
    as (i & -> & Hi & Him & Hbefore & Hat); [lia..|]. cbn [mbind cres_mbind].
  assert (qm_groups pm !! Z.to_nat (qm_num pm) = Some None) as Hfree.
  { destruct (lookup_lt_is_Some_2 (qm_groups pm) (Z.to_nat (qm_num pm))) as [[g|] Hg]; [lia|..|done].
    destruct (Hdense _ _ Hg). lia. }
  assert (i = qm_num pm) as ->.
  { assert (i <= qm_num pm).
    { destruct (decide (i <= qm_num pm)); [done|].
      assert (cell_free (@None dao_portq_group) = false) as [=] by (apply (Hbefore (qm_num pm)); [lia|done]). }
    destruct (decide (qm_num pm <= i)); [lia|]. destruct (Hat ltac:(lia)) as (x & Hx & Hf).
    destruct (Hused (Z.to_nat i)) as (g & Hg); [lia|]. rewrite Hx in Hg. injection Hg as ->. done. }
  rewrite (proj2 (cget_Ret _ _ None)) by (split; [lia|done]). cbn [mbind cres_mbind cell_free verify].
  set (g := {| qg_name := _; qg_cores := _; qg_index := _; qg_lists := _ |}).
  rewrite cset_in_range by lia. cbn [mbind cres_mbind]. rewrite u32_id by (unfold is_u32; lia).
  assert (plist_wf (portq_list0 n)) as Hl0.
  { split; cbn; [done|rewrite length_replicate; lia|]. by rewrite used_count_replicate. }
  assert (pgroup_wf g) as Hgw.
  { split; cbn; [done|rewrite length_replicate; lia|]. by apply Forall_replicate. }
  eexists _, _, _. split; [done|]. right.
  match goal with |- context [ptable_wf ?p] => set (pm' := p) end.
  assert (qm_groups pm' !! Z.to_nat (qm_num pm) = Some (Some g)) as Hnew
    by (cbn; apply list_lookup_insert_eq; lia).
  assert (forall e, e <> Z.to_nat (qm_num pm) -> qm_groups pm' !! e = qm_groups pm !! e) as Hold
    by (intros; cbn; by rewrite list_lookup_insert_ne).
  split_and!; [lia|done|done|..|done| |done].
  - split; cbn -[qm_groups]; [done|cbn; by rewrite length_insert|lia|..].
    + intros e He. destruct (decide (e = Z.to_nat (qm_num pm))) as [->|]; [eauto|].
      rewrite Hold by done. apply Hused. lia.
    + intros e g0. destruct (decide (e = Z.to_nat (qm_num pm))) as [->|].
      * rewrite Hnew. intros [= <-]. split; [lia|done].
      * rewrite Hold by done. intros [??]%Hdense. split; [lia|done].
  - intros c Hcc. exists (portq_list0 n).
    assert (qg_lists g !! Z.to_nat c = Some (portq_list0 n)) as Hlc
      by (cbn; apply lookup_replicate; split; [done|lia]).
    split; [|split; [done|]].
    + unfold dao_portq_group_list_get. rewrite (group_get_at pm' _ g) by (done || cbn; lia).
      by apply list_get_at.
    + rewrite (used_from_next portq_free _ 0 n); [..|cbn; rewrite length_replicate; lia]; try lia.
      * by rewrite (proj2 (Z.ltb_ge n _)) by (cbn; rewrite length_replicate; lia).
      * intros k x Hk Hx. cbn in Hx. apply lookup_replicate in Hx as [-> _]. done.
Qed.

(** ** Witnesses *)

(** Two cores with three cells each; core 1 polls queue 4 of port 7. *)
Definition wit_epl : dao_portq_list :=
  {| ql_num := 1; ql_max := 3;
     ql_portqs := {| rq_id := 4; port_id := 7 |} :: ql_portqs (portq_list0 2) |}.

Definition wit_qg : dao_portq_group :=
  {| qg_name := "q"; qg_cores := 2; qg_index := 0; qg_lists := [portq_list0 3; wit_epl] |}.

Definition wit_qm : dao_portq_group_main :=
  {| qm_num := 1; qm_max := 8; qm_groups := Some wit_qg :: replicate 7 None |}.

Lemma wit_qm_wf : ptable_wf wit_qm.
Proof.
  split; [cbn; lia|reflexivity|cbn; lia|..].
  - intros [|e] He; [by eexists|cbn in He; lia].
  - intros [|e] g.
    + intros [= <-]. split; [cbn; lia|]. split; [cbn; lia|reflexivity|].
      repeat constructor; cbn; lia.
    + intros He. change (replicate 7 None !! e = Some (Some g)) in He. by apply lookup_replicate in He as [? _].
Qed.

Lemma wit_qm_at : list_at wit_qm 0 1 wit_qg wit_epl.
Proof. split; [cbn; lia|]. split; [done|]. split; [cbn; lia|done]. Qed.

Lemma portq_add_first_free_witness :
  exists pm', dao_portq_group_portq_add 0 1 (Some {| rq_id := 5; port_id := 7 |}) (Some wit_qm) =
    Ret (0, Some 1, Some pm') /\
    dao_portq_group_list_get 0 0 (Some pm') = Ret (portq_list0 3).
Proof.
  destruct (portq_add_first_free wit_qm 0 1 wit_qg wit_epl {| rq_id := 5; port_id := 7 |} wit_qm_wf wit_qm_at)
    as [[H1 _]|(i & pm' & epl' & H1 & _ & _ & _ & _ & _ & _ & _ & H2)].
  - unfold DAO_PORTQ_INVALID_VALUE. cbn. lia.
  - exfalso. revert H1. vm_compute. discriminate.
  - assert (i = 1) as -> by (revert H1; vm_compute; intros [= <- _]; reflexivity).
    exists pm'. split; [exact H1|]. rewrite H2; [reflexivity|lia|lia|congruence].
Defined.

Lemma foreach_portq_visits_witness :
  exists l, foreach_portq 4 0 1 (-1) None (Some wit_qm) = Ret l /\ l.*1 = [0].
Proof.
  destruct (foreach_portq_visits wit_qm 0 1 wit_qg wit_epl wit_qm_wf wit_qm_at) as (l & H1 & H2 & _).
  exists l. split; [exact H1|exact H2].
Defined.

Lemma portq_group_create_next_witness :
  exists rc pm', dao_portq_group_create None 4 16 (true, true) (Some wit_qm) = Ret (rc, Some 1, Some pm') /\
    ptable_wf pm'.
Proof.
  destruct (portq_group_create_next wit_qm None 4 16 true wit_qm_wf)
    as (rc & h & pm' & H1 & [(H2 & _)|(_ & _ & H2 & H3 & _)]).
  - lia.
  - lia.
  - exfalso. revert H2. cbn. lia.
  - subst h. exists rc, pm'. split; [exact H1|exact H3].
Defined.
