(* ===== verification/Pem.v ===== *)
(** * Control regions of the PEM device (lib/pem/pem.c)

    A PEM device gives every virtual function a window of BAR4 and polls the
    registered control regions: a region is an array of 64-bit registers with
    a shadow copy, and a callback that is called for every register that
    differs from its shadow. *)
From stdpp Require Import base option list numbers gmap.
From S2P Require Import Prelude Rte.

Local Open Scope Z_scope.

Definition DAO_PEM_CTRL_REGION_MAX : Z := 384.
Definition DAO_PEM_CTRL_REGION_MASK_MAX : Z := 6.
Definition DAO_PEM_DEFAULT_HOST_PAGE_SZ : Z := 64 * 1024.
Definition PEM_PFVF_DEV_ID_PF_MASK : Z := 0xF000.
Definition PEM_PFVF_DEV_ID_PF_SHIFT : Z := 12.
Definition PEM_PFVF_DEV_ID_VF_MASK : Z := 0x0FFF.
Definition PEM_PFVF_DEV_ID_VF_SHIFT : Z := 0.
Definition ENOTSUP : Z := 95.

(** ** State *)

(** [struct pem_region]; [reg_cb] is the callback with its context. *)
Record pem_region {CB : Type} := {
  reg_base : Z;
  reg_sz : Z;
  reg_cb : CB;
  shadow : list Z;
}.
Arguments pem_region : clear implicits.

(** [struct pem], with the address and size of BAR4. [regions] holds
    pointers, [None] is a null pointer; [heap] is the memory behind them. *)
Record pem {CB : Type} := {
  host_page_sz : Z;
  host_pages_per_dev : Z;
  max_vfs : Z;
  bar4_addr : Z;
  regions : list (option Z);
  region_mask : list Z;
  heap : gmap Z (pem_region CB);
}.
Arguments pem : clear implicits.

Section pem.
Context {CB : Type} `{EqDecision CB}.

Definition pem_set_regions (p : pem CB) (rs : list (option Z)) (m : list Z) (h : gmap Z (pem_region CB)) : pem CB :=
  {| host_page_sz := host_page_sz p; host_pages_per_dev := host_pages_per_dev p;
     max_vfs := max_vfs p; bar4_addr := bar4_addr p;
     regions := rs; region_mask := m; heap := h |}.

(** ** Registering and unregistering *)

(** The [do ... while (j % 64 != 0)] loop over one word of the mask: whether
    a clear bit was found, and [j]. *)
Fixpoint mask_search (fuel : nat) (mask j : Z) : cres (bool * Z) :=
  if Z.land mask 1 =? 0 then Ret (true, j)
  else
    let j := j + 1 in
    let mask := Z.shiftr mask 1 in
    if j mod 64 =? 0 then Ret (false, j)
    else match fuel with
         | O => Fault
         | S fuel => mask_search fuel mask j
         end.

(** The loop over the words of the mask: the word and the position of the
    first clear bit. *)
Fixpoint free_search (masks : list Z) (i j : Z) : cres (option (Z * Z)) :=
  match masks with
  | [] => Ret None
  | mask :: masks =>
      '(found, j) ← mask_search 63 mask j;
      if (found : bool) then Ret (Some (i, j)) else free_search masks (i + 1) j
  end.

(** [mem] is the result of [rte_zmalloc], [regs] the registers at [base],
    which the shadow is a copy of when [sync_shadow] is set. *)
Definition dao_pem_ctrl_region_register (base len : Z) (cb : CB) (sync_shadow : bool)
    (mem : option Z) (regs : list Z) (p : pem CB) : cres (Z * pem CB) :=
  o ← free_search (region_mask p) 0 0;
  match o with
  | None => Ret (- ENOMEM, p)
  | Some (i, j) =>
      match mem with
      | None => Ret (- ENOMEM, p)
      | Some a =>
          let sz := len / 8 in
          mask ← cget (region_mask p) i;
          masks ← cset (region_mask p) i (Z.lor mask (RTE_BIT64 (j mod 64)));
          rs ← cset (regions p) j (Some a);
          let region := {| reg_base := base; reg_sz := sz; reg_cb := cb;
                           shadow := if sync_shadow then take (Z.to_nat sz) regs
                                     else replicate (Z.to_nat sz) 0 |} in
          Ret (0, pem_set_regions p rs masks (<[a := region]> (heap p)))
      end
  end.

Definition region_matches (r : pem_region CB) (base len : Z) (cb : CB) : bool :=
  (reg_base r =? base) && (reg_sz r * 8 =? len) && bool_decide (reg_cb r = cb).

(** [for (i = 0; i < DAO_PEM_CTRL_REGION_MAX; i++)] up to the matching region. *)
Fixpoint region_search (h : gmap Z (pem_region CB)) (base len : Z) (cb : CB) (rs : list (option Z)) (i : Z)
  : cres (option (Z * Z)) :=
  match rs with
  | [] => Ret None
  | None :: rs => region_search h base len cb rs (i + 1)
  | Some a :: rs =>
      match h !! a with
      | None => Fault
      | Some r =>
          if region_matches r base len cb then Ret (Some (i, a))
          else region_search h base len cb rs (i + 1)
      end
  end.

Definition dao_pem_ctrl_region_unregister (base len : Z) (cb : CB) (p : pem CB) : cres (Z * pem CB) :=
  o ← region_search (heap p) base len cb (regions p) 0;
  match o with
  | None => Ret (- ENOENT, p)
  | Some (i, a) =>
      mask ← cget (region_mask p) (i / 64);
      masks ← cset (region_mask p) (i / 64) (Z.ldiff mask (RTE_BIT64 (i mod 64)));
      rs ← cset (regions p) i None;
      Ret (0, pem_set_regions p rs masks (delete a (heap p)))
  end.

(** The cleanup loop of [dao_pem_dev_fini]: every region is freed and every
    cell set to null. *)
Definition pem_regions_free (p : pem CB) : pem CB :=
  pem_set_regions p (replicate (length (regions p)) None) (region_mask p)
    (foldr (fun o h => match o with Some a => delete a h | None => h end) (heap p) (regions p)).

(** ** Windows of BAR4 *)

(** The part of [dao_pem_dev_init] after the VFIO setup that lays out BAR4:
    [sz] is its size, [vfs] the number the device tree gives. *)
Definition pem_layout (page_sz sz vfs : Z) (p : pem CB) : option (pem CB) :=
  let vfs := u16 vfs in
  if vfs =? 0 then None
  else
    let page_sz := if page_sz =? 0 then DAO_PEM_DEFAULT_HOST_PAGE_SZ else page_sz in
    let pages := (sz / page_sz) / vfs in
    if pages =? 0 then None
    else Some {| host_page_sz := page_sz; host_pages_per_dev := pages; max_vfs := vfs;
                 bar4_addr := bar4_addr p; regions := regions p; region_mask := region_mask p;
                 heap := heap p |}.

(** The address and the size, or the negative error. *)
Definition dao_pem_vf_region_info_get (dev_id bar_idx : Z) (p : pem CB) : Z + Z * Z :=
  let pf := Z.shiftr (Z.land dev_id PEM_PFVF_DEV_ID_PF_MASK) PEM_PFVF_DEV_ID_PF_SHIFT in
  let vf := Z.shiftr (Z.land dev_id PEM_PFVF_DEV_ID_VF_MASK) PEM_PFVF_DEV_ID_VF_SHIFT in
  if negb (bar_idx =? 4) then inl (- ENOENT)
  else if (0 <? pf) || (max_vfs p <=? vf) then inl (- ENOTSUP)
  else inr (u64 (bar4_addr p + u64 (vf * host_pages_per_dev p * host_page_sz p)),
            u64 (host_pages_per_dev p * host_page_sz p)).
End pem.

(** ** Polling

    The poll thread works on a world that holds the device, the registers,
    and whatever the callbacks change. [run_cb cb a i val shd] is
    [cb(ctx, shadow, i, val, shd)] with the shadow of the region at [a]. *)
Class PemWorld (W CB : Type) := {
  w_pem : W -> pem CB;
  reg_read : Z -> W -> Z;
  run_cb : CB -> Z -> Z -> Z -> Z -> W -> cres W;
}.

Section poll.
Context {W CB : Type} `{PemWorld W CB}.

(** The loop of [check_ctrl_reg] over the words of the region at [a]; the
    region is read again in every iteration. *)
Fixpoint check_words (fuel : nat) (a i : Z) (w : W) : cres W :=
  match heap (w_pem w) !! a with
  | None => Fault
  | Some r =>
      if reg_sz r <=? i then Ret w
      else
        let val := reg_read (reg_base r + 8 * i) w in
        shd_val ← cget (shadow r) i;
        w ← (if val =? shd_val then Ret w else run_cb (reg_cb r) a i val shd_val w);
        match fuel with
        | O => Fault
        | S fuel => check_words fuel a (i + 1) w
        end
  end.

Definition check_ctrl_reg (region : option Z) (w : W) : cres W :=
  match region with
  | None => Ret w
  | Some a =>
      match heap (w_pem w) !! a with
      | None => Fault
      | Some r => check_words (Z.to_nat (reg_sz r)) a 0 w
      end
  end.

(** [while (mask)]: the walk over one word of the mask. *)
Fixpoint walk_mask (fuel : nat) (mask base : Z) (w : W) : cres W :=
  if mask =? 0 then Ret w
  else match fuel with
       | O => Fault
       | S fuel =>
           w ← (if negb (Z.land mask 1 =? 0)
                then r ← cget (regions (w_pem w)) base; check_ctrl_reg r w
                else Ret w);
           walk_mask fuel (Z.shiftr mask 1) (base + 1) w
       end.

(** One iteration of the loop of [pem_ctrl_reg_poll], for word [i]. *)
Definition poll_word (i : Z) (w : W) : cres W :=
  mask ← cget (region_mask (w_pem w)) i;
  walk_mask 64 mask (i * 64) w.

(** The iterations between two delays. *)
Definition poll_pass (w : W) : cres W :=
  foldl (fun r i => r ≫= poll_word (Z.of_nat i)) (Ret w) (seq 0 (Z.to_nat DAO_PEM_CTRL_REGION_MASK_MAX)).
End poll.

(** ** Invariant of the registry *)

(** Bit [j] of the region mask. *)
Definition mask_bit (masks : list Z) (j : Z) : bool :=
  match masks !! Z.to_nat (j / 64) with Some m => Z.testbit m (j mod 64) | None => false end.

(** A word is what its low 64 bits say. *)
Lemma is_u64_bits x : 0 <= x -> (forall i, 64 <= i -> Z.testbit x i = false) -> is_u64 x.
Proof.
  intros Hx Hb. apply u64_pow2. split; [done|]. destruct (Z.lt_ge_cases x (2 ^ 64)); [done|]. exfalso.
  assert (0 < x) as Hp by lia. assert (64 <= Z.log2 x) as Hlog by (apply Z.log2_le_pow2; lia).
  pose proof (Z.bit_log2 _ Hp) as Hbit. by rewrite Hb in Hbit.
Qed.

Section pem_lemmas.
Context {CB : Type} `{EqDecision CB}.
Implicit Types p : pem CB.

(** The mask says which cells hold a region, every region is allocated, and
    no two cells share one. *)
Record pem_wf (p : pem CB) : Prop := {
  pw_regions : Z.of_nat (length (regions p)) = DAO_PEM_CTRL_REGION_MAX;
  pw_masks : Z.of_nat (length (region_mask p)) = DAO_PEM_CTRL_REGION_MASK_MAX;
  pw_bits : forall j, 0 <= j < DAO_PEM_CTRL_REGION_MAX ->
    mask_bit (region_mask p) j = true <-> exists a, regions p !! Z.to_nat j = Some (Some a);
  pw_words : Forall is_u64 (region_mask p);
  pw_heap : forall j a, regions p !! j = Some (Some a) ->
    exists r, heap p !! a = Some r /\ Z.of_nat (length (shadow r)) = reg_sz r;
  pw_inj : forall j k a, regions p !! j = Some (Some a) -> regions p !! k = Some (Some a) -> j = k;
}.

(** The region in cell [j]. *)
Definition region_at (p : pem CB) (j : Z) : option (pem_region CB) :=
  match regions p !! Z.to_nat j with Some (Some a) => heap p !! a | _ => None end.

Lemma mask_search_spec M i : 0 <= i -> forall fuel k, 0 <= k < 64 -> 63 - k <= Z.of_nat fuel ->
  exists k', k <= k' <= 64 /\
    mask_search fuel (Z.shiftr M k) (64 * i + k) = Ret (k' <? 64, 64 * i + k') /\
    (forall n, k <= n < k' -> Z.testbit M n = true) /\
    (k' < 64 -> Z.testbit M k' = false).
Proof.
  intros Hi fuel. induction fuel as [|fuel IH]; intros k Hk Hf; cbn [mask_search];
    change 1 with (RTE_BIT64 0) at 1; rewrite land_RTE_BIT64, Z.shiftr_spec, Z.add_0_l by lia;
    destruct (Z.testbit M k) eqn:Hb; cbn [negb].
  - exists 64. split; [lia|]. assert (k = 63) as -> by lia.
    replace (64 * i + 63 + 1) with ((i + 1) * 64) by lia. rewrite Z_mod_mult. cbn.
    split; [do 2 f_equal; lia|]. split; [|lia]. intros n Hn. by assert (n = 63) as -> by lia.
  - exists k. split; [lia|]. rewrite (proj2 (Z.ltb_lt k 64)) by lia. split; [done|]. split; [lia|done].
  - destruct (decide (k = 63)) as [->|].
    + exists 64. split; [lia|]. replace (64 * i + 63 + 1) with ((i + 1) * 64) by lia. rewrite Z_mod_mult. cbn.
      split; [do 2 f_equal; lia|]. split; [|lia]. intros n Hn. by assert (n = 63) as -> by lia.
    + rewrite (proj2 (Z.eqb_neq _ 0)) 
        by (replace (64 * i + k + 1) with (k + 1 + i * 64) by lia; rewrite Z_mod_plus_full, Z.mod_small; lia).
      destruct (IH (k + 1)) as (k' & Hk' & Hs & Hset & Hclr); [lia..|].
      rewrite Z.shiftr_shiftr by lia. rewrite Z.add_assoc in Hs. rewrite Hs. exists k'. split; [lia|].
      split; [done|]. split; [|done]. intros m Hm. destruct (decide (m = k)) as [->|]; [done|]. apply Hset. lia.
  - exists k. split; [lia|]. rewrite (proj2 (Z.ltb_lt k 64)) by lia. split; [done|]. split; [lia|done].
Qed.

Lemma mask_bit_at masks i k M : 0 <= i -> 0 <= k < 64 -> masks !! Z.to_nat i = Some M ->
  mask_bit masks (64 * i + k) = Z.testbit M k.
Proof.
  intros Hi Hk HM. unfold mask_bit. rewrite (Z.mul_comm 64), Z.add_comm, Z_div_plus, Z_mod_plus_full by lia.
  rewrite Z.div_small, Z.mod_small, Z.add_0_l, HM by lia. done.
Qed.

Lemma free_search_spec masks : forall ms i, drop (Z.to_nat i) masks = ms -> 0 <= i ->
  match free_search ms i (64 * i) with
  | Ret None => forall j, 64 * i <= j < 64 * Z.of_nat (length masks) -> mask_bit masks j = true
  | Ret (Some (i', j')) => i' = j' / 64 /\ 64 * i <= j' < 64 * Z.of_nat (length masks) /\
      mask_bit masks j' = false /\ forall j, 64 * i <= j < j' -> mask_bit masks j = true
  | _ => False
  end.
Proof.
  induction ms as [|M ms IH]; intros i Hd Hi; cbn [free_search].
  { apply (f_equal length) in Hd. rewrite length_drop in Hd. cbn in Hd. lia. }
  assert (masks !! Z.to_nat i = Some M) as HM.
  { pose proof (lookup_drop masks (Z.to_nat i) 0) as E. rewrite Hd, Nat.add_0_r in E. by rewrite <- E. }
  pose proof (lookup_lt_Some _ _ _ HM).
  destruct (mask_search_spec M i Hi 63 0) as (k & Hk & Hs & Hset & Hclr); [lia..|].
  rewrite Z.shiftr_0_r, Z.add_0_r in Hs. rewrite Hs. cbn [mbind cres_mbind].
  assert (forall j, 64 * i <= j < 64 * i + k -> mask_bit masks j = true) as Hbefore.
  { intros j Hj. replace j with (64 * i + (j - 64 * i)) by lia. rewrite (mask_bit_at _ _ _ M) by (done || lia).
    apply Hset. lia. }
  destruct (Z.ltb_spec k 64).
  - split_and!; [rewrite (Z.mul_comm 64), Z.add_comm, Z_div_plus, Z.div_small by lia; lia|lia|lia| |done].
    rewrite (mask_bit_at _ _ _ M) by (done || lia). by apply Hclr.
  - assert (k = 64) as -> by lia. specialize (IH (i + 1)). replace (64 * i + 64) with (64 * (i + 1)) by lia.
    assert (drop (Z.to_nat (i + 1)) masks = ms) as Hd'.
    { replace (Z.to_nat (i + 1)) with (Z.to_nat i + 1)%nat by lia. by rewrite <- drop_drop, Hd. }
    specialize (IH Hd' ltac:(lia)). destruct (free_search ms (i + 1) (64 * (i + 1))) as [[[i' j']|]| |]; try done.
    + destruct IH as (? & ? & ? & Hl). split_and!; try done; try lia. intros j Hj.
      destruct (decide (j < 64 * (i + 1))); [apply Hbefore|apply Hl]; lia.
    + intros j Hj. destruct (decide (j < 64 * (i + 1))); [apply Hbefore|apply IH]; lia.
Qed.

(** Setting and clearing one bit of the mask. *)
Lemma mask_bit_insert masks j M M' (b : bool) : 0 <= j -> masks !! Z.to_nat (j / 64) = Some M ->
  Z.testbit M' (j mod 64) = b ->
  (forall n, 0 <= n < 64 -> n <> j mod 64 -> Z.testbit M' n = Z.testbit M n) ->
  forall k, 0 <= k -> mask_bit (<[Z.to_nat (j / 64) := M']> masks) k = if decide (k = j) then b else mask_bit masks k.
Proof.
  intros Hj HM Hb Hother k Hk. unfold mask_bit. pose proof (lookup_lt_Some _ _ _ HM).
  pose proof (Z.div_pos j 64). pose proof (Z.div_pos k 64).
  destruct (decide (k / 64 = j / 64)) as [E|E].
  - rewrite E, list_lookup_insert_eq, HM by done. case_decide as Hd; [by subst|]. apply Hother.
    + apply Z.mod_pos_bound. lia.
    + intros E'. apply Hd. rewrite (Z.div_mod k 64), (Z.div_mod j 64) by lia. congruence.
  - rewrite list_lookup_insert_ne by lia. case_decide as Hd; [by subst|done].
Qed.

Lemma testbit_mask_set M n k : 0 <= n < 64 ->
  Z.testbit (Z.lor M (RTE_BIT64 n)) k = Z.testbit M k || bool_decide (n = k).
Proof. intros. by rewrite Z.lor_spec, testbit_RTE_BIT64. Qed.

Lemma testbit_mask_clr M n k : 0 <= n < 64 ->
  Z.testbit (Z.ldiff M (RTE_BIT64 n)) k = Z.testbit M k && negb (bool_decide (n = k)).
Proof. intros. by rewrite Z.ldiff_spec, testbit_RTE_BIT64. Qed.

Lemma is_u64_set M n : is_u64 M -> 0 <= n < 64 -> is_u64 (Z.lor M (RTE_BIT64 n)).
Proof.
  intros HM Hn. apply is_u64_bits.
  - apply Z.lor_nonneg. split; [apply HM|apply u64_bound].
  - intros i Hi. rewrite testbit_mask_set, bool_decide_false by lia. rewrite (testbit_small M 64); [done|by apply u64_pow2|done].
Qed.

Lemma is_u64_clr M n : is_u64 M -> 0 <= n < 64 -> is_u64 (Z.ldiff M (RTE_BIT64 n)).
Proof.
  intros HM Hn. apply is_u64_bits.
  - apply Z.ldiff_nonneg. left. apply HM.
  - intros i Hi. rewrite testbit_mask_clr by lia. rewrite (testbit_small M 64); [done|by apply u64_pow2|done].
Qed.
End pem_lemmas.

Section pem_properties.
Context {CB : Type} `{EqDecision CB}.
Implicit Types p : pem CB.

Lemma region_at_used p j : pem_wf p -> 0 <= j < DAO_PEM_CTRL_REGION_MAX ->
  mask_bit (region_mask p) j = true <-> region_at p j <> None.
Proof.
  intros Hwf Hj. rewrite (pw_bits p Hwf j Hj). unfold region_at. split.
  - intros [a Ha]. rewrite Ha. destruct (pw_heap p Hwf _ _ Ha) as (r & -> & _). done.
  - destruct (regions p !! Z.to_nat j) as [[a|]|] eqn:E; [|done..]. by exists a.
Qed.

Lemma mask_word p j : pem_wf p -> 0 <= j < DAO_PEM_CTRL_REGION_MAX ->
  exists M, region_mask p !! Z.to_nat (j / 64) = Some M /\ is_u64 M /\ 0 <= j / 64 /\ 0 <= j mod 64 < 64.
Proof.
  intros Hwf Hj. pose proof (pw_masks p Hwf) as Hm.
  assert (0 <= j / 64 < 6).
  { split; [apply Z.div_pos; lia|]. apply Z.div_lt_upper_bound; unfold DAO_PEM_CTRL_REGION_MAX in Hj; lia. }
  unfold DAO_PEM_CTRL_REGION_MASK_MAX in Hm.
  destruct (lookup_lt_is_Some_2 (region_mask p) (Z.to_nat (j / 64))) as [M HM]; [lia|].
  exists M. split; [done|]. split; [|split; [lia|apply Z.mod_pos_bound; lia]].
  by eapply Forall_lookup_1; [apply (pw_words p Hwf)|].
Qed.

(** Changing one cell of the registry, with its bit and the heap. *)
Lemma pem_wf_update p j M M' (o : option Z) h : pem_wf p -> 0 <= j < DAO_PEM_CTRL_REGION_MAX ->
  region_mask p !! Z.to_nat (j / 64) = Some M -> is_u64 M' ->
  (forall k, 0 <= k -> mask_bit (<[Z.to_nat (j / 64) := M']> (region_mask p)) k =
     if decide (k = j) then bool_decide (is_Some o) else mask_bit (region_mask p) k) ->
  (forall k a, k <> Z.to_nat j -> regions p !! k = Some (Some a) -> h !! a = heap p !! a /\ Some a <> o) ->
  (forall a, o = Some a -> exists r, h !! a = Some r /\ Z.of_nat (length (shadow r)) = reg_sz r) ->
  pem_wf (pem_set_regions p (<[Z.to_nat j := o]> (regions p)) (<[Z.to_nat (j / 64) := M']> (region_mask p)) h).
Proof.
  intros Hwf Hj HM HM' Hbits Hkeep Hnew. pose proof (pw_regions p Hwf) as Hl.
  assert (Z.to_nat j < length (regions p))%nat as Hlt by lia.
  split; cbn -[DAO_PEM_CTRL_REGION_MAX].
  - by rewrite length_insert.
  - rewrite length_insert. apply (pw_masks p Hwf).
  - intros k Hk. rewrite Hbits by lia. case_decide as Hd.
    + subst k. rewrite list_lookup_insert_eq by done. rewrite bool_decide_eq_true. split.
      * intros [a ->]. eauto.
      * intros [a [= ->]]. eauto.
    + rewrite list_lookup_insert_ne by lia. by apply (pw_bits p Hwf).
  - apply Forall_insert; [apply (pw_words p Hwf)|done].
  - intros k a. destruct (decide (k = Z.to_nat j)) as [->|].
    + rewrite list_lookup_insert_eq by done. intros [= ->]. by apply Hnew.
    + rewrite list_lookup_insert_ne by done. intros Ha. destruct (Hkeep _ _ n Ha) as [-> _]. by apply (pw_heap p Hwf _ _ Ha).
  - intros k l a. destruct (decide (k = Z.to_nat j)) as [->|Hk], (decide (l = Z.to_nat j)) as [->|Hl'];
      rewrite ?list_lookup_insert_eq, ?list_lookup_insert_ne by done; [done|..].
    + intros [= ->] Ha. by destruct (Hkeep _ _ Hl' Ha).
    + intros Ha [= ->]. by destruct (Hkeep _ _ Hk Ha).
    + apply (pw_inj p Hwf).
Qed.

(** C34. Registering a control region. In a well-formed registry,
    [dao_pem_ctrl_region_register] with a block from [rte_zmalloc] puts the
    region, with its shadow zeroed or copied from the registers, into the
    first cell without a region, changes no other cell and keeps the registry
    well formed; only when all 384 cells hold regions does it return
    [-ENOMEM], without a change. *)
Theorem region_register_first_free p (base len : Z) (cb : CB) (sync : bool) (a : Z) (regs : list Z) :
  pem_wf p -> heap p !! a = None -> 0 <= len -> Z.of_nat (length regs) = len / 8 ->
  (exists j p', dao_pem_ctrl_region_register base len cb sync (Some a) regs p = Ret (0, p') /\
     0 <= j < DAO_PEM_CTRL_REGION_MAX /\ region_at p j = None /\
     (forall k, 0 <= k < j -> region_at p k <> None) /\
     region_at p' j = Some {| reg_base := base; reg_sz := len / 8; reg_cb := cb;
       shadow := if sync then regs else replicate (Z.to_nat (len / 8)) 0 |} /\
     (forall k, 0 <= k -> k <> j -> region_at p' k = region_at p k) /\ pem_wf p') \/
  (forall j, 0 <= j < DAO_PEM_CTRL_REGION_MAX -> region_at p j <> None) /\
    dao_pem_ctrl_region_register base len cb sync (Some a) regs p = Ret (- ENOMEM, p).
Proof.
  intros Hwf Ha Hlen Hregs. pose proof (pw_masks p Hwf) as Hm. pose proof (pw_regions p Hwf) as Hr.
  pose proof (free_search_spec (region_mask p) (region_mask p) 0 eq_refl ltac:(lia)) as Hs.
  unfold dao_pem_ctrl_region_register. change (64 * 0) with 0 in Hs.
  unfold DAO_PEM_CTRL_REGION_MASK_MAX in Hm.
  destruct (free_search (region_mask p) 0 0) as [[[i j]|]| |]; [|right|done..]; cbn [mbind cres_mbind].
  - left. destruct Hs as (-> & Hj & Hclr & Hset).
    assert (0 <= j < DAO_PEM_CTRL_REGION_MAX) as Hj' by (unfold DAO_PEM_CTRL_REGION_MAX; lia).
    destruct (mask_word p j Hwf Hj') as (M & HM & HMu & Hd & Hmod). pose proof (lookup_lt_Some _ _ _ HM).
    rewrite (proj2 (cget_Ret _ _ M)) by done. cbn [mbind cres_mbind]. rewrite cset_in_range by lia.
    cbn [mbind cres_mbind]. rewrite cset_in_range by lia. cbn [mbind cres_mbind].
    assert (forall k b, k <> Z.to_nat j -> regions p !! k = Some (Some b) -> b <> a) as Hne.
    { intros k b _ Hb ->. destruct (pw_heap p Hwf _ _ Hb) as (r & Hr' & _). congruence. }
    eexists j, _. split; [done|]. split; [done|]. split_and!.
    + destruct (region_at p j) eqn:E; [|done]. assert (mask_bit (region_mask p) j = true) by (apply region_at_used; congruence).
      congruence.
    + intros k Hk. apply region_at_used; [done|lia|]. by apply Hset.
    + unfold region_at. cbn. rewrite list_lookup_insert_eq, lookup_insert_eq by lia. f_equal. f_equal.
      destruct sync; [|done]. by rewrite take_ge by lia.
    + intros k Hk Hkj. unfold region_at. cbn. rewrite list_lookup_insert_ne by lia.
      destruct (regions p !! Z.to_nat k) as [[b|]|] eqn:E; [|done..].
      rewrite lookup_insert_ne; [done|]. intros <-. eapply (Hne (Z.to_nat k)); [lia|done|done].
    + eapply pem_wf_update; try done.
      * by apply is_u64_set.
      * intros k Hk. apply (mask_bit_insert _ _ M); try done; try lia.
        -- rewrite testbit_mask_set by done. rewrite bool_decide_true by done. by rewrite orb_true_r, bool_decide_true.
        -- intros n Hn Hnj. rewrite testbit_mask_set, bool_decide_false by done. apply orb_false_r.
      * intros k b Hk Hb. split; [apply lookup_insert_ne; intros <-; by eapply Hne|]. intros [= ->]. by eapply Hne.
      * intros b [= <-]. eexists. split; [apply lookup_insert_eq|]. cbn.
        destruct sync; [rewrite length_take|rewrite length_replicate]; lia.
  - split; [|done]. intros j Hj. apply region_at_used; [done..|]. apply Hs. unfold DAO_PEM_CTRL_REGION_MAX in Hj. lia.
Qed.

(** The cleanup does not clear the mask: after it a device that had all its
    cells in use holds no region, and registering one fails. *)
Theorem regions_free_keeps_mask p (base len : Z) (cb : CB) (sync : bool) (a : Z) (regs : list Z) :
  pem_wf p -> (forall j, 0 <= j < DAO_PEM_CTRL_REGION_MAX -> region_at p j <> None) ->
  (forall j, region_at (pem_regions_free p) j = None) /\
  dao_pem_ctrl_region_register base len cb sync (Some a) regs (pem_regions_free p) =
    Ret (- ENOMEM, pem_regions_free p).
Proof.
  intros Hwf Hall. split.
  - intros j. unfold region_at. cbn. destruct (replicate _ None !! Z.to_nat j) as [o|] eqn:E; [|done].
    by apply lookup_replicate in E as [-> _].
  - unfold dao_pem_ctrl_region_register. cbn [region_mask pem_regions_free pem_set_regions].
    pose proof (free_search_spec (region_mask p) (region_mask p) 0 eq_refl ltac:(lia)) as Hs.
    change (64 * 0) with 0 in Hs. pose proof (pw_masks p Hwf) as Hm. unfold DAO_PEM_CTRL_REGION_MASK_MAX in Hm.
    destruct (free_search (region_mask p) 0 0) as [[[i j]|]| |]; [exfalso|done|done..].
    destruct Hs as (_ & Hj & Hclr & _). assert (0 <= j < DAO_PEM_CTRL_REGION_MAX) as Hj'
      by (unfold DAO_PEM_CTRL_REGION_MAX; lia).
    pose proof (proj2 (region_at_used p j Hwf Hj') (Hall j Hj')). congruence.
Qed.

Lemma region_search_spec h base len (cb : CB) rs : forall i,
  (forall j a, rs !! j = Some (Some a) -> is_Some (h !! a)) ->
  match region_search h base len cb rs i with
  | Ret None => forall j a r, rs !! j = Some (Some a) -> h !! a = Some r -> region_matches r base len cb = false
  | Ret (Some (k, a)) => exists j r, k = i + Z.of_nat j /\ rs !! j = Some (Some a) /\ h !! a = Some r /\
      region_matches r base len cb = true /\
      forall j' a' r', (j' < j)%nat -> rs !! j' = Some (Some a') -> h !! a' = Some r' ->
        region_matches r' base len cb = false
  | _ => False
  end.
Proof.
  induction rs as [|[a|] rs IH]; intros i Hh; cbn [region_search]; [done|..].
  - destruct (Hh 0%nat a eq_refl) as [r Hr]. rewrite Hr. destruct (region_matches r base len cb) eqn:E.
    + exists 0%nat, r. split; [lia|]. split_and!; try done. intros; lia.
    + specialize (IH (i + 1) (fun j => Hh (S j))).
      destruct (region_search h base len cb rs (i + 1)) as [[[k b]|]| |]; try done.
      * destruct IH as (j & r' & -> & H1 & H2 & H3 & H4). exists (S j), r'. split; [lia|]. split_and!; try done.
        intros [|j'] a' r0 Hj; [intros [= <-]; congruence|]. apply H4. lia.
      * intros [|j] b r'; [intros [= <-]; congruence|]. apply IH.
  - specialize (IH (i + 1) (fun j => Hh (S j))).
    destruct (region_search h base len cb rs (i + 1)) as [[[k b]|]| |]; try done.
    + destruct IH as (j & r' & -> & H1 & H2 & H3 & H4). exists (S j), r'. split; [lia|]. split_and!; try done.
      intros [|j'] a' r0 Hj; [done|]. apply H4. lia.
    + intros [|j] b r'; [done|]. apply IH.
Qed.

(** The cells of the registry and the region behind them. *)
Lemma region_at_Some p j r : pem_wf p -> 0 <= j ->
  region_at p j = Some r <-> exists a, regions p !! Z.to_nat j = Some (Some a) /\ heap p !! a = Some r.
Proof.
  intros Hwf Hj. unfold region_at. destruct (regions p !! Z.to_nat j) as [[a|]|].
  - split; [eauto|]. by intros (b & [= <-] & ?).
  - split; [done|]. by intros (b & ? & _).
  - split; [done|]. by intros (b & ? & _).
Qed.

(** Unregistering a control region. In a well-formed registry,
    [dao_pem_ctrl_region_unregister] returns [-ENOENT] without a change when
    no region has the given base, length, callback and context; otherwise it
    frees the first such region and empties its cell, changes no other cell
    and keeps the registry well formed. *)
Theorem region_unregister_first_match p (base len : Z) (cb : CB) :
  pem_wf p ->
  (exists j r p', dao_pem_ctrl_region_unregister base len cb p = Ret (0, p') /\
     0 <= j < DAO_PEM_CTRL_REGION_MAX /\
     region_at p j = Some r /\ region_matches r base len cb = true /\
     (forall k r', 0 <= k < j -> region_at p k = Some r' -> region_matches r' base len cb = false) /\
     region_at p' j = None /\ (forall k, 0 <= k -> k <> j -> region_at p' k = region_at p k) /\ pem_wf p') \/
  (forall k r, 0 <= k -> region_at p k = Some r -> region_matches r base len cb = false) /\
    dao_pem_ctrl_region_unregister base len cb p = Ret (- ENOENT, p).
Proof.
  intros Hwf. pose proof (pw_regions p Hwf) as Hr. pose proof (region_search_spec (heap p) base len cb (regions p) 0) as Hs.
  unfold dao_pem_ctrl_region_unregister.
  destruct (region_search (heap p) base len cb (regions p) 0) as [[[i a]|]| |]; cbn [mbind cres_mbind];
    [left|right|by destruct Hs; intros ? ? (? & ? & _)%(pw_heap p Hwf)..].
  - destruct Hs as (j & r & -> & Hj & Hh & Hmatch & Hfirst); [by intros ? ? (? & ? & _)%(pw_heap p Hwf)|].
    pose proof (lookup_lt_Some _ _ _ Hj). rewrite Z.add_0_l.
    assert (0 <= Z.of_nat j < DAO_PEM_CTRL_REGION_MAX) as Hj' by lia.
    destruct (mask_word p (Z.of_nat j) Hwf Hj') as (M & HM & HMu & Hd & Hmod). pose proof (lookup_lt_Some _ _ _ HM).
    rewrite (proj2 (cget_Ret _ _ M)) by done. cbn [mbind cres_mbind]. rewrite cset_in_range by lia.
    cbn [mbind cres_mbind]. rewrite cset_in_range by lia. cbn [mbind cres_mbind].
    assert (forall k b, k <> j -> regions p !! k = Some (Some b) -> b <> a) as Hne.
    { intros k b Hk Hb ->. apply Hk. by eapply (pw_inj p Hwf). }
    eexists (Z.of_nat j), r, _. split; [done|]. split; [done|]. split_and!; [|done|..].
    + apply region_at_Some; [done|lia|]. rewrite Nat2Z.id. eauto.
    + intros k r' Hk (b & Hb & Hhb)%region_at_Some; [|done|lia]. eapply (Hfirst (Z.to_nat k)); [lia|done..].
    + unfold region_at. cbn. by rewrite list_lookup_insert_eq by lia.
    + intros k Hk Hkj. unfold region_at. cbn. rewrite list_lookup_insert_ne by lia.
      destruct (regions p !! Z.to_nat k) as [[b|]|] eqn:E; [|done..].
      rewrite lookup_delete_ne; [done|]. intros <-. eapply (Hne (Z.to_nat k)); [lia|done|done].
    + eapply pem_wf_update; try done.
      * by apply is_u64_clr.
      * intros k Hk. apply (mask_bit_insert _ _ M); try done; try lia.
        -- rewrite testbit_mask_clr by done. rewrite bool_decide_true by done. by rewrite andb_false_r, bool_decide_false by (by intros []).
        -- intros n Hn Hnj. rewrite testbit_mask_clr, bool_decide_false by done. apply andb_true_r.
      * intros k b Hk Hb. rewrite Nat2Z.id in Hk. split; [|done].
        apply lookup_delete_ne. intros <-. by eapply Hne.
  - split; [|done]. intros k r Hk (b & Hb & Hhb)%region_at_Some; [|done|lia].
    eapply Hs; [by intros ? ? (? & ? & _)%(pw_heap p Hwf)|done..].
Qed.

(** The fields of a device id. *)
Lemma vf_vf dev : 0 <= dev < 0x1000 -> Z.shiftr (Z.land dev PEM_PFVF_DEV_ID_VF_MASK) PEM_PFVF_DEV_ID_VF_SHIFT = dev.
Proof.
  intros. unfold PEM_PFVF_DEV_ID_VF_SHIFT, PEM_PFVF_DEV_ID_VF_MASK. rewrite Z.shiftr_0_r.
  change 0x0FFF with (Z.ones 12). rewrite Z.land_ones by lia. apply Z.mod_small. done.
Qed.

Lemma dev_id_pf dev : 0 <= dev < 0x10000 ->
  Z.shiftr (Z.land dev PEM_PFVF_DEV_ID_PF_MASK) PEM_PFVF_DEV_ID_PF_SHIFT = dev / 0x1000.
Proof.
  intros. unfold PEM_PFVF_DEV_ID_PF_SHIFT, PEM_PFVF_DEV_ID_PF_MASK. rewrite Z.shiftr_land.
  change (Z.shiftr 0xF000 12) with (Z.ones 4). rewrite Z.land_ones, Z.shiftr_div_pow2 by lia.
  change (2 ^ 12) with 0x1000. apply Z.mod_small. split; [apply Z.div_pos; lia|]. apply Z.div_lt_upper_bound; lia.
Qed.

Lemma vf_pf dev : 0 <= dev < 0x1000 -> Z.shiftr (Z.land dev PEM_PFVF_DEV_ID_PF_MASK) PEM_PFVF_DEV_ID_PF_SHIFT = 0.
Proof. intros. rewrite dev_id_pf by lia. apply Z.div_small. lia. Qed.

Lemma vf_pf_pos dev : 0x1000 <= dev < 0x10000 ->
  0 < Z.shiftr (Z.land dev PEM_PFVF_DEV_ID_PF_MASK) PEM_PFVF_DEV_ID_PF_SHIFT.
Proof. intros. rewrite dev_id_pf by lia. apply Z.div_str_pos. lia. Qed.

(** Windows of BAR4. When the layout succeeds, every virtual function
    below the (16-bit) number of functions gets a window of the same nonzero
    size, a multiple of the page size, inside the BAR; the windows of two
    functions do not overlap; any other device id, and any BAR other than 4,
    is refused. *)
Theorem vf_windows_disjoint p p' (page_sz sz vfs : Z) :
  0 <= page_sz -> 0 <= sz -> 0 <= bar4_addr p -> is_u64 (bar4_addr p + sz) ->
  pem_layout page_sz sz vfs p = Some p' ->
  (forall bar dev, bar <> 4 -> dao_pem_vf_region_info_get dev bar p' = inl (- ENOENT)) /\
  (forall dev, max_vfs p' <= dev < 0x10000 -> dao_pem_vf_region_info_get dev 4 p' = inl (- ENOTSUP)) /\
  exists size, 0 < size /\ (host_page_sz p' | size) /\
    (forall dev, 0 <= dev < Z.min (max_vfs p') 0x1000 ->
       exists addr, dao_pem_vf_region_info_get dev 4 p' = inr (addr, size) /\
         bar4_addr p <= addr /\ addr + size <= bar4_addr p + sz) /\
    (forall d1 d2 a1 a2, 0 <= d1 < d2 -> d2 < Z.min (max_vfs p') 0x1000 ->
       dao_pem_vf_region_info_get d1 4 p' = inr (a1, size) ->
       dao_pem_vf_region_info_get d2 4 p' = inr (a2, size) -> a1 + size <= a2).
Proof.
  intros Hpg Hsz Hb Hbar. unfold pem_layout.
  destruct (Z.eqb_spec (u16 vfs) 0) as [|Hv]; [done|].
  set (page := if page_sz =? 0 then _ else _). assert (0 < page) as Hpage.
  { subst page. destruct (Z.eqb_spec page_sz 0); [reflexivity|lia]. }
  pose proof (u16_bound vfs) as Hv16. unfold is_u16 in Hv16. set (n := u16 vfs) in *.
  set (pages := sz / page / n). destruct (Z.eqb_spec pages 0) as [|Hp]; [done|]. intros [= <-].
  assert (0 < pages) as Hpos by (assert (0 <= pages) by (do 2 (apply Z.div_pos; [|lia]); done); lia).
  assert (n * (pages * page) <= sz) as Hfit.
  { assert (n * pages <= sz / page) by (apply Z.mul_div_le; lia).
    assert (page * (sz / page) <= sz) by (apply Z.mul_div_le; lia). nia. }
  assert (0 < pages * page) as Hs by nia.
  assert (forall dev, 0 <= dev < n -> 0 <= dev * (pages * page) /\ dev * (pages * page) + pages * page <= sz) as Hwin
    by (clear -Hfit Hs; generalize dependent (pages * page); intros; nia).
  assert (forall dev, 0 <= dev < Z.min n 0x1000 -> dao_pem_vf_region_info_get dev 4
    {| host_page_sz := page; host_pages_per_dev := pages; max_vfs := n; bar4_addr := bar4_addr p;
       regions := regions p; region_mask := region_mask p; heap := heap p |} =
    inr (bar4_addr p + dev * (pages * page), pages * page)) as Hget.
  { intros dev Hdev. unfold dao_pem_vf_region_info_get. cbn -[Z.land].
    rewrite (vf_pf dev), (vf_vf dev) by lia.
    rewrite (proj2 (Z.leb_gt n dev)) by lia. cbn.
    unfold is_u64 in Hbar. destruct (Hwin dev) as [??]; [lia|].
    rewrite <- Z.mul_assoc, (u64_id (dev * _)), !u64_id by (unfold is_u64; lia). done. }
  split; [|split]; cbn [max_vfs host_page_sz].
  - intros bar dev Hne. unfold dao_pem_vf_region_info_get. by rewrite (proj2 (Z.eqb_neq bar 4)).
  - intros dev Hdev. unfold dao_pem_vf_region_info_get. cbn -[Z.land]. destruct (decide (dev < 0x1000)).
    + rewrite (vf_vf dev) by lia. rewrite (proj2 (Z.leb_le n dev)) by lia. by rewrite orb_true_r.
    + rewrite (proj2 (Z.ltb_lt 0 _)); [done|]. apply vf_pf_pos. lia.
  - exists (pages * page). split; [done|]. split; [by exists pages|]. split.
    + intros dev Hdev. rewrite Hget by lia. eexists. split; [done|].
      destruct (Hwin dev); lia.
    + intros d1 d2 a1 a2 H1 H2. rewrite !Hget by lia. intros [= <-] [= <-].
      clear -H1 Hs. generalize dependent (pages * page). intros. nia.
Qed.
End pem_properties.

(** ** The poll thread *)

Section poll_properties.
Context {W CB : Type} `{EqDecision CB} `{PemWorld W CB}.

(** Checking the regions of the cells of [l], one after the other. *)
Fixpoint check_all (l : list Z) (w : W) : cres W :=
  match l with
  | [] => Ret w
  | j :: l => r ← cget (regions (w_pem w)) j; w ← check_ctrl_reg r w; check_all l w
  end.

Definition registered (p : pem CB) (j : Z) : bool :=
  match region_at p j with Some _ => true | None => false end.

Lemma walk_mask_bits M base : is_u64 M -> forall n k w, 0 <= k -> k + Z.of_nat n = 64 ->
  walk_mask n (Z.shiftr M k) (base + k) w =
  check_all (filter (fun j => Z.testbit M (j - base) = true) (seqZ (base + k) (Z.of_nat n))) w.
Proof.
  intros HM. induction n as [|n IH]; intros k w Hk Hn; cbn [walk_mask].
  { assert (k = 64) as -> by lia. rewrite Z.shiftr_div_pow2, Z.div_small by (lia || by apply u64_pow2). done. }
  assert (forall j, base + k <= j -> Z.testbit (Z.shiftr M k) (j - (base + k)) = Z.testbit M (j - base)) as Hsh.
  { intros j Hj. rewrite Z.shiftr_spec by lia. f_equal. lia. }
  destruct (Z.eqb_spec (Z.shiftr M k) 0) as [E|E].
  { replace (filter _ _) with (@nil Z); [done|]. symmetry. apply filter_none, Forall_forall.
    intros j [Hj _]%elem_of_seqZ. rewrite <- Hsh, E, Z.bits_0 by lia. done. }
  rewrite (seqZ_cons (base + k)) by lia. replace (Z.succ (base + k)) with (base + (k + 1)) by lia.
  replace (Z.pred (Z.of_nat (S n))) with (Z.of_nat n) by lia.
  change (Z.land (Z.shiftr M k) 1) with (Z.land (Z.shiftr M k) (RTE_BIT64 0)).
  rewrite land_RTE_BIT64, negb_involutive by lia.
  rewrite (Z.shiftr_shiftr M k 1) by lia. rewrite filter_cons.
  pose proof (Hsh (base + k) ltac:(lia)) as Hb. replace (base + k - (base + k)) with 0 in Hb by lia. rewrite Hb.
  destruct (Z.testbit M (base + k - base)); case_decide; try done; cbn [check_all].
  - destruct (cget (regions (w_pem w)) (base + k)) as [r| |]; [|done..]. cbn [mbind cres_mbind].
    destruct (check_ctrl_reg r w) as [w'| |]; [|done..]. cbn [mbind cres_mbind].
    replace (base + k + 1) with (base + (k + 1)) by lia. apply IH; lia.
  - cbn [mbind cres_mbind]. replace (base + k + 1) with (base + (k + 1)) by lia. apply IH; lia.
Qed.

(** A region whose registers all equal their shadow is left alone. *)
Lemma check_ctrl_reg_quiet (w : W) (a : Z) (r : pem_region CB) :
  heap (w_pem w) !! a = Some r -> Z.of_nat (length (shadow r)) = reg_sz r ->
  (forall i v, shadow r !! i = Some v -> reg_read (reg_base r + 8 * Z.of_nat i) w = v) ->
  check_ctrl_reg (Some a) w = Ret w.
Proof.
  intros Hr Hlen Hq. unfold check_ctrl_reg. rewrite Hr.
  assert (forall fuel i, 0 <= i -> reg_sz r - i <= Z.of_nat fuel -> check_words fuel a i w = Ret w) as Hgo; [|apply Hgo; lia].
  induction fuel as [|fuel IH]; intros i Hi Hf; cbn [check_words]; rewrite Hr.
  - by rewrite (proj2 (Z.leb_le _ _)) by lia.
  - destruct (Z.leb_spec (reg_sz r) i); [done|].
    destruct (lookup_lt_is_Some_2 (shadow r) (Z.to_nat i)) as [v Hv]; [lia|].
    rewrite (proj2 (cget_Ret _ _ v)) by (split; [lia|done]). cbn [mbind cres_mbind].
    apply Hq in Hv. rewrite Z2Nat.id in Hv by lia. rewrite Hv, Z.eqb_refl. cbn [mbind cres_mbind]. apply IH; lia.
Qed.
Lemma check_all_quiet (w : W) (l : list Z) : pem_wf (w_pem w) ->
  Forall (fun j => 0 <= j < DAO_PEM_CTRL_REGION_MAX) l ->
  (forall j r k v, region_at (w_pem w) j = Some r -> shadow r !! k = Some v ->
     reg_read (reg_base r + 8 * Z.of_nat k) w = v) -> check_all l w = Ret w.
Proof.
  intros Hwf Hl Hq. induction Hl as [|j l Hj Hl IH]; [done|]. cbn [check_all].
  pose proof (pw_regions _ Hwf). destruct (lookup_lt_is_Some_2 (regions (w_pem w)) (Z.to_nat j)) as [o Ho]; [lia|].
  rewrite (proj2 (cget_Ret _ _ o)) by (split; [lia|done]). cbn [mbind cres_mbind]. destruct o as [a|]; [|done].
  destruct (pw_heap _ Hwf _ _ Ho) as (r & Hr & Hlen). rewrite (check_ctrl_reg_quiet w a r); [done..|].
  intros k v Hv. apply (Hq j r k v); [|done]. unfold region_at. by rewrite Ho.
Qed.

(** The poll thread checks the registered regions. One iteration of the
    loop of [pem_ctrl_reg_poll], for a word of the region mask, checks the
    regions of that word's cells that hold a region when the word is read, in
    cell order and each once (the pointer of a cell is read at its turn, so a
    region that a callback unregistered meanwhile is passed over); when the
    registers of every region equal their shadow, nothing happens. *)
Theorem poll_word_visits (w : W) (i : Z) :
  pem_wf (w_pem w) -> 0 <= i < DAO_PEM_CTRL_REGION_MASK_MAX ->
  poll_word i w =
    check_all (filter (fun j => registered (w_pem w) j = true) (seqZ (64 * i) 64)) w /\
  ((forall j r k v, region_at (w_pem w) j = Some r -> shadow r !! k = Some v ->
      reg_read (reg_base r + 8 * Z.of_nat k) w = v) -> poll_word i w = Ret w).
Proof.
  intros Hwf Hi.
  cut (poll_word i w = check_all (filter (fun j => registered (w_pem w) j = true) (seqZ (64 * i) 64)) w).
  { intros Hp. split; [done|]. intros Hq. rewrite Hp. apply check_all_quiet; [done|..|done].
    apply Forall_forall. intros j [_ Hj]%list_elem_of_filter. apply elem_of_seqZ in Hj.
    unfold DAO_PEM_CTRL_REGION_MASK_MAX in Hi. unfold DAO_PEM_CTRL_REGION_MAX. lia. }
  unfold poll_word. pose proof (pw_masks _ Hwf) as Hm.
  destruct (lookup_lt_is_Some_2 (region_mask (w_pem w)) (Z.to_nat i)) as [M HM]; [lia|].
  rewrite (proj2 (cget_Ret _ _ M)) by (split; [lia|done]). cbn [mbind cres_mbind].
  assert (is_u64 M) as HMu by (by eapply Forall_lookup_1; [apply (pw_words _ Hwf)|]).
  pose proof (walk_mask_bits M (i * 64) HMu 64 0 w ltac:(lia) ltac:(lia)) as Hw.
  rewrite Z.shiftr_0_r, Z.add_0_r in Hw. rewrite Hw. f_equal. rewrite (Z.mul_comm i).
  apply filter_ext_in. intros j Hj%elem_of_seqZ.
  change (Z.of_nat 64) with 64 in Hj.
  assert (mask_bit (region_mask (w_pem w)) j = Z.testbit M (j - 64 * i)) as <-.
  { rewrite <- (mask_bit_at (region_mask (w_pem w)) i (j - 64 * i) M) by (done || lia). f_equal. lia. }
  unfold DAO_PEM_CTRL_REGION_MASK_MAX in Hi.
  rewrite (region_at_used (w_pem w) j) by (done || unfold DAO_PEM_CTRL_REGION_MAX; lia).
  unfold registered. by destruct (region_at (w_pem w) j).
Qed.
End poll_properties.

(** ** Witnesses *)

(** One region of two registers in the first cell; a callback is a number,
    and running it stores the register's value into the shadow. *)
Definition wit_region : pem_region Z := {| reg_base := 0x1000; reg_sz := 2; reg_cb := 7; shadow := [5; 6] |}.

Definition wit_pem : pem Z :=
  {| host_page_sz := 0x10000; host_pages_per_dev := 2; max_vfs := 4; bar4_addr := 0x800000;
     regions := Some 100 :: replicate 383 None; region_mask := 1 :: replicate 5 0;
     heap := {[100 := wit_region]} |}.

Record wit_world := { ww_pem : pem Z; ww_regs : gmap Z Z }.

#[local] Instance wit_world_ops : PemWorld wit_world Z := {
  w_pem := ww_pem;
  reg_read a w := default 0 (ww_regs w !! a);
  run_cb _ a i val _ w :=
    Ret {| ww_pem := pem_set_regions (ww_pem w) (regions (ww_pem w)) (region_mask (ww_pem w))
             (alter (fun r => {| reg_base := reg_base r; reg_sz := reg_sz r; reg_cb := reg_cb r;
                                 shadow := <[Z.to_nat i := val]> (shadow r) |}) a (heap (ww_pem w)));
           ww_regs := ww_regs w |};
}.

Lemma wit_pem_wf : pem_wf wit_pem.
Proof.
  split; [reflexivity|reflexivity|..].
  - intros j Hj. cbn [region_mask regions wit_pem].
    assert (forall k, mask_bit (1 :: replicate 5 0) k = true -> k <= 0) as Hb.
    { intros k. unfold mask_bit. destruct (Z.to_nat (k / 64)) as [|m] eqn:E.
      - cbn [lookup list_lookup]. intros Ht. destruct (decide (k <= 0)); [done|].
        rewrite Z.mod_small in Ht by (pose proof (Z.div_mod k 64); pose proof (Z.mod_pos_bound k 64); lia).
        change (Z.testbit (2 ^ 0) k = true) in Ht. rewrite testbit_pow2, bool_decide_false in Ht by lia. done.
      - change ((1 :: replicate 5 0) !! S m) with (replicate 5 0 !! m).
        destruct (replicate 5 0 !! m) eqn:E'; [|done]. apply lookup_replicate in E' as [-> _]. by rewrite Z.bits_0. }
    split.
    + intros Hm. assert (j = 0) as -> by (apply Hb in Hm; lia). by exists 100.
    + intros [a Ha]. destruct (Z.to_nat j) as [|m] eqn:E; [assert (j = 0) as -> by lia; reflexivity|].
      change (replicate 383 None !! m = Some (Some a)) in Ha. by apply lookup_replicate in Ha as [? _].
  - repeat constructor; unfold is_u64; lia.
  - intros [|j] a Ha; [injection Ha as <-; by exists wit_region|].
    change (replicate 383 None !! j = Some (Some a)) in Ha. by apply lookup_replicate in Ha as [? _].
  - intros [|j] [|k] a Hj Hk; [done|..];
      first [change (replicate 383 None !! j = Some (Some a)) in Hj; by apply lookup_replicate in Hj as [? _]
            |change (replicate 383 None !! k = Some (Some a)) in Hk; by apply lookup_replicate in Hk as [? _]].
Qed.

Lemma region_register_first_free_witness :
  exists p', dao_pem_ctrl_region_register 0x2000 8 9 true (Some 200) [3] wit_pem = Ret (0, p') /\
    region_at p' 1 = Some {| reg_base := 0x2000; reg_sz := 1; reg_cb := 9; shadow := [3] |}.
Proof.
  destruct (region_register_first_free wit_pem 0x2000 8 9 true 200 [3] wit_pem_wf)
    as [(j & p' & H1 & _ & H2 & H3 & H4 & _)|[H1 _]].
  - reflexivity.
  - lia.
  - reflexivity.
  - assert (j = 1) as ->; [|exists p'; split; [exact H1|exact H4]].
    destruct (decide (j <= 0)) as [|Hj]; [|destruct (decide (j = 1)); [done|]].
    + exfalso. revert H2. unfold region_at. replace (Z.to_nat j) with 0%nat by lia. discriminate.
    + exfalso. apply (H3 1); [lia|reflexivity].
  - exfalso. apply (H1 1); [unfold DAO_PEM_CTRL_REGION_MAX; lia|reflexivity].
Defined.

Lemma region_unregister_first_match_witness :
  exists rc p', dao_pem_ctrl_region_unregister 0x1000 16 7 wit_pem = Ret (rc, p') /\ rc = 0 /\ region_at p' 0 = None.
Proof.
  destruct (region_unregister_first_match wit_pem 0x1000 16 7 wit_pem_wf)
    as [(j & r & p' & H1 & _ & H2 & H3 & H4 & H5 & _)|[H1 _]].
  - exists 0, p'. split; [exact H1|]. split; [reflexivity|].
    destruct (decide (0 < j)) as [Hj|Hj].
    + assert (region_matches wit_region 0x1000 16 7 = false) as [=] by (apply (H4 0); [lia|reflexivity]).
    + revert H5. unfold region_at. replace (Z.to_nat j) with 0%nat by lia. done.
  - exfalso. specialize (H1 0 wit_region). discriminate H1; [lia|reflexivity].
Defined.

Lemma vf_windows_disjoint_witness :
  pem_layout 0 0x100000 4 wit_pem <> None /\
  forall bar dev p', pem_layout 0 0x100000 4 wit_pem = Some p' -> bar <> 4 ->
    dao_pem_vf_region_info_get dev bar p' = inl (- ENOENT).
Proof.
  split; [vm_compute; discriminate|]. intros bar dev p' Hp Hbar.
  destruct (vf_windows_disjoint wit_pem p' 0 0x100000 4) as (H1 & _).
  - lia.
  - lia.
  - cbn. lia.
  - unfold is_u64. cbn. lia.
  - exact Hp.
  - exact (H1 bar dev Hbar).
Defined.

(** One of the two registers has changed: the poll calls the callback for it. *)
Definition wit_w : wit_world := {| ww_pem := wit_pem; ww_regs := {[0x1000 := 5; 0x1008 := 8]} |}.

Lemma poll_word_visits_witness :
  poll_word 0 wit_w = check_ctrl_reg (Some 100) wit_w /\
  match poll_word 0 wit_w with Ret w => shadow <$> region_at (ww_pem w) 0 = Some [5; 8] | _ => False end.
Proof.
  split; [|vm_compute; reflexivity].
  destruct (poll_word_visits (CB := Z) wit_w 0) as [Hv _]; [exact wit_pem_wf|unfold DAO_PEM_CTRL_REGION_MASK_MAX; lia|].
  rewrite Hv. vm_compute. reflexivity.
Defined.
