(* ===== verification/VirtioDev.v ===== *)
(** * The virtio device: common configuration registers (lib/virtio/virtio_dev.c)

    The host writes the common configuration structure of a device in BAR4;
    the poll thread of the PEM library calls [dao_virtio_common_cfg_cb] for
    each of its eight 64-bit words that differs from the shadow copy. *)
From stdpp Require Import base option list numbers gmap.
From S2P Require Import Prelude Rte Pem.

Local Open Scope Z_scope.

Create Rewrite HintDb cfg.

Definition BIT_MASK32 : Z := 0xFFFFFFFF.
Definition VIRTIO_QUEUE_SELECT_DELAY : Z := 3.
Definition VIRTIO_INVALID_QUEUE_INDEX : Z := 0xFFFF.
Definition VIRTIO_INVALID_FEATURE_SELECT : Z := 0xFFFF.
Definition DAO_VIRTIO_MAX_QUEUES : Z := 129.
Definition DAO_VIRTIO_MAX_QUEUE_SZ : Z := 4096.

(** Device status bits (spec/virtio.h). *)
Definition VIRTIO_DEV_RESET : Z := 0.
Definition VIRTIO_DEV_ACKNOWLEDGE : Z := 1.
Definition VIRTIO_DEV_DRIVER : Z := 2.
Definition VIRTIO_DEV_DRIVER_OK : Z := 4.
Definition VIRTIO_DEV_FEATURES_OK : Z := 8.

(** ** [struct virtio_pci_common_cfg]

    The structure is a union of eight 64-bit words and of the fields inside
    them: it is the list of its words, and a field is a range of bits of one
    of them. *)
Record cfg_field := { f_word : nat; f_lo : Z; f_len : Z }.

Definition device_feature_select : cfg_field := {| f_word := 0; f_lo := 0; f_len := 32 |}.
Definition device_feature : cfg_field := {| f_word := 0; f_lo := 32; f_len := 32 |}.
Definition driver_feature_select : cfg_field := {| f_word := 1; f_lo := 0; f_len := 32 |}.
Definition driver_feature : cfg_field := {| f_word := 1; f_lo := 32; f_len := 32 |}.
Definition config_msix_vector : cfg_field := {| f_word := 2; f_lo := 0; f_len := 16 |}.
Definition num_queues : cfg_field := {| f_word := 2; f_lo := 16; f_len := 16 |}.
Definition device_status : cfg_field := {| f_word := 2; f_lo := 32; f_len := 8 |}.
Definition config_generation : cfg_field := {| f_word := 2; f_lo := 40; f_len := 8 |}.
Definition queue_select : cfg_field := {| f_word := 2; f_lo := 48; f_len := 16 |}.
Definition queue_size : cfg_field := {| f_word := 3; f_lo := 0; f_len := 16 |}.
Definition queue_msix_vector : cfg_field := {| f_word := 3; f_lo := 16; f_len := 16 |}.
Definition queue_enable : cfg_field := {| f_word := 3; f_lo := 32; f_len := 16 |}.
Definition queue_notify_off : cfg_field := {| f_word := 3; f_lo := 48; f_len := 16 |}.
Definition queue_desc_lo : cfg_field := {| f_word := 4; f_lo := 0; f_len := 32 |}.
Definition queue_desc_hi : cfg_field := {| f_word := 4; f_lo := 32; f_len := 32 |}.
Definition queue_avail_lo : cfg_field := {| f_word := 5; f_lo := 0; f_len := 32 |}.
Definition queue_avail_hi : cfg_field := {| f_word := 5; f_lo := 32; f_len := 32 |}.
Definition queue_used_lo : cfg_field := {| f_word := 6; f_lo := 0; f_len := 32 |}.
Definition queue_used_hi : cfg_field := {| f_word := 6; f_lo := 32; f_len := 32 |}.
Definition queue_notify_data : cfg_field := {| f_word := 7; f_lo := 0; f_len := 16 |}.
Definition queue_reset : cfg_field := {| f_word := 7; f_lo := 16; f_len := 16 |}.

(** A field of a word, read and written. *)
Definition word_get (f : cfg_field) (v : Z) : Z := Z.land (Z.shiftr v (f_lo f)) (Z.ones (f_len f)).

Definition word_set (f : cfg_field) (x v : Z) : Z :=
  Z.lor (Z.ldiff v (Z.shiftl (Z.ones (f_len f)) (f_lo f)))
        (Z.shiftl (Z.land x (Z.ones (f_len f))) (f_lo f)).

Definition fget (f : cfg_field) (c : list Z) : Z :=
  match c !! f_word f with Some v => word_get f v | None => 0 end.

Definition fset (f : cfg_field) (x : Z) (c : list Z) : list Z := alter (word_set f x) (f_word f) c.

(** ** State *)

(** [struct virtio_queue_conf]; the fields that nothing reads or writes after
    the initial [memset] are left out. *)
Record virtio_queue_conf := {
  qc_size : Z;
  qc_msix_vector : Z;
  qc_enable : Z;
  qc_desc_lo : Z;
  qc_desc_hi : Z;
  qc_avail_lo : Z;
  qc_avail_hi : Z;
  qc_used_lo : Z;
  qc_used_hi : Z;
}.

Definition set_qc_size (x : Z) (q : virtio_queue_conf) : virtio_queue_conf :=
  {| qc_size := x; qc_msix_vector := qc_msix_vector q; qc_enable := qc_enable q; qc_desc_lo :=
     qc_desc_lo q; qc_desc_hi := qc_desc_hi q; qc_avail_lo := qc_avail_lo q; qc_avail_hi :=
     qc_avail_hi q; qc_used_lo := qc_used_lo q; qc_used_hi := qc_used_hi q |}.
Definition set_qc_msix_vector (x : Z) (q : virtio_queue_conf) : virtio_queue_conf :=
  {| qc_size := qc_size q; qc_msix_vector := x; qc_enable := qc_enable q; qc_desc_lo :=
     qc_desc_lo q; qc_desc_hi := qc_desc_hi q; qc_avail_lo := qc_avail_lo q; qc_avail_hi :=
     qc_avail_hi q; qc_used_lo := qc_used_lo q; qc_used_hi := qc_used_hi q |}.
Definition set_qc_enable (x : Z) (q : virtio_queue_conf) : virtio_queue_conf :=
  {| qc_size := qc_size q; qc_msix_vector := qc_msix_vector q; qc_enable := x; qc_desc_lo :=
     qc_desc_lo q; qc_desc_hi := qc_desc_hi q; qc_avail_lo := qc_avail_lo q; qc_avail_hi :=
     qc_avail_hi q; qc_used_lo := qc_used_lo q; qc_used_hi := qc_used_hi q |}.
Definition set_qc_desc_lo (x : Z) (q : virtio_queue_conf) : virtio_queue_conf :=
  {| qc_size := qc_size q; qc_msix_vector := qc_msix_vector q; qc_enable := qc_enable q;
     qc_desc_lo := x; qc_desc_hi := qc_desc_hi q; qc_avail_lo := qc_avail_lo q; qc_avail_hi :=
     qc_avail_hi q; qc_used_lo := qc_used_lo q; qc_used_hi := qc_used_hi q |}.
Definition set_qc_desc_hi (x : Z) (q : virtio_queue_conf) : virtio_queue_conf :=
  {| qc_size := qc_size q; qc_msix_vector := qc_msix_vector q; qc_enable := qc_enable q;
     qc_desc_lo := qc_desc_lo q; qc_desc_hi := x; qc_avail_lo := qc_avail_lo q; qc_avail_hi :=
     qc_avail_hi q; qc_used_lo := qc_used_lo q; qc_used_hi := qc_used_hi q |}.
Definition set_qc_avail_lo (x : Z) (q : virtio_queue_conf) : virtio_queue_conf :=
  {| qc_size := qc_size q; qc_msix_vector := qc_msix_vector q; qc_enable := qc_enable q;
     qc_desc_lo := qc_desc_lo q; qc_desc_hi := qc_desc_hi q; qc_avail_lo := x; qc_avail_hi :=
     qc_avail_hi q; qc_used_lo := qc_used_lo q; qc_used_hi := qc_used_hi q |}.
Definition set_qc_avail_hi (x : Z) (q : virtio_queue_conf) : virtio_queue_conf :=
  {| qc_size := qc_size q; qc_msix_vector := qc_msix_vector q; qc_enable := qc_enable q;
     qc_desc_lo := qc_desc_lo q; qc_desc_hi := qc_desc_hi q; qc_avail_lo := qc_avail_lo q;
     qc_avail_hi := x; qc_used_lo := qc_used_lo q; qc_used_hi := qc_used_hi q |}.
Definition set_qc_used_lo (x : Z) (q : virtio_queue_conf) : virtio_queue_conf :=
  {| qc_size := qc_size q; qc_msix_vector := qc_msix_vector q; qc_enable := qc_enable q;
     qc_desc_lo := qc_desc_lo q; qc_desc_hi := qc_desc_hi q; qc_avail_lo := qc_avail_lo q;
     qc_avail_hi := qc_avail_hi q; qc_used_lo := x; qc_used_hi := qc_used_hi q |}.
Definition set_qc_used_hi (x : Z) (q : virtio_queue_conf) : virtio_queue_conf :=
  {| qc_size := qc_size q; qc_msix_vector := qc_msix_vector q; qc_enable := qc_enable q;
     qc_desc_lo := qc_desc_lo q; qc_desc_hi := qc_desc_hi q; qc_avail_lo := qc_avail_lo q;
     qc_avail_hi := qc_avail_hi q; qc_used_lo := qc_used_lo q; qc_used_hi := x |}.

(** [struct virtio_ctrl_queue], without the shadow ring behind it. *)
Record virtio_ctrl_queue := {
  cq_desc_base : Z;
  cq_notify_addr : Z;
  cq_q_sz : Z;
  cq_last_off : Z;
  cq_sd_desc_off : Z;
}.

(** The bits of [device_state]. *)
Record dev_state := {
  driver_ok : bool;
  features_ok : bool;
  acknowledge : bool;
  driver : bool;
}.

(** [struct virtio_dev], what the configuration path uses of it. [notify]
    holds the first 32-bit word of each queue's notification page. *)
Record virtio_dev := {
  common_cfg : list Z;
  notify : list Z;
  queue_conf : list virtio_queue_conf;
  cq : option virtio_ctrl_queue;
  drv_feature_bits_lo : Z;
  drv_feature_bits_hi : Z;
  feature_bits : Z;
  prev_queue_select : Z;
  prev_drv_feature_select : Z;
  driver_ok_pend : Z;
  queue_select_pend : Z;
  device_state : dev_state;
  dev_feature_bits : Z;
  max_virtio_queues : Z;
  notify_base : Z;
  notify_off_mltpr : Z;
}.

Definition set_common_cfg (x : list Z) (d : virtio_dev) : virtio_dev :=
  {| common_cfg := x; notify := notify d; queue_conf := queue_conf d; cq := cq d;
     drv_feature_bits_lo := drv_feature_bits_lo d; drv_feature_bits_hi := drv_feature_bits_hi d;
     feature_bits := feature_bits d; prev_queue_select := prev_queue_select d;
     prev_drv_feature_select := prev_drv_feature_select d; driver_ok_pend := driver_ok_pend d;
     queue_select_pend := queue_select_pend d; device_state := device_state d; dev_feature_bits
     := dev_feature_bits d; max_virtio_queues := max_virtio_queues d; notify_base := notify_base
     d; notify_off_mltpr := notify_off_mltpr d |}.
Definition set_notify (x : list Z) (d : virtio_dev) : virtio_dev :=
  {| common_cfg := common_cfg d; notify := x; queue_conf := queue_conf d; cq := cq d;
     drv_feature_bits_lo := drv_feature_bits_lo d; drv_feature_bits_hi := drv_feature_bits_hi d;
     feature_bits := feature_bits d; prev_queue_select := prev_queue_select d;
     prev_drv_feature_select := prev_drv_feature_select d; driver_ok_pend := driver_ok_pend d;
     queue_select_pend := queue_select_pend d; device_state := device_state d; dev_feature_bits
     := dev_feature_bits d; max_virtio_queues := max_virtio_queues d; notify_base := notify_base
     d; notify_off_mltpr := notify_off_mltpr d |}.
Definition set_queue_conf (x : list virtio_queue_conf) (d : virtio_dev) : virtio_dev :=
  {| common_cfg := common_cfg d; notify := notify d; queue_conf := x; cq := cq d;
     drv_feature_bits_lo := drv_feature_bits_lo d; drv_feature_bits_hi := drv_feature_bits_hi d;
     feature_bits := feature_bits d; prev_queue_select := prev_queue_select d;
     prev_drv_feature_select := prev_drv_feature_select d; driver_ok_pend := driver_ok_pend d;
     queue_select_pend := queue_select_pend d; device_state := device_state d; dev_feature_bits
     := dev_feature_bits d; max_virtio_queues := max_virtio_queues d; notify_base := notify_base
     d; notify_off_mltpr := notify_off_mltpr d |}.
Definition set_cq (x : option virtio_ctrl_queue) (d : virtio_dev) : virtio_dev :=
  {| common_cfg := common_cfg d; notify := notify d; queue_conf := queue_conf d; cq := x;
     drv_feature_bits_lo := drv_feature_bits_lo d; drv_feature_bits_hi := drv_feature_bits_hi d;
     feature_bits := feature_bits d; prev_queue_select := prev_queue_select d;
     prev_drv_feature_select := prev_drv_feature_select d; driver_ok_pend := driver_ok_pend d;
     queue_select_pend := queue_select_pend d; device_state := device_state d; dev_feature_bits
     := dev_feature_bits d; max_virtio_queues := max_virtio_queues d; notify_base := notify_base
     d; notify_off_mltpr := notify_off_mltpr d |}.
Definition set_drv_feature_bits_lo (x : Z) (d : virtio_dev) : virtio_dev :=
  {| common_cfg := common_cfg d; notify := notify d; queue_conf := queue_conf d; cq := cq d;
     drv_feature_bits_lo := x; drv_feature_bits_hi := drv_feature_bits_hi d; feature_bits :=
     feature_bits d; prev_queue_select := prev_queue_select d; prev_drv_feature_select :=
     prev_drv_feature_select d; driver_ok_pend := driver_ok_pend d; queue_select_pend :=
     queue_select_pend d; device_state := device_state d; dev_feature_bits := dev_feature_bits d;
     max_virtio_queues := max_virtio_queues d; notify_base := notify_base d; notify_off_mltpr :=
     notify_off_mltpr d |}.
Definition set_drv_feature_bits_hi (x : Z) (d : virtio_dev) : virtio_dev :=
  {| common_cfg := common_cfg d; notify := notify d; queue_conf := queue_conf d; cq := cq d;
     drv_feature_bits_lo := drv_feature_bits_lo d; drv_feature_bits_hi := x; feature_bits :=
     feature_bits d; prev_queue_select := prev_queue_select d; prev_drv_feature_select :=
     prev_drv_feature_select d; driver_ok_pend := driver_ok_pend d; queue_select_pend :=
     queue_select_pend d; device_state := device_state d; dev_feature_bits := dev_feature_bits d;
     max_virtio_queues := max_virtio_queues d; notify_base := notify_base d; notify_off_mltpr :=
     notify_off_mltpr d |}.
Definition set_feature_bits (x : Z) (d : virtio_dev) : virtio_dev :=
  {| common_cfg := common_cfg d; notify := notify d; queue_conf := queue_conf d; cq := cq d;
     drv_feature_bits_lo := drv_feature_bits_lo d; drv_feature_bits_hi := drv_feature_bits_hi d;
     feature_bits := x; prev_queue_select := prev_queue_select d; prev_drv_feature_select :=
     prev_drv_feature_select d; driver_ok_pend := driver_ok_pend d; queue_select_pend :=
     queue_select_pend d; device_state := device_state d; dev_feature_bits := dev_feature_bits d;
     max_virtio_queues := max_virtio_queues d; notify_base := notify_base d; notify_off_mltpr :=
     notify_off_mltpr d |}.
Definition set_prev_queue_select (x : Z) (d : virtio_dev) : virtio_dev :=
  {| common_cfg := common_cfg d; notify := notify d; queue_conf := queue_conf d; cq := cq d;
     drv_feature_bits_lo := drv_feature_bits_lo d; drv_feature_bits_hi := drv_feature_bits_hi d;
     feature_bits := feature_bits d; prev_queue_select := x; prev_drv_feature_select :=
     prev_drv_feature_select d; driver_ok_pend := driver_ok_pend d; queue_select_pend :=
     queue_select_pend d; device_state := device_state d; dev_feature_bits := dev_feature_bits d;
     max_virtio_queues := max_virtio_queues d; notify_base := notify_base d; notify_off_mltpr :=
     notify_off_mltpr d |}.
Definition set_prev_drv_feature_select (x : Z) (d : virtio_dev) : virtio_dev :=
  {| common_cfg := common_cfg d; notify := notify d; queue_conf := queue_conf d; cq := cq d;
     drv_feature_bits_lo := drv_feature_bits_lo d; drv_feature_bits_hi := drv_feature_bits_hi d;
     feature_bits := feature_bits d; prev_queue_select := prev_queue_select d;
     prev_drv_feature_select := x; driver_ok_pend := driver_ok_pend d; queue_select_pend :=
     queue_select_pend d; device_state := device_state d; dev_feature_bits := dev_feature_bits d;
     max_virtio_queues := max_virtio_queues d; notify_base := notify_base d; notify_off_mltpr :=
     notify_off_mltpr d |}.
Definition set_driver_ok_pend (x : Z) (d : virtio_dev) : virtio_dev :=
  {| common_cfg := common_cfg d; notify := notify d; queue_conf := queue_conf d; cq := cq d;
     drv_feature_bits_lo := drv_feature_bits_lo d; drv_feature_bits_hi := drv_feature_bits_hi d;
     feature_bits := feature_bits d; prev_queue_select := prev_queue_select d;
     prev_drv_feature_select := prev_drv_feature_select d; driver_ok_pend := x; queue_select_pend
     := queue_select_pend d; device_state := device_state d; dev_feature_bits := dev_feature_bits
     d; max_virtio_queues := max_virtio_queues d; notify_base := notify_base d; notify_off_mltpr
     := notify_off_mltpr d |}.
Definition set_queue_select_pend (x : Z) (d : virtio_dev) : virtio_dev :=
  {| common_cfg := common_cfg d; notify := notify d; queue_conf := queue_conf d; cq := cq d;
     drv_feature_bits_lo := drv_feature_bits_lo d; drv_feature_bits_hi := drv_feature_bits_hi d;
     feature_bits := feature_bits d; prev_queue_select := prev_queue_select d;
     prev_drv_feature_select := prev_drv_feature_select d; driver_ok_pend := driver_ok_pend d;
     queue_select_pend := x; device_state := device_state d; dev_feature_bits := dev_feature_bits
     d; max_virtio_queues := max_virtio_queues d; notify_base := notify_base d; notify_off_mltpr
     := notify_off_mltpr d |}.
Definition set_device_state (x : dev_state) (d : virtio_dev) : virtio_dev :=
  {| common_cfg := common_cfg d; notify := notify d; queue_conf := queue_conf d; cq := cq d;
     drv_feature_bits_lo := drv_feature_bits_lo d; drv_feature_bits_hi := drv_feature_bits_hi d;
     feature_bits := feature_bits d; prev_queue_select := prev_queue_select d;
     prev_drv_feature_select := prev_drv_feature_select d; driver_ok_pend := driver_ok_pend d;
     queue_select_pend := queue_select_pend d; device_state := x; dev_feature_bits :=
     dev_feature_bits d; max_virtio_queues := max_virtio_queues d; notify_base := notify_base d;
     notify_off_mltpr := notify_off_mltpr d |}.

(** ** What the device calls

    The callbacks a device type registers in [dev_cbs], and the allocation
    and the PEM calls for the control queue's notification word. The
    callbacks are given the device and do not write to it. *)
Class VirtioEnv (E : Type) := {
  cb_dev_status : virtio_dev -> Z -> E -> E;
  cb_cq_id_get : virtio_dev -> Z -> E -> Z;
  cb_queue_enable : virtio_dev -> Z -> E -> E;
  cb_feature_validate : option (virtio_dev -> Z -> E -> Z);
  cq_zmalloc : Z -> E -> bool * E;
  cq_region_register : Z -> E -> Z * E;
  cq_region_unregister : Z -> E -> E;
}.

(** The device, the shadow of its registers, and the environment. *)
Record vst {E : Type} := { s_dev : virtio_dev; s_sh : list Z; s_env : E }.
Arguments vst : clear implicits.

(** ** Features *)

Definition virtio_process_device_feature_select (dev : virtio_dev) (shadow : list Z)
    (device_feature_select' : Z) : virtio_dev * list Z :=
  let feature_select := Z.land device_feature_select' 0x7fff in
  if device_feature_select' =? VIRTIO_INVALID_FEATURE_SELECT
  then (dev, fset device_feature_select device_feature_select' shadow)
  else
    let dev :=
      if feature_select =? 0 then
        set_common_cfg (fset device_feature (Z.land (u32 (dev_feature_bits dev)) BIT_MASK32) (common_cfg dev)) dev
      else if feature_select =? 1 then
        set_common_cfg (fset device_feature (Z.land (u32 (Z.shiftr (dev_feature_bits dev) 32)) BIT_MASK32)
          (common_cfg dev)) dev
      else dev in
    let shadow := fset device_feature_select feature_select shadow in
    let shadow := fset device_feature (fget device_feature (common_cfg dev)) shadow in
    (set_common_cfg (fset device_feature_select feature_select (common_cfg dev)) dev, shadow).

Definition virtio_process_driver_feature_select (dev : virtio_dev) (shadow : list Z)
    (driver_feature_select' : Z) : virtio_dev * list Z :=
  let prev_feature_select := prev_drv_feature_select dev in
  let feature_select := Z.land driver_feature_select' 0x7fff in
  if driver_feature_select' =? VIRTIO_INVALID_FEATURE_SELECT
  then (dev, fset driver_feature_select driver_feature_select' shadow)
  else
    let dev :=
      if negb (prev_feature_select =? 0xffff) then
        if prev_feature_select =? 0 then set_drv_feature_bits_lo (fget driver_feature (common_cfg dev)) dev
        else if prev_feature_select =? 1 then set_drv_feature_bits_hi (fget driver_feature (common_cfg dev)) dev
        else dev
      else dev in
    let dev := set_prev_drv_feature_select feature_select dev in
    let dev :=
      if feature_select =? 0 then
        set_common_cfg (fset driver_feature (drv_feature_bits_lo dev) (common_cfg dev)) dev
      else if feature_select =? 1 then
        set_common_cfg (fset driver_feature (drv_feature_bits_hi dev) (common_cfg dev)) dev
      else dev in
    let shadow := fset driver_feature (fget driver_feature (common_cfg dev)) shadow in
    let shadow := fset driver_feature_select feature_select shadow in
    (set_common_cfg (fset driver_feature_select feature_select (common_cfg dev)) dev, shadow).

Definition virtio_process_driver_feature (dev : virtio_dev) (shadow : list Z) (driver_feature' : Z)
  : virtio_dev * list Z :=
  let feature_select := prev_drv_feature_select dev in
  let dev :=
    if feature_select =? 0 then set_drv_feature_bits_lo driver_feature' dev
    else if feature_select =? 1 then set_drv_feature_bits_hi driver_feature' dev
    else dev in
  (dev, fset driver_feature driver_feature' shadow).

(** ** Reset and the control queue *)

(** The configuration of a queue after [memset] and the default size. *)
Definition queue_conf0 : virtio_queue_conf :=
  {| qc_size := DAO_VIRTIO_MAX_QUEUE_SZ; qc_msix_vector := 0; qc_enable := 0; qc_desc_lo := 0;
     qc_desc_hi := 0; qc_avail_lo := 0; qc_avail_hi := 0; qc_used_lo := 0; qc_used_hi := 0 |}.

(** The first [n] cells of an array set to [x]. *)
Definition cfill {A} (l : list A) (n : nat) (x : A) : cres (list A) :=
  if decide (n <= length l)%nat then Ret (replicate n x ++ drop n l) else Fault.

Definition virtio_config_populate (dev : virtio_dev) : cres virtio_dev :=
  let max := Z.to_nat (u16 (max_virtio_queues dev)) in
  let cfg := fset num_queues (max_virtio_queues dev) (common_cfg dev) in
  let cfg := fset device_feature_select VIRTIO_INVALID_FEATURE_SELECT cfg in
  let cfg := fset driver_feature_select VIRTIO_INVALID_FEATURE_SELECT cfg in
  words ← cfill (notify dev) max (u32 (Z.shiftl (RTE_BIT64 15) 16));
  confs ← cfill (queue_conf dev) max queue_conf0;
  Ret (set_feature_bits (dev_feature_bits dev)
        (set_queue_conf confs
          (set_prev_drv_feature_select VIRTIO_INVALID_FEATURE_SELECT
            (set_prev_queue_select VIRTIO_INVALID_QUEUE_INDEX
              (set_notify words (set_common_cfg cfg dev)))))).

Section device.
Context {E : Type} `{VirtioEnv E}.

Definition virtio_clear_cq_info (dev : virtio_dev) (env : E) : virtio_dev * E :=
  match cq dev with
  | None => (dev, env)
  | Some q => (set_cq None dev, cq_region_unregister (cq_notify_addr q) env)
  end.

Definition virtio_setup_cq_info (dev : virtio_dev) (env : E) : cres (Z * virtio_dev * E) :=
  if negb (features_ok (device_state dev)) then Ret (0, dev, env)
  else
    let qid := u16 (cb_cq_id_get dev (feature_bits dev) env) in
    q_conf ← cget (queue_conf dev) qid;
    if (qc_enable q_conf =? 0) || bool_decide (is_Some (cq dev)) then Ret (0, dev, env)
    else
      let '(ok, env) := cq_zmalloc (qc_size q_conf) env in
      if negb ok then Ret (- ENOMEM, dev, env)
      else
        let q := {| cq_desc_base := Z.lor (Z.shiftl (qc_desc_hi q_conf) 32) (qc_desc_lo q_conf);
                    cq_notify_addr := u64 (notify_base dev + u64 (qid * notify_off_mltpr dev));
                    cq_q_sz := qc_size q_conf;
                    cq_last_off := u16 (RTE_BIT64 15); cq_sd_desc_off := u16 (RTE_BIT64 15) |} in
        let dev := set_cq (Some q) dev in
        let '(rc, env) := cq_region_register (cq_notify_addr q) env in
        Ret (rc, dev, env).

(** ** Device status *)

Definition set_state (f : dev_state -> dev_state) (dev : virtio_dev) : virtio_dev :=
  set_device_state (f (device_state dev)) dev.

(** [status & bit] *)
Definition has_status (status bit : Z) : bool := negb (Z.land status bit =? 0).

Definition status_or (bit : Z) (c : list Z) : list Z :=
  fset device_status (Z.lor (fget device_status c) bit) c.

Definition status_clear (bit : Z) (c : list Z) : list Z :=
  fset device_status (Z.land (fget device_status c) (Z.lnot bit)) c.

(** The block for [VIRTIO_DEV_RESET]. *)
Definition status_reset (s : vst E) : cres (vst E) :=
  let env := cb_dev_status (s_dev s) VIRTIO_DEV_RESET (s_env s) in
  let '(dev, env) := virtio_clear_cq_info (s_dev s) env in
  dev ← virtio_config_populate dev;
  let dev := set_common_cfg (fset device_status VIRTIO_DEV_RESET (common_cfg dev)) dev in
  Ret {| s_dev := set_device_state {| driver_ok := false; features_ok := false; acknowledge := false; driver := false |} dev;
         s_sh := fset device_status VIRTIO_DEV_RESET (s_sh s); s_env := env |}.

(** The block for [VIRTIO_DEV_FEATURES_OK]. *)
Definition status_features (s : vst E) : vst E :=
  let dev := s_dev s in
  let bits := Z.lor (drv_feature_bits_lo dev) (u64 (Z.shiftl (drv_feature_bits_hi dev) 32)) in
  let failed := match cb_feature_validate with
                | Some validate => negb (validate dev bits (s_env s) =? 0)
                | None => false
                end in
  if failed then
    {| s_dev := set_common_cfg (status_clear VIRTIO_DEV_FEATURES_OK (common_cfg dev)) dev;
       s_sh := status_clear VIRTIO_DEV_FEATURES_OK (s_sh s); s_env := s_env s |}
  else
    {| s_dev := set_state (fun f => {| driver_ok := driver_ok f; features_ok := true;
                  acknowledge := acknowledge f; driver := driver f |}) (set_feature_bits bits dev);
       s_sh := status_or VIRTIO_DEV_FEATURES_OK (s_sh s); s_env := s_env s |}.

(** The block for [VIRTIO_DEV_DRIVER_OK], after the delay. *)
Definition status_driver_ok (s : vst E) : cres (vst E) :=
  let dev := set_driver_ok_pend 0 (s_dev s) in
  let dev := set_state (fun f => {| driver_ok := true; features_ok := features_ok f;
               acknowledge := acknowledge f; driver := driver f |}) dev in
  let env := cb_dev_status dev VIRTIO_DEV_DRIVER_OK (s_env s) in
  '(_, dev, env) ← virtio_setup_cq_info dev env;
  Ret {| s_dev := dev; s_sh := status_or VIRTIO_DEV_DRIVER_OK (s_sh s); s_env := env |}.

(** The blocks for [VIRTIO_DEV_ACKNOWLEDGE] and [VIRTIO_DEV_DRIVER]; the
    latter leaves its flag clear. *)
Definition status_rest (status : Z) (s : vst E) : vst E :=
  let s :=
    if has_status status VIRTIO_DEV_ACKNOWLEDGE && negb (acknowledge (device_state (s_dev s))) then
      {| s_dev := set_state (fun f => {| driver_ok := driver_ok f; features_ok := features_ok f;
                    acknowledge := true; driver := driver f |}) (s_dev s);
         s_sh := status_or VIRTIO_DEV_ACKNOWLEDGE (s_sh s); s_env := s_env s |}
    else s in
  if has_status status VIRTIO_DEV_DRIVER && negb (driver (device_state (s_dev s))) then
    {| s_dev := set_state (fun f => {| driver_ok := driver_ok f; features_ok := features_ok f;
                  acknowledge := acknowledge f; driver := false |}) (s_dev s);
       s_sh := status_or VIRTIO_DEV_DRIVER (s_sh s); s_env := s_env s |}
  else s.

Definition virtio_process_device_status (s : vst E) (device_status' : Z) : cres (Z * vst E) :=
  let status := Z.land device_status' 0x7f in
  s ← (if status =? VIRTIO_DEV_RESET then status_reset s else Ret s);
  let s := if has_status status VIRTIO_DEV_FEATURES_OK && negb (features_ok (device_state (s_dev s)))
           then status_features s else s in
  if has_status status VIRTIO_DEV_DRIVER_OK && negb (driver_ok (device_state (s_dev s))) then
    if driver_ok_pend (s_dev s) <? 3 then
      Ret (1, {| s_dev := set_driver_ok_pend (u8 (driver_ok_pend (s_dev s) + 1)) (s_dev s);
                 s_sh := s_sh s; s_env := s_env s |})
    else
      s ← status_driver_ok s;
      Ret (0, status_rest status s)
  else Ret (0, status_rest status s).
End device.

(** ** Queues *)

(** The saved configuration of the selected queue differs from the registers
    in something else than [queue_enable]. *)
Definition virtio_queue_conf_pending (dev : virtio_dev) : cres bool :=
  let queue_id := prev_queue_select dev in
  let cfg := common_cfg dev in
  if queue_id =? VIRTIO_INVALID_QUEUE_INDEX then Ret false
  else if DAO_VIRTIO_MAX_QUEUES <=? queue_id then Ret false
  else
    queue ← cget (queue_conf dev) queue_id;
    Ret (negb (qc_msix_vector queue =? fget queue_msix_vector cfg) ||
         negb (qc_desc_lo queue =? fget queue_desc_lo cfg) ||
         negb (qc_desc_hi queue =? fget queue_desc_hi cfg) ||
         negb (qc_used_lo queue =? fget queue_used_lo cfg) ||
         negb (qc_used_hi queue =? fget queue_used_hi cfg) ||
         negb (qc_avail_lo queue =? fget queue_avail_lo cfg) ||
         negb (qc_avail_hi queue =? fget queue_avail_hi cfg) ||
         negb (qc_size queue =? fget queue_size cfg)).

(** The queue registers saved into a queue's configuration. *)
Definition queue_save (cfg : list Z) (queue : virtio_queue_conf) : virtio_queue_conf :=
  {| qc_size := if negb (qc_size queue =? fget queue_size cfg) then fget queue_size cfg else qc_size queue;
     qc_msix_vector := fget queue_msix_vector cfg; qc_enable := fget queue_enable cfg;
     qc_desc_lo := fget queue_desc_lo cfg; qc_desc_hi := fget queue_desc_hi cfg;
     qc_avail_lo := fget queue_avail_lo cfg; qc_avail_hi := fget queue_avail_hi cfg;
     qc_used_lo := fget queue_used_lo cfg; qc_used_hi := fget queue_used_hi cfg |}.

(** A queue's configuration put into the registers. *)
Definition queue_load (queue_id : Z) (queue : virtio_queue_conf) (cfg : list Z) : list Z :=
  let cfg := fset queue_size (qc_size queue) cfg in
  let cfg := fset queue_msix_vector (qc_msix_vector queue) cfg in
  let cfg := fset queue_enable (qc_enable queue) cfg in
  let cfg := fset queue_notify_off queue_id cfg in
  let cfg := fset queue_desc_lo (qc_desc_lo queue) cfg in
  let cfg := fset queue_desc_hi (qc_desc_hi queue) cfg in
  let cfg := fset queue_used_lo (qc_used_lo queue) cfg in
  let cfg := fset queue_used_hi (qc_used_hi queue) cfg in
  let cfg := fset queue_avail_lo (qc_avail_lo queue) cfg in
  fset queue_avail_hi (qc_avail_hi queue) cfg.

(** The queue registers copied to the shadow. *)
Definition queue_shadow (cfg shadow : list Z) : list Z :=
  foldl (fun sh f => fset f (fget f cfg) sh) shadow
    [queue_size; queue_msix_vector; queue_enable; queue_notify_off; queue_desc_lo; queue_desc_hi;
     queue_used_lo; queue_used_hi; queue_avail_lo; queue_avail_hi].

Definition virtio_process_queue_select (dev : virtio_dev) (shadow : list Z) (queue_select' : Z)
  : cres (Z * virtio_dev * list Z) :=
  let queue_id := Z.land queue_select' 0x7fff in
  if queue_select_pend dev <? VIRTIO_QUEUE_SELECT_DELAY
  then Ret (0, set_queue_select_pend (u8 (queue_select_pend dev + 1)) dev, shadow)
  else
    let dev := set_queue_select_pend 0 dev in
    if (DAO_VIRTIO_MAX_QUEUES <=? queue_id) ||
       negb (prev_queue_select dev =? VIRTIO_INVALID_QUEUE_INDEX) &&
       (DAO_VIRTIO_MAX_QUEUES <=? prev_queue_select dev)
    then Ret (- EINVAL, dev, shadow)
    else
      '(dev, shadow) ←
        (if prev_queue_select dev =? queue_id then Ret (dev, shadow)
         else
           dev ← (if negb (prev_queue_select dev =? VIRTIO_INVALID_QUEUE_INDEX) then
                    queue ← cget (queue_conf dev) (prev_queue_select dev);
                    confs ← cset (queue_conf dev) (prev_queue_select dev) (queue_save (common_cfg dev) queue);
                    Ret (set_queue_conf confs dev)
                  else Ret dev);
           let dev := set_prev_queue_select queue_id dev in
           queue ← cget (queue_conf dev) queue_id;
           let dev := set_common_cfg (queue_load queue_id queue (common_cfg dev)) dev in
           Ret (dev, queue_shadow (common_cfg dev) shadow));
      Ret (1, set_common_cfg (fset queue_select queue_id (common_cfg dev)) dev,
           fset queue_select queue_id shadow).

(** The handlers of the queue registers check the selected queue and store
    into its configuration. *)
Definition store_queue (dev : virtio_dev) (f : virtio_queue_conf -> virtio_queue_conf)
  : cres (Z * virtio_dev) :=
  let queue_id := prev_queue_select dev in
  if queue_id =? VIRTIO_INVALID_QUEUE_INDEX then Ret (- EINVAL, dev)
  else if DAO_VIRTIO_MAX_QUEUES <=? queue_id then Ret (- EINVAL, dev)
  else
    queue ← cget (queue_conf dev) queue_id;
    confs ← cset (queue_conf dev) queue_id (f queue);
    Ret (0, set_queue_conf confs dev).

Definition virtio_process_queue_size (dev : virtio_dev) (v : Z) := store_queue dev (set_qc_size v).
Definition virtio_process_queue_msix_vector (dev : virtio_dev) (v : Z) := store_queue dev (set_qc_msix_vector v).
Definition virtio_process_queue_desc_lo (dev : virtio_dev) (v : Z) := store_queue dev (set_qc_desc_lo v).
Definition virtio_process_queue_desc_hi (dev : virtio_dev) (v : Z) := store_queue dev (set_qc_desc_hi v).
Definition virtio_process_queue_driver_lo (dev : virtio_dev) (v : Z) := store_queue dev (set_qc_avail_lo v).
Definition virtio_process_queue_driver_hi (dev : virtio_dev) (v : Z) := store_queue dev (set_qc_avail_hi v).
Definition virtio_process_queue_device_lo (dev : virtio_dev) (v : Z) := store_queue dev (set_qc_used_lo v).
Definition virtio_process_queue_device_hi (dev : virtio_dev) (v : Z) := store_queue dev (set_qc_used_hi v).

Section callback.
Context {E : Type} `{VirtioEnv E}.

Definition virtio_process_queue_enable (dev : virtio_dev) (env : E) (queue_enable' : Z)
  : cres (Z * virtio_dev * E) :=
  let cq_id := u16 (cb_cq_id_get dev (feature_bits dev) env) in
  let queue_id := prev_queue_select dev in
  '(rc, dev) ← store_queue dev (set_qc_enable queue_enable');
  if rc <? 0 then Ret (rc, dev, env)
  else
    let st := device_state dev in
    '(dev, env) ←
      (if features_ok st && driver_ok st && negb (queue_enable' =? 0) && (queue_id =? cq_id) &&
          bool_decide (cq dev = None)
       then '(_, dev, env) ← virtio_setup_cq_info dev env; Ret (dev, env)
       else Ret (dev, env));
    let env :=
      if features_ok (device_state dev) && negb (queue_enable' =? 0) && negb (queue_id =? cq_id)
      then cb_queue_enable dev queue_id env else env in
    Ret (0, dev, env).

(** A handler is called when its field changed. *)
Definition when_changed {A} (f : cfg_field) (val shadow_val : Z) (h : Z -> A -> cres A) (a : A) : cres A :=
  if word_get f val =? word_get f shadow_val then Ret a else h (word_get f val) a.

(** Handlers that update the device only, and the device and its shadow. *)
Definition on_dev (h : virtio_dev -> Z -> cres (Z * virtio_dev)) (v : Z) (s : vst E) : cres (vst E) :=
  '(_, dev) ← h (s_dev s) v; Ret {| s_dev := dev; s_sh := s_sh s; s_env := s_env s |}.

Definition on_shadow (h : virtio_dev -> list Z -> Z -> virtio_dev * list Z) (v : Z) (s : vst E) : cres (vst E) :=
  let '(dev, sh) := h (s_dev s) (s_sh s) v in Ret {| s_dev := dev; s_sh := sh; s_env := s_env s |}.

Definition on_select (v : Z) (s : vst E) : cres (vst E) :=
  '(_, dev, sh) ← virtio_process_queue_select (s_dev s) (s_sh s) v;
  Ret {| s_dev := dev; s_sh := sh; s_env := s_env s |}.

Definition on_status (v : Z) (s : vst E) : cres (vst E) :=
  '(_, s) ← virtio_process_device_status s v; Ret s.

(** The handling of [queue_enable]: whether the shadow is to be updated. *)
Definition on_enable (val shadow_val : Z) (s : vst E) : cres (bool * vst E) :=
  if word_get queue_enable val =? word_get queue_enable shadow_val then Ret (true, s)
  else
    pending ← virtio_queue_conf_pending (s_dev s);
    if (pending : bool) && negb (word_get queue_enable val =? 0) then Ret (false, s)
    else
      '(_, dev, env) ← virtio_process_queue_enable (s_dev s) (s_env s) (word_get queue_enable val);
      Ret (true, {| s_dev := dev; s_sh := s_sh s; s_env := env |}).

(** [*(((uint64_t * )shadow) + offset) = val] *)
Definition put_shadow (offset val : Z) (s : vst E) : cres (vst E) :=
  sh ← cset (s_sh s) offset val; Ret {| s_dev := s_dev s; s_sh := sh; s_env := s_env s |}.

Definition dao_virtio_common_cfg_cb (offset val shadow_val : Z) (s : vst E) : cres (vst E) :=
  match offset with
  | 0 => when_changed device_feature_select val shadow_val
           (on_shadow virtio_process_device_feature_select) s
  | 1 =>
      s ← when_changed driver_feature val shadow_val (on_shadow virtio_process_driver_feature) s;
      when_changed driver_feature_select val shadow_val (on_shadow virtio_process_driver_feature_select) s
  | 2 =>
      s ← when_changed device_status val shadow_val on_status s;
      when_changed queue_select val shadow_val on_select s
  | 3 =>
      s ← when_changed queue_size val shadow_val (on_dev virtio_process_queue_size) s;
      s ← when_changed queue_msix_vector val shadow_val (on_dev virtio_process_queue_msix_vector) s;
      '(update_shadow, s) ← on_enable val shadow_val s;
      if (update_shadow : bool) then put_shadow offset val s else Ret s
  | 4 =>
      s ← when_changed queue_desc_lo val shadow_val (on_dev virtio_process_queue_desc_lo) s;
      s ← when_changed queue_desc_hi val shadow_val (on_dev virtio_process_queue_desc_hi) s;
      put_shadow offset val s
  | 5 =>
      s ← when_changed queue_avail_lo val shadow_val (on_dev virtio_process_queue_driver_lo) s;
      s ← when_changed queue_avail_hi val shadow_val (on_dev virtio_process_queue_driver_hi) s;
      put_shadow offset val s
  | 6 =>
      s ← when_changed queue_used_lo val shadow_val (on_dev virtio_process_queue_device_lo) s;
      s ← when_changed queue_used_hi val shadow_val (on_dev virtio_process_queue_device_hi) s;
      put_shadow offset val s
  | _ => put_shadow offset val s
  end.
End callback.

(** ** The device under the poll thread *)

(** The world the poll thread sees: the device at [vw_cfg_addr], the registry
    of regions that use the callback above, and the environment. *)
Record vworld {E : Type} := {
  vw_dev : virtio_dev;
  vw_cfg_addr : Z;
  vw_pem : pem unit;
  vw_env : E;
}.
Arguments vworld : clear implicits.

Definition region_with_shadow (sh : list Z) (r : pem_region unit) : pem_region unit :=
  {| reg_base := reg_base r; reg_sz := reg_sz r; reg_cb := reg_cb r; shadow := sh |}.

#[export] Instance vworld_pem {E} `{VirtioEnv E} : PemWorld (vworld E) unit := {
  w_pem := vw_pem;
  reg_read a w := default 0 (common_cfg (vw_dev w) !! Z.to_nat ((a - vw_cfg_addr w) / 8));
  run_cb _ a i val shd_val w :=
    match heap (vw_pem w) !! a with
    | None => Fault
    | Some r =>
        s ← dao_virtio_common_cfg_cb i val shd_val
              {| s_dev := vw_dev w; s_sh := shadow r; s_env := vw_env w |};
        Ret {| vw_dev := s_dev s; vw_cfg_addr := vw_cfg_addr w;
               vw_pem := pem_set_regions (vw_pem w) (regions (vw_pem w)) (region_mask (vw_pem w))
                 (<[a := region_with_shadow (s_sh s) r]> (heap (vw_pem w)));
               vw_env := s_env s |}
    end;
}.

(** ** Lemmas on fields *)

Definition field_ok (f : cfg_field) : bool := (0 <=? f_lo f) && (0 <=? f_len f).

(** Two fields that share no bit. *)
Definition apart (f g : cfg_field) : bool :=
  negb (f_word f =? f_word g)%nat || (f_lo f + f_len f <=? f_lo g) || (f_lo g + f_len g <=? f_lo f).

Lemma testbit_ones_range n i : 0 <= n -> Z.testbit (Z.ones n) i = (0 <=? i) && (i <? n).
Proof.
  intros Hn. destruct (Z.leb_spec 0 i); [|by rewrite Z.testbit_neg_r]. cbn.
  destruct (Z.ltb_spec i n); [by apply Z.ones_spec_low|by apply Z.ones_spec_high].
Qed.

Lemma testbit_word_get f v i : field_ok f = true -> 0 <= i ->
  Z.testbit (word_get f v) i = Z.testbit v (i + f_lo f) && (i <? f_len f).
Proof.
  intros [? ?]%andb_true_iff Hi. reflect_bool. unfold word_get.
  rewrite Z.land_spec, Z.shiftr_spec, testbit_ones_range by lia. by rewrite (proj2 (Z.leb_le 0 i)).
Qed.

Lemma testbit_word_set f x v i : field_ok f = true -> 0 <= i ->
  Z.testbit (word_set f x v) i =
    if (f_lo f <=? i) && (i <? f_lo f + f_len f) then Z.testbit x (i - f_lo f) else Z.testbit v i.
Proof.
  intros [? ?]%andb_true_iff Hi. reflect_bool. unfold word_set.
  rewrite Z.lor_spec, Z.ldiff_spec, !Z.shiftl_spec, Z.land_spec, testbit_ones_range by lia.
  destruct (Z.leb_spec (f_lo f) i).
  - rewrite (proj2 (Z.leb_le 0 (i - f_lo f))) by lia. cbn [andb].
    destruct (Z.ltb_spec i (f_lo f + f_len f)).
    + rewrite (proj2 (Z.ltb_lt _ _)) by lia. by rewrite andb_false_r, andb_true_r.
    + rewrite (proj2 (Z.ltb_ge _ _)) by lia. by rewrite !andb_false_r, andb_true_r, orb_false_r.
  - rewrite (proj2 (Z.leb_gt 0 (i - f_lo f))) by lia. by rewrite !andb_false_r, andb_true_r, orb_false_r.
Qed.

Ltac bits := apply Z.bits_inj'; intros i Hi.

Lemma word_get_set f x v : field_ok f = true -> word_get f (word_set f x v) = Z.land x (Z.ones (f_len f)).
Proof.
  intros Hf. pose proof Hf as [? ?]%andb_true_iff. reflect_bool. bits.
  rewrite testbit_word_get, testbit_word_set, Z.land_spec, testbit_ones_range by (done || lia).
  rewrite (proj2 (Z.leb_le _ (i + f_lo f))), (proj2 (Z.leb_le 0 i)) by lia. cbn [andb].
  destruct (Z.ltb_spec i (f_len f)).
  - rewrite (proj2 (Z.ltb_lt _ _)) by lia. do 2 f_equal. lia.
  - by rewrite !andb_false_r.
Qed.

Lemma word_get_set_ne f g x v : field_ok f = true -> field_ok g = true -> f_word f = f_word g ->
  apart f g = true -> word_get f (word_set g x v) = word_get f v.
Proof.
  intros Hf Hg Hw Ha. pose proof Hf as [? ?]%andb_true_iff. pose proof Hg as [? ?]%andb_true_iff.
  unfold apart in Ha. rewrite Hw, Nat.eqb_refl in Ha. cbn in Ha. reflect_bool. bits.
  rewrite !testbit_word_get, testbit_word_set by (done || lia).
  destruct (Z.ltb_spec i (f_len f)); [|by rewrite !andb_false_r]. rewrite !andb_true_r.
  destruct (Z.leb_spec (f_lo g) (i + f_lo f)); [|done]. destruct (Z.ltb_spec (i + f_lo f) (f_lo g + f_len g)); [|done].
  apply orb_true_iff in Ha as [Ha|Ha]; reflect_bool; lia.
Qed.

Lemma word_set_set f x y v : field_ok f = true -> word_set f x (word_set f y v) = word_set f x v.
Proof.
  intros Hf. bits. rewrite !testbit_word_set by done. by destruct ((f_lo f <=? i) && (i <? f_lo f + f_len f)).
Qed.

Lemma word_set_comm f g x y v : field_ok f = true -> field_ok g = true -> f_word f = f_word g ->
  apart f g = true -> word_set f x (word_set g y v) = word_set g y (word_set f x v).
Proof.
  intros Hf Hg Hw Ha. unfold apart in Ha. rewrite Hw, Nat.eqb_refl in Ha. cbn in Ha. bits.
  rewrite !testbit_word_set by done.
  destruct (Z.leb_spec (f_lo f) i), (Z.ltb_spec i (f_lo f + f_len f)), (Z.leb_spec (f_lo g) i),
    (Z.ltb_spec i (f_lo g + f_len g)); cbn; try done.
  apply orb_true_iff in Ha as [Ha|Ha]; reflect_bool; lia.
Qed.

Lemma word_set_mask f x v : field_ok f = true -> word_set f (Z.land x (Z.ones (f_len f))) v = word_set f x v.
Proof.
  intros Hf. unfold word_set. by rewrite <- Z.land_assoc, Z.land_diag.
Qed.

Lemma word_set_get f v : field_ok f = true -> word_set f (word_get f v) v = v.
Proof.
  intros Hf. pose proof Hf as [? ?]%andb_true_iff. reflect_bool. bits. rewrite testbit_word_set by done.
  destruct (Z.leb_spec (f_lo f) i), (Z.ltb_spec i (f_lo f + f_len f)); cbn; try done.
  rewrite testbit_word_get by (done || lia). rewrite (proj2 (Z.ltb_lt _ _)) by lia.
  rewrite andb_true_r. f_equal. lia.
Qed.

(** The same on the structure. *)
Lemma length_fset f x c : length (fset f x c) = length c.
Proof. apply length_alter. Qed.

Lemma fget_fset f x c : field_ok f = true -> (f_word f < length c)%nat ->
  fget f (fset f x c) = Z.land x (Z.ones (f_len f)).
Proof.
  intros Hf Hlt. unfold fget, fset. rewrite list_lookup_alter_eq.
  destruct (lookup_lt_is_Some_2 c (f_word f) Hlt) as [v ->]. by apply word_get_set.
Qed.

Lemma fget_fset_ne f g x c : field_ok f = true -> field_ok g = true -> apart f g = true ->
  fget f (fset g x c) = fget f c.
Proof.
  intros Hf Hg Ha. unfold fget, fset. destruct (decide (f_word f = f_word g)) as [E|E].
  - rewrite E, list_lookup_alter_eq, <- E. destruct (c !! f_word f); [|done]. by apply word_get_set_ne.
  - by rewrite list_lookup_alter_ne.
Qed.

Lemma fset_fset f x y c : field_ok f = true -> fset f x (fset f y c) = fset f x c.
Proof.
  intros Hf. unfold fset. apply list_eq. intros k. destruct (decide (k = f_word f)) as [->|E].
  - rewrite !list_lookup_alter_eq. destruct (c !! f_word f); [|done]. cbn. f_equal. by apply word_set_set.
  - by rewrite !list_lookup_alter_ne by done.
Qed.

Lemma fset_comm f g x y c : field_ok f = true -> field_ok g = true -> apart f g = true ->
  fset f x (fset g y c) = fset g y (fset f x c).
Proof.
  intros Hf Hg Ha. unfold fset. apply list_eq. intros k.
  destruct (decide (f_word f = f_word g)) as [E|E].
  - rewrite E. destruct (decide (k = f_word g)) as [->|Hk]; [|by rewrite !list_lookup_alter_ne by done].
    rewrite !list_lookup_alter_eq. destruct (c !! f_word g); [|done]. cbn. f_equal. by apply word_set_comm.
  - destruct (decide (k = f_word f)) as [->|]; [|destruct (decide (k = f_word g)) as [->|]].
    + by rewrite list_lookup_alter_eq, !(list_lookup_alter_ne _ _ (f_word g)), list_lookup_alter_eq by done.
    + by rewrite list_lookup_alter_eq, !(list_lookup_alter_ne _ _ (f_word f)), list_lookup_alter_eq by done.
    + by rewrite !list_lookup_alter_ne by done.
Qed.

Lemma fset_mask f x c : field_ok f = true -> fset f (Z.land x (Z.ones (f_len f))) c = fset f x c.
Proof.
  intros Hf. unfold fset. apply list_eq. intros k. destruct (decide (k = f_word f)) as [->|E].
  - rewrite !list_lookup_alter_eq. destruct (c !! f_word f); [|done]. cbn. f_equal. by apply word_set_mask.
  - by rewrite !list_lookup_alter_ne by done.
Qed.

Lemma fset_fget f c : field_ok f = true -> fset f (fget f c) c = c.
Proof.
  intros Hf. unfold fset, fget. apply list_eq. intros k. destruct (decide (k = f_word f)) as [->|E].
  - rewrite list_lookup_alter_eq. destruct (c !! f_word f); [|done]. cbn. f_equal. by apply word_set_get.
  - by rewrite list_lookup_alter_ne.
Qed.

(** Only the last write to the registers counts. *)
Lemma set_common_cfg_twice x y d : set_common_cfg x (set_common_cfg y d) = set_common_cfg x d.
Proof. done. Qed.
Lemma set_common_cfg_id c d : common_cfg d = c -> set_common_cfg c d = d.
Proof. intros <-. by destruct d. Qed.
Lemma common_cfg_set x d : common_cfg (set_common_cfg x d) = x.
Proof. done. Qed.
Lemma dev_feature_bits_set x d : dev_feature_bits (set_common_cfg x d) = dev_feature_bits d.
Proof. done. Qed.

#[export] Hint Rewrite set_common_cfg_twice common_cfg_set dev_feature_bits_set : cfg.
#[export] Hint Rewrite length_fset : cfg.
#[export] Hint Rewrite fset_fset fset_mask using reflexivity : cfg.
#[export] Hint Rewrite fget_fset_ne using reflexivity : cfg.

(** ** The poll of the common configuration region

    What one check of the region does to the device: the words in order, the
    callback for each that differs from its shadow at its turn. *)
Section sweep.
Context {E : Type} `{VirtioEnv E}.
Implicit Types s : vst E.

Fixpoint sweep_from (n : nat) (i : Z) s : cres (vst E) :=
  match n with
  | O => Ret s
  | S n =>
      let val := default 0 (common_cfg (s_dev s) !! Z.to_nat i) in
      shd ← cget (s_sh s) i;
      s ← (if val =? shd then Ret s else dao_virtio_common_cfg_cb i val shd s);
      sweep_from n (i + 1) s
  end.

Definition sweep s : cres (vst E) := sweep_from 8 0 s.

Fixpoint sweeps (n : nat) s : cres (vst E) :=
  match n with O => Ret s | S n => s ← sweep s; sweeps n s end.

(** The world with the state of a device put in. *)
Definition put_vst (w : vworld E) (a : Z) (r : pem_region unit) s : vworld E :=
  {| vw_dev := s_dev s; vw_cfg_addr := vw_cfg_addr w;
     vw_pem := pem_set_regions (vw_pem w) (regions (vw_pem w)) (region_mask (vw_pem w))
       (<[a := region_with_shadow (s_sh s) r]> (heap (vw_pem w)));
     vw_env := s_env s |}.

Lemma put_vst_same w a r : heap (vw_pem w) !! a = Some r ->
  put_vst w a r {| s_dev := vw_dev w; s_sh := shadow r; s_env := vw_env w |} = w.
Proof.
  intros Hr. destruct w as [d ca [] e], r. unfold put_vst, pem_set_regions, region_with_shadow. cbn in *.
  by rewrite insert_id.
Qed.

(** The poll of a device's registers. [check_ctrl_reg] of the PEM library
    on the common configuration region of a device, with the callback
    [dao_virtio_common_cfg_cb], has the effect of [sweep] on the device, its
    shadow and the environment, and changes nothing else of the world. *)
Theorem poll_is_sweep (w : vworld E) (a : Z) (r : pem_region unit) :
  heap (vw_pem w) !! a = Some r -> reg_base r = vw_cfg_addr w -> reg_sz r = 8 ->
  check_ctrl_reg (Some a) w =
    s ← sweep {| s_dev := vw_dev w; s_sh := shadow r; s_env := vw_env w |}; Ret (put_vst w a r s).
Proof.
  intros Hr Hb Hsz. unfold check_ctrl_reg. cbn [w_pem vworld_pem]. rewrite Hr, Hsz. change (Z.to_nat 8) with 8%nat.
  assert (forall n i s, 0 <= i -> i + Z.of_nat n = 8 ->
    check_words n a i (put_vst w a r s) = s ← sweep_from n i s; Ret (put_vst w a r s)) as Hgo.
  { induction n as [|n IH]; intros i s Hi Hn; cbn [check_words sweep_from w_pem vworld_pem put_vst vw_pem heap pem_set_regions];
      rewrite lookup_insert_eq; cbn [region_with_shadow reg_sz reg_base reg_cb shadow]; rewrite Hsz.
    { by rewrite (proj2 (Z.leb_le 8 i)) by lia. }
    rewrite (proj2 (Z.leb_gt 8 i)) by lia. cbn [reg_read vworld_pem put_vst vw_dev vw_cfg_addr].
    rewrite Hb. replace (vw_cfg_addr w + 8 * i - vw_cfg_addr w) with (i * 8) by lia. rewrite Z.div_mul by lia.
    destruct (cget (s_sh s) i) as [shd| |]; [|done..]. cbn [mbind cres_mbind].
    set (val := default 0 _). destruct (val =? shd); cbn [mbind cres_mbind].
    - apply IH; lia.
    - cbn [run_cb vworld_pem put_vst vw_pem heap pem_set_regions]. rewrite lookup_insert_eq.
      cbn [region_with_shadow shadow vw_dev vw_env put_vst]. destruct s as [d sh e]. cbn [s_dev s_sh s_env].
      destruct (dao_virtio_common_cfg_cb i val shd _) as [s'| |]; [|done..]. cbn [mbind cres_mbind].
      rewrite <- (IH (i + 1) s') by lia. f_equal. unfold put_vst, pem_set_regions. cbn. by rewrite insert_insert_eq. }
  rewrite <- (put_vst_same w a r Hr) at 1. by rewrite Hgo.
Qed.
End sweep.

Section sweep_lemmas.
Context {E : Type} `{VirtioEnv E}.
Implicit Types s : vst E.

(** Registers and shadow agree on the words from [i] to [j]. *)
Definition synced (i j : Z) s : Prop :=
  forall k, i <= k < j -> exists v, common_cfg (s_dev s) !! Z.to_nat k = Some v /\ s_sh s !! Z.to_nat k = Some v.

Lemma sweep_from_synced n : forall i s, 0 <= i -> synced i (i + Z.of_nat n) s -> sweep_from n i s = Ret s.
Proof.
  induction n as [|n IH]; intros i s Hi Hs; cbn [sweep_from]; [done|].
  destruct (Hs i) as (v & Hc & Hsh); [lia|]. rewrite Hc, (proj2 (cget_Ret _ _ v)) by (split; [lia|done]).
  cbn [mbind cres_mbind default from_option id]. rewrite Z.eqb_refl. cbn [mbind cres_mbind].
  apply IH; [lia|]. intros k Hk. apply Hs. lia.
Qed.

Lemma sweep_from_app n m : forall i s, sweep_from (n + m) i s = s ← sweep_from n i s; sweep_from m (i + Z.of_nat n) s.
Proof.
  induction n as [|n IH]; intros i s; cbn [sweep_from Nat.add]; [by rewrite Z.add_0_r|].
  destruct (cget (s_sh s) i) as [shd| |]; [|done..]. cbn [mbind cres_mbind].
  destruct (if _ =? _ then _ else _) as [s'| |]; [|done..]. cbn [mbind cres_mbind].
  rewrite IH. replace (i + Z.of_nat (S n)) with (i + 1 + Z.of_nat n) by lia. done.
Qed.

(** One word of a sweep. *)
Lemma sweep_from_word n i s s' val shd : 0 <= i -> common_cfg (s_dev s) !! Z.to_nat i = Some val ->
  s_sh s !! Z.to_nat i = Some shd -> val <> shd -> dao_virtio_common_cfg_cb i val shd s = Ret s' ->
  sweep_from (S n) i s = sweep_from n (i + 1) s'.
Proof.
  intros Hi Hval Hshd Hne Hcb. cbn [sweep_from]. rewrite Hval, (proj2 (cget_Ret _ _ shd)) by (split; [lia|done]).
  cbn [mbind cres_mbind default from_option id]. by rewrite (proj2 (Z.eqb_neq _ _) Hne), Hcb.
Qed.

(** A sweep in which only word [k] has changed is one call of the callback. *)
Lemma sweep_one k s s' val shd : 0 <= k < 8 -> synced 0 k s ->
  common_cfg (s_dev s) !! Z.to_nat k = Some val -> s_sh s !! Z.to_nat k = Some shd -> val <> shd ->
  dao_virtio_common_cfg_cb k val shd s = Ret s' -> synced (k + 1) 8 s' -> sweep s = Ret s'.
Proof.
  intros Hk Hlow Hval Hshd Hne Hcb Hhigh. unfold sweep.
  replace 8%nat with (Z.to_nat k + S (7 - Z.to_nat k))%nat by lia. rewrite sweep_from_app.
  rewrite sweep_from_synced; [|lia|intros j Hj; apply Hlow; lia]. cbn [mbind cres_mbind].
  rewrite Z.add_0_l, Z2Nat.id, (sweep_from_word _ k s s' val shd) by (done || lia).
  apply sweep_from_synced; [lia|]. intros j Hj. apply Hhigh. lia.
Qed.

(** A sweep in which words [j] and [k] have changed, and the callback for the
    first one does nothing. *)
Lemma sweep_two j k s s' vj hj vk hk : 0 <= j < k -> k < 8 -> synced 0 j s -> synced (j + 1) k s ->
  common_cfg (s_dev s) !! Z.to_nat j = Some vj -> s_sh s !! Z.to_nat j = Some hj -> vj <> hj ->
  dao_virtio_common_cfg_cb j vj hj s = Ret s ->
  common_cfg (s_dev s) !! Z.to_nat k = Some vk -> s_sh s !! Z.to_nat k = Some hk -> vk <> hk ->
  dao_virtio_common_cfg_cb k vk hk s = Ret s' -> synced (k + 1) 8 s' -> sweep s = Ret s'.
Proof.
  intros Hj Hk Hs1 Hs2 Hvj Hhj Hnej Hcbj Hvk Hhk Hnek Hcbk Hs3. unfold sweep.
  replace 8%nat with (Z.to_nat j + S (Z.to_nat (k - j - 1) + S (7 - Z.to_nat k)))%nat by lia.
  rewrite sweep_from_app, sweep_from_synced; [|lia|intros i Hi; apply Hs1; lia]. cbn [mbind cres_mbind].
  rewrite Z.add_0_l, Z2Nat.id, (sweep_from_word _ j s s vj hj) by (done || lia).
  rewrite sweep_from_app, sweep_from_synced; [|lia|intros i Hi; apply Hs2; lia]. cbn [mbind cres_mbind].
  replace (j + 1 + Z.of_nat (Z.to_nat (k - j - 1))) with k by lia.
  rewrite (sweep_from_word _ k s s' vk hk) by (done || lia).
  apply sweep_from_synced; [lia|]. intros i Hi. apply Hs3. lia.
Qed.

(** All eight words agree. *)
Definition in_sync s : Prop := common_cfg (s_dev s) = s_sh s /\ length (s_sh s) = 8%nat.

Lemma in_sync_synced i j s : in_sync s -> 0 <= i -> j <= 8 -> synced i j s.
Proof.
  intros [Hc Hl] Hi Hj k Hk. destruct (lookup_lt_is_Some_2 (s_sh s) (Z.to_nat k)) as [v Hv]; [lia|].
  exists v. by rewrite Hc.
Qed.

Lemma sweep_in_sync s : in_sync s -> sweep s = Ret s.
Proof. intros Hs. apply sweep_from_synced; [lia|]. by apply in_sync_synced. Qed.

Lemma sweeps_in_sync n s : in_sync s -> sweeps n s = Ret s.
Proof. intros Hs. induction n as [|n IH]; [done|]. cbn [sweeps]. by rewrite sweep_in_sync. Qed.

(** The host has written field [f] of registers that were in sync. *)
Definition host_set (f : cfg_field) (x : Z) s : vst E :=
  {| s_dev := set_common_cfg (fset f x (common_cfg (s_dev s))) (s_dev s); s_sh := s_sh s; s_env := s_env s |}.

Lemma host_set_synced f x s i j : in_sync s -> 0 <= i -> j <= 8 -> ~ (i <= Z.of_nat (f_word f) < j) ->
  synced i j (host_set f x s).
Proof.
  intros Hs Hi Hj Hf k Hk. destruct (in_sync_synced i j s Hs Hi Hj k Hk) as (v & H1 & H2).
  exists v. split; [|done]. cbn. unfold fset. by rewrite list_lookup_alter_ne by lia.
Qed.

(** A sweep after the host has written field [f]: one call of the callback,
    with the word before and after. *)
Lemma sweep_host_set f x s s' : in_sync s -> (f_word f < 8)%nat ->
  (forall v, s_sh s !! f_word f = Some v ->
     word_set f x v <> v /\
     dao_virtio_common_cfg_cb (Z.of_nat (f_word f)) (word_set f x v) v (host_set f x s) = Ret s') ->
  synced (Z.of_nat (f_word f) + 1) 8 s' -> sweep (host_set f x s) = Ret s'.
Proof.
  intros Hs Hf Hcb Hhigh. pose proof Hs as [Hc Hl].
  destruct (lookup_lt_is_Some_2 (s_sh s) (f_word f)) as [v Hv]; [lia|]. destruct (Hcb v Hv) as [Hne Hret].
  apply (sweep_one (Z.of_nat (f_word f)) _ _ (word_set f x v) v); try done; try lia.
  - apply host_set_synced; [done|lia..].
  - cbn. unfold fset. rewrite Nat2Z.id, list_lookup_alter_eq, Hc, Hv. done.
  - by rewrite Nat2Z.id.
Qed.

Lemma sweeps_app n m s : sweeps (n + m) s = s ← sweeps n s; sweeps m s.
Proof.
  revert s. induction n as [|n IH]; intros s; cbn [sweeps Nat.add]; [done|].
  destruct (sweep s) as [s'| |]; [|done..]. cbn [mbind cres_mbind]. apply IH.
Qed.

Lemma sweeps_S n s : sweeps (S n) s = s ← sweeps n s; sweep s.
Proof.
  rewrite <- Nat.add_1_r, sweeps_app. destruct (sweeps n s) as [s'| |]; [|done..].
  cbn [mbind cres_mbind sweeps]. by destruct (sweep s').
Qed.
End sweep_lemmas.

(** ** Handlers under the poll *)

(** A select register that holds no request: the device answered the last
    one, or the registers were reset. *)
Definition idle (v : Z) : bool := (v <? 0x8000) || (v =? 0xFFFF).

(** The request for entry [sel] of a register with an acknowledge bit 15. *)
Definition request (sel : Z) : Z := Z.lor sel 0x8000.

(** The 32-bit word [sel] of the device's features. *)
Definition feature_word (sel bits : Z) : Z := u32 (Z.shiftr bits (32 * sel)).

Section handlers.
Context {E : Type} `{VirtioEnv E}.
Implicit Types s : vst E.

Lemma word_set_changes f x v : field_ok f = true -> Z.land x (Z.ones (f_len f)) <> word_get f v -> word_set f x v <> v.
Proof. intros Hf Hne Heq. apply Hne. rewrite <- Heq. by rewrite word_get_set. Qed.

Lemma fget_word f c v : c !! f_word f = Some v -> fget f c = word_get f v.
Proof. intros Hv. unfold fget. by rewrite Hv. Qed.

Lemma when_changed_true {A} f val shd (h : Z -> A -> cres A) a : word_get f val <> word_get f shd ->
  when_changed f val shd h a = h (word_get f val) a.
Proof. intros Hne. unfold when_changed. by rewrite (proj2 (Z.eqb_neq _ _)). Qed.

Lemma when_changed_false {A} f val shd (h : Z -> A -> cres A) a : word_get f val = word_get f shd ->
  when_changed f val shd h a = Ret a.
Proof. intros Heq. unfold when_changed. by rewrite Heq, Z.eqb_refl. Qed.

Lemma land_u32 x : Z.land (u32 x) BIT_MASK32 = u32 x.
Proof.
  unfold BIT_MASK32. change 0xFFFFFFFF with (Z.ones 32). rewrite Z.land_ones by lia. apply Z.mod_small.
  apply u32_bound.
Qed.

Lemma land_small x n : 0 <= n -> 0 <= x < 2 ^ n -> Z.land x (Z.ones n) = x.
Proof. intros. rewrite Z.land_ones by lia. by apply Z.mod_small. Qed.

Lemma request_idle sel v : sel = 0 \/ sel = 1 -> idle v = true -> request sel <> v.
Proof.
  intros Hsel Hidle. assert (request sel = 0x8000 + sel) as Hr by (destruct Hsel as [-> | ->]; reflexivity).
  unfold idle in Hidle. apply orb_true_iff in Hidle as [Hi|Hi]; reflect_bool; lia.
Qed.

(** The answer to a request for a word of the device's features. *)
Lemma device_feature_answer s sel : in_sync s -> sel = 0 \/ sel = 1 ->
  idle (fget device_feature_select (s_sh s)) = true ->
  let c := fset device_feature_select sel (fset device_feature (feature_word sel (dev_feature_bits (s_dev s))) (s_sh s)) in
  sweep (host_set device_feature_select (request sel) s) =
    Ret {| s_dev := set_common_cfg c (s_dev s); s_sh := c; s_env := s_env s |}.
Proof.
  intros Hs Hsel Hidle c. pose proof Hs as [Hc Hl].
  assert (Z.land (request sel) (Z.ones 32) = request sel) as Hmask by (destruct Hsel as [-> | ->]; reflexivity).
  assert (request sel <> fget device_feature_select (s_sh s)) as Hne by (by apply request_idle).
  apply sweep_host_set; [done|cbn; lia|..].
  2:{ apply in_sync_synced; [|cbn; lia..]. split; [done|]. cbn [s_sh]. subst c. by rewrite !length_fset. }
  intros v Hv. rewrite (fget_word _ _ v) in Hne by done. split.
  { apply word_set_changes; [done|]. change (f_len device_feature_select) with 32. congruence. }
  change (Z.of_nat (f_word device_feature_select)) with 0. cbn [dao_virtio_common_cfg_cb].
  rewrite when_changed_true; rewrite word_get_set by done; change (f_len device_feature_select) with 32; rewrite Hmask; [|done].
  unfold on_shadow, host_set. cbn [s_dev s_sh s_env]. rewrite Hc. subst c.
  unfold virtio_process_device_feature_select, feature_word.
  destruct Hsel as [-> | ->];
    [change (Z.land (request 0) 0x7fff) with 0|change (Z.land (request 1) 0x7fff) with 1];
    cbn [Z.eqb Pos.eqb]; autorewrite with cfg; rewrite fget_fset by (done || rewrite ?length_fset; cbn; lia);
    autorewrite with cfg; rewrite ?land_u32, (fset_comm device_feature device_feature_select) by done;
    autorewrite with cfg; rewrite ?Z.shiftr_0_r, (fset_comm device_feature device_feature_select) by done; done.
Qed.

(** The handlers of the driver's features, without their case distinctions:
    [keep p i y x] is [y] when word [i] is the one selected. *)
Definition keep (p i y x : Z) : Z := if p =? i then y else x.

Lemma keep_keep p i y x : keep p i y (keep p i y x) = keep p i y x.
Proof. unfold keep. by destruct (p =? i). Qed.

Lemma driver_feature_eq d sh y :
  virtio_process_driver_feature d sh y =
    (set_drv_feature_bits_hi (keep (prev_drv_feature_select d) 1 y (drv_feature_bits_hi d))
      (set_drv_feature_bits_lo (keep (prev_drv_feature_select d) 0 y (drv_feature_bits_lo d)) d),
     fset driver_feature y sh).
Proof.
  unfold virtio_process_driver_feature, keep. destruct d. cbn.
  destruct (Z.eqb_spec prev_drv_feature_select0 0) as [->|]; [done|]. by destruct (_ =? 1).
Qed.

Lemma driver_feature_select_eq d sh sel : sel = 0 \/ sel = 1 -> (1 < length (common_cfg d))%nat ->
  let p := prev_drv_feature_select d in
  let y := fget driver_feature (common_cfg d) in
  let lo := keep p 0 y (drv_feature_bits_lo d) in
  let hi := keep p 1 y (drv_feature_bits_hi d) in
  virtio_process_driver_feature_select d sh (request sel) =
    (set_common_cfg (fset driver_feature_select sel (fset driver_feature (keep sel 0 lo hi) (common_cfg d)))
       (set_prev_drv_feature_select sel (set_drv_feature_bits_hi hi (set_drv_feature_bits_lo lo d))),
     fset driver_feature_select sel (fset driver_feature (keep sel 0 lo hi) sh)).
Proof.
  intros Hsel Hl. unfold virtio_process_driver_feature_select, keep. destruct d. cbn in Hl.
  destruct Hsel as [-> | ->];
    [change (Z.land (request 0) 0x7fff) with 0; change (request 0) with 0x8000
    |change (Z.land (request 1) 0x7fff) with 1; change (request 1) with 0x8001];
    cbn [common_cfg prev_drv_feature_select drv_feature_bits_lo drv_feature_bits_hi];
    (destruct (Z.eqb_spec prev_drv_feature_select0 0) as [->|H0];
      [|destruct (Z.eqb_spec prev_drv_feature_select0 1) as [->|H1];
        [|destruct (prev_drv_feature_select0 =? 0xffff)]]);
    cbn -[fset fget]; rewrite fget_fset, fset_mask by done; done.
Qed.

(** A request to select a word of the driver's features, after the host has
    also written [y] to the feature register: the answer stores [y] for the
    word selected before. *)
Lemma driver_feature_answer s sel y : in_sync s -> sel = 0 \/ sel = 1 -> is_u32 y ->
  idle (fget driver_feature_select (s_sh s)) = true ->
  let d := s_dev s in
  let lo := keep (prev_drv_feature_select d) 0 y (drv_feature_bits_lo d) in
  let hi := keep (prev_drv_feature_select d) 1 y (drv_feature_bits_hi d) in
  let c := fset driver_feature_select sel (fset driver_feature (keep sel 0 lo hi) (s_sh s)) in
  sweep (host_set driver_feature_select (request sel) (host_set driver_feature y s)) =
    Ret {| s_dev := set_common_cfg c (set_prev_drv_feature_select sel
             (set_drv_feature_bits_hi hi (set_drv_feature_bits_lo lo d)));
           s_sh := c; s_env := s_env s |}.
Proof.
  intros Hs Hsel Hy Hidle d lo hi c. pose proof Hs as [Hc Hl].
  assert (Z.land (request sel) (Z.ones 32) = request sel) as Hmask by (destruct Hsel as [-> | ->]; reflexivity).
  assert (Z.land y (Z.ones 32) = y) as Hymask by (apply land_small; [lia|exact Hy]).
  assert (request sel <> fget driver_feature_select (s_sh s)) as Hne by (by apply request_idle).
  destruct (lookup_lt_is_Some_2 (s_sh s) 1) as [v Hv]; [lia|]. rewrite (fget_word driver_feature_select _ v) in Hne by done.
  set (val := word_set driver_feature_select (request sel) (word_set driver_feature y v)).
  assert (word_get driver_feature_select val = request sel) as Hg1 by (subst val; by rewrite word_get_set).
  assert (word_get driver_feature val = y) as Hg2 by (subst val; by rewrite word_get_set_ne, word_get_set).
  apply (sweep_one 1 _ _ val v); try done.
  - intros k Hk. destruct (host_set_synced driver_feature y s 0 1 Hs) with (k := k) as (u & H1 & H2); [lia|lia|cbn; lia|lia|].
    exists u. split; [|done]. cbn. unfold fset. rewrite list_lookup_alter_ne by (cbn; lia). done.
  - unfold host_set. cbn [s_dev]. autorewrite with cfg. unfold fset. rewrite Hc.
    change (f_word driver_feature) with 1%nat. change (f_word driver_feature_select) with 1%nat.
    rewrite !list_lookup_alter_eq. change (Z.to_nat 1) with 1%nat. rewrite Hv. done.
  - intros Heq. apply Hne. by rewrite <- Hg1, Heq.
  - cbn [dao_virtio_common_cfg_cb].
    set (d1 := set_common_cfg (fset driver_feature_select (request sel) (fset driver_feature y (s_sh s))) d).
    assert (host_set driver_feature_select (request sel) (host_set driver_feature y s) =
      {| s_dev := d1; s_sh := s_sh s; s_env := s_env s |}) as -> by (unfold host_set; cbn; by rewrite Hc).
    assert (fget driver_feature (common_cfg d1) = y) as Hgy
      by (cbn [d1 common_cfg set_common_cfg]; rewrite fget_fset_ne, fget_fset by (done || cbn; lia); done).
    assert (1 < length (common_cfg d1))%nat as Hl1 by (cbn [d1 common_cfg set_common_cfg]; rewrite !length_fset; lia).
    assert (forall x, fset driver_feature_select sel (fset driver_feature x (common_cfg d1)) =
      fset driver_feature_select sel (fset driver_feature x (s_sh s))) as Hcfg.
    { intros x. cbn [d1 common_cfg set_common_cfg].
      by rewrite (fset_comm driver_feature driver_feature_select), !fset_fset by done. }
    destruct (decide (y = word_get driver_feature v)) as [Heq|Hch].
    + rewrite (when_changed_false driver_feature) by congruence. cbn [mbind cres_mbind].
      rewrite when_changed_true, Hg1 by congruence. unfold on_shadow. cbn [s_dev s_sh s_env].
      rewrite driver_feature_select_eq by done. cbv zeta. rewrite Hgy, Hcfg. done.
    + rewrite (when_changed_true driver_feature), Hg2 by congruence. unfold on_shadow at 2. cbn [s_dev s_sh s_env].
      rewrite driver_feature_eq. cbn [mbind cres_mbind]. rewrite when_changed_true, Hg1 by congruence.
      unfold on_shadow. cbn [s_dev s_sh s_env]. rewrite driver_feature_select_eq by done. cbv zeta.
      set (d2 := set_drv_feature_bits_hi _ _). change (common_cfg d2) with (common_cfg d1).
      change (prev_drv_feature_select d2) with (prev_drv_feature_select d).
      change (drv_feature_bits_lo d2) with lo. change (drv_feature_bits_hi d2) with hi.
      rewrite Hgy, Hcfg, fset_fset by done. subst lo hi. by rewrite !keep_keep.
  - apply in_sync_synced; [|lia..]. split; [done|]. cbn [s_sh]. subst c. by rewrite !length_fset.
Qed.

(** The feature register shows the word of the driver's features that is
    selected. *)
Definition shows_driver_feature s : Prop :=
  (prev_drv_feature_select (s_dev s) = 0 -> fget driver_feature (s_sh s) = drv_feature_bits_lo (s_dev s)) /\
  (prev_drv_feature_select (s_dev s) = 1 -> fget driver_feature (s_sh s) = drv_feature_bits_hi (s_dev s)).

(** The host writes [y] to the feature register. *)
Lemma driver_feature_stored s y : in_sync s -> is_u32 y -> shows_driver_feature s ->
  let d := s_dev s in
  let c := fset driver_feature y (s_sh s) in
  sweep (host_set driver_feature y s) =
    Ret {| s_dev := set_common_cfg c
             (set_drv_feature_bits_hi (keep (prev_drv_feature_select d) 1 y (drv_feature_bits_hi d))
               (set_drv_feature_bits_lo (keep (prev_drv_feature_select d) 0 y (drv_feature_bits_lo d)) d));
           s_sh := c; s_env := s_env s |}.
Proof.
  intros Hs Hy [Hlo Hhi] d c. pose proof Hs as [Hc Hl].
  assert (Z.land y (Z.ones 32) = y) as Hmask by (apply land_small; [lia|exact Hy]).
  destruct (decide (y = fget driver_feature (s_sh s))) as [Heq|Hne].
  - assert (host_set driver_feature y s = s) as ->.
    { unfold host_set. rewrite Hc, Heq, fset_fget, set_common_cfg_id by done. by destruct s. }
    rewrite sweep_in_sync by done. assert (c = s_sh s) as -> by (subst c; by rewrite Heq, fset_fget).
    subst d. f_equal.
    assert (forall i x, (prev_drv_feature_select (s_dev s) = i -> fget driver_feature (s_sh s) = x) ->
      keep (prev_drv_feature_select (s_dev s)) i y x = x) as Hk.
    { intros i x Hx. unfold keep. destruct (Z.eqb_spec (prev_drv_feature_select (s_dev s)) i); [|done].
      rewrite Heq. by apply Hx. }
    rewrite !Hk by done. destruct s as [[] sh env]; cbn in Hc; by subst.
  - apply sweep_host_set; [done|cbn; lia|..].
    2:{ apply in_sync_synced; [|cbn; lia..]. split; [done|]. cbn [s_sh]. subst c. by rewrite !length_fset. }
    intros v Hv. rewrite (fget_word _ _ v) in Hne by done. split.
    { apply word_set_changes; [done|]. change (f_len driver_feature) with 32. congruence. }
    change (Z.of_nat (f_word driver_feature)) with 1. cbn [dao_virtio_common_cfg_cb].
    assert (word_get driver_feature (word_set driver_feature y v) = y) as Hg by (by rewrite word_get_set).
    rewrite (when_changed_true driver_feature), Hg by congruence.
    unfold on_shadow at 2. rewrite driver_feature_eq. cbn [mbind cres_mbind].
    rewrite when_changed_false by (by rewrite word_get_set_ne). unfold host_set. cbn [s_dev s_sh s_env].
    by rewrite Hc.
Qed.

(** The device with its registers and driver features replaced, in sync. *)
Definition with_features s (c : list Z) (p lo hi : Z) : vst E :=
  {| s_dev := set_common_cfg c (set_prev_drv_feature_select p
       (set_drv_feature_bits_hi hi (set_drv_feature_bits_lo lo (s_dev s))));
     s_sh := c; s_env := s_env s |}.

Lemma with_features_sync s c p lo hi : length c = 8%nat -> in_sync (with_features s c p lo hi).
Proof. done. Qed.

Lemma host_set_same s f : in_sync s -> field_ok f = true -> host_set f (fget f (s_sh s)) s = s.
Proof.
  intros [Hc Hl] Hf. unfold host_set. rewrite Hc, fset_fget, set_common_cfg_id by done. by destruct s.
Qed.

Lemma fget_u32 f c : f_len f = 32 -> is_u32 (fget f c).
Proof.
  intros Hf. unfold fget. destruct (c !! f_word f); [|unfold is_u32; lia].
  unfold word_get. rewrite Hf, Z.land_ones by lia. apply u32_bound.
Qed.

(** A select request alone keeps the driver's features. *)
Lemma driver_select_answer s sel : in_sync s -> sel = 0 \/ sel = 1 -> shows_driver_feature s ->
  idle (fget driver_feature_select (s_sh s)) = true ->
  let lo := drv_feature_bits_lo (s_dev s) in
  let hi := drv_feature_bits_hi (s_dev s) in
  sweep (host_set driver_feature_select (request sel) s) =
    Ret (with_features s (fset driver_feature_select sel (fset driver_feature (keep sel 0 lo hi) (s_sh s))) sel lo hi).
Proof.
  intros Hs Hsel [Hlo Hhi] Hidle lo hi.
  pose proof (driver_feature_answer s sel (fget driver_feature (s_sh s)) Hs Hsel (fget_u32 driver_feature _ eq_refl) Hidle) as Ha.
  rewrite host_set_same in Ha by done. rewrite Ha. unfold with_features, lo, hi.
  assert (forall i x, (prev_drv_feature_select (s_dev s) = i -> fget driver_feature (s_sh s) = x) ->
    keep (prev_drv_feature_select (s_dev s)) i (fget driver_feature (s_sh s)) x = x) as Hk.
  { intros i x Hx. unfold keep. destruct (Z.eqb_spec (prev_drv_feature_select (s_dev s)) i); [|done]. by apply Hx. }
  by rewrite !Hk.
Qed.
End handlers.

(** ** The queue registers as a window on the selected queue *)

(** The registers show the configuration [q] of queue [qid]. *)
Record shows (qid : Z) (q : virtio_queue_conf) (c : list Z) : Prop := {
  sh_notify_off : fget queue_notify_off c = qid;
  sh_size : fget queue_size c = qc_size q;
  sh_msix_vector : fget queue_msix_vector c = qc_msix_vector q;
  sh_enable : fget queue_enable c = qc_enable q;
  sh_desc_lo : fget queue_desc_lo c = qc_desc_lo q;
  sh_desc_hi : fget queue_desc_hi c = qc_desc_hi q;
  sh_avail_lo : fget queue_avail_lo c = qc_avail_lo q;
  sh_avail_hi : fget queue_avail_hi c = qc_avail_hi q;
  sh_used_lo : fget queue_used_lo c = qc_used_lo q;
  sh_used_hi : fget queue_used_hi c = qc_used_hi q;
}.

(** The fields of a configuration have the width of their registers. *)
Record conf_ok (q : virtio_queue_conf) : Prop := {
  ck_size : is_u16 (qc_size q);
  ck_msix_vector : is_u16 (qc_msix_vector q);
  ck_enable : is_u16 (qc_enable q);
  ck_desc_lo : is_u32 (qc_desc_lo q);
  ck_desc_hi : is_u32 (qc_desc_hi q);
  ck_avail_lo : is_u32 (qc_avail_lo q);
  ck_avail_hi : is_u32 (qc_avail_hi q);
  ck_used_lo : is_u32 (qc_used_lo q);
  ck_used_hi : is_u32 (qc_used_hi q);
}.

Section window.
Context {E : Type} `{VirtioEnv E}.
Implicit Types s : vst E.

(** The device at rest: registers and shadow agree, no select request is
    pending, and the registers show the selected queue, if there is one. *)
Record at_rest s : Prop := {
  ar_sync : in_sync s;
  ar_confs : length (queue_conf (s_dev s)) = 129%nat;
  ar_ok : Forall conf_ok (queue_conf (s_dev s));
  ar_pend : queue_select_pend (s_dev s) = 0;
  ar_idle : idle (fget queue_select (s_sh s)) = true;
  ar_window : prev_queue_select (s_dev s) = VIRTIO_INVALID_QUEUE_INDEX \/
    exists q, 0 <= prev_queue_select (s_dev s) < DAO_VIRTIO_MAX_QUEUES /\
      queue_conf (s_dev s) !! Z.to_nat (prev_queue_select (s_dev s)) = Some q /\
      shows (prev_queue_select (s_dev s)) q (s_sh s);
}.

Lemma queue_save_shown qid q c : shows qid q c -> queue_save c q = q.
Proof.
  intros []. destruct q. unfold queue_save. cbn in *. rewrite sh_size0, Z.eqb_refl. cbn. congruence.
Qed.

Lemma queue_load_shown qid q c : shows qid q c -> queue_load qid q c = c.
Proof.
  intros []. unfold queue_load.
  repeat match goal with Hf : fget ?f c = ?x |- context [fset ?f ?x c] =>
    rewrite <- Hf, (fset_fget f c eq_refl); clear Hf end. done.
Qed.

Lemma fget_queue_load qid q c f : field_ok f = true ->
  forallb (apart f) [queue_size; queue_msix_vector; queue_enable; queue_notify_off; queue_desc_lo; queue_desc_hi;
    queue_used_lo; queue_used_hi; queue_avail_lo; queue_avail_hi] = true ->
  fget f (queue_load qid q c) = fget f c.
Proof.
  cbn [forallb]. rewrite !andb_true_iff. intros Hf (? & ? & ? & ? & ? & ? & ? & ? & ? & ? & _). unfold queue_load.
  by rewrite !fget_fset_ne.
Qed.

Lemma length_queue_load qid q c : length (queue_load qid q c) = length c.
Proof. unfold queue_load. by rewrite !length_fset. Qed.

Lemma queue_load_comm qid q x c : queue_load qid q (fset queue_select x c) = fset queue_select x (queue_load qid q c).
Proof. unfold queue_load. by rewrite !(fset_comm _ queue_select) by reflexivity. Qed.

Lemma shows_load qid q c : length c = 8%nat -> conf_ok q -> 0 <= qid < 0x10000 -> shows qid q (queue_load qid q c).
Proof.
  intros Hl [] Hq. unfold queue_load.
  split; autorewrite with cfg; rewrite fget_fset by (reflexivity || rewrite ?length_fset; cbn; lia);
    apply land_small; cbn; (lia || assumption).
Qed.

Lemma queue_shadow_load qid q c sh : length c = 8%nat -> conf_ok q -> 0 <= qid < 0x10000 ->
  queue_shadow (queue_load qid q c) sh = queue_load qid q sh.
Proof.
  intros Hl Hq Hqid. destruct (shows_load qid q c Hl Hq Hqid). unfold queue_shadow. cbn [foldl].
  unfold queue_load at 11. congruence.
Qed.

(** Showing a queue does not depend on the other registers. *)
Lemma shows_select qid q x c : shows qid q c -> shows qid q (fset queue_select x c).
Proof. intros []. split; by autorewrite with cfg. Qed.

(** The selection counter. *)
Definition with_pend (n : Z) s : vst E :=
  {| s_dev := set_queue_select_pend n (s_dev s); s_sh := s_sh s; s_env := s_env s |}.

(** The device with queue [qid] selected and shown. *)
Definition selected (qid : Z) (q : virtio_queue_conf) s : vst E :=
  let c := fset queue_select qid (queue_load qid q (s_sh s)) in
  {| s_dev := set_common_cfg c (set_prev_queue_select qid (s_dev s)); s_sh := c; s_env := s_env s |}.

Lemma request_queue qid : 0 <= qid < 0x8000 ->
  request qid = 0x8000 + qid /\ Z.land (request qid) 0x7fff = qid.
Proof.
  intros Hq. unfold request. change 0x8000 with (2 ^ 15) at 1 2. change 0x7fff with (Z.ones 15).
  assert (Z.land qid (2 ^ 15) = 0) as H0.
  { apply Z.bits_inj'. intros i Hi. rewrite Z.land_spec, testbit_pow2, Z.bits_0 by lia.
    case_bool_decide; [|by rewrite andb_false_r]. subst. by rewrite (testbit_small qid 15). }
  split; [rewrite <- Z.lxor_lor, <- Z.add_nocarry_lxor by done; lia|].
  rewrite Z.land_lor_distr_l. change (Z.land (2 ^ 15) (Z.ones 15)) with 0. rewrite Z.lor_0_r. by apply land_small.
Qed.

(** A poll that sees a select request. *)
Lemma select_poll s qid n s' : in_sync s -> 0 <= qid < DAO_VIRTIO_MAX_QUEUES ->
  idle (fget queue_select (s_sh s)) = true ->
  on_select (request qid) (host_set queue_select (request qid) (with_pend n s)) = Ret s' ->
  synced 3 8 s' -> sweep (host_set queue_select (request qid) (with_pend n s)) = Ret s'.
Proof.
  intros Hs Hq Hidle Hsel Hsync. unfold DAO_VIRTIO_MAX_QUEUES in Hq.
  destruct (request_queue qid) as [Hr _]; [lia|].
  assert (Z.land (request qid) (Z.ones 16) = request qid) as Hmask by (apply land_small; cbn; lia).
  apply sweep_host_set; [done|cbn; lia| |done].
  intros v Hv. cbn [with_pend s_sh] in Hv. rewrite (fget_word _ _ v) in Hidle by done.
  assert (request qid <> word_get queue_select v) as Hne.
  { unfold idle in Hidle. apply orb_true_iff in Hidle as [Hi|Hi]; reflect_bool; lia. }
  assert (word_get queue_select (word_set queue_select (request qid) v) = request qid) as Hg by (by rewrite word_get_set).
  split; [apply word_set_changes; [done|]; change (f_len queue_select) with 16; congruence|].
  change (Z.of_nat (f_word queue_select)) with 2. cbn [dao_virtio_common_cfg_cb].
  rewrite when_changed_false by (by rewrite word_get_set_ne). cbn [mbind cres_mbind].
  by rewrite when_changed_true, Hg by congruence.
Qed.

(** The first three polls only count. *)
Lemma select_wait s qid n : in_sync s -> 0 <= qid < DAO_VIRTIO_MAX_QUEUES -> 0 <= n < 3 ->
  idle (fget queue_select (s_sh s)) = true ->
  sweep (host_set queue_select (request qid) (with_pend n s)) =
    Ret (host_set queue_select (request qid) (with_pend (n + 1) s)).
Proof.
  intros Hs Hq Hn Hidle. apply select_poll; [done..| |].
  - unfold on_select, virtio_process_queue_select. cbn [host_set with_pend s_dev s_sh s_env queue_select_pend
      set_common_cfg set_queue_select_pend]. unfold VIRTIO_QUEUE_SELECT_DELAY.
    rewrite (proj2 (Z.ltb_lt n 3)), u8_id by (unfold is_u8; lia). done.
  - apply host_set_synced; [done|lia|lia|cbn; lia].
Qed.

(** Putting queue [qid] into the registers, at the end of the handler. *)
Lemma load_queue d sh qid q : 0 <= qid < DAO_VIRTIO_MAX_QUEUES -> conf_ok q ->
  queue_conf d !! Z.to_nat qid = Some q -> length (common_cfg d) = 8%nat ->
  (queue ← cget (queue_conf (set_prev_queue_select qid d)) qid;
   Ret (set_common_cfg (queue_load qid queue (common_cfg (set_prev_queue_select qid d))) (set_prev_queue_select qid d),
        queue_shadow (common_cfg (set_common_cfg (queue_load qid queue (common_cfg (set_prev_queue_select qid d)))
          (set_prev_queue_select qid d))) sh)) =
  Ret (set_common_cfg (queue_load qid q (common_cfg d)) (set_prev_queue_select qid d), queue_load qid q sh).
Proof.
  intros Hq Hok Hconf Hl. unfold DAO_VIRTIO_MAX_QUEUES in Hq.
  change (queue_conf (set_prev_queue_select qid d)) with (queue_conf d).
  change (common_cfg (set_prev_queue_select qid d)) with (common_cfg d).
  rewrite (proj2 (cget_Ret _ _ q)) by (split; [lia|done]). cbn [mbind cres_mbind].
  rewrite common_cfg_set, queue_shadow_load by (done || lia). done.
Qed.

(** The handler on a device at rest, after the delay: nothing is lost. *)
Lemma queue_select_handled s qid q : at_rest s -> 0 <= qid < DAO_VIRTIO_MAX_QUEUES ->
  queue_conf (s_dev s) !! Z.to_nat qid = Some q ->
  on_select (request qid) (host_set queue_select (request qid) (with_pend 3 s)) = Ret (selected qid q s).
Proof.
  intros [[Hc Hl] Hlen Hok Hpend Hidle Hwin] Hq Hconf.
  assert (conf_ok q) as Hqok by (by eapply Forall_lookup_1).
  pose proof Hq as Hq'. unfold DAO_VIRTIO_MAX_QUEUES in Hq'. destruct (request_queue qid) as [_ Hmask]; [lia|].
  unfold on_select, virtio_process_queue_select, host_set, with_pend. cbn [s_dev s_sh s_env]. rewrite Hmask.
  change (queue_select_pend _ <? VIRTIO_QUEUE_SELECT_DELAY) with false. cbv iota.
  assert (forall x, set_queue_select_pend 0 (set_common_cfg x (set_queue_select_pend 3 (s_dev s))) =
    set_common_cfg x (s_dev s)) as -> by (intros; destruct (s_dev s); cbn in Hpend; by subst).
  change (common_cfg (set_queue_select_pend 3 (s_dev s))) with (common_cfg (s_dev s)). rewrite Hc.
  set (C := fset queue_select (request qid) (s_sh s)). set (D := set_common_cfg C (s_dev s)).
  assert (length C = 8%nat) as HlC by (subst C; by rewrite length_fset).
  assert (fset queue_select qid (queue_load qid q C) = fset queue_select qid (queue_load qid q (s_sh s))) as HC
    by (subst C; by rewrite queue_load_comm, fset_fset).
  set (p := prev_queue_select (s_dev s)) in *. change (prev_queue_select D) with p.
  rewrite (proj2 (Z.leb_gt _ qid)) by apply Hq. cbn [orb].
  destruct Hwin as [Hinv|(q0 & Hp & Hq0 & Hshow)].
  - rewrite Hinv, Z.eqb_refl. cbn [negb andb].
    rewrite (proj2 (Z.eqb_neq VIRTIO_INVALID_QUEUE_INDEX qid)) by (unfold VIRTIO_INVALID_QUEUE_INDEX; lia).
    cbn [mbind cres_mbind]. rewrite (load_queue D (s_sh s) qid q) by done. cbn [mbind cres_mbind].
    change (common_cfg D) with C. rewrite common_cfg_set, HC. done.
  - assert (queue_save C q0 = q0) as Hsave by (by eapply queue_save_shown, shows_select).
    rewrite (proj2 (Z.leb_gt _ p)), andb_false_r by apply Hp.
    rewrite (proj2 (Z.eqb_neq p VIRTIO_INVALID_QUEUE_INDEX)) by (unfold DAO_VIRTIO_MAX_QUEUES, VIRTIO_INVALID_QUEUE_INDEX in *; lia).
    cbn [negb]. destruct (Z.eqb_spec p qid) as [Heq|Hne].
    + rewrite Heq, Hconf in Hq0. injection Hq0 as <-. rewrite Heq in Hshow. cbn [mbind cres_mbind].
      unfold selected. rewrite (queue_load_shown qid q (s_sh s)) in HC |- * by done.
      change (common_cfg D) with C. unfold C. rewrite fset_fset by done. subst D C. rewrite set_common_cfg_twice.
      do 3 f_equal. subst p. clear -Heq. destruct (s_dev s). cbn in Heq. by subst.
    + change (queue_conf D) with (queue_conf (s_dev s)). change (common_cfg D) with C.
      rewrite (proj2 (cget_Ret _ _ q0)) by (split; [apply Hp|done]). cbn [mbind cres_mbind].
      rewrite cset_in_range by (apply lookup_lt_Some in Hq0; destruct Hp; lia). cbn [mbind cres_mbind].
      rewrite Hsave, list_insert_id by done. rewrite (load_queue _ (s_sh s) qid q) by done. cbn [mbind cres_mbind].
      change (common_cfg (set_queue_conf (queue_conf (s_dev s)) D)) with C.
      rewrite common_cfg_set, HC. done.
Qed.

(** The fourth poll shows the queue. *)
Lemma select_done s qid q : at_rest s -> 0 <= qid < DAO_VIRTIO_MAX_QUEUES ->
  queue_conf (s_dev s) !! Z.to_nat qid = Some q ->
  sweep (host_set queue_select (request qid) (with_pend 3 s)) = Ret (selected qid q s).
Proof.
  intros Hr Hq Hconf. pose proof (ar_sync s Hr) as [_ Hl].
  apply select_poll; [apply Hr|done|apply Hr|by apply queue_select_handled|].
  apply in_sync_synced; [|lia..]. split; [done|]. cbn [selected s_sh]. by rewrite length_fset, length_queue_load.
Qed.

Lemma selected_at_rest s qid q : at_rest s -> 0 <= qid < DAO_VIRTIO_MAX_QUEUES ->
  queue_conf (s_dev s) !! Z.to_nat qid = Some q -> at_rest (selected qid q s).
Proof.
  intros [[Hc Hl] Hlen Hok Hpend Hidle Hwin] Hq Hconf. pose proof Hq as Hq'. unfold DAO_VIRTIO_MAX_QUEUES in Hq'.
  assert (conf_ok q) as Hqok by (by eapply Forall_lookup_1).
  split; cbn [selected s_dev s_sh]; try done.
  - split; [done|]. cbn [selected s_sh]. by rewrite length_fset, length_queue_load.
  - rewrite fget_fset by (done || rewrite length_queue_load, Hl; cbn; lia).
    rewrite land_small by (cbn; lia). unfold idle. by rewrite (proj2 (Z.ltb_lt qid 0x8000)) by lia.
  - right. exists q. split; [done|]. split; [done|]. apply shows_select, shows_load; [done|done|]. cbn. lia.
Qed.

(** The registers that are stored as they are, with the field of the queue's
    configuration each stands for. *)
Definition queue_regs : list (cfg_field * (Z -> virtio_queue_conf -> virtio_queue_conf)) :=
  [(queue_size, set_qc_size); (queue_msix_vector, set_qc_msix_vector);
   (queue_desc_lo, set_qc_desc_lo); (queue_desc_hi, set_qc_desc_hi);
   (queue_avail_lo, set_qc_avail_lo); (queue_avail_hi, set_qc_avail_hi);
   (queue_used_lo, set_qc_used_lo); (queue_used_hi, set_qc_used_hi)].

Lemma store_queue_selected d qid q g : prev_queue_select d = qid -> 0 <= qid < DAO_VIRTIO_MAX_QUEUES ->
  queue_conf d !! Z.to_nat qid = Some q ->
  store_queue d g = Ret (0, set_queue_conf (<[Z.to_nat qid := g q]> (queue_conf d)) d).
Proof.
  intros Hp Hq Hconf. unfold store_queue. rewrite Hp. unfold DAO_VIRTIO_MAX_QUEUES in *.
  rewrite (proj2 (Z.eqb_neq qid VIRTIO_INVALID_QUEUE_INDEX)) by (unfold VIRTIO_INVALID_QUEUE_INDEX; lia).
  rewrite (proj2 (Z.leb_gt 129 qid)) by lia. rewrite (proj2 (cget_Ret _ _ q)) by (split; [lia|done]). cbn [mbind cres_mbind].
  rewrite cset_in_range by (apply lookup_lt_Some in Hconf; lia). done.
Qed.

Lemma insert_shadow f x sh v : sh !! f_word f = Some v -> <[f_word f := word_set f x v]> sh = fset f x sh.
Proof.
  intros Hv. unfold fset. apply list_eq. intros k. destruct (decide (k = f_word f)) as [->|].
  - rewrite list_lookup_insert_eq, list_lookup_alter_eq, Hv by (by eapply lookup_lt_Some). done.
  - by rewrite list_lookup_insert_ne, list_lookup_alter_ne by done.
Qed.

(** The callback for a word in which one of these registers changed. *)
Lemma queue_reg_cb f g s x v : (f, g) ∈ queue_regs -> s_sh s !! f_word f = Some v -> length (s_sh s) = 8%nat ->
  Z.land x (Z.ones (f_len f)) = x -> x <> word_get f v ->
  dao_virtio_common_cfg_cb (Z.of_nat (f_word f)) (word_set f x v) v s =
    '(_, d) ← store_queue (s_dev s) (g x); Ret {| s_dev := d; s_sh := fset f x (s_sh s); s_env := s_env s |}.
Proof.
  intros Hin Hv Hl Hx Hne.
  assert (forall d, put_shadow (Z.of_nat (f_word f)) (word_set f x v) {| s_dev := d; s_sh := s_sh s; s_env := s_env s |} =
    Ret {| s_dev := d; s_sh := fset f x (s_sh s); s_env := s_env s |}) as Hput.
  { intros d. unfold put_shadow. cbn [s_sh]. rewrite cset_in_range by (apply lookup_lt_Some in Hv; lia).
    rewrite Nat2Z.id, insert_shadow by done. done. }
  unfold queue_regs in Hin.
  rewrite !elem_of_cons, elem_of_nil in Hin.
  destruct_or! Hin; try done; injection Hin as -> ->.
  all: match goal with |- context [Z.of_nat (f_word ?f)] =>
         let n := eval vm_compute in (Z.of_nat (f_word f)) in change (Z.of_nat (f_word f)) with n in *;
         cbn [dao_virtio_common_cfg_cb];
         rewrite ?(when_changed_false _ (word_set f x v) v) by (by rewrite word_get_set_ne);
         cbn [mbind cres_mbind]; rewrite ?(when_changed_true f), ?word_get_set, ?Hx by (rewrite ?word_get_set, ?Hx; done)
       end.
  all: unfold on_dev, virtio_process_queue_size, virtio_process_queue_msix_vector, virtio_process_queue_desc_lo,
    virtio_process_queue_desc_hi, virtio_process_queue_driver_lo, virtio_process_queue_driver_hi,
    virtio_process_queue_device_lo, virtio_process_queue_device_hi.
  all: match goal with |- context [store_queue ?d ?h ≫= _] => destruct (store_queue d h) as [[rc d']| |] end;
    [|done..]; cbn [mbind cres_mbind].
  all: rewrite ?when_changed_false by (by rewrite word_get_set_ne); cbn [mbind cres_mbind].
  all: unfold on_enable; rewrite ?(word_get_set_ne queue_enable), ?Z.eqb_refl by done; cbn [mbind cres_mbind];
    apply Hput.
Qed.

(** What the theorem below uses of each register. *)
Lemma queue_regs_ok f g q qid x c : (f, g) ∈ queue_regs -> length c = 8%nat -> conf_ok q -> 0 <= x < 2 ^ f_len f ->
  shows qid q c ->
  field_ok f = true /\ (f_word f < 8)%nat /\ 0 <= Z.of_nat (f_word f) /\ conf_ok (g x q) /\ shows qid (g x q) (fset f x c) /\
  fget queue_select (fset f x c) = fget queue_select c.
Proof.
  intros Hin Hl [] Hx []. unfold queue_regs in Hin. rewrite !elem_of_cons, elem_of_nil in Hin.
  destruct_or! Hin; try done; injection Hin as -> ->; cbn [f_len] in Hx; (split; [done|]); (split; [cbn; lia|]); (split; [cbn; lia|]).
  all: split; [split; done|]; split; [|by autorewrite with cfg].
  all: split; autorewrite with cfg; try done; rewrite fget_fset by (done || cbn; lia); apply land_small; [cbn; lia|exact Hx].
Qed.

Lemma queue_regs_same f g q qid x c : (f, g) ∈ queue_regs -> shows qid q c -> x = fget f c -> g x q = q.
Proof.
  intros Hin [] ->. unfold queue_regs in Hin. rewrite !elem_of_cons, elem_of_nil in Hin.
  destruct_or! Hin; try done; injection Hin as -> ->; destruct q; cbn -[fget] in *; by subst.
Qed.

(** The queue registers of the selected queue. On a device at rest with
    queue [qid] selected, a host write of [x] to one of its registers is, after
    one poll, stored in that field of the configuration of queue [qid] and
    nowhere else, and the device is at rest again. *)
Lemma queue_register_stores f g s qid q x : (f, g) ∈ queue_regs -> at_rest s ->
  prev_queue_select (s_dev s) = qid -> qid <> VIRTIO_INVALID_QUEUE_INDEX ->
  queue_conf (s_dev s) !! Z.to_nat qid = Some q -> 0 <= x < 2 ^ f_len f ->
  exists s', sweep (host_set f x s) = Ret s' /\ at_rest s' /\
    s_dev s' = set_common_cfg (fset f x (common_cfg (s_dev s)))
      (set_queue_conf (<[Z.to_nat qid := g x q]> (queue_conf (s_dev s))) (s_dev s)) /\
    s_env s' = s_env s.
Proof.
  intros Hin [Hs Hlen Hok Hpend Hidle Hwin] Hp Hinv Hconf Hx. pose proof Hs as [Hc Hl].
  destruct Hwin as [|(q0 & Hq & Hq0 & Hshow)]; [congruence|]. rewrite Hp in Hq, Hq0, Hshow.
  rewrite Hconf in Hq0. injection Hq0 as <-. assert (conf_ok q) as Hqok by (by eapply Forall_lookup_1).
  destruct (queue_regs_ok f g q qid x (s_sh s) Hin Hl Hqok Hx Hshow) as (Hf & Hw & Hfok & Hconf' & Hshow' & Hqs).
  set (s' := {| s_dev := set_common_cfg (fset f x (common_cfg (s_dev s)))
    (set_queue_conf (<[Z.to_nat qid := g x q]> (queue_conf (s_dev s))) (s_dev s));
    s_sh := fset f x (s_sh s); s_env := s_env s |}).
  assert (in_sync s') as Hsync by (split; cbn [s' s_dev s_sh]; [by rewrite common_cfg_set, Hc|by rewrite length_fset]).
  assert (at_rest s') as Hrest.
  { pose proof (lookup_lt_Some _ _ _ Hconf). split; cbn [s' s_dev s_sh]; try done.
    - cbn. by rewrite length_insert.
    - apply Forall_insert; [done|done].
    - by rewrite Hqs.
    - right. exists (g x q). change (prev_queue_select _) with (prev_queue_select (s_dev s)). rewrite Hp.
      split; [done|]. split; [|done]. by apply list_lookup_insert_eq. }
  exists s'. split; [|done].
  destruct (decide (x = fget f (s_sh s))) as [Heq|Hne].
  - assert (g x q = q) as Hg by (by apply (queue_regs_same f g q qid x (s_sh s))).
    assert (s' = s) as ->; [|rewrite Heq, host_set_same by done; by apply sweep_in_sync].
    unfold s'. rewrite Hg, list_insert_id, Hc, Heq, fset_fget by done. destruct s as [[] sh env]. cbn in *. by subst.
  - apply sweep_host_set; [done|done| |by apply in_sync_synced; [|lia..]].
    intros v Hv. rewrite (fget_word _ _ v) in Hne by done.
    assert (Z.land x (Z.ones (f_len f)) = x) as Hmask by (apply land_small; [by apply andb_true_iff in Hf as [_ ?%Z.leb_le]|done]).
    split; [apply word_set_changes; [done|congruence]|].
    rewrite (queue_reg_cb f g) by done. unfold host_set. cbn [s_dev s_sh s_env].
    rewrite (store_queue_selected _ qid q) by done. done.
Qed.

(** ** Enabling a queue *)

Lemma conf_pending_eq d qid q : prev_queue_select d = qid -> 0 <= qid < DAO_VIRTIO_MAX_QUEUES ->
  queue_conf d !! Z.to_nat qid = Some q ->
  virtio_queue_conf_pending d = Ret (
    negb (qc_msix_vector q =? fget queue_msix_vector (common_cfg d)) ||
    negb (qc_desc_lo q =? fget queue_desc_lo (common_cfg d)) ||
    negb (qc_desc_hi q =? fget queue_desc_hi (common_cfg d)) ||
    negb (qc_used_lo q =? fget queue_used_lo (common_cfg d)) ||
    negb (qc_used_hi q =? fget queue_used_hi (common_cfg d)) ||
    negb (qc_avail_lo q =? fget queue_avail_lo (common_cfg d)) ||
    negb (qc_avail_hi q =? fget queue_avail_hi (common_cfg d)) ||
    negb (qc_size q =? fget queue_size (common_cfg d))).
Proof.
  intros Hp Hq Hconf. unfold virtio_queue_conf_pending. rewrite Hp. unfold DAO_VIRTIO_MAX_QUEUES in *.
  rewrite (proj2 (Z.eqb_neq qid VIRTIO_INVALID_QUEUE_INDEX)) by (unfold VIRTIO_INVALID_QUEUE_INDEX; lia).
  rewrite (proj2 (Z.leb_gt 129 qid)) by lia. by rewrite (proj2 (cget_Ret _ _ q)) by (split; [lia|done]).
Qed.

(** Only [queue_enable] differs: nothing is pending. *)
Lemma conf_not_pending d qid q y c : prev_queue_select d = qid -> 0 <= qid < DAO_VIRTIO_MAX_QUEUES ->
  queue_conf d !! Z.to_nat qid = Some q -> common_cfg d = fset queue_enable y c -> shows qid q c ->
  virtio_queue_conf_pending d = Ret false.
Proof.
  intros Hp Hq Hconf Hc []. rewrite (conf_pending_eq d qid q), Hc by done. autorewrite with cfg.
  rewrite sh_size0, sh_msix_vector0, sh_desc_lo0, sh_desc_hi0, sh_avail_lo0, sh_avail_hi0, sh_used_lo0, sh_used_hi0.
  by rewrite !Z.eqb_refl.
Qed.

(** Another register differs too. *)
Lemma conf_pending d qid q f g x y c : (f, g) ∈ queue_regs -> prev_queue_select d = qid ->
  0 <= qid < DAO_VIRTIO_MAX_QUEUES -> queue_conf d !! Z.to_nat qid = Some q ->
  length c = 8%nat -> 0 <= x < 2 ^ f_len f -> shows qid q c -> x <> fget f c ->
  common_cfg d = fset queue_enable y (fset f x c) -> virtio_queue_conf_pending d = Ret true.
Proof.
  intros Hin Hp Hq Hconf Hl Hx [] Hne Hc. rewrite (conf_pending_eq d qid q), Hc by done. clear Hc.
  assert (Z.land x (Z.ones (f_len f)) = x) as Hm.
  { apply land_small; [|done]. destruct (decide (0 <= f_len f)); [done|]. rewrite Z.pow_neg_r in Hx; lia. }
  unfold queue_regs in Hin. rewrite !elem_of_cons, elem_of_nil in Hin.
  destruct_or! Hin; try done; injection Hin as -> ->; autorewrite with cfg;
    rewrite fget_fset, Hm by (done || cbn; lia).
  all: match goal with Hn : ?z <> _ |- context [?a =? ?z] => rewrite (proj2 (Z.eqb_neq a z)) by congruence end;
    cbn [negb]; by rewrite ?orb_true_r.
Qed.

(** The callback for a word 3 in which only [queue_enable] changed to 1:
    while something is pending it does nothing. *)
Lemma enable_deferred s v : word_get queue_enable v <> 1 ->
  virtio_queue_conf_pending (s_dev s) = Ret true ->
  dao_virtio_common_cfg_cb 3 (word_set queue_enable 1 v) v s = Ret s.
Proof.
  intros Hv Hp. cbn [dao_virtio_common_cfg_cb].
  rewrite when_changed_false by (by rewrite word_get_set_ne). cbn [mbind cres_mbind].
  rewrite when_changed_false by (by rewrite word_get_set_ne). cbn [mbind cres_mbind].
  unfold on_enable. rewrite word_get_set by done. change (Z.land 1 (Z.ones (f_len queue_enable))) with 1.
  rewrite (proj2 (Z.eqb_neq 1 _)), Hp by done. done.
Qed.

(** Otherwise it enables the queue; a datapath queue is handed to the device
    type. *)
Lemma enable_now s v qid q : word_get queue_enable v <> 1 -> s_sh s !! 3%nat = Some v ->
  prev_queue_select (s_dev s) = qid -> 0 <= qid < DAO_VIRTIO_MAX_QUEUES ->
  queue_conf (s_dev s) !! Z.to_nat qid = Some q ->
  virtio_queue_conf_pending (s_dev s) = Ret false ->
  features_ok (device_state (s_dev s)) = true ->
  u16 (cb_cq_id_get (s_dev s) (feature_bits (s_dev s)) (s_env s)) <> qid ->
  let d := set_queue_conf (<[Z.to_nat qid := set_qc_enable 1 q]> (queue_conf (s_dev s))) (s_dev s) in
  dao_virtio_common_cfg_cb 3 (word_set queue_enable 1 v) v s =
    Ret {| s_dev := d; s_sh := fset queue_enable 1 (s_sh s); s_env := cb_queue_enable d qid (s_env s) |}.
Proof.
  intros Hv Hsh Hprev Hq Hconf Hp Hfeat Hcq d. cbn [dao_virtio_common_cfg_cb].
  rewrite when_changed_false by (by rewrite word_get_set_ne). cbn [mbind cres_mbind].
  rewrite when_changed_false by (by rewrite word_get_set_ne). cbn [mbind cres_mbind].
  unfold on_enable. rewrite word_get_set by done. change (Z.land 1 (Z.ones (f_len queue_enable))) with 1.
  rewrite (proj2 (Z.eqb_neq 1 _)), Hp by done. cbn [mbind cres_mbind andb Z.eqb negb].
  unfold virtio_process_queue_enable. rewrite (store_queue_selected _ qid q) by done. cbn [mbind cres_mbind].
  change (0 <? 0) with false. cbv iota. rewrite Hprev.
  rewrite (proj2 (Z.eqb_neq qid _)), andb_false_r by congruence. cbn [andb mbind cres_mbind].
  fold d. change (device_state d) with (device_state (s_dev s)). rewrite Hfeat. cbn [andb negb Z.eqb].
  unfold put_shadow. cbn [s_sh s_dev s_env]. rewrite cset_in_range by (apply lookup_lt_Some in Hsh; lia).
  cbn [mbind cres_mbind]. change (Z.to_nat 3) with (f_word queue_enable). by rewrite insert_shadow.
Qed.

(** The host writes 1 to [queue_enable] of a device at rest. *)
Lemma enable_poll s qid q : at_rest s -> prev_queue_select (s_dev s) = qid -> qid <> VIRTIO_INVALID_QUEUE_INDEX ->
  queue_conf (s_dev s) !! Z.to_nat qid = Some q -> qc_enable q = 0 ->
  features_ok (device_state (s_dev s)) = true ->
  (forall d, u16 (cb_cq_id_get d (feature_bits (s_dev s)) (s_env s)) <> qid) ->
  exists s2 d, sweep (host_set queue_enable 1 s) = Ret s2 /\ at_rest s2 /\
    queue_conf (s_dev s2) = <[Z.to_nat qid := set_qc_enable 1 q]> (queue_conf (s_dev s)) /\
    queue_conf d = queue_conf (s_dev s2) /\ s_env s2 = cb_queue_enable d qid (s_env s).
Proof.
  intros [Hs Hlen Hok Hpend Hidle Hwin] Hp Hinv Hconf Hen Hfeat Hcq. pose proof Hs as [Hc Hl].
  destruct Hwin as [|(q0 & Hq & Hq0 & Hshow)]; [congruence|]. rewrite Hp in Hq, Hq0, Hshow.
  rewrite Hconf in Hq0. injection Hq0 as <-. assert (conf_ok q) as Hqok by (by eapply Forall_lookup_1).
  set (c := fset queue_enable 1 (s_sh s)).
  set (d := set_queue_conf (<[Z.to_nat qid := set_qc_enable 1 q]> (queue_conf (s_dev s))) (set_common_cfg c (s_dev s))).
  set (s2 := {| s_dev := d; s_sh := c; s_env := cb_queue_enable d qid (s_env s) |}).
  assert (in_sync s2) as Hsync by (split; [done|]; cbn [s2 s_sh]; subst c; by rewrite length_fset).
  pose proof (lookup_lt_Some _ _ _ Hconf).
  exists s2, d. split; [|split; [|done]].
  - apply sweep_host_set; [done|cbn; lia| |by apply in_sync_synced; [|cbn; lia..]].
    intros v Hv. assert (word_get queue_enable v = 0) as Hv0
      by (rewrite <- Hen, <- (sh_enable _ _ _ Hshow); symmetry; by apply fget_word).
    split; [apply word_set_changes; [done|]; rewrite Hv0; done|].
    assert (host_set queue_enable 1 s = {| s_dev := set_common_cfg c (s_dev s); s_sh := s_sh s; s_env := s_env s |}) as ->
      by (unfold host_set; by rewrite Hc).
    change (Z.of_nat (f_word queue_enable)) with 3.
    rewrite (enable_now _ v qid q); [done|by rewrite Hv0|done..| |done|apply Hcq].
    by apply (conf_not_pending _ qid q 1 (s_sh s)).
  - split; cbn [s2 s_dev s_sh]; try done.
    + cbn. by rewrite length_insert.
    + apply Forall_insert; [done|]. destruct Hqok. split; done.
    + subst c. by autorewrite with cfg.
    + right. exists (set_qc_enable 1 q). change (prev_queue_select d) with (prev_queue_select (s_dev s)). rewrite Hp.
      split; [done|]. split; [by apply list_lookup_insert_eq|].
      subst c. destruct Hshow. split; autorewrite with cfg; try done. by rewrite fget_fset by (done || cbn; lia).
Qed.

(** The first poll after both writes only stores the register. *)
Lemma enable_deferred_poll f g s s' qid q x :
  (f, g) ∈ queue_regs -> (4 <= f_word f)%nat -> 0 <= x < 2 ^ f_len f -> x <> fget f (s_sh s) ->
  at_rest s -> prev_queue_select (s_dev s) = qid -> qid <> VIRTIO_INVALID_QUEUE_INDEX ->
  queue_conf (s_dev s) !! Z.to_nat qid = Some q -> qc_enable q = 0 -> in_sync s' -> s_env s' = s_env s ->
  s_dev s' = set_common_cfg (fset f x (common_cfg (s_dev s)))
      (set_queue_conf (<[Z.to_nat qid := g x q]> (queue_conf (s_dev s))) (s_dev s)) ->
  sweep (host_set queue_enable 1 (host_set f x s)) = Ret (host_set queue_enable 1 s').
Proof.
  intros Hin Hk Hx Hne [Hs Hlen Hok Hpend Hidle Hwin] Hp Hinv Hconf Hen Hs' Henv Hdev. pose proof Hs as [Hc Hl].
  destruct Hwin as [|(q0 & Hq & Hq0 & Hshow)]; [congruence|]. rewrite Hp in Hq, Hq0, Hshow.
  rewrite Hconf in Hq0. injection Hq0 as <-. assert (conf_ok q) as Hqok by (by eapply Forall_lookup_1).
  destruct (queue_regs_ok f g q qid x (s_sh s) Hin Hl Hqok Hx Hshow) as (Hf & Hw & _).
  destruct (lookup_lt_is_Some_2 (s_sh s) 3) as [v3 Hv3]; [lia|].
  destruct (lookup_lt_is_Some_2 (s_sh s) (f_word f)) as [vk Hvk]; [lia|].
  assert (word_get queue_enable v3 = 0) as Hv0
    by (rewrite <- Hen, <- (sh_enable _ _ _ Hshow); symmetry; by apply fget_word).
  rewrite (fget_word _ _ vk) in Hne by done.
  assert (Z.land x (Z.ones (f_len f)) = x) as Hm by (apply land_small; [by apply andb_true_iff in Hf as [_ ?%Z.leb_le]|done]).
  set (s0 := host_set queue_enable 1 (host_set f x s)).
  assert (common_cfg (s_dev s0) = fset queue_enable 1 (fset f x (s_sh s))) as Hc0 by (cbn; by rewrite Hc).
  assert (forall i, i <> 3%nat -> i <> f_word f -> common_cfg (s_dev s0) !! i = s_sh s !! i) as Hother.
  { intros i Hi3 Hik. rewrite Hc0. unfold fset. by rewrite !list_lookup_alter_ne by (done || cbn; lia). }
  assert (forall a b, 0 <= a -> b <= 8 -> ~ (a <= 3 < b) -> ~ (a <= Z.of_nat (f_word f) < b) -> synced a b s0) as Hsy.
  { intros a b Ha Hb H3 Hkk i Hi. destruct (in_sync_synced a b s Hs Ha Hb i Hi) as (u & _ & Hu).
    exists u. rewrite Hother by lia. done. }
  apply (sweep_two 3 (Z.of_nat (f_word f)) s0 _ (word_set queue_enable 1 v3) v3 (word_set f x vk) vk);
    rewrite ?Nat2Z.id; try done; try lia.
  - apply Hsy; lia.
  - apply Hsy; lia.
  - rewrite Hc0. unfold fset. change (Z.to_nat 3) with (f_word queue_enable).
    rewrite list_lookup_alter_eq, list_lookup_alter_ne by (cbn; lia).
    by rewrite (Hv3 : s_sh s !! f_word queue_enable = _).
  - apply word_set_changes; [done|]. by rewrite Hv0.
  - apply enable_deferred; [by rewrite Hv0|]. by apply (conf_pending _ qid q f g x 1 (s_sh s)); rewrite ?(fget_word _ _ vk).
  - rewrite Hc0. unfold fset. rewrite list_lookup_alter_ne by (cbn; lia). rewrite list_lookup_alter_eq, Hvk. done.
  - apply word_set_changes; [done|congruence].
  - rewrite (queue_reg_cb f g) by done. rewrite (store_queue_selected _ qid q) by done. cbn [mbind cres_mbind].
    f_equal. destruct Hs' as [Hc' _]. unfold host_set at 1. rewrite <- Hc', Hdev, Henv. cbn [s_dev]. rewrite common_cfg_set, Hc.
    unfold s0, host_set. cbn [s_dev s_env]. rewrite Hc. done.
  - apply host_set_synced; [done|lia|lia|cbn; lia].
Qed.

(** The shadow behind the callback for word 3 does not depend on that word. *)
Lemma enable_word_shadow val v v' d sh sh' (e : E) : word_get queue_enable v = word_get queue_enable v' ->
  virtio_queue_conf_pending d = Ret false -> length sh = length sh' -> <[3%nat := val]> sh = <[3%nat := val]> sh' ->
  ('(u, s) ← on_enable val v {| s_dev := d; s_sh := sh; s_env := e |}; if (u : bool) then put_shadow 3 val s else Ret s) =
  ('(u, s) ← on_enable val v' {| s_dev := d; s_sh := sh'; s_env := e |}; if (u : bool) then put_shadow 3 val s else Ret s).
Proof.
  intros Hv Hp Hl Hsh. unfold on_enable. rewrite Hv. cbn [s_dev s_env s_sh].
  assert (forall d (e : E), put_shadow 3 val {| s_dev := d; s_sh := sh; s_env := e |} = put_shadow 3 val {| s_dev := d; s_sh := sh'; s_env := e |}) as Hput.
  { intros. unfold put_shadow, cset. cbn [s_sh]. rewrite Hl. case_match; [|done]. change (Z.to_nat 3) with 3%nat. by rewrite Hsh. }
  destruct (word_get queue_enable val =? _); cbn [mbind cres_mbind]; [apply Hput|]. rewrite Hp. cbn [mbind cres_mbind andb].
  destruct (virtio_process_queue_enable d e _) as [[[rc d'] e']| |]; cbn [mbind cres_mbind]; [apply Hput|done..].
Qed.

(** A register of the word of [queue_enable] is stored before [queue_enable]
    is looked at. *)
Lemma enable_same_word f g s s' qid q x :
  (f, g) ∈ queue_regs -> f_word f = 3%nat -> 0 <= x < 2 ^ f_len f -> x <> fget f (s_sh s) ->
  at_rest s -> prev_queue_select (s_dev s) = qid -> qid <> VIRTIO_INVALID_QUEUE_INDEX ->
  queue_conf (s_dev s) !! Z.to_nat qid = Some q -> qc_enable q = 0 -> in_sync s' -> s_env s' = s_env s ->
  s_dev s' = set_common_cfg (fset f x (common_cfg (s_dev s)))
      (set_queue_conf (<[Z.to_nat qid := g x q]> (queue_conf (s_dev s))) (s_dev s)) ->
  forall v, s_sh s !! 3%nat = Some v ->
  dao_virtio_common_cfg_cb 3 (word_set queue_enable 1 (word_set f x v)) v (host_set queue_enable 1 (host_set f x s)) =
  dao_virtio_common_cfg_cb 3 (word_set queue_enable 1 (word_set f x v)) (word_set f x v) (host_set queue_enable 1 s').
Proof.
  intros Hin Hf3 Hx Hne [Hs Hlen Hok Hpend Hidle Hwin] Hp Hinv Hconf Hen Hs' Henv Hdev v Hv3. pose proof Hs as [Hc Hl].
  destruct Hwin as [|(q0 & Hq & Hq0 & Hshow)]; [congruence|]. rewrite Hp in Hq, Hq0, Hshow.
  rewrite Hconf in Hq0. injection Hq0 as <-. assert (conf_ok q) as Hqok by (by eapply Forall_lookup_1).
  destruct (queue_regs_ok f g q qid x (s_sh s) Hin Hl Hqok Hx Hshow) as (Hf & _ & _ & _ & Hshow' & _).
  assert (Z.land x (Z.ones (f_len f)) = x) as Hm by (apply land_small; [by apply andb_true_iff in Hf as [_ ?%Z.leb_le]|done]).
  assert (s_sh s' = fset f x (s_sh s)) as Hsh'.
  { destruct Hs' as [<- _]. rewrite Hdev. cbn. by rewrite Hc. }
  rewrite (fget_word _ _ v) in Hne by (by rewrite Hf3).
  set (val := word_set queue_enable 1 (word_set f x v)).
  set (d := set_common_cfg (fset queue_enable 1 (fset f x (common_cfg (s_dev s))))
    (set_queue_conf (<[Z.to_nat qid := g x q]> (queue_conf (s_dev s))) (s_dev s))).
  assert (forall f', f' = queue_size \/ f' = queue_msix_vector -> word_get f' val = word_get f' (word_set f x v)) as Hval
    by (intros f' [-> | ->]; by apply word_get_set_ne).
  assert (s_dev (host_set queue_enable 1 s') = d) as Hd' by (cbn; by rewrite Hdev).
  assert (virtio_queue_conf_pending d = Ret false) as Hnp.
  { apply (conf_not_pending d qid (g x q) 1 (fset f x (s_sh s))); [done|done| |cbn; by rewrite Hc|done].
    cbn. apply list_lookup_insert_eq. by eapply lookup_lt_Some. }
  assert (word_get queue_enable (word_set f x v) = word_get queue_enable v) as Hwe.
  { unfold queue_regs in Hin. rewrite !elem_of_cons, elem_of_nil in Hin.
    destruct_or! Hin; try done; injection Hin as -> ->; by apply word_get_set_ne || done. }
  transitivity ('(u, t) ← on_enable val v {| s_dev := d; s_sh := s_sh s; s_env := s_env s |}; if (u : bool) then put_shadow 3 val t else Ret t).
  - cbn [dao_virtio_common_cfg_cb]. unfold queue_regs in Hin. rewrite !elem_of_cons, elem_of_nil in Hin.
    destruct_or! Hin; try done; injection Hin as -> ->; try done.
    + rewrite when_changed_true by (rewrite Hval by auto; rewrite word_get_set, Hm by done; done).
      rewrite Hval by auto. rewrite word_get_set, Hm by done. unfold on_dev, virtio_process_queue_size.
      rewrite (store_queue_selected _ qid q) by done. cbn [mbind cres_mbind].
      rewrite when_changed_false by (rewrite Hval by auto; by rewrite word_get_set_ne). done.
    + rewrite when_changed_false by (rewrite Hval by auto; by rewrite word_get_set_ne). cbn [mbind cres_mbind].
      rewrite when_changed_true by (rewrite Hval by auto; rewrite word_get_set, Hm by done; done).
      rewrite Hval by auto. rewrite word_get_set, Hm by done. unfold on_dev, virtio_process_queue_msix_vector.
      rewrite (store_queue_selected _ qid q) by done. done.
  - cbn [dao_virtio_common_cfg_cb]. rewrite !when_changed_false by (apply Hval; auto). cbn [mbind cres_mbind].
    rewrite !when_changed_false by (apply Hval; auto). cbn [mbind cres_mbind].
    replace (host_set queue_enable 1 s') with {| s_dev := d; s_sh := s_sh s'; s_env := s_env s |} by (unfold host_set; rewrite <- Hd', Henv; done).
    apply enable_word_shadow; [done|done|by rewrite Hsh', length_fset|].
    rewrite Hsh'. unfold fset. rewrite Hf3. apply list_eq. intros k. destruct (decide (k = 3%nat)) as [->|].
    + rewrite !list_lookup_insert_eq by (rewrite ?length_alter; lia). done.
    + by rewrite !list_lookup_insert_ne, list_lookup_alter_ne by done.
Qed.

(** A sweep from the first word that has changed. *)
Lemma sweep_at k s val shd : 0 <= k < 8 -> synced 0 k s -> common_cfg (s_dev s) !! Z.to_nat k = Some val ->
  s_sh s !! Z.to_nat k = Some shd -> val <> shd ->
  sweep s = s ← dao_virtio_common_cfg_cb k val shd s; sweep_from (7 - Z.to_nat k) (k + 1) s.
Proof.
  intros Hk Hlow Hval Hshd Hne. unfold sweep.
  replace 8%nat with (Z.to_nat k + S (7 - Z.to_nat k))%nat by lia. rewrite sweep_from_app.
  rewrite sweep_from_synced; [|lia|intros j Hj; apply Hlow; lia]. cbn [mbind cres_mbind].
  rewrite Z.add_0_l, Z2Nat.id by lia. cbn [sweep_from]. rewrite Hval, (proj2 (cget_Ret _ _ shd)) by (split; [lia|done]).
  cbn [mbind cres_mbind default from_option id]. by rewrite (proj2 (Z.eqb_neq _ _) Hne).
Qed.

Lemma enable_same_word_poll f g s s' qid q x :
  (f, g) ∈ queue_regs -> f_word f = 3%nat -> 0 <= x < 2 ^ f_len f -> x <> fget f (s_sh s) ->
  at_rest s -> prev_queue_select (s_dev s) = qid -> qid <> VIRTIO_INVALID_QUEUE_INDEX ->
  queue_conf (s_dev s) !! Z.to_nat qid = Some q -> qc_enable q = 0 -> in_sync s' -> s_env s' = s_env s ->
  s_dev s' = set_common_cfg (fset f x (common_cfg (s_dev s)))
      (set_queue_conf (<[Z.to_nat qid := g x q]> (queue_conf (s_dev s))) (s_dev s)) ->
  sweep (host_set queue_enable 1 (host_set f x s)) = sweep (host_set queue_enable 1 s').
Proof.
  intros Hin Hf3 Hx Hne Hr Hp Hinv Hconf Hen Hs' Henv Hdev. pose proof (ar_sync s Hr) as Hs. pose proof Hs as [Hc Hl].
  destruct (lookup_lt_is_Some_2 (s_sh s) 3) as [v Hv]; [lia|].
  pose proof (enable_same_word f g s s' qid q x Hin Hf3 Hx Hne Hr Hp Hinv Hconf Hen Hs' Henv Hdev v Hv) as Hcb.
  assert (s_sh s' = fset f x (s_sh s)) as Hsh' by (destruct Hs' as [<- _]; rewrite Hdev; cbn; by rewrite Hc).
  assert (Z.land x (Z.ones (f_len f)) = x) as Hm.
  { apply land_small; [|done]. destruct (decide (0 <= f_len f)); [done|]. rewrite Z.pow_neg_r in Hx; lia. }
  rewrite (fget_word _ _ v) in Hne by (by rewrite Hf3).
  assert (field_ok f = true /\ apart queue_enable f = true /\ apart f queue_enable = true) as (Hf & Ha & Ha').
  { unfold queue_regs in Hin. rewrite !elem_of_cons, elem_of_nil in Hin. by destruct_or! Hin; try done; injection Hin as -> ->. }
  assert (word_get queue_enable v = 0) as Hv0.
  { destruct (ar_window s Hr) as [|(q0 & _ & Hq0 & Hshow)]; [congruence|]. rewrite Hp, Hconf in Hq0. injection Hq0 as <-.
    rewrite <- Hen, <- (sh_enable _ _ _ Hshow). symmetry. by apply fget_word. }
  assert (word_get queue_enable (word_set f x v) = 0) as Hv0' by (by rewrite word_get_set_ne).
  rewrite (sweep_at 3 (host_set queue_enable 1 (host_set f x s)) (word_set queue_enable 1 (word_set f x v)) v); try lia.
  - rewrite (sweep_at 3 (host_set queue_enable 1 s') (word_set queue_enable 1 (word_set f x v)) (word_set f x v)); try lia.
    + by rewrite Hcb.
    + apply host_set_synced; [done|lia|lia|cbn; lia].
    + cbn. rewrite Hdev. cbn. unfold fset. rewrite Hf3. change (f_word queue_enable) with 3%nat. rewrite !list_lookup_alter_eq, Hc, Hv. done.
    + cbn [host_set s_sh]. rewrite Hsh'. unfold fset. rewrite Hf3. change (Z.to_nat 3) with 3%nat. by rewrite list_lookup_alter_eq, Hv.
    + apply word_set_changes; [done|]. by rewrite Hv0'.
  - intros i Hi. destruct (in_sync_synced 0 3 s Hs ltac:(lia) ltac:(lia) i Hi) as (u & Hu & Hu').
    exists u. cbn. unfold fset. rewrite Hf3. change (f_word queue_enable) with 3%nat. by rewrite !list_lookup_alter_ne by lia.
  - cbn. unfold fset. rewrite Hf3. change (f_word queue_enable) with 3%nat. rewrite !list_lookup_alter_eq, Hc, Hv. done.
  - done.
  - intros E0. apply Hne. rewrite <- E0. rewrite word_get_set_ne by done. by rewrite word_get_set, Hm.
Qed.

(** The two writes can come in either order. *)
Lemma host_writes_commute f g x s : (f, g) ∈ queue_regs ->
  host_set f x (host_set queue_enable 1 s) = host_set queue_enable 1 (host_set f x s).
Proof.
  intros Hin. unfold host_set. cbn [s_dev s_sh s_env]. rewrite !common_cfg_set, !set_common_cfg_twice. do 2 f_equal.
  unfold queue_regs in Hin. rewrite !elem_of_cons, elem_of_nil in Hin. destruct_or! Hin; try done; injection Hin as -> ->; by apply fset_comm.
Qed.

(** C22. A queue is enabled with its whole configuration. On a device at rest
    whose features are negotiated, with the disabled datapath queue [qid]
    selected, the host writes a new value to one of the queue's registers and
    1 to [queue_enable], in either order, before the device polls. For an
    address register the first poll stores it and does not enable the queue,
    and the second one enables it; the size and the vector, which share the
    word of [queue_enable], are stored and the queue is enabled in one poll.
    Either way the device type's callback for the queue is called once, with
    the configuration that holds both values, and the device is at rest
    again. *)
Theorem enable_waits_for_config f g s w qid q x :
  (f, g) ∈ queue_regs -> 0 <= x < 2 ^ f_len f -> x <> fget f (s_sh s) ->
  at_rest s -> prev_queue_select (s_dev s) = qid -> qid <> VIRTIO_INVALID_QUEUE_INDEX ->
  queue_conf (s_dev s) !! Z.to_nat qid = Some q -> qc_enable q = 0 ->
  features_ok (device_state (s_dev s)) = true ->
  (forall d, u16 (cb_cq_id_get d (feature_bits (s_dev s)) (s_env s)) <> qid) ->
  w = host_set queue_enable 1 (host_set f x s) \/ w = host_set f x (host_set queue_enable 1 s) ->
  exists s2,
    (if (f_word f =? 3)%nat then sweep w = Ret s2
     else exists s1, sweep w = Ret s1 /\ sweep s1 = Ret s2 /\
       queue_conf (s_dev s1) = <[Z.to_nat qid := g x q]> (queue_conf (s_dev s)) /\ s_env s1 = s_env s) /\
    queue_conf (s_dev s2) = <[Z.to_nat qid := set_qc_enable 1 (g x q)]> (queue_conf (s_dev s)) /\
    at_rest s2 /\
    exists d, queue_conf d = queue_conf (s_dev s2) /\ s_env s2 = cb_queue_enable d qid (s_env s).
Proof.
  intros Hin Hx Hne Hr Hp Hinv Hconf Hen Hfeat Hcq Hw. rewrite (host_writes_commute f g) in Hw by done.
  assert (w = host_set queue_enable 1 (host_set f x s)) as -> by (by destruct Hw). clear Hw.
  destruct (queue_register_stores f g s qid q x) as (s' & Hsw & Hr' & Hdev & Henv); [done..|].
  destruct (enable_poll s' qid (g x q)) as (s2 & d & Hsw2 & Hr2 & Hq2 & Hd & Henv2); try done; rewrite ?Hdev, ?Henv; try done.
  { apply list_lookup_insert_eq. by eapply lookup_lt_Some. }
  { unfold queue_regs in Hin. rewrite !elem_of_cons, elem_of_nil in Hin. by destruct_or! Hin; try done; injection Hin as -> ->. }
  exists s2. rewrite Hq2, Hdev. cbn [queue_conf set_common_cfg set_queue_conf]. rewrite list_insert_insert_eq. split.
  - destruct (Nat.eqb_spec (f_word f) 3) as [H3|H3].
    + rewrite <- Hsw2. by apply (enable_same_word_poll f g s s' qid q x); [..|apply Hr'|done|done].
    + exists (host_set queue_enable 1 s'). split; [|split; [done|split; [cbn; by rewrite Hdev|done]]].
      eapply enable_deferred_poll; [done|..|apply Hr'|done|done]; try done.
      unfold queue_regs in Hin. rewrite !elem_of_cons, elem_of_nil in Hin. destruct_or! Hin; try done; injection Hin as -> ->; cbn in *; lia.
  - split; [done|]. split; [done|]. exists d. rewrite Hd, Hq2, Hdev, Henv2, Henv. cbn. by rewrite list_insert_insert_eq.
Qed.
End window.

(** ** Device status *)

Section status.
Context {E : Type} `{VirtioEnv E}.
Implicit Types s : vst E.

(** A poll that sees a new device status. *)
Lemma status_poll s st s' : in_sync s -> is_u8 st -> st <> fget device_status (s_sh s) ->
  on_status st (host_set device_status st s) = Ret s' -> synced 3 8 s' ->
  sweep (host_set device_status st s) = Ret s'.
Proof.
  intros Hs Hst Hne Hon Hsync.
  assert (Z.land st (Z.ones 8) = st) as Hmask by (apply land_small; [lia|exact Hst]).
  apply sweep_host_set; [done|cbn; lia| |done].
  intros v Hv. rewrite (fget_word _ _ v) in Hne by done.
  assert (word_get device_status (word_set device_status st v) = st) as Hg by (by rewrite word_get_set).
  split; [apply word_set_changes; [done|]; change (f_len device_status) with 8; congruence|].
  change (Z.of_nat (f_word device_status)) with 2. cbn [dao_virtio_common_cfg_cb].
  rewrite when_changed_true, Hg, Hon by congruence. cbn [mbind cres_mbind].
  by rewrite when_changed_false by (by rewrite word_get_set_ne).
Qed.

(** The feature bits the driver has written. *)
Definition driver_features (d : virtio_dev) : Z :=
  Z.lor (drv_feature_bits_lo d) (u64 (Z.shiftl (drv_feature_bits_hi d) 32)).

(** The device type refuses the features. *)
Definition refused (d : virtio_dev) (env : E) : bool :=
  match cb_feature_validate with
  | Some validate => negb (validate d (driver_features d) env =? 0)
  | None => false
  end.

Lemma status_after x c : is_u8 x -> length c = 8%nat -> fget device_status (fset device_status x c) = x.
Proof. intros Hx Hl. rewrite fget_fset by (done || cbn; lia). by apply land_small. Qed.

(** The last two blocks of the handler when the shadow already has both bits. *)
Lemma status_rest_eq st s x : fget device_status (s_sh s) = x -> acknowledge (device_state (s_dev s)) = true ->
  Z.lor x VIRTIO_DEV_DRIVER = x ->
  exists f, driver_ok f = driver_ok (device_state (s_dev s)) /\ features_ok f = features_ok (device_state (s_dev s)) /\
    acknowledge f = true /\
    status_rest st s = {| s_dev := set_device_state f (s_dev s); s_sh := s_sh s; s_env := s_env s |}.
Proof.
  intros Hx Hack Hor. unfold status_rest. rewrite Hack, andb_false_r.
  destruct (has_status st VIRTIO_DEV_DRIVER && negb (driver (device_state (s_dev s)))).
  - eexists. split; [|split; [|split; [|unfold set_state, status_or; rewrite Hx, Hor, <- Hx, fset_fget by done; done]]];
      [done..|exact Hack].
  - exists (device_state (s_dev s)). split; [done|]. split; [done|]. split; [done|]. destruct s as [[]]; done.
Qed.

(** A poll that sees FEATURES_OK: the features block, then the last two. *)
Lemma features_poll s s1 : in_sync s -> fget device_status (s_sh s) = 3 ->
  features_ok (device_state (s_dev s)) = false -> status_features (host_set device_status 11 s) = s1 ->
  common_cfg (s_dev s1) = s_sh s1 -> length (s_sh s1) = 8%nat -> acknowledge (device_state (s_dev s1)) = true ->
  fget device_status (s_sh s1) = 3 \/ fget device_status (s_sh s1) = 11 ->
  exists f, features_ok f = features_ok (device_state (s_dev s1)) /\
    sweep (host_set device_status 11 s) =
      Ret {| s_dev := set_device_state f (s_dev s1); s_sh := s_sh s1; s_env := s_env s1 |}.
Proof.
  intros Hs Hst Hfeat Heq Hc1 Hl1 Hack1 Hst1.
  destruct (status_rest_eq 11 s1 _ eq_refl Hack1) as (f & _ & Hff & _ & Hrest); [by destruct Hst1 as [-> | ->]|].
  exists f. split; [done|]. apply status_poll; [done|by unfold is_u8|by rewrite Hst| |by apply in_sync_synced; [split|lia..]].
  unfold on_status, virtio_process_device_status. change (Z.land 11 0x7f) with 11.
  cbn [Z.eqb VIRTIO_DEV_RESET mbind cres_mbind].
  change (features_ok (device_state (s_dev (host_set device_status 11 s)))) with (features_ok (device_state (s_dev s))).
  rewrite Hfeat. change (has_status 11 VIRTIO_DEV_FEATURES_OK && negb false) with true. cbv iota. rewrite Heq.
  change (has_status 11 VIRTIO_DEV_DRIVER_OK) with false. cbn [andb mbind cres_mbind]. by rewrite Hrest.
Qed.

(** Feature negotiation. A driver that has written its features and the
    status bits ACKNOWLEDGE and DRIVER sets FEATURES_OK. With the next poll,
    the device either accepts: the negotiated features are the bits the driver
    wrote and the status register still shows FEATURES_OK; or, when the device
    type's callback refuses the bits, it clears FEATURES_OK in the register
    and negotiates nothing. Either way registers and shadow are in sync. *)
Theorem features_negotiated s :
  in_sync s -> fget device_status (s_sh s) = 3 ->
  acknowledge (device_state (s_dev s)) = true -> features_ok (device_state (s_dev s)) = false ->
  exists s', sweep (host_set device_status 11 s) = Ret s' /\ in_sync s' /\ s_env s' = s_env s /\
    if refused (s_dev (host_set device_status 11 s)) (s_env s)
    then fget device_status (common_cfg (s_dev s')) = 3 /\
         features_ok (device_state (s_dev s')) = false /\ feature_bits (s_dev s') = feature_bits (s_dev s)
    else fget device_status (common_cfg (s_dev s')) = 11 /\
         features_ok (device_state (s_dev s')) = true /\ feature_bits (s_dev s') = driver_features (s_dev s).
Proof.
  intros Hs Hst Hack Hfeat. pose proof Hs as [Hc Hl].
  set (s0 := host_set device_status 11 s).
  assert (common_cfg (s_dev s0) = fset device_status 11 (s_sh s)) as Hc0 by (cbn; by rewrite Hc).
  assert (fset device_status 3 (s_sh s) = s_sh s) as H3 by (rewrite <- Hst; by apply fset_fget).
  assert (status_features s0 =
    if refused (s_dev s0) (s_env s)
    then {| s_dev := set_common_cfg (s_sh s) (s_dev s); s_sh := s_sh s; s_env := s_env s |}
    else {| s_dev := set_state (fun f => {| driver_ok := driver_ok f; features_ok := true;
                  acknowledge := acknowledge f; driver := driver f |})
              (set_feature_bits (driver_features (s_dev s)) (set_common_cfg (fset device_status 11 (s_sh s)) (s_dev s)));
            s_sh := fset device_status 11 (s_sh s); s_env := s_env s |}) as Hf.
  { unfold status_features. fold (driver_features (s_dev s0)). change (s_env s) with (s_env s0).
    fold (refused (s_dev s0) (s_env s0)). destruct (refused (s_dev s0) (s_env s0)).
    - unfold status_clear. rewrite Hc0, status_after by done. cbn [s0 host_set s_sh s_env s_dev]. rewrite Hst.
      change (Z.land 11 (Z.lnot VIRTIO_DEV_FEATURES_OK)) with 3. change (Z.land 3 (Z.lnot VIRTIO_DEV_FEATURES_OK)) with 3.
      rewrite fset_fset, H3 by done. done.
    - unfold status_or. cbn [s0 host_set s_sh s_env s_dev]. rewrite Hst, Hc. done. }
  destruct (refused (s_dev s0) (s_env s)).
  - destruct (features_poll s _ Hs Hst Hfeat Hf) as (f & Hff & Hsw); [done..|by left|].
    eexists. split; [exact Hsw|]. split; [by split|]. split; [done|]. cbn [s_dev]. split; [exact Hst|]. split; [exact (eq_trans Hff Hfeat)|done].
  - destruct (features_poll s _ Hs Hst Hfeat Hf) as (f & Hff & Hsw);
      [done|exact (eq_trans (length_fset _ _ _) Hl)|done|right; by apply status_after|]. eexists. split; [exact Hsw|].
    split; [split; [done|exact (eq_trans (length_fset _ _ _) Hl)]|]. split; [done|]. cbn [s_dev].
    split; [by apply status_after|]. split; [exact Hff|done].
Qed.

(** ** DRIVER_OK *)

Definition with_ok_pend (n : Z) s : vst E :=
  {| s_dev := set_driver_ok_pend n (s_dev s); s_sh := s_sh s; s_env := s_env s |}.

(** The device when it calls back for DRIVER_OK. *)
Definition started (d : virtio_dev) : virtio_dev :=
  set_state (fun f => {| driver_ok := true; features_ok := features_ok f;
    acknowledge := acknowledge f; driver := driver f |}) (set_driver_ok_pend 0 d).

Lemma driver_ok_eq s : features_ok (device_state (s_dev s)) = true -> driver_ok (device_state (s_dev s)) = false ->
  virtio_process_device_status s 15 =
    if driver_ok_pend (s_dev s) <? 3 then
      Ret (1, with_ok_pend (u8 (driver_ok_pend (s_dev s) + 1)) s)
    else s ← status_driver_ok s; Ret (0, status_rest 15 s).
Proof.
  intros Hfo Hdo. unfold virtio_process_device_status. change (Z.land 15 0x7f) with 15.
  cbn [Z.eqb VIRTIO_DEV_RESET mbind cres_mbind]. rewrite Hfo, andb_false_r, Hdo. done.
Qed.

Lemma driver_ok_wait s n : in_sync s -> fget device_status (s_sh s) = 11 ->
  features_ok (device_state (s_dev s)) = true -> driver_ok (device_state (s_dev s)) = false -> 0 <= n < 3 ->
  sweep (host_set device_status 15 (with_ok_pend n s)) = Ret (host_set device_status 15 (with_ok_pend (n + 1) s)).
Proof.
  intros Hs Hst Hfo Hdo Hn. assert (in_sync (with_ok_pend n s)) as Hs' by exact Hs.
  apply status_poll; [done|by unfold is_u8|cbn [with_ok_pend s_sh]; by rewrite Hst| |].
  - unfold on_status. rewrite driver_ok_eq by done. change (driver_ok_pend _) with n.
    destruct (Z.ltb_spec n 3); [|lia]. cbn [mbind cres_mbind s_sh s_env]. unfold u8. by rewrite Z.mod_small by lia.
  - apply host_set_synced; [exact Hs|lia|lia|cbn; lia].
Qed.

(** What [virtio_setup_cq_info] does, on a device with its features agreed. *)
Lemma setup_cq_eq d env q qid : features_ok (device_state d) = true ->
  qid = u16 (cb_cq_id_get d (feature_bits d) env) -> queue_conf d !! Z.to_nat qid = Some q ->
  exists rc x env', virtio_setup_cq_info d env = Ret (rc, set_cq x d, env') /\
    (qc_enable q = 0 \/ is_Some (cq d) -> x = cq d /\ env' = env) /\
    (qc_enable q <> 0 -> cq d = None -> (cq_zmalloc (qc_size q) env).1 = true ->
     exists c, x = Some c /\ cq_desc_base c = Z.lor (Z.shiftl (qc_desc_hi q) 32) (qc_desc_lo q) /\
       cq_q_sz c = qc_size q /\ cq_notify_addr c = u64 (notify_base d + u64 (qid * notify_off_mltpr d)) /\
       env' = (cq_region_register (cq_notify_addr c) (cq_zmalloc (qc_size q) env).2).2).
Proof.
  intros Hfo -> Hq. unfold virtio_setup_cq_info. rewrite Hfo. cbn [negb].
  assert (forall d', set_cq (cq d') d' = d') as Hid by (intros []; done).
  rewrite (proj2 (cget_Ret _ _ q)) by (split; [apply u16_bound|exact Hq]).
  cbn [mbind cres_mbind]. destruct (Z.eqb_spec (qc_enable q) 0) as [He|He]; cbn [orb].
  { eexists _, (cq d), env. rewrite Hid. done. }
  destruct (cq d) as [c|] eqn:Hc; cbn [bool_decide decide].
  { rewrite bool_decide_true by done. eexists _, (Some c), env. rewrite <- Hc, Hid, Hc. done. }
  rewrite bool_decide_false by (by intros []).
  destruct (cq_zmalloc (qc_size q) env) as [[] env1] eqn:Hz; cbn [negb fst snd].
  - destruct (cq_region_register _ env1) as [rc env2] eqn:Hr. eexists _, _, _. split; [done|].
    split; [by intros [? | []]|]. intros _ _ _. eexists. split; [done|]. cbn. cbn in Hr. by rewrite Hr.
  - eexists _, None, _. rewrite <- Hc, Hid. split; [done|]. split; [intros [? | [? ?]]; congruence|done].
Qed.

(** The fourth poll. *)
Lemma driver_ok_poll s d' rc env' : in_sync s -> fget device_status (s_sh s) = 11 ->
  features_ok (device_state (s_dev s)) = true -> driver_ok (device_state (s_dev s)) = false ->
  acknowledge (device_state (s_dev s)) = true ->
  let d := started (s_dev (host_set device_status 15 s)) in
  virtio_setup_cq_info d (cb_dev_status d VIRTIO_DEV_DRIVER_OK (s_env s)) = Ret (rc, d', env') ->
  (exists x, d' = set_cq x d) ->
  exists f, driver_ok f = true /\
    sweep (host_set device_status 15 (with_ok_pend 3 s)) =
      Ret {| s_dev := set_device_state f d'; s_sh := fset device_status 15 (s_sh s); s_env := env' |}.
Proof.
  intros Hs Hst Hfo Hdo Hack d Hcq [x ->]. pose proof Hs as [Hc Hl].
  set (s1 := {| s_dev := set_cq x d; s_sh := fset device_status 15 (s_sh s); s_env := env' |}).
  assert (fget device_status (s_sh s1) = 15) as H15 by (by apply status_after).
  destruct (status_rest_eq 15 s1 15) as (f & Hf & _ & _ & Hrest); [done|exact Hack|done|].
  exists f. split; [by rewrite Hf|].
  apply status_poll; [exact Hs|by unfold is_u8|cbn [with_ok_pend s_sh]; by rewrite Hst| |].
  - unfold on_status. rewrite driver_ok_eq by done. change (driver_ok_pend _ <? 3) with false. cbv iota.
    unfold status_driver_ok. fold (started (s_dev (host_set device_status 15 (with_ok_pend 3 s)))).
    change (started (s_dev (host_set device_status 15 (with_ok_pend 3 s)))) with d.
    change (s_env (host_set device_status 15 (with_ok_pend 3 s))) with (s_env s).
    rewrite Hcq. cbn [mbind cres_mbind]. unfold status_or. cbn [host_set with_ok_pend s_sh]. rewrite Hst.
    change (Z.lor 11 VIRTIO_DEV_DRIVER_OK) with 15. fold s1. by rewrite Hrest.
  - apply in_sync_synced; [|lia|lia]. split; [|exact (eq_trans (length_fset _ _ _) Hl)]. cbn. by rewrite Hc.
Qed.

(** C23. Starting the device. After feature negotiation the driver sets
    DRIVER_OK. The first three polls only count, so that other writes of the
    driver still arrive: the device is not started and no callback runs. With
    the fourth poll the device is started, the device type is called back
    once, before the control queue is set up; if the driver enabled the
    control queue and there is memory for it, the device holds its descriptor
    ring, size and notification address afterwards and polls that address.
    All later polls change nothing. *)
Theorem driver_ok_starts s q :
  in_sync s -> fget device_status (s_sh s) = 11 ->
  acknowledge (device_state (s_dev s)) = true -> features_ok (device_state (s_dev s)) = true ->
  driver_ok (device_state (s_dev s)) = false -> driver_ok_pend (s_dev s) = 0 ->
  let s0 := host_set device_status 15 s in
  let d := started (s_dev s0) in
  let env := cb_dev_status d VIRTIO_DEV_DRIVER_OK (s_env s) in
  let qid := u16 (cb_cq_id_get d (feature_bits d) env) in
  queue_conf (s_dev s) !! Z.to_nat qid = Some q ->
  (forall n, (n <= 3)%nat -> exists s', sweeps n s0 = Ret s' /\
     driver_ok (device_state (s_dev s')) = false /\ s_env s' = s_env s) /\
  exists s', (forall m, sweeps (4 + m) s0 = Ret s') /\ in_sync s' /\
    fget device_status (common_cfg (s_dev s')) = 15 /\
    driver_ok (device_state (s_dev s')) = true /\ driver_ok_pend (s_dev s') = 0 /\
    (qc_enable q = 0 \/ is_Some (cq (s_dev s)) -> cq (s_dev s') = cq (s_dev s) /\ s_env s' = env) /\
    (qc_enable q <> 0 -> cq (s_dev s) = None -> (cq_zmalloc (qc_size q) env).1 = true ->
     exists c, cq (s_dev s') = Some c /\
       cq_desc_base c = Z.lor (Z.shiftl (qc_desc_hi q) 32) (qc_desc_lo q) /\ cq_q_sz c = qc_size q /\
       cq_notify_addr c = u64 (notify_base (s_dev s) + u64 (qid * notify_off_mltpr (s_dev s))) /\
       s_env s' = (cq_region_register (cq_notify_addr c) (cq_zmalloc (qc_size q) env).2).2).
Proof.
  intros Hs Hst Hack Hfo Hdo Hpend s0 d env qid Hq. pose proof Hs as [Hc Hl].
  assert (s0 = host_set device_status 15 (with_ok_pend 0 s)) as Hs0.
  { unfold s0. f_equal. destruct s as [[]]. cbn in Hpend. subst. done. }
  assert (forall n, (n <= 3)%nat -> sweeps n s0 = Ret (host_set device_status 15 (with_ok_pend (Z.of_nat n) s))) as Hwait.
  { intros n Hn. rewrite Hs0. induction n as [|n IH]; [done|]. rewrite sweeps_S, IH by lia. cbn [mbind cres_mbind].
    rewrite driver_ok_wait by (done || lia). do 3 f_equal. lia. }
  split; [intros n Hn; rewrite Hwait by done; eexists; split; [done|]; done|].
  destruct (setup_cq_eq d env q qid) as (rc & x & env' & Hcq & Hno & Hyes); [done..|].
  destruct (driver_ok_poll s _ _ _ Hs Hst Hfo Hdo Hack Hcq) as (f & Hf & Hsw); [by eexists|].
  set (s' := {| s_dev := _; s_sh := _; s_env := _ |}) in Hsw.
  assert (in_sync s') as Hs'.
  { split; [|exact (eq_trans (length_fset _ _ _) Hl)]. cbn. by rewrite Hc. }
  exists s'. split; [|split; [done|split; [rewrite (proj1 Hs'); by apply status_after|done]]].
  intros m. change (4 + m)%nat with (3 + (1 + m))%nat. rewrite sweeps_app, Hwait by lia. cbn [mbind cres_mbind Nat.add sweeps].
  change (Z.of_nat 3) with 3. rewrite Hsw. cbn [mbind cres_mbind]. by apply sweeps_in_sync.
Qed.

(** ** Reset *)

(** The registers after a reset. *)
Definition reset_cfg (c : list Z) : list Z :=
  fset device_status VIRTIO_DEV_RESET
    (fset driver_feature_select VIRTIO_INVALID_FEATURE_SELECT
      (fset device_feature_select VIRTIO_INVALID_FEATURE_SELECT c)).

(** The device after a reset: [c] are its registers. *)
Definition reset_dev (d : virtio_dev) (c : list Z) : virtio_dev :=
  let n := Z.to_nat (u16 (max_virtio_queues d)) in
  set_device_state {| driver_ok := false; features_ok := false; acknowledge := false; driver := false |}
    (set_feature_bits (dev_feature_bits d)
      (set_queue_conf (replicate n queue_conf0 ++ drop n (queue_conf d))
        (set_prev_drv_feature_select VIRTIO_INVALID_FEATURE_SELECT
          (set_prev_queue_select VIRTIO_INVALID_QUEUE_INDEX
            (set_notify (replicate n 0x80000000 ++ drop n (notify d))
              (set_cq None (set_common_cfg c d))))))).

(** What the environment sees of a reset. *)
Definition reset_env (d : virtio_dev) (env : E) : E :=
  (virtio_clear_cq_info d (cb_dev_status d VIRTIO_DEV_RESET env)).2.

(** The device and its shadow with the feature selectors reset in the shadow
    too, or not yet. *)
Definition after_reset (synced : bool) s : vst E :=
  {| s_dev := reset_dev (s_dev s) (reset_cfg (s_sh s));
     s_sh := if synced then reset_cfg (s_sh s) else fset device_status VIRTIO_DEV_RESET (s_sh s);
     s_env := reset_env (s_dev (host_set device_status 0x80 s)) (s_env s) |}.

(** What is needed of the device: its arrays have a cell for each queue and
    the register with the number of queues has its value. *)
Record resettable s : Prop := {
  rs_sync : in_sync s;
  rs_status : fget device_status (s_sh s) < 0x80;
  rs_num : fget num_queues (s_sh s) = max_virtio_queues (s_dev s);
  rs_notify : (Z.to_nat (u16 (max_virtio_queues (s_dev s))) <= length (notify (s_dev s)))%nat;
  rs_conf : (Z.to_nat (u16 (max_virtio_queues (s_dev s))) <= length (queue_conf (s_dev s)))%nat;
}.

Lemma cfill_Ret {A} (l : list A) n x : (n <= length l)%nat -> cfill l n x = Ret (replicate n x ++ drop n l).
Proof. intros Hn. unfold cfill. by rewrite decide_True. Qed.

Lemma clear_cq_eq d env : virtio_clear_cq_info d env = (set_cq None d, (virtio_clear_cq_info d env).2).
Proof. by destruct d as [? ? ? []]. Qed.

(** The block for [VIRTIO_DEV_RESET]. *)
Lemma status_reset_eq s : resettable s ->
  status_reset (host_set device_status 0x80 s) = Ret (after_reset false s).
Proof.
  intros [[Hc Hl] _ Hnum Hn Hq]. unfold status_reset, virtio_config_populate, after_reset, reset_env.
  set (s0 := host_set device_status 0x80 s).
  set (env := cb_dev_status (s_dev s0) VIRTIO_DEV_RESET (s_env s)). change (s_env s0) with (s_env s). fold env.
  rewrite clear_cq_eq. set (env' := (virtio_clear_cq_info _ _).2).
  rewrite !cfill_Ret by done. cbn [mbind cres_mbind].
  change (common_cfg (set_cq None (s_dev s0))) with (fset device_status 0x80 (common_cfg (s_dev s))).
  change (max_virtio_queues (set_cq None (s_dev s0))) with (max_virtio_queues (s_dev s)).
  change (s_sh s0) with (s_sh s). cbn [common_cfg set_feature_bits set_queue_conf set_prev_drv_feature_select
    set_prev_queue_select set_notify set_common_cfg].
  assert (fset device_status VIRTIO_DEV_RESET (fset driver_feature_select VIRTIO_INVALID_FEATURE_SELECT
    (fset device_feature_select VIRTIO_INVALID_FEATURE_SELECT (fset num_queues (max_virtio_queues (s_dev s))
      (fset device_status 0x80 (common_cfg (s_dev s)))))) = reset_cfg (s_sh s)) as ->; [|done].
  unfold reset_cfg. rewrite Hc, <- Hnum, (fset_comm num_queues), fset_fget by done.
  by rewrite (fset_comm device_feature_select device_status), (fset_comm driver_feature_select device_status), fset_fset by done.
Qed.

(** A poll acknowledges an invalid feature selector by copying it. *)
Lemma invalid_select_word n i f s v :
  (i = 0 /\ f = device_feature_select) \/ (i = 1 /\ f = driver_feature_select) ->
  common_cfg (s_dev s) !! Z.to_nat i = Some (word_set f VIRTIO_INVALID_FEATURE_SELECT v) ->
  s_sh s !! Z.to_nat i = Some v ->
  sweep_from (S n) i s = sweep_from n (i + 1)
    {| s_dev := s_dev s; s_sh := fset f VIRTIO_INVALID_FEATURE_SELECT (s_sh s); s_env := s_env s |}.
Proof.
  intros Hf Hc Hsh. assert (field_ok f = true /\ f_word f = Z.to_nat i /\ 0 <= i) as (Hok & Hw & Hi) by (by destruct Hf as [[-> ->] | [-> ->]]).
  destruct (decide (word_get f v = VIRTIO_INVALID_FEATURE_SELECT)) as [Heq|Hne].
  - assert (word_set f VIRTIO_INVALID_FEATURE_SELECT v = v) as Hsame by (rewrite <- Heq; by apply word_set_get).
    cbn [sweep_from]. rewrite Hc, Hsame, (proj2 (cget_Ret _ _ v)) by (split; [lia|done]).
    cbn [mbind cres_mbind default from_option id]. rewrite Z.eqb_refl. cbn [mbind cres_mbind]. f_equal.
    rewrite <- Heq, <- (fget_word _ (s_sh s)), fset_fget by (done || by rewrite Hw). by destruct s.
  - assert (word_get f (word_set f VIRTIO_INVALID_FEATURE_SELECT v) = VIRTIO_INVALID_FEATURE_SELECT) as Hg
      by (rewrite word_get_set by done; by destruct Hf as [[-> ->] | [-> ->]]).
    apply (sweep_from_word n i s _ (word_set f VIRTIO_INVALID_FEATURE_SELECT v) v); [done..|congruence|].
    destruct Hf as [[-> ->] | [-> ->]]; cbn [dao_virtio_common_cfg_cb].
    + by rewrite when_changed_true, Hg by congruence.
    + rewrite when_changed_false by (by rewrite word_get_set_ne). cbn [mbind cres_mbind].
      by rewrite when_changed_true, Hg by congruence.
Qed.

Lemma lookup_fset f x c v k : f_word f = k -> c !! k = Some v -> fset f x c !! k = Some (word_set f x v).
Proof. intros <- Hv. unfold fset. by rewrite list_lookup_alter_eq, Hv. Qed.

Lemma lookup_fset_ne f x c k : f_word f <> k -> fset f x c !! k = c !! k.
Proof. intros Hk. unfold fset. by rewrite list_lookup_alter_ne. Qed.

Lemma reset_cfg_word k c : (2 < k)%nat -> reset_cfg c !! k = c !! k.
Proof. intros Hk. unfold reset_cfg, fset. by rewrite !list_lookup_alter_ne by (cbn; lia). Qed.

(** The poll that sees the reset, and the one after it. *)
Lemma reset_poll s : resettable s -> sweep (host_set device_status 0x80 s) = Ret (after_reset false s).
Proof.
  intros Hr. pose proof (rs_sync s Hr) as [Hc Hl]. pose proof (rs_status s Hr).
  apply status_poll; [by apply rs_sync|by unfold is_u8|lia| |].
  - unfold on_status, virtio_process_device_status. change (Z.land 0x80 0x7f) with 0. rewrite Z.eqb_refl.
    rewrite status_reset_eq by done. done.
  - intros k Hk. destruct (lookup_lt_is_Some_2 (s_sh s) (Z.to_nat k)) as [v Hv]; [lia|].
    exists v. cbn [after_reset s_dev s_sh]. split.
    + change (reset_cfg (s_sh s) !! Z.to_nat k = Some v). by rewrite reset_cfg_word by lia.
    + unfold fset. by rewrite list_lookup_alter_ne by (cbn; lia).
Qed.

Lemma reset_settles s : resettable s -> sweep (after_reset false s) = Ret (after_reset true s).
Proof.
  intros Hr. pose proof (rs_sync s Hr) as [Hc Hl]. unfold sweep.
  destruct (lookup_lt_is_Some_2 (s_sh s) 0) as [v0 H0]; [lia|].
  destruct (lookup_lt_is_Some_2 (s_sh s) 1) as [v1 H1]; [lia|].
  rewrite (invalid_select_word 7 0 device_feature_select _ v0); [|by left|..].
  2:{ change (reset_cfg (s_sh s) !! 0%nat = Some (word_set device_feature_select VIRTIO_INVALID_FEATURE_SELECT v0)).
      unfold reset_cfg. rewrite !lookup_fset_ne by done. by apply lookup_fset. }
  2:{ cbn [after_reset s_sh]. by rewrite lookup_fset_ne. }
  rewrite (invalid_select_word 6 (0 + 1) driver_feature_select _ v1); [|by right|..].
  2:{ change (reset_cfg (s_sh s) !! 1%nat = Some (word_set driver_feature_select VIRTIO_INVALID_FEATURE_SELECT v1)).
      unfold reset_cfg. rewrite lookup_fset_ne by done. apply lookup_fset; [done|]. by rewrite lookup_fset_ne. }
  2:{ cbn [after_reset s_sh]. by rewrite !lookup_fset_ne by done. }
  cbn [after_reset s_dev s_sh s_env].
  rewrite (fset_comm device_feature_select device_status), (fset_comm driver_feature_select device_status) by done.
  apply (sweep_from_synced 6 2 (after_reset true s)); [lia|].
  apply in_sync_synced; [|lia..]. split; [done|]. cbn [after_reset s_sh]. unfold reset_cfg. by rewrite !length_fset.
Qed.

Lemma after_reset_sync s : resettable s -> in_sync (after_reset true s).
Proof.
  intros Hr. split; [done|]. cbn [after_reset s_sh]. unfold reset_cfg. rewrite !length_fset. by apply rs_sync.
Qed.

End status.

(** ** Witnesses

    A device type that records its calls, newest first, refuses features
    without VIRTIO_F_VERSION_1 and has queue 2 as its control queue. *)
#[local] Instance wit_env : VirtioEnv (list Z) := {
  cb_dev_status _ st log := st :: log;
  cb_cq_id_get _ _ _ := 2;
  cb_queue_enable _ qid log := 100 + qid :: log;
  cb_feature_validate := Some (fun _ bits _ => if Z.testbit bits 32 then 0 else -1);
  cq_zmalloc _ log := (true, log);
  cq_region_register a log := (0, a :: log);
  cq_region_unregister a log := - a :: log;
}.

Definition wit_conf : virtio_queue_conf := set_qc_enable 1 (set_qc_desc_hi 5 (set_qc_desc_lo 0x1000 queue_conf0)).

(** Three queues, the third enabled; the registers show queue 0. *)
Definition wit_cfg (status : Z) : list Z :=
  queue_load 0 queue_conf0 (fset device_status status (fset num_queues 3 (replicate 8 0))).

Definition wit_dev (c : list Z) (st : dev_state) : virtio_dev :=
  {| common_cfg := c; notify := replicate 3 0; queue_conf := <[2%nat := wit_conf]> (replicate 129 queue_conf0);
     cq := None; drv_feature_bits_lo := 1; drv_feature_bits_hi := 1; feature_bits := 0;
     prev_queue_select := 0; prev_drv_feature_select := VIRTIO_INVALID_FEATURE_SELECT;
     driver_ok_pend := 0; queue_select_pend := 0; device_state := st; dev_feature_bits := 0x500000021;
     max_virtio_queues := 3; notify_base := 0x10000; notify_off_mltpr := 0x1000 |}.

Definition wit_flags (features : bool) : dev_state :=
  {| driver_ok := false; features_ok := features; acknowledge := true; driver := false |}.

Definition wit_vst (status : Z) (features : bool) : vst (list Z) :=
  {| s_dev := wit_dev (wit_cfg status) (wit_flags features); s_sh := wit_cfg status; s_env := [] |}.

Lemma wit_in_sync status features : in_sync (wit_vst status features).
Proof. by split. Qed.

Lemma wit_at_rest : at_rest (wit_vst 11 true).
Proof.
  split; [apply wit_in_sync|reflexivity|..].
  - apply Forall_insert; [apply Forall_replicate|]; split; split; vm_compute; (discriminate || reflexivity).
  - reflexivity.
  - reflexivity.
  - right. exists queue_conf0. split; [split; vm_compute; (discriminate || reflexivity)|].
    split; [reflexivity|]. split; vm_compute; reflexivity.
Qed.

(** One changed register, as the poll thread finds it. *)
Definition wit_vw_region : pem_region unit :=
  {| reg_base := 0x8000; reg_sz := 8; reg_cb := tt; shadow := wit_cfg 3 |}.

Definition wit_vw : vworld (list Z) :=
  {| vw_dev := s_dev (host_set device_status 11 (wit_vst 3 false)); vw_cfg_addr := 0x8000;
     vw_pem := {| host_page_sz := 4096; host_pages_per_dev := 0; max_vfs := 0; bar4_addr := 0x8000;
                  regions := [Some 100]; region_mask := [1]; heap := {[100 := wit_vw_region]} |};
     vw_env := [] |}.

Lemma poll_is_sweep_witness :
  check_ctrl_reg (Some 100) wit_vw =
    (s ← sweep {| s_dev := vw_dev wit_vw; s_sh := wit_cfg 3; s_env := [] |};
     Ret (put_vst wit_vw 100 wit_vw_region s)) /\
  match check_ctrl_reg (Some 100) wit_vw with
  | Ret w => features_ok (device_state (vw_dev w)) = true /\ feature_bits (vw_dev w) = 0x100000001
  | _ => False
  end.
Proof.
  split; [|vm_compute; split; reflexivity].
  apply (poll_is_sweep wit_vw 100 wit_vw_region); reflexivity.
Defined.

Lemma enable_waits_for_config_witness :
  exists s1 s2, sweep (host_set queue_enable 1 (host_set queue_desc_lo 0x2000 (wit_vst 11 true))) = Ret s1 /\
    sweep s1 = Ret s2 /\ s_env s1 = [] /\ s_env s2 = [100] /\
    qc_enable <$> (queue_conf (s_dev s1) !! 0%nat) = Some 0 /\
    qc_enable <$> (queue_conf (s_dev s2) !! 0%nat) = Some 1.
Proof.
  destruct (enable_waits_for_config queue_desc_lo set_qc_desc_lo (wit_vst 11 true)
    (host_set queue_enable 1 (host_set queue_desc_lo 0x2000 (wit_vst 11 true))) 0 queue_conf0 0x2000)
    as (s2 & (s1 & H1 & H2 & Hq1 & He1) & Hq2 & _ & d & _ & He2).
  - apply elem_of_cons. right. apply elem_of_cons. right. apply elem_of_cons. left. reflexivity.
  - cbn. lia.
  - vm_compute. discriminate.
  - exact wit_at_rest.
  - reflexivity.
  - vm_compute. discriminate.
  - reflexivity.
  - reflexivity.
  - reflexivity.
  - intros d. vm_compute. discriminate.
  - left. reflexivity.
  - exists s1, s2. rewrite Hq1, Hq2, He1, He2. repeat split; assumption || (vm_compute; reflexivity).
Defined.

(** Features with VIRTIO_F_VERSION_1 are accepted. *)
Lemma features_negotiated_witness :
  exists s', sweep (host_set device_status 11 (wit_vst 3 false)) = Ret s' /\ in_sync s' /\
    fget device_status (common_cfg (s_dev s')) = 11 /\ feature_bits (s_dev s') = 0x100000001.
Proof.
  destruct (features_negotiated (wit_vst 3 false)) as (s' & Hsw & Hs & _ & Hif).
  - apply wit_in_sync.
  - vm_compute. reflexivity.
  - reflexivity.
  - reflexivity.
  - exists s'. split; [exact Hsw|]. split; [exact Hs|]. vm_compute in Hif. destruct Hif as (H1 & _ & H2).
    split; [exact H1|exact H2].
Defined.

Lemma driver_ok_starts_witness :
  exists s', sweeps 4 (host_set device_status 15 (wit_vst 11 true)) = Ret s' /\
    driver_ok (device_state (s_dev s')) = true /\ s_env s' = [0x12000; 4] /\
    cq_desc_base <$> cq (s_dev s') = Some 0x500001000.
Proof.
  destruct (driver_ok_starts (wit_vst 11 true) wit_conf) as (_ & s' & Hsw & _ & _ & Hok & _ & _ & Hcq).
  - apply wit_in_sync.
  - vm_compute. reflexivity.
  - reflexivity.
  - reflexivity.
  - reflexivity.
  - reflexivity.
  - vm_compute. reflexivity.
  - exists s'. split; [exact (Hsw 0%nat)|]. split; [exact Hok|].
    destruct Hcq as (c & Hc & Hbase & _ & Haddr & Henv); [vm_compute; discriminate|reflexivity|reflexivity|].
    rewrite Henv, Haddr, Hc. split; [vm_compute; reflexivity|]. cbn. rewrite Hbase. vm_compute. reflexivity.
Defined.
