(* ===== verification/Octep.v ===== *)
(** * The host side of the registers (kmod/vdpa/octeon_ep/octep_vdpa_hw.c)

    The host driver talks to the device through the common configuration
    registers only. It posts a request with an acknowledge bit set and waits
    until the device has cleared the bit. The device polls the registers from
    its own thread, so any number of polls happens before each access of the
    host. *)
From stdpp Require Import base option list numbers gmap.
From S2P Require Import Prelude Rte Pem VirtioDev.

Local Open Scope Z_scope.

Definition DEV_RST_ACK_BIT : Z := 7.
Definition FEATURE_SEL_ACK_BIT : Z := 15.
Definition QUEUE_SEL_ACK_BIT : Z := 15.

Definition VIRTIO_F_VERSION_1 : Z := 32.
Definition VIRTIO_F_RING_PACKED : Z := 34.
Definition VIRTIO_F_NOTIFICATION_DATA : Z := 38.
Definition EOPNOTSUPP : Z := 95.

(** ** Host programs

    A program runs from a state of the device at an access number, which
    counts the accesses made so far. *)
Definition host (E A : Type) : Type := vst E -> nat -> cres (A * vst E * nat).

#[export] Instance host_mret {E} : MRet (host E) := fun A a s t => Ret (a, s, t).
#[export] Instance host_mbind {E} : MBind (host E) := fun A B f m s t =>
  match m s t with Ret (a, s, t) => f a s t | Panic => Panic | Fault => Fault end.

(** [(features & BIT_ULL(n)) != 0] *)
Definition has_feature (features n : Z) : bool := negb (Z.land features (RTE_BIT64 n) =? 0).

Definition octep_verify_features (features : Z) : Z :=
  if negb (has_feature features VIRTIO_F_VERSION_1) then - EOPNOTSUPP
  else if negb (has_feature features VIRTIO_F_NOTIFICATION_DATA) then - EOPNOTSUPP
  else if negb (has_feature features VIRTIO_F_RING_PACKED) then - EOPNOTSUPP
  else 0.

Section host.
Context {E : Type} `{VirtioEnv E}.

(** [sched t]: how many polls the device makes before access [t]; [tries]:
    how many reads [readx_poll_timeout] makes before its timeout. *)
Context (sched : nat -> nat) (tries : nat).

Definition ioread (f : cfg_field) : host E Z := fun s t =>
  s ← sweeps (sched t) s; Ret (fget f (common_cfg (s_dev s)), s, S t).

Definition iowrite (f : cfg_field) (x : Z) : host E unit := fun s t =>
  s ← sweeps (sched t) s; Ret (tt, host_set f x s, S t).

(** [readx_poll_timeout] until the field reads [x]: whether it did. *)
Fixpoint poll_until (n : nat) (f : cfg_field) (x : Z) : host E bool :=
  match n with
  | O => mret false
  | S n => val ← ioread f; if val =? x then mret true else poll_until n f x
  end.

Definition octep_hw_get_status : host E Z := ioread device_status.

Definition octep_hw_set_status (status : Z) : host E unit := iowrite device_status status.

Definition octep_hw_reset : host E unit :=
  _ ← octep_hw_set_status (Z.lor 0 (Z.shiftl 1 DEV_RST_ACK_BIT));
  _ ← poll_until tries device_status 0;
  mret tt.

Definition feature_sel_write_with_timeout (select : Z) (addr : cfg_field) : host E Z :=
  _ ← iowrite addr (Z.lor select (Z.shiftl 1 FEATURE_SEL_ACK_BIT));
  ok ← poll_until tries addr select;
  mret (if (ok : bool) then 0 else -1).

Definition octep_hw_get_dev_features : host E Z :=
  rc ← feature_sel_write_with_timeout 0 device_feature_select;
  if negb (rc =? 0) then mret 0
  else
    features_lo ← ioread device_feature;
    rc ← feature_sel_write_with_timeout 1 device_feature_select;
    if negb (rc =? 0) then mret 0
    else
      features_hi ← ioread device_feature;
      mret (Z.lor (u64 (Z.shiftl features_hi 32)) features_lo).

Definition octep_hw_get_drv_features : host E Z :=
  rc ← feature_sel_write_with_timeout 0 driver_feature_select;
  if negb (rc =? 0) then mret 0
  else
    features_lo ← ioread driver_feature;
    rc ← feature_sel_write_with_timeout 1 driver_feature_select;
    if negb (rc =? 0) then mret 0
    else
      features_hi ← ioread driver_feature;
      mret (Z.lor (u64 (Z.shiftl features_hi 32)) features_lo).

Definition octep_hw_set_drv_features (features : Z) : host E unit :=
  rc ← feature_sel_write_with_timeout 0 driver_feature_select;
  if negb (rc =? 0) then mret tt
  else
    _ ← iowrite driver_feature (Z.land features (RTE_BIT64 32 - 1));
    rc ← feature_sel_write_with_timeout 1 driver_feature_select;
    if negb (rc =? 0) then mret tt
    else iowrite driver_feature (Z.shiftr features 32).

Definition octep_write_queue_select (queue_id : Z) : host E unit :=
  _ ← iowrite queue_select (Z.lor queue_id (Z.shiftl 1 QUEUE_SEL_ACK_BIT));
  _ ← poll_until tries queue_select queue_id;
  mret tt.

Definition octep_set_vq_num (qid num : Z) : host E unit :=
  _ ← octep_write_queue_select qid; iowrite queue_size num.

Definition octep_set_vq_ready (qid : Z) (ready : bool) : host E unit :=
  _ ← octep_write_queue_select qid; iowrite queue_enable (b2z ready).

Definition octep_get_vq_ready (qid : Z) : host E bool :=
  _ ← octep_write_queue_select qid;
  v ← ioread queue_enable;
  mret (negb (v =? 0)).

Definition octep_get_vq_size : host E Z :=
  _ ← octep_write_queue_select 0; ioread queue_size.

(** ** Waiting for the device *)

(** How many polls happen during [n] accesses from access [t] on. *)
Fixpoint polls (n t : nat) : nat :=
  match n with O => O | S n => (sched t + polls n (S t))%nat end.

(** A wait sees at least [m] polls of the device before it times out. *)
Definition fair (m : nat) : Prop := forall t, (m <= polls tries t)%nat.

Lemma sweeps_family (st : nat -> vst E) : (forall j, sweep (st j) = Ret (st (S j))) ->
  forall n j, sweeps n (st j) = Ret (st (j + n)%nat).
Proof.
  intros Hst. induction n as [|n IH]; intros j; cbn [sweeps]; [by rewrite Nat.add_0_r|].
  rewrite Hst. cbn [mbind cres_mbind]. rewrite IH. do 2 f_equal. lia.
Qed.

(** The device goes through the states [st], and the field reads [x] from
    state [m] on: the wait ends in one of those. *)
Lemma poll_until_reaches (st : nat -> vst E) m f x :
  (forall j, sweep (st j) = Ret (st (S j))) ->
  (forall j, fget f (common_cfg (s_dev (st j))) = x <-> (m <= j)%nat) ->
  forall n j t, (m <= j + polls n t)%nat -> (0 < n)%nat ->
  exists j' t', poll_until n f x (st j) t = Ret (true, st j', t') /\ (m <= j')%nat.
Proof.
  intros Hst Hx. induction n as [|n IH]; intros j t Hp Hn; [lia|]. cbn [polls] in Hp.
  cbn [poll_until]. unfold mbind at 1, host_mbind, ioread. rewrite (sweeps_family st Hst). cbn [mbind cres_mbind].
  destruct (Z.eqb_spec (fget f (common_cfg (s_dev (st (j + sched t)%nat)))) x) as [Heq|Hne].
  - apply Hx in Heq. eexists _, _. split; [done|done].
  - assert (~ (m <= j + sched t)%nat) as Hlt by (intros Hle; apply Hne; by apply Hx).
    destruct n as [|n]; [cbn in Hp; lia|]. apply (IH (j + sched t)%nat (S t)); lia.
Qed.

Lemma fair_tries m : fair m -> (0 < m)%nat -> (0 < tries)%nat.
Proof.
  unfold fair. intros Hf Hm. specialize (Hf 0%nat). destruct (decide (tries = 0%nat)) as [E0|]; [|lia].
  rewrite E0 in Hf. cbn in Hf. lia.
Qed.

(** One poll turns [s0] into [s1], where nothing is left to do. *)
Lemma poll_answer s0 s1 f x t : fair 1 -> sweep s0 = Ret s1 -> in_sync s1 ->
  fget f (common_cfg (s_dev s0)) <> x -> fget f (common_cfg (s_dev s1)) = x ->
  exists t', poll_until tries f x s0 t = Ret (true, s1, t').
Proof.
  intros Hf H01 Hs1 H0 H1. pose proof (fair_tries 1 Hf ltac:(lia)).
  destruct (poll_until_reaches (fun j => match j with O => s0 | _ => s1 end) 1 f x) with (n := tries) (j := 0%nat) (t := t)
    as (j & t' & Hp & Hj); [..|lia|].
  - intros [|j]; [done|]. by apply sweep_in_sync.
  - intros [|j]; split; intros; (done || lia).
  - pose proof (Hf t). lia.
  - exists t'. destruct j; [lia|]. done.
Qed.

(** A select request from a state in sync: the device's answer is [s1]. *)
Lemma feature_sel_answer s s1 sel f t : fair 1 -> in_sync s -> in_sync s1 ->
  sweep (host_set f (request sel) s) = Ret s1 -> field_ok f = true -> f_len f = 32 -> (f_word f < 8)%nat ->
  sel = 0 \/ sel = 1 -> fget f (common_cfg (s_dev s1)) = sel ->
  exists t', feature_sel_write_with_timeout sel f s t = Ret (0, s1, t').
Proof.
  intros Hf Hs Hs1 Hsw Hok Hlen Hw Hsel H1. unfold feature_sel_write_with_timeout.
  unfold mbind, host_mbind, iowrite at 1. rewrite sweeps_in_sync by done. cbn [mbind cres_mbind].
  change (Z.lor sel (Z.shiftl 1 FEATURE_SEL_ACK_BIT)) with (request sel).
  destruct (poll_answer (host_set f (request sel) s) s1 f sel (S t)) as (t' & Ht); [done..| |done|].
  - destruct Hs as [Hc Hl]. cbn. rewrite fget_fset by (rewrite ?Hc, ?Hl; done). rewrite Hlen.
    destruct Hsel as [-> | ->]; done.
  - rewrite Ht. by exists t'.
Qed.

(** The two words of a 64-bit feature set. *)
Lemma feature_words bits : is_u64 bits ->
  Z.lor (u64 (Z.shiftl (feature_word 1 bits) 32)) (feature_word 0 bits) = bits.
Proof.
  intros Hb. unfold feature_word. rewrite Z.shiftr_0_r. change (32 * 1) with 32.
  apply Z.bits_inj'. intros i Hi. unfold u32. change 0x100000000 with (2 ^ 32).
  rewrite Z.lor_spec, u64_testbit, Z.shiftl_spec by done.
  destruct (Z.ltb_spec i 32).
  - rewrite (Z.testbit_neg_r _ (i - 32)), andb_false_r by lia. by rewrite Z.mod_pow2_bits_low.
  - rewrite (Z.mod_pow2_bits_high bits) by lia. rewrite orb_false_r.
    destruct (Z.ltb_spec i 64).
    + rewrite Z.mod_pow2_bits_low, Z.shiftr_spec by lia. by replace (i - 32 + 32) with i by lia.
    + cbn. symmetry. apply (testbit_small bits 64); [by apply u64_pow2|done].
Qed.

Lemma feature_word_u32 sel bits : is_u32 (feature_word sel bits).
Proof. apply u32_bound. Qed.

(** A selector [fs] and the word [fd] it shows, both written. *)
Lemma select_reads fs fd sel x c : field_ok fs = true -> f_len fs = 32 -> (f_word fs < length c)%nat ->
  sel = 0 \/ sel = 1 -> fget fs (fset fs sel (fset fd x c)) = sel.
Proof.
  intros Hok Hlen Hl Hsel. rewrite fget_fset by (rewrite ?length_fset; done). rewrite Hlen. by destruct Hsel as [-> | ->].
Qed.

Lemma word_reads fs fd sel x c : field_ok fs = true -> field_ok fd = true -> apart fd fs = true -> f_len fd = 32 ->
  (f_word fd < length c)%nat -> is_u32 x -> fget fd (fset fs sel (fset fd x c)) = x.
Proof. intros Hs Hd Ha Hlen Hl Hx. rewrite fget_fset_ne, fget_fset by done. rewrite Hlen. by apply land_small. Qed.

(** Reading the device's features. From registers in sync, and with at
    least one poll of the device during each wait, [octep_hw_get_dev_features]
    returns the 64 feature bits the device offers, however the polls fall
    between the accesses; it changes no register but the two it uses, and
    nothing else of the device. *)
Theorem get_dev_features_reads (s : vst E) (t : nat) :
  fair 1 -> in_sync s -> is_u64 (dev_feature_bits (s_dev s)) ->
  idle (fget device_feature_select (s_sh s)) = true ->
  exists s' t', octep_hw_get_dev_features s t = Ret (dev_feature_bits (s_dev s), s', t') /\
    in_sync s' /\ s_env s' = s_env s /\
    s_dev s' = set_common_cfg (s_sh s') (s_dev s) /\
    forall f, field_ok f = true -> apart f device_feature_select = true -> apart f device_feature = true ->
      fget f (s_sh s') = fget f (s_sh s).
Proof.
  intros Hf Hs Hbits Hidle. set (bits := dev_feature_bits (s_dev s)).
  set (ans := fun (sel : Z) c => fset device_feature_select sel (fset device_feature (feature_word sel bits) c)).
  set (at_ := fun c => {| s_dev := set_common_cfg c (s_dev s); s_sh := c; s_env := s_env s |}).
  assert (forall c, length c = 8%nat -> in_sync (at_ c)) as Hat by done.
  assert (forall sel c, length c = 8%nat -> length (ans sel c) = 8%nat) as Hlen
    by (intros; unfold ans; by rewrite !length_fset).
  assert (forall sel c, length c = 8%nat -> fget device_feature (ans sel c) = feature_word sel bits) as Hget.
  { intros sel c Hl. apply word_reads; [done..|cbn; lia|apply feature_word_u32]. }
  assert (forall sel c, sel = 0 \/ sel = 1 -> length c = 8%nat -> fget device_feature_select (ans sel c) = sel) as Hsel.
  { intros sel c Hsel Hl. apply select_reads; [done..|cbn; lia|done]. }
  pose proof Hs as [Hc Hl]. set (c0 := ans 0 (s_sh s)). set (c1 := ans 1 c0).
  assert (length c0 = 8%nat) as Hl0 by (by apply Hlen).
  unfold octep_hw_get_dev_features. unfold mbind at 1, host_mbind at 1.
  destruct (feature_sel_answer s (at_ c0) 0 device_feature_select t) as (t1 & Ht1);
    [done|done|apply Hat, Hlen, Hl|by apply device_feature_answer; auto|done|done|cbn; lia|by left|apply Hsel; auto|].
  rewrite Ht1. cbn [negb Z.eqb]. unfold mbind at 1, host_mbind at 1, ioread at 1.
  rewrite sweeps_in_sync by (by apply Hat, Hlen). cbn [mbind cres_mbind].
  unfold mbind at 1, host_mbind at 1.
  destruct (feature_sel_answer (at_ c0) (at_ c1) 1 device_feature_select (S t1)) as (t2 & Ht2);
    [done|by apply Hat, Hlen|by apply Hat, Hlen, Hlen| |done|done|cbn; lia|by right|apply Hsel; auto|].
  { apply (device_feature_answer (at_ c0) 1); [by apply Hat, Hlen|by right|]. cbn [s_sh at_]. unfold c0. rewrite Hsel by auto. done. }
  rewrite Ht2. cbn [negb Z.eqb]. unfold mbind at 1, host_mbind at 1, ioread at 1.
  rewrite sweeps_in_sync by (by apply Hat, Hlen, Hlen). cbn [mbind cres_mbind].
  exists (at_ c1), (S t2). cbn [s_dev at_ common_cfg set_common_cfg]. unfold c1 at 1, c0 at 2. rewrite !Hget by auto.
  unfold mret, host_mret. rewrite feature_words by done. split; [done|].
  split; [by apply Hat, Hlen, Hlen|]. split; [done|]. split; [done|]. intros f Hok H1 H2.
  cbn [s_sh at_]. unfold c1, c0, ans. by rewrite !fget_fset_ne by done.
Qed.

(** Writing the low word and then requesting the high one: wherever the polls
    fall, the device ends up with the low word stored. *)
Lemma low_then_select s c lo hi y k : is_u32 y -> is_u32 lo -> length c = 8%nat ->
  fget driver_feature c = lo -> idle (fget driver_feature_select c) = true ->
  exists s0, sweeps k (host_set driver_feature y (with_features s c 0 lo hi)) = Ret s0 /\
    (length (common_cfg (s_dev s0)) = 8%nat) /\
    sweep (host_set driver_feature_select (request 1) s0) =
      Ret (with_features s (fset driver_feature_select 1 (fset driver_feature hi c)) 1 y hi).
Proof.
  intros Hy Hlo Hl Hshow Hidle. set (s1 := with_features s c 0 lo hi).
  destruct k as [|k].
  - eexists. split; [done|]. split; [change (length (fset driver_feature y c) = 8%nat); by rewrite length_fset|].
    by rewrite (driver_feature_answer s1 1 y) by (done || by right).
  - cbn [sweeps]. rewrite (driver_feature_stored s1 y) by (done || by split). cbn [mbind cres_mbind].
    set (s2 := {| s_dev := _; s_sh := _; s_env := _ |}).
    assert (in_sync s2) as Hs2 by (split; [done|]; cbn [s_sh s2]; by rewrite length_fset).
    rewrite sweeps_in_sync by done. exists s2. split; [done|]. split; [apply Hs2|].
    assert (fget driver_feature (s_sh s2) = y) as Hy2.
    { cbn [s_sh s2]. rewrite fget_fset by (done || cbn; lia). by apply land_small. }
    rewrite (driver_select_answer s2 1); [|done|by right|by split|cbn [s_sh s2]; by rewrite fget_fset_ne].
    cbn [s_sh s2]. unfold with_features. cbn [s_sh s2 s1 with_features]. by rewrite fset_fset.
Qed.

Lemma low_word_u32 x : is_u32 (Z.land x (RTE_BIT64 32 - 1)).
Proof. change (RTE_BIT64 32 - 1) with (Z.ones 32). rewrite Z.land_ones by lia. apply u32_bound. Qed.

Lemma high_word_u32 x : is_u64 x -> is_u32 (Z.shiftr x 32).
Proof. intros Hx. unfold is_u64, is_u32 in *. rewrite Z.shiftr_div_pow2 by lia. change (2 ^ 32) with 0x100000000. word. Qed.

(** C20. Writing the driver's features. From registers in sync, and with at
    least one poll of the device during each wait, [octep_hw_set_drv_features]
    hands the 64 bits to the device however the polls fall between the
    accesses (even when the host selects the second word before the device
    has seen the first one): from the first poll after it returns, the device
    holds exactly these bits, and nothing else of it has changed but the two
    registers and which word is selected. *)
Theorem set_drv_features_stores (s : vst E) (t : nat) (features : Z) :
  fair 1 -> in_sync s -> is_u64 features -> shows_driver_feature s ->
  is_u32 (drv_feature_bits_lo (s_dev s)) -> is_u32 (drv_feature_bits_hi (s_dev s)) ->
  idle (fget driver_feature_select (s_sh s)) = true ->
  exists s' t', octep_hw_set_drv_features features s t = Ret (tt, s', t') /\
    forall m, exists c, sweeps (S m) s' =
        Ret (with_features s c 1 (Z.land features (RTE_BIT64 32 - 1)) (Z.shiftr features 32)) /\
      in_sync (with_features s c 1 (Z.land features (RTE_BIT64 32 - 1)) (Z.shiftr features 32)) /\
      forall f, field_ok f = true -> apart f driver_feature_select = true -> apart f driver_feature = true ->
        fget f c = fget f (s_sh s).
Proof.
  intros Hf Hs Hfeat Hshow Hlo Hhi Hidle. pose proof Hs as [Hc Hl].
  set (lo := drv_feature_bits_lo (s_dev s)) in *. set (hi := drv_feature_bits_hi (s_dev s)) in *.
  set (y := Z.land features (RTE_BIT64 32 - 1)). set (z := Z.shiftr features 32).
  assert (is_u32 y) as Hy by apply low_word_u32. assert (is_u32 z) as Hz by (by apply high_word_u32).
  set (c0 := fset driver_feature_select 0 (fset driver_feature lo (s_sh s))).
  set (c1 := fset driver_feature_select 1 (fset driver_feature hi c0)).
  assert (length c0 = 8%nat) as Hl0 by (unfold c0; by rewrite !length_fset).
  assert (length c1 = 8%nat) as Hl1 by (unfold c1; by rewrite !length_fset).
  assert (fget driver_feature c0 = lo) as Hget0 by (apply word_reads; [done..|cbn; lia|done]).
  assert (fget driver_feature c1 = hi) as Hget1 by (apply word_reads; [done..|change (1 < length c0)%nat; lia|done]).
  set (s0 := with_features s c0 0 lo hi). set (s1 := with_features s c1 1 y hi).
  assert (in_sync s0) as Hs0 by (by apply with_features_sync).
  assert (in_sync s1) as Hs1 by (by apply with_features_sync).
  assert (fget driver_feature_select (common_cfg (s_dev s0)) = 0) as Hsel0
    by (apply select_reads; [done..|cbn; lia|auto]).
  assert (fget driver_feature_select (common_cfg (s_dev s1)) = 1) as Hsel1
    by (apply select_reads; [done..|change (1 < length c0)%nat; lia|auto]).
  assert (sweep (host_set driver_feature_select (request 0) s) = Ret s0) as Hsw0
    by (by rewrite (driver_select_answer s 0) by auto).
  unfold octep_hw_set_drv_features. unfold mbind at 1, host_mbind at 1.
  destruct (feature_sel_answer s s0 0 driver_feature_select t) as (t1 & Ht1);
    [assumption..|reflexivity|reflexivity|cbn; lia|by left|assumption|].
  rewrite Ht1. cbn [negb Z.eqb]. unfold mbind at 1, host_mbind at 1, iowrite at 1.
  rewrite sweeps_in_sync by assumption. cbn [mbind cres_mbind]. unfold mbind at 1, host_mbind at 1.
  unfold feature_sel_write_with_timeout, mbind at 1, host_mbind at 1, iowrite at 1. fold y.
  destruct (low_then_select s c0 lo hi y (sched (S t1))) as (s2 & Hs2 & Hl2 & Hsw2);
    [assumption..|change (idle (fget driver_feature_select (common_cfg (s_dev s0))) = true); by rewrite Hsel0|].
  fold s0 in Hs2. fold c1 in Hsw2. fold s1 in Hsw2. rewrite Hs2.
  cbn [mbind cres_mbind]. unfold mbind at 1, host_mbind at 1.
  change (Z.lor 1 (Z.shiftl 1 FEATURE_SEL_ACK_BIT)) with (request 1).
  destruct (poll_answer (host_set driver_feature_select (request 1) s2) s1 driver_feature_select 1 (S (S t1)))
    as (t2 & ->); [assumption..| |assumption|].
  { cbn [host_set s_dev common_cfg set_common_cfg]. rewrite fget_fset by (done || cbn; lia). done. }
  unfold mret, host_mret, iowrite. cbn [negb Z.eqb]. rewrite sweeps_in_sync by assumption. cbn [mbind cres_mbind].
  eexists _, _. split; [done|]. intros m. cbn [sweeps].
  rewrite (driver_feature_stored s1 z); [|assumption|assumption|by split]. cbn [mbind cres_mbind].
  exists (fset driver_feature z c1). split; [|split].
  - apply sweeps_in_sync. split; [done|]. cbn [s_sh s1 with_features]. by rewrite length_fset.
  - apply with_features_sync. by rewrite length_fset.
  - intros f Hok H1 H2. unfold c1, c0. by rewrite !fget_fset_ne by done.
Qed.

(** ** Queues *)

(** The device answers a select request with its fourth poll. *)
Lemma queue_select_opens (s : vst E) t qid q : fair 4 -> at_rest s -> 0 <= qid < DAO_VIRTIO_MAX_QUEUES ->
  queue_conf (s_dev s) !! Z.to_nat qid = Some q ->
  exists t', octep_write_queue_select qid s t = Ret (tt, selected qid q s, t').
Proof.
  intros Hf Hr Hq Hconf. pose proof (fair_tries 4 Hf ltac:(lia)) as Ht. pose proof (ar_sync s Hr) as [Hc Hl].
  pose proof (selected_at_rest s qid q Hr Hq Hconf) as Hr'.
  pose proof Hq as Hq'. unfold DAO_VIRTIO_MAX_QUEUES in Hq'. destruct (request_queue qid) as [Hreq _]; [lia|].
  unfold octep_write_queue_select, mbind, host_mbind, iowrite at 1.
  rewrite sweeps_in_sync by apply Hr. cbn [mbind cres_mbind].
  change (Z.lor qid (Z.shiftl 1 QUEUE_SEL_ACK_BIT)) with (request qid).
  set (st := fun j => if decide (j < 4)%nat then host_set queue_select (request qid) (with_pend (Z.of_nat j) s)
                      else selected qid q s).
  assert (st 0%nat = host_set queue_select (request qid) s) as <-.
  { unfold st. rewrite decide_True by lia. f_equal. pose proof (ar_pend s Hr) as Hp. destruct s as [[]]. cbn in *. by subst. }
  destruct (poll_until_reaches st 4 queue_select qid) with (n := tries) (j := 0%nat) (t := S t) as (j & t' & Hp & Hj).
  - intros j. unfold st. destruct (decide (j < 4)%nat); [destruct (decide (S j < 4)%nat)|].
    + rewrite select_wait by (apply Hr || done || lia). do 3 f_equal. lia.
    + assert (j = 3%nat) as -> by lia. by apply select_done.
    + rewrite decide_False by lia. by apply sweep_in_sync, Hr'.
  - intros j. unfold st. destruct (decide (j < 4)%nat).
    + cbn [host_set with_pend s_dev]. rewrite common_cfg_set, fget_fset by (done || cbn; rewrite ?Hc, ?Hl; lia).
      rewrite land_small by (cbn; lia). lia.
    + cbn [selected s_dev]. rewrite common_cfg_set, fget_fset by (done || rewrite ?length_queue_load, ?Hl; cbn; lia).
      rewrite land_small by (cbn; lia). lia.
  - pose proof (Hf (S t)). lia.
  - done.
  - exists t'. rewrite Hp. unfold st. rewrite decide_False by lia. done.
Qed.

(** C21. Setting the size of a queue. With at least four polls of the device
    during each wait, [octep_set_vq_num] on a device at rest changes, from the
    first poll after it returns, the size in the configuration of queue [qid]
    to [num] and nothing else in the configuration of any queue, and leaves
    the device at rest with that queue selected. *)
Theorem set_vq_num_stores (s : vst E) (t : nat) (qid num : Z) (q : virtio_queue_conf) :
  fair 4 -> at_rest s -> 0 <= qid < DAO_VIRTIO_MAX_QUEUES ->
  queue_conf (s_dev s) !! Z.to_nat qid = Some q -> is_u16 num ->
  exists s' t', octep_set_vq_num qid num s t = Ret (tt, s', t') /\
    forall m, exists s'', sweeps (S m) s' = Ret s'' /\ at_rest s'' /\
      prev_queue_select (s_dev s'') = qid /\
      queue_conf (s_dev s'') = <[Z.to_nat qid := set_qc_size num q]> (queue_conf (s_dev s)) /\
      s_env s'' = s_env s.
Proof.
  intros Hf Hr Hq Hconf Hnum. destruct (queue_select_opens s t qid q Hf Hr Hq Hconf) as (t1 & Ht1).
  pose proof (selected_at_rest s qid q Hr Hq Hconf) as Hr1.
  unfold octep_set_vq_num, mbind, host_mbind. rewrite Ht1. unfold iowrite.
  rewrite sweeps_in_sync by apply Hr1. cbn [mbind cres_mbind]. eexists _, _. split; [done|].
  destruct (queue_register_stores queue_size set_qc_size (selected qid q s) qid q num)
    as (s2 & Hsw & Hr2 & Hdev & Henv); [apply elem_of_cons; by left|done|done| |done|done|].
  { unfold DAO_VIRTIO_MAX_QUEUES, VIRTIO_INVALID_QUEUE_INDEX in *. lia. }
  intros m. exists s2. cbn [sweeps]. rewrite Hsw. cbn [mbind cres_mbind].
  rewrite sweeps_in_sync by apply Hr2. rewrite Hdev. done.
Qed.
(** ** Reset *)

(** C29. Resetting the device. With at least one poll of the device during the
    wait, [octep_hw_reset] returns with the reset done: from the first poll
    after it returns, the status register reads 0, the flags of the device are
    clear, every queue has its default configuration and its notification word
    the initial wrap count, no queue is selected, there is no control queue,
    the features offered are back, and registers and shadow agree. The
    callback of the device type ran once, before anything was reset. *)
Theorem hw_reset_resets (s : vst E) (t : nat) : fair 1 -> resettable s ->
  exists s' t', octep_hw_reset s t = Ret (tt, s', t') /\
    forall m, exists s'', sweeps (S m) s' = Ret s'' /\ in_sync s'' /\
      fget device_status (common_cfg (s_dev s'')) = 0 /\
      device_state (s_dev s'') = {| driver_ok := false; features_ok := false; acknowledge := false; driver := false |} /\
      (forall i, 0 <= i < u16 (max_virtio_queues (s_dev s)) ->
         queue_conf (s_dev s'') !! Z.to_nat i = Some queue_conf0 /\
         notify (s_dev s'') !! Z.to_nat i = Some 0x80000000) /\
      prev_queue_select (s_dev s'') = VIRTIO_INVALID_QUEUE_INDEX /\
      cq (s_dev s'') = None /\ feature_bits (s_dev s'') = dev_feature_bits (s_dev s) /\
      s_env s'' = reset_env (s_dev (host_set device_status 0x80 s)) (s_env s).
Proof.
  intros Hf Hr. pose proof (rs_sync s Hr) as [Hc Hl]. pose proof (after_reset_sync s Hr) as Hs2.
  set (st := fun j => match j with O => host_set device_status 0x80 s | S O => after_reset false s
                                 | _ => after_reset true s end).
  assert (forall j, sweep (st j) = Ret (st (S j))) as Hst.
  { intros [|[|j]]; cbn [st]; [by apply reset_poll|by apply reset_settles|by apply sweep_in_sync]. }
  assert (fget device_status (reset_cfg (s_sh s)) = 0) as H0.
  { apply status_after; [done|]. by rewrite !length_fset. }
  destruct (poll_until_reaches st 1 device_status 0) with (n := tries) (j := 0%nat) (t := S t) as (j & t' & Hp & Hj).
  - done.
  - intros [|[|j]]; cbn [st]; [|split; [lia|done]..]. cbn [host_set s_dev]. rewrite common_cfg_set, Hc.
    rewrite status_after by done. lia.
  - pose proof (Hf (S t)). lia.
  - apply (fair_tries 1); [done|lia].
  - exists (st j), t'. split.
    { unfold octep_hw_reset, octep_hw_set_status, mbind, host_mbind, iowrite. rewrite sweeps_in_sync by apply Hr.
      cbn [mbind cres_mbind]. change (Z.lor 0 (Z.shiftl 1 DEV_RST_ACK_BIT)) with 0x80.
      change (host_set device_status 0x80 s) with (st 0%nat). by rewrite Hp. }
    intros m. exists (after_reset true s). rewrite (sweeps_family st Hst).
    split; [by destruct j as [|[|j]]; [lia|..]; destruct m|]. split; [done|]. split; [done|]. split; [done|].
    split; [|done]. intros i Hi. cbn. split; by rewrite lookup_app_l, lookup_replicate_2 by (rewrite ?length_replicate; lia).
Qed.
End host.

(** ** Witnesses

    The device polls once before every third access of the host. *)
#[local] Existing Instance wit_env.

Definition wit_sched (t : nat) : nat := if Nat.eqb (t mod 3) 0 then 1 else 0.

Lemma wit_fair m : fair wit_sched (3 * m) m.
Proof.
  assert (forall t, polls wit_sched 3 t = 1%nat) as H3.
  { intros t. cbn [polls]. unfold wit_sched.
    pose proof (Nat.div_mod_eq t 3). pose proof (Nat.div_mod_eq (S t) 3). pose proof (Nat.div_mod_eq (S (S t)) 3).
    pose proof (Nat.mod_upper_bound t 3). pose proof (Nat.mod_upper_bound (S t) 3). pose proof (Nat.mod_upper_bound (S (S t)) 3).
    destruct (Nat.eqb_spec (t mod 3) 0), (Nat.eqb_spec (S t mod 3) 0), (Nat.eqb_spec (S (S t) mod 3) 0); lia. }
  assert (forall n k t, polls wit_sched (n + k) t = (polls wit_sched n t + polls wit_sched k (n + t))%nat) as Happ.
  { induction n as [|n IH]; intros k t; cbn [polls Nat.add]; [done|]. rewrite IH, <- Nat.add_assoc.
    by replace (n + S t)%nat with (S (n + t)) by lia. }
  unfold fair. induction m as [|m IH]; intros t; [lia|].
  replace (3 * S m)%nat with (3 + 3 * m)%nat by lia. rewrite Happ, H3. specialize (IH (3 + t)%nat). lia.
Qed.

Lemma get_dev_features_reads_witness :
  exists s' t', octep_hw_get_dev_features wit_sched 3 (wit_vst 3 false) 0%nat = Ret (0x500000021, s', t') /\ in_sync s'.
Proof.
  destruct (get_dev_features_reads wit_sched 3 (wit_vst 3 false) 0%nat) as (s' & t' & Hret & Hs & _).
  - exact (wit_fair 1).
  - apply wit_in_sync.
  - unfold is_u64. cbn. lia.
  - reflexivity.
  - exists s', t'. split; [exact Hret|exact Hs].
Defined.

Lemma set_drv_features_stores_witness :
  exists s' t', octep_hw_set_drv_features wit_sched 3 0x300000005 (wit_vst 3 false) 0%nat = Ret (tt, s', t') /\
    exists c, sweeps 1 s' = Ret (with_features (wit_vst 3 false) c 1 5 3).
Proof.
  destruct (set_drv_features_stores wit_sched 3 (wit_vst 3 false) 0%nat 0x300000005) as (s' & t' & Hret & Hm).
  - exact (wit_fair 1).
  - apply wit_in_sync.
  - unfold is_u64. lia.
  - split; intros Hp; vm_compute in Hp; discriminate Hp.
  - unfold is_u32. cbn. lia.
  - unfold is_u32. cbn. lia.
  - reflexivity.
  - exists s', t'. split; [exact Hret|]. destruct (Hm 0%nat) as (c & Hc & _). exists c. exact Hc.
Defined.

Lemma set_vq_num_stores_witness :
  exists s' t', octep_set_vq_num wit_sched 12 1 256 (wit_vst 11 true) 0%nat = Ret (tt, s', t') /\
    exists s'', sweeps 1 s' = Ret s'' /\ qc_size <$> (queue_conf (s_dev s'') !! 1%nat) = Some 256.
Proof.
  destruct (set_vq_num_stores wit_sched 12 (wit_vst 11 true) 0%nat 1 256 queue_conf0) as (s' & t' & Hret & Hm).
  - exact (wit_fair 4).
  - exact wit_at_rest.
  - unfold DAO_VIRTIO_MAX_QUEUES. lia.
  - reflexivity.
  - unfold is_u16. lia.
  - exists s', t'. split; [exact Hret|]. destruct (Hm 0%nat) as (s'' & Hsw & _ & _ & Hq & _).
    exists s''. split; [exact Hsw|]. rewrite Hq. reflexivity.
Defined.

Lemma hw_reset_resets_witness :
  exists s' t', octep_hw_reset wit_sched 3 (wit_vst 11 true) 0%nat = Ret (tt, s', t') /\
    exists s'', sweeps 1 s' = Ret s'' /\ features_ok (device_state (s_dev s'')) = false /\ s_env s'' = [0].
Proof.
  destruct (hw_reset_resets wit_sched 3 (wit_vst 11 true) 0%nat) as (s' & t' & Hret & Hm).
  - exact (wit_fair 1).
  - split; [apply wit_in_sync|vm_compute; reflexivity|vm_compute; reflexivity|vm_compute; lia|vm_compute; lia].
  - exists s', t'. split; [exact Hret|]. destruct (Hm 0%nat) as (s'' & Hsw & _ & _ & Hd & _ & _ & _ & _ & He).
    exists s''. rewrite Hd, He. split; [exact Hsw|]. split; reflexivity.
Defined.
