(* ===== verification/Mbox.v ===== *)
(** * The mailbox between host and device
      (lib/virtio/virtio_mbox.c and octep_vdpa_hw.c of the host driver)

    The host asks for the state of a queue through a mailbox in the memory it
    shares with the device: a header of 64 bits, a status word and data words.
    The header is a region the poll thread of [Pem] watches
    ([mbox_region_check]). The device works access by access ([mstep]), and any
    number of its steps come before each access of the host, so that the host
    can read between the stores of [sts.rc], [sts.rsp], [hdr.sig] and
    [hdr.id]. Memory is sequentially consistent and an aligned word is read or
    written at once. Steps the host does not interrupt are the callback
    [virtio_mbox_process_cb] ([steps_process]). *)
From stdpp Require Import base option list numbers gmap.
From S2P Require Import Prelude Rte Pem.

Local Open Scope Z_scope.

Definition MBOX_MSG_SET_VQ_STATE : Z := 1.
Definition MBOX_MSG_GET_VQ_STATE : Z := 2.
Definition MBOX_REQ_SIG : Z := 0xdead.
Definition MBOX_RSP_SIG : Z := 0xbeef.
Definition ETIMEDOUT : Z := 110.

(** ** The mailbox

    [hdr], [sts] and [data] of [struct virtio_mbox], as words. *)
Record virtio_mbox := { mb_hdr : Z; mb_sts : Z; mb_data : list Z }.

(** [hdr.id] is bits 16 to 31 and [hdr.sig] bits 48 to 63. *)
Definition hdr_id (h : Z) : Z := u16 (h / 0x10000).
Definition hdr_sig (h : Z) : Z := u16 (h / 0x1000000000000).
Definition put_id (x h : Z) : Z := h - 0x10000 * hdr_id h + 0x10000 * x.
Definition put_sig (x h : Z) : Z := h - 0x1000000000000 * hdr_sig h + 0x1000000000000 * x.

(** [sts.rsp] is bit 0 and [sts.rc] bits 1 to 15. *)
Definition sts_rc (s : Z) : Z := (s / 2) mod 0x8000.
Definition put_rc (x s : Z) : Z := s - 2 * sts_rc s + 2 * (x mod 0x8000).
Definition put_rsp (x s : Z) : Z := s - s mod 2 + x mod 2.

Definition set_hdr (h : Z) (m : virtio_mbox) : virtio_mbox := {| mb_hdr := h; mb_sts := mb_sts m; mb_data := mb_data m |}.
Definition set_sts (x : Z) (m : virtio_mbox) : virtio_mbox := {| mb_hdr := mb_hdr m; mb_sts := x; mb_data := mb_data m |}.
Definition put_data (d : list Z) (m : virtio_mbox) : virtio_mbox := {| mb_hdr := mb_hdr m; mb_sts := mb_sts m; mb_data := d |}.

(** [struct virtio_vq_state] as a word: a counter bit and an index, twice. *)
Definition vq_state (last_avail_counter last_avail_idx last_used_counter last_used_idx : Z) : Z :=
  last_avail_counter + 2 * last_avail_idx + 0x10000 * (last_used_counter + 2 * last_used_idx).

(** ** The device *)
Definition virtio_mbox_process (m : virtio_mbox) : cres virtio_mbox :=
  '(rc, m) ←
    (if negb (hdr_sig (mb_hdr m) =? MBOX_REQ_SIG) then Ret (EINVAL, m)
     else if hdr_id (mb_hdr m) =? MBOX_MSG_GET_VQ_STATE then
       d ← cset (mb_data m) 1 (vq_state 1 0 1 0); Ret (0, put_data d m)
     else if hdr_id (mb_hdr m) =? MBOX_MSG_SET_VQ_STATE then Ret (0, m)
     else Ret (EINVAL, m));
  let m := set_sts (put_rc rc (mb_sts m)) m in
  let m := set_sts (put_rsp 1 (mb_sts m)) m in
  let m := set_hdr (put_sig MBOX_RSP_SIG (mb_hdr m)) m in
  Ret (set_hdr (put_id 0 (mb_hdr m)) m).

(** What the poll thread does with the header of the mailbox, access by
    access: it compares the header with the shadow and calls the callback when
    they differ, the callback stores the new shadow, reads the signature and
    the id, stores the answer byte by byte, then the two fields of the status,
    the signature and the id, and copies the header to the shadow. *)
Inductive dpc := PPoll | PSig | PId | PByte (k : nat) | PRc (rc : Z) | PRsp | PSetSig | PClearId | PCopy.

Record mst := { ms_mbox : virtio_mbox; ms_shadow : Z; ms_pc : dpc }.

(** Byte [k] of a word. *)
Definition byte_of (k : nat) (w : Z) : Z := (w / 256 ^ Z.of_nat k) mod 256.
Definition put_byte (k : nat) (x w : Z) : Z := w - 256 ^ Z.of_nat k * byte_of k w + 256 ^ Z.of_nat k * x.

Definition at_pc (pc : dpc) (m : virtio_mbox) (s : mst) : mst := {| ms_mbox := m; ms_shadow := ms_shadow s; ms_pc := pc |}.

Definition mstep (s : mst) : cres mst :=
  let m := ms_mbox s in
  match ms_pc s with
  | PPoll => Ret (if mb_hdr m =? ms_shadow s then s else {| ms_mbox := m; ms_shadow := mb_hdr m; ms_pc := PSig |})
  | PSig => Ret (at_pc (if negb (hdr_sig (mb_hdr m) =? MBOX_REQ_SIG) then PRc EINVAL else PId) m s)
  | PId => Ret (at_pc (if hdr_id (mb_hdr m) =? MBOX_MSG_GET_VQ_STATE then PByte 0
                       else if hdr_id (mb_hdr m) =? MBOX_MSG_SET_VQ_STATE then PRc 0 else PRc EINVAL) m s)
  | PByte k =>
      w ← cget (mb_data m) 1; d ← cset (mb_data m) 1 (put_byte k (byte_of k (vq_state 1 0 1 0)) w);
      Ret (at_pc (if (k =? 3)%nat then PRc 0 else PByte (S k)) (put_data d m) s)
  | PRc rc => Ret (at_pc PRsp (set_sts (put_rc rc (mb_sts m)) m) s)
  | PRsp => Ret (at_pc PSetSig (set_sts (put_rsp 1 (mb_sts m)) m) s)
  | PSetSig => Ret (at_pc PClearId (set_hdr (put_sig MBOX_RSP_SIG (mb_hdr m)) m) s)
  | PClearId => Ret (at_pc PCopy (set_hdr (put_id 0 (mb_hdr m)) m) s)
  | PCopy => Ret {| ms_mbox := m; ms_shadow := mb_hdr m; ms_pc := PPoll |}
  end.

Fixpoint msteps (n : nat) (s : mst) : cres mst :=
  match n with O => Ret s | S n => s ← mstep s; msteps n s end.

(** The callback as a whole, when the host does not touch the mailbox in the
    meantime ([steps_process]): the mailbox and the shadow. *)
Definition virtio_mbox_process_cb (val : Z) (m : virtio_mbox) : cres (virtio_mbox * Z) :=
  m ← virtio_mbox_process m; Ret (m, mb_hdr m).

(** Start and end: the header is cleared and the region registered with a
    shadow of zeros. *)
Definition virtio_mbox_init (base : Z) (mem : option Z) (m : virtio_mbox) (p : pem unit) : cres (Z * virtio_mbox * pem unit) :=
  let m := set_hdr 0 m in
  '(rc, p) ← dao_pem_ctrl_region_register base 8 tt false mem [] p;
  Ret (rc, m, p).

Definition virtio_mbox_fini (base : Z) (p : pem unit) : cres (pem unit) :=
  '(_, p) ← dao_pem_ctrl_region_unregister base 8 tt p;
  Ret p.

(** The world the poll thread works on: the mailbox at [mw_addr], and the
    registry of regions. *)
Record mworld := { mw_mbox : virtio_mbox; mw_addr : Z; mw_pem : pem unit }.

Definition put_mbox (w : mworld) (a : Z) (r : pem_region unit) (m : virtio_mbox) (shd : Z) : mworld :=
  {| mw_mbox := m; mw_addr := mw_addr w;
     mw_pem := pem_set_regions (mw_pem w) (regions (mw_pem w)) (region_mask (mw_pem w))
       (<[a := {| reg_base := reg_base r; reg_sz := reg_sz r; reg_cb := reg_cb r; shadow := [shd] |}]> (heap (mw_pem w))) |}.

#[export] Instance mworld_pem : PemWorld mworld unit := {
  w_pem := mw_pem;
  reg_read a w := if a =? mw_addr w then mb_hdr (mw_mbox w) else 0;
  run_cb _ a i val shd_val w :=
    match heap (mw_pem w) !! a with
    | None => Fault
    | Some r =>
        '(m, shd) ← virtio_mbox_process_cb val (mw_mbox w);
        Ret (put_mbox w a r m shd)
    end;
}.

(** ** The host

    A program runs from a state at an access number. [sched t] is how many
    steps the device makes before access [t], [tries] how many reads
    [readx_poll_timeout] makes before its timeout. *)
Definition mhost (A : Type) : Type := mst -> nat -> cres (A * mst * nat).

#[export] Instance mhost_mret : MRet mhost := fun A a s t => Ret (a, s, t).
#[export] Instance mhost_mbind : MBind mhost := fun A B f m s t =>
  match m s t with Ret (a, s, t) => f a s t | Panic => Panic | Fault => Fault end.

Definition MBOX_RSP_MASK : Z := 0x1.
Definition MBOX_RC_MASK : Z := 0xFFFE.
Definition MBOX_RSP_TO_ERR (val : Z) : Z := i32 (u32 (- Z.shiftr (Z.land val MBOX_RC_MASK) 2)).
Definition MBOX_AVAIL (val : Z) : Z := Z.land val MBOX_RSP_MASK.
Definition MBOX_RSP (val : Z) : Z := Z.land val (Z.lor MBOX_RC_MASK MBOX_RSP_MASK).

Section mhost.
Context (sched : nat -> nat) (tries : nat).

Definition mread {A} (f : virtio_mbox -> cres A) : mhost A := fun s t =>
  s ← msteps (sched t) s; x ← f (ms_mbox s); Ret (x, s, S t).

Definition mwrite (f : virtio_mbox -> cres virtio_mbox) : mhost unit := fun s t =>
  s ← msteps (sched t) s;
  m ← f (ms_mbox s);
  Ret (tt, at_pc (ms_pc s) m s, S t).

Definition octep_write_id (id : Z) : mhost unit := mwrite (fun m => Ret (set_hdr (put_id id (mb_hdr m)) m)).
Definition octep_write_sig (sig : Z) : mhost unit := mwrite (fun m => Ret (set_hdr (put_sig sig (mb_hdr m)) m)).
Definition octep_write_hdr (id sig : Z) : mhost unit := _ ← octep_write_id id; octep_write_sig sig.
Definition octep_read_sig : mhost Z := mread (fun m => Ret (hdr_sig (mb_hdr m))).
Definition octep_write_sts (sts : Z) : mhost unit := mwrite (fun m => Ret (set_sts sts m)).
Definition octep_read_sts : mhost Z := mread (fun m => Ret (mb_sts m)).
Definition octep_read32_word (i : Z) : mhost Z := mread (fun m => cget (mb_data m) i).
Definition octep_write32_word (i word : Z) : mhost unit := mwrite (fun m => d ← cset (mb_data m) i word; Ret (put_data d m)).

(** [readx_poll_timeout(ioread32, &mbox->sts, val, cond, ...)] *)
Fixpoint sts_poll (n : nat) (cond : Z -> Z) : mhost Z :=
  match n with
  | O => mret (- ETIMEDOUT)
  | S n => val ← octep_read_sts; if negb (cond val =? 0) then mret 0 else sts_poll n cond
  end.

Definition octep_wait_for_mbox_avail : mhost Z := sts_poll tries MBOX_AVAIL.
Definition octep_wait_for_mbox_rsp : mhost Z := sts_poll tries MBOX_RSP.

(** [for (i = 1; i <= data_wds; i++)] over the words of the buffer. *)
Fixpoint write_words (i : Z) (p : list Z) : mhost unit :=
  match p with [] => mret tt | x :: p => _ ← octep_write32_word i x; write_words (i + 1) p end.

Fixpoint read_words (n : nat) (i : Z) : mhost (list Z) :=
  match n with O => mret [] | S n => x ← octep_read32_word i; p ← read_words n (i + 1); mret (x :: p) end.

(** The parts of [octep_process_mbox]: reading the answer (the result and,
    for a read, the words read), and from the write of the queue's number on. *)
Definition mbox_answer (data_wds : Z) (write : bool) : mhost (Z * list Z) :=
  val ← octep_read_sig;
  if negb (Z.land val 0xFFFF =? MBOX_RSP_SIG) then mret (- EINVAL, [])
  else
    val ← octep_read_sts;
    if negb (Z.land val MBOX_RC_MASK =? 0) then mret (MBOX_RSP_TO_ERR val, [])
    else if write then mret (0, [])
    else p ← read_words (Z.to_nat data_wds) 1; mret (0, p).

Definition mbox_request (id qid data_wds : Z) (write : bool) : mhost (Z * list Z) :=
  _ ← octep_write32_word 0 (u32 qid);
  _ ← octep_write_sts 0;
  _ ← octep_write_hdr id MBOX_REQ_SIG;
  ret ← octep_wait_for_mbox_rsp;
  if negb (ret =? 0) then mret (ret, []) else mbox_answer data_wds write.

Definition octep_process_mbox (id qid : Z) (buffer : list Z) (buf_size : Z) (write : bool) : mhost (Z * list Z) :=
  if negb (buf_size mod 4 =? 0) then mret (- EINVAL, [])
  else
    ret ← octep_wait_for_mbox_avail;
    if negb (ret =? 0) then mret (ret, [])
    else
      let data_wds := u16 (buf_size / 4) in
      _ ← (if write then write_words 1 (take (Z.to_nat data_wds) buffer) else mret tt);
      mbox_request id qid data_wds write.

(** [octep_mbox_init] *)
Definition octep_mbox_init : mhost unit := octep_write_sts 1.

(** [sizeof(struct vdpa_vq_state)] is 4. *)
Definition octep_get_vq_state (qid : Z) : mhost (Z * list Z) := octep_process_mbox MBOX_MSG_GET_VQ_STATE qid [] 4 false.
Definition octep_set_vq_state (qid state : Z) : mhost (Z * list Z) := octep_process_mbox MBOX_MSG_SET_VQ_STATE qid [state] 4 true.
End mhost.

(** ** The fields of the header *)
Ltac hdr_solve := unfold put_id, put_sig, hdr_id, hdr_sig, is_u16, u16 in *; Z.to_euclidean_division_equations; lia.

Lemma hdr_id_put_id x h : is_u16 x -> hdr_id (put_id x h) = x.
Proof. hdr_solve. Qed.

Lemma hdr_sig_put_id x h : is_u16 x -> hdr_sig (put_id x h) = hdr_sig h.
Proof. hdr_solve. Qed.

Lemma hdr_id_put_sig x h : hdr_id (put_sig x h) = hdr_id h.
Proof. unfold put_sig. generalize (hdr_sig h). intros y. hdr_solve. Qed.

Lemma hdr_sig_put_sig x h : is_u16 x -> hdr_sig (put_sig x h) = x.
Proof. hdr_solve. Qed.

Lemma hdr_sig_u16 h : is_u16 (hdr_sig h).
Proof. hdr_solve. Qed.

(** ** The steps of the device *)
Definition quiet (s : mst) : Prop := ms_pc s = PPoll /\ ms_shadow s = mb_hdr (ms_mbox s).

Lemma mstep_quiet s : quiet s -> mstep s = Ret s.
Proof. intros [Hpc Hs]. unfold mstep. by rewrite Hpc, Hs, Z.eqb_refl. Qed.

Lemma msteps_quiet n s : quiet s -> msteps n s = Ret s.
Proof. intros Hs. induction n as [|n IH]; [done|]. cbn [msteps]. by rewrite mstep_quiet. Qed.

Lemma msteps_add n m s : msteps (n + m) s = s' ← msteps n s; msteps m s'.
Proof.
  revert s. induction n as [|n IH]; intros s; [done|]. cbn [Nat.add msteps].
  destruct (mstep s) as [s'| |]; cbn [mbind cres_mbind]; [apply IH|done..].
Qed.

(** A run that ends in a quiet state. *)
Lemma msteps_run (tr : nat -> mst) k L : (forall i, (k <= i < L)%nat -> mstep (tr i) = Ret (tr (S i))) -> quiet (tr L) ->
  forall n i, (k <= i <= L)%nat -> msteps n (tr i) = Ret (tr (Nat.min (i + n) L)).
Proof.
  intros Hstep Hq. induction n as [|n IH]; intros i Hi.
  - cbn. f_equal. f_equal. lia.
  - destruct (decide (i = L)) as [->|Hne]; [rewrite msteps_quiet by done; do 2 f_equal; lia|].
    cbn [msteps]. rewrite Hstep by lia. cbn [mbind cres_mbind]. rewrite IH by lia. do 2 f_equal. lia.
Qed.

(** *** A request that is served *)

Definition known_id (id : Z) : Prop := id = MBOX_MSG_GET_VQ_STATE \/ id = MBOX_MSG_SET_VQ_STATE.

(** The places the device goes through, and the number of steps to the one
    where [rsp] has been set. *)
Definition served_pcs (id : Z) : list dpc :=
  [PPoll; PSig; PId] ++ (if id =? MBOX_MSG_GET_VQ_STATE then PByte <$> seq 0 4 else []) ++ [PRc 0; PRsp; PSetSig; PClearId; PCopy; PPoll].

Definition rsp_step (id : Z) : nat := if id =? MBOX_MSG_GET_VQ_STATE then 9 else 5.

(** The word with its first [j] bytes stored. *)
Definition fill (j : nat) (w : Z) : Z := foldl (fun w k => put_byte k (byte_of k (vq_state 1 0 1 0)) w) w (seq 0 j).

Lemma fill_4 w : is_u32 w -> fill 4 w = vq_state 1 0 1 0.
Proof.
  intros Hw. unfold fill. cbn [seq foldl]. unfold put_byte, byte_of, vq_state.
  change (256 ^ Z.of_nat 0) with 1. change (256 ^ Z.of_nat 1) with 256. change (256 ^ Z.of_nat 2) with 65536. change (256 ^ Z.of_nat 3) with 16777216.
  unfold is_u32 in Hw. Z.to_euclidean_division_equations. lia.
Qed.

Definition served_data (id : Z) (j : nat) (d : list Z) : list Z :=
  if id =? MBOX_MSG_GET_VQ_STATE then alter (fill j) 1%nat d else d.

Definition replied_hdr (h : Z) : Z := put_id 0 (put_sig MBOX_RSP_SIG h).

(** The state after [n] steps on the request in [m]; [shd] is the shadow while
    the callback runs. *)
Definition served_at (id : Z) (m : virtio_mbox) (sh0 shd : Z) (n : nat) : mst :=
  let r := rsp_step id in
  {| ms_mbox := {| mb_hdr := if (n <=? r)%nat then mb_hdr m else if (n =? r + 1)%nat then put_sig MBOX_RSP_SIG (mb_hdr m)
                             else replied_hdr (mb_hdr m);
                   mb_sts := if (n <? r)%nat then 0 else 1;
                   mb_data := served_data id (Nat.min 4 (n - 3)) (mb_data m) |};
     ms_shadow := if (n =? 0)%nat then sh0 else if (n <? r + 3)%nat then shd else replied_hdr (mb_hdr m);
     ms_pc := default PPoll (served_pcs id !! n) |}.

(** The steps by their place. *)
Lemma data_word (d : list Z) : (2 <= length d)%nat -> exists w, d !! 1%nat = Some w /\ cget d 1 = Ret w /\ forall x, cset d 1 x = Ret (<[1%nat := x]> d).
Proof.
  intros Hl. destruct (lookup_lt_is_Some_2 d 1) as [w Hw]; [lia|]. exists w. split; [done|]. split; [by apply cget_Ret|].
  intros x. by rewrite cset_in_range by lia.
Qed.

Lemma mstep_byte s k d : ms_pc s = PByte k ->
  (w ← cget (mb_data (ms_mbox s)) 1; cset (mb_data (ms_mbox s)) 1 (put_byte k (byte_of k (vq_state 1 0 1 0)) w)) = Ret d ->
  mstep s = Ret (at_pc (if (k =? 3)%nat then PRc 0 else PByte (S k)) (put_data d (ms_mbox s)) s).
Proof.
  intros Hpc Hd. unfold mstep. rewrite Hpc. destruct (cget _ 1) as [w| |]; cbn [mbind cres_mbind] in *; [|done..]. by rewrite Hd.
Qed.

Lemma mstep_sig s : ms_pc s = PSig -> hdr_sig (mb_hdr (ms_mbox s)) = MBOX_REQ_SIG -> mstep s = Ret (at_pc PId (ms_mbox s) s).
Proof. intros Hpc Hs. unfold mstep. by rewrite Hpc, Hs. Qed.

Lemma mstep_nosig s : ms_pc s = PSig -> hdr_sig (mb_hdr (ms_mbox s)) <> MBOX_REQ_SIG -> mstep s = Ret (at_pc (PRc EINVAL) (ms_mbox s) s).
Proof. intros Hpc Hs. unfold mstep. by rewrite Hpc, (proj2 (Z.eqb_neq _ _) Hs). Qed.

Lemma mstep_new s : ms_pc s = PPoll -> ms_shadow s <> mb_hdr (ms_mbox s) ->
  mstep s = Ret {| ms_mbox := ms_mbox s; ms_shadow := mb_hdr (ms_mbox s); ms_pc := PSig |}.
Proof. intros Hpc Hs. unfold mstep. by rewrite Hpc, (proj2 (Z.eqb_neq _ _)) by congruence. Qed.

Lemma mstep_id s x : ms_pc s = PId -> hdr_id (mb_hdr (ms_mbox s)) = x -> known_id x ->
  mstep s = Ret (at_pc (if x =? MBOX_MSG_GET_VQ_STATE then PByte 0 else PRc 0) (ms_mbox s) s).
Proof. intros Hpc Hs Hk. unfold mstep. rewrite Hpc, Hs. by destruct Hk as [-> | ->]. Qed.

(** A byte is stored. *)
Lemma served_byte (d : list Z) j : (2 <= length d)%nat ->
  (w ← cget (served_data MBOX_MSG_GET_VQ_STATE j d) 1;
   cset (served_data MBOX_MSG_GET_VQ_STATE j d) 1 (put_byte j (byte_of j (vq_state 1 0 1 0)) w)) = Ret (served_data MBOX_MSG_GET_VQ_STATE (S j) d).
Proof.
  intros Hlen. unfold served_data. cbn [Z.eqb MBOX_MSG_GET_VQ_STATE Pos.eqb].
  destruct (data_word d Hlen) as (w & Hw & _).
  rewrite (proj2 (cget_Ret _ _ (fill j w))) by (split; [lia|]; rewrite list_lookup_alter_eq, Hw; done). cbn [mbind cres_mbind].
  rewrite cset_in_range by (rewrite length_alter; lia). f_equal. change (Z.to_nat 1) with 1%nat.
  apply list_eq. intros k. destruct (decide (k = 1%nat)) as [->|Hk].
  - rewrite list_lookup_insert_eq, list_lookup_alter_eq, Hw by (rewrite length_alter; lia). cbn [fmap option_fmap option_map]. f_equal.
    unfold fill. rewrite seq_S, foldl_app. done.
  - by rewrite list_lookup_insert_ne, !list_lookup_alter_ne by done.
Qed.

Section served.
Context (id : Z) (m : virtio_mbox) (sh0 shd : Z).
Hypothesis (Hid : known_id id) (Hsig : hdr_sig (mb_hdr m) = MBOX_REQ_SIG) (Hhdr : hdr_id (mb_hdr m) = id) (Hlen : (2 <= length (mb_data m))%nat).

Lemma served_step i : (1 <= i < rsp_step id + 3)%nat -> mstep (served_at id m sh0 shd i) = Ret (served_at id m sh0 shd (S i)).
Proof.
  intros Hi. pose proof Hid as Hk. destruct Hk as [Hg|Hs].
  - assert (rsp_step id = 9%nat) as Hr by (by rewrite Hg).
    assert (forall j, (j < 4)%nat -> mstep (served_at id m sh0 shd (3 + j)) = Ret (served_at id m sh0 shd (4 + j))) as Hb.
    { intros j Hj. rewrite Hg, (mstep_byte _ j (served_data MBOX_MSG_GET_VQ_STATE (S j) (mb_data m))).
      - f_equal. destruct j as [|[|[|[|]]]]; [reflexivity..|lia].
      - destruct j as [|[|[|[|]]]]; [reflexivity..|lia].
      - cbn [served_at ms_mbox mb_data]. replace (Nat.min 4 (3 + j - 3)) with j by lia. by apply served_byte. }
    rewrite Hr in Hi. rewrite Hg in *.
    assert (i = 1 \/ i = 2 \/ (3 <= i < 7) \/ i = 7 \/ i = 8 \/ i = 9 \/ i = 10 \/ i = 11)%nat as Hc by lia.
    destruct Hc as [-> |[-> |[Hc |[-> |[-> |[-> |[-> | ->]]]]]]]; try reflexivity.
    + rewrite mstep_sig; [reflexivity|reflexivity|exact Hsig].
    + rewrite (mstep_id _ MBOX_MSG_GET_VQ_STATE); [reflexivity|reflexivity|exact Hhdr|exact Hid].
    + specialize (Hb (i - 3)%nat ltac:(lia)). replace (3 + (i - 3))%nat with i in Hb by lia. by replace (4 + (i - 3))%nat with (S i) in Hb by lia.
  - assert (rsp_step id = 5%nat) as Hr by (by rewrite Hs). rewrite Hr in Hi. rewrite Hs in *.
    assert (i = 1 \/ i = 2 \/ i = 3 \/ i = 4 \/ i = 5 \/ i = 6 \/ i = 7)%nat as Hc by lia.
    destruct Hc as [-> |[-> |[-> |[-> |[-> |[-> | ->]]]]]]; try reflexivity.
    + rewrite mstep_sig; [reflexivity|reflexivity|exact Hsig].
    + rewrite (mstep_id _ MBOX_MSG_SET_VQ_STATE); [reflexivity|reflexivity|exact Hhdr|exact Hid].
Qed.

Lemma served_start : shd = mb_hdr m -> sh0 <> mb_hdr m -> mstep (served_at id m sh0 shd 0) = Ret (served_at id m sh0 shd 1).
Proof.
  intros -> Hne. unfold mstep. assert (ms_pc (served_at id m sh0 (mb_hdr m) 0) = PPoll) as -> by (by destruct Hid as [-> | ->]).
  assert (forall n, (n <= 1)%nat -> mb_hdr (ms_mbox (served_at id m sh0 (mb_hdr m) n)) = mb_hdr m) as Hh.
  { intros n Hn. cbn. by rewrite (proj2 (Nat.leb_le _ _)) by (unfold rsp_step; destruct (id =? _); lia). }
  rewrite Hh by lia. change (ms_shadow (served_at id m sh0 (mb_hdr m) 0)) with sh0. rewrite (proj2 (Z.eqb_neq _ _)) by congruence.
  by destruct Hid as [-> | ->].
Qed.

Lemma served_end : quiet (served_at id m sh0 shd (rsp_step id + 3)).
Proof. clear Hhdr. destruct Hid as [-> | ->]; done. Qed.

(** The device after [c] steps on the request. *)
Definition served_by (c : nat) : mst := served_at id m sh0 shd (Nat.min c (rsp_step id + 3)).

(** From step [k] on: 1 when the device has seen the header before the host
    wrote its signature. *)
Lemma served_steps k n c : (k <= 1)%nat -> (k = 0%nat -> shd = mb_hdr m /\ sh0 <> mb_hdr m) -> (k <= c)%nat ->
  msteps n (served_by c) = Ret (served_by (c + n)).
Proof.
  intros Hk H0 Hc. unfold served_by. rewrite (msteps_run _ k (rsp_step id + 3)).
  - do 2 f_equal. lia.
  - intros i Hi. destruct i as [|i]; [|apply served_step; lia]. destruct H0 as [E1 E2]; [lia|]. by apply served_start.
  - apply served_end.
  - unfold rsp_step. destruct (_ =? _); lia.
Qed.

Lemma served_by_sts c : mb_sts (ms_mbox (served_by c)) = if (rsp_step id <=? c)%nat then 1 else 0.
Proof.
  unfold served_by, served_at. cbn [ms_mbox mb_sts]. destruct (Nat.leb_spec (rsp_step id) c); [rewrite (proj2 (Nat.ltb_ge _ _))|rewrite (proj2 (Nat.ltb_lt _ _))]; lia || done.
Qed.

Lemma served_by_sig c : hdr_sig (mb_hdr (ms_mbox (served_by c))) = if (c <=? rsp_step id)%nat then MBOX_REQ_SIG else MBOX_RSP_SIG.
Proof.
  unfold served_by, served_at. cbn [ms_mbox mb_hdr]. destruct (Nat.leb_spec c (rsp_step id)).
  - by rewrite (proj2 (Nat.leb_le _ _)) by lia.
  - rewrite (proj2 (Nat.leb_gt _ _)) by lia. destruct (_ =? _)%nat; unfold replied_hdr; rewrite ?hdr_sig_put_id by done; by rewrite hdr_sig_put_sig.
Qed.

Lemma served_by_data c : (rsp_step id <= c)%nat -> mb_data (ms_mbox (served_by c)) = served_data id 4 (mb_data m).
Proof.
  intros Hc. unfold served_by, served_at. cbn [ms_mbox mb_data].
  clear Hhdr. destruct Hid as [E|E]; rewrite E in *; [|done]. change (rsp_step _) with 9%nat in *. f_equal. lia.
Qed.
End served.

(** *** A request that is refused

    A header seen before its signature is written is refused, and the id is
    cleared before the header is looked at again: from then on the status is 0
    or carries [EINVAL], whatever the host writes as signature. *)
Definition bad_sts (x : Z) : Prop := x = 2 * EINVAL \/ x = 2 * EINVAL + 1.

Record refusing (s : mst) : Prop := {
  rf_sts : mb_sts (ms_mbox s) = 0 \/ bad_sts (mb_sts (ms_mbox s));
  rf_pc : match ms_pc s with
          | PPoll | PSig | PId | PCopy => hdr_id (mb_hdr (ms_mbox s)) = 0
          | PByte _ => False
          | PRc rc => rc = EINVAL
          | PRsp | PSetSig | PClearId => bad_sts (mb_sts (ms_mbox s))
          end;
}.

Lemma refusing_step s : refusing s ->
  exists s', mstep s = Ret s' /\ refusing s' /\ (bad_sts (mb_sts (ms_mbox s)) -> bad_sts (mb_sts (ms_mbox s'))).
Proof.
  intros [Hs Hp]. unfold mstep. destruct (ms_pc s) eqn:Epc; try done; eexists; (split; [reflexivity|]).
  - destruct (_ =? _); [by split; [split; [done|by rewrite Epc]|]|done].
  - split; [|done]. split; [done|]. cbn. by destruct (negb _).
  - split; [|done]. split; [done|]. cbn. by rewrite Hp.
  - subst rc. assert (bad_sts (put_rc EINVAL (mb_sts (ms_mbox s)))) by (destruct Hs as [->|[-> | ->]]; by (left; reflexivity) || by (right; reflexivity)).
    split; [|done]. split; cbn; auto.
  - assert (bad_sts (put_rsp 1 (mb_sts (ms_mbox s)))) by (destruct Hp as [-> | ->]; right; reflexivity).
    split; [|done]. split; cbn; auto.
  - split; [|done]. split; cbn; auto.
  - split; [|done]. split; cbn; [auto|]. by apply hdr_id_put_id.
  - split; [|done]. by split.
Qed.

Lemma refusing_steps n s : refusing s ->
  exists s', msteps n s = Ret s' /\ refusing s' /\ (bad_sts (mb_sts (ms_mbox s)) -> bad_sts (mb_sts (ms_mbox s'))).
Proof.
  revert s. induction n as [|n IH]; intros s Hs; [by exists s|].
  destruct (refusing_step s Hs) as (s1 & E1 & H1 & B1). destruct (IH s1 H1) as (s2 & E2 & H2 & B2).
  exists s2. cbn [msteps]. rewrite E1. cbn [mbind cres_mbind]. auto.
Qed.

(** ** The host's accesses *)
Lemma mbind_Ret {A B} (m : mhost A) (k : A -> mhost B) s t a s' t' :
  m s t = Ret (a, s', t') -> (m ≫= k) s t = k a s' t'.
Proof. unfold mbind at 1, mhost_mbind. by intros ->. Qed.

Section host.
Context (sched : nat -> nat) (tries : nat).

Lemma mread_at {A} (f : virtio_mbox -> cres A) s s' t x :
  msteps (sched t) s = Ret s' -> f (ms_mbox s') = Ret x -> mread sched f s t = Ret (x, s', S t).
Proof. unfold mread. intros E1 E2. rewrite E1. cbn [mbind cres_mbind]. by rewrite E2. Qed.

Lemma mwrite_at f s s' t m :
  msteps (sched t) s = Ret s' -> f (ms_mbox s') = Ret m ->
  mwrite sched f s t = Ret (tt, at_pc (ms_pc s') m s', S t).
Proof. unfold mwrite. intros E1 E2. rewrite E1. cbn [mbind cres_mbind]. by rewrite E2. Qed.

(** The wait for a status the mailbox already has. *)
Lemma sts_poll_now n cond s t :
  quiet s -> cond (mb_sts (ms_mbox s)) <> 0 -> sts_poll sched (S n) cond s t = Ret (0, s, S t).
Proof.
  intros Hq Hc. cbn [sts_poll]. erewrite mbind_Ret; [|by eapply mread_at; [apply msteps_quiet|]].
  by rewrite (proj2 (Z.eqb_neq _ _) Hc).
Qed.

(** The first of the [n] reads from access [t] on that comes after [r] steps
    of the device, [c] of them made before: the steps made by then, and the
    access after the read. *)
Fixpoint answered (r n c t : nat) : option (nat * nat) :=
  match n with
  | O => None
  | S n => if (r <=? c + sched t)%nat then Some (c + sched t, S t)%nat else answered r n (c + sched t) (S t)
  end.

Lemma answered_ge r n c t c' t' : answered r n c t = Some (c', t') -> (r <= c')%nat.
Proof.
  revert c t. induction n as [|n IH]; intros c t; cbn [answered]; [done|].
  destruct (Nat.leb_spec r (c + sched t)); [|apply IH]. by intros [= <- _].
Qed.

(** *** Refused *)
Lemma refusing_answer (write : bool) s t : refusing s -> bad_sts (mb_sts (ms_mbox s)) ->
  exists rc s' t', mbox_answer sched 1 write s t = Ret ((rc, []), s', t') /\ (rc = - EINVAL \/ rc = -11).
Proof.
  intros Hs Hb. destruct (refusing_steps (sched t) s Hs) as (s1 & E1 & H1 & B1).
  destruct (refusing_steps (sched (S t)) s1 H1) as (s2 & E2 & _ & B2).
  unfold mbox_answer. erewrite mbind_Ret by (by eapply mread_at).
  destruct (negb _); [by eexists _, _, _; split; [|left]|].
  erewrite mbind_Ret by (by eapply mread_at).
  exists (-11). destruct (B2 (B1 Hb)) as [-> | ->]; by eexists _, _; split; [|right].
Qed.

Lemma refusing_wait n s t : refusing s ->
  exists s' t', (sts_poll sched n MBOX_RSP s t = Ret (0, s', t') /\ refusing s' /\ bad_sts (mb_sts (ms_mbox s'))) \/
    sts_poll sched n MBOX_RSP s t = Ret (- ETIMEDOUT, s', t').
Proof.
  revert s t. induction n as [|n IH]; intros s t Hs; [eexists _, _; by right|].
  destruct (refusing_steps (sched t) s Hs) as (s1 & E1 & H1 & _). cbn [sts_poll].
  erewrite mbind_Ret by (by eapply mread_at).
  destruct (rf_sts _ H1) as [E|E]; [rewrite E; apply IH; done|].
  exists s1, (S t). left. assert (negb (MBOX_RSP (mb_sts (ms_mbox s1)) =? 0) = true) as -> by (by destruct E as [-> | ->]). done.
Qed.
End host.

(** *** Served *)
Section served_host.
Context (sched : nat -> nat) (tries : nat) (id : Z) (m : virtio_mbox) (sh0 shd : Z) (k : nat).
Hypothesis (Hid : known_id id) (Hsig : hdr_sig (mb_hdr m) = MBOX_REQ_SIG) (Hhdr : hdr_id (mb_hdr m) = id) (Hlen : (2 <= length (mb_data m))%nat).
Hypothesis (Hk : (k <= 1)%nat) (H0 : k = 0%nat -> shd = mb_hdr m /\ sh0 <> mb_hdr m).

Local Notation st := (served_by id m sh0 shd).

Lemma served_read {A} (f : virtio_mbox -> cres A) c t x : (k <= c)%nat ->
  f (ms_mbox (st (c + sched t))) = Ret x -> mread sched f (st c) t = Ret (x, st (c + sched t), S t).
Proof. intros Hc Hf. eapply mread_at; [|done]. by apply (served_steps _ _ _ _ Hid Hsig Hhdr Hlen k). Qed.

Lemma served_wait n c t : (k <= c)%nat ->
  exists c1 t1, sts_poll sched n MBOX_RSP (st c) t =
    match answered sched (rsp_step id) n c t with
    | Some (c', t') => Ret (0, st c', t')
    | None => Ret (- ETIMEDOUT, st c1, t1)
    end.
Proof.
  revert c t. induction n as [|n IH]; intros c t Hc; [by eexists _, _|]. cbn [sts_poll answered].
  erewrite mbind_Ret by (by apply served_read). rewrite served_by_sts by done.
  destruct (rsp_step id <=? c + sched t)%nat; [by eexists 0%nat, 0%nat|]. apply IH. lia.
Qed.

(** The answer, the wait being over after [c] steps. *)
Lemma served_answer (write : bool) c t x : (rsp_step id <= c)%nat -> served_data id 4 (mb_data m) !! 1%nat = Some x ->
  exists c' t', mbox_answer sched 1 write (st c) t =
    (if (c + sched t <=? rsp_step id)%nat then Ret ((- EINVAL, []), st c', t') else Ret ((0, if write then [] else [x]), st c', t')) /\
    (c + sched t <= c')%nat.
Proof.
  intros Hc Hx. assert (k <= rsp_step id)%nat by (unfold rsp_step; destruct (_ =? _); lia). unfold mbox_answer.
  erewrite mbind_Ret by (by apply served_read; [lia|]). rewrite served_by_sig by done.
  destruct (Nat.leb_spec (c + sched t) (rsp_step id)); [by eexists _, _|].
  rewrite (eq_refl : (Z.land MBOX_RSP_SIG 0xFFFF =? MBOX_RSP_SIG) = true). cbn [negb].
  erewrite mbind_Ret by (by apply served_read; [lia|]). rewrite served_by_sts, (proj2 (Nat.leb_le _ _)) by (lia || done).
  rewrite (eq_refl : (Z.land 1 MBOX_RC_MASK =? 0) = true). cbn [negb].
  destruct write; [eexists _, _; split; [done|lia]|]. change (Z.to_nat 1) with 1%nat. cbn [read_words].
  erewrite mbind_Ret; [eexists _, _; split; [done|]|].
  2:{ erewrite mbind_Ret; [done|]. apply served_read; [lia|]. apply cget_Ret. split; [lia|].
      rewrite served_by_data by (done || lia). exact Hx. }
  lia.
Qed.
End served_host.

(** ** A request *)

(** Nothing is under way, and the mailbox takes a request. *)
Record accepting (s : mst) : Prop := {
  ac_quiet : quiet s;
  ac_sts : MBOX_AVAIL (mb_sts (ms_mbox s)) <> 0;
  ac_id : hdr_id (mb_hdr (ms_mbox s)) = 0;
  ac_sig : hdr_sig (mb_hdr (ms_mbox s)) <> MBOX_REQ_SIG;
  ac_data : (2 <= length (mb_data (ms_mbox s)))%nat;
  ac_words : Forall is_u32 (mb_data (ms_mbox s));
}.

(** The mailbox with the queue's number and [id] written, the status cleared;
    then with the signature. *)
Definition asked (id qid : Z) (m : virtio_mbox) : virtio_mbox :=
  {| mb_hdr := put_id id (mb_hdr m); mb_sts := 0; mb_data := <[0%nat := qid]> (mb_data m) |}.
Definition signed (m : virtio_mbox) : virtio_mbox := set_hdr (put_sig MBOX_REQ_SIG (mb_hdr m)) m.

Lemma known_u16 id : known_id id -> is_u16 id.
Proof. by intros [-> | ->]. Qed.

Lemma asked_pending id qid s : accepting s -> known_id id -> ms_shadow s <> mb_hdr (asked id qid (ms_mbox s)).
Proof.
  intros [[_ Hq] _ Hi _ _ _] Hk E. rewrite Hq in E. apply (f_equal hdr_id) in E. cbn in E.
  rewrite Hi, hdr_id_put_id in E by (by apply known_u16). by destruct Hk as [-> | ->].
Qed.

Lemma asked_sig id qid s : accepting s -> known_id id -> hdr_sig (mb_hdr (asked id qid (ms_mbox s))) <> MBOX_REQ_SIG.
Proof. intros Ha Hk. cbn. rewrite hdr_sig_put_id by (by apply known_u16). apply Ha. Qed.

Lemma signed_sig m : hdr_sig (mb_hdr (signed m)) = MBOX_REQ_SIG.
Proof. cbn. by apply hdr_sig_put_sig. Qed.

Lemma signed_id id qid m : known_id id -> hdr_id (mb_hdr (signed (asked id qid m))) = id.
Proof. intros Hk. cbn. by rewrite hdr_id_put_sig, hdr_id_put_id by (by apply known_u16). Qed.

(** The mailbox after a request that was served takes the next one. *)
Lemma served_accepting id m sh0 shd : known_id id -> hdr_sig (mb_hdr m) = MBOX_REQ_SIG -> (2 <= length (mb_data m))%nat -> Forall is_u32 (mb_data m) ->
  accepting (served_by id m sh0 shd (rsp_step id + 3)).
Proof.
  intros Hk Hs Hl Hw.
  pose proof (served_end id m sh0 shd Hk) as Hq. split.
  - unfold served_by. rewrite Nat.min_id. exact Hq.
  - by rewrite served_by_sts, (proj2 (Nat.leb_le _ _)) by (done || lia).
  - unfold served_by. rewrite Nat.min_id. by destruct Hk as [-> | ->]; apply hdr_id_put_id.
  - by rewrite served_by_sig, (proj2 (Nat.leb_gt _ _)) by (done || lia).
  - rewrite served_by_data by (done || lia). unfold served_data. by destruct (_ =? _); rewrite ?length_alter.
  - rewrite served_by_data by (done || lia). unfold served_data. destruct (_ =? _); [|done].
    apply Forall_lookup. intros i x Hx. pose proof (proj1 (Forall_lookup _ _) Hw) as Hw'.
    destruct (decide (i = 1%nat)) as [->|Hi]; [|rewrite list_lookup_alter_ne in Hx by done; by apply (Hw' i)].
    rewrite list_lookup_alter_eq in Hx. destruct (mb_data m !! 1%nat) as [w|] eqn:E; [|done]. injection Hx as <-.
    rewrite fill_4 by (by apply (Hw' 1%nat)). done.
Qed.

Section request.
Context (sched : nat -> nat) (tries : nat).

(** The result of the request [id] at access [t] by the steps the device
    makes, when the device makes at most one between the two writes of the
    header: 0 when a read of the wait comes after [rsp] is set and the read of
    the signature after the signature is stored. *)
Definition mbox_rc (id : Z) (t : nat) : Z :=
  match answered sched (rsp_step id) tries (sched (t + 3)) (t + 4) with
  | None => - ETIMEDOUT
  | Some (c, t') => if (c + sched t' <=? rsp_step id)%nat then - EINVAL else 0
  end.

(** The result of a request, with the words that come with the result 0, and
    the mailbox two steps later, which takes the next one. *)
Definition ends_with (id : Z) (t : nat) (words : list Z) (word : Z) (r : cres (Z * list Z * mst * nat)) : Prop :=
  exists rc s' t', r = Ret ((rc, if rc =? 0 then words else []), s', t') /\
    (if (sched (t + 3) <=? 1)%nat then rc = mbox_rc id t else rc = - ETIMEDOUT \/ rc = - EINVAL \/ rc = -11) /\
    (rc = 0 -> exists s2, msteps 2 s' = Ret s2 /\ accepting s2 /\ mb_data (ms_mbox s2) !! 1%nat = Some word).

(** The request from the write of [sig] on. *)
Definition from_sig (write : bool) : mhost (Z * list Z) :=
  _ ← octep_write_sig sched MBOX_REQ_SIG;
  ret ← octep_wait_for_mbox_rsp sched tries;
  if negb (ret =? 0) then mret (ret, []) else mbox_answer sched 1 write.

Lemma mbox_request_asks id qid write s t : accepting s -> is_u32 qid ->
  mbox_request sched tries id qid 1 write s t = from_sig write (at_pc PPoll (asked id qid (ms_mbox s)) s) (t + 3)%nat.
Proof.
  intros [[Hpc Hq] _ _ _ Hl _] Hu. unfold mbox_request.
  erewrite mbind_Ret; [|eapply mwrite_at; [by apply msteps_quiet|]].
  2:{ unfold cset. rewrite (proj2 (Z.ltb_lt _ _)) by lia. done. }
  erewrite mbind_Ret; [|by eapply mwrite_at; [apply msteps_quiet|]].
  unfold octep_write_hdr. unfold mbind at 1, mhost_mbind at 1.
  erewrite mbind_Ret; [|by eapply mwrite_at; [apply msteps_quiet|]].
  replace (t + 3)%nat with (S (S (S t))) by lia. cbn [at_pc ms_pc ms_shadow]. rewrite Hpc.
  unfold asked, u32. cbn. rewrite Z.mod_small by done. done.
Qed.

(** The device has not read the signature before it is written. *)
Lemma write_sig_served id qid s t : accepting s -> known_id id -> (sched t <= 1)%nat ->
  let m := signed (asked id qid (ms_mbox s)) in
  exists shd, (sched t = 0%nat -> shd = mb_hdr m /\ ms_shadow s <> mb_hdr m) /\
  octep_write_sig sched MBOX_REQ_SIG (at_pc PPoll (asked id qid (ms_mbox s)) s) t = Ret (tt, served_by id m (ms_shadow s) shd (sched t), S t).
Proof.
  intros Ha Hk Ht m. assert (served_data id 0 (mb_data m) = mb_data m) as Hd.
  { unfold served_data. destruct (_ =? _); [|done]. apply list_alter_id. done. }
  assert (sched t = 0 \/ sched t = 1)%nat as [E|E] by lia; rewrite E.
  - exists (mb_hdr m). split; [intros _; split; [done|]|].
    { intros E'. pose proof (signed_sig (asked id qid (ms_mbox s))) as Hs. fold m in Hs. rewrite <- E' in Hs.
      destruct Ha as [[_ Hq] _ _ Hns _ _]. by rewrite <- Hq in Hns. }
    unfold octep_write_sig. erewrite mwrite_at; [|by rewrite E|done]. do 3 f_equal.
    unfold served_by. cbn [Nat.min]. destruct Hk as [-> | ->]; unfold served_at; cbn [Nat.min Nat.sub]; rewrite ?Hd; reflexivity.
  - exists (mb_hdr (asked id qid (ms_mbox s))). split; [done|].
    unfold octep_write_sig. erewrite mwrite_at; [|rewrite E; cbn [msteps]; unfold mstep; cbn [at_pc ms_pc ms_shadow ms_mbox]|done].
    2:{ rewrite (proj2 (Z.eqb_neq _ _)) by (intros E'; by apply (asked_pending id qid s)). reflexivity. }
    do 3 f_equal. unfold served_by. replace (Nat.min 1 (rsp_step id + 3)) with 1%nat by (unfold rsp_step; destruct (_ =? _); lia).
    destruct Hk as [-> | ->]; unfold served_at; cbn [Nat.min Nat.sub]; rewrite ?Hd; reflexivity.
Qed.
End request.

Section request.
Context (sched : nat -> nat) (tries : nat).

Lemma request_served id qid (write : bool) s t x : accepting s -> known_id id -> is_u32 qid -> (sched (t + 3) <= 1)%nat ->
  served_data id 4 (<[0%nat := qid]> (mb_data (ms_mbox s))) !! 1%nat = Some x ->
  ends_with sched tries id t (if write then [] else [x]) x (mbox_request sched tries id qid 1 write s t).
Proof.
  intros Ha Hk Hu Ht Hx. rewrite mbox_request_asks by done. unfold ends_with, mbox_rc, from_sig.
  rewrite (proj2 (Nat.leb_le _ _) Ht).
  destruct (write_sig_served sched id qid s (t + 3) Ha Hk Ht) as (shd & H0 & Hw).
  set (m := signed (asked id qid (ms_mbox s))) in *.
  pose proof (signed_sig (asked id qid (ms_mbox s)) : hdr_sig (mb_hdr m) = _) as Hs.
  pose proof (signed_id id qid (ms_mbox s) Hk : hdr_id (mb_hdr m) = _) as Hi.
  assert (2 <= length (mb_data m))%nat as Hl by (cbn; rewrite length_insert; apply Ha).
  assert (Forall is_u32 (mb_data m)) as Hu32 by (apply Forall_insert; [apply Ha|done]).
  erewrite mbind_Ret by apply Hw. replace (S (t + 3)) with (t + 4)%nat by lia.
  destruct (served_wait sched id m (ms_shadow s) shd _ Hk Hs Hi Hl Ht H0 tries (sched (t + 3)) (t + 4) ltac:(lia)) as (c1 & t1 & Hp).
  destruct (answered sched (rsp_step id) tries (sched (t + 3)) (t + 4)) as [[c t2]|] eqn:Ea; (erewrite mbind_Ret by apply Hp);
    [|exists (- ETIMEDOUT); eexists _, _; split; [reflexivity|split; [done|intros E; discriminate E]]].
  apply answered_ge in Ea. cbn [negb Z.eqb].
  destruct (served_answer sched id m (ms_shadow s) shd _ Hk Hs Hi Hl Ht H0 write c t2 x Ea Hx) as (c' & t' & -> & Hc).
  destruct (Nat.leb_spec (c + sched t2) (rsp_step id)); [exists (- EINVAL); eexists _, _; split; [reflexivity|split; [done|intros E; discriminate E]]|].
  exists 0. eexists _, _. split; [done|]. split; [done|]. intros _. eexists. split.
  { apply (served_steps _ _ _ _ Hk Hs Hi Hl (sched (t + 3))); [done|done|]. unfold rsp_step in *; destruct (_ =? _); lia. }
  assert (served_by id m (ms_shadow s) shd (c' + 2) = served_by id m (ms_shadow s) shd (rsp_step id + 3)) as ->
    by (unfold served_by; f_equal; lia).
  split; [by apply served_accepting|]. rewrite served_by_data by (done || lia). done.
Qed.

(** The device has read the header without its signature. *)
Lemma request_refused id qid (write : bool) s t ws w : accepting s -> known_id id -> is_u32 qid -> (1 < sched (t + 3))%nat ->
  ends_with sched tries id t ws w (mbox_request sched tries id qid 1 write s t).
Proof.
  intros Ha Hk Hu Ht. rewrite mbox_request_asks by done. unfold ends_with, from_sig. rewrite (proj2 (Nat.leb_gt _ _) Ht).
  set (s0 := at_pc PPoll (asked id qid (ms_mbox s)) s).
  assert (exists s1, msteps (sched (t + 3)) s0 = Ret s1 /\ refusing s1) as (s1 & E1 & H1).
  { assert (exists s1, msteps 2 s0 = Ret s1 /\ refusing s1) as (s1 & E1 & H1).
    { cbn [msteps]. rewrite mstep_new by (done || by apply (asked_pending id qid s)). cbn [mbind cres_mbind].
      rewrite mstep_nosig by (done || by apply (asked_sig id qid s)). eexists. split; [done|]. by split; [left|]. }
    replace (sched (t + 3)) with (2 + (sched (t + 3) - 2))%nat by lia. rewrite msteps_add, E1. cbn [mbind cres_mbind].
    destruct (refusing_steps (sched (t + 3) - 2) s1 H1) as (s2 & E2 & H2 & _). by exists s2. }
  unfold octep_write_sig. erewrite mbind_Ret by (by eapply mwrite_at).
  set (s2 := at_pc _ _ _). assert (refusing s2) as H2.
  { destruct H1 as [Hs Hp]. split; cbn; [done|]. destruct (ms_pc s1); try done; by rewrite hdr_id_put_sig. }
  destruct (refusing_wait sched tries s2 (S (t + 3)) H2) as (s3 & t3 & [(Hw & H3 & Hb)|Hw]); (erewrite mbind_Ret by apply Hw);
    [|exists (- ETIMEDOUT); eexists _, _; split; [reflexivity|split; [by left|intros E; discriminate E]]].
  destruct (refusing_answer sched write s3 t3 H3 Hb) as (rc & s4 & t4 & Hr & Hrc). cbn [negb Z.eqb]. rewrite Hr.
  exists rc, s4, t4. by destruct Hrc as [-> | ->]; (split; [|split; [right|]]; [done|auto|done]).
Qed.

Lemma request_ends id qid (write : bool) s t x : accepting s -> known_id id -> is_u32 qid ->
  served_data id 4 (<[0%nat := qid]> (mb_data (ms_mbox s))) !! 1%nat = Some x ->
  ends_with sched tries id t (if write then [] else [x]) x (mbox_request sched tries id qid 1 write s t).
Proof.
  intros Ha Hk Hu Hx. destruct (decide (sched (t + 3) <= 1)%nat); [by apply request_served|apply request_refused; lia || done].
Qed.

(** The wait for the mailbox, then the words of a write. *)
Lemma process_mbox_starts id qid buffer (write : bool) s t :
  accepting s -> (0 < tries)%nat ->
  octep_process_mbox sched tries id qid buffer 4 write s t =
  ((if write then write_words sched 1 (take 1 buffer) else mret tt) ≫= fun _ => mbox_request sched tries id qid 1 write) s (S t).
Proof.
  intros [Hq Ha _ _ _ _] Ht. unfold octep_process_mbox.
  rewrite (eq_refl : (4 mod 4 =? 0) = true). cbn [negb]. destruct tries as [|n]; [lia|].
  erewrite mbind_Ret by (by apply sts_poll_now). done.
Qed.
End request.

(** C25. Getting the state of a queue at access [t], or setting it, from a
    mailbox that takes requests, for any number of device steps before each
    access of the driver. When the device makes at most one step between the
    writes of the message's id and of its signature, the result is exactly
    [mbox_rc]: it times out when no read of the wait comes after the store of
    [sts.rsp], it is [-EINVAL] when the signature is read before the device
    stores it, which follows the store of [sts.rsp], and otherwise it is 0
    with the initial state as the answer, and two steps later the mailbox takes the
    next request. When the device makes two or more steps in between it has read
    the header without the signature, and the request ends in an error. *)
Theorem vq_state_outcome sched tries qid state s t :
  accepting s -> is_u16 qid -> is_u32 state -> (0 < tries)%nat ->
  ends_with sched tries MBOX_MSG_GET_VQ_STATE (t + 1) [vq_state 1 0 1 0] (vq_state 1 0 1 0) (octep_get_vq_state sched tries qid s t) /\
  ends_with sched tries MBOX_MSG_SET_VQ_STATE (t + 2) [] state (octep_set_vq_state sched tries qid state s t).
Proof.
  intros Ha Hu Hst Ht. pose proof Ha as [Hq Hav Hi Hs Hl Hw].
  assert (is_u32 qid) by (unfold is_u16, is_u32 in *; lia).
  unfold octep_get_vq_state, octep_set_vq_state. rewrite !process_mbox_starts by done. split.
  - rewrite Nat.add_1_r. apply (request_ends sched tries _ qid false); [done|by left|done|].
    destruct (data_word (mb_data (ms_mbox s)) Hl) as (w & Hw1 & _).
    change (served_data MBOX_MSG_GET_VQ_STATE 4 ?d) with (alter (fill 4) 1%nat d).
    rewrite list_lookup_alter_eq, list_lookup_insert_ne, Hw1 by done. cbn [fmap option_fmap option_map]. f_equal.
    apply fill_4. by apply (proj1 (Forall_lookup _ _) Hw 1%nat).
  - erewrite mbind_Ret.
    2:{ cbn [take write_words]. erewrite mbind_Ret; [done|].
        eapply mwrite_at; [by apply msteps_quiet|]. unfold cset. rewrite (proj2 (Z.ltb_lt _ _)) by lia. done. }
    replace (t + 2)%nat with (S (S t)) by lia.
    apply (request_ends sched tries _ qid true); [|by right|done|].
    + split; cbn; [done..|by rewrite length_insert|]. by apply Forall_insert.
    + change (served_data MBOX_MSG_SET_VQ_STATE 4 ?d) with d. cbn.
      rewrite list_lookup_insert_ne by done. by apply list_lookup_insert_eq.
Qed.

(** ** The poll thread *)

(** The end of the callback, from the store of the result. *)
Lemma steps_exit rc s : ms_pc s = PRc rc ->
  msteps 5 s = let m := ms_mbox s in
    let m' := {| mb_hdr := replied_hdr (mb_hdr m); mb_sts := put_rsp 1 (put_rc rc (mb_sts m)); mb_data := mb_data m |} in
    Ret {| ms_mbox := m'; ms_shadow := mb_hdr m'; ms_pc := PPoll |}.
Proof. destruct s as [m shd pc]. cbn [ms_pc]. by intros ->. Qed.

Lemma steps_bytes s : ms_pc s = PByte 0 -> (2 <= length (mb_data (ms_mbox s)))%nat ->
  msteps 4 s = Ret (at_pc (PRc 0) (put_data (served_data MBOX_MSG_GET_VQ_STATE 4 (mb_data (ms_mbox s))) (ms_mbox s)) s).
Proof.
  destruct s as [m shd pc]. cbn [ms_pc ms_mbox]. intros -> Hl.
  assert (served_data MBOX_MSG_GET_VQ_STATE 0 (mb_data m) = mb_data m) as Hd by (by apply list_alter_id).
  cbn [msteps]. erewrite mstep_byte; [|reflexivity|cbn [ms_mbox]; rewrite <- Hd; by apply served_byte]. cbn [mbind cres_mbind].
  do 3 (erewrite mstep_byte; [|reflexivity|by apply served_byte]; cbn [mbind cres_mbind]). done.
Qed.

(** Steps that no access of the host interrupts are the callback. *)
Lemma steps_process m sh0 : sh0 <> mb_hdr m -> (2 <= length (mb_data m))%nat -> Forall is_u32 (mb_data m) ->
  exists n m', virtio_mbox_process_cb (mb_hdr m) m = Ret (m', mb_hdr m') /\
    msteps n {| ms_mbox := m; ms_shadow := sh0; ms_pc := PPoll |} = Ret {| ms_mbox := m'; ms_shadow := mb_hdr m'; ms_pc := PPoll |}.
Proof.
  intros Hne Hl Hw. unfold virtio_mbox_process_cb, virtio_mbox_process.
  assert (forall n, msteps (S n) {| ms_mbox := m; ms_shadow := sh0; ms_pc := PPoll |} = msteps n {| ms_mbox := m; ms_shadow := mb_hdr m; ms_pc := PSig |}) as H1.
  { intros n. cbn [msteps]. by rewrite mstep_new. }
  destruct (Z.eqb_spec (hdr_sig (mb_hdr m)) MBOX_REQ_SIG) as [Hs|Hs]; cbn [negb].
  2:{ exists 7%nat. eexists. split; [done|]. rewrite H1. cbn [msteps]. rewrite mstep_nosig by done. done. }
  assert (forall n, msteps (S (S (S n))) {| ms_mbox := m; ms_shadow := sh0; ms_pc := PPoll |} =
    (s ← mstep {| ms_mbox := m; ms_shadow := mb_hdr m; ms_pc := PId |}; msteps n s)) as H2.
  { intros n. rewrite H1. cbn [msteps]. by rewrite mstep_sig. }
  destruct (Z.eqb_spec (hdr_id (mb_hdr m)) MBOX_MSG_GET_VQ_STATE) as [Hg|Hg].
  { exists 12%nat. destruct (data_word (mb_data m) Hl) as (w & Hw1 & _ & Hset). rewrite Hset. eexists. split; [done|].
    rewrite H2, (mstep_id _ MBOX_MSG_GET_VQ_STATE) by (done || by left). cbn [mbind cres_mbind]. rewrite (msteps_add 4 5), steps_bytes by done.
    cbn [mbind cres_mbind]. rewrite (steps_exit 0) by done.
    assert (served_data MBOX_MSG_GET_VQ_STATE 4 (mb_data m) = <[1%nat := vq_state 1 0 1 0]> (mb_data m)) as Hd; [|cbn [ms_mbox at_pc put_data mb_data mb_hdr mb_sts] in *; by rewrite Hd].
    change (alter (fill 4) 1%nat (mb_data m) = <[1%nat := vq_state 1 0 1 0]> (mb_data m)).
    rewrite <- (fill_4 w) by (by apply (proj1 (Forall_lookup _ _) Hw 1%nat)). apply list_eq. intros i.
    destruct (decide (i = 1%nat)) as [->|Hi]; [by rewrite list_lookup_alter_eq, Hw1, list_lookup_insert_eq by lia|].
    by rewrite list_lookup_alter_ne, list_lookup_insert_ne by done. }
  exists 8%nat. destruct (Z.eqb_spec (hdr_id (mb_hdr m)) MBOX_MSG_SET_VQ_STATE) as [Hst|Hst]; (eexists; split; [done|]); rewrite H2.
  - rewrite (mstep_id _ MBOX_MSG_SET_VQ_STATE) by (done || by right). done.
  - unfold mstep. cbn [ms_pc ms_mbox]. by rewrite (proj2 (Z.eqb_neq _ _) Hg), (proj2 (Z.eqb_neq _ _) Hst).
Qed.

(** A check of the header's region by the poll thread runs the callback when
    the header differs from the shadow. *)
Lemma mbox_region_check (w : mworld) a r x :
  heap (mw_pem w) !! a = Some r -> reg_base r = mw_addr w -> reg_sz r = 1 -> shadow r = [x] ->
  check_ctrl_reg (Some a) w =
    if mb_hdr (mw_mbox w) =? x then Ret w
    else '(m, shd) ← virtio_mbox_process_cb (mb_hdr (mw_mbox w)) (mw_mbox w); Ret (put_mbox w a r m shd).
Proof.
  intros Ha Hb Hz Hx. unfold check_ctrl_reg. cbn [w_pem mworld_pem]. rewrite Ha, Hz.
  change (Z.to_nat 1) with 1%nat. cbn [check_words w_pem mworld_pem]. rewrite Ha, Hz, Hx. cbn [Z.leb Z.compare].
  rewrite (eq_refl : cget [x] 0 = Ret x). cbn [mbind cres_mbind reg_read run_cb mworld_pem].
  change (8 * 0) with 0. rewrite Hb, Z.add_0_r, Z.eqb_refl. destruct (mb_hdr (mw_mbox w) =? x).
  - cbn [mbind cres_mbind]. by rewrite Ha, Hz.
  - rewrite Ha. destruct (virtio_mbox_process_cb _ _) as [[m shd]| |]; [|done..].
    cbn [mbind cres_mbind mw_pem put_mbox heap pem_set_regions]. rewrite lookup_insert_eq. cbn [reg_sz]. by rewrite Hz.
Qed.

(** The region that [virtio_mbox_init] registers is one word with the shadow
    of the cleared header. *)
Lemma virtio_mbox_init_region base a m p m' p' :
  virtio_mbox_init base (Some a) m p = Ret (0, m', p') ->
  exists r, heap p' !! a = Some r /\ reg_base r = base /\ reg_sz r = 1 /\ shadow r = [0] /\ mb_hdr m' = 0.
Proof.
  unfold virtio_mbox_init, dao_pem_ctrl_region_register. intros E.
  destruct (free_search (region_mask p) 0 0) as [[[i j]|]| |]; cbn [mbind cres_mbind] in E; [|done..].
  destruct (cget (region_mask p) i) as [mask| |]; cbn [mbind cres_mbind] in E; [|done..].
  destruct (cset (region_mask p) i _) as [masks| |]; cbn [mbind cres_mbind] in E; [|done..].
  destruct (cset (regions p) j _) as [rs| |]; cbn [mbind cres_mbind] in E; [|done..].
  injection E as <- <-. eexists. cbn. by rewrite lookup_insert_eq.
Qed.

Definition mbox_pem : pem unit :=
  {| host_page_sz := 0x1000; host_pages_per_dev := 1; max_vfs := 1; bar4_addr := 0;
     regions := replicate 1024 None; region_mask := replicate 16 0; heap := ∅ |}.

(** The mailbox at start, with a request of the state of queue 3. *)
Definition mbox_world : cres mworld :=
  '(_, m, p) ← virtio_mbox_init 64 (Some 0x500) {| mb_hdr := 7; mb_sts := 1; mb_data := [3; 0] |} mbox_pem;
  Ret {| mw_mbox := signed (set_hdr (put_id MBOX_MSG_GET_VQ_STATE (mb_hdr m)) m); mw_addr := 64; mw_pem := p |}.

(** It does so after [virtio_mbox_init]. *)
Lemma mbox_region_check_start :
  match mbox_world with
  | Ret w => exists r m, check_ctrl_reg (Some 0x500) w = Ret (put_mbox w 0x500 r m (mb_hdr m)) /\ mb_data m = [3; 0x10001]
  | _ => False
  end.
Proof.
  unfold mbox_world. destruct (virtio_mbox_init 64 (Some 0x500) {| mb_hdr := 7; mb_sts := 1; mb_data := [3; 0] |} mbox_pem) as [[[rc m] p]| |] eqn:E;
    [|by vm_compute in E..].
  assert (rc = 0 /\ m = {| mb_hdr := 0; mb_sts := 1; mb_data := [3; 0] |}) as [-> ->].
  { apply (f_equal (fun r => match r with Ret (rc, m, _) => Some (rc, m) | _ => None end)) in E. vm_compute in E. by injection E as <- <-. }
  destruct (virtio_mbox_init_region _ _ _ _ _ _ E) as (r & Ha & Hb & Hz & Hx & _).
  cbn [mbind cres_mbind]. exists r. eexists. rewrite (mbox_region_check _ 0x500 r 0) by done. split; reflexivity.
Qed.

(** At start: one device step before each access answers both requests; the
    state cannot be got when the device makes nine steps at the first read of
    the wait and none before the read of the signature, and a device that
    makes two steps between the writes of the header refuses. *)
Lemma vq_state_outcome_witness :
  let s := {| ms_mbox := {| mb_hdr := 0; mb_sts := 1; mb_data := [0; 0] |}; ms_shadow := 0; ms_pc := PPoll |} in
  let late i := if (i =? 5)%nat then 9%nat else 0%nat in
  accepting s /\
  ends_with (fun _ => 1%nat) 10 MBOX_MSG_GET_VQ_STATE 1 [0x10001] 0x10001 (octep_get_vq_state (fun _ => 1%nat) 10 3 s 0%nat) /\
  ends_with (fun _ => 1%nat) 10 MBOX_MSG_SET_VQ_STATE 2 [] 9 (octep_set_vq_state (fun _ => 1%nat) 10 3 9 s 0%nat) /\
  mbox_rc (fun _ => 1%nat) 10 MBOX_MSG_GET_VQ_STATE 1 = 0 /\ mbox_rc (fun _ => 1%nat) 10 MBOX_MSG_SET_VQ_STATE 2 = 0 /\
  ends_with late 10 MBOX_MSG_GET_VQ_STATE 1 [0x10001] 0x10001 (octep_get_vq_state late 10 3 s 0%nat) /\
  mbox_rc late 10 MBOX_MSG_GET_VQ_STATE 1 = - EINVAL /\
  ends_with (fun _ => 2%nat) 10 MBOX_MSG_SET_VQ_STATE 2 [] 9 (octep_set_vq_state (fun _ => 2%nat) 10 3 9 s 0%nat).
Proof.
  intros s late.
  assert (accepting s) as Ha by (by split; cbn; [|done..|lia|repeat constructor]).
  pose proof (fun sched => vq_state_outcome sched 10 3 9 s 0 Ha ltac:(done) ltac:(done) ltac:(lia)) as H.
  split; [done|]. split; [apply (H (fun _ => 1%nat))|]. split; [apply (H (fun _ => 1%nat))|].
  split; [reflexivity|]. split; [reflexivity|]. split; [apply (H late)|]. split; [reflexivity|apply (H (fun _ => 2%nat))].
Defined.
