(* ===== verification/Workers.v ===== *)
(** * Workers and their barrier (lib/workers)

    The registry of the cores an application runs on, and the barrier with
    which the control core stops the workers. *)
From stdpp Require Import base option list numbers relations.
From S2P Require Import Prelude Rte.

Local Open Scope Z_scope.

Definition DAO_WORKER_INVALID_INDEX : Z := 0xFFFFFFFF.

(** [DAO_ROUNDUP(x, y)] *)
Definition DAO_ROUNDUP (x y : Z) : Z := (x + (y - 1)) / y * y.

(** What the code uses of DPDK's EAL: the build parameters and the tables of
    logical cores. *)
Class Lcores := {
  RTE_MAX_LCORE : Z;
  RTE_CACHE_LINE_SIZE : Z;
  rte_lcore_is_enabled : Z -> bool;
  rte_lcore_to_cpu_id : Z -> Z;
  rte_lcore_index : Z -> Z;
  rte_lcore_to_socket_id : Z -> Z;
}.

Definition LCORE_ID_ANY : Z := 0xFFFFFFFF.

(** ** State *)

(** [dao_worker_t]; [has_main]: the back pointer is set. *)
Record dao_worker := {
  dpdk_lcore_id : Z;
  dpdk_cpu_id : Z;
  dpdk_core_index : Z;
  worker_index : Z;
  core_index : Z;
  dpdk_numa_id : Z;
  is_main : bool;
  has_main : bool;
  app_private_size : Z;
}.

Definition worker0 : dao_worker :=
  {| dpdk_lcore_id := 0; dpdk_cpu_id := 0; dpdk_core_index := 0; worker_index := 0; core_index := 0;
     dpdk_numa_id := 0; is_main := false; has_main := false; app_private_size := 0 |}.

(** [dao_workers_main_t]; [workers] has a cell of [per_worker_sz] bytes for
    each core. *)
Record dao_workers_main := {
  num_cores : Z;
  num_workers : Z;
  core_mask : Z;
  control_core_index : Z;
  per_worker_sz : Z;
  workers_main_sz : Z;
  barrier_recursion_level : Z;
  parked_at_barrier : Z;
  barrier_count : Z;
  workers : list dao_worker;
}.

Definition set_workers (n c : Z) (ws : list dao_worker) (d : dao_workers_main) : dao_workers_main :=
  {| num_cores := num_cores d; num_workers := n; core_mask := core_mask d; control_core_index := c;
     per_worker_sz := per_worker_sz d; workers_main_sz := workers_main_sz d;
     barrier_recursion_level := barrier_recursion_level d; parked_at_barrier := parked_at_barrier d;
     barrier_count := barrier_count d; workers := ws |}.

Definition set_barrier (level parked count : Z) (d : dao_workers_main) : dao_workers_main :=
  {| num_cores := num_cores d; num_workers := num_workers d; core_mask := core_mask d;
     control_core_index := control_core_index d; per_worker_sz := per_worker_sz d;
     workers_main_sz := workers_main_sz d; barrier_recursion_level := level;
     parked_at_barrier := parked; barrier_count := count; workers := workers d |}.

(** ** The barrier

    Each core runs its own code; the shared words are accessed with atomic
    loads and stores, and a step below is one such access with the code up to
    the next one. The interleavings of these steps are the executions. *)

(** Where the control core is: outside the two calls, in the loop of
    [dao_workers_barrier_sync], between the two stores of
    [dao_workers_barrier_release]. *)
Inductive control_pc := COut | CWait | CRel.

(** Where a worker is: outside [dao_workers_barrier_check], before its
    increment, in its loop. *)
Inductive worker_pc := WRun | WAdd | WSpin.

#[export] Instance control_pc_eq_dec : EqDecision control_pc.
Proof. solve_decision. Defined.
#[export] Instance worker_pc_eq_dec : EqDecision worker_pc.
Proof. solve_decision. Defined.

(** [dao_workers_barrier_sync] up to its loop: [inl] returns. *)
Definition dao_workers_barrier_sync (main : bool) (d : dao_workers_main) : Z + dao_workers_main :=
  if num_workers d <? 2 then inl 0
  else if negb main then inl (-1)
  else if 0 <? barrier_recursion_level d then inl (-1)
  else inr (set_barrier (barrier_recursion_level d + 1) 1 (barrier_count d) d).

(** One turn of its loop: whether it ends. *)
Definition barrier_sync_wait (d : dao_workers_main) : bool := barrier_count d =? num_workers d.

(** [dao_workers_barrier_release] up to its first store, and its second one. *)
Definition dao_workers_barrier_release (main : bool) (d : dao_workers_main) : Z + dao_workers_main :=
  if num_workers d <? 2 then inl 0
  else if negb main then inl (-1)
  else if 1 <? barrier_recursion_level d then inl (-1)
  else if barrier_recursion_level d <? 1 then inl (-1)
  else inr (set_barrier (barrier_recursion_level d - 1) 0 (barrier_count d) d).

Definition barrier_release_end (d : dao_workers_main) : dao_workers_main :=
  set_barrier (barrier_recursion_level d) (parked_at_barrier d) 0 d.

(** One access of [dao_workers_barrier_check]. *)
Definition dao_workers_barrier_check (pc : worker_pc) (d : dao_workers_main) : worker_pc * dao_workers_main :=
  match pc with
  | WRun => (if parked_at_barrier d =? 0 then WRun else WAdd, d)
  | WAdd => (WSpin, set_barrier (barrier_recursion_level d) (parked_at_barrier d) (u64 (barrier_count d + 1)) d)
  | WSpin => (if parked_at_barrier d =? 0 then WRun else WSpin, d)
  end.

(** The cores together: [b_ret] is what the control core's last call
    returned. *)
Record bstate := { b_dwm : dao_workers_main; b_ctl : control_pc; b_ret : Z; b_wrk : list worker_pc }.

Definition call (pc : control_pc) (r : Z + dao_workers_main) (s : bstate) : bstate :=
  match r with
  | inl rc => {| b_dwm := b_dwm s; b_ctl := COut; b_ret := rc; b_wrk := b_wrk s |}
  | inr d => {| b_dwm := d; b_ctl := pc; b_ret := b_ret s; b_wrk := b_wrk s |}
  end.

Inductive bstep (s : bstate) : bstate -> Prop :=
  | bs_sync : b_ctl s = COut -> bstep s (call CWait (dao_workers_barrier_sync true (b_dwm s)) s)
  | bs_wait : b_ctl s = CWait ->
      bstep s (if barrier_sync_wait (b_dwm s)
               then {| b_dwm := b_dwm s; b_ctl := COut; b_ret := 0; b_wrk := b_wrk s |} else s)
  | bs_release : b_ctl s = COut -> bstep s (call CRel (dao_workers_barrier_release true (b_dwm s)) s)
  | bs_release_end : b_ctl s = CRel ->
      bstep s {| b_dwm := barrier_release_end (b_dwm s); b_ctl := COut; b_ret := 0; b_wrk := b_wrk s |}
  | bs_worker i pc : b_wrk s !! i = Some pc ->
      bstep s (let '(pc, d) := dao_workers_barrier_check pc (b_dwm s) in
               {| b_dwm := d; b_ctl := b_ctl s; b_ret := b_ret s; b_wrk := <[i := pc]> (b_wrk s) |}).

(** All cores outside the barrier, after [dao_workers_init]. *)
Record barrier_init (s : bstate) : Prop := {
  bi_ctl : b_ctl s = COut;
  bi_wrk : b_wrk s = replicate (Z.to_nat (num_workers (b_dwm s))) WRun;
  bi_num : is_u16 (num_workers (b_dwm s));
  bi_level : barrier_recursion_level (b_dwm s) = 0;
  bi_parked : parked_at_barrier (b_dwm s) = 0;
  bi_count : barrier_count (b_dwm s) = 0;
}.

Definition reachable (s : bstate) : Prop := exists s0, barrier_init s0 /\ rtc bstep s0 s.

(** The control core holds the barrier: [dao_workers_barrier_sync] took it
    and returned, and it was not released since. *)
Definition held (s : bstate) : Prop := b_ctl s = COut /\ 0 < barrier_recursion_level (b_dwm s).

(** ** Counting the workers at a program point *)

Definition at_pc (p : worker_pc) (ws : list worker_pc) : Z := Z.of_nat (length (filter (p =.) ws)).

Lemma at_pc_insert p ws i a b : ws !! i = Some a ->
  at_pc p (<[i := b]> ws) = at_pc p ws - b2z (bool_decide (p = a)) + b2z (bool_decide (p = b)).
Proof.
  unfold at_pc. revert i. induction ws as [|w ws IH]; intros i Hi; [done|]. destruct i as [|i].
  - injection Hi as ->. cbn [insert list_insert]. rewrite !filter_cons.
    repeat case_decide; repeat case_bool_decide; cbn; congruence || lia.
  - cbn in Hi. change (<[S i := b]> (w :: ws)) with (w :: <[i := b]> ws). rewrite !filter_cons. specialize (IH i Hi). destruct (decide (p = w)); cbn [length]; lia.
Qed.

Lemma at_pc_bound p ws : 0 <= at_pc p ws <= Z.of_nat (length ws).
Proof. unfold at_pc. pose proof (length_filter (p =.) ws). lia. Qed.

Lemma at_pc_all p ws : at_pc p ws = Z.of_nat (length ws) -> Forall (p =.) ws.
Proof.
  unfold at_pc. induction ws as [|w ws IH]; [by constructor|]. rewrite filter_cons. cbn [length].
  pose proof (length_filter (p =.) ws). case_decide; cbn [length]; intros; [constructor; [done|]; apply IH; lia|lia].
Qed.

Lemma at_pc_present p ws i : ws !! i = Some p -> 0 < at_pc p ws.
Proof.
  unfold at_pc. intros Hi. assert (p ∈ filter (p =.) ws) as Hin
    by (apply list_elem_of_filter; split; [done|]; by eapply list_elem_of_lookup_2).
  destruct (filter (p =.) ws); [by apply not_elem_of_nil in Hin|]. cbn. lia.
Qed.

Lemma at_pc_sum ws : at_pc WRun ws + at_pc WAdd ws + at_pc WSpin ws = Z.of_nat (length ws).
Proof.
  unfold at_pc. induction ws as [|w ws IH]; [done|]. rewrite !filter_cons. destruct w; repeat case_decide; try congruence; cbn [length]; lia.
Qed.

Lemma at_pc_counts ws : at_pc WRun ws + at_pc WAdd ws + at_pc WSpin ws = Z.of_nat (length ws) /\
  0 <= at_pc WRun ws /\ 0 <= at_pc WAdd ws /\ 0 <= at_pc WSpin ws.
Proof. split; [apply at_pc_sum|]. unfold at_pc. lia. Qed.

(** The comparisons of program points that [at_pc_insert] leaves. *)
Ltac eval_pcs :=
  repeat match goal with |- context [b2z (bool_decide (?p = ?q))] =>
    let v := eval vm_compute in (b2z (bool_decide (p = q))) in change (b2z (bool_decide (p = q))) with v end.

(** ** The invariant *)

(** In every phase, what the shared words say of the workers. While the
    control core waits, the count is at most the number of workers in the
    loop: it misses those that are still there from the barrier before. *)
Definition phase_ok (s : bstate) : Prop :=
  let d := b_dwm s in
  let spin := at_pc WSpin (b_wrk s) in
  match b_ctl s with
  | COut =>
      (barrier_recursion_level d = 0 /\ parked_at_barrier d = 0 /\ barrier_count d = 0 /\ at_pc WAdd (b_wrk s) = 0) \/
      (barrier_recursion_level d = 1 /\ parked_at_barrier d = 1 /\ barrier_count d = num_workers d /\ spin = num_workers d)
  | CWait => barrier_recursion_level d = 1 /\ parked_at_barrier d = 1 /\ 0 <= barrier_count d <= spin
  | CRel => barrier_recursion_level d = 0 /\ parked_at_barrier d = 0 /\ at_pc WAdd (b_wrk s) = 0
  end.

Definition barrier_inv (s : bstate) : Prop :=
  Z.of_nat (length (b_wrk s)) = num_workers (b_dwm s) /\ is_u16 (num_workers (b_dwm s)) /\ phase_ok s.

Lemma at_pc_replicate p q n : p <> q -> at_pc p (replicate n q) = 0.
Proof. intros Hne. unfold at_pc. rewrite filter_none; [done|]. apply Forall_replicate. done. Qed.

Lemma barrier_init_inv s : barrier_init s -> barrier_inv s.
Proof.
  intros []. unfold barrier_inv, phase_ok. rewrite bi_ctl0, bi_wrk0, length_replicate.
  split; [unfold is_u16 in *; lia|]. split; [done|]. left. by rewrite at_pc_replicate.
Qed.

(** A step of a worker. *)
Lemma worker_step_inv s i pc : barrier_inv s -> b_wrk s !! i = Some pc ->
  barrier_inv (let '(pc, d) := dao_workers_barrier_check pc (b_dwm s) in
               {| b_dwm := d; b_ctl := b_ctl s; b_ret := b_ret s; b_wrk := <[i := pc]> (b_wrk s) |}).
Proof.
  intros (Hlen & Hn & Hp) Hi. pose proof (at_pc_present _ _ _ Hi). pose proof (at_pc_counts (b_wrk s)).
  pose proof (fun p b => at_pc_insert p _ _ _ b Hi) as Hins. unfold barrier_inv, phase_ok, is_u16 in *.
  destruct pc; cbn [dao_workers_barrier_check];
    [destruct (Z.eqb_spec (parked_at_barrier (b_dwm s)) 0)| |destruct (Z.eqb_spec (parked_at_barrier (b_dwm s)) 0)];
    cbn [b_dwm b_ctl b_wrk]; rewrite length_insert, !Hins; eval_pcs; (split; [done|]); (split; [done|]);
    destruct (b_ctl s); cbn [set_barrier barrier_recursion_level parked_at_barrier barrier_count num_workers] in *;
    try lia.
  unfold u64. rewrite Z.mod_small by lia. lia.
Qed.

Lemma barrier_inv_step s s' : barrier_inv s -> bstep s s' -> barrier_inv s'.
Proof.
  intros Hinv [Hc|Hc|Hc|Hc|i pc Hi].
  - destruct Hinv as (Hlen & Hn & Hp). unfold phase_ok in Hp. rewrite Hc in Hp.
    unfold dao_workers_barrier_sync. pose proof (at_pc_bound WSpin (b_wrk s)).
    destruct (Z.ltb_spec (num_workers (b_dwm s)) 2); [|cbn [negb]; destruct (Z.ltb_spec 0 (barrier_recursion_level (b_dwm s)))];
      (split; [done|split; [done|unfold phase_ok; cbn; lia]]).
  - destruct Hinv as (Hlen & Hn & Hp). unfold phase_ok in Hp. rewrite Hc in Hp.
    destruct (barrier_sync_wait (b_dwm s)) eqn:Hw; [|by unfold barrier_inv, phase_ok; rewrite Hc].
    unfold barrier_sync_wait in Hw. apply Z.eqb_eq in Hw. pose proof (at_pc_bound WSpin (b_wrk s)).
    split; [done|]. split; [done|]. unfold phase_ok. cbn. lia.
  - destruct Hinv as (Hlen & Hn & Hp). unfold phase_ok in Hp. rewrite Hc in Hp.
    unfold dao_workers_barrier_release. pose proof (at_pc_sum (b_wrk s)). pose proof (at_pc_bound WAdd (b_wrk s)).
    pose proof (at_pc_bound WRun (b_wrk s)).
    destruct (Z.ltb_spec (num_workers (b_dwm s)) 2); [|cbn [negb]; destruct (Z.ltb_spec 1 (barrier_recursion_level (b_dwm s)));
      [|destruct (Z.ltb_spec (barrier_recursion_level (b_dwm s)) 1)]];
      (split; [done|split; [done|unfold phase_ok; cbn; lia]]).
  - destruct Hinv as (Hlen & Hn & Hp). unfold phase_ok in Hp. rewrite Hc in Hp.
    split; [done|]. split; [done|]. unfold phase_ok. cbn. tauto.
  - by apply worker_step_inv.
Qed.

Lemma reachable_inv s : reachable s -> barrier_inv s.
Proof.
  intros (s0 & H0 & Hr). apply barrier_init_inv in H0. induction Hr as [|? ? ? Hs _ IH]; [done|].
  apply IH. by eapply barrier_inv_step.
Qed.

(** ** Executions *)

(** The steps by name, so that an execution can be evaluated. *)
Inductive action := ASync | AWait | ARelease | AReleaseEnd | AWorker (i : nat).

Definition bexec (a : action) (s : bstate) : option bstate :=
  match a with
  | ASync => guard (b_ctl s = COut);; Some (call CWait (dao_workers_barrier_sync true (b_dwm s)) s)
  | AWait => guard (b_ctl s = CWait);;
      Some (if barrier_sync_wait (b_dwm s)
            then {| b_dwm := b_dwm s; b_ctl := COut; b_ret := 0; b_wrk := b_wrk s |} else s)
  | ARelease => guard (b_ctl s = COut);; Some (call CRel (dao_workers_barrier_release true (b_dwm s)) s)
  | AReleaseEnd => guard (b_ctl s = CRel);;
      Some {| b_dwm := barrier_release_end (b_dwm s); b_ctl := COut; b_ret := 0; b_wrk := b_wrk s |}
  | AWorker i =>
      pc ← b_wrk s !! i;
      let '(pc, d) := dao_workers_barrier_check pc (b_dwm s) in
      Some {| b_dwm := d; b_ctl := b_ctl s; b_ret := b_ret s; b_wrk := <[i := pc]> (b_wrk s) |}
  end.

Fixpoint brun (l : list action) (s : bstate) : option bstate :=
  match l with [] => Some s | a :: l => s ← bexec a s; brun l s end.

Lemma bexec_step a s s' : bexec a s = Some s' -> bstep s s'.
Proof.
  destruct a; cbn; try (case_guard; [|done]; intros [= <-]); [by constructor..|].
  destruct (b_wrk s !! i) as [pc|] eqn:Hi; [|done]. cbn. intros Hs.
  replace s' with (let '(pc, d) := dao_workers_barrier_check pc (b_dwm s) in
    {| b_dwm := d; b_ctl := b_ctl s; b_ret := b_ret s; b_wrk := <[i := pc]> (b_wrk s) |}); [by constructor|].
  destruct (dao_workers_barrier_check pc (b_dwm s)). by injection Hs.
Qed.

Lemma brun_steps l : forall s s', brun l s = Some s' -> rtc bstep s s'.
Proof.
  induction l as [|a l IH]; intros s s' Hr; cbn in Hr; [by injection Hr as ->|].
  destruct (bexec a s) as [s1|] eqn:Ha; [|done]. eapply rtc_l; [by eapply bexec_step|by apply IH].
Qed.

(** ** What the barrier promises *)

(** C13. The barrier stops the workers. In every interleaving, when
    [dao_workers_barrier_sync] has taken the barrier and returned, every
    worker is in the loop of [dao_workers_barrier_check], and it stays there:
    whatever step comes next, no worker has moved, and the barrier is still
    held unless that step is the release. *)
Theorem barrier_stops_workers s : reachable s -> held s ->
  Z.of_nat (length (b_wrk s)) = num_workers (b_dwm s) /\ Forall (WSpin =.) (b_wrk s) /\
  forall s', bstep s s' -> b_wrk s' = b_wrk s /\
    (held s' \/ b_ctl s' = CRel /\ inr (b_dwm s') = dao_workers_barrier_release true (b_dwm s)).
Proof.
  intros Hr [Hc Hl]. destruct (reachable_inv s Hr) as (Hlen & Hn & Hp). unfold phase_ok in Hp. rewrite Hc in Hp.
  destruct Hp as [Hp|(Hlev & Hpark & Hcount & Hspin)]; [lia|].
  assert (Forall (WSpin =.) (b_wrk s)) as Hall by (apply at_pc_all; lia).
  split; [done|]. split; [done|]. intros s' [_|Hc'|_|Hc'|i pc Hi]; [| congruence | |congruence|].
  - unfold dao_workers_barrier_sync, held. rewrite Hlev. destruct (num_workers (b_dwm s) <? 2); cbn; rewrite Hlev; auto with lia.
  - unfold dao_workers_barrier_release, held. rewrite Hlev. destruct (num_workers (b_dwm s) <? 2); cbn; rewrite ?Hlev; auto with lia.
  - rewrite Forall_lookup in Hall. assert (pc = WSpin) as -> by (symmetry; by apply (Hall i)). cbn. rewrite Hpark. cbn.
    rewrite list_insert_id by done. unfold held. cbn. split; [done|]. left. split; [done|lia].
Qed.

(** A worker in the loop that the count misses keeps the control core in its
    loop. *)
Definition stuck (s : bstate) : Prop :=
  b_ctl s = CWait /\ parked_at_barrier (b_dwm s) = 1 /\ 0 <= barrier_count (b_dwm s) < at_pc WSpin (b_wrk s) /\
  Z.of_nat (length (b_wrk s)) = num_workers (b_dwm s) /\ is_u16 (num_workers (b_dwm s)).

Lemma stuck_step s s' : stuck s -> bstep s s' -> stuck s'.
Proof.
  intros (Hc & Hp & Hcount & Hlen & Hn) [Hc'|_|Hc'|Hc'|i pc Hi]; [congruence| |congruence|congruence|].
  - unfold barrier_sync_wait. pose proof (at_pc_bound WSpin (b_wrk s)).
    destruct (Z.eqb_spec (barrier_count (b_dwm s)) (num_workers (b_dwm s))); [lia|done].
  - pose proof (fun p b => at_pc_insert p _ _ _ b Hi) as Hins. pose proof (at_pc_bound WSpin (b_wrk s)).
    unfold stuck, is_u16 in *. destruct pc; cbn; rewrite ?Hp; cbn; rewrite Hins, length_insert; eval_pcs; (split; [done|]);
      [lia| |lia]. unfold u64. rewrite Z.mod_small by lia. lia.
Qed.

(** Without such a worker, each worker can be run into the loop. *)
Lemma wait_returns n : forall s, barrier_inv s -> b_ctl s = CWait ->
  barrier_count (b_dwm s) = at_pc WSpin (b_wrk s) ->
  2 * at_pc WRun (b_wrk s) + at_pc WAdd (b_wrk s) = Z.of_nat n ->
  exists s', rtc bstep s s' /\ held s'.
Proof.
  induction n as [n IH] using lt_wf_ind. intros s Hinv Hc Hcount Hn. pose proof Hinv as (Hlen & Hnum & Hp).
  unfold phase_ok in Hp. rewrite Hc in Hp. destruct Hp as (Hlev & Hpark & _).
  pose proof (at_pc_counts (b_wrk s)).
  destruct (decide (Forall (WSpin =.) (b_wrk s))) as [Hall|Hne].
  - assert (barrier_sync_wait (b_dwm s) = true) as Hw.
    { unfold barrier_sync_wait. apply Z.eqb_eq. rewrite Hcount, <- Hlen. unfold at_pc. f_equal.
      by rewrite filter_all. }
    eexists. split; [apply rtc_once, (bs_wait _ Hc)|]. rewrite Hw. split; [done|]. cbn. lia.
  - apply not_Forall_Exists in Hne; [|apply _]. apply Exists_exists in Hne as (pc & Hin & Hpc).
    apply list_elem_of_lookup_1 in Hin as [i Hi].
    pose proof (fun p b => at_pc_insert p _ _ _ b Hi) as Hins. pose proof (at_pc_present _ _ _ Hi).
    pose proof (bs_worker s i pc Hi) as Hstep. pose proof (barrier_inv_step _ _ Hinv Hstep) as Hinv'.
    destruct pc; [| |done]; cbn in Hstep, Hinv'; rewrite ?Hpark in *; cbn in Hstep, Hinv'.
    + destruct (IH (n - 1)%nat) with (2 := Hinv') as (s' & Hs' & Hh); [lia|done| | |].
      * cbn. rewrite Hins. eval_pcs. lia.
      * cbn. rewrite !Hins. eval_pcs. lia.
      * exists s'. split; [by eapply rtc_l|done].
    + destruct (IH (n - 1)%nat) with (2 := Hinv') as (s' & Hs' & Hh); [lia|done| | |].
      * cbn. rewrite Hins. eval_pcs. unfold u64, is_u16 in *. rewrite Z.mod_small by lia. lia.
      * cbn. rewrite !Hins. eval_pcs. lia.
      * exists s'. split; [by eapply rtc_l|done].
Qed.

(** C14. When the barrier can be taken. While [dao_workers_barrier_sync]
    waits, it can still return if and only if the count has caught every
    worker that is in the loop of [dao_workers_barrier_check]. A worker that
    has not yet left that loop since the last release is not counted again:
    then no continuation at all lets the call return. *)
Theorem barrier_sync_returns_iff s : reachable s -> b_ctl s = CWait ->
  ((exists s', rtc bstep s s' /\ held s') <-> barrier_count (b_dwm s) = at_pc WSpin (b_wrk s)) /\
  (barrier_count (b_dwm s) <> at_pc WSpin (b_wrk s) -> forall s', rtc bstep s s' -> b_ctl s' = CWait).
Proof.
  intros Hr Hc. pose proof (reachable_inv s Hr) as Hinv. pose proof Hinv as (Hlen & Hn & Hp).
  unfold phase_ok in Hp. rewrite Hc in Hp. destruct Hp as (Hlev & Hpark & Hle).
  assert (barrier_count (b_dwm s) <> at_pc WSpin (b_wrk s) -> forall s', rtc bstep s s' -> stuck s') as Hstuck.
  { intros Hne s' Hs'. assert (stuck s) as Hst by (repeat split; (done || lia || apply Hn)).
    clear -Hst Hs'. induction Hs' as [|? ? ? Hs _ IH]; [done|]. apply IH. by eapply stuck_step. }
  split; [split|].
  - intros (s' & Hs' & Hh & _). destruct (decide (barrier_count (b_dwm s) = at_pc WSpin (b_wrk s))) as [|Hne]; [done|].
    destruct (Hstuck Hne s' Hs') as [Hc' _]. congruence.
  - intros Heq. pose proof (at_pc_counts (b_wrk s)).
    apply (wait_returns (Z.to_nat (2 * at_pc WRun (b_wrk s) + at_pc WAdd (b_wrk s))) s); [done..|lia].
  - intros Hne s' Hs'. by destruct (Hstuck Hne s' Hs').
Qed.

(** ** The registry

    A handle of a worker is the byte offset of its cell from the first one. *)
Section registry.
Context `{RteBitops, Lcores}.

(** [sizeof(dao_worker_t)]: 48 bytes of fields, padded to a cache line. *)
Definition sizeof_dao_worker : Z := DAO_ROUNDUP 48 RTE_CACHE_LINE_SIZE.

(** [sizeof(dao_workers_main_t)]: the first cache line, and one for each of
    the two barrier words. *)
Definition sizeof_dao_workers_main : Z := DAO_ROUNDUP 48 RTE_CACHE_LINE_SIZE + 2 * RTE_CACHE_LINE_SIZE.

Definition dao_workers_worker_get (d : dao_workers_main) (idx : Z) : cres Z :=
  let idx := u8 idx in
  _ ← verify (idx <=? num_workers d);
  Ret (idx * per_worker_sz d).

Definition dao_workers_control_worker_get (d : dao_workers_main) : option Z :=
  if negb (control_core_index d =? DAO_WORKER_INVALID_INDEX)
  then Some (control_core_index d * sizeof_dao_worker)
  else None.

(** The cell at a handle. *)
Definition worker_load (d : dao_workers_main) (h : Z) : cres dao_worker :=
  if h mod per_worker_sz d =? 0 then cget (workers d) (h / per_worker_sz d) else Fault.

Definition worker_store (d : dao_workers_main) (h : Z) (w : dao_worker) : cres (list dao_worker) :=
  if h mod per_worker_sz d =? 0 then cset (workers d) (h / per_worker_sz d) w else Fault.

(** [for (i = 0; i < wm->num_cores; i++)] of [dao_workers_self_worker_get],
    run on core [lcore_id]. *)
Fixpoint self_loop (fuel : nat) (d : dao_workers_main) (lcore_id i : Z) : cres Z :=
  if num_cores d <=? i then Ret i
  else
    wrkr ← dao_workers_worker_get d i;
    w ← worker_load d wrkr;
    _ ← verify (core_index w =? i);
    _ ← verify (has_main w);
    if negb (dpdk_lcore_id w =? lcore_id) || (LCORE_ID_ANY =? lcore_id)
    then match fuel with O => Fault | S fuel => self_loop fuel d lcore_id (i + 1) end
    else Ret i.

Definition dao_workers_self_worker_get (d : dao_workers_main) (lcore_id : Z) : cres (option Z) :=
  i ← self_loop (Z.to_nat (num_cores d)) d lcore_id 0;
  if i <? num_cores d then wrkr ← dao_workers_worker_get d i; Ret (Some wrkr) else Ret None.

(** The worker the loop of [dao_workers_init] writes for core [i]. *)
Definition init_worker (i j k control app_sz : Z) : dao_worker :=
  {| dpdk_lcore_id := u32 i; dpdk_cpu_id := rte_lcore_to_cpu_id i; dpdk_core_index := rte_lcore_index i;
     worker_index := if i =? control then DAO_WORKER_INVALID_INDEX else u32 k; core_index := u32 j;
     dpdk_numa_id := rte_lcore_to_socket_id i; is_main := i =? control; has_main := true;
     app_private_size := app_sz |}.

(** [for (i = 0, j = 0, k = 0; i < RTE_MAX_LCORE; i++)] *)
Fixpoint init_loop (fuel : nat) (control app_sz i j k : Z) (d : dao_workers_main) : cres (dao_workers_main * Z) :=
  if RTE_MAX_LCORE <=? i then Ret (d, k)
  else match fuel with
  | O => Fault
  | S fuel =>
      if negb (rte_lcore_is_enabled i) then init_loop fuel control app_sz (i + 1) j k d
      else if 64 <=? i then Fault
      else if Z.land (RTE_BIT64 i) (core_mask d) =? 0 then init_loop fuel control app_sz (i + 1) j k d
      else
        wrkr ← dao_workers_worker_get d j;
        ws ← worker_store d wrkr (init_worker i j k control app_sz);
        if i =? control
        then init_loop fuel control app_sz (i + 1) (j + 1) k (set_workers (num_workers d) (u32 j) ws d)
        else init_loop fuel control app_sz (i + 1) (j + 1) (k + 1)
               (set_workers (num_workers d) (control_core_index d) ws d)
  end.

(** [mem]: whether [malloc] succeeds; [g]: the global [__dao_workers]. *)
Definition dao_workers_init (mask control app_sz : Z) (mem : bool) (g : option dao_workers_main)
  : cres (Z * option dao_workers_main) :=
  let num_bits := rte_popcount64 mask in
  if num_bits =? 0 then Ret (-1, g)
  else match g with
  | Some _ => Ret (-1, g)
  | None =>
      ok ← (if negb (control =? DAO_WORKER_INVALID_INDEX)
            then if 64 <=? control then Fault else Ret (negb (Z.land (RTE_BIT64 control) mask =? 0))
            else Ret true);
      if negb (ok : bool) then Ret (-1, g)
      else
        let worker_sz := u64 (sizeof_dao_worker + DAO_ROUNDUP app_sz RTE_CACHE_LINE_SIZE) in
        let total_sz := u64 (sizeof_dao_workers_main + num_bits * worker_sz) in
        if negb mem then Ret (-1, g)
        else
          let d := {| num_cores := u16 num_bits; num_workers := u16 num_bits; core_mask := mask;
                      control_core_index := control; per_worker_sz := worker_sz;
                      workers_main_sz := total_sz; barrier_recursion_level := 0;
                      parked_at_barrier := 0; barrier_count := 0;
                      workers := replicate (Z.to_nat num_bits) worker0 |} in
          '(d, k) ← init_loop (Z.to_nat RTE_MAX_LCORE) control app_sz 0 0 0 d;
          Ret (0, Some (set_workers (u16 k) (control_core_index d) (workers d) d))
  end.

Definition dao_workers_fini (g : option dao_workers_main) : Z * option dao_workers_main :=
  match g with Some _ => (0, None) | None => (-1, None) end.

(** The cores of a mask, in order. *)
Definition cores_from (mask : Z) (n : nat) : list nat :=
  filter (fun i : nat => Z.testbit mask (Z.of_nat i) = true) (seq n (64 - n)).

Definition cores (mask : Z) : list nat := cores_from mask 0.

(** The cores of a list that are workers. *)
Definition not_control (control : Z) (l : list nat) : list nat := filter (fun i : nat => Z.of_nat i <> control) l.

(** What is documented of the arguments and of EAL: the mask holds enabled
    cores only, and a control core that is in the mask. *)
Record init_ok (mask control app_sz : Z) : Prop := {
  io_mask : is_u64 mask /\ mask <> 0;
  io_enabled : forall i, 0 <= i -> Z.testbit mask i = true -> i < RTE_MAX_LCORE /\ rte_lcore_is_enabled i = true;
  io_lcores : forall i, 64 <= i < RTE_MAX_LCORE -> rte_lcore_is_enabled i = false;
  io_control : control = DAO_WORKER_INVALID_INDEX \/ (0 <= control < 64 /\ Z.testbit mask control = true);
  io_app : is_u32 app_sz;
  io_line : 48 <= RTE_CACHE_LINE_SIZE < 0x10000;
}.

(** The workers the loop writes for the cores [l], and the index it leaves
    for the control core. *)
Fixpoint numbered (control app_sz j k : Z) (l : list nat) : list dao_worker :=
  match l with
  | [] => []
  | i :: l => init_worker (Z.of_nat i) j k control app_sz ::
      numbered control app_sz (j + 1) (if Z.of_nat i =? control then k else k + 1) l
  end.

Fixpoint control_at (control j c : Z) (l : list nat) : Z :=
  match l with
  | [] => c
  | i :: l => control_at control (j + 1) (if Z.of_nat i =? control then u32 j else c) l
  end.

Lemma length_numbered control app_sz l : forall j k, length (numbered control app_sz j k l) = length l.
Proof. induction l as [|i l IH]; intros j k; cbn; [done|]. by rewrite IH. Qed.

Lemma lookup_numbered control app_sz l : forall j k m i, l !! m = Some i ->
  numbered control app_sz j k l !! m =
    Some (init_worker (Z.of_nat i) (j + Z.of_nat m) (k + Z.of_nat (length (not_control control (take m l)))) control app_sz).
Proof.
  induction l as [|i0 l IH]; intros j k m i Hm; [done|]. destruct m as [|m].
  - injection Hm as ->. cbn. do 2 f_equal; lia.
  - change (numbered control app_sz j k (i0 :: l) !! S m) with
      (numbered control app_sz (j + 1) (if Z.of_nat i0 =? control then k else k + 1) l !! m).
    rewrite (IH _ _ m i Hm). unfold not_control. cbn [take]. rewrite filter_cons.
    destruct (Z.eqb_spec (Z.of_nat i0) control), (decide (Z.of_nat i0 <> control)); try lia; cbn [length]; do 2 f_equal; lia.
Qed.

Lemma control_at_out control l : forall j c, (forall i, i ∈ l -> Z.of_nat i <> control) -> control_at control j c l = c.
Proof.
  induction l as [|i l IH]; intros j c Hl; [done|]. cbn [control_at].
  rewrite (proj2 (Z.eqb_neq _ _)) by (apply Hl; left). apply IH. intros. apply Hl. by right.
Qed.

Lemma control_at_in control l : forall j c m i, NoDup l -> l !! m = Some i -> Z.of_nat i = control ->
  control_at control j c l = u32 (j + Z.of_nat m).
Proof.
  induction l as [|i0 l IH]; intros j c m i Hd Hm Hi; [done|]. apply NoDup_cons in Hd as [Hnin Hd].
  destruct m as [|m]; cbn in Hm; cbn [control_at].
  - injection Hm as ->. rewrite (proj2 (Z.eqb_eq _ _)) by done. rewrite Z.add_0_r. apply control_at_out.
    intros i' Hin Heq. assert (i' = i) as -> by lia. done.
  - assert (Z.of_nat i0 <> control) as Hne.
    { intros Heq. assert (i0 = i) as -> by lia. apply Hnin. by eapply list_elem_of_lookup_2. }
    rewrite (proj2 (Z.eqb_neq _ _)) by done. rewrite (IH _ _ m i) by done. f_equal. lia.
Qed.

(** ** The loop of [dao_workers_init] *)

Lemma worker_store_at d j w : 0 < per_worker_sz d -> 0 <= j < Z.of_nat (length (workers d)) ->
  worker_store d (j * per_worker_sz d) w = Ret (<[Z.to_nat j := w]> (workers d)).
Proof.
  intros Hsz Hj. unfold worker_store. rewrite Z.mod_mul, Z.div_mul by lia. cbn. by apply cset_in_range.
Qed.

Lemma worker_load_at d j w : 0 < per_worker_sz d -> 0 <= j -> workers d !! Z.to_nat j = Some w ->
  worker_load d (j * per_worker_sz d) = Ret w.
Proof.
  intros Hsz Hj Hw. unfold worker_load. rewrite Z.mod_mul, Z.div_mul by lia. cbn. by apply cget_Ret.
Qed.

Lemma worker_get_at d j : 0 <= j <= num_workers d -> j < 256 -> dao_workers_worker_get d j = Ret (j * per_worker_sz d).
Proof.
  intros Hj Hb. unfold dao_workers_worker_get. replace (u8 j) with j by word.
  by rewrite (proj2 (Z.leb_le _ _)) by lia.
Qed.

Lemma cores_skip mask n : (n < 64)%nat -> Z.testbit mask (Z.of_nat n) = false -> cores_from mask n = cores_from mask (S n).
Proof.
  intros Hn Hb. unfold cores_from. replace (64 - n)%nat with (S (64 - S n)) by lia. cbn [seq].
  by rewrite filter_cons_False by (by rewrite Hb).
Qed.

Lemma cores_cons mask n : (n < 64)%nat -> Z.testbit mask (Z.of_nat n) = true ->
  cores_from mask n = n :: cores_from mask (S n).
Proof.
  intros Hn Hb. unfold cores_from. replace (64 - n)%nat with (S (64 - S n)) by lia. cbn [seq].
  by rewrite filter_cons_True.
Qed.

Lemma cores_end mask n : (64 <= n)%nat -> cores_from mask n = [].
Proof. intros Hn. unfold cores_from. by replace (64 - n)%nat with 0%nat by lia. Qed.

Lemma cores_none mask n : (forall i, Z.of_nat n <= i -> Z.testbit mask i = false) -> cores_from mask n = [].
Proof.
  intros Hb. unfold cores_from. apply filter_none. apply Forall_forall. intros i Hi. apply elem_of_seq in Hi.
  rewrite Hb by lia. done.
Qed.

Lemma set_workers_id d ws n : ws = workers d -> n = num_workers d -> set_workers n (control_core_index d) ws d = d.
Proof. intros -> ->. by destruct d. Qed.

Lemma init_loop_eq mask control app_sz fuel : init_ok mask control app_sz -> forall n j k d,
  core_mask d = mask -> RTE_MAX_LCORE - Z.of_nat n <= Z.of_nat fuel -> 0 < per_worker_sz d ->
  let rest := cores_from mask n in
  Z.of_nat (j + length rest) = num_workers d -> length (workers d) = (j + length rest)%nat -> (j + length rest <= 64)%nat ->
  init_loop fuel control app_sz (Z.of_nat n) (Z.of_nat j) k d =
    Ret (set_workers (num_workers d) (control_at control (Z.of_nat j) (control_core_index d) rest)
           (take j (workers d) ++ numbered control app_sz (Z.of_nat j) k rest) d,
         k + Z.of_nat (length (not_control control rest))).
Proof.
  intros Hok. induction fuel as [|fuel IH]; intros n j k d Hmask Hfuel Hsz rest Hnum Hlen Hle; cbn [init_loop].
  all: destruct (Z.leb_spec RTE_MAX_LCORE (Z.of_nat n)) as [Hmax|Hmax]; [|try lia].
  1, 2: assert (rest = []) as Hr by
    (apply cores_none; intros i Hi; destruct (Z.testbit mask i) eqn:Hb; [|done];
     pose proof (io_enabled _ _ _ Hok i ltac:(lia) Hb); lia);
    rewrite Hr in *; cbn [length numbered control_at not_control]; rewrite app_nil_r, take_ge by (cbn in Hlen; lia);
    rewrite set_workers_id, Z.add_0_r by done; done.
  assert (Z.of_nat (S n) = Z.of_nat n + 1) as Hn1 by lia. rewrite <- Hn1.
  destruct (rte_lcore_is_enabled (Z.of_nat n)) eqn:Hen; cbn [negb].
  2:{ assert (rest = cores_from mask (S n)) as Hr.
      { destruct (decide (n < 64)%nat); [|by unfold rest; rewrite !cores_end by lia].
        apply cores_skip; [done|]. destruct (Z.testbit mask (Z.of_nat n)) eqn:Hb; [|done].
        pose proof (io_enabled _ _ _ Hok (Z.of_nat n) ltac:(lia) Hb). naive_solver. }
      rewrite Hr in *. apply IH; (done || lia). }
  destruct (Z.leb_spec 64 (Z.of_nat n)) as [Hn|Hn].
  { rewrite (io_lcores _ _ _ Hok) in Hen by lia. done. }
  rewrite Hmask, Z.land_comm, land_RTE_BIT64 by lia.
  destruct (Z.testbit mask (Z.of_nat n)) eqn:Hb; cbn [negb].
  2:{ assert (rest = cores_from mask (S n)) as Hr by (apply cores_skip; [lia|done]). rewrite Hr in *. apply IH; (done || lia). }
  assert (rest = n :: cores_from mask (S n)) as Hr by (apply cores_cons; [lia|done]).
  rewrite Hr in *. cbn [length] in *. rewrite worker_get_at by lia. cbn [mbind cres_mbind].
  rewrite worker_store_at by lia. cbn [mbind cres_mbind]. rewrite Nat2Z.id.
  set (ws := <[j := init_worker (Z.of_nat n) (Z.of_nat j) k control app_sz]> (workers d)).
  assert (length ws = length (workers d)) as Hws by apply length_insert.
  assert (take (S j) ws = take j (workers d) ++ [init_worker (Z.of_nat n) (Z.of_nat j) k control app_sz]) as Htake.
  { rewrite (take_S_r _ _ (init_worker (Z.of_nat n) (Z.of_nat j) k control app_sz)) by (apply list_lookup_insert_eq; lia).
    unfold ws. by rewrite take_insert_ge by lia. }
  replace (Z.of_nat j + 1) with (Z.of_nat (S j)) by lia. cbn [numbered control_at]. rewrite cons_middle, app_assoc, <- Htake.
  unfold not_control. rewrite filter_cons.
  destruct (Z.eqb_spec (Z.of_nat n) control) as [Hc|Hc].
  - rewrite decide_False by tauto. rewrite IH; cbn [set_workers core_mask per_worker_sz num_workers workers]; try (done || lia).
    replace (Z.of_nat j + 1) with (Z.of_nat (S j)) by lia. done.
  - rewrite decide_True by done. rewrite IH; cbn [set_workers core_mask per_worker_sz num_workers workers]; try (done || lia).
    replace (Z.of_nat j + 1) with (Z.of_nat (S j)) by lia. cbn [length]. do 2 f_equal. unfold not_control. lia.
Qed.

(** ** The registry after [dao_workers_init] *)

Context `{!RteBitopsLaws _}.

Lemma length_cores mask : (length (cores mask) <= 64)%nat.
Proof. unfold cores, cores_from. etrans; [apply length_filter|]. by rewrite length_seq. Qed.

Lemma cores_NoDup mask : NoDup (cores mask).
Proof. apply NoDup_filter, NoDup_seq. Qed.

Lemma elem_of_cores mask (i : nat) : i ∈ cores mask <-> (i < 64)%nat /\ Z.testbit mask (Z.of_nat i) = true.
Proof.
  unfold cores, cores_from. rewrite list_elem_of_filter, elem_of_seq. split; intros [? ?]; split; (done || lia).
Qed.

Lemma cores_pos mask : is_u64 mask -> mask <> 0 -> 0 < Z.of_nat (length (cores mask)).
Proof.
  intros Hu Hne. destruct (cores mask) as [|i l] eqn:Hc; cbn [length]; [|lia]. exfalso. apply Hne. apply Z.bits_inj'.
  intros i Hi. rewrite Z.bits_0. destruct (Z.testbit mask i) eqn:Hb; [|done].
  destruct (decide (i < 64)) as [Hlt|Hge].
  - assert (Z.to_nat i ∈ cores mask) as Hin by (apply elem_of_cores; rewrite Z2Nat.id by lia; split; [lia|done]).
    rewrite Hc in Hin. by apply not_elem_of_nil in Hin.
  - rewrite (testbit_small mask 64) in Hb by (lia || by apply u64_pow2). done.
Qed.

Lemma length_not_control control l : NoDup l ->
  (length l - 1 <= length (not_control control l) <= length l)%nat.
Proof.
  unfold not_control. induction 1 as [|i l Hni Hd IH]; [done|]. rewrite filter_cons. case_decide as Hc; cbn [length]; [lia|].
  rewrite filter_all; [lia|]. apply Forall_forall. intros i' Hi' Heq. apply Hni.
  by replace i with i' by lia.
Qed.

Lemma sizeof_line : 48 <= RTE_CACHE_LINE_SIZE -> sizeof_dao_worker = RTE_CACHE_LINE_SIZE.
Proof.
  intros Hl. unfold sizeof_dao_worker, DAO_ROUNDUP.
  replace ((48 + (RTE_CACHE_LINE_SIZE - 1)) / RTE_CACHE_LINE_SIZE) with 1; [lia|].
  apply (Z.div_unique_pos _ _ 1 47); lia.
Qed.

Lemma roundup_bounds x y : 0 <= x -> 0 < y -> x <= DAO_ROUNDUP x y < x + y.
Proof.
  intros Hx Hy. unfold DAO_ROUNDUP. pose proof (Z.div_mod (x + (y - 1)) y). pose proof (Z.mod_pos_bound (x + (y - 1)) y). nia.
Qed.

(** The main structure for a mask and a control core. *)
Definition registered (mask control app_sz : Z) : dao_workers_main :=
  let sz := sizeof_dao_worker + DAO_ROUNDUP app_sz RTE_CACHE_LINE_SIZE in
  {| num_cores := Z.of_nat (length (cores mask)); num_workers := Z.of_nat (length (not_control control (cores mask)));
     core_mask := mask; control_core_index := control_at control 0 control (cores mask);
     per_worker_sz := sz; workers_main_sz := u64 (sizeof_dao_workers_main + Z.of_nat (length (cores mask)) * sz);
     barrier_recursion_level := 0; parked_at_barrier := 0; barrier_count := 0;
     workers := numbered control app_sz 0 0 (cores mask) |}.

Lemma per_worker_sz_pos mask control app_sz : init_ok mask control app_sz ->
  0 < per_worker_sz (registered mask control app_sz) < 0x200000000.
Proof.
  intros Hok. pose proof (io_line _ _ _ Hok). pose proof (io_app _ _ _ Hok) as Happ. unfold is_u32 in Happ.
  cbn [registered per_worker_sz]. rewrite sizeof_line by lia.
  pose proof (roundup_bounds app_sz RTE_CACHE_LINE_SIZE). lia.
Qed.

Lemma workers_init_eq mask control app_sz : init_ok mask control app_sz ->
  dao_workers_init mask control app_sz true None = Ret (0, Some (registered mask control app_sz)).
Proof.
  intros Hok. pose proof (io_mask _ _ _ Hok) as [Hu Hne]. pose proof (cores_pos mask Hu Hne) as Hpos.
  pose proof (length_cores mask) as Hlen. pose proof (length_not_control control (cores mask) (cores_NoDup mask)) as Hnc.
  pose proof (per_worker_sz_pos _ _ _ Hok) as Hsz. cbn [registered per_worker_sz] in Hsz.
  unfold dao_workers_init. rewrite popcount_spec by done.
  change (filter (fun i : nat => Z.testbit mask (Z.of_nat i) = true) (seq 0 64)) with (cores mask).
  rewrite (proj2 (Z.eqb_neq _ _)) by lia.
  assert ((if negb (control =? DAO_WORKER_INVALID_INDEX)
    then if 64 <=? control then Fault else Ret (negb (Z.land (RTE_BIT64 control) mask =? 0)) else Ret true) = Ret true) as ->.
  { destruct (Z.eqb_spec control DAO_WORKER_INVALID_INDEX) as [|Hc]; [done|]. cbn [negb].
    destruct (io_control _ _ _ Hok) as [|[Hr Hb]]; [done|]. rewrite (proj2 (Z.leb_gt _ _)) by lia.
    by rewrite Z.land_comm, land_RTE_BIT64, Hb by lia. }
  cbn [mbind cres_mbind negb]. set (sz := sizeof_dao_worker + _) in *. rewrite (u64_id sz) by (unfold is_u64; lia).
  rewrite (u16_id (Z.of_nat _)) by (unfold is_u16; lia). rewrite Nat2Z.id.
  set (d := {| num_cores := _ |}).
  pose proof (init_loop_eq mask control app_sz (Z.to_nat RTE_MAX_LCORE) Hok 0 0 0 d) as Hloop.
  fold (cores mask) in Hloop. change (Z.of_nat 0) with 0 in Hloop. rewrite Hloop.
  - cbn [mbind cres_mbind set_workers take app]. rewrite Z.add_0_l, u16_id by (unfold is_u16; lia). done.
  - done.
  - lia.
  - cbn. lia.
  - cbn [d num_workers]. lia.
  - cbn [d workers]. by rewrite length_replicate.
  - done.
Qed.

(** The cell of a core. *)
Lemma registered_cell mask control app_sz m i : cores mask !! m = Some i ->
  workers (registered mask control app_sz) !! m =
    Some (init_worker (Z.of_nat i) (Z.of_nat m) (Z.of_nat (length (not_control control (take m (cores mask))))) control app_sz).
Proof. intros Hm. cbn [registered workers]. by rewrite (lookup_numbered _ _ _ 0 0 m i Hm). Qed.

Lemma cores_lookup mask m i : cores mask !! m = Some i -> (m < length (cores mask))%nat /\ (i < 64)%nat.
Proof.
  intros Hm. split; [by eapply lookup_lt_Some|]. apply list_elem_of_lookup_2, elem_of_cores in Hm. tauto.
Qed.

(** The search for a core stops at its cell. *)
Lemma self_loop_eq mask control app_sz fuel : init_ok mask control app_sz -> forall m i n,
  cores mask !! m = Some i -> (n <= m)%nat -> (m - n <= fuel)%nat ->
  self_loop fuel (registered mask control app_sz) (Z.of_nat i) (Z.of_nat n) = Ret (Z.of_nat m).
Proof.
  intros Hok. pose proof (length_cores mask) as Hlen. pose proof (per_worker_sz_pos _ _ _ Hok) as [Hsz _].
  pose proof (length_not_control control (cores mask) (cores_NoDup mask)) as Hnc.
  induction fuel as [|fuel IH]; intros m i n Hm Hn Hf; pose proof (cores_lookup mask m i Hm) as [Hlm Hi]; cbn [self_loop].
  all: rewrite (proj2 (Z.leb_gt _ _)) by (cbn [registered num_cores]; lia).
  all: destruct (lookup_lt_is_Some_2 (cores mask) n) as [i' Hi']; [lia|].
  all: pose proof (cores_lookup mask n i' Hi') as [_ Hb'].
  all: rewrite worker_get_at by (cbn [registered num_workers]; lia); cbn [mbind cres_mbind].
  all: erewrite worker_load_at; [|done|lia|rewrite Nat2Z.id; by apply registered_cell]; cbn [mbind cres_mbind].
  all: cbn [init_worker core_index has_main dpdk_lcore_id]; rewrite !u32_id, Z.eqb_refl by (unfold is_u32; lia).
  all: cbn [verify mbind cres_mbind]; rewrite (proj2 (Z.eqb_neq LCORE_ID_ANY _)), orb_false_r by (unfold LCORE_ID_ANY; lia).
  all: destruct (decide (n = m)) as [->|Hne].
  1, 3: assert (i' = i) as -> by congruence; rewrite Z.eqb_refl; done.
  { lia. }
  rewrite (proj2 (Z.eqb_neq _ _)); cbn [negb].
  - replace (Z.of_nat n + 1) with (Z.of_nat (S n)) by lia. apply (IH m i); [done|lia|lia].
  - intros Heq. apply Hne. assert (i' = i) as -> by lia. by eapply NoDup_lookup; [apply cores_NoDup|..].
Qed.

(** The registry. [dao_workers_init] on a mask of enabled cores gives
    every core of the mask one cell, in the order of the cores; the control
    core gets no worker index, the others get 0, 1, ... in order, and
    [num_workers] of them are used. Afterwards [dao_workers_self_worker_get]
    finds on every core of the mask the handle of its own cell. The barrier
    starts in its initial state. *)
Theorem workers_init_registers mask control app_sz : init_ok mask control app_sz ->
  exists d, dao_workers_init mask control app_sz true None = Ret (0, Some d) /\
    num_cores d = Z.of_nat (length (cores mask)) /\ length (workers d) = length (cores mask) /\
    num_workers d = Z.of_nat (length (not_control control (cores mask))) /\
    (forall m i, cores mask !! m = Some i -> exists w h,
       dao_workers_self_worker_get d (Z.of_nat i) = Ret (Some h) /\ worker_load d h = Ret w /\
       workers d !! m = Some w /\ dpdk_lcore_id w = Z.of_nat i /\ core_index w = Z.of_nat m /\
       (Z.of_nat i = control -> is_main w = true /\ worker_index w = DAO_WORKER_INVALID_INDEX) /\
       (Z.of_nat i <> control -> is_main w = false /\
          worker_index w = Z.of_nat (length (not_control control (take m (cores mask)))))) /\
    barrier_init {| b_dwm := d; b_ctl := COut; b_ret := 0; b_wrk := replicate (Z.to_nat (num_workers d)) WRun |}.
Proof.
  intros Hok. exists (registered mask control app_sz). split; [by apply workers_init_eq|].
  pose proof (length_cores mask) as Hlen. pose proof (per_worker_sz_pos _ _ _ Hok) as [Hsz _].
  pose proof (length_not_control control (cores mask) (cores_NoDup mask)) as Hnc.
  split; [done|]. split; [apply length_numbered|]. split; [done|].
  split; [|split; [reflexivity|reflexivity|cbn [b_dwm registered num_workers]; unfold is_u16; lia|reflexivity..]].
  intros m i Hm. pose proof (cores_lookup mask m i Hm) as [Hlm Hi]. pose proof (registered_cell mask control app_sz m i Hm) as Hcell.
  eexists _, (Z.of_nat m * per_worker_sz (registered mask control app_sz)).
  pose proof (length_filter (fun i : nat => Z.of_nat i <> control) (take m (cores mask))) as Hk.
  fold (not_control control (take m (cores mask))) in Hk. rewrite length_take in Hk. unfold dao_workers_self_worker_get.
  pose proof (self_loop_eq mask control app_sz (Z.to_nat (num_cores (registered mask control app_sz))) Hok m i 0 Hm) as Hloop.
  change (Z.of_nat 0) with 0 in Hloop. rewrite Hloop by (cbn [registered num_cores]; lia). cbn [mbind cres_mbind].
  rewrite (proj2 (Z.ltb_lt _ _)) by (cbn [registered num_cores]; lia).
  rewrite worker_get_at by (cbn [registered num_workers]; lia). split; [done|].
  split; [apply worker_load_at; [done|lia|rewrite Nat2Z.id; exact Hcell]|]. split; [exact Hcell|].
  cbn [init_worker dpdk_lcore_id core_index is_main worker_index]. rewrite !u32_id by (unfold is_u32; lia).
  split; [done|]. split; [done|].
  split; intros Hc; [rewrite (proj2 (Z.eqb_eq _ _) Hc)|rewrite (proj2 (Z.eqb_neq _ _) Hc)]; done.
Qed.

(** The handle of the control core. [dao_workers_control_worker_get]
    steps over the cells by the size of [dao_worker_t] and not by the size of
    a cell: after [dao_workers_init] its result is the handle of the control
    core exactly when that core is the first one of the mask or no private
    memory was asked for. *)
Theorem control_worker_get_stride mask control app_sz m :
  init_ok mask control app_sz -> cores mask !! m = Some (Z.to_nat control) -> 0 <= control ->
  exists d, dao_workers_init mask control app_sz true None = Ret (0, Some d) /\
    control_core_index d = Z.of_nat m /\
    (dao_workers_control_worker_get d = Some (Z.of_nat m * per_worker_sz d) <-> (m = 0%nat \/ app_sz = 0)).
Proof.
  intros Hok Hm Hc. exists (registered mask control app_sz). split; [by apply workers_init_eq|].
  pose proof (cores_lookup mask m _ Hm) as [Hlm _]. pose proof (length_cores mask). pose proof (io_line _ _ _ Hok).
  pose proof (io_app _ _ _ Hok) as Happ. unfold is_u32 in Happ.
  assert (control_core_index (registered mask control app_sz) = Z.of_nat m) as Hidx.
  { cbn [registered control_core_index]. rewrite (control_at_in _ _ 0 control m (Z.to_nat control)) by (done || apply cores_NoDup || lia).
    rewrite Z.add_0_l. apply u32_id. unfold is_u32. lia. }
  split; [done|]. unfold dao_workers_control_worker_get. rewrite Hidx.
  rewrite (proj2 (Z.eqb_neq _ _)) by (unfold DAO_WORKER_INVALID_INDEX; lia). cbn [negb registered per_worker_sz].
  pose proof (roundup_bounds app_sz RTE_CACHE_LINE_SIZE) as Hround. rewrite sizeof_line by lia.
  split.
  - intros [= Heq]. destruct (decide (m = 0%nat)) as [|Hne]; [by left|]. right.
    apply Z.mul_reg_l in Heq; [lia|lia].
  - intros [-> | ->]; [done|]. do 2 f_equal.
    unfold DAO_ROUNDUP. rewrite (Z.div_small (0 + _)), Z.mul_0_l by lia. lia.
Qed.
End registry.

(** ** Witnesses *)

#[local] Instance wit_lcores : Lcores := {
  RTE_MAX_LCORE := 128;
  RTE_CACHE_LINE_SIZE := 128;
  rte_lcore_is_enabled i := i <? 8;
  rte_lcore_to_cpu_id i := i;
  rte_lcore_index i := i;
  rte_lcore_to_socket_id _ := 0;
}.

(** Cores 1, 2 and 5; core 2 is the control core. *)
Lemma wit_init_ok : init_ok 0x26 2 64.
Proof.
  split.
  - split; [unfold is_u64; lia|lia].
  - intros i Hi Hb. cbn. destruct (decide (i < 8)) as [Hlt|Hge]; [split; [lia|by apply Z.ltb_lt]|].
    rewrite (testbit_small 0x26 8) in Hb by (cbn; lia). done.
  - intros i Hi. cbn. apply Z.ltb_ge. lia.
  - right. split; [lia|reflexivity].
  - unfold is_u32. lia.
  - cbn. lia.
Qed.

Lemma workers_init_registers_witness :
  exists d h, dao_workers_init 0x26 2 64 true None = Ret (0, Some d) /\ num_workers d = 2 /\
    dao_workers_self_worker_get d 5 = Ret (Some h) /\ worker_index <$> (workers d !! 2%nat) = Some 1.
Proof.
  destruct (workers_init_registers 0x26 2 64 wit_init_ok) as (d & Hd & _ & _ & Hn & Hcell & _).
  destruct (Hcell 2%nat 5%nat) as (w & h & Hself & _ & Hw & _ & _ & _ & Hidx); [reflexivity|].
  exists d, h. split; [exact Hd|]. split; [exact Hn|]. split; [exact Hself|].
  rewrite Hw. cbn. destruct Hidx as [_ ->]; [lia|]. reflexivity.
Defined.

(** The second core with 64 bytes of private memory: the wrong handle. *)
Lemma control_worker_get_stride_witness :
  exists d, dao_workers_init 0x26 2 64 true None = Ret (0, Some d) /\
    dao_workers_control_worker_get d <> Some (1 * per_worker_sz d).
Proof.
  destruct (control_worker_get_stride 0x26 2 64 1 wit_init_ok) as (d & Hd & _ & Hiff).
  - reflexivity.
  - lia.
  - exists d. split; [exact Hd|]. intros Heq. apply Hiff in Heq as [Heq|Heq]; discriminate Heq.
Defined.

(** Two workers. *)
Definition wit_barrier : bstate :=
  {| b_dwm := {| num_cores := 3; num_workers := 2; core_mask := 0x26; control_core_index := 1; per_worker_sz := 256;
                 workers_main_sz := 1152; barrier_recursion_level := 0; parked_at_barrier := 0; barrier_count := 0;
                 workers := replicate 3 worker0 |};
     b_ctl := COut; b_ret := 0; b_wrk := [WRun; WRun] |}.

Lemma wit_barrier_init : barrier_init wit_barrier.
Proof. split; try reflexivity. unfold is_u16. cbn. lia. Qed.

(** The control core takes the barrier. *)
Definition wit_take : list action := [ASync; AWorker 0; AWait; AWorker 0; AWorker 1; AWorker 1; AWait].

Lemma barrier_stops_workers_witness :
  exists s, brun wit_take wit_barrier = Some s /\ b_ret s = 0 /\ Forall (WSpin =.) (b_wrk s) /\
    forall s', bstep s s' -> b_wrk s' = b_wrk s.
Proof.
  destruct (brun wit_take wit_barrier) as [s|] eqn:Hs; [|exfalso; vm_compute in Hs; discriminate Hs].
  exists s. split; [reflexivity|]. destruct (barrier_stops_workers s) as (_ & Hall & Hstep).
  - exists wit_barrier. split; [exact wit_barrier_init|]. apply (brun_steps wit_take). exact Hs.
  - vm_compute in Hs. injection Hs as <-. split; [reflexivity|]. cbn. lia.
  - split; [vm_compute in Hs; injection Hs as <-; reflexivity|]. split; [exact Hall|]. intros s' Hs'. apply Hstep, Hs'.
Defined.

(** The control core releases the barrier and takes it again before a worker
    has seen the release: neither worker is counted, and the call never
    returns. *)
Definition wit_deadlock : list action := wit_take ++ [ARelease; AReleaseEnd; ASync].

Lemma barrier_sync_returns_iff_witness :
  exists s, brun wit_deadlock wit_barrier = Some s /\ forall s', rtc bstep s s' -> b_ctl s' = CWait.
Proof.
  destruct (brun wit_deadlock wit_barrier) as [s|] eqn:Hs; [|exfalso; vm_compute in Hs; discriminate Hs].
  exists s. split; [reflexivity|]. destruct (barrier_sync_returns_iff s) as [_ Hstuck].
  - exists wit_barrier. split; [exact wit_barrier_init|]. apply (brun_steps wit_deadlock). exact Hs.
  - vm_compute in Hs. injection Hs as <-. reflexivity.
  - apply Hstuck. vm_compute in Hs. injection Hs as <-. vm_compute. discriminate.
Defined.
