(* ===== verification/FlowAcl.v ===== *)
(** * Flow rules in software: the ACL table of a port (lib/flow/flow_acl.c)

    A table keeps its rules in a DPDK ACL context, which classifies packet
    keys, and the actions of the rules in an array whose free cells are linked
    through their index field. *)
From stdpp Require Import base option list numbers gmap.
From S2P Require Import Prelude Rte.

Local Open Scope Z_scope.

Definition ACL_MAX_RULES_PER_CTX : Z := 4 * 1024.
Definition ACL_X4_RULE_DEF_SIZE : Z := 15.
Definition ACL_RULE_CTX_INVALID : Z := -3001.
Definition ACL_RULE_OBJ_INVALID : Z := -3002.
Definition ACL_RULE_TBL_INVALID : Z := -3003.
Definition ACL_RULE_EMPTY : Z := -3004.

Definition ACL_ACTION_MARK : Z := RTE_BIT64 0.
Definition ACL_ACTION_COUNT : Z := RTE_BIT64 1.

(** [(uint32_t)~0x0]: the end of the list of free cells. *)
Definition NO_INDEX : Z := 0xFFFFFFFF.

(** ** Rules and keys *)

(** [struct acl_rule]: value and mask of the fields, priority and user data. *)
Record acl_rule := { field : list (Z * Z); priority : Z; userdata : Z }.

(** [struct rte_acl_field_def]: size and offset. *)
Record acl_field_def := { def_size : Z; def_offset : Z }.

Definition ovs_kex_acl_defs : list acl_field_def :=
  {| def_size := 1; def_offset := 0 |} ::
  ((fun i => {| def_size := 4; def_offset := 4 * i |}) <$> seqZ 1 14).

(** What [flow_parse] makes of a pattern: the bytes to match and their mask. *)
Record parsed_flow := { parsed_data : list Z; parsed_data_mask : list Z }.

(** The 32-bit big-endian number in the four bytes at offset [o]. *)
Definition be32 (l : list Z) (o : Z) : Z :=
  let b i := default 0 (l !! Z.to_nat (o + i)) in
  b 0 * 0x1000000 + b 1 * 0x10000 + b 2 * 0x100 + b 3.

(** The fields [acl_rule_prepare] fills; the copy of the flow it keeps for
    printing is left out. *)
Definition acl_rule_prepare (flow : parsed_flow) : list (Z * Z) :=
  (fun i => (be32 (parsed_data flow) (4 * (i - 1)), be32 (parsed_data_mask flow) (4 * (i - 1)))) <$>
    seqZ 1 (ACL_X4_RULE_DEF_SIZE - 1).

(** All fields of a rule: the first one is for the table. *)
Definition rule_fields (tbl_id : Z) (flow : parsed_flow) : list (Z * Z) := (u8 tbl_id, 0xff) :: acl_rule_prepare flow.

(** ** DPDK's ACL library

    A field of type BITMASK matches when value and input agree under the
    mask; the input is read in network byte order. *)
Definition acl_field_match (key : list Z) (d : acl_field_def) (f : Z * Z) : bool :=
  let input := if def_size d =? 1 then default 0 (key !! Z.to_nat (def_offset d)) else be32 key (def_offset d) in
  Z.land input f.2 =? Z.land f.1 f.2.

Definition acl_match (r : acl_rule) (key : list Z) : bool :=
  forallb (fun df => acl_field_match key df.1 df.2) (zip ovs_kex_acl_defs (field r)).

(** [v] is the user data of a matching rule of highest priority, 0 if no rule
    matches. *)
Definition verdict (rules : list acl_rule) (key : list Z) (v : Z) : Prop :=
  (v = 0 /\ forall r, r ∈ rules -> acl_match r key = false) \/
  exists r, r ∈ rules /\ acl_match r key = true /\ v = userdata r /\
    forall r', r' ∈ rules -> acl_match r' key = true -> priority r' <= priority r.

Class RteAcl (X : Type) := {
  rte_acl_create : option X;
  rte_acl_set_ctx_classify : X -> Z * X;
  rte_acl_add_rules : acl_rule -> X -> Z * X;
  rte_acl_build : X -> Z * X;
  rte_acl_reset_rules : X -> X;
  rte_acl_classify : X -> list (list Z) -> list Z;
  rules_added : X -> list acl_rule;
  rules_built : X -> list acl_rule;
}.

(** The documented behaviour: the rules added so far, and those the run-time
    structures were built from; [rte_acl_reset_rules] does not touch the
    latter. *)
Class RteAclLaws (X : Type) `{RteAcl X} : Prop := {
  create_added x : rte_acl_create = Some x -> rules_added x = [];
  set_classify_added x : rules_added (rte_acl_set_ctx_classify x).2 = rules_added x;
  add_added r x : rules_added (rte_acl_add_rules r x).2 =
    if (rte_acl_add_rules r x).1 =? 0 then rules_added x ++ [r] else rules_added x;
  build_added x : rules_added (rte_acl_build x).2 = rules_added x;
  build_built x : (rte_acl_build x).1 = 0 -> rules_built (rte_acl_build x).2 = rules_added x;
  reset_added x : rules_added (rte_acl_reset_rules x) = [];
  classify_length x keys : length (rte_acl_classify x keys) = length keys;
  classify_verdict x keys i key : keys !! i = Some key ->
    exists v, rte_acl_classify x keys !! i = Some v /\ verdict (rules_built x) key v;
}.

(** ** State *)

(** [struct acl_actions]; the pointer [rule_data] is 0 when null. *)
Record acl_actions := {
  in_use : bool;
  counter_enable : bool;
  act_map : Z;
  index : Z;
  rx_action : Z;
  rule_data : Z;
}.

Definition action0 : acl_actions :=
  {| in_use := false; counter_enable := false; act_map := 0; index := 0; rx_action := 0; rule_data := 0 |}.

Definition set_index (i : Z) (a : acl_actions) : acl_actions :=
  {| in_use := in_use a; counter_enable := counter_enable a; act_map := act_map a; index := i;
     rx_action := rx_action a; rule_data := rule_data a |}.

Definition set_rule_data (p : Z) (a : acl_actions) : acl_actions :=
  {| in_use := in_use a; counter_enable := counter_enable a; act_map := act_map a; index := index a;
     rx_action := rx_action a; rule_data := p |}.

(** [sizeof(struct acl_actions)]: three flags, a word, an index, the union,
    a word and a pointer. *)
Definition sizeof_acl_actions : Z := 48.

(** [struct acl_rule_data] *)
Record acl_rule_data := { rule : acl_rule; rule_idx : Z; rule_hits : Z }.

Definition set_hits (n : Z) (rd : acl_rule_data) : acl_rule_data :=
  {| rule := rule rd; rule_idx := rule_idx rd; rule_hits := n |}.

(** [struct acl_table]: [ctx] says whether the pointer is set, [reg] is the
    context registered under the table's name; [flow_list] holds the pointers
    of the TAILQ and [heap] the rules behind them. *)
Record acl_table {X : Type} := {
  tbl_id : Z;
  tbl_val : bool;
  num_rules : Z;
  ctx : bool;
  reg : option X;
  action : option (list acl_actions);
  size : Z;
  flow_list : list Z;
  heap : gmap Z acl_rule_data;
}.
Arguments acl_table : clear implicits.

(** A packet: the flag RTE_MBUF_F_RX_FDIR_ID, [hash.fdir.hi], and its data. *)
Record mbuf {P : Type} := { fdir : bool; hash_hi : Z; pkt : P }.
Arguments mbuf : clear implicits.

Section setters.
Context {X : Type}.
Implicit Types t : acl_table X.

Definition set_ctx (c : bool) (r : option X) t : acl_table X :=
  {| tbl_id := tbl_id t; tbl_val := tbl_val t; num_rules := num_rules t; ctx := c; reg := r;
     action := action t; size := size t; flow_list := flow_list t; heap := heap t |}.

Definition set_action (a : option (list acl_actions)) (n : Z) t : acl_table X :=
  {| tbl_id := tbl_id t; tbl_val := tbl_val t; num_rules := num_rules t; ctx := ctx t; reg := reg t;
     action := a; size := n; flow_list := flow_list t; heap := heap t |}.

Definition set_rules (n : Z) (l : list Z) (h : gmap Z acl_rule_data) t : acl_table X :=
  {| tbl_id := tbl_id t; tbl_val := tbl_val t; num_rules := n; ctx := ctx t; reg := reg t;
     action := action t; size := size t; flow_list := l; heap := h |}.

Definition set_tbl_val (b : bool) (l : list Z) t : acl_table X :=
  {| tbl_id := tbl_id t; tbl_val := b; num_rules := num_rules t; ctx := ctx t; reg := reg t;
     action := action t; size := size t; flow_list := l; heap := heap t |}.
End setters.

(** ** Actions *)

(** The action types the code looks at. *)
Inductive rte_flow_action := ActVoid | ActMark (id : Z) | ActCount | ActOther.

Definition populate_one (a : rte_flow_action) (acl_act : acl_actions) : acl_actions :=
  match a with
  | ActMark id =>
      {| in_use := true; counter_enable := counter_enable acl_act;
         act_map := Z.lor (act_map acl_act) ACL_ACTION_MARK; index := index acl_act;
         rx_action := Z.lor (rx_action acl_act) (u64 (Z.shiftl (u16 id) 40)); rule_data := rule_data acl_act |}
  | ActCount =>
      {| in_use := in_use acl_act; counter_enable := true;
         act_map := Z.lor (act_map acl_act) ACL_ACTION_COUNT; index := index acl_act;
         rx_action := rx_action acl_act; rule_data := rule_data acl_act |}
  | ActVoid | ActOther => acl_act
  end.

(** The list of actions, up to its END; counting is enabled for all. *)
Definition acl_populate_action (actions : list rte_flow_action) (acl_act : acl_actions) : acl_actions :=
  populate_one ActCount (foldl (fun acl_act a => populate_one a acl_act) acl_act actions).

(** [for (; i < max - 1; i++) action[i].index = i + 1; action[i].index = ~0;] *)
Fixpoint link_free (fuel : nat) (cells : list acl_actions) (i max : Z) : cres (list acl_actions) :=
  a ← cget cells i;
  if max - 1 <=? i then cset cells i (set_index NO_INDEX a)
  else match fuel with
  | O => Fault
  | S fuel => cells ← cset cells i (set_index (i + 1) a); link_free fuel cells (i + 1) max
  end.

(** The first free cell is unlinked and filled. *)
Definition action_take (actions : list rte_flow_action) (cells : list acl_actions) : cres (Z * list acl_actions) :=
  first ← cget cells 0;
  let act := index first in
  a ← cget cells act;
  cells ← cset cells 0 (set_index (index a) first);
  a ← cget cells act;
  cells ← cset cells act (acl_populate_action actions (set_index act a));
  Ret (act, cells).

(** A cell is cleared and linked in front of the free ones. *)
Definition action_give (act : Z) (cells : list acl_actions) : cres (list acl_actions) :=
  first ← cget cells 0;
  let tid := index first in
  cells ← cset cells 0 (set_index act first);
  cset cells act (set_index tid action0).

Section table.
Context {X : Type} `{RteAcl X}.
Implicit Types t : acl_table X.

(** [acl_parse_action]: [mem] tells whether the array can be allocated. When
    the array is full it is reallocated with its number of cells as the number
    of bytes, twice. *)
Definition acl_parse_action (actions : list rte_flow_action) (mem : bool) t : cres (Z * acl_table X) :=
  o ← match action t with
      | Some cells => Ret (Some (cells, size t))
      | None =>
          if negb mem then Ret None
          else
            cells ← link_free (Z.to_nat ACL_MAX_RULES_PER_CTX)
                      (replicate (Z.to_nat ACL_MAX_RULES_PER_CTX) action0) 0 ACL_MAX_RULES_PER_CTX;
            Ret (Some (cells, ACL_MAX_RULES_PER_CTX))
      end;
  match o with
  | None => Ret (- ENOMEM, t)
  | Some (cells, n) =>
      first ← cget cells 0;
      '(cells, n) ←
        (if index first =? NO_INDEX then
           let cells := take (Z.to_nat (n * 2 / sizeof_acl_actions)) cells in
           cells ← link_free (Z.to_nat (n * 2)) cells n (n * 2);
           first ← cget cells 0;
           cells ← cset cells 0 (set_index n first);
           Ret (cells, u32 (n * 2))
         else Ret (cells, n));
      '(act, cells) ← action_take actions cells;
      Ret (act, set_action (Some cells) n t)
  end.

(** ** Adding a rule *)

(** The context for the table: the one registered under its name, or a new
    one. *)
Definition acl_ctx_get t : option (acl_table X) :=
  match reg t with
  | Some x => Some (set_ctx true (Some x) t)
  | None =>
      match rte_acl_create with
      | None => None
      | Some x =>
          let '(rc, x) := rte_acl_set_ctx_classify x in
          if negb (rc =? 0) then None else Some (set_tbl_val true [] (set_ctx true (Some x) t))
      end
  end.

(** The labels [free_rule] to [free]: the context is freed. *)
Definition acl_ctx_free t : acl_table X := set_ctx false None t.

(** [acl_create_rule]: [parsed] is what [flow_parse] returns, [rule_p] the
    pointer for the rule and [rule_mem], [act_mem] tell whether the other
    memory can be allocated. *)
Definition acl_create_rule (attr_priority : Z) (parsed : option parsed_flow) (actions : list rte_flow_action)
    (act_mem : bool) (rule_p : option Z) (rule_mem : bool) t : cres (option Z * acl_table X) :=
  match acl_ctx_get t with
  | None => Ret (None, set_ctx false None t)
  | Some t =>
      match parsed with
      | None => Ret (None, t)
      | Some flow =>
          '(act, t) ← acl_parse_action actions act_mem t;
          if act <? 0 then Ret (None, acl_ctx_free t)
          else match rule_p, reg t with
          | Some p, Some x =>
              if negb rule_mem then Ret (None, acl_ctx_free t)
              else
                let r := {| field := rule_fields (tbl_id t) flow; priority := i32 (attr_priority + 1); userdata := act |} in
                let '(rc, x) := rte_acl_add_rules r x in
                if negb (rc =? 0) then Ret (None, acl_ctx_free t)
                else
                  let '(rc, x) := rte_acl_build x in
                  if negb (rc =? 0) then Ret (None, acl_ctx_free t)
                  else match action t with
                  | None => Fault
                  | Some cells =>
                      a ← cget cells act;
                      cells ← cset cells act (set_rule_data p a);
                      let t := set_action (Some cells) (size t) (set_ctx true (Some x) t) in
                      Ret (Some p, set_rules (u32 (num_rules t + 1)) (flow_list t ++ [p])
                        (<[p := {| rule := r; rule_idx := act; rule_hits := 0 |}]> (heap t)) t)
                  end
          | _, _ => Ret (None, acl_ctx_free t)
          end
      end
  end.

(** ** Deleting a rule *)

(** The context behind the pointer: null, or the registered one. *)
Definition the_ctx t : cres (option X) :=
  if ctx t then match reg t with Some x => Ret (Some x) | None => Fault end else Ret None.

(** The calls on a context that may be null, for which the library returns an
    error. *)
Definition on_ctx (f : X -> Z * X) (o : option X) : Z * option X :=
  match o with None => (- EINVAL, None) | Some x => let '(rc, x) := f x in (rc, Some x) end.

(** [TAILQ_FOREACH] over the rules but [p]: they are added again; the first
    error, and how many. *)
Fixpoint readd_rules (l : list Z) (p : Z) (h : gmap Z acl_rule_data) (o : option X) : cres (Z * Z * option X) :=
  match l with
  | [] => Ret (0, 0, o)
  | q :: l =>
      if q =? p then readd_rules l p h o
      else match h !! q with
      | None => Fault
      | Some rd =>
          let '(rc, o) := on_ctx (rte_acl_add_rules (rule rd)) o in
          if negb (rc =? 0) then Ret (rc, 1, o)
          else '(rc, n, o) ← readd_rules l p h o; Ret (rc, n + 1, o)
      end
  end.

Definition acl_delete_rule (p : Z) t : cres (Z * acl_table X) :=
  o ← the_ctx t;
  '(rc, count, o) ← readd_rules (flow_list t) p (heap t) (rte_acl_reset_rules <$> o);
  let t' := set_ctx (ctx t) (if ctx t then o else reg t) t in
  if negb (rc =? 0) then Ret (rc, t')
  else
    let '(rc, o) := if negb (count =? 0) then on_ctx rte_acl_build o else (0, rte_acl_reset_rules <$> o) in
    let t := set_ctx (ctx t) (if ctx t then o else reg t) t in
    if negb (rc =? 0) then Ret (rc, t)
    else match heap t !! p, action t with
    | Some rd, Some cells =>
        cells ← action_give (userdata (rule rd)) cells;
        let t := set_action (Some cells) (size t) t in
        Ret (0, set_rules (u32 (num_rules t - 1)) (filter (fun q => q <> p) (flow_list t)) (delete p (heap t)) t)
    | _, _ => Fault
    end.

(** [DAO_TAILQ_FOREACH_SAFE] of [acl_table_rule_flush] *)
Fixpoint flush_rules (l : list Z) t : cres (Z * acl_table X) :=
  match l with
  | [] => Ret (0, t)
  | p :: l =>
      '(rc, t) ← acl_delete_rule p t;
      if negb (rc =? 0) then Ret (- rc, t) else flush_rules l t
  end.

Definition acl_table_rule_flush t : cres (Z * acl_table X) :=
  if negb (tbl_val t) then Ret (0, t)
  else if num_rules t =? 0 then Ret (0, t)
  else flush_rules (flow_list t) t.

(** [acl_rule_query]: the hits, and [reset]. *)
Definition acl_rule_query (p : Z) (reset : bool) t : cres (Z * Z * acl_table X) :=
  if negb (tbl_val t) then Ret (- EINVAL, 0, t)
  else match heap t !! p with
  | None => Fault
  | Some rd =>
      Ret (0, rule_hits rd,
           if reset then set_rules (num_rules t) (flow_list t) (<[p := set_hits 0 rd]> (heap t)) t else t)
  end.

(** ** Lookup *)

Context {P : Type} (key_generation : P -> list Z).

(** The buffer for a packet: the table in the first byte, the generated key
    from the fourth on. *)
Definition key_buf t (m : mbuf P) : list Z := [u8 (tbl_id t); 0; 0; 0] ++ key_generation (pkt m).

(** [acl_lookup_process]: the packets without the flag are classified, and
    the results go to the first cells of [result]. *)
Definition acl_lookup_process (x : X) t (objs : list (mbuf P)) (result : list Z) : list Z :=
  let keys := key_buf t <$> filter (fun m => fdir m = false) objs in
  let r := rte_acl_classify x keys in
  r ++ drop (length r) result.

Definition acl_action_mark_id (rx_action : Z) (m : mbuf P) : Z * mbuf P :=
  if rx_action =? 0 then (- EINVAL, m)
  else (0, {| fdir := true; hash_hi := u16 (Z.land (Z.shiftr rx_action 40) 0xFFFF); pkt := pkt m |}).

(** [acl_flow_action_execute] *)
Definition acl_flow_action_execute (idx : Z) (m : mbuf P) t : cres (Z * mbuf P * acl_table X) :=
  match action t with
  | None => Fault
  | Some cells =>
      a ← cget cells idx;
      if negb (index a =? idx) then Ret (- EINVAL, m, t)
      else if negb (in_use a) then Ret (- EINVAL, m, t)
      else
        let '(rc, m) := if negb (Z.land (act_map a) ACL_ACTION_MARK =? 0) then acl_action_mark_id (rx_action a) m
                        else (0, m) in
        if negb (rc =? 0) then Ret (rc, m, t)
        else if counter_enable a && negb (Z.land (act_map a) ACL_ACTION_COUNT =? 0) then
          match heap t !! rule_data a with
          | None => Fault
          | Some rd =>
              Ret (0, m, set_rules (num_rules t) (flow_list t)
                           (<[rule_data a := set_hits (u32 (rule_hits rd + 1)) rd]> (heap t)) t)
          end
        else Ret (0, m, t)
  end.

(** [for (i = 0; i < nb_objs; i++)] of [acl_flow_lookup] *)
Fixpoint lookup_loop (objs : list (mbuf P)) (result : list Z) (i : Z) t : cres (list (mbuf P) * acl_table X) :=
  match objs with
  | [] => Ret ([], t)
  | m :: objs =>
      '(m, t) ← (if fdir m then Ret (m, t)
                 else
                   r ← cget result i;
                   if negb (r =? 0) && negb (num_rules t =? 0)
                   then '(_, m, t) ← acl_flow_action_execute r m t; Ret (m, t)
                   else Ret (m, t));
      '(objs, t) ← lookup_loop objs result (i + 1) t;
      Ret (m :: objs, t)
  end.

Definition acl_flow_lookup (objs : list (mbuf P)) (result : list Z) t
  : cres (Z * list (mbuf P) * list Z * acl_table X) :=
  if negb (ctx t) then Ret (ACL_RULE_CTX_INVALID, objs, result, t)
  else if num_rules t =? 0 then Ret (ACL_RULE_EMPTY, objs, result, t)
  else match reg t with
  | None => Fault
  | Some x =>
      let result := acl_lookup_process x t objs result in
      '(objs, t) ← lookup_loop objs result 0 t;
      Ret (0, objs, result, t)
  end.
End table.

(** ** The array of actions and its free cells *)

(** From index [i] the free cells are [l]. *)
Fixpoint chain (cells : list acl_actions) (i : Z) (l : list Z) : Prop :=
  match l with
  | [] => i = NO_INDEX
  | j :: l => i = j /\ exists a, cells !! Z.to_nat j = Some a /\ chain cells (index a) l
  end.

(** The cells of [free] are linked from the first cell and are clear, those
    of [used] hold their own index, and no cell is in both. *)
Record actions_ok (cells : list acl_actions) (free used : list Z) : Prop := {
  ao_len : 1 < Z.of_nat (length cells) < 0x80000000;
  ao_first : exists a, cells !! 0%nat = Some a /\ chain cells (index a) free;
  ao_free : forall j, j ∈ free -> exists i, cells !! Z.to_nat j = Some (set_index i action0);
  ao_used : forall j, j ∈ used -> exists a, cells !! Z.to_nat j = Some a /\ index a = j;
  ao_nodup : NoDup (free ++ used);
  ao_range : forall j, j ∈ free ++ used -> 1 <= j < Z.of_nat (length cells);
}.

Lemma chain_ext cells cells' l : forall i, (forall j, j ∈ l -> cells' !! Z.to_nat j = cells !! Z.to_nat j) ->
  chain cells i l -> chain cells' i l.
Proof.
  induction l as [|j l IH]; intros i Heq Hc; cbn in *; [done|]. destruct Hc as (-> & a & Ha & Hc).
  split; [done|]. exists a. rewrite Heq by left. split; [done|]. apply IH; [|done]. intros. apply Heq. by right.
Qed.

(** The loop that links the cells from [i] to [max]. *)
Lemma link_free_spec fuel : forall cells i max, 0 <= i < max -> max <= Z.of_nat (length cells) -> max - 1 - i <= Z.of_nat fuel ->
  exists cells', link_free fuel cells i max = Ret cells' /\ length cells' = length cells /\
    (forall j, 0 <= j -> ~ (i <= j < max) -> cells' !! Z.to_nat j = cells !! Z.to_nat j) /\
    (forall j, i <= j < max ->
       cells' !! Z.to_nat j = set_index (if j =? max - 1 then NO_INDEX else j + 1) <$> cells !! Z.to_nat j).
Proof.
  induction fuel as [|fuel IH]; intros cells i max Hi Hmax Hf; cbn [link_free].
  all: destruct (cget_in_range cells i) as [a Ha]; [lia|]; rewrite Ha; apply cget_Ret in Ha as [_ Ha]; cbn [mbind cres_mbind].
  all: destruct (Z.leb_spec (max - 1) i) as [Hend|Hend]; [|try lia].
  1, 2: rewrite cset_in_range by lia; eexists; split; [done|]; split; [apply length_insert|]; split.
  1, 3: intros j Hj Hout; by rewrite list_lookup_insert_ne by lia.
  1, 2: intros j Hj; assert (j = i) as -> by lia; rewrite list_lookup_insert_eq by lia; rewrite Ha; cbn;
    by rewrite (proj2 (Z.eqb_eq i (max - 1))) by lia.
  rewrite cset_in_range by lia. cbn [mbind cres_mbind].
  destruct (IH (<[Z.to_nat i := set_index (i + 1) a]> cells) (i + 1) max) as (cells' & Hl & Hlen & Hout & Hin);
    [lia|rewrite length_insert; lia|lia|].
  rewrite length_insert in Hlen. exists cells'. split; [done|]. split; [done|]. split.
  - intros j Hj Hn. rewrite Hout by lia. by rewrite list_lookup_insert_ne by lia.
  - intros j Hj. destruct (decide (j = i)) as [->|Hne].
    + rewrite Hout, list_lookup_insert_eq by lia. rewrite Ha. cbn. by rewrite (proj2 (Z.eqb_neq i (max - 1))) by lia.
    + rewrite Hin by lia. by rewrite list_lookup_insert_ne by lia.
Qed.

(** A freshly allocated array: all cells but the first are free. *)
Lemma fresh_chain cells (n : nat) : (forall j, 0 <= j < Z.of_nat n ->
    cells !! Z.to_nat j = Some (set_index (if j =? Z.of_nat n - 1 then NO_INDEX else j + 1) action0)) ->
  forall k i, i + Z.of_nat k = Z.of_nat n -> 1 <= i -> chain cells (if i - 1 =? Z.of_nat n - 1 then NO_INDEX else i) (seqZ i (Z.of_nat k)).
Proof.
  intros Hcells. induction k as [|k IH]; intros i Hk Hi.
  - cbn. by rewrite (proj2 (Z.eqb_eq _ _)) by lia.
  - rewrite (proj2 (Z.eqb_neq _ _)) by lia. rewrite seqZ_cons by lia. split; [done|].
    eexists. split; [apply Hcells; lia|]. cbn [index set_index].
    replace (Z.pred (Z.of_nat (S k))) with (Z.of_nat k) by lia. specialize (IH (i + 1) ltac:(lia) ltac:(lia)).
    replace (i + 1 - 1) with i in IH by lia. done.
Qed.

Lemma fresh_actions_ok : exists cells,
  link_free (Z.to_nat ACL_MAX_RULES_PER_CTX) (replicate (Z.to_nat ACL_MAX_RULES_PER_CTX) action0) 0 ACL_MAX_RULES_PER_CTX = Ret cells /\
  Z.of_nat (length cells) = ACL_MAX_RULES_PER_CTX /\ actions_ok cells (seqZ 1 4095) [].
Proof.
  change ACL_MAX_RULES_PER_CTX with 4096. set (n := Z.to_nat 4096). assert (Z.of_nat n = 4096) as Hn by lia. clearbody n.
  destruct (link_free_spec n (replicate n action0) 0 4096) as (cells & Hl & Hlen & _ & Hin);
    [lia|rewrite length_replicate; lia|lia|].
  rewrite length_replicate in Hlen. exists cells. split; [done|]. split; [lia|].
  assert (forall j, 0 <= j < Z.of_nat n ->
    cells !! Z.to_nat j = Some (set_index (if j =? Z.of_nat n - 1 then NO_INDEX else j + 1) action0)) as Hcells.
  { intros j Hj. rewrite Hin, lookup_replicate_2 by lia. cbn. by rewrite Hn. }
  split.
  - lia.
  - eexists. split; [apply (Hcells 0); lia|]. cbn [index set_index].
    pose proof (fresh_chain cells n Hcells (n - 1) 1 ltac:(lia) ltac:(lia)) as Hc.
    replace (Z.of_nat (n - 1)) with 4095 in Hc by lia. exact Hc.
  - intros j Hj. apply elem_of_seqZ in Hj. eexists. apply Hcells. lia.
  - intros j Hj. by apply not_elem_of_nil in Hj.
  - rewrite app_nil_r. apply NoDup_seqZ.
  - intros j Hj. rewrite app_nil_r in Hj. apply elem_of_seqZ in Hj. lia.
Qed.

Lemma populate_index actions a : index (acl_populate_action actions a) = index a.
Proof.
  unfold acl_populate_action. cbn [populate_one index].
  revert a. induction actions as [|x l IH]; intros a; [done|]. cbn [foldl]. rewrite IH. by destruct x.
Qed.

Lemma action_take_ok cells i free used actions : actions_ok cells (i :: free) used ->
  exists cells', action_take actions cells = Ret (i, cells') /\ length cells' = length cells /\
    actions_ok cells' free (used ++ [i]) /\
    cells' !! Z.to_nat i = Some (acl_populate_action actions (set_index i action0)) /\
    forall j, j ∈ used -> cells' !! Z.to_nat j = cells !! Z.to_nat j.
Proof.
  intros Hok. pose proof (ao_len _ _ _ Hok) as Hlen. destruct (ao_first _ _ _ Hok) as (a0 & H0 & Hi & a & Ha & Hc).
  destruct (ao_free _ _ _ Hok i) as [k Hk]; [by left|]. rewrite Hk in Ha. injection Ha as <-.
  pose proof (ao_range _ _ _ Hok) as Hr. pose proof (ao_nodup _ _ _ Hok) as Hnd. cbn [app] in Hr, Hnd.
  apply NoDup_cons in Hnd as [Hni Hnd]. assert (1 <= i < Z.of_nat (length cells)) as Hir by (apply Hr; left).
  assert (forall j, j ∈ free ++ used -> 1 <= j /\ j <> i) as Hj.
  { intros j Hj. split; [apply Hr; by right|]. intros ->. done. }
  unfold action_take. rewrite (proj2 (cget_Ret cells 0 a0)) by (split; [lia|exact H0]). cbn [mbind cres_mbind]. rewrite Hi.
  rewrite (proj2 (cget_Ret cells i _)) by (split; [lia|exact Hk]). cbn [mbind cres_mbind].
  rewrite cset_in_range by lia. cbn [mbind cres_mbind]. set (c1 := <[Z.to_nat 0 := _]> cells).
  rewrite (proj2 (cget_Ret c1 i (set_index k action0))) by (split; [lia|unfold c1; by rewrite list_lookup_insert_ne by lia]).
  cbn [mbind cres_mbind]. rewrite cset_in_range by (unfold c1; rewrite length_insert; lia). cbn [mbind cres_mbind].
  eexists. split; [done|]. unfold c1. rewrite !length_insert. split; [done|].
  assert (forall j, 1 <= j -> j <> i -> forall x y, (<[Z.to_nat i := x]> (<[Z.to_nat 0 := y]> cells)) !! Z.to_nat j = cells !! Z.to_nat j) as Hother.
  { intros j H1 H2 x y. by rewrite !list_lookup_insert_ne by lia. }
  split; [|split].
  - split.
    + by rewrite !length_insert.
    + rewrite list_lookup_insert_ne, list_lookup_insert_eq by lia. eexists. split; [done|]. cbn [index set_index].
      apply (chain_ext cells); [|done]. intros j Hin. destruct (Hj j); [apply elem_of_app; by left|]. by apply Hother.
    + intros j Hin. destruct (Hj j); [apply elem_of_app; by left|]. rewrite Hother by done. apply (ao_free _ _ _ Hok). by right.
    + intros j Hin. apply elem_of_app in Hin as [Hin|Hin%list_elem_of_singleton].
      * destruct (Hj j); [apply elem_of_app; by right|]. rewrite Hother by done. by apply (ao_used _ _ _ Hok).
      * subst j. rewrite list_lookup_insert_eq by (rewrite length_insert; lia). eexists. split; [done|]. by rewrite populate_index.
    + rewrite app_assoc. apply NoDup_app. split; [done|]. split; [|apply NoDup_singleton].
      intros j Hin Hji%list_elem_of_singleton. subst j. done.
    + intros j Hin. rewrite !length_insert. rewrite app_assoc in Hin. apply elem_of_app in Hin as [Hin|Hin%list_elem_of_singleton].
      * apply Hr. by right.
      * by subst j.
  - by rewrite list_lookup_insert_eq by (rewrite length_insert; lia).
  - intros j Hin. destruct (Hj j); [apply elem_of_app; by right|]. by apply Hother.
Qed.

Lemma action_give_ok cells i free l1 l2 : actions_ok cells free (l1 ++ i :: l2) ->
  exists cells', action_give i cells = Ret cells' /\ length cells' = length cells /\
    actions_ok cells' (i :: free) (l1 ++ l2) /\
    forall j, j ∈ l1 ++ l2 -> cells' !! Z.to_nat j = cells !! Z.to_nat j.
Proof.
  intros Hok. pose proof (ao_len _ _ _ Hok) as Hlen. destruct (ao_first _ _ _ Hok) as (a0 & H0 & Hc).
  pose proof (ao_range _ _ _ Hok) as Hr. pose proof (ao_nodup _ _ _ Hok) as Hnd.
  assert (free ++ l1 ++ i :: l2 ≡ₚ i :: free ++ l1 ++ l2) as Hperm by (by rewrite <- !Permutation_middle).
  rewrite Hperm in Hnd. apply NoDup_cons in Hnd as [Hni Hnd].
  assert (forall j, j ∈ i :: free ++ l1 ++ l2 -> 1 <= j < Z.of_nat (length cells)) as Hr'.
  { intros j Hin. apply Hr. by rewrite Hperm. }
  assert (1 <= i < Z.of_nat (length cells)) as Hir by (apply Hr'; left).
  assert (forall j, j ∈ free ++ l1 ++ l2 -> 1 <= j /\ j <> i) as Hj.
  { intros j Hj. split; [apply Hr'; by right|]. intros ->. done. }
  assert (forall j, j ∈ free ++ l1 ++ l2 -> forall x y,
    (<[Z.to_nat i := x]> (<[Z.to_nat 0 := y]> cells)) !! Z.to_nat j = cells !! Z.to_nat j) as Hother.
  { intros j Hin x y. destruct (Hj j Hin). by rewrite !list_lookup_insert_ne by lia. }
  unfold action_give. rewrite (proj2 (cget_Ret cells 0 a0)) by (split; [lia|exact H0]). cbn [mbind cres_mbind].
  rewrite cset_in_range by lia. cbn [mbind cres_mbind]. rewrite cset_in_range by (rewrite length_insert; lia).
  eexists. split; [done|]. rewrite !length_insert. split; [done|]. split.
  - split.
    + by rewrite !length_insert.
    + rewrite list_lookup_insert_ne, list_lookup_insert_eq by lia. eexists. split; [done|]. cbn [index set_index chain].
      split; [done|]. eexists. rewrite list_lookup_insert_eq by (rewrite length_insert; lia). split; [done|].
      apply (chain_ext cells); [|done]. intros j Hin. apply Hother, elem_of_app. by left.
    + intros j Hin. apply elem_of_cons in Hin as [->|Hin].
      * eexists. by rewrite list_lookup_insert_eq by (rewrite length_insert; lia).
      * rewrite Hother by (apply elem_of_app; by left). by apply (ao_free _ _ _ Hok).
    + intros j Hin. rewrite Hother by (apply elem_of_app; by right). apply (ao_used _ _ _ Hok).
      rewrite <- Permutation_middle. by right.
    + cbn [app]. by apply NoDup_cons.
    + intros j Hin. rewrite !length_insert. by apply Hr'.
  - intros j Hin. apply Hother, elem_of_app. by right.
Qed.

(** ** The table *)

Section invariant.
Context {X : Type} {RA : RteAcl X} {RL : RteAclLaws X}.
Implicit Types t : acl_table X.

(** The rules behind the pointers of a list. *)
Definition rules_at (h : gmap Z acl_rule_data) (l : list Z) : list acl_rule := omap (fun p => rule <$> h !! p) l.

Definition rules t : list acl_rule := rules_at (heap t) (flow_list t).

Definition used t : list Z := userdata <$> rules t.

(** A rule of the list has its cell, and the cell points back. *)
Definition rule_ok t (p : Z) : Prop :=
  exists rd, heap t !! p = Some rd /\ rule_idx rd = userdata (rule rd) /\
    forall cells, action t = Some cells -> exists a, cells !! Z.to_nat (userdata (rule rd)) = Some a /\ rule_data a = p.

(** [free] are the free cells. The context holds the rules of the list, in
    their order, and classifies by them; without rules, what it was built from
    last does not matter. *)
Record acl_inv (free : list Z) t : Prop := {
  ti_actions : match action t with
               | Some cells => size t = Z.of_nat (length cells) /\ actions_ok cells free (used t)
               | None => free = seqZ 1 4095 /\ flow_list t = []
               end;
  ti_rules : Forall (rule_ok t) (flow_list t);
  ti_nodup : NoDup (flow_list t);
  ti_num : num_rules t = Z.of_nat (length (flow_list t));
  ti_ctx : match reg t with
           | Some x => ctx t = true /\ rules_added x = rules t /\ (flow_list t <> [] -> rules_built x = rules t)
           | None => ctx t = false /\ flow_list t = []
           end;
}.

Lemma rules_at_app h l k : rules_at h (l ++ k) = rules_at h l ++ rules_at h k.
Proof. apply omap_app. Qed.

Lemma rules_at_ext h h' l : (forall p, p ∈ l -> rule <$> h' !! p = rule <$> h !! p) -> rules_at h' l = rules_at h l.
Proof.
  unfold rules_at. induction l as [|p l IH]; intros Heq; [done|]. cbn. rewrite (Heq p) by left.
  rewrite IH; [done|]. intros q Hq. apply Heq. by right.
Qed.

Lemma rules_length t free : acl_inv free t -> length (rules t) = length (flow_list t).
Proof.
  intros Hinv. pose proof (ti_rules _ _ Hinv) as Hr. unfold rules, rules_at.
  induction Hr as [|p l (rd & Hrd & _) _ IH]; [done|]. cbn. rewrite Hrd. cbn. by rewrite IH.
Qed.

(** The number of rules is bounded by the cells. *)
Lemma actions_bound cells free l : actions_ok cells free l -> Z.of_nat (length (free ++ l)) < Z.of_nat (length cells).
Proof.
  intros Hok. assert (free ++ l ⊆+ seqZ 1 (Z.of_nat (length cells) - 1)) as Hsub.
  { apply NoDup_submseteq; [apply (ao_nodup _ _ _ Hok)|]. intros j Hj%(ao_range _ _ _ Hok). apply elem_of_seqZ. lia. }
  apply submseteq_length in Hsub. rewrite length_seqZ in Hsub. pose proof (ao_len _ _ _ Hok). lia.
Qed.

(** The context a rule is added to. *)
Lemma ctx_get_ok free t : acl_inv free t ->
  (reg t = None -> exists x, rte_acl_create = Some x /\ (rte_acl_set_ctx_classify x).1 = 0) ->
  exists t1 x, acl_ctx_get t = Some t1 /\ acl_inv free t1 /\ ctx t1 = true /\ reg t1 = Some x /\
    rules_added x = rules t /\ tbl_id t1 = tbl_id t /\ flow_list t1 = flow_list t /\ heap t1 = heap t /\
    action t1 = action t /\ num_rules t1 = num_rules t.
Proof.
  intros Hinv Hnew. pose proof (ti_ctx _ _ Hinv) as Hctx. unfold acl_ctx_get. destruct (reg t) as [x|] eqn:Hreg.
  - destruct Hctx as (Hc & Hadd & Hb). exists (set_ctx true (Some x) t), x. split; [done|].
    split; [|done]. destruct Hinv as [H1 H2 H3 H4 H5]. split; [done..|]. cbn. done.
  - destruct Hctx as [Hc Hfl]. destruct (Hnew eq_refl) as (x & Hx & Hrc). rewrite Hx.
    destruct (rte_acl_set_ctx_classify x) as [rc x'] eqn:Hs. cbn in Hrc. subst rc. cbn [Z.eqb negb].
    assert (rules_added x' = []) as Hx'.
    { pose proof (set_classify_added x) as Ha. rewrite Hs in Ha. cbn in Ha. rewrite Ha. by apply create_added. }
    assert (rules t = []) as Hr by (unfold rules; by rewrite Hfl).
    eexists _, x'. split; [done|]. split; [|cbn; rewrite Hr, Hfl; done].
    destruct Hinv as [H1 H2 H3 H4 H5]. unfold rules, used, rules in *. rewrite Hfl in *.
    split; cbn; [|constructor|constructor|done|by rewrite Hx'].
    destruct (action t); [|done]. unfold used, rules. cbn. done.
Qed.

(** The rule that is made of a flow. *)
Definition new_rule t (prio : Z) (flow : parsed_flow) (act : Z) : acl_rule :=
  {| field := rule_fields (tbl_id t) flow; priority := i32 (prio + 1); userdata := act |}.

(** The context takes one more rule. *)
Definition accepts t (r : acl_rule) : Prop :=
  (reg t = None -> exists x, rte_acl_create (X := X) = Some x /\ (rte_acl_set_ctx_classify x).1 = 0) /\
  (forall x, rules_added x = rules t -> (rte_acl_add_rules r x).1 = 0) /\
  (forall x : X, rules_added x = rules t ++ [r] -> (rte_acl_build x).1 = 0).

(** Getting a cell for a new rule. *)
Lemma parse_action_ok i free t actions : acl_inv (i :: free) t ->
  exists cells, acl_parse_action actions true t = Ret (i, set_action (Some cells) (Z.of_nat (length cells)) t) /\
    actions_ok cells free (used t ++ [i]) /\
    cells !! Z.to_nat i = Some (acl_populate_action actions (set_index i action0)) /\
    forall old, action t = Some old -> forall j, j ∈ used t -> cells !! Z.to_nat j = old !! Z.to_nat j.
Proof.
  intros Hinv. pose proof (ti_actions _ _ Hinv) as Hact. unfold acl_parse_action.
  assert (exists cells, (match action t with
      | Some cells => Ret (Some (cells, size t))
      | None => if negb true then Ret None else cells ← link_free (Z.to_nat ACL_MAX_RULES_PER_CTX)
                  (replicate (Z.to_nat ACL_MAX_RULES_PER_CTX) action0) 0 ACL_MAX_RULES_PER_CTX;
                Ret (Some (cells, ACL_MAX_RULES_PER_CTX))
      end = Ret (Some (cells, Z.of_nat (length cells)))) /\ actions_ok cells (i :: free) (used t) /\
      forall old, action t = Some old -> cells = old) as (cells & -> & Hok & Hold).
  { destruct (action t) as [cells|].
    - destruct Hact as [Hsz Hok]. exists cells. rewrite Hsz. split; [done|]. split; [done|]. by intros ? [= ->].
    - destruct Hact as [Hfree Hfl]. destruct fresh_actions_ok as (cells & Hl & Hlen & Hok). exists cells. cbn [negb].
      rewrite Hl. cbn [mbind cres_mbind]. rewrite Hlen. split; [done|]. split; [|done].
      rewrite Hfree. unfold used, rules. by rewrite Hfl. }
  cbn [mbind cres_mbind]. destruct (ao_first _ _ _ Hok) as (a0 & H0 & Hi & _).
  rewrite (proj2 (cget_Ret cells 0 a0)) by (split; [lia|exact H0]). cbn [mbind cres_mbind].
  assert (1 <= i < Z.of_nat (length cells)) as Hir by (apply (ao_range _ _ _ Hok); left).
  pose proof (ao_len _ _ _ Hok). rewrite (proj2 (Z.eqb_neq (index a0) NO_INDEX)) by (unfold NO_INDEX; lia). cbn [mbind cres_mbind].
  destruct (action_take_ok cells i free (used t) actions Hok) as (cells' & Ht & Hlen & Hok' & Hcell & Hsame).
  rewrite Ht. cbn [mbind cres_mbind]. exists cells'. rewrite Hlen. split; [done|]. split; [done|]. split; [done|].
  intros old Ho j Hj. rewrite <- (Hold old Ho). by apply Hsame.
Qed.

(** Pointing the new cell to its rule does not disturb the array. *)
Lemma actions_ok_data cells free l j a q : actions_ok cells free l -> j ∈ l -> cells !! Z.to_nat j = Some a ->
  actions_ok (<[Z.to_nat j := set_rule_data q a]> cells) free l.
Proof.
  intros Hok Hj Ha. pose proof (ao_nodup _ _ _ Hok) as Hnd. apply NoDup_app in Hnd as (_ & Hdis & _).
  assert (1 <= j < Z.of_nat (length cells)) as Hjr by (apply (ao_range _ _ _ Hok), elem_of_app; by right).
  assert (forall i, i ∈ free -> (<[Z.to_nat j := set_rule_data q a]> cells) !! Z.to_nat i = cells !! Z.to_nat i) as Hfree.
  { intros i Hi. assert (1 <= i) by (apply (ao_range _ _ _ Hok), elem_of_app; by left).
    rewrite list_lookup_insert_ne; [done|]. intros Heq. assert (i = j) as -> by lia. by apply (Hdis j). }
  destruct Hok as [H1 (a0 & H2 & H3) H4 H5 H6 H7]. split; rewrite ?length_insert; try done.
  - exists a0. rewrite list_lookup_insert_ne by lia. split; [done|]. by apply (chain_ext cells).
  - intros i Hi. rewrite Hfree by done. by apply H4.
  - intros i Hi. destruct (H5 i Hi) as (b & Hb & Hib). destruct (decide (i = j)) as [->|Hne].
    + rewrite list_lookup_insert_eq by lia. rewrite Ha in Hb. injection Hb as ->. by eexists.
    + assert (1 <= i) by (apply H7, elem_of_app; by right). rewrite list_lookup_insert_ne by lia. by exists b.
Qed.

(** The table with one rule more. *)
Definition added_table t (x : X) (cells : list acl_actions) (p : Z) (r : acl_rule) : acl_table X :=
  {| tbl_id := tbl_id t; tbl_val := tbl_val t; num_rules := u32 (num_rules t + 1); ctx := true; reg := Some x;
     action := Some cells; size := Z.of_nat (length cells); flow_list := flow_list t ++ [p];
     heap := <[p := {| rule := r; rule_idx := userdata r; rule_hits := 0 |}]> (heap t) |}.

Lemma not_listed free t p : acl_inv free t -> heap t !! p = None -> ~ p ∈ flow_list t.
Proof.
  intros Hinv Hp Hin. pose proof (ti_rules _ _ Hinv) as Hr. rewrite Forall_forall in Hr.
  destruct (Hr p Hin) as (rd & Hrd & _). congruence.
Qed.

Lemma added_rules free t x cells p r : acl_inv free t -> heap t !! p = None ->
  rules (added_table t x cells p r) = rules t ++ [r].
Proof.
  intros Hinv Hp. pose proof (not_listed _ _ _ Hinv Hp) as Hni. unfold rules. cbn [added_table heap flow_list].
  rewrite rules_at_app. f_equal.
  - apply rules_at_ext. intros q Hq. rewrite lookup_insert_ne; [done|]. by intros ->.
  - unfold rules_at. cbn. by rewrite lookup_insert_eq.
Qed.

Lemma added_inv i free t x cells a p r : acl_inv (i :: free) t -> heap t !! p = None -> userdata r = i ->
  actions_ok cells free (used t ++ [i]) -> cells !! Z.to_nat i = Some a ->
  (forall old, action t = Some old -> forall j, j ∈ used t -> cells !! Z.to_nat j = old !! Z.to_nat j) ->
  rules_added x = rules t ++ [r] -> rules_built x = rules t ++ [r] ->
  acl_inv free (added_table t x (<[Z.to_nat i := set_rule_data p a]> cells) p r).
Proof.
  intros Hinv Hp Hi Hok Ha Hsame Hadd Hbuilt. pose proof (not_listed _ _ _ Hinv Hp) as Hni.
  set (cells' := <[Z.to_nat i := _]> cells). set (t' := added_table _ _ _ _ _).
  pose proof (added_rules _ _ x cells' p r Hinv Hp) as Hrules. fold t' in Hrules.
  assert (i ∈ used t ++ [i]) as Hiu by (apply elem_of_app; right; by left).
  pose proof (ao_nodup _ _ _ Hok) as Hnd. rewrite app_assoc in Hnd. apply NoDup_app in Hnd as (_ & Hd & _).
  pose proof (rules_length _ _ Hinv) as Hrl. pose proof (actions_bound _ _ _ Hok) as Hb.
  rewrite !length_app in Hb. unfold used in Hb. rewrite length_fmap, Hrl in Hb. pose proof (ao_len _ _ _ Hok) as Hlen.
  split.
  - cbn [t' added_table action size]. split; [done|]. unfold used. rewrite Hrules, fmap_app. cbn. rewrite Hi.
    by apply actions_ok_data.
  - cbn [t' added_table flow_list]. apply Forall_app. split.
    + pose proof (ti_rules _ _ Hinv) as Hr. rewrite Forall_forall in Hr |- *. intros q Hq.
      destruct (Hr q Hq) as (rd & Hrd & Hix & Hc). exists rd. cbn [t' added_table heap action].
      rewrite lookup_insert_ne by (by intros ->). split; [done|]. split; [done|]. intros ? [= <-].
      assert (userdata (rule rd) ∈ used t) as Hin.
      { unfold used. apply list_elem_of_fmap. exists (rule rd). split; [done|]. unfold rules, rules_at.
        apply list_elem_of_omap. exists q. split; [done|]. by rewrite Hrd. }
      assert (exists old, action t = Some old) as [old Hold].
      { pose proof (ti_actions _ _ Hinv) as Hta. destruct (action t); [by eexists|]. destruct Hta as [_ Hf]. rewrite Hf in Hq.
        by apply not_elem_of_nil in Hq. }
      destruct (Hc old Hold) as (b & Hb1 & Hb2). exists b. split; [|done].
      assert (1 <= userdata (rule rd)) by (apply (ao_range _ _ _ Hok), elem_of_app; right; apply elem_of_app; by left).
      assert (1 <= i) by (apply (ao_range _ _ _ Hok), elem_of_app; by right).
      rewrite <- Hb1, <- (Hsame old Hold) by done. unfold cells'. rewrite list_lookup_insert_ne; [done|].
      intros Heq. apply (Hd i); [|by left]. apply elem_of_app. right. by replace i with (userdata (rule rd)) by lia.
    + constructor; [|constructor]. eexists. cbn [t' added_table heap action]. rewrite lookup_insert_eq. split; [done|].
      cbn [rule rule_idx]. split; [done|]. intros ? [= <-]. rewrite Hi. unfold cells'.
      rewrite list_lookup_insert_eq by (apply lookup_lt_Some in Ha; done). by eexists.
  - cbn [t' added_table flow_list]. apply NoDup_app. split; [apply (ti_nodup _ _ Hinv)|]. split; [|apply NoDup_singleton].
    intros q Hq ->%list_elem_of_singleton. done.
  - cbn [t' added_table num_rules flow_list]. rewrite (ti_num _ _ Hinv), length_app. cbn [length].
    rewrite u32_id by (unfold is_u32; lia). lia.
  - cbn [t' added_table reg ctx]. split; [done|]. by rewrite Hrules, Hadd.
Qed.

Lemma create_rule_ok free i t prio flow actions p :
  acl_inv (i :: free) t -> heap t !! p = None -> accepts t (new_rule t prio flow i) ->
  exists t', acl_create_rule prio (Some flow) actions true (Some p) true t = Ret (Some p, t') /\
    acl_inv free t' /\ ~ i ∈ used t /\
    flow_list t' = flow_list t ++ [p] /\ rules t' = rules t ++ [new_rule t prio flow i] /\
    heap t' = <[p := {| rule := new_rule t prio flow i; rule_idx := i; rule_hits := 0 |}]> (heap t) /\ tbl_id t' = tbl_id t /\
    (action t' ≫= (.!! Z.to_nat i)) = Some (set_rule_data p (acl_populate_action actions (set_index i action0))).
Proof.
  intros Hinv Hp (Hnew & Hadd & Hbuild). unfold acl_create_rule.
  destruct (ctx_get_ok _ _ Hinv Hnew) as (t1 & x & -> & Hinv1 & Hc1 & Hx1 & Hrx & Hid & Hfl & Hh & Hact & Hnum).
  assert (rules t1 = rules t) as Hr1 by (unfold rules; by rewrite Hfl, Hh).
  assert (used t1 = used t) as Hu1 by (unfold used; by rewrite Hr1).
  destruct (parse_action_ok i free t1 actions Hinv1) as (cells & -> & Hok & Hcell & Hsame). rewrite Hu1, Hact in *.
  assert (1 <= i < Z.of_nat (length cells)) as Hir.
  { apply (ao_range _ _ _ Hok), elem_of_app. right. apply elem_of_app. right. by left. }
  assert (~ i ∈ used t) as Hni.
  { pose proof (ao_nodup _ _ _ Hok) as Hnd. rewrite app_assoc in Hnd. apply NoDup_app in Hnd as (_ & Hd & _).
    intros Hi. apply (Hd i); [apply elem_of_app; by right|by left]. }
  cbn [mbind cres_mbind]. rewrite (proj2 (Z.ltb_ge i 0)) by lia. cbn [reg set_action]. rewrite Hx1. cbn [negb].
  cbn [tbl_id set_action]. rewrite Hid. change {| field := _; priority := _; userdata := i |} with (new_rule t prio flow i).
  set (r := new_rule t prio flow i) in *. pose proof (Hadd x Hrx) as Hrc. pose proof (add_added r x) as Hax.
  destruct (rte_acl_add_rules r x) as [rc x1]. cbn [fst snd] in Hrc, Hax. subst rc. cbn [Z.eqb negb] in *. rewrite Hrx in Hax.
  pose proof (Hbuild x1 Hax) as Hrc. pose proof (build_added x1) as Hbx. pose proof (build_built x1 Hrc) as Hbb.
  destruct (rte_acl_build x1) as [rc x2]. cbn [fst snd] in Hrc, Hbx, Hbb. subst rc. cbn [Z.eqb negb action set_action].
  rewrite (proj2 (cget_Ret cells i _)) by (split; [lia|exact Hcell]). cbn [mbind cres_mbind].
  rewrite cset_in_range by lia. cbn [mbind cres_mbind]. set (cells' := <[Z.to_nat i := _]> cells).
  exists (added_table t1 x2 cells' p r). rewrite <- Hh in Hp.
  assert (rules_added x2 = rules t1 ++ [r]) as Hadd2 by (by rewrite Hbx, Hr1).
  split; [cbn; unfold added_table, cells'; by rewrite length_insert|].
  split; [by eapply added_inv; [..|rewrite Hr1, <- Hax]; try done; rewrite ?Hu1, ?Hact|].
  split; [done|]. cbn [added_table flow_list heap action]. rewrite Hfl. split; [done|].
  rewrite (added_rules _ _ _ _ _ _ Hinv1 Hp), Hr1. split; [done|]. split; [by rewrite Hh|]. split; [done|].
  cbn. unfold cells'. by rewrite list_lookup_insert_eq by lia.
Qed.

(** C15. Adding a rule. On a table in a good state with a free cell, when the
    rest succeeds, [acl_create_rule] takes the first free cell [i], a number no
    other rule of the table has, appends a rule with the fields of the parsed
    flow, the priority plus one and [i] as user data, and leaves the table in
    a good state: the context classifies by exactly the rules of the list. The
    cell holds the actions and points to the rule. *)
Theorem create_rule_adds free i t prio flow actions p :
  acl_inv (i :: free) t -> heap t !! p = None -> accepts t (new_rule t prio flow i) ->
  exists t', acl_create_rule prio (Some flow) actions true (Some p) true t = Ret (Some p, t') /\
    acl_inv free t' /\ ~ i ∈ used t /\
    flow_list t' = flow_list t ++ [p] /\ rules t' = rules t ++ [new_rule t prio flow i] /\
    heap t' !! p = Some {| rule := new_rule t prio flow i; rule_idx := i; rule_hits := 0 |} /\
    (action t' ≫= (.!! Z.to_nat i)) = Some (set_rule_data p (acl_populate_action actions (set_index i action0))).
Proof.
  intros Hinv Hp Hacc. destruct (create_rule_ok free i t prio flow actions p Hinv Hp Hacc)
    as (t' & Hret & Hinv' & Hni & Hfl & Hr & Hh & _ & Hcell).
  exists t'. rewrite Hh, lookup_insert_eq. done.
Qed.

(** *** Deleting *)

(** The context takes the rules of the table again, or a part of them. *)
Definition retakes t : Prop :=
  (forall r (x : X), sublist (rules_added x ++ [r]) (rules t) -> (rte_acl_add_rules r x).1 = 0) /\
  (forall x : X, sublist (rules_added x) (rules t) -> (rte_acl_build x).1 = 0).

Lemma rules_at_sublist h l k : sublist l k -> sublist (rules_at h l) (rules_at h k).
Proof.
  unfold rules_at. induction 1 as [|p l k _ IH|p l k _ IH]; [done|..]; cbn; destruct (h !! p); cbn; [|done| |done].
  - by apply sublist_skip.
  - by apply sublist_cons.
Qed.

Lemma readd_ok t p : retakes t -> forall l k x, (forall q, q ∈ l -> is_Some (heap t !! q)) ->
  sublist (k ++ filter (fun q => q <> p) l) (flow_list t) -> rules_added x = rules_at (heap t) k ->
  exists x', readd_rules l p (heap t) (Some x) = Ret (0, Z.of_nat (length (filter (fun q => q <> p) l)), Some x') /\
    rules_added x' = rules_at (heap t) (k ++ filter (fun q => q <> p) l).
Proof.
  intros [Hadd _]. induction l as [|q l IH]; intros k x Hl Hsub Hx; cbn [readd_rules].
  { exists x. cbn. by rewrite app_nil_r. }
  destruct (Z.eqb_spec q p) as [Hqp|Hqp].
  - rewrite filter_cons_False in * by tauto. apply IH; [|done|done]. intros. apply Hl. by right.
  - rewrite filter_cons_True in * by done. destruct (Hl q) as [rd Hrd]; [by left|]. rewrite Hrd. cbn [on_ctx].
    assert (rules_at (heap t) (k ++ [q]) = rules_at (heap t) k ++ [rule rd]) as Hkq.
    { rewrite rules_at_app. f_equal. unfold rules_at. cbn. by rewrite Hrd. }
    assert ((rte_acl_add_rules (rule rd) x).1 = 0) as Hrc.
    { apply Hadd. rewrite Hx, <- Hkq. apply rules_at_sublist. etrans; [|exact Hsub].
      apply sublist_app; [done|]. apply sublist_skip, sublist_nil_l. }
    pose proof (add_added (rule rd) x) as Hax. destruct (rte_acl_add_rules (rule rd) x) as [rc x1].
    cbn [fst snd] in Hrc, Hax. subst rc. cbn [Z.eqb negb] in *. rewrite Hx, <- Hkq in Hax.
    destruct (IH (k ++ [q]) x1) as (x' & Hr & Hx').
    + intros. apply Hl. by right.
    + by rewrite <- app_assoc.
    + done.
    + rewrite Hr. cbn [mbind cres_mbind]. exists x'. split; [cbn [length]; do 3 f_equal; lia|]. by rewrite <- app_assoc in Hx'.
Qed.

Lemma filter_out (p : Z) l1 l2 : NoDup (l1 ++ p :: l2) -> filter (fun q => q <> p) (l1 ++ p :: l2) = l1 ++ l2.
Proof.
  intros Hnd. rewrite filter_app, filter_cons_False by tauto. apply NoDup_app in Hnd as (_ & Hd & Hnd).
  apply NoDup_cons in Hnd as [Hni _]. rewrite !filter_all; [done|..]; apply Forall_forall; intros q Hq ->; [done|].
  apply (Hd p Hq). by left.
Qed.

(** The table without a rule. *)
Definition removed_table t (x : X) (cells : list acl_actions) (p : Z) (l : list Z) : acl_table X :=
  {| tbl_id := tbl_id t; tbl_val := tbl_val t; num_rules := u32 (num_rules t - 1); ctx := ctx t; reg := Some x;
     action := Some cells; size := size t; flow_list := l; heap := delete p (heap t) |}.

Lemma removed_rules t x cells p l : ~ p ∈ l -> rules (removed_table t x cells p l) = rules_at (heap t) l.
Proof.
  intros Hni. unfold rules. cbn [removed_table heap flow_list]. apply rules_at_ext. intros q Hq.
  rewrite lookup_delete_ne; [done|]. by intros ->.
Qed.

Lemma removed_inv free t x cells old p rd l1 l2 : acl_inv free t -> flow_list t = l1 ++ p :: l2 ->
  heap t !! p = Some rd -> action t = Some old -> length cells = length old ->
  actions_ok cells (userdata (rule rd) :: free) (userdata <$> rules_at (heap t) (l1 ++ l2)) ->
  (forall j, j ∈ userdata <$> rules_at (heap t) (l1 ++ l2) -> cells !! Z.to_nat j = old !! Z.to_nat j) ->
  rules_added x = rules_at (heap t) (l1 ++ l2) -> (l1 ++ l2 <> [] -> rules_built x = rules_at (heap t) (l1 ++ l2)) ->
  acl_inv (userdata (rule rd) :: free) (removed_table t x cells p (l1 ++ l2)).
Proof.
  intros Hinv Hfl Hrd Hold Hlen Hok Hsame Hadd Hbuilt. pose proof (ti_nodup _ _ Hinv) as Hnd. rewrite Hfl in Hnd.
  assert (~ p ∈ l1 ++ l2) as Hni by (rewrite <- Permutation_middle in Hnd; by apply NoDup_cons in Hnd as [? _]).
  pose proof (removed_rules t x cells p (l1 ++ l2) Hni) as Hrules.
  pose proof (ti_actions _ _ Hinv) as Hact. rewrite Hold in Hact. destruct Hact as [Hsz Hok0].
  pose proof (actions_bound _ _ _ Hok0) as Hb.
  split.
  - cbn [removed_table action size]. split.
    + by rewrite Hsz, Hlen.
    + unfold used. by rewrite Hrules.
  - pose proof (ti_rules _ _ Hinv) as Hr. rewrite Forall_forall in Hr |- *. intros q Hq.
    destruct (Hr q) as (rq & Hrq & Hix & Hc).
    { rewrite Hfl. apply elem_of_app in Hq as [Hq|Hq]; apply elem_of_app; [by left|right; by right]. }
    exists rq. cbn [removed_table heap action]. rewrite lookup_delete_ne by (by intros ->). split; [done|]. split; [done|].
    intros ? [= <-]. destruct (Hc old Hold) as (b & Hb1 & Hb2). exists b. split; [|done]. rewrite <- Hb1. apply Hsame.
    apply list_elem_of_fmap. exists (rule rq). split; [done|]. apply list_elem_of_omap. exists q. split; [done|]. by rewrite Hrq.
  - cbn [removed_table flow_list]. rewrite <- Permutation_middle in Hnd. by apply NoDup_cons in Hnd as [_ ?].
  - cbn [removed_table num_rules flow_list]. pose proof (rules_length _ _ Hinv) as Hrl. pose proof (ti_num _ _ Hinv) as ->.
    unfold used in Hb. rewrite length_app, length_fmap, Hrl in Hb. rewrite Hfl in *. rewrite !length_app in *. cbn [length] in *.
    pose proof (ao_len _ _ _ Hok). rewrite u32_id by (unfold is_u32; lia). lia.
  - cbn [removed_table reg ctx]. rewrite Hrules. split; [|done]. pose proof (ti_ctx _ _ Hinv) as Hctx.
    destruct (reg t); [tauto|]. destruct Hctx as [_ Hf]. rewrite Hf in Hfl. by destruct l1.
Qed.

Lemma delete_rule_ok free t p rd l1 l2 :
  acl_inv free t -> retakes t -> flow_list t = l1 ++ p :: l2 -> heap t !! p = Some rd ->
  exists t', acl_delete_rule p t = Ret (0, t') /\ acl_inv (userdata (rule rd) :: free) t' /\
    flow_list t' = l1 ++ l2 /\ heap t' = delete p (heap t) /\ tbl_id t' = tbl_id t /\
    rules t = rules_at (heap t) l1 ++ rule rd :: rules_at (heap t) l2 /\
    rules t' = rules_at (heap t) l1 ++ rules_at (heap t) l2.
Proof.
  intros Hinv Hret Hfl Hrd. pose proof (ti_nodup _ _ Hinv) as Hnd. rewrite Hfl in Hnd.
  pose proof (filter_out p l1 l2 Hnd) as Hfilter.
  assert (~ p ∈ l1 ++ l2) as Hni by (rewrite <- Permutation_middle in Hnd; by apply NoDup_cons in Hnd as [? _]).
  assert (rules t = rules_at (heap t) l1 ++ rule rd :: rules_at (heap t) l2) as Hrules.
  { unfold rules. rewrite Hfl, rules_at_app. f_equal. unfold rules_at. cbn. by rewrite Hrd. }
  pose proof (ti_ctx _ _ Hinv) as Hctx. pose proof (ti_actions _ _ Hinv) as Hact.
  destruct (reg t) as [x|] eqn:Hreg; [|destruct Hctx as [_ Hf]; rewrite Hf in Hfl; by destruct l1].
  destruct Hctx as (Hc & _ & _).
  destruct (action t) as [old|] eqn:Hold; [|destruct Hact as [_ Hf]; rewrite Hf in Hfl; by destruct l1].
  destruct Hact as [Hsz Hok]. unfold used in Hok. rewrite Hrules, fmap_app, fmap_cons in Hok.
  destruct (action_give_ok _ _ _ _ _ Hok) as (cells & Hgive & Hlen & Hok' & Hsame).
  rewrite <- fmap_app, <- rules_at_app in Hok', Hsame.
  unfold acl_delete_rule, the_ctx. rewrite Hc, Hreg. cbn [mbind cres_mbind].
  change (rte_acl_reset_rules <$> Some x) with (Some (rte_acl_reset_rules x)).
  destruct (readd_ok t p Hret (flow_list t) [] (rte_acl_reset_rules x)) as (x1 & -> & Hx1).
  - intros q Hq. pose proof (ti_rules _ _ Hinv) as Hr. rewrite Forall_forall in Hr. destruct (Hr q Hq) as (rq & Hrq & _). by eexists.
  - apply sublist_filter.
  - by rewrite reset_added.
  - cbn [app] in Hx1. rewrite Hfl, Hfilter in Hx1 |- *. cbn [mbind cres_mbind Z.eqb negb option_fmap option_map].
    assert (exists x2, (if negb (Z.of_nat (length (l1 ++ l2)) =? 0) then on_ctx rte_acl_build (Some x1)
        else (0, rte_acl_reset_rules <$> Some x1)) = (0, Some x2) /\ rules_added x2 = rules_at (heap t) (l1 ++ l2) /\
      (l1 ++ l2 <> [] -> rules_built x2 = rules_at (heap t) (l1 ++ l2))) as (x2 & -> & Ha2 & Hb2).
    { destruct (Z.eqb_spec (Z.of_nat (length (l1 ++ l2))) 0) as [Hz|Hz]; cbn [negb].
      - destruct (l1 ++ l2) as [|q l]; [|cbn in Hz; lia]. eexists. split; [done|]. by rewrite reset_added.
      - assert ((rte_acl_build x1).1 = 0) as Hrc.
        { apply Hret. rewrite Hx1. apply rules_at_sublist. rewrite Hfl. apply sublist_app; [done|]. by apply sublist_cons. }
        pose proof (build_added x1) as Hba. pose proof (build_built x1 Hrc) as Hbb. cbn [on_ctx].
        destruct (rte_acl_build x1) as [rc x2]. cbn [fst snd] in *. subst rc. exists x2. split; [done|].
        split; [congruence|]. intros _. congruence. }
    cbn [Z.eqb negb set_ctx heap action ctx reg]. rewrite Hrd, Hold, Hgive. cbn [mbind cres_mbind].
    exists (removed_table t x2 cells p (l1 ++ l2)). cbn [set_rules set_action set_ctx size flow_list num_rules heap reg ctx].
    rewrite Hfl, Hfilter. split; [unfold removed_table; by rewrite Hc|].
    split; [by eapply removed_inv|]. split; [done|]. split; [done|]. split; [done|]. split; [done|].
    rewrite removed_rules by done. apply rules_at_app.
Qed.

(** C17. Deleting a rule. On a table in a good state whose context takes its
    rules again, [acl_delete_rule] removes exactly the given rule, keeps the
    others in their order, makes the rule's cell the next one to be used, and
    leaves the table in a good state: the context classifies by the remaining
    rules. *)
Theorem delete_rule_removes free t p rd l1 l2 :
  acl_inv free t -> retakes t -> flow_list t = l1 ++ p :: l2 -> heap t !! p = Some rd ->
  exists t', acl_delete_rule p t = Ret (0, t') /\ acl_inv (userdata (rule rd) :: free) t' /\
    flow_list t' = l1 ++ l2 /\ heap t' = delete p (heap t) /\
    rules t = rules_at (heap t) l1 ++ rule rd :: rules_at (heap t) l2 /\
    rules t' = rules_at (heap t) l1 ++ rules_at (heap t) l2.
Proof.
  intros Hinv Hret Hfl Hrd. destruct (delete_rule_ok free t p rd l1 l2 Hinv Hret Hfl Hrd) as (t' & Hdel & Hinv' & Hl & Hh & _ & Hrules).
  exists t'. auto.
Qed.

(** *** Looking packets up *)

Context {P : Type} (key_generation : P -> list Z).

(** The cell has an action that is carried out: it is in use and its mark,
    if it has one, is not zero. *)
Definition effective (a : acl_actions) : bool :=
  in_use a && ((Z.land (act_map a) ACL_ACTION_MARK =? 0) || negb (rx_action a =? 0)).

(** What happens to a packet with verdict [v]. *)
Definition marked (cells : list acl_actions) (v : Z) (m : mbuf P) : mbuf P :=
  if fdir m || (v =? 0) then m
  else match cells !! Z.to_nat v with
  | Some a => if effective a && negb (Z.land (act_map a) ACL_ACTION_MARK =? 0)
              then {| fdir := true; hash_hi := u16 (Z.land (Z.shiftr (rx_action a) 40) 0xFFFF); pkt := pkt m |} else m
  | None => m
  end.

(** The packet counts for the rule at [p]. *)
Definition counts (cells : list acl_actions) (p : Z) (mv : mbuf P * Z) : bool :=
  negb (fdir mv.1) && negb (mv.2 =? 0) &&
  match cells !! Z.to_nat mv.2 with
  | Some a => effective a && counter_enable a && negb (Z.land (act_map a) ACL_ACTION_COUNT =? 0) && (rule_data a =? p)
  | None => false
  end.

Definition hits_of (cells : list acl_actions) (p : Z) (l : list (mbuf P * Z)) : Z :=
  Z.of_nat (length (filter (fun mv => counts cells p mv = true) l)).

(** The same rules, with [n p] more hits. *)
Definition bumped (n : Z -> Z) (h h' : gmap Z acl_rule_data) : Prop :=
  forall p, match h !! p with
  | Some rd => exists rd', h' !! p = Some rd' /\ rule rd' = rule rd /\ rule_idx rd' = rule_idx rd /\
      u32 (rule_hits rd') = u32 (rule_hits rd + n p)
  | None => h' !! p = None
  end.

Definition with_heap (h : gmap Z acl_rule_data) t : acl_table X := set_rules (num_rules t) (flow_list t) h t.

Lemma with_heap_twice h h' t : with_heap h (with_heap h' t) = with_heap h t.
Proof. done. Qed.

Lemma bumped_rules n h h' l : bumped n h h' -> rules_at h' l = rules_at h l.
Proof.
  intros Hb. apply rules_at_ext. intros p _. specialize (Hb p).
  destruct (h !! p); [destruct Hb as (rd' & -> & Hr & _); cbn; by rewrite Hr|by rewrite Hb].
Qed.

Lemma bumped_inv n free t h' : bumped n (heap t) h' -> acl_inv free t -> acl_inv free (with_heap h' t).
Proof.
  intros Hb [H1 H2 H3 H4 H5]. assert (rules (with_heap h' t) = rules t) as Hr by (by apply (bumped_rules n)).
  split; unfold used in *; rewrite ?Hr; [done| |done|done|done].
  rewrite Forall_forall in H2 |- *. intros p Hp. destruct (H2 p Hp) as (rd & Hrd & Hix & Hc). specialize (Hb p). rewrite Hrd in Hb.
  destruct Hb as (rd' & Hrd' & Hrule & Hidx & _). exists rd'. rewrite Hrule, Hidx. done.
Qed.

(** One packet. *)
Lemma execute_ok cells t v m : action t = Some cells -> fdir m = false -> v <> 0 -> 0 <= v ->
  (exists a, cells !! Z.to_nat v = Some a /\ index a = v /\ is_Some (heap t !! rule_data a)) ->
  exists rc h', acl_flow_action_execute v m t = Ret (rc, marked cells v m, with_heap h' t) /\
    bumped (fun p => b2z (counts cells p (m, v))) (heap t) h'.
Proof.
  intros Hcells Hm Hv Hv0 (a & Ha & Hi & rd & Hrd). unfold acl_flow_action_execute, marked, counts, bumped, effective. cbn [fst snd].
  rewrite Hcells, Hm, (proj2 (Z.eqb_neq v 0)), Ha by done. cbn [negb orb andb].
  rewrite (proj2 (cget_Ret cells v a)) by done. cbn [mbind cres_mbind]. rewrite Hi, Z.eqb_refl. cbn [negb].
  assert (forall t, with_heap (heap t) t = t) as Hid by (by intros []).
  assert (forall f : Z -> bool, (forall p, f p = false) -> forall p, match heap t !! p with
    | Some rd => exists rd', heap t !! p = Some rd' /\ rule rd' = rule rd /\ rule_idx rd' = rule_idx rd /\
        u32 (rule_hits rd') = u32 (rule_hits rd + b2z (f p))
    | None => heap t !! p = None end) as Hsame.
  { intros f Hf p. rewrite Hf. cbn. destruct (heap t !! p); [|done]. eexists. rewrite Z.add_0_r. done. }
  destruct (in_use a); cbn [negb andb].
  2:{ exists (- EINVAL), (heap t). rewrite Hid. split; [done|]. by apply Hsame. }
  set (mark := Z.land (act_map a) ACL_ACTION_MARK =? 0). unfold acl_action_mark_id.
  destruct (rx_action a =? 0) eqn:Hrx, mark; cbn [negb andb orb Z.eqb].
  2:{ exists (- EINVAL), (heap t). rewrite Hid. split; [done|]. by apply Hsame. }
  all: destruct (counter_enable a && negb (Z.land (act_map a) ACL_ACTION_COUNT =? 0)); cbn [andb].
  2, 4, 6: exists 0, (heap t); rewrite Hid; split; [done|]; by apply Hsame.
  all: rewrite Hrd; eexists 0, _; split; [done|]; intros p; cbn [heap with_heap set_rules];
    destruct (Z.eqb_spec (rule_data a) p) as [<-|Hne]; cbn [b2z].
  1, 3, 5: rewrite Hrd, lookup_insert_eq; eexists; split; [done|]; cbn [set_hits rule rule_idx rule_hits];
    (split; [done|]); (split; [done|]); unfold u32; by rewrite Zmod_mod.
  all: rewrite lookup_insert_ne by done; destruct (heap t !! p); [eexists; rewrite Z.add_0_r; done|done].
Qed.

Lemma bumped_zero h : bumped (fun _ => 0) h h.
Proof. intros p. destruct (h !! p); [|done]. eexists. by rewrite Z.add_0_r. Qed.

Lemma bumped_trans n1 n2 n h h1 h2 : bumped n1 h h1 -> bumped n2 h1 h2 -> (forall p, n p = n1 p + n2 p) -> bumped n h h2.
Proof.
  intros H1 H2 Hn p. specialize (H1 p). specialize (H2 p). destruct (h !! p) as [rd|].
  - destruct H1 as (rd1 & Hr1 & Ha1 & Hb1 & Hc1). rewrite Hr1 in H2. destruct H2 as (rd2 & Hr2 & Ha2 & Hb2 & Hc2).
    exists rd2. split; [done|]. split; [congruence|]. split; [congruence|]. rewrite Hc2, Hn. unfold u32 in *.
    rewrite Zplus_mod, Hc1, <- Zplus_mod. f_equal. lia.
  - by rewrite H1 in H2.
Qed.

Lemma bumped_some n h h' p : bumped n h h' -> is_Some (h !! p) -> is_Some (h' !! p).
Proof. intros Hb [rd Hrd]. specialize (Hb p). rewrite Hrd in Hb. destruct Hb as (rd' & -> & _). done. Qed.

(** A verdict that the table can carry out. *)
Definition good_verdict t (cells : list acl_actions) (v : Z) : Prop :=
  v = 0 \/ (0 <= v /\ exists a, cells !! Z.to_nat v = Some a /\ index a = v /\ is_Some (heap t !! rule_data a)).

Lemma lookup_loop_ok cells result objs : forall rs i t, action t = Some cells -> num_rules t <> 0 -> 0 <= i ->
  drop (Z.to_nat i) result = rs -> (length objs <= length rs)%nat -> Forall (good_verdict t cells) rs ->
  exists h', lookup_loop objs result i t = Ret (zip_with (fun m v => marked cells v m) objs rs, with_heap h' t) /\
    bumped (fun p => hits_of cells p (zip objs rs)) (heap t) h'.
Proof.
  induction objs as [|m objs IH]; intros rs i t Hcells Hnum Hi Hrs Hlen Hgood; cbn [lookup_loop].
  { exists (heap t). split; [by destruct t|]. apply bumped_zero. }
  destruct rs as [|v rs]; [cbn in Hlen; lia|]. apply Forall_cons in Hgood as [Hv Hgood].
  assert (result !! Z.to_nat i = Some v) as Hri.
  { rewrite <- (Nat.add_0_r (Z.to_nat i)), <- lookup_drop, Hrs. done. }
  assert (exists h1, (if fdir m then Ret (m, t) else
      r ← cget result i;
      if negb (r =? 0) && negb (num_rules t =? 0) then '(_, m, t) ← acl_flow_action_execute r m t; Ret (m, t) else Ret (m, t)) =
    Ret (marked cells v m, with_heap h1 t) /\ bumped (fun p => b2z (counts cells p (m, v))) (heap t) h1) as (h1 & -> & Hb1).
  { assert (with_heap (heap t) t = t) as Hid by (by destruct t). destruct (fdir m) eqn:Hm.
    - exists (heap t). unfold marked, counts. cbn [fst snd]. rewrite Hm, Hid. split; [done|]. apply bumped_zero.
    - rewrite (proj2 (cget_Ret _ _ _) (conj Hi Hri)). cbn [mbind cres_mbind]. rewrite (proj2 (Z.eqb_neq _ _) Hnum).
      destruct (Z.eqb_spec v 0) as [->|Hne]; cbn [negb andb].
      + exists (heap t). unfold marked, counts. cbn [fst snd]. rewrite Hm, Hid. split; [done|]. apply bumped_zero.
      + destruct Hv as [|[Hv0 Hv]]; [done|]. destruct (execute_ok cells t v m) as (rc & h1 & -> & Hb); [done..|].
        exists h1. done. }
  cbn [mbind cres_mbind].
  destruct (IH rs (i + 1) (with_heap h1 t)) as (h2 & -> & Hb2); [done|done|lia| |cbn in Hlen; lia| |].
  - replace (Z.to_nat (i + 1)) with (Z.to_nat i + 1)%nat by lia. rewrite <- drop_drop, Hrs. done.
  - eapply Forall_impl; [exact Hgood|]. intros w [->|(Hw & a & Ha1 & Ha2 & Ha3)]; [by left|]. right. split; [done|].
    exists a. split; [done|]. split; [done|]. by eapply bumped_some.
  - cbn [mbind cres_mbind]. exists h2. split; [done|]. eapply bumped_trans; [exact Hb1|exact Hb2|].
    intros p. unfold hits_of. cbn [zip zip_with]. rewrite filter_cons. cbn [heap with_heap set_rules].
    destruct (counts cells p (m, v)); [rewrite decide_True by done|rewrite decide_False by done]; cbn [length b2z]; lia.
Qed.

(** The verdicts of the context name rules of the table. *)
Lemma verdict_good free t cells key v : acl_inv free t -> action t = Some cells -> verdict (rules t) key v -> good_verdict t cells v.
Proof.
  intros Hinv Hcells [[-> _]|(r & Hr & _ & -> & _)]; [by left|]. right.
  unfold rules, rules_at in Hr. apply list_elem_of_omap in Hr as (p & Hp & Hrd).
  pose proof (ti_rules _ _ Hinv) as Hrs. rewrite Forall_forall in Hrs. destruct (Hrs p Hp) as (rd & Hrd' & _ & Hc).
  rewrite Hrd' in Hrd. cbn in Hrd. injection Hrd as <-. destruct (Hc cells Hcells) as (a & Ha & Hq).
  pose proof (ti_actions _ _ Hinv) as Hact. rewrite Hcells in Hact. destruct Hact as [_ Hok].
  assert (userdata (rule rd) ∈ used t) as Hin.
  { apply list_elem_of_fmap. exists (rule rd). split; [done|]. apply list_elem_of_omap. exists p. split; [done|]. by rewrite Hrd'. }
  split; [apply Z.le_trans with 1; [lia|]; apply (ao_range _ _ _ Hok), elem_of_app; by right|].
  exists a. split; [done|]. split; [|rewrite Hq, Hrd'; by eexists].
  destruct (ao_used _ _ _ Hok _ Hin) as (b & Hb & Hbi). congruence.
Qed.

Definition unflagged (objs : list (mbuf P)) : list (mbuf P) := filter (fun m => fdir m = false) objs.

Lemma acl_lookup_ok free t cells objs :
  acl_inv free t -> flow_list t <> [] -> action t = Some cells ->
  exists result h', acl_flow_lookup key_generation objs (replicate (length objs) 0) t =
      Ret (0, zip_with (fun m v => marked cells v m) objs result, result, with_heap h' t) /\
    length result = length objs /\
    (forall i, match unflagged objs !! i with
       | Some m => exists v, result !! i = Some v /\ verdict (rules t) (key_buf key_generation t m) v
       | None => (i < length objs)%nat -> result !! i = Some 0
       end) /\
    bumped (fun p => hits_of cells p (zip objs result)) (heap t) h' /\
    acl_inv free (with_heap h' t) /\ rules (with_heap h' t) = rules t.
Proof.
  intros Hinv Hne Hcells. pose proof (ti_ctx _ _ Hinv) as Hctx. pose proof (ti_num _ _ Hinv) as Hnum.
  assert (num_rules t <> 0) as Hn0 by (rewrite Hnum; destruct (flow_list t); [done|cbn; lia]).
  destruct (reg t) as [x|] eqn:Hreg; [|by destruct Hctx]. destruct Hctx as (Hc & _ & Hbuilt). specialize (Hbuilt Hne).
  unfold acl_flow_lookup. rewrite Hc, Hreg. cbn [negb]. rewrite (proj2 (Z.eqb_neq _ _) Hn0).
  unfold acl_lookup_process. fold (unflagged objs). set (keys := key_buf key_generation t <$> unflagged objs).
  set (r := rte_acl_classify x keys). set (result := r ++ _).
  assert (length r = length (unflagged objs)) as Hlr by (unfold r; rewrite classify_length; apply length_fmap).
  assert (length (unflagged objs) <= length objs)%nat as Hlu by apply length_filter.
  assert (length result = length objs) as Hlen by (unfold result; rewrite length_app, length_drop, length_replicate; lia).
  assert (forall i, match unflagged objs !! i with
    | Some m => exists v, result !! i = Some v /\ verdict (rules t) (key_buf key_generation t m) v
    | None => (i < length objs)%nat -> result !! i = Some 0 end) as Hres.
  { intros i. destruct (unflagged objs !! i) as [m|] eqn:Hm.
    - destruct (classify_verdict x keys i (key_buf key_generation t m)) as (v & Hv & Hver);
        [unfold keys; by rewrite list_lookup_fmap, Hm|]. rewrite Hbuilt in Hver. exists v. split; [|done].
      unfold result. rewrite lookup_app_l; [done|]. apply lookup_lt_Some in Hm. lia.
    - intros Hi. apply lookup_ge_None in Hm. unfold result. rewrite lookup_app_r, lookup_drop by lia.
      apply lookup_replicate_2. lia. }
  destruct (lookup_loop_ok cells result objs result 0 t) as (h' & -> & Hb); [done|done|lia|done|lia| |].
  { apply Forall_lookup. intros i v Hv. specialize (Hres i). destruct (unflagged objs !! i) as [m|].
    - destruct Hres as (v' & Hv' & Hver). rewrite Hv in Hv'. injection Hv' as <-. by eapply verdict_good.
    - rewrite Hres in Hv by (apply lookup_lt_Some in Hv; lia). injection Hv as <-. by left. }
  cbn [mbind cres_mbind]. exists result, h'. split; [done|]. split; [done|]. split; [done|]. split; [done|].
  split; [by eapply bumped_inv|by apply (bumped_rules (fun p => hits_of cells p (zip objs result)))].
Qed.

(** C16. Looking packets up. On a table in a good state with rules,
    [acl_flow_lookup] classifies the packets that carry no flag: the [i]-th of
    them gets as verdict the user data of a matching rule of highest priority,
    or 0, in cell [i] of the results. Every packet [i] without the flag is
    then treated by cell [i] of the results: marked with the mark of that
    cell's rule, and counted for it. When no packet carries the flag each is
    treated by its own verdict; after one that does, packets are treated by
    the verdicts of others. The table stays in a good state with the same
    rules. *)
Theorem lookup_by_position free t cells objs :
  acl_inv free t -> flow_list t <> [] -> action t = Some cells ->
  exists result h', acl_flow_lookup key_generation objs (replicate (length objs) 0) t =
      Ret (0, zip_with (fun m v => marked cells v m) objs result, result, with_heap h' t) /\
    length result = length objs /\
    (forall i, match unflagged objs !! i with
       | Some m => exists v, result !! i = Some v /\ verdict (rules t) (key_buf key_generation t m) v
       | None => (i < length objs)%nat -> result !! i = Some 0
       end) /\
    bumped (fun p => hits_of cells p (zip objs result)) (heap t) h' /\
    acl_inv free (with_heap h' t) /\ rules (with_heap h' t) = rules t.
Proof.
  intros Hinv Hne Hcells. destruct (acl_lookup_ok free t cells objs Hinv Hne Hcells) as (result & h' & Hret & Hlen & Hver & Hb & Hinv' & Hr).
  exists result, h'. auto 10.
Qed.


(** *** Failures *)

(** A rule the context refuses takes the others with it. On a table in a
    good state with rules, when [rte_acl_add_rules] or [rte_acl_build] fails for
    the new rule, [acl_create_rule] returns no rule and frees the context: the
    list and the number of rules are as before, but every lookup on the table
    from then on returns ACL_RULE_CTX_INVALID without looking at a packet. *)
Theorem create_failure_drops_rules free i t prio flow actions p :
  acl_inv (i :: free) t -> flow_list t <> [] ->
  (forall x, rules_added x = rules t ->
     let '(rc, x') := rte_acl_add_rules (new_rule t prio flow i) x in rc <> 0 \/ (rte_acl_build x').1 <> 0) ->
  exists t', acl_create_rule prio (Some flow) actions true (Some p) true t = Ret (None, t') /\
    flow_list t' = flow_list t /\ num_rules t' = num_rules t /\ heap t' = heap t /\
    forall objs result, acl_flow_lookup key_generation objs result t' = Ret (ACL_RULE_CTX_INVALID, objs, result, t').
Proof.
  intros Hinv Hne Hfail. pose proof (ti_ctx _ _ Hinv) as Hctx.
  destruct (reg t) as [x|] eqn:Hreg; [|by destruct Hctx]. unfold acl_create_rule.
  destruct (ctx_get_ok _ _ Hinv) as (t1 & x1 & -> & Hinv1 & Hc1 & Hx1 & Hrx & Hid & Hfl & Hh & Hact & Hnum); [by rewrite Hreg|].
  destruct (parse_action_ok i free t1 actions Hinv1) as (cells & -> & Hok & _ & _).
  assert (1 <= i) by (apply (ao_range _ _ _ Hok), elem_of_app; right; apply elem_of_app; right; by left).
  cbn [mbind cres_mbind]. rewrite (proj2 (Z.ltb_ge i 0)) by lia. cbn [reg set_action]. rewrite Hx1. cbn [negb].
  cbn [tbl_id set_action]. rewrite Hid. change {| field := _; priority := _; userdata := i |} with (new_rule t prio flow i).
  specialize (Hfail x1 Hrx). destruct (rte_acl_add_rules (new_rule t prio flow i) x1) as [rc x2].
  assert (forall t2, flow_list t2 = flow_list t -> num_rules t2 = num_rules t -> heap t2 = heap t ->
    exists t', Ret (None, acl_ctx_free t2) = Ret (@None Z, t') /\ flow_list t' = flow_list t /\ num_rules t' = num_rules t /\
      heap t' = heap t /\ forall objs result, acl_flow_lookup key_generation objs result t' = Ret (ACL_RULE_CTX_INVALID, objs, result, t')) as Hdone.
  { intros t2 H1 H2 H3. exists (acl_ctx_free t2). done. }
  destruct (Z.eqb_spec rc 0) as [Hrc|Hrc]; cbn [negb]; [|by apply Hdone].
  destruct Hfail as [|Hb]; [done|]. destruct (rte_acl_build x2) as [rc' x3]. cbn [fst] in Hb.
  rewrite (proj2 (Z.eqb_neq rc' 0)) by done. cbn [negb]. by apply Hdone.
Qed.

(** A full table. When all cells are in use, [acl_create_rule] reallocates
    the array with its new number of cells as the number of bytes, which is
    less than it has, and writes past its end. *)
Theorem full_table_overflows t cells prio flow actions p :
  acl_inv [] t -> action t = Some cells -> ctx t = true ->
  acl_create_rule prio (Some flow) actions true p true t = Fault.
Proof.
  intros Hinv Hcells Hctx. pose proof (ti_actions _ _ Hinv) as Hact. rewrite Hcells in Hact. destruct Hact as [Hsz Hok].
  pose proof (ti_ctx _ _ Hinv) as Hti. pose proof (ao_len _ _ _ Hok) as Hlen.
  unfold acl_create_rule, acl_ctx_get. destruct (reg t) as [x|]; [|destruct Hti; congruence].
  unfold acl_parse_action. cbn [action set_ctx size]. rewrite Hcells. cbn [mbind cres_mbind].
  destruct (ao_first _ _ _ Hok) as (a0 & H0 & Hi). cbn in Hi.
  rewrite (proj2 (cget_Ret cells 0 a0)) by (split; [lia|exact H0]). cbn [mbind cres_mbind].
  rewrite Hi, Z.eqb_refl, Hsz. set (n := Z.of_nat (length cells)) in *.
  assert (n * 2 / sizeof_acl_actions <= n) as Hdiv by (apply Z.div_le_upper_bound; [done|]; unfold sizeof_acl_actions; lia).
  assert (forall fuel, link_free fuel (take (Z.to_nat (n * 2 / sizeof_acl_actions)) cells) n (n * 2) = Fault) as Hfault.
  { intros fuel. destruct fuel; cbn [link_free]; rewrite cget_out; try done; right; rewrite length_take; lia. }
  by rewrite Hfault.
Qed.
End invariant.

(** ** What a rule matches *)

Definition bytes (l : list Z) : Prop := Forall (fun b => 0 <= b < 256) l.

(** Byte [k] of [l]. *)
Definition byte_at (l : list Z) (k : nat) : Z := default 0 (l !! k).

Lemma byte_range l k : bytes l -> 0 <= byte_at l k < 256.
Proof.
  intros Hl. unfold byte_at. destruct (l !! k) eqn:E; cbn; [|lia]. unfold bytes in Hl. rewrite Forall_lookup in Hl. by apply (Hl k).
Qed.

(** The bits of four bytes read as a number. *)
Lemma testbit_byte4 b0 b1 b2 b3 i : 0 <= b0 < 256 -> 0 <= b1 < 256 -> 0 <= b2 < 256 -> 0 <= b3 < 256 -> 0 <= i ->
  Z.testbit (b0 * 0x1000000 + b1 * 0x10000 + b2 * 0x100 + b3) i =
    if i <? 8 then Z.testbit b3 i else if i <? 16 then Z.testbit b2 (i - 8)
    else if i <? 24 then Z.testbit b1 (i - 16) else Z.testbit b0 (i - 24).
Proof.
  intros H0 H1 H2 H3 Hi.
  assert (forall x y j, 0 <= y < 256 -> 0 <= j -> Z.testbit (x * 256 + y) j = if j <? 8 then Z.testbit y j else Z.testbit x (j - 8)) as Hstep.
  { intros x y j Hy Hj. destruct (Z.ltb_spec j 8).
    - rewrite <- (Z.mod_pow2_bits_low (x * 256 + y) 8 j) by lia. change (2 ^ 8) with 256.
      rewrite Z.add_comm, Z.mod_add, Z.mod_small by lia. done.
    - replace j with (j - 8 + 8) at 1 by lia. rewrite <- Z.div_pow2_bits by lia. change (2 ^ 8) with 256.
      rewrite Z.add_comm, Z.div_add, Z.div_small by lia. done. }
  replace (b0 * 0x1000000 + b1 * 0x10000 + b2 * 0x100 + b3) with (((b0 * 256 + b1) * 256 + b2) * 256 + b3) by lia.
  rewrite Hstep by lia. destruct (Z.ltb_spec i 8); [done|]. rewrite Hstep by lia.
  destruct (Z.ltb_spec (i - 8) 8), (Z.ltb_spec i 16); try lia; [done|]. rewrite Hstep by lia.
  destruct (Z.ltb_spec (i - 8 - 8) 8), (Z.ltb_spec i 24); try lia; f_equal; lia.
Qed.

(** Two numbers of four bytes agree under a mask when their bytes do. *)
Lemma land_byte4 a0 a1 a2 a3 d0 d1 d2 d3 m0 m1 m2 m3 :
  Forall (fun b => 0 <= b < 256) [a0; a1; a2; a3; d0; d1; d2; d3; m0; m1; m2; m3] ->
  (Z.land (a0 * 0x1000000 + a1 * 0x10000 + a2 * 0x100 + a3) (m0 * 0x1000000 + m1 * 0x10000 + m2 * 0x100 + m3) =
   Z.land (d0 * 0x1000000 + d1 * 0x10000 + d2 * 0x100 + d3) (m0 * 0x1000000 + m1 * 0x10000 + m2 * 0x100 + m3)) <->
  (Z.land a0 m0 = Z.land d0 m0 /\ Z.land a1 m1 = Z.land d1 m1 /\ Z.land a2 m2 = Z.land d2 m2 /\ Z.land a3 m3 = Z.land d3 m3).
Proof.
  intros Hb. rewrite !Forall_cons in Hb. destruct Hb as (? & ? & ? & ? & ? & ? & ? & ? & ? & ? & ? & ? & _).
  assert (forall x y, 0 <= x < 256 -> 0 <= y < 256 -> forall j, 8 <= j -> Z.testbit (Z.land x y) j = false) as Hhigh.
  { intros x y Hx _ j Hj. rewrite Z.land_spec, (testbit_small x 8) by (cbn; lia). done. }
  split.
  - intros Heq. assert (forall i, 0 <= i -> Z.testbit (Z.land (a0 * 0x1000000 + a1 * 0x10000 + a2 * 0x100 + a3)
      (m0 * 0x1000000 + m1 * 0x10000 + m2 * 0x100 + m3)) i = Z.testbit (Z.land (d0 * 0x1000000 + d1 * 0x10000 + d2 * 0x100 + d3)
      (m0 * 0x1000000 + m1 * 0x10000 + m2 * 0x100 + m3)) i) as Hi by (intros; by rewrite Heq).
    assert (forall x y m, 0 <= x < 256 -> 0 <= y < 256 -> 0 <= m < 256 ->
      (forall j, 0 <= j < 8 -> Z.testbit x j && Z.testbit m j = Z.testbit y j && Z.testbit m j) -> Z.land x m = Z.land y m) as Hbyte.
    { intros x y m Hx Hy Hm Hj. apply Z.bits_inj'. intros j Hj0. destruct (decide (j < 8)).
      - rewrite !Z.land_spec. apply Hj. lia.
      - by rewrite !Hhigh by lia. }
    setoid_rewrite Z.land_spec in Hi.
    repeat split; apply Hbyte; try done; intros j Hj.
    + specialize (Hi (j + 24) ltac:(lia)). rewrite !testbit_byte4 in Hi by lia.
      rewrite !(proj2 (Z.ltb_ge _ _)) in Hi by lia. by replace (j + 24 - 24) with j in Hi by lia.
    + specialize (Hi (j + 16) ltac:(lia)). rewrite !testbit_byte4 in Hi by lia.
      rewrite !(proj2 (Z.ltb_ge _ 8)), !(proj2 (Z.ltb_ge _ 16)), (proj2 (Z.ltb_lt _ 24)) in Hi by lia.
      by replace (j + 16 - 16) with j in Hi by lia.
    + specialize (Hi (j + 8) ltac:(lia)). rewrite !testbit_byte4 in Hi by lia.
      rewrite !(proj2 (Z.ltb_ge _ 8)), (proj2 (Z.ltb_lt _ 16)) in Hi by lia. by replace (j + 8 - 8) with j in Hi by lia.
    + specialize (Hi j ltac:(lia)). rewrite !testbit_byte4 in Hi by lia. by rewrite (proj2 (Z.ltb_lt _ 8)) in Hi by lia.
  - intros (E0 & E1 & E2 & E3). apply Z.bits_inj'. intros i Hi. rewrite !Z.land_spec, !testbit_byte4 by done.
    repeat case_bool; rewrite <- !Z.land_spec; congruence.
Qed.

Lemma be32_bytes l o : 0 <= o -> be32 l o =
  byte_at l (Z.to_nat o) * 0x1000000 + byte_at l (Z.to_nat o + 1) * 0x10000 +
  byte_at l (Z.to_nat o + 2) * 0x100 + byte_at l (Z.to_nat o + 3).
Proof.
  intros Ho. unfold be32, byte_at. rewrite Z.add_0_r.
  rewrite (Z2Nat.inj_add o 1), (Z2Nat.inj_add o 2), (Z2Nat.inj_add o 3) by lia. done.
Qed.

(** The key after the four bytes in front. *)
Lemma byte_after c l k : length c = 4%nat -> byte_at (c ++ l) (4 + k) = byte_at l k.
Proof. intros Hc. unfold byte_at. by rewrite lookup_app_r, Hc, Nat.add_comm, Nat.add_sub by lia. Qed.

Lemma zip_fmaps {A B C} (f : A -> B) (g : A -> C) l : zip (f <$> l) (g <$> l) = (fun x => (f x, g x)) <$> l.
Proof. induction l as [|x l IH]; [done|]. cbn. by f_equal. Qed.

(** Field [n + 1] of a rule compares bytes [4 n] to [4 n + 3]. *)
Lemma field_match_bytes flow c key (n : nat) : bytes (parsed_data flow) -> bytes (parsed_data_mask flow) -> bytes key ->
  length c = 4%nat ->
  acl_field_match (c ++ key) {| def_size := 4; def_offset := 4 * (Z.of_nat n + 1) |}
    (be32 (parsed_data flow) (4 * (Z.of_nat n + 1 - 1)), be32 (parsed_data_mask flow) (4 * (Z.of_nat n + 1 - 1))) = true <->
  forall j, (j < 4)%nat ->
    Z.land (byte_at key (4 * n + j)) (byte_at (parsed_data_mask flow) (4 * n + j)) =
    Z.land (byte_at (parsed_data flow) (4 * n + j)) (byte_at (parsed_data_mask flow) (4 * n + j)).
Proof.
  intros Hd Hm Hk Hc. unfold acl_field_match. cbn [def_size def_offset fst snd Z.eqb]. rewrite Z.eqb_eq.
  replace (4 * (Z.of_nat n + 1)) with (Z.of_nat (4 + 4 * n)) by lia.
  replace (4 * (Z.of_nat n + 1 - 1)) with (Z.of_nat (4 * n)) by lia.
  rewrite !be32_bytes, !Nat2Z.id, <- !Nat.add_assoc, !byte_after by (done || lia).
  etrans; [apply land_byte4; rewrite !Forall_cons; repeat split; try apply byte_range; done|]. split.
  - intros (E0 & E1 & E2 & E3) j Hj. destruct j as [|[|[|[|j]]]]; [by rewrite Nat.add_0_r|done|done|done|lia].
  - intros Hj. pose proof (Hj 0%nat ltac:(lia)) as H0. rewrite Nat.add_0_r in H0.
    split; [exact H0|]. split; [apply (Hj 1%nat); lia|]. split; [apply (Hj 2%nat); lia|apply (Hj 3%nat); lia].
Qed.

(** What a rule matches. The rule that [acl_rule_prepare] makes of a parsed
    flow, its fields converted to host byte order, matches the key buffer of a
    packet in the same table exactly when each of the 56 generated key bytes
    agrees with the flow's byte in the bits of the mask. *)
Theorem rule_matches_bytes (tbl prio act : Z) (flow : parsed_flow) (key : list Z) :
  bytes (parsed_data flow) -> bytes (parsed_data_mask flow) -> bytes key ->
  acl_match {| field := rule_fields tbl flow; priority := prio; userdata := act |} ([u8 tbl; 0; 0; 0] ++ key) = true <->
  forall k, (k < 56)%nat ->
    Z.land (byte_at key k) (byte_at (parsed_data_mask flow) k) =
    Z.land (byte_at (parsed_data flow) k) (byte_at (parsed_data_mask flow) k).
Proof.
  intros Hd Hm Hk. unfold acl_match, ovs_kex_acl_defs, rule_fields, acl_rule_prepare. cbn [field].
  change (seqZ 1 (ACL_X4_RULE_DEF_SIZE - 1)) with (seqZ 1 14).
  set (f := fun i => {| def_size := 4; def_offset := 4 * i |}). set (g := fun i => (be32 _ _, be32 _ _)).
  cbn [zip zip_with]. fold (zip (f <$> seqZ 1 14) (g <$> seqZ 1 14)). rewrite zip_fmaps.
  cbn [forallb fst snd]. unfold acl_field_match at 1. cbn [def_size def_offset fst snd Z.eqb].
  rewrite Z.eqb_refl. cbn [andb].
  rewrite forallb_forall. pose proof (fun n => field_match_bytes flow [u8 tbl; 0; 0; 0] key n Hd Hm Hk eq_refl) as Hfield.
  assert (forall n : nat, (n < 14)%nat -> (f (Z.of_nat n + 1), g (Z.of_nat n + 1)) ∈ (fun i => (f i, g i)) <$> seqZ 1 14) as Hin.
  { intros n Hn. apply list_elem_of_fmap. exists (Z.of_nat n + 1). split; [done|]. apply elem_of_seqZ. lia. }
  split.
  - intros Hall k Hk56. pose proof (Nat.div_mod_eq k 4) as Hdm. pose proof (Nat.mod_upper_bound k 4 ltac:(lia)) as Hub.
    rewrite Hdm. apply (Hfield (k / 4)%nat); [|done]. apply (Hall (_, _)). apply list_elem_of_In, Hin.
    apply Nat.Div0.div_lt_upper_bound. lia.
  - intros Hall x Hx. apply list_elem_of_In, list_elem_of_fmap in Hx as (i & -> & Hi). apply elem_of_seqZ in Hi.
    specialize (Hfield (Z.to_nat (i - 1))). replace (Z.of_nat (Z.to_nat (i - 1)) + 1) with i in Hfield by lia.
    apply Hfield. intros j Hj. apply Hall. lia.
Qed.

(** ** Witnesses

    A context with room for two rules that searches its rules one by one. *)
Record ref_acl := { ra_added : list acl_rule; ra_built : list acl_rule }.

Fixpoint best (l : list acl_rule) (key : list Z) : option acl_rule :=
  match l with
  | [] => None
  | r :: l =>
      if acl_match r key
      then match best l key with Some r' => if priority r <? priority r' then Some r' else Some r | None => Some r end
      else best l key
  end.

Lemma best_spec l key : match best l key with
  | None => forall r, r ∈ l -> acl_match r key = false
  | Some r => r ∈ l /\ acl_match r key = true /\ forall r', r' ∈ l -> acl_match r' key = true -> priority r' <= priority r
  end.
Proof.
  induction l as [|r l IH]; cbn [best]; [intros r Hr; by apply not_elem_of_nil in Hr|].
  destruct (acl_match r key) eqn:Hm; destruct (best l key) as [r'|].
  - destruct IH as (Hin & Hm' & Hmax). destruct (Z.ltb_spec (priority r) (priority r')).
    + split; [by right|]. split; [done|]. intros q [->|Hq]%elem_of_cons Hmq; [lia|by apply Hmax].
    + split; [by left|]. split; [done|]. intros q [->|Hq]%elem_of_cons Hmq; [lia|]. specialize (Hmax q Hq Hmq). lia.
  - split; [by left|]. split; [done|]. intros q [->|Hq]%elem_of_cons Hmq; [lia|]. rewrite IH in Hmq; done.
  - destruct IH as (Hin & Hm' & Hmax). split; [by right|]. split; [done|].
    intros q [->|Hq]%elem_of_cons Hmq; [congruence|by apply Hmax].
  - intros q [->|Hq]%elem_of_cons; [done|by apply IH].
Qed.

#[local] Instance wit_acl : RteAcl ref_acl := {
  rte_acl_create := Some {| ra_added := []; ra_built := [] |};
  rte_acl_set_ctx_classify x := (0, x);
  rte_acl_add_rules r x :=
    if (2 <=? Z.of_nat (length (ra_added x))) then (- ENOMEM, x)
    else (0, {| ra_added := ra_added x ++ [r]; ra_built := ra_built x |});
  rte_acl_build x := (0, {| ra_added := ra_added x; ra_built := ra_added x |});
  rte_acl_reset_rules x := {| ra_added := []; ra_built := ra_built x |};
  rte_acl_classify x keys := (fun key => from_option userdata 0 (best (ra_built x) key)) <$> keys;
  rules_added := ra_added;
  rules_built := ra_built;
}.

#[local] Instance wit_acl_laws : RteAclLaws ref_acl.
Proof.
  split; try done.
  - by intros x [= <-].
  - intros r x. cbn. destruct (Z.leb_spec 2 (Z.of_nat (length (ra_added x)))); done.
  - intros x keys. cbn. by rewrite length_fmap.
  - intros x keys i key Hk. cbn. rewrite list_lookup_fmap, Hk. eexists. split; [done|].
    pose proof (best_spec (ra_built x) key) as Hb. destruct (best (ra_built x) key) as [r|]; cbn.
    + right. exists r. naive_solver.
    + left. done.
Qed.

(** Flows that match a first key byte. *)
Definition wit_flow (b : Z) : parsed_flow :=
  {| parsed_data := b :: replicate 55 0; parsed_data_mask := 0xff :: replicate 55 0 |}.

Definition wit_rule (b u : Z) : acl_rule := {| field := rule_fields 0 (wit_flow b); priority := 1; userdata := u |}.

(** A table with the cells [cells] and rules for the bytes 7, 8, ... at 101,
    102, ... *)
Definition wit_table (n : nat) (cells : list acl_actions) : acl_table ref_acl :=
  let ids := seqZ 1 (Z.of_nat n) in
  let rs := (fun u => wit_rule (6 + u) u) <$> ids in
  {| tbl_id := 0; tbl_val := true; num_rules := Z.of_nat n; ctx := true;
     reg := Some {| ra_added := rs; ra_built := rs |}; action := Some cells; size := Z.of_nat (length cells);
     flow_list := (fun u => 100 + u) <$> ids;
     heap := list_to_map ((fun u => (100 + u, {| rule := wit_rule (6 + u) u; rule_idx := u; rule_hits := 0 |})) <$> ids) |}.

(** The first free cell, cells in use with mark 4 + u, and free cells. *)
Definition wit_used (u : Z) : acl_actions := set_rule_data (100 + u) (acl_populate_action [ActMark (4 + u)] (set_index u action0)).

Definition wit_cells1 : list acl_actions := [set_index 2 action0; wit_used 1; set_index 3 action0; set_index NO_INDEX action0].

Definition wit_cells2 : list acl_actions := [set_index 3 action0; wit_used 1; wit_used 2; set_index NO_INDEX action0].

Definition wit_cells_full : list acl_actions := [set_index NO_INDEX action0; wit_used 1; wit_used 2].

Ltac wit_inv :=
  split;
  [split; [reflexivity|split;
     [cbn; lia
     |eexists; split; [reflexivity|]; cbn; repeat (split; [reflexivity|]; eexists; split; [reflexivity|]); reflexivity
     |intros j Hj; repeat (apply elem_of_cons in Hj as [->|Hj]; [eexists; reflexivity|]); by apply not_elem_of_nil in Hj
     |intros j Hj; vm_compute in Hj; repeat (apply elem_of_cons in Hj as [->|Hj]; [eexists; split; reflexivity|]); by apply not_elem_of_nil in Hj
     |vm_compute; repeat (apply NoDup_cons; split; [by rewrite ?elem_of_cons, ?elem_of_nil; lia|]); apply NoDup_nil_2
     |intros j Hj; vm_compute in Hj; repeat (apply elem_of_cons in Hj as [->|Hj]; [cbn; lia|]); by apply not_elem_of_nil in Hj]]
  |cbn; repeat (constructor; [eexists; split; [reflexivity|]; split; [reflexivity|]; intros ? [= <-]; eexists; split; reflexivity|]); constructor
  |vm_compute; repeat (apply NoDup_cons; split; [by rewrite ?elem_of_cons, ?elem_of_nil; lia|]); apply NoDup_nil_2
  |reflexivity
  |split; [reflexivity|]; split; [vm_compute; reflexivity|intros _; vm_compute; reflexivity]].

Lemma wit_inv1 : acl_inv [2; 3] (wit_table 1 wit_cells1).
Proof. wit_inv. Qed.

Lemma wit_inv2 : acl_inv [3] (wit_table 2 wit_cells2).
Proof. wit_inv. Qed.

Lemma wit_inv_full : acl_inv [] (wit_table 2 wit_cells_full).
Proof. wit_inv. Qed.

Lemma create_rule_adds_witness :
  exists t', acl_create_rule 4 (Some (wit_flow 9)) [ActMark 6] true (Some 102) true (wit_table 1 wit_cells1) = Ret (Some 102, t') /\
    flow_list t' = [101; 102] /\ (priority <$> rules t') = [1; 5] /\ (userdata <$> rules t') = [1; 2].
Proof.
  destruct (create_rule_adds [3] 2 (wit_table 1 wit_cells1) 4 (wit_flow 9) [ActMark 6] 102)
    as (t' & Hret & _ & _ & Hfl & Hrules & _).
  - exact wit_inv1.
  - vm_compute. reflexivity.
  - split; [discriminate|]. split; [|reflexivity]. intros x Hx. cbn. cbn in Hx. rewrite Hx. reflexivity.
  - exists t'. split; [exact Hret|]. rewrite Hfl, Hrules. split; [reflexivity|]. split; vm_compute; reflexivity.
Defined.

Lemma delete_rule_removes_witness :
  exists t', acl_delete_rule 101 (wit_table 2 wit_cells2) = Ret (0, t') /\ flow_list t' = [102] /\ acl_inv [1; 3] t'.
Proof.
  destruct (delete_rule_removes [3] (wit_table 2 wit_cells2) 101
    {| rule := wit_rule 7 1; rule_idx := 1; rule_hits := 0 |} [] [102]) as (t' & Hret & Hinv & Hfl & _).
  - exact wit_inv2.
  - split; [|reflexivity]. intros r x Hs. apply sublist_length in Hs. rewrite length_app in Hs.
    change (length (rules (wit_table 2 wit_cells2))) with 2%nat in Hs. cbn in Hs |- *.
    rewrite (proj2 (Z.leb_gt _ _)) by lia. reflexivity.
  - reflexivity.
  - vm_compute. reflexivity.
  - exists t'. split; [exact Hret|]. split; [exact Hfl|exact Hinv].
Defined.

(** A packet with the flag, one that no rule matches, and one for rule 1: the
    second gets the mark of rule 1, and the third none. *)
Definition wit_burst : list (mbuf (list Z)) :=
  [{| fdir := true; hash_hi := 3; pkt := [9] |}; {| fdir := false; hash_hi := 0; pkt := [9] |};
   {| fdir := false; hash_hi := 0; pkt := [7] |}].

Lemma lookup_by_position_witness :
  exists result t', acl_flow_lookup (fun k => k) wit_burst [0; 0; 0] (wit_table 1 wit_cells1) =
      Ret (0, [{| fdir := true; hash_hi := 3; pkt := [9] |}; {| fdir := true; hash_hi := 5; pkt := [9] |};
               {| fdir := false; hash_hi := 0; pkt := [7] |}], result, t') /\ length result = 3%nat.
Proof.
  destruct (lookup_by_position (fun k : list Z => k) [2; 3] (wit_table 1 wit_cells1) wit_cells1 wit_burst)
    as (result & h' & Hret & Hlen & _).
  - exact wit_inv1.
  - discriminate.
  - reflexivity.
  - exists result, (with_heap h' (wit_table 1 wit_cells1)). split; [|exact Hlen].
    change (replicate (length wit_burst) 0) with [0; 0; 0] in Hret.
    assert (match acl_flow_lookup (fun k : list Z => k) wit_burst [0; 0; 0] (wit_table 1 wit_cells1) with
            | Ret (_, _, r, _) => r = [0; 1; 0] | _ => False end) as Hres by (vm_compute; reflexivity).
    rewrite Hret in Hres. subst result. rewrite Hret. reflexivity.
Defined.

(** The context has room for two rules only. *)
Lemma create_failure_drops_rules_witness :
  exists t', acl_create_rule 4 (Some (wit_flow 9)) [ActMark 6] true (Some 103) true (wit_table 2 wit_cells2) = Ret (None, t') /\
    num_rules t' = 2 /\ acl_flow_lookup (fun k => k) wit_burst [0; 0; 0] t' = Ret (ACL_RULE_CTX_INVALID, wit_burst, [0; 0; 0], t').
Proof.
  destruct (create_failure_drops_rules (fun k : list Z => k) [] 3 (wit_table 2 wit_cells2) 4 (wit_flow 9) [ActMark 6] 103)
    as (t' & Hret & _ & Hn & _ & Hlook).
  - exact wit_inv2.
  - discriminate.
  - intros x Hx. cbn. cbn in Hx. rewrite Hx. left. vm_compute. discriminate.
  - exists t'. split; [exact Hret|]. split; [exact Hn|apply Hlook].
Defined.

Lemma full_table_overflows_witness :
  acl_create_rule 4 (Some (wit_flow 9)) [ActMark 6] true (Some 103) true (wit_table 2 wit_cells_full) = Fault.
Proof.
  apply (full_table_overflows (wit_table 2 wit_cells_full) wit_cells_full).
  - exact wit_inv_full.
  - reflexivity.
  - reflexivity.
Defined.

Lemma rule_matches_bytes_witness :
  acl_match (wit_rule 7 1) ([0; 0; 0; 0] ++ [7; 1; 2]) = true /\ acl_match (wit_rule 7 1) ([0; 0; 0; 0] ++ [8; 1; 2]) = false.
Proof.
  split; [|vm_compute; reflexivity].
  apply (rule_matches_bytes 0 1 1 (wit_flow 7) [7; 1; 2]).
  - apply Forall_cons. split; [lia|apply Forall_replicate; lia].
  - apply Forall_cons. split; [lia|apply Forall_replicate; lia].
  - repeat (apply Forall_cons; split; [lia|]). apply Forall_nil_2.
  - intros k Hk. destruct k as [|k]; [reflexivity|]. unfold byte_at. cbn [wit_flow parsed_data_mask parsed_data].
    change ((0xff :: replicate 55 0) !! S k) with (replicate 55 0 !! k). rewrite lookup_replicate_2 by lia.
    cbn [default from_option id]. by rewrite !Z.land_0_r.
Defined.
