(* ===== verification/FlowParser.v ===== *)
(** * The flow parser (lib/flow/flow_parser.c)

    A rule is a list of pattern items, one per protocol header. The parser
    walks over the layers LA to LH, checks the mask of each item against what
    the key extraction profile supports, and copies the bytes the profile
    extracts, reversed, to their place in the 56 bytes of the search key; the
    layer types go to the first nibbles. *)
From stdpp Require Import base option list numbers.
From S2P Require Import Prelude Rte FlowAcl.

Local Open Scope Z_scope.

(** ** Constants (flow_parser_priv.h, profile_priv.h) *)

Definition IH_LENGTH : Z := 8.
Definition TPID_LENGTH : Z := 2.
Definition HIGIG2_LENGTH : Z := 16.
Definition PARSER_MAX_RAW_ITEM_LEN : Z := 16.
Definition PROFILE_MAX_EXTRACT_DATA_LEN : Z := 64.
Definition PROFILE_KEX_S_LA_OFFSET : Z := 7.
Definition PROFILE_KEX_S_LID_OFFSET (lid : Z) : Z := lid * 3 + PROFILE_KEX_S_LA_OFFSET.
Definition PROFILE_LTYPE_LB_OFFSET : Z := 7 + 5.
Definition PROFILE_LFLAG_LB_OFFSET : Z := 7 + 3.
Definition PROFILE_LFLAG_LC_OFFSET : Z := 7 + 6.
Definition PROFILE_LTYPE_LC_OFFSET : Z := 7 + 8.
Definition FLOW_PARSER_MAX_MCAM_WIDTH_DWORDS : Z := 7.
Definition FLOW_PARSER_MAX_FLOW_PATTERNS : Z := 32.

Definition PARSE_ERR_PARAM : Z := -1024.
Definition PARSE_ERR_INVALID_SPEC : Z := -1022.
Definition PARSE_ERR_INVALID_MASK : Z := -1021.
Definition PARSE_ERR_INVALID_RANGE : Z := -1020.
Definition PARSE_ERR_INVALID_SIZE : Z := -1018.
Definition PARSE_ERR_PATTERN_NOTSUP : Z := -1014.

Definition PROFILE_MAX_LID : Z := 8.
Definition PROFILE_MAX_LD : Z := 2.
Definition PROFILE_MAX_LFL : Z := 16.

Definition NIX_INTF_RX : Z := 0.
Definition NIX_INTF_TX : Z := 1.

Definition PARSER_PRIV_FLAGS_HIGIG : Z := 2 ^ 2.
Definition PARSER_PRIV_FLAGS_EXDSA : Z := 2 ^ 4.
Definition PARSER_PRIV_FLAGS_VLAN_EXDSA : Z := 2 ^ 5.
Definition PARSER_PRIV_FLAGS_PRE_L2 : Z := 2 ^ 6.

(** [enum PROFILE_LID_E] *)
Definition PROFILE_LID_LA : Z := 0.
Definition PROFILE_LID_LB : Z := 1.
Definition PROFILE_LID_LC : Z := 2.
Definition PROFILE_LID_LD : Z := 3.
Definition PROFILE_LID_LE : Z := 4.
Definition PROFILE_LID_LF : Z := 5.
Definition PROFILE_LID_LG : Z := 6.
Definition PROFILE_LID_LH : Z := 7.

(** [enum profile_la_ltype] *)
Definition PROFILE_LT_LA_ETHER : Z := 2.
Definition PROFILE_LT_LA_IH_NIX_ETHER : Z := 3.
Definition PROFILE_LT_LA_HIGIG2_ETHER : Z := 7.
Definition PROFILE_LT_LA_IH_NIX_HIGIG2_ETHER : Z := 8.
Definition PROFILE_LT_LA_CPT_HDR : Z := 10.
Definition PROFILE_LT_LA_CUSTOM_PRE_L2_ETHER : Z := 12.

(** [enum profile_lb_ltype] *)
Definition PROFILE_LT_LB_ETAG : Z := 1.
Definition PROFILE_LT_LB_CTAG : Z := 2.
Definition PROFILE_LT_LB_STAG_QINQ : Z := 3.
Definition PROFILE_LT_LB_PPPOE : Z := 5.
Definition PROFILE_LT_LB_EXDSA : Z := 10.
Definition PROFILE_LT_LB_FDSA : Z := 12.
Definition PROFILE_LT_LB_VLAN_EXDSA : Z := 13.

(** [enum profile_lc_ltype] *)
Definition PROFILE_LT_LC_IP : Z := 2.
Definition PROFILE_LT_LC_IP6 : Z := 4.
Definition PROFILE_LT_LC_IP6_EXT : Z := 5.
Definition PROFILE_LT_LC_ARP : Z := 6.
Definition PROFILE_LT_LC_MPLS : Z := 8.
Definition PROFILE_LT_LC_NGIO : Z := 11.

(** [enum profile_ld_ltype] *)
Definition PROFILE_LT_LD_TCP : Z := 1.
Definition PROFILE_LT_LD_UDP : Z := 2.
Definition PROFILE_LT_LD_SCTP : Z := 4.
Definition PROFILE_LT_LD_ICMP6 : Z := 5.
Definition PROFILE_LT_LD_IGMP : Z := 8.
Definition PROFILE_LT_LD_AH : Z := 9.
Definition PROFILE_LT_LD_GRE : Z := 10.
Definition PROFILE_LT_LD_NVGRE : Z := 11.
Definition PROFILE_LT_LD_TU_MPLS_IN_IP : Z := 14.
Definition PROFILE_LT_LD_ICMP : Z := 15.

(** [enum profile_le_ltype] *)
Definition PROFILE_LT_LE_VXLAN : Z := 1.
Definition PROFILE_LT_LE_GENEVE : Z := 2.
Definition PROFILE_LT_LE_ESP : Z := 3.
Definition PROFILE_LT_LE_GTPU : Z := 4.
Definition PROFILE_LT_LE_VXLANGPE : Z := 5.
Definition PROFILE_LT_LE_GTPC : Z := 6.
Definition PROFILE_LT_LE_TU_MPLS_IN_UDP : Z := 10.

(** [enum profile_lf_ltype] *)
Definition PROFILE_LT_LF_TU_ETHER : Z := 1.

(** [enum profile_lg_ltype] *)
Definition PROFILE_LT_LG_TU_IP : Z := 1.
Definition PROFILE_LT_LG_TU_IP6 : Z := 2.

(** [enum profile_lh_ltype] *)
Definition PROFILE_LT_LH_TU_TCP : Z := 1.
Definition PROFILE_LT_LH_TU_UDP : Z := 2.
Definition PROFILE_LT_LH_TU_SCTP : Z := 4.
Definition PROFILE_LT_LH_TU_ESP : Z := 9.

(** Flags of the layers *)
Definition PROFILE_F_STAG_STAG_CTAG : Z := 15.
Definition PROFILE_F_ETAG_CTAG : Z := 25.
Definition PROFILE_F_MPLS_4_LABELS : Z := 36.
Definition PROFILE_F_MPLS_3_LABELS : Z := 37.
Definition PROFILE_F_MPLS_2_LABELS : Z := 38.
Definition PROFILE_F_GRE_NVGRE : Z := 79.
Definition PROFILE_F_UDP_VXLAN : Z := 60.
Definition PROFILE_F_UDP_GTP_GTPC : Z := 71.
Definition PROFILE_F_UDP_GTP_GTPU_G_PDU : Z := 72.
Definition PROFILE_F_UDP_GENEVE : Z := 75.
Definition PROFILE_F_UDP_VXLANGPE : Z := 63.
Definition PROFILE_F_TU_ETHER_CTAG : Z := 96.
Definition PROFILE_F_TU_ETHER_STAG_CTAG : Z := 98.
Definition PROFILE_F_LB_L_WITH_STAG_STAG : Z := 4.
Definition PROFILE_F_LB_L_WITH_QINQ_CTAG : Z := 5.
Definition PROFILE_F_LB_L_WITH_QINQ_QINQ : Z := 6.
Definition PROFILE_F_LC_U_IP6_FRAG : Z := 64.
Definition PROFILE_F_LC_L_EXT_HOP : Z := 9.
Definition PROFILE_F_LC_L_EXT_DEST : Z := 10.
Definition PROFILE_F_LC_L_EXT_ROUT : Z := 11.
Definition PROFILE_F_LC_L_EXT_MOBILITY : Z := 12.
Definition PROFILE_F_LC_L_EXT_HOSTID : Z := 13.
Definition PROFILE_F_LC_L_EXT_SHIM6 : Z := 14.

(** ** Memory

    [memcpy] from and into a buffer. *)
Definition sub (l : list Z) (o n : Z) : cres (list Z) :=
  if (0 <=? o) && (0 <=? n) && (o + n <=? Z.of_nat (length l))
  then Ret (take (Z.to_nat n) (drop (Z.to_nat o) l)) else Fault.

Definition blit (l : list Z) (o : Z) (src : list Z) : cres (list Z) :=
  if (0 <=? o) && (o + Z.of_nat (length src) <=? Z.of_nat (length l))
  then Ret (take (Z.to_nat o) l ++ src ++ drop (Z.to_nat o + length src) l) else Fault.

Definition zeros (n : Z) : list Z := replicate (Z.to_nat n) 0.

(** A little-endian word and its bytes. *)
Fixpoint le_word (l : list Z) : Z := match l with [] => 0 | b :: l => b + 256 * le_word l end.

Fixpoint le_bytes (n : nat) (w : Z) : list Z :=
  match n with O => [] | S n => w mod 256 :: le_bytes n (w / 256) end.

(** [w[0] = f(w[0])] on a buffer of 64-bit words. *)
Definition on_dword0 (f : Z -> Z) (l : list Z) : cres (list Z) :=
  d ← sub l 0 8; blit l 0 (le_bytes 8 (f (le_word d))).

(** ** Pattern items *)

(** The item types the parser looks at. *)
Inductive item_type :=
  | T_END | T_VOID | T_ANY | T_MARK | T_RAW | T_HIGIG2 | T_ETH | T_VLAN | T_E_TAG | T_PPPOES | T_MPLS
  | T_IPV4 | T_IPV6 | T_IPV6_EXT | T_IPV6_FRAG_EXT | T_IPV6_ROUTING_EXT | T_ARP_ETH_IPV4
  | T_ICMP | T_UDP | T_IGMP | T_TCP | T_SCTP | T_GRE | T_GRE_KEY | T_NVGRE
  | T_VXLAN | T_GTPC | T_GTPU | T_GENEVE | T_VXLAN_GPE | T_ESP | T_OTHER.

#[global] Instance item_type_eq_dec : EqDecision item_type.
Proof. solve_decision. Defined.

Definition is_type (a b : item_type) : bool := bool_decide (a = b).

(** The sizes of the item structures of DPDK. *)
Definition sizeof_eth_hdr : Z := 14.
Definition sizeof_vlan_hdr : Z := 4.
Definition sizeof_ipv6_hdr : Z := 40.
Definition sizeof_item (t : item_type) : Z :=
  match t with
  | T_ETH => 20 | T_VLAN => 8 | T_E_TAG => 8 | T_PPPOES => 6 | T_MPLS => 4 | T_HIGIG2 => 16
  | T_IPV4 => 20 | T_IPV6 => 44 | T_IPV6_EXT => 1 | T_IPV6_FRAG_EXT => 8 | T_IPV6_ROUTING_EXT => 8
  | T_ARP_ETH_IPV4 => 28 | T_ICMP => 8 | T_UDP => 8 | T_IGMP => 8 | T_TCP => 20 | T_SCTP => 12
  | T_GRE => 4 | T_GRE_KEY => 4 | T_NVGRE => 8 | T_VXLAN => 8 | T_GTPC => 8 | T_GTPU => 8 | T_GENEVE => 8
  | T_VXLAN_GPE => 8 | T_ESP => 8
  | _ => 0
  end.

(** [struct rte_flow_item_raw] *)
Record flow_item_raw := {
  relative : bool;
  search : bool;
  raw_offset : Z;
  limit : Z;
  raw_length : Z;
  raw_pattern : option (list Z);
}.

(** What [spec] or [mask] points to: the bytes of an item structure, or a
    raw item. *)
Inductive item_data := Bytes (b : list Z) | Raw (r : flow_item_raw).

Definition as_bytes (d : item_data) : cres (list Z) := match d with Bytes b => Ret b | Raw _ => Fault end.
Definition as_raw (d : item_data) : cres flow_item_raw := match d with Raw r => Ret r | Bytes _ => Fault end.

(** [struct rte_flow_item]; of [last] only whether it is null matters. *)
Record flow_item := {
  i_type : item_type;
  i_spec : option item_data;
  i_last : bool;
  i_mask : option item_data;
}.

Definition end_item : flow_item := {| i_type := T_END; i_spec := None; i_last := false; i_mask := None |}.

(** A pointer into the array of items: the items from there on. The array is
    closed by an END item, which the empty list stands for. *)
Definition item_at (l : list flow_item) : flow_item := match l with it :: _ => it | [] => end_item end.
Definition type_at (l : list flow_item) : item_type := i_type (item_at l).
Definition advance (n : nat) (l : list flow_item) : cres (list flow_item) :=
  if (n <=? length l)%nat then Ret (drop n l) else Fault.

(** A bit of the bit-field behind the header of an item structure. *)
Definition has_bit (b : list Z) (o bit : Z) : cres bool := x ← cget b o; Ret (Z.testbit x bit).

(** ** The extraction profile *)

(** [struct profile_xtract_info] *)
Record xtract_info := {
  x_len : Z;
  hdr_off : Z;
  key_off : Z;
  enable : bool;
  flags_enable : bool;
  use_hash : bool;
}.

(** [struct flow_parser_tcam_kex]: the tables by interface, layer, layer type
    and extractor. *)
Record tcam_kex := {
  keyx_cfg : Z -> Z;
  kex_ld_flags : Z -> Z;
  intf_lid_lt_ld : Z -> Z -> Z -> Z -> Z;
  intf_ld_flags : Z -> Z -> Z -> Z;
}.

Definition KEX_LD_CFG (bytesm1 hdr_ofs ena flags_ena key_ofs : Z) : Z :=
  Z.lor (Z.lor (Z.lor (Z.lor (Z.shiftl bytesm1 16) (Z.shiftl hdr_ofs 8)) (Z.shiftl ena 7)) (Z.shiftl flags_ena 6))
    (Z.land key_ofs 0x3F).

(** [struct flow_parser]: what the parser reads of it. *)
Record flow_parser := {
  keyx_supp_nmask : Z -> Z;
  keyx_len : Z -> Z;
  switch_header_type : Z;
  prx_dxcfg : Z -> Z -> Z -> Z -> xtract_info;
  is_terminating : Z -> Z -> Z -> bool;
  prx_fxcfg : Z -> Z -> Z -> xtract_info;
  prx_lfcfg : Z -> Z;
}.

(** [while (supp_mask) { nib_count++; supp_mask &= (supp_mask - 1); }] *)
Fixpoint nib_count (fuel : nat) (supp_mask : Z) : Z :=
  match fuel with
  | O => 0
  | S fuel => if supp_mask =? 0 then 0 else 1 + nib_count fuel (Z.land supp_mask (supp_mask - 1))
  end.

Definition supp_key_len (supp_mask : Z) : Z := nib_count 32 supp_mask * 4.

Definition update_kex_info (val : Z) : xtract_info :=
  {| use_hash := Z.testbit val 20;
     x_len := Z.land (Z.shiftr val 16) 0xf + 1;
     hdr_off := Z.land (Z.shiftr val 8) 0xff;
     key_off := Z.land val 0x3f;
     enable := Z.testbit val 7;
     flags_enable := Z.testbit val 6 |}.

(** [flow_parser_init] and [process_profile_cfg]: the tables are decoded, the
    rest of the parser is zero. *)
Definition process_profile_cfg (prfl : tcam_kex) : flow_parser :=
  let nmask intf := Z.land (keyx_cfg prfl intf) 0x7fffffff in
  {| keyx_supp_nmask := nmask;
     keyx_len := fun intf => supp_key_len (nmask intf);
     switch_header_type := 0;
     prx_dxcfg := fun intf lid lt ld => update_kex_info (intf_lid_lt_ld prfl intf lid lt ld);
     is_terminating := fun _ _ _ => false;
     prx_fxcfg := fun intf ld fl => update_kex_info (intf_ld_flags prfl intf ld fl);
     prx_lfcfg := kex_ld_flags prfl |}.

Definition flow_parser_init (prfl : tcam_kex) : flow_parser := process_profile_cfg prfl.

(** ** Parse state *)

(** [struct parse_state], with the data the parsed flow takes from it: the
    key bytes, their mask, and the list of recognised layers. *)
Record parse_state := {
  pattern : list flow_item;
  last_pattern : list flow_item;
  nix_intf : Z;
  tunnel : bool;
  terminate : bool;
  layer_mask : Z;
  lt : list Z;
  flags : list Z;
  pst_data : list Z;
  pst_mask : list Z;
  set_vlan_ltype_mask : bool;
  set_ipv6ext_ltype_mask : bool;
  is_second_pass_rule : bool;
  has_eth_type : bool;
  dump_data : list (Z * Z);
  num_patterns : Z;
}.

Definition set_pattern (v0 : list flow_item) (s : parse_state) : parse_state :=
  {| pattern := v0; last_pattern := last_pattern s; nix_intf := nix_intf s; tunnel := tunnel s;
     terminate := terminate s; layer_mask := layer_mask s; lt := lt s; flags := flags s; pst_data := pst_data s;
     pst_mask := pst_mask s; set_vlan_ltype_mask := set_vlan_ltype_mask s;
     set_ipv6ext_ltype_mask := set_ipv6ext_ltype_mask s; is_second_pass_rule := is_second_pass_rule s;
     has_eth_type := has_eth_type s; dump_data := dump_data s; num_patterns := num_patterns s |}.

Definition set_last_pattern (v0 : list flow_item) (s : parse_state) : parse_state :=
  {| pattern := pattern s; last_pattern := v0; nix_intf := nix_intf s; tunnel := tunnel s; terminate := terminate s;
     layer_mask := layer_mask s; lt := lt s; flags := flags s; pst_data := pst_data s; pst_mask := pst_mask s;
     set_vlan_ltype_mask := set_vlan_ltype_mask s; set_ipv6ext_ltype_mask := set_ipv6ext_ltype_mask s;
     is_second_pass_rule := is_second_pass_rule s; has_eth_type := has_eth_type s; dump_data := dump_data s;
     num_patterns := num_patterns s |}.

Definition set_tunnel (v0 : bool) (s : parse_state) : parse_state :=
  {| pattern := pattern s; last_pattern := last_pattern s; nix_intf := nix_intf s; tunnel := v0;
     terminate := terminate s; layer_mask := layer_mask s; lt := lt s; flags := flags s; pst_data := pst_data s;
     pst_mask := pst_mask s; set_vlan_ltype_mask := set_vlan_ltype_mask s;
     set_ipv6ext_ltype_mask := set_ipv6ext_ltype_mask s; is_second_pass_rule := is_second_pass_rule s;
     has_eth_type := has_eth_type s; dump_data := dump_data s; num_patterns := num_patterns s |}.

Definition set_layer (v0 : bool) (v1 : Z) (v2 : list Z) (v3 : list Z) (s : parse_state) : parse_state :=
  {| pattern := pattern s; last_pattern := last_pattern s; nix_intf := nix_intf s; tunnel := tunnel s;
     terminate := v0; layer_mask := v1; lt := v2; flags := v3; pst_data := pst_data s; pst_mask := pst_mask s;
     set_vlan_ltype_mask := set_vlan_ltype_mask s; set_ipv6ext_ltype_mask := set_ipv6ext_ltype_mask s;
     is_second_pass_rule := is_second_pass_rule s; has_eth_type := has_eth_type s; dump_data := dump_data s;
     num_patterns := num_patterns s |}.

Definition set_lt (v0 : list Z) (s : parse_state) : parse_state :=
  {| pattern := pattern s; last_pattern := last_pattern s; nix_intf := nix_intf s; tunnel := tunnel s;
     terminate := terminate s; layer_mask := layer_mask s; lt := v0; flags := flags s; pst_data := pst_data s;
     pst_mask := pst_mask s; set_vlan_ltype_mask := set_vlan_ltype_mask s;
     set_ipv6ext_ltype_mask := set_ipv6ext_ltype_mask s; is_second_pass_rule := is_second_pass_rule s;
     has_eth_type := has_eth_type s; dump_data := dump_data s; num_patterns := num_patterns s |}.

Definition set_flags (v0 : list Z) (s : parse_state) : parse_state :=
  {| pattern := pattern s; last_pattern := last_pattern s; nix_intf := nix_intf s; tunnel := tunnel s;
     terminate := terminate s; layer_mask := layer_mask s; lt := lt s; flags := v0; pst_data := pst_data s;
     pst_mask := pst_mask s; set_vlan_ltype_mask := set_vlan_ltype_mask s;
     set_ipv6ext_ltype_mask := set_ipv6ext_ltype_mask s; is_second_pass_rule := is_second_pass_rule s;
     has_eth_type := has_eth_type s; dump_data := dump_data s; num_patterns := num_patterns s |}.

Definition set_data (v0 : list Z) (v1 : list Z) (s : parse_state) : parse_state :=
  {| pattern := pattern s; last_pattern := last_pattern s; nix_intf := nix_intf s; tunnel := tunnel s;
     terminate := terminate s; layer_mask := layer_mask s; lt := lt s; flags := flags s; pst_data := v0;
     pst_mask := v1; set_vlan_ltype_mask := set_vlan_ltype_mask s;
     set_ipv6ext_ltype_mask := set_ipv6ext_ltype_mask s; is_second_pass_rule := is_second_pass_rule s;
     has_eth_type := has_eth_type s; dump_data := dump_data s; num_patterns := num_patterns s |}.

Definition set_vlan_mask (v0 : bool) (s : parse_state) : parse_state :=
  {| pattern := pattern s; last_pattern := last_pattern s; nix_intf := nix_intf s; tunnel := tunnel s;
     terminate := terminate s; layer_mask := layer_mask s; lt := lt s; flags := flags s; pst_data := pst_data s;
     pst_mask := pst_mask s; set_vlan_ltype_mask := v0; set_ipv6ext_ltype_mask := set_ipv6ext_ltype_mask s;
     is_second_pass_rule := is_second_pass_rule s; has_eth_type := has_eth_type s; dump_data := dump_data s;
     num_patterns := num_patterns s |}.

Definition set_ip6_mask (v0 : bool) (s : parse_state) : parse_state :=
  {| pattern := pattern s; last_pattern := last_pattern s; nix_intf := nix_intf s; tunnel := tunnel s;
     terminate := terminate s; layer_mask := layer_mask s; lt := lt s; flags := flags s; pst_data := pst_data s;
     pst_mask := pst_mask s; set_vlan_ltype_mask := set_vlan_ltype_mask s; set_ipv6ext_ltype_mask := v0;
     is_second_pass_rule := is_second_pass_rule s; has_eth_type := has_eth_type s; dump_data := dump_data s;
     num_patterns := num_patterns s |}.

Definition set_second_pass (v0 : bool) (s : parse_state) : parse_state :=
  {| pattern := pattern s; last_pattern := last_pattern s; nix_intf := nix_intf s; tunnel := tunnel s;
     terminate := terminate s; layer_mask := layer_mask s; lt := lt s; flags := flags s; pst_data := pst_data s;
     pst_mask := pst_mask s; set_vlan_ltype_mask := set_vlan_ltype_mask s;
     set_ipv6ext_ltype_mask := set_ipv6ext_ltype_mask s; is_second_pass_rule := v0; has_eth_type := has_eth_type s;
     dump_data := dump_data s; num_patterns := num_patterns s |}.

Definition set_has_eth (v0 : bool) (s : parse_state) : parse_state :=
  {| pattern := pattern s; last_pattern := last_pattern s; nix_intf := nix_intf s; tunnel := tunnel s;
     terminate := terminate s; layer_mask := layer_mask s; lt := lt s; flags := flags s; pst_data := pst_data s;
     pst_mask := pst_mask s; set_vlan_ltype_mask := set_vlan_ltype_mask s;
     set_ipv6ext_ltype_mask := set_ipv6ext_ltype_mask s; is_second_pass_rule := is_second_pass_rule s;
     has_eth_type := v0; dump_data := dump_data s; num_patterns := num_patterns s |}.

Definition set_dump (v0 : list (Z * Z)) (v1 : Z) (s : parse_state) : parse_state :=
  {| pattern := pattern s; last_pattern := last_pattern s; nix_intf := nix_intf s; tunnel := tunnel s;
     terminate := terminate s; layer_mask := layer_mask s; lt := lt s; flags := flags s; pst_data := pst_data s;
     pst_mask := pst_mask s; set_vlan_ltype_mask := set_vlan_ltype_mask s;
     set_ipv6ext_ltype_mask := set_ipv6ext_ltype_mask s; is_second_pass_rule := is_second_pass_rule s;
     has_eth_type := has_eth_type s; dump_data := v0; num_patterns := v1 |}.

(** ** Errors

    A parse function returns 0, with the new state, or an error code. *)
Definition pbind {A B} (m : cres (Z + A)) (f : A -> cres (Z + B)) : cres (Z + B) :=
  match m with
  | Ret (inl e) => Ret (inl e)
  | Ret (inr a) => f a
  | Panic => Panic
  | Fault => Fault
  end.

Declare Scope parse_scope.
Notation "x ←? m ; k" := (pbind m (fun x => k)) (at level 20, m at level 100, k at level 200, right associativity) : parse_scope.
Notation "' x ←? m ; k" := (pbind m (fun x => k))
  (at level 20, x pattern, m at level 100, k at level 200, right associativity) : parse_scope.
Open Scope parse_scope.

Definition perr {A} (e : Z) : cres (Z + A) := Ret (inl e).
Definition pret {A} (a : A) : cres (Z + A) := Ret (inr a).

(** ** Items *)

(** [struct parse_item_info]; null pointers are [None]. *)
Record parse_item_info := {
  def_mask : option (list Z);
  hw_mask : option (list Z);
  len : Z;
  spec : option (list Z);
  mask : option (list Z);
  hw_hdr_len : Z;
}.

Definition prep_tcam_ldata (data : list Z) : list Z := reverse data.

Definition check_copysz (size len : Z) : Z := if len <=? size then len else PARSE_ERR_PARAM.

Fixpoint mem_is_zero (m : list Z) (i : Z) (n : nat) : cres bool :=
  match n with
  | O => Ret true
  | S n => x ← cget m i; if negb (x =? 0) then Ret false else mem_is_zero m (i + 1) n
  end.

(** The bytes of an item that an extractor covers are set to 0xff. *)
Definition set_hw_mask (info_len hw_hdr : Z) (x : xtract_info) (hw : list Z) : list Z :=
  if negb (enable x) then hw
  else if hdr_off x <? hw_hdr then hw
  else
    let max_off := Z.min (hdr_off x + x_len x - hw_hdr) info_len in
    let offset := hdr_off x - hw_hdr in
    imap (fun j b => if (offset <=? Z.of_nat j) && (Z.of_nat j <? max_off) then 0xff else b) hw.

(** [hw_supp_mask]: the buffer [hw_mask], of which the first [info->len]
    bytes are written. *)
Definition hw_supp_mask (parser : flow_parser) (intf info_len hw_hdr lid ltype : Z) : list Z :=
  let xinfo := prx_dxcfg parser intf lid ltype in
  let hw := foldl (fun hw i => set_hw_mask info_len hw_hdr (xinfo i) hw) (zeros info_len) (seqZ 0 PROFILE_MAX_LD) in
  foldl (fun hw i =>
      if negb (flags_enable (xinfo i)) then hw
      else if prx_lfcfg parser i =? lid
      then foldl (fun hw j => set_hw_mask info_len hw_hdr (prx_fxcfg parser intf i j) hw) hw (seqZ 0 PROFILE_MAX_LFL)
      else hw) hw (seqZ 0 PROFILE_MAX_LD).

Definition mask_is_supported (m : list Z) (hw : option (list Z)) (n : Z) : cres bool :=
  match hw with
  | None => mem_is_zero m 0 (Z.to_nat n)
  | Some hw =>
      m ← sub m 0 n; hw ← sub hw 0 n;
      Ret (forallb (fun p => Z.lor p.1 p.2 =? p.2) (zip m hw))
  end.

(** [parse_item_basic]: the spec and the mask to use. *)
Definition parse_item_basic (item : flow_item) (info : parse_item_info) : cres (Z + parse_item_info) :=
  if i_last item then perr PARSE_ERR_INVALID_RANGE
  else match i_spec item with
  | None =>
      match i_mask item with
      | None => pret {| def_mask := def_mask info; hw_mask := hw_mask info; len := len info; spec := None;
                        mask := mask info; hw_hdr_len := hw_hdr_len info |}
      | Some _ => perr PARSE_ERR_INVALID_SPEC
      end
  | Some sp =>
      sp ← (if is_type (i_type item) T_RAW then Ret (spec info) else b ← as_bytes sp; Ret (Some b));
      om ← match i_mask item with
           | None => Ret (option_map Some (def_mask info))
           | Some m =>
               if is_type (i_type item) T_RAW then Ret (Some (mask info)) else b ← as_bytes m; Ret (Some (Some b))
           end;
      match om with
      | None => perr PARSE_ERR_PARAM
      | Some None => perr PARSE_ERR_INVALID_MASK
      | Some (Some m) =>
          ok ← mask_is_supported m (hw_mask info) (len info);
          if negb ok then perr PARSE_ERR_INVALID_MASK
          else pret {| def_mask := def_mask info; hw_mask := hw_mask info; len := len info; spec := sp;
                       mask := Some m; hw_hdr_len := hw_hdr_len info |}
      end
  end.

(** A buffer behind a pointer that must not be null. *)
Definition deref {A} (o : option A) : cres A := match o with Some a => Ret a | None => Fault end.

(** [update_extraction_data]: the bytes an extractor takes from the item go
    to the key, reversed. *)
Definition update_extraction_data (info : parse_item_info) (x : xtract_info) (pst : parse_state)
  : cres (Z + parse_state) :=
  if PROFILE_MAX_EXTRACT_DATA_LEN <? x_len x then perr PARSE_ERR_INVALID_SIZE
  else if hdr_off x <? hw_hdr_len info then pret pst
  else if negb (enable x) then pret pst
  else
    let off := hdr_off x - hw_hdr_len info in
    if len info <=? off then pret pst
    else
      let n := if len info <? off + x_len x then len info - off else x_len x in
      let n := check_copysz (u64 (FLOW_PARSER_MAX_MCAM_WIDTH_DWORDS * 8 - key_off x)) n in
      if n <? 0 then perr PARSE_ERR_INVALID_SIZE
      else
        sp ← deref (spec info); m ← deref (mask info);
        sp ← sub sp off (x_len x); m ← sub m off (x_len x);
        d1 ← blit (pst_mask pst) (key_off x) (take (Z.to_nat n) (prep_tcam_ldata m));
        d0 ← blit (pst_data pst) (key_off x) (take (Z.to_nat n) (prep_tcam_ldata sp));
        pret (set_data d0 d1 pst).

(** The loop over the extractors of a layer type. *)
Fixpoint extract_all (info : parse_item_info) (xs : list xtract_info) (pst : parse_state) : cres (Z + parse_state) :=
  match xs with
  | [] => pret pst
  | x :: xs =>
      pst ←? (if use_hash x then pret pst else update_extraction_data info x pst);
      extract_all info xs pst
  end.

(** The loop over the flag extractors; the last enabled one gives the flags of
    the layer. *)
Fixpoint extract_flags (info : parse_item_info) (lid : Z) (js : list (Z * xtract_info)) (pst : parse_state)
  : cres (Z + parse_state) :=
  match js with
  | [] => pret pst
  | (j, x) :: js =>
      pst ←? update_extraction_data info x pst;
      fl ← (if enable x then cset (flags pst) lid j else Ret (flags pst));
      extract_flags info lid js (set_flags fl pst)
  end.

(** The loop over the extractors with flags. *)
Fixpoint extract_flags_all (parser : flow_parser) (info : parse_item_info) (lid ltype : Z) (ids : list Z)
    (pst : parse_state) : cres (Z + parse_state) :=
  match ids with
  | [] => pret pst
  | i :: ids =>
      let x := prx_dxcfg parser (nix_intf pst) lid ltype i in
      pst ←? (if negb (flags_enable x) then pret pst
              else if use_hash x then pret pst
              else if prx_lfcfg parser i =? lid
              then extract_flags info lid
                     ((fun j => (j, prx_fxcfg parser (nix_intf pst) i j)) <$> seqZ 0 PROFILE_MAX_LFL) pst
              else pret pst);
      extract_flags_all parser info lid ltype ids pst
  end.

(** [update_parse_state]: the item at the pattern pointer is taken as layer
    [lid] of type [ltype]. *)
Definition update_parse_state (parser : flow_parser) (info : parse_item_info) (lid ltype fl : Z) (pst : parse_state)
  : cres (Z + parse_state) :=
  lts ← cset (lt pst) lid ltype;
  fls ← cset (flags pst) lid (u8 fl);
  let intf := nix_intf pst in
  let pst := set_layer (terminate pst || is_terminating parser intf lid ltype) (u8 (Z.lor (layer_mask pst) lid)) lts fls pst in
  pst ←? match spec info with
         | None => pret pst
         | Some _ =>
             pst ←? extract_all info (prx_dxcfg parser intf lid ltype <$> seqZ 0 PROFILE_MAX_LD) pst;
             extract_flags_all parser info lid ltype (seqZ 0 PROFILE_MAX_LD) pst
         end;
  dump ← cset (dump_data pst) (num_patterns pst) (lid, ltype);
  rest ← advance 1 (pattern pst);
  pret (set_pattern rest (set_dump dump (u16 (num_patterns pst + 1)) pst)).

Fixpoint parse_skip_void_and_any_items (l : list flow_item) : list flow_item :=
  match l with
  | it :: l' => if is_type (i_type it) T_VOID || is_type (i_type it) T_ANY then parse_skip_void_and_any_items l' else l
  | [] => []
  end.

(** ** The stages *)

Section stages.
Context (parser : flow_parser).
Implicit Types pst : parse_state.

Definition parse_meta_items pst : cres (Z + parse_state) := pret pst.

Definition parse_mark_item pst : cres (Z + parse_state) :=
  if is_type (type_at (pattern pst)) T_MARK then
    if negb (nix_intf pst =? NIX_INTF_RX) then perr (- EINVAL)
    else rest ← advance 1 (pattern pst); pret (set_pattern rest (set_second_pass true pst))
  else pret pst.

(** [flow_raw_item_prepare]: spec and mask buffers. *)
Definition flow_raw_item_prepare (raw_spec : flow_item_raw) (raw_mask : option flow_item_raw) : cres (list Z * list Z) :=
  p ← (if raw_length raw_spec =? 0 then Ret [] else b ← deref (raw_pattern raw_spec); sub b 0 (raw_length raw_spec));
  spec_buf ← blit (zeros PARSER_MAX_RAW_ITEM_LEN) (raw_offset raw_spec) p;
  m ← match raw_mask ≫= raw_pattern with
      | Some b => sub b 0 (raw_length raw_spec)
      | None => Ret (replicate (Z.to_nat (raw_length raw_spec)) 0xFF)
      end;
  mask_buf ← blit (zeros PARSER_MAX_RAW_ITEM_LEN) (raw_offset raw_spec) m;
  Ret (spec_buf, mask_buf).

(** The raw item at the pattern pointer. *)
Definition raw_at pst : cres flow_item_raw := d ← deref (i_spec (item_at (pattern pst))); as_raw d.

Definition raw_mask_at pst : cres (option flow_item_raw) :=
  match i_mask (item_at (pattern pst)) with None => Ret None | Some d => r ← as_raw d; Ret (Some r) end.

(** The information for an item before its spec is known: no default mask,
    the mask the profile supports. *)
Definition item_info pst (n hw_hdr lid ltype : Z) : parse_item_info :=
  {| def_mask := None; hw_mask := Some (hw_supp_mask parser (nix_intf pst) n hw_hdr lid ltype); len := n;
     spec := None; mask := None; hw_hdr_len := hw_hdr |}.

Definition raw_info pst (bufs : list Z * list Z) (hw_hdr lid ltype : Z) : parse_item_info :=
  {| def_mask := None; hw_mask := Some (hw_supp_mask parser (nix_intf pst) PARSER_MAX_RAW_ITEM_LEN hw_hdr lid ltype);
     len := PARSER_MAX_RAW_ITEM_LEN; spec := Some bufs.1; mask := Some bufs.2; hw_hdr_len := hw_hdr |}.

(** [parse_item_basic] on the item at the pattern pointer, then
    [update_parse_state]: how most stages end. *)
Definition take_item (info : parse_item_info) (lid ltype fl : Z) pst : cres (Z + parse_state) :=
  info ←? parse_item_basic (item_at (pattern pst)) info;
  update_parse_state parser info lid ltype fl pst.

Definition parse_pre_l2 pst : cres (Z + parse_state) :=
  if negb (switch_header_type parser =? PARSER_PRIV_FLAGS_PRE_L2) then pret pst
  else if negb (is_type (type_at (pattern pst)) T_RAW) then pret pst
  else
    r ← raw_at pst;
    if PARSER_MAX_RAW_ITEM_LEN <? raw_length r + raw_offset r then perr (- EINVAL)
    else if negb (relative r) || search r || negb (limit r =? 0) || (raw_offset r <? 0) then perr (- EINVAL)
    else
      rm ← raw_mask_at pst;
      bufs ← flow_raw_item_prepare r rm;
      take_item (raw_info pst bufs 0 PROFILE_LID_LA PROFILE_LT_LA_CUSTOM_PRE_L2_ETHER)
        PROFILE_LID_LA PROFILE_LT_LA_CUSTOM_PRE_L2_ETHER 0 pst.

Definition parse_higig2_hdr pst : cres (Z + parse_state) :=
  if negb (is_type (type_at (pattern pst)) T_HIGIG2) then pret pst
  else
    let '(ltype, hw) := if nix_intf pst =? NIX_INTF_TX then (PROFILE_LT_LA_IH_NIX_HIGIG2_ETHER, IH_LENGTH)
                        else (PROFILE_LT_LA_HIGIG2_ETHER, 0) in
    take_item (item_info pst (sizeof_item T_HIGIG2) hw PROFILE_LID_LA ltype) PROFILE_LID_LA ltype 0 pst.

(** [eth_item && eth_item->has_vlan]: the bit field lies behind the 14 bytes
    of the header. *)
Definition eth_has_vlan (it : flow_item) : cres bool :=
  match i_spec it with None => Ret false | Some d => b ← as_bytes d; has_bit b 14 0 end.

Definition parse_la pst : cres (Z + parse_state) :=
  if negb (is_type (type_at (pattern pst)) T_ETH) then pret pst
  else
    let eth_item := item_at (pattern pst) in
    let pst := set_has_eth true pst in
    let '(ltype, hw) :=
      if nix_intf pst =? NIX_INTF_TX then
        if switch_header_type parser =? PARSER_PRIV_FLAGS_HIGIG
        then (PROFILE_LT_LA_IH_NIX_HIGIG2_ETHER, IH_LENGTH + HIGIG2_LENGTH) else (PROFILE_LT_LA_IH_NIX_ETHER, IH_LENGTH)
      else if switch_header_type parser =? PARSER_PRIV_FLAGS_HIGIG then (PROFILE_LT_LA_HIGIG2_ETHER, HIGIG2_LENGTH)
      else (PROFILE_LT_LA_ETHER, 0) in
    pst ←? take_item (item_info pst sizeof_eth_hdr hw PROFILE_LID_LA ltype) PROFILE_LID_LA ltype 0 pst;
    v ← eth_has_vlan eth_item;
    pret (if v : bool then set_vlan_mask true pst else pst).

Definition MAX_SUPPORTED_VLANS : Z := 3.

(** [parse_vlan_count]: the pointers to the VLAN items. *)
Fixpoint parse_vlan_count (fuel : nat) (l : list flow_item) (vlan_count : Z) : cres (Z + list (list flow_item)) :=
  if is_type (type_at l) T_VLAN then
    if MAX_SUPPORTED_VLANS - 1 <? vlan_count then perr PARSE_ERR_PATTERN_NOTSUP
    else if i_last (item_at l) then perr PARSE_ERR_INVALID_RANGE
    else match fuel with
    | O => Fault
    | S fuel =>
        rest ← advance 1 l;
        ps ←? parse_vlan_count fuel (parse_skip_void_and_any_items rest) (vlan_count + 1);
        pret (l :: ps)
    end
  else pret [].

(** [vlan_item[i] && vlan_item[i]->has_more_vlan] *)
Definition has_more_vlan (ps : list (list flow_item)) (i : nat) : cres bool :=
  l ← deref (ps !! i);
  match i_spec (item_at l) with None => Ret false | Some d => b ← as_bytes d; has_bit b 4 0 end.

Definition lb_flags_supported (intf : Z) : bool :=
  negb (Z.land (keyx_supp_nmask parser intf) (Z.shiftl 0x3 PROFILE_LFLAG_LB_OFFSET) =? 0).

(** [parse_vlan_ltype_get]: the layer type and the flags. *)
Definition parse_vlan_ltype_get (intf : Z) (ps : list (list flow_item)) : cres (Z + Z * Z) :=
  match length ps with
  | 1%nat => more ← has_more_vlan ps 0; pret (if more : bool then PROFILE_LT_LB_STAG_QINQ else PROFILE_LT_LB_CTAG, 0)
  | 2%nat =>
      more ← has_more_vlan ps 1;
      if more : bool then
        if negb (lb_flags_supported intf) then perr PARSE_ERR_PATTERN_NOTSUP
        else pret (PROFILE_LT_LB_STAG_QINQ,
                   Z.land (Z.land PROFILE_F_LB_L_WITH_QINQ_CTAG PROFILE_F_LB_L_WITH_QINQ_QINQ) PROFILE_F_LB_L_WITH_STAG_STAG)
      else pret (PROFILE_LT_LB_STAG_QINQ, 0)
  | 3%nat =>
      more ← has_more_vlan ps 2;
      if more : bool then perr PARSE_ERR_PATTERN_NOTSUP
      else if negb (lb_flags_supported intf) then perr PARSE_ERR_PATTERN_NOTSUP
      else pret (PROFILE_LT_LB_STAG_QINQ, PROFILE_F_STAG_STAG_CTAG)
  | _ => perr PARSE_ERR_PATTERN_NOTSUP
  end.

(** [if (p) memcpy(buf + o, p, n)] *)
Definition copy_opt (buf : list Z) (o : Z) (d : option item_data) (n : Z) : cres (list Z) :=
  match d with None => Ret buf | Some d => b ← as_bytes d; s ← sub b 0 n; blit buf o s end.

(** The headers of the first VLAN items, one behind the other. *)
Fixpoint vlan_bufs (l : list flow_item) (vlan_count : nat) (offset : Z) (bufs : list Z * list Z) : cres (list Z * list Z) :=
  match vlan_count with
  | O => Ret bufs
  | S n =>
      s ← copy_opt bufs.1 offset (i_spec (item_at l)) sizeof_vlan_hdr;
      m ← copy_opt bufs.2 offset (i_mask (item_at l)) sizeof_vlan_hdr;
      vlan_bufs (tail l) n (offset + 4) (s, m)
  end.

Definition update_vlan_parse_state (pat : list flow_item) (ltype lflags : Z) (vlan_count : nat) pst : cres (Z + parse_state) :=
  '(vlan_spec, vlan_mask) ← vlan_bufs pat (vlan_count `min` 2)%nat TPID_LENGTH (zeros 12, zeros 12);
  let n := if ltype =? PROFILE_LT_LB_CTAG then sizeof_vlan_hdr + TPID_LENGTH
           else if ltype =? PROFILE_LT_LB_STAG_QINQ then sizeof_vlan_hdr * 2 + TPID_LENGTH else 0 in
  let hw := hw_supp_mask parser (nix_intf pst) n 0 PROFILE_LID_LB ltype in
  ok ← mask_is_supported vlan_mask (Some hw) n;
  if negb ok then perr PARSE_ERR_INVALID_MASK
  else update_parse_state parser {| def_mask := None; hw_mask := Some hw; len := n; spec := Some vlan_spec;
         mask := Some vlan_mask; hw_hdr_len := 0 |} PROFILE_LID_LB ltype lflags (set_pattern pat pst).

Definition parse_lb_vlan pst : cres (Z + parse_state) :=
  ps ←? parse_vlan_count (length (pattern pst)) (pattern pst) 0;
  '(ltype, lflags) ←? parse_vlan_ltype_get (nix_intf pst) ps;
  let vlan_count := length ps in
  let matched := match ps !! 2%nat with
                 | Some l => bool_decide (is_Some (i_spec (item_at l))) && bool_decide (is_Some (i_mask (item_at l))) && i_last (item_at l)
                 | None => false
                 end in
  if (vlan_count =? 3)%nat && matched then perr PARSE_ERR_PATTERN_NOTSUP
  else
    first ← deref (ps !! 0%nat);
    let last := pattern pst in
    pst ←? update_vlan_parse_state first ltype lflags (vlan_count `min` 2)%nat pst;
    if (1 <? vlan_count)%nat then rest ← advance vlan_count last; pret (set_pattern rest pst) else pret pst.

Definition parse_lb pst : cres (Z + parse_state) :=
  let lid := PROFILE_LID_LB in
  match type_at (pattern pst) with
  | T_VLAN => parse_lb_vlan pst
  | T_E_TAG =>
      rest ← advance 1 (pattern pst);
      let next := parse_skip_void_and_any_items rest in
      '(lflags, last) ←?
        (if is_type (type_at next) T_VLAN then
           _ ←? parse_item_basic (item_at next)
                  {| def_mask := None; hw_mask := None; len := sizeof_item T_VLAN; spec := None; mask := None;
                     hw_hdr_len := TPID_LENGTH |};
           pret (PROFILE_F_ETAG_CTAG, next)
         else pret (0, pattern pst));
      info ←? parse_item_basic (item_at (pattern pst)) (item_info pst (sizeof_item T_E_TAG) TPID_LENGTH lid PROFILE_LT_LB_ETAG);
      update_parse_state parser info lid PROFILE_LT_LB_ETAG lflags (set_pattern last pst)
  | T_PPPOES => take_item (item_info pst (sizeof_item T_PPPOES) 2 lid PROFILE_LT_LB_PPPOE) lid PROFILE_LT_LB_PPPOE 0 pst
  | T_RAW =>
      r ← raw_at pst;
      if relative r then pret pst
      else if PARSER_MAX_RAW_ITEM_LEN <? raw_length r + raw_offset r then perr (- EINVAL)
      else if (switch_header_type parser =? PARSER_PRIV_FLAGS_VLAN_EXDSA) || (switch_header_type parser =? PARSER_PRIV_FLAGS_EXDSA) then
        let ltype := if switch_header_type parser =? PARSER_PRIV_FLAGS_VLAN_EXDSA then PROFILE_LT_LB_VLAN_EXDSA
                     else PROFILE_LT_LB_EXDSA in
        rm ← raw_mask_at pst;
        bufs ← flow_raw_item_prepare r rm;
        take_item (raw_info pst bufs 0 lid ltype) lid ltype 0 pst
      else perr (- EINVAL)
  | _ => pret pst
  end.

(** [while (pattern->type == RTE_FLOW_ITEM_TYPE_MPLS)] of
    [parse_mpls_label_stack]: the number of labels and the pointer to the
    last one. The labels behind the first must not match anything. *)
Fixpoint mpls_labels (fuel : nat) (l last : list flow_item) (nr_labels : Z) : cres (Z + Z * list flow_item) :=
  if is_type (type_at l) T_MPLS then
    match fuel with
    | O => Fault
    | S fuel =>
        _ ←? (if 1 <? nr_labels + 1
              then parse_item_basic (item_at l) {| def_mask := None; hw_mask := None; len := sizeof_item T_MPLS;
                     spec := None; mask := None; hw_hdr_len := 0 |}
              else pret {| def_mask := None; hw_mask := None; len := sizeof_item T_MPLS; spec := None; mask := None;
                           hw_hdr_len := 0 |});
        rest ← advance 1 l;
        mpls_labels fuel (parse_skip_void_and_any_items rest) l (nr_labels + 1)
    end
  else pret (nr_labels, last).

Definition parse_mpls_label_stack pst : cres (Z + Z * parse_state) :=
  '(nr_labels, last) ←? mpls_labels (length (pattern pst)) (pattern pst) (last_pattern pst) 0;
  if (nr_labels <? 1) || (4 <? nr_labels) then perr PARSE_ERR_PATTERN_NOTSUP
  else
    flag ← cget [0; PROFILE_F_MPLS_2_LABELS; PROFILE_F_MPLS_3_LABELS; PROFILE_F_MPLS_4_LABELS] (nr_labels - 1);
    pret (flag, set_last_pattern last pst).

Definition parse_mpls (lid : Z) pst : cres (Z + parse_state) :=
  let ltype := if lid =? PROFILE_LID_LC then PROFILE_LT_LC_MPLS
               else if lid =? PROFILE_LID_LD then PROFILE_LT_LD_TU_MPLS_IN_IP else PROFILE_LT_LE_TU_MPLS_IN_UDP in
  info ←? parse_item_basic (item_at (pattern pst)) (item_info pst (sizeof_item T_MPLS) 0 lid ltype);
  '(lflags, pst) ←? parse_mpls_label_stack pst;
  update_parse_state parser info lid ltype lflags (set_pattern (last_pattern pst) (set_tunnel true pst)).

Definition check_lc_ip_tunnel pst : cres parse_state :=
  rest ← advance 1 (pattern pst);
  Ret (match type_at (parse_skip_void_and_any_items rest) with
       | T_MPLS | T_IPV4 | T_IPV6 => set_tunnel true pst
       | _ => pst
       end).

(** [handle_ipv6ext_attr]: at most one extension header. The bits follow the
    40 bytes of the header: hop, route, frag, auth, esp, dest, mobil, hip and
    shim6. *)
Definition handle_ipv6ext_attr (ipv6_spec : list Z) (fl : Z) pst : cres (Z + Z * parse_state) :=
  hop ← has_bit ipv6_spec 40 0; route ← has_bit ipv6_spec 40 1; frag ← has_bit ipv6_spec 40 2;
  auth ← has_bit ipv6_spec 40 3; esp ← has_bit ipv6_spec 40 4; dest ← has_bit ipv6_spec 40 5;
  mobil ← has_bit ipv6_spec 40 6; hip ← has_bit ipv6_spec 40 7; shim6 ← has_bit ipv6_spec 41 0;
  let fl := if hop : bool then PROFILE_F_LC_L_EXT_HOP else fl in
  let fl := if route : bool then PROFILE_F_LC_L_EXT_ROUT else fl in
  let fl := if frag : bool then PROFILE_F_LC_U_IP6_FRAG else fl in
  let fl := if dest : bool then PROFILE_F_LC_L_EXT_DEST else fl in
  let fl := if mobil : bool then PROFILE_F_LC_L_EXT_MOBILITY else fl in
  let fl := if hip : bool then PROFILE_F_LC_L_EXT_HOSTID else fl in
  let fl := if shim6 : bool then PROFILE_F_LC_L_EXT_SHIM6 else fl in
  lts ← (if auth : bool then cset (lt pst) PROFILE_LID_LD PROFILE_LT_LD_AH else Ret (lt pst));
  lts ← (if esp : bool then cset lts PROFILE_LID_LE PROFILE_LT_LE_ESP else Ret lts);
  let pst := set_lt lts pst in
  let flags_count := b2z hop + b2z route + b2z frag + b2z dest + b2z mobil + b2z hip + b2z shim6 + b2z auth + b2z esp in
  if 1 <? flags_count then perr (- EINVAL)
  else pret (fl, if negb (flags_count =? 0) then set_ip6_mask true pst else pst).

(** What [process_ipv6_item] collects. *)
Record ipv6_scan := {
  v6_count : Z;
  v6_ltype : Z;
  v6_len : Z;
  v6_flags : Z;
  v6_buf : list Z;
  v6_mask : list Z;
}.

(** The loop of [process_ipv6_item]: the first extension item, if there is
    one, is appended to the header. *)
Fixpoint ipv6_ext_scan (fuel : nat) (l : list flow_item) (v : ipv6_scan) : cres (Z + ipv6_scan) :=
  if is_type (type_at l) T_END then pret v
  else if i_last (item_at l) then perr PARSE_ERR_INVALID_RANGE
  else
    let ext (n fl : Z) :=
      b ← copy_opt (v6_buf v) sizeof_ipv6_hdr (i_spec (item_at l)) n;
      m ← copy_opt (v6_mask v) sizeof_ipv6_hdr (i_mask (item_at l)) n;
      pret {| v6_count := v6_count v + 1; v6_ltype := PROFILE_LT_LC_IP6_EXT; v6_len := sizeof_ipv6_hdr + n;
              v6_flags := fl; v6_buf := b; v6_mask := m |} in
    match type_at l with
    | T_IPV6_EXT => ext (sizeof_item T_IPV6_FRAG_EXT) (v6_flags v)
    | T_IPV6_FRAG_EXT => ext 8 PROFILE_F_LC_U_IP6_FRAG
    | T_IPV6_ROUTING_EXT => ext (sizeof_item T_IPV6_ROUTING_EXT) (v6_flags v)
    | _ =>
        match fuel with
        | O => Fault
        | S fuel => rest ← advance 1 l; ipv6_ext_scan fuel (parse_skip_void_and_any_items rest) v
        end
    end.

Definition process_ipv6_item pst : cres (Z + parse_state) :=
  let it := item_at (pattern pst) in
  let pst := set_ip6_mask true pst in
  let buf := zeros (2 * sizeof_ipv6_hdr) in
  '(v, pst) ←?
    (if is_type (i_type it) T_IPV6 then
       '(b, fl, pst) ←? match i_spec it with
                        | None => pret (buf, 0, pst)
                        | Some d =>
                            sp ← as_bytes d; h ← sub sp 0 sizeof_ipv6_hdr; b ← blit buf 0 h;
                            '(fl, pst) ←? handle_ipv6ext_attr sp 0 pst;
                            pret (b, fl, pst)
                        end;
       m ← copy_opt buf 0 (i_mask it) sizeof_ipv6_hdr;
       pret ({| v6_count := 1; v6_ltype := PROFILE_LT_LC_IP6; v6_len := sizeof_ipv6_hdr; v6_flags := fl;
                v6_buf := b; v6_mask := m |}, pst)
     else pret ({| v6_count := 0; v6_ltype := PROFILE_LT_LC_IP6; v6_len := sizeof_ipv6_hdr; v6_flags := 0;
                   v6_buf := buf; v6_mask := buf |}, pst));
  v ←? ipv6_ext_scan (length (pattern pst)) (pattern pst) v;
  let hw := hw_supp_mask parser (nix_intf pst) (v6_len v) 0 PROFILE_LID_LC (v6_ltype v) in
  ok ← mask_is_supported (v6_mask v) (Some hw) (v6_len v);
  if negb ok then perr PARSE_ERR_INVALID_MASK
  else
    pst ←? update_parse_state parser {| def_mask := None; hw_mask := Some hw; len := v6_len v; spec := Some (v6_buf v);
             mask := Some (v6_mask v); hw_hdr_len := 0 |} PROFILE_LID_LC (v6_ltype v) (v6_flags v) pst;
    if v6_count v =? 2 then rest ← advance 1 (pattern pst); pret (set_pattern rest pst) else pret pst.

Definition parse_lc pst : cres (Z + parse_state) :=
  let lid := PROFILE_LID_LC in
  let go t ltype := pst ← check_lc_ip_tunnel pst; take_item (item_info pst (sizeof_item t) 0 lid ltype) lid ltype 0 pst in
  match type_at (pattern pst) with
  | T_MPLS => parse_mpls lid pst
  | T_IPV4 => go T_IPV4 PROFILE_LT_LC_IP
  | T_IPV6 | T_IPV6_EXT | T_IPV6_FRAG_EXT | T_IPV6_ROUTING_EXT => process_ipv6_item pst
  | T_ARP_ETH_IPV4 => go T_ARP_ETH_IPV4 PROFILE_LT_LC_ARP
  | T_RAW =>
      r ← raw_at pst;
      if negb (relative r) then pret pst
      else if PARSER_MAX_RAW_ITEM_LEN <? raw_length r + raw_offset r then perr (- EINVAL)
      else
        rm ← raw_mask_at pst;
        bufs ← flow_raw_item_prepare r rm;
        pst ← check_lc_ip_tunnel pst;
        take_item (raw_info pst bufs 0 lid PROFILE_LT_LC_NGIO) lid PROFILE_LT_LC_NGIO 0 pst
  | _ => pret pst
  end.

Definition parse_ld pst : cres (Z + parse_state) :=
  let lid := PROFILE_LID_LD in
  if tunnel pst then
    if is_type (type_at (pattern pst)) T_MPLS then parse_mpls lid pst else pret pst
  else
    let go n hw ltype fl pst := take_item (item_info pst n hw lid ltype) lid ltype fl pst in
    match type_at (pattern pst) with
    | T_ICMP =>
        lc ← cget (lt pst) PROFILE_LID_LC;
        go (sizeof_item T_ICMP) 0 (if lc =? PROFILE_LT_LC_IP6 then PROFILE_LT_LD_ICMP6 else PROFILE_LT_LD_ICMP) 0 pst
    | T_UDP => go (sizeof_item T_UDP) 0 PROFILE_LT_LD_UDP 0 pst
    | T_IGMP => go (sizeof_item T_IGMP) 0 PROFILE_LT_LD_IGMP 0 pst
    | T_TCP => go (sizeof_item T_TCP) 0 PROFILE_LT_LD_TCP 0 pst
    | T_SCTP => go (sizeof_item T_SCTP) 0 PROFILE_LT_LD_SCTP 0 pst
    | T_GRE => go (sizeof_item T_GRE) 0 PROFILE_LT_LD_GRE 0 (set_tunnel true pst)
    | T_GRE_KEY => go 4 4 PROFILE_LT_LD_GRE 0 (set_tunnel true pst)
    | T_NVGRE => go (sizeof_item T_NVGRE) 0 PROFILE_LT_LD_NVGRE PROFILE_F_GRE_NVGRE (set_tunnel true pst)
    | _ => pret pst
    end.

Definition parse_le pst : cres (Z + parse_state) :=
  let lid := PROFILE_LID_LE in
  if tunnel pst then pret pst
  else if is_type (type_at (pattern pst)) T_MPLS then parse_mpls lid pst
  else
    _ ←? parse_item_basic (item_at (pattern pst))
           {| def_mask := None; hw_mask := None; len := 0; spec := None; mask := None; hw_hdr_len := 0 |};
    let l := parse_skip_void_and_any_items (pattern pst) in
    let go t ltype fl :=
      let pst := set_tunnel true pst in
      info ←? parse_item_basic (item_at l) (item_info pst (sizeof_item t) 0 lid ltype);
      update_parse_state parser info lid ltype fl pst in
    match type_at l with
    | T_VXLAN => go T_VXLAN PROFILE_LT_LE_VXLAN PROFILE_F_UDP_VXLAN
    | T_GTPC => go T_GTPC PROFILE_LT_LE_GTPC PROFILE_F_UDP_GTP_GTPC
    | T_GTPU => go T_GTPU PROFILE_LT_LE_GTPU PROFILE_F_UDP_GTP_GTPU_G_PDU
    | T_GENEVE => go T_GENEVE PROFILE_LT_LE_GENEVE PROFILE_F_UDP_GENEVE
    | T_VXLAN_GPE => go T_VXLAN_GPE PROFILE_LT_LE_VXLANGPE PROFILE_F_UDP_VXLANGPE
    | T_ESP => go T_ESP PROFILE_LT_LE_ESP 0
    | _ => pret pst
    end.

(** The VLAN items behind the inner Ethernet item: how many, and the pointer
    to the last item. *)
Fixpoint inner_vlans (fuel : nat) (l last : list flow_item) (nr_vlans : Z) : cres (Z * list flow_item) :=
  if is_type (type_at l) T_VLAN then
    match fuel with
    | O => Fault
    | S fuel => rest ← advance 1 l; inner_vlans fuel (parse_skip_void_and_any_items rest) l (nr_vlans + 1)
    end
  else Ret (nr_vlans, last).

Definition parse_lf pst : cres (Z + parse_state) :=
  let lid := PROFILE_LID_LF in
  if negb (tunnel pst) then pret pst
  else if negb (is_type (type_at (pattern pst)) T_ETH) then pret pst
  else
    let eth_item := item_at (pattern pst) in
    rest ← advance 1 (pattern pst);
    '(nr_vlans, last) ← inner_vlans (length rest) (parse_skip_void_and_any_items rest) (pattern pst) 0;
    if 2 <? nr_vlans then perr PARSE_ERR_PATTERN_NOTSUP
    else
      let lflags := if nr_vlans =? 0 then 0 else if nr_vlans =? 1 then PROFILE_F_TU_ETHER_CTAG
                    else PROFILE_F_TU_ETHER_STAG_CTAG in
      v ← eth_has_vlan eth_item;
      let pst := if v : bool then set_vlan_mask true pst else pst in
      info ←? parse_item_basic eth_item (item_info pst sizeof_eth_hdr 0 lid PROFILE_LT_LF_TU_ETHER);
      update_parse_state parser info lid PROFILE_LT_LF_TU_ETHER lflags (set_pattern last pst).

Definition parse_lg pst : cres (Z + parse_state) :=
  let lid := PROFILE_LID_LG in
  if negb (tunnel pst) then pret pst
  else match type_at (pattern pst) with
  | T_IPV4 => take_item (item_info pst (sizeof_item T_IPV4) 0 lid PROFILE_LT_LG_TU_IP) lid PROFILE_LT_LG_TU_IP 0 pst
  | T_IPV6 => take_item (item_info pst (sizeof_item T_IPV6) 0 lid PROFILE_LT_LG_TU_IP6) lid PROFILE_LT_LG_TU_IP6 0 pst
  | _ => pret pst
  end.

Definition parse_lh pst : cres (Z + parse_state) :=
  let lid := PROFILE_LID_LH in
  let go t ltype := take_item (item_info pst (sizeof_item t) 0 lid ltype) lid ltype 0 pst in
  if negb (tunnel pst) then pret pst
  else match type_at (pattern pst) with
  | T_UDP => go T_UDP PROFILE_LT_LH_TU_UDP
  | T_TCP => go T_TCP PROFILE_LT_LH_TU_TCP
  | T_SCTP => go T_SCTP PROFILE_LT_LH_TU_SCTP
  | T_ESP => go T_ESP PROFILE_LT_LH_TU_ESP
  | _ => pret pst
  end.

Definition parse_stage_funcs : list (parse_state -> cres (Z + parse_state)) :=
  [parse_meta_items; parse_mark_item; parse_pre_l2; parse_higig2_hdr; parse_la; parse_lb; parse_lc; parse_ld;
   parse_le; parse_lf; parse_lg; parse_lh].

(** The loop of [parse_pattern]: one stage after the other until the pattern
    ends. *)
Fixpoint parse_layers (stages : list (parse_state -> cres (Z + parse_state))) (l : list flow_item) pst
  : cres (Z + parse_state) :=
  match stages with
  | [] => pret (set_pattern l pst)
  | stage :: stages =>
      if is_type (type_at l) T_END then pret (set_pattern l pst)
      else
        pst ←? stage (set_pattern (parse_skip_void_and_any_items l) pst);
        if terminate pst then pret pst else parse_layers stages (pattern pst) pst
  end.

(** [struct parse_state parse_state = {0}] and the zeroed flow. *)
Definition init_state (intf : Z) : parse_state :=
  {| pattern := []; last_pattern := []; nix_intf := intf; tunnel := false; terminate := false; layer_mask := 0;
     lt := zeros PROFILE_MAX_LID; flags := zeros PROFILE_MAX_LID;
     pst_data := zeros (FLOW_PARSER_MAX_MCAM_WIDTH_DWORDS * 8); pst_mask := zeros (FLOW_PARSER_MAX_MCAM_WIDTH_DWORDS * 8);
     set_vlan_ltype_mask := false; set_ipv6ext_ltype_mask := false; is_second_pass_rule := false; has_eth_type := false;
     dump_data := replicate (Z.to_nat FLOW_PARSER_MAX_FLOW_PATTERNS) (0, 0); num_patterns := 0 |}.

Definition parse_pattern (pat : option (list flow_item)) (intf : Z) : cres (Z + parse_state) :=
  match pat with
  | None => perr PARSE_ERR_PARAM
  | Some l =>
      pst ←? parse_layers parse_stage_funcs l (init_state intf);
      if is_type (type_at (parse_skip_void_and_any_items (pattern pst))) T_END then pret pst
      else perr PARSE_ERR_PATTERN_NOTSUP
  end.

(** ** The layer types in the key *)

(** [rte_popcount32] *)
Definition popcount32 (x : Z) : Z := Z.of_nat (length (filter (fun i => Z.testbit x i = true) (seqZ 0 32))).

(** The bit offset of the nibble number [o]. *)
Definition nibble_off (intf o : Z) : Z := u8 (popcount32 (Z.land (keyx_supp_nmask parser intf) (Z.ones o)) * 4).

Definition set_ltype_nibble (off v : Z) (pst : parse_state) : cres parse_state :=
  let m := Z.lnot (Z.shiftl 0xf off) in
  d ← on_dword0 (fun w => Z.lor (Z.land w m) (u64 (Z.shiftl v off))) (pst_data pst);
  k ← on_dword0 (fun w => Z.lor (Z.land w m) (u64 (Z.shiftl 0xe off))) (pst_mask pst);
  Ret (set_data d k pst).

Definition set_vlan_ltype pst : cres parse_state :=
  set_ltype_nibble (nibble_off (nix_intf pst) PROFILE_LTYPE_LB_OFFSET) (Z.land PROFILE_LT_LB_CTAG PROFILE_LT_LB_STAG_QINQ) pst.

Definition set_ipv6ext_ltype_mask_op pst : cres parse_state :=
  pst ← set_ltype_nibble (nibble_off (nix_intf pst) PROFILE_LTYPE_LC_OFFSET) (Z.land PROFILE_LT_LC_IP6 PROFILE_LT_LC_IP6_EXT) pst;
  if Z.testbit (keyx_supp_nmask parser (nix_intf pst)) PROFILE_LFLAG_LC_OFFSET then
    let m := u64 (Z.shiftl 0xf (nibble_off (nix_intf pst) PROFILE_LFLAG_LC_OFFSET)) in
    d ← sub (pst_data pst) 0 8;
    if negb (Z.land (le_word d) m =? 0)
    then k ← on_dword0 (fun w => Z.lor w m) (pst_mask pst); Ret (set_data (pst_data pst) k pst)
    else Ret pst
  else Ret pst.

(** One nibble more in the key words: the data and the mask words, the offset
    in the word and its index. *)
Definition put_nibble (data mask : Z) (k : list Z * list Z * Z * Z) : cres (list Z * list Z * Z * Z) :=
  let '(key_data, key_mask, data_off, index) := k in
  let '(data_off, index) := if 64 <=? data_off then (0, index + 1) else (data_off, index) in
  d ← cget key_data index; key_data ← cset key_data index (Z.lor d (u64 (Z.shiftl data data_off)));
  m ← cget key_mask index; key_mask ← cset key_mask index (Z.lor m (u64 (Z.shiftl mask data_off)));
  Ret (key_data, key_mask, data_off + 4, index).

(** The nibbles of the layers: flags low, flags high, layer type, as far as
    the profile has them. *)
Fixpoint layer_nibbles (intf : Z) (nibs : list (Z * Z)) pst (k : list Z * list Z * Z * Z) : cres (list Z * list Z * Z * Z) :=
  match nibs with
  | [] => Ret k
  | (lid, idx) :: nibs =>
      ltype ← cget (lt pst) lid; fl ← cget (flags pst) lid;
      let ltype := Z.land ltype 0xf in
      let layer_info := Z.land (Z.shiftr (keyx_supp_nmask parser intf) (PROFILE_KEX_S_LID_OFFSET lid)) 0x7 in
      k ← (if Z.testbit layer_info idx then
             let '(data, mask) :=
               if idx =? 2 then (ltype, 0xf)
               else if idx =? 1 then (Z.land (Z.shiftr fl 4) 0xf, Z.land (Z.shiftr fl 4) 0xf)
               else (Z.land fl 0xf, Z.land fl 0xf) in
             put_nibble data (if ltype =? 0 then 0 else mask) k
           else Ret k);
      layer_nibbles intf nibs pst k
  end.

(** [for (lid ...) for (idx = 0; idx <= 2; idx++)] *)
Definition nibbles : list (Z * Z) := lid ← seqZ 0 PROFILE_MAX_LID; (fun idx => (lid, idx)) <$> seqZ 0 3.

Definition populate_parsed_data pst : cres (Z + parse_state) :=
  let intf := nix_intf pst in
  let data_off := 4 * popcount32 (Z.land (keyx_supp_nmask parser intf) (Z.ones PROFILE_KEX_S_LA_OFFSET)) in
  '(key_data, key_mask, _, _) ← layer_nibbles intf nibbles pst ([0; 0], [0; 0], data_off, 0);
  let key_len := (keyx_len parser intf + 7) / 8 in
  kd ← sub (mjoin (le_bytes 8 <$> key_data)) 0 key_len;
  km ← sub (mjoin (le_bytes 8 <$> key_mask)) 0 key_len;
  d ← blit (pst_data pst) 0 kd; m ← blit (pst_mask pst) 0 km;
  let pst := set_data d m pst in
  pst ← (if set_vlan_ltype_mask pst then set_vlan_ltype pst else Ret pst);
  pst ← (if set_ipv6ext_ltype_mask pst then set_ipv6ext_ltype_mask_op pst else Ret pst);
  pret pst.

(** ** A rule *)

(** [struct rte_flow_attr] *)
Record flow_attr := { ingress : bool; egress : bool; transfer : bool }.

(** [parse_attr]: the interface. *)
Definition parse_attr (attr : option flow_attr) : cres (Z + Z) :=
  match attr with
  | None => perr PARSE_ERR_PARAM
  | Some a =>
      let attributes := b2z (egress a) + b2z (ingress a) + b2z (transfer a) in
      if (attributes =? 0) || (1 <? attributes) then perr PARSE_ERR_PARAM
      else pret (if ingress a || transfer a then NIX_INTF_RX else NIX_INTF_TX)
  end.

Definition parse_rule (attr : option flow_attr) (pat : option (list flow_item)) : cres (Z + parse_state) :=
  intf ←? parse_attr attr; parse_pattern pat intf.

(** [flow_parse]: [mem] tells whether the flow can be allocated. *)
Definition flow_parse (mem : bool) (attr : option flow_attr) (pat : option (list flow_item)) : cres (option parsed_flow) :=
  if negb mem then Ret None
  else
    r ← (pst ←? parse_rule attr pat; populate_parsed_data pst);
    Ret (match r with
         | inl _ => None
         | inr pst => Some {| parsed_data := pst_data pst; parsed_data_mask := pst_mask pst |}
         end).
End stages.

(** ** Memory lemmas *)

Lemma sub_Ret l o n : 0 <= o -> 0 <= n -> o + n <= Z.of_nat (length l) ->
  sub l o n = Ret (take (Z.to_nat n) (drop (Z.to_nat o) l)).
Proof. intros. unfold sub. by rewrite !(proj2 (Z.leb_le _ _)) by lia. Qed.

Lemma blit_Ret l o src : 0 <= o -> o + Z.of_nat (length src) <= Z.of_nat (length l) ->
  blit l o src = Ret (take (Z.to_nat o) l ++ src ++ drop (Z.to_nat o + length src) l).
Proof. intros. unfold blit. by rewrite !(proj2 (Z.leb_le _ _)) by lia. Qed.

Lemma length_blit l o src l' : blit l o src = Ret l' -> length l' = length l.
Proof.
  unfold blit. case_bool; [|done]. reflect_bool. intros [= <-]. rewrite !length_app, length_take, length_drop. lia.
Qed.

Lemma length_sub l o n l' : sub l o n = Ret l' -> Z.of_nat (length l') = n.
Proof. unfold sub. case_bool; [|done]. reflect_bool. intros [= <-]. rewrite length_take, length_drop. lia. Qed.

Lemma length_le_bytes n w : length (le_bytes n w) = n.
Proof. revert w. induction n; intros w; cbn; [done|]. by rewrite IHn. Qed.

Lemma le_bytes_word l : bytes l -> le_bytes (length l) (le_word l) = l.
Proof.
  induction 1 as [|b l Hb _ IH]; [done|]. cbn [length le_bytes le_word].
  rewrite Z.mul_comm, Z_mod_plus_full, Z.mod_small, Z.div_add, Z.div_small, Z.add_0_l, IH by lia. done.
Qed.

Lemma bytes_app l k : bytes (l ++ k) <-> bytes l /\ bytes k.
Proof. apply Forall_app. Qed.

Lemma bytes_take n l : bytes l -> bytes (take n l).
Proof. apply Forall_take. Qed.

Lemma bytes_drop n l : bytes l -> bytes (drop n l).
Proof. apply Forall_drop. Qed.

Lemma bytes_reverse l : bytes l -> bytes (reverse l).
Proof. unfold bytes. by rewrite Forall_reverse. Qed.

Lemma bytes_zeros n : bytes (zeros n).
Proof. apply Forall_replicate. lia. Qed.

Lemma bytes_insert i x l : 0 <= x < 256 -> bytes l -> bytes (<[i := x]> l).
Proof. intros. by apply Forall_insert. Qed.

#[export] Hint Resolve bytes_take bytes_drop bytes_reverse bytes_zeros bytes_insert : dao.

(** [n] bytes at [o] of [s], reversed, at [k] of [d]. *)
Definition put (o n k : nat) (s d : list Z) : list Z :=
  take k d ++ reverse (take n (drop o s)) ++ drop (k + n) d.

Lemma length_put o n k s d : (o + n <= length s)%nat -> (k + n <= length d)%nat -> length (put o n k s d) = length d.
Proof. intros. unfold put. rewrite !length_app, length_reverse, !length_take, !length_drop. lia. Qed.

Lemma byte_app l k j : byte_at (l ++ k) j = if decide (j < length l)%nat then byte_at l j else byte_at k (j - length l).
Proof. unfold byte_at. case_decide; [by rewrite lookup_app_l|rewrite lookup_app_r by lia; done]. Qed.

Lemma byte_take n l j : (j < n)%nat -> byte_at (take n l) j = byte_at l j.
Proof. intros. unfold byte_at. by rewrite lookup_take_lt. Qed.

Lemma byte_drop n l j : byte_at (drop n l) j = byte_at l (n + j).
Proof. unfold byte_at. by rewrite lookup_drop. Qed.

Lemma byte_reverse l j : (j < length l)%nat -> byte_at (reverse l) j = byte_at l (length l - 1 - j).
Proof. intros. unfold byte_at. rewrite reverse_lookup by lia. do 2 f_equal. lia. Qed.

Lemma byte_put o n k s d j : (o + n <= length s)%nat -> (k + n <= length d)%nat ->
  byte_at (put o n k s d) j = if decide (k <= j < k + n)%nat then byte_at s (o + (n - 1 - (j - k))) else byte_at d j.
Proof.
  intros Hs Hd. unfold put. rewrite !byte_app, length_reverse, !length_take, length_drop.
  repeat case_decide; try lia.
  - rewrite byte_take by lia. done.
  - rewrite byte_reverse by (rewrite length_take, length_drop; lia). rewrite length_take, length_drop.
    rewrite byte_take, byte_drop by lia. f_equal. lia.
  - rewrite byte_drop. f_equal. lia.
Qed.

Lemma bytes_put o n k s d : bytes s -> bytes d -> bytes (put o n k s d).
Proof. intros. unfold put. rewrite !bytes_app. auto 10 with dao. Qed.

(** ** What an item adds to the key *)

(** A field: offset in the item, length, offset in the key. *)
Definition put_all (fs : list (nat * nat * nat)) (s d : list Z) : list Z :=
  foldl (fun d f => put f.1.1 f.1.2 f.2 s d) d fs.

Definition field_ok (n : nat) (f : nat * nat * nat) : Prop := (f.1.1 + f.1.2 <= n)%nat /\ (f.2 + f.1.2 <= 56)%nat.

Lemma length_put_all fs s d : Forall (field_ok (length s)) fs -> length d = 56%nat -> length (put_all fs s d) = 56%nat.
Proof.
  intros Hf. unfold put_all. revert d. induction Hf as [|f fs [H1 H2] _ IH]; intros d Hd; cbn; [done|].
  apply IH. rewrite length_put; lia.
Qed.

Lemma bytes_put_all fs s d : bytes s -> bytes d -> bytes (put_all fs s d).
Proof. unfold put_all. intros Hs. revert d. induction fs as [|f fs IH]; intros d Hd; cbn; [done|]. by apply IH, bytes_put. Qed.

(** What an extractor does to an item of [n] bytes: nothing, a field, or
    something else. *)
Definition x_field (hw n : Z) (x : xtract_info) : option (list (nat * nat * nat)) :=
  let off := hdr_off x - hw in
  if use_hash x then None
  else if negb (enable x) || (hdr_off x <? hw) || (n <=? off) then if x_len x <=? 64 then Some [] else None
  else if (off + x_len x <=? n) && (0 <? x_len x) && (x_len x <=? 64) && (0 <=? key_off x) && (key_off x + x_len x <=? 56)
  then Some [(Z.to_nat off, Z.to_nat (x_len x), Z.to_nat (key_off x))] else None.

Lemma update_extraction_put info x fs s m pst : x_field (hw_hdr_len info) (len info) x = Some fs ->
  spec info = Some s -> mask info = Some m -> len info <= Z.of_nat (length s) -> len info <= Z.of_nat (length m) ->
  length (pst_data pst) = 56%nat -> length (pst_mask pst) = 56%nat ->
  update_extraction_data info x pst = pret (set_data (put_all fs s (pst_data pst)) (put_all fs m (pst_mask pst)) pst) /\
  Forall (field_ok (Z.to_nat (len info))) fs.
Proof.
  intros Hx Hs Hm Hls Hlm Hd Hk. unfold x_field in Hx. destruct (use_hash x); [done|].
  unfold update_extraction_data, PROFILE_MAX_EXTRACT_DATA_LEN.
  destruct (negb (enable x) || (hdr_off x <? hw_hdr_len info) || (len info <=? hdr_off x - hw_hdr_len info)) eqn:Hskip.
  { destruct (x_len x <=? 64) eqn:H64; [|done]. injection Hx as <-. reflect_bool.
    rewrite (proj2 (Z.ltb_ge 64 (x_len x))) by lia. split; [|constructor]. cbn [put_all foldl].
    assert (set_data (pst_data pst) (pst_mask pst) pst = pst) as -> by by destruct pst.
    rewrite !orb_true_iff in Hskip. destruct Hskip as [[He|He]|He]; rewrite He; repeat case_bool; done. }
  destruct (_ && _) eqn:Hok in Hx; [|done]. injection Hx as <-. reflect_bool.
  rewrite !(proj2 (Z.ltb_ge _ _)) by lia.
  match goal with H : enable x = true |- _ => rewrite H end. cbn [negb].
  rewrite (proj2 (Z.leb_gt _ _)) by lia. rewrite !(proj2 (Z.ltb_ge (len info) _)) by lia.
  unfold check_copysz, FLOW_PARSER_MAX_MCAM_WIDTH_DWORDS. rewrite u64_id by word. rewrite (proj2 (Z.leb_le _ _)) by lia.
  rewrite (proj2 (Z.ltb_ge _ _)) by lia. rewrite Hs, Hm. cbn [deref mbind cres_mbind].
  rewrite !sub_Ret by lia. cbn [mbind cres_mbind]. unfold prep_tcam_ldata.
  assert (forall l : list Z, len info <= Z.of_nat (length l) ->
    take (Z.to_nat (x_len x)) (reverse (take (Z.to_nat (x_len x)) (drop (Z.to_nat (hdr_off x - hw_hdr_len info)) l))) =
    reverse (take (Z.to_nat (x_len x)) (drop (Z.to_nat (hdr_off x - hw_hdr_len info)) l))) as Htk.
  { intros l Hl. apply take_ge. rewrite length_reverse, length_take, length_drop. lia. }
  rewrite !Htk by done. rewrite !blit_Ret by (rewrite ?length_reverse, ?length_take, ?length_drop; lia).
  cbn [mbind cres_mbind]. cbn [put_all foldl fst snd]. unfold put.
  rewrite !length_reverse, !length_take, !length_drop.
  rewrite !Nat.min_l by lia. split; [done|]. apply Forall_singleton. split; cbn; lia.
Qed.

Fixpoint x_fields (hw n : Z) (xs : list xtract_info) : option (list (nat * nat * nat)) :=
  match xs with
  | [] => Some []
  | x :: xs => f ← x_field hw n x; fs ← x_fields hw n xs; Some (f ++ fs)
  end.

Lemma x_fields_app hw n xs ys : x_fields hw n (xs ++ ys) = f ← x_fields hw n xs; fs ← x_fields hw n ys; Some (f ++ fs).
Proof.
  induction xs as [|x xs IH]; cbn; [by destruct (x_fields hw n ys)|].
  destruct (x_field hw n x); cbn; [|done]. rewrite IH. destruct (x_fields hw n xs); cbn; [|done].
  destruct (x_fields hw n ys); cbn; [|done]. by rewrite app_assoc.
Qed.

Lemma put_all_app fs gs s d : put_all (fs ++ gs) s d = put_all gs s (put_all fs s d).
Proof. apply foldl_app. Qed.

Lemma field_ok_le n n' f : (n <= n')%nat -> field_ok n f -> field_ok n' f.
Proof. intros Hn [H1 H2]. split; lia. Qed.

(** A parse state with other key bytes and flags. *)
Definition with_key (d m : list Z) (fl : list Z) (pst : parse_state) : parse_state := set_flags fl (set_data d m pst).

Section extract.
Context (info : parse_item_info) (s m : list Z).
Hypothesis (Hspec : spec info = Some s) (Hmask : mask info = Some m).
Hypothesis (Hls : len info <= Z.of_nat (length s)) (Hlm : len info <= Z.of_nat (length m)).
Implicit Types pst : parse_state.

Definition key_ok pst : Prop := length (pst_data pst) = 56%nat /\ length (pst_mask pst) = 56%nat.

Lemma put_all_key_ok fs pst fl : Forall (field_ok (Z.to_nat (len info))) fs -> key_ok pst ->
  key_ok (with_key (put_all fs s (pst_data pst)) (put_all fs m (pst_mask pst)) fl pst).
Proof.
  intros Hf [Hd Hk]. split; cbn; apply length_put_all; try done; eapply Forall_impl; try exact Hf;
    intros f; apply field_ok_le; lia.
Qed.

Lemma extract_all_put xs : forall fs pst, x_fields (hw_hdr_len info) (len info) xs = Some fs -> key_ok pst ->
  extract_all info xs pst = pret (with_key (put_all fs s (pst_data pst)) (put_all fs m (pst_mask pst)) (flags pst) pst) /\
  Forall (field_ok (Z.to_nat (len info))) fs.
Proof.
  induction xs as [|x xs IH]; intros fs pst Hx Hok; cbn in Hx.
  { injection Hx as <-. split; [by destruct pst|constructor]. }
  destruct (x_field _ _ x) as [f|] eqn:Hf; [|done]. cbn in Hx.
  destruct (x_fields _ _ xs) as [gs|] eqn:Hg; [|done]. injection Hx as <-.
  destruct (update_extraction_put info x f s m pst) as [Hu Hfo]; try apply Hok; try done.
  destruct (IH gs (with_key (put_all f s (pst_data pst)) (put_all f m (pst_mask pst)) (flags pst) pst)) as [He Hgo];
    [done|by apply put_all_key_ok|].
  cbn [extract_all]. assert (use_hash x = false) as -> by (unfold x_field in Hf; by destruct (use_hash x)).
  rewrite Hu. cbn [pbind pret]. change (set_data (put_all f s (pst_data pst)) (put_all f m (pst_mask pst)) pst) with
    (with_key (put_all f s (pst_data pst)) (put_all f m (pst_mask pst)) (flags pst) pst).
  rewrite He. split; [|by apply Forall_app]. by rewrite !put_all_app.
Qed.

(** The flags of a layer after its flag extractors. *)
Definition flag_fold (lid : Z) (js : list (Z * xtract_info)) (fl : list Z) : list Z :=
  foldl (fun fl jx => if enable jx.2 then <[Z.to_nat lid := jx.1]> fl else fl) fl js.

Lemma length_flag_fold lid js fl : length (flag_fold lid js fl) = length fl.
Proof.
  unfold flag_fold. revert fl. induction js as [|jx js IH]; intros fl; cbn; [done|]. rewrite IH.
  destruct (enable jx.2); [apply length_insert|done].
Qed.

Lemma extract_flags_put lid js : 0 <= lid < 8 -> forall fs pst,
  x_fields (hw_hdr_len info) (len info) js.*2 = Some fs -> key_ok pst -> length (flags pst) = 8%nat ->
  extract_flags info lid js pst =
    pret (with_key (put_all fs s (pst_data pst)) (put_all fs m (pst_mask pst)) (flag_fold lid js (flags pst)) pst) /\
  Forall (field_ok (Z.to_nat (len info))) fs.
Proof.
  intros Hlid. induction js as [|[j x] js IH]; intros fs pst Hx Hok Hfl; cbn in Hx.
  { injection Hx as <-. split; [by destruct pst|constructor]. }
  destruct (x_field _ _ x) as [f|] eqn:Hf; [|done]. cbn in Hx.
  destruct (x_fields _ _ js.*2) as [gs|] eqn:Hg; [|done]. injection Hx as <-.
  destruct (update_extraction_put info x f s m pst) as [Hu Hfo]; try apply Hok; try done.
  cbn [extract_flags]. rewrite Hu. cbn [pbind pret].
  set (fl1 := if enable x then <[Z.to_nat lid := j]> (flags pst) else flags pst).
  assert (length fl1 = 8%nat) as Hl1 by (unfold fl1; destruct (enable x); [by rewrite length_insert|done]).
  assert ((if enable x then cset (flags pst) lid j else Ret (flags pst)) = Ret fl1) as Hset.
  { unfold fl1. destruct (enable x); [|done]. rewrite cset_in_range; [done|lia]. }
  cbn [flags set_data]. rewrite Hset. cbn [mbind cres_mbind].
  destruct (IH gs (with_key (put_all f s (pst_data pst)) (put_all f m (pst_mask pst)) fl1 pst)) as [He Hgo];
    [done|by apply put_all_key_ok|done|].
  change (set_flags fl1 (set_data (put_all f s (pst_data pst)) (put_all f m (pst_mask pst)) pst)) with
    (with_key (put_all f s (pst_data pst)) (put_all f m (pst_mask pst)) fl1 pst).
  rewrite He. split; [|by apply Forall_app]. by rewrite !put_all_app.
Qed.
End extract.

Lemma extract_flags_app info lid js js' pst :
  extract_flags info lid (js ++ js') pst = pst ←? extract_flags info lid js pst; extract_flags info lid js' pst.
Proof.
  revert pst. induction js as [|[j x] js IH]; intros pst; [done|]. cbn.
  destruct (update_extraction_data info x pst) as [[e|p]| |]; cbn; [done| |done..].
  destruct (if enable x then cset (flags p) lid j else Ret (flags p)); cbn; [apply IH|done..].
Qed.

(** The flag extractors of a layer type. *)
Definition flag_js (parser : flow_parser) (intf lid ltype : Z) (ids : list Z) : list (Z * xtract_info) :=
  i ← ids;
  if flags_enable (prx_dxcfg parser intf lid ltype i) && negb (use_hash (prx_dxcfg parser intf lid ltype i))
     && (prx_lfcfg parser i =? lid)
  then (fun j => (j, prx_fxcfg parser intf i j)) <$> seqZ 0 PROFILE_MAX_LFL else [].

(** An extraction changes only the key bytes, and not their number. *)
Lemma update_extraction_inv info x pst p : update_extraction_data info x pst = pret p ->
  exists d m, p = set_data d m pst /\ length d = length (pst_data pst) /\ length m = length (pst_mask pst).
Proof.
  assert (exists d m, pst = set_data d m pst /\ length d = length (pst_data pst) /\ length m = length (pst_mask pst)) as Hsame
    by (exists (pst_data pst), (pst_mask pst); by destruct pst).
  unfold update_extraction_data. generalize (check_copysz (u64 (FLOW_PARSER_MAX_MCAM_WIDTH_DWORDS * 8 - key_off x))).
  intros f. destruct (_ <? x_len x); [done|]. destruct (hdr_off x <? _); [by intros [= <-]|].
  destruct (negb (enable x)); [by intros [= <-]|]. destruct (len info <=? _); [by intros [= <-]|].
  destruct (_ <? 0); [done|]. intros Hp. do 4 (apply bind_Ret in Hp as (? & _ & Hp)).
  apply bind_Ret in Hp as (m & Hm & Hp). apply bind_Ret in Hp as (d & Hd & Hp). injection Hp as <-.
  exists d, m. split; [done|]. split; by eapply length_blit.
Qed.

Lemma extract_intf info lid js pst pst' : extract_flags info lid js pst = pret pst' -> nix_intf pst' = nix_intf pst.
Proof.
  revert pst. induction js as [|[j x] js IH]; intros pst; cbn [extract_flags]; [by intros [= <-]|].
  destruct (update_extraction_data info x pst) as [[e|p]| |] eqn:Hu; cbn [pbind]; [done| |done..].
  apply update_extraction_inv in Hu as (d & m & -> & _). destruct (if enable x then _ else _); cbn [mbind cres_mbind]; [|done..].
  intros Hp. by rewrite (IH _ Hp).
Qed.

Lemma extract_flags_all_js parser info lid ltype ids : forall pst,
  extract_flags_all parser info lid ltype ids pst =
  extract_flags info lid (flag_js parser (nix_intf pst) lid ltype ids) pst.
Proof.
  induction ids as [|i ids IH]; intros pst; [done|]. cbn [extract_flags_all flag_js mbind list_bind].
  fold (flag_js parser (nix_intf pst) lid ltype ids). rewrite extract_flags_app.
  destruct (flags_enable _); cbn [negb andb]; [|cbn [pbind extract_flags pret]; apply IH].
  destruct (use_hash _); cbn [negb andb]; [cbn [pbind extract_flags pret]; apply IH|].
  destruct (prx_lfcfg parser i =? lid); [|cbn [pbind extract_flags pret]; apply IH].
  destruct (extract_flags info lid _ pst) as [[e|p]| |] eqn:He; cbn [pbind]; try done.
  rewrite IH, (extract_intf _ _ _ _ _ He). done.
Qed.

(** The fields of an item as a layer of some type. *)
Definition layer_fields (parser : flow_parser) (intf lid ltype hw n : Z) : option (list (nat * nat * nat)) :=
  x_fields hw n ((prx_dxcfg parser intf lid ltype <$> seqZ 0 PROFILE_MAX_LD) ++
                 (flag_js parser intf lid ltype (seqZ 0 PROFILE_MAX_LD)).*2).

(** The state after an item was taken as layer [lid]. *)
Definition layer_taken (parser : flow_parser) (lid ltype fl : Z) (d m : list Z) (js : list (Z * xtract_info))
    (pst : parse_state) : parse_state :=
  set_pattern (tail (pattern pst)) (set_dump (<[Z.to_nat (num_patterns pst) := (lid, ltype)]> (dump_data pst))
    (u16 (num_patterns pst + 1))
    (with_key d m (flag_fold lid js (<[Z.to_nat lid := u8 fl]> (flags pst)))
      (set_layer (terminate pst || is_terminating parser (nix_intf pst) lid ltype) (u8 (Z.lor (layer_mask pst) lid))
        (<[Z.to_nat lid := ltype]> (lt pst)) (<[Z.to_nat lid := u8 fl]> (flags pst)) pst))).

(** The arrays of a parse state have their sizes, and there is room in the
    list of layers. *)
Record pst_ok (pst : parse_state) : Prop := {
  po_key : key_ok pst;
  po_lt : length (lt pst) = 8%nat;
  po_flags : length (flags pst) = 8%nat;
  po_dump : length (dump_data pst) = 32%nat;
  po_num : 0 <= num_patterns pst < 32;
}.

Lemma update_parse_state_put parser info lid ltype fl fs s m pst :
  spec info = Some s -> mask info = Some m -> len info <= Z.of_nat (length s) -> len info <= Z.of_nat (length m) ->
  layer_fields parser (nix_intf pst) lid ltype (hw_hdr_len info) (len info) = Some fs ->
  0 <= lid < 8 -> pst_ok pst -> pattern pst <> [] ->
  update_parse_state parser info lid ltype fl pst =
    pret (layer_taken parser lid ltype fl (put_all fs s (pst_data pst)) (put_all fs m (pst_mask pst))
            (flag_js parser (nix_intf pst) lid ltype (seqZ 0 PROFILE_MAX_LD)) pst) /\
  Forall (field_ok (Z.to_nat (len info))) fs.
Proof.
  intros Hs Hm Hls Hlm Hfs Hlid [Hkey Hlt Hfl Hdump Hnum] Hpat. unfold layer_fields in Hfs. rewrite x_fields_app in Hfs.
  destruct (x_fields _ _ (prx_dxcfg _ _ _ _ <$> _)) as [f1|] eqn:Hf1; [|done]. cbn in Hfs.
  destruct (x_fields _ _ (flag_js _ _ _ _ _).*2) as [f2|] eqn:Hf2; [|done]. injection Hfs as <-.
  unfold update_parse_state. rewrite !cset_in_range by lia. cbn [mbind cres_mbind]. rewrite Hs.
  match goal with |- context [extract_all info _ ?p] => set (pst1 := p) end.
  assert (key_ok pst1) as Hkey1 by exact Hkey.
  destruct (extract_all_put info s m Hs Hm Hls Hlm _ f1 pst1 Hf1 Hkey1) as [He Hfo1].
  rewrite He. cbn [pbind pret]. rewrite extract_flags_all_js. change (nix_intf (with_key _ _ _ pst1)) with (nix_intf pst).
  match goal with |- context [extract_flags info lid _ ?p] => set (pst2 := p) end.
  destruct (extract_flags_put info s m Hs Hm Hls Hlm lid (flag_js parser (nix_intf pst) lid ltype (seqZ 0 PROFILE_MAX_LD)) Hlid f2 pst2)
    as [He2 Hfo2]; [done|by apply (put_all_key_ok info)|cbn; by rewrite length_insert|].
  rewrite He2. cbn [pbind pret]. cbn [dump_data num_patterns pattern with_key set_flags set_data set_layer].
  change (dump_data pst2) with (dump_data pst). change (num_patterns pst2) with (num_patterns pst).
  change (pattern pst2) with (pattern pst). rewrite cset_in_range by lia. cbn [mbind cres_mbind].
  unfold advance. destruct (pattern pst) as [|it rest] eqn:Hp; [done|]. cbn [length Nat.leb drop mbind cres_mbind].
  split; [|by apply Forall_app]. unfold layer_taken. rewrite Hp. cbn [tail]. rewrite !put_all_app. done.
Qed.
