(* ===== verification/FlowProfile.v ===== *)
(** * Key extraction profiles (lib/flow/ovs_profile.c, default_profile.c)

    A profile is a table of extractors, by which rules are compiled, and a
    function that builds the search key of a packet. *)
From stdpp Require Import base option list numbers.
From S2P Require Import Prelude Rte FlowAcl FlowParser.

Local Open Scope Z_scope.

(** ** The nibbles of the key *)

Definition PROFILE_TCAM_KEY_X2 : Z := 1.
Definition GENMASK_ULL (h l : Z) : Z := Z.shiftl (Z.ones (h - l + 1)) l.
Definition PROFILE_EXACT_NIBBLE_HIT : Z := 2 ^ 40.
Definition PARSE_NIBBLE_CHAN : Z := GENMASK_ULL 2 0.
Definition PARSE_NIBBLE_L2L3_BCAST : Z := 2 ^ 6.
Definition PARSE_NIBBLE_LA_LTYPE : Z := 2 ^ 9.
Definition PARSE_NIBBLE_LB_LTYPE : Z := 2 ^ 12.
Definition PARSE_NIBBLE_LC_LTYPE : Z := 2 ^ 15.
Definition PARSE_NIBBLE_LD_LTYPE : Z := 2 ^ 18.
Definition PARSE_NIBBLE_LE_LTYPE : Z := 2 ^ 21.

Definition PARSE_NIBBLE_INTF_TX : Z :=
  Z.lor (Z.lor (Z.lor (Z.lor PARSE_NIBBLE_LA_LTYPE PARSE_NIBBLE_LB_LTYPE) PARSE_NIBBLE_LC_LTYPE) PARSE_NIBBLE_LD_LTYPE)
    PARSE_NIBBLE_LE_LTYPE.
Definition PARSE_NIBBLE_INTF_RX : Z :=
  Z.lor (Z.lor PARSE_NIBBLE_CHAN PARSE_NIBBLE_L2L3_BCAST) PARSE_NIBBLE_INTF_TX.

Definition kex_cfg (intf : Z) : Z :=
  if intf =? NIX_INTF_RX
  then Z.lor (Z.lor (Z.shiftl PROFILE_TCAM_KEY_X2 32) PARSE_NIBBLE_INTF_RX) PROFILE_EXACT_NIBBLE_HIT
  else Z.lor (Z.shiftl PROFILE_TCAM_KEY_X2 32) PARSE_NIBBLE_INTF_TX.

(** An array with designated initialisers: the entries given, zero elsewhere. *)
Definition initialised (entries : list (list Z * Z)) (ix : list Z) : Z :=
  default 0 ((fun e => e.2.2) <$> list_find (fun e => e.1 = ix) entries).

(** ** The OVS profile *)

Definition ovs_kex_profile : tcam_kex := {|
  keyx_cfg := kex_cfg;
  kex_ld_flags := fun ld => if ld =? NIX_INTF_RX then PROFILE_LID_LC else 0;
  intf_ld_flags := fun intf ld fl => initialised [([NIX_INTF_RX; 0; 0], KEX_LD_CFG 0 0x1 1 0 0x36)] [intf; ld; fl];
  intf_lid_lt_ld := fun intf lid ltype ld => initialised [
    ([NIX_INTF_RX; PROFILE_LID_LA; PROFILE_LT_LA_ETHER; 0], KEX_LD_CFG 0x0B 0x0 0x1 0x0 0x8);
    ([NIX_INTF_RX; PROFILE_LID_LA; PROFILE_LT_LA_ETHER; 1], KEX_LD_CFG 0x01 0xc 0x1 0x0 0x14);
    ([NIX_INTF_RX; PROFILE_LID_LB; PROFILE_LT_LB_CTAG; 0], KEX_LD_CFG 0x01 0x2 0x1 0x0 0x16);
    ([NIX_INTF_RX; PROFILE_LID_LB; PROFILE_LT_LB_CTAG; 1], KEX_LD_CFG 0x01 0x4 0x1 0x0 0x14);
    ([NIX_INTF_RX; PROFILE_LID_LB; PROFILE_LT_LB_STAG_QINQ; 0], KEX_LD_CFG 0x01 0x6 0x1 0x0 0x16);
    ([NIX_INTF_RX; PROFILE_LID_LB; PROFILE_LT_LB_STAG_QINQ; 1], KEX_LD_CFG 0x01 0x8 0x1 0x0 0x14);
    ([NIX_INTF_RX; PROFILE_LID_LC; PROFILE_LT_LC_IP; 0], KEX_LD_CFG 0x01 0x6 0x1 0x1 0x18);
    ([NIX_INTF_RX; PROFILE_LID_LC; PROFILE_LT_LC_IP; 1], KEX_LD_CFG 0x07 0xC 0x1 0x0 0x1A);
    ([NIX_INTF_RX; PROFILE_LID_LC; PROFILE_LT_LC_IP6; 0], KEX_LD_CFG 0x07 0x0 0x1 0x0 0x18);
    ([NIX_INTF_RX; PROFILE_LID_LD; PROFILE_LT_LD_UDP; 0], KEX_LD_CFG 0x3 0x0 0x1 0x0 0x22);
    ([NIX_INTF_RX; PROFILE_LID_LE; PROFILE_LT_LE_VXLAN; 0], KEX_LD_CFG 0x3 0x4 0x1 0x0 0x22);
    ([NIX_INTF_RX; PROFILE_LID_LF; PROFILE_LT_LF_TU_ETHER; 0], KEX_LD_CFG 0xB 0x0 0x1 0x0 0x26);
    ([NIX_INTF_RX; PROFILE_LID_LF; PROFILE_LT_LF_TU_ETHER; 1], KEX_LD_CFG 0x1 0xC 0x1 0x0 0x32);
    ([NIX_INTF_RX; PROFILE_LID_LG; PROFILE_LT_LG_TU_IP; 0], KEX_LD_CFG 0x1 0x06 0x1 0x0 0x34);
    ([NIX_INTF_TX; PROFILE_LID_LA; PROFILE_LT_LA_IH_NIX_ETHER; 0], KEX_LD_CFG 0x01 0x0 0x1 0x0 0x4);
    ([NIX_INTF_TX; PROFILE_LID_LA; PROFILE_LT_LA_IH_NIX_ETHER; 1], KEX_LD_CFG 0x0D 0x8 0x1 0x0 0x6);
    ([NIX_INTF_TX; PROFILE_LID_LB; PROFILE_LT_LB_CTAG; 0], KEX_LD_CFG 0x01 0x2 0x1 0x0 0x14);
    ([NIX_INTF_TX; PROFILE_LID_LB; PROFILE_LT_LB_CTAG; 1], KEX_LD_CFG 0x01 0x4 0x1 0x0 0x12);
    ([NIX_INTF_TX; PROFILE_LID_LB; PROFILE_LT_LB_STAG_QINQ; 0], KEX_LD_CFG 0x01 0x2 0x1 0x0 0x14);
    ([NIX_INTF_TX; PROFILE_LID_LB; PROFILE_LT_LB_STAG_QINQ; 1], KEX_LD_CFG 0x01 0x8 0x1 0x0 0x12);
    ([NIX_INTF_TX; PROFILE_LID_LC; PROFILE_LT_LC_IP; 0], KEX_LD_CFG 0x01 0x6 0x1 0x0 0x16)
  ] [intf; lid; ltype; ld]
|}.

(** ** The default profile *)

Definition PROFILE_KEXOF_DMAC : Z := 9.

Definition default_kex_profile : tcam_kex := {|
  keyx_cfg := kex_cfg;
  kex_ld_flags := fun _ => 0;
  intf_ld_flags := fun _ _ _ => 0;
  intf_lid_lt_ld := fun intf lid ltype ld => initialised [
    ([NIX_INTF_RX; PROFILE_LID_LA; PROFILE_LT_LA_ETHER; 0], KEX_LD_CFG 0x05 0x0 0x1 0x0 PROFILE_KEXOF_DMAC);
    ([NIX_INTF_RX; PROFILE_LID_LA; PROFILE_LT_LA_ETHER; 1], KEX_LD_CFG 0x01 0xc 0x1 0x0 0x5);
    ([NIX_INTF_RX; PROFILE_LID_LA; PROFILE_LT_LA_CPT_HDR; 0], KEX_LD_CFG 0x05 0x0 0x1 0x0 PROFILE_KEXOF_DMAC);
    ([NIX_INTF_RX; PROFILE_LID_LA; PROFILE_LT_LA_CPT_HDR; 1], KEX_LD_CFG 0x01 0xc 0x1 0x0 0x5);
    ([NIX_INTF_RX; PROFILE_LID_LA; PROFILE_LT_LA_HIGIG2_ETHER; 0], KEX_LD_CFG 0x01 0x8 0x1 0x0 PROFILE_KEXOF_DMAC);
    ([NIX_INTF_RX; PROFILE_LID_LA; PROFILE_LT_LA_HIGIG2_ETHER; 1], KEX_LD_CFG 0x01 0xc 0x1 0x0 (PROFILE_KEXOF_DMAC + 2));
    ([NIX_INTF_RX; PROFILE_LID_LB; PROFILE_LT_LB_CTAG; 0], KEX_LD_CFG 0x01 0x2 0x1 0x0 0x7);
    ([NIX_INTF_RX; PROFILE_LID_LB; PROFILE_LT_LB_CTAG; 1], KEX_LD_CFG 0x01 0x4 0x1 0x0 0x5);
    ([NIX_INTF_RX; PROFILE_LID_LB; PROFILE_LT_LB_STAG_QINQ; 0], KEX_LD_CFG 0x01 0x2 0x1 0x0 0x7);
    ([NIX_INTF_RX; PROFILE_LID_LB; PROFILE_LT_LB_STAG_QINQ; 1], KEX_LD_CFG 0x01 0x8 0x1 0x0 0x5);
    ([NIX_INTF_RX; PROFILE_LID_LB; PROFILE_LT_LB_FDSA; 0], KEX_LD_CFG 0x0 0x1 0x1 0x0 0x7);
    ([NIX_INTF_RX; PROFILE_LID_LB; PROFILE_LT_LB_FDSA; 1], KEX_LD_CFG 0x01 0x4 0x1 0x0 0x5);
    ([NIX_INTF_RX; PROFILE_LID_LC; PROFILE_LT_LC_IP; 0], KEX_LD_CFG 0x07 0xc 0x1 0x0 0x10);
    ([NIX_INTF_RX; PROFILE_LID_LC; PROFILE_LT_LC_IP; 1], KEX_LD_CFG 0x0 0x1 0x1 0x0 0xf);
    ([NIX_INTF_RX; PROFILE_LID_LC; PROFILE_LT_LC_IP6; 0], KEX_LD_CFG 0x07 0x0 0x1 0x0 0x10);
    ([NIX_INTF_RX; PROFILE_LID_LD; PROFILE_LT_LD_UDP; 0], KEX_LD_CFG 0x3 0x0 0x1 0x0 0x18);
    ([NIX_INTF_RX; PROFILE_LID_LD; PROFILE_LT_LD_TCP; 0], KEX_LD_CFG 0x3 0x0 0x1 0x0 0x18);
    ([NIX_INTF_TX; PROFILE_LID_LA; PROFILE_LT_LA_IH_NIX_ETHER; 0], KEX_LD_CFG 0x01 0x0 0x1 0x0 0x4);
    ([NIX_INTF_TX; PROFILE_LID_LA; PROFILE_LT_LA_IH_NIX_ETHER; 1], KEX_LD_CFG 0x05 0x8 0x1 0x0 0xa);
    ([NIX_INTF_TX; PROFILE_LID_LA; PROFILE_LT_LA_IH_NIX_HIGIG2_ETHER; 0], KEX_LD_CFG 0x01 0x0 0x1 0x0 0x4);
    ([NIX_INTF_TX; PROFILE_LID_LA; PROFILE_LT_LA_IH_NIX_HIGIG2_ETHER; 1], KEX_LD_CFG 0x01 0x10 0x1 0x0 0xa);
    ([NIX_INTF_TX; PROFILE_LID_LB; PROFILE_LT_LB_CTAG; 0], KEX_LD_CFG 0x01 0x2 0x1 0x0 0x6);
    ([NIX_INTF_TX; PROFILE_LID_LB; PROFILE_LT_LB_CTAG; 1], KEX_LD_CFG 0x01 0x4 0x1 0x0 0x8);
    ([NIX_INTF_TX; PROFILE_LID_LB; PROFILE_LT_LB_STAG_QINQ; 0], KEX_LD_CFG 0x01 0x2 0x1 0x0 0x6);
    ([NIX_INTF_TX; PROFILE_LID_LB; PROFILE_LT_LB_STAG_QINQ; 1], KEX_LD_CFG 0x01 0x8 0x1 0x0 0x8);
    ([NIX_INTF_TX; PROFILE_LID_LC; PROFILE_LT_LC_IP; 0], KEX_LD_CFG 0x07 0xc 0x1 0x0 0x10);
    ([NIX_INTF_TX; PROFILE_LID_LC; PROFILE_LT_LC_IP6; 0], KEX_LD_CFG 0x07 0x0 0x1 0x0 0x10);
    ([NIX_INTF_TX; PROFILE_LID_LD; PROFILE_LT_LD_UDP; 0], KEX_LD_CFG 0x3 0x0 0x1 0x0 0x18);
    ([NIX_INTF_TX; PROFILE_LID_LD; PROFILE_LT_LD_TCP; 0], KEX_LD_CFG 0x3 0x0 0x1 0x0 0x18)
  ] [intf; lid; ltype; ld]
|}.

(** ** Keys of packets *)

Definition RTE_ETHER_TYPE_IPV4 : Z := 0x0800.
Definition RTE_ETHER_TYPE_IPV6 : Z := 0x86DD.
Definition RTE_ETHER_TYPE_VLAN : Z := 0x8100.
Definition RTE_ETHER_TYPE_QINQ : Z := 0x88A8.
Definition IPPROTO_TCP : Z := 6.
Definition IPPROTO_UDP : Z := 17.
Definition UDP_PORT_VXLAN : Z := 4789.

(** Big-endian fields of the packet. *)
Definition load16 (pkt : list Z) (o : Z) : cres Z := b ← sub pkt o 2; Ret (le_word (reverse b)).
Definition load32 (pkt : list Z) (o : Z) : cres Z := b ← sub pkt o 4; Ret (le_word (reverse b)).

(** Stores into the key, little-endian. *)
Definition store16 (key : list Z) (o v : Z) : cres (list Z) := blit key o (le_bytes 2 v).
Definition store32 (key : list Z) (o v : Z) : cres (list Z) := blit key o (le_bytes 4 v).
Definition or_byte (key : list Z) (o v : Z) : cres (list Z) := b ← cget key o; cset key o (Z.lor b v).

Definition reverse_memcpy (key : list Z) (o : Z) (pkt : list Z) (p n : Z) : cres (list Z) :=
  b ← sub pkt p n; blit key o (reverse b).

(** What the parts of a key generation hand on: the key, the offset in the
    packet and the protocol of the next header. *)
Record keygen := { k_key : list Z; k_off : Z; k_next : Z }.

(** The channel and the layer type of Ethernet. *)
Definition key_start (channel : Z) (key : list Z) : cres (list Z) :=
  key ← cset key 0 (Z.land channel 0xFF);
  key ← cset key 1 (Z.shiftr (Z.land channel 0xF00) 8);
  cset key 2 PROFILE_LT_LA_ETHER.

Section ovs.
Context (pkt : list Z).

Definition ovs_key_eth (channel : Z) (key : list Z) : cres (Z * keygen) :=
  key ← key_start channel key;
  key ← reverse_memcpy key 8 pkt 0 12;
  eth_type ← load16 pkt 12;
  key ← store16 key 20 eth_type;
  Ret (eth_type, {| k_key := key; k_off := 14; k_next := 0 |}).

(** One tag, or the inner one of two. *)
Definition ovs_key_tag (k : keygen) (o ltype : Z) : cres keygen :=
  next_proto ← load16 pkt (o + 2);
  key ← store16 (k_key k) 20 next_proto;
  tci ← load16 pkt o;
  key ← store16 key 22 tci;
  key ← or_byte key 2 (Z.shiftl ltype 4);
  Ret {| k_key := key; k_off := o + 4; k_next := next_proto |}.

Definition ovs_key_vlan (eth_type : Z) (k : keygen) : cres keygen :=
  if eth_type =? RTE_ETHER_TYPE_VLAN then ovs_key_tag k (k_off k) PROFILE_LT_LB_CTAG
  else if eth_type =? RTE_ETHER_TYPE_QINQ then ovs_key_tag k (k_off k + 4) PROFILE_LT_LB_STAG_QINQ
  else Ret k.

Definition ovs_key_ip (eth_type : Z) (k : keygen) : cres keygen :=
  let o := k_off k in
  if (k_next k =? RTE_ETHER_TYPE_IPV4) || (eth_type =? RTE_ETHER_TYPE_IPV4) then
    v ← load16 pkt (o + 6); key ← store16 (k_key k) 24 v;
    v ← load32 pkt (o + 16); key ← store32 key 26 v;
    v ← load32 pkt (o + 12); key ← store32 key 30 v;
    v ← cget pkt (o + 1); key ← cset key 54 v;
    key ← cset key 3 PROFILE_LT_LC_IP;
    next_proto ← cget pkt (o + 9);
    Ret {| k_key := key; k_off := o + 20; k_next := next_proto |}
  else if (k_next k =? RTE_ETHER_TYPE_IPV6) || (eth_type =? RTE_ETHER_TYPE_IPV6) then
    v ← sub pkt o 4; key ← blit (k_key k) 24 v;
    v ← sub pkt (o + 4) 4; key ← blit key 28 v;
    key ← cset key 3 PROFILE_LT_LC_IP6;
    next_proto ← cget pkt (o + 6);
    Ret {| k_key := key; k_off := o + 40; k_next := next_proto |}
  else Ret k.

Definition ovs_key_udp (k : keygen) : cres keygen :=
  if k_next k =? IPPROTO_UDP then
    v ← load32 pkt (k_off k); key ← store32 (k_key k) 34 v;
    key ← or_byte key 3 (Z.shiftl PROFILE_LT_LD_UDP 4);
    next_proto ← load16 pkt (k_off k + 2);
    Ret {| k_key := key; k_off := k_off k + 8; k_next := next_proto |}
  else Ret k.

Definition ovs_key_vxlan (k : keygen) : cres keygen :=
  if k_next k =? UDP_PORT_VXLAN then
    v ← load32 pkt (k_off k + 4); key ← store32 (k_key k) 34 v;
    key ← cset key 4 PROFILE_LT_LE_VXLAN;
    let o := k_off k + 8 in
    key ← reverse_memcpy key 38 pkt o 12;
    next_proto ← load16 pkt (o + 12);
    key ← store32 key 50 next_proto;
    Ret {| k_key := key; k_off := o + 14; k_next := next_proto |}
  else Ret k.

Definition ovs_key_inner (k : keygen) : cres keygen :=
  if k_next k =? RTE_ETHER_TYPE_IPV4 then
    v ← load16 pkt (k_off k + 6); key ← store16 (k_key k) 52 v;
    Ret {| k_key := key; k_off := k_off k; k_next := k_next k |}
  else Ret k.

Definition ovs_profile_key_generation (channel : Z) (key_buf : list Z) : cres (list Z) :=
  '(eth_type, k) ← ovs_key_eth channel key_buf;
  k ← ovs_key_vlan eth_type k;
  k ← ovs_key_ip eth_type k;
  k ← ovs_key_udp k;
  k ← ovs_key_vxlan k;
  k ← ovs_key_inner k;
  Ret (k_key k).
End ovs.

Section default.
Context (pkt : list Z).

Definition default_key_eth (channel : Z) (key : list Z) : cres (Z * keygen) :=
  key ← key_start channel key;
  eth_type ← load16 pkt 12;
  raw ← sub pkt 12 2;
  key ← blit key 6 raw;
  key ← reverse_memcpy key 9 pkt 0 6;
  Ret (eth_type, {| k_key := key; k_off := 14; k_next := 0 |}).

Definition default_key_tag (k : keygen) (o ltype : Z) : cres keygen :=
  next_proto ← load16 pkt (o + 2);
  key ← store16 (k_key k) 5 next_proto;
  tci ← load16 pkt o;
  key ← store16 key 7 tci;
  key ← or_byte key 2 (Z.shiftl ltype 4);
  Ret {| k_key := key; k_off := o + 4; k_next := next_proto |}.

Definition default_key_vlan (eth_type : Z) (k : keygen) : cres keygen :=
  if eth_type =? RTE_ETHER_TYPE_VLAN then default_key_tag k (k_off k) PROFILE_LT_LB_CTAG
  else if eth_type =? RTE_ETHER_TYPE_QINQ then default_key_tag k (k_off k + 4) PROFILE_LT_LB_STAG_QINQ
  else Ret k.

Definition default_key_ip (k : keygen) : cres keygen :=
  let o := k_off k in
  if k_next k =? RTE_ETHER_TYPE_IPV4 then
    v ← cget pkt (o + 1); key ← store32 (k_key k) 15 v;
    v ← load32 pkt (o + 16); key ← store32 key 16 v;
    v ← load32 pkt (o + 12); key ← store32 key 20 v;
    key ← cset key 3 PROFILE_LT_LC_IP;
    next_proto ← cget pkt (o + 9);
    Ret {| k_key := key; k_off := o + 20; k_next := next_proto |}
  else if k_next k =? RTE_ETHER_TYPE_IPV6 then
    v ← sub pkt o 4; key ← blit (k_key k) 15 v;
    v ← sub pkt (o + 4) 4; key ← blit key 19 v;
    key ← cset key 3 PROFILE_LT_LC_IP6;
    next_proto ← cget pkt (o + 6);
    Ret {| k_key := key; k_off := o + 40; k_next := next_proto |}
  else Ret k.

Definition default_key_l4 (k : keygen) : cres keygen :=
  let l4 ltype n :=
    v ← load32 pkt (k_off k); key ← store32 (k_key k) 24 v;
    key ← or_byte key 3 (Z.shiftl ltype 4);
    raw ← sub pkt (k_off k + 2) 2;
    Ret {| k_key := key; k_off := k_off k + n; k_next := le_word raw |} in
  if k_next k =? IPPROTO_UDP then l4 PROFILE_LT_LD_UDP 8
  else if k_next k =? IPPROTO_TCP then l4 PROFILE_LT_LD_TCP 0
  else Ret k.

Definition default_profile_key_generation (channel : Z) (key_buf : list Z) : cres (list Z) :=
  '(eth_type, k) ← default_key_eth channel key_buf;
  k ← default_key_vlan eth_type k;
  k ← default_key_ip k;
  k ← default_key_l4 k;
  Ret (k_key k).
End default.
