(* ===== verification/FlowMatch.v ===== *)
(** * What a flow rule matches: the parser, the profile and the ACL together

    A rule over Ethernet, VLAN, IPv4, UDP, VXLAN and the inner Ethernet and
    IPv4 headers is compiled by [flow_parse] with the OVS profile into bytes
    and a mask; the key of a packet is built by [ovs_profile_key_generation].
    Here the two are related: which packets the rule matches is stated on the
    headers of the packet. *)
From stdpp Require Import base option list numbers.
From S2P Require Import Prelude Rte FlowAcl FlowParser FlowProfile.

Local Open Scope Z_scope.

Definition ovs_parser : flow_parser := flow_parser_init ovs_kex_profile.

(** ** Rules *)

(** An item with a spec and a mask. *)
Record hdr_item := { h_spec : list Z; h_mask : list Z }.

Definition to_item (t : item_type) (h : hdr_item) : flow_item :=
  {| i_type := t; i_spec := Some (Bytes (h_spec h)); i_last := false; i_mask := Some (Bytes (h_mask h)) |}.

(** The headers behind Ethernet and VLAN, outermost first. *)
Definition inner_types : list item_type := [T_IPV4; T_UDP; T_VXLAN; T_ETH; T_IPV4].

Record ovs_rule := { r_eth : hdr_item; r_vlan : option hdr_item; r_inner : list hdr_item }.

Definition rule_pattern (r : ovs_rule) : list flow_item :=
  to_item T_ETH (r_eth r) :: (to_item T_VLAN <$> option_list (r_vlan r)) ++ zip_with to_item inner_types (r_inner r).

(** The bytes of a header that the profile can match. *)
Definition matchable (t : item_type) (inner : bool) : list nat :=
  match t, inner with
  | T_ETH, _ => seq 0 14
  | T_VLAN, _ => seq 0 4
  | T_IPV4, false => [1; 6; 7]%nat ++ seq 12 8
  | T_UDP, _ => seq 0 4
  | T_VXLAN, _ => seq 4 4
  | T_IPV4, true => [6; 7]%nat
  | _, _ => []
  end.

Definition hdr_len (t : item_type) : nat := match t with T_ETH => 14 | T_VLAN => 4 | T_IPV4 => 20 | _ => 8 end.

(** An item of the right size whose mask has only matchable bits; it does not
    ask for any VLAN, or for one more. *)
Record item_ok (t : item_type) (inner : bool) (h : hdr_item) : Prop := {
  io_spec : length (h_spec h) = Z.to_nat (sizeof_item t);
  io_mask : length (h_mask h) = Z.to_nat (sizeof_item t);
  io_spec_bytes : bytes (h_spec h);
  io_mask_bytes : bytes (h_mask h);
  io_matchable : forall i, (i < hdr_len t)%nat -> i ∉ matchable t inner -> byte_at (h_mask h) i = 0;
  io_no_vlan : t = T_ETH -> Z.testbit (byte_at (h_spec h) 14) 0 = false;
  io_no_more : t = T_VLAN -> Z.testbit (byte_at (h_spec h) 4) 0 = false;
}.

Definition inner_slots : list (item_type * bool) :=
  [(T_IPV4, false); (T_UDP, false); (T_VXLAN, false); (T_ETH, true); (T_IPV4, true)].

Record rule_ok (r : ovs_rule) : Prop := {
  ro_eth : item_ok T_ETH false (r_eth r);
  ro_vlan : forall h, r_vlan r = Some h -> item_ok T_VLAN false h;
  ro_len : (length (r_inner r) <= 5)%nat;
  ro_inner : forall k s h, inner_slots !! k = Some s -> r_inner r !! k = Some h -> item_ok s.1 s.2 h;
}.

(** ** Compiling a rule *)

(** The fields of the headers in the key. *)
Definition eth_fields : list (nat * nat * nat) := [(0, 12, 8); (12, 2, 20)]%nat.
Definition tag_fields : list (nat * nat * nat) := [(2, 2, 22); (4, 2, 20)]%nat.
Definition inner_fields : list (list (nat * nat * nat)) :=
  [[(6, 2, 24); (12, 8, 26); (1, 1, 54)]; [(0, 4, 34)]; [(4, 4, 34)]; [(0, 12, 38); (12, 2, 50)]; [(6, 2, 52)]]%nat.

Lemma mask_supported m hw n : (n <= length m)%nat -> length hw = n -> bytes m ->
  (forall i, (i < n)%nat -> byte_at hw i = 255 \/ byte_at hw i = 0 /\ byte_at m i = 0) ->
  mask_is_supported m (Some hw) (Z.of_nat n) = Ret true.
Proof.
  intros Hm Hhw Hb Hall. unfold mask_is_supported. rewrite !sub_Ret by lia. cbn [mbind cres_mbind]. f_equal.
  change (Z.to_nat 0) with 0%nat. rewrite Nat2Z.id, !drop_0. rewrite (take_ge hw) by lia.
  apply forallb_forall. intros [a b] Hin%list_elem_of_In. apply list_elem_of_lookup in Hin as [i Hi].
  rewrite lookup_zip_with in Hi. apply bind_Some in Hi as (x & Hx & Hi). apply bind_Some in Hi as (y & Hy & Hi).
  injection Hi as <- <-. apply lookup_take_Some in Hx as [Hx Hin]. cbn.
  specialize (Hall i Hin). unfold byte_at in Hall. rewrite Hx, Hy in Hall. cbn in Hall.
  pose proof (Forall_lookup_1 _ _ _ _ Hb Hx) as Hr. cbn in Hr. apply Z.eqb_eq.
  destruct Hall as [->|[-> ->]]; [|done]. change 255 with (Z.ones 8). apply Z.bits_inj'. intros j Hj.
  rewrite Z.lor_spec. destruct (decide (j < 8)) as [Hj8|Hj8].
  - rewrite Z.ones_spec_low by lia. by rewrite orb_true_r.
  - rewrite (testbit_small x 8) by lia. done.
Qed.

(** The mask the profile supports for a header: its matchable bytes. *)
Definition supports (t : item_type) (inner : bool) (lid ltype : Z) : Prop :=
  hw_supp_mask ovs_parser 0 (Z.of_nat (hdr_len t)) 0 lid ltype =
  (fun i => if decide (i ∈ matchable t inner) then 255 else 0) <$> seq 0 (hdr_len t).

Lemma byte_fmap_seq f n i : (i < n)%nat -> byte_at (f <$> seq 0 n) i = f i.
Proof. intros. unfold byte_at. rewrite list_lookup_fmap, lookup_seq_lt by done. done. Qed.

Lemma item_supported t inner h lid ltype : item_ok t inner h -> supports t inner lid ltype ->
  (hdr_len t <=? Z.to_nat (sizeof_item t))%nat = true ->
  mask_is_supported (h_mask h) (Some (hw_supp_mask ovs_parser 0 (Z.of_nat (hdr_len t)) 0 lid ltype)) (Z.of_nat (hdr_len t)) = Ret true.
Proof.
  intros Hok Hs Hsz%Nat.leb_le. rewrite Hs. apply mask_supported; [rewrite (io_mask _ _ _ Hok); lia| |apply (io_mask_bytes _ _ _ Hok)|].
  { by rewrite length_fmap, length_seq. }
  intros i Hi. rewrite byte_fmap_seq by done. case_decide; [by left|right]. split; [done|]. by apply (io_matchable _ _ _ Hok).
Qed.

(** A stage that takes the item at the pattern pointer. *)
Lemma item_basic_ok t inner h lid ltype pst : t <> T_RAW -> item_ok t inner h -> supports t inner lid ltype ->
  (hdr_len t <=? Z.to_nat (sizeof_item t))%nat = true -> nix_intf pst = 0 ->
  parse_item_basic (to_item t h) (item_info ovs_parser pst (Z.of_nat (hdr_len t)) 0 lid ltype) =
  pret {| def_mask := None; hw_mask := Some (hw_supp_mask ovs_parser 0 (Z.of_nat (hdr_len t)) 0 lid ltype);
          len := Z.of_nat (hdr_len t); spec := Some (h_spec h); mask := Some (h_mask h); hw_hdr_len := 0 |}.
Proof.
  intros Ht Hok Hs Hsz Hi. unfold parse_item_basic. cbn [to_item i_last i_spec i_mask i_type].
  unfold is_type. rewrite bool_decide_false by done. cbn [as_bytes mbind cres_mbind item_info hw_mask len].
  rewrite Hi, (item_supported t inner) by done. done.
Qed.

Lemma take_item_ok t inner h lid ltype fl fs pst rest : t <> T_RAW -> item_ok t inner h -> supports t inner lid ltype ->
  (hdr_len t <=? Z.to_nat (sizeof_item t))%nat = true -> nix_intf pst = 0 -> pattern pst = to_item t h :: rest ->
  layer_fields ovs_parser 0 lid ltype 0 (Z.of_nat (hdr_len t)) = Some fs -> 0 <= lid < 8 -> pst_ok pst ->
  take_item ovs_parser (item_info ovs_parser pst (Z.of_nat (hdr_len t)) 0 lid ltype) lid ltype fl pst =
  pret (layer_taken ovs_parser lid ltype fl (put_all fs (h_spec h) (pst_data pst)) (put_all fs (h_mask h) (pst_mask pst))
          (flag_js ovs_parser 0 lid ltype (seqZ 0 PROFILE_MAX_LD)) pst).
Proof.
  intros Ht Hok Hs Hsz Hi Hp Hfs Hlid Hpok. unfold take_item. rewrite Hp. cbn [item_at].
  rewrite (item_basic_ok t inner) by done. cbn [pbind pret].
  apply Nat.leb_le in Hsz.
  edestruct (update_parse_state_put ovs_parser) as [-> _]; [done|done| | | |done|done|by rewrite Hp|by rewrite Hi].
  - cbn. rewrite (io_spec _ _ _ Hok). lia.
  - cbn. rewrite (io_mask _ _ _ Hok). lia.
  - cbn. rewrite Hi. exact Hfs.
Qed.

Lemma layer_taken_ok lid ltype fl d m js pst : 0 <= lid < 8 -> length d = 56%nat -> length m = 56%nat ->
  num_patterns pst < 31 -> pst_ok pst -> pst_ok (layer_taken ovs_parser lid ltype fl d m js pst).
Proof.
  intros Hlid Hd Hm Hn [Hk Hlt Hfl Hdu Hnum]. split; cbn [layer_taken lt flags dump_data num_patterns pst_data pst_mask
    set_pattern set_dump with_key set_flags set_data set_layer].
  - by split.
  - by rewrite length_insert.
  - by rewrite length_flag_fold, length_insert.
  - by rewrite length_insert.
  - rewrite u16_id by word. lia.
Qed.

(** A state in the middle of parsing a rule of the ingress side. *)
Record good (n : Z) (pst : parse_state) : Prop := {
  g_ok : pst_ok pst;
  g_intf : nix_intf pst = 0;
  g_go : terminate pst = false;
  g_num : num_patterns pst <= n;
}.

(** The key bytes and layer types after the items [hs] were taken with the
    fields [fs] as the layers [lts]. *)
Definition put_items (g : hdr_item -> list Z) (fs : list (list (nat * nat * nat))) (hs : list hdr_item) (d : list Z) : list Z :=
  foldl (fun d fh => put_all fh.1 (g fh.2) d) d (zip fs hs).

Definition put_ltypes (lts : list (Z * Z)) (hs : list hdr_item) (l : list Z) : list Z :=
  foldl (fun l x => <[Z.to_nat x.1 := x.2]> l) l (take (length hs) lts).

Record ran (fs : list (list (nat * nat * nat))) (lts : list (Z * Z)) (hs : list hdr_item) (pst pst' : parse_state) : Prop := {
  ran_pattern : pattern pst' = [];
  ran_data : pst_data pst' = put_items h_spec fs hs (pst_data pst);
  ran_mask : pst_mask pst' = put_items h_mask fs hs (pst_mask pst);
  ran_lt : lt pst' = put_ltypes lts hs (lt pst);
  ran_flags : length (flags pst') = 8%nat;
  ran_key : key_ok pst';
  ran_intf : nix_intf pst' = 0;
  ran_vlan : set_vlan_ltype_mask pst' = set_vlan_ltype_mask pst;
  ran_ip6 : set_ipv6ext_ltype_mask pst' = set_ipv6ext_ltype_mask pst;
}.

Definition runs (stages : list (parse_state -> cres (Z + parse_state))) (l : list flow_item) (pst : parse_state)
    (fs : list (list (nat * nat * nat))) (lts : list (Z * Z)) (hs : list hdr_item) : Prop :=
  exists pst', parse_layers stages l pst = pret pst' /\ ran fs lts hs pst pst'.

Lemma runs_nil stages pst fs lts n : good n pst -> runs stages [] pst fs lts [].
Proof.
  intros [Hok Hi Hgo Hn]. exists (set_pattern [] pst). split; [by destruct stages|].
  assert (forall g d, put_items g fs [] d = d) as Hz by (intros; unfold put_items; by destruct fs).
  split; cbn [set_pattern pattern pst_data pst_mask lt flags nix_intf set_vlan_ltype_mask set_ipv6ext_ltype_mask];
    rewrite ?Hz; try done; [apply (po_flags _ Hok)|apply (po_key _ Hok)].
Qed.

(** The states that stages leave differ only in the tunnel flag and the
    Ethernet flag before the layer is taken. *)
Definition same_key (pst q : parse_state) : Prop :=
  pst_data q = pst_data pst /\ pst_mask q = pst_mask pst /\ lt q = lt pst /\ flags q = flags pst /\
  nix_intf q = nix_intf pst /\ terminate q = terminate pst /\ num_patterns q = num_patterns pst /\
  dump_data q = dump_data pst /\ set_vlan_ltype_mask q = set_vlan_ltype_mask pst /\
  set_ipv6ext_ltype_mask q = set_ipv6ext_ltype_mask pst.

Lemma same_key_good n pst q : same_key pst q -> good n pst -> good n q.
Proof.
  intros (H1 & H2 & H3 & H4 & H5 & H6 & H7 & H8 & _) [[[Hd Hm] Hlt Hfl Hdu Hnum] Hi Hgo Hn].
  split; [split; [split|..]|..]; rewrite ?H1, ?H2, ?H3, ?H4, ?H5, ?H6, ?H7, ?H8; done.
Qed.

(** Fields that lie within the item. *)
Definition fits (h : hdr_item) (fs : list (nat * nat * nat)) : Prop :=
  Forall (field_ok (length (h_spec h))) fs /\ Forall (field_ok (length (h_mask h))) fs.

Lemma taken_good n lid ltype fl fs h js pst : 0 <= lid < 8 -> n < 31 -> fits h fs -> good n pst ->
  good (n + 1) (layer_taken ovs_parser lid ltype fl (put_all fs (h_spec h) (pst_data pst))
                  (put_all fs (h_mask h) (pst_mask pst)) js pst).
Proof.
  intros Hlid Hn [Hf1 Hf2] [Hpo Hi Hgo Hnum]. pose proof (po_num _ Hpo) as Hnp. split.
  - apply layer_taken_ok; try done; [..|lia]; (apply length_put_all; [done|apply Hpo]).
  - exact Hi.
  - cbn [layer_taken terminate set_pattern set_dump with_key set_flags set_data set_layer]. by rewrite Hgo.
  - cbn [layer_taken num_patterns set_pattern set_dump with_key set_flags set_data set_layer]. rewrite u16_id by word. lia.
Qed.

(** An item that the stages do not pass over. *)
Definition solid (it : flow_item) : Prop := i_type it <> T_VOID /\ i_type it <> T_ANY /\ i_type it <> T_END.

Lemma layers_step stage stages it rest pst : solid it ->
  parse_layers (stage :: stages) (it :: rest) pst =
  pst ←? stage (set_pattern (it :: rest) pst); if terminate pst then pret pst else parse_layers stages (pattern pst) pst.
Proof.
  intros (Hv & Ha & He). cbn [parse_layers]. unfold is_type, type_at. cbn [item_at]. rewrite bool_decide_false by done.
  assert (parse_skip_void_and_any_items (it :: rest) = it :: rest) as ->; [|done].
  cbn. unfold is_type. by rewrite !bool_decide_false.
Qed.

Lemma runs_cons stage stages it h hs lid ltype fl f fs lts js rest pst q n : solid it ->
  good n pst -> n < 31 -> 0 <= lid < 8 -> fits h f -> same_key pst q -> pattern q = it :: rest ->
  stage (set_pattern (it :: rest) pst) =
    pret (layer_taken ovs_parser lid ltype fl (put_all f (h_spec h) (pst_data q)) (put_all f (h_mask h) (pst_mask q)) js q) ->
  (forall p, good (n + 1) p -> pattern p = rest -> tunnel p = tunnel q -> runs stages rest p fs lts hs) ->
  runs (stage :: stages) (it :: rest) pst (f :: fs) ((lid, ltype) :: lts) (h :: hs).
Proof.
  intros Hs Hg Hn Hlid Hf Hsame Hq Hst Hrest.
  pose proof (same_key_good _ _ _ Hsame Hg) as Hgq. pose proof (taken_good n lid ltype fl f h js q Hlid Hn Hf Hgq) as Hgt.
  destruct (Hrest _ Hgt) as (p & Hp & Hran); [cbn; by rewrite Hq|done|]. exists p. split.
  - rewrite layers_step by done. rewrite Hst. cbn [pbind pret]. rewrite (g_go _ _ Hgt).
    cbn [layer_taken pattern set_pattern]. rewrite Hq. cbn [tail]. exact Hp.
  - destruct Hsame as (Hd & Hm & Hlt & Hfl & Hi & _ & _ & _ & Hvl & Hip). destruct Hran as [R1 R2 R3 R4 R5 R9 R6 R7 R8].
    split; try done.
    + rewrite R2. cbn [layer_taken pst_data set_pattern set_dump with_key set_flags set_data]. by rewrite Hd.
    + rewrite R3. cbn [layer_taken pst_mask set_pattern set_dump with_key set_flags set_data]. by rewrite Hm.
    + rewrite R4. cbn [layer_taken lt set_pattern set_dump with_key set_flags set_data set_layer]. by rewrite Hlt.
    + rewrite R7. exact Hvl.
    + rewrite R8. exact Hip.
Qed.

(** A stage that does not know the item leaves it to the next. *)
Lemma runs_skip stage stages it rest pst fs lts hs : solid it -> terminate pst = false ->
  stage (set_pattern (it :: rest) pst) = pret (set_pattern (it :: rest) pst) ->
  runs stages (it :: rest) (set_pattern (it :: rest) pst) fs lts hs -> runs (stage :: stages) (it :: rest) pst fs lts hs.
Proof.
  intros Hs Hgo Hst (p & Hp & Hran). exists p. split.
  - rewrite layers_step by done. rewrite Hst. cbn [pbind pret]. cbn [terminate set_pattern]. by rewrite Hgo.
  - destruct Hran. by split.
Qed.

(** ** The stages of the headers behind Ethernet and VLAN *)

Lemma same_key_pattern l pst : same_key pst (set_pattern l pst).
Proof. done. Qed.

Lemma same_key_tunnel l b pst : same_key pst (set_tunnel b (set_pattern l pst)).
Proof. done. Qed.

Lemma set_pattern_good n l pst : good n pst -> good n (set_pattern l pst).
Proof. apply same_key_good, same_key_pattern. Qed.

Lemma set_tunnel_good n l b pst : good n pst -> good n (set_tunnel b (set_pattern l pst)).
Proof. apply same_key_good, same_key_tunnel. Qed.

#[local] Hint Resolve same_key_pattern same_key_tunnel set_pattern_good set_tunnel_good : dao.

Lemma item_fits t inner h fs : item_ok t inner h ->
  forallb (fun f => (f.1.1 + f.1.2 <=? Z.to_nat (sizeof_item t)) && (f.2 + f.1.2 <=? 56))%nat fs = true -> fits h fs.
Proof.
  intros Hok Hf. rewrite forallb_forall in Hf. split; rewrite ?(io_spec _ _ _ Hok), ?(io_mask _ _ _ Hok); apply Forall_forall;
    intros f Hin; specialize (Hf f Hin); apply andb_true_iff in Hf as [H1%Nat.leb_le H2%Nat.leb_le]; by split.
Qed.

(** The stage takes the item: the common part of the lemmas below. *)
Ltac stage_takes t inner :=
  eapply runs_cons; [done|eassumption|lia|split; [discriminate|reflexivity]|by eapply (item_fits t inner)|..].

Lemma has_bit_at l o i : 0 <= o < Z.of_nat (length l) -> has_bit l o i = Ret (Z.testbit (byte_at l (Z.to_nat o)) i).
Proof.
  intros Ho. unfold has_bit. destruct (cget_in_range l o Ho) as [x Hx]. rewrite Hx. cbn [mbind cres_mbind].
  apply cget_Ret in Hx as [_ Hx]. unfold byte_at. by rewrite Hx.
Qed.

Lemma eth_no_vlan inner h : item_ok T_ETH inner h -> eth_has_vlan (to_item T_ETH h) = Ret false.
Proof.
  intros Hok. unfold eth_has_vlan. cbn [to_item i_spec as_bytes mbind cres_mbind].
  rewrite has_bit_at by (rewrite (io_spec _ _ _ Hok); cbn; lia).
  change (Z.to_nat 14) with 14%nat. by rewrite (io_no_vlan _ _ _ Hok).
Qed.

Lemma run_lg hs pst n : good n pst -> n < 31 -> tunnel pst = true -> (length hs <= 1)%nat ->
  (forall h, hs !! 0%nat = Some h -> item_ok T_IPV4 true h) ->
  runs [parse_lg ovs_parser; parse_lh ovs_parser] (zip_with to_item (drop 4 inner_types) hs) pst
    (drop 4 inner_fields) [(PROFILE_LID_LG, PROFILE_LT_LG_TU_IP)] hs.
Proof.
  intros Hg Hn Ht Hl Hok. destruct hs as [|h [|h' hs]]; [by eapply runs_nil| |cbn in Hl; lia].
  specialize (Hok h eq_refl). cbn [drop inner_types inner_fields zip_with]. stage_takes T_IPV4 true.
  - apply same_key_pattern.
  - done.
  - unfold parse_lg. cbn [tunnel set_pattern pattern type_at item_at to_item i_type]. rewrite Ht. cbn [negb].
    apply (take_item_ok T_IPV4 true h _ _ _ _ _ []); try done; [apply Hg|apply (set_pattern_good _ _ _ Hg)].
  - intros p Hp _ _. by eapply runs_nil.
Qed.

Lemma run_lf hs pst n : good n pst -> n < 30 -> tunnel pst = true -> (length hs <= 2)%nat ->
  (forall h, hs !! 0%nat = Some h -> item_ok T_ETH true h) -> (forall h, hs !! 1%nat = Some h -> item_ok T_IPV4 true h) ->
  runs [parse_lf ovs_parser; parse_lg ovs_parser; parse_lh ovs_parser] (zip_with to_item (drop 3 inner_types) hs) pst
    (drop 3 inner_fields) [(PROFILE_LID_LF, PROFILE_LT_LF_TU_ETHER); (PROFILE_LID_LG, PROFILE_LT_LG_TU_IP)] hs.
Proof.
  intros Hg Hn Ht Hl Hok Hok1. destruct hs as [|h hs]; [by eapply runs_nil|].
  specialize (Hok h eq_refl). cbn [drop inner_types inner_fields zip_with]. stage_takes T_ETH true.
  - apply same_key_pattern.
  - done.
  - unfold parse_lf. cbn [tunnel set_pattern pattern type_at item_at to_item i_type]. rewrite Ht. cbn [negb is_type].
    unfold is_type. rewrite bool_decide_true by done. cbn [negb advance length Nat.leb drop mbind cres_mbind].
    assert (forall l, inner_vlans (length (zip_with to_item [T_IPV4] hs))
      (parse_skip_void_and_any_items (zip_with to_item [T_IPV4] hs)) l 0 = Ret (0, l)) as Hv by (intros; by destruct hs).
    rewrite Hv. cbn [mbind cres_mbind Z.ltb Z.eqb]. change (2 <? 0) with false. cbn match.
    pose proof (eth_no_vlan true h Hok) as He.
    rewrite He. cbn [mbind cres_mbind].
    apply (take_item_ok T_ETH true h PROFILE_LID_LF PROFILE_LT_LF_TU_ETHER 0 _
      (set_pattern (to_item T_ETH h :: zip_with to_item [T_IPV4] hs) pst) (zip_with to_item [T_IPV4] hs)); try done;
      [apply Hg|apply (set_pattern_good _ _ _ Hg)].
  - intros p Hp _ Htp. apply (run_lg hs p (n + 1)); [done|lia|by rewrite Htp|cbn in Hl; lia|].
    intros h' Hh'. by apply Hok1.
Qed.

Lemma run_le hs pst n : good n pst -> n < 29 -> tunnel pst = false -> (length hs <= 3)%nat ->
  (forall k s h, drop 2 inner_slots !! k = Some s -> hs !! k = Some h -> item_ok s.1 s.2 h) ->
  runs [parse_le ovs_parser; parse_lf ovs_parser; parse_lg ovs_parser; parse_lh ovs_parser]
    (zip_with to_item (drop 2 inner_types) hs) pst (drop 2 inner_fields)
    [(PROFILE_LID_LE, PROFILE_LT_LE_VXLAN); (PROFILE_LID_LF, PROFILE_LT_LF_TU_ETHER); (PROFILE_LID_LG, PROFILE_LT_LG_TU_IP)] hs.
Proof.
  intros Hg Hn Ht Hl Hok. destruct hs as [|h hs]; [by eapply runs_nil|].
  pose proof (Hok 0%nat _ h eq_refl eq_refl) as Hh. cbn [drop inner_types inner_fields inner_slots zip_with fst snd] in *.
  set (rest := match hs with [] => [] | _ => _ end). stage_takes T_VXLAN false.
  - apply (same_key_tunnel (to_item T_VXLAN h :: rest) true).
  - done.
  - unfold parse_le. cbn [tunnel set_pattern pattern]. rewrite Ht. cbn [type_at item_at to_item i_type].
    unfold is_type at 1. rewrite bool_decide_false by done.
    apply (take_item_ok T_VXLAN false h PROFILE_LID_LE PROFILE_LT_LE_VXLAN PROFILE_F_UDP_VXLAN _
      (set_tunnel true (set_pattern (to_item T_VXLAN h :: rest) pst)) rest); try done;
      [apply Hg|apply (set_tunnel_good _ _ _ _ Hg)].
  - intros p Hp _ Htp. apply (run_lf hs p (n + 1)); [done|lia|by rewrite Htp|cbn in Hl; lia|..]; intros h' Hh'.
    + apply (Hok 1%nat (T_ETH, true)); done.
    + apply (Hok 2%nat (T_IPV4, true)); done.
Qed.

Lemma run_ld hs pst n : good n pst -> n < 28 -> tunnel pst = false -> (length hs <= 4)%nat ->
  (forall k s h, drop 1 inner_slots !! k = Some s -> hs !! k = Some h -> item_ok s.1 s.2 h) ->
  runs [parse_ld ovs_parser; parse_le ovs_parser; parse_lf ovs_parser; parse_lg ovs_parser; parse_lh ovs_parser]
    (zip_with to_item (drop 1 inner_types) hs) pst (drop 1 inner_fields)
    [(PROFILE_LID_LD, PROFILE_LT_LD_UDP); (PROFILE_LID_LE, PROFILE_LT_LE_VXLAN); (PROFILE_LID_LF, PROFILE_LT_LF_TU_ETHER);
     (PROFILE_LID_LG, PROFILE_LT_LG_TU_IP)] hs.
Proof.
  intros Hg Hn Ht Hl Hok. destruct hs as [|h hs]; [by eapply runs_nil|].
  pose proof (Hok 0%nat _ h eq_refl eq_refl) as Hh. cbn [drop inner_types inner_fields inner_slots fst snd] in *.
  set (types := [T_VXLAN; T_ETH; T_IPV4]). cbn [zip_with].
  fold (zip_with to_item types hs). stage_takes T_UDP false.
  - apply (same_key_pattern (to_item T_UDP h :: zip_with to_item types hs)).
  - done.
  - unfold parse_ld. cbn [tunnel set_pattern pattern]. rewrite Ht. cbn [type_at item_at to_item i_type].
    apply (take_item_ok T_UDP false h PROFILE_LID_LD PROFILE_LT_LD_UDP 0 _
      (set_pattern (to_item T_UDP h :: zip_with to_item types hs) pst) (zip_with to_item types hs)); try done;
      [apply Hg|apply (set_pattern_good _ _ _ Hg)].
  - intros p Hp _ Htp. apply (run_le hs p (n + 1)); [done|lia|by rewrite Htp|cbn in Hl; lia|].
    intros k s h' Hs Hh'. by apply (Hok (S k)).
Qed.

Definition inner_lts : list (Z * Z) :=
  [(PROFILE_LID_LC, PROFILE_LT_LC_IP); (PROFILE_LID_LD, PROFILE_LT_LD_UDP); (PROFILE_LID_LE, PROFILE_LT_LE_VXLAN);
   (PROFILE_LID_LF, PROFILE_LT_LF_TU_ETHER); (PROFILE_LID_LG, PROFILE_LT_LG_TU_IP)].

Lemma run_lc hs pst n : good n pst -> n < 27 -> tunnel pst = false -> (length hs <= 5)%nat ->
  (forall k s h, inner_slots !! k = Some s -> hs !! k = Some h -> item_ok s.1 s.2 h) ->
  runs [parse_lc ovs_parser; parse_ld ovs_parser; parse_le ovs_parser; parse_lf ovs_parser; parse_lg ovs_parser; parse_lh ovs_parser]
    (zip_with to_item inner_types hs) pst inner_fields inner_lts hs.
Proof.
  intros Hg Hn Ht Hl Hok. destruct hs as [|h hs]; [by eapply runs_nil|].
  pose proof (Hok 0%nat _ h eq_refl eq_refl) as Hh. cbn [inner_slots fst snd] in Hh. unfold inner_types, inner_lts.
  set (types := [T_UDP; T_VXLAN; T_ETH; T_IPV4]). cbn [zip_with inner_fields].
  fold (zip_with to_item types hs). stage_takes T_IPV4 false.
  - apply (same_key_pattern (to_item T_IPV4 h :: zip_with to_item types hs)).
  - done.
  - unfold parse_lc. cbn [set_pattern pattern type_at item_at to_item i_type]. unfold check_lc_ip_tunnel.
    change (pattern (set_pattern ?l pst)) with l. unfold advance. cbn [length Nat.leb drop mbind cres_mbind].
    assert (type_at (parse_skip_void_and_any_items (zip_with to_item types hs)) = T_UDP \/
            type_at (parse_skip_void_and_any_items (zip_with to_item types hs)) = T_END) as Htyp
      by (destruct hs; [by right|by left]).
    rewrite drop_0. destruct Htyp as [-> | ->];
    (apply (take_item_ok T_IPV4 false h PROFILE_LID_LC PROFILE_LT_LC_IP 0 _
      (set_pattern (to_item T_IPV4 h :: zip_with to_item types hs) pst) (zip_with to_item types hs)); try done;
      [apply Hg|apply (set_pattern_good _ _ _ Hg)]).
  - intros p Hp _ Htp. apply (run_ld hs p (n + 1)); [done|lia|by rewrite Htp|cbn in Hl; lia|].
    intros k s h' Hs Hh'. by apply (Hok (S k)).
Qed.

(** ** Ethernet, VLAN, and the whole pattern *)

(** The buffer of [update_vlan_parse_state]: the header of the VLAN item
    behind the TPID. *)
Definition tag_buf (l : list Z) : list Z := zeros 2 ++ take 4 l ++ zeros 6.

Definition tag_item (h : hdr_item) : hdr_item := {| h_spec := tag_buf (h_spec h); h_mask := tag_buf (h_mask h) |}.

Lemma tag_bufs_ok h rest : item_ok T_VLAN false h ->
  vlan_bufs (to_item T_VLAN h :: rest) 1 TPID_LENGTH (zeros 12, zeros 12) = Ret (h_spec (tag_item h), h_mask (tag_item h)).
Proof.
  intros Hok. pose proof (io_spec _ _ _ Hok) as Hs. pose proof (io_mask _ _ _ Hok) as Hm. cbn in Hs, Hm.
  cbn [vlan_bufs item_at to_item i_spec i_mask copy_opt as_bytes mbind cres_mbind fst snd].
  unfold sizeof_vlan_hdr, TPID_LENGTH. rewrite !sub_Ret by lia. cbn [mbind cres_mbind].
  change (Z.to_nat 4) with 4%nat. change (Z.to_nat 0) with 0%nat. rewrite !drop_0.
  rewrite !blit_Ret by (unfold zeros; rewrite ?length_take, ?length_replicate; lia). cbn [mbind cres_mbind].
  rewrite !length_take, Hs, Hm. done.
Qed.

Lemma length_tag_buf l : length l = 8%nat -> length (tag_buf l) = 12%nat.
Proof. intros Hl. unfold tag_buf. rewrite !length_app, length_take, Hl. done. Qed.

Lemma byte_tag_buf l i : length l = 8%nat -> byte_at (tag_buf l) i = if decide (2 <= i < 6)%nat then byte_at l (i - 2) else 0.
Proof.
  intros Hl. assert (forall n k, byte_at (zeros n) k = 0) as Hz.
  { intros n k. unfold byte_at, zeros. destruct (decide (k < Z.to_nat n)%nat);
      [by rewrite lookup_replicate_2|rewrite lookup_ge_None_2; [done|rewrite length_replicate; lia]]. }
  unfold tag_buf. rewrite !byte_app, !Hz, length_take, Hl. unfold zeros. rewrite length_replicate.
  change (Z.to_nat 2) with 2%nat. cbn [Nat.min]. repeat case_decide; try lia. by rewrite byte_take by lia.
Qed.

Lemma tag_supported h : item_ok T_VLAN false h ->
  mask_is_supported (h_mask (tag_item h)) (Some (hw_supp_mask ovs_parser 0 6 0 PROFILE_LID_LB PROFILE_LT_LB_CTAG)) 6 = Ret true.
Proof.
  intros Hok. pose proof (io_mask _ _ _ Hok) as Hm. change (Z.to_nat (sizeof_item T_VLAN)) with 8%nat in Hm.
  apply (mask_supported _ _ 6).
  - cbn [tag_item h_mask]. rewrite length_tag_buf by done. lia.
  - done.
  - cbn [tag_item h_mask]. unfold tag_buf. rewrite !bytes_app.
    pose proof (io_mask_bytes _ _ _ Hok). auto with dao.
  - intros i Hi. cbn [tag_item h_mask]. rewrite byte_tag_buf by done.
    change (hw_supp_mask _ _ _ _ _ _) with [0; 0; 255; 255; 255; 255]%Z. case_decide as H2.
    + left. assert (i = 2 \/ i = 3 \/ i = 4 \/ i = 5)%nat as [-> | [-> | [-> | ->]]] by lia; done.
    + right. assert (i = 0 \/ i = 1)%nat as [-> | ->] by lia; done.
Qed.

(** The types of items in front of which a tag list ends. *)
Definition no_tag (l : list flow_item) : Prop := type_at (parse_skip_void_and_any_items l) <> T_VLAN.

Lemma vlan_one h rest intf : item_ok T_VLAN false h -> no_tag rest ->
  parse_vlan_count (length (to_item T_VLAN h :: rest)) (to_item T_VLAN h :: rest) 0 = pret [to_item T_VLAN h :: rest] /\
  parse_vlan_ltype_get ovs_parser intf [to_item T_VLAN h :: rest] = pret (PROFILE_LT_LB_CTAG, 0).
Proof.
  intros Hok Hn. split.
  - cbn [length parse_vlan_count]. unfold type_at at 1. cbn [item_at to_item i_type i_last]. unfold is_type at 1.
    rewrite bool_decide_true by done. change (MAX_SUPPORTED_VLANS - 1 <? 0) with false. cbn match.
    unfold advance. cbn [length Nat.leb drop mbind cres_mbind]. rewrite drop_0.
    destruct (length rest) eqn:Hl; cbn [parse_vlan_count]; unfold is_type; by rewrite bool_decide_false.
  - unfold parse_vlan_ltype_get, has_more_vlan. cbn [length list_lookup lookup deref mbind cres_mbind item_at to_item i_spec as_bytes].
    rewrite has_bit_at by (rewrite (io_spec _ _ _ Hok); cbn; lia). cbn [mbind cres_mbind].
    change (Z.to_nat 4) with 4%nat. by rewrite (io_no_more _ _ _ Hok).
Qed.

Lemma lb_vlan_ok h rest pst : item_ok T_VLAN false h -> no_tag rest -> nix_intf pst = 0 -> pst_ok pst ->
  pattern pst = to_item T_VLAN h :: rest ->
  parse_lb ovs_parser pst =
  pret (layer_taken ovs_parser PROFILE_LID_LB PROFILE_LT_LB_CTAG 0 (put_all tag_fields (h_spec (tag_item h)) (pst_data pst))
          (put_all tag_fields (h_mask (tag_item h)) (pst_mask pst))
          (flag_js ovs_parser 0 PROFILE_LID_LB PROFILE_LT_LB_CTAG (seqZ 0 PROFILE_MAX_LD)) pst).
Proof.
  intros Hok Hn Hi Hpo Hp. destruct (vlan_one h rest (nix_intf pst) Hok Hn) as [Hc Ht].
  assert (set_pattern (to_item T_VLAN h :: rest) pst = pst) as Hsame by (rewrite <- Hp; by destruct pst).
  unfold parse_lb. rewrite Hp. cbn [type_at item_at to_item i_type]. unfold parse_lb_vlan. rewrite Hp, Hc.
  cbn [pbind pret]. rewrite Ht. cbn [pbind pret length Nat.eqb andb list_lookup lookup deref mbind cres_mbind Nat.min Nat.ltb Nat.leb].
  unfold update_vlan_parse_state. cbn [Nat.min]. rewrite (tag_bufs_ok h rest Hok). cbn [mbind cres_mbind].
  change (if PROFILE_LT_LB_CTAG =? PROFILE_LT_LB_CTAG then sizeof_vlan_hdr + TPID_LENGTH else _) with 6.
  rewrite Hi, (tag_supported h Hok). cbn [mbind cres_mbind negb]. rewrite Hsame.
  pose proof (io_spec _ _ _ Hok) as Hls. pose proof (io_mask _ _ _ Hok) as Hlm. change (Z.to_nat (sizeof_item T_VLAN)) with 8%nat in Hls, Hlm.
  match goal with |- context [update_parse_state ovs_parser ?i ?li ?ty _ _] =>
    destruct (update_parse_state_put ovs_parser i li ty 0 tag_fields (h_spec (tag_item h)) (h_mask (tag_item h)) pst) as [-> _] end;
    cbn [spec mask len hw_hdr_len tag_item h_spec h_mask]; try done.
  - rewrite length_tag_buf by done. lia.
  - rewrite length_tag_buf by done. lia.
  - by rewrite Hi.
  - by rewrite Hp.
  - cbn [pbind pret]. by rewrite Hi.
Qed.

Definition rule_items (r : ovs_rule) : list hdr_item :=
  r_eth r :: (tag_item <$> option_list (r_vlan r)) ++ r_inner r.

Definition item_fields (r : ovs_rule) : list (list (nat * nat * nat)) :=
  eth_fields :: ((fun _ => tag_fields) <$> option_list (r_vlan r)) ++ inner_fields.

Definition item_lts (r : ovs_rule) : list (Z * Z) :=
  (PROFILE_LID_LA, PROFILE_LT_LA_ETHER) ::
  ((fun _ => (PROFILE_LID_LB, PROFILE_LT_LB_CTAG)) <$> option_list (r_vlan r)) ++ inner_lts.

Lemma init_good : good 0 (init_state 0).
Proof. by repeat split. Qed.

Lemma la_eth_ok h rest pst : item_ok T_ETH false h -> nix_intf pst = 0 -> pst_ok pst -> pattern pst = to_item T_ETH h :: rest ->
  parse_la ovs_parser pst =
  pret (layer_taken ovs_parser PROFILE_LID_LA PROFILE_LT_LA_ETHER 0 (put_all eth_fields (h_spec h) (pst_data pst))
          (put_all eth_fields (h_mask h) (pst_mask pst))
          (flag_js ovs_parser 0 PROFILE_LID_LA PROFILE_LT_LA_ETHER (seqZ 0 PROFILE_MAX_LD)) (set_has_eth true pst)).
Proof.
  intros Hok Hi Hpo Hp. unfold parse_la. rewrite Hp. cbn [type_at item_at to_item i_type]. unfold is_type at 1.
  rewrite bool_decide_true by done. cbn [negb]. change (nix_intf (set_has_eth true pst)) with (nix_intf pst). rewrite Hi.
  change (0 =? NIX_INTF_TX) with false. cbn match.
  change (switch_header_type ovs_parser =? PARSER_PRIV_FLAGS_HIGIG) with false. cbn match.
  pose proof (take_item_ok T_ETH false h PROFILE_LID_LA PROFILE_LT_LA_ETHER 0 eth_fields (set_has_eth true pst) rest) as Htk.
  change (Z.of_nat (hdr_len T_ETH)) with sizeof_eth_hdr in Htk. rewrite Htk; try done.
  - cbn [pbind pret]. pose proof (eth_no_vlan false h Hok) as He. rewrite He. done.
  - by destruct Hpo.
Qed.

Lemma no_tag_inner hs : no_tag (zip_with to_item inner_types hs).
Proof. by destruct hs. Qed.

Lemma run_rule r : rule_ok r ->
  runs (parse_stage_funcs ovs_parser) (rule_pattern r) (init_state 0) (item_fields r) (item_lts r) (rule_items r).
Proof.
  intros [Heth Hvlan Hlen Hinner]. unfold rule_pattern.
  set (rest := (to_item T_VLAN <$> option_list (r_vlan r)) ++ zip_with to_item inner_types (r_inner r)).
  unfold parse_stage_funcs. do 4 (apply runs_skip; [done|done|done|]).
  match goal with |- runs _ _ ?p _ _ _ => set (pst0 := p) end. assert (good 0 pst0) as Hg0 by (do 4 apply set_pattern_good; apply init_good).
  assert (fits (r_eth r) eth_fields) as Hfit by by apply (item_fits T_ETH false).
  apply (runs_cons _ _ _ _ _ PROFILE_LID_LA PROFILE_LT_LA_ETHER 0 _ _ _
    (flag_js ovs_parser 0 PROFILE_LID_LA PROFILE_LT_LA_ETHER (seqZ 0 PROFILE_MAX_LD)) _ _
    (set_has_eth true (set_pattern (to_item T_ETH (r_eth r) :: rest) pst0)) 0); try done.
  { by apply (la_eth_ok _ rest (set_pattern (to_item T_ETH (r_eth r) :: rest) pst0)). }
  intros p Hp Hpp Htp. change (tunnel _) with false in Htp at 2. subst rest.
  destruct (r_vlan r) as [v|] eqn:Hv; cbn [option_list fmap list_fmap app] in *.
  - specialize (Hvlan v eq_refl).
    assert (fits (tag_item v) tag_fields) as Hfv.
    { pose proof (io_spec _ _ _ Hvlan) as H1. pose proof (io_mask _ _ _ Hvlan) as H2. cbn in H1, H2.
      split; cbn [tag_item h_spec h_mask]; rewrite length_tag_buf by done; repeat constructor; cbn; lia. }
    apply (runs_cons _ _ _ _ _ PROFILE_LID_LB PROFILE_LT_LB_CTAG 0 _ _ _
      (flag_js ovs_parser 0 PROFILE_LID_LB PROFILE_LT_LB_CTAG (seqZ 0 PROFILE_MAX_LD)) _ _
      (set_pattern (to_item T_VLAN v :: zip_with to_item inner_types (r_inner r)) p) 1); try done.
    { apply (lb_vlan_ok _ (zip_with to_item inner_types (r_inner r))); try done; [apply no_tag_inner|apply Hp|apply (set_pattern_good _ _ _ Hp)]. }
    intros q Hq Hqp Htq. apply (run_lc _ q 2); try done. rewrite Htq. exact Htp.
  - destruct (r_inner r) as [|h hs] eqn:Hin; [by eapply runs_nil|].
    cbn [inner_types zip_with]. apply runs_skip; [done|apply Hp|done|].
    apply (run_lc (h :: hs) _ 1); try done. by apply set_pattern_good.
Qed.

(** ** The layer types of a rule *)

Definition hdr_data (v : bool) (n : nat) : list Z :=
  [0; 0; 2 + (if v then 32 else 0); (if (1 <=? n)%nat then 2 else 0) + (if (2 <=? n)%nat then 32 else 0);
   if (3 <=? n)%nat then 1 else 0].

Definition hdr_mask (v : bool) (n : nat) : list Z :=
  [0; 0; 15 + (if v then 240 else 0); (if (1 <=? n)%nat then 15 else 0) + (if (2 <=? n)%nat then 240 else 0);
   if (3 <=? n)%nat then 15 else 0].

Definition shape_lts (v : bool) (n : nat) : list Z :=
  foldl (fun l x => <[Z.to_nat x.1 := x.2]> l) (zeros 8)
    ((PROFILE_LID_LA, PROFILE_LT_LA_ETHER) :: (if v then [(PROFILE_LID_LB, PROFILE_LT_LB_CTAG)] else []) ++ take n inner_lts).

Lemma nibbles_shape pst v n : (n <= 5)%nat -> lt pst = shape_lts v n -> length (flags pst) = 8%nat ->
  exists o, layer_nibbles ovs_parser 0 nibbles pst ([0; 0], [0; 0], 16, 0) =
    Ret ([le_word (hdr_data v n); 0], [le_word (hdr_mask v n); 0], o, 0).
Proof.
  intros Hn Hlt Hfl. destruct pst as [? ? ? ? ? ? l fl ? ? ? ? ? ? ? ?]. cbn in Hlt, Hfl. subst l.
  do 8 (destruct fl as [|? fl]; [done|]). destruct fl; [|done].
  destruct v; do 6 (destruct n as [|n]; [eexists; vm_compute; reflexivity|]); lia.
Qed.

Lemma populate_shape pst v n : (n <= 5)%nat -> lt pst = shape_lts v n -> length (flags pst) = 8%nat -> nix_intf pst = 0 ->
  key_ok pst -> set_vlan_ltype_mask pst = false -> set_ipv6ext_ltype_mask pst = false ->
  populate_parsed_data ovs_parser pst =
    pret (set_data (hdr_data v n ++ drop 5 (pst_data pst)) (hdr_mask v n ++ drop 5 (pst_mask pst)) pst).
Proof.
  intros Hn Hlt Hfl Hi [Hd Hm] Hvl Hip. unfold populate_parsed_data. rewrite Hi.
  change (4 * popcount32 _) with 16. destruct (nibbles_shape pst v n Hn Hlt Hfl) as [o Ho]. rewrite Ho. cbn [mbind cres_mbind].
  change ((keyx_len ovs_parser 0 + 7) / 8) with 5.
  assert (forall w, mjoin (le_bytes 8 <$> [w; 0]) = le_bytes 8 w ++ le_bytes 8 0) as Hj by (intros; reflexivity).
  assert (sub (le_bytes 8 (le_word (hdr_data v n)) ++ le_bytes 8 0) 0 5 = Ret (hdr_data v n)) as Hsd
    by (destruct v; do 6 (destruct n as [|n]; [reflexivity|]); lia).
  assert (sub (le_bytes 8 (le_word (hdr_mask v n)) ++ le_bytes 8 0) 0 5 = Ret (hdr_mask v n)) as Hsm
    by (destruct v; do 6 (destruct n as [|n]; [reflexivity|]); lia).
  rewrite !Hj, Hsd, Hsm. cbn [mbind cres_mbind]. rewrite !blit_Ret by (try done; cbn [length hdr_data hdr_mask]; lia).
  cbn [mbind cres_mbind]. change (set_vlan_ltype_mask (set_data ?a ?b pst)) with (set_vlan_ltype_mask pst). rewrite Hvl.
  cbn [mbind cres_mbind]. change (set_ipv6ext_ltype_mask (set_data ?a ?b pst)) with (set_ipv6ext_ltype_mask pst). by rewrite Hip.
Qed.

Definition has_tag (r : ovs_rule) : bool := bool_decide (is_Some (r_vlan r)).

(** What the rule compiles to. *)
Definition compiled (r : ovs_rule) : parsed_flow :=
  {| parsed_data := hdr_data (has_tag r) (length (r_inner r)) ++
                    drop 5 (put_items h_spec (item_fields r) (rule_items r) (zeros 56));
     parsed_data_mask := hdr_mask (has_tag r) (length (r_inner r)) ++
                         drop 5 (put_items h_mask (item_fields r) (rule_items r) (zeros 56)) |}.

Lemma flow_parse_ok r attr : rule_ok r -> parse_attr (Some attr) = pret NIX_INTF_RX ->
  flow_parse ovs_parser true (Some attr) (Some (rule_pattern r)) = Ret (Some (compiled r)).
Proof.
  intros Hr Ha. destruct (run_rule r Hr) as (p & Hp & [R1 R2 R3 R4 R5 R9 R6 R7 R8]).
  unfold flow_parse, parse_rule. cbn [negb]. rewrite Ha. cbn [pbind pret parse_pattern].
  change (init_state NIX_INTF_RX) with (init_state 0). rewrite Hp. cbn [pbind pret]. rewrite R1. cbn [parse_skip_void_and_any_items].
  change (is_type (type_at []) T_END) with true. cbn [pbind pret].
  rewrite (populate_shape p (has_tag r) (length (r_inner r))); try done; [|apply Hr|].
  - cbn [mbind cres_mbind]. by rewrite R2, R3.
  - rewrite R4. unfold put_ltypes, item_lts, rule_items, has_tag, shape_lts. by destruct (r_vlan r).
Qed.

(** ** The key of a packet *)

(** Big-endian words of a packet. *)
Definition w16 (pkt : list Z) (o : nat) : Z := byte_at pkt o * 256 + byte_at pkt (o + 1).

(** The headers of a packet: the VLAN tags, where the third layer starts and
    which one it is, and the headers behind it. *)
Definition tags (pkt : list Z) : nat :=
  if w16 pkt 12 =? RTE_ETHER_TYPE_VLAN then 1 else if w16 pkt 12 =? RTE_ETHER_TYPE_QINQ then 2 else 0.
Definition l3_off (pkt : list Z) : nat := 14 + 4 * tags pkt.
Definition l3_type (pkt : list Z) : Z := w16 pkt (l3_off pkt - 2).
Definition is_ipv4 (pkt : list Z) : Prop := l3_type pkt = RTE_ETHER_TYPE_IPV4.
Definition ip_proto (pkt : list Z) : Z := byte_at pkt (l3_off pkt + 9).
Definition l4_off (pkt : list Z) : nat := l3_off pkt + 20.
Definition is_udp (pkt : list Z) : Prop := ip_proto pkt = IPPROTO_UDP.
Definition is_vxlan (pkt : list Z) : Prop := w16 pkt (l4_off pkt + 2) = UDP_PORT_VXLAN.
Definition inner_off (pkt : list Z) : nat := l4_off pkt + 16.
Definition inner_ipv4 (pkt : list Z) : Prop := w16 pkt (inner_off pkt + 12) = RTE_ETHER_TYPE_IPV4.

(** A window of two or four bytes. Offsets are given twice, as the code
    computes them and as positions. *)
Lemma drop_bytes l o : (o < length l)%nat -> drop o l = byte_at l o :: drop (S o) l.
Proof.
  intros Ho. destruct (lookup_lt_is_Some_2 l o Ho) as [x Hx]. unfold byte_at. rewrite Hx. cbn [default from_option id].
  by apply drop_S.
Qed.

Lemma load16_word pkt o : (o + 2 <= length pkt)%nat -> le_word (reverse (take 2 (drop o pkt))) = w16 pkt o.
Proof.
  intros Ho. rewrite (drop_bytes pkt o), (drop_bytes pkt (S o)) by lia. cbn [take]. rewrite take_0.
  change (reverse [?a; ?b]) with [b; a]. cbn [le_word]. unfold w16. rewrite Nat.add_1_r. lia.
Qed.

Lemma load16_ok pkt zo o : zo = Z.of_nat o -> (o + 2 <= length pkt)%nat -> load16 pkt zo = Ret (w16 pkt o).
Proof.
  intros -> Ho. unfold load16. rewrite sub_Ret by lia. rewrite Nat2Z.id. cbn [mbind cres_mbind]. f_equal. by apply load16_word.
Qed.

Lemma load32_ok pkt zo o : zo = Z.of_nat o -> (o + 4 <= length pkt)%nat ->
  load32 pkt zo = Ret (le_word (reverse (take 4 (drop o pkt)))).
Proof. intros -> Ho. unfold load32. rewrite sub_Ret by lia. by rewrite Nat2Z.id. Qed.

Lemma blit_put key zk k o n pkt : zk = Z.of_nat k -> (o + n <= length pkt)%nat -> (k + n <= length key)%nat ->
  blit key zk (reverse (take n (drop o pkt))) = Ret (put o n k pkt key).
Proof.
  intros -> Ho HK. assert (length (reverse (take n (drop o pkt))) = n) as Hl
    by (rewrite length_reverse, length_take, length_drop; lia).
  rewrite blit_Ret by lia. rewrite Hl, Nat2Z.id. done.
Qed.

Lemma le_bytes_window pkt o n : bytes pkt -> (o + n <= length pkt)%nat ->
  le_bytes n (le_word (reverse (take n (drop o pkt)))) = reverse (take n (drop o pkt)).
Proof.
  intros Hb Ho. pose proof (le_bytes_word (reverse (take n (drop o pkt)))) as Hw.
  rewrite length_reverse, length_take, length_drop, Nat.min_l in Hw by lia. apply Hw. auto with dao.
Qed.

Lemma store16_put key zk k o pkt : zk = Z.of_nat k -> bytes pkt -> (o + 2 <= length pkt)%nat -> length key = 56%nat -> (k + 2 <= 56)%nat ->
  store16 key zk (w16 pkt o) = Ret (put o 2 k pkt key).
Proof.
  intros Hk Hb Ho HK HK'. unfold store16. rewrite <- load16_word, le_bytes_window by done. apply blit_put; [done|done|lia].
Qed.

Lemma store32_put key zk k o pkt : zk = Z.of_nat k -> bytes pkt -> (o + 4 <= length pkt)%nat -> length key = 56%nat -> (k + 4 <= 56)%nat ->
  store32 key zk (le_word (reverse (take 4 (drop o pkt)))) = Ret (put o 4 k pkt key).
Proof. intros Hk Hb Ho HK HK'. unfold store32. rewrite le_bytes_window by done. apply blit_put; [done|done|lia]. Qed.

Lemma reverse_memcpy_put key zk k zo o zn n pkt : zk = Z.of_nat k -> zo = Z.of_nat o -> zn = Z.of_nat n ->
  (o + n <= length pkt)%nat -> length key = 56%nat -> (k + n <= 56)%nat -> reverse_memcpy key zk pkt zo zn = Ret (put o n k pkt key).
Proof.
  intros -> -> -> Ho HK HK'. unfold reverse_memcpy. rewrite sub_Ret by lia. rewrite !Nat2Z.id. cbn [mbind cres_mbind].
  apply blit_put; [done|done|lia].
Qed.

Lemma byte_insert i x l k : (i < length l)%nat -> byte_at (<[i := x]> l) k = if decide (k = i) then x else byte_at l k.
Proof.
  intros Hi. unfold byte_at. case_decide as Hk; [subst; by rewrite list_lookup_insert_eq|by rewrite list_lookup_insert_ne].
Qed.

Lemma cget_byte l zo o : zo = Z.of_nat o -> (o < length l)%nat -> cget l zo = Ret (byte_at l o).
Proof.
  intros -> Ho. destruct (lookup_lt_is_Some_2 l o Ho) as [x Hx]. unfold byte_at. rewrite Hx. apply cget_Ret.
  rewrite Nat2Z.id. split; [lia|done].
Qed.

Lemma cset_byte (l : list Z) zo o x : zo = Z.of_nat o -> length l = 56%nat -> (o < 56)%nat -> cset l zo x = Ret (<[o := x]> l).
Proof. intros -> Hl Ho. rewrite cset_in_range by lia. by rewrite Nat2Z.id. Qed.

Lemma or_byte_ok l zo o x : zo = Z.of_nat o -> length l = 56%nat -> (o < 56)%nat -> or_byte l zo x = Ret (<[o := Z.lor (byte_at l o) x]> l).
Proof. intros Hz Hl Ho. unfold or_byte. rewrite (cget_byte _ _ o) by (done || lia). cbn [mbind cres_mbind]. by rewrite (cset_byte _ _ o). Qed.

Lemma lor_byte a b : 0 <= a < 256 -> 0 <= b < 256 -> 0 <= Z.lor a b < 256.
Proof.
  intros Ha Hb. assert (0 <= Z.lor a b) as Hn by (apply Z.lor_nonneg; lia). split; [done|].
  destruct (Z.eq_dec (Z.lor a b) 0) as [->|Hz]; [done|]. apply (Z.log2_lt_pow2 _ 8); [lia|]. rewrite Z.log2_lor by lia.
  apply Z.max_lub_lt; [destruct (Z.eq_dec a 0) as [->|]|destruct (Z.eq_dec b 0) as [->|]]; try done; apply Z.log2_lt_pow2; lia.
Qed.

(** Keys of 56 bytes *)

Lemma put56 o n k s d : length d = 56%nat -> (o + n <= length s)%nat -> (k + n <= 56)%nat -> length (put o n k s d) = 56%nat.
Proof. intros Hd Ho Hk. rewrite length_put; lia. Qed.

Lemma insert56 i x (d : list Z) : length d = 56%nat -> length (<[i := x]> d) = 56%nat.
Proof. intros. by rewrite length_insert. Qed.

Lemma byte_put56 o n k s d j : length d = 56%nat -> (o + n <= length s)%nat -> (k + n <= 56)%nat ->
  byte_at (put o n k s d) j = if decide (k <= j < k + n)%nat then byte_at s (o + (n - 1 - (j - k))) else byte_at d j.
Proof. intros Hd Ho Hk. apply byte_put; lia. Qed.

Ltac len56 := repeat first [eassumption | apply insert56 | apply put56; [|lia|lia]].

Ltac side56 := first [done | lia | solve [len56]].

(** The value of a byte of a key that was built by [put] and [insert]. *)
Lemma byte_insert56 i x d j : length d = 56%nat -> (i < 56)%nat ->
  byte_at (<[i := x]> d) j = if decide (j = i) then x else byte_at d j.
Proof. intros Hd Hi. apply byte_insert. lia. Qed.

Ltac key_bytes :=
  repeat first [rewrite byte_put56 by side56 | rewrite byte_insert56 by side56];
  repeat case_decide; try lia; try done; try (f_equal; lia).

(** Steps of the key generation. *)
Ltac load16_at o := lazymatch goal with |- context [mbind _ (load16 ?p ?z)] => rewrite (load16_ok p z o) by lia end; cbn [mbind cres_mbind].
Ltac load32_at o := lazymatch goal with |- context [mbind _ (load32 ?p ?z)] => rewrite (load32_ok p z o) by lia end; cbn [mbind cres_mbind].
Ltac store16_at k := rewrite (store16_put _ _ k) by side56; cbn [mbind cres_mbind].
Ltac store32_at k := rewrite (store32_put _ _ k) by side56; cbn [mbind cres_mbind].

Section packet.
Context (pkt : list Z) (Hb : bytes pkt) (Hl : (112 <= length pkt)%nat).

Definition start_key : list Z := [0; 0; 2] ++ zeros 53.

Lemma ovs_eth_ok : ovs_key_eth pkt 0 (zeros 56) =
  Ret (w16 pkt 12, {| k_key := put 12 2 20 pkt (put 0 12 8 pkt start_key); k_off := 14; k_next := 0 |}).
Proof.
  assert (length start_key = 56%nat) as Hs by done.
  unfold ovs_key_eth. change (key_start 0 (zeros 56)) with (Ret start_key). cbn [mbind cres_mbind].
  rewrite (reverse_memcpy_put start_key _ 8 _ 0 _ 12) by side56. cbn [mbind cres_mbind].
  load16_at 12%nat. store16_at 20%nat. done.
Qed.

(** The layer type of the tags. *)
Definition tag_ltype : Z :=
  if decide (tags pkt = 0%nat) then 0 else if decide (tags pkt = 1%nat) then PROFILE_LT_LB_CTAG else PROFILE_LT_LB_STAG_QINQ.

Record key_l2 (k : keygen) : Prop := {
  l2_len : length (k_key k) = 56%nat;
  l2_bytes : bytes (k_key k);
  l2_off : k_off k = Z.of_nat (l3_off pkt);
  l2_next : k_next k = if decide (tags pkt = 0%nat) then 0 else l3_type pkt;
  l2_b2 : byte_at (k_key k) 2 = 2 + 16 * tag_ltype;
  l2_b3 : byte_at (k_key k) 3 = 0;
  l2_b4 : byte_at (k_key k) 4 = 0;
  l2_mac : forall j, (8 <= j < 20)%nat -> byte_at (k_key k) j = byte_at pkt (19 - j);
  l2_type : forall j, (20 <= j < 22)%nat -> byte_at (k_key k) j = byte_at pkt (l3_off pkt - 2 + (21 - j));
  l2_tci : tags pkt <> 0%nat -> forall j, (22 <= j < 24)%nat -> byte_at (k_key k) j = byte_at pkt (l3_off pkt - 4 + (23 - j));
}.

Lemma ovs_tag_ok key zo o ltype k : length key = 56%nat -> zo = Z.of_nat o -> (o + 4 <= length pkt)%nat -> k_key k = key ->
  ovs_key_tag pkt k zo ltype =
  Ret {| k_key := <[2%nat := Z.lor (byte_at key 2) (Z.shiftl ltype 4)]> (put o 2 22 pkt (put (o + 2) 2 20 pkt key));
         k_off := Z.of_nat (o + 4); k_next := w16 pkt (o + 2) |}.
Proof.
  intros Hk -> Ho Hkk. unfold ovs_key_tag. rewrite Hkk. load16_at (o + 2)%nat. store16_at 20%nat. load16_at o. store16_at 22%nat.
  rewrite (or_byte_ok _ _ 2) by side56. cbn [mbind cres_mbind]. rewrite Nat2Z.inj_add.
  assert (byte_at (put o 2 22 pkt (put (o + 2) 2 20 pkt key)) 2 = byte_at key 2) as -> by key_bytes. done.
Qed.

(** The key behind the Ethernet header. *)
Definition eth_key : list Z := put 12 2 20 pkt (put 0 12 8 pkt start_key).

Lemma eth_key_ok : length eth_key = 56%nat /\ bytes eth_key /\
  (forall j, (8 <= j < 20)%nat -> byte_at eth_key j = byte_at pkt (19 - j)) /\
  (forall j, (20 <= j < 22)%nat -> byte_at eth_key j = byte_at pkt (12 + (21 - j))) /\
  (forall j, (2 <= j < 5)%nat -> byte_at eth_key j = byte_at start_key j).
Proof.
  assert (length start_key = 56%nat) as Hs by done. unfold eth_key.
  split; [len56|]. split; [apply bytes_put; [done|]; apply bytes_put; [done|]; repeat constructor; lia|].
  split; [intros j Hj; key_bytes|]. split; intros j Hj; key_bytes.
Qed.

Lemma tagged_l2 ltype : tags pkt <> 0%nat -> ltype = tag_ltype ->
  key_l2 {| k_key := <[2%nat := Z.lor (byte_at eth_key 2) (Z.shiftl ltype 4)]>
              (put (l3_off pkt - 4) 2 22 pkt (put (l3_off pkt - 2) 2 20 pkt eth_key));
            k_off := Z.of_nat (l3_off pkt); k_next := l3_type pkt |}.
Proof.
  intros Ht ->. destruct eth_key_ok as (Hk & Hbk & Hmac & _ & Hlow).
  assert (18 <= l3_off pkt <= 22)%nat as Ho by (unfold l3_off, tags in *; repeat case_bool; lia).
  assert (Z.lor (byte_at eth_key 2) (Z.shiftl tag_ltype 4) = 2 + 16 * tag_ltype) as Hor.
  { rewrite Hlow by lia. unfold tag_ltype. by repeat case_decide. }
  assert (0 <= tag_ltype < 4) by (unfold tag_ltype; by repeat case_decide).
  rewrite Hor. split; cbn [k_key k_off k_next]; try done.
  - len56.
  - apply bytes_insert; [lia|by auto using bytes_put].
  - by rewrite decide_False.
  - intros j Hj. key_bytes. by apply Hmac.
  - intros j Hj. key_bytes.
  - intros _ j Hj. key_bytes.
Qed.

Lemma ovs_vlan_ok : exists k, ovs_key_vlan pkt (w16 pkt 12) {| k_key := eth_key; k_off := 14; k_next := 0 |} = Ret k /\ key_l2 k.
Proof.
  destruct eth_key_ok as (Hk & Hbk & Hmac & Hty & Hlow). unfold ovs_key_vlan. cbn [k_off].
  destruct (w16 pkt 12 =? RTE_ETHER_TYPE_VLAN) eqn:Hv; [|destruct (w16 pkt 12 =? RTE_ETHER_TYPE_QINQ) eqn:Hq].
  - assert (tags pkt = 1%nat) as Ht by (unfold tags; by rewrite Hv). rewrite (ovs_tag_ok eth_key _ 14) by (done || lia).
    eexists. split; [done|]. pose proof (tagged_l2 PROFILE_LT_LB_CTAG) as Hl2. unfold tag_ltype, l3_type, l3_off in Hl2.
    rewrite Ht in Hl2. by apply Hl2.
  - assert (tags pkt = 2%nat) as Ht by (unfold tags; by rewrite Hv, Hq). rewrite (ovs_tag_ok eth_key _ 18) by (done || lia).
    eexists. split; [done|]. pose proof (tagged_l2 PROFILE_LT_LB_STAG_QINQ) as Hl2. unfold tag_ltype, l3_type, l3_off in Hl2.
    rewrite Ht in Hl2. by apply Hl2.
  - assert (tags pkt = 0%nat) as Ht by (unfold tags; by rewrite Hv, Hq). eexists. split; [done|].
    split; unfold tag_ltype, l3_type, l3_off; rewrite ?Ht; cbn [k_key k_off k_next]; try done; by rewrite Hlow by lia.
Qed.

Lemma l3_cond k v : key_l2 k -> 0 < v -> v <> RTE_ETHER_TYPE_VLAN -> v <> RTE_ETHER_TYPE_QINQ ->
  (k_next k =? v) || (w16 pkt 12 =? v) = (l3_type pkt =? v).
Proof.
  intros Hk Hv H1 H2. rewrite (l2_next _ Hk). unfold l3_type, l3_off, tags.
  destruct (w16 pkt 12 =? RTE_ETHER_TYPE_VLAN) eqn:E1; [|destruct (w16 pkt 12 =? RTE_ETHER_TYPE_QINQ) eqn:E2]; reflect_bool;
    cbn [decide]; rewrite ?E1, ?E2; repeat case_decide; try done.
  - rewrite (proj2 (Z.eqb_neq RTE_ETHER_TYPE_VLAN v)) by done. by rewrite orb_false_r.
  - rewrite (proj2 (Z.eqb_neq RTE_ETHER_TYPE_QINQ v)) by done. by rewrite orb_false_r.
  - rewrite (proj2 (Z.eqb_neq 0 v)) by lia. done.
Qed.

Lemma l3_off_bound : (14 <= l3_off pkt <= 22)%nat.
Proof. unfold l3_off, tags. repeat case_bool; lia. Qed.

(** Two keys agree outside some bytes. *)
Definition keeps (P : nat -> Prop) (key key' : list Z) : Prop := forall j, ~ P j -> byte_at key' j = byte_at key j.

Record key_l3 (k0 k : keygen) : Prop := {
  l3_len : length (k_key k) = 56%nat;
  l3_bytes : bytes (k_key k);
  l3_keeps : keeps (fun j => j = 3 \/ 24 <= j)%nat (k_key k0) (k_key k);
  l3_pos : exists o, k_off k = Z.of_nat o /\ (14 <= o <= 62)%nat;
  l3_other : ~ is_ipv4 pkt -> byte_at (k_key k) 3 = 0 \/ byte_at (k_key k) 3 = PROFILE_LT_LC_IP6;
  l3_ip : is_ipv4 pkt -> byte_at (k_key k) 3 = PROFILE_LT_LC_IP /\ k_off k = Z.of_nat (l4_off pkt) /\ k_next k = ip_proto pkt /\
    (forall j, (24 <= j < 26)%nat -> byte_at (k_key k) j = byte_at pkt (l3_off pkt + 6 + (25 - j))) /\
    (forall j, (26 <= j < 34)%nat -> byte_at (k_key k) j = byte_at pkt (l3_off pkt + 12 + (33 - j))) /\
    byte_at (k_key k) 54 = byte_at pkt (l3_off pkt + 1);
}.

Lemma ovs_ipv4_ok k0 : key_l2 k0 -> is_ipv4 pkt -> exists k, ovs_key_ip pkt (w16 pkt 12) k0 = Ret k /\ key_l3 k0 k.
Proof.
  intros Hk Hip. pose proof l3_off_bound as Ho. pose proof (l2_len _ Hk) as Hl0. pose proof (l2_bytes _ Hk) as Hb0.
  unfold ovs_key_ip. rewrite (l3_cond k0 RTE_ETHER_TYPE_IPV4) by done. unfold is_ipv4 in Hip. rewrite Hip, Z.eqb_refl.
  rewrite (l2_off _ Hk). load16_at (l3_off pkt + 6)%nat. store16_at 24%nat. load32_at (l3_off pkt + 16)%nat. store32_at 26%nat.
  load32_at (l3_off pkt + 12)%nat. store32_at 30%nat.
  rewrite (cget_byte pkt (Z.of_nat (l3_off pkt) + 1) (l3_off pkt + 1)) by lia. cbn [mbind cres_mbind].
  rewrite (cset_byte _ 54 54) by side56. cbn [mbind cres_mbind]. rewrite (cset_byte _ 3 3) by side56. cbn [mbind cres_mbind].
  rewrite (cget_byte pkt (Z.of_nat (l3_off pkt) + 9) (l3_off pkt + 9)) by lia. cbn [mbind cres_mbind]. eexists. split; [done|].
  split; cbn [k_key k_off k_next].
  - len56.
  - apply bytes_insert; [done|]. apply bytes_insert; [by apply byte_range|]. auto using bytes_put.
  - intros j Hj. key_bytes.
  - exists (l4_off pkt). unfold l4_off. lia.
  - done.
  - intros _. split; [|split; [|split; [done|split; [|split]]]].
    + key_bytes.
    + unfold l4_off. lia.
    + intros j Hj. key_bytes.
    + intros j Hj. key_bytes.
    + key_bytes.
Qed.

(** The bytes of an IPv6 header go to the key in their order. *)
Lemma blit_window key zk k zo o pkt' : zk = Z.of_nat k -> zo = Z.of_nat o -> (o + 4 <= length pkt')%nat -> length key = 56%nat ->
  (k + 4 <= 56)%nat -> bytes pkt' -> bytes key ->
  exists key', (v ← sub pkt' zo 4; blit key zk v) = Ret key' /\ length key' = 56%nat /\ bytes key' /\
    keeps (fun j => k <= j < k + 4)%nat key key'.
Proof.
  intros -> -> Ho Hk Hk4 Hbp Hbk. rewrite sub_Ret by lia. cbn [mbind cres_mbind]. rewrite Nat2Z.id. change (Z.to_nat 4) with 4%nat.
  assert (length (take 4 (drop o pkt')) = 4%nat) as H4 by (rewrite length_take, length_drop; lia).
  rewrite blit_Ret by lia. eexists. split; [done|]. rewrite Nat2Z.id, H4. split; [|split].
  - rewrite !length_app, H4, length_take, length_drop. lia.
  - rewrite !bytes_app. auto with dao.
  - intros j Hj. rewrite !byte_app, H4, length_take. repeat case_decide; try lia; [by rewrite byte_take by lia|].
    rewrite byte_drop. f_equal. lia.
Qed.

Lemma ovs_ip_ok k0 : key_l2 k0 -> exists k, ovs_key_ip pkt (w16 pkt 12) k0 = Ret k /\ key_l3 k0 k.
Proof.
  intros Hk. destruct (decide (l3_type pkt = RTE_ETHER_TYPE_IPV4)) as [Hip|Hip]; [by apply ovs_ipv4_ok|].
  pose proof l3_off_bound as Ho. pose proof (l2_len _ Hk) as Hl0. pose proof (l2_bytes _ Hk) as Hb0.
  unfold ovs_key_ip. rewrite (l3_cond k0 RTE_ETHER_TYPE_IPV4), (proj2 (Z.eqb_neq _ _) Hip) by done.
  rewrite (l3_cond k0 RTE_ETHER_TYPE_IPV6) by done. destruct (l3_type pkt =? RTE_ETHER_TYPE_IPV6).
  - rewrite (l2_off _ Hk).
    destruct (blit_window (k_key k0) 24 24 (Z.of_nat (l3_off pkt)) (l3_off pkt) pkt) as (k1 & E1 & L1 & B1 & K1); try done; [lia..|].
    destruct (blit_window k1 28 28 (Z.of_nat (l3_off pkt) + 4) (l3_off pkt + 4) pkt) as (k2 & E2 & L2 & B2 & K2); try done; [lia..|].
    apply bind_Ret in E1 as (v1 & V1 & E1). apply bind_Ret in E2 as (v2 & V2 & E2).
    rewrite V1. cbn [mbind cres_mbind]. rewrite E1. cbn [mbind cres_mbind]. rewrite V2. cbn [mbind cres_mbind]. rewrite E2.
    cbn [mbind cres_mbind]. rewrite (cset_byte _ 3 3) by side56. cbn [mbind cres_mbind].
    rewrite (cget_byte pkt (Z.of_nat (l3_off pkt) + 6) (l3_off pkt + 6)) by lia. cbn [mbind cres_mbind]. eexists. split; [done|].
    split; cbn [k_key k_off k_next].
    + len56.
    + by apply bytes_insert.
    + intros j Hj. rewrite byte_insert56 by side56. rewrite decide_False by lia. rewrite K2, K1 by lia. done.
    + exists (l3_off pkt + 40)%nat. lia.
    + intros _. right. rewrite byte_insert56 by side56. by rewrite decide_True.
    + done.
  - eexists. split; [done|]. split; try done.
    + exists (l3_off pkt). rewrite (l2_off _ Hk). lia.
    + intros _. left. apply (l2_b3 _ Hk).
Qed.

(** The key stages behind the third layer, at an offset in the packet. *)
Record at_off (k : keygen) (o : nat) : Prop := {
  ao_key : length (k_key k) = 56%nat;
  ao_bytes : bytes (k_key k);
  ao_off : k_off k = Z.of_nat o;
}.

Lemma ovs_udp_ok k o : at_off k o -> (o <= 62)%nat ->
  exists k', ovs_key_udp pkt k = Ret k' /\ (k_next k <> IPPROTO_UDP -> k' = k) /\ keeps (fun j => j = 3 \/ 34 <= j < 38)%nat (k_key k) (k_key k') /\
    byte_at (k_key k') 3 = (if decide (k_next k = IPPROTO_UDP) then Z.lor (byte_at (k_key k) 3) 32 else byte_at (k_key k) 3) /\
    (k_next k = IPPROTO_UDP -> k_next k' = w16 pkt (o + 2) /\
      forall j, (34 <= j < 38)%nat -> byte_at (k_key k') j = byte_at pkt (o + (37 - j))) /\
    at_off k' (if decide (k_next k = IPPROTO_UDP) then o + 8 else o)%nat.
Proof.
  intros [Hk Hbk Hof] Ho. unfold ovs_key_udp. case_decide as Hn.
  - rewrite Hn, Z.eqb_refl, Hof. load32_at o. store32_at 34%nat. rewrite (or_byte_ok _ 3 3) by side56. cbn [mbind cres_mbind].
    load16_at (o + 2)%nat. eexists. split; [done|]. cbn [k_key k_off k_next]. split; [done|].
    assert (byte_at (put o 4 34 pkt (k_key k)) 3 = byte_at (k_key k) 3) as H3 by key_bytes. rewrite H3.
    change (Z.shiftl PROFILE_LT_LD_UDP 4) with 32. split; [intros j Hj; key_bytes|]. split; [key_bytes|].
    split; [intros _; split; [done|intros j Hj; key_bytes]|]. split; cbn [k_key k_off].
    + len56.
    + apply bytes_insert; [|by apply bytes_put]. apply lor_byte; [by apply byte_range|done].
    + lia.
  - rewrite (proj2 (Z.eqb_neq _ _) Hn). exists k. done.
Qed.

(** A block stored in the key. *)
Lemma blit56 key zk k v : zk = Z.of_nat k -> length key = 56%nat -> (k + length v <= 56)%nat -> bytes key -> bytes v ->
  exists key', blit key zk v = Ret key' /\ length key' = 56%nat /\ bytes key' /\
    forall j, byte_at key' j = if decide (k <= j < k + length v)%nat then byte_at v (j - k) else byte_at key j.
Proof.
  intros -> Hk Hv Hbk Hbv. rewrite blit_Ret by lia. eexists. split; [done|]. rewrite Nat2Z.id. split; [|split].
  - rewrite !length_app, length_take, length_drop. lia.
  - rewrite !bytes_app. auto with dao.
  - intros j. rewrite !byte_app, length_take. repeat case_decide; try lia.
    + by rewrite byte_take by lia.
    + f_equal. lia.
    + rewrite byte_drop. f_equal. lia.
Qed.

Lemma w16_range o : 0 <= w16 pkt o < 65536.
Proof. pose proof (byte_range pkt o Hb). pose proof (byte_range pkt (o + 1) Hb). unfold w16. lia. Qed.

(** The ethertype behind a VXLAN header is stored as a word of four bytes. *)
Lemma le_bytes_w16 o : le_bytes 4 (w16 pkt o) = [byte_at pkt (o + 1); byte_at pkt o; 0; 0].
Proof.
  pose proof (byte_range pkt o Hb). pose proof (byte_range pkt (o + 1) Hb).
  rewrite <- (le_bytes_word [byte_at pkt (o + 1); byte_at pkt o; 0; 0]) by (repeat constructor; lia).
  cbn [length]. f_equal. unfold w16. cbn [le_word]. lia.
Qed.

Record key_vxlan (k : keygen) (o : nat) (k' : keygen) : Prop := {
  kv_b4 : byte_at (k_key k') 4 = PROFILE_LT_LE_VXLAN;
  kv_vni : forall j, (34 <= j < 38)%nat -> byte_at (k_key k') j = byte_at pkt (o + 4 + (37 - j));
  kv_mac : forall j, (38 <= j < 50)%nat -> byte_at (k_key k') j = byte_at pkt (o + 8 + (49 - j));
  kv_type : forall j, (50 <= j < 52)%nat -> byte_at (k_key k') j = byte_at pkt (o + 20 + (51 - j));
  kv_zero : forall j, (52 <= j < 54)%nat -> byte_at (k_key k') j = 0;
  kv_next : k_next k' = w16 pkt (o + 20);
}.

Lemma ovs_vxlan_ok k o : at_off k o -> (o <= 70)%nat ->
  exists k', ovs_key_vxlan pkt k = Ret k' /\ (k_next k <> UDP_PORT_VXLAN -> k' = k) /\
    keeps (fun j => j = 4 \/ 34 <= j < 54)%nat (k_key k) (k_key k') /\ (k_next k = UDP_PORT_VXLAN -> key_vxlan k o k') /\
    at_off k' (if decide (k_next k = UDP_PORT_VXLAN) then o + 22 else o)%nat.
Proof.
  intros [Hk Hbk Hof] Ho. unfold ovs_key_vxlan. case_decide as Hn; [|rewrite (proj2 (Z.eqb_neq _ _) Hn); by exists k].
  rewrite Hn, Z.eqb_refl, Hof. load32_at (o + 4)%nat. store32_at 34%nat. rewrite (cset_byte _ 4 4) by side56. cbn [mbind cres_mbind].
  rewrite (reverse_memcpy_put _ _ 38 _ (o + 8) _ 12) by side56. cbn [mbind cres_mbind]. load16_at (o + 20)%nat.
  set (key := put (o + 8) 12 38 pkt _). assert (length key = 56%nat) as Hlk by (subst key; len56).
  assert (bytes key) as Hbkey by (subst key; apply bytes_put; [done|]; apply bytes_insert; [done|]; by apply bytes_put).
  unfold store32. rewrite le_bytes_w16.
  destruct (blit56 key 50 50 [byte_at pkt (o + 20 + 1); byte_at pkt (o + 20); 0; 0]) as (key' & E & Hl' & Hb' & Hj'); try done; [cbn; lia|..].
  { repeat constructor; try lia; by apply byte_range. }
  rewrite E. cbn [mbind cres_mbind]. eexists. split; [done|]. cbn [k_key k_off k_next length] in *. split; [done|]. split; [|split].
  - intros j Hj. rewrite Hj'. rewrite decide_False by lia. subst key. key_bytes.
  - intros _. split; cbn [k_key k_next]; try (intros j Hj; rewrite Hj').
    + rewrite Hj'. rewrite decide_False by lia. subst key. key_bytes.
    + rewrite decide_False by lia. subst key. key_bytes.
    + rewrite decide_False by lia. subst key. key_bytes.
    + rewrite decide_True by lia. assert (j = 50 \/ j = 51)%nat as [-> | ->] by lia; cbn; f_equal; lia.
    + rewrite decide_True by lia. assert (j = 52 \/ j = 53)%nat as [-> | ->] by lia; done.
    + done.
  - split; cbn [k_key k_off]; [done|done|lia].
Qed.

Lemma ovs_inner_ok k o : at_off k o -> (o <= 92)%nat ->
  exists k', ovs_key_inner pkt k = Ret k' /\ length (k_key k') = 56%nat /\ bytes (k_key k') /\
    keeps (fun j => 52 <= j < 54)%nat (k_key k) (k_key k') /\
    forall j, (52 <= j < 54)%nat -> byte_at (k_key k') j =
      if decide (k_next k = RTE_ETHER_TYPE_IPV4) then byte_at pkt (o + 6 + (53 - j)) else byte_at (k_key k) j.
Proof.
  intros [Hk Hbk Hof] Ho. unfold ovs_key_inner. destruct (decide (k_next k = RTE_ETHER_TYPE_IPV4)) as [Hn|Hn];
    [|rewrite (proj2 (Z.eqb_neq _ _) Hn); by exists k].
  rewrite Hn, Z.eqb_refl, Hof. load16_at (o + 6)%nat. store16_at 52%nat. eexists. split; [done|]. cbn [k_key]. split; [len56|].
  split; [by apply bytes_put|]. split; intros j Hj; key_bytes.
Qed.

(** ** The key of a packet, header by header *)
Record key_spec (key : list Z) : Prop := {
  ks_len : length key = 56%nat;
  ks_bytes : bytes key;
  ks_b2 : byte_at key 2 = 2 + 16 * tag_ltype;
  ks_mac : forall j, (8 <= j < 20)%nat -> byte_at key j = byte_at pkt (19 - j);
  ks_type : forall j, (20 <= j < 22)%nat -> byte_at key j = byte_at pkt (l3_off pkt - 2 + (21 - j));
  ks_tci : tags pkt <> 0%nat -> forall j, (22 <= j < 24)%nat -> byte_at key j = byte_at pkt (l3_off pkt - 4 + (23 - j));
  ks_other : ~ is_ipv4 pkt -> Z.land (byte_at key 3) 15 <> 2;
  ks_b3 : is_ipv4 pkt -> byte_at key 3 = if decide (ip_proto pkt = IPPROTO_UDP) then 34 else 2;
  ks_frag : is_ipv4 pkt -> forall j, (24 <= j < 26)%nat -> byte_at key j = byte_at pkt (l3_off pkt + 6 + (25 - j));
  ks_addr : is_ipv4 pkt -> forall j, (26 <= j < 34)%nat -> byte_at key j = byte_at pkt (l3_off pkt + 12 + (33 - j));
  ks_tos : is_ipv4 pkt -> byte_at key 54 = byte_at pkt (l3_off pkt + 1);
  ks_udp : is_ipv4 pkt -> is_udp pkt -> ~ is_vxlan pkt ->
    byte_at key 4 = 0 /\ forall j, (34 <= j < 38)%nat -> byte_at key j = byte_at pkt (l4_off pkt + (37 - j));
  ks_vxlan : is_ipv4 pkt -> is_udp pkt -> is_vxlan pkt ->
    byte_at key 4 = 1 /\ (forall j, (34 <= j < 38)%nat -> byte_at key j = byte_at pkt (l4_off pkt + 12 + (37 - j))) /\
    (forall j, (38 <= j < 50)%nat -> byte_at key j = byte_at pkt (inner_off pkt + (49 - j))) /\
    (forall j, (50 <= j < 52)%nat -> byte_at key j = byte_at pkt (inner_off pkt + 12 + (51 - j))) /\
    (forall j, (52 <= j < 54)%nat -> byte_at key j =
      if decide (w16 pkt (inner_off pkt + 12) = RTE_ETHER_TYPE_IPV4) then byte_at pkt (inner_off pkt + 20 + (53 - j)) else 0);
}.

(** Bytes that the stages behind the third layer leave. *)
Lemma keeps_at P key key' j x : keeps P key key' -> ~ P j -> byte_at key j = x -> byte_at key' j = x.
Proof. intros Hk Hj <-. by apply Hk. Qed.

Lemma low_nibble_lor32 x : Z.land (Z.lor x 32) 15 = Z.land x 15.
Proof. rewrite Z.land_lor_distr_l. change (Z.land 32 15) with 0. apply Z.lor_0_r. Qed.

Lemma key_gen_ok : exists key, ovs_profile_key_generation pkt 0 (zeros 56) = Ret key /\ key_spec key.
Proof.
  unfold ovs_profile_key_generation. rewrite ovs_eth_ok. cbn [mbind cres_mbind]. fold eth_key.
  destruct ovs_vlan_ok as (k2 & -> & K2). cbn [mbind cres_mbind].
  destruct (ovs_ip_ok k2 K2) as (k3 & -> & K3). cbn [mbind cres_mbind].
  destruct (l3_pos _ _ K3) as (o & Ho & Hob).
  destruct (ovs_udp_ok k3 o) as (k4 & -> & U1 & U2 & U3 & U4 & A4); [split; [apply K3..|done]|lia|]. cbn [mbind cres_mbind].
  destruct (ovs_vxlan_ok k4 _ A4) as (k5 & -> & V1 & V2 & V3 & A5); [case_decide; lia|]. cbn [mbind cres_mbind].
  destruct (ovs_inner_ok k5 _ A5) as (k6 & -> & L6 & B6 & I1 & I2); [repeat case_decide; lia|]. cbn [mbind cres_mbind].
  eexists. split; [done|].
  assert (forall j x, (2 <= j < 24)%nat -> j <> 3%nat -> j <> 4%nat -> byte_at (k_key k2) j = x -> byte_at (k_key k6) j = x) as Hlow.
  { intros j x Hj H3 H4 Hx. repeat (eapply keeps_at; [eassumption|cbn; lia|]). eapply keeps_at; [apply K3|cbn; lia|done]. }
  assert (forall j x, (24 <= j < 34 \/ j = 54)%nat -> byte_at (k_key k3) j = x -> byte_at (k_key k6) j = x) as Hmid.
  { intros j x Hj Hx. repeat (eapply keeps_at; [eassumption|cbn; lia|]). done. }
  assert (byte_at (k_key k6) 3 = byte_at (k_key k4) 3) as H3 by (repeat (eapply keeps_at; [eassumption|cbn; lia|]); done).
  assert (is_ipv4 pkt -> o = l4_off pkt /\ k_next k3 = ip_proto pkt) as Hip.
  { intros Hip. destruct (l3_ip _ _ K3 Hip) as (_ & Hof & Hn & _). split; [lia|done]. }
  assert (forall j x, (j = 4 \/ 34 <= j < 52)%nat -> byte_at (k_key k5) j = x -> byte_at (k_key k6) j = x) as Hlate.
  { intros j x Hj Hx. eapply keeps_at; [eassumption|cbn; lia|done]. }
  split; try done.
  - apply Hlow; [lia..|apply K2].
  - intros j Hj. apply Hlow; [lia..|by apply K2].
  - intros j Hj. apply Hlow; [lia..|by apply K2].
  - intros Ht j Hj. apply Hlow; [lia..|by apply K2].
  - intros Hn. rewrite H3, U3. destruct (l3_other _ _ K3 Hn) as [-> | ->]; destruct (decide (k_next k3 = IPPROTO_UDP)); by vm_compute.
  - intros Hi. rewrite H3, U3. destruct (Hip Hi) as [_ ->]. destruct (l3_ip _ _ K3 Hi) as (-> & _). done.
  - intros Hi j Hj. apply Hmid; [lia|]. by apply (l3_ip _ _ K3 Hi).
  - intros Hi j Hj. apply Hmid; [lia|]. by apply (l3_ip _ _ K3 Hi).
  - intros Hi. apply Hmid; [lia|]. by apply (l3_ip _ _ K3 Hi).
  - intros Hi Hu Hv. destruct (Hip Hi) as [-> Hn]. rewrite Hn in *. destruct (U4 Hu) as [Hn4 Hports].
    assert (k5 = k4) as -> by (apply V1; by rewrite Hn4). split.
    + apply Hlate; [lia|]. eapply keeps_at; [exact U2|cbn; lia|]. eapply keeps_at; [apply K3|cbn; lia|apply K2].
    + intros j Hj. apply Hlate; [lia|]. by apply Hports.
  - intros Hi Hu Hv. destruct (Hip Hi) as [-> Hn]. rewrite Hn in *. destruct (U4 Hu) as [Hn4 Hports].
    unfold is_udp in Hu. unfold is_vxlan in Hv. rewrite Hn4, (decide_True _ _ Hu), ?(decide_True _ _ Hv) in *. destruct (V3 Hv) as [W1 W2 W3 W4 W5 W6].
    unfold inner_off. split; [by apply Hlate; [lia|]|]. split; [|split; [|split]]; intros j Hj.
    + apply Hlate; [lia|]. rewrite W2 by done. f_equal. lia.
    + apply Hlate; [lia|]. rewrite W3 by done. f_equal. lia.
    + apply Hlate; [lia|]. rewrite W4 by done. f_equal. lia.
    + rewrite I2, W6 by done. replace (l4_off pkt + 16 + 12)%nat with (l4_off pkt + 8 + 20)%nat by lia.
      destruct (decide (w16 pkt (l4_off pkt + 8 + 20) = RTE_ETHER_TYPE_IPV4)); [f_equal; lia|by apply W5].
Qed.
End packet.

(** ** The bytes of a compiled rule *)

(** The item, and the byte of it, that byte [k] of the key is compared with. *)
Definition slot (r : ovs_rule) (k : nat) : option (hdr_item * nat) :=
  if decide (8 <= k < 20)%nat then Some (r_eth r, 19 - k)%nat
  else if decide (20 <= k < 22)%nat then
    match r_vlan r with Some v => Some (v, 2 + (21 - k))%nat | None => Some (r_eth r, 12 + (21 - k))%nat end
  else if decide (22 <= k < 24)%nat then (fun v => (v, 23 - k)%nat) <$> r_vlan r
  else if decide (24 <= k < 26)%nat then (fun h => (h, 6 + (25 - k))%nat) <$> r_inner r !! 0%nat
  else if decide (26 <= k < 34)%nat then (fun h => (h, 12 + (33 - k))%nat) <$> r_inner r !! 0%nat
  else if decide (34 <= k < 38)%nat then
    match r_inner r !! 2%nat with
    | Some h => Some (h, 4 + (37 - k))%nat
    | None => (fun h => (h, 37 - k)%nat) <$> r_inner r !! 1%nat
    end
  else if decide (38 <= k < 50)%nat then (fun h => (h, 49 - k)%nat) <$> r_inner r !! 3%nat
  else if decide (50 <= k < 52)%nat then (fun h => (h, 12 + (51 - k))%nat) <$> r_inner r !! 3%nat
  else if decide (52 <= k < 54)%nat then (fun h => (h, 6 + (53 - k))%nat) <$> r_inner r !! 4%nat
  else if decide (k = 54)%nat then (fun h => (h, 1%nat)) <$> r_inner r !! 0%nat
  else None.

Definition slot_byte (g : hdr_item -> list Z) (s : option (hdr_item * nat)) : Z :=
  match s with Some (h, i) => byte_at (g h) i | None => 0 end.

Section compiled_bytes.
Context (g : hdr_item -> list Z) (Htag : forall v, g (tag_item v) = tag_buf (g v)).

Lemma byte_zeros n k : byte_at (zeros n) k = 0.
Proof.
  unfold byte_at, zeros. destruct (decide (k < Z.to_nat n)%nat);
    [by rewrite lookup_replicate_2|rewrite lookup_ge_None_2; [done|rewrite length_replicate; lia]].
Qed.

(** The key after the Ethernet and VLAN items. *)
Definition outer_bytes (r : ovs_rule) : list Z :=
  let d := put_all eth_fields (g (r_eth r)) (zeros 56) in
  match r_vlan r with Some v => put_all tag_fields (g (tag_item v)) d | None => d end.

Lemma outer_bytes_ok r : length (g (r_eth r)) = 20%nat -> (forall v, r_vlan r = Some v -> length (g v) = 8%nat) ->
  length (outer_bytes r) = 56%nat /\ forall k, byte_at (outer_bytes r) k = if decide (k < 24)%nat then slot_byte g (slot r k) else 0.
Proof.
  intros He Hv. unfold outer_bytes. destruct (r_vlan r) as [v|] eqn:Hr; cbn [put_all eth_fields tag_fields foldl fst snd].
  - specialize (Hv v eq_refl). rewrite Htag. pose proof (length_tag_buf (g v) Hv) as Ht. split; [len56; done|]. intros k.
    assert (length (zeros 56) = 56%nat) as Hz by done.
    repeat rewrite byte_put56 by side56. unfold slot. rewrite Hr, byte_zeros.
    repeat (case_decide; try lia); cbn [slot_byte fmap option_fmap option_map]; try done; try (f_equal; lia);
      rewrite byte_tag_buf by done; rewrite decide_True by lia; f_equal; lia.
  - split; [len56; done|]. intros k. assert (length (zeros 56) = 56%nat) as Hz by done.
    repeat rewrite byte_put56 by side56. unfold slot. rewrite Hr, byte_zeros.
    repeat (case_decide; try lia); cbn [slot_byte fmap option_fmap option_map]; try done; f_equal; lia.
Qed.

Lemma put_items_outer r : put_items g (item_fields r) (rule_items r) (zeros 56) = put_items g inner_fields (r_inner r) (outer_bytes r).
Proof. unfold put_items, item_fields, rule_items, outer_bytes. by destruct (r_vlan r). Qed.

Lemma compiled_byte r k : length (g (r_eth r)) = 20%nat -> (forall v, r_vlan r = Some v -> length (g v) = 8%nat) ->
  (length (r_inner r) <= 5)%nat ->
  (forall i s h, inner_slots !! i = Some s -> r_inner r !! i = Some h -> (hdr_len s.1 <= length (g h))%nat) ->
  byte_at (put_items g (item_fields r) (rule_items r) (zeros 56)) k = slot_byte g (slot r k).
Proof.
  intros He Hv Hlen Hin. destruct (outer_bytes_ok r He Hv) as [Hl Hk]. rewrite put_items_outer.
  assert (forall i h, (i < 5)%nat -> r_inner r !! i = Some h -> (8 <= length (g h))%nat /\ (i = 0 \/ i = 4 -> 20 <= length (g h))%nat
    /\ (i = 3 -> 14 <= length (g h))%nat) as Hlens.
  { intros i h Hi Hh. destruct (lookup_lt_is_Some_2 inner_slots i Hi) as [s Hs]. specialize (Hin i s h Hs Hh).
    destruct i as [|[|[|[|[|i]]]]]; [injection Hs as <-; cbn in Hin; lia..|lia]. }
  clear Hin. generalize (outer_bytes r) Hl Hk. clear Hl Hk. intros d Hl Hk. unfold slot in *.
  destruct (r_inner r) as [|h0 [|h1 [|h2 [|h3 [|h4 [|]]]]]]; [..|cbn in Hlen; lia];
    try destruct (Hlens 0%nat _ ltac:(lia) eq_refl) as (? & ? & _); try destruct (Hlens 1%nat _ ltac:(lia) eq_refl) as (? & _ & _);
    try destruct (Hlens 2%nat _ ltac:(lia) eq_refl) as (? & _ & _); try destruct (Hlens 3%nat _ ltac:(lia) eq_refl) as (? & _ & ?);
    try destruct (Hlens 4%nat _ ltac:(lia) eq_refl) as (? & ? & _);
    cbn [put_items inner_fields zip zip_with foldl put_all fst snd list_lookup lookup fmap option_fmap option_map] in *;
    repeat rewrite byte_put56 by side56; rewrite Hk; clear Hk Hv Hlens;
    repeat (case_decide; try lia); cbn [slot_byte]; try done; f_equal; lia.
Qed.
End compiled_bytes.

(** ** Which packets a rule matches *)

(** A byte of a packet agrees with byte [i] of an item. *)
Definition agree_at (h : hdr_item) (i : nat) (b : Z) : Prop :=
  Z.land b (byte_at (h_mask h) i) = Z.land (byte_at (h_spec h) i) (byte_at (h_mask h) i).

(** What the rule compares, header by header, as the profile lays out the key.
    This is not yet what the items mean: see [headers_agree]. *)
Record key_compares (r : ovs_rule) (pkt : list Z) : Prop := {
  hm_mac : forall i, (i < 12)%nat -> agree_at (r_eth r) i (byte_at pkt i);
  hm_type : r_vlan r = None -> forall i, (i < 2)%nat -> agree_at (r_eth r) (12 + i) (byte_at pkt (l3_off pkt - 2 + i));
  hm_vlan : forall v, r_vlan r = Some v -> tags pkt = 1%nat /\ forall i, (i < 4)%nat -> agree_at v i (byte_at pkt (14 + i));
  hm_ip : forall h, r_inner r !! 0%nat = Some h ->
    is_ipv4 pkt /\ forall i, i ∈ matchable T_IPV4 false -> agree_at h i (byte_at pkt (l3_off pkt + i));
  hm_udp : forall h, r_inner r !! 1%nat = Some h -> is_udp pkt /\
    (length (r_inner r) = 2%nat -> forall i, (i < 4)%nat ->
      agree_at h i (byte_at pkt (if decide (w16 pkt (l4_off pkt + 2) = UDP_PORT_VXLAN) then l4_off pkt + 12 + i else l4_off pkt + i)%nat));
  hm_vxlan : forall h, r_inner r !! 2%nat = Some h ->
    is_vxlan pkt /\ forall i, (4 <= i < 8)%nat -> agree_at h i (byte_at pkt (l4_off pkt + 8 + i));
  hm_inner_eth : forall h, r_inner r !! 3%nat = Some h -> forall i, (i < 14)%nat -> agree_at h i (byte_at pkt (inner_off pkt + i));
  hm_inner_ip : forall h, r_inner r !! 4%nat = Some h -> forall i, (6 <= i < 8)%nat ->
    agree_at h i (if decide (w16 pkt (inner_off pkt + 12) = RTE_ETHER_TYPE_IPV4) then byte_at pkt (inner_off pkt + 14 + i) else 0);
}.

Section matching.
Context (r : ovs_rule) (Hr : rule_ok r).

Lemma spec_byte k : byte_at (put_items h_spec (item_fields r) (rule_items r) (zeros 56)) k = slot_byte h_spec (slot r k).
Proof.
  apply compiled_byte; [done|apply Hr|intros v Hv; apply (ro_vlan _ Hr v Hv)|apply Hr|].
  intros i s h Hs Hh. pose proof (io_spec _ _ _ (ro_inner _ Hr i s h Hs Hh)) as ->. 
  destruct i as [|[|[|[|[|i]]]]]; [injection Hs as <-; cbn; lia..|done].
Qed.

Lemma mask_byte k : byte_at (put_items h_mask (item_fields r) (rule_items r) (zeros 56)) k = slot_byte h_mask (slot r k).
Proof.
  apply compiled_byte; [done|apply Hr|intros v Hv; apply (ro_vlan _ Hr v Hv)|apply Hr|].
  intros i s h Hs Hh. pose proof (io_mask _ _ _ (ro_inner _ Hr i s h Hs Hh)) as ->. 
  destruct i as [|[|[|[|[|i]]]]]; [injection Hs as <-; cbn; lia..|done].
Qed.

Lemma bytes_put_items g fs hs : forall d, Forall (fun h => bytes (g h)) hs -> bytes d -> bytes (put_items g fs hs d).
Proof.
  revert fs. induction hs as [|h hs IH]; intros fs d Hh Hd; [by destruct fs|]. inversion Hh as [|? ? Hg Hhs]; subst.
  destruct fs as [|f fs]; [done|]. apply IH; [done|]. by apply bytes_put_all.
Qed.

Lemma rule_items_bytes : Forall (fun h => bytes (h_spec h)) (rule_items r) /\ Forall (fun h => bytes (h_mask h)) (rule_items r).
Proof.
  assert (forall h, h ∈ rule_items r -> bytes (h_spec h) /\ bytes (h_mask h)) as Hall.
  { intros h Hh. unfold rule_items in Hh. apply elem_of_cons in Hh as [->|Hh]; [split; apply Hr|].
    apply elem_of_app in Hh as [Hh|Hh].
    - apply list_elem_of_fmap in Hh as (v & -> & Hv). destruct (r_vlan r) as [w|] eqn:Hw; [|by apply elem_of_nil in Hv].
      apply list_elem_of_singleton in Hv as ->. pose proof (ro_vlan _ Hr w Hw) as Hok. cbn [tag_item h_spec h_mask].
      unfold tag_buf. rewrite !bytes_app. pose proof (io_spec_bytes _ _ _ Hok). pose proof (io_mask_bytes _ _ _ Hok). auto 10 with dao.
    - apply list_elem_of_lookup in Hh as [i Hi]. pose proof (lookup_lt_Some _ _ _ Hi) as Hlt. pose proof (ro_len _ Hr) as Hlen.
      destruct (lookup_lt_is_Some_2 inner_slots i) as [s Hs]; [cbn; lia|]. pose proof (ro_inner _ Hr i s h Hs Hi) as Hok. split; apply Hok. }
  split; apply Forall_forall; intros h Hh%list_elem_of_In; by apply Hall.
Qed.

Lemma compiled_bytes_ok : bytes (parsed_data (compiled r)) /\ bytes (parsed_data_mask (compiled r)).
Proof.
  destruct rule_items_bytes as [H1 H2]. cbn [compiled parsed_data parsed_data_mask]. rewrite !bytes_app.
  split; (split; [|apply bytes_drop, bytes_put_items; auto with dao]);
    repeat constructor; repeat case_match; lia.
Qed.

(** The rule matches when the layer types and the bytes of the items agree. *)
Lemma match_slots tbl prio act key : bytes key ->
  acl_match {| field := rule_fields tbl (compiled r); priority := prio; userdata := act |} ([u8 tbl; 0; 0; 0] ++ key) = true <->
  (forall k, (k < 5)%nat -> Z.land (byte_at key k) (byte_at (hdr_mask (has_tag r) (length (r_inner r))) k) =
     Z.land (byte_at (hdr_data (has_tag r) (length (r_inner r))) k) (byte_at (hdr_mask (has_tag r) (length (r_inner r))) k)) /\
  forall k h i, (5 <= k < 56)%nat -> slot r k = Some (h, i) -> agree_at h i (byte_at key k).
Proof.
  intros Hk. destruct compiled_bytes_ok as [Hd Hm]. rewrite rule_matches_bytes by done. cbn [compiled parsed_data parsed_data_mask].
  set (dat := hdr_data _ _). set (msk := hdr_mask _ _).
  assert (length dat = 5%nat /\ length msk = 5%nat) as [L1 L2] by done.
  split.
  - intros Hall. split.
    + intros k Hk5. specialize (Hall k ltac:(lia)). rewrite !byte_app, L1, L2 in Hall. by rewrite !decide_True in Hall by done.
    + intros k h i Hk5 Hs. specialize (Hall k ltac:(lia)). rewrite !byte_app, L1, L2 in Hall.
      rewrite !decide_False in Hall by lia. rewrite !byte_drop, spec_byte, mask_byte in Hall.
      replace (5 + (k - 5))%nat with k in Hall by lia. by rewrite Hs in Hall.
  - intros [Hlow Hhigh] k Hk56. rewrite !byte_app, L1, L2. case_decide as Hk5; [by apply Hlow|].
    rewrite !byte_drop, spec_byte, mask_byte. replace (5 + (k - 5))%nat with k by lia.
    destruct (slot r k) as [[h i]|] eqn:Hs; cbn [slot_byte]; [apply Hhigh; [lia|done]|by rewrite !Z.land_0_r].
Qed.
End matching.

Lemma layer_types_agree pkt key v n : key_spec pkt key ->
  (forall k, (k < 5)%nat -> Z.land (byte_at key k) (byte_at (hdr_mask v n) k) = Z.land (byte_at (hdr_data v n) k) (byte_at (hdr_mask v n) k)) <->
  (v = true -> tags pkt = 1%nat) /\ ((1 <= n)%nat -> is_ipv4 pkt) /\ ((2 <= n)%nat -> is_udp pkt) /\ ((3 <= n)%nat -> is_vxlan pkt).
Proof.
  intros Hk.
  assert (Z.land (byte_at key 2) (15 + if v then 240 else 0) = Z.land (2 + if v then 32 else 0) (15 + if v then 240 else 0) <->
          (v = true -> tags pkt = 1%nat)) as H2.
  { rewrite (ks_b2 _ _ Hk). unfold tag_ltype. destruct v; [|split; [done|intros _; by repeat case_decide]].
    repeat case_decide; (split; [intros He|intros He; specialize (He eq_refl)]); try done; lia. }
  assert (byte_at (hdr_mask v n) 0 = 0 /\ byte_at (hdr_mask v n) 1 = 0) as [M0 M1] by done.
  assert ((forall k, (k < 5)%nat -> Z.land (byte_at key k) (byte_at (hdr_mask v n) k) = Z.land (byte_at (hdr_data v n) k) (byte_at (hdr_mask v n) k)) <->
    (v = true -> tags pkt = 1%nat) /\
    Z.land (byte_at key 3) (byte_at (hdr_mask v n) 3) = Z.land (byte_at (hdr_data v n) 3) (byte_at (hdr_mask v n) 3) /\
    Z.land (byte_at key 4) (byte_at (hdr_mask v n) 4) = Z.land (byte_at (hdr_data v n) 4) (byte_at (hdr_mask v n) 4)) as ->.
  { rewrite <- H2. split.
    - intros Hall. split; [apply (Hall 2%nat); lia|]. split; [apply (Hall 3%nat)|apply (Hall 4%nat)]; lia.
    - intros (E2 & E3 & E4) k Hk5. destruct k as [|[|[|[|[|k]]]]]; [by rewrite M0, !Z.land_0_r|by rewrite M1, !Z.land_0_r|done|done|done|lia]. }
  apply and_iff_compat_l. clear H2 M0 M1. unfold hdr_mask, hdr_data, byte_at at 2 3 4 6 7 8. cbn [lookup list_lookup default from_option id].
  destruct n as [|n].
  { cbn [Nat.leb]. change (0 + 0) with 0. rewrite !Z.land_0_r. split; [|done]. intros _. repeat split; lia. }
  cbn [Nat.leb].
  destruct (decide (l3_type pkt = RTE_ETHER_TYPE_IPV4)) as [Hip|Hip].
  2:{ split; [|intros [H1 _]; exfalso; apply Hip, H1; lia]. intros [H3 _]. exfalso. apply (ks_other _ _ Hk Hip).
      destruct n as [|n]; [exact H3|]. change (1 <=? S n)%nat with true in H3. change (15 + 240) with (Z.ones 8) in H3.
      change 15 with (Z.land (Z.ones 8) 15). rewrite Z.land_assoc. cbn match in H3. rewrite H3. done. }
  rewrite (ks_b3 _ _ Hk Hip).
  destruct n as [|n].
  { cbn [Nat.leb]. change (0 + 0) with 0. rewrite !Z.land_0_r. split; [|intros _; split; [by case_decide|done]].
    intros _. split; [done|]. split; lia. }
  cbn [Nat.leb]. destruct (decide (ip_proto pkt = IPPROTO_UDP)) as [Hu|Hu].
  2:{ split; [intros [He _]; by vm_compute in He|]. intros (_ & H1 & _). exfalso. apply Hu, H1. lia. }
  destruct n as [|n]; cbn [Nat.leb].
  { rewrite !Z.land_0_r. split; [|done]. intros _. split; [done|]. split; [done|lia]. }
  destruct (decide (w16 pkt (l4_off pkt + 2) = UDP_PORT_VXLAN)) as [Hv|Hv].
  - destruct (ks_vxlan _ _ Hk Hip Hu Hv) as [-> _]. done.
  - destruct (ks_udp _ _ Hk Hip Hu Hv) as [-> _]. split; [intros [_ He]; by vm_compute in He|]. intros (_ & _ & H1). exfalso.
    apply Hv, H1. lia.
Qed.

Section headers.
Context (r : ovs_rule) (Hr : rule_ok r) (pkt key : list Z) (Hkey : key_spec pkt key).

(** The bytes of the items agree, given the layer types. *)
Definition slots_agree : Prop := forall k h i, (5 <= k < 56)%nat -> slot r k = Some (h, i) -> agree_at h i (byte_at key k).

Definition types_agree : Prop :=
  (has_tag r = true -> tags pkt = 1%nat) /\ ((1 <= length (r_inner r))%nat -> is_ipv4 pkt) /\
  ((2 <= length (r_inner r))%nat -> is_udp pkt) /\ ((3 <= length (r_inner r))%nat -> is_vxlan pkt).

Lemma lookup_none_length (i : nat) : (length (r_inner r) <= i)%nat -> r_inner r !! i = None.
Proof. apply lookup_ge_None_2. Qed.

(** Byte [k] of the key is compared with byte [i] of the item [h]. *)
Lemma slot_at k h i b : slots_agree -> (5 <= k < 56)%nat -> slot r k = Some (h, i) -> byte_at key k = b -> agree_at h i b.
Proof. intros Hs Hk Hsl <-. by apply (Hs k). Qed.

Ltac at_slot n :=
  eapply (slot_at n); [eassumption|lia|unfold slot; repeat (case_decide; try lia)|].

Lemma slots_headers : types_agree -> slots_agree -> key_compares r pkt.
Proof.
  intros (T1 & T2 & T3 & T4) Hs.
  assert (forall i h, r_inner r !! i = Some h -> (i < length (r_inner r))%nat) as Hlen by (intros i h; apply lookup_lt_Some).
  split.
  - intros i Hi. at_slot (19 - i)%nat; [do 2 f_equal; lia|]. rewrite (ks_mac _ _ Hkey) by lia. f_equal. lia.
  - intros Hv i Hi. at_slot (21 - i)%nat; [rewrite Hv; do 2 f_equal; lia|]. rewrite (ks_type _ _ Hkey) by lia. f_equal. lia.
  - intros v Hv. assert (tags pkt = 1%nat) as Ht by (apply T1; unfold has_tag; rewrite Hv; done). split; [done|]. intros i Hi.
    assert (l3_off pkt = 18%nat) as Ho by (unfold l3_off; lia). destruct (decide (i < 2)%nat).
    + at_slot (23 - i)%nat; [rewrite Hv; cbn; do 2 f_equal; lia|]. rewrite (ks_tci _ _ Hkey) by lia. f_equal. lia.
    + at_slot (23 - i)%nat; [rewrite Hv; cbn; do 2 f_equal; lia|]. rewrite (ks_type _ _ Hkey) by lia. f_equal. lia.
  - intros h Hh. assert (is_ipv4 pkt) as Hip by (apply T2; specialize (Hlen _ _ Hh); lia). split; [done|]. intros i Hi.
    assert (i = 1 \/ 6 <= i < 8 \/ 12 <= i < 20)%nat as [-> | [Hi' | Hi']].
    { cbn in Hi. rewrite !elem_of_cons, elem_of_nil in Hi. lia. }
    + at_slot 54%nat; [by rewrite Hh|]. by apply (ks_tos _ _ Hkey).
    + at_slot (31 - i)%nat; [rewrite Hh; cbn; do 2 f_equal; lia|]. rewrite (ks_frag _ _ Hkey) by (done || lia). f_equal. lia.
    + at_slot (45 - i)%nat; [rewrite Hh; cbn; do 2 f_equal; lia|]. rewrite (ks_addr _ _ Hkey) by (done || lia). f_equal. lia.
  - intros h Hh. pose proof (Hlen _ _ Hh) as Hl. assert (is_ipv4 pkt) as Hip by (apply T2; lia).
    assert (is_udp pkt) as Hu by (apply T3; lia). split; [done|]. intros H2 i Hi.
    at_slot (37 - i)%nat; [rewrite (lookup_none_length 2), Hh by lia; cbn; do 2 f_equal; lia|].
    destruct (decide (w16 pkt (l4_off pkt + 2) = UDP_PORT_VXLAN)) as [Hv|Hv].
    + destruct (ks_vxlan _ _ Hkey Hip Hu Hv) as (_ & K1 & _). rewrite K1 by lia. f_equal. lia.
    + destruct (ks_udp _ _ Hkey Hip Hu Hv) as (_ & K1). rewrite K1 by lia. f_equal. lia.
  - intros h Hh. pose proof (Hlen _ _ Hh) as Hl. split; [apply T4; lia|]. intros i Hi.
    at_slot (41 - i)%nat; [rewrite Hh; do 2 f_equal; lia|].
    destruct (ks_vxlan _ _ Hkey) as (_ & K1 & _); [apply T2; lia|apply T3; lia|apply T4; lia|]. rewrite K1 by lia. f_equal. lia.
  - intros h Hh i Hi. pose proof (Hlen _ _ Hh) as Hl.
    destruct (ks_vxlan _ _ Hkey) as (_ & _ & K1 & K2 & _); [apply T2; lia|apply T3; lia|apply T4; lia|].
    destruct (decide (i < 12)%nat).
    + at_slot (49 - i)%nat; [rewrite Hh; cbn; do 2 f_equal; lia|]. rewrite K1 by lia. f_equal. lia.
    + at_slot (63 - i)%nat; [rewrite Hh; cbn; do 2 f_equal; lia|]. rewrite K2 by lia. f_equal. lia.
  - intros h Hh i Hi. pose proof (Hlen _ _ Hh) as Hl.
    at_slot (59 - i)%nat; [rewrite Hh; cbn; do 2 f_equal; lia|].
    destruct (ks_vxlan _ _ Hkey) as (_ & _ & _ & _ & K3); [apply T2; lia|apply T3; lia|apply T4; lia|].
    rewrite K3 by lia. destruct (decide (w16 pkt (inner_off pkt + 12) = RTE_ETHER_TYPE_IPV4)); [f_equal; lia|done].
Qed.

Lemma headers_types : key_compares r pkt -> types_agree.
Proof.
  intros Hm. assert (forall i, (i < length (r_inner r))%nat -> exists h, r_inner r !! i = Some h) as Hsome
    by (intros i; apply lookup_lt_is_Some_2).
  split; [|split; [|split]].
  - unfold has_tag. intros Ht%bool_decide_eq_true. destruct Ht as [v Hv]. by apply (hm_vlan _ _ Hm v).
  - intros Hl. destruct (Hsome 0%nat) as [h Hh]; [lia|]. by apply (hm_ip _ _ Hm h).
  - intros Hl. destruct (Hsome 1%nat) as [h Hh]; [lia|]. by apply (hm_udp _ _ Hm h).
  - intros Hl. destruct (Hsome 2%nat) as [h Hh]; [lia|]. by apply (hm_vxlan _ _ Hm h).
Qed.

Lemma agree_eq h i j b b' : agree_at h i b -> i = j -> b = b' -> agree_at h j b'.
Proof. by intros Ha <- <-. Qed.

Lemma headers_slots : key_compares r pkt -> slots_agree.
Proof.
  intros Hm. destruct (headers_types Hm) as (T1 & T2 & T3 & T4). intros k h i Hk Hsl.
  assert (forall i h, r_inner r !! i = Some h -> (i < length (r_inner r))%nat) as Hlen by (intros ? ?; apply lookup_lt_Some).
  unfold slot in Hsl. repeat (case_decide; [|]); try done.
  - injection Hsl as <- <-. rewrite (ks_mac _ _ Hkey) by lia. apply Hm. lia.
  - rewrite (ks_type _ _ Hkey) by lia. destruct (r_vlan r) as [v|] eqn:Hv; injection Hsl as <- <-.
    + destruct (hm_vlan _ _ Hm v Hv) as [Ht Hb]. eapply agree_eq; [apply (Hb (2 + (21 - k))%nat); lia|done|].
      unfold l3_off. rewrite Ht. f_equal.
    + apply (hm_type _ _ Hm Hv). lia.
  - destruct (r_vlan r) as [v|] eqn:Hv; [|done]. injection Hsl as <- <-. destruct (hm_vlan _ _ Hm v Hv) as [Ht Hb].
    rewrite (ks_tci _ _ Hkey) by lia. eapply agree_eq; [apply (Hb (23 - k)%nat); lia|done|]. unfold l3_off. rewrite Ht. f_equal.
  - apply fmap_Some in Hsl as (h' & Hh & [= -> ->]). destruct (hm_ip _ _ Hm h' Hh) as [Hip Hb].
    rewrite (ks_frag _ _ Hkey) by (done || lia). eapply agree_eq; [apply (Hb (6 + (25 - k))%nat)|done|f_equal; lia].
    assert (k = 24 \/ k = 25)%nat as [-> | ->] by lia; cbn; rewrite !elem_of_cons; auto.
  - apply fmap_Some in Hsl as (h' & Hh & [= -> ->]). destruct (hm_ip _ _ Hm h' Hh) as [Hip Hb].
    rewrite (ks_addr _ _ Hkey) by (done || lia). eapply agree_eq; [apply (Hb (12 + (33 - k))%nat)|done|f_equal; lia].
    apply elem_of_app. right. apply elem_of_seq. lia.
  - destruct (r_inner r !! 2%nat) as [h2|] eqn:Hv2.
    + injection Hsl as <- <-. destruct (hm_vxlan _ _ Hm h2 Hv2) as [Hv Hb]. pose proof (Hlen _ _ Hv2).
      destruct (ks_vxlan _ _ Hkey) as (_ & K1 & _); [apply T2; lia|apply T3; lia|done|].
      rewrite K1 by lia. eapply agree_eq; [apply (Hb (4 + (37 - k))%nat); lia|done|f_equal; lia].
    + apply fmap_Some in Hsl as (h' & Hh & [= -> ->]). destruct (hm_udp _ _ Hm h' Hh) as [Hu Hb]. pose proof (Hlen _ _ Hh).
      apply lookup_ge_None in Hv2. eapply agree_eq; [apply (Hb ltac:(lia) (37 - k)%nat); lia|done|]. assert (is_ipv4 pkt) as Hip by (apply T2; lia).
      destruct (decide (w16 pkt (l4_off pkt + 2) = UDP_PORT_VXLAN)) as [Hv|Hv].
      * destruct (ks_vxlan _ _ Hkey Hip Hu Hv) as (_ & K1 & _). by rewrite K1 by lia.
      * destruct (ks_udp _ _ Hkey Hip Hu Hv) as (_ & K1). by rewrite K1 by lia.
  - apply fmap_Some in Hsl as (h' & Hh & [= -> ->]). pose proof (Hlen _ _ Hh).
    destruct (ks_vxlan _ _ Hkey) as (_ & _ & K1 & _); [apply T2; lia|apply T3; lia|apply T4; lia|]. rewrite K1 by lia.
    apply (hm_inner_eth _ _ Hm h' Hh). lia.
  - apply fmap_Some in Hsl as (h' & Hh & [= -> ->]). pose proof (Hlen _ _ Hh).
    destruct (ks_vxlan _ _ Hkey) as (_ & _ & _ & K1 & _); [apply T2; lia|apply T3; lia|apply T4; lia|]. rewrite K1 by lia.
    eapply agree_eq; [apply (hm_inner_eth _ _ Hm h' Hh (12 + (51 - k))%nat); lia|done|f_equal; lia].
  - apply fmap_Some in Hsl as (h' & Hh & [= -> ->]). pose proof (Hlen _ _ Hh).
    destruct (ks_vxlan _ _ Hkey) as (_ & _ & _ & _ & K1); [apply T2; lia|apply T3; lia|apply T4; lia|]. rewrite K1 by lia.
    eapply agree_eq; [apply (hm_inner_ip _ _ Hm h' Hh (6 + (53 - k))%nat); lia|done|].
    destruct (decide (w16 pkt (inner_off pkt + 12) = RTE_ETHER_TYPE_IPV4)); [f_equal; lia|done].
  - subst k. apply fmap_Some in Hsl as (h' & Hh & [= -> ->]). destruct (hm_ip _ _ Hm h' Hh) as [Hip Hb].
    rewrite (ks_tos _ _ Hkey Hip). apply Hb. cbn. rewrite !elem_of_cons. auto.
Qed.
End headers.

(** The rule that is compiled, against the key of a packet. *)
Lemma compiled_matches r pkt key tbl prio act : rule_ok r -> key_spec pkt key ->
  acl_match {| field := rule_fields tbl (compiled r); priority := prio; userdata := act |} ([u8 tbl; 0; 0; 0] ++ key) = true <->
  key_compares r pkt.
Proof.
  intros Hr Hspec. rewrite match_slots, layer_types_agree by (done || apply Hspec). split.
  - intros [Ht Hs]. by apply (slots_headers r pkt key Hspec).
  - intros Hm. split; [by apply headers_types|by apply (headers_slots r pkt key Hspec)].
Qed.

(** ** The meaning of a rule *)

(** A header of the packet agrees with an item: all bytes of the header at
    [o], under the mask. *)
Definition hdr_agrees (t : item_type) (h : hdr_item) (pkt : list Z) (o : nat) : Prop :=
  forall i, (i < hdr_len t)%nat -> agree_at h i (byte_at pkt (o + i)).

(** The fourth layer starts behind the IPv4 header and its options. *)
Definition l4_at (pkt : list Z) : nat := l3_off pkt + Z.to_nat (4 * (byte_at pkt (l3_off pkt) mod 16)).

(** For the headers behind Ethernet and VLAN: whether the packet has it, and
    where it starts. *)
Definition inner_hdrs (pkt : list Z) : list (Prop * nat) :=
  let l4 := l4_at pkt in
  [(is_ipv4 pkt, l3_off pkt); (is_udp pkt, l4); (w16 pkt (l4 + 2) = UDP_PORT_VXLAN, l4 + 8)%nat; (True, l4 + 16)%nat;
   (w16 pkt (l4 + 28) = RTE_ETHER_TYPE_IPV4, l4 + 30)%nat].

(** Every item of the rule agrees with its header in the packet, and the
    packet has the header. *)
Record headers_agree (r : ovs_rule) (pkt : list Z) : Prop := {
  ha_eth : hdr_agrees T_ETH (r_eth r) pkt 0;
  ha_vlan : forall v, r_vlan r = Some v -> w16 pkt 12 = RTE_ETHER_TYPE_VLAN /\ hdr_agrees T_VLAN v pkt 14;
  ha_inner : forall k t h there o, inner_types !! k = Some t -> r_inner r !! k = Some h -> inner_hdrs pkt !! k = Some (there, o) ->
    there /\ hdr_agrees t h pkt o;
}.

(** An item that asks for the type IPv4. *)
Definition asks_ipv4 (h : hdr_item) : Prop :=
  byte_at (h_mask h) 12 = 255 /\ byte_at (h_mask h) 13 = 255 /\ byte_at (h_spec h) 12 = 8 /\ byte_at (h_spec h) 13 = 0.

(** The rules and packets for which the key holds what the items ask for: the
    Ethernet item does not ask for a type where the key has the one behind the
    tag; the IPv4 header has no options in front of UDP; the ports are not
    asked for where the key has the VXLAN network instead; and behind an item
    for the inner IPv4 header there is one, or the inner type is asked for. *)
Record in_scope (r : ovs_rule) (pkt : list Z) : Prop := {
  sc_type : r_vlan r = None /\ tags pkt = 0%nat \/ forall i, (12 <= i < 14)%nat -> byte_at (h_mask (r_eth r)) i = 0;
  sc_options : (2 <= length (r_inner r))%nat -> byte_at pkt (l3_off pkt) mod 16 = 5;
  sc_ports : forall h, r_inner r !! 1%nat = Some h ->
    length (r_inner r) = 2%nat /\ ~ is_vxlan pkt \/ forall i, (i < 4)%nat -> byte_at (h_mask h) i = 0;
  sc_inner : length (r_inner r) = 5%nat -> inner_ipv4 pkt \/ exists e, r_inner r !! 3%nat = Some e /\ asks_ipv4 e;
}.

Lemma agree_masked h i b : byte_at (h_mask h) i = 0 -> agree_at h i b.
Proof. unfold agree_at. intros ->. by rewrite !Z.land_0_r. Qed.

Section meaning.
Context (r : ovs_rule) (pkt : list Z).
Hypothesis (Hr : rule_ok r) (Hb : bytes pkt) (Hsc : in_scope r pkt).

Lemma inner_item_ok k t inner h : inner_slots !! k = Some (t, inner) -> r_inner r !! k = Some h -> item_ok t inner h.
Proof. intros Hs Hh. apply (ro_inner _ Hr k (t, inner) h Hs Hh). Qed.

(** Only the bytes that can be matched need to agree. *)
Lemma hdr_agrees_matchable t inner h o : item_ok t inner h ->
  hdr_agrees t h pkt o <-> forall i, (i < hdr_len t)%nat -> i ∈ matchable t inner -> agree_at h i (byte_at pkt (o + i)).
Proof.
  intros Hok. split; [auto|]. intros Ha i Hi. destruct (decide (i ∈ matchable t inner)) as [Hm|Hm]; [auto|].
  by apply agree_masked, (io_matchable _ _ _ Hok).
Qed.

Lemma l4_there : (2 <= length (r_inner r))%nat -> l4_at pkt = l4_off pkt.
Proof. intros Hl. unfold l4_at, l4_off. by rewrite (sc_options _ _ Hsc Hl). Qed.

Lemma inner_long k h : r_inner r !! k = Some h -> (k < length (r_inner r))%nat.
Proof. apply lookup_lt_Some. Qed.
(** The length that an inner item implies. *)
Lemma inner_l4 k h : r_inner r !! S k = Some h -> l4_at pkt = l4_off pkt.
Proof. intros Hh%lookup_lt_Some. apply l4_there. lia. Qed.

Lemma tags_one : tags pkt = 1%nat <-> w16 pkt 12 = RTE_ETHER_TYPE_VLAN.
Proof. unfold tags. destruct (Z.eqb_spec (w16 pkt 12) RTE_ETHER_TYPE_VLAN); [done|]. by destruct (_ =? _). Qed.

Lemma land_255 b : 0 <= b < 256 -> Z.land b 255 = b.
Proof. intros. change 255 with (Z.ones 8). rewrite Z.land_ones by lia. by apply Z.mod_small. Qed.

Lemma asks_found e : asks_ipv4 e -> agree_at e 12 (byte_at pkt (inner_off pkt + 12)) -> agree_at e 13 (byte_at pkt (inner_off pkt + 13)) ->
  inner_ipv4 pkt.
Proof.
  intros (M1 & M2 & S1 & S2) A1 A2. unfold agree_at in A1, A2. rewrite M1, S1, land_255 in A1 by (by apply byte_range).
  rewrite M2, S2, land_255 in A2 by (by apply byte_range). unfold inner_ipv4, w16.
  replace (inner_off pkt + 12 + 1)%nat with (inner_off pkt + 13)%nat by lia. rewrite A1, A2. done.
Qed.

Lemma compares_inner_ipv4 : key_compares r pkt -> length (r_inner r) = 5%nat -> inner_ipv4 pkt.
Proof.
  intros Hm Hl. destruct (sc_inner _ _ Hsc Hl) as [Hi|(e & He & Hask)]; [done|].
  apply (asks_found e Hask); apply (hm_inner_eth _ _ Hm e He); lia.
Qed.

#[local] Opaque l4_at.

Lemma compares_headers : key_compares r pkt -> headers_agree r pkt.
Proof.
  intros Hm. split.
  - intros i Hi. cbn [hdr_len] in Hi. destruct (decide (i < 12)%nat) as [Hl|Hl]; [by apply Hm|].
    destruct (sc_type _ _ Hsc) as [[Hv Ht]|Hz]; [|apply agree_masked, Hz; lia].
    pose proof (hm_type _ _ Hm Hv (i - 12)%nat ltac:(lia)) as Ha. unfold l3_off in Ha. rewrite Ht in Ha.
    eapply agree_eq; [exact Ha|lia|]. f_equal. lia.
  - intros v Hv. destruct (hm_vlan _ _ Hm v Hv) as [Ht Ha]. split; [by apply tags_one|]. intros i Hi. by apply Ha.
  - intros k t h there o Ht Hh Ho. destruct k as [|[|[|[|[|k]]]]]; [..|done]; injection Ht as <-; injection Ho as <- <-.
    + rewrite (hdr_agrees_matchable _ _ _ _ (inner_item_ok 0 _ _ h eq_refl Hh)).
      destruct (hm_ip _ _ Hm h Hh) as [Hip Ha]. split; [done|]. auto.
    + rewrite (hdr_agrees_matchable _ _ _ _ (inner_item_ok 1 _ _ h eq_refl Hh)). rewrite (inner_l4 _ _ Hh).
      destruct (hm_udp _ _ Hm h Hh) as [Hu Ha]. split; [done|]. intros i _ Hi%elem_of_seq.
      destruct (sc_ports _ _ Hsc h Hh) as [[Hl Hv]|Hz]; [|apply agree_masked, Hz; lia].
      specialize (Ha Hl i ltac:(lia)). unfold is_vxlan in Hv. by rewrite decide_False in Ha.
    + rewrite (hdr_agrees_matchable _ _ _ _ (inner_item_ok 2 _ _ h eq_refl Hh)). rewrite (inner_l4 _ _ Hh).
      destruct (hm_vxlan _ _ Hm h Hh) as [Hv Ha]. split; [done|]. intros i _ Hi%elem_of_seq. apply Ha. lia.
    + rewrite (hdr_agrees_matchable _ _ _ _ (inner_item_ok 3 _ _ h eq_refl Hh)), (inner_l4 _ _ Hh).
      split; [done|]. intros i Hi _. by apply (hm_inner_eth _ _ Hm h Hh).
    + rewrite (hdr_agrees_matchable _ _ _ _ (inner_item_ok 4 _ _ h eq_refl Hh)), (inner_l4 _ _ Hh).
      assert (inner_ipv4 pkt) as Hi4.
      { apply compares_inner_ipv4; [done|]. pose proof (ro_len _ Hr). apply lookup_lt_Some in Hh. lia. }
      unfold inner_ipv4, inner_off in Hi4. replace (l4_off pkt + 28)%nat with (l4_off pkt + 16 + 12)%nat by lia.
      split; [done|]. intros i _ Hi. pose proof (hm_inner_ip _ _ Hm h Hh i) as Ha. unfold inner_off in Ha. rewrite decide_True in Ha by done.
      eapply agree_eq; [apply Ha|done|f_equal; lia]. cbn in Hi. rewrite !elem_of_cons in Hi. destruct Hi as [-> |[-> |Hi]]; [lia..|]. by apply elem_of_nil in Hi.
Qed.

Lemma headers_compares : headers_agree r pkt -> key_compares r pkt.
Proof.
  intros [He Hv Hin].
  split.
  - intros i Hi. apply He. cbn. lia.
  - intros Hnone i Hi. destruct (sc_type _ _ Hsc) as [[_ Ht]|Hz]; [|apply agree_masked, Hz; lia].
    eapply agree_eq; [apply (He (12 + i)%nat); cbn; lia|done|]. unfold l3_off. rewrite Ht. f_equal; lia.
  - intros v Hv'. destruct (Hv v Hv') as [Ht Ha]. split; [by apply tags_one|]. intros i Hi. by apply Ha.
  - intros h Hh. destruct (Hin 0%nat _ h _ _ eq_refl Hh eq_refl) as [Hip Ha]. split; [done|]. intros i Hi. apply Ha.
    assert (Forall (fun i => i < 20)%nat (matchable T_IPV4 false)) as Hall by (apply (bool_decide_unpack _); vm_compute; exact I).
    exact (proj1 (list.Forall_forall _ _) Hall i Hi).
  - intros h Hh. destruct (Hin 1%nat _ h _ _ eq_refl Hh eq_refl) as [Hu Ha]. split; [done|]. intros Hl i Hi.
    destruct (sc_ports _ _ Hsc h Hh) as [[_ Hnv]|Hz]; [|by apply agree_masked, Hz].
    rewrite decide_False by done. rewrite <- (inner_l4 _ _ Hh). apply Ha. cbn. lia.
  - intros h Hh. destruct (Hin 2%nat _ h _ _ eq_refl Hh eq_refl) as [Hx Ha]. rewrite (inner_l4 _ _ Hh) in Hx, Ha. split; [done|].
    intros i Hi. apply Ha. cbn. lia.
  - intros h Hh i Hi. destruct (Hin 3%nat _ h _ _ eq_refl Hh eq_refl) as [_ Ha]. rewrite (inner_l4 _ _ Hh) in Ha. by apply Ha.
  - intros h Hh i Hi. destruct (Hin 4%nat _ h _ _ eq_refl Hh eq_refl) as [Hx Ha]. rewrite (inner_l4 _ _ Hh) in Hx, Ha. unfold inner_off.
    rewrite decide_True by (rewrite <- Hx; f_equal; lia). eapply agree_eq; [apply (Ha i); cbn; lia|done|f_equal; lia].
Qed.
#[local] Transparent l4_at.
End meaning.

(** The rule that is compiled, against the headers of a packet. *)
Lemma compiled_agrees r pkt key tbl prio act : rule_ok r -> bytes pkt -> in_scope r pkt -> key_spec pkt key ->
  acl_match {| field := rule_fields tbl (compiled r); priority := prio; userdata := act |} ([u8 tbl; 0; 0; 0] ++ key) = true <->
  headers_agree r pkt.
Proof.
  intros Hr Hb Hsc Hk. rewrite (compiled_matches r pkt key) by done. split; [by apply compares_headers|by apply headers_compares].
Qed.

(** C2. What a flow rule matches. A rule over Ethernet, at most one VLAN tag,
    IPv4, UDP, VXLAN and the inner Ethernet and IPv4 headers, with masks the
    OVS profile supports, is compiled by [flow_parse]; the key of every packet
    of at least 112 bytes is generated; and within the scope of the profile
    ([in_scope]) the ACL rule made of the flow matches the key exactly when the
    packet has the headers of the items and each agrees with its item under
    the mask. *)
Theorem rule_matches_headers (r : ovs_rule) (attr : flow_attr) (pkt : list Z) (tbl prio act : Z) :
  rule_ok r -> parse_attr (Some attr) = pret NIX_INTF_RX -> bytes pkt -> (112 <= length pkt)%nat -> in_scope r pkt ->
  exists flow key, flow_parse ovs_parser true (Some attr) (Some (rule_pattern r)) = Ret (Some flow) /\
    ovs_profile_key_generation pkt 0 (zeros 56) = Ret key /\
    (acl_match {| field := rule_fields tbl flow; priority := prio; userdata := act |} ([u8 tbl; 0; 0; 0] ++ key) = true <->
     headers_agree r pkt).
Proof.
  intros Hr Ha Hb Hl Hsc. destruct (key_gen_ok pkt Hb Hl) as (key & Hk & Hspec). exists (compiled r), key.
  split; [by apply flow_parse_ok|]. split; [done|]. by apply compiled_agrees.
Qed.

(** ** A rule and a packet *)

Definition item_okb (t : item_type) (inner : bool) (h : hdr_item) : bool :=
  (length (h_spec h) =? Z.to_nat (sizeof_item t))%nat && (length (h_mask h) =? Z.to_nat (sizeof_item t))%nat &&
  forallb (fun b => (0 <=? b) && (b <? 256)) (h_spec h) && forallb (fun b => (0 <=? b) && (b <? 256)) (h_mask h) &&
  forallb (fun i => bool_decide (i ∈ matchable t inner) || (byte_at (h_mask h) i =? 0)) (seq 0 (hdr_len t)) &&
  negb (is_type t T_ETH && Z.testbit (byte_at (h_spec h) 14) 0) && negb (is_type t T_VLAN && Z.testbit (byte_at (h_spec h) 4) 0).

Lemma bytes_okb l : forallb (fun b => (0 <=? b) && (b <? 256)) l = true -> bytes l.
Proof. rewrite forallb_forall. intros Hl. apply Forall_forall. intros b Hb. specialize (Hl b Hb). reflect_bool. lia. Qed.

Lemma item_okb_ok t inner h : item_okb t inner h = true -> item_ok t inner h.
Proof.
  unfold item_okb, is_type. rewrite !andb_true_iff, !Nat.eqb_eq, !negb_true_iff, !andb_false_iff, !bool_decide_eq_false.
  intros ((((((H1 & H2) & H3) & H4) & H5) & H6) & H7). split; try done; try by apply bytes_okb.
  - intros i Hi Hm. rewrite forallb_forall in H5. specialize (H5 i). rewrite bool_decide_eq_false_2 in H5 by done. cbn in H5.
    apply Z.eqb_eq, H5, list_elem_of_In, elem_of_seq. lia.
  - intros ->. by destruct H6.
  - intros ->. by destruct H7.
Qed.

Definition rule_okb (r : ovs_rule) : bool :=
  item_okb T_ETH false (r_eth r) && forallb (item_okb T_VLAN false) (option_list (r_vlan r)) &&
  (length (r_inner r) <=? 5)%nat && forallb (fun sh => item_okb sh.1.1 sh.1.2 sh.2) (zip inner_slots (r_inner r)).

Lemma rule_okb_ok r : rule_okb r = true -> rule_ok r.
Proof.
  unfold rule_okb. rewrite !andb_true_iff, Nat.leb_le, !forallb_forall. intros (((H1 & H2) & H3) & H4). split; [by apply item_okb_ok| |done|].
  - intros h Hh. apply item_okb_ok, H2. rewrite Hh. by left.
  - intros k s h Hs Hh. apply (item_okb_ok s.1 s.2), (H4 (s, h)). apply list_elem_of_In, (list_elem_of_lookup_2 _ k).
    rewrite lookup_zip_with, Hs. cbn. by rewrite Hh.
Qed.

(** Destination 10.0.0.2, VXLAN network 0x000102. *)
Definition wit_rule_vxlan : ovs_rule := {|
  r_eth := {| h_spec := zeros 20; h_mask := zeros 20 |};
  r_vlan := None;
  r_inner := [
    {| h_spec := zeros 16 ++ [10; 0; 0; 2]; h_mask := zeros 16 ++ [255; 255; 255; 255] |};
    {| h_spec := zeros 8; h_mask := zeros 8 |};
    {| h_spec := zeros 4 ++ [0; 1; 2; 0]; h_mask := zeros 4 ++ [255; 255; 255; 0] |}]
|}.

Definition wit_packet (vni : Z) : list Z :=
  replicate 12 1 ++ [8; 0] ++
  ([0x45; 0; 0; 100; 0; 0; 0; 0; 64; 17; 0; 0] ++ [10; 0; 0; 1] ++ [10; 0; 0; 2]) ++
  [0x30; 0x39; 0x12; 0xb5; 0; 0; 0; 0] ++ [8; 0; 0; 0; 0; 1; vni; 0] ++ replicate 62 7.

Lemma wit_scope vni : vni = 2 \/ vni = 3 -> in_scope wit_rule_vxlan (wit_packet vni).
Proof.
  intros Hv. split.
  - right. intros i Hi. assert (i = 12 \/ i = 13)%nat as [-> | ->] by lia; reflexivity.
  - intros _. destruct Hv as [-> | ->]; vm_compute; reflexivity.
  - intros h Hh. right. injection Hh as <-. intros i Hi. destruct i as [|[|[|[|i]]]]; [done..|lia].
  - discriminate.
Qed.

Lemma wit_vni : ~ headers_agree wit_rule_vxlan (wit_packet 3).
Proof.
  intros [_ _ Hin]. destruct (Hin 2%nat _ _ _ _ eq_refl eq_refl eq_refl) as [_ Ha]. specialize (Ha 6%nat ltac:(cbn; lia)).
  vm_compute in Ha. discriminate Ha.
Qed.

Lemma rule_matches_headers_witness : headers_agree wit_rule_vxlan (wit_packet 2) /\ ~ headers_agree wit_rule_vxlan (wit_packet 3).
Proof.
  split; [|exact wit_vni].
  destruct (rule_matches_headers wit_rule_vxlan {| ingress := true; egress := false; transfer := false |} (wit_packet 2) 0 1 1)
    as (flow & key & Hf & Hk & Hm).
  - apply rule_okb_ok. vm_compute. reflexivity.
  - reflexivity.
  - apply bytes_okb. vm_compute. reflexivity.
  - apply Nat.leb_le. vm_compute. reflexivity.
  - apply wit_scope. auto.
  - apply Hm.
    assert (match flow_parse ovs_parser true (Some {| ingress := true; egress := false; transfer := false |}) (Some (rule_pattern wit_rule_vxlan)),
                  ovs_profile_key_generation (wit_packet 2) 0 (zeros 56) with
            | Ret (Some f), Ret k => acl_match {| field := rule_fields 0 f; priority := 1; userdata := 1 |} ([0; 0; 0; 0] ++ k)
            | _, _ => false end = true) as Hc by (vm_compute; reflexivity).
    rewrite Hf, Hk in Hc. exact Hc.
Defined.

(** ** Outside the scope of the profile *)

(** The rule is compiled and matched against the key of the packet. *)
Definition ovs_hits (r : ovs_rule) (pkt : list Z) : bool :=
  match flow_parse ovs_parser true (Some {| ingress := true; egress := false; transfer := false |}) (Some (rule_pattern r)),
        ovs_profile_key_generation pkt 0 (zeros 56) with
  | Ret (Some f), Ret k => acl_match {| field := rule_fields 0 f; priority := 1; userdata := 1 |} ([0; 0; 0; 0] ++ k)
  | _, _ => false
  end.

Definition any_item (t : item_type) : hdr_item := {| h_spec := zeros (sizeof_item t); h_mask := zeros (sizeof_item t) |}.

(** UDP to port 53 in front of VXLAN network [0x000102]. *)
Definition rule_port : ovs_rule := {|
  r_eth := any_item T_ETH; r_vlan := None;
  r_inner := [any_item T_IPV4; {| h_spec := [0; 0; 0; 53] ++ zeros 4; h_mask := [0; 0; 255; 255] ++ zeros 4 |};
              {| h_spec := zeros 4 ++ [0; 1; 2; 0]; h_mask := zeros 4 ++ [255; 255; 255; 0] |}]
|}.

(** UDP from port 1 to port 512. *)
Definition rule_udp : ovs_rule := {|
  r_eth := any_item T_ETH; r_vlan := None;
  r_inner := [any_item T_IPV4; {| h_spec := [0; 1; 2; 0] ++ zeros 4; h_mask := [255; 255; 255; 255] ++ zeros 4 |}]
|}.

(** Ethernet type IPv6 in front of a tag. *)
Definition rule_type : ovs_rule := {|
  r_eth := {| h_spec := zeros 12 ++ [0x86; 0xdd] ++ zeros 6; h_mask := zeros 12 ++ [255; 255] ++ zeros 6 |};
  r_vlan := Some (any_item T_VLAN); r_inner := []
|}.

Definition tagged_packet : list Z := replicate 12 1 ++ [0x81; 0; 0; 5; 8; 0] ++ [0x45] ++ replicate 99 7.

(** An inner IPv4 header. *)
Definition rule_inner : ovs_rule := {|
  r_eth := any_item T_ETH; r_vlan := None; r_inner := any_item <$> inner_types
|}.

