(* ===== verification/FlowSafe.v ===== *)
(** * The flow parser on every pattern

    [flow_parse] reads the structures the items of a pattern point to, and
    writes the key of 56 bytes, the list of layers and its buffers on the
    stack at offsets that come from the profile and from the pattern. On
    patterns whose items point to structures of their type it stays inside all
    of them, with the OVS and with the default profile; raw items must not
    have a negative offset, and IPv6 extension items need 8 bytes where their
    structure has one. Without the two conditions it does leave them. *)
From stdpp Require Import base option list numbers.
From S2P Require Import Prelude Rte FlowAcl FlowParser FlowProfile.

Local Open Scope Z_scope.

(** ** Well-typed patterns *)

(** The bytes the parser reads of an item: those of the structure, and 8 of an
    IPv6 extension item, although its structure has one. *)
Definition readable (t : item_type) : Z := if is_type t T_IPV6_EXT then 8 else sizeof_item t.

(** A structure of the type of the item; items to be skipped have none. *)
Definition typed_data (t : item_type) (d : option item_data) : bool :=
  match d with
  | None => true
  | Some (Bytes b) => negb (is_type t T_VOID || is_type t T_ANY) && (readable t <=? Z.of_nat (length b))
  | Some (Raw _) => false
  end.

(** At least [n] bytes, unless the pointer is null. *)
Definition raw_bytes (n : Z) (o : option (list Z)) : bool :=
  match o with None => true | Some b => n <=? Z.of_nat (length b) end.

(** A raw item: a spec with an offset that is not negative and as many bytes
    as its length says, and as many in a mask. *)
Definition typed_raw (sp m : option item_data) : bool :=
  match sp with
  | Some (Raw r) =>
      (0 <=? raw_offset r) && (0 <=? raw_length r) && raw_bytes (raw_length r) (raw_pattern r) &&
      ((raw_length r =? 0) || bool_decide (is_Some (raw_pattern r))) &&
      match m with None => true | Some (Raw k) => raw_bytes (raw_length r) (raw_pattern k) | Some (Bytes _) => false end
  | _ => false
  end.

Definition typed_item (it : flow_item) : bool :=
  if is_type (i_type it) T_RAW then typed_raw (i_spec it) (i_mask it)
  else typed_data (i_type it) (i_spec it) && typed_data (i_type it) (i_mask it).

Definition typed_pattern (l : list flow_item) : bool := forallb typed_item l.

(** ** Results that are not a fault *)

Definition gives {A} (Q : A -> Prop) (m : cres A) : Prop := match m with Ret a => Q a | _ => False end.

Definition returns {A} (Q : A -> Prop) (m : cres (Z + A)) : Prop :=
  gives (fun r => match r with inl _ => True | inr a => Q a end) m.

Lemma returns_pret {A} (Q : A -> Prop) a : Q a -> returns Q (pret a).
Proof. done. Qed.

Lemma returns_perr {A} (Q : A -> Prop) e : returns Q (perr e).
Proof. done. Qed.

Lemma returns_bind {A B} (Q : A -> Prop) (R : B -> Prop) m f :
  returns Q m -> (forall a, Q a -> returns R (f a)) -> returns R (pbind m f).
Proof. destruct m as [[e|a]| |]; cbn; auto. Qed.

Lemma gives_bind {A B} (Q : A -> Prop) (R : B -> Prop) (m : cres A) (f : A -> cres B) :
  gives Q m -> (forall a, Q a -> gives R (f a)) -> gives R (m ≫= f).
Proof. destruct m; cbn; auto. Qed.

Lemma gives_returns {A B} (Q : A -> Prop) (R : B -> Prop) (m : cres A) (f : A -> cres (Z + B)) :
  gives Q m -> (forall a, Q a -> returns R (f a)) -> returns R (m ≫= f).
Proof. apply gives_bind. Qed.

Lemma returns_impl {A} (Q R : A -> Prop) m : returns Q m -> (forall a, Q a -> R a) -> returns R m.
Proof. destruct m as [[e|a]| |]; cbn; auto. Qed.

Lemma gives_impl {A} (Q R : A -> Prop) (m : cres A) : gives Q m -> (forall a, Q a -> R a) -> gives R m.
Proof. destruct m; cbn; auto. Qed.

Create HintDb safe.
#[local] Hint Resolve returns_pret returns_perr : safe.

Lemma sub_gives l o n : 0 <= o -> 0 <= n -> o + n <= Z.of_nat (length l) -> gives (fun x => length x = Z.to_nat n) (sub l o n).
Proof. intros. rewrite sub_Ret by lia. cbn. rewrite length_take, length_drop. lia. Qed.

Lemma blit_gives l o s : 0 <= o -> o + Z.of_nat (length s) <= Z.of_nat (length l) -> gives (fun x => length x = length l) (blit l o s).
Proof. intros. rewrite blit_Ret by lia. cbn. rewrite !length_app, length_take, length_drop. lia. Qed.

Lemma cset_gives {A} (l : list A) i x : 0 <= i < Z.of_nat (length l) -> gives (fun k => length k = length l) (cset l i x).
Proof. intros. rewrite cset_in_range by done. cbn. apply length_insert. Qed.

Lemma cget_gives {A} (l : list A) i : 0 <= i < Z.of_nat (length l) -> gives (fun _ => True) (cget l i).
Proof. intros Hi. destruct (cget_in_range l i Hi) as [x ->]. done. Qed.

Lemma has_bit_gives b o i : 0 <= o < Z.of_nat (length b) -> gives (fun _ => True) (has_bit b o i).
Proof. intros Ho. eapply gives_bind; [by apply cget_gives|done]. Qed.

Lemma advance_gives n l : (n <= length l)%nat -> gives (fun r => r = drop n l) (advance n l).
Proof. intros Hn. unfold advance. by rewrite (proj2 (Nat.leb_le _ _) Hn). Qed.

(** ** Items *)

Lemma typed_suffix l k : l `suffix_of` k -> typed_pattern k = true -> typed_pattern l = true.
Proof. intros [p ->] Hk. unfold typed_pattern in Hk. rewrite forallb_app, andb_true_iff in Hk. tauto. Qed.

Lemma typed_at l : typed_pattern l = true -> typed_item (item_at l) = true.
Proof. destruct l as [|it l]; [done|]. cbn. rewrite andb_true_iff. tauto. Qed.

Lemma skip_suffix l : parse_skip_void_and_any_items l `suffix_of` l.
Proof.
  induction l as [|it l IH]; [done|]. cbn. case_match; [|done]. by apply suffix_cons_r.
Qed.

Lemma skip_tail_suffix l : parse_skip_void_and_any_items (tail l) `suffix_of` l.
Proof. etrans; [apply skip_suffix|]. destruct l; [done|]. by apply suffix_cons_r. Qed.

Lemma length_skip l : (length (parse_skip_void_and_any_items l) <= length l)%nat.
Proof. apply suffix_length, skip_suffix. Qed.

(** The structure behind a pointer of an item. *)
Lemma readable_le t : sizeof_item t <= readable t.
Proof. unfold readable, is_type. case_bool_decide as H; [subst; done|done]. Qed.

Lemma typed_readable t d x : typed_data t d = true -> d = Some x -> exists b, x = Bytes b /\ readable t <= Z.of_nat (length b).
Proof.
  intros Ht ->. destruct x as [b|]; [|done]. cbn in Ht. apply andb_true_iff in Ht as [_ Ht%Z.leb_le]. by exists b.
Qed.

Lemma typed_bytes t d x : typed_data t d = true -> d = Some x -> exists b, x = Bytes b /\ (Z.to_nat (sizeof_item t) <= length b)%nat.
Proof. intros Ht Hx. destruct (typed_readable t d x Ht Hx) as (b & -> & Hb). pose proof (readable_le t). exists b. split; [done|lia]. Qed.

Lemma typed_item_data it : typed_item it = true -> i_type it <> T_RAW ->
  typed_data (i_type it) (i_spec it) = true /\ typed_data (i_type it) (i_mask it) = true.
Proof. unfold typed_item, is_type. intros Ht Hr. rewrite bool_decide_false in Ht by done. by rewrite andb_true_iff in Ht. Qed.

Lemma length_set_hw_mask n hw x l : length (set_hw_mask n hw x l) = length l.
Proof. unfold set_hw_mask. repeat case_match; try done. apply length_imap. Qed.

Lemma length_foldl_mask {A} (f : list Z -> A -> list Z) l : (forall h x, length (f h x) = length h) ->
  forall h, length (foldl f h l) = length h.
Proof. intros Hf. induction l as [|x l IH]; intros h; cbn; [done|]. by rewrite IH, Hf. Qed.

Lemma length_hw_supp_mask parser intf n hw lid ltype : 0 <= n -> Z.of_nat (length (hw_supp_mask parser intf n hw lid ltype)) = n.
Proof.
  intros Hn. unfold hw_supp_mask. rewrite length_foldl_mask.
  - rewrite length_foldl_mask by (intros; apply length_set_hw_mask). unfold zeros. rewrite length_replicate. lia.
  - intros h i. repeat case_match; try done. apply length_foldl_mask. intros. apply length_set_hw_mask.
Qed.

Lemma mem_is_zero_gives m n : forall i, 0 <= i -> i + Z.of_nat n <= Z.of_nat (length m) -> gives (fun _ => True) (mem_is_zero m i n).
Proof.
  induction n as [|n IH]; intros i Hi Hn; cbn [mem_is_zero]; [done|].
  eapply gives_bind; [apply cget_gives; lia|]. intros x _. destruct (negb (x =? 0)); [done|]. apply IH; lia.
Qed.

Lemma mask_supported_gives m hw n : 0 <= n -> n <= Z.of_nat (length m) -> (forall h, hw = Some h -> Z.of_nat (length h) = n) ->
  gives (fun _ => True) (mask_is_supported m hw n).
Proof.
  intros Hn Hm Hh. destruct hw as [h|]; cbn [mask_is_supported]; [|apply mem_is_zero_gives; lia]. specialize (Hh h eq_refl).
  eapply gives_bind; [apply sub_gives; lia|]. intros a _. eapply gives_bind; [apply sub_gives; lia|done].
Qed.

(** An item structure whose bytes are there. *)
Definition info_ok (info : parse_item_info) : Prop :=
  forall s, spec info = Some s -> len info <= Z.of_nat (length s) /\ exists m, mask info = Some m /\ len info <= Z.of_nat (length m).

Lemma item_basic_returns it info : typed_item it = true -> i_type it <> T_RAW -> 0 <= len info <= sizeof_item (i_type it) ->
  (forall h, hw_mask info = Some h -> Z.of_nat (length h) = len info) -> def_mask info = None -> spec info = None ->
  returns (fun i => info_ok i /\ len i = len info /\ hw_hdr_len i = hw_hdr_len info) (parse_item_basic it info).
Proof.
  intros Ht Hraw Hn Hh Hd Hsp. destruct (typed_item_data it Ht Hraw) as (Hs & Hm). unfold parse_item_basic.
  destruct (i_last it); [done|]. unfold is_type. rewrite !bool_decide_false by done. rewrite Hd.
  destruct (i_spec it) as [x|] eqn:Hx; [|by destruct (i_mask it)].
  destruct (typed_bytes _ _ x Hs eq_refl) as (b & -> & Hb). cbn [as_bytes mbind cres_mbind].
  destruct (i_mask it) as [y|]; [|done]. destruct (typed_bytes _ _ y Hm eq_refl) as (c & -> & Hc). cbn [as_bytes mbind cres_mbind].
  eapply gives_returns; [apply mask_supported_gives; [lia|lia|done]|]. intros ok _. destruct (negb ok); [done|].
  apply returns_pret. split; [|done]. intros s [= <-]. cbn. split; [lia|]. exists c. split; [done|lia].
Qed.

(** ** Layers *)

(** The items the stages take: layer, layer type, bytes in front that the
    item does not have, and bytes of the item. *)
Definition layer_shapes : list (Z * Z * Z * Z) :=
  [(PROFILE_LID_LA, PROFILE_LT_LA_IH_NIX_HIGIG2_ETHER, IH_LENGTH, sizeof_item T_HIGIG2);
   (PROFILE_LID_LA, PROFILE_LT_LA_HIGIG2_ETHER, 0, sizeof_item T_HIGIG2);
   (PROFILE_LID_LA, PROFILE_LT_LA_IH_NIX_ETHER, IH_LENGTH, sizeof_eth_hdr);
   (PROFILE_LID_LA, PROFILE_LT_LA_ETHER, 0, sizeof_eth_hdr);
   (PROFILE_LID_LB, PROFILE_LT_LB_CTAG, 0, 6); (PROFILE_LID_LB, PROFILE_LT_LB_STAG_QINQ, 0, 10);
   (PROFILE_LID_LB, PROFILE_LT_LB_ETAG, TPID_LENGTH, sizeof_item T_E_TAG);
   (PROFILE_LID_LB, PROFILE_LT_LB_PPPOE, 2, sizeof_item T_PPPOES);
   (PROFILE_LID_LC, PROFILE_LT_LC_MPLS, 0, sizeof_item T_MPLS);
   (PROFILE_LID_LD, PROFILE_LT_LD_TU_MPLS_IN_IP, 0, sizeof_item T_MPLS);
   (PROFILE_LID_LE, PROFILE_LT_LE_TU_MPLS_IN_UDP, 0, sizeof_item T_MPLS);
   (PROFILE_LID_LC, PROFILE_LT_LC_IP6, 0, sizeof_ipv6_hdr); (PROFILE_LID_LC, PROFILE_LT_LC_IP6_EXT, 0, sizeof_ipv6_hdr + 8);
   (PROFILE_LID_LC, PROFILE_LT_LC_NGIO, 0, PARSER_MAX_RAW_ITEM_LEN);
   (PROFILE_LID_LC, PROFILE_LT_LC_IP, 0, sizeof_item T_IPV4); (PROFILE_LID_LC, PROFILE_LT_LC_ARP, 0, sizeof_item T_ARP_ETH_IPV4);
   (PROFILE_LID_LD, PROFILE_LT_LD_ICMP, 0, sizeof_item T_ICMP); (PROFILE_LID_LD, PROFILE_LT_LD_ICMP6, 0, sizeof_item T_ICMP);
   (PROFILE_LID_LD, PROFILE_LT_LD_UDP, 0, sizeof_item T_UDP); (PROFILE_LID_LD, PROFILE_LT_LD_IGMP, 0, sizeof_item T_IGMP);
   (PROFILE_LID_LD, PROFILE_LT_LD_TCP, 0, sizeof_item T_TCP); (PROFILE_LID_LD, PROFILE_LT_LD_SCTP, 0, sizeof_item T_SCTP);
   (PROFILE_LID_LD, PROFILE_LT_LD_GRE, 0, sizeof_item T_GRE); (PROFILE_LID_LD, PROFILE_LT_LD_GRE, 4, 4);
   (PROFILE_LID_LD, PROFILE_LT_LD_NVGRE, 0, sizeof_item T_NVGRE);
   (PROFILE_LID_LE, PROFILE_LT_LE_VXLAN, 0, sizeof_item T_VXLAN); (PROFILE_LID_LE, PROFILE_LT_LE_GTPC, 0, sizeof_item T_GTPC);
   (PROFILE_LID_LE, PROFILE_LT_LE_GTPU, 0, sizeof_item T_GTPU); (PROFILE_LID_LE, PROFILE_LT_LE_GENEVE, 0, sizeof_item T_GENEVE);
   (PROFILE_LID_LE, PROFILE_LT_LE_VXLANGPE, 0, sizeof_item T_VXLAN_GPE); (PROFILE_LID_LE, PROFILE_LT_LE_ESP, 0, sizeof_item T_ESP);
   (PROFILE_LID_LF, PROFILE_LT_LF_TU_ETHER, 0, sizeof_eth_hdr);
   (PROFILE_LID_LG, PROFILE_LT_LG_TU_IP, 0, sizeof_item T_IPV4); (PROFILE_LID_LG, PROFILE_LT_LG_TU_IP6, 0, sizeof_item T_IPV6);
   (PROFILE_LID_LH, PROFILE_LT_LH_TU_UDP, 0, sizeof_item T_UDP); (PROFILE_LID_LH, PROFILE_LT_LH_TU_TCP, 0, sizeof_item T_TCP);
   (PROFILE_LID_LH, PROFILE_LT_LH_TU_SCTP, 0, sizeof_item T_SCTP); (PROFILE_LID_LH, PROFILE_LT_LH_TU_ESP, 0, sizeof_item T_ESP)].

(** All that is extracted from them fits the item and the key. *)
Definition layers_fit (parser : flow_parser) (intf : Z) : bool :=
  forallb (fun c => match layer_fields parser intf c.1.1.1 c.1.1.2 c.1.2 c.2 with Some _ => true | None => false end) layer_shapes.

Section stages.
Context (parser : flow_parser) (intf : Z).
Hypothesis (Hfit : layers_fit parser intf = true) (Hswitch : switch_header_type parser = 0).
Implicit Types pst : parse_state.

(** A state with its arrays in place, on a well-typed pattern, with at most
    [n] layers. *)
Record ok (n : Z) pst : Prop := {
  ok_pst : pst_ok pst;
  ok_intf : nix_intf pst = intf;
  ok_num : num_patterns pst <= n;
  ok_typed : typed_pattern (pattern pst) = true;
}.

Lemma ok_le n n' pst : n <= n' -> ok n pst -> ok n' pst.
Proof. intros Hn [H1 H2 H3 H4]. split; [done|done|lia|done]. Qed.

(** A change of the pointers and of the flags of the state. *)
Definition same_arrays (pst q : parse_state) : Prop :=
  pst_data q = pst_data pst /\ pst_mask q = pst_mask pst /\ length (lt q) = length (lt pst) /\ flags q = flags pst /\
  nix_intf q = nix_intf pst /\ num_patterns q = num_patterns pst /\ dump_data q = dump_data pst.

Lemma same_arrays_ok n pst q : ok n pst -> same_arrays pst q -> typed_pattern (pattern q) = true -> ok n q.
Proof.
  intros [[[K1 K2] K3 K4 K5 K6] H2 H3 H4] (E1 & E2 & E3 & E4 & E5 & E6 & E7) Ht.
  split; [split; [split|..]|..]; rewrite ?E1, ?E2, ?E3, ?E4, ?E5, ?E6, ?E7; done.
Qed.

Lemma shape_fields lid ltype hw n : (lid, ltype, hw, n) ∈ layer_shapes -> exists fs, layer_fields parser intf lid ltype hw n = Some fs.
Proof.
  intros Hin. unfold layers_fit in Hfit. rewrite forallb_forall in Hfit. specialize (Hfit _ (proj1 (list_elem_of_In _ _) Hin)).
  cbn [fst snd] in Hfit. destruct (layer_fields parser intf lid ltype hw n) as [fs|]; [by exists fs|done].
Qed.

Lemma shape_lid lid ltype hw n : (lid, ltype, hw, n) ∈ layer_shapes -> 0 <= lid < 8 /\ 0 <= n.
Proof.
  intros Hin. assert (forallb (fun c => (0 <=? c.1.1.1) && (c.1.1.1 <? 8) && (0 <=? c.2)) layer_shapes = true) as Hall by reflexivity.
  rewrite forallb_forall in Hall. specialize (Hall _ (proj1 (list_elem_of_In _ _) Hin)). cbn [fst snd] in Hall.
  reflect_bool. lia.
Qed.

(** The state after a layer. *)
Definition layer_next (n : Z) (l : list flow_item) pst : Prop := ok (n + 1) pst /\ pattern pst = tail l.

Lemma parse_state_returns n info lid ltype fl pst : (lid, ltype, hw_hdr_len info, len info) ∈ layer_shapes -> info_ok info ->
  ok n pst -> n < 31 -> pattern pst <> [] ->
  returns (layer_next n (pattern pst)) (update_parse_state parser info lid ltype fl pst).
Proof.
  intros Hin Hinfo Hok Hn Hpat. destruct (shape_fields _ _ _ _ Hin) as [fs Hfs]. destruct (shape_lid _ _ _ _ Hin) as [Hlid Hlen].
  destruct Hok as [Hp Hi Hnum Htyp]. pose proof (po_num _ Hp) as Hnp.
  assert (typed_pattern (tail (pattern pst)) = true) as Htail.
  { eapply typed_suffix; [|exact Htyp]. destruct (pattern pst); [done|]. by apply suffix_cons_r. }
  destruct (spec info) as [s|] eqn:Hs.
  - destruct (Hinfo s Hs) as (Hls & m & Hm & Hlm).
    destruct (update_parse_state_put parser info lid ltype fl fs s m pst) as [-> Hfo]; try done; [by rewrite Hi|].
    apply returns_pret. split; [|done]. destruct Hp as [[Hd Hk] Hlt Hfl Hdu Hnn].
    split; [split|..]; cbn [layer_taken lt flags dump_data num_patterns pst_data pst_mask nix_intf pattern
      set_pattern set_dump with_key set_flags set_data set_layer]; try done.
    + split; apply length_put_all; try done; eapply Forall_impl; try exact Hfo; intros f; apply field_ok_le; lia.
    + by rewrite length_insert.
    + by rewrite length_flag_fold, length_insert.
    + by rewrite length_insert.
    + rewrite u16_id by word. lia.
    + rewrite u16_id by word. lia.
  - unfold update_parse_state. destruct Hp as [[Hd Hk] Hlt Hfl Hdu Hnn]. rewrite !cset_in_range by lia. cbn [mbind cres_mbind].
    rewrite Hs. cbn [pbind pret]. cbn [dump_data num_patterns pattern set_layer]. rewrite cset_in_range by lia. cbn [mbind cres_mbind].
    eapply gives_returns; [apply advance_gives; destruct (pattern pst); [done|cbn; lia]|]. intros rest ->. apply returns_pret.
    assert (drop 1 (pattern pst) = tail (pattern pst)) as Hdt by (destruct (pattern pst); [done|by rewrite skipn_cons, drop_0]).
    rewrite Hdt. split; [|done].
    split; [split|..]; cbn [lt flags dump_data num_patterns pst_data pst_mask nix_intf pattern set_pattern set_dump set_layer]; try done.
    + by rewrite length_insert.
    + by rewrite length_insert.
    + by rewrite length_insert.
    + rewrite u16_id by word. lia.
    + rewrite u16_id by word. lia.
Qed.

(** The item at the pointer is taken. *)
Lemma take_item_returns n k hw lid ltype fl pst : (lid, ltype, hw, k) ∈ layer_shapes -> k <= sizeof_item (type_at (pattern pst)) ->
  type_at (pattern pst) <> T_RAW -> ok n pst -> n < 31 -> pattern pst <> [] ->
  returns (layer_next n (pattern pst)) (take_item parser (item_info parser pst k hw lid ltype) lid ltype fl pst).
Proof.
  intros Hin Hk Hraw Hok Hn Hpat. destruct (shape_lid _ _ _ _ Hin) as [_ Hk0]. unfold take_item.
  eapply returns_bind; [apply item_basic_returns|]; cbn [item_info len hw_mask]; try done.
  - apply typed_at, Hok.
  - intros h [= <-]. by apply length_hw_supp_mask.
  - intros i (Hi & Hl & Hh). apply (parse_state_returns n); try done. by rewrite Hl, Hh.
Qed.

(** ** The stages *)

Definition stage_ok (stage : parse_state -> cres (Z + parse_state)) : Prop :=
  forall n pst, ok n pst -> n < 31 -> returns (ok (n + 1)) (stage pst).

Lemma type_nonempty l t : type_at l = t -> t <> T_END -> l <> [].
Proof. intros <- Ht ->. done. Qed.

Lemma stays n pst : ok n pst -> returns (ok (n + 1)) (pret pst).
Proof. intros. apply returns_pret. apply (ok_le n); [lia|done]. Qed.

Lemma next_ok n l m : returns (layer_next n l) m -> returns (ok (n + 1)) m.
Proof. intros Hm. eapply returns_impl; [exact Hm|]. by intros p [Hp _]. Qed.

Ltac shape := apply (bool_decide_unpack _); vm_compute; exact I.

(** A stage that takes an item of the type that is there. *)
Lemma take_typed n k hw lid ltype fl t pst q : ok n pst -> n < 31 -> type_at (pattern pst) = t -> t <> T_END -> t <> T_RAW ->
  (lid, ltype, hw, k) ∈ layer_shapes -> k <= sizeof_item t -> same_arrays pst q -> pattern q = pattern pst ->
  returns (ok (n + 1)) (take_item parser (item_info parser q k hw lid ltype) lid ltype fl q).
Proof.
  intros Hok Hn Ht Hend Hraw Hin Hk Hsame Hpat. pose proof (same_arrays_ok n pst q Hok Hsame) as Hq. rewrite Hpat in Hq.
  specialize (Hq (ok_typed _ _ Hok)). eapply next_ok, take_item_returns; [exact Hin| | |exact Hq|done|].
  - by rewrite Hpat, Ht.
  - by rewrite Hpat, Ht.
  - rewrite Hpat. by eapply type_nonempty.
Qed.

Ltac taken t := eapply (take_typed _ _ _ _ _ _ t); [eassumption|done|done|done|done|shape|done|done|done].

Lemma meta_items_ok : stage_ok parse_meta_items.
Proof. intros n pst Hok Hn. by apply stays. Qed.

Lemma tail_typed l : typed_pattern l = true -> typed_pattern (tail l) = true.
Proof. apply typed_suffix. destruct l; [done|]. by apply suffix_cons_r. Qed.

Lemma drop1_tail {A} (l : list A) : drop 1 l = tail l.
Proof. destruct l; [done|]. by rewrite skipn_cons, drop_0. Qed.

Lemma nonempty_length {A} (l : list A) : l <> [] -> (1 <= length l)%nat.
Proof. destruct l; [done|cbn; lia]. Qed.

Lemma mark_item_ok : stage_ok parse_mark_item.
Proof.
  intros n pst Hok Hn. unfold parse_mark_item, is_type. case_bool_decide as Ht; [|by apply stays].
  destruct (negb _); [done|]. eapply gives_returns; [apply advance_gives, nonempty_length; by eapply type_nonempty|].
  intros rest ->. rewrite drop1_tail. apply returns_pret, (ok_le n); [lia|].
  apply (same_arrays_ok n pst); [done|done|]. apply tail_typed, Hok.
Qed.

Lemma pre_l2_ok : stage_ok (parse_pre_l2 parser).
Proof. intros n pst Hok Hn. unfold parse_pre_l2. rewrite Hswitch. by apply stays. Qed.

Lemma higig2_ok : stage_ok (parse_higig2_hdr parser).
Proof.
  intros n pst Hok Hn. unfold parse_higig2_hdr, is_type. case_bool_decide as Ht; [|by apply stays]. cbn [negb].
  destruct (nix_intf pst =? NIX_INTF_TX); taken T_HIGIG2.
Qed.

Lemma eth_vlan_gives it : typed_item it = true -> i_type it = T_ETH -> gives (fun _ => True) (eth_has_vlan it).
Proof.
  intros Ht Hty. destruct (typed_item_data _ Ht) as (Hs & _); [by rewrite Hty|]. unfold eth_has_vlan. destruct (i_spec it) as [d|]; [|done].
  destruct (typed_bytes _ _ d Hs eq_refl) as (b & -> & Hb). rewrite Hty in Hb. cbn in Hb. cbn [as_bytes mbind cres_mbind].
  apply has_bit_gives. lia.
Qed.

Lemma la_ok : stage_ok (parse_la parser).
Proof.
  intros n pst Hok Hn. unfold parse_la, is_type. case_bool_decide as Ht; [|by apply stays]. cbn [negb].
  change (nix_intf (set_has_eth true pst)) with (nix_intf pst). rewrite Hswitch. change (0 =? PARSER_PRIV_FLAGS_HIGIG) with false. cbn match.
  assert (forall lt hw, (PROFILE_LID_LA, lt, hw, sizeof_eth_hdr) ∈ layer_shapes -> returns (ok (n + 1))
    (pst' ←? take_item parser (item_info parser (set_has_eth true pst) sizeof_eth_hdr hw PROFILE_LID_LA lt) PROFILE_LID_LA lt 0
              (set_has_eth true pst);
     v ← eth_has_vlan (item_at (pattern pst)); pret (if v : bool then set_vlan_mask true pst' else pst'))) as Hgo.
  { intros lt hw Hin. eapply returns_bind; [by eapply (take_typed n _ _ _ _ _ T_ETH)|]. intros p Hp.
    eapply gives_returns; [apply eth_vlan_gives; [apply typed_at, Hok|done]|]. intros v _. apply returns_pret.
    destruct v; [|done]. apply (same_arrays_ok _ p); [done|done|apply Hp]. }
  destruct (nix_intf pst =? NIX_INTF_TX); apply Hgo; shape.
Qed.

(** VLAN items *)

(** The pointers that [parse_vlan_count] collects. *)
Record vlan_list (l : list flow_item) (ps : list (list flow_item)) : Prop := {
  vl_each : Forall (fun p => p `suffix_of` l /\ type_at p = T_VLAN) ps;
  vl_len : (length ps <= length l)%nat;
  vl_first : forall p, ps !! 0%nat = Some p -> p = l;
  vl_second : (2 <= length ps)%nat -> type_at (parse_skip_void_and_any_items (tail l)) = T_VLAN;
  vl_some : type_at l = T_VLAN -> ps <> [];
}.

Lemma vlan_count_returns fuel : forall l c, (length l <= fuel)%nat -> returns (vlan_list l) (parse_vlan_count fuel l c).
Proof.
  induction fuel as [|fuel IH]; intros l c Hf; cbn [parse_vlan_count]; unfold is_type; case_bool_decide as Ht;
    try (apply returns_pret; split; cbn; try done; try lia; intros; (lia || congruence)).
  - destruct l; [done|cbn in Hf; lia].
  - repeat case_match; try done. eapply gives_returns; [apply advance_gives, nonempty_length; by eapply type_nonempty|].
    intros rest ->. rewrite drop1_tail. pose proof (nonempty_length l (type_nonempty _ _ Ht ltac:(done))) as Hl.
    assert (length (tail l) = length l - 1)%nat as Htl by (destruct l; cbn; lia).
    eapply returns_bind; [apply IH; pose proof (length_skip (tail l)); lia|].
    intros ps [V1 V2 V3 V4 V5]. apply returns_pret. split.
    + constructor; [done|]. eapply Forall_impl; [|exact V1]. intros p [Hp Hpt]. split; [|done].
      etrans; [exact Hp|apply skip_tail_suffix].
    + cbn. pose proof (length_skip (tail l)). lia.
    + by intros p [= <-].
    + cbn. intros H2. destruct ps as [|p ps]; [cbn in H2; lia|]. specialize (V3 p eq_refl). subst p.
      inversion V1 as [|? ? [_ Hv] _]; subst. done.
    + done.
Qed.

Lemma copy_opt_gives buf o it d k : typed_item it = true -> d = i_spec it \/ d = i_mask it ->
  i_type it <> T_RAW -> i_type it = T_VOID \/ i_type it = T_ANY \/ 0 <= k <= readable (i_type it) -> 0 <= o -> 0 <= k -> o + k <= Z.of_nat (length buf) ->
  gives (fun b => length b = length buf) (copy_opt buf o d k).
Proof.
  intros Ht Hd Hraw Hty Ho Hk Hb. destruct (typed_item_data it Ht Hraw) as (Hs & Hm). unfold copy_opt. destruct d as [x|]; [|done].
  assert (typed_data (i_type it) (Some x) = true) as Hx by (destruct Hd as [<-|<-] in Hs, Hm; done).
  destruct (typed_readable _ _ x Hx eq_refl) as (b & -> & Hlb). cbn [as_bytes mbind cres_mbind].
  destruct Hty as [Hty | [Hty | Hty]]; [cbn in Hx; by rewrite Hty in Hx..|].
  eapply gives_bind; [apply sub_gives; lia|]. intros s Hsl. cbn beta in Hsl. apply blit_gives; lia.
Qed.

Lemma skip_type l t : type_at (parse_skip_void_and_any_items l) = t -> t <> T_VOID -> t <> T_ANY ->
  type_at l = T_VOID \/ type_at l = T_ANY \/ type_at l = t.
Proof.
  destruct l as [|it l]; [cbn; auto|]. cbn [parse_skip_void_and_any_items]. unfold is_type. intros H H1 H2.
  destruct (bool_decide_reflect (i_type it = T_VOID)); [auto|]. destruct (bool_decide_reflect (i_type it = T_ANY)); auto.
Qed.

Lemma vlan_bufs_gives l n o bufs : typed_pattern l = true -> type_at l = T_VLAN ->
  (n <= 2)%nat -> ((2 <= n)%nat -> type_at (parse_skip_void_and_any_items (tail l)) = T_VLAN) ->
  0 <= o <= 2 -> length bufs.1 = 12%nat -> length bufs.2 = 12%nat ->
  gives (fun b => length b.1 = 12%nat /\ length b.2 = 12%nat) (vlan_bufs l n o bufs).
Proof.
  intros Htl Ht Hn H2 Ho Hb1 Hb2.
  assert (forall it b1 b2 o', typed_item it = true -> (i_type it = T_VOID \/ i_type it = T_ANY \/ i_type it = T_VLAN) ->
    length b1 = 12%nat -> length b2 = 12%nat -> 0 <= o' <= 6 -> forall R (f : list Z * list Z -> cres (list Z * list Z)),
    (forall s m, length s = 12%nat -> length m = 12%nat -> gives R (f (s, m))) ->
    gives R (s ← copy_opt b1 o' (i_spec it) sizeof_vlan_hdr; m ← copy_opt b2 o' (i_mask it) sizeof_vlan_hdr; f (s, m))) as Hcopy.
  { intros it b1 b2 o' Hit Hty L1 L2 Ho' R f Hf.
    assert (i_type it <> T_RAW /\ (i_type it = T_VOID \/ i_type it = T_ANY \/ 0 <= sizeof_vlan_hdr <= readable (i_type it))) as [Hraw Hsz].
    { destruct Hty as [Hty | [Hty | Hty]]; rewrite Hty; (split; [done|]); [by left|by right; left|by right; right]. }
    eapply gives_bind; [apply (copy_opt_gives _ _ it); auto; unfold sizeof_vlan_hdr; lia|]. intros s Hs.
    eapply gives_bind; [apply (copy_opt_gives _ _ it); auto; unfold sizeof_vlan_hdr; lia|]. intros m Hm. cbn beta in *. apply Hf; lia. }
  destruct n as [|n]; [done|].
  apply (Hcopy (item_at l) bufs.1 bufs.2 o (typed_at _ Htl) ltac:(auto) Hb1 Hb2 ltac:(lia) _ (vlan_bufs (tail l) n (o + 4))).
  intros s m Hs Hm. destruct n as [|n]; [done|].
  apply (Hcopy (item_at (tail l)) s m (o + 4)) with (f := vlan_bufs (tail (tail l)) n (o + 4 + 4)); try done; [|..|lia|].
  - by apply typed_at, tail_typed.
  - apply skip_type; [apply H2; lia|done|done].
  - intros s' m' Hs' Hm'. destruct n; [done|lia].
Qed.

Lemma vlan_ltype_returns l ps i : typed_pattern l = true -> vlan_list l ps ->
  returns (fun r => r.1 = PROFILE_LT_LB_CTAG \/ r.1 = PROFILE_LT_LB_STAG_QINQ) (parse_vlan_ltype_get parser i ps).
Proof.
  intros Hl [V1 _ _ _ _].
  assert (forall k, (k < length ps)%nat -> gives (fun _ => True) (has_more_vlan ps k)) as Hmore.
  { intros k Hk. destruct (lookup_lt_is_Some_2 ps k Hk) as [p Hp]. unfold has_more_vlan. rewrite Hp. cbn [deref mbind cres_mbind].
    destruct (Forall_lookup_1 _ _ _ _ V1 Hp) as [Hsuf Hty]. pose proof (typed_at p (typed_suffix _ _ Hsuf Hl)) as Hit.
    destruct (typed_item_data _ Hit) as (Hs & _); [unfold type_at in Hty; by rewrite Hty|]. destruct (i_spec (item_at p)) as [d|]; [|done].
    destruct (typed_bytes _ _ d Hs eq_refl) as (b & -> & Hb). cbn [as_bytes mbind cres_mbind].
    unfold type_at in Hty. rewrite Hty in Hb. cbn in Hb. apply has_bit_gives. lia. }
  unfold parse_vlan_ltype_get. destruct (length ps) as [|[|[|[|]]]] eqn:Hlen; try done;
    (eapply gives_returns; [apply Hmore; lia|]); intros more _; destruct more; try destruct (negb _); try done; cbn; auto.
Qed.

Lemma lb_vlan_stage_ok : forall n pst, ok n pst -> n < 31 -> type_at (pattern pst) = T_VLAN -> returns (ok (n + 1)) (parse_lb_vlan parser pst).
Proof.
  intros n pst Hok Hn Ht. unfold parse_lb_vlan. pose proof (ok_typed _ _ Hok) as Htyp.
  eapply returns_bind; [by apply vlan_count_returns|]. intros ps Hps.
  eapply returns_bind; [by eapply vlan_ltype_returns|]. intros [ltype lflags] Hlt. cbn [fst] in Hlt.
  destruct (_ && _); [done|]. pose proof (vl_some _ _ Hps Ht) as Hne. destruct ps as [|p ps]; [done|].
  pose proof (vl_first _ _ Hps p eq_refl) as ->. cbn [lookup list_lookup deref mbind cres_mbind].
  eapply (returns_bind (ok (n + 1))).
  - unfold update_vlan_parse_state. eapply gives_returns.
    { apply vlan_bufs_gives; try done; [lia|]. intros H2. apply (vl_second _ _ Hps). lia. }
    intros [vs vm] [L1 L2]. cbn [fst snd] in L1, L2.
    set (k := if ltype =? PROFILE_LT_LB_CTAG then _ else _).
    assert (0 <= k <= 12 /\ (PROFILE_LID_LB, ltype, 0, k) ∈ layer_shapes) as [Hk Hin].
    { subst k. destruct Hlt as [-> | ->]; (split; [vm_compute; by split|shape]). }
    eapply gives_returns; [apply mask_supported_gives; [lia|lia|]; intros h [= <-]; apply length_hw_supp_mask; lia|].
    intros okm _. destruct (negb okm); [done|].
    assert (set_pattern (pattern pst) pst = pst) as -> by by destruct pst.
    eapply next_ok, parse_state_returns; cbn [hw_hdr_len len]; try done.
    + intros s [= <-]. cbn. split; [lia|]. exists vm. split; [done|lia].
    + by eapply type_nonempty.
  - intros q Hq. destruct (1 <? _)%nat; [|by apply returns_pret].
    eapply gives_returns; [apply advance_gives, Hps|]. intros rest ->. apply returns_pret.
    apply (same_arrays_ok _ q); [done|done|]. eapply typed_suffix; [|exact Htyp]. cbn [pattern set_pattern].
    eexists. symmetry. apply take_drop.
Qed.

(** Raw items *)

Lemma raw_there pst : typed_pattern (pattern pst) = true -> type_at (pattern pst) = T_RAW ->
  exists r rm, raw_at pst = Ret r /\ raw_mask_at pst = Ret rm /\
    (raw_length r + raw_offset r <= PARSER_MAX_RAW_ITEM_LEN ->
     gives (fun b => length b.1 = 16%nat /\ length b.2 = 16%nat) (flow_raw_item_prepare r rm)).
Proof.
  intros Htyp Ht. pose proof (typed_at _ Htyp) as Hit. unfold typed_item in Hit. unfold type_at in Ht. rewrite Ht in Hit.
  change (is_type T_RAW T_RAW) with true in Hit. cbn match in Hit. unfold raw_at, raw_mask_at, typed_raw in *.
  destruct (i_spec (item_at (pattern pst))) as [[b|r]|]; [done| |done]. rewrite !andb_true_iff, !Z.leb_le in Hit.
  destruct Hit as [[[[Ho Hl] Hp] Hp0] Hm]. exists r.
  assert (exists rm, match i_mask (item_at (pattern pst)) with None => Ret None | Some d => x ← as_raw d; Ret (Some x) end = Ret rm /\
    raw_bytes (raw_length r) (rm ≫= raw_pattern) = true) as (rm & -> & Hrm).
  { destruct (i_mask _) as [[b|k]|]; [done|by exists (Some k)|by exists None]. }
  exists rm. split; [done|]. split; [done|]. intros Hmax. unfold PARSER_MAX_RAW_ITEM_LEN in Hmax. unfold flow_raw_item_prepare.
  assert (length (zeros PARSER_MAX_RAW_ITEM_LEN) = 16%nat) as Hz by done.
  eapply (gives_bind (fun p => Z.of_nat (length p) <= raw_length r)).
  { destruct (Z.eqb_spec (raw_length r) 0) as [E|E]; [rewrite E; done|]. cbn [orb] in Hp0. apply bool_decide_eq_true in Hp0 as [b Hb].
    rewrite Hb in Hp |- *. cbn [deref mbind cres_mbind raw_bytes] in *. apply Z.leb_le in Hp.
    eapply gives_impl; [apply sub_gives; lia|]. intros x Hx. cbn beta in Hx. lia. }
  intros p Hpl. eapply gives_bind; [apply blit_gives; rewrite ?Hz; lia|]. intros sb Hsb. cbn beta in Hsb.
  eapply (gives_bind (fun p => Z.of_nat (length p) <= raw_length r)).
  { destruct (rm ≫= raw_pattern) as [b|]; [|cbn; rewrite length_replicate; lia]. apply Z.leb_le in Hrm.
    eapply gives_impl; [apply sub_gives; lia|]. intros x Hx. cbn beta in Hx. lia. }
  intros m Hml. eapply gives_bind; [apply blit_gives; rewrite ?Hz; lia|]. intros mb Hmb. cbn beta in Hmb. cbn. lia.
Qed.

Lemma raw_basic_returns it info sp m : i_type it = T_RAW -> spec info = Some sp -> mask info = Some m -> def_mask info = None ->
  0 <= len info -> len info <= Z.of_nat (length sp) -> len info <= Z.of_nat (length m) ->
  (forall h, hw_mask info = Some h -> Z.of_nat (length h) = len info) ->
  returns (fun i => info_ok i /\ len i = len info /\ hw_hdr_len i = hw_hdr_len info) (parse_item_basic it info).
Proof.
  intros Ht Hs Hm Hd Hn Hls Hlm Hh. unfold parse_item_basic. destruct (i_last it); [done|]. rewrite Ht, Hs, Hm, Hd.
  change (is_type T_RAW T_RAW) with true. cbn match.
  destruct (i_spec it) as [x|]; [|by destruct (i_mask it)]. cbn [mbind cres_mbind].
  destruct (i_mask it); [|done]. cbn [mbind cres_mbind option_map].
  eapply gives_returns; [by apply mask_supported_gives|]. intros ok _. destruct (negb ok); [done|].
  apply returns_pret. split; [|done]. intros s [= <-]. cbn. split; [done|]. by exists m.
Qed.

Lemma lb_ok : stage_ok (parse_lb parser).
Proof.
  intros n pst Hok Hn. pose proof (ok_typed _ _ Hok) as Htyp. unfold parse_lb.
  destruct (type_at (pattern pst)) eqn:Ht; try by apply stays.
  - destruct (raw_there pst Htyp Ht) as (r & rm & -> & _). cbn [mbind cres_mbind]. destruct (relative r); [by apply stays|].
    destruct (_ <? _); [done|]. by rewrite Hswitch.
  - by apply lb_vlan_stage_ok.
  - pose proof (type_nonempty _ _ Ht ltac:(done)) as Hne.
    eapply gives_returns; [by apply advance_gives, nonempty_length|]. intros rest ->. rewrite drop1_tail.
    set (next := parse_skip_void_and_any_items (tail (pattern pst))).
    assert (typed_pattern next = true) as Hnext by (eapply typed_suffix; [apply skip_tail_suffix|done]).
    eapply (returns_bind (fun r => typed_pattern r.2 = true /\ r.2 <> [])).
    { unfold is_type. case_bool_decide as Hv; [|by apply returns_pret].
      eapply returns_bind; [apply item_basic_returns; try done; [by apply typed_at|unfold type_at in Hv; by rewrite Hv|cbn [len]; unfold type_at in Hv; rewrite Hv; cbn; lia]|].
      intros _ _. apply returns_pret. split; [done|]. by eapply type_nonempty. }
    intros [lflags last] [Hl1 Hl2]. cbn [snd] in *.
    eapply returns_bind.
    { apply item_basic_returns; cbn [item_info len hw_mask]; try done; [by apply typed_at|unfold type_at in Ht; by rewrite Ht|unfold type_at in Ht; rewrite Ht; cbn; lia|].
      intros h [= <-]. by apply length_hw_supp_mask. }
    intros i (Hi & Hlen & Hhw). eapply next_ok, parse_state_returns.
    + rewrite Hlen, Hhw. shape.
    + done.
    + by apply (same_arrays_ok n pst).
    + done.
    + done.
  - taken T_PPPOES.
Qed.

(** MPLS labels *)

Lemma mpls_labels_returns fuel : forall l last nr, (length l <= fuel)%nat -> typed_pattern l = true -> 0 <= nr ->
  returns (fun r => r = (nr, last) /\ type_at l <> T_MPLS \/ nr < r.1 /\ r.2 `suffix_of` l /\ r.2 <> []) (mpls_labels fuel l last nr).
Proof.
  induction fuel as [|fuel IH]; intros l last nr Hf Htyp Hnr; cbn [mpls_labels]; unfold is_type; case_bool_decide as Ht;
    try (apply returns_pret; by left).
  - destruct l; [done|cbn in Hf; lia].
  - pose proof (type_nonempty _ _ Ht ltac:(done)) as Hne. pose proof (nonempty_length l Hne) as Hl.
    eapply (returns_bind (fun _ => True)).
    { destruct (1 <? nr + 1); [|done]. eapply returns_impl; [apply item_basic_returns; try done; [by apply typed_at|unfold type_at in Ht; by rewrite Ht|]|done].
      cbn [len]. unfold type_at in Ht. rewrite Ht. cbn. lia. }
    intros _ _. eapply gives_returns; [by apply advance_gives, nonempty_length|]. intros rest ->. rewrite drop1_tail.
    assert (length (tail l) = length l - 1)%nat as Htl by (destruct l; cbn; lia). pose proof (length_skip (tail l)).
    eapply returns_impl; [apply IH; [lia|eapply typed_suffix; [apply skip_tail_suffix|done]|lia]|].
    intros [r1 r2] [[[= -> ->] _]|(H1 & H2 & H3)]; right; cbn [fst snd] in *; [split; [lia|done]|].
    split; [lia|]. split; [|done]. etrans; [exact H2|apply skip_tail_suffix].
Qed.

Lemma mpls_ok n pst lid : ok n pst -> n < 31 -> type_at (pattern pst) = T_MPLS ->
  lid = PROFILE_LID_LC \/ lid = PROFILE_LID_LD \/ lid = PROFILE_LID_LE -> returns (ok (n + 1)) (parse_mpls parser lid pst).
Proof.
  intros Hok Hn Ht Hlid. unfold parse_mpls. pose proof (ok_typed _ _ Hok) as Htyp.
  set (ltype := if lid =? PROFILE_LID_LC then _ else _).
  assert ((lid, ltype, 0, sizeof_item T_MPLS) ∈ layer_shapes) as Hin by (subst ltype; destruct Hlid as [-> | [-> | ->]]; shape).
  eapply returns_bind.
  { apply item_basic_returns; cbn [item_info len hw_mask]; try done; [by apply typed_at|unfold type_at in Ht; by rewrite Ht|unfold type_at in Ht; rewrite Ht; cbn; lia|].
    intros h [= <-]. by apply length_hw_supp_mask. }
  intros i (Hi & Hlen & Hhw). cbn [item_info len hw_hdr_len] in Hlen, Hhw.
  eapply (returns_bind (fun r => exists last, r.2 = set_last_pattern last pst /\ last `suffix_of` pattern pst /\ last <> [])).
  { unfold parse_mpls_label_stack. eapply returns_bind; [by apply mpls_labels_returns|].
    intros [nr last] Hr. cbn [fst snd] in Hr. destruct Hr as [[_ Hr]|(H1 & H2 & H3)]; [done|].
    case_bool; [done|]. reflect_bool. eapply gives_returns; [apply cget_gives; cbn [length]; lia|]. intros flag _.
    apply returns_pret. by exists last. }
  intros [lflags q] (last & Hq & Hsuf & Hne). cbn [snd] in Hq. subst q. eapply next_ok, parse_state_returns.
  - by rewrite Hlen, Hhw.
  - done.
  - apply (same_arrays_ok n pst); [done|done|]. by eapply typed_suffix.
  - done.
  - done.
Qed.

(** IPv6 *)

Definition v6_ok (v : ipv6_scan) : Prop :=
  length (v6_buf v) = 80%nat /\ length (v6_mask v) = 80%nat /\
  (v6_ltype v = PROFILE_LT_LC_IP6 /\ v6_len v = 40 \/ v6_ltype v = PROFILE_LT_LC_IP6_EXT /\ v6_len v = 48).

Definition is_ext (it : flow_item) : Prop := i_type it = T_IPV6_EXT \/ i_type it = T_IPV6_FRAG_EXT \/ i_type it = T_IPV6_ROUTING_EXT.

Lemma ext_scan_returns fuel : forall l v, (length l <= fuel)%nat -> typed_pattern l = true -> v6_ok v ->
  returns (fun w => v6_ok w /\ (v6_count w = v6_count v \/ v6_count w = v6_count v + 1 /\ Exists is_ext l)) (ipv6_ext_scan fuel l v).
Proof.
  assert (forall l v w, v6_count w = v6_count v \/ v6_count w = v6_count v + 1 /\ Exists is_ext (parse_skip_void_and_any_items (tail l)) ->
    v6_count w = v6_count v \/ v6_count w = v6_count v + 1 /\ Exists is_ext l) as Hup.
  { intros l v w [Hw|[Hw He]]; [by left|right]. split; [done|]. destruct (skip_tail_suffix l) as [p Hp]. rewrite Hp.
    apply Exists_app. by right. }
  induction fuel as [|fuel IH]; intros l v Hf Htyp Hv; cbn [ipv6_ext_scan]; unfold is_type; case_bool_decide as Ht;
    try (apply returns_pret; auto); [destruct l; [done|cbn in Hf; lia]|].
  destruct (i_last _); [done|]. pose proof (type_nonempty l (type_at l) eq_refl Ht) as Hne.
  pose proof (typed_at l Htyp) as Hit. destruct Hv as (L1 & L2 & Hty).
  assert (forall fl, is_ext (item_at l) -> returns (fun w => v6_ok w /\ (v6_count w = v6_count v \/ v6_count w = v6_count v + 1 /\ Exists is_ext l))
    (b ← copy_opt (v6_buf v) sizeof_ipv6_hdr (i_spec (item_at l)) 8; m ← copy_opt (v6_mask v) sizeof_ipv6_hdr (i_mask (item_at l)) 8;
     pret {| v6_count := v6_count v + 1; v6_ltype := PROFILE_LT_LC_IP6_EXT; v6_len := sizeof_ipv6_hdr + 8;
             v6_flags := fl; v6_buf := b; v6_mask := m |})) as Hext.
  { intros fl He. assert (i_type (item_at l) <> T_RAW /\ 0 <= 8 <= readable (i_type (item_at l))) as [Hraw Hsz] by (destruct He as [-> | [-> | ->]]; done).
    eapply gives_returns; [apply (copy_opt_gives _ _ (item_at l)); auto; unfold sizeof_ipv6_hdr; lia|]. intros b Hb.
    eapply gives_returns; [apply (copy_opt_gives _ _ (item_at l)); auto; unfold sizeof_ipv6_hdr; lia|]. intros m Hm.
    cbn beta in Hb, Hm. apply returns_pret. split; [|right; split; [done|]].
    - split; [cbn; lia|]. split; [cbn; lia|]. by right.
    - destruct l; [done|]. by left. }
  assert (returns (fun w => v6_ok w /\ (v6_count w = v6_count v \/ v6_count w = v6_count v + 1 /\ Exists is_ext l))
    (rest ← advance 1 l; ipv6_ext_scan fuel (parse_skip_void_and_any_items rest) v)) as Hgo.
  { eapply gives_returns; [by apply advance_gives, nonempty_length|]. intros rest ->. rewrite drop1_tail.
    pose proof (nonempty_length l Hne). assert (length (tail l) = length l - 1)%nat as Htl by (destruct l; cbn; lia).
    pose proof (length_skip (tail l)).
    eapply returns_impl; [apply IH; [lia|eapply typed_suffix; [apply skip_tail_suffix|done]|by split]|].
    intros w [Hw Hc]. split; [done|]. by apply Hup. }
  destruct (type_at l) eqn:Hty'; try exact Hgo.
  - apply Hext. by left.
  - apply Hext. right. by left.
  - apply Hext. right. by right.
Qed.

Lemma ipv6ext_attr_returns n b fl pst : ok n pst -> (44 <= length b)%nat ->
  returns (fun r => ok n r.2 /\ pattern r.2 = pattern pst) (handle_ipv6ext_attr b fl pst).
Proof.
  intros Hok Hb. unfold handle_ipv6ext_attr.
  do 9 (eapply gives_returns; [apply has_bit_gives; lia|]; intros ? _). pose proof (po_lt _ (ok_pst _ _ Hok)) as Hlt.
  eapply (gives_returns (fun l => length l = 8%nat)).
  { match goal with |- gives _ (if ?c then _ else _) => destruct c end; [|done].
    eapply gives_impl; [apply cset_gives; rewrite Hlt; done|]. intros l Hl. cbn in Hl. lia. }
  intros l1 H1. eapply (gives_returns (fun l => length l = 8%nat)).
  { match goal with |- gives _ (if ?c then _ else _) => destruct c end; [|done].
    eapply gives_impl; [apply cset_gives; rewrite H1; done|]. intros l Hl. cbn in Hl. lia. }
  intros l2 H2. destruct (1 <? _); [done|]. apply returns_pret. cbn [snd].
  assert (ok n (set_lt l2 pst)) as Hs by (apply (same_arrays_ok n pst); [done|repeat split; cbn; lia|apply Hok]).
  destruct (negb _); [|done]. split; [|done]. apply (same_arrays_ok n (set_lt l2 pst)); [done|done|apply Hs].
Qed.

Lemma ipv6_head_returns n pst : ok n pst ->
  returns (fun r => v6_ok r.1 /\ ok n r.2 /\ pattern r.2 = pattern pst /\
                    (v6_count r.1 = 0 \/ v6_count r.1 = 1 /\ type_at (pattern pst) = T_IPV6))
    (if is_type (i_type (item_at (pattern pst))) T_IPV6 then
       '(b, fl, q) ←? match i_spec (item_at (pattern pst)) with
                      | None => pret (zeros (2 * sizeof_ipv6_hdr), 0, set_ip6_mask true pst)
                      | Some d =>
                          sp ← as_bytes d; h ← sub sp 0 sizeof_ipv6_hdr; b ← blit (zeros (2 * sizeof_ipv6_hdr)) 0 h;
                          '(fl, q) ←? handle_ipv6ext_attr sp 0 (set_ip6_mask true pst);
                          pret (b, fl, q)
                      end;
       m ← copy_opt (zeros (2 * sizeof_ipv6_hdr)) 0 (i_mask (item_at (pattern pst))) sizeof_ipv6_hdr;
       pret ({| v6_count := 1; v6_ltype := PROFILE_LT_LC_IP6; v6_len := sizeof_ipv6_hdr; v6_flags := fl;
                v6_buf := b; v6_mask := m |}, q)
     else pret ({| v6_count := 0; v6_ltype := PROFILE_LT_LC_IP6; v6_len := sizeof_ipv6_hdr; v6_flags := 0;
                   v6_buf := zeros (2 * sizeof_ipv6_hdr); v6_mask := zeros (2 * sizeof_ipv6_hdr) |}, set_ip6_mask true pst)).
Proof.
  intros Hok. pose proof (ok_typed _ _ Hok) as Htyp. pose proof (typed_at _ Htyp) as Hit. assert (i_type (item_at (pattern pst)) = T_IPV6 -> i_type (item_at (pattern pst)) <> T_RAW) as Hnr by (intros E; by rewrite E).
  pose proof (fun H => typed_item_data _ Hit (Hnr H)) as Hdata.
  assert (ok n (set_ip6_mask true pst)) as Hq by (apply (same_arrays_ok n pst); done).
  assert (length (zeros (2 * sizeof_ipv6_hdr)) = 80%nat) as Hz by done.
  unfold is_type. case_bool_decide as Ht; [|apply returns_pret; split; [|auto]; split; [done|]; split; [done|by left]].
  destruct (Hdata Ht) as [Hs Hm].
  eapply (returns_bind (fun r => length r.1.1 = 80%nat /\ ok n r.2 /\ pattern r.2 = pattern pst)).
  { destruct (i_spec _) as [d|]; [|done]. destruct (typed_bytes _ _ d Hs eq_refl) as (b & -> & Hb). rewrite Ht in Hb. cbn in Hb.
    cbn [as_bytes mbind cres_mbind]. eapply gives_returns; [apply sub_gives; unfold sizeof_ipv6_hdr; lia|]. intros h Hh. cbn beta in Hh. unfold sizeof_ipv6_hdr in Hh.
    eapply gives_returns; [apply blit_gives; rewrite ?Hz; lia|]. intros b' Hb'. cbn beta in Hb'.
    eapply returns_bind; [apply (ipv6ext_attr_returns n); [done|lia]|]. intros [fl q] [Hq1 Hq2]. apply returns_pret. cbn in *.
    split; [lia|done]. }
  intros [[b fl] q] (Hb & Hq1 & Hq2). cbn [fst snd] in *.
  eapply gives_returns.
  { apply (copy_opt_gives _ _ (item_at (pattern pst))); auto; try by vm_compute.
    right. right. by rewrite Ht. }
  intros m Hlm. cbn beta in Hlm. apply returns_pret. cbn [fst snd]. split; [|by auto].
  split; [done|]. split; [cbn; lia|by left].
Qed.

Lemma ipv6_ok : forall n pst, ok n pst -> n < 31 -> type_at (pattern pst) <> T_END -> returns (ok (n + 1)) (process_ipv6_item parser pst).
Proof.
  intros n pst Hok Hn Hend. unfold process_ipv6_item. pose proof (type_nonempty _ _ eq_refl Hend) as Hne.
  eapply returns_bind; [apply (ipv6_head_returns n pst Hok)|]. intros [v q] (Hv & Hq & Hp & Hcount). cbn [fst snd] in *.
  eapply returns_bind; [apply ext_scan_returns; [done|apply Hq|done]|]. intros w [Hw Hc].
  destruct Hw as (L1 & L2 & Hty).
  assert (0 <= v6_len w <= 80 /\ (PROFILE_LID_LC, v6_ltype w, 0, v6_len w) ∈ layer_shapes) as [Hlen Hin].
  { destruct Hty as [[-> ->]|[-> ->]]; (split; [lia|shape]). }
  eapply gives_returns; [apply mask_supported_gives; [lia|lia|]; intros h [= <-]; apply length_hw_supp_mask; lia|].
  intros okm _. destruct (negb okm); [done|].
  eapply returns_bind.
  { eapply (parse_state_returns n); cbn [hw_hdr_len len]; try done; [|by rewrite Hp].
    intros s [= <-]. cbn. split; [lia|]. exists (v6_mask w). split; [done|lia]. }
  intros p [Hpok Hpp]. destruct (v6_count w =? 2) eqn:Hc2; [|by apply returns_pret]. apply Z.eqb_eq in Hc2.
  assert ((1 <= length (pattern p))%nat) as Hlp.
  { destruct Hc as [Hc|[Hc He]]; [lia|]. destruct Hcount as [Hz|[H1 Ht]]; [lia|]. rewrite Hpp, Hp. rewrite Hp in He.
    destruct (pattern pst) as [|it l]; [done|]. apply Exists_cons in He as [[He|[He|He]]|He]; [unfold type_at in Ht; cbn in Ht; congruence..|].
    destruct l; [by apply Exists_nil in He|cbn; lia]. }
  eapply gives_returns; [by apply advance_gives|]. intros rest ->. rewrite drop1_tail. apply returns_pret.
  apply (same_arrays_ok _ p); [done|done|]. apply tail_typed, Hpok.
Qed.

Lemma lc_tunnel_gives n pst : ok n pst -> pattern pst <> [] ->
  gives (fun q => same_arrays pst q /\ pattern q = pattern pst) (check_lc_ip_tunnel pst).
Proof.
  intros Hok Hne. unfold check_lc_ip_tunnel. eapply gives_bind; [by apply advance_gives, nonempty_length|]. intros rest _.
  cbn. by destruct (type_at _).
Qed.

Lemma lc_raw_ok n pst : ok n pst -> n < 31 -> type_at (pattern pst) = T_RAW ->
  returns (ok (n + 1))
    (r ← raw_at pst;
     if negb (relative r) then pret pst
     else if PARSER_MAX_RAW_ITEM_LEN <? raw_length r + raw_offset r then perr (- EINVAL)
     else
       rm ← raw_mask_at pst;
       bufs ← flow_raw_item_prepare r rm;
       q ← check_lc_ip_tunnel pst;
       take_item parser (raw_info parser q bufs 0 PROFILE_LID_LC PROFILE_LT_LC_NGIO) PROFILE_LID_LC PROFILE_LT_LC_NGIO 0 q).
Proof.
  intros Hok Hn Ht. destruct (raw_there pst (ok_typed _ _ Hok) Ht) as (r & rm & -> & -> & Hprep). cbn [mbind cres_mbind].
  destruct (relative r); [|by apply stays]. cbn [negb]. case_bool; [done|]. reflect_bool. cbn [mbind cres_mbind].
  eapply gives_returns; [apply Hprep; lia|]. intros bufs [Hb1 Hb2].
  eapply gives_returns; [apply (lc_tunnel_gives n); [done|by eapply type_nonempty]|]. intros q [Hq1 Hq2].
  pose proof (same_arrays_ok n pst q Hok Hq1) as Hq. rewrite Hq2 in Hq. specialize (Hq (ok_typed _ _ Hok)).
  unfold take_item. eapply returns_bind.
  { apply (raw_basic_returns _ _ bufs.1 bufs.2); cbn [raw_info spec mask def_mask len hw_mask]; rewrite ?Hb1, ?Hb2; try done.
    - by rewrite Hq2.
    - intros h [= <-]. by apply length_hw_supp_mask. }
  intros i (Hi & Hlen & Hhw). eapply next_ok, parse_state_returns; [rewrite Hlen, Hhw; shape|done|done|done|].
  rewrite Hq2. by eapply type_nonempty.
Qed.

Lemma lc_ok : stage_ok (parse_lc parser).
Proof.
  intros n pst Hok Hn. unfold parse_lc.
  assert (forall t ltype, type_at (pattern pst) = t -> t <> T_END -> t <> T_RAW -> (PROFILE_LID_LC, ltype, 0, sizeof_item t) ∈ layer_shapes ->
    returns (ok (n + 1)) (q ← check_lc_ip_tunnel pst; take_item parser (item_info parser q (sizeof_item t) 0 PROFILE_LID_LC ltype)
      PROFILE_LID_LC ltype 0 q)) as Hgo.
  { intros t ltype Ht Hend Hraw Hin. eapply gives_returns; [apply (lc_tunnel_gives n); [done|by eapply type_nonempty]|].
    intros q [Hq1 Hq2]. by eapply (take_typed _ _ _ _ _ _ t). }
  destruct (type_at (pattern pst)) eqn:Ht; try by apply stays.
  - by apply lc_raw_ok.
  - apply mpls_ok; auto.
  - apply Hgo; [done|done|done|shape].
  - apply ipv6_ok; [done|done|by rewrite Ht].
  - apply ipv6_ok; [done|done|by rewrite Ht].
  - apply ipv6_ok; [done|done|by rewrite Ht].
  - apply ipv6_ok; [done|done|by rewrite Ht].
  - apply Hgo; [done|done|done|shape].
Qed.

Lemma ld_ok : stage_ok (parse_ld parser).
Proof.
  intros n pst Hok Hn. unfold parse_ld. destruct (tunnel pst).
  { unfold is_type. case_bool_decide; [apply mpls_ok; auto|by apply stays]. }
  destruct (type_at (pattern pst)) eqn:Ht; try by apply stays.
  - eapply gives_returns; [apply cget_gives; rewrite (po_lt _ (ok_pst _ _ Hok)); done|]. intros lc _.
    destruct (lc =? _); taken T_ICMP.
  - taken T_UDP.
  - taken T_IGMP.
  - taken T_TCP.
  - taken T_SCTP.
  - taken T_GRE.
  - taken T_GRE_KEY.
  - taken T_NVGRE.
Qed.

Lemma le_ok : stage_ok (parse_le parser).
Proof.
  intros n pst Hok Hn. unfold parse_le. destruct (tunnel pst); [by apply stays|]. pose proof (ok_typed _ _ Hok) as Htyp.
  unfold is_type. case_bool_decide as Hm; [apply mpls_ok; auto|].
  eapply (returns_bind (fun _ => True)).
  { destruct (decide (i_type (item_at (pattern pst)) = T_RAW)) as [Hr|Hr].
    - unfold parse_item_basic. rewrite Hr. destruct (i_last _); [done|]. by destruct (i_spec _), (i_mask _).
    - eapply returns_impl; [apply item_basic_returns; try done; [by apply typed_at|]|done]. cbn [len]. split; [done|by destruct (i_type _)]. }
  intros _ _. set (l := parse_skip_void_and_any_items (pattern pst)).
  assert (typed_pattern l = true) as Hl by (eapply typed_suffix; [apply skip_suffix|done]).
  assert (forall t ltype fl, type_at l = t -> t <> T_END -> t <> T_RAW -> (PROFILE_LID_LE, ltype, 0, sizeof_item t) ∈ layer_shapes ->
    returns (ok (n + 1))
      (info ←? parse_item_basic (item_at l) (item_info parser (set_tunnel true pst) (sizeof_item t) 0 PROFILE_LID_LE ltype);
       update_parse_state parser info PROFILE_LID_LE ltype fl (set_tunnel true pst))) as Hgo.
  { intros t ltype fl Ht Hend Hraw Hin. destruct (shape_lid _ _ _ _ Hin) as [_ Hsz]. eapply returns_bind.
    { apply item_basic_returns; cbn [item_info len hw_mask]; try done; [by apply typed_at|unfold type_at in Ht; by rewrite Ht|unfold type_at in Ht; rewrite Ht; lia|].
      intros h [= <-]. by apply length_hw_supp_mask. }
    intros i (Hi & Hlen & Hhw). eapply next_ok, parse_state_returns; try done.
    - by rewrite Hlen, Hhw.
    - by apply (same_arrays_ok n pst).
    - cbn [pattern set_tunnel]. intros Hnil. subst l. rewrite Hnil in Ht. by rewrite <- Ht in Hend. }
  destruct (type_at l) eqn:Ht; try (by apply stays); apply Hgo; done || shape.
Qed.

Lemma inner_vlans_gives fuel : forall l last nr, (length l <= fuel)%nat ->
  gives (fun r => r.2 = last \/ r.2 `suffix_of` l /\ r.2 <> []) (inner_vlans fuel l last nr).
Proof.
  induction fuel as [|fuel IH]; intros l last nr Hf; cbn [inner_vlans]; unfold is_type; case_bool_decide as Ht; try (cbn; by left).
  - destruct l; [done|cbn in Hf; lia].
  - pose proof (type_nonempty _ _ Ht ltac:(done)) as Hne. pose proof (nonempty_length l Hne) as Hl.
    eapply gives_bind; [by apply advance_gives, nonempty_length|]. intros rest ->. rewrite drop1_tail.
    assert (length (tail l) = length l - 1)%nat as Htl by (destruct l; cbn; lia). pose proof (length_skip (tail l)).
    eapply gives_impl; [apply IH; lia|]. intros [r1 r2] [Hr|[Hr Hr2]]; cbn [snd] in *; right; [by subst r2|].
    split; [|done]. etrans; [exact Hr|apply skip_tail_suffix].
Qed.

Lemma lf_ok : stage_ok (parse_lf parser).
Proof.
  intros n pst Hok Hn. unfold parse_lf. destruct (negb (tunnel pst)); [by apply stays|]. pose proof (ok_typed _ _ Hok) as Htyp.
  unfold is_type. case_bool_decide as Ht; [|by apply stays]. cbn [negb]. pose proof (type_nonempty _ _ Ht ltac:(done)) as Hne.
  eapply gives_returns; [by apply advance_gives, nonempty_length|]. intros rest ->. rewrite drop1_tail.
  eapply gives_returns; [apply inner_vlans_gives, length_skip|]. intros [nr last] Hlast. cbn [snd] in Hlast.
  assert (typed_pattern last = true /\ last <> []) as [Hl1 Hl2].
  { destruct Hlast as [-> | [Hs Hl]]; [done|]. split; [|done]. eapply typed_suffix; [|exact Htyp]. etrans; [exact Hs|apply skip_tail_suffix]. }
  destruct (2 <? nr); [done|].
  eapply gives_returns; [apply eth_vlan_gives; [by apply typed_at|done]|]. intros v _.
  set (q := if v then _ else _). assert (ok n q /\ same_arrays pst q) as [Hq Hsame].
  { subst q. destruct v; [|done]. split; [|done]. by apply (same_arrays_ok n pst). }
  eapply returns_bind.
  { apply item_basic_returns; cbn [item_info len hw_mask]; try done; [by apply typed_at|unfold type_at in Ht; by rewrite Ht|unfold type_at in Ht; rewrite Ht; by vm_compute|].
    intros h [= <-]. by apply length_hw_supp_mask. }
  intros i (Hi & Hlen & Hhw). eapply next_ok, parse_state_returns; try done.
  - rewrite Hlen, Hhw. shape.
  - by apply (same_arrays_ok n q).
Qed.

Lemma lg_ok : stage_ok (parse_lg parser).
Proof.
  intros n pst Hok Hn. unfold parse_lg. destruct (negb (tunnel pst)); [by apply stays|].
  destruct (type_at (pattern pst)) eqn:Ht; try by apply stays.
  - taken T_IPV4.
  - taken T_IPV6.
Qed.

Lemma lh_ok : stage_ok (parse_lh parser).
Proof.
  intros n pst Hok Hn. unfold parse_lh. destruct (negb (tunnel pst)); [by apply stays|].
  destruct (type_at (pattern pst)) eqn:Ht; try by apply stays.
  - taken T_UDP.
  - taken T_TCP.
  - taken T_SCTP.
  - taken T_ESP.
Qed.

(** ** The pattern *)

Lemma layers_returns stages : Forall stage_ok stages -> forall n l pst, ok n (set_pattern l pst) ->
  n + Z.of_nat (length stages) <= 31 -> returns (ok 31) (parse_layers stages l pst).
Proof.
  induction 1 as [|stage stages Hst _ IH]; intros n l pst Hok Hn; cbn [parse_layers].
  { apply returns_pret, (ok_le n); [cbn in Hn; lia|done]. }
  destruct (is_type _ _); [apply returns_pret, (ok_le n); [cbn in Hn; lia|done]|].
  eapply returns_bind.
  { apply (Hst n); [|cbn in Hn; lia]. apply (same_arrays_ok n (set_pattern l pst)); [done|done|].
    eapply typed_suffix; [apply skip_suffix|]. apply (ok_typed _ _ Hok). }
  intros p Hp. cbn [length] in Hn. destruct (terminate p); [apply returns_pret, (ok_le (n + 1)); [lia|done]|].
  apply (IH (n + 1)); [|lia]. by destruct p.
Qed.

Lemma stages_ok : Forall stage_ok (parse_stage_funcs parser).
Proof.
  repeat (apply Forall_cons_2 || apply Forall_nil_2); [apply meta_items_ok|apply mark_item_ok|apply pre_l2_ok|apply higig2_ok|apply la_ok|
    apply lb_ok|apply lc_ok|apply ld_ok|apply le_ok|apply lf_ok|apply lg_ok|apply lh_ok].
Qed.

Lemma pattern_returns l : typed_pattern l = true -> returns (ok 31) (parse_pattern parser (Some l) intf).
Proof.
  intros Hl. unfold parse_pattern. eapply returns_bind; [apply (layers_returns _ stages_ok 0)|].
  - split; [split; [split|..]|..]; done.
  - done.
  - intros p Hp. by destruct (is_type _ _).
Qed.

(** ** The layer types *)

(** Where the nibbles go: the offset and the index after them, when all are in
    the two words. *)
Fixpoint nibbles_fit (nibs : list (Z * Z)) (data_off index : Z) : bool :=
  match nibs with
  | [] => true
  | (lid, idx) :: nibs =>
      let layer_info := Z.land (Z.shiftr (keyx_supp_nmask parser intf) (PROFILE_KEX_S_LID_OFFSET lid)) 0x7 in
      (0 <=? lid) && (lid <? 8) &&
      if Z.testbit layer_info idx then
        let '(data_off, index) := if 64 <=? data_off then (0, index + 1) else (data_off, index) in
        (0 <=? index) && (index <? 2) && nibbles_fit nibs (data_off + 4) index
      else nibbles_fit nibs data_off index
  end.

Lemma nibbles_gives nibs pst : pst_ok pst -> forall kd km o i, length kd = 2%nat -> length km = 2%nat -> nibbles_fit nibs o i = true ->
  gives (fun k => length k.1.1.1 = 2%nat /\ length k.1.1.2 = 2%nat) (layer_nibbles parser intf nibs pst (kd, km, o, i)).
Proof.
  intros Hok. induction nibs as [|[lid idx] nibs IH]; intros kd km o i Hkd Hkm Hf; cbn [layer_nibbles]; [done|].
  cbn [nibbles_fit] in Hf. rewrite !andb_true_iff, Z.leb_le, Z.ltb_lt in Hf. destruct Hf as [Hlid Hf].
  eapply gives_bind; [apply cget_gives; rewrite (po_lt _ Hok); lia|]. intros lty _.
  eapply gives_bind; [apply cget_gives; rewrite (po_flags _ Hok); lia|]. intros fl _.
  destruct (Z.testbit _ idx).
  - set (dm := if idx =? 2 then _ else _). destruct dm as [data msk].
    generalize (if Z.land lty 15 =? 0 then 0 else msk). intros m'. unfold put_nibble.
    destruct (if 64 <=? o then (0, i + 1) else (o, i)) as [o' i']. rewrite !andb_true_iff, Z.leb_le, Z.ltb_lt in Hf. destruct Hf as [Hi Hf].
    eapply (gives_bind (fun k => length k.1.1.1 = 2%nat /\ length k.1.1.2 = 2%nat /\ k.1.2 = o' + 4 /\ k.2 = i')).
    2:{ intros [[[a b] c] d] (Ha & Hb & Hc & Hd). cbn in Ha, Hb, Hc, Hd. subst c d. by apply IH. }
    eapply gives_bind; [apply cget_gives; rewrite Hkd; lia|]. intros d _.
    eapply gives_bind; [apply cset_gives; rewrite Hkd; lia|]. intros kd' Hkd'. cbn beta in Hkd'.
    eapply gives_bind; [apply cget_gives; rewrite Hkm; lia|]. intros m _.
    eapply gives_bind; [apply cset_gives; rewrite Hkm; lia|]. intros km' Hkm'. cbn beta in Hkm'. cbn. repeat split; lia.
  - cbn [mbind cres_mbind]. by apply IH.
Qed.

Definition types_fit : bool :=
  nibbles_fit nibbles (4 * popcount32 (Z.land (keyx_supp_nmask parser intf) (Z.ones PROFILE_KEX_S_LA_OFFSET))) 0 &&
  (0 <=? (keyx_len parser intf + 7) / 8) && ((keyx_len parser intf + 7) / 8 <=? 16).

Lemma ltype_nibble_gives off v pst : key_ok pst -> gives (fun q => key_ok q) (set_ltype_nibble off v pst).
Proof.
  intros [Hd Hm]. unfold set_ltype_nibble.
  assert (forall f l, length l = 56%nat -> gives (fun k => length k = 56%nat) (on_dword0 f l)) as Hdw.
  { intros f l Hl. unfold on_dword0. eapply gives_bind; [apply sub_gives; lia|]. intros d _.
    eapply gives_impl; [apply blit_gives; rewrite ?length_le_bytes; lia|]. intros k Hk. cbn in Hk. lia. }
  eapply gives_bind; [by apply Hdw|]. intros d Hd'. eapply gives_bind; [by apply Hdw|]. intros m Hm'. by split.
Qed.

Lemma ipv6ext_mask_gives pst : key_ok pst -> gives (fun q => key_ok q) (set_ipv6ext_ltype_mask_op parser pst).
Proof.
  intros Hk. unfold set_ipv6ext_ltype_mask_op. eapply gives_bind; [by apply ltype_nibble_gives|]. intros q [Hd Hm].
  destruct (Z.testbit _ _); [|by split]. eapply gives_bind; [apply sub_gives; lia|]. intros d _. destruct (negb _); [|by split].
  unfold on_dword0. eapply gives_bind.
  { eapply gives_bind; [apply sub_gives; lia|]. intros x _. apply blit_gives; rewrite ?length_le_bytes; lia. }
  intros k Hk'. cbn beta in Hk'. split; cbn; lia.
Qed.

Lemma populate_returns n pst : types_fit = true -> ok n pst -> returns key_ok (populate_parsed_data parser pst).
Proof.
  intros Hf Hok. unfold types_fit in Hf. rewrite !andb_true_iff, !Z.leb_le in Hf. destruct Hf as [[Hn H0] H16].
  unfold populate_parsed_data. rewrite (ok_intf _ _ Hok). set (kl := (keyx_len parser intf + 7) / 8) in *.
  eapply gives_returns; [apply nibbles_gives; [apply Hok|done|done|exact Hn]|].
  intros [[[kd km] o] i] [Hkd Hkm]. cbn [fst snd] in Hkd, Hkm.
  assert (forall l : list Z, length l = 2%nat -> length (mjoin (le_bytes 8 <$> l)) = 16%nat) as Hj.
  { intros l Hl. destruct l as [|a [|b [|]]]; try done. }
  destruct (po_key _ (ok_pst _ _ Hok)) as [Hd Hm].
  eapply gives_returns; [apply sub_gives; rewrite ?Hj by done; lia|]. intros sd Hsd. cbn beta in Hsd.
  eapply gives_returns; [apply sub_gives; rewrite ?Hj by done; lia|]. intros sm Hsm. cbn beta in Hsm.
  eapply gives_returns; [apply blit_gives; lia|]. intros d Hd'. cbn beta in Hd'.
  eapply gives_returns; [apply blit_gives; lia|]. intros m Hm'. cbn beta in Hm'.
  assert (key_ok (set_data d m pst)) as Hq by (split; cbn; lia).
  generalize (set_data d m pst) Hq. clear. intros q Hq.
  eapply (gives_returns key_ok); [destruct (set_vlan_ltype_mask q); [unfold set_vlan_ltype; apply ltype_nibble_gives; exact Hq|exact Hq]|]. intros q1 Hq1.
  eapply (gives_returns key_ok); [destruct (set_ipv6ext_ltype_mask q1); [apply ipv6ext_mask_gives; exact Hq1|exact Hq1]|].
  intros q2 Hq2. exact Hq2.
Qed.
End stages.

Lemma parse_attr_intf attr : returns (fun i => i = NIX_INTF_RX \/ i = NIX_INTF_TX) (parse_attr attr).
Proof. unfold parse_attr. destruct attr as [a|]; [|done]. repeat case_match; cbn; auto. Qed.

(** The parser of a profile stays in its arrays. *)
Definition parser_fits (parser : flow_parser) (intf : Z) : bool :=
  layers_fit parser intf && types_fit parser intf && (switch_header_type parser =? 0).

Lemma flow_parse_gives parser attr pat : parser_fits parser NIX_INTF_RX = true -> parser_fits parser NIX_INTF_TX = true ->
  typed_pattern pat = true ->
  gives (fun r => forall f, r = Some f -> length (parsed_data f) = 56%nat /\ length (parsed_data_mask f) = 56%nat)
    (flow_parse parser true attr (Some pat)).
Proof.
  intros Hr Ht Hp. unfold flow_parse. cbn [negb].
  assert (returns key_ok (pst ←? parse_rule parser attr (Some pat); populate_parsed_data parser pst)) as Hret.
  { unfold parse_rule. eapply (returns_bind (fun p => exists i, ok i 31 p /\ types_fit parser i = true)).
    - eapply returns_bind; [apply parse_attr_intf|]. intros i Hi. cbn beta in Hi.
      assert (parser_fits parser i = true) as Hfit by (destruct Hi; by subst i).
      unfold parser_fits in Hfit. rewrite !andb_true_iff, Z.eqb_eq in Hfit. destruct Hfit as [[H1 H2] H3].
      eapply returns_impl; [by apply (pattern_returns parser i)|]. intros p Hok. by exists i.
    - intros p (i & Hok & Hty). by eapply populate_returns. }
  eapply gives_bind; [exact Hret|]. intros [e|q] Hq; cbn; [done|]. intros f [= <-]. exact Hq.
Qed.


(** A VXLAN rule with an inner VLAN tag, an IPv6 rule with a fragment header
    and skipped items, and an unsupported MPLS stack. *)
Definition safe_item (t : item_type) : flow_item :=
  {| i_type := t; i_spec := Some (Bytes (zeros (sizeof_item t))); i_last := false; i_mask := Some (Bytes (zeros (sizeof_item t))) |}.

(** Four bytes at offset [o] behind the header before. *)
Definition raw_item (o : Z) : flow_item :=
  let r := {| relative := true; search := false; raw_offset := o; limit := 0; raw_length := 4; raw_pattern := Some (zeros 4) |} in
  {| i_type := T_RAW; i_spec := Some (Raw r); i_last := false; i_mask := Some (Raw r) |}.

Definition safe_void : flow_item := {| i_type := T_VOID; i_spec := None; i_last := false; i_mask := None |}.


(** The stages in front of the third layer, and the rest. *)
Lemma parse_layers_app stages more q : terminate q = false -> type_at (pattern q) <> T_END -> forall l pst,
  parse_layers stages l pst = pret q -> parse_layers (stages ++ more) l pst = parse_layers more (pattern q) q.
Proof.
  intros Hq Ht. induction stages as [|stage stages IH]; intros l pst; cbn [app parse_layers].
  - intros [= <-]. destruct more; cbn [parse_layers]; by destruct pst.
  - unfold is_type. case_bool_decide as He; [intros [= <-]; done|].
    destruct (stage _) as [[e|p]| |]; cbn [pbind]; [done| |done..]. destruct (terminate p) eqn:Htp; [intros [= <-]; congruence|]. apply IH.
Qed.

Lemma lc_raw_leaves parser pst z : pattern pst = [raw_item z] -> z < 0 -> parse_lc parser pst = Fault.
Proof.
  intros Hp Hz. unfold parse_lc, raw_at, raw_mask_at. rewrite Hp.
  cbn [type_at item_at raw_item i_type i_spec i_mask deref as_raw mbind cres_mbind relative negb raw_length raw_offset].
  rewrite (proj2 (Z.ltb_ge _ _)) by (unfold PARSER_MAX_RAW_ITEM_LEN; lia). unfold flow_raw_item_prepare.
  cbn [raw_length raw_pattern raw_offset Z.eqb deref mbind cres_mbind]. change (sub (zeros 4) 0 4) with (Ret (zeros 4)). cbn [mbind cres_mbind].
  unfold blit. by rewrite (proj2 (Z.leb_gt 0 z)).
Qed.


