(* ===== verification/FlowApi.v ===== *)
(** * The flow API of a port (lib/flow/dao_flow.c, flow_hw_offload.c)

    A flow is a rule of the port's ACL table and, when offloading is enabled,
    a reserved hardware rule that is installed through the network driver the
    first time a packet matches the ACL rule. *)
From stdpp Require Import base option list numbers gmap.
From S2P Require Import Prelude Rte FlowAcl FlowParser FlowProfile FlowMatch.

Local Open Scope Z_scope.

(** ** State *)

(** An action of a hardware rule: one of the user's, or the one for aging
    with the context it reports. *)
Inductive hw_action := HwAct (a : rte_flow_action) | HwAge (timeout context : Z).

(** [struct hw_offload_flow]. An array of actions is closed by END, which is
    [None], as is zeroed memory. *)
Record hw_offload_flow := {
  cam_idx : Z;
  ctr_idx : Z;
  hf_actions : option (list (option hw_action));
  hf_pattern : option (list flow_item);
  hf_attr : option flow_attr;
  hf_flow : option Z;
  offloaded : bool;
}.

Definition hw_flow0 : hw_offload_flow :=
  {| cam_idx := 0; ctr_idx := 0; hf_actions := None; hf_pattern := None; hf_attr := None; hf_flow := None; offloaded := false |}.

(** [struct dao_flow] *)
Record dao_flow := { df_arule : option Z; df_hflow : option Z; df_port : Z; df_tbl : Z }.

(** [struct flow_data] *)
Record flow_data := { fd_flow : Z; acl_rule_idx : Z }.

(** Memory that is neither a rule nor a flow nor an entry of a list: the flow
    that [flow_parse] gives, and of the hardware rule at [h] its attributes,
    its pattern, the copy of its actions, the actions with the one for aging,
    and the configuration of the latter. *)
Inductive block := BParsed | BAttr (h : Z) | BPattern (h : Z) | BActions (h : Z) | BNewActions (h : Z) | BAge (h : Z).

#[global] Instance block_eq_dec : EqDecision block.
Proof. solve_decision. Defined.

(** [rte_free] of the newest such block. *)
Fixpoint free_block (b : block) (l : list block) : list block :=
  match l with [] => [] | x :: l => if decide (x = b) then l else x :: free_block b l end.

(** What the library keeps of a port: [struct flow_config_per_port], the
    first of its ACL tables and [num_rules_per_prt], [struct
    hw_offload_config_per_port], the flows and hardware rules that were
    allocated for it, and the other blocks of memory that were allocated and
    not freed, the newest first. The other tables of the port never get a
    rule. *)
Record port {X : Type} := {
  port_id : Z;
  list_initialized : bool;
  num_flows : Z;
  hw_offload_enabled : bool;
  aging_tmo_sec : Z;
  p_parser : flow_parser;
  p_flows : list flow_data;
  acl_tbl : acl_table X;
  num_rules_per_prt : Z;
  hw_port_id : Z;
  hw_num_rules : Z;
  hw_aging_tmo_sec : Z;
  flow_heap : gmap Z dao_flow;
  hw_heap : gmap Z hw_offload_flow;
  p_mem : list block;
}.
Arguments port : clear implicits.

Section setters.
Context {X : Type}.
Implicit Types p : port X.

Definition set_tbl (t : acl_table X) (n : Z) p : port X :=
  {| port_id := port_id p; list_initialized := list_initialized p; num_flows := num_flows p;
     hw_offload_enabled := hw_offload_enabled p; aging_tmo_sec := aging_tmo_sec p; p_parser := p_parser p;
     p_flows := p_flows p; acl_tbl := t; num_rules_per_prt := n; hw_port_id := hw_port_id p;
     hw_num_rules := hw_num_rules p; hw_aging_tmo_sec := hw_aging_tmo_sec p; flow_heap := flow_heap p; hw_heap := hw_heap p;
     p_mem := p_mem p |}.

Definition set_flow_list (b : bool) (n : Z) (l : list flow_data) p : port X :=
  {| port_id := port_id p; list_initialized := b; num_flows := n;
     hw_offload_enabled := hw_offload_enabled p; aging_tmo_sec := aging_tmo_sec p; p_parser := p_parser p;
     p_flows := l; acl_tbl := acl_tbl p; num_rules_per_prt := num_rules_per_prt p; hw_port_id := hw_port_id p;
     hw_num_rules := hw_num_rules p; hw_aging_tmo_sec := hw_aging_tmo_sec p; flow_heap := flow_heap p; hw_heap := hw_heap p;
     p_mem := p_mem p |}.

Definition set_hw_cfg (i n tmo : Z) p : port X :=
  {| port_id := port_id p; list_initialized := list_initialized p; num_flows := num_flows p;
     hw_offload_enabled := hw_offload_enabled p; aging_tmo_sec := aging_tmo_sec p; p_parser := p_parser p;
     p_flows := p_flows p; acl_tbl := acl_tbl p; num_rules_per_prt := num_rules_per_prt p; hw_port_id := i;
     hw_num_rules := n; hw_aging_tmo_sec := tmo; flow_heap := flow_heap p; hw_heap := hw_heap p;
     p_mem := p_mem p |}.

Definition set_heaps (f : gmap Z dao_flow) (h : gmap Z hw_offload_flow) p : port X :=
  {| port_id := port_id p; list_initialized := list_initialized p; num_flows := num_flows p;
     hw_offload_enabled := hw_offload_enabled p; aging_tmo_sec := aging_tmo_sec p; p_parser := p_parser p;
     p_flows := p_flows p; acl_tbl := acl_tbl p; num_rules_per_prt := num_rules_per_prt p; hw_port_id := hw_port_id p;
     hw_num_rules := hw_num_rules p; hw_aging_tmo_sec := hw_aging_tmo_sec p; flow_heap := f; hw_heap := h; p_mem := p_mem p |}.

Definition set_mem (l : list block) p : port X :=
  {| port_id := port_id p; list_initialized := list_initialized p; num_flows := num_flows p;
     hw_offload_enabled := hw_offload_enabled p; aging_tmo_sec := aging_tmo_sec p; p_parser := p_parser p;
     p_flows := p_flows p; acl_tbl := acl_tbl p; num_rules_per_prt := num_rules_per_prt p; hw_port_id := hw_port_id p;
     hw_num_rules := hw_num_rules p; hw_aging_tmo_sec := hw_aging_tmo_sec p; flow_heap := flow_heap p; hw_heap := hw_heap p;
     p_mem := l |}.

Definition set_config (e : bool) (tmo : Z) (prs : flow_parser) p : port X :=
  {| port_id := port_id p; list_initialized := list_initialized p; num_flows := num_flows p;
     hw_offload_enabled := e; aging_tmo_sec := tmo; p_parser := prs;
     p_flows := p_flows p; acl_tbl := acl_tbl p; num_rules_per_prt := num_rules_per_prt p; hw_port_id := hw_port_id p;
     hw_num_rules := hw_num_rules p; hw_aging_tmo_sec := hw_aging_tmo_sec p; flow_heap := flow_heap p; hw_heap := hw_heap p;
     p_mem := p_mem p |}.
End setters.

(** ** The network driver

    [hw_rules d i] are the handles of the rules installed on port [i]. The
    library casts a handle to read its entry and its counter. The aged flows
    are the number a call without room for them returns, and the contexts the
    second call fills in, unless it fails. *)
Class RteFlow (D : Type) := {
  rte_flow_validate : Z -> flow_attr -> list flow_item -> list (option hw_action) -> D -> Z;
  rte_flow_create : Z -> flow_attr -> list flow_item -> list (option hw_action) -> D -> option Z * D;
  rte_flow_destroy : Z -> Z -> D -> Z * D;
  rte_flow_flush : Z -> D -> Z * D;
  rte_flow_query : Z -> Z -> D -> Z * Z;
  rte_flow_get_aged_flows : Z -> D -> Z * option (list (option Z));
  pflow_cam_idx : Z -> D -> Z;
  pflow_ctr_idx : Z -> D -> option Z;
  hw_rules : D -> Z -> list Z;
}.

Class RteFlowLaws (D : Type) `{RteFlow D} : Prop := {
  create_installs i a pat acts d h d' : rte_flow_create i a pat acts d = (Some h, d') ->
    ~ h ∈ hw_rules d i /\ hw_rules d' i = hw_rules d i ++ [h] /\ forall j, j <> i -> hw_rules d' j = hw_rules d j;
  create_refused i a pat acts d d' : rte_flow_create i a pat acts d = (None, d') -> forall j, hw_rules d' j = hw_rules d j;
  destroy_removes i h d d' : rte_flow_destroy i h d = (0, d') ->
    hw_rules d' i = filter (fun x => x <> h) (hw_rules d i) /\ forall j, j <> i -> hw_rules d' j = hw_rules d j;
  destroy_refused i h d rc d' : rte_flow_destroy i h d = (rc, d') -> rc <> 0 -> forall j, hw_rules d' j = hw_rules d j;
  flush_removes i d d' : rte_flow_flush i d = (0, d') -> hw_rules d' i = [] /\ forall j, j <> i -> hw_rules d' j = hw_rules d j;
}.

(** ** Reserving a hardware rule *)

(** The number of actions in front of END. *)
Fixpoint count_actions (l : list (option hw_action)) : cres nat :=
  match l with
  | [] => Fault
  | None :: _ => Ret 0%nat
  | Some _ :: l => n ← count_actions l; Ret (S n)
  end.

(** [flow_attr_conv] and the like: they succeed, they fail before the memory is
    allocated, or [rte_flow_conv] fails after that. *)
Inductive conv_result := ConvDone | ConvFails | ConvLost.

Definition conv_done (c : conv_result) : bool := match c with ConvDone => true | _ => false end.
Definition conv_block (c : conv_result) (b : block) (l : list block) : list block := match c with ConvFails => l | _ => b :: l end.

(** What can be allocated for a hardware rule. *)
Record reserve_mem := {
  rm_hflow : option Z;
  rm_attr : conv_result;
  rm_pattern : conv_result;
  rm_actions : conv_result;
  rm_new : bool;
  rm_age : bool;
}.

Section api.
Context {X : Type} `{RteAcl X} {D : Type} `{RteFlow D}.
Implicit Types p : port X.

(** The cells that an allocation of [n] cells really has. *)
Context (room : nat -> nat).

(** [aging_action_append]: an array of one cell more than there are actions
    is allocated, and the actions, the one for aging and END are written. *)
Definition aging_action_append (m : reserve_mem) (tmo context : Z) (acts : list (option hw_action))
  : cres (Z + list (option hw_action)) :=
  n ← count_actions acts;
  if negb (rm_new m) then perr (- ENOMEM)
  else
    let new := take n acts ++ replicate (room (n + 1) - n) None in
    if negb (rm_age m) then Fault
    else
      new ← cset new (Z.of_nat n) (Some (HwAge tmo context));
      new ← cset new (Z.of_nat n + 1) None;
      pret new.

(** The copy [rte_flow_conv] makes of a list of actions. *)
Definition conv_actions (actions : list rte_flow_action) : list (option hw_action) :=
  ((fun a => Some (HwAct a)) <$> actions) ++ [None].

Definition hw_offload_flow_reserve (m : reserve_mem) (attr : flow_attr) (pat : list flow_item)
    (actions : list rte_flow_action) p : cres (option Z * port X) :=
  match rm_hflow m with
  | None => Ret (None, p)
  | Some h =>
      let mem := conv_block (rm_attr m) (BAttr h) (p_mem p) in
      if negb (conv_done (rm_attr m)) then Ret (None, set_mem mem p)
      else
        let mem := conv_block (rm_pattern m) (BPattern h) mem in
        if negb (conv_done (rm_pattern m)) then Ret (None, set_mem mem p)
        else
          let mem := conv_block (rm_actions m) (BActions h) mem in
          if negb (conv_done (rm_actions m)) then Ret (None, set_mem mem p)
          else
            r ← aging_action_append m (hw_aging_tmo_sec p) h (conv_actions actions);
            match r with
            | inl _ => Ret (None, set_mem mem p)
            | inr acts =>
                Ret (Some h, set_heaps (flow_heap p)
                  (<[h := {| cam_idx := 0; ctr_idx := -1; hf_actions := Some acts; hf_pattern := Some pat; hf_attr := Some attr;
                             hf_flow := None; offloaded := false |}]> (hw_heap p)) (set_mem (BAge h :: BNewActions h :: mem) p))
            end
  end.

(** ** Hardware rules *)

(** The rule as it is in hardware. *)
Definition installed (hf : hw_offload_flow) (f : Z) (d : D) : hw_offload_flow :=
  {| cam_idx := pflow_cam_idx f d; ctr_idx := default (ctr_idx hf) (pflow_ctr_idx f d); hf_actions := hf_actions hf;
     hf_pattern := hf_pattern hf; hf_attr := hf_attr hf; hf_flow := Some f; offloaded := true |}.

Definition hw_offload_flow_create (h : Z) p (d : D) : cres (Z * port X * D) :=
  hf ← deref (hw_heap p !! h);
  attr ← deref (hf_attr hf); pat ← deref (hf_pattern hf); acts ← deref (hf_actions hf);
  let rc := rte_flow_validate (hw_port_id p) attr pat acts d in
  if negb (rc =? 0) then Ret (rc, p, d)
  else match rte_flow_create (hw_port_id p) attr pat acts d with
  | (None, d) => Ret (- EINVAL, p, d)
  | (Some f, d) =>
      Ret (0, set_hw_cfg (hw_port_id p) (u32 (hw_num_rules p + 1)) (hw_aging_tmo_sec p)
                (set_heaps (flow_heap p) (<[h := installed hf f d]> (hw_heap p)) p), d)
  end.

(** [hw_offload_flow_install]: [mem] is the pointer for the rule. *)
Definition hw_offload_flow_install (mem : option Z) (attr : flow_attr) (pat : list flow_item) (actions : list rte_flow_action)
    p (d : D) : option Z * port X * D :=
  match mem with
  | None => (None, p, d)
  | Some h =>
      let acts := conv_actions actions in
      if negb (rte_flow_validate (hw_port_id p) attr pat acts d =? 0) then (None, p, d)
      else match rte_flow_create (hw_port_id p) attr pat acts d with
      | (None, d) => (None, p, d)
      | (Some f, d) =>
          (Some h, set_hw_cfg (hw_port_id p) (u32 (hw_num_rules p + 1)) (hw_aging_tmo_sec p)
                     (set_heaps (flow_heap p) (<[h := installed hw_flow0 f d]> (hw_heap p)) p), d)
      end
  end.

(** The rule is taken out of the driver, whose errors are only reported. *)
Definition hw_take_out (hf : hw_offload_flow) p (d : D) : cres (port X * D) :=
  f ← deref (hf_flow hf);
  let '(_, d) := rte_flow_destroy (hw_port_id p) f d in
  Ret (set_hw_cfg (hw_port_id p) (u32 (hw_num_rules p - 1)) (hw_aging_tmo_sec p) p, d).

(** The loop of [hw_offload_flow_destroy] over the actions in front of END. *)
Definition free_ages (acts : list (option hw_action)) (l : list block) : list block :=
  foldl (fun l a => match a with Some (HwAge _ c) => free_block (BAge c) l | _ => l end) l acts.

(** The attributes and the copy of the actions are not freed. *)
Definition hw_offload_flow_destroy (o : option Z) p (d : D) : cres (Z * port X * D) :=
  h ← deref o; hf ← deref (hw_heap p !! h);
  acts ← deref (hf_actions hf);
  n ← count_actions acts;
  let mem := free_ages (take n acts) (p_mem p) in
  '(p, d) ← (if offloaded hf then hw_take_out hf p d else Ret (p, d));
  Ret (0, set_heaps (flow_heap p) (delete h (hw_heap p)) (set_mem (free_block (BPattern h) (free_block (BNewActions h) mem)) p), d).

Definition hw_offload_flow_uninstall (o : option Z) p (d : D) : cres (Z * port X * D) :=
  h ← deref o; hf ← deref (hw_heap p !! h);
  if negb (offloaded hf) then Ret (- EINVAL, p, d)
  else
    '(p, d) ← hw_take_out hf p d;
    Ret (0, set_heaps (flow_heap p) (delete h (hw_heap p)) p, d).

(** ** Aging *)

(** The loop of [query_aged_flows] over the contexts the driver reports; a
    rule is marked as not offloaded, and the number of rules stays. [eno] is
    what [errno] holds. *)
Fixpoint destroy_aged (eno : Z) (l : list (option Z)) p (d : D) : cres (Z * port X * D) :=
  match l with
  | [] => Ret (0, p, d)
  | None :: l => destroy_aged eno l p d
  | Some h :: l =>
      hf ← deref (hw_heap p !! h);
      f ← deref (hf_flow hf);
      let '(rc, d) := rte_flow_destroy (port_id p) f d in
      if negb (rc =? 0) then Ret (eno, p, d)
      else
        let hf := {| cam_idx := cam_idx hf; ctr_idx := ctr_idx hf; hf_actions := hf_actions hf; hf_pattern := hf_pattern hf;
                     hf_attr := hf_attr hf; hf_flow := hf_flow hf; offloaded := false |} in
        destroy_aged eno l (set_heaps (flow_heap p) (<[h := hf]> (hw_heap p)) p) d
  end.

(** [query_aged_flows]: [mem] tells whether the contexts can be allocated. *)
Definition query_aged_flows (eno : Z) (mem : bool) p (d : D) : cres (Z * port X * D) :=
  let '(total, contexts) := rte_flow_get_aged_flows (port_id p) d in
  if total <? 0 then Ret (- EINVAL, p, d)
  else if total =? 0 then Ret (0, p, d)
  else if negb mem then Ret (- ENOMEM, p, d)
  else match contexts with
  | None => Ret (- EINVAL, p, d)
  | Some contexts => destroy_aged eno contexts p d
  end.

(** One pass of [flow_aging_thread] over the port. *)
Definition flow_aging_pass (eno : Z) (mem : bool) p (d : D) : cres (port X * D) :=
  if hw_num_rules p =? 0 then Ret (p, d) else '(_, p, d) ← query_aged_flows eno mem p d; Ret (p, d).

(** ** Creating *)

(** The list is set up on first use, and the flow goes to its end. *)
Definition flow_append (fd : flow_data) p : port X :=
  let l := if list_initialized p then p_flows p else [] in
  set_flow_list true (u32 (num_flows p + 1)) (l ++ [fd]) p.

(** What can be allocated for a flow. *)
Record create_mem := {
  cm_parse : bool;
  cm_act : bool;
  cm_rule : option Z;
  cm_rule_mem : bool;
  cm_flow : option Z;
  cm_fdata : bool;
  cm_reserve : reserve_mem;
}.

(** [acl_create_rule] on the table of the port; the flow that [flow_parse]
    allocates is never freed. *)
Definition create_acl_rule (m : create_mem) (prio : Z) (attr : flow_attr) (pat : list flow_item)
    (actions : list rte_flow_action) p : cres (option Z * acl_table X * list block) :=
  let create parsed := acl_create_rule prio parsed actions (cm_act m) (cm_rule m) (cm_rule_mem m) (acl_tbl p) in
  match acl_ctx_get (acl_tbl p) with
  | None => '(r, t) ← create None; Ret (r, t, p_mem p)
  | Some _ =>
      parsed ← flow_parse (p_parser p) (cm_parse m) (Some attr) (Some pat);
      '(r, t) ← create parsed;
      Ret (r, t, if cm_parse m then BParsed :: p_mem p else p_mem p)
  end.

Definition dao_flow_create (m : create_mem) (prio : Z) (attr : flow_attr) (pat : list flow_item)
    (actions : list rte_flow_action) p : cres (option Z * port X) :=
  '(r, t, mem) ← create_acl_rule m prio attr pat actions p;
  match r with
  | None => Ret (None, set_tbl t (num_rules_per_prt p) (set_mem mem p))
  | Some rp =>
      let p := set_tbl t (u32 (num_rules_per_prt p + 1)) (set_mem mem p) in
      match cm_flow m with
      | None => Ret (None, p)
      | Some fp =>
          '(h, p) ← (if hw_offload_enabled p
                     then hw_offload_flow_reserve (cm_reserve m) attr pat actions
                            (set_hw_cfg (port_id p) (hw_num_rules p) (aging_tmo_sec p) p)
                     else Ret (None, p));
          let flow := {| df_arule := Some rp; df_hflow := h; df_port := port_id p; df_tbl := 0 |} in
          let p := set_heaps (<[fp := flow]> (flow_heap p)) (hw_heap p) p in
          if negb (cm_fdata m) then Ret (None, p)
          else
            rd ← deref (heap (acl_tbl p) !! rp);
            Ret (Some fp, flow_append {| fd_flow := fp; acl_rule_idx := rule_idx rd |} p)
      end
  end.

(** [dao_flow_hw_install]: the pointers for the flow and for its hardware
    rule, and whether there is memory for the list entry. *)
Definition dao_flow_hw_install (mem hmem : option Z) (fdata : bool) (attr : flow_attr) (pat : list flow_item)
    (actions : list rte_flow_action) p (d : D) : option Z * port X * D :=
  if negb (hw_offload_enabled p) then (None, p, d)
  else match mem with
  | None => (None, p, d)
  | Some fp =>
      let '(h, p, d) := hw_offload_flow_install hmem attr pat actions
                          (set_hw_cfg (port_id p) (hw_num_rules p) (aging_tmo_sec p) p) d in
      let p := set_heaps (<[fp := {| df_arule := None; df_hflow := h; df_port := 0; df_tbl := 0 |}]> (flow_heap p)) (hw_heap p) p in
      if negb fdata then (None, p, d) else (Some fp, flow_append {| fd_flow := fp; acl_rule_idx := 0 |} p, d)
  end.

(** ** Looking packets up *)

(** [TAILQ_FOREACH] of [flow_install_hardware] *)
Fixpoint install_loop (l : list flow_data) (idx : Z) p (d : D) : cres (Z * port X * D) :=
  match l with
  | [] => Ret (0, p, d)
  | fd :: l =>
      if acl_rule_idx fd =? idx then
        fl ← deref (flow_heap p !! fd_flow fd);
        match df_hflow fl with
        | None => Ret (- EINVAL, p, d)
        | Some h =>
            hf ← deref (hw_heap p !! h);
            if offloaded hf then Ret (0, p, d)
            else
              '(rc, p, d) ← hw_offload_flow_create h p d;
              if negb (rc =? 0) then Ret (rc, p, d)
              else
                rp ← deref (df_arule fl); _ ← deref (heap (acl_tbl p) !! rp);
                install_loop l idx p d
        end
      else install_loop l idx p d
  end.

Definition flow_install_hardware (idx : Z) p (d : D) : cres (Z * port X * D) := install_loop (p_flows p) idx p d.

(** [for (i = 0; i < nb_objs; i++)] of [dao_flow_lookup]; errors are only
    reported. *)
Fixpoint install_results (result : list Z) p (d : D) : cres (port X * D) :=
  match result with
  | [] => Ret (p, d)
  | r :: result =>
      '(p, d) ← (if r =? 0 then Ret (p, d) else '(_, p, d) ← flow_install_hardware r p d; Ret (p, d));
      install_results result p d
  end.

Definition dao_flow_lookup {P : Type} (key_generation : P -> list Z) (objs : list (mbuf P)) p (d : D)
  : cres (Z * list (mbuf P) * port X * D) :=
  '(rc, objs, result, t) ← acl_flow_lookup key_generation objs (replicate (length objs) 0) (acl_tbl p);
  let p := set_tbl t (num_rules_per_prt p) p in
  if negb (rc =? 0) then Ret (rc, objs, p, d)
  else '(p, d) ← install_results result p d; Ret (0, objs, p, d).

(** ** Destroying *)

(** The entries of the flow are taken out of the list, and the flow is freed
    with the first. *)
Definition flow_remove (fp : Z) p : port X :=
  let l := filter (fun fd => fd_flow fd <> fp) (p_flows p) in
  let n := Z.of_nat (length (p_flows p)) - Z.of_nat (length l) in
  set_heaps (if n =? 0 then flow_heap p else delete fp (flow_heap p)) (hw_heap p)
    (set_flow_list (list_initialized p) (u32 (num_flows p - n)) l p).

Definition dao_flow_destroy (pid fp : Z) p (d : D) : cres (Z * port X * D) :=
  flow ← deref (flow_heap p !! fp);
  if negb (df_port flow =? pid) then Ret (- EINVAL, p, d)
  else
    let p := flow_remove fp p in
    rp ← deref (df_arule flow);
    '(rc, t) ← acl_delete_rule rp (acl_tbl p);
    if negb (rc =? 0) then Ret (- rc, set_tbl t (num_rules_per_prt p) p, d)
    else
      let p := set_tbl t (u32 (num_rules_per_prt p - 1)) p in
      '(rc, p, d) ← hw_offload_flow_destroy (df_hflow flow) p d;
      Ret (if rc =? 0 then 0 else - rc, p, d).

Definition dao_flow_hw_uninstall (pid fp : Z) p (d : D) : cres (Z * port X * D) :=
  if negb (hw_offload_enabled p) then Ret (- EINVAL, p, d)
  else
    flow ← deref (flow_heap p !! fp);
    if negb (df_port flow =? pid) then Ret (- EINVAL, p, d)
    else
      let p := flow_remove fp p in
      '(rc, p, d) ← hw_offload_flow_uninstall (df_hflow flow) p d;
      Ret (if rc =? 0 then 0 else - rc, p, d).

(** [DAO_TAILQ_FOREACH_SAFE] of [dao_flow_flush] *)
Fixpoint free_flows (l : list flow_data) p : port X :=
  match l with
  | [] => p
  | fd :: l =>
      free_flows l (set_heaps (delete (fd_flow fd) (flow_heap p)) (hw_heap p)
                      (set_flow_list (list_initialized p) (u32 (num_flows p - 1)) l p))
  end.

Definition dao_flow_flush p (d : D) : cres (Z * port X * D) :=
  let '(rc, p, d) :=
    if hw_offload_enabled p then
      let '(rc, d) := rte_flow_flush (hw_port_id p) d in
      (rc, if rc =? 0 then set_hw_cfg (hw_port_id p) 0 (hw_aging_tmo_sec p) p else p, d)
    else (0, p, d) in
  if negb (rc =? 0) then Ret (rc, p, d)
  else
    '(rc, t) ← acl_table_rule_flush (acl_tbl p);
    if negb (rc =? 0) then Ret (rc, set_tbl t (num_rules_per_prt p) p, d)
    else
      let p := set_tbl t 0 p in
      Ret (0, free_flows (p_flows p) p, d).

(** [flow_cleanup]: a hardware rule that is installed stays. *)
Fixpoint cleanup_flows (l : list flow_data) p (d : D) : cres (port X * D) :=
  match l with
  | [] => Ret (p, d)
  | fd :: l =>
      fl ← deref (flow_heap p !! fd_flow fd);
      let p := set_heaps (delete (fd_flow fd) (flow_heap p)) (hw_heap p)
                 (set_flow_list (list_initialized p) (u32 (num_flows p - 1)) l p) in
      '(p, d) ← match df_hflow fl with
                | None => Ret (p, d)
                | Some h =>
                    hf ← deref (hw_heap p !! h);
                    if offloaded hf then Ret (p, d)
                    else '(_, p, d) ← hw_offload_flow_destroy (Some h) p d; Ret (p, d)
                end;
      cleanup_flows l p d
  end.

Definition flow_cleanup p (d : D) : cres (port X * D) := cleanup_flows (p_flows p) p d.

(** ** Queries *)

(** [dao_flow_query] of the counter: the hits in hardware, if the rule is
    there, and the hits of the ACL rule. *)
Definition dao_flow_query (pid fp : Z) (count reset : bool) p (d : D) : cres (Z * option Z * Z * port X) :=
  flow ← deref (flow_heap p !! fp);
  if negb (df_port flow =? pid) then Ret (- EINVAL, None, 0, p)
  else if negb count then Ret (- EINVAL, None, 0, p)
  else
    h ← deref (df_hflow flow); hf ← deref (hw_heap p !! h);
    '(rc, hits) ← (if offloaded hf then f ← deref (hf_flow hf);
                     let '(rc, hits) := rte_flow_query (hw_port_id p) f d in Ret (rc, Some hits)
                   else Ret (0, None));
    if negb (rc =? 0) then Ret (rc, None, 0, p)
    else
      rp ← deref (df_arule flow);
      '(rc, acl_hits, t) ← acl_rule_query rp reset (acl_tbl p);
      Ret (rc, hits, acl_hits, set_tbl t (num_rules_per_prt p) p).

(** [dao_flow_count]: flows, hardware rules and ACL rules. *)
Definition dao_flow_count p : Z * Z * Z := (num_flows p, hw_num_rules p, num_rules_per_prt p).

(** ** Configuration *)

Definition FLOW_DEFAULT_AGING_TIMEOUT : Z := 20.

(** The names of profiles that are known. *)
Inductive profile_name := PrflOvs | PrflDefault.

Definition parse_profile_setup (n : profile_name) : tcam_kex :=
  match n with PrflOvs => ovs_kex_profile | PrflDefault => default_kex_profile end.

(** The part of [dao_flow_init] for the port. *)
Definition dao_flow_init (prfl : profile_name) (hw_enable : bool) (tmo : Z) p : port X :=
  set_config (hw_offload_enabled p || hw_enable) (if tmo =? 0 then FLOW_DEFAULT_AGING_TIMEOUT else tmo)
    (flow_parser_init (parse_profile_setup prfl)) p.
End api.

(** ** A flow marks the packets it describes *)

(** The key generation of the OVS profile. *)
Definition ovs_key (pkt : list Z) : list Z := match ovs_profile_key_generation pkt 0 (zeros 56) with Ret k => k | _ => [] end.

Lemma ovs_key_spec pkt : bytes pkt -> (112 <= length pkt)%nat -> key_spec pkt (ovs_key pkt).
Proof. intros Hb Hl. destruct (key_gen_ok pkt Hb Hl) as (key & Hk & Hs). unfold ovs_key. by rewrite Hk. Qed.

Section marks.
Context {X : Type} {RA : RteAcl X} {RL : RteAclLaws X} {D : Type} {RF : RteFlow D} (room : nat -> nat).
Implicit Types p : port X.

(** What the pointers of a flow lead to is there. *)
Definition flow_there p (fd : flow_data) : Prop :=
  exists fl rp, flow_heap p !! fd_flow fd = Some fl /\ df_arule fl = Some rp /\ is_Some (heap (acl_tbl p) !! rp) /\
    forall h, df_hflow fl = Some h -> exists hf, hw_heap p !! h = Some hf /\
      is_Some (hf_attr hf) /\ is_Some (hf_pattern hf) /\ is_Some (hf_actions hf).

(** Ports that differ in their hardware rules only. *)
Definition same_soft p q : Prop :=
  p_flows q = p_flows p /\ acl_tbl q = acl_tbl p /\ flow_heap q = flow_heap p /\ port_id q = port_id p /\
  num_flows q = num_flows p /\ num_rules_per_prt q = num_rules_per_prt p /\ hw_offload_enabled q = hw_offload_enabled p.

Lemma same_soft_refl p : same_soft p p.
Proof. done. Qed.

Lemma same_soft_trans p q r : same_soft p q -> same_soft q r -> same_soft p r.
Proof. intros (?&?&?&?&?&?&?) (?&?&?&?&?&?&?). repeat split; congruence. Qed.

Lemma hw_create_gives h hf p d : hw_heap p !! h = Some hf -> is_Some (hf_attr hf) -> is_Some (hf_pattern hf) -> is_Some (hf_actions hf) ->
  exists rc q d', hw_offload_flow_create h p d = Ret (rc, q, d') /\ same_soft p q /\
    (hw_heap q = hw_heap p \/ exists f, rc = 0 /\ hw_heap q = <[h := installed hf f d']> (hw_heap p)).
Proof.
  intros Hh [a Ha] [pat Hp] [acts Hac]. unfold hw_offload_flow_create. rewrite Hh. cbn [deref mbind cres_mbind].
  rewrite Ha, Hp, Hac. cbn [deref mbind cres_mbind]. destruct (negb _); [eexists _, p, d; auto using same_soft_refl|].
  destruct (rte_flow_create _ a pat acts d) as [[f|] d']; [|eexists _, p, d'; auto using same_soft_refl].
  eexists 0, _, d'. split; [done|]. split; [done|]. right. by exists f.
Qed.

Lemma flow_there_hw p q fd : same_soft p q -> (forall h hf, hw_heap p !! h = Some hf -> exists hf', hw_heap q !! h = Some hf' /\
    hf_attr hf' = hf_attr hf /\ hf_pattern hf' = hf_pattern hf /\ hf_actions hf' = hf_actions hf) -> flow_there p fd -> flow_there q fd.
Proof.
  intros (_ & Ht & Hf & _) Hhw (fl & rp & H1 & H2 & H3 & H4). exists fl, rp. rewrite Hf, Ht. split; [done|]. split; [done|]. split; [done|].
  intros h Hh. destruct (H4 h Hh) as (hf & Hhf & A1 & A2 & A3). destruct (Hhw h hf Hhf) as (hf' & E & E1 & E2 & E3).
  exists hf'. by rewrite E1, E2, E3.
Qed.

Lemma install_gives idx l : forall p d, Forall (flow_there p) l ->
  exists rc q d', install_loop l idx p d = Ret (rc, q, d') /\ same_soft p q /\
    (forall fd, flow_there p fd -> flow_there q fd).
Proof.
  induction l as [|fd l IH]; intros p d Hl; cbn [install_loop]; [by eexists 0, p, d|].
  inversion Hl as [|? ? Hfd Hrest]; subst. destruct (acl_rule_idx fd =? idx); [|by apply IH].
  destruct Hfd as (fl & rp & H1 & H2 & H3 & H4). rewrite H1. cbn [deref mbind cres_mbind].
  destruct (df_hflow fl) as [h|]; [|by eexists _, p, d]. destruct (H4 h eq_refl) as (hf & Hhf & A1 & A2 & A3).
  rewrite Hhf. cbn [deref mbind cres_mbind]. destruct (offloaded hf); [by eexists _, p, d|].
  destruct (hw_create_gives h hf p d Hhf A1 A2 A3) as (rc & q & d' & -> & Hs & Hhw). cbn [mbind cres_mbind].
  assert (forall fd, flow_there p fd -> flow_there q fd) as Hkeep.
  { intros fd'. apply flow_there_hw; [done|]. intros h' hf' Hh'. destruct Hhw as [->|(f & _ & ->)]; [by exists hf'|].
    destruct (decide (h' = h)) as [->|Hne]; [|rewrite lookup_insert_ne by done; by exists hf'].
    rewrite lookup_insert_eq. eexists. split; [done|]. rewrite Hhf in Hh'. injection Hh' as <-. done. }
  destruct (negb (rc =? 0)); [by eexists _, q, d'|]. rewrite H2. cbn [deref mbind cres_mbind].
  destruct Hs as (E1 & E2 & Es). rewrite E2. destruct H3 as [rd Hrd]. rewrite Hrd. cbn [deref mbind cres_mbind].
  destruct (IH q d') as (rc' & q' & d'' & -> & Hs' & Hkeep').
  { eapply Forall_impl; [exact Hrest|]. apply Hkeep. }
  eexists _, q', d''. split; [done|]. split; [eapply same_soft_trans; [|exact Hs']; done|]. auto.
Qed.

Lemma install_results_gives result : forall p d, Forall (flow_there p) (p_flows p) ->
  exists q d', install_results result p d = Ret (q, d') /\ same_soft p q /\ (forall fd, flow_there p fd -> flow_there q fd).
Proof.
  induction result as [|r result IH]; intros p d Hp; cbn [install_results]; [by exists p, d|].
  destruct (r =? 0); cbn [mbind cres_mbind]; [by apply IH|]. unfold flow_install_hardware.
  destruct (install_gives r (p_flows p) p d Hp) as (rc & q & d' & -> & Hs & Hk). cbn [mbind cres_mbind].
  destruct (IH q d') as (q' & d'' & -> & Hs' & Hk').
  { destruct Hs as (-> & _). eapply Forall_impl; [exact Hp|]. apply Hk. }
  exists q', d''. split; [done|]. split; [by eapply same_soft_trans|auto].
Qed.

(** *** The memory of a hardware rule *)

Definition full_reserve (h : Z) : reserve_mem :=
  {| rm_hflow := Some h; rm_attr := ConvDone; rm_pattern := ConvDone; rm_actions := ConvDone; rm_new := true; rm_age := true |}.

Lemma count_app actions k n : count_actions k = Ret n ->
  count_actions (((fun a => Some (HwAct a)) <$> actions) ++ k) = Ret (length actions + n)%nat.
Proof. intros Hk. induction actions as [|a l IH]; [done|]. cbn. cbn in IH. by rewrite IH. Qed.

Lemma count_conv actions : count_actions (conv_actions actions) = Ret (length actions).
Proof. unfold conv_actions. rewrite (count_app actions [None] 0) by done. by rewrite Nat.add_0_r. Qed.

(** The actions with the one for aging behind them. *)
Definition aged_actions (actions : list rte_flow_action) (tmo h : Z) : list (option hw_action) :=
  ((fun a => Some (HwAct a)) <$> actions) ++ Some (HwAge tmo h) :: replicate (room (length actions + 1) - length actions - 1) None.

Lemma append_cells actions : take (length actions) (conv_actions actions) = (fun a => Some (HwAct a)) <$> actions.
Proof. unfold conv_actions. rewrite take_app_le by (by rewrite length_fmap). apply take_ge. by rewrite length_fmap. Qed.

Lemma aging_append_ok actions tmo h : (length actions + 2 <= room (length actions + 1))%nat ->
  aging_action_append room (full_reserve h) tmo h (conv_actions actions) = pret (aged_actions actions tmo h).
Proof.
  intros Hr. unfold aging_action_append. rewrite count_conv. cbn [mbind cres_mbind full_reserve rm_new rm_age negb].
  rewrite append_cells. set (l := _ <$> actions). set (n := length actions) in *.
  assert (length l = n) as Hl by (unfold l; by rewrite length_fmap).
  rewrite cset_in_range by (rewrite length_app, length_replicate; lia). cbn [mbind cres_mbind].
  rewrite cset_in_range by (rewrite length_insert, length_app, length_replicate; lia). cbn [mbind cres_mbind].
  unfold pret. do 2 f_equal. unfold aged_actions. fold l n. rewrite Nat2Z.id.
  replace (Z.to_nat (Z.of_nat n + 1)) with (n + 1)%nat by lia.
  replace (room (n + 1) - n)%nat with (S (S (room (n + 1) - n - 2)))%nat by lia. cbn [replicate].
  rewrite !insert_app_r_alt by lia. rewrite Hl, Nat.sub_diag. replace (n + 1 - n)%nat with 1%nat by lia. cbn.
  by replace (room (n + 1) - n - 1)%nat with (S (room (n + 1) - n - 2)) by lia.
Qed.

(** The array has one cell too few: when an allocation has no more cells than
    asked for, END is written behind it. *)
Lemma aging_append_overflows actions tmo h : room (length actions + 1) = (length actions + 1)%nat ->
  aging_action_append room (full_reserve h) tmo h (conv_actions actions) = Fault.
Proof.
  intros Hr. unfold aging_action_append. rewrite count_conv. cbn [mbind cres_mbind full_reserve rm_new rm_age negb].
  rewrite append_cells, Hr. set (l := _ <$> actions). set (n := length actions) in *.
  assert (length l = n) as Hl by (unfold l; by rewrite length_fmap).
  rewrite cset_in_range by (rewrite length_app, length_replicate; lia). cbn [mbind cres_mbind].
  unfold cset. rewrite (proj2 (andb_false_iff _ _)); [done|]. right. apply Z.ltb_ge. rewrite length_insert, length_app, length_replicate. lia.
Qed.

(** *** Creating a flow *)

Definition full_mem (rp fp hp : Z) : create_mem :=
  {| cm_parse := true; cm_act := true; cm_rule := Some rp; cm_rule_mem := true; cm_flow := Some fp; cm_fdata := true;
     cm_reserve := full_reserve hp |}.

(** The hardware rule that is reserved. *)
Definition reserved_flow (attr : flow_attr) (pat : list flow_item) (actions : list rte_flow_action) (tmo hp : Z) : hw_offload_flow :=
  {| cam_idx := 0; ctr_idx := -1; hf_actions := Some (aged_actions actions tmo hp); hf_pattern := Some pat; hf_attr := Some attr;
     hf_flow := None; offloaded := false |}.

(** The port with one flow more, whose table has become [t]. *)
Definition created p (t : acl_table X) (i rp fp hp : Z) (attr : flow_attr) (pat : list flow_item) (actions : list rte_flow_action)
  : port X :=
  let hw := hw_offload_enabled p in
  {| port_id := port_id p; list_initialized := true; num_flows := u32 (num_flows p + 1); hw_offload_enabled := hw;
     aging_tmo_sec := aging_tmo_sec p; p_parser := p_parser p;
     p_flows := (if list_initialized p then p_flows p else []) ++ [{| fd_flow := fp; acl_rule_idx := i |}]; acl_tbl := t;
     num_rules_per_prt := u32 (num_rules_per_prt p + 1); hw_port_id := if hw then port_id p else hw_port_id p;
     hw_num_rules := hw_num_rules p; hw_aging_tmo_sec := if hw then aging_tmo_sec p else hw_aging_tmo_sec p;
     flow_heap := <[fp := {| df_arule := Some rp; df_hflow := if hw then Some hp else None; df_port := port_id p; df_tbl := 0 |}]> (flow_heap p);
     hw_heap := if hw then <[hp := reserved_flow attr pat actions (aging_tmo_sec p) hp]> (hw_heap p) else hw_heap p;
     p_mem := (if hw then [BAge hp; BNewActions hp; BActions hp; BPattern hp; BAttr hp] else []) ++ BParsed :: p_mem p |}.

Lemma create_acl_ok free i p prio attr pat flow actions rp fp hp :
  acl_inv (i :: free) (acl_tbl p) -> heap (acl_tbl p) !! rp = None -> accepts (acl_tbl p) (new_rule (acl_tbl p) prio flow i) ->
  flow_parse (p_parser p) true (Some attr) (Some pat) = Ret (Some flow) ->
  create_acl_rule (full_mem rp fp hp) prio attr pat actions p =
  ('(r, t) ← acl_create_rule prio (Some flow) actions true (Some rp) true (acl_tbl p); Ret (r, t, BParsed :: p_mem p)).
Proof.
  intros Hinv Hrp Hacc Hparse. unfold create_acl_rule. destruct Hacc as [Hnew _].
  destruct (ctx_get_ok _ _ Hinv Hnew) as (t1 & x & -> & _). cbn [full_mem cm_parse]. by rewrite Hparse.
Qed.

(** The port with a hardware rule reserved. *)
Lemma reserve_ok hp attr pat actions p : (length actions + 2 <= room (length actions + 1))%nat ->
  hw_offload_flow_reserve room (full_reserve hp) attr pat actions p =
  Ret (Some hp, set_heaps (flow_heap p) (<[hp := reserved_flow attr pat actions (hw_aging_tmo_sec p) hp]> (hw_heap p))
    (set_mem ([BAge hp; BNewActions hp; BActions hp; BPattern hp; BAttr hp] ++ p_mem p) p)).
Proof.
  intros Hroom. unfold hw_offload_flow_reserve. cbn [full_reserve rm_hflow rm_attr rm_pattern rm_actions conv_done conv_block negb].
  fold (full_reserve hp). by rewrite aging_append_ok.
Qed.

Lemma create_flow_ok free i p prio attr pat flow actions rp fp hp :
  acl_inv (i :: free) (acl_tbl p) -> heap (acl_tbl p) !! rp = None -> accepts (acl_tbl p) (new_rule (acl_tbl p) prio flow i) ->
  flow_parse (p_parser p) true (Some attr) (Some pat) = Ret (Some flow) ->
  (hw_offload_enabled p = true -> (length actions + 2 <= room (length actions + 1))%nat) ->
  exists t, dao_flow_create room (full_mem rp fp hp) prio attr pat actions p = Ret (Some fp, created p t i rp fp hp attr pat actions) /\
    acl_inv free t /\ ~ i ∈ used (acl_tbl p) /\ flow_list t = flow_list (acl_tbl p) ++ [rp] /\
    rules t = rules (acl_tbl p) ++ [new_rule (acl_tbl p) prio flow i] /\
    heap t = <[rp := {| rule := new_rule (acl_tbl p) prio flow i; rule_idx := i; rule_hits := 0 |}]> (heap (acl_tbl p)) /\
    tbl_id t = tbl_id (acl_tbl p) /\
    (action t ≫= (.!! Z.to_nat i)) = Some (set_rule_data rp (acl_populate_action actions (set_index i action0))).
Proof.
  intros Hinv Hrp Hacc Hparse Hroom.
  destruct (create_rule_ok free i (acl_tbl p) prio flow actions rp Hinv Hrp Hacc) as (t & Hret & Hinv' & Hni & Hfl & Hr & Hh & Hid & Hcell).
  exists t. split; [|done]. unfold dao_flow_create. rewrite (create_acl_ok free i p prio attr pat flow actions) by done.
  rewrite Hret. cbn [mbind cres_mbind full_mem cm_flow cm_reserve cm_fdata negb]. cbn [hw_offload_enabled set_tbl set_mem].
  unfold created. destruct (hw_offload_enabled p) eqn:Hhw.
  - rewrite reserve_ok by auto. cbn [mbind cres_mbind].
    cbn [acl_tbl set_heaps set_hw_cfg set_tbl set_mem]. rewrite Hh, lookup_insert_eq. cbn [deref mbind cres_mbind rule_idx].
    do 2 f_equal. clear -Hhw. destruct p. cbn in Hhw. subst. reflexivity.
  - cbn [mbind cres_mbind acl_tbl set_heaps set_tbl set_mem]. rewrite Hh, lookup_insert_eq. cbn [deref mbind cres_mbind rule_idx].
    do 2 f_equal. clear -Hhw. destruct p. cbn in Hhw. subst. reflexivity.
Qed.

(** With hardware offload the actions need one cell more than is asked for. *)
Lemma create_flow_faults free i p prio attr pat flow actions rp fp hp :
  acl_inv (i :: free) (acl_tbl p) -> heap (acl_tbl p) !! rp = None -> accepts (acl_tbl p) (new_rule (acl_tbl p) prio flow i) ->
  flow_parse (p_parser p) true (Some attr) (Some pat) = Ret (Some flow) ->
  hw_offload_enabled p = true -> room (length actions + 1) = (length actions + 1)%nat ->
  dao_flow_create room (full_mem rp fp hp) prio attr pat actions p = Fault.
Proof.
  intros Hinv Hrp Hacc Hparse Hhw Hroom.
  destruct (create_rule_ok free i (acl_tbl p) prio flow actions rp Hinv Hrp Hacc) as (t & Hret & _).
  unfold dao_flow_create. rewrite (create_acl_ok free i p prio attr pat flow actions) by done.
  rewrite Hret. cbn [mbind cres_mbind full_mem cm_flow cm_reserve hw_offload_enabled set_tbl set_mem]. rewrite Hhw.
  unfold hw_offload_flow_reserve. cbn [full_reserve rm_hflow rm_attr rm_pattern rm_actions conv_done conv_block negb].
  fold (full_reserve hp). by rewrite aging_append_overflows.
Qed.

(** *** The packets that are marked *)

(** The cell of a rule with a mark. *)
Definition mark_cell (i rp id : Z) : acl_actions := set_rule_data rp (acl_populate_action [ActMark id] (set_index i action0)).

Lemma mark_shift id : u64 (Z.shiftl (u16 id) 40) = u16 id * 2 ^ 40.
Proof. pose proof (u16_bound id). rewrite Z.shiftl_mul_pow2 by lia. apply u64_id. unfold is_u64, is_u16 in *. lia. Qed.

Lemma mark_cell_marks {P} cells i rp id (m : mbuf P) : 1 <= i -> cells !! Z.to_nat i = Some (mark_cell i rp id) -> u16 id <> 0 ->
  fdir m = false -> marked cells i m = {| fdir := true; hash_hi := u16 id; pkt := pkt m |}.
Proof.
  intros Hi Hc Hid Hm. unfold marked. rewrite Hm, Hc, (proj2 (Z.eqb_neq i 0)) by lia. cbn [orb].
  assert (rx_action (mark_cell i rp id) = u16 id * 2 ^ 40) as Hrx.
  { change (rx_action (mark_cell i rp id)) with (Z.lor 0 (u64 (Z.shiftl (u16 id) 40))). rewrite Z.lor_0_l. apply mark_shift. }
  change (Z.land (act_map (mark_cell i rp id)) ACL_ACTION_MARK =? 0) with false. unfold effective.
  change (in_use (mark_cell i rp id)) with true. change (Z.land (act_map (mark_cell i rp id)) ACL_ACTION_MARK =? 0) with false.
  rewrite Hrx, (proj2 (Z.eqb_neq _ 0)) by lia. cbn [negb andb orb].
  f_equal. rewrite Z.shiftr_div_pow2 by lia. rewrite Z.div_mul by lia. change 0xFFFF with (Z.ones 16). rewrite Z.land_ones by lia.
  unfold u16. change (2 ^ 16) with 65536. rewrite !Zmod_mod. done.
Qed.

Lemma created_there free t i rp fp hp attr pat actions p : acl_inv free t -> p_flows p = [] -> is_Some (heap t !! rp) ->
  Forall (flow_there (created p t i rp fp hp attr pat actions)) (p_flows (created p t i rp fp hp attr pat actions)).
Proof.
  intros Hinv Hnil Hrp. cbn [created p_flows]. rewrite Hnil. destruct (list_initialized p); cbn [app]; apply Forall_singleton;
    (eexists _, rp; cbn [created flow_heap fd_flow]; rewrite lookup_insert_eq; split; [done|]; split; [done|]; split; [done|];
     cbn [df_hflow hw_heap created]; intros h Hh; destruct (hw_offload_enabled p); [|done]; injection Hh as <-;
     rewrite lookup_insert_eq; eexists; split; [done|]; cbn; eauto).
Qed.

End marks.

(** ** Offloading *)

Section offload.
Context {X : Type} {RA : RteAcl X} {D : Type} {RF : RteFlow D}.
Implicit Types p : port X.

(** The port with a rule more in hardware. *)
Definition with_hw p (h : Z) (hf : hw_offload_flow) : port X :=
  set_hw_cfg (hw_port_id p) (u32 (hw_num_rules p + 1)) (hw_aging_tmo_sec p) (set_heaps (flow_heap p) (<[h := hf]> (hw_heap p)) p).

(** A hardware rule that is not installed, and that the driver takes as [f]. *)
Definition driver_takes p (hf : hw_offload_flow) (d : D) (f : Z) (d' : D) : Prop :=
  offloaded hf = false /\ exists attr pat acts, hf_attr hf = Some attr /\ hf_pattern hf = Some pat /\ hf_actions hf = Some acts /\
   rte_flow_validate (hw_port_id p) attr pat acts d = 0 /\ rte_flow_create (hw_port_id p) attr pat acts d = (Some f, d').

Lemma hw_create_ok p h hf d f d' : hw_heap p !! h = Some hf -> driver_takes p hf d f d' ->
  hw_offload_flow_create h p d = Ret (0, with_hw p h (installed hf f d'), d').
Proof.
  intros Hh (_ & attr & pat & acts & Ha & Hp & Hc & Hv & Hcr). unfold hw_offload_flow_create. rewrite Hh. cbn [deref mbind cres_mbind].
  rewrite Ha, Hp, Hc. cbn [deref mbind cres_mbind]. by rewrite Hv, Hcr.
Qed.

(** A flow of the list with its own number, an ACL rule and a hardware rule. *)
Record listed p (l1 : list flow_data) (fd : flow_data) (l2 : list flow_data) (fl : dao_flow) (rp h : Z) : Prop := {
  ls_flows : p_flows p = l1 ++ fd :: l2;
  ls_own : Forall (fun e => acl_rule_idx e <> acl_rule_idx fd) (l1 ++ l2);
  ls_flow : flow_heap p !! fd_flow fd = Some fl;
  ls_rule : df_arule fl = Some rp /\ is_Some (heap (acl_tbl p) !! rp);
  ls_hw : df_hflow fl = Some h;
}.

Lemma install_skips idx l : forall k p d, Forall (fun e => acl_rule_idx e <> idx) l ->
  install_loop (l ++ k) idx p d = install_loop k idx p d.
Proof.
  induction l as [|e l IH]; intros k p d Hl; [done|]. inversion Hl as [|? ? He Hl']; subst. cbn [app install_loop].
  rewrite (proj2 (Z.eqb_neq _ _) He). by apply IH.
Qed.

Lemma install_ok p l1 fd l2 fl rp h hf d f d' : listed p l1 fd l2 fl rp h -> hw_heap p !! h = Some hf -> driver_takes p hf d f d' ->
  flow_install_hardware (acl_rule_idx fd) p d = Ret (0, with_hw p h (installed hf f d'), d').
Proof.
  intros [Hl Ho Hfl [Hr [rd Hrd]] Hw] Hh Ht. unfold flow_install_hardware. rewrite Hl.
  apply Forall_app in Ho as [Ho1 Ho2]. rewrite install_skips by done. cbn [install_loop]. rewrite Z.eqb_refl, Hfl. cbn [deref mbind cres_mbind].
  rewrite Hw, Hh. cbn [deref mbind cres_mbind]. rewrite (proj1 Ht), (hw_create_ok p h hf d f d' Hh Ht). cbn [mbind cres_mbind Z.eqb negb].
  rewrite Hr. cbn [deref mbind cres_mbind]. change (heap (acl_tbl (with_hw p h _))) with (heap (acl_tbl p)). rewrite Hrd.
  cbn [deref mbind cres_mbind]. rewrite <- (app_nil_r l2). by rewrite install_skips.
Qed.

Lemma install_again p l1 fd l2 fl rp h hf d : listed p l1 fd l2 fl rp h -> hw_heap p !! h = Some hf -> offloaded hf = true ->
  flow_install_hardware (acl_rule_idx fd) p d = Ret (0, p, d).
Proof.
  intros [Hl Ho Hfl _ Hw] Hh Hoff. unfold flow_install_hardware. rewrite Hl.
  apply Forall_app in Ho as [Ho1 _]. rewrite install_skips by done. cbn [install_loop]. rewrite Z.eqb_refl, Hfl. cbn [deref mbind cres_mbind].
  rewrite Hw, Hh. cbn [deref mbind cres_mbind]. by rewrite Hoff.
Qed.

Lemma listed_with_hw p l1 fd l2 fl rp h h' hf : listed p l1 fd l2 fl rp h -> listed (with_hw p h' hf) l1 fd l2 fl rp h.
Proof. intros [H1 H2 H3 H4 H5]. by split. Qed.

(** C18. A flow is offloaded once. The first packet that matches a flow whose
    hardware rule is reserved puts exactly one rule into the driver and counts
    it; every further packet of the flow leaves the driver and the port as
    they are; and destroying the hardware rule takes exactly this rule out
    again, restores the count and frees it. *)
Theorem offload_once {RFL : RteFlowLaws D} p l1 fd l2 fl rp h hf acts n (d d' d'' : D) (f : Z) :
  listed p l1 fd l2 fl rp h -> hw_heap p !! h = Some hf -> driver_takes p hf d f d' -> is_u32 (hw_num_rules p) ->
  hf_actions hf = Some acts -> count_actions acts = Ret n -> rte_flow_destroy (hw_port_id p) f d' = (0, d'') ->
  exists q q', flow_install_hardware (acl_rule_idx fd) p d = Ret (0, q, d') /\
    hw_rules d' (hw_port_id p) = hw_rules d (hw_port_id p) ++ [f] /\
    hw_num_rules q = u32 (hw_num_rules p + 1) /\ same_soft p q /\
    flow_install_hardware (acl_rule_idx fd) q d' = Ret (0, q, d') /\
    hw_offload_flow_destroy (Some h) q d' = Ret (0, q', d'') /\
    hw_rules d'' (hw_port_id p) = hw_rules d (hw_port_id p) /\ hw_num_rules q' = hw_num_rules p /\
    hw_heap q' = delete h (hw_heap p) /\ same_soft p q'.
Proof.
  intros Hls Hh Ht Hu Hacts Hn Hd. set (q := with_hw p h (installed hf f d')).
  assert (hw_heap q !! h = Some (installed hf f d')) as Hq by apply lookup_insert_eq.
  assert (hw_rules d' (hw_port_id p) = hw_rules d (hw_port_id p) ++ [f] /\ ~ f ∈ hw_rules d (hw_port_id p)) as [Hin Hnew].
  { destruct Ht as (_ & attr & pat & ac & _ & _ & _ & _ & Hc). by destruct (create_installs _ _ _ _ _ _ _ Hc) as (? & ? & _). }
  exists q. eexists. split; [by eapply install_ok|]. split; [done|]. split; [done|]. split; [done|].
  split; [by eapply install_again; [apply listed_with_hw|..]|].
  unfold hw_offload_flow_destroy. cbn [deref mbind cres_mbind]. rewrite Hq. cbn [deref mbind cres_mbind hf_actions installed].
  rewrite Hacts. cbn [deref mbind cres_mbind]. rewrite Hn. cbn [mbind cres_mbind]. cbn [offloaded installed].
  unfold hw_take_out. cbn [hf_flow installed deref mbind cres_mbind]. change (hw_port_id q) with (hw_port_id p). rewrite Hd.
  cbn [mbind cres_mbind]. split; [done|]. destruct (destroy_removes _ _ _ _ Hd) as [-> _]. rewrite Hin.
  split; [|split; [|split; [|done]]].
  - rewrite filter_app, filter_cons_False by tauto. rewrite app_nil_r. apply filter_all, Forall_forall. by intros x Hx ->.
  - cbn. unfold u32. rewrite Zminus_mod_idemp_l. replace (hw_num_rules p + 1 - 1) with (hw_num_rules p) by lia. by apply u32_id.
  - cbn. by rewrite delete_insert_eq.
Qed.

(** Aging and the number of hardware rules. When the driver reports that
    the rule of a flow has aged, [query_aged_flows] takes it out, and the next
    packet of the flow installs it again; the rule then is in the driver once
    but has been counted twice, because aging does not count it out. *)
Theorem aged_flow_counted_twice {RFL : RteFlowLaws D} p l1 fd l2 fl rp h hf eno (d d1 d2 d3 : D) (f g : Z) :
  listed p l1 fd l2 fl rp h -> hw_heap p !! h = Some hf -> hw_port_id p = port_id p -> driver_takes p hf d f d1 ->
  rte_flow_get_aged_flows (port_id p) d1 = (1, Some [Some h]) -> rte_flow_destroy (port_id p) f d1 = (0, d2) ->
  driver_takes p hf d2 g d3 ->
  exists q1 q2 q3, flow_install_hardware (acl_rule_idx fd) p d = Ret (0, q1, d1) /\
    query_aged_flows eno true q1 d1 = Ret (0, q2, d2) /\ hw_rules d2 (port_id p) = hw_rules d (port_id p) /\
    flow_install_hardware (acl_rule_idx fd) q2 d2 = Ret (0, q3, d3) /\
    hw_rules d3 (port_id p) = hw_rules d (port_id p) ++ [g] /\ hw_num_rules q3 = u32 (hw_num_rules p + 2).
Proof.
  intros Hls Hh Hpid Ht Haged Hd Ht2. set (q1 := with_hw p h (installed hf f d1)).
  assert (hw_rules d1 (port_id p) = hw_rules d (port_id p) ++ [f] /\ ~ f ∈ hw_rules d (port_id p)) as [Hin Hnew].
  { destruct Ht as (_ & attr & pat & ac & _ & _ & _ & _ & Hc). rewrite Hpid in Hc. by destruct (create_installs _ _ _ _ _ _ _ Hc) as (? & ? & _). }
  assert (hw_rules d2 (port_id p) = hw_rules d (port_id p)) as Hout.
  { destruct (destroy_removes _ _ _ _ Hd) as [-> _]. rewrite Hin, filter_app, filter_cons_False by tauto. rewrite app_nil_r.
    apply filter_all, Forall_forall. by intros x Hx ->. }
  set (aged := {| cam_idx := cam_idx (installed hf f d1); ctr_idx := ctr_idx (installed hf f d1); hf_actions := hf_actions hf;
                  hf_pattern := hf_pattern hf; hf_attr := hf_attr hf; hf_flow := Some f; offloaded := false |}).
  set (q2 := set_heaps (flow_heap q1) (<[h := aged]> (hw_heap q1)) q1).
  exists q1, q2, (with_hw q2 h (installed aged g d3)). split; [by eapply install_ok|]. split; [|split; [done|]].
  - unfold query_aged_flows. change (port_id q1) with (port_id p). rewrite Haged. cbn [Z.ltb Z.eqb Z.compare negb destroy_aged].
    assert (hw_heap q1 !! h = Some (installed hf f d1)) as -> by apply lookup_insert_eq. cbn [deref mbind cres_mbind hf_flow installed].
    change (port_id q1) with (port_id p). by rewrite Hd.
  - split.
    + apply (install_ok q2 l1 fd l2 fl rp h aged d2 g d3).
      * destruct Hls as [H1 H2 H3 H4 H5]. by split.
      * apply lookup_insert_eq.
      * destruct Ht2 as (_ & Htk). by split.
    + split.
      * destruct Ht2 as (_ & attr & pat & ac & _ & _ & _ & _ & Hc). rewrite Hpid in Hc.
        destruct (create_installs _ _ _ _ _ _ _ Hc) as (_ & -> & _). by rewrite Hout.
      * cbn. unfold u32. rewrite Zplus_mod_idemp_l. f_equal. lia.
Qed.
End offload.

(** ** Creating and destroying *)

Section lifecycle.
Context {X : Type} {RA : RteAcl X} {RL : RteAclLaws X} {D : Type} {RF : RteFlow D} (room : nat -> nat).
Implicit Types p : port X.

Lemma flow_remove_created p t i rp fp hp attr pat actions : (list_initialized p = false -> p_flows p = []) ->
  Forall (fun fd => fd_flow fd <> fp) (p_flows p) -> flow_heap p !! fp = None -> is_u32 (num_flows p) ->
  let q := flow_remove fp (created room p t i rp fp hp attr pat actions) in
  p_flows q = p_flows p /\ flow_heap q = flow_heap p /\ num_flows q = num_flows p.
Proof.
  intros Hli Hfp Hheap Hu. unfold flow_remove. cbn [created p_flows flow_heap num_flows list_initialized].
  assert ((if list_initialized p then p_flows p else []) = p_flows p) as -> by (destruct (list_initialized p); [done|by rewrite Hli]).
  assert (filter (fun fd => fd_flow fd <> fp) (p_flows p ++ [{| fd_flow := fp; acl_rule_idx := i |}]) = p_flows p) as ->.
  { rewrite filter_app, filter_cons_False by (cbn; tauto). rewrite app_nil_r. by apply filter_all. }
  rewrite length_app, Nat2Z.inj_add. replace (_ + _ - _) with 1 by (cbn; lia). cbn. split; [done|]. split.
  - by rewrite delete_insert_id.
  - unfold u32. rewrite Zminus_mod_idemp_l. replace (num_flows p + 1 - 1) with (num_flows p) by lia. by apply u32_id.
Qed.

Lemma free_ages_user actions k l : free_ages (((fun a => Some (HwAct a)) <$> actions) ++ k) l = free_ages k l.
Proof. induction actions as [|a actions IH]; [done|exact IH]. Qed.

(** Destroying a hardware rule that is reserved. *)
Lemma destroy_reserved p hp attr pat actions tmo rest (d : D) :
  hw_heap p !! hp = Some (reserved_flow room attr pat actions tmo hp) -> (length actions + 2 <= room (length actions + 1))%nat ->
  p_mem p = [BAge hp; BNewActions hp; BActions hp; BPattern hp; BAttr hp] ++ rest ->
  hw_offload_flow_destroy (Some hp) p d =
  Ret (0, set_heaps (flow_heap p) (delete hp (hw_heap p)) (set_mem ([BActions hp; BAttr hp] ++ rest) p), d).
Proof.
  intros Hh Hroom Hmem. unfold hw_offload_flow_destroy. cbn [deref mbind cres_mbind]. rewrite Hh.
  cbn [deref mbind cres_mbind reserved_flow hf_actions offloaded].
  assert (count_actions (aged_actions room actions tmo hp) = Ret (length actions + 1)%nat) as ->.
  { apply count_app. by replace (_ - _ - 1)%nat with (S (room (length actions + 1) - length actions - 2))%nat by lia. }
  cbn [mbind cres_mbind]. unfold aged_actions. rewrite take_app_ge by (rewrite length_fmap; lia).
  rewrite free_ages_user, length_fmap. replace (length actions + 1 - length actions)%nat with 1%nat by lia.
  rewrite Hmem. cbn [take free_ages foldl app free_block]. rewrite decide_True by done.
  rewrite take_0. cbn [foldl free_block]. rewrite decide_True by done. cbn [free_block]. rewrite decide_False by done. by rewrite decide_True.
Qed.

(** C19. Creating a flow and destroying it. With hardware offload enabled, a
    flow that is created and destroyed again before a packet has matched it
    leaves the driver uncalled, and the lists, the ACL rules, the flows, the
    hardware rules and the counts as before, and the cell of the rule is the
    next to be used; but three blocks of memory are never freed, the parsed
    flow, the attributes and the copy of the actions. When the allocator gives
    no more than it is asked for, the creation writes behind the array of
    actions; and with hardware offload disabled, [dao_flow_destroy] follows
    the null pointer of a hardware rule that was never reserved. *)
Theorem create_destroy free i p prio attr pat flow actions rp fp hp (d : D) :
  (forall n, n <= room n)%nat ->
  acl_inv (i :: free) (acl_tbl p) -> heap (acl_tbl p) !! rp = None -> accepts (acl_tbl p) (new_rule (acl_tbl p) prio flow i) ->
  (forall t : acl_table X, rules t = rules (acl_tbl p) ++ [new_rule (acl_tbl p) prio flow i] -> retakes t) ->
  flow_parse (p_parser p) true (Some attr) (Some pat) = Ret (Some flow) ->
  (list_initialized p = false -> p_flows p = []) -> Forall (fun fd => fd_flow fd <> fp) (p_flows p) ->
  flow_heap p !! fp = None -> hw_heap p !! hp = None -> is_u32 (num_flows p) -> is_u32 (num_rules_per_prt p) ->
  let create := dao_flow_create room (full_mem rp fp hp) prio attr pat actions p in
  if hw_offload_enabled p then
    if (room (length actions + 1) =? length actions + 1)%nat then create = Fault
    else
      exists q q', create = Ret (Some fp, q) /\ dao_flow_destroy (port_id p) fp q d = Ret (0, q', d) /\ acl_inv (i :: free) (acl_tbl q') /\
        rules (acl_tbl q') = rules (acl_tbl p) /\ p_flows q' = p_flows p /\ flow_heap q' = flow_heap p /\ hw_heap q' = hw_heap p /\
        dao_flow_count q' = dao_flow_count p /\ p_mem q' = [BActions hp; BAttr hp; BParsed] ++ p_mem p
  else exists q, create = Ret (Some fp, q) /\ dao_flow_destroy (port_id p) fp q d = Fault.
Proof.
  intros Hge Hinv Hrp Hacc Hret Hparse Hli Hfp Hfh Hhh Hu1 Hu2 create.
  destruct (decide (hw_offload_enabled p = true /\ room (length actions + 1) = length actions + 1)%nat) as [[Hhw Hroom]|Hno].
  { rewrite Hhw, Hroom, Nat.eqb_refl. by apply (create_flow_faults room free i p prio attr pat flow). }
  assert (hw_offload_enabled p = true -> (length actions + 2 <= room (length actions + 1))%nat) as Hroom.
  { intros Hhw. specialize (Hge (length actions + 1)%nat). destruct (decide (room (length actions + 1) = length actions + 1)%nat); [tauto|lia]. }
  destruct (create_flow_ok room free i p prio attr pat flow actions rp fp hp) as
    (t & Hcr & Hinv' & _ & Hlist & Hrules & Hheap & _ & _); try done.
  destruct (flow_remove_created p t i rp fp hp attr pat actions Hli Hfp Hfh Hu1) as (E1 & E2 & E3).
  destruct (delete_rule_ok free t rp {| rule := new_rule (acl_tbl p) prio flow i; rule_idx := i; rule_hits := 0 |} (flow_list (acl_tbl p)) [])
    as (t' & Hdel & Hinv'' & _ & Hheap' & _ & _ & Hrules'); [done|by apply Hret|done|by rewrite Hheap, lookup_insert_eq|].
  assert (rules t' = rules (acl_tbl p)) as Hr'.
  { rewrite Hrules'. unfold rules_at at 2. cbn [omap list_omap]. rewrite app_nil_r. apply rules_at_ext. intros x Hx. rewrite Hheap.
    rewrite lookup_insert_ne; [done|]. intros ->. by apply (not_listed _ _ _ Hinv Hrp). }
  assert (dao_flow_destroy (port_id p) fp (created room p t i rp fp hp attr pat actions) d =
    '(rc, q', d') ← hw_offload_flow_destroy (if hw_offload_enabled p then Some hp else None)
      (set_tbl t' (num_rules_per_prt p) (flow_remove fp (created room p t i rp fp hp attr pat actions))) d;
    Ret (if rc =? 0 then 0 else - rc, q', d')) as Hdestroy.
  { unfold dao_flow_destroy. cbn [created flow_heap]. rewrite lookup_insert_eq. cbn [deref mbind cres_mbind df_port df_arule df_hflow].
    rewrite Z.eqb_refl. cbn [negb]. fold (created room p t i rp fp hp attr pat actions).
    change (acl_tbl (flow_remove fp (created room p t i rp fp hp attr pat actions))) with t. rewrite Hdel. cbn [mbind cres_mbind Z.eqb negb].
    change (num_rules_per_prt (flow_remove fp (created room p t i rp fp hp attr pat actions))) with (u32 (num_rules_per_prt p + 1)).
    unfold u32 at 1 2. rewrite Zminus_mod_idemp_l. replace (num_rules_per_prt p + 1 - 1) with (num_rules_per_prt p) by lia.
    change (num_rules_per_prt p mod 0x100000000) with (u32 (num_rules_per_prt p)). by rewrite u32_id. }
  destruct (hw_offload_enabled p) eqn:Hhw; [|by eexists]. rewrite (proj2 (Nat.eqb_neq _ _)) by tauto.
  exists (created room p t i rp fp hp attr pat actions). eexists. split; [done|]. rewrite Hdestroy.
  rewrite (destroy_reserved _ hp attr pat actions (aging_tmo_sec p) (BParsed :: p_mem p)).
  2:{ cbn [set_tbl hw_heap flow_remove set_heaps set_flow_list created]. rewrite Hhw. apply lookup_insert_eq. }
  2:{ auto. }
  2:{ cbn [set_tbl p_mem flow_remove set_heaps set_flow_list created]. by rewrite Hhw. }
  split; [done|]. split; [done|]. split; [done|]. split; [done|]. split; [done|].
  cbn [hw_heap set_heaps set_tbl flow_remove set_flow_list created set_mem p_mem]. rewrite Hhw, delete_insert_id by done.
  split; [done|]. split; [|done]. unfold dao_flow_count. cbn [num_flows hw_num_rules num_rules_per_prt set_heaps set_tbl set_mem]. by rewrite E3.
Qed.
End lifecycle.

(** ** Witnesses

    A driver for port 3 that keeps the handle and the context of each rule,
    and reports every rule as aged. *)
Notation ref_driver := (list (Z * option Z)).

Definition age_context (acts : list (option hw_action)) : option Z :=
  head (omap (fun a => match a with Some (HwAge _ c) => Some c | _ => None end) acts).

Definition fresh_handle (d : ref_driver) : Z := foldr (fun e m => Z.max (e.1 + 1) m) 1 d.

Lemma fresh_handle_new (d : ref_driver) : ~ fresh_handle d ∈ d.*1.
Proof.
  assert (forall h, h ∈ d.*1 -> h < fresh_handle d) as Hlt.
  { induction d as [|e d IH]; intros h Hh; [by apply not_elem_of_nil in Hh|]. cbn in Hh |- *.
    apply elem_of_cons in Hh as [->|Hh]; [lia|]. specialize (IH h Hh). unfold fresh_handle in IH. lia. }
  intros Hin. specialize (Hlt _ Hin). lia.
Qed.

Lemma filter_fst h (d : ref_driver) : (filter (fun e => e.1 <> h) d).*1 = filter (fun x => x <> h) d.*1.
Proof.
  induction d as [|[k c] d IH]; [done|]. rewrite fmap_cons. destruct (decide (k = h)) as [->|Hne].
  - rewrite filter_cons_False by (cbn; tauto). by rewrite filter_cons_False by (cbn; tauto).
  - rewrite filter_cons_True by done. rewrite filter_cons_True by done. rewrite fmap_cons. by f_equal.
Qed.

#[local] Existing Instance wit_acl.
#[local] Existing Instance wit_acl_laws.

#[local] Instance wit_driver : RteFlow ref_driver := {
  rte_flow_validate i _ _ _ _ := if i =? 3 then 0 else - EINVAL;
  rte_flow_create i _ _ acts d := if i =? 3 then (Some (fresh_handle d), d ++ [(fresh_handle d, age_context acts)]) else (None, d);
  rte_flow_destroy i h d := if i =? 3 then (0, filter (fun e => e.1 <> h) d) else (- EINVAL, d);
  rte_flow_flush i d := if i =? 3 then (0, []) else (- EINVAL, d);
  rte_flow_query i _ _ := if i =? 3 then (0, 7) else (- EINVAL, 0);
  rte_flow_get_aged_flows i d := if i =? 3 then (Z.of_nat (length d), Some (d.*2)) else (0, Some []);
  pflow_cam_idx h _ := h;
  pflow_ctr_idx _ _ := None;
  hw_rules d i := if i =? 3 then d.*1 else [];
}.

#[local] Instance wit_driver_laws : RteFlowLaws ref_driver.
Proof.
  split; cbn.
  - intros i _ _ acts d h d' Hc. destruct (Z.eqb_spec i 3) as [->|]; [|done]. injection Hc as <- <-.
    split; [apply fresh_handle_new|]. split; [by rewrite fmap_app|]. intros j Hj. by rewrite (proj2 (Z.eqb_neq j 3)).
  - intros i _ _ acts d d' Hc j. destruct (i =? 3); [done|]. by injection Hc as <-.
  - intros i h d d' Hd. destruct (Z.eqb_spec i 3) as [->|]; [|done]. injection Hd as <-. cbn.
    split; [|intros j Hj; by rewrite (proj2 (Z.eqb_neq j 3))].
    apply filter_fst.
  - intros i h d rc d' Hd Hrc j. destruct (i =? 3); injection Hd as <- <-; done.
  - intros i d d' Hd. destruct (Z.eqb_spec i 3) as [->|]; [|done]. injection Hd as <-. split; [done|].
    intros j Hj. by rewrite (proj2 (Z.eqb_neq j 3)).
Qed.

Definition wit_cells0 : list acl_actions := [set_index 1 action0; set_index 2 action0; set_index NO_INDEX action0].

Lemma wit_inv0 : acl_inv [1; 2] (wit_table 0 wit_cells0).
Proof. wit_inv. Qed.

(** Port 3 with the OVS profile and no flow. *)
Definition wit_port (hw : bool) : port ref_acl :=
  {| port_id := 3; list_initialized := false; num_flows := 0; hw_offload_enabled := hw; aging_tmo_sec := 20;
     p_parser := flow_parser_init ovs_kex_profile; p_flows := []; acl_tbl := wit_table 0 wit_cells0; num_rules_per_prt := 0;
     hw_port_id := 0; hw_num_rules := 0; hw_aging_tmo_sec := 0; flow_heap := ∅; hw_heap := ∅; p_mem := [] |}.

Definition wit_attr : flow_attr := {| ingress := true; egress := false; transfer := false |}.

Lemma wit_rule_ok : FlowMatch.rule_ok wit_rule_vxlan.
Proof. apply rule_okb_ok. vm_compute. reflexivity. Qed.

Lemma wit_packet_bytes vni : (vni = 2 \/ vni = 3) -> bytes (wit_packet vni) /\ (112 <= length (wit_packet vni))%nat.
Proof. intros [->| ->]; (split; [apply bytes_okb|apply Nat.leb_le]; vm_compute; reflexivity). Qed.

Lemma wit_accepts hw : accepts (acl_tbl (wit_port hw)) (new_rule (acl_tbl (wit_port hw)) 0 (compiled wit_rule_vxlan) 1).
Proof. split; [discriminate|]. split; [|reflexivity]. intros x Hx. cbn. cbn in Hx. rewrite Hx. reflexivity. Qed.

Lemma wit_headers : headers_agree wit_rule_vxlan (wit_packet 2) /\ ~ headers_agree wit_rule_vxlan (wit_packet 3).
Proof.
  split; [|exact wit_vni]. destruct (wit_packet_bytes 2 ltac:(auto)) as [Hb Hl].
  apply (compiled_agrees _ _ _ 0 1 1 wit_rule_ok Hb (wit_scope 2 ltac:(auto)) (ovs_key_spec _ Hb Hl)). vm_compute. reflexivity.
Qed.

(** A burst of a packet of the tunnel and one of another. *)
Definition wit_pair : list (mbuf (list Z)) :=
  [{| fdir := false; hash_hi := 0; pkt := wit_packet 2 |}; {| fdir := false; hash_hi := 0; pkt := wit_packet 3 |}].


(** The same port with a reserved flow. *)
Definition wit_hflow : hw_offload_flow :=
  reserved_flow (fun n => n + 4)%nat wit_attr (rule_pattern wit_rule_vxlan) [ActMark 9] 20 300.

Definition wit_dao_flow : dao_flow := {| df_arule := Some 101; df_hflow := Some 300; df_port := 3; df_tbl := 0 |}.

Definition wit_flow_port : port ref_acl :=
  {| port_id := 3; list_initialized := true; num_flows := 1; hw_offload_enabled := true; aging_tmo_sec := 20;
     p_parser := flow_parser_init ovs_kex_profile; p_flows := [{| fd_flow := 200; acl_rule_idx := 1 |}];
     acl_tbl := wit_table 1 wit_cells1; num_rules_per_prt := 1; hw_port_id := 3; hw_num_rules := 0; hw_aging_tmo_sec := 20;
     flow_heap := {[200 := wit_dao_flow]};
     hw_heap := {[300 := wit_hflow]}; p_mem := [BAge 300; BNewActions 300; BActions 300; BPattern 300; BAttr 300; BParsed] |}.

Lemma wit_listed : listed wit_flow_port [] {| fd_flow := 200; acl_rule_idx := 1 |} []
  wit_dao_flow 101 300.
Proof. split; [reflexivity|constructor|reflexivity|split; [reflexivity|by eexists]|reflexivity]. Qed.

Lemma wit_takes d : driver_takes wit_flow_port wit_hflow d (fresh_handle d) (d ++ [(fresh_handle d, Some 300)]).
Proof. split; [reflexivity|]. eexists _, _, _. repeat (split; [reflexivity|]). reflexivity. Qed.

Lemma offload_once_witness :
  exists q q', flow_install_hardware 1 wit_flow_port ([] : ref_driver) = Ret (0, q, [(1, Some 300)]) /\
    flow_install_hardware 1 q ([(1, Some 300)] : ref_driver) = Ret (0, q, [(1, Some 300)]) /\
    hw_offload_flow_destroy (Some 300) q ([(1, Some 300)] : ref_driver) = Ret (0, q', []) /\ hw_num_rules q' = 0.
Proof.
  destruct (offload_once wit_flow_port [] {| fd_flow := 200; acl_rule_idx := 1 |} [] wit_dao_flow 101 300 wit_hflow
    (aged_actions (fun n => n + 4)%nat [ActMark 9] 20 300) 2 ([] : ref_driver) [(1, Some 300)] [] 1)
    as (q & q' & H1 & _ & _ & _ & H2 & H3 & _ & H4 & _).
  - exact wit_listed.
  - reflexivity.
  - exact (wit_takes []).
  - unfold is_u32. cbn. lia.
  - reflexivity.
  - reflexivity.
  - reflexivity.
  - exists q, q'. auto.
Defined.

Lemma aged_flow_counted_twice_witness :
  exists q1 q2 q3, flow_install_hardware 1 wit_flow_port ([] : ref_driver) = Ret (0, q1, [(1, Some 300)]) /\
    query_aged_flows 0 true q1 ([(1, Some 300)] : ref_driver) = Ret (0, q2, []) /\
    flow_install_hardware 1 q2 ([] : ref_driver) = Ret (0, q3, [(1, Some 300)]) /\ hw_num_rules q3 = 2.
Proof.
  destruct (aged_flow_counted_twice wit_flow_port [] {| fd_flow := 200; acl_rule_idx := 1 |} [] wit_dao_flow 101 300 wit_hflow 0
    ([] : ref_driver) [(1, Some 300)] [] [(1, Some 300)] 1 1) as (q1 & q2 & q3 & H1 & H2 & _ & H3 & _ & H4).
  - exact wit_listed.
  - reflexivity.
  - reflexivity.
  - exact (wit_takes []).
  - reflexivity.
  - reflexivity.
  - exact (wit_takes []).
  - exists q1, q2, q3. auto.
Defined.

Lemma create_destroy_witness :
  (exists q q', dao_flow_create (fun n => n + 4)%nat (full_mem 100 200 300) 0 wit_attr (rule_pattern wit_rule_vxlan) [ActMark 9] (wit_port true)
      = Ret (Some 200, q) /\ dao_flow_destroy 3 200 q ([] : ref_driver) = Ret (0, q', []) /\ dao_flow_count q' = (0, 0, 0) /\
      p_mem q' = [BActions 300; BAttr 300; BParsed]) /\
  exists q, dao_flow_create (fun n => n + 4)%nat (full_mem 100 200 300) 0 wit_attr (rule_pattern wit_rule_vxlan) [ActMark 9] (wit_port false)
      = Ret (Some 200, q) /\ dao_flow_destroy 3 200 q ([] : ref_driver) = Fault.
Proof.
  assert (forall hw (t : acl_table ref_acl), rules t = rules (acl_tbl (wit_port hw)) ++ [new_rule (acl_tbl (wit_port hw)) 0 (compiled wit_rule_vxlan) 1] ->
    retakes t) as Hre.
  { intros hw t Ht. split; [|reflexivity]. intros r x Hs. apply sublist_length in Hs. rewrite Ht, length_app in Hs.
    change (length (rules (acl_tbl (wit_port hw)) ++ _)) with 1%nat in Hs. cbn in Hs |- *.
    rewrite (proj2 (Z.leb_gt _ _)) by lia. reflexivity. }
  assert (forall hw, _) as Hthm by
    exact (fun hw => create_destroy (fun n => n + 4)%nat [2] 1 (wit_port hw) 0 wit_attr (rule_pattern wit_rule_vxlan) (compiled wit_rule_vxlan)
      [ActMark 9] 100 200 300 ([] : ref_driver) ltac:(intros n; cbn; lia) wit_inv0 eq_refl (wit_accepts hw) (Hre hw)
      (flow_parse_ok wit_rule_vxlan wit_attr wit_rule_ok eq_refl) (fun _ => eq_refl) (Forall_nil_2 _) eq_refl eq_refl
      ltac:(unfold is_u32; cbn; lia) ltac:(unfold is_u32; cbn; lia)).
  split.
  - destruct (Hthm true) as (q & q' & H1 & H2 & _ & _ & _ & _ & _ & H3 & H4). exists q, q'. auto.
  - destruct (Hthm false) as (q & H1 & H2). exists q. auto.
Defined.
