(* ===== verification/CtrlDma.v ===== *)
(** * DMA of the control path

    The control path of a virtio device copies single pieces between host
    memory and local memory on the channels [dao_dma_ctrl_dev2mem] and
    [dao_dma_ctrl_mem2dev], and waits for each copy with a timeout
    (lib/virtio/virtio_dev.c, lib/virtio_net/virtio_netdev.c). *)
From stdpp Require Import base option list numbers.
From S2P Require Import Prelude Rte.

Local Open Scope Z_scope.

(** ** Memory: a byte for every address *)

Definition memory : Type := Z -> Z.

Definition read_bytes (m : memory) (a n : Z) : list Z := m <$> seqZ a n.

Definition write_bytes (m : memory) (a : Z) (l : list Z) : memory := fun x =>
  if (a <=? x) && (x <? a + Z.of_nat (length l)) then default 0 (l !! Z.to_nat (x - a)) else m x.

(** Little-endian words. *)
Definition le (l : list Z) : Z := foldr (fun b v => b + 256 * v) 0 l.

Fixpoint to_le (n : nat) (v : Z) : list Z := match n with O => [] | S n => v mod 256 :: to_le n (v / 256) end.

Definition read64 (m : memory) (a : Z) : Z := le (read_bytes m a 8).

Definition write64 (m : memory) (a v : Z) : memory := write_bytes m a (to_le 8 v).

(** ** The two channels

    Copies complete in the order of submission, and their effect is there when
    they complete. A copy from the host gathers pieces into one local buffer. *)
Record dma_read := { rd_src : list (Z * Z); rd_dst : Z }.
Record dma_write := { wr_src : Z; wr_dst : Z; wr_len : Z }.

Record dmaw := {
  host : memory;
  local : memory;
  rd_out : list dma_read;
  wr_out : list dma_write;
  submissions : nat;
  polls : nat;
}.

(** The bytes of the pieces. *)
Definition gather (m : memory) (l : list (Z * Z)) : list Z := l ≫= (fun s => read_bytes m s.1 s.2).

Definition with_local (m : memory) (w : dmaw) : dmaw :=
  {| host := host w; local := m; rd_out := rd_out w; wr_out := wr_out w; submissions := submissions w; polls := polls w |}.

Section channels.
(** What [rte_dma_copy] returns for the n-th submission, negative when the
    channel is full, and whether the n-th poll finds the oldest copy done. *)
Context (submit_rc : nat -> Z) (ready : nat -> bool).

Definition submit_read (src : list (Z * Z)) (dst : Z) (w : dmaw) : Z * dmaw :=
  let rc := submit_rc (submissions w) in
  (rc, {| host := host w; local := local w; rd_out := if rc <? 0 then rd_out w else rd_out w ++ [{| rd_src := src; rd_dst := dst |}];
          wr_out := wr_out w; submissions := S (submissions w); polls := polls w |}).

Definition submit_write (src dst len : Z) (w : dmaw) : Z * dmaw :=
  let rc := submit_rc (submissions w) in
  (rc, {| host := host w; local := local w; rd_out := rd_out w;
          wr_out := if rc <? 0 then wr_out w else wr_out w ++ [{| wr_src := src; wr_dst := dst; wr_len := len |}];
          submissions := S (submissions w); polls := polls w |}).

(** [rte_dma_completed] of at most one copy. *)
Definition poll_read (w : dmaw) : bool * dmaw :=
  let tick h l o := {| host := h; local := l; rd_out := o; wr_out := wr_out w; submissions := submissions w; polls := S (polls w) |} in
  match rd_out w with
  | op :: rest =>
      if ready (polls w) then (true, tick (host w) (write_bytes (local w) (rd_dst op) (gather (host w) (rd_src op))) rest)
      else (false, tick (host w) (local w) (rd_out w))
  | [] => (false, tick (host w) (local w) [])
  end.

Definition poll_write (w : dmaw) : bool * dmaw :=
  let tick h o := {| host := h; local := local w; rd_out := rd_out w; wr_out := o; submissions := submissions w; polls := S (polls w) |} in
  match wr_out w with
  | op :: rest =>
      if ready (polls w) then (true, tick (write_bytes (host w) (wr_dst op) (read_bytes (local w) (wr_src op) (wr_len op))) rest)
      else (false, tick (host w) (wr_out w))
  | [] => (false, tick (host w) [])
  end.

Definition VIRTIO_DMA_TMO_MS : nat := 3000.

(** [do ... while (cnt != 1)]: the poll with which the time is up is not
    looked at. *)
Fixpoint wait (poll : dmaw -> bool * dmaw) (tmo_ms : nat) (w : dmaw) : bool * dmaw :=
  match tmo_ms with
  | O => (false, w)
  | S tmo_ms =>
      let '(cnt, w) := poll w in
      match tmo_ms with O => (false, w) | S _ => if cnt then (true, w) else wait poll tmo_ms w end
  end.

Definition wait_read (w : dmaw) : bool * dmaw := wait poll_read VIRTIO_DMA_TMO_MS w.
Definition wait_write (w : dmaw) : bool * dmaw := wait poll_write VIRTIO_DMA_TMO_MS w.

(** ** A copy that is waited for *)

(** The channels take every copy, and complete one within the time. *)
Record dma_works : Prop := {
  dw_submit : forall n, 0 <= submit_rc n;
  dw_ready : forall n, exists k, (k < 2999)%nat /\ ready (n + k) = true;
}.

Definition idle (w : dmaw) : Prop := rd_out w = [] /\ wr_out w = [].

Lemma wait_ready poll (f : dmaw -> dmaw) (inv : dmaw -> Prop) : (forall w, inv w -> ready (polls w) = true -> poll w = (true, f w)) ->
  (forall w, inv w -> ready (polls w) = false -> exists w', poll w = (false, w') /\ inv w' /\ polls w' = S (polls w)) ->
  forall k tmo w, inv w -> ready (polls w + k) = true -> (k + 1 < tmo)%nat -> exists w', inv w' /\ wait poll tmo w = (true, f w').
Proof.
  intros Hyes Hno k. induction k as [|k IH]; intros tmo w Hw Hk Ht; (destruct tmo as [|[|tmo]]; [lia|lia|]); cbn [wait];
    destruct (ready (polls w)) eqn:Hr.
  - rewrite (Hyes w Hw Hr). by exists w.
  - by rewrite Nat.add_0_r, Hr in Hk.
  - rewrite (Hyes w Hw Hr). by exists w.
  - destruct (Hno w Hw Hr) as (w' & -> & Hw' & Hp). destruct (IH (S tmo) w' Hw') as (w'' & ?); [|lia|by exists w''].
    by rewrite Hp, Nat.add_succ_l, <- Nat.add_succ_r.
Qed.

(** A copy from the host on idle channels arrives. *)
Lemma read_works src dst w : dma_works -> idle w -> exists rc w1 w', submit_read src dst w = (rc, w1) /\ 0 <= rc /\
  wait_read w1 = (true, w') /\ idle w' /\ host w' = host w /\ local w' = write_bytes (local w) dst (gather (host w) src).
Proof.
  intros [Hs Hr] [Hrd Hwr]. pose proof (Hs (submissions w)) as Hrc. unfold submit_read. rewrite (proj2 (Z.ltb_ge _ _)) by done. rewrite Hrd.
  set (w1 := {| host := host w; local := _; rd_out := _; wr_out := _; submissions := _; polls := _ |}).
  set (inv := fun x => host x = host w /\ local x = local w /\ wr_out x = [] /\ rd_out x = [{| rd_src := src; rd_dst := dst |}]).
  destruct (Hr (polls w1)) as (k & Hk & Hrk).
  destruct (wait_ready poll_read (fun x => {| host := host x; local := write_bytes (local x) dst (gather (host x) src); rd_out := [];
    wr_out := wr_out x; submissions := submissions x; polls := S (polls x) |}) inv) with (k := k) (tmo := VIRTIO_DMA_TMO_MS) (w := w1)
    as (w' & (E1 & E2 & E3 & E4) & Hw).
  - intros x (_ & _ & _ & Hx) Hy. unfold poll_read. by rewrite Hx, Hy.
  - intros x (H1 & H2 & H3 & Hx) Hy. unfold poll_read. rewrite Hx, Hy. by eexists.
  - by unfold inv, w1.
  - done.
  - unfold VIRTIO_DMA_TMO_MS. lia.
  - eexists _, w1, _. split; [done|]. split; [done|]. unfold wait_read. split; [exact Hw|]. split; [by split|]. cbn. by rewrite E1, E2.
Qed.

(** And a copy to the host. *)
Lemma write_works src dst len w : dma_works -> idle w -> exists rc w1 w', submit_write src dst len w = (rc, w1) /\ 0 <= rc /\
  wait_write w1 = (true, w') /\ idle w' /\ local w' = local w /\ host w' = write_bytes (host w) dst (read_bytes (local w) src len).
Proof.
  intros [Hs Hr] [Hrd Hwr]. pose proof (Hs (submissions w)) as Hrc. unfold submit_write. rewrite (proj2 (Z.ltb_ge _ _)) by done. rewrite Hwr.
  set (w1 := {| host := host w; local := _; rd_out := _; wr_out := _; submissions := _; polls := _ |}).
  set (inv := fun x => host x = host w /\ local x = local w /\ rd_out x = [] /\ wr_out x = [{| wr_src := src; wr_dst := dst; wr_len := len |}]).
  destruct (Hr (polls w1)) as (k & Hk & Hrk).
  destruct (wait_ready poll_write (fun x => {| host := write_bytes (host x) dst (read_bytes (local x) src len); local := local x; rd_out := rd_out x;
    wr_out := []; submissions := submissions x; polls := S (polls x) |}) inv) with (k := k) (tmo := VIRTIO_DMA_TMO_MS) (w := w1)
    as (w' & (E1 & E2 & E3 & E4) & Hw).
  - intros x (_ & _ & _ & Hx) Hy. unfold poll_write. by rewrite Hx, Hy.
  - intros x (H1 & H2 & H3 & Hx) Hy. unfold poll_write. rewrite Hx, Hy. by eexists.
  - by unfold inv, w1.
  - done.
  - unfold VIRTIO_DMA_TMO_MS. lia.
  - eexists _, w1, _. split; [done|]. split; [done|]. unfold wait_write. split; [exact Hw|]. split; [by split|]. cbn. by rewrite E1, E2.
Qed.
End channels.

(** ** Reading what was written *)

Lemma length_read m a n : length (read_bytes m a n) = Z.to_nat n.
Proof. unfold read_bytes. by rewrite length_fmap, length_seqZ. Qed.

Lemma lookup_read m a n (k : nat) : (Z.of_nat k < n) -> read_bytes m a n !! k = Some (m (a + Z.of_nat k)).
Proof. intros Hk. unfold read_bytes. rewrite list_lookup_fmap, lookup_seqZ_lt by lia. done. Qed.

Lemma write_at m a l x (k : nat) b : l !! k = Some b -> x = a + Z.of_nat k -> write_bytes m a l x = b.
Proof.
  intros Hk ->. pose proof (lookup_lt_Some _ _ _ Hk). unfold write_bytes.
  rewrite (proj2 (Z.leb_le _ _)), (proj2 (Z.ltb_lt _ _)) by lia. cbn [andb]. replace (Z.to_nat _) with k by lia. by rewrite Hk.
Qed.

Lemma write_out m a l x : x < a \/ a + Z.of_nat (length l) <= x -> write_bytes m a l x = m x.
Proof.
  intros Hx. unfold write_bytes. destruct (Z.leb_spec a x), (Z.ltb_spec x (a + Z.of_nat (length l))); cbn [andb]; try done. lia.
Qed.

Lemma read_ext m m' a n : (forall x, a <= x < a + n -> m' x = m x) -> read_bytes m' a n = read_bytes m a n.
Proof.
  intros Heq. unfold read_bytes. apply list_fmap_ext. intros i x Hx. apply lookup_seqZ in Hx as [-> Hi]. apply Heq. lia.
Qed.

Lemma read_disjoint m a l b n : b + n <= a \/ a + Z.of_nat (length l) <= b -> read_bytes (write_bytes m a l) b n = read_bytes m b n.
Proof. intros Hd. apply read_ext. intros x Hx. apply write_out. lia. Qed.

(** A part of a copy reads as the part of its source. *)
Lemma read_copy m m' a s l o n : l = read_bytes m' s (Z.of_nat (length l)) -> 0 <= o -> o + n <= Z.of_nat (length l) ->
  read_bytes (write_bytes m a l) (a + o) n = read_bytes m' (s + o) n.
Proof.
  intros Hl Ho Hn. apply list_eq. intros k. destruct (decide (Z.of_nat k < n)) as [Hk|Hk].
  - rewrite !lookup_read by done. f_equal. apply (write_at _ _ _ _ (Z.to_nat (o + Z.of_nat k))); [|lia].
    rewrite Hl, lookup_read by lia. f_equal. f_equal. lia.
  - rewrite !lookup_ge_None_2; [done|rewrite length_read; lia..].
Qed.

Lemma read_written m a l : read_bytes (write_bytes m a l) a (Z.of_nat (length l)) = l.
Proof.
  apply list_eq. intros k. destruct (l !! k) as [b|] eqn:Hk.
  - pose proof (lookup_lt_Some _ _ _ Hk). rewrite lookup_read by lia. f_equal. by eapply write_at.
  - apply lookup_ge_None_1 in Hk. apply lookup_ge_None_2. rewrite length_read. lia.
Qed.

(** A part of what was written. *)
Lemma read_part m a l o n : 0 <= o -> 0 <= n -> o + n <= Z.of_nat (length l) ->
  read_bytes (write_bytes m a l) (a + o) n = take (Z.to_nat n) (drop (Z.to_nat o) l).
Proof.
  intros Ho Hn Hl. apply list_eq. intros k. destruct (decide (Z.of_nat k < n)) as [Hk|Hk].
  - rewrite lookup_read, lookup_take_lt, lookup_drop by lia. destruct (lookup_lt_is_Some_2 l (Z.to_nat o + k)) as [b Hb]; [lia|].
    rewrite Hb. f_equal. apply (write_at _ _ _ _ _ _ Hb). lia.
  - rewrite !lookup_ge_None_2; [done|rewrite length_take; lia|rewrite length_read; lia].
Qed.

Lemma read_split m a n k : 0 <= n -> 0 <= k -> read_bytes m a (n + k) = read_bytes m a n ++ read_bytes m (a + n) k.
Proof. intros Hn Hk. unfold read_bytes. rewrite seqZ_app by done. apply fmap_app. Qed.
