(* ===== verification/VirtioNetdev.v ===== *)
(** * The control path of the virtio network device (lib/virtio_net/virtio_netdev.c)

    The callbacks the network device type registers with [VirtioDev]: queues,
    device status, features, and the commands of the control queue. *)
From stdpp Require Import base option list numbers.
From S2P Require Import Prelude Rte VirtioRing VirtioDev CtrlDma.

Local Open Scope Z_scope.

(** ** Constants (lib/virtio/spec, virtio_net_priv.h) *)

Definition VIRTIO_NET_F_CSUM : Z := 0.
Definition VIRTIO_NET_F_GUEST_CSUM : Z := 1.
Definition VIRTIO_NET_F_MTU : Z := 3.
Definition VIRTIO_NET_F_MAC : Z := 5.
Definition VIRTIO_NET_F_HOST_TSO4 : Z := 11.
Definition VIRTIO_NET_F_HOST_TSO6 : Z := 12.
Definition VIRTIO_NET_F_MRG_RXBUF : Z := 15.
Definition VIRTIO_NET_F_STATUS : Z := 16.
Definition VIRTIO_NET_F_CTRL_VQ : Z := 17.
Definition VIRTIO_NET_F_CTRL_RX : Z := 18.
Definition VIRTIO_NET_F_CTRL_VLAN : Z := 19.
Definition VIRTIO_NET_F_MQ : Z := 22.
Definition VIRTIO_NET_F_CTRL_MAC_ADDR : Z := 23.
Definition VIRTIO_NET_F_HASH_REPORT : Z := 57.
Definition VIRTIO_NET_F_GUEST_HDRLEN : Z := 59.
Definition VIRTIO_NET_F_RSS : Z := 60.
Definition VIRTIO_NET_F_SPEED_DUPLEX : Z := 63.
Definition VIRTIO_F_IN_ORDER : Z := 35.

Definition VIRTIO_NET_DEQ_OFFLOAD_CHECKSUM : Z := RTE_BIT64 0.
Definition VIRTIO_NET_DEQ_OFFLOAD_NOINOR : Z := RTE_BIT64 1.
Definition VIRTIO_NET_DEQ_OFFLOAD_GSO : Z := RTE_BIT64 2.
Definition VIRTIO_NET_DEQ_OFFLOAD_LAST : Z := RTE_BIT64 2.
Definition VIRTIO_NET_ENQ_OFFLOAD_NOFF : Z := RTE_BIT64 0.
Definition VIRTIO_NET_ENQ_OFFLOAD_CHECKSUM : Z := RTE_BIT64 1.
Definition VIRTIO_NET_ENQ_OFFLOAD_MSEG : Z := RTE_BIT64 2.
Definition VIRTIO_NET_ENQ_OFFLOAD_HASH_REPORT : Z := RTE_BIT64 3.
Definition VIRTIO_NET_ENQ_OFFLOAD_LAST : Z := RTE_BIT64 3.
Definition VIRTIO_NET_DESC_MANAGE_NOINORDER : Z := RTE_BIT64 0.
Definition VIRTIO_NET_DESC_MANAGE_MSEG : Z := RTE_BIT64 1.
Definition VIRTIO_NET_DESC_MANAGE_EXTBUF : Z := RTE_BIT64 2.
Definition VIRTIO_NET_DESC_MANAGE_LAST : Z := RTE_BIT64 2.

Definition DAO_HASH_REPORT_INDEX_MAX : Z := 256.
Definition RING_EVENT_FLAGS_DISABLE : Z := 1.
Definition ENOTSUP : Z := 95.

Definition VIRTIO_NET_ERR : Z := 1.
Definition VIRTIO_NET_CTRL_RX : Z := 0.
Definition VIRTIO_NET_CTRL_RX_PROMISC : Z := 0.
Definition VIRTIO_NET_CTRL_RX_ALLMULTI : Z := 1.
Definition VIRTIO_NET_CTRL_MAC : Z := 1.
Definition VIRTIO_NET_CTRL_MAC_TABLE_SET : Z := 0.
Definition VIRTIO_NET_CTRL_MAC_ADDR_SET : Z := 1.
Definition VIRTIO_NET_CTRL_VLAN : Z := 2.
Definition VIRTIO_NET_CTRL_VLAN_ADD : Z := 0.
Definition VIRTIO_NET_CTRL_VLAN_DEL : Z := 1.
Definition VIRTIO_NET_CTRL_MQ : Z := 4.
Definition VIRTIO_NET_CTRL_MQ_VQ_PAIRS_SET : Z := 0.
Definition VIRTIO_NET_CTRL_MQ_RSS_CONFIG : Z := 1.

Definition VIRTIO_NET_ETHER_ADDR_LEN : Z := 6.

(** Of DPDK: the size of an mbuf and its headroom, the packet types. *)
Definition SIZEOF_RTE_MBUF : Z := 128.
Definition RTE_PKTMBUF_HEADROOM : Z := 128.
Definition RTE_PTYPE_L3_IPV4 : Z := 0x10.
Definition RTE_PTYPE_L3_IPV4_EXT : Z := 0x30.
Definition RTE_PTYPE_L3_IPV6 : Z := 0x40.
Definition RTE_PTYPE_L3_IPV4_EXT_UNKNOWN : Z := 0x90.
Definition RTE_PTYPE_L3_IPV6_EXT : Z := 0xc0.
Definition RTE_PTYPE_L3_IPV6_EXT_UNKNOWN : Z := 0xe0.
Definition RTE_PTYPE_L4_TCP : Z := 0x100.
Definition RTE_PTYPE_L4_UDP : Z := 0x200.

(** [bits & RTE_BIT64(n)] *)
Definition has_bit (bits n : Z) : bool := negb (Z.land bits (RTE_BIT64 n) =? 0).

(** [x &= ~bits] and [x |= bits] on a 16-bit function id. *)
Definition clear16 (bits x : Z) : Z := u16 (Z.land x (Z.lnot bits)).
Definition set16 (b : bool) (bits x : Z) : Z := if b then u16 (Z.lor x bits) else x.

(** ** State *)

(** [struct virtio_net_queue], the fields the control path sets; the shadow
    ring is at [nq_sd_base], and [nq_cb_notify] is the word at
    [cb_notify_addr]. *)
Record net_queue := {
  nq_desc_base : Z;
  nq_q_sz : Z;
  nq_buf_len : Z;
  nq_data_off : Z;
  nq_notify_addr : Z;
  nq_sd_desc_off : Z;
  nq_sd_mbuf_off : Z;
  nq_last_off : Z;
  nq_compl_off : Z;
  nq_auto_free : bool;
  nq_qid : Z;
  nq_dma_vchan : Z;
  nq_hdr_sz : Z;
  nq_driver_area : Z;
  nq_sd_base : Z;
  nq_cb_intr_addr : Z;
  nq_cb_notify_addr : Z;
  nq_cb_notify : option Z;
}.

(** A mempool: [elt_size] and the private size of its mbufs. *)
Record mempool := { elt_size : Z; mbuf_priv_size : Z }.

(** [struct virtio_netdev] and [struct dao_virtio_netdev] with the interrupt
    addresses of [struct virtio_dev]. The two arrays of queues are written
    together and are one here; [nd_extbuf] is the flag
    [DAO_VIRTIO_NETDEV_EXTBUF]. *)
Record netdev := {
  nd_id : Z;
  nd_dma_vchan : Z;
  nd_extbuf : bool;
  nd_pool : option mempool;
  nd_dataroom : Z;
  nd_auto_free : bool;
  nd_intrs : list Z;
  nb_cb_intrs : Z;
  vq_pairs_set : Z;
  hash_report : list Z;
  qs : list (option net_queue);
  deq_fn_id : Z;
  enq_fn_id : Z;
  mgmt_fn_id : Z;
}.

Definition set_pairs (n : Z) (nd : netdev) : netdev :=
  {| nd_id := nd_id nd; nd_dma_vchan := nd_dma_vchan nd; nd_extbuf := nd_extbuf nd; nd_pool := nd_pool nd; nd_dataroom := nd_dataroom nd;
     nd_auto_free := nd_auto_free nd; nd_intrs := nd_intrs nd; nb_cb_intrs := nb_cb_intrs nd; vq_pairs_set := n;
     hash_report := hash_report nd; qs := qs nd; deq_fn_id := deq_fn_id nd; enq_fn_id := enq_fn_id nd; mgmt_fn_id := mgmt_fn_id nd |}.

Definition set_report (r : list Z) (nd : netdev) : netdev :=
  {| nd_id := nd_id nd; nd_dma_vchan := nd_dma_vchan nd; nd_extbuf := nd_extbuf nd; nd_pool := nd_pool nd; nd_dataroom := nd_dataroom nd;
     nd_auto_free := nd_auto_free nd; nd_intrs := nd_intrs nd; nb_cb_intrs := nb_cb_intrs nd; vq_pairs_set := vq_pairs_set nd;
     hash_report := r; qs := qs nd; deq_fn_id := deq_fn_id nd; enq_fn_id := enq_fn_id nd; mgmt_fn_id := mgmt_fn_id nd |}.

Definition set_qs (l : list (option net_queue)) (nd : netdev) : netdev :=
  {| nd_id := nd_id nd; nd_dma_vchan := nd_dma_vchan nd; nd_extbuf := nd_extbuf nd; nd_pool := nd_pool nd; nd_dataroom := nd_dataroom nd;
     nd_auto_free := nd_auto_free nd; nd_intrs := nd_intrs nd; nb_cb_intrs := nb_cb_intrs nd; vq_pairs_set := vq_pairs_set nd;
     hash_report := hash_report nd; qs := l; deq_fn_id := deq_fn_id nd; enq_fn_id := enq_fn_id nd; mgmt_fn_id := mgmt_fn_id nd |}.

Definition set_fn_ids (deq enq mgmt : Z) (nd : netdev) : netdev :=
  {| nd_id := nd_id nd; nd_dma_vchan := nd_dma_vchan nd; nd_extbuf := nd_extbuf nd; nd_pool := nd_pool nd; nd_dataroom := nd_dataroom nd;
     nd_auto_free := nd_auto_free nd; nd_intrs := nd_intrs nd; nb_cb_intrs := nb_cb_intrs nd; vq_pairs_set := vq_pairs_set nd;
     hash_report := hash_report nd; qs := qs nd; deq_fn_id := deq; enq_fn_id := enq; mgmt_fn_id := mgmt |}.

(** ** What the device calls

    [struct dao_virtio_netdev_cbs]: the callbacks of the application, which
    may be missing, and which are given the device they can query; and the
    operations of the datapath that drain a queue. *)
Record netdev_cbs {U : Type} := {
  status_cb : option (netdev -> Z -> U -> Z * U);
  rss_cb : option (netdev -> option (list Z) -> U -> Z * U);
  promisc_cb : option (netdev -> Z -> U -> Z * U);
  allmulti_cb : option (netdev -> Z -> U -> Z * U);
  mac_set : option (netdev -> list Z -> U -> Z * U);
  mac_add : option (netdev -> list Z -> Z -> U -> Z * U);
  mq_configure : option (netdev -> bool -> U -> Z * U);
  vlan_add : option (netdev -> Z -> U -> Z * U);
  vlan_del : option (netdev -> Z -> U -> Z * U);
  dma_compl_wait : Z -> U -> U;
  flush_enq : bool -> net_queue -> U -> U;
  flush_deq : bool -> net_queue -> U -> U;
}.
Arguments netdev_cbs : clear implicits.

(** ** Features *)

Definition virtio_netdev_feature_validate (dev : virtio_dev) (bits : Z) : Z :=
  if negb (Z.lor bits (dev_feature_bits dev) =? dev_feature_bits dev) then - EINVAL else 0.

Definition virtio_netdev_cq_id_get (dev : virtio_dev) (bits : Z) : Z :=
  if has_bit bits VIRTIO_NET_F_MQ then u16 (max_virtio_queues dev - 1) else 2.

(** ** Hash reports *)

(** The blocks of [virtio_hash_types_to_hash_report]: the bit of the hash
    type, the packet types and the report. *)
Definition hash_report_blocks : list (Z * list Z * Z) := [
  (0, [RTE_PTYPE_L3_IPV4; RTE_PTYPE_L3_IPV4_EXT; RTE_PTYPE_L3_IPV4_EXT_UNKNOWN; Z.lor RTE_PTYPE_L3_IPV4 RTE_PTYPE_L4_TCP;
       Z.lor RTE_PTYPE_L3_IPV4 RTE_PTYPE_L4_UDP], 1);
  (1, [Z.lor RTE_PTYPE_L3_IPV4 RTE_PTYPE_L4_TCP], 2);
  (2, [Z.lor RTE_PTYPE_L3_IPV4 RTE_PTYPE_L4_UDP], 3);
  (3, [RTE_PTYPE_L3_IPV6; RTE_PTYPE_L3_IPV6_EXT; RTE_PTYPE_L3_IPV6_EXT_UNKNOWN; Z.lor RTE_PTYPE_L3_IPV6 RTE_PTYPE_L4_TCP;
       Z.lor RTE_PTYPE_L3_IPV6 RTE_PTYPE_L4_UDP; Z.lor RTE_PTYPE_L3_IPV6_EXT_UNKNOWN RTE_PTYPE_L4_TCP;
       Z.lor RTE_PTYPE_L3_IPV6_EXT RTE_PTYPE_L4_UDP], 4);
  (4, [Z.lor RTE_PTYPE_L3_IPV6 RTE_PTYPE_L4_TCP; Z.lor RTE_PTYPE_L3_IPV6_EXT_UNKNOWN RTE_PTYPE_L4_TCP;
       Z.lor RTE_PTYPE_L3_IPV6_EXT RTE_PTYPE_L4_TCP], 5);
  (5, [Z.lor RTE_PTYPE_L3_IPV6 RTE_PTYPE_L4_UDP; Z.lor RTE_PTYPE_L3_IPV6_EXT_UNKNOWN RTE_PTYPE_L4_UDP;
       Z.lor RTE_PTYPE_L3_IPV6_EXT RTE_PTYPE_L4_UDP], 6);
  (6, [RTE_PTYPE_L3_IPV6_EXT; RTE_PTYPE_L3_IPV6_EXT_UNKNOWN; Z.lor RTE_PTYPE_L3_IPV6_EXT RTE_PTYPE_L4_TCP;
       Z.lor RTE_PTYPE_L3_IPV6_EXT_UNKNOWN RTE_PTYPE_L4_TCP; Z.lor RTE_PTYPE_L3_IPV6_EXT RTE_PTYPE_L4_UDP;
       Z.lor RTE_PTYPE_L3_IPV6_EXT_UNKNOWN RTE_PTYPE_L4_UDP], 7);
  (7, [Z.lor RTE_PTYPE_L3_IPV6_EXT RTE_PTYPE_L4_TCP; Z.lor RTE_PTYPE_L3_IPV6_EXT_UNKNOWN RTE_PTYPE_L4_TCP], 8);
  (8, [Z.lor RTE_PTYPE_L3_IPV6_EXT RTE_PTYPE_L4_UDP; Z.lor RTE_PTYPE_L3_IPV6_EXT_UNKNOWN RTE_PTYPE_L4_UDP], 9)].

(** [hash_report[ptype >> 4] = report] for the types of a block. *)
Fixpoint report_types (l : list Z) (report : Z) (r : list Z) : cres (list Z) :=
  match l with
  | [] => Ret r
  | t :: l => r ← cset r (Z.shiftr t 4) report; report_types l report r
  end.

Fixpoint report_blocks (blocks : list (Z * list Z * Z)) (hash_types : Z) (r : list Z) : cres (list Z) :=
  match blocks with
  | [] => Ret r
  | (bit, types, report) :: blocks =>
      r ← (if has_bit hash_types bit then report_types types report r else Ret r);
      report_blocks blocks hash_types r
  end.

Definition virtio_hash_types_to_hash_report (hash_types : Z) : cres (list Z) :=
  report_blocks hash_report_blocks hash_types (replicate (Z.to_nat DAO_HASH_REPORT_INDEX_MAX) 0).

(** ** Commands of the control queue *)

(** [n] bytes of a buffer as an integer. *)
Definition buf_get (l : list Z) (o n : Z) : cres Z :=
  if o + n <=? Z.of_nat (length l) then Ret (le (take (Z.to_nat n) (drop (Z.to_nat o) l))) else Fault.

(** A pointer into a buffer. *)
Definition buf_from (l : list Z) (o : Z) : cres (list Z) :=
  if o <=? Z.of_nat (length l) then Ret (drop (Z.to_nat o) l) else Fault.

(** [struct virtio_net_ctrl_rss]: the offsets of [hash_types] and
    [max_tx_vq]. *)
Definition rss_hash_types (data : list Z) : cres Z := buf_get data 0 4.
Definition rss_max_tx_vq (data : list Z) : cres Z := buf_get data 264 2.

Section commands.
Context {U : Type} (user_cbs : netdev_cbs U).

Definition net_rss_setup (data : list Z) (nd : netdev) (u : U) : cres (Z * netdev * U) :=
  match rss_cb user_cbs with
  | None => Ret (- ENOTSUP, nd, u)
  | Some cb =>
      n ← rss_max_tx_vq data;
      let nd := set_pairs n nd in
      let '(_, u) := cb nd None u in
      let '(ret, u) := cb nd (Some data) u in
      if ret =? 0 then
        types ← rss_hash_types data;
        r ← virtio_hash_types_to_hash_report types;
        Ret (ret, set_report r nd, u)
      else Ret (ret, nd, u)
  end.

Definition net_mq_configure (data : list Z) (nd : netdev) (u : U) : cres (Z * netdev * U) :=
  match mq_configure user_cbs with
  | None => Ret (- ENOTSUP, nd, u)
  | Some cb =>
      nb_qps ← buf_get data 0 2;
      let nd := set_pairs nb_qps nd in
      let '(_, u) := cb nd false u in
      let '(ret, u) := cb nd true u in
      Ret (ret, nd, u)
  end.

(** [net_promisc_setup], [net_allmulti_setup], [net_mac_set], [net_mac_add]: a
    callback, if there is one. *)
Definition call_cb (cb : option (netdev -> U -> Z * U)) (nd : netdev) (u : U) : Z * U :=
  match cb with None => (- ENOTSUP, u) | Some f => f nd u end.

(** [net_vlan_add], [net_vlan_del] *)
Definition net_vlan (cb : option (netdev -> Z -> U -> Z * U)) (data : list Z) (nd : netdev) (u : U) : cres (Z * U) :=
  match cb with
  | None => Ret (- ENOTSUP, u)
  | Some f => tci ← buf_get data 0 2; Ret (f nd tci u)
  end.

(** [VIRTIO_NET_CTRL_MAC_TABLE_SET]: the table of unicast addresses, and
    behind it, if there are enough descriptors, that of multicast addresses. *)
Definition net_mac_table (nb_desc : Z) (data : list Z) (nd : netdev) (u : U) : cres (Z * U) :=
  let add l type := call_cb ((fun f nd => f nd l type) <$> mac_add user_cbs) nd in
  let '(status, u) := add data 0 u in
  if negb (status =? 0) || (nb_desc <? 4) then Ret (status, u)
  else
    entries ← buf_get data 0 4;
    mc ← buf_from data (4 + u32 (entries * VIRTIO_NET_ETHER_ADDR_LEN));
    Ret (add mc 1 u).

(** The commands of [virtio_netdev_cq_cmd_process]: [cmd] is the buffer with
    the class, the command and its data. *)
Definition net_command (nb_desc : Z) (cmd : list Z) (nd : netdev) (u : U) : cres (Z * netdev * U) :=
  class ← cget cmd 0; command ← cget cmd 1;
  let data := drop 2 cmd in
  let keep (r : Z * U) : cres (Z * netdev * U) := Ret (r.1, nd, r.2) in
  if class =? VIRTIO_NET_CTRL_MQ then
    if command =? VIRTIO_NET_CTRL_MQ_RSS_CONFIG then net_rss_setup data nd u
    else if command =? VIRTIO_NET_CTRL_MQ_VQ_PAIRS_SET then net_mq_configure data nd u
    else keep (VIRTIO_NET_ERR, u)
  else if class =? VIRTIO_NET_CTRL_RX then
    if command =? VIRTIO_NET_CTRL_RX_PROMISC then
      v ← buf_get data 0 1; keep (call_cb ((fun f nd => f nd v) <$> promisc_cb user_cbs) nd u)
    else if command =? VIRTIO_NET_CTRL_RX_ALLMULTI then
      v ← buf_get data 0 1; keep (call_cb ((fun f nd => f nd v) <$> allmulti_cb user_cbs) nd u)
    else keep (VIRTIO_NET_ERR, u)
  else if class =? VIRTIO_NET_CTRL_MAC then
    if command =? VIRTIO_NET_CTRL_MAC_ADDR_SET then
      _ ← buf_get data 0 VIRTIO_NET_ETHER_ADDR_LEN;
      keep (call_cb ((fun f nd => f nd (take (Z.to_nat VIRTIO_NET_ETHER_ADDR_LEN) data)) <$> mac_set user_cbs) nd u)
    else if command =? VIRTIO_NET_CTRL_MAC_TABLE_SET then
      r ← net_mac_table nb_desc data nd u; keep r
    else keep (VIRTIO_NET_ERR, u)
  else if class =? VIRTIO_NET_CTRL_VLAN then
    if command =? VIRTIO_NET_CTRL_VLAN_ADD then
      r ← net_vlan (vlan_add user_cbs) data nd u; keep r
    else if command =? VIRTIO_NET_CTRL_VLAN_DEL then
      r ← net_vlan (vlan_del user_cbs) data nd u; keep r
    else keep (VIRTIO_NET_ERR, u)
  else keep (VIRTIO_NET_ERR, u).
End commands.

(** ** Queues *)

Section queues.
Context (submit_rc : nat -> Z) (ready : nat -> bool).

(** [virtio_queue_driver_event_flag]: the flags the driver has in its area. *)
Definition virtio_queue_driver_event_flag (q : net_queue) (w : dmaw) : Z * dmaw :=
  let sd_driver_area := nq_sd_base q + nq_q_sz q * 16 in
  let '(rc, w) := submit_read submit_rc [(nq_driver_area q, 4)] sd_driver_area w in
  if rc <? 0 then (rc, w)
  else
    let '(ok, w) := wait_read ready w in
    if negb ok then (- EFAULT, w) else (le (read_bytes (local w) (sd_driver_area + 2) 2), w).

(** A queue with an interrupt address; its notification word becomes 0. *)
Definition with_intr (addr : Z) (q : net_queue) : net_queue :=
  {| nq_desc_base := nq_desc_base q; nq_q_sz := nq_q_sz q; nq_buf_len := nq_buf_len q; nq_data_off := nq_data_off q;
     nq_notify_addr := nq_notify_addr q; nq_sd_desc_off := nq_sd_desc_off q; nq_sd_mbuf_off := nq_sd_mbuf_off q;
     nq_last_off := nq_last_off q; nq_compl_off := nq_compl_off q; nq_auto_free := nq_auto_free q; nq_qid := nq_qid q;
     nq_dma_vchan := nq_dma_vchan q; nq_hdr_sz := nq_hdr_sz q; nq_driver_area := nq_driver_area q; nq_sd_base := nq_sd_base q;
     nq_cb_intr_addr := addr; nq_cb_notify_addr := nq_notify_addr q + 4; nq_cb_notify := Some 0 |}.

(** The loop of [virtio_netdev_cb_interrupt_conf]: the even queues, with the
    interrupts in turn. *)
Fixpoint interrupt_loop (n : nat) (i intr_idx : Z) (nd : netdev) : cres netdev :=
  match n with
  | O => Ret nd
  | S n =>
      slot ← cget (qs nd) i;
      match slot with
      | None => interrupt_loop n (i + 1) intr_idx nd
      | Some q =>
          if negb (i mod 2 =? 0) then interrupt_loop n (i + 1) intr_idx nd
          else
            addr ← cget (nd_intrs nd) intr_idx;
            l ← cset (qs nd) i (Some (with_intr addr q));
            if nb_cb_intrs nd =? 0 then Fault
            else interrupt_loop n (i + 1) ((intr_idx + 1) mod nb_cb_intrs nd) (set_qs l nd)
      end
  end.

Definition max_vqs (dev : virtio_dev) : Z := u32 (max_virtio_queues dev - 1).

Definition virtio_netdev_cb_interrupt_conf (dev : virtio_dev) (nd : netdev) : cres netdev :=
  interrupt_loop (Z.to_nat (max_vqs dev)) 0 0 nd.

(** [offsetof(padding_reserved) + 2] and [offsetof(num_buffers) + 2] *)
Definition virtio_netdev_hdr_size (dev : virtio_dev) : Z :=
  if negb (features_ok (device_state dev)) then 0
  else if has_bit (feature_bits dev) VIRTIO_NET_F_HASH_REPORT then 20 else 12.

(** The space for packet data in a buffer. *)
Definition buf_room (nd : netdev) : cres Z :=
  if nd_extbuf nd then Ret (nd_dataroom nd)
  else match nd_pool nd with
  | None => Fault
  | Some p => Ret (u16 (u16 (u16 (u16 (elt_size p) - SIZEOF_RTE_MBUF) - RTE_PKTMBUF_HEADROOM) - mbuf_priv_size p))
  end.

(** A queue that is set up from its configuration. *)
Definition new_queue (dev : virtio_dev) (nd : netdev) (q_conf : virtio_queue_conf) (queue_id buf_len sd_base : Z) : net_queue :=
  {| nq_desc_base := Z.lor (Z.shiftl (qc_desc_hi q_conf) 32) (qc_desc_lo q_conf); nq_q_sz := qc_size q_conf; nq_buf_len := buf_len;
     nq_data_off := match nd_pool nd with
                    | Some p => if nd_extbuf nd then 0 else u16 (u16 (SIZEOF_RTE_MBUF + RTE_PKTMBUF_HEADROOM) + mbuf_priv_size p)
                    | None => 0 end;
     nq_notify_addr := u64 (notify_base dev + u64 (queue_id * notify_off_mltpr dev));
     nq_sd_desc_off := u16 (RTE_BIT64 15); nq_sd_mbuf_off := u16 (RTE_BIT64 15); nq_last_off := u16 (RTE_BIT64 15);
     nq_compl_off := u16 (RTE_BIT64 15); nq_auto_free := nd_auto_free nd; nq_qid := queue_id; nq_dma_vchan := nd_dma_vchan nd;
     nq_hdr_sz := virtio_netdev_hdr_size dev; nq_driver_area := Z.lor (Z.shiftl (qc_avail_hi q_conf) 32) (qc_avail_lo q_conf);
     nq_sd_base := sd_base; nq_cb_intr_addr := 0; nq_cb_notify_addr := 0; nq_cb_notify := None |}.

(** [RTE_ALIGN(x, RTE_CACHE_LINE_SIZE)] for a line of 128 bytes. *)
Definition align_line (x : Z) : Z := (x + 127) / 128 * 128.

(** [virtio_netdev_populate_queue_info]: [mem] is the address of the shadow
    ring in the zeroed memory for the queue. *)
Definition virtio_netdev_populate_queue_info (mem : option Z) (dev : virtio_dev) (queue_id : Z) (nd : netdev) (w : dmaw)
  : cres (Z * netdev * dmaw) :=
  if max_vqs dev <=? queue_id then Ret (- EINVAL, nd, w)
  else
    buf_len ← buf_room nd;
    q_conf ← cget (queue_conf dev) queue_id;
    slot ← cget (qs nd) queue_id;
    if (qc_enable q_conf =? 0) || bool_decide (is_Some slot) then Ret (0, nd, w)
    else match mem with
    | None => Ret (- ENOMEM, nd, w)
    | Some sd_base =>
        let shadow_area := align_line (qc_size q_conf * 16 + 8) in
        let w := with_local (write_bytes (local w) sd_base (replicate (Z.to_nat shadow_area) 0)) w in
        let queue := new_queue dev nd q_conf queue_id buf_len sd_base in
        l ← cset (qs nd) queue_id (Some queue);
        let nd := set_qs l nd in
        if driver_ok (device_state dev) then
          let '(event_flag, w) := virtio_queue_driver_event_flag queue w in
          if event_flag <? 0 then Ret (-1, nd, w)
          else
            nd ← (if negb (event_flag =? RING_EVENT_FLAGS_DISABLE) then virtio_netdev_cb_interrupt_conf dev nd else Ret nd);
            Ret (0, nd, w)
        else Ret (0, nd, w)
    end.

(** ** Device status *)

Context {U : Type} (user_cbs : netdev_cbs U).

(** The loop of [virtio_netdev_clear_queue_info]. *)
Fixpoint clear_loop (n : nat) (i : Z) (nd : netdev) (u : U) : cres (netdev * U) :=
  match n with
  | O => Ret (nd, u)
  | S n =>
      slot ← cget (qs nd) i;
      let ext := negb (Z.land (mgmt_fn_id nd) VIRTIO_NET_DESC_MANAGE_EXTBUF =? 0) in
      let u := match slot with
               | None => u
               | Some q => if negb (i mod 2 =? 0) then flush_deq user_cbs ext q u else flush_enq user_cbs ext q u
               end in
      l ← cset (qs nd) i None;
      clear_loop n (i + 1) (set_qs l nd) u
  end.

Definition virtio_netdev_clear_queue_info (dev : virtio_dev) (nd : netdev) (u : U) : cres (netdev * U) :=
  clear_loop (Z.to_nat (max_vqs dev)) 0 nd u.

(** The first queue whose driver wants events; the flags that cannot be
    fetched are passed over. *)
Fixpoint events_wanted (n : nat) (i : Z) (nd : netdev) (w : dmaw) : cres (bool * dmaw) :=
  match n with
  | O => Ret (false, w)
  | S n =>
      slot ← cget (qs nd) i;
      match slot with
      | None => events_wanted n (i + 1) nd w
      | Some q =>
          let '(event_flag, w) := virtio_queue_driver_event_flag q w in
          if event_flag <? 0 then events_wanted n (i + 1) nd w
          else if negb (event_flag =? RING_EVENT_FLAGS_DISABLE) then Ret (true, w)
          else events_wanted n (i + 1) nd w
      end
  end.

(** The functions for the datapath, by the features of driver and device. *)
Definition driver_fn_ids (dev : virtio_dev) (nd : netdev) : netdev :=
  let lo := drv_feature_bits_lo dev in
  let csum := Z.land lo 0xFF in
  let gso := Z.land lo 0xFFFF in
  let tso := has_bit csum VIRTIO_NET_F_CSUM && (has_bit gso VIRTIO_NET_F_HOST_TSO4 || has_bit gso VIRTIO_NET_F_HOST_TSO6) in
  let noinorder := negb (has_bit (feature_bits dev) VIRTIO_F_IN_ORDER) in
  let mrg := has_bit lo VIRTIO_NET_F_MRG_RXBUF in
  let deq := clear16 VIRTIO_NET_DEQ_OFFLOAD_GSO (clear16 VIRTIO_NET_DEQ_OFFLOAD_CHECKSUM (deq_fn_id nd)) in
  let deq := set16 (has_bit csum VIRTIO_NET_F_CSUM) VIRTIO_NET_DEQ_OFFLOAD_CHECKSUM deq in
  let deq := set16 tso VIRTIO_NET_DEQ_OFFLOAD_GSO deq in
  let deq := set16 noinorder VIRTIO_NET_DEQ_OFFLOAD_NOINOR (clear16 VIRTIO_NET_DEQ_OFFLOAD_NOINOR deq) in
  let enq := clear16 VIRTIO_NET_ENQ_OFFLOAD_CHECKSUM (enq_fn_id nd) in
  let enq := set16 (has_bit csum VIRTIO_NET_F_GUEST_CSUM) VIRTIO_NET_ENQ_OFFLOAD_CHECKSUM enq in
  let enq := set16 mrg VIRTIO_NET_ENQ_OFFLOAD_MSEG (clear16 VIRTIO_NET_ENQ_OFFLOAD_MSEG enq) in
  let enq := set16 (has_bit (feature_bits dev) VIRTIO_NET_F_HASH_REPORT) VIRTIO_NET_ENQ_OFFLOAD_HASH_REPORT
               (clear16 VIRTIO_NET_ENQ_OFFLOAD_HASH_REPORT enq) in
  let mgmt := clear16 (Z.lor VIRTIO_NET_DESC_MANAGE_NOINORDER VIRTIO_NET_DESC_MANAGE_MSEG) (mgmt_fn_id nd) in
  let mgmt := set16 noinorder VIRTIO_NET_DESC_MANAGE_NOINORDER mgmt in
  let mgmt := set16 mrg VIRTIO_NET_DESC_MANAGE_MSEG mgmt in
  set_fn_ids deq enq mgmt nd.

(** The first queue there is, whose channel is drained before a reset. *)
Definition first_queue (nd : netdev) : option net_queue := head (omap id (take (Z.to_nat (DAO_VIRTIO_MAX_QUEUES - 1)) (qs nd))).

Definition virtio_netdev_status_cb (dev : virtio_dev) (status : Z) (nd : netdev) (u : U) (w : dmaw) : cres (Z * netdev * U * dmaw) :=
  match status_cb user_cbs with
  | None => Ret (- ENOTSUP, nd, u, w)
  | Some cb =>
      if has_status status VIRTIO_DEV_DRIVER_OK then
        '(cb_enabled, w) ← events_wanted (Z.to_nat (max_virtio_queues dev - 1)) 0 nd w;
        nd ← (if (cb_enabled : bool) then virtio_netdev_cb_interrupt_conf dev nd else Ret nd);
        let nd := driver_fn_ids dev nd in
        let '(rc, u) := cb nd status u in Ret (rc, nd, u, w)
      else if status =? VIRTIO_DEV_RESET then
        let '(rc, u) := cb nd status u in
        let u := match first_queue nd with Some q => dma_compl_wait user_cbs (nq_dma_vchan q) u | None => u end in
        '(nd, u) ← virtio_netdev_clear_queue_info dev nd u;
        Ret (rc, set_pairs 0 nd, u, w)
      else let '(rc, u) := cb nd status u in Ret (rc, nd, u, w)
  end.
End queues.

(** ** Queries *)

Definition dao_virtio_netdev_queue_count (dev : virtio_dev) (nd : netdev) : Z :=
  if negb (has_status (fget device_status (common_cfg dev)) VIRTIO_DEV_DRIVER_OK) then 0
  else if negb (vq_pairs_set nd =? 0) then vq_pairs_set nd * 2 else 2.

Definition dao_virtio_netdev_feature_bits_get (dev : virtio_dev) : Z :=
  if negb (has_status (fget device_status (common_cfg dev)) VIRTIO_DEV_DRIVER_OK) then 0 else feature_bits dev.

(** The feature bits [dao_virtio_netdev_init] offers. *)
Definition netdev_features (reta_size mtu : Z) (csum_en : bool) : Z :=
  let bits l := foldl (fun v b => Z.lor v (RTE_BIT64 b)) 0 l in
  let base := bits [VIRTIO_NET_F_CTRL_VQ; VIRTIO_NET_F_MQ; VIRTIO_NET_F_CTRL_RX; VIRTIO_NET_F_STATUS; VIRTIO_NET_F_MAC;
                    VIRTIO_NET_F_MRG_RXBUF; VIRTIO_NET_F_SPEED_DUPLEX] in
  let v := if reta_size =? 0 then base else Z.lor base (bits [VIRTIO_NET_F_RSS; VIRTIO_NET_F_HASH_REPORT]) in
  let v := Z.lor v (bits [VIRTIO_NET_F_CTRL_MAC_ADDR; VIRTIO_NET_F_CTRL_VLAN]) in
  let v := if mtu =? 0 then v else Z.lor v (bits [VIRTIO_NET_F_MTU]) in
  if csum_en then Z.lor v (bits [VIRTIO_NET_F_CSUM; VIRTIO_NET_F_GUEST_CSUM; VIRTIO_NET_F_HOST_TSO4; VIRTIO_NET_F_HOST_TSO6;
                                 VIRTIO_NET_F_GUEST_HDRLEN]) else v.

(** ** Hash reports: the most specific enabled type *)

(** A packet by its protocols, and the hash types of the virtio standard by
    the packets they hash: those with extension headers ([ht_ex]) and those
    with a transport protocol ([ht_l4]). *)
Inductive ext_hdr := NoExt | Ext | ExtUnknown.
Inductive l4_proto := TCP | UDP.
Record packet := { pk_v6 : bool; pk_ext : ext_hdr; pk_l4 : option l4_proto }.
Record hash_type := { ht_v6 : bool; ht_ex : bool; ht_l4 : option l4_proto }.

#[export] Instance l4_proto_eq_dec : EqDecision l4_proto.
Proof. solve_decision. Defined.

Definition has_ext (e : ext_hdr) : bool := match e with NoExt => false | _ => true end.

Definition hash_applies (t : hash_type) (p : packet) : bool :=
  Bool.eqb (ht_v6 t) (pk_v6 p) && (negb (ht_ex t) || has_ext (pk_ext p)) &&
  match ht_l4 t with None => true | Some x => bool_decide (pk_l4 p = Some x) end.

(** A type for extension headers comes before one without, and of two that
    agree in that the one with a transport protocol. *)
Definition hash_rank (t : hash_type) : nat := (2 * Nat.b2n (ht_ex t) + Nat.b2n (bool_decide (is_Some (ht_l4 t))))%nat.

(** [VIRTIO_NET_HASH_TYPE_*] by its bit, with [VIRTIO_NET_HASH_REPORT_*]. *)
Definition hash_types_all : list (hash_type * (Z * Z)) := [
  ({| ht_v6 := false; ht_ex := false; ht_l4 := None |}, (0, 1));
  ({| ht_v6 := false; ht_ex := false; ht_l4 := Some TCP |}, (1, 2));
  ({| ht_v6 := false; ht_ex := false; ht_l4 := Some UDP |}, (2, 3));
  ({| ht_v6 := true; ht_ex := false; ht_l4 := None |}, (3, 4));
  ({| ht_v6 := true; ht_ex := false; ht_l4 := Some TCP |}, (4, 5));
  ({| ht_v6 := true; ht_ex := false; ht_l4 := Some UDP |}, (5, 6));
  ({| ht_v6 := true; ht_ex := true; ht_l4 := None |}, (6, 7));
  ({| ht_v6 := true; ht_ex := true; ht_l4 := Some TCP |}, (7, 8));
  ({| ht_v6 := true; ht_ex := true; ht_l4 := Some UDP |}, (8, 9))].

(** The report of the enabled type that applies to the packet and that no
    other one precedes; 0 when no enabled type applies. *)
Definition hash_report_of (on : Z -> bool) (p : packet) : Z :=
  let c := List.filter (fun e => on e.2.1 && hash_applies e.1 p) hash_types_all in
  from_option (fun e => e.2.2) 0 (find (fun e => forallb (fun e' => hash_rank e'.1 <=? hash_rank e.1)%nat c) c).

(** The packets that the code leaves without a report although an enabled
    type applies: IPv4 with options and a transport protocol, and two kinds of
    IPv6 packets when [VIRTIO_NET_HASH_TYPE_IPV6] is all that applies. *)
Definition report_left_out (on : Z -> bool) (p : packet) : bool :=
  match p with
  | {| pk_v6 := false; pk_ext := (Ext | ExtUnknown); pk_l4 := Some _ |} => true
  | {| pk_v6 := true; pk_ext := Ext; pk_l4 := Some TCP |} => hash_report_of on p =? 4
  | {| pk_v6 := true; pk_ext := ExtUnknown; pk_l4 := Some UDP |} => hash_report_of on p =? 4
  | _ => false
  end.

(** The entry of a packet, by its [RTE_PTYPE_*]. *)
Definition report_index (p : packet) : Z :=
  let l3 := match pk_v6 p, pk_ext p with
            | false, NoExt => RTE_PTYPE_L3_IPV4 | false, Ext => RTE_PTYPE_L3_IPV4_EXT | false, ExtUnknown => RTE_PTYPE_L3_IPV4_EXT_UNKNOWN
            | true, NoExt => RTE_PTYPE_L3_IPV6 | true, Ext => RTE_PTYPE_L3_IPV6_EXT | true, ExtUnknown => RTE_PTYPE_L3_IPV6_EXT_UNKNOWN
            end in
  let l4 := match pk_l4 p with None => 0 | Some TCP => RTE_PTYPE_L4_TCP | Some UDP => RTE_PTYPE_L4_UDP end in
  Z.shiftr (Z.lor l3 l4) 4.

Definition packets_all : list packet :=
  v ← [false; true]; e ← [NoExt; Ext; ExtUnknown]; l ← [None; Some TCP; Some UDP]; [{| pk_v6 := v; pk_ext := e; pk_l4 := l |}].

(** The table: what each entry is to hold. *)
Definition packet_report (on : Z -> bool) (p : packet) : Z := if report_left_out on p then 0 else hash_report_of on p.
Definition report_ref (on : Z -> bool) (i : Z) : Z :=
  from_option (packet_report on) 0 (find (fun p => report_index p =? i) packets_all).

(** The blocks with the enabled types as a predicate. *)
Fixpoint run_blocks (blocks : list (Z * list Z * Z)) (on : Z -> bool) (r : list Z) : cres (list Z) :=
  match blocks with
  | [] => Ret r
  | (bit, types, report) :: blocks =>
      r ← (if on bit then report_types types report r else Ret r); run_blocks blocks on r
  end.

Lemma report_blocks_run blocks types : forall r on, (forall b, b ∈ (fst ∘ fst <$> blocks) -> on b = has_bit types b) ->
  report_blocks blocks types r = run_blocks blocks on r.
Proof.
  induction blocks as [|[[bit l] v] blocks IH]; intros r on Hon; [done|]. cbn [report_blocks run_blocks].
  rewrite (Hon bit) by (cbn; left). destruct (has_bit types bit).
  - destruct (report_types l v r); cbn; try done. apply IH. intros b Hb. apply Hon. cbn. by right.
  - cbn. apply IH. intros b Hb. apply Hon. cbn. by right.
Qed.

Fixpoint all_bools (n : nat) : list (list bool) :=
  match n with O => [[]] | S n => (cons true <$> all_bools n) ++ (cons false <$> all_bools n) end.

Lemma all_bools_in bs : bs ∈ all_bools (length bs).
Proof.
  induction bs as [|b bs IH]; cbn; [by left|]. apply elem_of_app. destruct b; [left|right]; apply list_elem_of_fmap; by exists bs.
Qed.

Definition on_bools (bs : list bool) (k : Z) : bool := default false (bs !! Z.to_nat k).

(** All combinations of the nine types, compared with the reference. *)
Lemma report_table_checked : forallb (fun bs =>
    match run_blocks hash_report_blocks (on_bools bs) (replicate 256 0) with
    | Ret r => bool_decide (r = report_ref (on_bools bs) <$> seqZ 0 256)
    | _ => false
    end) (all_bools 9) = true.
Proof. vm_compute. reflexivity. Qed.

Lemma hash_report_of_ext on on' p : (forall k, 0 <= k < 9 -> on k = on' k) -> hash_report_of on p = hash_report_of on' p.
Proof.
  intros Hon. unfold hash_report_of. erewrite (List.filter_ext_in (fun e => on e.2.1 && hash_applies e.1 p)); [reflexivity|].
  intros e He. rewrite (Hon e.2.1); [done|].
  assert (Forall (fun e => 0 <= e.2.1 < 9) hash_types_all) as Hall by (repeat constructor; cbn; lia).
  rewrite Forall_forall in Hall. by apply Hall.
Qed.

Lemma report_ref_ext on on' i : (forall k, 0 <= k < 9 -> on k = on' k) -> report_ref on i = report_ref on' i.
Proof.
  intros Hon. unfold report_ref. destruct (find _ _) as [p|]; [|done]. cbn [from_option]. unfold packet_report, report_left_out.
  by rewrite (hash_report_of_ext on on' p).
Qed.

Lemma report_ref_packet on p : report_ref on (report_index p) = packet_report on p.
Proof. unfold report_ref. by destruct p as [[] [] [[]|]]. Qed.

Lemma report_ref_other on i : (forall p, report_index p <> i) -> report_ref on i = 0.
Proof.
  intros Hi. unfold report_ref. destruct (find _ _) as [p|] eqn:E; [|done]. apply find_some in E as [_ E].
  apply Z.eqb_eq in E. by destruct (Hi p).
Qed.

(** C28. The hash report of a packet. [virtio_hash_types_to_hash_report]
    stays inside the table, for any hash types. A packet, given by its
    protocols, gets the report of the enabled hash type of the virtio standard
    that applies to it and precedes all others that do, and no report when
    none applies, with the exceptions of [report_left_out], where the code
    leaves no report: IPv4 with options and TCP or UDP always, TCP over IPv6
    with extensions and UDP over IPv6 with unknown extensions when the type
    IPv6 is the one to report. The entries of all other packet types hold no
    report. *)
Theorem hash_report_most_specific (hash_types : Z) :
  exists r, virtio_hash_types_to_hash_report hash_types = Ret r /\ length r = 256%nat /\
    (forall p, r !! Z.to_nat (report_index p) =
      Some (if report_left_out (has_bit hash_types) p then 0 else hash_report_of (has_bit hash_types) p)) /\
    (forall i, 0 <= i < 256 -> (forall p, report_index p <> i) -> r !! Z.to_nat i = Some 0).
Proof.
  set (bs := has_bit hash_types <$> seqZ 0 9).
  assert (forall k, 0 <= k < 9 -> on_bools bs k = has_bit hash_types k) as Hon.
  { intros k Hk. unfold on_bools, bs. rewrite list_lookup_fmap, lookup_seqZ_lt by lia. cbn. f_equal. lia. }
  assert (virtio_hash_types_to_hash_report hash_types = run_blocks hash_report_blocks (on_bools bs) (replicate 256 0)) as ->.
  { apply report_blocks_run. intros b Hb. apply Hon. cbn in Hb.
    repeat (apply elem_of_cons in Hb as [->|Hb]; [lia|]). by apply not_elem_of_nil in Hb. }
  pose proof report_table_checked as Hall. rewrite forallb_forall in Hall.
  specialize (Hall bs (proj1 (list_elem_of_In _ _) (all_bools_in bs))). cbn beta in Hall.
  destruct (run_blocks hash_report_blocks (on_bools bs) (replicate 256 0)) as [r| |]; try done.
  apply bool_decide_eq_true in Hall as ->. eexists. split; [done|]. split; [by rewrite length_fmap|].
  assert (forall i, 0 <= i < 256 -> (report_ref (on_bools bs) <$> seqZ 0 256) !! Z.to_nat i = Some (report_ref (has_bit hash_types) i)) as Hr.
  { intros i Hi. rewrite list_lookup_fmap, lookup_seqZ_lt by lia. cbn [fmap option_fmap option_map]. f_equal.
    rewrite Z2Nat.id, Z.add_0_l by lia. by apply report_ref_ext. }
  split.
  - intros p. rewrite Hr, report_ref_packet by (by destruct p as [[] [] [[]|]]). done.
  - intros i Hi Hp. by rewrite Hr, report_ref_other.
Qed.

(** ** Starting the device *)

Lemma has_bit_testbit x n : 0 <= n < 64 -> has_bit x n = Z.testbit x n.
Proof. intros Hn. unfold has_bit. by rewrite land_RTE_BIT64, negb_involutive. Qed.

Lemma has_bit_low x n k : 0 <= n < k -> k <= 64 -> has_bit (Z.land x (Z.ones k)) n = Z.testbit x n.
Proof. intros Hn Hk. rewrite has_bit_testbit, Z.land_spec, Z.ones_spec_low by lia. apply andb_true_r. Qed.

(** A device with interrupts, whose function ids are in the tables. *)
Record net_wf (dev : virtio_dev) (nd : netdev) : Prop := {
  nw_qs : length (qs nd) = 129%nat;
  nw_max : 3 <= max_virtio_queues dev <= 129;
  nw_intrs : 1 <= nb_cb_intrs nd <= Z.of_nat (length (nd_intrs nd));
  nw_deq : 0 <= deq_fn_id nd < 8;
  nw_enq : 0 <= enq_fn_id nd < 16;
  nw_mgmt : 0 <= mgmt_fn_id nd < 8;
}.

(** A queue may get an interrupt of the device, and is the same otherwise. *)
Definition same_slot (intrs : list Z) (a b : option net_queue) : Prop :=
  b = a \/ exists q addr, a = Some q /\ addr ∈ intrs /\ b = Some (with_intr addr q).

(** The ids that the features ask for. *)
Definition deq_id (lo bits : Z) : Z :=
  b2z (Z.testbit lo VIRTIO_NET_F_CSUM) + 2 * b2z (negb (Z.testbit bits VIRTIO_F_IN_ORDER)) +
  4 * b2z (Z.testbit lo VIRTIO_NET_F_CSUM && (Z.testbit lo VIRTIO_NET_F_HOST_TSO4 || Z.testbit lo VIRTIO_NET_F_HOST_TSO6)).

Definition enq_id (old lo bits : Z) : Z :=
  old mod 2 + 2 * b2z (Z.testbit lo VIRTIO_NET_F_GUEST_CSUM) + 4 * b2z (Z.testbit lo VIRTIO_NET_F_MRG_RXBUF) +
  8 * b2z (Z.testbit bits VIRTIO_NET_F_HASH_REPORT).

Definition mgmt_id (old lo bits : Z) : Z :=
  b2z (negb (Z.testbit bits VIRTIO_F_IN_ORDER)) + 2 * b2z (Z.testbit lo VIRTIO_NET_F_MRG_RXBUF) + 4 * (old / 4).

Lemma small_cases (n : nat) (P : Z -> bool) x : forallb P (seqZ 0 (Z.of_nat n)) = true -> 0 <= x < Z.of_nat n -> P x = true.
Proof. intros Hall Hx. rewrite forallb_forall in Hall. apply Hall, list_elem_of_In, elem_of_seqZ. lia. Qed.

(** An equation on numbers below [n] by computing all of them. *)
Ltac by_small e n :=
  match goal with |- ?l = ?r =>
    let P := eval pattern e in (l =? r) in
    match P with ?f e => apply Z.eqb_eq; change (f e = true); apply (small_cases n f); [|done] end
  end.

Lemma fn_ids_exact dev nd : net_wf dev nd ->
  deq_fn_id (driver_fn_ids dev nd) = deq_id (drv_feature_bits_lo dev) (feature_bits dev) /\
  enq_fn_id (driver_fn_ids dev nd) = enq_id (enq_fn_id nd) (drv_feature_bits_lo dev) (feature_bits dev) /\
  mgmt_fn_id (driver_fn_ids dev nd) = mgmt_id (mgmt_fn_id nd) (drv_feature_bits_lo dev) (feature_bits dev).
Proof.
  intros Hwf. destruct Hwf as [_ _ _ Hd He Hm]. unfold driver_fn_ids. cbn [deq_fn_id enq_fn_id mgmt_fn_id set_fn_ids].
  change 0xFF with (Z.ones 8). change 0xFFFF with (Z.ones 16).
  rewrite !has_bit_low, !has_bit_testbit by (unfold VIRTIO_NET_F_CSUM, VIRTIO_NET_F_GUEST_CSUM, VIRTIO_NET_F_HOST_TSO4, VIRTIO_NET_F_HOST_TSO6,
    VIRTIO_F_IN_ORDER, VIRTIO_NET_F_MRG_RXBUF, VIRTIO_NET_F_HASH_REPORT; lia).
  unfold deq_id, enq_id, mgmt_id.
  generalize (Z.testbit (drv_feature_bits_lo dev) VIRTIO_NET_F_CSUM) (Z.testbit (drv_feature_bits_lo dev) VIRTIO_NET_F_GUEST_CSUM)
    (Z.testbit (drv_feature_bits_lo dev) VIRTIO_NET_F_HOST_TSO4) (Z.testbit (drv_feature_bits_lo dev) VIRTIO_NET_F_HOST_TSO6)
    (Z.testbit (drv_feature_bits_lo dev) VIRTIO_NET_F_MRG_RXBUF) (Z.testbit (feature_bits dev) VIRTIO_F_IN_ORDER)
    (Z.testbit (feature_bits dev) VIRTIO_NET_F_HASH_REPORT).
  intros c g t4 t6 m o h. split; [|split].
  - by_small (deq_fn_id nd) 8%nat; destruct c, t4, t6, o; vm_compute; reflexivity.
  - by_small (enq_fn_id nd) 16%nat; destruct g, m, h; vm_compute; reflexivity.
  - by_small (mgmt_fn_id nd) 8%nat; destruct m, o; vm_compute; reflexivity.
Qed.

Lemma same_slot_refl intrs l : Forall2 (same_slot intrs) l l.
Proof. induction l; constructor; [by left|done]. Qed.

Lemma same_slot_insert intrs l l' i q addr : Forall2 (same_slot intrs) (<[i := Some (with_intr addr q)]> l) l' -> l !! i = Some (Some q) ->
  addr ∈ intrs -> Forall2 (same_slot intrs) l l'.
Proof.
  intros Hl Hi Ha. apply Forall2_same_length_lookup_2; [apply Forall2_length in Hl; by rewrite length_insert in Hl|].
  intros k x y Hx Hy. destruct (decide (k = i)) as [->|Hne].
  - rewrite Hi in Hx. injection Hx as <-. eapply Forall2_lookup_lr in Hl; [|apply list_lookup_insert_eq; by eapply lookup_lt_Some|exact Hy].
    destruct Hl as [->|(q' & a' & [= <-] & Ha' & ->)]; right; eexists q, _; split; [done|split; [exact Ha|done]|done|split; [exact Ha'|done]].
  - eapply Forall2_lookup_lr; [exact Hl| |exact Hy]. by rewrite list_lookup_insert_ne.
Qed.

Lemma interrupt_ok n : forall i intr nd, 0 <= i -> i + Z.of_nat n <= Z.of_nat (length (qs nd)) ->
  1 <= nb_cb_intrs nd <= Z.of_nat (length (nd_intrs nd)) -> 0 <= intr < nb_cb_intrs nd ->
  exists l, interrupt_loop n i intr nd = Ret (set_qs l nd) /\ Forall2 (same_slot (nd_intrs nd)) (qs nd) l.
Proof.
  induction n as [|n IH]; intros i intr nd Hi Hn Hnb Hintr; cbn [interrupt_loop].
  { exists (qs nd). split; [by destruct nd|apply same_slot_refl]. }
  destruct (cget_lookup (qs nd) i) as (slot & -> & Hslot); [lia|]. cbn [mbind cres_mbind].
  destruct slot as [q|]; [|apply IH; lia]. destruct (negb (i mod 2 =? 0)); [apply IH; lia|].
  destruct (cget_lookup (nd_intrs nd) intr) as (addr & -> & Haddr); [lia|]. cbn [mbind cres_mbind].
  rewrite cset_in_range by lia. cbn [mbind cres_mbind]. rewrite (proj2 (Z.eqb_neq _ 0)) by lia.
  set (l1 := <[Z.to_nat i := Some (with_intr addr q)]> (qs nd)).
  destruct (IH (i + 1) ((intr + 1) mod nb_cb_intrs nd) (set_qs l1 nd)) as (l & Hret & Hl).
  - lia.
  - cbn. unfold l1. rewrite length_insert. lia.
  - done.
  - apply Z.mod_pos_bound. cbn. lia.
  - exists l. split; [exact Hret|]. eapply same_slot_insert; [exact Hl|done|]. by eapply list_elem_of_lookup_2.
Qed.

Section starting.
Context (submit_rc : nat -> Z) (ready : nat -> bool) {U : Type} (user_cbs : netdev_cbs U).

Lemma interrupt_conf_ok dev nd : net_wf dev nd -> exists l, virtio_netdev_cb_interrupt_conf dev nd = Ret (set_qs l nd) /\
  Forall2 (same_slot (nd_intrs nd)) (qs nd) l.
Proof.
  intros [Hq Hm Hi _ _ _]. apply interrupt_ok; [lia| |done|lia]. unfold max_vqs. rewrite u32_id by word. lia.
Qed.

Lemma events_gives nd n : forall i w, 0 <= i -> i + Z.of_nat n <= Z.of_nat (length (qs nd)) ->
  exists b w', events_wanted submit_rc ready n i nd w = Ret (b, w').
Proof.
  induction n as [|n IH]; intros i w Hi Hn; cbn [events_wanted]; [by eexists _, _|].
  destruct (cget_lookup (qs nd) i) as (slot & -> & _); [lia|]. cbn [mbind cres_mbind].
  destruct slot as [q|]; [|apply IH; lia]. destruct (virtio_queue_driver_event_flag submit_rc ready q w) as [f w'].
  destruct (f <? 0); [apply IH; lia|]. destruct (negb _); [by eexists _, _|apply IH; lia].
Qed.

(** C26. The functions of the datapath. When the driver sets DRIVER_OK on a
    device with interrupts, the status callback returns, whatever the DMA of
    the event flags does; it selects the dequeue, enqueue and descriptor
    functions by exactly the negotiated features, keeping the flags for
    software freeing and for external buffers, so the ids stay inside the
    tables of functions; no queue is added or removed; and the application is
    called once, with the device set up. *)
Theorem driver_ok_functions dev status nd u w cb : net_wf dev nd -> status_cb user_cbs = Some cb -> has_status status VIRTIO_DEV_DRIVER_OK = true ->
  exists nd' w', virtio_netdev_status_cb submit_rc ready user_cbs dev status nd u w = Ret ((cb nd' status u).1, nd', (cb nd' status u).2, w') /\
    deq_fn_id nd' = deq_id (drv_feature_bits_lo dev) (feature_bits dev) /\
    enq_fn_id nd' = enq_id (enq_fn_id nd) (drv_feature_bits_lo dev) (feature_bits dev) /\
    mgmt_fn_id nd' = mgmt_id (mgmt_fn_id nd) (drv_feature_bits_lo dev) (feature_bits dev) /\
    net_wf dev nd' /\ Forall2 (same_slot (nd_intrs nd)) (qs nd) (qs nd') /\ vq_pairs_set nd' = vq_pairs_set nd.
Proof.
  intros Hwf Hcb Hst. unfold virtio_netdev_status_cb. rewrite Hcb, Hst.
  destruct (events_gives nd (Z.to_nat (max_virtio_queues dev - 1)) 0 w) as (b & w' & ->);
    [lia|destruct Hwf as [-> Hm _ _ _ _]; lia|]. cbn [mbind cres_mbind].
  assert (exists l, (if b then virtio_netdev_cb_interrupt_conf dev nd else Ret nd) = Ret (set_qs l nd) /\
    Forall2 (same_slot (nd_intrs nd)) (qs nd) l) as (l & -> & Hl).
  { destruct b; [by apply interrupt_conf_ok|]. exists (qs nd). split; [by destruct nd|apply same_slot_refl]. }
  cbn [mbind cres_mbind]. set (nd1 := set_qs l nd).
  assert (net_wf dev nd1) as Hwf1 by (destruct Hwf as [Hq ? ? ? ? ?]; split; try done; cbn; by rewrite <- (Forall2_length Hl)).
  destruct (fn_ids_exact dev nd1 Hwf1) as (Ed & Ee & Em). exists (driver_fn_ids dev nd1), w'.
  destruct (cb (driver_fn_ids dev nd1) status u) as [rc u'] eqn:Ecb. split; [done|]. split; [done|]. split; [done|]. split; [done|].
  split; [|done]. destruct Hwf1 as [? ? ? ? He Hm]. split; try done.
  - rewrite Ed. unfold deq_id, b2z. repeat case_match; lia.
  - rewrite Ee. unfold enq_id, b2z. pose proof (Z.mod_pos_bound (enq_fn_id nd1) 2). repeat case_match; lia.
  - rewrite Em. unfold mgmt_id, b2z. assert (0 <= mgmt_fn_id nd1 / 4 < 2) by (split; [apply Z.div_pos|apply Z.div_lt_upper_bound]; lia).
    repeat case_match; lia.
Qed.
End starting.

(** ** Event flags *)

Definition mem_bytes (m : memory) : Prop := forall x, 0 <= m x < 256.

Lemma le_nonneg l : Forall (fun b => 0 <= b < 256) l -> 0 <= le l.
Proof. unfold le. induction 1 as [|b l Hb _ IH]; cbn; lia. Qed.

Lemma read_nonneg m a n : mem_bytes m -> 0 <= le (read_bytes m a n).
Proof. intros Hm. apply le_nonneg. unfold read_bytes. apply Forall_fmap, Forall_true. intros x. apply Hm. Qed.

Lemma gather_one m a n : gather m [(a, n)] = read_bytes m a n.
Proof. unfold gather. cbn. by rewrite app_nil_r. Qed.

(** The flags in the driver's area. *)
Definition host_flags (w : dmaw) (q : net_queue) : Z := le (read_bytes (host w) (nq_driver_area q + 2) 2).

Section events.
Context (submit_rc : nat -> Z) (ready : nat -> bool) {U : Type} (user_cbs : netdev_cbs U).

Lemma event_flag_reads q w : dma_works submit_rc ready -> idle w ->
  exists w', virtio_queue_driver_event_flag submit_rc ready q w = (host_flags w q, w') /\ idle w' /\ host w' = host w.
Proof.
  intros Hdma Hidle. unfold virtio_queue_driver_event_flag. set (a := nq_sd_base q + nq_q_sz q * 16).
  destruct (read_works submit_rc ready [(nq_driver_area q, 4)] a w Hdma Hidle) as (rc & w1 & w' & -> & Hrc & Hw & Hi & Hh & Hl).
  rewrite (proj2 (Z.ltb_ge _ _)) by done. rewrite Hw. cbn [negb]. exists w'. split; [|done]. rewrite Hl, gather_one. unfold host_flags. do 2 f_equal.
  apply read_copy; rewrite ?length_read; [done|lia|lia].
Qed.

(** A device without interrupts. When the host configured no interrupt
    rings for the device and the driver of the first queue wants events, the
    status callback for DRIVER_OK divides by the number of interrupts. *)
Theorem no_interrupts_fault dev status nd u w q cb : dma_works submit_rc ready -> idle w -> mem_bytes (host w) ->
  status_cb user_cbs = Some cb -> has_status status VIRTIO_DEV_DRIVER_OK = true -> 3 <= max_virtio_queues dev <= 129 ->
  qs nd !! 0%nat = Some (Some q) -> nb_cb_intrs nd = 0 -> nd_intrs nd <> [] -> host_flags w q <> RING_EVENT_FLAGS_DISABLE ->
  virtio_netdev_status_cb submit_rc ready user_cbs dev status nd u w = Fault.
Proof.
  intros Hdma Hidle Hb Hcb Hst Hmax Hq Hnb Hin Hflag. unfold virtio_netdev_status_cb. rewrite Hcb, Hst.
  destruct (Z.to_nat (max_virtio_queues dev - 1)) as [|n] eqn:Hn; [lia|]. cbn [events_wanted].
  assert (cget (qs nd) 0 = Ret (Some q)) as Hget by (apply cget_Ret; done). rewrite Hget. cbn [mbind cres_mbind].
  destruct (event_flag_reads q w Hdma Hidle) as (w' & -> & _). pose proof (read_nonneg (host w) (nq_driver_area q + 2) 2 Hb).
  unfold host_flags in *. rewrite (proj2 (Z.ltb_ge _ _)), (proj2 (Z.eqb_neq _ _)) by done. cbn [negb mbind cres_mbind].
  unfold virtio_netdev_cb_interrupt_conf, max_vqs. rewrite u32_id by word. rewrite Hn. cbn [interrupt_loop].
  rewrite Hget. cbn [mbind cres_mbind]. change (negb (0 mod 2 =? 0)) with false. destruct (nd_intrs nd) as [|a l]; [done|].
  change (cget (a :: l) 0) with (Ret a). cbn [mbind cres_mbind].
  rewrite cset_in_range by (apply lookup_lt_Some in Hq; lia). cbn [mbind cres_mbind]. by rewrite Hnb.
Qed.
End events.

(** ** Enabling a queue *)

(** The queues that get an interrupt: the even ones that are set up; and how
    many of them there are from queue [i] to before queue [k]. *)
Definition set_up (l : list (option net_queue)) (k : nat) : bool :=
  Nat.even k && match l !! k with Some (Some _) => true | _ => false end.
Definition turn (l : list (option net_queue)) (i k : nat) : Z := Z.of_nat (length (List.filter (set_up l) (seq i (k - i)))).

(** The slot [k] when the interrupts [intrs] are given out in turn to the even
    queues from [i] to before [e], the first of them number [intr]. *)
Definition armed (intrs : list Z) (nb intr : Z) (i e : nat) (l : list (option net_queue)) (k : nat) : option (option net_queue) :=
  match l !! k with
  | Some (Some q) =>
      if Nat.even k && (i <=? k)%nat && (k <? e)%nat
      then Some (Some (with_intr (nth (Z.to_nat ((intr + turn l i k) mod nb)) intrs 0) q)) else Some (Some q)
  | x => x
  end.

Lemma set_up_insert l i q k : (exists q', l !! i = Some (Some q')) -> set_up (<[i := Some q]> l) k = set_up l k.
Proof.
  intros [q' Hi]. unfold set_up. destruct (decide (k = i)) as [->|]; [|by rewrite list_lookup_insert_ne].
  by rewrite Hi, list_lookup_insert_eq by (by eapply lookup_lt_Some).
Qed.

Lemma turn_S l i k : (i < k)%nat -> turn l i k = b2z (set_up l i) + turn l (S i) k.
Proof.
  intros Hk. unfold turn. replace (k - i)%nat with (S (k - S i)) by lia. cbn [seq List.filter]. destruct (set_up l i); cbn [length b2z]; lia.
Qed.

(** Past a queue that gets none. *)
Lemma armed_skip intrs nb intr i e l k : set_up l i = false -> armed intrs nb intr (S i) e l k = armed intrs nb intr i e l k.
Proof.
  intros Hi. unfold armed. destruct (l !! k) as [[q|]|] eqn:Hk; [|done..]. destruct (decide (k = i)) as [->|Hne].
  - unfold set_up in Hi. rewrite Hk, andb_true_r in Hi. by rewrite Hi.
  - destruct (Nat.leb_spec i k), (Nat.leb_spec (S i) k); try lia; [|by rewrite !andb_false_r]. by rewrite (turn_S l i k), Hi by lia.
Qed.

(** Past a queue that gets one. *)
Lemma armed_take intrs nb intr i e l q k : l !! i = Some (Some q) -> Nat.even i = true -> (i < e)%nat -> 0 <= intr < nb ->
  armed intrs nb ((intr + 1) mod nb) (S i) e (<[i := Some (with_intr (nth (Z.to_nat intr) intrs 0) q)]> l) k = armed intrs nb intr i e l k.
Proof.
  intros Hi He Hlt Hin. pose proof (lookup_lt_Some _ _ _ Hi) as Hl. unfold armed. destruct (decide (k = i)) as [->|Hne].
  - rewrite list_lookup_insert_eq, Hi, He, (proj2 (Nat.leb_gt _ _)), (proj2 (Nat.leb_le _ _)), (proj2 (Nat.ltb_lt _ _)) by lia. cbn [andb].
    unfold turn. rewrite Nat.sub_diag. cbn [seq List.filter length Z.of_nat]. by rewrite Z.add_0_r, Z.mod_small by done.
  - rewrite list_lookup_insert_ne by done. destruct (l !! k) as [[q'|]|]; [|done..].
    destruct (Nat.leb_spec i k), (Nat.leb_spec (S i) k); try lia; [|by rewrite !andb_false_r].
    rewrite Z.add_mod_idemp_l, (turn_S l i k) by lia. unfold set_up at 1. rewrite He, Hi. cbn [andb b2z].
    replace (turn (<[i := _]> l) (S i) k) with (turn l (S i) k).
    + by rewrite Z.add_assoc.
    + unfold turn. do 2 f_equal. apply List.filter_ext. intros j. symmetry. apply set_up_insert. by exists q.
Qed.

Lemma interrupt_exact n : forall i intr nd, (i + n <= length (qs nd))%nat ->
  1 <= nb_cb_intrs nd <= Z.of_nat (length (nd_intrs nd)) -> 0 <= intr < nb_cb_intrs nd ->
  exists l, interrupt_loop n (Z.of_nat i) intr nd = Ret (set_qs l nd) /\
    forall k, l !! k = armed (nd_intrs nd) (nb_cb_intrs nd) intr i (i + n) (qs nd) k.
Proof.
  induction n as [|n IH]; intros i intr nd Hn Hnb Hintr; cbn [interrupt_loop].
  { exists (qs nd). split; [by destruct nd|]. intros k. unfold armed. destruct (qs nd !! k) as [[q|]|]; [|done..].
    destruct (Nat.leb_spec i k), (Nat.ltb_spec k (i + 0)); try lia; by rewrite ?andb_false_r. }
  destruct (cget_lookup (qs nd) (Z.of_nat i)) as (slot & -> & Hslot); [lia|]. rewrite Nat2Z.id in Hslot. cbn [mbind cres_mbind].
  replace (Z.of_nat i + 1) with (Z.of_nat (S i)) by lia. replace (i + S n)%nat with (S i + n)%nat by lia.
  assert (set_up (qs nd) i = false -> exists l, interrupt_loop n (Z.of_nat (S i)) intr nd = Ret (set_qs l nd) /\
    forall k, l !! k = armed (nd_intrs nd) (nb_cb_intrs nd) intr i (S i + n) (qs nd) k) as Hskip.
  { intros Hs. destruct (IH (S i) intr nd) as (l & Hret & Hl); [lia|done|done|]. exists l. split; [done|]. intros k.
    rewrite Hl. by apply armed_skip. }
  destruct slot as [q|]; [|apply Hskip; unfold set_up; by rewrite Hslot, andb_false_r].
  assert (Z.of_nat i mod 2 =? 0 = Nat.even i) as ->.
  { destruct (Nat.even i) eqn:E; [apply Nat.even_spec in E as [j ->]|apply (f_equal negb) in E; rewrite Nat.negb_even in E; apply Nat.odd_spec in E as [j ->]];
      [apply Z.eqb_eq|apply Z.eqb_neq]; Z.to_euclidean_division_equations; lia. }
  destruct (Nat.even i) eqn:He; cbn [negb]; [|apply Hskip; unfold set_up; by rewrite He].
  destruct (cget_lookup (nd_intrs nd) intr) as (addr & -> & Haddr); [lia|]. cbn [mbind cres_mbind].
  rewrite cset_in_range by lia. cbn [mbind cres_mbind]. rewrite (proj2 (Z.eqb_neq _ 0)), Nat2Z.id by lia.
  apply nth_lookup_Some with (d := 0) in Haddr as <-.
  edestruct (IH (S i) ((intr + 1) mod nb_cb_intrs nd) (set_qs (<[i := Some (with_intr (nth (Z.to_nat intr) (nd_intrs nd) 0) q)]> (qs nd)) nd)) as (l & Hret & Hl).
  - cbn. rewrite length_insert. lia.
  - done.
  - apply Z.mod_pos_bound. cbn. lia.
  - exists l. split; [exact Hret|]. intros k. rewrite Hl. apply armed_take; [done|done|lia|done].
Qed.

Section enabling.
Context (submit_rc : nat -> Z) (ready : nat -> bool).

(** A queue as the datapath expects it in the beginning: the ring and its size
    from the configuration, every offset at the start of the first lap. *)
Record queue_ready (dev : virtio_dev) (nd : netdev) (qc : virtio_queue_conf) (qid : Z) (q : net_queue) : Prop := {
  qr_desc : nq_desc_base q = Z.lor (Z.shiftl (qc_desc_hi qc) 32) (qc_desc_lo qc);
  qr_size : nq_q_sz q = qc_size qc;
  qr_sd_desc : nq_sd_desc_off q = ring_enc (qc_size qc) (qc_size qc);
  qr_sd_mbuf : nq_sd_mbuf_off q = ring_enc (qc_size qc) (qc_size qc);
  qr_last : nq_last_off q = ring_enc (qc_size qc) (qc_size qc);
  qr_compl : nq_compl_off q = ring_enc (qc_size qc) (qc_size qc);
  qr_notify : nq_notify_addr q = u64 (notify_base dev + u64 (qid * notify_off_mltpr dev));
  qr_room : buf_room nd = Ret (nq_buf_len q);
  qr_hdr : nq_hdr_sz q = virtio_netdev_hdr_size dev;
  qr_qid : nq_qid q = qid;
}.

Lemma first_lap q_sz : 0 < q_sz -> u16 (RTE_BIT64 15) = ring_enc q_sz q_sz.
Proof. intros Hq. unfold ring_enc. by rewrite Z.mod_same, Z.div_same by lia. Qed.

Lemma new_queue_ready dev nd qc qid b a : 0 < qc_size qc -> buf_room nd = Ret b -> queue_ready dev nd qc qid (new_queue dev nd qc qid b a).
Proof. intros Hsz Hb. split; try done; by apply first_lap. Qed.

(** C27. Enabling a queue, on a device with at least one interrupt and with a
    DMA that works. For a queue the driver has enabled and that is not set up
    yet, [virtio_netdev_populate_queue_info] stores [new_queue]: its ring, size
    and notification address are those of its configuration and its offsets are
    at the start of the first lap. While the driver is not running or does not
    want events, all other queues are the same. Otherwise all interrupts are
    given out again: each even queue that is set up, in order, gets the next
    interrupt address in turn and its callback notification word is cleared,
    and is the same otherwise; odd queues are the same. Nothing else of the
    device changes, nor does the memory of the host, and calling it again
    changes nothing. *)
Theorem queue_enable_sets_up dev nd qid qc mem b w : net_wf dev nd -> dma_works submit_rc ready -> idle w -> mem_bytes (host w) ->
  0 <= qid < max_virtio_queues dev - 1 -> queue_conf dev !! Z.to_nat qid = Some qc -> qc_enable qc <> 0 -> 0 < qc_size qc ->
  qs nd !! Z.to_nat qid = Some None -> buf_room nd = Ret b ->
  let queue := new_queue dev nd qc qid b mem in
  let l := <[Z.to_nat qid := Some queue]> (qs nd) in
  exists l' w', virtio_netdev_populate_queue_info submit_rc ready (Some mem) dev qid nd w = Ret (0, set_qs l' nd, w') /\
    queue_ready dev nd qc qid queue /\ idle w' /\ host w' = host w /\
    (forall k, l' !! k =
      if driver_ok (device_state dev) && negb (host_flags w queue =? RING_EVENT_FLAGS_DISABLE)
      then armed (nd_intrs nd) (nb_cb_intrs nd) 0 0 (Z.to_nat (max_virtio_queues dev - 1)) l k else l !! k) /\
    forall mem', virtio_netdev_populate_queue_info submit_rc ready mem' dev qid (set_qs l' nd) w' = Ret (0, set_qs l' nd, w').
Proof.
  intros Hwf Hdma Hidle Hby Hqid Hqc Hen Hsz Hslot Hb queue l. pose proof Hwf as [Hlen Hmax Hnb _ _ _].
  assert (max_vqs dev = max_virtio_queues dev - 1) as Hmv by (unfold max_vqs; apply u32_id; word).
  assert (cget (queue_conf dev) qid = Ret qc) as Hgc by (apply cget_Ret; split; [lia|done]).
  assert (exists w', virtio_netdev_populate_queue_info submit_rc ready (Some mem) dev qid nd w =
      (nd' ← (if driver_ok (device_state dev) && negb (host_flags w queue =? RING_EVENT_FLAGS_DISABLE)
              then virtio_netdev_cb_interrupt_conf dev (set_qs l nd) else Ret (set_qs l nd)); Ret (0, nd', w')) /\
    idle w' /\ host w' = host w) as (w' & Hret & Hi & Hh).
  { unfold virtio_netdev_populate_queue_info. rewrite Hmv, (proj2 (Z.leb_gt _ _)) by lia. rewrite Hb. cbn [mbind cres_mbind]. rewrite Hgc.
    cbn [mbind cres_mbind]. rewrite (proj2 (cget_Ret (qs nd) qid None)) by (split; [lia|done]). cbn [mbind cres_mbind].
    rewrite (proj2 (Z.eqb_neq _ _)) by done. cbn [orb]. rewrite bool_decide_false by (by intros [? [=]]). fold queue.
    rewrite cset_in_range by lia. cbn [mbind cres_mbind]. fold l. destruct (driver_ok (device_state dev)); [|by eexists].
    destruct (event_flag_reads submit_rc ready queue
      (with_local (write_bytes (local w) mem (replicate (Z.to_nat (align_line (qc_size qc * 16 + 8))) 0)) w)) as (w' & -> & Hi & Hh); [done|done|].
    change (host_flags (with_local _ w) queue) with (host_flags w queue).
    rewrite (proj2 (Z.ltb_ge _ _)) by (by apply read_nonneg). exists w'. split; [|done]. cbn [andb]. by destruct (negb _). }
  assert (exists l', (if driver_ok (device_state dev) && negb (host_flags w queue =? RING_EVENT_FLAGS_DISABLE)
              then virtio_netdev_cb_interrupt_conf dev (set_qs l nd) else Ret (set_qs l nd)) = Ret (set_qs l' nd) /\
    forall k, l' !! k = if driver_ok (device_state dev) && negb (host_flags w queue =? RING_EVENT_FLAGS_DISABLE)
      then armed (nd_intrs nd) (nb_cb_intrs nd) 0 0 (Z.to_nat (max_virtio_queues dev - 1)) l k else l !! k) as (l' & Hl' & Hk).
  { destruct (_ && _); [|by exists l]. unfold virtio_netdev_cb_interrupt_conf. rewrite Hmv.
    apply (interrupt_exact _ 0 0 (set_qs l nd)); [cbn; unfold l; rewrite length_insert; lia|done|cbn; lia]. }
  exists l', w'. rewrite Hret, Hl'. split; [done|]. split; [by apply new_queue_ready|]. split; [done|]. split; [done|]. split; [exact Hk|].
  assert (exists q, l' !! Z.to_nat qid = Some (Some q)) as [q Hq].
  { assert (l !! Z.to_nat qid = Some (Some queue)) as Hq by (apply list_lookup_insert_eq; lia). rewrite Hk. unfold armed. rewrite Hq. destruct (_ && _); [destruct (_ && _)|]; by eexists. }
  intros mem'. unfold virtio_netdev_populate_queue_info. rewrite Hmv, (proj2 (Z.leb_gt _ _)) by lia.
  change (buf_room (set_qs l' nd)) with (buf_room nd). rewrite Hb. cbn [mbind cres_mbind]. rewrite Hgc. cbn [mbind cres_mbind].
  rewrite (proj2 (cget_Ret (qs (set_qs l' nd)) qid (Some q))) by (split; [lia|done]). cbn [mbind cres_mbind].
  rewrite bool_decide_true by by eexists. by rewrite orb_true_r.
Qed.
End enabling.

(** ** Reset *)

Section reset.
Context (submit_rc : nat -> Z) (ready : nat -> bool) {U : Type} (user_cbs : netdev_cbs U).

(** Draining a queue: the odd ones are for packets of the host. *)
Definition flush_one (ext : bool) (u : U) (e : Z * option net_queue) : U :=
  match e.2 with
  | None => u
  | Some q => if negb (e.1 mod 2 =? 0) then flush_deq user_cbs ext q u else flush_enq user_cbs ext q u
  end.

Lemma clear_ok n : forall i nd u, 0 <= i -> i + Z.of_nat n <= Z.of_nat (length (qs nd)) ->
  exists l, clear_loop user_cbs n i nd u = Ret (set_qs l nd,
      foldl (flush_one (negb (Z.land (mgmt_fn_id nd) VIRTIO_NET_DESC_MANAGE_EXTBUF =? 0))) u
        (zip (seqZ i (Z.of_nat n)) (take n (drop (Z.to_nat i) (qs nd))))) /\
    length l = length (qs nd) /\ forall k, l !! k = if decide (i <= Z.of_nat k < i + Z.of_nat n) then Some None else qs nd !! k.
Proof.
  induction n as [|n IH]; intros i nd u Hi Hn.
  { exists (qs nd). split; [by destruct nd|]. split; [done|]. intros k. rewrite decide_False by lia. done. }
  cbn [clear_loop]. destruct (cget_lookup (qs nd) i) as (slot & -> & Hslot); [lia|]. cbn [mbind cres_mbind].
  rewrite cset_in_range by lia. cbn [mbind cres_mbind].
  set (ext := negb (Z.land (mgmt_fn_id nd) VIRTIO_NET_DESC_MANAGE_EXTBUF =? 0)).
  set (u1 := match slot with None => u | Some q => _ end). set (l1 := <[Z.to_nat i := None]> (qs nd)).
  destruct (IH (i + 1) (set_qs l1 nd) u1) as (l & -> & Hlen & Hl).
  - lia.
  - cbn. unfold l1. rewrite length_insert. lia.
  - exists l. cbn [qs set_qs mgmt_fn_id] in *. fold ext. split; [|split].
    + do 2 f_equal. rewrite (drop_S _ _ _ Hslot). cbn [take]. rewrite (seqZ_cons i (Z.of_nat (S n))) by lia.
      replace (Z.pred (Z.of_nat (S n))) with (Z.of_nat n) by lia. replace (Z.succ i) with (i + 1) by lia. cbn [zip zip_with foldl].
      change (flush_one ext u (i, slot)) with u1. unfold l1. rewrite drop_insert_lt by lia. by replace (Z.to_nat (i + 1)) with (S (Z.to_nat i)) by lia.
    + rewrite Hlen. unfold l1. apply length_insert.
    + intros k. rewrite Hl. unfold l1. destruct (decide (k = Z.to_nat i)) as [->|Hne].
      * rewrite decide_False by lia. rewrite decide_True by lia. apply list_lookup_insert_eq. lia.
      * rewrite list_lookup_insert_ne by done. destruct (decide (i + 1 <= Z.of_nat k < i + 1 + Z.of_nat n)).
        -- rewrite decide_True by lia. done.
        -- rewrite decide_False by lia. done.
Qed.

(** Reset. The status callback for a reset calls the application first,
    waits for the DMA of the first queue there is, drains each queue of the
    device exactly once and in order, and then removes all of them; the
    number of queue pairs is back at its default, and a started device again
    has two queues. *)
Theorem reset_clears dev nd u w cb : length (qs nd) = 129%nat -> 3 <= max_virtio_queues dev <= 129 -> status_cb user_cbs = Some cb ->
  let u1 := (cb nd VIRTIO_DEV_RESET u).2 in
  let u2 := match first_queue nd with Some q => dma_compl_wait user_cbs (nq_dma_vchan q) u1 | None => u1 end in
  let n := Z.to_nat (max_virtio_queues dev - 1) in
  exists nd', virtio_netdev_status_cb submit_rc ready user_cbs dev VIRTIO_DEV_RESET nd u w =
      Ret ((cb nd VIRTIO_DEV_RESET u).1, nd',
        foldl (flush_one (negb (Z.land (mgmt_fn_id nd) VIRTIO_NET_DESC_MANAGE_EXTBUF =? 0))) u2 (zip (seqZ 0 (Z.of_nat n)) (take n (qs nd))), w) /\
    (forall k, (k < n)%nat -> qs nd' !! k = Some None) /\ (forall k, (n <= k)%nat -> qs nd' !! k = qs nd !! k) /\
    (forall d, dao_virtio_netdev_queue_count d nd' = 0 \/ dao_virtio_netdev_queue_count d nd' = 2).
Proof.
  intros Hlen Hmax Hcb u1 u2 n. unfold virtio_netdev_status_cb. rewrite Hcb.
  change (has_status VIRTIO_DEV_RESET VIRTIO_DEV_DRIVER_OK) with false. cbn iota.
  rewrite (surjective_pairing (cb nd VIRTIO_DEV_RESET u)). change (VIRTIO_DEV_RESET =? VIRTIO_DEV_RESET) with true. cbn iota beta. fold u1 u2.
  unfold virtio_netdev_clear_queue_info, max_vqs. rewrite u32_id by word. fold n.
  destruct (clear_ok n 0 nd u2) as (l & Hret & Hl & Hk); [lia|unfold n; lia|].
  rewrite Hret. cbn [mbind cres_mbind].
  exists (set_pairs 0 (set_qs l nd)). split; [done|]. cbn [qs set_pairs set_qs]. split; [|split].
  - intros k Hkn. rewrite Hk, decide_True by lia. done.
  - intros k Hkn. rewrite Hk, decide_False by lia. done.
  - intros d. unfold dao_virtio_netdev_queue_count. cbn [vq_pairs_set set_pairs Z.eqb negb].
    destruct (has_status _ _); [by right|by left].
Qed.
End reset.

(** ** Witnesses

    Channels that complete at once, an application that logs its calls, and a
    device with five queues. *)
Definition wit_submit : nat -> Z := fun _ => 0.
Definition wit_ready : nat -> bool := fun _ => true.

Lemma wit_ctrl_dma : dma_works wit_submit wit_ready.
Proof. split; [intros n; unfold wit_submit; lia|]. intros n. exists 0%nat. split; [lia|reflexivity]. Qed.

Definition wit_cbs : netdev_cbs (list Z) := {|
  status_cb := Some (fun nd status u => (0, u ++ [status; deq_fn_id nd]));
  rss_cb := None; promisc_cb := None; allmulti_cb := None; mac_set := None; mac_add := None; mq_configure := None;
  vlan_add := Some (fun nd tci u => (0, u ++ [tci])); vlan_del := None;
  dma_compl_wait := fun vchan u => u ++ [100 + vchan];
  flush_enq := fun _ q u => u ++ [200 + nq_qid q]; flush_deq := fun _ q u => u ++ [300 + nq_qid q] |}.

(** Queue 0 is enabled; the driver took CSUM, TSO4 and MRG_RXBUF. *)
Definition wit_qc : virtio_queue_conf :=
  {| qc_size := 4; qc_msix_vector := 0; qc_enable := 1; qc_desc_lo := 0x2000; qc_desc_hi := 0; qc_avail_lo := 0x4000; qc_avail_hi := 0;
     qc_used_lo := 0; qc_used_hi := 0 |}.

Definition wit_netdev_dev : virtio_dev :=
  {| common_cfg := replicate 8 0; notify := replicate 5 0; queue_conf := replicate 129 wit_qc; cq := None;
     drv_feature_bits_lo := 2 ^ 15 + 2 ^ 11 + 1; drv_feature_bits_hi := 0; feature_bits := 2 ^ 35 + 2 ^ 15 + 2 ^ 11 + 1;
     prev_queue_select := 0; prev_drv_feature_select := 0; driver_ok_pend := 0; queue_select_pend := 0;
     device_state := {| driver_ok := true; features_ok := true; acknowledge := true; driver := false |};
     dev_feature_bits := 0; max_virtio_queues := 5; notify_base := 0x10000; notify_off_mltpr := 0x1000 |}.

Definition wit_queue (qid : Z) : net_queue :=
  {| nq_desc_base := 0x2000; nq_q_sz := 4; nq_buf_len := 0; nq_data_off := 0; nq_notify_addr := 0; nq_sd_desc_off := 0; nq_sd_mbuf_off := 0;
     nq_last_off := 0; nq_compl_off := 0; nq_auto_free := false; nq_qid := qid; nq_dma_vchan := 6; nq_hdr_sz := 12; nq_driver_area := 0x4000;
     nq_sd_base := 0x5000; nq_cb_intr_addr := 0; nq_cb_notify_addr := 0; nq_cb_notify := None |}.

Definition wit_netdev (nb : Z) (l : list (option net_queue)) : netdev :=
  {| nd_id := 1; nd_dma_vchan := 6; nd_extbuf := false; nd_pool := Some {| elt_size := 2304; mbuf_priv_size := 0 |}; nd_dataroom := 0;
     nd_auto_free := true; nd_intrs := [71; 72; 73; 74; 75; 76; 77; 78]; nb_cb_intrs := nb; vq_pairs_set := 2; hash_report := replicate 256 0;
     qs := l ++ replicate (129 - length l) None; deq_fn_id := 0; enq_fn_id := 1; mgmt_fn_id := 0 |}.

Definition wit_w : dmaw :=
  {| host := fun _ => 0; local := fun _ => 0; rd_out := []; wr_out := []; submissions := 0; polls := 0 |}.

Lemma wit_net_wf l : (length l <= 129)%nat -> net_wf wit_netdev_dev (wit_netdev 2 l).
Proof. intros Hl. split; cbn; try lia. rewrite length_app, length_replicate. lia. Qed.

Lemma wit_host_bytes : mem_bytes (host wit_w).
Proof. intros x. cbn. lia. Qed.

Lemma driver_ok_functions_witness :
  exists nd' w', virtio_netdev_status_cb wit_submit wit_ready wit_cbs wit_netdev_dev 4 (wit_netdev 2 [Some (wit_queue 0)]) [] wit_w
      = Ret (0, nd', [4; 5], w') /\ deq_fn_id nd' = 5 /\ enq_fn_id nd' = 5 /\ mgmt_fn_id nd' = 2.
Proof.
  destruct (driver_ok_functions wit_submit wit_ready wit_cbs wit_netdev_dev 4 (wit_netdev 2 [Some (wit_queue 0)]) [] wit_w
    (fun nd status u => (0, u ++ [status; deq_fn_id nd]))) as (nd' & w' & Hret & Hd & He & Hm & _).
  - apply wit_net_wf. cbn. lia.
  - reflexivity.
  - reflexivity.
  - exists nd', w'. rewrite Hret. cbn [fst snd app]. rewrite Hd, He, Hm. split; [reflexivity|]. repeat split; vm_compute; reflexivity.
Defined.

Lemma no_interrupts_fault_witness :
  virtio_netdev_status_cb wit_submit wit_ready wit_cbs wit_netdev_dev 4 (wit_netdev 0 [Some (wit_queue 0)]) [] wit_w = Fault.
Proof.
  apply (no_interrupts_fault wit_submit wit_ready wit_cbs wit_netdev_dev 4 (wit_netdev 0 [Some (wit_queue 0)]) [] wit_w (wit_queue 0)
    (fun nd status u => (0, u ++ [status; deq_fn_id nd]))).
  - exact wit_ctrl_dma.
  - split; reflexivity.
  - exact wit_host_bytes.
  - reflexivity.
  - reflexivity.
  - cbn. lia.
  - reflexivity.
  - reflexivity.
  - discriminate.
  - vm_compute. discriminate.
Defined.

Lemma queue_enable_sets_up_witness :
  let queue := new_queue wit_netdev_dev (wit_netdev 2 []) wit_qc 0 2048 0x5000 in
  exists l' w', virtio_netdev_populate_queue_info wit_submit wit_ready (Some 0x5000) wit_netdev_dev 0 (wit_netdev 2 []) wit_w
      = Ret (0, set_qs l' (wit_netdev 2 []), w') /\ nq_desc_base queue = 0x2000 /\ nq_sd_desc_off queue = 0x8000 /\
    exists x, l' !! 0%nat = Some (Some x) /\ nq_desc_base x = 0x2000.
Proof.
  destruct (queue_enable_sets_up wit_submit wit_ready wit_netdev_dev (wit_netdev 2 []) 0 wit_qc 0x5000 2048 wit_w)
    as (l' & w' & Hret & Hr & _ & _ & Hk & _).
  - apply wit_net_wf. cbn. lia.
  - exact wit_ctrl_dma.
  - split; reflexivity.
  - exact wit_host_bytes.
  - cbn. lia.
  - reflexivity.
  - discriminate.
  - cbn. lia.
  - reflexivity.
  - reflexivity.
  - exists l', w'. split; [exact Hret|]. split; [vm_compute; reflexivity|]. split; [vm_compute; reflexivity|].
    eexists. rewrite Hk. split; vm_compute; reflexivity.
Defined.

Lemma reset_clears_witness :
  exists nd', virtio_netdev_status_cb wit_submit wit_ready wit_cbs wit_netdev_dev 0
      (wit_netdev 2 [Some (wit_queue 0); Some (wit_queue 1); None; Some (wit_queue 3)]) [] wit_w
    = Ret (0, nd', [0; 0; 106; 200; 301; 303], wit_w) /\ qs nd' !! 1%nat = Some None.
Proof.
  destruct (reset_clears wit_submit wit_ready wit_cbs wit_netdev_dev
    (wit_netdev 2 [Some (wit_queue 0); Some (wit_queue 1); None; Some (wit_queue 3)]) [] wit_w
    (fun nd status u => (0, u ++ [status; deq_fn_id nd]))) as (nd' & Hret & Hnone & _).
  - reflexivity.
  - cbn. lia.
  - reflexivity.
  - exists nd'. split; [etransitivity; [exact Hret|]; vm_compute; reflexivity|]. apply Hnone. cbn. lia.
Defined.
