(* ===== verification/VirtioCq.v ===== *)
(** * Commands on the control queue (lib/virtio/virtio_dev.c, lib/virtio_net/virtio_netdev.c)

    When the notification word of the control queue changes, the descriptors
    that the driver has added are fetched, the pieces of the command are
    gathered into one buffer, the network device executes it, and the status
    and a used descriptor go back to the host. *)
From stdpp Require Import base option list numbers.
From S2P Require Import Prelude Rte VirtioRing VirtioDev CtrlDma VirtioNetdev.

Local Open Scope Z_scope.

Definition VRING_DESC_F_WRITE : Z := 2.
Definition VIRT_PACKED_RING_DESC_F_AVAIL : Z := Z.shiftl 1 55.
Definition VIRT_PACKED_RING_DESC_F_USED : Z := Z.shiftl 1 63.
Definition VIRT_PACKED_RING_DESC_F_AVAIL_USED : Z := Z.lor VIRT_PACKED_RING_DESC_F_AVAIL VIRT_PACKED_RING_DESC_F_USED.

(** ** Operations *)

Definition set_cq_off (off : Z) (q : virtio_ctrl_queue) : virtio_ctrl_queue :=
  {| cq_desc_base := cq_desc_base q; cq_notify_addr := cq_notify_addr q; cq_q_sz := cq_q_sz q; cq_last_off := cq_last_off q;
     cq_sd_desc_off := off |}.

(** The loop of [process_descs] over the fetched descriptors: the addresses
    and lengths, and the sum of the lengths. *)
Fixpoint cmd_srcs (n : nat) (i j sd_base : Z) (m : memory) (cells : list (Z * Z)) (tot_len : Z) : cres (list (Z * Z) * Z) :=
  match n with
  | O => Ret (cells, tot_len)
  | S n =>
      let len := Z.land (read64 m (DESC_PTR_OFF sd_base i 8)) (RTE_BIT64 32 - 1) in
      cells ← cset cells j (read64 m (DESC_PTR_OFF sd_base i 0), len);
      cmd_srcs n (i + 1) (j + 1) sd_base m cells (u32 (tot_len + len))
  end.

Section cq.
Context (submit_rc : nat -> Z) (ready : nat -> bool).

(** The memory [rte_zmalloc] returns for a length. *)
Context (zmalloc : Z -> option Z).

(** [process_descs]: the pieces, the buffer and its length. The shadow ring is
    at [sd_base]. *)
Definition process_descs (q : virtio_ctrl_queue) (sd_base nb_desc : Z) (w : dmaw) : cres (Z * (list (Z * Z) * Z * Z) * dmaw) :=
  let none := ([], 0, 0) in
  let off := DESC_OFF (cq_sd_desc_off q) in
  if align_line (cq_q_sz q * 16 + 8) <? 16 * (off + nb_desc) then Fault
  else
    let '(rc, w) := submit_read submit_rc [(DESC_PTR_OFF (cq_desc_base q) off 0, Z.shiftl nb_desc 4)] (DESC_PTR_OFF sd_base off 0) w in
    if rc <? 0 then Ret (- ENOMEM, none, w)
    else
      let '(ok, w) := wait_read ready w in
      if negb ok then Ret (- EFAULT, none, w)
      else
        '(cells, tot_len) ← cmd_srcs (Z.to_nat nb_desc) off 0 sd_base (local w) (replicate 15 (0, 0)) 0;
        match zmalloc tot_len with
        | None => Ret (- ENOMEM, none, w)
        | Some buf =>
            let w := with_local (write_bytes (local w) buf (replicate (Z.to_nat tot_len) 0)) w in
            let srcs := take (Z.to_nat nb_desc) cells in
            let '(rc, w) := submit_read submit_rc srcs buf w in
            if rc <? 0 then Ret (- ENOMEM, none, w)
            else
              let '(ok, w) := wait_read ready w in
              if negb ok then Ret (- EFAULT, none, w) else Ret (0, (srcs, buf, tot_len), w)
        end.

Context {U : Type} (user_cbs : netdev_cbs U).

(** [virtio_netdev_cq_cmd_process]: the command, and the status at the address
    of the last piece. *)
Definition virtio_netdev_cq_cmd_process (srcs : list (Z * Z)) (buf len nb_desc : Z) (nd : netdev) (u : U) (w : dmaw)
  : cres (netdev * U * dmaw) :=
  '(status, nd, u) ← net_command user_cbs nb_desc (read_bytes (local w) buf len) nd u;
  let w := with_local (write_bytes (local w) buf [u8 status]) w in
  ack ← cget srcs (nb_desc - 1);
  let '(rc, w) := submit_write submit_rc buf ack.1 1 w in
  if rc <? 0 then Ret (nd, u, w) else Ret (nd, u, (wait_write ready w).2).

(** [virtio_cq_cmd_process]: [notify_data] is the notification word. *)
Definition virtio_cq_cmd_process (q : virtio_ctrl_queue) (sd_base notify_data : Z) (nd : netdev) (u : U) (w : dmaw)
  : cres (virtio_ctrl_queue * netdev * U * dmaw) :=
  let next_off := Z.land (Z.shiftr notify_data 16) 0xFFFF in
  let sd_desc_off := cq_sd_desc_off q in
  let nb_desc := if next_off =? sd_desc_off then 0 else desc_off_diff_no_wrap next_off sd_desc_off (cq_q_sz q) in
  if nb_desc =? 0 then Ret (q, nd, u, w)
  else
    '(rc, (srcs, buf, len), w) ← process_descs q sd_base nb_desc w;
    if rc <? 0 then Ret (q, nd, u, w)
    else
      '(nd, u, w) ← virtio_netdev_cq_cmd_process srcs buf len nb_desc nd u w;
      let w := with_local (write64 (local w) (DESC_PTR_OFF sd_base sd_desc_off 8)
                             (Z.lor VRING_DESC_F_WRITE VIRT_PACKED_RING_DESC_F_AVAIL_USED)) w in
      let '(rc, w) := submit_write submit_rc (DESC_PTR_OFF sd_base sd_desc_off 0) (DESC_PTR_OFF (cq_desc_base q) sd_desc_off 0) 16 w in
      if rc <? 0 then Ret (q, nd, u, w)
      else Ret (set_cq_off next_off q, nd, u, (wait_write ready w).2).
End cq.

(** ** What a driver wrote *)

(** Descriptors [o], ..., [o + k - 1] of the ring at [base]: the addresses and
    the lengths. *)
Definition ring_desc (m : memory) (base i : Z) : Z * Z :=
  (read64 m (base + 16 * i), Z.land (read64 m (base + 16 * i + 8)) (RTE_BIT64 32 - 1)).

Definition ring_descs (m : memory) (base o k : Z) : list (Z * Z) := ring_desc m base <$> seqZ o k.

Definition total (l : list (Z * Z)) : Z := foldr (fun d t => d.2 + t) 0 l.

(** The driver's test of a used descriptor: both flags are its wrap bit. *)
Definition driver_sees_used (m : memory) (a : Z) (wrap : bool) : bool :=
  let flags := read64 m (a + 8) in
  Bool.eqb (Z.testbit flags 55) (Z.testbit flags 63) && Bool.eqb (Z.testbit flags 63) wrap.

(** ** Gathering the command *)

Lemma enc_small q i : ring_size q -> 0 <= i < q -> ring_enc q i = i.
Proof. intros Hq Hi. unfold ring_enc. rewrite Z.mod_small, Z.div_small by done. change (0 mod 2) with 0. lia. Qed.

Lemma enc_moves q m n : ring_size q -> 1 <= n <= q -> ring_enc q (m + n) <> ring_enc q m.
Proof.
  intros Hq Hn Heq. pose proof (desc_off_diff_enc q m (m + n) Hq ltac:(lia)) as Hd. rewrite Heq in Hd.
  destruct (ring_size_bounds q Hq). rewrite desc_off_diff_enc in Hd by (done || lia). lia.
Qed.

Lemma ptr_small q b i o : ring_size q -> 0 <= i < q -> 0 <= b -> 0 <= o < 16 -> b + 16 * q <= 0x10000000000000000 ->
  DESC_PTR_OFF b i o = b + 16 * i + o.
Proof.
  intros Hq Hi Hb Ho Hend. rewrite <- (enc_small q i) at 1 by done. rewrite (DESC_PTR_OFF_enc q) by done.
  unfold DESC_ENTRY_SZ. rewrite Z.mod_small by done. lia.
Qed.

Lemma len_bound x : 0 <= Z.land x (RTE_BIT64 32 - 1) < 0x100000000.
Proof. change (RTE_BIT64 32 - 1) with (Z.ones 32). rewrite Z.land_ones by lia. apply Z.mod_pos_bound. lia. Qed.

Lemma total_app l k : total (l ++ k) = total l + total k.
Proof. unfold total. induction l as [|d l IH]; cbn; [done|]. cbn in IH. lia. Qed.

Lemma total_nonneg m base o k : 0 <= total (ring_descs m base o k).
Proof.
  unfold total, ring_descs. induction (seqZ o k) as [|i l IH]; cbn; [done|]. pose proof (len_bound (read64 m (base + 16 * i + 8))). cbn in IH. lia.
Qed.

Lemma length_gather m l : Forall (fun d => 0 <= d.2) l -> Z.of_nat (length (gather m l)) = total l.
Proof.
  unfold gather, total. induction 1 as [|d l Hd _ IH]; [done|]. cbn. rewrite length_app, length_read. cbn in IH. lia.
Qed.

Lemma descs_nonneg m base o k : Forall (fun d => 0 <= d.2) (ring_descs m base o k).
Proof. unfold ring_descs. apply Forall_fmap, Forall_true. intros i. cbn. apply len_bound. Qed.

(** The shadow ring holds what the ring of the host held. *)
Definition shadows (m h : memory) (sd_base base o k : Z) : Prop :=
  forall i, o <= i < o + k -> read64 m (sd_base + 16 * i) = read64 h (base + 16 * i) /\
    read64 m (sd_base + 16 * i + 8) = read64 h (base + 16 * i + 8).

Lemma cmd_srcs_ok q m h sd_base base : ring_size q -> 0 <= sd_base -> sd_base + 16 * q <= 0x10000000000000000 ->
  forall n i cells done tot, 0 <= i -> i + Z.of_nat n <= q -> Z.of_nat (length done + n) <= Z.of_nat (length cells) ->
  take (length done) cells = done -> tot = total done -> shadows m h sd_base base i (Z.of_nat n) ->
  total done + total (ring_descs h base i (Z.of_nat n)) < 0x100000000 -> 0 <= total done ->
  exists cells', cmd_srcs n i (Z.of_nat (length done)) sd_base m cells tot =
      Ret (cells', total done + total (ring_descs h base i (Z.of_nat n))) /\
    take (length done + n) cells' = done ++ ring_descs h base i (Z.of_nat n).
Proof.
  intros Hq Hsd Hend n. induction n as [|n IH]; intros i cells dn tot Hi Hn Hlen Htake -> Hsh Htot Hnn; cbn [cmd_srcs].
  { exists cells. unfold ring_descs. cbn. rewrite Z.add_0_r, app_nil_r, Nat.add_0_r. done. }
  assert (ring_descs h base i (Z.of_nat (S n)) = ring_desc h base i :: ring_descs h base (i + 1) (Z.of_nat n)) as Hsplit.
  { unfold ring_descs. rewrite seqZ_cons by lia. cbn. do 3 f_equal; lia. }
  rewrite Hsplit in Htot |- *. change (total (ring_desc h base i :: _)) with ((ring_desc h base i).2 + total (ring_descs h base (i + 1) (Z.of_nat n))) in *.
  pose proof (total_nonneg h base (i + 1) (Z.of_nat n)).
  rewrite !(ptr_small q) by (done || lia). rewrite Z.add_0_r. destruct (Hsh i) as [-> ->]; [lia|].
  fold (ring_desc h base i). change (Z.land (read64 h (base + 16 * i + 8)) (RTE_BIT64 32 - 1)) with (ring_desc h base i).2.
  rewrite cset_in_range by lia. cbn [mbind cres_mbind]. rewrite Nat2Z.id.
  destruct (IH (i + 1) (<[length dn := ring_desc h base i]> cells) (dn ++ [ring_desc h base i]) (u32 (total dn + (ring_desc h base i).2)))
    as (cells' & Hret & Hc).
  - lia.
  - lia.
  - rewrite length_insert, length_app. cbn. lia.
  - rewrite length_app. cbn [length]. rewrite Nat.add_1_r, (take_S_r _ _ (ring_desc h base i)) by (apply list_lookup_insert_eq; lia).
    by rewrite take_insert_ge, Htake by lia.
  - rewrite total_app. cbn. rewrite Z.add_0_r. apply u32_id. pose proof (len_bound (read64 h (base + 16 * i + 8))). cbn in *. unfold is_u32. lia.
  - intros j Hj. apply Hsh. lia.
  - rewrite total_app. cbn in *. lia.
  - rewrite total_app. pose proof (len_bound (read64 h (base + 16 * i + 8))). cbn in *. lia.
  - exists cells'. rewrite length_app, total_app in *. cbn [length] in *. rewrite Nat2Z.inj_add in Hret. change (Z.of_nat 1) with 1 in Hret.
    rewrite Hret. split.
    + do 2 f_equal. cbn. lia.
    + replace (length dn + S n)%nat with (length dn + 1 + n)%nat by lia. rewrite Hc, <- app_assoc. done.
Qed.

Lemma align_line_ge x : x <= align_line x.
Proof. unfold align_line. pose proof (Z.div_mod (x + 127) 128). pose proof (Z.mod_pos_bound (x + 127) 128). lia. Qed.

Lemma copy_shadows m h sd_base base o k : 0 <= o -> 0 <= k ->
  shadows (write_bytes m (sd_base + 16 * o) (read_bytes h (base + 16 * o) (16 * k))) h sd_base base o k.
Proof.
  intros Ho Hk i Hi. unfold read64.
  assert (forall d, 0 <= d <= 8 -> read_bytes (write_bytes m (sd_base + 16 * o) (read_bytes h (base + 16 * o) (16 * k))) (sd_base + 16 * i + d) 8 =
    read_bytes h (base + 16 * i + d) 8) as Hr.
  { intros d Hd. replace (sd_base + 16 * i + d) with (sd_base + 16 * o + (16 * (i - o) + d)) by lia.
    replace (base + 16 * i + d) with (base + 16 * o + (16 * (i - o) + d)) by lia.
    apply read_copy; rewrite ?length_read; [f_equal; lia|lia|lia]. }
  split; f_equal; [|apply Hr; lia]. rewrite <- (Z.add_0_r (sd_base + 16 * i)), <- (Z.add_0_r (base + 16 * i)). apply Hr. lia.
Qed.

(** A control queue with ring and shadow ring in the address space, whose next
    descriptor is number [m]. *)
Record cq_at (q : virtio_ctrl_queue) (sd_base m : Z) : Prop := {
  ca_ring : ring_size (cq_q_sz q);
  ca_off : cq_sd_desc_off q = ring_enc (cq_q_sz q) m;
  ca_base : 0 <= cq_desc_base q /\ cq_desc_base q + 16 * cq_q_sz q <= 0x10000000000000000;
  ca_sd : 0 <= sd_base /\ sd_base + 16 * cq_q_sz q <= 0x10000000000000000;
}.

Section command.
Context (submit_rc : nat -> Z) (ready : nat -> bool) (zmalloc : Z -> option Z) {U : Type} (user_cbs : netdev_cbs U).
Implicit Types (q : virtio_ctrl_queue) (w : dmaw).

(** Fetching the descriptors into the shadow ring. *)
Lemma fetch_descs q sd_base m k w : dma_works submit_rc ready -> idle w -> cq_at q sd_base m ->
  let o := m mod cq_q_sz q in 1 <= k -> o + k <= cq_q_sz q ->
  exists rc w1 w', submit_read submit_rc [(DESC_PTR_OFF (cq_desc_base q) o 0, Z.shiftl k 4)] (DESC_PTR_OFF sd_base o 0) w = (rc, w1) /\ 0 <= rc /\
    wait_read ready w1 = (true, w') /\ idle w' /\ host w' = host w /\ shadows (local w') (host w) sd_base (cq_desc_base q) o k /\
    read_bytes (local w') (sd_base + 16 * o) 8 = read_bytes (host w) (cq_desc_base q + 16 * o) 8.
Proof.
  intros Hdma Hidle [Hq Hoff Hb Hs] o Hk Hok. destruct (ring_size_bounds _ Hq) as [Hqb _].
  assert (0 <= o < cq_q_sz q) as Ho by (apply Z.mod_pos_bound; lia).
  rewrite !(ptr_small (cq_q_sz q)), !Z.add_0_r by (done || lia).
  destruct (read_works submit_rc ready [(cq_desc_base q + 16 * o, Z.shiftl k 4)] (sd_base + 16 * o) w Hdma Hidle)
    as (rc & w1 & w' & Hsub & Hrc & Hw & Hi & Hh & Hl).
  exists rc, w1, w'. split; [done|]. split; [done|]. split; [done|]. split; [done|]. split; [done|]. rewrite Hl, gather_one.
  rewrite Z.shiftl_mul_pow2 by lia. replace (k * 2 ^ 4) with (16 * k) by lia. split; [apply copy_shadows; lia|].
  rewrite <- (Z.add_0_r (sd_base + 16 * o)) at 2. rewrite <- (Z.add_0_r (cq_desc_base q + 16 * o)) at 2.
  apply read_copy; rewrite ?length_read; [f_equal; lia|lia|lia].
Qed.

Lemma process_descs_ok q sd_base m k w buf : dma_works submit_rc ready -> idle w -> cq_at q sd_base m ->
  let o := m mod cq_q_sz q in
  let descs := ring_descs (host w) (cq_desc_base q) o k in
  1 <= k <= 15 -> o + k <= cq_q_sz q -> total descs < 0x100000000 -> zmalloc (total descs) = Some buf ->
  buf + total descs <= sd_base \/ sd_base + 16 * cq_q_sz q <= buf ->
  exists w', process_descs submit_rc ready zmalloc q sd_base k w = Ret (0, (descs, buf, total descs), w') /\ idle w' /\ host w' = host w /\
    read_bytes (local w') buf (total descs) = gather (host w) descs /\
    read_bytes (local w') (sd_base + 16 * o) 8 = read_bytes (host w) (cq_desc_base q + 16 * o) 8.
Proof.
  intros Hdma Hidle Hcq o descs Hk Hok Htot Hz Hdis. pose proof Hcq as [Hq Hoff Hb Hs]. destruct (ring_size_bounds _ Hq) as [Hqb _].
  assert (0 <= o < cq_q_sz q) as Ho by (apply Z.mod_pos_bound; lia).
  unfold process_descs. rewrite Hoff, DESC_OFF_enc by done. fold o.
  pose proof (align_line_ge (cq_q_sz q * 16 + 8)). rewrite (proj2 (Z.ltb_ge _ _)) by lia.
  destruct (fetch_descs q sd_base m k w Hdma Hidle Hcq) as (rc & w1 & w2 & Hsub & Hrc & Hw & Hi2 & Hh2 & Hsh & Hfirst); [lia|done|].
  fold o in Hsub, Hsh, Hfirst. rewrite Hsub.
  rewrite (proj2 (Z.ltb_ge _ _)) by done. rewrite Hw. cbn [negb].
  destruct (cmd_srcs_ok (cq_q_sz q) (local w2) (host w) sd_base (cq_desc_base q) Hq (proj1 Hs) (proj2 Hs)
    (Z.to_nat k) o (replicate 15 (0, 0)) [] 0) as (cells & Hret & Hcells); try (done || lia).
  { rewrite length_replicate. cbn. lia. }
  { by rewrite Z2Nat.id by lia. }
  { rewrite Z2Nat.id by lia. fold descs. cbn. lia. }
  rewrite Z2Nat.id in Hret, Hcells by lia. fold descs in Hret, Hcells. cbn [length total foldr Nat.add app] in Hret, Hcells.
  change (Z.of_nat 0) with 0 in Hret. rewrite Hret. cbn [mbind cres_mbind]. rewrite Z.add_0_l, Hz, Hcells.
  set (w3 := with_local _ w2).
  assert (length (gather (host w) descs) = Z.to_nat (total descs)) as Hlen
    by (pose proof (length_gather (host w) descs (descs_nonneg _ _ _ _)); lia).
  assert (0 <= total descs) as Hnn by apply total_nonneg.
  destruct (read_works submit_rc ready descs buf w3 Hdma Hi2) as (rc' & w4 & w5 & -> & Hrc' & Hw5 & Hi5 & Hh5 & Hl5).
  rewrite (proj2 (Z.ltb_ge _ _)) by done. rewrite Hw5. cbn [negb]. change (host w3) with (host w2) in *. rewrite Hh2 in *.
  exists w5. split; [done|]. split; [done|]. split; [done|]. rewrite Hl5. split.
  - rewrite <- (Z2Nat.id (total descs)), <- Hlen by done. apply read_written.
  - rewrite read_disjoint by lia. change (local w3) with (write_bytes (local w2) buf (replicate (Z.to_nat (total descs)) 0)).
    rewrite read_disjoint by (rewrite length_replicate; lia). done.
Qed.

Definition used_word : Z := Z.lor VRING_DESC_F_WRITE VIRT_PACKED_RING_DESC_F_AVAIL_USED.

(** The memory of the host after a command: the status behind the last piece,
    and the first descriptor used. *)
Definition acked (h : memory) (ack status base o : Z) : memory :=
  write_bytes (write_bytes h ack [u8 status]) (base + 16 * o) (read_bytes h (base + 16 * o) 8 ++ to_le 8 used_word).

Lemma acked_used h ack status base o wrap : let flags := read64 (acked h ack status base o) (base + 16 * o + 8) in
  Bool.eqb (Z.testbit flags 55) (Z.testbit flags 63) && Bool.eqb (Z.testbit flags 63) wrap = wrap.
Proof.
  assert (read64 (acked h ack status base o) (base + 16 * o + 8) = used_word) as ->; [|by destruct wrap].
  unfold read64, acked. rewrite read_part by (rewrite ?length_app, ?length_read; cbn; lia).
  rewrite drop_app_ge by (rewrite length_read; lia). rewrite length_read. vm_compute. reflexivity.
Qed.

(** C24. A command of the driver. The driver has added descriptors [m] to
    [m + n - 1] to the control queue and notified the device; at most 15 of
    them, [k], lie in front of the end of the ring. When the DMA completes in
    time, the device executes exactly the command that these [k] descriptors
    hold, puts its status at the address of the last of them, marks the first
    one used, and goes on behind all [n]. So a command is executed whole if it
    does not go over the end of the ring; of one that does, the rest is
    dropped. The used descriptor is one the driver takes as used in the odd
    laps of the ring only. *)
Theorem cq_command_runs q sd_base m n w buf nd u status nd' u' notify_data :
  dma_works submit_rc ready -> idle w -> cq_at q sd_base m -> 1 <= n <= cq_q_sz q ->
  Z.land (Z.shiftr notify_data 16) 0xFFFF = ring_enc (cq_q_sz q) (m + n) ->
  let o := m mod cq_q_sz q in
  let k := Z.min n (cq_q_sz q - o) in
  let descs := ring_descs (host w) (cq_desc_base q) o k in
  k <= 15 -> 1 <= total descs < 0x100000000 -> zmalloc (total descs) = Some buf ->
  buf + total descs <= sd_base \/ sd_base + 16 * cq_q_sz q <= buf ->
  net_command user_cbs k (gather (host w) descs) nd u = Ret (status, nd', u') ->
  exists w' ack, descs !! Z.to_nat (k - 1) = Some ack /\
    virtio_cq_cmd_process submit_rc ready zmalloc user_cbs q sd_base notify_data nd u w =
      Ret (set_cq_off (ring_enc (cq_q_sz q) (m + n)) q, nd', u', w') /\
    idle w' /\ host w' = acked (host w) ack.1 status (cq_desc_base q) o /\
    driver_sees_used (host w') (cq_desc_base q + 16 * o) (Z.odd (m / cq_q_sz q)) = Z.odd (m / cq_q_sz q).
Proof.
  intros Hdma Hidle Hcq Hn Hnotify o k descs Hk15 Htot Hz Hdis Hcmd. pose proof Hcq as [Hq Hoff Hb Hs].
  destruct (ring_size_bounds _ Hq) as [Hqb _]. assert (0 <= o < cq_q_sz q) as Ho by (apply Z.mod_pos_bound; lia).
  assert (1 <= k <= 15 /\ o + k <= cq_q_sz q) as [Hk Hok] by (unfold k; lia).
  assert (length descs = Z.to_nat k) as Hlen by (unfold descs, ring_descs; by rewrite length_fmap, length_seqZ).
  assert (exists ack, descs !! Z.to_nat (k - 1) = Some ack /\ cget descs (k - 1) = Ret ack) as (ack & Hlast & Hack).
  { destruct (lookup_lt_is_Some_2 descs (Z.to_nat (k - 1))) as [ack Hack]; [lia|]. exists ack. split; [done|]. apply cget_Ret. split; [lia|done]. }
  unfold virtio_cq_cmd_process. rewrite Hnotify, Hoff.
  rewrite (proj2 (Z.eqb_neq _ _) (enc_moves _ _ _ Hq Hn)), desc_off_diff_no_wrap_enc by (done || lia). replace (m + n - m) with n by lia. fold o k.
  rewrite (proj2 (Z.eqb_neq k 0)) by lia.
  destruct (process_descs_ok q sd_base m k w buf Hdma Hidle Hcq) as (w1 & Hpd & Hi1 & Hh1 & Hr1 & Hf1);
    [done|done|apply Htot|done|done|]. fold o in Hpd, Hr1, Hf1. fold descs in Hpd, Hr1. rewrite Hpd. cbn [mbind cres_mbind Z.ltb Z.compare].
  unfold virtio_netdev_cq_cmd_process. rewrite Hr1, Hcmd. cbn [mbind cres_mbind]. rewrite Hack. cbn [mbind cres_mbind].
  set (w2 := with_local (write_bytes (local w1) buf [u8 status]) w1).
  destruct (write_works submit_rc ready buf ack.1 1 w2 Hdma Hi1) as (rc & w3 & w4 & -> & Hrc & Hw4 & Hi4 & Hl4 & Hh4).
  rewrite (proj2 (Z.ltb_ge _ _)) by done. rewrite Hw4. cbn [snd mbind cres_mbind].
  rewrite !(DESC_PTR_OFF_enc (cq_q_sz q)) by (done || unfold DESC_ENTRY_SZ; lia). unfold DESC_ENTRY_SZ. fold o. rewrite !Z.add_0_r.
  fold used_word. set (w5 := with_local _ w4).
  destruct (write_works submit_rc ready (sd_base + 16 * o) (cq_desc_base q + 16 * o) 16 w5 Hdma Hi4)
    as (rc' & w6 & w7 & -> & Hrc' & Hw7 & Hi7 & Hl7 & Hh7).
  rewrite (proj2 (Z.ltb_ge _ _)) by done. rewrite Hw7. exists w7, ack. split; [done|]. split; [done|]. split; [done|].
  assert (host w7 = acked (host w) ack.1 status (cq_desc_base q) o) as Hh.
  { rewrite Hh7. change (host w5) with (host w4). rewrite Hh4. change (host w2) with (host w1). rewrite Hh1. unfold acked. f_equal.
    - f_equal. change 1 with (Z.of_nat (length [u8 status])). apply read_written.
    - change 16 with (8 + 8) at 2. rewrite read_split by lia. change (local w5) with (write64 (local w4) (sd_base + 16 * o + 8) used_word).
      unfold write64. f_equal; [|apply read_written]. rewrite read_disjoint by lia. rewrite Hl4.
      change (local w2) with (write_bytes (local w1) buf [u8 status]). rewrite read_disjoint by (cbn; lia). done. }
  split; [done|]. unfold driver_sees_used. rewrite Hh. apply acked_used.
Qed.
Lemma cmd_srcs_overflows sd_base mem n : forall i j cells tot, 0 <= j <= Z.of_nat (length cells) -> Z.of_nat (length cells) < j + Z.of_nat n ->
  cmd_srcs n i j sd_base mem cells tot = Fault.
Proof.
  induction n as [|n IH]; intros i j cells tot Hj Hn; [lia|]. cbn [cmd_srcs].
  destruct (decide (j < Z.of_nat (length cells))) as [Hlt|Hge].
  - rewrite cset_in_range by lia. cbn [mbind cres_mbind]. apply IH; rewrite length_insert; lia.
  - unfold cset. by rewrite (proj2 (Z.ltb_ge j _)), andb_false_r by lia.
Qed.

(** Too many descriptors. The arrays for the pieces of a command have 15
    cells, and the number of descriptors comes from the notification word of
    the host: when more than 15 descriptors in front of the end of the ring
    were added, [process_descs] writes past the array. *)
Theorem cq_command_overflows q sd_base m n w nd u notify_data :
  dma_works submit_rc ready -> idle w -> cq_at q sd_base m -> 1 <= n <= cq_q_sz q ->
  Z.land (Z.shiftr notify_data 16) 0xFFFF = ring_enc (cq_q_sz q) (m + n) -> 15 < Z.min n (cq_q_sz q - m mod cq_q_sz q) ->
  virtio_cq_cmd_process submit_rc ready zmalloc user_cbs q sd_base notify_data nd u w = Fault.
Proof.
  intros Hdma Hidle Hcq Hn Hnotify Hk. pose proof Hcq as [Hq Hoff Hb Hs]. set (k := Z.min _ _) in Hk.
  destruct (ring_size_bounds _ Hq) as [Hqb _]. pose proof (Z.mod_pos_bound m (cq_q_sz q) ltac:(lia)) as Ho.
  unfold virtio_cq_cmd_process. rewrite Hnotify, Hoff, (proj2 (Z.eqb_neq _ _) (enc_moves _ _ _ Hq Hn)).
  rewrite desc_off_diff_no_wrap_enc by (done || lia). replace (m + n - m) with n by lia. fold k. rewrite (proj2 (Z.eqb_neq k 0)) by lia.
  unfold process_descs. rewrite Hoff, DESC_OFF_enc by done. pose proof (align_line_ge (cq_q_sz q * 16 + 8)).
  rewrite (proj2 (Z.ltb_ge _ _)) by (unfold k; lia).
  destruct (fetch_descs q sd_base m k w Hdma Hidle Hcq) as (rc & w1 & w2 & -> & Hrc & Hw & _); [lia|unfold k; lia|].
  rewrite (proj2 (Z.ltb_ge _ _)) by done. rewrite Hw. cbn [negb].
  rewrite cmd_srcs_overflows; [done|rewrite length_replicate; lia..].
Qed.
End command.

(** ** Witnesses

    A ring of four descriptors at 0x2000 with the command to add VLAN 100. *)
Definition wit_ring : memory :=
  let desc m i a len := write64 (write64 m (0x2000 + 16 * i) a) (0x2000 + 16 * i + 8) len in
  let m := desc (desc (desc (fun _ => 0) 0 0x3000 2) 1 0x3010 2) 2 0x3020 1 in
  write_bytes (write_bytes (write_bytes m 0x3000 [2; 0]) 0x3010 [100; 0]) 0x3020 [255].

Definition wit_cq : virtio_ctrl_queue :=
  {| cq_desc_base := 0x2000; cq_notify_addr := 0; cq_q_sz := 4; cq_last_off := 0x8000; cq_sd_desc_off := 0x8000 |}.

Definition wit_ring_w : dmaw :=
  {| host := wit_ring; local := fun _ => 0; rd_out := []; wr_out := []; submissions := 0; polls := 0 |}.

Lemma wit_cq_at : cq_at wit_cq 0x5000 4.
Proof. split; [by exists 2|reflexivity|cbn; lia|cbn; lia]. Qed.

Lemma cq_command_runs_witness :
  exists w', virtio_cq_cmd_process wit_submit wit_ready (fun _ => Some 0x9000) wit_cbs wit_cq 0x5000 0x80030000 (wit_netdev 2 []) [] wit_ring_w =
      Ret (set_cq_off 0x8003 wit_cq, wit_netdev 2 [], [100], w') /\ host w' 0x3020 = 0.
Proof.
  destruct (cq_command_runs wit_submit wit_ready (fun _ => Some 0x9000) wit_cbs wit_cq 0x5000 4 3 wit_ring_w 0x9000 (wit_netdev 2 []) []
    0 (wit_netdev 2 []) [100] 0x80030000) as (w' & ack & Hack & Hret & _ & Hh & _).
  - exact wit_ctrl_dma.
  - split; reflexivity.
  - exact wit_cq_at.
  - cbn. lia.
  - reflexivity.
  - vm_compute. discriminate.
  - split; vm_compute; [discriminate|reflexivity].
  - reflexivity.
  - right. vm_compute. discriminate.
  - vm_compute. reflexivity.
  - exists w'. split; [exact Hret|]. rewrite Hh. vm_compute in Hack. injection Hack as <-. vm_compute. reflexivity.
Defined.

(** A ring of 32 descriptors of which the driver added 20. *)
Definition wit_cq32 : virtio_ctrl_queue :=
  {| cq_desc_base := 0x2000; cq_notify_addr := 0; cq_q_sz := 32; cq_last_off := 0x8000; cq_sd_desc_off := 0x8000 |}.

Lemma cq_command_overflows_witness :
  virtio_cq_cmd_process wit_submit wit_ready (fun _ => Some 0x9000) wit_cbs wit_cq32 0x5000 0x80140000 (wit_netdev 2 []) [] wit_ring_w = Fault.
Proof.
  apply (cq_command_overflows wit_submit wit_ready (fun _ => Some 0x9000) wit_cbs wit_cq32 0x5000 32 20).
  - exact wit_ctrl_dma.
  - split; reflexivity.
  - split; [by exists 5|reflexivity|cbn; lia|cbn; lia].
  - cbn. lia.
  - reflexivity.
  - reflexivity.
Defined.
